(* ===== verification/_CoqProject ===== *)
-Q . S2P
Prelude.v
KList.v
CString.v
Semaphore.v
RingBuffer.v
Keyboard.v
BlockIO.v
BufCache.v
Ide.v
Log.v
BAlloc.v
Inode.v
Console.v
Dir.v
Pathname.v
Walk.v
File.v
Balance.v
SysFs.v
Sched.v
Task.v
KMem.v
PgTab.v
Vm.v
Exec.v
Proc.v
Syscall.v
Trap.v
Mkfs.v
Boot.v
Malloc.v
Shell.v
ShExec.v
Stdio.v
Cmds.v
UserFs.v
CmdsSpec.v
Init.v
ShHeap.v
Debug.v
