(* ===== verification/Prelude.v ===== *)
(** * Nico-OS

    A verification library for Nico-OS, a small Unix for the i386: its file system, the core
    of its kernel and its shell.  The C code is translated into executable Rocq functions (a
    shallow embedding), and the theorems are about those functions.

    ** How the code is translated

    A C function that changes state is a function of the state monad [M S A] of this file:
    it returns a value and the new state, or it stops the machine ([Panic]: a [PANIC], a
    failed [ASSERT], a page fault in the kernel, an access outside of an object), or it does
    not return ([Hang]: it waits on a semaphore nobody signals, or a loop used up its fuel).
    Machine integers are [Z] with their wrap-around written out ([u8], [u32], [i32]); bytes
    are [Z] below 256; a pointer into an array is an index; a disk block is a list of 512
    bytes.  A loop that is not structural has fuel, computed from its bounds where it is
    called; every theorem that an operation returns is a theorem that this fuel is enough.
    What a function reads from uninitialised memory is an argument of it ([junk]).  A
    component that works on a part of a larger state is run there with [lift].

    The kernel runs on one processor and holds spin locks with interrupts disabled, so a
    critical section is one step.  Where tasks block inside of an operation (semaphores,
    ring buffers, the log, the disk queue) the operation is cut at the points where it
    waits, and a step relation interleaves the tasks.  [task_kill] wakes a waiting task up
    without taking it off the list it waits in; the steps of the semaphores and of the ring
    buffers have this too.

    ** The files

    - Prelude: integers, the monad, byte sequences, tactics, the hint database [nico].
    - KList: the intrusive lists of src/include/kernel/list.h over a heap of nodes.
    - CString: src/lib/src/string.c, stdlib.c and the formatting of stdio.c.
    - Semaphore: src/kernel/semaphore.c; RingBuffer: src/kernel/ringbuffer.c.
    - Keyboard: src/kernel/device/keyboard.c on top of a ring buffer.
    - BlockIO: what the buffer cache promises to the file system; BufCache:
      src/kernel/device/ide/bio.c, and the proof that it keeps the promise; Ide: the request
      queue and the interrupt handler of src/kernel/device/ide/ide.c, and the proof that a
      request is served as BufCache assumes.
    - Log, BAlloc, Inode, Dir, Pathname: the files of src/fs of the same names, each on top
      of the ones before it; Walk: what the path names of a file system mean, and that
      [path_lookup] finds it.
    - Console: src/kernel/device/console.c, the lines that are read from the keyboard.
    - File: src/fs/file.c and src/kernel/pipe.c.
    - Balance: a small logic for "every transaction that is opened is closed, and a buffer
      that differs from the drive is in the log", used by SysFs: src/kernel/syscall/sysfs.c
      and the argument checks of syscall_pri.h.
    - Sched: src/kernel/sched, with the scheduling policy as a class ([Schedular], its
      promises [SchedularLaws]) and the two policies of the kernel as its instances; Task:
      src/kernel/task.c on top of it.
    - KMem: src/kernel/mem/pmemory.c, memory.c and kalloc.c; PgTab: src/kernel/mem/pgtab.c,
      page tables in physical frames; Vm: src/kernel/mem/vm.c, the address spaces of
      processes; Exec: src/kernel/proc_exec.c, loading a program, on top of the files and
      the address spaces.
    - Proc: src/kernel/proc.c, [fork] and the first process; Syscall: the table of
      src/kernel/syscall/syscall_init.c and the calls of sysproc.c, with the memory of the
      calling program (a read where nothing is mapped stops the machine) and the switches
      between tasks; Trap: src/kernel/trap.c, x86_mmu.c, the interrupt controllers and the
      timer, the order of src/kernel/main.c.
    - Mkfs: src/mkfs, the tool that builds the disk image on the host; Boot: the kernel on
      the image that the tool built.
    - Malloc: src/lib/src/malloc.c, the heap of user programs on top of [sbrk].
    - Shell: the line reader, lexer and parser of src/shell/sh; ShExec: the execution of
      commands (sh_exec.c, builtin_cmds.c, main.c), with processes as trees of system calls;
      ShHeap: the blocks of memory that the parser allocates and src/shell/sh/cmds.c frees.
    - Stdio: the streams of src/lib/src/stdio.c over the system calls of a kernel (the class
      [Kernel]); Cmds: the programs of src/shell/cmds on top of it; UserFs: what the
      programs rely on, as a tree of files, open streams and the laws of the system calls
      ([KernelLaws]: path elements below 60 bytes, room for open files, writes that fit into
      one transaction, memory while there is some), with a kernel in memory that keeps them;
      CmdsSpec: the theorems about the programs, for every kernel that keeps the laws.
    - Init: src/init/main.c, as a program of ShExec.
    - Debug: [printk] and [panic] of src/kernel/debug.c and the printer of the superblock in
      src/fs/superblock.c.

    ** What is shown

    - Crash safety: a transaction is atomic under power failures during the commit and
      during any number of recoveries ([Log.log_crash_atomic]); reservations suffice
      ([Log.log_no_overflow]); the system calls close what they open, and after the last one
      no buffer is dirty and the drive has what the cache shows
      ([SysFs.fs_syscalls_balanced]); a write that returned is on the drive
      ([File.file_write_durable]).
    - Refinement: the LRU buffer cache implements the contract every file system proof is
      made against ([BufCache.bcache_implements]), and the disk driver with its queue and
      interrupts implements the transfers of the buffer cache ([Ide.ide_implements_iderw]).
    - Functional correctness of the block allocator, the inode cache, reading and writing of
      files, directories and path names, on their error branches too, with the room in the
      log and the free blocks that each one needs as hypotheses; [path_lookup] finds the
      inode that a path means and gives back every reference it took on the way
      ([Walk.path_lookup_correct]).
    - Concurrency: semaphores exclude each other and ring buffers are FIFO queues as long as
      no killed task is left in a list of waiting tasks, and a theorem says what happens
      otherwise; the task table is consistent under every interleaving of the kernel's
      operations, [schedule] is correct for every lawful policy.
    - Devices: requests to a disk that reports no failure are served in order and none is
      forgotten; the keyboard interrupt never waits; the console returns the edited lines.
    - Memory: pages and objects are handed out once; a copied address space has the same
      contents in other frames; allocation and growth of address spaces; the user heap.
    - Programs: [exec] loads the segments of a program, hands it its arguments and frees the
      old address space; a forked child is a copy of its parent that shares its open files
      and no frame; [wait] returns the status of an exited child and gives its memory back;
      the code of the first process calls [exec] on [/bin/init].
    - Traps: the processor reads from the descriptors what they are made for, every vector
      has the gate and the handler it should have, programs that fault are killed.
    - Images: the kernel reads back the superblock that the tool wrote, whose parts do not
      overlap; a fresh image is built into a well-formed file system that contains the
      directories and, byte for byte, the files of the command line; the kernel finds these
      files under their paths and reads their bytes ([Boot.image_correct]).
    - Shell: the parser reads back what is printed, and always returns; the processes that
      run a command start the programs, with the files and the directory, keep open what
      they should while they wait, and end with the status that the meaning of the command
      says ([ShExec.sh_execcmd_correct]); the parser on the heap builds the command that the
      parser on values returns, frees all it allocated after an error, and [cmd_free] frees
      the rest ([ShHeap.sh_parse_memory]).
    - Commands: [grep] prints the lines with a match, [rm -r] removes a tree and nothing
      beside it, [ls] a line for every entry, [cat] and [echo] copy, each with its status
      and its limits; init starts one shell on the console and waits for it, and its exit
      then stops the kernel.
    - Faults of the code, as theorems: a long [file_write] repeats its first bytes, a full
      ring buffer loses its data on closing, round robin never switches, a parent of two
      zombies cannot exit, a signal after a waiting task was killed stops the kernel, a
      growing heap can have a hole, which stops a program in [malloc], keys typed while a
      killed task runs block the keyboard, a new program finds old data in its bss, [ls] and
      [grep] write behind their arrays for long names and lines.

    ** Bounds

    The sizes are those of the code: 40 buffers, 50 inodes and files, 12 block addresses per
    inode with one indirect block, 512-byte blocks, file names of 60 bytes.  The drive is
    any drive whose superblock describes a sound layout ([BAlloc.layout]).

    ** What is not modelled

    The port accesses of the drivers below the commands of the disk, of the timer and of the
    interrupt controllers; the assembly of the entry points and of the context switch, and
    the inline assembly of src/include/kernel/x86.h; [sys_sleep], which no system call
    reaches; the tests.  Devices behind a device inode are a parameter of the inodes
    ([Inode.Devices]).  The programs of Cmds see the kernel through the laws of UserFs; that
    the system calls of SysFs keep these laws is shown only as far as the theorems of the
    file system go.  Contents of memory pages are not part of the state of KMem; they are in
    PgTab and Vm.  A [write] of a program from memory that is not mapped stops the machine
    at the end of the call instead of in the middle of it ([SysFs.sys_write]). *)

From stdpp Require Import base numbers list gmap.
From Stdlib Require Import ZArith Lia.

#[local] Open Scope Z_scope.

(** ** Machine integers

    A [w]-bit unsigned value is a [Z] in [0 .. 2^w - 1]; the wrap-around of C's
    unsigned arithmetic is written out at each operation that can overflow. *)

Definition u8 (x : Z) : Z := x mod 2 ^ 8.

Definition u16 (x : Z) : Z := x mod 2 ^ 16.

Definition u32 (x : Z) : Z := x mod 2 ^ 32.

(** Conversion to a signed type: two's complement. *)
Definition i8 (x : Z) : Z := (x + 2 ^ 7) mod 2 ^ 8 - 2 ^ 7.

Definition i32 (x : Z) : Z := (x + 2 ^ 31) mod 2 ^ 32 - 2 ^ 31.

Definition is_u8 (x : Z) : Prop := 0 <= x < 2 ^ 8.

Definition is_u32 (x : Z) : Prop := 0 <= x < 2 ^ 32.

Definition is_i32 (x : Z) : Prop := - 2 ^ 31 <= x < 2 ^ 31.

(** ** Outcomes and the state monad

    Kernel code either returns, reaches a [PANIC] or a failed [ASSERT] (both
    stop the machine, see [panic] in src/kernel/debug.c) or an access outside an
    object, which C gives no meaning, or does not come back to its caller: it waits for a semaphore nobody will signal, or a loop ran
    out of the fuel it was given. *)

Inductive outcome (A : Type) : Type :=
| Ok (a : A)
| Panic
| Hang.

Arguments Ok {A} a.
Arguments Panic {A}.
Arguments Hang {A}.

Definition M (S A : Type) : Type := S -> outcome (A * S).

#[global] Instance M_ret {S} : MRet (M S) := fun A a s => Ok (a, s).

#[global] Instance M_bind {S} : MBind (M S) := fun A B k m s =>
  match m s with
  | Ok (a, s') => k a s'
  | Panic => Panic
  | Hang => Hang
  end.

Definition get {S} : M S S := fun s => Ok (s, s).

Definition put {S} (s : S) : M S unit := fun _ => Ok (tt, s).

Definition modify {S} (f : S -> S) : M S unit := fun s => Ok (tt, f s).

Definition panic {S A} : M S A := fun _ => Panic.

Definition hang {S A} : M S A := fun _ => Hang.

(** [ASSERT(c)] of src/include/kernel/debug.h in a build without [NDEBUG].  A
    theorem that an operation returns [Ok] says that no assertion it meets
    fails, so the operation does the same in a build with [NDEBUG]. *)
Definition ASSERT {S} (c : bool) : M S unit := if c then mret tt else panic.

(** A component that is a part of a larger state: how to read and replace it. *)
Class Part (S T : Type) := { part : S -> T; set_part : T -> S -> S }.

#[global] Instance Part_refl {S} : Part S S | 10 := {| part := fun s => s; set_part := fun t _ => t |}.

(** An operation of a part, run on the whole. *)
Definition lift {S T A} `{Part S T} (m : M T A) : M S A := fun s =>
  match m (part s) with
  | Ok (a, t) => Ok (a, set_part t s)
  | Panic => Panic
  | Hang => Hang
  end.

(** The element [i] of an array; outside of it C gives no meaning to the access. *)
Definition index {S A} (l : list A) (i : Z) : M S A :=
  if i <? 0 then panic
  else match l !! Z.to_nat i with Some x => mret x | None => panic end.

(** ** Byte sequences *)

(** The [n] bytes of [l] from [off] on. *)
Definition slice (off n : nat) (l : list Z) : list Z := take n (drop off l).

(** [l] with the bytes [v] written over it from [off] on. *)
Definition splice (off : nat) (v l : list Z) : list Z :=
  take off l ++ v ++ drop (off + length v) l.

(** Little-endian 32-bit words, as the x86 stores them. *)
Definition enc32 (v : Z) : list Z :=
  [v mod 2 ^ 8; (v / 2 ^ 8) mod 2 ^ 8; (v / 2 ^ 16) mod 2 ^ 8; (v / 2 ^ 24) mod 2 ^ 8].

Definition dec32 (l : list Z) : Z :=
  match l with
  | [a; b; c; d] => a + b * 2 ^ 8 + c * 2 ^ 16 + d * 2 ^ 24
  | _ => 0
  end.

Definition get32 (l : list Z) (i : nat) : Z := dec32 (slice (4 * i) 4 l).

Definition set32 (l : list Z) (i : nat) (v : Z) : list Z := splice (4 * i) (enc32 v) l.

Definition bytes (l : list Z) : Prop := Forall is_u8 l.

(** ** Tactics *)

Create HintDb nico.

(** Linear arithmetic with division and modulo by constants and the wrap-around
    functions unfolded. *)
Ltac ulia :=
  unfold is_u8, is_u32, is_i32, u8, u16, u32, i8, i32 in *;
  change (2 ^ 7) with 128 in *; change (2 ^ 8) with 256 in *;
  change (2 ^ 16) with 65536 in *; change (2 ^ 24) with 16777216 in *;
  change (2 ^ 31) with 2147483648 in *; change (2 ^ 32) with 4294967296 in *;
  Z.div_mod_to_equations; lia.

(** Boolean tests of the code to propositions. *)
Ltac bprop :=
  repeat match goal with
    | H : (_ =? _) = true |- _ => apply Z.eqb_eq in H
    | H : (_ =? _) = false |- _ => apply Z.eqb_neq in H
    | H : (_ <? _) = true |- _ => apply Z.ltb_lt in H
    | H : (_ <? _) = false |- _ => apply Z.ltb_ge in H
    | H : (_ <=? _) = true |- _ => apply Z.leb_le in H
    | H : (_ <=? _) = false |- _ => apply Z.leb_gt in H
    | H : (_ && _)%bool = true |- _ => apply andb_true_iff in H as [? ?]
    | H : (_ || _)%bool = false |- _ => apply orb_false_iff in H as [? ?]
    | H : negb _ = true |- _ => apply negb_true_iff in H
    | H : negb _ = false |- _ => apply negb_false_iff in H
    | H : bool_decide _ = true |- _ => apply bool_decide_eq_true in H
    | H : bool_decide _ = false |- _ => apply bool_decide_eq_false in H
    end.

(** Split on the boolean test of the outermost conditional of the goal. *)
Ltac case_if :=
  match goal with
  | |- context [if ?b then _ else _] =>
      lazymatch type of b with
      | bool => let E := fresh "E" in destruct b eqn:E; bprop
      | _ => case_decide
      end
  end.

(** Run the monad one bind at a time. *)
Ltac mrun := unfold mbind, M_bind, mret, M_ret, get, put, modify, panic, hang, ASSERT; simpl.

(** ** Lemmas on outcomes *)

Lemma bind_Ok {S A B} (m : M S A) (k : A -> M S B) s a s' :
  m s = Ok (a, s') -> (m ≫= k) s = k a s'.
Proof. intros H. unfold mbind, M_bind. by rewrite H. Qed.

Lemma bind_Panic {S A B} (m : M S A) (k : A -> M S B) s : m s = Panic -> (m ≫= k) s = Panic.
Proof. intros H. unfold mbind, M_bind. by rewrite H. Qed.

Lemma bind_Ok_inv {S A B} (m : M S A) (k : A -> M S B) s b s'' :
  (m ≫= k) s = Ok (b, s'') -> exists a s', m s = Ok (a, s') /\ k a s' = Ok (b, s'').
Proof.
  unfold mbind, M_bind. destruct (m s) as [[a s']| |] eqn:E; intros H; try discriminate.
  eauto.
Qed.

Lemma ASSERT_true {S} (c : bool) (s : S) : c = true -> ASSERT c s = Ok (tt, s).
Proof. by intros ->. Qed.

(** ** Lemmas on machine integers *)

Lemma u32_small x : is_u32 x -> u32 x = x.
Proof. ulia. Qed.

Lemma u32_range x : is_u32 (u32 x).
Proof. ulia. Qed.

Lemma u8_small x : is_u8 x -> u8 x = x.
Proof. ulia. Qed.

Lemma u8_range x : is_u8 (u8 x).
Proof. ulia. Qed.

Lemma i32_small x : is_i32 x -> i32 x = x.
Proof. ulia. Qed.

#[export] Hint Resolve u32_range u8_range : nico.

(** ** Lemmas on byte sequences *)

Lemma length_slice off n (l : list Z) :
  (off + n <= length l)%nat -> length (slice off n l) = n.
Proof. intros H. unfold slice. rewrite length_take, length_drop. lia. Qed.

Lemma slice_lookup off n (l : list Z) i :
  (i < n)%nat -> slice off n l !! i = l !! (off + i)%nat.
Proof. intros H. unfold slice. rewrite lookup_take_lt by lia. by rewrite lookup_drop. Qed.

Lemma length_splice off (v l : list Z) :
  (off + length v <= length l)%nat -> length (splice off v l) = length l.
Proof. intros H. unfold splice. rewrite !length_app, length_take, length_drop. lia. Qed.

Lemma splice_lookup off (v l : list Z) i :
  (off + length v <= length l)%nat ->
  splice off v l !! i =
    if decide (off <= i < off + length v)%nat then v !! (i - off)%nat else l !! i.
Proof.
  intros H. unfold splice. case_decide as D.
  - rewrite lookup_app_r by (rewrite length_take; lia).
    rewrite length_take, lookup_app_l by lia. f_equal. lia.
  - destruct (decide (i < off)%nat).
    + rewrite lookup_app_l by (rewrite length_take; lia). by rewrite lookup_take_lt.
    + rewrite lookup_app_r by (rewrite length_take; lia).
      rewrite length_take, lookup_app_r by lia.
      rewrite lookup_drop. f_equal. lia.
Qed.

Lemma slice_eq off n off' n' (l l' : list Z) :
  n = n' -> (forall i, (i < n)%nat -> l !! (off + i)%nat = l' !! (off' + i)%nat) ->
  slice off n l = slice off' n' l'.
Proof.
  intros <- H. apply list_eq. intros i. destruct (decide (i < n)%nat).
  - rewrite !slice_lookup by done. auto.
  - unfold slice. rewrite !lookup_ge_None_2; [done|..]; rewrite length_take; lia.
Qed.

Lemma slice_splice_same off (v l : list Z) :
  (off + length v <= length l)%nat -> slice off (length v) (splice off v l) = v.
Proof.
  intros H. apply list_eq. intros i. destruct (decide (i < length v)%nat).
  - rewrite slice_lookup, splice_lookup by done. rewrite decide_True by lia.
    f_equal. lia.
  - rewrite !lookup_ge_None_2; [done|lia|].
    unfold slice. rewrite length_take. lia.
Qed.

Lemma slice_splice_ne off (v l : list Z) off' n :
  (off + length v <= length l)%nat ->
  (off' + n <= off \/ off + length v <= off')%nat ->
  slice off' n (splice off v l) = slice off' n l.
Proof.
  intros H Hd. apply slice_eq; [done|]. intros i Hi.
  rewrite splice_lookup by done. rewrite decide_False by lia. done.
Qed.

Lemma splice_id off n (l : list Z) :
  (off + n <= length l)%nat -> splice off (slice off n l) l = l.
Proof.
  intros H. apply list_eq. intros i.
  rewrite splice_lookup by (rewrite length_slice; lia).
  rewrite length_slice by lia. case_decide; [|done].
  rewrite slice_lookup by lia. f_equal. lia.
Qed.

Lemma bytes_slice off n l : bytes l -> bytes (slice off n l).
Proof. intros H. unfold bytes, slice. by apply Forall_take, Forall_drop. Qed.

Lemma bytes_splice off v l : bytes v -> bytes l -> bytes (splice off v l).
Proof.
  intros Hv Hl. unfold bytes, splice.
  apply Forall_app; split; [by apply Forall_take|].
  apply Forall_app; split; [done|by apply Forall_drop].
Qed.

Lemma length_enc32 v : length (enc32 v) = 4%nat.
Proof. done. Qed.

Lemma bytes_enc32 v : bytes (enc32 v).
Proof. repeat constructor; ulia. Qed.

Lemma dec32_enc32 v : is_u32 v -> dec32 (enc32 v) = v.
Proof. intros H. unfold dec32, enc32. ulia. Qed.

Lemma enc32_dec32 l : length l = 4%nat -> bytes l -> enc32 (dec32 l) = l.
Proof.
  intros Hl Hb. destruct l as [|a [|b [|c [|d [|]]]]]; try done.
  repeat (apply Forall_cons in Hb as [? Hb]).
  unfold enc32, dec32. repeat f_equal; ulia.
Qed.

Lemma dec32_range l : bytes l -> is_u32 (dec32 l).
Proof.
  intros Hb. destruct l as [|a [|b [|c [|d [|]]]]]; try (unfold dec32; ulia).
  repeat (apply Forall_cons in Hb as [? Hb]). unfold dec32. ulia.
Qed.

Lemma get32_range l i : bytes l -> is_u32 (get32 l i).
Proof. intros. by apply dec32_range, bytes_slice. Qed.

Lemma length_set32 l i v : (4 * i + 4 <= length l)%nat -> length (set32 l i v) = length l.
Proof. intros H. apply length_splice. rewrite length_enc32. lia. Qed.

Lemma bytes_set32 l i v : bytes l -> bytes (set32 l i v).
Proof. intros. apply bytes_splice; [apply bytes_enc32|done]. Qed.

Lemma get32_set32_eq l i v :
  (4 * i + 4 <= length l)%nat -> is_u32 v -> get32 (set32 l i v) i = v.
Proof.
  intros H Hv. unfold get32, set32.
  rewrite <- (dec32_enc32 v) at 2 by done. f_equal.
  apply (slice_splice_same _ (enc32 v)). rewrite length_enc32. lia.
Qed.

Lemma get32_set32_ne l i j v :
  (4 * i + 4 <= length l)%nat -> i <> j -> get32 (set32 l i v) j = get32 l j.
Proof.
  intros H Hv. unfold get32, set32. f_equal.
  apply slice_splice_ne; rewrite length_enc32; lia.
Qed.

#[export] Hint Resolve bytes_enc32 bytes_splice bytes_slice bytes_set32 : nico.

(** ** Counting loops

    [for (i = a; i < a + n; i++) body(i)]. *)
Fixpoint for_loop {S} (n a : nat) (body : nat -> M S unit) : M S unit :=
  match n with
  | O => mret tt
  | Datatypes.S n => body a;; for_loop n (Datatypes.S a) body
  end.

(** The loop rule: an invariant indexed by the loop counter. *)
Lemma for_loop_inv {S} (I : nat -> S -> Prop) (body : nat -> M S unit) n : forall a s,
  (forall i s, (a <= i < a + n)%nat -> I i s ->
     exists s', body i s = Ok (tt, s') /\ I (Datatypes.S i) s') ->
  I a s -> exists s', for_loop n a body s = Ok (tt, s') /\ I (a + n)%nat s'.
Proof.
  induction n as [|n IH]; intros a s Hb Ha; simpl.
  - exists s. by rewrite Nat.add_0_r.
  - destruct (Hb a s) as (s1 & E1 & H1); [lia|done|].
    rewrite (bind_Ok _ _ _ _ _ E1).
    destruct (IH (Datatypes.S a) s1) as (s2 & E2 & H2); [|done|].
    + intros i s' Hi. apply Hb. lia.
    + exists s2. split; [done|]. by replace (a + Datatypes.S n)%nat with (Datatypes.S a + n)%nat by lia.
Qed.
