(* ===== verification/CString.v ===== *)
(** The string and formatting routines shared by the kernel and the user programs:
    src/lib/src/string.c, [itoa] of src/lib/src/stdlib.c and [vsprintf] of
    src/lib/src/stdio.c.

    The string routines work on a byte memory through addresses, so that a
    destination and a source are places of the same store.  A routine whose C
    loop runs until it meets a NUL takes [fuel], the number of bytes it may look
    at, and returns [None] when it has not met one; the theorems give the result
    for every terminated string.  [itoa] and [vsprintf] only append to their
    destination, which is the list of the bytes written so far. *)

From stdpp Require Import base numbers list gmap.
From Stdlib Require Import ZArith Lia.
From S2P Require Import Prelude.
#[local] Open Scope Z_scope.

Module CString.

Abbreviation mem := (gmap Z Z).

Definition ld (m : mem) (a : Z) : Z := default 0 (m !! a).

Definition st (m : mem) (a v : Z) : mem := <[a := u8 v]> m.

(** [while (count--) *s++ = value]. *)
Fixpoint memset_loop (count : nat) (m : mem) (s value : Z) : mem :=
  match count with
  | O => m
  | S count => memset_loop count (st m s value) (s + 1) value
  end.

Definition memset (m : mem) (dst value count : Z) : mem :=
  memset_loop (Z.to_nat count) m dst value.

Fixpoint memcpy_loop (count : nat) (m : mem) (tmp s : Z) : mem :=
  match count with
  | O => m
  | S count => memcpy_loop count (st m tmp (ld m s)) (tmp + 1) (s + 1)
  end.

Definition memcpy (m : mem) (dst src count : Z) : mem :=
  memcpy_loop (Z.to_nat count) m dst src.

(** The result type is [uint8_t], so the [-1] of the source is 255. *)
Fixpoint memcmp_loop (count : nat) (m : mem) (su1 su2 : Z) : Z :=
  match count with
  | O => 0
  | S count =>
      if ld m su1 =? ld m su2 then memcmp_loop count m (su1 + 1) (su2 + 1)
      else u8 (if ld m su2 <? ld m su1 then 1 else -1)
  end.

Definition memcmp (m : mem) (cs ct count : Z) : Z := memcmp_loop (Z.to_nat count) m cs ct.

Fixpoint strlen_loop (fuel : nat) (m : mem) (str start : Z) : option Z :=
  match fuel with
  | O => None
  | S fuel =>
      if ld m str =? 0 then Some (u32 (str - start)) else strlen_loop fuel m (str + 1) start
  end.

Definition strlen (fuel : nat) (m : mem) (str : Z) : option Z := strlen_loop fuel m str str.

(** [while (( *dst++ = *src++ ) != 0); return --dst]: the address of the copied NUL. *)
Fixpoint strcpy (fuel : nat) (m : mem) (dst src : Z) : option (Z * mem) :=
  match fuel with
  | O => None
  | S fuel =>
      let ch := ld m src in
      let m := st m dst ch in
      if ch =? 0 then Some (dst, m) else strcpy fuel m (dst + 1) (src + 1)
  end.

(** [haystack] and [needle] are compared at each position while [len1 >= len2]. *)
Fixpoint strstr_loop (fuel : nat) (m : mem) (haystack needle len1 len2 : Z) : option Z :=
  match fuel with
  | O => None
  | S fuel =>
      if len2 <=? len1 then
        if memcmp m haystack needle len2 =? 0 then Some haystack
        else strstr_loop fuel m (haystack + 1) needle (u32 (len1 - 1)) len2
      else Some 0
  end.

Definition strstr (fuel : nat) (m : mem) (haystack needle : Z) : option Z :=
  len2 ← strlen fuel m needle;
  if len2 =? 0 then Some haystack
  else len1 ← strlen fuel m haystack; strstr_loop fuel m haystack needle len1 len2.

Fixpoint strchr (fuel : nat) (m : mem) (s ch : Z) : option Z :=
  match fuel with
  | O => None
  | S fuel =>
      if ld m s =? 0 then Some 0
      else if ld m s =? ch then Some s
      else strchr fuel m (s + 1) ch
  end.

(** Bytes are compared as unsigned characters; the result is an [int8_t]. *)
Fixpoint strcmp (fuel : nat) (m : mem) (str1 str2 : Z) : option Z :=
  match fuel with
  | O => None
  | S fuel =>
      let ch1 := ld m str1 in
      let ch2 := ld m str2 in
      if negb (ch1 =? ch2) then Some (if ch2 <? ch1 then 1 else -1)
      else if ch1 =? 0 then Some 0
      else strcmp fuel m (str1 + 1) (str2 + 1)
  end.

Fixpoint seek_nul (fuel : nat) (m : mem) (dst : Z) : option Z :=
  match fuel with
  | O => None
  | S fuel => if ld m dst =? 0 then Some dst else seek_nul fuel m (dst + 1)
  end.

Definition strcat (fuel : nat) (m : mem) (dst src : Z) : option (Z * mem) :=
  dst' ← seek_nul fuel m dst;
  r ← strcpy fuel m dst' src;
  Some (dst, snd r).

(** [while (n-- != 0 && ( *dst++ = *src++ ) != 0)]: at most [n] bytes are copied, and
    when [n] runs out first no NUL is written. *)
Fixpoint strncat_loop (n : nat) (m : mem) (dst src : Z) : mem :=
  match n with
  | O => m
  | S n =>
      let ch := ld m src in
      let m := st m dst ch in
      if ch =? 0 then m else strncat_loop n m (dst + 1) (src + 1)
  end.

Definition strncat (fuel : nat) (m : mem) (dst src n : Z) : option (Z * mem) :=
  dst' ← seek_nul fuel m dst;
  Some (dst, strncat_loop (Z.to_nat n) m dst' src).

(** *** [itoa] *)

Definition digit_char (digit : Z) : Z := if digit <? 10 then 48 + digit else 65 + (digit - 10).

(** [while (n != 0)]: the digits, least significant first, appended to [sp].
    A 32-bit [n] has at most 32 digits in any radix from 2 on. *)
Fixpoint itoa_digits (fuel : nat) (n radix : Z) (sp : list Z) : list Z :=
  match fuel with
  | O => sp
  | S fuel =>
      if n =? 0 then sp
      else let digit := u8 (n mod radix) in
           itoa_digits fuel (n / radix) radix (sp ++ [digit_char digit])
  end.

(** The swap of [s[i]] and [s[len - i - 1]]. *)
Definition swap (s : list Z) (i j : nat) : list Z :=
  let tmp := s !!! i in <[j := tmp]> (<[i := s !!! j]> s).

Fixpoint itoa_reverse (k i : nat) (s : list Z) : list Z :=
  match k with
  | O => s
  | S k => itoa_reverse k (S i) (swap s i (length s - i - 1))
  end.

(** The bytes [itoa] leaves before the terminating NUL. *)
Definition itoa (num radix : Z) : list Z :=
  if num =? 0 then [48]
  else
    let neg := (num <? 0) && (radix =? 10) in
    let n := if neg then u32 (0 - num) else u32 num in
    let s := itoa_digits 32 n radix [] in
    let s := itoa_reverse (length s / 2) 0 s in
    if neg then 45 :: s else s.

(** *** [vsprintf] *)

(** The variadic arguments: a word read with [va_arg(args, int)], or a pointer to a
    string, given by the bytes before its NUL. *)
Inductive arg := AInt (z : Z) | AStr (s : list Z).

Definition va_int (args : list arg) : Z * list arg :=
  match args with
  | AInt z :: args => (z, args)
  | _ => (0, tail args)
  end.

Definition va_str (args : list arg) : list Z * list arg :=
  match args with
  | AStr s :: args => (s, args)
  | _ => ([], tail args)
  end.

(** The bytes written before the NUL; the function returns their number.  An unknown
    directive falls through the [switch] and writes nothing; a [%] at the end of the
    format is written as it is. *)
Fixpoint vsprintf (format : list Z) (args : list arg) {struct format} : list Z :=
  match format with
  | [] => []
  | ch :: format' =>
      if negb (ch =? 37) then ch :: vsprintf format' args
      else
        match format' with
        | [] => [37]
        | ch :: format' =>
            if (ch =? 120) || (ch =? 112) then
              let '(v, args) := va_int args in itoa v 16 ++ vsprintf format' args
            else if ch =? 111 then
              let '(v, args) := va_int args in itoa v 8 ++ vsprintf format' args
            else if ch =? 100 then
              let '(v, args) := va_int args in itoa v 10 ++ vsprintf format' args
            else if ch =? 115 then
              let '(s, args) := va_str args in s ++ vsprintf format' args
            else if ch =? 99 then
              let '(v, args) := va_int args in u8 v :: vsprintf format' args
            else vsprintf format' args
        end
  end.

(** *** Strings in memory *)

(** The bytes [l] are at [a]. *)
Fixpoint at_mem (m : mem) (a : Z) (l : list Z) : Prop :=
  match l with
  | [] => True
  | c :: l => ld m a = c /\ at_mem m (a + 1) l
  end.

(** The terminated string [s] is at [a]. *)
Definition cstr (m : mem) (a : Z) (s : list Z) : Prop :=
  Forall (fun c => 0 < c < 256) s /\ at_mem m a (s ++ [0]).

(** The address ranges [[a, a+n)] and [[b, b+k)] do not meet. *)
Definition disjoint_ranges (a n b k : Z) : Prop := a + n <= b \/ b + k <= a.

(** Comparison of two strings as sequences of unsigned characters, a proper prefix
    being the smaller. *)
Fixpoint lex (s t : list Z) : Z :=
  match s, t with
  | [], [] => 0
  | [], _ => -1
  | _, [] => 1
  | c :: s, d :: t => if c =? d then lex s t else if d <? c then 1 else -1
  end.

(** The value of a sequence of digit characters in a radix, most significant first. *)
Definition digit_value (c : Z) : Z := if c <? 65 then c - 48 else c - 65 + 10.

Definition value (radix : Z) (s : list Z) : Z :=
  fold_left (fun acc c => acc * radix + digit_value c) s 0.

(** The number a decimal numeral with an optional minus sign denotes. *)
Definition decimal_value (s : list Z) : Z :=
  match s with
  | 45 :: s => - value 10 s
  | s => value 10 s
  end.

(** *** Lemmas on memory *)

Lemma ld_st_eq m a v : ld (st m a v) a = u8 v.
Proof. unfold ld, st. by rewrite lookup_insert_eq. Qed.

Lemma ld_st_ne m a b v : a <> b -> ld (st m a v) b = ld m b.
Proof. intros. unfold ld, st. by rewrite lookup_insert_ne. Qed.

Lemma at_mem_ext m m' a l :
  (forall i, 0 <= i < Z.of_nat (length l) -> ld m' (a + i) = ld m (a + i)) ->
  at_mem m a l -> at_mem m' a l.
Proof.
  revert a. induction l as [|c l IH]; intros a Hext; [done|]. simpl. intros [H1 H2]. split.
  - specialize (Hext 0 ltac:(simpl; lia)). rewrite Z.add_0_r in Hext. congruence.
  - apply IH; [|done]. intros i Hi. specialize (Hext (i + 1) ltac:(simpl; lia)).
    replace (a + 1 + i) with (a + (i + 1)) by lia. done.
Qed.

Lemma at_mem_app m a l1 l2 :
  at_mem m a (l1 ++ l2) <-> at_mem m a l1 /\ at_mem m (a + Z.of_nat (length l1)) l2.
Proof.
  revert a. induction l1 as [|c l1 IH]; intros a; simpl.
  - rewrite Z.add_0_r. tauto.
  - rewrite IH. replace (a + 1 + Z.of_nat (length l1)) with (a + Z.of_nat (S (length l1))) by lia.
    tauto.
Qed.

Lemma at_mem_lookup m a l i c : at_mem m a l -> l !! i = Some c -> ld m (a + Z.of_nat i) = c.
Proof.
  revert a i. induction l as [|d l IH]; intros a i; [done|]. intros [H1 H2] Hi.
  destruct i as [|i]; simpl in Hi.
  - replace (a + Z.of_nat 0) with a by lia. congruence.
  - rewrite <- (IH _ _ H2 Hi). f_equal. lia.
Qed.

Lemma cstr_nil m a : cstr m a [] <-> ld m a = 0.
Proof. unfold cstr. simpl. split; [tauto|]. auto. Qed.

Lemma cstr_cons m a c s : cstr m a (c :: s) <-> 0 < c < 256 /\ ld m a = c /\ cstr m (a + 1) s.
Proof. unfold cstr. rewrite Forall_cons. simpl. tauto. Qed.

Lemma cstr_ext m m' a s :
  (forall i, 0 <= i <= Z.of_nat (length s) -> ld m' (a + i) = ld m (a + i)) ->
  cstr m a s -> cstr m' a s.
Proof.
  intros H [H1 H2]. split; [done|]. eapply at_mem_ext; [|done].
  intros i Hi. apply H. rewrite length_app in Hi. simpl in Hi. lia.
Qed.

(** *** Correctness of the loops *)

Lemma memset_loop_spec n : forall m s v b,
  ld (memset_loop n m s v) b = if decide (s <= b < s + Z.of_nat n) then u8 v else ld m b.
Proof.
  induction n as [|n IH]; intros m s v b; simpl.
  - rewrite decide_False by lia. done.
  - rewrite IH. destruct (decide (b = s)) as [->|].
    + rewrite decide_False, decide_True by lia. apply ld_st_eq.
    + destruct (decide (s + 1 <= b < s + 1 + Z.of_nat n)).
      * by rewrite decide_True by lia.
      * rewrite decide_False by lia. by apply ld_st_ne.
Qed.

(** Copying between ranges that do not meet. *)
Lemma memcpy_loop_spec n : forall m dst src b,
  disjoint_ranges dst (Z.of_nat n) src (Z.of_nat n) ->
  ld (memcpy_loop n m dst src) b =
    if decide (dst <= b < dst + Z.of_nat n) then u8 (ld m (src + (b - dst))) else ld m b.
Proof.
  unfold disjoint_ranges. induction n as [|n IH]; intros m dst src b Hd; simpl.
  - rewrite decide_False by lia. done.
  - rewrite IH by lia. destruct (decide (b = dst)) as [->|].
    + rewrite decide_False, decide_True by lia. rewrite ld_st_eq. do 2 f_equal. lia.
    + destruct (decide (dst + 1 <= b < dst + 1 + Z.of_nat n)).
      * rewrite decide_True by lia. rewrite ld_st_ne by lia. do 2 f_equal. lia.
      * rewrite decide_False by lia. by apply ld_st_ne.
Qed.

Lemma memcmp_loop_at n : forall m a b (l1 l2 : list Z),
  at_mem m a l1 -> at_mem m b l2 -> length l1 = n -> length l2 = n ->
  memcmp_loop n m a b = 0 <-> l1 = l2.
Proof.
  induction n as [|n IH]; intros m a b l1 l2 H1 H2 L1 L2.
  - destruct l1, l2; done.
  - destruct l1 as [|c l1], l2 as [|d l2]; try done. simpl in *.
    destruct H1 as [-> H1], H2 as [-> H2]. destruct (Z.eqb_spec c d) as [->|Hne].
    + rewrite (IH m (a + 1) (b + 1) l1 l2) by (auto; lia). split; [by intros ->|congruence].
    + split; [|congruence]. destruct (d <? c); done.
Qed.

Lemma strlen_loop_cstr s : forall fuel m a start,
  cstr m a s -> (length s < fuel)%nat ->
  strlen_loop fuel m a start = Some (u32 (a + Z.of_nat (length s) - start)).
Proof.
  induction s as [|c s IH]; intros fuel m a start H Hf; destruct fuel as [|fuel];
    simpl in Hf; try lia; simpl.
  - apply cstr_nil in H. rewrite H. simpl. do 2 f_equal. lia.
  - apply cstr_cons in H as (Hc & Hl & H). rewrite (proj2 (Z.eqb_neq _ _)) by lia.
    rewrite (IH _ _ _ _ H) by lia. do 2 f_equal. lia.
Qed.

Lemma strlen_cstr fuel m a s :
  cstr m a s -> (length s < fuel)%nat -> Z.of_nat (length s) < 2 ^ 32 ->
  strlen fuel m a = Some (Z.of_nat (length s)).
Proof.
  intros H Hf Hlt. unfold strlen. rewrite (strlen_loop_cstr s) by done.
  f_equal. rewrite u32_small by (unfold is_u32; lia). lia.
Qed.

Lemma strcpy_cstr s : forall fuel m dst src,
  cstr m src s -> (length s < fuel)%nat ->
  disjoint_ranges dst (Z.of_nat (length s) + 1) src (Z.of_nat (length s) + 1) ->
  exists m', strcpy fuel m dst src = Some (dst + Z.of_nat (length s), m') /\
    cstr m' dst s /\
    (forall b, ~ (dst <= b <= dst + Z.of_nat (length s)) -> ld m' b = ld m b).
Proof.
  unfold disjoint_ranges.
  induction s as [|c s IH]; intros fuel m dst src H Hf Hd; destruct fuel as [|fuel];
    simpl in Hf; try lia; simpl.
  - apply cstr_nil in H. rewrite H. simpl. eexists. split; [do 2 f_equal; lia|]. split.
    + apply cstr_nil. by rewrite ld_st_eq.
    + intros b Hb. apply ld_st_ne. lia.
  - apply cstr_cons in H as (Hc & Hl & H). rewrite Hl. rewrite (proj2 (Z.eqb_neq _ _)) by lia.
    destruct (IH fuel (st m dst c) (dst + 1) (src + 1)) as (m' & E & H' & HF).
    + eapply cstr_ext; [|exact H]. intros i Hi. apply ld_st_ne. simpl in Hd. lia.
    + lia.
    + simpl in Hd. lia.
    + exists m'. split; [rewrite E; do 2 f_equal; lia|]. split.
      * apply cstr_cons. split_and!; [lia..| |done].
        rewrite HF by lia. rewrite ld_st_eq. apply u8_small. unfold is_u8. lia.
      * intros b Hb. rewrite HF by lia. apply ld_st_ne. lia.
Qed.

Lemma seek_nul_cstr s : forall fuel m a,
  cstr m a s -> (length s < fuel)%nat -> seek_nul fuel m a = Some (a + Z.of_nat (length s)).
Proof.
  induction s as [|c s IH]; intros fuel m a H Hf; destruct fuel as [|fuel];
    simpl in Hf; try lia; simpl.
  - apply cstr_nil in H. rewrite H. simpl. f_equal. lia.
  - apply cstr_cons in H as (Hc & Hl & H). rewrite (proj2 (Z.eqb_neq _ _)) by lia.
    rewrite (IH _ _ _ H) by lia. f_equal. lia.
Qed.

Lemma strcmp_lex s : forall t fuel m a b,
  cstr m a s -> cstr m b t -> (length s < fuel)%nat -> strcmp fuel m a b = Some (lex s t).
Proof.
  induction s as [|c s IH]; intros t fuel m a b Hs Ht Hf; destruct fuel as [|fuel];
    simpl in Hf; try lia; simpl; destruct t as [|d t].
  - apply cstr_nil in Hs, Ht. rewrite Hs, Ht. done.
  - apply cstr_nil in Hs. apply cstr_cons in Ht as (Hd & Hl & Ht). rewrite Hs, Hl.
    rewrite (proj2 (Z.eqb_neq _ _)) by lia. simpl. rewrite (proj2 (Z.ltb_ge _ _)) by lia. done.
  - apply cstr_nil in Ht. apply cstr_cons in Hs as (Hd & Hl & Hs). rewrite Ht, Hl.
    rewrite (proj2 (Z.eqb_neq _ _)) by lia. simpl. rewrite (proj2 (Z.ltb_lt _ _)) by lia. done.
  - apply cstr_cons in Ht as (Hd & Hld & Ht). apply cstr_cons in Hs as (Hc & Hlc & Hs).
    rewrite Hlc, Hld. destruct (Z.eqb_spec c d) as [->|]; simpl; [|done].
    rewrite (proj2 (Z.eqb_neq _ _)) by lia. apply IH; [done..|lia].
Qed.

Lemma lex_eq s t : lex s t = 0 <-> s = t.
Proof.
  revert t. induction s as [|c s IH]; intros [|d t]; simpl; try done.
  destruct (Z.eqb_spec c d) as [->|]; [rewrite IH; split; congruence|].
  split; [destruct (d <? c); done|congruence].
Qed.

Lemma lex_antisym s t : lex t s = - lex s t.
Proof.
  revert t. induction s as [|c s IH]; intros [|d t]; simpl; try done.
  rewrite (Z.eqb_sym d c). destruct (Z.eqb_spec c d) as [->|]; [apply IH|].
  destruct (Z.ltb_spec c d), (Z.ltb_spec d c); lia.
Qed.

Lemma strchr_cstr s : forall fuel m a ch,
  cstr m a s -> (length s < fuel)%nat ->
  (ch ∉ s /\ strchr fuel m a ch = Some 0) \/
  (exists i, s !! i = Some ch /\ ch ∉ take i s /\ strchr fuel m a ch = Some (a + Z.of_nat i)).
Proof.
  induction s as [|c s IH]; intros fuel m a ch H Hf; destruct fuel as [|fuel];
    simpl in Hf; try lia; simpl.
  - apply cstr_nil in H. rewrite H. left. set_solver.
  - apply cstr_cons in H as (Hc & Hl & H). rewrite Hl, (proj2 (Z.eqb_neq c 0)) by lia.
    destruct (Z.eqb_spec c ch) as [->|Hne].
    + right. exists 0%nat. simpl. split_and!; [done|set_solver|f_equal; lia].
    + destruct (IH fuel m (a + 1) ch H ltac:(lia)) as [[H1 H2]|(i & H1 & H2 & H3)].
      * left. split; [set_solver|done].
      * right. exists (S i). simpl. split_and!; [done|set_solver|rewrite H3; f_equal; lia].
Qed.

Lemma at_mem_take m a n s : at_mem m a s -> at_mem m a (take n s).
Proof. intros H. rewrite <- (take_drop n s) in H. by apply at_mem_app in H as [H _]. Qed.

Lemma memcmp_prefix m a b s t :
  cstr m a s -> at_mem m b t -> (length t <= length s)%nat ->
  memcmp m a b (Z.of_nat (length t)) = 0 <-> slice 0 (length t) s = t.
Proof.
  intros [_ Hs] Ht Hl. unfold memcmp. rewrite Nat2Z.id. apply at_mem_app in Hs as [Hs _].
  apply (memcmp_loop_at (length t) m a b (slice 0 (length t) s) t); [|done| |done].
  - unfold slice. rewrite drop_0. by apply at_mem_take.
  - apply length_slice. lia.
Qed.

(** The first place where [t] occurs in [s], as [strstr] reports it. *)
Definition first_occurrence (s t : list Z) (a : Z) (r : option Z) : Prop :=
  (exists i, slice i (length t) s = t /\ (forall j, (j < i)%nat -> slice j (length t) s <> t) /\
             r = Some (a + Z.of_nat i)) \/
  ((forall j, slice j (length t) s <> t) /\ r = Some 0).

Lemma strstr_loop_spec s : forall fuel m a b t,
  cstr m a s -> at_mem m b t -> (0 < length t)%nat -> (length s < fuel)%nat ->
  Z.of_nat (length s) < 2 ^ 32 ->
  first_occurrence s t a
    (strstr_loop fuel m a b (Z.of_nat (length s)) (Z.of_nat (length t))).
Proof.
  induction s as [|c s IH]; intros fuel m a b t Hs Ht Hpos Hf Hlt;
    destruct fuel as [|fuel]; simpl in Hf; try lia; simpl strstr_loop.
  - rewrite (proj2 (Z.leb_gt _ _)) by (simpl; lia). right. split; [|done].
    intros j Hj. rewrite <- Hj in Hpos. unfold slice in Hpos.
    rewrite drop_nil, take_nil in Hpos. simpl in Hpos. lia.
  - destruct (Z.leb_spec (Z.of_nat (length t)) (Z.of_nat (S (length s)))) as [Hle|Hgt].
    + destruct (Z.eqb_spec (memcmp m a b (Z.of_nat (length t))) 0) as [E|E].
      * left. exists 0%nat. split_and!; [|intros j Hj; lia|f_equal; lia].
        apply (memcmp_prefix m a b (c :: s) t); [done|done|simpl; lia|done].
      * assert (slice 0 (length t) (c :: s) <> t) as H0.
        { intros H0. apply E. apply (memcmp_prefix m a b (c :: s) t); [done|done|simpl; lia|done]. }
        apply cstr_cons in Hs as (_ & _ & Hs).
        rewrite u32_small by (unfold is_u32; simpl in *; lia).
        replace (Z.of_nat (S (length s)) - 1) with (Z.of_nat (length s)) by (simpl; lia).
        destruct (IH fuel m (a + 1) b t) as [(i & H1 & H2 & H3)|[H1 H2]];
          [done..|lia|simpl in Hlt; lia| |].
        -- left. exists (S i). split_and!; [done| |rewrite H3; f_equal; lia].
           intros [|j] Hj; [done|]. apply (H2 j). lia.
        -- right. split; [|done]. intros [|j]; [done|]. apply H1.
    + right. split; [|done]. intros j Hj.
      assert (length (slice j (length t) (c :: s)) <= length (c :: s))%nat as Hl.
      { unfold slice. rewrite length_take, length_drop. lia. }
      rewrite Hj in Hl. simpl in Hl, Hgt. lia.
Qed.

(** *** Digits *)

Lemma digit_value_char d : 0 <= d < 36 -> digit_value (digit_char d) = d.
Proof.
  intros H. unfold digit_value, digit_char.
  destruct (Z.ltb_spec d 10); [rewrite (proj2 (Z.ltb_lt _ _)) by lia; lia|].
  rewrite (proj2 (Z.ltb_ge _ _)) by lia. lia.
Qed.

Lemma value_snoc radix s c : value radix (s ++ [c]) = value radix s * radix + digit_value c.
Proof. unfold value. by rewrite fold_left_app. Qed.

Lemma itoa_digits_app fuel : forall n radix sp,
  itoa_digits fuel n radix sp = sp ++ itoa_digits fuel n radix [].
Proof.
  induction fuel as [|fuel IH]; intros n radix sp; simpl; [by rewrite app_nil_r|].
  destruct (n =? 0); [by rewrite app_nil_r|].
  rewrite (IH _ _ (sp ++ _)), (IH _ _ [_]). by rewrite <- app_assoc.
Qed.

Lemma itoa_digits_value fuel : forall n radix,
  2 <= radix <= 36 -> 0 <= n < radix ^ Z.of_nat fuel ->
  value radix (rev (itoa_digits fuel n radix [])) = n.
Proof.
  induction fuel as [|fuel IH]; intros n radix Hr Hn.
  - simpl in *. unfold value. simpl. lia.
  - simpl. destruct (Z.eqb_spec n 0) as [->|Hn0]; [done|].
    rewrite itoa_digits_app. simpl rev. rewrite value_snoc.
    pose proof (Z.mod_pos_bound n radix ltac:(lia)) as Hm.
    rewrite u8_small by (unfold is_u8; lia).
    rewrite digit_value_char by lia. rewrite IH; [|done|].
    + pose proof (Z.div_mod n radix ltac:(lia)). lia.
    + rewrite Nat2Z.inj_succ, Z.pow_succ_r in Hn by lia.
      split; [apply Z.div_pos; lia|]. apply Z.div_lt_upper_bound; lia.
Qed.

Lemma length_swap s i j : length (swap s i j) = length s.
Proof. unfold swap. by rewrite !length_insert. Qed.

Lemma swap_lookup s i j k :
  (i < length s)%nat -> (j < length s)%nat ->
  swap s i j !! k = if decide (k = j) then s !! i else if decide (k = i) then s !! j else s !! k.
Proof.
  intros Hi Hj. unfold swap. case_decide; [subst k|].
  - rewrite list_lookup_insert_eq by (rewrite length_insert; lia).
    symmetry. by apply list_lookup_lookup_total_lt.
  - rewrite list_lookup_insert_ne by done. case_decide; [subst k|].
    + rewrite list_lookup_insert_eq by lia. symmetry. by apply list_lookup_lookup_total_lt.
    + by rewrite list_lookup_insert_ne.
Qed.

Lemma length_itoa_reverse k : forall i s, length (itoa_reverse k i s) = length s.
Proof. induction k as [|k IH]; intros i s; simpl; [done|]. by rewrite IH, length_swap. Qed.

Lemma itoa_reverse_lookup k : forall i s j,
  (2 * (i + k) <= length s)%nat -> (j < length s)%nat ->
  itoa_reverse k i s !! j =
    if decide ((i <= j < i + k) \/ (length s - (i + k) <= j < length s - i))%nat
    then s !! (length s - 1 - j)%nat else s !! j.
Proof.
  induction k as [|k IH]; intros i s j Hk Hj; simpl.
  - rewrite decide_False by lia. done.
  - rewrite IH by (rewrite length_swap; lia). rewrite length_swap.
    destruct (decide ((S i <= j < S i + k) \/ (length s - (S i + k) <= j < length s - S i))%nat).
    + rewrite decide_True by lia. rewrite swap_lookup by lia.
      rewrite !decide_False by lia. done.
    + rewrite swap_lookup by lia. destruct (decide (j = length s - i - 1)%nat).
      * rewrite decide_True by lia. f_equal. lia.
      * destruct (decide (j = i)%nat).
        -- rewrite decide_True by lia. f_equal. lia.
        -- rewrite decide_False by lia. done.
Qed.

Lemma itoa_reverse_rev s : itoa_reverse (length s / 2) 0 s = rev s.
Proof.
  assert (2 * (length s / 2) <= length s < 2 * (length s / 2) + 2)%nat as Hd
    by (pose proof (Nat.div_mod_eq (length s) 2);
        pose proof (Nat.mod_upper_bound (length s) 2); lia).
  apply list_eq. intros j. destruct (decide (j < length s)%nat) as [Hj|Hj].
  - rewrite itoa_reverse_lookup by lia.
    rewrite rev_alt. change (rev_append s []) with (reverse s). rewrite reverse_lookup by lia.
    case_decide; [f_equal; lia|]. f_equal. lia.
  - rewrite !lookup_ge_None_2; [done|rewrite length_rev; lia|rewrite length_itoa_reverse; lia].
Qed.

Lemma digit_char_range d : 0 <= d < 36 -> 48 <= digit_char d < 91.
Proof. intros H. unfold digit_char. destruct (Z.ltb_spec d 10); lia. Qed.

Lemma itoa_digits_chars fuel : forall n radix,
  2 <= radix <= 36 -> Forall (fun c => 48 <= c) (itoa_digits fuel n radix []).
Proof.
  induction fuel as [|fuel IH]; intros n radix Hr; simpl; [constructor|].
  destruct (n =? 0); [constructor|]. rewrite itoa_digits_app. simpl. constructor; [|by apply IH].
  pose proof (Z.mod_pos_bound n radix ltac:(lia)).
  rewrite u8_small by (unfold is_u8; lia). apply digit_char_range. lia.
Qed.

(** The magnitude [itoa] converts comes back from its digits, and no digit is a sign. *)
Lemma itoa_magnitude n radix :
  2 <= radix <= 36 -> is_u32 n ->
  let s := itoa_digits 32 n radix [] in
  let r := itoa_reverse (length s / 2) 0 s in
  value radix r = n /\ Forall (fun c => 48 <= c) r.
Proof.
  intros Hr Hn s r. subst r. rewrite itoa_reverse_rev. split.
  - apply itoa_digits_value; [done|]. unfold is_u32 in Hn.
    pose proof (Z.pow_le_mono_l 2 radix (Z.of_nat 32) ltac:(lia)) as Hp.
    change (Z.of_nat 32) with 32 in *. lia.
  - apply Forall_rev. by apply itoa_digits_chars.
Qed.

Lemma decimal_value_digits s : Forall (fun c => 48 <= c) s -> decimal_value s = value 10 s.
Proof.
  intros H. destruct s as [|c s]; [done|]. apply Forall_cons in H as [H _].
  unfold decimal_value. destruct c as [|p|p]; try lia.
  do 6 (destruct p as [p|p|]; try done; try lia).
Qed.

Lemma itoa_digits_length fuel : forall n radix sp, (length (itoa_digits fuel n radix sp) <= length sp + fuel)%nat.
Proof.
  induction fuel as [|fuel IH]; intros n radix sp; simpl; [lia|]. destruct (n =? 0); [lia|].
  etrans; [apply IH|]. rewrite length_app. simpl. lia.
Qed.

Lemma itoa_length n radix : (length (itoa n radix) <= 33)%nat.
Proof.
  unfold itoa. destruct (n =? 0); [simpl; lia|]. cbv zeta. set (m := if (n <? 0) && (radix =? 10) then u32 (0 - n) else u32 n).
  pose proof (itoa_digits_length 32 m radix []) as L. change (length (@nil Z)) with 0%nat in L. clearbody m.
  destruct ((n <? 0) && (radix =? 10)); cbn [length]; rewrite length_itoa_reverse; lia.
Qed.

(** No character of a printed number is a NUL. *)
Lemma itoa_no_nul n radix : 2 <= radix <= 36 -> 0 ∉ itoa n radix.
Proof.
  intros Hr. unfold itoa. destruct (n =? 0); [by apply (bool_decide_eq_true_1 _)|]. cbv zeta.
  set (m := if (n <? 0) && (radix =? 10) then u32 (0 - n) else u32 n).
  assert (0 ∉ itoa_reverse (length (itoa_digits 32 m radix []) / 2) 0 (itoa_digits 32 m radix [])) as H0.
  { rewrite itoa_reverse_rev. intros Hin. pose proof (Forall_rev (itoa_digits_chars 32 m radix Hr)) as F.
    rewrite Forall_forall in F. apply F in Hin. lia. }
  destruct ((n <? 0) && (radix =? 10)); [|done]. apply not_elem_of_cons. by split.
Qed.

(** *** Theorems *)

(** [strcmp] on two terminated strings returns -1, 0 or 1 as the first is before,
    equal to or after the second in the order of unsigned characters; it returns 0
    exactly on equal strings, and exchanging the arguments negates the result. *)
Theorem strcmp_correct m a b s t fuel :
  cstr m a s -> cstr m b t -> (length s < fuel)%nat -> (length t < fuel)%nat ->
  strcmp fuel m a b = Some (lex s t) /\
  (strcmp fuel m a b = Some 0 <-> s = t) /\
  strcmp fuel m b a = Some (- lex s t).
Proof.
  intros Hs Ht H1 H2. rewrite (strcmp_lex s t), (strcmp_lex t s) by done.
  rewrite <- lex_antisym. split_and!; [done| |done].
  rewrite <- lex_eq. split; congruence.
Qed.

(** [strstr] returns the address of the first occurrence of the needle in the
    haystack, the haystack itself for an empty needle, and NULL exactly when the
    needle does not occur. *)
Theorem strstr_correct m a b s t fuel :
  cstr m a s -> cstr m b t -> (length s < fuel)%nat -> (length t < fuel)%nat ->
  Z.of_nat (length s) < 2 ^ 32 -> Z.of_nat (length t) < 2 ^ 32 ->
  first_occurrence s t a (strstr fuel m a b).
Proof.
  intros Hs Ht Hf1 Hf2 Hl1 Hl2. unfold strstr.
  rewrite (strlen_cstr fuel m b t) by done. simpl.
  destruct (Z.eqb_spec (Z.of_nat (length t)) 0) as [E|E].
  - left. exists 0%nat. destruct t; [|simpl in E; lia].
    split_and!; [done|intros j Hj; lia|f_equal; lia].
  - rewrite (strlen_cstr fuel m a s) by done. simpl.
    apply strstr_loop_spec; [done| |lia|done|done].
    destruct Ht as [_ Ht]. by apply at_mem_app in Ht as [Ht _].
Qed.

(** [strcat] leaves the concatenation of the two strings at the destination and
    touches no byte outside of it, when the source does not overlap the bytes the
    result takes. *)
Theorem strcat_correct m a b s t fuel :
  cstr m a s -> cstr m b t -> (length s < fuel)%nat -> (length t < fuel)%nat ->
  disjoint_ranges a (Z.of_nat (length s + length t) + 1) b (Z.of_nat (length t) + 1) ->
  exists m', strcat fuel m a b = Some (a, m') /\ cstr m' a (s ++ t) /\
    (forall x, ~ (a <= x <= a + Z.of_nat (length s + length t)) -> ld m' x = ld m x).
Proof.
  intros Hs Ht Hf1 Hf2 Hd. unfold strcat. rewrite (seek_nul_cstr s) by done. simpl.
  destruct (strcpy_cstr t fuel m (a + Z.of_nat (length s)) b) as (m' & E & H' & HF); [done..| |].
  { unfold disjoint_ranges in *. lia. }
  rewrite E. simpl. exists m'. split; [done|]. split.
  - destruct Hs as [Hs1 Hs2], H' as [Ht1 Ht2]. split; [by apply Forall_app|].
    rewrite <- app_assoc. apply at_mem_app. split; [|done].
    apply at_mem_app in Hs2 as [Hs2 _]. eapply at_mem_ext; [|exact Hs2].
    intros i Hi. apply HF. lia.
  - intros x Hx. apply HF. lia.
Qed.

(** [itoa] is a right inverse of reading a numeral: in radix 10 the bytes it
    writes denote the signed 32-bit number it was given, [INT_MIN] included, and in
    any other radix from 2 to 36 they denote the number taken as unsigned. *)
Theorem itoa_roundtrip num radix :
  is_i32 num -> 2 <= radix <= 36 ->
  decimal_value (itoa num 10) = num /\
  (radix <> 10 -> value radix (itoa num radix) = u32 num).
Proof.
  intros Hn Hr. unfold itoa. destruct (Z.eqb_spec num 0) as [->|H0]; [done|]. split.
  - rewrite Z.eqb_refl, andb_true_r. destruct (Z.ltb_spec num 0).
    + destruct (itoa_magnitude (u32 (0 - num)) 10) as [H1 H2]; [lia|apply u32_range|].
      match goal with |- decimal_value (45 :: ?r) = _ =>
        change (decimal_value (45 :: r)) with (- value 10 r) end.
      cbv zeta in H1. rewrite H1. ulia.
    + destruct (itoa_magnitude (u32 num) 10) as [H1 H2]; [lia|apply u32_range|].
      cbv zeta in H1, H2. rewrite decimal_value_digits by done. rewrite H1. ulia.
  - intros Hne. rewrite (proj2 (Z.eqb_neq radix 10)), andb_false_r by done.
    destruct (itoa_magnitude (u32 num) radix) as [H1 H2]; [done|apply u32_range|]. done.
Qed.

(** *** Concrete instances *)

Fixpoint store (m : mem) (a : Z) (l : list Z) : mem :=
  match l with
  | [] => m
  | c :: l => store (st m a c) (a + 1) l
  end.

(** "abcab" at 16, "ca" at 32. *)
Definition mem0 : mem := store (store ∅ 16 [97; 98; 99; 97; 98; 0]) 32 [99; 97; 0].

Lemma mem0_s : cstr mem0 16 [97; 98; 99; 97; 98].
Proof. split; [repeat constructor; lia|vm_compute; tauto]. Defined.

Lemma mem0_t : cstr mem0 32 [99; 97].
Proof. split; [repeat constructor; lia|vm_compute; tauto]. Defined.

Lemma strcmp_correct_witness :
  strcmp 10 mem0 16 32 = Some (-1) /\
  (strcmp 10 mem0 16 32 = Some 0 <-> [97; 98; 99; 97; 98] = [99; 97]) /\
  strcmp 10 mem0 32 16 = Some 1.
Proof.
  apply (strcmp_correct mem0 16 32 [97; 98; 99; 97; 98] [99; 97] 10);
    [exact mem0_s|exact mem0_t|simpl; lia..].
Defined.

Lemma strstr_correct_witness :
  first_occurrence [97; 98; 99; 97; 98] [99; 97] 16 (strstr 10 mem0 16 32) /\
  strstr 10 mem0 16 32 = Some 18.
Proof.
  split; [|reflexivity].
  apply (strstr_correct mem0 16 32); [exact mem0_s|exact mem0_t|simpl; lia..].
Defined.

Lemma strcat_correct_witness :
  exists m', strcat 10 mem0 16 32 = Some (16, m') /\
    cstr m' 16 ([97; 98; 99; 97; 98] ++ [99; 97]) /\
    (forall x, ~ (16 <= x <= 16 + Z.of_nat 7) -> ld m' x = ld mem0 x).
Proof.
  apply (strcat_correct mem0 16 32 [97; 98; 99; 97; 98] [99; 97] 10);
    [exact mem0_s|exact mem0_t|simpl; lia|simpl; lia|unfold disjoint_ranges; simpl; lia].
Defined.

Lemma itoa_roundtrip_witness :
  decimal_value (itoa (-2147483648) 10) = -2147483648 /\
  (16 <> 10 -> value 16 (itoa (-2147483648) 16) = u32 (-2147483648)).
Proof. apply (itoa_roundtrip (-2147483648) 16); [split; vm_compute; done|lia]. Defined.
End CString.
