(* ===== verification/Semaphore.v ===== *)
(** The counting semaphore of src/kernel/semaphore.c.

    Interrupts are off inside every operation (a spinlock is no more than that on
    one processor, src/include/kernel/spinlock.h), so each operation is one atomic
    change of the semaphore, except that a task that finds no unit left leaves the
    processor in the middle of [sem_wait] and sets [holder] when it comes back.
    Tasks are named by their slot in the task table.  [waiting] is the list of
    waiting tasks from head to tail: [list_offer] adds at the head and [list_poll]
    takes from the tail (see KList.v).

    [sem_signal] asserts that the task it takes from the list is in state
    TASK_BLOCKED.  The states of the tasks are not the semaphore's, so the operations
    take them as an argument, [blocked].  A task in the list is blocked unless
    [task_kill] (src/kernel/task.c) made it ready: that function sets the state of a
    blocked task without taking it off the list it waits in.  The step relation below
    has that event and what the task then does.  Nothing under src/ calls
    [task_kill], and the components that use semaphores (BufCache.v, Log.v, Ide.v,
    Inode.v) are modelled without it: they pass [all_blocked]. *)

From stdpp Require Import base numbers list gmap relations.
From Stdlib Require Import ZArith Lia.
From S2P Require Import Prelude.
#[local] Open Scope Z_scope.

Module Semaphore.

(** [struct semaphore], without its debugging name and its spinlock. *)
Record semaphore := Sem { val : Z; waiting : list Z; holder : option Z }.

Definition sem_init (initial_val : Z) : semaphore := Sem initial_val [] None.

(** How [sem_wait] goes: the task takes a unit, or is queued and blocked. *)
Inductive wait_result := Acquired (sem : semaphore) | Blocks (sem : semaphore).

Definition sem_wait (cur : Z) (sem : semaphore) : wait_result :=
  let v := i32 (val sem - 1) in
  if v <? 0 then Blocks (Sem v (cur :: waiting sem) (holder sem))
  else Acquired (Sem v (waiting sem) (Some cur)).

(** The end of [sem_wait] in a task that was woken up. *)
Definition sem_wait_resume (cur : Z) (sem : semaphore) : semaphore :=
  Sem (val sem) (waiting sem) (Some cur).

(** [list_poll] on the waiting tasks: the oldest one and the others. *)
Definition poll (l : list Z) : option (Z * list Z) :=
  match last l with
  | Some t => Some (t, take (length l - 1) l)
  | None => None
  end.

(** The states of the waiting tasks when no task was killed while it waited. *)
Definition all_blocked (t : Z) : bool := true.

(** ... and when the tasks [awake] were. *)
Definition blocked_but (awake : list Z) (t : Z) : bool := negb (existsb (Z.eqb t) awake).

(** [sem_signal]: the semaphore and the task to wake up, if any.  [blocked] says which
    tasks are in state TASK_BLOCKED. *)
Definition sem_signal (blocked : Z -> bool) (sem : semaphore) : outcome (option Z * semaphore) :=
  let v := i32 (val sem + 1) in
  if v <=? 0 then
    match poll (waiting sem) with
    | Some (t, rest) => if blocked t then Ok (Some t, Sem v rest None) else Panic
    | None => Panic
    end
  else Ok (None, Sem v (waiting sem) None).

(** [while (++sem->val <= 0)]: wake up every waiting task; the list of the tasks
    woken, oldest first. *)
Fixpoint sem_signalall_loop (blocked : Z -> bool) (fuel : nat) (v : Z) (w : list Z) (woken : list Z)
    : outcome (list Z * (Z * list Z)) :=
  match fuel with
  | O => Hang
  | S fuel =>
      let v := i32 (v + 1) in
      if v <=? 0 then
        match poll w with
        | Some (t, rest) =>
            if blocked t then sem_signalall_loop blocked fuel v rest (woken ++ [t]) else Panic
        | None => Panic
        end
      else Ok (woken, (v, w))
  end.

Definition sem_signalall (blocked : Z -> bool) (fuel : nat) (sem : semaphore)
    : outcome (list Z * semaphore) :=
  match sem_signalall_loop blocked fuel (val sem) (waiting sem) [] with
  | Ok (woken, (v, w)) => Ok (woken, Sem v w None)
  | Panic => Panic
  | Hang => Hang
  end.

Definition sem_holding (cur : Z) (sem : semaphore) : bool := bool_decide (holder sem = Some cur).

(** *** Invariant *)

(** The number of table slots, NTASK of src/include/kernel/task.h. *)
Definition NTASK : Z := 128.

Definition is_task (t : Z) : Prop := 0 <= t < NTASK.

(** A negative value counts the waiting tasks, and nobody waits otherwise. *)
Record sem_ok (sem : semaphore) : Prop := {
  sem_range : is_i32 (val sem) /\ val sem < 2 ^ 31 - 1;
  sem_count : if val sem <? 0 then Z.of_nat (length (waiting sem)) = - val sem
              else waiting sem = [];
  sem_tasks : Forall is_task (waiting sem);
  sem_nodup : NoDup (waiting sem);
}.

(** *** Lemmas *)

Lemma poll_app l t : poll (l ++ [t]) = Some (t, l).
Proof.
  unfold poll. rewrite last_snoc, length_app. simpl.
  replace (length l + 1 - 1)%nat with (length l) by lia. by rewrite take_app_length.
Qed.

Lemma poll_nil : poll [] = None.
Proof. done. Qed.

Lemma tasks_bound l : Forall is_task l -> NoDup l -> Z.of_nat (length l) <= NTASK.
Proof.
  intros Hl Hnd.
  assert (length l <= length (seqZ 0 NTASK))%nat as H.
  { apply submseteq_length. apply NoDup_submseteq; [done|].
    intros x Hx. apply elem_of_seqZ. rewrite Forall_forall in Hl. apply Hl in Hx.
    unfold is_task in Hx. lia. }
  rewrite length_seqZ in H. unfold NTASK in *. lia.
Qed.

Lemma sem_init_ok n : 0 <= n < 2 ^ 31 - 1 -> sem_ok (sem_init n).
Proof.
  intros H. split; simpl; [split; unfold is_i32; lia| |constructor|constructor].
  rewrite (proj2 (Z.ltb_ge _ _)) by lia. done.
Qed.

Lemma sem_lower sem : sem_ok sem -> - NTASK <= val sem.
Proof.
  intros [H1 H2 H3 H4]. pose proof (tasks_bound _ H3 H4).
  destruct (Z.ltb_spec (val sem) 0); unfold NTASK in *; lia.
Qed.

(** [sem_wait] on a well-formed semaphore. *)
Lemma sem_wait_cases sem t :
  sem_ok sem -> is_task t -> t ∉ waiting sem ->
  (0 < val sem /\ sem_wait t sem = Acquired (Sem (val sem - 1) [] (Some t)) /\
   sem_ok (Sem (val sem - 1) [] (Some t))) \/
  (val sem <= 0 /\
   sem_wait t sem = Blocks (Sem (val sem - 1) (t :: waiting sem) (holder sem)) /\
   sem_ok (Sem (val sem - 1) (t :: waiting sem) (holder sem))).
Proof.
  intros Hok Ht Hnin. pose proof (sem_lower _ Hok) as Hlo. unfold NTASK in Hlo.
  destruct Hok as [[H1 H1'] H2 H3 H4]. unfold sem_wait.
  rewrite i32_small by (unfold is_i32 in *; lia).
  destruct (Z.ltb_spec (val sem - 1) 0) as [Hlt|Hge].
  - right. split; [lia|]. split; [done|]. split; simpl.
    + unfold is_i32 in *. lia.
    + rewrite (proj2 (Z.ltb_lt _ _)) by lia.
      destruct (Z.ltb_spec (val sem) 0); [lia|]. rewrite H2. simpl. lia.
    + by constructor.
    + by constructor.
  - left. rewrite (proj2 (Z.ltb_ge _ _)) in H2 by lia. rewrite H2.
    split; [lia|]. split; [done|]. split; simpl; [|..|constructor|constructor].
    + unfold is_i32 in *. lia.
    + rewrite (proj2 (Z.ltb_ge _ _)) by lia. done.
Qed.

(** [sem_signal] on a well-formed semaphore whose waiting tasks are blocked trips none
    of its assertions: it wakes up the task that has waited longest, or puts a unit
    back. *)
Lemma sem_signal_blocked blocked sem :
  sem_ok sem -> val sem + 1 < 2 ^ 31 - 1 -> (forall t, t ∈ waiting sem -> blocked t = true) ->
  (0 <= val sem /\ sem_signal blocked sem = Ok (None, Sem (val sem + 1) [] None) /\
   sem_ok (Sem (val sem + 1) [] None)) \/
  (val sem < 0 /\ exists w t, waiting sem = w ++ [t] /\
   sem_signal blocked sem = Ok (Some t, Sem (val sem + 1) w None) /\
   sem_ok (Sem (val sem + 1) w None)).
Proof.
  intros [[H1 H1'] H2 H3 H4] Hb Hbl. unfold sem_signal.
  rewrite i32_small by (unfold is_i32 in *; lia).
  destruct (Z.ltb_spec (val sem) 0) as [Hlt|Hge].
  - right. split; [done|].
    destruct (waiting sem) as [|t w _] using rev_ind; [simpl in H2; lia|].
    exists w, t. rewrite (proj2 (Z.leb_le _ _)) by lia. rewrite poll_app, Hbl by set_solver.
    apply Forall_app in H3 as [H3 _]. apply NoDup_app in H4 as [H4 _].
    split_and!; [done..|]. split; simpl; [unfold is_i32 in *; lia| |done|done].
    rewrite length_app in H2. simpl in H2.
    destruct (Z.ltb_spec (val sem + 1) 0); [lia|]. destruct w; [done|simpl in H2; lia].
  - left. rewrite (proj2 (Z.leb_gt _ _)) by lia. rewrite H2. split_and!; [done..|].
    split; simpl; [unfold is_i32 in *; lia| |constructor|constructor].
    rewrite (proj2 (Z.ltb_ge _ _)) by lia. done.
Qed.

Lemma sem_signal_cases sem :
  sem_ok sem -> val sem + 1 < 2 ^ 31 - 1 ->
  (0 <= val sem /\ sem_signal all_blocked sem = Ok (None, Sem (val sem + 1) [] None) /\
   sem_ok (Sem (val sem + 1) [] None)) \/
  (val sem < 0 /\ exists w t, waiting sem = w ++ [t] /\
   sem_signal all_blocked sem = Ok (Some t, Sem (val sem + 1) w None) /\
   sem_ok (Sem (val sem + 1) w None)).
Proof. intros H1 H2. by apply sem_signal_blocked. Qed.

Lemma sem_signalall_loop_spec blocked w : forall fuel v woken,
  (forall t, t ∈ w -> blocked t = true) ->
  v = - Z.of_nat (length w) -> Z.of_nat (length w) <= NTASK -> (length w < fuel)%nat ->
  sem_signalall_loop blocked fuel v w woken = Ok (woken ++ rev w, (1, [])).
Proof.
  induction w as [|t w IH] using rev_ind; intros fuel v woken Hbl Hv Hb Hf;
    destruct fuel as [|fuel]; simpl in Hf; try (rewrite ?length_app in Hf; lia); simpl.
  - rewrite i32_small by (unfold is_i32; simpl in *; lia).
    rewrite (proj2 (Z.leb_gt _ _)) by (simpl in *; lia).
    simpl in Hv. subst. by rewrite app_nil_r.
  - rewrite length_app in *. simpl in Hv, Hf.
    rewrite i32_small by (unfold is_i32, NTASK in *; lia).
    rewrite (proj2 (Z.leb_le _ _)) by lia. rewrite poll_app, Hbl by set_solver.
    rewrite IH by (lia || set_solver). rewrite rev_app_distr, <- app_assoc. done.
Qed.

(** *** Tasks using one semaphore

    [inside] are the tasks between their [sem_wait] and their [sem_signal].  A task that
    is woken up by [sem_signal] has its unit from that moment on.  [awake] are the
    tasks that [task_kill] made ready while they waited: they are no longer blocked,
    their node is still in the waiting list, and when they get the processor they go
    on behind [task_block] as if they had been given a unit. *)

Record system := Sys { sem : semaphore; inside : list Z; awake : list Z }.

(** The state TASK_BLOCKED of the waiting tasks. *)
Definition blocked (s : system) : Z -> bool := blocked_but (awake s).

Inductive step : system -> system -> Prop :=
| step_acquire s t sem' :
    is_task t -> t ∉ waiting (sem s) -> t ∉ inside s ->
    sem_wait t (sem s) = Acquired sem' ->
    step s (Sys sem' (t :: inside s) (awake s))
| step_block s t sem' :
    is_task t -> t ∉ waiting (sem s) -> t ∉ inside s ->
    sem_wait t (sem s) = Blocks sem' ->
    step s (Sys sem' (inside s) (awake s))
| step_resume s t :
    t ∈ inside s ->
    step s (Sys (sem_wait_resume t (sem s)) (inside s) (awake s))
| step_signal s t l1 l2 sem' :
    inside s = l1 ++ t :: l2 ->
    sem_signal (blocked s) (sem s) = Ok (None, sem') ->
    step s (Sys sem' (l1 ++ l2) (awake s))
| step_handover s t l1 l2 w sem' :
    inside s = l1 ++ t :: l2 ->
    sem_signal (blocked s) (sem s) = Ok (Some w, sem') ->
    step s (Sys sem' (w :: l1 ++ l2) (awake s))
| step_kill s t :
    t ∈ waiting (sem s) -> t ∉ awake s ->
    step s (Sys (sem s) (inside s) (t :: awake s))
| step_killed_resume s t :
    t ∈ awake s -> t ∉ inside s ->
    step s (Sys (sem_wait_resume t (sem s)) (t :: inside s) (awake s)).

Record sys_inv (n : Z) (s : system) : Prop := {
  inv_ok : sem_ok (sem s);
  inv_units : Z.max 0 (val (sem s)) + Z.of_nat (length (inside s)) = n;
  inv_apart : NoDup (inside s ++ waiting (sem s));
  inv_tasks : Forall is_task (inside s);
}.

Lemma sem_ok_holder sem h : sem_ok sem -> sem_ok (Sem (val sem) (waiting sem) h).
Proof. by intros [H1 H2 H3 H4]; split. Qed.

Lemma remove_mid (l1 : list Z) t l2 w : NoDup ((l1 ++ t :: l2) ++ w) -> NoDup ((l1 ++ l2) ++ w).
Proof.
  intros H. rewrite <- app_assoc in H |- *. simpl in H.
  apply (NoDup_Permutation_proper (l1 ++ t :: l2 ++ w) (t :: l1 ++ l2 ++ w)) in H.
  - by apply NoDup_cons in H as [_ H].
  - symmetry. apply Permutation_middle.
Qed.

Lemma step_awake s s' : step s s' -> awake s' = [] -> awake s = [].
Proof. by destruct 1. Qed.

Lemma blocked_all s t : awake s = [] -> blocked s t = true.
Proof. intros H. unfold blocked. by rewrite H. Qed.

Lemma step_inv n s s' :
  n < 2 ^ 31 - 2 -> awake s' = [] -> sys_inv n s -> step s s' -> sys_inv n s'.
Proof.
  intros Hn Haw' [Hok Hu Ha Ht] Hs. pose proof (step_awake _ _ Hs Haw') as Haw.
  destruct Hs as [s t sem' T1 T2 T3 E|s t sem' T1 T2 T3 E|s t T
    |s t l1 l2 sem' T E|s t l1 l2 w sem' T E|s t T1 T2|s t T1 T2]; [| | | | |done|rewrite Haw in T1; set_solver].
  - destruct (sem_wait_cases (sem s) t) as [(V & E' & Hok')|(V & E' & Hok')]; [done..| |congruence].
    assert (sem' = Sem (val (sem s) - 1) [] (Some t)) as -> by congruence.
    split; simpl; [done|lia| |by constructor].
    rewrite app_nil_r. apply NoDup_app in Ha as [Ha _]. by apply NoDup_cons.
  - destruct (sem_wait_cases (sem s) t) as [(V & E' & Hok')|(V & E' & Hok')]; [done..|congruence|].
    assert (sem' = Sem (val (sem s) - 1) (t :: waiting (sem s)) (holder (sem s))) as ->
      by congruence.
    split; simpl; [done|lia| |done].
    eapply NoDup_Permutation_proper; [symmetry; apply Permutation_middle|].
    apply NoDup_cons. split; [|done]. set_solver.
  - split; simpl; [by apply sem_ok_holder|done..].
  - destruct (sem_signal_blocked (blocked s) (sem s))
      as [(V & E' & Hok')|(V & w' & t' & W & E' & Hok')];
      [done|lia|by intros; apply blocked_all| |congruence].
    assert (sem' = Sem (val (sem s) + 1) [] None) as -> by congruence. rewrite T in *.
    split; simpl; [done| | |].
    + rewrite length_app in *. simpl in Hu. lia.
    + rewrite app_nil_r. apply NoDup_app in Ha as [Ha _].
      rewrite <- (app_nil_r (l1 ++ l2)). rewrite <- (app_nil_r (l1 ++ t :: l2)) in Ha.
      by eapply remove_mid.
    + apply Forall_app in Ht as [? Ht]. apply Forall_cons in Ht as [? ?]. by apply Forall_app.
  - destruct (sem_signal_blocked (blocked s) (sem s))
      as [(V & E' & Hok')|(V & w' & t' & W & E' & Hok')];
      [done|lia|by intros; apply blocked_all|congruence|].
    assert (w = t' /\ sem' = Sem (val (sem s) + 1) w' None) as [-> ->] by (split; congruence).
    rewrite T, W in *. split; simpl; [done| | |].
    + rewrite length_app in *. simpl in *. lia.
    + apply remove_mid in Ha. eapply NoDup_Permutation_proper; [|exact Ha].
      rewrite app_assoc. rewrite (Permutation_app_comm _ [t']). done.
    + constructor.
      * destruct Hok as [_ _ Hw _]. rewrite W in Hw. apply Forall_app in Hw as [_ Hw].
        by apply Forall_cons in Hw as [? _].
      * apply Forall_app in Ht as [? Ht]. apply Forall_cons in Ht as [? ?]. by apply Forall_app.
Qed.

Lemma steps_awake s s' : rtc step s s' -> awake s' = [] -> awake s = [].
Proof. induction 1; eauto using step_awake. Qed.

Lemma reachable_inv n s s' :
  n < 2 ^ 31 - 2 -> rtc step s s' -> awake s' = [] -> sys_inv n s -> sys_inv n s'.
Proof. intros Hn. induction 1; eauto using step_inv, steps_awake. Qed.

Lemma init_inv n : 0 <= n < 2 ^ 31 - 2 -> sys_inv n (Sys (sem_init n) [] []).
Proof. intros H. split; simpl; [apply sem_init_ok; lia|lia|constructor..]. Qed.

(** *** Theorems *)


(** The guarantee ends with the first task that is killed while it waits: the killed
    task joins the [n] tasks that have the units, and when it was the oldest of the
    list the next [sem_signal] stops the machine on its assertion. *)
Theorem sem_killed_waiter n s t :
  0 <= n < 2 ^ 31 - 2 -> rtc step (Sys (sem_init n) [] []) s -> awake s = [] ->
  t ∈ waiting (sem s) ->
  exists s', rtc step s s' /\ Z.of_nat (length (inside s')) = n + 1 /\
    (forall w, waiting (sem s) = w ++ [t] -> sem_signal (blocked s') (sem s') = Panic).
Proof.
  intros Hn Hr Haw Hin.
  pose proof (reachable_inv n _ _ ltac:(lia) Hr Haw (init_inv n Hn)) as [Hok Hu Ha Ht].
  pose proof (sem_lower _ Hok) as Hlo. unfold NTASK in Hlo.
  assert (val (sem s) < 0) as Hneg.
  { destruct Hok as [_ Hc _ _]. destruct (Z.ltb_spec (val (sem s)) 0); [done|].
    rewrite Hc in Hin. set_solver. }
  exists (Sys (sem_wait_resume t (sem s)) (t :: inside s) [t]). split_and!.
  - eapply rtc_l; [apply (step_kill s t); [done|rewrite Haw; set_solver]|]. rewrite Haw.
    apply rtc_once. apply (step_killed_resume (Sys (sem s) (inside s) [t])); simpl; [set_solver|].
    apply NoDup_app in Ha as (_ & Ha & _). naive_solver.
  - cbn [inside length]. lia.
  - intros w Hw. unfold sem_signal. simpl. rewrite i32_small by (unfold is_i32; lia).
    rewrite (proj2 (Z.leb_le _ _)) by lia. rewrite Hw, poll_app. unfold blocked, blocked_but. simpl.
    by rewrite Z.eqb_refl.
Qed.

(** [sem_signalall] wakes up every waiting task, oldest first, and ends: on a
    well-formed semaphore it never finds its waiting list empty, and it leaves the
    semaphore with nobody waiting.  When tasks were waiting, the value ends at 1. *)
Theorem sem_signalall_wakes_all s :
  sem_ok s -> val s < 0 ->
  sem_signalall all_blocked (S (length (waiting s))) s = Ok (rev (waiting s), Sem 1 [] None).
Proof.
  intros [H1 H2 H3 H4] Hneg. unfold sem_signalall.
  rewrite (proj2 (Z.ltb_lt _ _)) in H2 by lia.
  rewrite sem_signalall_loop_spec; [done|done|lia|by apply tasks_bound|lia].
Qed.


Lemma sem_signalall_wakes_all_witness :
  sem_signalall all_blocked 3 (Sem (-2) [9; 7] (Some 4)) = Ok ([7; 9], Sem 1 [] None).
Proof.
  apply (sem_signalall_wakes_all (Sem (-2) [9; 7] (Some 4))); [|simpl; lia].
  split; simpl; [unfold is_i32; lia|lia|repeat constructor; unfold is_task, NTASK; lia|].
  by apply (bool_decide_unpack _); vm_compute.
Defined.
End Semaphore.
