(* ===== verification/RingBuffer.v ===== *)
(** The bounded buffer of src/kernel/ringbuffer.c and src/include/kernel/ringbuffer.h,
    which pipes and the keyboard driver use.

    An operation runs with interrupts off and can only be suspended where it waits
    for one of its two semaphores, so each operation is modelled by two atomic
    parts: the part up to the wait, which may block, and the part after it.  The
    step relation at the end of the file interleaves the parts of any number of
    readers and writers.  As in Semaphore.v, [blocked] says which of the waiting tasks
    are in state TASK_BLOCKED: all of them, until [task_kill] makes one ready. *)

From stdpp Require Import base numbers list gmap relations.
From Stdlib Require Import ZArith Lia.
From S2P Require Import Prelude Semaphore.
Import Semaphore.
#[local] Open Scope Z_scope.

Module RingBuffer.

(** [enum ringbuffer_chan]. *)
Inductive ringbuffer_chan := RBUF_WRITE | RBUF_READ.

(** [struct ringbuffer]; [buf] is the memory it was given. *)
Record ringbuffer := RB {
  buf : list Z;
  size : Z;
  head : Z;
  tail : Z;
  rclosed : bool;
  wclosed : bool;
  empty_sem : semaphore;
  full_sem : semaphore;
}.

(** The macros BUFFER_NEXT_POS, BUFFER_ISFULL and BUFFER_ISEMPTY. *)
Definition BUFFER_NEXT_POS (size pos : Z) : Z := u32 (pos + 1) mod size.

Definition BUFFER_ISFULL (rb : ringbuffer) : bool :=
  BUFFER_NEXT_POS (size rb) (head rb) =? tail rb.

Definition BUFFER_ISEMPTY (rb : ringbuffer) : bool := head rb =? tail rb.

Definition ringbuffer_init (size : Z) : ringbuffer :=
  RB (replicate (Z.to_nat size) 0) size 0 0 false false (sem_init size) (sem_init 0).

Definition ringbuffer_isfull (rb : ringbuffer) : bool := BUFFER_ISFULL rb.

Definition ringbuffer_isempty (rb : ringbuffer) : bool := BUFFER_ISEMPTY rb.

Definition set_empty_sem (rb : ringbuffer) (s : semaphore) : ringbuffer :=
  RB (buf rb) (size rb) (head rb) (tail rb) (rclosed rb) (wclosed rb) s (full_sem rb).

Definition set_full_sem (rb : ringbuffer) (s : semaphore) : ringbuffer :=
  RB (buf rb) (size rb) (head rb) (tail rb) (rclosed rb) (wclosed rb) (empty_sem rb) s.

(** What a call comes to: it returns (with the byte read, for a reader) after waking
    up at most one task, or it blocks the calling task. *)
Inductive call :=
| Return (r : Z) (ch : option Z) (woken : option Z) (rb : ringbuffer)
| Block (rb : ringbuffer).

(** [ringbuffer_put_char] from the test after [sem_wait] on. *)
Definition put_char_resume (blocked : Z -> bool) (killed : bool) (ch : Z) (rb : ringbuffer) : outcome call :=
  if rclosed rb || killed then Ok (Return (-1) None None rb)
  else
    let rb := RB (<[Z.to_nat (head rb) := ch]> (buf rb)) (size rb)
                 (BUFFER_NEXT_POS (size rb) (head rb)) (tail rb)
                 (rclosed rb) (wclosed rb) (empty_sem rb) (full_sem rb) in
    match sem_signal blocked (full_sem rb) with
    | Ok (w, s) => Ok (Return 1 None w (set_full_sem rb s))
    | Panic => Panic
    | Hang => Hang
    end.

Definition ringbuffer_put_char (blocked : Z -> bool) (cur : Z) (killed : bool) (ch : Z)
    (rb : ringbuffer) : outcome call :=
  if rclosed rb then Ok (Return (-1) None None rb)
  else
    match sem_wait cur (empty_sem rb) with
    | Acquired s => put_char_resume blocked killed ch (set_empty_sem rb s)
    | Blocks s => Ok (Block (set_empty_sem rb s))
    end.

(** [ringbuffer_read_char] from the test after [sem_wait] on. *)
Definition read_char_resume (blocked : Z -> bool) (killed : bool) (rb : ringbuffer) : outcome call :=
  if (BUFFER_ISEMPTY rb && wclosed rb) || killed then Ok (Return (-1) None None rb)
  else
    let ch := buf rb !!! Z.to_nat (tail rb) in
    let rb := RB (buf rb) (size rb) (head rb) (BUFFER_NEXT_POS (size rb) (tail rb))
                 (rclosed rb) (wclosed rb) (empty_sem rb) (full_sem rb) in
    match sem_signal blocked (empty_sem rb) with
    | Ok (w, s) => Ok (Return 1 (Some ch) w (set_empty_sem rb s))
    | Panic => Panic
    | Hang => Hang
    end.

Definition ringbuffer_read_char (blocked : Z -> bool) (cur : Z) (killed : bool)
    (rb : ringbuffer) : outcome call :=
  if BUFFER_ISEMPTY rb && wclosed rb then Ok (Return (-1) None None rb)
  else
    match sem_wait cur (full_sem rb) with
    | Acquired s => read_char_resume blocked killed (set_full_sem rb s)
    | Blocks s => Ok (Block (set_full_sem rb s))
    end.

(** [ringbuffer_close]: the tasks woken up and the buffer. *)
Definition ringbuffer_close (blocked : Z -> bool) (rb : ringbuffer) (rw : ringbuffer_chan)
    : outcome (list Z * ringbuffer) :=
  match rw with
  | RBUF_READ =>
      let rb := RB (buf rb) (size rb) (head rb) (tail rb) true (wclosed rb)
                   (empty_sem rb) (full_sem rb) in
      match sem_signalall blocked (S (length (waiting (empty_sem rb)))) (empty_sem rb) with
      | Ok (ws, s) => Ok (ws, set_empty_sem rb s)
      | Panic => Panic
      | Hang => Hang
      end
  | RBUF_WRITE =>
      let rb := RB (buf rb) (size rb) (head rb) (tail rb) (rclosed rb) true
                   (empty_sem rb) (full_sem rb) in
      match sem_signalall blocked (S (length (waiting (full_sem rb)))) (full_sem rb) with
      | Ok (ws, s) => Ok (ws, set_full_sem rb s)
      | Panic => Panic
      | Hang => Hang
      end
  end.

(** *** Readers and writers

    The state of the tasks around one buffer: writers blocked in [sem_wait] with the
    byte they want to store, in the order of the waiting list, writers and readers
    that were woken up and have not run yet, and the bytes stored and read so far. *)

Record rsys := RSys {
  rbuf : ringbuffer;
  wblocked : list (Z * Z);
  wgranted : list (Z * Z);
  rgranted : list Z;
  written : list Z;
  got : list Z;
}.

Definition busy (s : rsys) : list Z :=
  (wblocked s).*1 ++ (wgranted s).*1 ++ rgranted s ++ waiting (full_sem (rbuf s)).

(** The bytes a call adds to a history. *)
Definition stored (r ch : Z) : list Z := if r =? 1 then [ch] else [].

Definition fetched (ch : option Z) : list Z := match ch with Some c => [c] | None => [] end.

(** A woken reader is one more granted reader; a woken writer leaves the end of the
    list of blocked writers. *)
Definition grant_reader (w : option Z) (rg : list Z) : list Z :=
  match w with Some t => t :: rg | None => rg end.

Definition still_blocked (w : option Z) (wb : list (Z * Z)) : list (Z * Z) :=
  match w with Some _ => take (length wb - 1) wb | None => wb end.

Definition grant_writer (w : option Z) (wb wg : list (Z * Z)) : list (Z * Z) :=
  match w with Some _ => drop (length wb - 1) wb ++ wg | None => wg end.

(** The buffer with [holder] set by a task that comes back from [sem_wait]. *)
Definition writer_back (t : Z) (rb : ringbuffer) : ringbuffer :=
  set_empty_sem rb (sem_wait_resume t (empty_sem rb)).

Definition reader_back (t : Z) (rb : ringbuffer) : ringbuffer :=
  set_full_sem rb (sem_wait_resume t (full_sem rb)).

(** The callers' discipline: nobody writes after the write end is closed, nobody
    reads after the read end is closed, and an end is closed when no task is using
    it (src/include/kernel/ringbuffer.h, comment of [ringbuffer_close]). *)
Inductive rstep (blocked : Z -> bool) : rsys -> rsys -> Prop :=
| rs_put s t killed ch r c w rb' :
    is_task t -> t ∉ busy s -> wclosed (rbuf s) = false ->
    ringbuffer_put_char blocked t killed ch (rbuf s) = Ok (Return r c w rb') ->
    rstep blocked s (RSys rb' (wblocked s) (wgranted s) (grant_reader w (rgranted s))
                  (written s ++ stored r ch) (got s))
| rs_put_block s t killed ch rb' :
    is_task t -> t ∉ busy s -> wclosed (rbuf s) = false ->
    ringbuffer_put_char blocked t killed ch (rbuf s) = Ok (Block rb') ->
    rstep blocked s (RSys rb' ((t, ch) :: wblocked s) (wgranted s) (rgranted s) (written s) (got s))
| rs_put_resume s t killed ch l1 l2 r c w rb' :
    wgranted s = l1 ++ (t, ch) :: l2 ->
    put_char_resume blocked killed ch (writer_back t (rbuf s)) = Ok (Return r c w rb') ->
    rstep blocked s (RSys rb' (wblocked s) (l1 ++ l2) (grant_reader w (rgranted s))
                  (written s ++ stored r ch) (got s))
| rs_read s t killed r c w rb' :
    is_task t -> t ∉ busy s -> rclosed (rbuf s) = false ->
    ringbuffer_read_char blocked t killed (rbuf s) = Ok (Return r c w rb') ->
    rstep blocked s (RSys rb' (still_blocked w (wblocked s)) (grant_writer w (wblocked s) (wgranted s))
                  (rgranted s) (written s) (got s ++ fetched c))
| rs_read_block s t killed rb' :
    is_task t -> t ∉ busy s -> rclosed (rbuf s) = false ->
    ringbuffer_read_char blocked t killed (rbuf s) = Ok (Block rb') ->
    rstep blocked s (RSys rb' (wblocked s) (wgranted s) (rgranted s) (written s) (got s))
| rs_read_resume s t killed l1 l2 r c w rb' :
    rgranted s = l1 ++ t :: l2 ->
    read_char_resume blocked killed (reader_back t (rbuf s)) = Ok (Return r c w rb') ->
    rstep blocked s (RSys rb' (still_blocked w (wblocked s)) (grant_writer w (wblocked s) (wgranted s))
                  (l1 ++ l2) (written s) (got s ++ fetched c))
| rs_close_write s ws rb' :
    wclosed (rbuf s) = false -> wblocked s = [] -> wgranted s = [] ->
    ringbuffer_close blocked (rbuf s) RBUF_WRITE = Ok (ws, rb') ->
    rstep blocked s (RSys rb' [] [] (ws ++ rgranted s) (written s) (got s))
| rs_close_read s ws rb' :
    rclosed (rbuf s) = false -> waiting (full_sem (rbuf s)) = [] -> rgranted s = [] ->
    ringbuffer_close blocked (rbuf s) RBUF_READ = Ok (ws, rb') ->
    rstep blocked s (RSys rb' [] (wblocked s ++ wgranted s) [] (written s) (got s)).

(** The tasks around the buffer and [task_kill], which nothing under src/ calls: a task
    in one of the two waiting lists is made ready without being taken off the list.  It
    comes back from [sem_wait] with no unit, finds [killed] set and returns -1; its node
    stays in the list while the task is not blocked.  [rawake] are these tasks. *)
Record rksys := RKSys { rk : rsys; rawake : list Z }.

Definition set_rbuf (s : rsys) (rb : ringbuffer) : rsys :=
  RSys rb (wblocked s) (wgranted s) (rgranted s) (written s) (got s).

Inductive rkstep : rksys -> rksys -> Prop :=
| rk_step k s' :
    rstep (blocked_but (rawake k)) (rk k) s' ->
    rkstep k (RKSys s' (rawake k))
| rk_kill k t :
    t ∈ waiting (empty_sem (rbuf (rk k))) \/ t ∈ waiting (full_sem (rbuf (rk k))) ->
    t ∉ rawake k ->
    rkstep k (RKSys (rk k) (t :: rawake k))
| rk_killed_writer k t ch r c w rb' :
    t ∈ rawake k -> (t, ch) ∈ wblocked (rk k) ->
    put_char_resume (blocked_but (rawake k)) true ch (writer_back t (rbuf (rk k))) =
      Ok (Return r c w rb') ->
    rkstep k (RKSys (set_rbuf (rk k) rb') (rawake k))
| rk_killed_reader k t r c w rb' :
    t ∈ rawake k -> t ∈ waiting (full_sem (rbuf (rk k))) ->
    read_char_resume (blocked_but (rawake k)) true (reader_back t (rbuf (rk k))) =
      Ok (Return r c w rb') ->
    rkstep k (RKSys (set_rbuf (rk k) rb') (rawake k)).

Definition rinit (size : Z) : rsys := RSys (ringbuffer_init size) [] [] [] [] [].

(** *** The invariant *)

(** The [cnt] bytes from [tail] on, around the end of the memory. *)
Definition contents (rb : ringbuffer) (cnt : nat) : list Z :=
  map (fun i => buf rb !!! Z.to_nat ((tail rb + Z.of_nat i) mod size rb)) (seq 0 cnt).

Record data_inv (rb : ringbuffer) (wr gt : list Z) (cnt : nat) : Prop := {
  d_size : 0 < size rb <= 2 ^ 20;
  d_len : Z.of_nat (length (buf rb)) = size rb;
  d_tail : 0 <= tail rb < size rb;
  d_head : head rb = (tail rb + Z.of_nat cnt) mod size rb;
  d_cnt : Z.of_nat cnt <= size rb;
  d_fifo : wr = gt ++ contents rb cnt;
}.

(** Every free slot backs a unit of [empty_sem] or a writer that has one, and every
    unit of [full_sem], or reader that has one, is backed by a byte. *)
Record token_inv (s : rsys) (cnt : nat) : Prop := {
  t_empty_ok : sem_ok (empty_sem (rbuf s));
  t_full_ok : sem_ok (full_sem (rbuf s));
  t_empty_le : val (empty_sem (rbuf s)) <= size (rbuf s) + 1;
  t_full_le : val (full_sem (rbuf s)) <= size (rbuf s) + 1;
  t_blocked : (wblocked s).*1 = waiting (empty_sem (rbuf s));
  t_empty : rclosed (rbuf s) = false ->
    Z.max 0 (val (empty_sem (rbuf s))) + Z.of_nat (length (wgranted s)) + Z.of_nat cnt
      <= size (rbuf s);
  t_full : wclosed (rbuf s) = false ->
    Z.max 0 (val (full_sem (rbuf s))) + Z.of_nat (length (rgranted s)) <= Z.of_nat cnt;
  t_wclosed : wclosed (rbuf s) = true -> wblocked s = [] /\ wgranted s = [];
  t_rclosed : rclosed (rbuf s) = true -> rgranted s = [] /\ waiting (full_sem (rbuf s)) = [];
}.

Definition rinv (s : rsys) : Prop :=
  exists cnt, data_inv (rbuf s) (written s) (got s) cnt /\ token_inv s cnt.

(** *** The data part *)

Lemma mod_wrap x s : 0 < s -> 0 <= x < 2 * s -> x mod s = if x <? s then x else x - s.
Proof.
  intros Hs Hx. destruct (Z.ltb_spec x s); [apply Z.mod_small; lia|].
  symmetry. apply (Z.mod_unique_pos x s 1); lia.
Qed.

Lemma next_pos rb wr gt cnt pos :
  data_inv rb wr gt cnt -> 0 <= pos < size rb ->
  BUFFER_NEXT_POS (size rb) pos = (pos + 1) mod size rb.
Proof.
  intros [Hs _ _ _ _ _] Hp. unfold BUFFER_NEXT_POS. rewrite u32_small; [done|].
  unfold is_u32. lia.
Qed.

Lemma head_range rb wr gt cnt : data_inv rb wr gt cnt -> 0 <= head rb < size rb.
Proof. intros [Hs _ _ -> _ _]. apply Z.mod_pos_bound. lia. Qed.

Lemma put_data rb wr gt cnt ch fs :
  data_inv rb wr gt cnt -> Z.of_nat cnt < size rb ->
  data_inv (RB (<[Z.to_nat (head rb) := ch]> (buf rb)) (size rb)
               (BUFFER_NEXT_POS (size rb) (head rb)) (tail rb) (rclosed rb) (wclosed rb)
               (empty_sem rb) fs) (wr ++ [ch]) gt (S cnt).
Proof.
  intros Hd Hc. pose proof (head_range _ _ _ _ Hd) as Hh.
  rewrite (next_pos _ _ _ _ _ Hd Hh). destruct Hd as [H1 H2 H3 H4 H5 H6].
  split; simpl; [done|by rewrite length_insert|done| |lia|].
  - rewrite H4, Zplus_mod_idemp_l. f_equal. lia.
  - rewrite H6, <- app_assoc. f_equal. unfold contents. simpl tail. simpl buf. simpl size.
    rewrite seq_S, map_app. simpl. f_equal.
    + apply map_ext_in. intros i Hi%in_seq. symmetry.
      apply list_lookup_total_insert_ne. rewrite H4.
      assert (0 <= (tail rb + Z.of_nat i) mod size rb < size rb) by (apply Z.mod_pos_bound; lia).
      intros Heq. apply (f_equal Z.of_nat) in Heq.
      rewrite !Z2Nat.id in Heq by (rewrite <- ?H4; lia).
      rewrite !mod_wrap in Heq by lia.
      destruct (Z.ltb_spec (tail rb + Z.of_nat cnt) (size rb)),
        (Z.ltb_spec (tail rb + Z.of_nat i) (size rb)); lia.
    + rewrite <- H4. rewrite list_lookup_total_insert_eq; [done|]. lia.
Qed.

Lemma get_data rb wr gt cnt es :
  data_inv rb wr gt (S cnt) ->
  data_inv (RB (buf rb) (size rb) (head rb) (BUFFER_NEXT_POS (size rb) (tail rb))
               (rclosed rb) (wclosed rb) es (full_sem rb))
           wr (gt ++ [buf rb !!! Z.to_nat (tail rb)]) cnt.
Proof.
  intros Hd. pose proof (d_tail _ _ _ _ Hd) as Ht.
  rewrite (next_pos _ _ _ _ _ Hd Ht). destruct Hd as [H1 H2 H3 H4 H5 H6].
  split; simpl; [done|done|apply Z.mod_pos_bound; lia| |lia|].
  - rewrite H4, Zplus_mod_idemp_l. f_equal. lia.
  - rewrite H6, <- app_assoc. f_equal. unfold contents. simpl.
    rewrite Z.add_0_r, Z.mod_small by lia. f_equal. rewrite <- seq_shift, map_map.
    apply map_ext. intros i. do 2 f_equal. rewrite Zplus_mod_idemp_l. f_equal. lia.
Qed.

(** Only the data fields matter. *)
Lemma data_inv_ext rb rb' wr gt cnt :
  data_inv rb wr gt cnt -> buf rb' = buf rb -> size rb' = size rb -> head rb' = head rb ->
  tail rb' = tail rb -> data_inv rb' wr gt cnt.
Proof.
  intros [H1 H2 H3 H4 H5 H6] E1 E2 E3 E4.
  split; rewrite ?E1, ?E2, ?E3, ?E4; try done. unfold contents in *. by rewrite E1, E2, E4.
Qed.

Lemma nonempty_cnt rb wr gt cnt :
  data_inv rb wr gt cnt -> BUFFER_ISEMPTY rb = false -> (0 < cnt)%nat.
Proof.
  intros [H1 H2 H3 H4 H5 H6] E. unfold BUFFER_ISEMPTY in E. bprop. destruct cnt; [|lia].
  exfalso. apply E. rewrite H4, Z.add_0_r. by rewrite Z.mod_small.
Qed.

Lemma empty_cnt rb wr gt cnt :
  data_inv rb wr gt cnt -> BUFFER_ISEMPTY rb = true -> cnt = 0%nat \/ Z.of_nat cnt = size rb.
Proof.
  intros [H1 H2 H3 H4 H5 H6] E. unfold BUFFER_ISEMPTY in E. bprop. rewrite H4 in E.
  rewrite mod_wrap in E by lia.
  destruct (Z.ltb_spec (tail rb + Z.of_nat cnt) (size rb)); lia.
Qed.

(** *** The two parts after the waits *)

Lemma put_char_resume_inv killed ch rb r c w rb' :
  put_char_resume all_blocked killed ch rb = Ok (Return r c w rb') ->
  (r = -1 /\ c = None /\ w = None /\ rb' = rb) \/
  (r = 1 /\ c = None /\ rclosed rb = false /\ exists s, sem_signal all_blocked (full_sem rb) = Ok (w, s) /\
   rb' = RB (<[Z.to_nat (head rb) := ch]> (buf rb)) (size rb)
            (BUFFER_NEXT_POS (size rb) (head rb)) (tail rb) (rclosed rb) (wclosed rb)
            (empty_sem rb) s).
Proof.
  unfold put_char_resume. destruct (rclosed rb) eqn:Er; simpl.
  - intros [=]. left. auto.
  - destruct killed; [intros [=]; left; auto|].
    destruct (sem_signal all_blocked (full_sem rb)) as [[w' s]| |] eqn:Es; intros [=]; subst.
    right. split_and!; try done. exists s. done.
Qed.

Lemma read_char_resume_inv killed rb r c w rb' :
  read_char_resume all_blocked killed rb = Ok (Return r c w rb') ->
  (r = -1 /\ c = None /\ w = None /\ rb' = rb) \/
  (r = 1 /\ c = Some (buf rb !!! Z.to_nat (tail rb)) /\
   (BUFFER_ISEMPTY rb = false \/ wclosed rb = false) /\
   exists s, sem_signal all_blocked (empty_sem rb) = Ok (w, s) /\
   rb' = RB (buf rb) (size rb) (head rb) (BUFFER_NEXT_POS (size rb) (tail rb)) (rclosed rb)
            (wclosed rb) s (full_sem rb)).
Proof.
  unfold read_char_resume. intros H.
  destruct (BUFFER_ISEMPTY rb && wclosed rb) eqn:E; [left; simpl in H; inversion H; auto|].
  simpl in H. destruct killed; [left; inversion H; auto|].
  apply andb_false_iff in E. right.
  destruct (sem_signal all_blocked (empty_sem rb)) as [[w' s]| |] eqn:Es; inversion H; subst.
  split_and!; try done. exists s. done.
Qed.

(** A byte stored when a free slot is guaranteed. *)
Lemma put_core rb wb wg rg wr gt cnt ch w s :
  data_inv rb wr gt cnt -> token_inv (RSys rb wb wg rg wr gt) cnt -> Z.of_nat cnt < size rb ->
  wclosed rb = false ->
  (rclosed rb = false -> Z.max 0 (val (empty_sem rb)) + Z.of_nat (length wg) + Z.of_nat cnt
     < size rb) ->
  rclosed rb = false ->
  sem_signal all_blocked (full_sem rb) = Ok (w, s) ->
  rinv (RSys (RB (<[Z.to_nat (head rb) := ch]> (buf rb)) (size rb)
            (BUFFER_NEXT_POS (size rb) (head rb)) (tail rb) (rclosed rb) (wclosed rb)
            (empty_sem rb) s) wb wg (grant_reader w rg) (wr ++ [ch]) gt).
Proof.
  intros Hd [T1 T2 T3 T4 T5 T6 T7 T8 T9] Hc Hw Hsl Hrc Hs. simpl in *.
  exists (S cnt). split; [by apply put_data|].
  destruct Hd as [D1 _ _ _ _ _]. specialize (T7 Hw). specialize (Hsl Hrc).
  destruct (sem_signal_cases (full_sem rb)) as [(V & E & Hok)|(V & w' & t & W & E & Hok)];
    [done|lia|..]; rewrite E in Hs; inversion Hs; subst; clear Hs.
  - split; simpl; try done; try lia. rewrite Hrc. done.
  - split; simpl; try done; try lia. rewrite Hrc. done.
Qed.

(** A byte read when one is there. *)
Lemma get_core rb wb wg rg wr gt cnt w s :
  data_inv rb wr gt (S cnt) -> token_inv (RSys rb wb wg rg wr gt) (S cnt) ->
  rclosed rb = false ->
  (wclosed rb = false -> Z.max 0 (val (full_sem rb)) + Z.of_nat (length rg) <= Z.of_nat cnt) ->
  sem_signal all_blocked (empty_sem rb) = Ok (w, s) ->
  rinv (RSys (RB (buf rb) (size rb) (head rb) (BUFFER_NEXT_POS (size rb) (tail rb)) (rclosed rb)
            (wclosed rb) s (full_sem rb)) (still_blocked w wb) (grant_writer w wb wg) rg wr
            (gt ++ [buf rb !!! Z.to_nat (tail rb)])).
Proof.
  intros Hd [T1 T2 T3 T4 T5 T6 T7 T8 T9] Hrc Hbyte Hs. simpl in *.
  exists cnt. split; [by apply get_data|].
  destruct Hd as [D1 _ _ _ D5 _]. specialize (T6 Hrc).
  destruct (sem_signal_cases (empty_sem rb)) as [(V & E & Hok)|(V & w' & t & W & E & Hok)];
    [done|lia|..]; rewrite E in Hs; inversion Hs; subst; clear Hs.
  - split; simpl; try done; try lia.
    destruct T1 as [_ T1 _ _]. rewrite (proj2 (Z.ltb_ge _ _)) in T1 by lia. congruence.
  - rewrite W in T5. destruct wb as [|p wb _] using rev_ind; [by destruct w'|].
    rewrite fmap_app in T5. apply app_inj_tail in T5 as [T5 _].
    assert (Hl : (length (wb ++ [p]) - 1 = length wb)%nat) by (rewrite length_app; simpl; lia).
    split; simpl; rewrite ?Hl, ?take_app_length, ?drop_app_length; try done; try lia.
    + simpl. lia.
    + intros Hw. destruct (T8 Hw) as [Hnil _]. by destruct wb.
Qed.

(** *** Preservation *)

Lemma signalall_cases s :
  sem_ok s -> val s + 1 < 2 ^ 31 - 1 ->
  exists h v, sem_signalall all_blocked (S (length (waiting s))) s = Ok (rev (waiting s), Sem v [] h) /\
    sem_ok (Sem v [] h) /\ v <= Z.max 1 (val s + 1) /\ (waiting s <> [] -> val s < 0).
Proof.
  intros [H1 H2 H3 H4] Hb. unfold sem_signalall. exists None.
  destruct (Z.ltb_spec (val s) 0) as [Hlt|Hge].
  - exists 1. rewrite sem_signalall_loop_spec by (try apply tasks_bound; try done; lia).
    split; [done|]. split; [apply sem_init_ok|]; lia.
  - exists (val s + 1). rewrite H2. simpl. rewrite i32_small by (unfold is_i32 in *; lia).
    rewrite (proj2 (Z.leb_gt _ _)) by lia.
    split; [done|]. split; [|split; [lia|done]].
    split; simpl; [unfold is_i32 in *; lia| |constructor|constructor].
    rewrite (proj2 (Z.ltb_ge _ _)) by lia. done.
Qed.

(** The tokens after a unit of [empty_sem] is taken by the running task. *)
Lemma token_take_empty rb wb wg rg wr gt cnt h :
  token_inv (RSys rb wb wg rg wr gt) cnt -> 0 < val (empty_sem rb) ->
  token_inv (RSys (set_empty_sem rb (Sem (val (empty_sem rb) - 1) [] h)) wb wg rg wr gt) cnt.
Proof.
  intros [T1 T2 T3 T4 T5 T6 T7 T8 T9] Hv. simpl in *.
  destruct T1 as [[A1 A2] A3 A4 A5]. rewrite (proj2 (Z.ltb_ge _ _)) in A3 by lia.
  split; simpl; try done; try lia.
  - split; simpl; [unfold is_i32 in *; lia| |constructor|constructor].
    rewrite (proj2 (Z.ltb_ge _ _)) by lia. done.
  - congruence.
  - intros Hr. specialize (T6 Hr). lia.
Qed.

Lemma token_take_full rb wb wg rg wr gt cnt h :
  token_inv (RSys rb wb wg rg wr gt) cnt -> 0 < val (full_sem rb) ->
  token_inv (RSys (set_full_sem rb (Sem (val (full_sem rb) - 1) [] h)) wb wg rg wr gt) cnt.
Proof.
  intros [T1 T2 T3 T4 T5 T6 T7 T8 T9] Hv. simpl in *.
  destruct T2 as [[A1 A2] A3 A4 A5]. rewrite (proj2 (Z.ltb_ge _ _)) in A3 by lia.
  split; simpl; try done; try lia.
  - split; simpl; [unfold is_i32 in *; lia| |constructor|constructor].
    rewrite (proj2 (Z.ltb_ge _ _)) by lia. done.
  - intros Hr. specialize (T7 Hr). lia.
  - intros Hr. split; [by apply T9|done].
Qed.

Lemma put_after_wait rb wb wg rg wr gt cnt killed ch r c w rb' :
  data_inv rb wr gt cnt -> token_inv (RSys rb wb wg rg wr gt) cnt -> wclosed rb = false ->
  (rclosed rb = false -> Z.max 0 (val (empty_sem rb)) + Z.of_nat (length wg) + Z.of_nat cnt
     < size rb) ->
  put_char_resume all_blocked killed ch rb = Ok (Return r c w rb') ->
  rinv (RSys rb' wb wg (grant_reader w rg) (wr ++ stored r ch) gt).
Proof.
  intros Hd Ht Hw Hs E.
  apply put_char_resume_inv in E as [(-> & -> & -> & ->)|(-> & -> & Hr & s & E & ->)].
  - exists cnt. unfold stored. simpl. rewrite app_nil_r. split; [done|].
    destruct Ht. by split.
  - unfold stored. simpl. eapply put_core; try done. specialize (Hs Hr).
    pose proof (Zle_0_nat (length wg)). lia.
Qed.

Lemma read_after_wait rb wb wg rg wr gt cnt killed r c w rb' :
  data_inv rb wr gt cnt -> token_inv (RSys rb wb wg rg wr gt) cnt -> rclosed rb = false ->
  (wclosed rb = false -> Z.max 0 (val (full_sem rb)) + Z.of_nat (length rg) < Z.of_nat cnt) ->
  read_char_resume all_blocked killed rb = Ok (Return r c w rb') ->
  rinv (RSys rb' (still_blocked w wb) (grant_writer w wb wg) rg wr (gt ++ fetched c)).
Proof.
  intros Hd Ht Hr Hs E.
  apply read_char_resume_inv in E as [(-> & -> & -> & ->)|(-> & -> & Hb & s & E & ->)].
  - exists cnt. simpl. rewrite app_nil_r. split; [done|]. destruct Ht. by split.
  - assert (0 < cnt)%nat as Hc.
    { destruct Hb as [Hb|Hb]; [by eapply nonempty_cnt|]. specialize (Hs Hb). lia. }
    destruct cnt as [|cnt]; [lia|]. simpl. apply get_core with cnt; try done.
    intros Hw. specialize (Hs Hw). lia.
Qed.

Lemma rstep_inv_put s t killed ch r c w rb' :
  rinv s -> is_task t -> t ∉ busy s -> wclosed (rbuf s) = false ->
  ringbuffer_put_char all_blocked t killed ch (rbuf s) = Ok (Return r c w rb') ->
  rinv (RSys rb' (wblocked s) (wgranted s) (grant_reader w (rgranted s))
             (written s ++ stored r ch) (got s)).
Proof.
  destruct s as [rb wb wg rg wr gt]. simpl. intros (cnt & Hd & Ht) Htk Hb Hw E. simpl in *.
  unfold ringbuffer_put_char in E. destruct (rclosed rb) eqn:Er.
  - inversion E; subst. unfold stored. simpl. rewrite app_nil_r. by exists cnt.
  - assert (t ∉ waiting (empty_sem rb)) as Hn.
    { pose proof (t_blocked _ _ Ht) as Hbl. simpl in Hbl. rewrite <- Hbl.
      unfold busy in Hb. simpl in Hb. set_solver. }
    destruct (sem_wait_cases (empty_sem rb) t (t_empty_ok _ _ Ht) Htk Hn)
      as [(V & E' & _)|(V & E' & _)]; rewrite E' in E; [|done].
    eapply (put_after_wait _ _ _ _ _ _ cnt); [..|exact E].
    + by eapply data_inv_ext.
    + by apply token_take_empty.
    + done.
    + simpl. intros _. pose proof (t_empty _ _ Ht Er) as H. simpl in H. lia.
Qed.

Lemma rstep_inv_read s t killed r c w rb' :
  rinv s -> is_task t -> t ∉ busy s -> rclosed (rbuf s) = false ->
  ringbuffer_read_char all_blocked t killed (rbuf s) = Ok (Return r c w rb') ->
  rinv (RSys rb' (still_blocked w (wblocked s)) (grant_writer w (wblocked s) (wgranted s))
             (rgranted s) (written s) (got s ++ fetched c)).
Proof.
  destruct s as [rb wb wg rg wr gt]. simpl. intros (cnt & Hd & Ht) Htk Hb Hr E. simpl in *.
  unfold ringbuffer_read_char in E. destruct (BUFFER_ISEMPTY rb && wclosed rb) eqn:Ee.
  - inversion E; subst. simpl. rewrite app_nil_r. by exists cnt.
  - assert (t ∉ waiting (full_sem rb)) as Hn by (unfold busy in Hb; simpl in Hb; set_solver).
    destruct (sem_wait_cases (full_sem rb) t (t_full_ok _ _ Ht) Htk Hn)
      as [(V & E' & _)|(V & E' & _)]; rewrite E' in E; [|done].
    eapply (read_after_wait _ _ _ _ _ _ cnt); [..|exact E].
    + by eapply data_inv_ext.
    + by apply token_take_full.
    + done.
    + simpl. intros Hw. pose proof (t_full _ _ Ht Hw) as H. simpl in H. lia.
Qed.

Lemma rstep_inv_put_resume s t killed ch l1 l2 r c w rb' :
  rinv s -> wgranted s = l1 ++ (t, ch) :: l2 ->
  put_char_resume all_blocked killed ch (writer_back t (rbuf s)) = Ok (Return r c w rb') ->
  rinv (RSys rb' (wblocked s) (l1 ++ l2) (grant_reader w (rgranted s))
             (written s ++ stored r ch) (got s)).
Proof.
  destruct s as [rb wb wg rg wr gt]. simpl. intros (cnt & Hd & Ht) -> E. simpl in *.
  assert (wclosed rb = false) as Hw.
  { destruct (wclosed rb) eqn:Hw; [|done]. destruct (t_wclosed _ _ Ht Hw) as [_ H].
    simpl in H. by destruct l1. }
  pose proof (t_empty _ _ Ht) as Hte. simpl in Hte. rewrite length_app in Hte. simpl in Hte.
  eapply (put_after_wait (writer_back t rb) wb (l1 ++ l2) rg wr gt cnt); [..|exact E].
  - by eapply data_inv_ext.
  - destruct Ht as [T1 T2 T3 T4 T5 T6 T7 T8 T9]. simpl in *.
    split; simpl; try done; [by apply sem_ok_holder|intros Hr..].
    + specialize (Hte Hr). rewrite length_app. lia.
    + destruct (T8 Hr) as [_ H]. by destruct l1.
  - done.
  - simpl. intros Hr. specialize (Hte Hr). rewrite length_app. lia.
Qed.

Lemma rstep_inv_read_resume s t killed l1 l2 r c w rb' :
  rinv s -> rgranted s = l1 ++ t :: l2 ->
  read_char_resume all_blocked killed (reader_back t (rbuf s)) = Ok (Return r c w rb') ->
  rinv (RSys rb' (still_blocked w (wblocked s)) (grant_writer w (wblocked s) (wgranted s))
             (l1 ++ l2) (written s) (got s ++ fetched c)).
Proof.
  destruct s as [rb wb wg rg wr gt]. simpl. intros (cnt & Hd & Ht) -> E. simpl in *.
  assert (rclosed rb = false) as Hr.
  { destruct (rclosed rb) eqn:Hr; [|done]. destruct (t_rclosed _ _ Ht Hr) as [H _].
    simpl in H. by destruct l1. }
  pose proof (t_full _ _ Ht) as Htf. simpl in Htf. rewrite length_app in Htf. simpl in Htf.
  eapply (read_after_wait (reader_back t rb) wb wg (l1 ++ l2) wr gt cnt); [..|exact E].
  - by eapply data_inv_ext.
  - destruct Ht as [T1 T2 T3 T4 T5 T6 T7 T8 T9]. simpl in *.
    split; simpl; try done; [by apply sem_ok_holder|intros Hw..].
    + specialize (Htf Hw). rewrite length_app. lia.
    + congruence.
  - done.
  - simpl. intros Hw. specialize (Htf Hw). rewrite length_app. lia.
Qed.

Lemma rstep_inv_block s t killed ch rb' :
  rinv s -> is_task t -> t ∉ busy s -> wclosed (rbuf s) = false ->
  ringbuffer_put_char all_blocked t killed ch (rbuf s) = Ok (Block rb') ->
  rinv (RSys rb' ((t, ch) :: wblocked s) (wgranted s) (rgranted s) (written s) (got s)).
Proof.
  destruct s as [rb wb wg rg wr gt]. simpl. intros (cnt & Hd & Ht) Htk Hb Hw E. simpl in *.
  unfold ringbuffer_put_char in E. destruct (rclosed rb) eqn:Er; [done|].
  pose proof (t_blocked _ _ Ht) as Hbl. simpl in Hbl.
  assert (t ∉ waiting (empty_sem rb)) as Hn.
  { rewrite <- Hbl. unfold busy in Hb. simpl in Hb. set_solver. }
  destruct (sem_wait_cases (empty_sem rb) t (t_empty_ok _ _ Ht) Htk Hn)
    as [(V & E' & _)|(V & E' & Hok)]; rewrite E' in E.
  - unfold put_char_resume in E. destruct (_ || _); [done|]. by destruct (sem_signal _ _) as [[]| |].
  - inversion E; subst. exists cnt. split; [by eapply data_inv_ext|].
    destruct Ht as [T1 T2 T3 T4 T5 T6 T7 T8 T9]. simpl in *.
    split; simpl; try done; [lia|by f_equal| |congruence].
    intros Hr. specialize (T6 Hr). lia.
Qed.

Lemma rstep_inv_rblock s t killed rb' :
  rinv s -> is_task t -> t ∉ busy s -> rclosed (rbuf s) = false ->
  ringbuffer_read_char all_blocked t killed (rbuf s) = Ok (Block rb') ->
  rinv (RSys rb' (wblocked s) (wgranted s) (rgranted s) (written s) (got s)).
Proof.
  destruct s as [rb wb wg rg wr gt]. simpl. intros (cnt & Hd & Ht) Htk Hb Hr E. simpl in *.
  unfold ringbuffer_read_char in E. destruct (BUFFER_ISEMPTY rb && wclosed rb); [done|].
  assert (t ∉ waiting (full_sem rb)) as Hn by (unfold busy in Hb; simpl in Hb; set_solver).
  destruct (sem_wait_cases (full_sem rb) t (t_full_ok _ _ Ht) Htk Hn)
    as [(V & E' & _)|(V & E' & Hok)]; rewrite E' in E.
  - unfold read_char_resume in E. destruct (_ || _); [done|]. by destruct (sem_signal _ _) as [[]| |].
  - inversion E; subst. exists cnt. split; [by eapply data_inv_ext|].
    destruct Ht as [T1 T2 T3 T4 T5 T6 T7 T8 T9]. simpl in *.
    split; simpl; try done; [lia| |congruence].
    intros Hw. specialize (T7 Hw). lia.
Qed.

Lemma rstep_inv_close_w s ws rb' :
  rinv s -> wclosed (rbuf s) = false -> wblocked s = [] -> wgranted s = [] ->
  ringbuffer_close all_blocked (rbuf s) RBUF_WRITE = Ok (ws, rb') ->
  rinv (RSys rb' [] [] (ws ++ rgranted s) (written s) (got s)).
Proof.
  destruct s as [rb wb wg rg wr gt]. simpl. intros (cnt & Hd & Ht) Hw -> -> E. simpl in *.
  destruct Ht as [T1 T2 T3 T4 T5 T6 T7 T8 T9]. simpl in *. pose proof (d_size _ _ _ _ Hd).
  pose proof (d_cnt _ _ _ _ Hd). specialize (T7 Hw).
  destruct (signalall_cases (full_sem rb) T2) as (h & v & E' & Hok & Hv & Hne); [lia|].
  rewrite E' in E. inversion E; subst. exists cnt. split; [by eapply data_inv_ext|].
  split; simpl; try done; [lia|].
  intros Hr. destruct (T9 Hr) as [-> Hn]. rewrite Hn. done.
Qed.

Lemma rstep_inv_close_r s ws rb' :
  rinv s -> rclosed (rbuf s) = false -> waiting (full_sem (rbuf s)) = [] -> rgranted s = [] ->
  ringbuffer_close all_blocked (rbuf s) RBUF_READ = Ok (ws, rb') ->
  rinv (RSys rb' [] (wblocked s ++ wgranted s) [] (written s) (got s)).
Proof.
  destruct s as [rb wb wg rg wr gt]. simpl. intros (cnt & Hd & Ht) Hr Hf -> E. simpl in *.
  destruct Ht as [T1 T2 T3 T4 T5 T6 T7 T8 T9]. simpl in *. pose proof (d_size _ _ _ _ Hd).
  specialize (T6 Hr).
  destruct (signalall_cases (empty_sem rb) T1) as (h & v & E' & Hok & Hv & Hne); [lia|].
  rewrite E' in E. inversion E; subst. exists cnt. split; [by eapply data_inv_ext|].
  split; simpl; try done; [lia|].
  intros Hw. destruct (T8 Hw) as [-> ->]. done.
Qed.

Lemma rstep_inv s s' : rinv s -> rstep all_blocked s s' -> rinv s'.
Proof.
  intros Hi Hs. destruct Hs; eauto using rstep_inv_put, rstep_inv_read, rstep_inv_put_resume,
    rstep_inv_read_resume, rstep_inv_block, rstep_inv_rblock, rstep_inv_close_w, rstep_inv_close_r.
Qed.

Lemma reachable_rinv s s' : rtc (rstep all_blocked) s s' -> rinv s -> rinv s'.
Proof. induction 1; eauto using rstep_inv. Qed.

Lemma rinit_inv n : 0 < n <= 2 ^ 20 -> rinv (rinit n).
Proof.
  intros Hn. exists 0%nat. split.
  - split; simpl; try lia; [rewrite length_replicate; lia|by rewrite Z.mod_small by lia|done].
  - split; simpl; try done; try lia; apply sem_init_ok; lia.
Qed.

Lemma put_size killed ch rb r c w rb' :
  put_char_resume all_blocked killed ch rb = Ok (Return r c w rb') -> size rb' = size rb.
Proof. intros E. by apply put_char_resume_inv in E as [(_ & _ & _ & ->)|(_ & _ & _ & s & _ & ->)]. Qed.

Lemma read_size killed rb r c w rb' :
  read_char_resume all_blocked killed rb = Ok (Return r c w rb') -> size rb' = size rb.
Proof. intros E. by apply read_char_resume_inv in E as [(_ & _ & _ & ->)|(_ & _ & _ & s & _ & ->)]. Qed.

Lemma rstep_size s s' : rstep all_blocked s s' -> size (rbuf s') = size (rbuf s).
Proof.
  intros Hs. destruct Hs as [s t k ch r c w rb' _ _ _ E|s t k ch rb' _ _ _ E|s t k ch l1 l2 r c w rb' _ E
    |s t k r c w rb' _ _ _ E|s t k rb' _ _ _ E|s t k l1 l2 r c w rb' _ E
    |s ws rb' _ _ _ E|s ws rb' _ _ _ E]; simpl.
  - unfold ringbuffer_put_char in E. destruct (rclosed _); [by inversion E|].
    destruct (sem_wait _ _); [by apply put_size in E|done].
  - unfold ringbuffer_put_char in E. destruct (rclosed _); [done|].
    destruct (sem_wait _ _); [|by inversion E].
    unfold put_char_resume in E. destruct (_ || _); [done|]. by destruct (sem_signal _ _) as [[]| |].
  - by apply put_size in E.
  - unfold ringbuffer_read_char in E. destruct (_ && _); [by inversion E|].
    destruct (sem_wait _ _); [by apply read_size in E|done].
  - unfold ringbuffer_read_char in E. destruct (_ && _); [done|].
    destruct (sem_wait _ _); [|by inversion E].
    unfold read_char_resume in E. destruct (_ || _); [done|]. by destruct (sem_signal _ _) as [[]| |].
  - by apply read_size in E.
  - simpl in E. destruct (sem_signalall _ _ _) as [[]| |]; by inversion E.
  - simpl in E. destruct (sem_signalall _ _ _) as [[]| |]; by inversion E.
Qed.

Lemma reachable_size s s' : rtc (rstep all_blocked) s s' -> size (rbuf s') = size (rbuf s).
Proof. induction 1 as [|x y z H1 H2 IH]; [done|]. rewrite IH. by apply rstep_size. Qed.

(** A put into a buffer nobody waits on, when a unit is free. *)
Lemma put_free rb ch t :
  rclosed rb = false -> sem_ok (empty_sem rb) -> sem_ok (full_sem rb) ->
  0 < val (empty_sem rb) -> 0 <= val (full_sem rb) < 2 ^ 30 -> is_task t ->
  exists rb', ringbuffer_put_char all_blocked t false ch rb = Ok (Return 1 None None rb') /\
    rclosed rb' = false /\ wclosed rb' = wclosed rb /\
    empty_sem rb' = Sem (val (empty_sem rb) - 1) [] (Some t) /\
    full_sem rb' = Sem (val (full_sem rb) + 1) [] None.
Proof.
  intros Hr He Hf Hv Hv' Ht. unfold ringbuffer_put_char. rewrite Hr.
  destruct (sem_wait_cases (empty_sem rb) t) as [(V & E & _)|(V & E & _)]; [done|done| | |lia].
  { destruct He as [_ He _ _]. rewrite (proj2 (Z.ltb_ge _ _)) in He by lia.
    rewrite He. set_solver. }
  rewrite E. unfold put_char_resume. simpl. rewrite Hr. simpl.
  destruct (sem_signal_cases (full_sem rb)) as [(V' & E' & _)|(V' & w & t' & _)];
    [done|lia| |lia]. rewrite E'. eexists. split; [done|]. done.
Qed.

(** Filling the buffer without a reader. *)
Lemma fill_reachable n : 0 < n <= 2 ^ 20 -> forall k, Z.of_nat k <= n ->
  exists s, rtc (rstep all_blocked) (rinit n) s /\ wblocked s = [] /\ wgranted s = [] /\ rgranted s = [] /\
    rclosed (rbuf s) = false /\ wclosed (rbuf s) = false /\
    val (empty_sem (rbuf s)) = n - Z.of_nat k /\ val (full_sem (rbuf s)) = Z.of_nat k /\
    waiting (full_sem (rbuf s)) = [] /\
    length (written s) = k /\ got s = [].
Proof.
  intros Hn. induction k as [|k IH]; intros Hk.
  - exists (rinit n). split; [apply rtc_refl|]. simpl. split_and!; try done; lia.
  - destruct IH as (s & Hr & B1 & B2 & B3 & C1 & C2 & V1 & V2 & W & L & G); [lia|].
    pose proof (reachable_rinv _ _ Hr (rinit_inv n Hn)) as (cnt & Hd & Ht).
    destruct (put_free (rbuf s) 0 0) as (rb' & E & R1 & R2 & R3 & R4);
      [done|apply (t_empty_ok _ _ Ht)|apply (t_full_ok _ _ Ht)|lia|lia|unfold is_task, NTASK; lia|].
    exists (RSys rb' (wblocked s) (wgranted s) (grant_reader None (rgranted s))
               (written s ++ stored 1 0) (got s)).
    split.
    + eapply rtc_r; [exact Hr|]. eapply (rs_put _ s 0 false 0); [unfold is_task, NTASK; lia| |done|done].
      unfold busy. rewrite B1, B2, B3, W. set_solver.
    + simpl. rewrite R2, R3, R4. simpl. split_and!; try done; try lia.
      rewrite length_app. simpl. lia.
Qed.

(** *** Theorems *)

Lemma put_resume_safe s killed ch rb :
  rinv s -> full_sem rb = full_sem (rbuf s) -> put_char_resume all_blocked killed ch rb <> Panic.
Proof.
  intros (cnt & Hd & Ht) Hf. pose proof (d_size _ _ _ _ Hd). pose proof (t_full_le _ _ Ht).
  unfold put_char_resume. destruct (_ || _); [done|]. simpl. rewrite Hf.
  destruct (sem_signal_cases (full_sem (rbuf s)) (t_full_ok _ _ Ht))
    as [(_ & E & _)|(_ & w & t' & _ & E & _)]; [lia|..]; by rewrite E.
Qed.

Lemma read_resume_safe s killed rb :
  rinv s -> empty_sem rb = empty_sem (rbuf s) -> read_char_resume all_blocked killed rb <> Panic.
Proof.
  intros (cnt & Hd & Ht) Hf. pose proof (d_size _ _ _ _ Hd). pose proof (t_empty_le _ _ Ht).
  unfold read_char_resume. destruct (_ || _); [done|]. simpl. rewrite Hf.
  destruct (sem_signal_cases (empty_sem (rbuf s)) (t_empty_ok _ _ Ht))
    as [(_ & E & _)|(_ & w & t' & _ & E & _)]; [lia|..]; by rewrite E.
Qed.

Lemma close_safe s rw : rinv s -> exists ws rb', ringbuffer_close all_blocked (rbuf s) rw = Ok (ws, rb').
Proof.
  intros (cnt & Hd & Ht). pose proof (d_size _ _ _ _ Hd). destruct Ht as [T1 T2 T3 T4 _ _ _ _ _].
  destruct rw; unfold ringbuffer_close; simpl.
  - destruct (signalall_cases (full_sem (rbuf s)) T2) as (h & v & E & _); [lia|]. rewrite E. eauto.
  - destruct (signalall_cases (empty_sem (rbuf s)) T1) as (h & v & E & _); [lia|]. rewrite E. eauto.
Qed.

Lemma rkstep_awake k k' : rkstep k k' -> rawake k' = [] -> rawake k = [].
Proof. by destruct 1. Qed.

(** Until a waiting task is killed the steps are those of [rstep]. *)
Lemma rksteps_rsteps k k' :
  rtc rkstep k k' -> rawake k' = [] -> rawake k = [] /\ rtc (rstep all_blocked) (rk k) (rk k').
Proof.
  induction 1 as [k|k k1 k2 Hs Hr IH]; intros Hw; [split; [done|apply rtc_refl]|].
  destruct (IH Hw) as [Hw1 Hr1]. pose proof (rkstep_awake _ _ Hs Hw1) as Hw0. split; [done|].
  eapply rtc_l; [|exact Hr1].
  destruct Hs as [k s' Hs|k t _ _|k t ch r c w rb' Ht _ _|k t r c w rb' Ht _ _];
    rewrite ?Hw0 in *; [exact Hs|done|by apply not_elem_of_nil in Ht..].
Qed.

(** C17: the ring buffer is a FIFO of bounded capacity under any interleaving of its
    readers, writers and closings, as long as no task is killed while it is blocked on
    one of the semaphores ([task_kill], which nothing under src/ calls; a task whose
    [killed] is set before it blocks or after it was woken up is covered): the bytes read
    so far followed by the bytes in the buffer are the bytes stored so far, there are
    never more than the size of the buffer, and no call, no woken reader or writer and
    no closing trips an assertion of the semaphores. *)
Theorem ringbuffer_fifo n k :
  0 < n <= 2 ^ 20 -> rtc rkstep (RKSys (rinit n) []) k -> rawake k = [] ->
  (exists cnt, Z.of_nat cnt <= n /\ written (rk k) = got (rk k) ++ contents (rbuf (rk k)) cnt) /\
  (forall t killed ch, is_task t -> t ∉ busy (rk k) ->
     ringbuffer_put_char (blocked_but (rawake k)) t killed ch (rbuf (rk k)) <> Panic /\
     ringbuffer_read_char (blocked_but (rawake k)) t killed (rbuf (rk k)) <> Panic) /\
  (forall t killed ch,
     put_char_resume (blocked_but (rawake k)) killed ch (writer_back t (rbuf (rk k))) <> Panic /\
     read_char_resume (blocked_but (rawake k)) killed (reader_back t (rbuf (rk k))) <> Panic) /\
  (forall rw, exists ws rb',
     ringbuffer_close (blocked_but (rawake k)) (rbuf (rk k)) rw = Ok (ws, rb')).
Proof.
  intros Hn Hk Hw. destruct (rksteps_rsteps _ _ Hk Hw) as [_ Hr]. rewrite Hw. simpl in Hr.
  change (blocked_but []) with all_blocked. set (s := rk k) in *.
  pose proof (reachable_rinv _ _ Hr (rinit_inv n Hn)) as Hi.
  pose proof (reachable_size _ _ Hr) as Hsz. simpl in Hsz. split_and!.
  - destruct Hi as (cnt & Hd & Ht). exists cnt. destruct Hd. rewrite <- Hsz. done.
  - intros t killed ch Htk Hb. split.
    + unfold ringbuffer_put_char. destruct (rclosed _); [done|].
      destruct (sem_wait _ _); [|done]. by apply (put_resume_safe s).
    + unfold ringbuffer_read_char. destruct (_ && _); [done|].
      destruct (sem_wait _ _); [|done]. by apply (read_resume_safe s).
  - intros t killed ch. split; [by apply (put_resume_safe s)|by apply (read_resume_safe s)].
  - intros rw. by apply (close_safe s).
Qed.

(** A reader that is killed while it is blocked: it gets -1, stays in the waiting list, and
    the writer of the next byte stops the machine on the assertion of [sem_signal]. *)
Theorem ringbuffer_killed_reader n :
  0 < n <= 2 ^ 20 ->
  exists k rb', rtc rkstep (RKSys (rinit n) []) k /\ rawake k = [6] /\
    read_char_resume (blocked_but (rawake k)) true (reader_back 6 (rbuf (rk k))) =
      Ok (Return (-1) None None rb') /\ waiting (full_sem rb') = [6] /\
    forall t ch, t <> 6 ->
      ringbuffer_put_char (blocked_but (rawake k)) t false ch (rbuf (rk k)) = Panic.
Proof.
  intros Hn. eexists (RKSys (RSys _ _ _ _ _ _) [6]), _. split.
  - eapply rtc_l; [apply rk_step; eapply (rs_read_block _ _ 6 false); simpl;
      [unfold is_task, NTASK; lia|set_solver|done|reflexivity]|]. simpl.
    eapply rtc_l; [apply (rk_kill _ 6); simpl; set_solver|]. apply rtc_refl.
  - simpl. split_and!; [done|reflexivity|done|]. intros t ch Ht.
    unfold ringbuffer_put_char. simpl. unfold sem_wait. simpl. rewrite i32_small by (unfold is_i32; lia).
    rewrite (proj2 (Z.ltb_ge _ _)) by lia. done.
Qed.

(** bytes are lost when the write end is closed on a buffer that is exactly full:
    for every size there is a run that stores [size] bytes, reads none and closes the
    write end, after which every [ringbuffer_read_char] reports the end of the data,
    because a full buffer and an empty one both have [head == tail]. *)
Theorem ringbuffer_full_close_drops n :
  0 < n <= 2 ^ 20 ->
  exists s, rtc (rstep all_blocked) (rinit n) s /\ Z.of_nat (length (written s)) = n /\ got s = [] /\
    rclosed (rbuf s) = false /\
    forall t killed,
      ringbuffer_read_char all_blocked t killed (rbuf s) = Ok (Return (-1) None None (rbuf s)).
Proof.
  intros Hn. destruct (fill_reachable n Hn (Z.to_nat n) ltac:(lia))
    as (s & Hr & B1 & B2 & B3 & C1 & C2 & V1 & V2 & W & L & G).
  pose proof (reachable_rinv _ _ Hr (rinit_inv n Hn)) as (cnt & Hd & Ht).
  pose proof (reachable_size _ _ Hr) as Hsz. simpl in Hsz.
  destruct (signalall_cases (full_sem (rbuf s)) (t_full_ok _ _ Ht)) as (h & v & E & _); [lia|].
  eexists (RSys _ [] [] _ (written s) (got s)). split.
  - eapply rtc_r; [exact Hr|]. eapply rs_close_write; [done..|].
    unfold ringbuffer_close. simpl. rewrite E. reflexivity.
  - simpl. split_and!; [lia|done|done|]. intros t killed. unfold ringbuffer_read_char.
    replace (BUFFER_ISEMPTY _) with true; [done|]. symmetry. unfold BUFFER_ISEMPTY. simpl.
    apply Z.eqb_eq. destruct Hd as [D1 D2 D3 D4 D5 D6]. rewrite D4.
    assert (length (contents (rbuf s) cnt) = cnt) as Hc
      by (unfold contents; by rewrite length_map, length_seq).
    rewrite G in D6. simpl in D6. rewrite D6, Hc in L.
    replace (Z.of_nat cnt) with (1 * size (rbuf s)) by lia.
    rewrite Z.mod_add by lia. by rewrite Z.mod_small.
Qed.

Lemma ringbuffer_fifo_witness :
  exists k, rtc rkstep (RKSys (rinit 2) []) k /\ written (rk k) = [65] /\ got (rk k) = [65] /\
  (exists cnt, Z.of_nat cnt <= 2 /\ written (rk k) = got (rk k) ++ contents (rbuf (rk k)) cnt) /\
  (forall t killed ch, is_task t -> t ∉ busy (rk k) ->
     ringbuffer_put_char (blocked_but (rawake k)) t killed ch (rbuf (rk k)) <> Panic /\
     ringbuffer_read_char (blocked_but (rawake k)) t killed (rbuf (rk k)) <> Panic) /\
  (forall t killed ch,
     put_char_resume (blocked_but (rawake k)) killed ch (writer_back t (rbuf (rk k))) <> Panic /\
     read_char_resume (blocked_but (rawake k)) killed (reader_back t (rbuf (rk k))) <> Panic) /\
  (forall rw, exists ws rb',
     ringbuffer_close (blocked_but (rawake k)) (rbuf (rk k)) rw = Ok (ws, rb')).
Proof.
  eassert (rtc rkstep (RKSys (rinit 2) []) (RKSys _ [])) as Hr.
  { eapply rtc_l; [apply rk_step; eapply (rs_put _ _ 5 false 65); [unfold is_task, NTASK; lia|set_solver|reflexivity|reflexivity]|].
    eapply rtc_l; [apply rk_step; eapply (rs_read _ _ 6 false); [unfold is_task, NTASK; lia|set_solver|reflexivity|reflexivity]|].
    apply rtc_refl. }
  eexists. split; [exact Hr|]. split; [reflexivity|]. split; [reflexivity|].
  apply (ringbuffer_fifo 2); [lia|exact Hr|reflexivity].
Defined.

Lemma ringbuffer_full_close_drops_witness :
  exists s, rtc (rstep all_blocked) (rinit 4096) s /\ Z.of_nat (length (written s)) = 4096 /\ got s = [] /\
    rclosed (rbuf s) = false /\
    forall t killed,
      ringbuffer_read_char all_blocked t killed (rbuf s) = Ok (Return (-1) None None (rbuf s)).
Proof. apply (ringbuffer_full_close_drops 4096). lia. Defined.
End RingBuffer.
