(* ===== verification/Keyboard.v ===== *)
(** The keyboard driver: src/kernel/device/keyboard.c.

    An interrupt brings a scan code; the driver follows the modifier keys and puts the
    characters of the other keys into a ring buffer (RingBuffer.v) that tasks read from.
    The interrupt handler runs on top of whatever task is current, and must not wait. *)

From stdpp Require Import base numbers list gmap relations.
From Stdlib Require Import ZArith Lia.
From S2P Require Import Prelude Semaphore RingBuffer.
#[local] Open Scope Z_scope.

Module Keyboard.
Import Semaphore RingBuffer.

Definition INPUT_BUFFER_SIZE : Z := 256.

Definition MAKECODE_LEFT_SHIFT : Z := 0x2a.
Definition MAKECODE_RIGHT_SHIFT : Z := 0x36.
Definition MAKECODE_LEFT_ALT : Z := 0x38.
Definition MAKECODE_RIGHT_ALT : Z := 0xe038.
Definition MAKECODE_LEFT_CTRL : Z := 0x1d.
Definition MAKECODE_RIGHT_CTRL : Z := 0xe01d.
Definition MAKECODE_CAPS_LOCK : Z := 0x3a.

(** [shift_keymap], in ASCII. *)
Definition shift_keymap : list (Z * Z) :=
  [(0, 0); (27, 27); (49, 33); (50, 64); (51, 35); (52, 36); (53, 37); (54, 94);
   (55, 38); (56, 42); (57, 40); (48, 41); (45, 95); (61, 43); (8, 8); (9, 9);
   (113, 81); (119, 87); (101, 69); (114, 82); (116, 84); (121, 89); (117, 117); (105, 73);
   (111, 79); (112, 80); (91, 123); (93, 125); (13, 13); (0, 0); (97, 65); (115, 83);
   (100, 68); (102, 70); (103, 71); (104, 72); (106, 74); (107, 75); (108, 76); (59, 58);
   (39, 34); (96, 126); (0, 0); (92, 124); (122, 90); (120, 88); (99, 67); (118, 86);
   (98, 66); (110, 78); (109, 77); (44, 60); (46, 62); (47, 63); (0, 0); (42, 42);
   (0, 0); (32, 32); (0, 0)].

(** The static variables of the driver. *)
Record kbd := Kbd {
  ctrl_pressed : bool;
  shift_pressed : bool;
  alt_pressed : bool;
  caps_lock_pressed : bool;
  ext_scancode : bool;
}.

Definition kbd_init : kbd := Kbd false false false false false.

Definition reset_status (make_code : Z) (is_break_code : bool) (k : kbd) : kbd :=
  if (make_code =? MAKECODE_LEFT_CTRL) || (make_code =? MAKECODE_RIGHT_CTRL) then
    Kbd (negb is_break_code) (shift_pressed k) (alt_pressed k) (caps_lock_pressed k) (ext_scancode k)
  else if (make_code =? MAKECODE_LEFT_SHIFT) || (make_code =? MAKECODE_RIGHT_SHIFT) then
    Kbd (ctrl_pressed k) (negb is_break_code) (alt_pressed k) (caps_lock_pressed k) (ext_scancode k)
  else if (make_code =? MAKECODE_LEFT_ALT) || (make_code =? MAKECODE_RIGHT_ALT) then
    Kbd (ctrl_pressed k) (shift_pressed k) (negb is_break_code) (caps_lock_pressed k) (ext_scancode k)
  else if make_code =? MAKECODE_CAPS_LOCK then
    if negb is_break_code then
      Kbd (ctrl_pressed k) (shift_pressed k) (alt_pressed k) (negb (caps_lock_pressed k)) (ext_scancode k)
    else k
  else k.

Definition set_ext (b : bool) (k : kbd) : kbd :=
  Kbd (ctrl_pressed k) (shift_pressed k) (alt_pressed k) (caps_lock_pressed k) b.

(** The handler up to the ring buffer: the new status and the character to store. *)
Definition decode_scancode (scancode : Z) (k : kbd) : outcome (kbd * option Z) :=
  if scancode =? 0xe0 then Ok (set_ext true k, None)
  else
    let scancode := if ext_scancode k then Z.lor 0xe000 scancode else scancode in
    let k := if ext_scancode k then set_ext false k else k in
    if negb (Z.land scancode 0x80 =? 0) then Ok (reset_status (Z.land scancode 0xff7f) true k, None)
    else if ((scancode =? 0) || (0x3A <? scancode)) && negb (scancode =? MAKECODE_RIGHT_ALT) &&
            negb (scancode =? MAKECODE_RIGHT_CTRL) then Ok (k, None)
    else
      let scancode := Z.land scancode 0xFF in
      match shift_keymap !! Z.to_nat scancode with
      | None => Panic
      | Some (c0, c1) =>
          let shift := if (97 <=? c0) && (c0 <=? 122) then xorb (shift_pressed k) (caps_lock_pressed k)
                       else shift_pressed k || caps_lock_pressed k in
          let ch := if shift then c1 else c0 in
          if negb (ch =? 0) then
            let ch := if ch =? 13 then 10 else ch in
            let ch := if (ch =? 100) && ctrl_pressed k then 0 else ch in
            Ok (k, Some ch)
          else Ok (reset_status scancode false k, None)
      end.

(** The result of an interrupt: the driver is done, having woken up a reader or not, or the
    current task would have to wait. *)
Inductive intr_result := Handled (k : kbd) (woken : option Z) (rb : ringbuffer) | Waits (rb : ringbuffer).

(** [cur] is the task that was interrupted, [killed] whether it has been killed. *)
Definition keyboard_intr_handler (cur : Z) (killed : bool) (scancode : Z) (k : kbd) (rb : ringbuffer) : outcome intr_result :=
  match decode_scancode scancode k with
  | Ok (k, Some ch) =>
      if negb (ringbuffer_isfull rb) then
        match ringbuffer_put_char all_blocked cur killed ch rb with
        | Ok (Return _ _ w rb) => Ok (Handled k w rb)
        | Ok (Block rb) => Ok (Waits rb)
        | Panic => Panic
        | Hang => Hang
        end
      else Ok (Handled k None rb)
  | Ok (k, None) => Ok (Handled k None rb)
  | Panic => Panic
  | Hang => Hang
  end.

(** [keyboard_read] is [ringbuffer_read_char] on the driver's buffer. *)
Definition keyboard_read (cur : Z) (killed : bool) (rb : ringbuffer) : outcome call := ringbuffer_read_char all_blocked cur killed rb.

Definition keyboard_init : ringbuffer := ringbuffer_init INPUT_BUFFER_SIZE.

(** ** The driver and its readers *)

Record ksys := KSys { kst : kbd; kr : rsys }.

(** The characters that an interrupt stores. *)
Definition typed (scancode : Z) (k : kbd) (rb : ringbuffer) : list Z :=
  match decode_scancode scancode k with
  | Ok (_, Some ch) => if ringbuffer_isfull rb then [] else [ch]
  | _ => []
  end.

(** Interrupts on top of tasks that have not been killed, and tasks that read. *)
Inductive kstep : ksys -> ksys -> Prop :=
| kstep_intr y t sc k' w rb' : is_task t -> t ∉ busy (kr y) -> is_u8 sc ->
    keyboard_intr_handler t false sc (kst y) (rbuf (kr y)) = Ok (Handled k' w rb') ->
    kstep y (KSys k' (RSys rb' (wblocked (kr y)) (wgranted (kr y)) (grant_reader w (rgranted (kr y)))
      (written (kr y) ++ typed sc (kst y) (rbuf (kr y))) (got (kr y))))
| kstep_read y t killed r c w rb' : is_task t -> t ∉ busy (kr y) ->
    keyboard_read t killed (rbuf (kr y)) = Ok (Return r c w rb') ->
    kstep y (KSys (kst y) (RSys rb' (still_blocked w (wblocked (kr y))) (grant_writer w (wblocked (kr y)) (wgranted (kr y)))
      (rgranted (kr y)) (written (kr y)) (got (kr y) ++ fetched c)))
| kstep_block y t killed rb' : is_task t -> t ∉ busy (kr y) ->
    keyboard_read t killed (rbuf (kr y)) = Ok (Block rb') ->
    kstep y (KSys (kst y) (RSys rb' (wblocked (kr y)) (wgranted (kr y)) (rgranted (kr y)) (written (kr y)) (got (kr y))))
| kstep_resume y t killed l1 l2 r c w rb' : rgranted (kr y) = l1 ++ t :: l2 ->
    read_char_resume all_blocked killed (reader_back t (rbuf (kr y))) = Ok (Return r c w rb') ->
    kstep y (KSys (kst y) (RSys rb' (still_blocked w (wblocked (kr y))) (grant_writer w (wblocked (kr y)) (wgranted (kr y)))
      (l1 ++ l2) (written (kr y)) (got (kr y) ++ fetched c))).

(** Nobody waits to write: the units of [empty_sem] are the free places of the buffer, and
    one place always stays free. *)
Record kinv (r : rsys) : Prop := {
  k_inv : rinv r;
  k_size : size (rbuf r) = INPUT_BUFFER_SIZE;
  k_open : rclosed (rbuf r) = false /\ wclosed (rbuf r) = false;
  k_none : wblocked r = [] /\ wgranted r = [];
  k_units : val (empty_sem (rbuf r)) = INPUT_BUFFER_SIZE + Z.of_nat (length (got r)) - Z.of_nat (length (written r));
  k_room : Z.of_nat (length (written r)) < INPUT_BUFFER_SIZE + Z.of_nat (length (got r));
}.

Lemma rinv_cnt r cnt : data_inv (rbuf r) (written r) (got r) cnt -> length (written r) = (length (got r) + cnt)%nat.
Proof. intros H. rewrite (d_fifo _ _ _ _ H), length_app. unfold contents. by rewrite length_map, length_seq. Qed.

(** The test of the driver keeps the last place free. *)
Lemma isfull_last rb wr gt cnt : data_inv rb wr gt cnt -> Z.of_nat cnt = size rb - 1 -> ringbuffer_isfull rb = true.
Proof.
  intros Hd Hc. pose proof (head_range _ _ _ _ Hd) as Hh. unfold ringbuffer_isfull, BUFFER_ISFULL.
  rewrite (next_pos _ _ _ _ _ Hd Hh). destruct Hd as [H1 H2 H3 H4 H5 H6]. rewrite H4, Zplus_mod_idemp_l.
  replace (tail rb + Z.of_nat cnt + 1) with (tail rb + 1 * size rb) by lia.
  rewrite Z.mod_add, Z.mod_small by lia. apply Z.eqb_refl.
Qed.

(** A scan code is always decoded. *)
Lemma decode_Ok sc k : is_u8 sc -> exists k' ch, decode_scancode sc k = Ok (k', ch).
Proof.
  intros Hsc. unfold decode_scancode. case_if; [eauto|].
  assert (forall s, 0 <= s <= 0x3A -> is_Some (shift_keymap !! Z.to_nat s)) as Hmap.
  { intros s Hs. apply lookup_lt_is_Some. change (length shift_keymap) with 59%nat. lia. }
  assert (forall s, 0 <= s <= 0x3A -> Z.land s 0xFF = s) as Hland.
  { intros s Hs. change 0xFF with (Z.ones 8). rewrite Z.land_ones by lia. apply Z.mod_small. lia. }
  cbv zeta. set (s := if ext_scancode k then _ else sc). set (k1 := if ext_scancode k then _ else k).
  destruct (negb (Z.land s 128 =? 0)); [eauto|].
  destruct (_ && _ && _) eqn:Ec; [eauto|].
  assert (is_Some (shift_keymap !! Z.to_nat (Z.land s 0xFF))) as [[c0 c1] ->].
  { destruct (Z.eqb_spec s MAKECODE_RIGHT_ALT) as [->|]; [by vm_compute; eauto|].
    destruct (Z.eqb_spec s MAKECODE_RIGHT_CTRL) as [->|]; [by vm_compute; eauto|].
    simpl in Ec. rewrite !andb_true_r in Ec. apply orb_false_iff in Ec as [E1 E2]. bprop.
    assert (0 <= s) as Hs0.
    { unfold s. destruct (ext_scancode k); [apply Z.lor_nonneg; unfold is_u8 in Hsc; lia|unfold is_u8 in Hsc; lia]. }
    rewrite Hland by lia. apply Hmap. lia. }
  repeat case_match; eexists _, _; reflexivity.
Qed.

(** Storing a character with a place free: the handler does not wait. *)
Lemma put_kinv r t ch : kinv r -> is_task t -> t ∉ busy r -> ringbuffer_isfull (rbuf r) = false ->
  exists w rb', ringbuffer_put_char all_blocked t false ch (rbuf r) = Ok (Return 1 None w rb') /\
    kinv (RSys rb' (wblocked r) (wgranted r) (grant_reader w (rgranted r)) (written r ++ [ch]) (got r)).
Proof.
  intros K Ht Hb Hfull. pose proof (k_inv _ K) as Hr. destruct Hr as (cnt & Hd & Hk).
  pose proof (rinv_cnt _ _ Hd) as Hl. pose proof (k_units _ K) as Hu. pose proof (k_room _ K) as Hroom.
  destruct (k_open _ K) as [O1 O2]. pose proof (k_size _ K) as Hsz. pose proof (d_size _ _ _ _ Hd) as Hds.
  assert (Z.of_nat cnt < INPUT_BUFFER_SIZE - 1) as Hc.
  { destruct (decide (Z.of_nat cnt = size (rbuf r) - 1)) as [E|E].
    - rewrite (isfull_last _ _ _ _ Hd E) in Hfull. done.
    - unfold INPUT_BUFFER_SIZE in *. lia. }
  pose proof (t_full_le _ _ Hk) as Hfle. pose proof (t_full_ok _ _ Hk) as Hfok.
  assert (t ∉ waiting (empty_sem (rbuf r))) as Hw.
  { rewrite <- (t_blocked _ _ Hk). by rewrite (proj1 (k_none _ K)), fmap_nil; apply not_elem_of_nil. }
  destruct (sem_wait_cases (empty_sem (rbuf r)) t (t_empty_ok _ _ Hk) Ht Hw) as [(V & E & _)|(V & E & _)];
    [|unfold INPUT_BUFFER_SIZE in *; lia].
  assert (exists w rb', ringbuffer_put_char all_blocked t false ch (rbuf r) = Ok (Return 1 None w rb') /\
    size rb' = size (rbuf r) /\ rclosed rb' = false /\ wclosed rb' = false /\ val (empty_sem rb') = val (empty_sem (rbuf r)) - 1)
    as (w & rb' & E' & S1 & S2 & S3 & S4).
  { unfold ringbuffer_put_char. rewrite O1, E. unfold put_char_resume. simpl. rewrite O1. simpl.
    destruct (sem_signal_cases (full_sem (rbuf r)) Hfok) as [(_ & E' & _)|(_ & w & t' & _ & E' & _)];
      [unfold INPUT_BUFFER_SIZE in *; lia|..]; rewrite E'; eexists _, _; (split; [done|]); simpl; done. }
  exists w, rb'. split; [done|]. split; simpl.
  - apply (rstep_inv r _ (k_inv _ K)). by apply (rs_put _ r t false ch 1 None w rb').
  - by rewrite S1.
  - done.
  - apply K.
  - rewrite S4, Hu, length_app. simpl. lia.
  - rewrite length_app. simpl. unfold INPUT_BUFFER_SIZE in *. lia.
Qed.

(** A reader takes a character out, or goes away without one. *)
Lemma read_kinv r killed rb rv c w rb' rg : kinv r ->
  read_char_resume all_blocked killed rb = Ok (Return rv c w rb') ->
  size rb = size (rbuf r) -> rclosed rb = false -> wclosed rb = false -> empty_sem rb = empty_sem (rbuf r) ->
  rinv (RSys rb' (still_blocked w (wblocked r)) (grant_writer w (wblocked r) (wgranted r)) rg (written r) (got r ++ fetched c)) ->
  kinv (RSys rb' (still_blocked w (wblocked r)) (grant_writer w (wblocked r) (wgranted r)) rg (written r) (got r ++ fetched c)).
Proof.
  intros K E S1 S2 S3 S4 R. destruct (k_none _ K) as [N1 N2]. pose proof (k_inv _ K) as (cnt & Hd & Hk).
  pose proof (k_size _ K) as Hsz. pose proof (k_units _ K) as Hu. pose proof (k_room _ K) as Hroom.
  pose proof R as (cnt' & Hd' & _). pose proof (rinv_cnt _ _ Hd') as Hl'. simpl in Hl'. rewrite length_app in Hl'.
  pose proof (rinv_cnt _ _ Hd) as Hl. pose proof (t_empty_le _ _ Hk) as Hle.
  destruct (read_char_resume_inv _ _ _ _ _ _ E) as [(-> & -> & -> & ->)|(-> & -> & _ & sm & Es & ->)].
  - split; simpl; rewrite ?app_nil_r, ?S1, ?S4; try done. simpl in R. by rewrite app_nil_r in R.
  - rewrite S4 in Es. unfold INPUT_BUFFER_SIZE in *.
    destruct (sem_signal_cases (empty_sem (rbuf r)) (t_empty_ok _ _ Hk)) as [(V & E' & _)|(V & _)]; [lia| |lia].
    rewrite E' in Es. injection Es as <- <-.
    split; simpl; rewrite ?length_app; simpl; unfold INPUT_BUFFER_SIZE; try done; [by rewrite S1|lia|lia].
Qed.

Lemma intr_kinv y t sc : kinv (kr y) -> is_task t -> t ∉ busy (kr y) -> is_u8 sc ->
  exists k' w rb', keyboard_intr_handler t false sc (kst y) (rbuf (kr y)) = Ok (Handled k' w rb') /\
    kinv (RSys rb' (wblocked (kr y)) (wgranted (kr y)) (grant_reader w (rgranted (kr y)))
      (written (kr y) ++ typed sc (kst y) (rbuf (kr y))) (got (kr y))).
Proof.
  intros K Ht Hb Hsc. unfold keyboard_intr_handler, typed.
  destruct (decode_Ok sc (kst y) Hsc) as (k' & ch & ->). destruct (kr y) as [rb wb wg rg wr gt] eqn:Ey. simpl.
  destruct ch as [ch|]; [|exists k', None, rb; split; [done|]; simpl; rewrite app_nil_r; by destruct K].
  destruct (ringbuffer_isfull rb) eqn:Ef; simpl.
  - exists k', None, rb. split; [done|]. simpl. rewrite app_nil_r. by destruct K.
  - destruct (put_kinv _ t ch K Ht Hb Ef) as (w & rb' & E & K'). simpl in E. rewrite E. eauto.
Qed.

Lemma kstep_inv y y' : kinv (kr y) -> kstep y y' -> kinv (kr y').
Proof.
  intros K Hs. destruct Hs as [y t sc k' w rb' Ht Hb Hsc E|y t killed r c w rb' Ht Hb E|y t killed rb' Ht Hb E|y t killed l1 l2 r c w rb' Er E].
  - destruct (intr_kinv y t sc K Ht Hb Hsc) as (k2 & w2 & rb2 & E2 & K2). rewrite E in E2. injection E2 as <- <- <-. exact K2.
  - simpl. pose proof (k_open _ K) as [O1 O2]. assert (E' := E). unfold keyboard_read, ringbuffer_read_char in E.
    rewrite O2, andb_false_r in E. destruct (sem_wait t _) as [sm|sm] eqn:Es; [|discriminate].
    eapply (read_kinv _ killed _ r); [done|exact E|done..|].
    apply (rstep_inv (kr y) _ (k_inv _ K)). by eapply (rs_read _ (kr y) t killed).
  - simpl. pose proof (k_open _ K) as [O1 O2]. assert (E' := E). unfold keyboard_read, ringbuffer_read_char in E.
    rewrite O2, andb_false_r in E. destruct (sem_wait t _) as [sm|sm] eqn:Es.
    { unfold read_char_resume in E. destruct (_ || _); [discriminate|]. by destruct (sem_signal _ _) as [[]| |]. }
    injection E as <-. split; simpl; try apply K. apply (rstep_inv (kr y) _ (k_inv _ K)). by eapply (rs_read_block _ (kr y) t killed).
  - simpl. pose proof (k_open _ K) as [O1 O2]. eapply (read_kinv _ killed _ r); [done|exact E|done..|].
    apply (rstep_inv (kr y) _ (k_inv _ K)). by eapply (rs_read_resume _ (kr y) t killed).
Qed.

Definition kinit : ksys := KSys kbd_init (rinit INPUT_BUFFER_SIZE).

Lemma kreach_inv y : rtc kstep kinit y -> kinv (kr y).
Proof.
  assert (forall a b, rtc kstep a b -> kinv (kr a) -> kinv (kr b)) as H by (induction 1; eauto using kstep_inv).
  intros Hr. apply (H _ _ Hr). split; simpl; try done. by apply rinit_inv.
Qed.

(** ** Theorems *)

(** the interrupt handler of the keyboard never waits and never fails, whatever scan
    codes arrive and however tasks read in between: it drops a character only when 255 of
    them are stored, and every reader gets the characters in the order they were typed. *)
Theorem keyboard_never_waits y t sc : rtc kstep kinit y -> is_task t -> t ∉ busy (kr y) -> is_u8 sc ->
  (exists k' w rb', keyboard_intr_handler t false sc (kst y) (rbuf (kr y)) = Ok (Handled k' w rb')) /\
  (exists cnt, Z.of_nat cnt < INPUT_BUFFER_SIZE /\ written (kr y) = got (kr y) ++ contents (rbuf (kr y)) cnt /\
     (Z.of_nat cnt < INPUT_BUFFER_SIZE - 1 -> ringbuffer_isfull (rbuf (kr y)) = false)).
Proof.
  intros Hr Ht Hb Hsc. pose proof (kreach_inv _ Hr) as K. split.
  - destruct (intr_kinv y t sc K Ht Hb Hsc) as (k' & w & rb' & E & _). eauto.
  - pose proof (k_inv _ K) as (cnt & Hd & _). pose proof (rinv_cnt _ _ Hd) as Hl. pose proof (k_room _ K) as Hroom.
    pose proof (k_size _ K) as Hsz. exists cnt. split; [lia|]. split; [apply Hd|]. intros Hc.
    pose proof (head_range _ _ _ _ Hd) as Hh. unfold ringbuffer_isfull, BUFFER_ISFULL.
    rewrite (next_pos _ _ _ _ _ Hd Hh). destruct Hd as [H1 H2 H3 H4 H5 H6]. rewrite H4, Zplus_mod_idemp_l.
    rewrite mod_wrap by lia. apply Z.eqb_neq. destruct (Z.ltb_spec (tail (rbuf (kr y)) + Z.of_nat cnt + 1) (size (rbuf (kr y)))); lia.
Qed.

(** The interrupts of [n] keys on top of a task that has been killed. *)
Fixpoint killed_keys (n : nat) (cur sc : Z) (k : kbd) (rb : ringbuffer) : outcome intr_result :=
  match n with
  | O => keyboard_intr_handler cur true sc k rb
  | S n => match keyboard_intr_handler cur true sc k rb with
           | Ok (Handled k _ rb) => killed_keys n cur sc k rb
           | r => r
           end
  end.

(** the test for a killed task in [ringbuffer_put_char] is wrong in an interrupt: on top
    of a killed task every key takes a unit of [empty_sem] and stores nothing, so that after
    256 keys the interrupt handler waits, although the buffer is empty. *)
Theorem keyboard_killed_waits : exists rb, killed_keys 256 3 0x1e kbd_init keyboard_init = Ok (Waits rb) /\ ringbuffer_isempty rb = true.
Proof. eexists. vm_compute. by split. Qed.

(** The characters of the keys: with shift, a letter key gives the capital letter, except
    for the letter u. *)
Theorem keymap_letters sc c0 c1 : shift_keymap !! sc = Some (c0, c1) -> 97 <= c0 <= 122 ->
  c1 = (if c0 =? 117 then 117 else c0 - 32).
Proof.
  intros H Hc. assert (Forall (fun x => (97 <=? x.1) && (x.1 <=? 122) = true -> x.2 = if x.1 =? 117 then 117 else x.1 - 32) shift_keymap) as Hall.
  { repeat constructor; vm_compute; intros; congruence. }
  rewrite Forall_forall in Hall. specialize (Hall (c0, c1) (list_elem_of_lookup_2 _ _ _ H)). simpl in Hall. apply Hall.
  apply andb_true_iff. split; apply Z.leb_le; lia.
Qed.

(** ** Witnesses *)

Lemma keyboard_never_waits_witness : exists y, rtc kstep kinit y /\ written (kr y) = [97] /\
  (exists k' w rb', keyboard_intr_handler 3 false 0x10 (kst y) (rbuf (kr y)) = Ok (Handled k' w rb')).
Proof.
  eassert (rtc kstep kinit _) as Hr.
  { eapply rtc_l; [eapply (kstep_intr _ 3 0x1e); [unfold is_task, NTASK; lia|set_solver|unfold is_u8; lia|vm_compute; reflexivity]|].
    apply rtc_refl. }
  eexists. split; [exact Hr|]. split; [vm_compute; reflexivity|].
  refine (proj1 (keyboard_never_waits _ 3 0x10 Hr _ _ _)); [unfold is_task, NTASK; lia|set_solver|unfold is_u8; lia].
Defined.

Lemma keymap_letters_witness : shift_keymap !! 0x16%nat = Some (117, 117) /\ 117 = 117.
Proof. split; [reflexivity|]. apply (keymap_letters 0x16 117 117); [reflexivity|lia]. Defined.
End Keyboard.
