(* ===== verification/BlockIO.v ===== *)
(** Blocks as the file system sees them: the buffer cache of
    src/kernel/device/ide/bio.c reduced to its contract with its callers, on top of
    a drive that performs one block transfer at a time.

    [buf_read] gives the current contents of a block, locked until [buf_release];
    [buf_write] sends a block to the drive.  The state keeps what survives a power
    failure ([disk], and [writes], the transfers completed so far) apart from what
    does not.  BufCache.v models the cache with its 40 buffers and their reuse and
    shows that it implements this contract. *)

From stdpp Require Import base numbers list gmap.
From Stdlib Require Import ZArith Lia.
From S2P Require Import Prelude.
#[local] Open Scope Z_scope.

Module BlockIO.

(** Constants of src/include/kernel/buf.h and src/kernel/device/ide/bio.c. *)
Definition BLOCK_SIZE : nat := 512.

Definition NBUF : nat := 40.

Abbreviation block := (list Z).

Definition zero_block : block := replicate BLOCK_SIZE 0.

Record bstore := BStore {
  disk : gmap Z block;          (* the contents of the drive *)
  cache : gmap Z block;         (* the data of the valid buffers *)
  dirty : gset Z;               (* blocks whose buffer has BUF_FLAGS_DIRTY *)
  held : gset Z;                (* blocks whose buffer is locked *)
  writes : list (Z * block);    (* completed transfers to the drive, oldest first *)
}.

Definition dread (d : gmap Z block) (b : Z) : block := default zero_block (d !! b).

(** The contents of a block: of its buffer when it has a valid one, of the drive
    otherwise. *)
Definition view (s : bstore) (b : Z) : block := default (dread (disk s) b) (cache s !! b).

(** Buffers that cannot be given to another block. *)
Definition pinned (s : bstore) : gset Z := held s ∪ dirty s.

(** [buf_read]: lock the buffer of block [b] and return its data.  A task that
    already holds the buffer waits for itself; when every buffer is locked or dirty
    and none is for [b], [buf_get] panics. *)
Definition buf_read (b : Z) : M bstore block := fun s =>
  if bool_decide (b ∈ held s) then Hang
  else if bool_decide (b ∉ dirty s) && bool_decide (NBUF <= size (pinned s))%nat then Panic
  else Ok (view s b, BStore (disk s) (<[b := view s b]> (cache s)) (dirty s)
                            ({[b]} ∪ held s) (writes s)).

(** A store through [buf->data]. *)
Definition buf_store (b : Z) (data : block) : M bstore unit :=
  modify (fun s => BStore (disk s) (<[b := data]> (cache s)) (dirty s) (held s) (writes s)).

(** [buf->flags |= BUF_FLAGS_DIRTY], what [log_write] does to the buffer. *)
Definition buf_set_dirty (b : Z) : M bstore unit :=
  modify (fun s => BStore (disk s) (cache s) ({[b]} ∪ dirty s) (held s) (writes s)).

(** [buf_write]: the drive takes the data and the buffer is clean. *)
Definition buf_write (b : Z) : M bstore unit :=
  s ← get;
  ASSERT (bool_decide (b ∈ held s));;
  put (BStore (<[b := view s b]> (disk s)) (cache s) (dirty s ∖ {[b]}) (held s)
              (writes s ++ [(b, view s b)])).

Definition buf_release (b : Z) : M bstore unit :=
  modify (fun s => BStore (disk s) (cache s) (dirty s) (held s ∖ {[b]}) (writes s)).

(** What is left after a power failure, with everything in memory lost. *)
Definition mount (d : gmap Z block) : bstore := BStore d ∅ ∅ ∅ [].

(** The drive after a sequence of transfers. *)
Definition apply_writes (ws : list (Z * block)) (d : gmap Z block) : gmap Z block :=
  fold_left (fun d w => <[fst w := snd w]> d) ws d.

(** *** Well-formed stores *)

Definition block_ok (x : block) : Prop := length x = BLOCK_SIZE /\ bytes x.

(** Every block has 512 bytes, and a buffer that is not dirty agrees with the drive. *)
Record store_ok (s : bstore) : Prop := {
  ok_disk : forall b, block_ok (dread (disk s) b);
  ok_view : forall b, block_ok (view s b);
  ok_clean : forall b, b ∉ dirty s -> view s b = dread (disk s) b;
}.

(** At least [k] buffers can still be locked. *)
Definition room (s : bstore) (k : nat) : Prop := (size (pinned s) + k <= NBUF)%nat.

(** *** Lemmas *)

Lemma zero_block_ok : block_ok zero_block.
Proof.
  split; [by vm_compute|]. apply Forall_replicate. unfold is_u8. lia.
Qed.

Lemma dread_insert d b x b' :
  dread (<[b := x]> d) b' = if decide (b' = b) then x else dread d b'.
Proof.
  unfold dread. case_decide; [subst; by rewrite lookup_insert_eq|by rewrite lookup_insert_ne].
Qed.

Lemma default_insert {A} (dfl : A) (m : gmap Z A) b x b' :
  default dfl (<[b := x]> m !! b') = if decide (b' = b) then x else default dfl (m !! b').
Proof.
  case_decide; [subst; by rewrite lookup_insert_eq|by rewrite lookup_insert_ne].
Qed.

Lemma apply_writes_app ws1 ws2 d :
  apply_writes (ws1 ++ ws2) d = apply_writes ws2 (apply_writes ws1 d).
Proof. apply fold_left_app. Qed.

Lemma apply_writes_other ws d b :
  b ∉ ws.*1 -> dread (apply_writes ws d) b = dread d b.
Proof.
  revert d. induction ws as [|[b' x] ws IH]; intros d Hb; [done|]. simpl.
  rewrite fmap_cons in Hb. simpl in Hb. rewrite IH by set_solver. rewrite dread_insert.
  rewrite decide_False by set_solver. done.
Qed.

Lemma apply_writes_lookup ws d b x :
  NoDup ws.*1 -> (b, x) ∈ ws -> dread (apply_writes ws d) b = x.
Proof.
  revert d. induction ws as [|[b' y] ws IH]; intros d Hnd Hin; [set_solver|]. simpl.
  rewrite fmap_cons in Hnd. simpl in Hnd. apply NoDup_cons in Hnd as [H1 H2].
  apply elem_of_cons in Hin as [Heq|Hin].
  - injection Heq as -> ->. rewrite apply_writes_other by done.
    rewrite dread_insert, decide_True by done. done.
  - by apply IH.
Qed.

(** [buf_read] of a block that is free to lock. *)
Lemma buf_read_Ok s b :
  b ∉ held s -> room s 1 ->
  exists s', buf_read b s = Ok (view s b, s') /\
    (forall b', view s' b' = view s b') /\ disk s' = disk s /\ dirty s' = dirty s /\
    held s' = {[b]} ∪ held s /\ writes s' = writes s.
Proof.
  intros Hh Hr. unfold buf_read. rewrite bool_decide_false by done.
  rewrite (bool_decide_false (NBUF <= _)%nat) by (unfold room in Hr; lia).
  rewrite andb_false_r. eexists. split; [done|]. simpl. split_and!; try done.
  intros b'. unfold view. simpl. rewrite default_insert. case_decide; [by subst|done].
Qed.

Lemma room_le s k k' : (k' <= k)%nat -> room s k -> room s k'.
Proof. unfold room. lia. Qed.

Lemma room_read s s' b k :
  held s' = {[b]} ∪ held s -> dirty s' = dirty s -> room s (S k) -> room s' k.
Proof.
  unfold room, pinned. intros -> -> H.
  assert (size ({[b]} ∪ held s ∪ dirty s) <= S (size (held s ∪ dirty s)))%nat; [|lia].
  replace ({[b]} ∪ held s ∪ dirty s) with ({[b]} ∪ (held s ∪ dirty s)) by set_solver.
  rewrite size_union_alt, size_singleton.
  pose proof (subseteq_size ((held s ∪ dirty s) ∖ {[b]}) (held s ∪ dirty s) ltac:(set_solver)).
  lia.
Qed.
End BlockIO.
