(* ===== verification/BufCache.v ===== *)
(** The buffer cache: src/kernel/device/ide/bio.c.

    Forty buffers in a list ordered by their last use, each with a semaphore, a count of
    users and flags; a block that has no buffer gets the one unused longest that is not
    dirty.  The theorem is that the cache implements the contract of BlockIO.v that the
    file system relies on, as long as its callers mark what they change.

    The buffers are used by the task [cur]; [on_disk] is [b->disk != NULL], there being
    one drive.  A transfer is complete when [iderw] returns. *)

From stdpp Require Import base numbers list gmap.
From Stdlib Require Import ZArith Lia.
From S2P Require Import Prelude Semaphore BlockIO.
#[local] Open Scope Z_scope.

Module BufCache.
Import Semaphore BlockIO.

(** [struct buf]; the flags [BUF_FLAGS_DIRTY] and [BUF_FLAGS_VALID] as booleans. *)
Record buf := Buf {
  f_dirty : bool;
  f_valid : bool;
  on_disk : bool;
  bsem : semaphore;
  block_no : Z;
  refcnt : Z;
  data : block;
}.

(** [bcache] and the drive; [lru] holds the indices of the buffers from [head.next] on. *)
Record bcache := BCache {
  bufs : list buf;
  lru : list nat;
  drive : gmap Z block;
  transfers : list (Z * block);
}.

Definition set_bufs (l : list buf) (s : bcache) : bcache := BCache l (lru s) (drive s) (transfers s).

Definition set_lru (l : list nat) (s : bcache) : bcache := BCache (bufs s) l (drive s) (transfers s).

Definition get_buf (i : nat) : M bcache buf := s ← get; index (bufs s) (Z.of_nat i).

Definition set_buf (i : nat) (b : buf) : M bcache unit := modify (fun s => set_bufs (<[i := b]> (bufs s)) s).

Definition buf_insert_to_head (i : nat) (l : list nat) : list nat := i :: l.

Definition buf_unlinked (i : nat) (l : list nat) : list nat := filter (fun j => j <> i) l.

Definition init_buf : buf := Buf false false false (sem_init 1) 0 0 zero_block.

(** The buffers are zero before; the last one is at the head afterwards. *)
Definition bio_init (d : gmap Z block) : bcache :=
  BCache (replicate NBUF init_buf) (fold_left (fun l i => buf_insert_to_head i l) (seq 0 NBUF) []) d [].

Section ops.
Context (cur : Z).

(** [sem_wait(&b->sem)]: a task that waits does not come back here. *)
Definition buf_wait (i : nat) : M bcache unit :=
  b ← get_buf i;
  match sem_wait cur (bsem b) with
  | Acquired w => set_buf i (Buf (f_dirty b) (f_valid b) (on_disk b) w (block_no b) (refcnt b) (data b))
  | Blocks _ => hang
  end.

Definition has_block (l : list buf) (b : Z) (i : nat) : bool :=
  match l !! i with Some x => on_disk x && (block_no x =? b) | None => false end.

Definition unused (l : list buf) (i : nat) : bool :=
  match l !! i with Some x => (refcnt x =? 0) && negb (f_dirty x) | None => false end.

Definition buf_get (b : Z) : M bcache nat :=
  s ← get;
  match find (has_block (bufs s) b) (lru s) with
  | Some i =>
      x ← get_buf i;
      set_buf i (Buf (f_dirty x) (f_valid x) (on_disk x) (bsem x) (block_no x) (refcnt x + 1) (data x));;
      buf_wait i;;
      mret i
  | None =>
      match find (unused (bufs s)) (rev (lru s)) with
      | Some i =>
          x ← get_buf i;
          set_buf i (Buf false false true (bsem x) b 1 (data x));;
          buf_wait i;;
          mret i
      | None => panic
      end
  end.

(** [iderw] and the interrupt that completes the transfer: a dirty buffer goes to the
    drive, another one comes from there. *)
Definition iderw (i : nat) : M bcache unit :=
  x ← get_buf i;
  ASSERT (sem_holding cur (bsem x));;
  ASSERT (negb (f_valid x && negb (f_dirty x)));;
  s ← get;
  if f_dirty x then
    put (BCache (<[i := Buf false true (on_disk x) (bsem x) (block_no x) (refcnt x) (data x)]> (bufs s)) (lru s)
      (<[block_no x := data x]> (drive s)) (transfers s ++ [(block_no x, data x)]))
  else
    set_buf i (Buf false true (on_disk x) (bsem x) (block_no x) (refcnt x) (dread (drive s) (block_no x))).

Definition buf_read (b : Z) : M bcache nat :=
  i ← buf_get b;
  x ← get_buf i;
  (if negb (f_valid x) then iderw i else mret tt);;
  mret i.

Definition buf_write (i : nat) : M bcache unit :=
  x ← get_buf i;
  ASSERT (sem_holding cur (bsem x));;
  set_buf i (Buf true (f_valid x) (on_disk x) (bsem x) (block_no x) (refcnt x) (data x));;
  iderw i.

Definition buf_release (i : nat) : M bcache unit :=
  x ← get_buf i;
  match sem_signal all_blocked (bsem x) with
  | Ok (_, w) =>
      set_buf i (Buf (f_dirty x) (f_valid x) (on_disk x) w (block_no x) (refcnt x) (data x));;
      x ← get_buf i;
      set_buf i (Buf (f_dirty x) (f_valid x) (on_disk x) (bsem x) (block_no x) (refcnt x - 1) (data x));;
      if refcnt x - 1 =? 0 then modify (fun s => set_lru (buf_insert_to_head i (buf_unlinked i (lru s))) s)
      else mret tt
  | Panic => panic
  | Hang => hang
  end.

(** A store through [buf->data], and [buf->flags |= BUF_FLAGS_DIRTY], by the holder. *)
Definition data_store (i : nat) (d : block) : M bcache unit :=
  x ← get_buf i;
  set_buf i (Buf (f_dirty x) (f_valid x) (on_disk x) (bsem x) (block_no x) (refcnt x) d).

Definition set_dirty (i : nat) : M bcache unit :=
  x ← get_buf i;
  set_buf i (Buf true (f_valid x) (on_disk x) (bsem x) (block_no x) (refcnt x) (data x)).
End ops.

(** ** The cache implements the contract *)

Section refinement.
Context (cur : Z).

Definition pinned_buf (x : buf) : bool := negb (refcnt x =? 0) || f_dirty x.

Record buf_ok (x : buf) : Prop := {
  b_use : (refcnt x = 0 /\ exists h, bsem x = Sem 1 [] h) \/ (refcnt x = 1 /\ bsem x = Sem 0 [] (Some cur));
  b_free : on_disk x = false -> refcnt x = 0 /\ f_dirty x = false;
  b_valid : on_disk x = true -> f_valid x = true;
}.

(** The cache [c] stands for the blocks [s]. *)
Record refines (c : bcache) (s : bstore) : Prop := {
  r_len : length (bufs c) = NBUF;
  r_lru : lru c ≡ₚ seq 0 NBUF;
  r_disk : drive c = disk s;
  r_writes : transfers c = writes s;
  r_buf : forall i x, bufs c !! i = Some x -> buf_ok x;
  r_uniq : forall i j x y, bufs c !! i = Some x -> bufs c !! j = Some y ->
    on_disk x = true -> on_disk y = true -> block_no x = block_no y -> i = j;
  r_data : forall i x, bufs c !! i = Some x -> on_disk x = true -> data x = view s (block_no x);
  r_dirty : forall b, b ∈ dirty s <-> exists i x, bufs c !! i = Some x /\ on_disk x = true /\ block_no x = b /\ f_dirty x = true;
  r_held : forall b, b ∈ held s <-> exists i x, bufs c !! i = Some x /\ on_disk x = true /\ block_no x = b /\ refcnt x = 1;
  r_clean : forall b, b ∉ dirty s -> b ∉ held s -> view s b = dread (disk s) b;
}.

(** Buffer [i] is the one of the block [b]. *)
Definition buf_of (c : bcache) (b : Z) (i : nat) : Prop :=
  exists x, bufs c !! i = Some x /\ on_disk x = true /\ block_no x = b.

Lemma get_buf_Ok c i x : bufs c !! i = Some x -> get_buf i c = Ok (x, c).
Proof.
  intros E. unfold get_buf. rewrite (bind_Ok _ _ _ c c) by done. unfold index.
  rewrite (proj2 (Z.ltb_ge _ _)) by lia. by rewrite Nat2Z.id, E.
Qed.

(** An update of one buffer that keeps its block. *)
Lemma refines_update c s i x y d' w' s' :
  refines c s -> bufs c !! i = Some x -> on_disk x = true -> on_disk y = true -> block_no y = block_no x -> buf_ok y ->
  disk s' = d' -> writes s' = w' -> data y = view s' (block_no x) ->
  (forall b, b <> block_no x -> view s' b = view s b /\ dread d' b = dread (disk s) b /\
     (b ∈ dirty s' <-> b ∈ dirty s) /\ (b ∈ held s' <-> b ∈ held s)) ->
  (block_no x ∈ dirty s' <-> f_dirty y = true) -> (block_no x ∈ held s' <-> refcnt y = 1) ->
  (f_dirty y = true \/ refcnt y = 1 \/ view s' (block_no x) = dread d' (block_no x)) ->
  refines (BCache (<[i := y]> (bufs c)) (lru c) d' w') s'.
Proof.
  intros R E Hx Hy Hb Hok Hd Hw Hv Hoth Hdi Hhe Hcl.
  assert (forall j z, <[i := y]> (bufs c) !! j = Some z <->
    (j = i /\ z = y) \/ (j <> i /\ bufs c !! j = Some z)) as Hl.
  { intros j z. destruct (decide (j = i)) as [->|Hj].
    - rewrite list_lookup_insert_eq by (by eapply lookup_lt_Some). naive_solver.
    - rewrite list_lookup_insert_ne by done. naive_solver. }
  assert (forall j z, bufs c !! j = Some z -> on_disk z = true -> j <> i -> block_no z <> block_no x) as Hne.
  { intros j z Hj Hz Hji Heq. apply Hji. by eapply (r_uniq _ _ R). }
  destruct R as [R1 R2 R3 R4 R5 R6 R7 R8 R9 R10].
  split; simpl.
  - by rewrite length_insert.
  - done.
  - done.
  - done.
  - intros j z Hj. apply Hl in Hj as [[_ ->]|[_ Hj]]; [done|eauto].
  - intros j k z1 z2 Hj Hk H1 H2 H12. apply Hl in Hj as [[-> ->]|[Hj Ej]]; apply Hl in Hk as [[-> ->]|[Hk Ek]]; try done.
    + exfalso. apply (Hne k z2); congruence.
    + exfalso. apply (Hne j z1); congruence.
    + eauto.
  - intros j z Hj Hz. apply Hl in Hj as [[-> ->]|[Hj Ej]]; [by rewrite Hb|].
    destruct (Hoth (block_no z)) as (-> & _); [by eapply Hne|]. eauto.
  - intros b. destruct (decide (b = block_no x)) as [->|Hbx].
    + rewrite Hdi. split.
      * intros Hf. exists i, y. split_and!; try done. apply Hl. by left.
      * intros (j & z & Hj & Hz & Hbz & Hfz). apply Hl in Hj as [[-> ->]|[Hj Ej]]; [done|].
        exfalso. by apply (Hne j z).
    + destruct (Hoth b Hbx) as (_ & _ & -> & _). rewrite R8. split; intros (j & z & Hj & Hz & Hbz & Hfz).
      * exists j, z. split_and!; try done. apply Hl. right. split; [|done]. intros ->. congruence.
      * apply Hl in Hj as [[-> ->]|[Hj Ej]]; [congruence|]. eauto 10.
  - intros b. destruct (decide (b = block_no x)) as [->|Hbx].
    + rewrite Hhe. split.
      * intros Hf. exists i, y. split_and!; try done. apply Hl. by left.
      * intros (j & z & Hj & Hz & Hbz & Hfz). apply Hl in Hj as [[-> ->]|[Hj Ej]]; [done|].
        exfalso. by apply (Hne j z).
    + destruct (Hoth b Hbx) as (_ & _ & _ & ->). rewrite R9. split; intros (j & z & Hj & Hz & Hbz & Hfz).
      * exists j, z. split_and!; try done. apply Hl. right. split; [|done]. intros ->. congruence.
      * apply Hl in Hj as [[-> ->]|[Hj Ej]]; [congruence|]. eauto 10.
  - intros b Hnd Hnh. rewrite Hd. destruct (decide (b = block_no x)) as [->|Hbx].
    + rewrite Hdi in Hnd. rewrite Hhe in Hnh. naive_solver.
    + destruct (Hoth b Hbx) as (-> & -> & Ed & Eh). apply R10; naive_solver.
Qed.
(** A block gets a buffer that nothing uses. *)
Lemma refines_reuse c s i x b y : refines c s -> bufs c !! i = Some x -> refcnt x = 0 -> f_dirty x = false ->
  (forall j z, bufs c !! j = Some z -> on_disk z = true -> block_no z <> b) ->
  y = Buf false true true (Sem 0 [] (Some cur)) b 1 (dread (drive c) b) ->
  refines (BCache (<[i := y]> (bufs c)) (lru c) (drive c) (transfers c))
    (BStore (disk s) (<[b := view s b]> (cache s)) (dirty s) ({[b]} ∪ held s) (writes s)).
Proof.
  intros R E Hr Hd Hno ->. set (y := Buf _ _ _ _ _ _ _).
  assert (forall j z, <[i := y]> (bufs c) !! j = Some z <-> (j = i /\ z = y) \/ (j <> i /\ bufs c !! j = Some z)) as Hl.
  { intros j z. destruct (decide (j = i)) as [->|Hj].
    - rewrite list_lookup_insert_eq by (by eapply lookup_lt_Some). naive_solver.
    - rewrite list_lookup_insert_ne by done. naive_solver. }
  assert (forall v, view (BStore (disk s) (<[b := view s b]> (cache s)) (dirty s) ({[b]} ∪ held s) (writes s)) v = view s v) as Hv.
  { intros v. unfold view at 1. simpl. rewrite default_insert. case_decide; [by subst|done]. }
  destruct R as [R1 R2 R3 R4 R5 R6 R7 R8 R9 R10].
  assert (b ∉ dirty s /\ b ∉ held s) as [Hbd Hbh].
  { split; [rewrite R8|rewrite R9]; intros (j & z & Hj & Hz & Hbz & _); by apply (Hno j z). }
  split; simpl.
  - by rewrite length_insert.
  - done.
  - done.
  - done.
  - intros j z Hj. apply Hl in Hj as [[_ ->]|[_ Hj]]; [|eauto]. split; simpl; [by right|done|done].
  - intros j k z1 z2 Hj Hk H1 H2 H12. apply Hl in Hj as [[-> ->]|[Hj Ej]]; apply Hl in Hk as [[-> ->]|[Hk Ek]]; try done.
    + exfalso. by apply (Hno k z2).
    + exfalso. by apply (Hno j z1).
    + eauto.
  - intros j z Hj Hz. rewrite Hv. apply Hl in Hj as [[-> ->]|[Hj Ej]]; [|eauto]. simpl. rewrite R10, R3; done.
  - intros b'. rewrite R8. split; intros (j & z & Hj & Hz & Hbz & Hfz).
    + exists j, z. split_and!; try done. apply Hl. right. split; [|done]. intros ->. congruence.
    + apply Hl in Hj as [[-> ->]|[Hj Ej]]; [done|]. eauto 10.
  - intros b'. rewrite elem_of_union, elem_of_singleton, R9. split.
    + intros [->|(j & z & Hj & Hz & Hbz & Hfz)].
      * exists i, y. split_and!; try done. apply Hl. by left.
      * exists j, z. split_and!; try done. apply Hl. right. split; [|done]. intros ->. rewrite E in Hj. injection Hj as <-. lia.
    + intros (j & z & Hj & Hz & Hbz & Hfz). apply Hl in Hj as [[-> ->]|[Hj Ej]]; [by left|]. right. eauto 10.
  - intros b' Hnd Hnh. rewrite Hv. apply R10; [done|]. set_solver.
Qed.

(** *** Pinned buffers and pinned blocks *)

Definition pinned_at (c : bcache) (i : nat) : Prop :=
  match bufs c !! i with Some x => pinned_buf x = true | None => False end.

#[local] Instance pinned_at_dec c i : Decision (pinned_at c i).
Proof. unfold pinned_at. destruct (bufs c !! i); apply _. Defined.

Definition pinned_idx (c : bcache) : list nat := filter (pinned_at c) (seq 0 NBUF).

Definition block_at (c : bcache) (i : nat) : Z := match bufs c !! i with Some x => block_no x | None => 0 end.

Lemma pinned_on_disk c s i x : refines c s -> bufs c !! i = Some x -> pinned_buf x = true -> on_disk x = true.
Proof.
  intros R E Hp. pose proof (r_buf _ _ R i x E) as [_ Hf _]. destruct (on_disk x); [done|].
  destruct (Hf eq_refl) as [H1 H2]. unfold pinned_buf in Hp. rewrite H1, H2 in Hp. done.
Qed.

Lemma pinned_blocks c s b : refines c s -> b ∈ pinned s <-> exists i x, bufs c !! i = Some x /\ pinned_buf x = true /\
  on_disk x = true /\ block_no x = b.
Proof.
  intros R. unfold pinned. rewrite elem_of_union, (r_held _ _ R), (r_dirty _ _ R). split.
  - intros [(i & x & E & H1 & H2 & H3)|(i & x & E & H1 & H2 & H3)]; exists i, x; split_and!; try done; unfold pinned_buf.
    + rewrite H3. done.
    + rewrite H3. apply orb_true_r.
  - intros (i & x & E & Hp & H1 & H2). unfold pinned_buf in Hp. apply orb_true_iff in Hp as [Hp|Hp]; [left|right]; exists i, x; split_and!; try done.
    bprop. pose proof (r_buf _ _ R i x E) as [[[? _]|[? _]] _ _]; congruence.
Qed.

Lemma pinned_size c s : refines c s -> size (pinned s) = length (pinned_idx c).
Proof.
  intros R. assert (pinned s = list_to_set (block_at c <$> pinned_idx c)) as ->.
  { apply set_eq. intros b. rewrite (pinned_blocks c s b R), elem_of_list_to_set, list_elem_of_fmap. split.
    - intros (i & x & E & Hp & H1 & H2). exists i. split; [unfold block_at; by rewrite E|].
      apply list_elem_of_filter. split; [unfold pinned_at; by rewrite E|]. apply elem_of_seq.
      apply lookup_lt_Some in E. rewrite (r_len _ _ R) in E. lia.
    - intros (i & -> & Hi). apply list_elem_of_filter in Hi as [Hp _]. unfold pinned_at in Hp. unfold block_at.
      destruct (bufs c !! i) as [x|] eqn:E; [|done]. exists i, x. split_and!; try done. by eapply pinned_on_disk. }
  rewrite size_list_to_set; [apply length_fmap|]. apply NoDup_fmap_2_strong.
  - intros i j Hi Hj. apply list_elem_of_filter in Hi as [Hi _]. apply list_elem_of_filter in Hj as [Hj _].
    unfold pinned_at in Hi, Hj. unfold block_at. destruct (bufs c !! i) as [x|] eqn:Ei; [|done].
    destruct (bufs c !! j) as [y|] eqn:Ej; [|done]. intros Heq.
    apply (r_uniq _ _ R i j x y); try done; by eapply pinned_on_disk.
  - apply NoDup_filter, NoDup_seq.
Qed.

(** There is a buffer to reuse when not all are pinned. *)
Lemma unused_pinned c i : unused (bufs c) i = true <-> exists x, bufs c !! i = Some x /\ pinned_buf x = false.
Proof.
  unfold unused, pinned_buf. destruct (bufs c !! i) as [x|]; [|naive_solver]. split.
  - intros Hu. exists x. split; [done|]. by destruct (refcnt x =? 0), (f_dirty x).
  - intros (y & Hy & Hp). injection Hy as <-. by destruct (refcnt x =? 0), (f_dirty x).
Qed.

Lemma some_unpinned c s i x : refines c s -> bufs c !! i = Some x -> pinned_buf x = false -> (size (pinned s) < NBUF)%nat.
Proof.
  intros R E Hp. rewrite (pinned_size c s R). unfold pinned_idx.
  rewrite <- (length_seq NBUF 0) at 2. apply length_filter_lt with i.
  - apply elem_of_seq. apply lookup_lt_Some in E. rewrite (r_len _ _ R) in E. lia.
  - unfold pinned_at. rewrite E, Hp. done.
Qed.

Lemma all_pinned c s : refines c s -> (forall i, i ∈ seq 0 NBUF -> unused (bufs c) i = false) -> (NBUF <= size (pinned s))%nat.
Proof.
  intros R H. rewrite (pinned_size c s R). unfold pinned_idx.
  assert (filter (pinned_at c) (seq 0 NBUF) = seq 0 NBUF) as ->; [|by rewrite length_seq].
  assert (Forall (pinned_at c) (seq 0 NBUF)) as Hall.
  { apply Forall_forall. intros i Hi. specialize (H i Hi). unfold pinned_at.
    destruct (bufs c !! i) as [x|] eqn:E.
    - destruct (pinned_buf x) eqn:Ep; [done|]. exfalso. assert (unused (bufs c) i = true); [|congruence].
      apply unused_pinned. eauto.
    - apply lookup_ge_None in E. rewrite (r_len _ _ R) in E. apply elem_of_seq in Hi. lia. }
  clear -Hall. induction Hall as [|j l Hj _ IH]; [done|]. rewrite filter_cons_True by done. by rewrite IH.
Qed.
(** *** The operations *)

Lemma wait_Ok c i x h : bufs c !! i = Some x -> bsem x = Sem 1 [] h ->
  buf_wait cur i c = Ok (tt, set_bufs (<[i := Buf (f_dirty x) (f_valid x) (on_disk x) (Sem 0 [] (Some cur)) (block_no x) (refcnt x) (data x)]> (bufs c)) c).
Proof. intros E Hs. unfold buf_wait. rewrite (bind_Ok _ _ _ _ _ (get_buf_Ok _ _ _ E)). by rewrite Hs. Qed.

Lemma lru_in c s i x : refines c s -> bufs c !! i = Some x -> i ∈ lru c.
Proof.
  intros R E. rewrite (r_lru _ _ R). apply elem_of_seq. apply lookup_lt_Some in E. rewrite (r_len _ _ R) in E. lia.
Qed.

Lemma has_block_spec l b i : has_block l b i = true <-> exists x, l !! i = Some x /\ on_disk x = true /\ block_no x = b.
Proof.
  unfold has_block. destruct (l !! i) as [x|]; [|naive_solver]. split.
  - intros H. bprop. eauto.
  - intros (y & Hy & H1 & H2). injection Hy as <-. rewrite H1, H2. apply Z.eqb_refl.
Qed.

Lemma find_block c s b : refines c s ->
  match find (has_block (bufs c) b) (lru c) with
  | Some i => buf_of c b i
  | None => forall j z, bufs c !! j = Some z -> on_disk z = true -> block_no z <> b
  end.
Proof.
  intros R. destruct (find _ _) as [i|] eqn:Ef.
  - apply find_some in Ef as [_ Hi]. by apply has_block_spec in Hi.
  - intros j z Hj Hz Hb. pose proof (lru_in c s j z R Hj) as Hin. apply list_elem_of_In in Hin.
    apply (find_none _ _ Ef) in Hin. assert (has_block (bufs c) b j = true); [|congruence].
    apply has_block_spec. eauto.
Qed.

(** The abstract state of a buffer, read off the buffer. *)
Lemma held_of c s i x : refines c s -> bufs c !! i = Some x -> on_disk x = true ->
  block_no x ∈ held s <-> refcnt x = 1.
Proof.
  intros R E Hx. rewrite (r_held _ _ R). split; [|eauto 10]. intros (j & z & Hj & Hz & Hbz & Hr).
  assert (j = i) as -> by (by apply (r_uniq _ _ R j i z x)). congruence.
Qed.

Lemma dirty_of c s i x : refines c s -> bufs c !! i = Some x -> on_disk x = true ->
  block_no x ∈ dirty s <-> f_dirty x = true.
Proof.
  intros R E Hx. rewrite (r_dirty _ _ R). split; [|eauto 10]. intros (j & z & Hj & Hz & Hbz & Hr).
  assert (j = i) as -> by (by apply (r_uniq _ _ R j i z x)). congruence.
Qed.

(** [buf_read] of a block that has a buffer. *)
Lemma read_cached c s b i : refines c s -> find (has_block (bufs c) b) (lru c) = Some i -> buf_of c b i -> b ∉ held s ->
  exists c', buf_read cur b c = Ok (i, c') /\ buf_of c' b i /\
    refines c' (BStore (disk s) (<[b := view s b]> (cache s)) (dirty s) ({[b]} ∪ held s) (writes s)).
Proof.
  intros R Ef (x & E & Hx & Hb) Hh. pose proof (lookup_lt_Some _ _ _ E) as Hlt.
  pose proof (r_buf _ _ R i x E) as [[[Hr [h Hs]]|[Hr Hs]] _ Hval].
  2: { destruct Hh. rewrite <- Hb. by apply (held_of c s i x). }
  set (x1 := Buf (f_dirty x) (f_valid x) (on_disk x) (bsem x) (block_no x) (refcnt x + 1) (data x)).
  set (c1 := set_bufs (<[i := x1]> (bufs c)) c).
  assert (bufs c1 !! i = Some x1) as E1 by (by apply list_lookup_insert_eq).
  set (y := Buf (f_dirty x) (f_valid x) true (Sem 0 [] (Some cur)) b 1 (data x)).
  set (c' := BCache (<[i := y]> (bufs c)) (lru c) (drive c) (transfers c)).
  assert (bufs c' !! i = Some y) as E' by (by apply list_lookup_insert_eq).
  exists c'. split_and!; [|by exists y|].
  - unfold buf_read. erewrite (bind_Ok _ _ c i c').
    + rewrite (bind_Ok _ _ _ _ _ (get_buf_Ok _ _ _ E')). simpl. by rewrite (Hval Hx).
    + unfold buf_get. rewrite (bind_Ok _ _ _ c c) by done. rewrite Ef.
      rewrite (bind_Ok _ _ _ _ _ (get_buf_Ok _ _ _ E)). rewrite (bind_Ok _ _ _ tt c1) by done.
      erewrite bind_Ok; [|apply (wait_Ok c1 i x1 h); [done|exact Hs]].
      unfold c', c1, set_bufs, mret, M_ret. simpl. rewrite list_insert_insert_eq, Hx, Hb, Hr. done.
  - unfold c'. rewrite (r_disk _ _ R), (r_writes _ _ R). subst b. eapply (refines_update c s i x y); try done.
    + split; simpl; [by right|done|intros _; by apply Hval].
    + simpl. rewrite (r_data _ _ R i x E Hx). unfold view at 2. simpl. by rewrite default_insert, decide_True.
    + intros b' Hb'. split_and!; [|done|done|simpl; set_solver].
      unfold view at 1. simpl. rewrite default_insert. by rewrite decide_False.
    + by apply (dirty_of c s i x).
    + simpl. set_solver.
    + by right; left.
Qed.

(** [buf_read] of a block whose buffer the task holds already. *)
Lemma read_busy c s b i : refines c s -> find (has_block (bufs c) b) (lru c) = Some i -> buf_of c b i -> b ∈ held s ->
  buf_read cur b c = Hang.
Proof.
  intros R Ef (x & E & Hx & Hb) Hh. rewrite <- Hb in Hh. apply (held_of c s i x) in Hh; [|done|done|done].
  pose proof (r_buf _ _ R i x E) as [[[Hr _]|[Hr Hs]] _ _]; [lia|].
  set (x1 := Buf (f_dirty x) (f_valid x) (on_disk x) (bsem x) (block_no x) (refcnt x + 1) (data x)).
  set (c1 := set_bufs (<[i := x1]> (bufs c)) c).
  assert (bufs c1 !! i = Some x1) as E1 by (apply list_lookup_insert_eq; by eapply lookup_lt_Some).
  assert (buf_get cur b c = Hang) as Hg; [|by unfold buf_read, mbind, M_bind; rewrite Hg].
  unfold buf_get. rewrite (bind_Ok _ _ _ c c) by done. rewrite Ef.
  rewrite (bind_Ok _ _ _ _ _ (get_buf_Ok _ _ _ E)). rewrite (bind_Ok _ _ _ tt c1) by done.
  assert (buf_wait cur i c1 = Hang) as Hw; [|by unfold mbind, M_bind; rewrite Hw].
  unfold buf_wait. rewrite (bind_Ok _ _ _ _ _ (get_buf_Ok _ _ _ E1)). simpl. by rewrite Hs.
Qed.

(** [buf_read] of another block, into a buffer that nothing uses. *)
Lemma read_reuse c s b i : refines c s -> find (has_block (bufs c) b) (lru c) = None ->
  find (unused (bufs c)) (rev (lru c)) = Some i -> unused (bufs c) i = true ->
  (forall j z, bufs c !! j = Some z -> on_disk z = true -> block_no z <> b) ->
  exists c', buf_read cur b c = Ok (i, c') /\ buf_of c' b i /\
    refines c' (BStore (disk s) (<[b := view s b]> (cache s)) (dirty s) ({[b]} ∪ held s) (writes s)).
Proof.
  intros R Ef Eu Hu Hf. apply unused_pinned in Hu as (x & E & Hp). pose proof (lookup_lt_Some _ _ _ E) as Hlt.
  assert (refcnt x = 0 /\ f_dirty x = false) as [Hr Hfd].
  { unfold pinned_buf in Hp. apply orb_false_iff in Hp as [Hp ?]. bprop. done. }
  pose proof (r_buf _ _ R i x E) as [[[_ [h Hs]]|[? _]] _ _]; [|lia].
  set (x1 := Buf false false true (bsem x) b 1 (data x)). set (c1 := set_bufs (<[i := x1]> (bufs c)) c).
  assert (bufs c1 !! i = Some x1) as E1 by (by apply list_lookup_insert_eq).
  set (x2 := Buf false false true (Sem 0 [] (Some cur)) b 1 (data x)). set (c2 := set_bufs (<[i := x2]> (bufs c)) c).
  assert (bufs c2 !! i = Some x2) as E2 by (by apply list_lookup_insert_eq).
  set (y := Buf false true true (Sem 0 [] (Some cur)) b 1 (dread (drive c) b)).
  exists (BCache (<[i := y]> (bufs c)) (lru c) (drive c) (transfers c)).
  split_and!; [|exists y; split_and!; try done; by apply list_lookup_insert_eq|by apply (refines_reuse c s i x b)].
  unfold buf_read. erewrite (bind_Ok _ _ c i c2).
  - rewrite (bind_Ok _ _ _ _ _ (get_buf_Ok _ _ _ E2)). simpl negb. cbv iota.
    erewrite bind_Ok; [reflexivity|]. unfold iderw. rewrite (bind_Ok _ _ _ _ _ (get_buf_Ok _ _ _ E2)).
    rewrite (bind_Ok _ _ _ tt c2) by (apply ASSERT_true; unfold sem_holding; by apply bool_decide_eq_true_2).
    rewrite (bind_Ok _ _ _ tt c2) by done. rewrite (bind_Ok _ _ _ c2 c2) by done. simpl f_dirty. cbv iota.
    unfold set_buf, modify, c2, set_bufs. simpl. rewrite list_insert_insert_eq. done.
  - unfold buf_get. rewrite (bind_Ok _ _ _ c c) by done. rewrite Ef, Eu.
    rewrite (bind_Ok _ _ _ _ _ (get_buf_Ok _ _ _ E)). rewrite (bind_Ok _ _ _ tt c1) by done.
    erewrite bind_Ok; [|apply (wait_Ok c1 i x1 h); [done|exact Hs]].
    unfold c1, c2, set_bufs. simpl. by rewrite list_insert_insert_eq.
Qed.

Lemma read_sim c s b : refines c s ->
  match BlockIO.buf_read b s with
  | Ok (d, s') => exists i c', buf_read cur b c = Ok (i, c') /\ buf_of c' b i /\ refines c' s'
  | Panic => buf_read cur b c = Panic
  | Hang => buf_read cur b c = Hang
  end.
Proof.
  intros R. pose proof (find_block c s b R) as Hf. unfold BlockIO.buf_read.
  destruct (find (has_block (bufs c) b) (lru c)) as [i|] eqn:Ef.
  - case_bool_decide as Hh; [by eapply read_busy|]. pose proof Hf as (x & E & Hx & Hb).
    assert (bool_decide (b ∉ dirty s) && bool_decide (NBUF <= size (pinned s))%nat = false) as ->.
    { destruct (f_dirty x) eqn:Ed.
      - rewrite bool_decide_false; [done|]. intros Hn. apply Hn. rewrite <- Hb. by apply (dirty_of c s i x).
      - rewrite (bool_decide_false (NBUF <= _)%nat); [apply andb_false_r|].
        assert (size (pinned s) < NBUF)%nat; [|lia]. apply (some_unpinned c s i x); try done. unfold pinned_buf. rewrite Ed.
        pose proof (r_buf _ _ R i x E) as [[[Hr _]|[Hr _]] _ _]; [by rewrite Hr|].
        destruct Hh. rewrite <- Hb. by apply (held_of c s i x). }
    destruct (read_cached c s b i R Ef Hf Hh) as (c' & H1 & H2 & H3). by exists i, c'.
  - assert (b ∉ held s) as Hh by (rewrite (r_held _ _ R); intros (j & z & Hj & Hz & Hbz & _); by apply (Hf j z)).
    assert (b ∉ dirty s) as Hd by (rewrite (r_dirty _ _ R); intros (j & z & Hj & Hz & Hbz & _); by apply (Hf j z)).
    rewrite bool_decide_false by done. rewrite (bool_decide_true (b ∉ dirty s)) by done. cbn [andb].
    destruct (find (unused (bufs c)) (rev (lru c))) as [i|] eqn:Eu.
    + pose proof (find_some _ _ Eu) as [_ Hu]. pose proof Hu as (x & E & Hp)%unused_pinned.
      rewrite bool_decide_false by (pose proof (some_unpinned c s i x R E Hp); lia).
      destruct (read_reuse c s b i R Ef Eu Hu Hf) as (c' & H1 & H2 & H3). by exists i, c'.
    + rewrite bool_decide_true.
      * assert (buf_get cur b c = Panic) as Hg; [|by unfold buf_read, mbind, M_bind; rewrite Hg].
        unfold buf_get. rewrite (bind_Ok _ _ _ c c) by done. by rewrite Ef, Eu.
      * apply (all_pinned c s R). intros i Hi. apply (find_none _ _ Eu). apply -> in_rev.
        apply list_elem_of_In. by rewrite (r_lru _ _ R).
Qed.

(** The buffer of a block that the task holds. *)
Lemma held_buf c s b i : refines c s -> buf_of c b i -> b ∈ held s ->
  exists x, bufs c !! i = Some x /\ on_disk x = true /\ block_no x = b /\ refcnt x = 1 /\ bsem x = Sem 0 [] (Some cur) /\
    f_valid x = true.
Proof.
  intros R (x & E & Hx & Hb) Hh. subst b. apply (held_of c s i x) in Hh; [|done|done|done].
  pose proof (r_buf _ _ R i x E) as [[[Hr _]|[Hr Hs]] _ Hval]; [lia|]. exists x. split_and!; auto.
Qed.

Lemma store_sim c s b i d : refines c s -> buf_of c b i -> b ∈ held s ->
  exists c' s', BlockIO.buf_store b d s = Ok (tt, s') /\ data_store i d c = Ok (tt, c') /\ refines c' s' /\ buf_of c' b i.
Proof.
  intros R Ho Hh. destruct (held_buf c s b i R Ho Hh) as (x & E & Hx & <- & Hr & Hs & Hv).
  pose proof (lookup_lt_Some _ _ _ E) as Hlt.
  set (y := Buf (f_dirty x) (f_valid x) (on_disk x) (bsem x) (block_no x) (refcnt x) d).
  eexists (BCache (<[i := y]> (bufs c)) (lru c) (drive c) (transfers c)), _. split_and!; [reflexivity| |..].
  - unfold data_store. by rewrite (bind_Ok _ _ _ _ _ (get_buf_Ok _ _ _ E)).
  - rewrite (r_disk _ _ R), (r_writes _ _ R). eapply (refines_update c s i x y); try done.
    + split; simpl; [by right|congruence|done].
    + unfold view. simpl. by rewrite default_insert, decide_True.
    + intros b' Hb'. split_and!; try done. unfold view at 1. simpl. rewrite default_insert. by rewrite decide_False.
    + by apply (dirty_of c s i x).
    + by right; left.
  - exists y. split_and!; try done. by apply list_lookup_insert_eq.
Qed.

Lemma dirty_sim c s b i : refines c s -> buf_of c b i -> b ∈ held s ->
  exists c' s', BlockIO.buf_set_dirty b s = Ok (tt, s') /\ set_dirty i c = Ok (tt, c') /\ refines c' s' /\ buf_of c' b i.
Proof.
  intros R Ho Hh. destruct (held_buf c s b i R Ho Hh) as (x & E & Hx & <- & Hr & Hs & Hv).
  pose proof (lookup_lt_Some _ _ _ E) as Hlt.
  set (y := Buf true (f_valid x) (on_disk x) (bsem x) (block_no x) (refcnt x) (data x)).
  eexists (BCache (<[i := y]> (bufs c)) (lru c) (drive c) (transfers c)), _. split_and!; [reflexivity| |..].
  - unfold set_dirty. by rewrite (bind_Ok _ _ _ _ _ (get_buf_Ok _ _ _ E)).
  - rewrite (r_disk _ _ R), (r_writes _ _ R). eapply (refines_update c s i x y); try done.
    + split; simpl; [by right|congruence|done].
    + by apply (r_data _ _ R i x).
    + intros b' Hb'. split_and!; try done. simpl. set_solver.
    + simpl. set_solver.
    + by left.
  - exists y. split_and!; try done. by apply list_lookup_insert_eq.
Qed.

Lemma write_sim c s b i : refines c s -> buf_of c b i -> b ∈ held s ->
  exists c' s', BlockIO.buf_write b s = Ok (tt, s') /\ buf_write cur i c = Ok (tt, c') /\ refines c' s' /\ buf_of c' b i.
Proof.
  intros R Ho Hh. destruct (held_buf c s b i R Ho Hh) as (x & E & Hx & <- & Hr & Hs & Hv).
  pose proof (lookup_lt_Some _ _ _ E) as Hlt.
  set (x1 := Buf true (f_valid x) (on_disk x) (bsem x) (block_no x) (refcnt x) (data x)).
  set (c1 := set_bufs (<[i := x1]> (bufs c)) c).
  assert (bufs c1 !! i = Some x1) as E1 by (by apply list_lookup_insert_eq).
  set (y := Buf false true (on_disk x) (bsem x) (block_no x) (refcnt x) (data x)).
  assert (sem_holding cur (bsem x) = true) as Hhold by (rewrite Hs; by apply bool_decide_eq_true_2).
  eexists (BCache (<[i := y]> (bufs c)) (lru c) (<[block_no x := data x]> (drive c)) (transfers c ++ [(block_no x, data x)])), _.
  split_and!.
  - unfold BlockIO.buf_write. rewrite (bind_Ok _ _ _ s s) by done.
    rewrite (bind_Ok _ _ _ tt s) by (by apply ASSERT_true, bool_decide_eq_true_2). reflexivity.
  - unfold buf_write. rewrite (bind_Ok _ _ _ _ _ (get_buf_Ok _ _ _ E)). rewrite (bind_Ok _ _ _ tt c) by (by apply ASSERT_true).
    rewrite (bind_Ok _ _ _ tt c1) by done. unfold iderw. rewrite (bind_Ok _ _ _ _ _ (get_buf_Ok _ _ _ E1)).
    rewrite (bind_Ok _ _ _ tt c1) by (by apply ASSERT_true).
    rewrite (bind_Ok _ _ _ tt c1) by (apply ASSERT_true; simpl; by rewrite andb_false_r).
    rewrite (bind_Ok _ _ _ c1 c1) by done. cbn [f_dirty x1]. unfold put, c1, set_bufs. simpl.
    by rewrite list_insert_insert_eq.
  - rewrite (r_disk _ _ R), (r_writes _ _ R), (r_data _ _ R i x E Hx). eapply (refines_update c s i x y); try done.
    + split; simpl; [by right|congruence|done].
    + simpl. rewrite (r_data _ _ R i x E Hx). unfold view at 2. simpl. unfold view.
      rewrite dread_insert, decide_True by done. by destruct (cache s !! block_no x).
    + intros b' Hb'. split_and!; [| |simpl; set_solver|done].
      * unfold view at 1. simpl. rewrite dread_insert, decide_False by done. done.
      * by rewrite dread_insert, decide_False.
    + simpl. set_solver.
    + by right; left.
  - exists y. split_and!; try done. by apply list_lookup_insert_eq.
Qed.

Lemma unlinked_perm i l : NoDup l -> i ∈ l -> buf_insert_to_head i (buf_unlinked i l) ≡ₚ l.
Proof.
  unfold buf_insert_to_head, buf_unlinked. induction l as [|y l IH]; intros Hnd Hin; [by apply elem_of_nil in Hin|].
  apply NoDup_cons in Hnd as [Hy Hnd]. rewrite filter_cons. case_decide as D.
  - apply elem_of_cons in Hin as [->|Hin]; [done|]. rewrite Permutation_swap. by rewrite IH.
  - subst y. f_equiv. clear IH Hin Hnd. induction l as [|z l IH]; [done|].
    rewrite filter_cons_True by set_solver. f_equiv. apply IH. set_solver.
Qed.

Lemma release_sim c s b i : refines c s -> buf_of c b i -> b ∈ held s ->
  b ∈ dirty s \/ view s b = dread (disk s) b ->
  exists c' s', BlockIO.buf_release b s = Ok (tt, s') /\ buf_release i c = Ok (tt, c') /\ refines c' s'.
Proof.
  intros R Ho Hh Hcl. destruct (held_buf c s b i R Ho Hh) as (x & E & Hx & <- & Hr & Hs & Hv).
  pose proof (lookup_lt_Some _ _ _ E) as Hlt.
  set (x1 := Buf (f_dirty x) (f_valid x) (on_disk x) (Sem 1 [] None) (block_no x) (refcnt x) (data x)).
  set (c1 := set_bufs (<[i := x1]> (bufs c)) c).
  assert (bufs c1 !! i = Some x1) as E1 by (by apply list_lookup_insert_eq).
  set (y := Buf (f_dirty x) (f_valid x) (on_disk x) (Sem 1 [] None) (block_no x) 0 (data x)).
  set (s' := BStore (disk s) (cache s) (dirty s) (held s ∖ {[block_no x]}) (writes s)).
  assert (refines (BCache (<[i := y]> (bufs c)) (lru c) (drive c) (transfers c)) s') as R'.
  { rewrite (r_disk _ _ R), (r_writes _ _ R). eapply (refines_update c s i x y); try done.
    - split; simpl; [left; split; [done|by eexists]|congruence|done].
    - by apply (r_data _ _ R i x).
    - intros b' Hb'. split_and!; try done. simpl. set_solver.
    - by apply (dirty_of c s i x).
    - simpl. set_solver.
    - destruct Hcl as [Hcl|Hcl]; [left; by apply (dirty_of c s i x)|by right; right]. }
  eexists (BCache (<[i := y]> (bufs c)) (buf_insert_to_head i (buf_unlinked i (lru c))) (drive c) (transfers c)), s'.
  split_and!; [done| |].
  - unfold buf_release. rewrite (bind_Ok _ _ _ _ _ (get_buf_Ok _ _ _ E)). rewrite Hs.
    change (sem_signal all_blocked (Sem 0 [] (Some cur))) with (Ok (@None Z, Sem 1 [] None)). cbv beta iota.
    rewrite (bind_Ok _ _ _ tt c1) by done. rewrite (bind_Ok _ _ _ _ _ (get_buf_Ok _ _ _ E1)). cbn [x1 refcnt]. rewrite Hr.
    erewrite bind_Ok; [|reflexivity]. change (1 - 1 =? 0) with true. cbv iota.
    unfold modify, set_lru, c1, set_bufs. simpl. rewrite list_insert_insert_eq. done.
  - destruct R'. split; try done. simpl. rewrite <- r_lru0. simpl. apply unlinked_perm; [|by eapply lru_in].
    rewrite (r_lru _ _ R). apply NoDup_seq.
Qed.

Lemma init_refines d : refines (bio_init d) (mount d).
Proof.
  assert (forall i x, bufs (bio_init d) !! i = Some x -> x = init_buf) as Hi.
  { intros i x E. by apply lookup_replicate in E as [-> _]. }
  split; try done.
  - change (lru (bio_init d)) with (rev (seq 0 NBUF)). symmetry. apply Permutation_rev.
  - intros i x ->%Hi. split; [left; split; [done|by eexists]|done|done].
  - intros i j x y ->%Hi _ Hx. done.
  - intros i x ->%Hi. done.
  - intros b. split; [set_solver|]. intros (i & x & ->%Hi & Hx & _). done.
  - intros b. split; [set_solver|]. intros (i & x & ->%Hi & Hx & _). done.
Qed.
End refinement.

(** C2: the buffer cache implements the contract of BlockIO.v.  The cache starts as a
    freshly mounted drive; a [buf_read] gives a locked buffer with the contents of the
    block, waits exactly when the block is held and panics exactly when all 40 buffers are
    in use; stores, marks and writes act on the contents; a release lets the buffer be
    reused without losing anything, provided the block is marked dirty or agrees with the
    drive. *)
Theorem bcache_implements cur :
  (forall d, refines cur (bio_init d) (mount d)) /\
  forall c s, refines cur c s ->
    (forall b, match BlockIO.buf_read b s with
      | Ok (d, s') => exists i c', buf_read cur b c = Ok (i, c') /\ buf_of c' b i /\ refines cur c' s'
      | Panic => buf_read cur b c = Panic
      | Hang => buf_read cur b c = Hang
      end) /\
    forall b i, buf_of c b i -> b ∈ held s ->
      (forall d, exists c' s', BlockIO.buf_store b d s = Ok (tt, s') /\ data_store i d c = Ok (tt, c') /\
         refines cur c' s' /\ buf_of c' b i) /\
      (exists c' s', BlockIO.buf_set_dirty b s = Ok (tt, s') /\ set_dirty i c = Ok (tt, c') /\
         refines cur c' s' /\ buf_of c' b i) /\
      (exists c' s', BlockIO.buf_write b s = Ok (tt, s') /\ buf_write cur i c = Ok (tt, c') /\
         refines cur c' s' /\ buf_of c' b i) /\
      (b ∈ dirty s \/ view s b = dread (disk s) b ->
       exists c' s', BlockIO.buf_release b s = Ok (tt, s') /\ buf_release i c = Ok (tt, c') /\ refines cur c' s').
Proof.
  split; [apply init_refines|]. intros c s R. split; [intros b; by apply read_sim|]. intros b i Ho Hh. split_and!.
  - intros d. by apply store_sim.
  - by apply dirty_sim.
  - by apply write_sim.
  - by apply release_sim.
Qed.

Lemma bcache_implements_witness :
  exists i c', buf_read 3 7 (bio_init {[ 7 := replicate 512 65 ]}) = Ok (i, c') /\ buf_of c' 7 i.
Proof.
  destruct (bcache_implements 3) as [H0 H1].
  destruct (H1 (bio_init {[ 7 := replicate 512 65 ]}) (mount {[ 7 := replicate 512 65 ]}) (H0 _)) as [Hr _].
  specialize (Hr 7). change (BlockIO.buf_read 7 (mount {[7 := replicate 512 65]}))
    with (Ok (view (mount {[7 := replicate 512 65]}) 7, BStore {[7 := replicate 512 65]}
      (<[7 := view (mount {[7 := replicate 512 65]}) 7]> ∅) ∅ ({[7]} ∪ ∅) [])) in Hr.
  destruct Hr as (i & c' & E & Ho & _). exists i, c'. split; [exact E|exact Ho].
Defined.
End BufCache.
