(* ===== verification/Ide.v ===== *)
(** The disk driver's request queue: src/kernel/device/ide/ide.c.

    A task that wants a transfer puts its buffer at the end of the queue and waits on the
    semaphore of the channel; the drive works on the first buffer of the queue, and its
    interrupt completes the transfer, wakes a waiting task and starts the next request.
    [iderw] is cut where the task waits: [iderw_start] and [iderw_wait] run in one critical
    section, [iderw_resume] when the task has been woken up.

    There is one drive with a file system and so one channel.  The drive is hardware: at its
    interrupt it has done what it was told, or failed ([ok]); a command for it is the values
    of its registers.  Tasks are not killed while they wait for the drive. *)

From stdpp Require Import base numbers list gmap relations.
From Stdlib Require Import ZArith Lia.
From S2P Require Import Prelude Semaphore BlockIO BufCache.
#[local] Open Scope Z_scope.

Module Ide.
Import Semaphore BlockIO BufCache.

Definition IDE_BIT_DEV_MBS : Z := 0xA0.

Definition IDE_BIT_DEV_LBA : Z := 0x40.

Definition IDE_BIT_DEV_SLAVE : Z := 0x10.

(** The registers that [select_secs] sets; [slave] is [disk->dev_no == 1]. *)
Record regs := Regs { r_cnt : Z; r_lba_l : Z; r_lba_m : Z; r_lba_h : Z; r_dev : Z }.

Definition select_secs (slave : bool) (lba secs : Z) : regs :=
  Regs (u8 secs) (Z.land lba 0xFF) (Z.land (Z.shiftr lba 8) 0xFF) (Z.land (Z.shiftr lba 16) 0xFF)
    (Z.lor (Z.lor (Z.lor IDE_BIT_DEV_LBA IDE_BIT_DEV_MBS) (if slave then IDE_BIT_DEV_SLAVE else 0))
       (Z.land (Z.shiftr lba 24) 0xF)).

(** The sector that the drive takes the registers for. *)
Definition regs_lba (r : regs) : Z :=
  r_lba_l r + r_lba_m r * 2 ^ 8 + r_lba_h r * 2 ^ 16 + (r_dev r mod 2 ^ 4) * 2 ^ 24.

(** What the drive was told last: the write command comes with the data. *)
Inductive command := CmdRead (r : regs) | CmdWrite (r : regs) (d : block).

Record ide := MkIde {
  ibufs : list buf;
  idequeue : list nat;
  chan_sem : semaphore;
  idrive : gmap Z block;
  cmd : option command;
}.

Definition ide_buf (i : nat) : M ide buf := s ← get; index (ibufs s) (Z.of_nat i).

Definition put_ibuf (i : nat) (x : buf) : M ide unit :=
  modify (fun s => MkIde (<[i := x]> (ibufs s)) (idequeue s) (chan_sem s) (idrive s) (cmd s)).

Definition put_queue (q : list nat) : M ide unit :=
  modify (fun s => MkIde (ibufs s) q (chan_sem s) (idrive s) (cmd s)).

Definition put_sem (w : semaphore) : M ide unit :=
  modify (fun s => MkIde (ibufs s) (idequeue s) w (idrive s) (cmd s)).

Definition put_cmd (c : command) : M ide unit :=
  modify (fun s => MkIde (ibufs s) (idequeue s) (chan_sem s) (idrive s) (Some c)).

Definition SECTORS_PER_BLOCK : Z := 1.

Definition idestart (slave : bool) (i : nat) : M ide unit :=
  x ← ide_buf i;
  ASSERT (SECTORS_PER_BLOCK <? 8);;
  let r := select_secs slave (u32 (i32 (block_no x * SECTORS_PER_BLOCK))) SECTORS_PER_BLOCK in
  if f_dirty x then put_cmd (CmdWrite r (data x)) else put_cmd (CmdRead r).

(** [(flags & (VALID | DIRTY)) == VALID]. *)
Definition complete (x : buf) : bool := f_valid x && negb (f_dirty x).

(** The drive carries the command out before it raises its interrupt. *)
Definition drive_done (ok : bool) : M ide unit :=
  modify (fun s =>
    match cmd s with
    | Some (CmdWrite r d) =>
        MkIde (ibufs s) (idequeue s) (chan_sem s) (if ok then <[regs_lba r := d]> (idrive s) else idrive s) None
    | _ => s
    end).

(** [insl]: what the drive has for a read. *)
Definition insl (x : buf) : M ide block :=
  s ← get;
  match cmd s with Some (CmdRead r) => mret (dread (idrive s) (regs_lba r)) | _ => mret (data x) end.

(** The result is the task that is woken up; [ok] is [idewait(ide_chan) == 0]. *)
Definition ide_intr_handler (slave ok : bool) : M ide (option Z) :=
  s ← get;
  match idequeue s with
  | [] => mret None
  | i :: q =>
      x ← ide_buf i;
      d ← (if negb (f_dirty x) && ok then insl x else mret (data x));
      put_ibuf i (Buf false true (on_disk x) (bsem x) (block_no x) (refcnt x) d);;
      put_queue q;;
      s ← get;
      match sem_signal all_blocked (chan_sem s) with
      | Ok (w, sem) =>
          put_sem sem;;
          (match q with [] => mret tt | j :: _ => idestart slave j end);;
          mret w
      | Panic => panic
      | Hang => hang
      end
  end.

(** [iderw] up to its loop. *)
Definition iderw_start (slave : bool) (cur : Z) (i : nat) : M ide unit :=
  x ← ide_buf i;
  ASSERT (sem_holding cur (bsem x));;
  ASSERT (negb (complete x));;
  s ← get;
  match idequeue s with
  | [] => put_queue [i];; idestart slave i
  | q => put_queue (q ++ [i])
  end.

(** The loop of [iderw]: true when it is left, false when the task waits. *)
Fixpoint wait_loop (fuel : nat) (cur : Z) (i : nat) : M ide bool :=
  match fuel with
  | O => hang
  | S fuel =>
      x ← ide_buf i;
      if complete x then mret true
      else
        s ← get;
        match sem_wait cur (chan_sem s) with
        | Acquired w => put_sem w;; wait_loop fuel cur i
        | Blocks w => put_sem w;; mret false
        end
  end.

(** Each turn takes a unit of the semaphore. *)
Definition iderw_wait (cur : Z) (i : nat) : M ide bool :=
  s ← get; wait_loop (S (S (Z.to_nat (val (chan_sem s))))) cur i.

(** The end of [sem_wait] in a task that was woken up, and the loop again. *)
Definition iderw_resume (cur : Z) (i : nat) : M ide bool :=
  s ← get;
  put_sem (sem_wait_resume cur (chan_sem s));;
  iderw_wait cur i.

(** [HARD_DISK_CNT] is a byte that the BIOS leaves in memory. *)
Definition get_ide_channel_cnt (hd_cnt : Z) : Z :=
  let ide_chan_cnt := u8 ((hd_cnt + 2 - 1) / 2) in
  if 2 <? ide_chan_cnt then 2 else ide_chan_cnt.

(** [init_ide_chan] on [cur_disk], a pair of a channel and a device; nothing is read back
    from the drive itself. *)
Definition init_ide_chan (nr : Z) (cur_disk : option (Z * Z)) : option (Z * Z) :=
  fold_left (fun c dev_no => if negb (dev_no =? 0) || negb (nr =? 0) then Some (nr, dev_no) else c) [0; 1] cur_disk.

Definition init_disks (hd_cnt : Z) : option (Z * Z) :=
  fold_left (fun c nr => init_ide_chan nr c) (seqZ 0 (get_ide_channel_cnt hd_cnt)) None.

(** [ide_init]: the queue is empty, the semaphore has no units; the result is the disk of
    the file system. *)
Definition ide_init (hd_cnt : Z) (l : list buf) (d : gmap Z block) : outcome ((Z * Z) * ide) :=
  match init_disks hd_cnt with
  | Some c => Ok (c, MkIde l [] (sem_init 0) d None)
  | None => Panic
  end.

(** ** The driver and the tasks *)

(** [reqs] are the tasks that wait, with their buffers, in the order of their requests;
    [woken] those that have been woken up and not yet run. *)
Record idesys := IdeSys { st : ide; reqs : list (Z * nat); woken : list (Z * nat) }.

Definition busy (y : idesys) : list (Z * nat) := reqs y ++ woken y.

(** What other tasks may do to a buffer that is locked: count themselves as its users and
    wait for it. *)
Definition same_buf (x x' : buf) : Prop :=
  f_dirty x' = f_dirty x /\ f_valid x' = f_valid x /\ block_no x' = block_no x /\ data x' = data x /\
  holder (bsem x') = holder (bsem x).

Definition interrupt (slave ok : bool) : M ide (option Z) :=
  drive_done ok;; ide_intr_handler slave ok.

(** A request by a task that is not in [iderw] already, for a block that LBA28 can address; an interrupt that wakes a task up
    or none, a woken task that runs, and the rest of the kernel at the buffers. *)
Inductive istep (slave : bool) : idesys -> idesys -> Prop :=
| istep_call t i (b : bool) s1 s2 y : is_task t -> t ∉ map fst (busy y) ->
    (forall x, ibufs (st y) !! i = Some x -> 0 <= block_no x < 2 ^ 28) ->
    iderw_start slave t i (st y) = Ok (tt, s1) -> iderw_wait t i s1 = Ok (b, s2) ->
    istep slave y (IdeSys s2 (if b then reqs y else reqs y ++ [(t, i)]) (woken y))
| istep_intr ok t i q1 q2 s1 y :
    interrupt slave ok (st y) = Ok (Some t, s1) -> reqs y = q1 ++ (t, i) :: q2 ->
    istep slave y (IdeSys s1 (q1 ++ q2) (woken y ++ [(t, i)]))
| istep_intr_none ok s1 y :
    interrupt slave ok (st y) = Ok (None, s1) ->
    istep slave y (IdeSys s1 (reqs y) (woken y))
| istep_resume t i (b : bool) w1 w2 s1 y : woken y = w1 ++ (t, i) :: w2 ->
    iderw_resume t i (st y) = Ok (b, s1) ->
    istep slave y (IdeSys s1 (if b then reqs y else reqs y ++ [(t, i)]) (w1 ++ w2))
| istep_env l y :
    (forall t i x, (t, i) ∈ busy y -> ibufs (st y) !! i = Some x -> exists x', l !! i = Some x' /\ same_buf x x') ->
    istep slave y (IdeSys (MkIde l (idequeue (st y)) (chan_sem (st y)) (idrive (st y)) (cmd (st y))) (reqs y) (woken y)).

(** ** The registers *)

Lemma land_ones8 x : Z.land x 0xFF = x mod 256.
Proof. change 0xFF with (Z.ones 8). by rewrite Z.land_ones by lia. Qed.

Lemma land_ones4 x : Z.land x 0xF = x mod 16.
Proof. change 0xF with (Z.ones 4). by rewrite Z.land_ones by lia. Qed.

Lemma dev_low c x : Z.land c 0xF = 0 -> 0 <= x < 16 -> Z.lor c x mod 2 ^ 4 = x.
Proof.
  intros Hc Hx. rewrite <- Z.land_ones by lia. change (Z.ones 4) with 0xF.
  rewrite Z.land_lor_distr_l, Hc, land_ones4, Z.lor_0_l. apply Z.mod_small. lia.
Qed.

(** The drive reads the sector number back that the driver wrote, for the numbers that
    LBA28 has. *)
Lemma regs_lba_select slave lba secs : 0 <= lba < 2 ^ 28 -> regs_lba (select_secs slave lba secs) = lba.
Proof.
  intros H. unfold regs_lba, select_secs. cbn [r_lba_l r_lba_m r_lba_h r_dev].
  rewrite dev_low 
    by (first [by destruct slave|rewrite land_ones4; apply Z.mod_pos_bound; lia]).
  rewrite !land_ones8, land_ones4, !Z.shiftr_div_pow2 by lia.
  change (2 ^ 28) with 268435456 in H.
  change (2 ^ 8) with 256. change (2 ^ 16) with 65536. change (2 ^ 24) with 16777216.
  Z.div_mod_to_equations. lia.
Qed.

(** ** The operations *)

Lemma ide_buf_Ok s i x : ibufs s !! i = Some x -> ide_buf i s = Ok (x, s).
Proof.
  intros E. unfold ide_buf. rewrite (bind_Ok _ _ _ s s) by done. unfold index.
  rewrite (proj2 (Z.ltb_ge _ _)) by lia. by rewrite Nat2Z.id, E.
Qed.

(** The command for a buffer. *)
Definition cmd_of (slave : bool) (x : buf) : command :=
  let r := select_secs slave (u32 (i32 (block_no x * SECTORS_PER_BLOCK))) SECTORS_PER_BLOCK in
  if f_dirty x then CmdWrite r (data x) else CmdRead r.

Lemma cmd_of_same slave x x' : same_buf x x' -> cmd_of slave x' = cmd_of slave x.
Proof. intros (E1 & _ & E2 & E3 & _). unfold cmd_of. by rewrite E1, E2, E3. Qed.

Lemma lba_of x : 0 <= block_no x < 2 ^ 28 -> u32 (i32 (block_no x * SECTORS_PER_BLOCK)) = block_no x.
Proof.
  intros H. unfold SECTORS_PER_BLOCK. change (2 ^ 28) with 268435456 in H.
  rewrite Z.mul_1_r, i32_small, u32_small; [done|unfold is_u32|unfold is_i32]; lia.
Qed.

Lemma idestart_Ok slave i s x : ibufs s !! i = Some x ->
  idestart slave i s = Ok (tt, MkIde (ibufs s) (idequeue s) (chan_sem s) (idrive s) (Some (cmd_of slave x))).
Proof.
  intros E. unfold idestart. rewrite (bind_Ok _ _ _ _ _ (ide_buf_Ok _ _ _ E)). unfold cmd_of.
  by destruct (f_dirty x).
Qed.

(** The buffer after a transfer, and the drive. *)
Definition served (x : buf) (ok : bool) (d : gmap Z block) : buf :=
  Buf false true (on_disk x) (bsem x) (block_no x) (refcnt x)
    (if negb (f_dirty x) && ok then dread d (block_no x) else data x).

Definition drive_after (x : buf) (ok : bool) (d : gmap Z block) : gmap Z block :=
  if f_dirty x && ok then <[block_no x := data x]> d else d.

(** An interrupt for the first request of the queue. *)
Lemma interrupt_Ok slave ok s i q x t w :
  idequeue s = i :: q -> ibufs s !! i = Some x -> 0 <= block_no x < 2 ^ 28 -> cmd s = Some (cmd_of slave x) ->
  sem_signal all_blocked (chan_sem s) = Ok (t, w) ->
  (forall j q', q = j :: q' -> exists z, ibufs s !! j = Some z /\ j <> i) ->
  exists c, interrupt slave ok s =
    Ok (t, MkIde (<[i := served x ok (idrive s)]> (ibufs s)) q w (drive_after x ok (idrive s)) c) /\
    (forall j q' z, q = j :: q' -> ibufs s !! j = Some z -> c = Some (cmd_of slave z)).
Proof.
  intros Eq Ei Hb Ec Es Hn. destruct s as [l qu sm d c]. simpl in *. subst qu c.
  unfold interrupt, ide_intr_handler, drive_done, served, drive_after, cmd_of. mrun.
  rewrite lba_of by done. destruct (f_dirty x) eqn:Ed; simpl.
  all: erewrite ide_buf_Ok by exact Ei.
  all: rewrite ?Ed; destruct ok; simpl; rewrite Es; simpl.
  all: rewrite ?regs_lba_select by done.
  all: destruct q as [|j q']; [eexists; split; [done|intros ? ? ? [=]]|].
  all: destruct (Hn j q' eq_refl) as (z & Ej & Hji).
  all: erewrite idestart_Ok by (simpl; rewrite list_lookup_insert_ne by done; exact Ej).
  all: eexists; split; [done|]; intros ? ? z' [= <- <-] Ez; simplify_eq; done.
Qed.

(** ** Invariant *)

(** A request in progress: the task holds the buffer. *)
Definition req_ok (l : list buf) (done : bool) (r : Z * nat) : Prop :=
  exists x, l !! r.2 = Some x /\ holder (bsem x) = Some r.1 /\ 0 <= block_no x < 2 ^ 28 /\ complete x = done.

(** The queue is the requests in their order, the tasks wait in that order, those woken up
    find their buffers complete, and the drive works on the first request. *)
Record ide_inv (slave : bool) (y : idesys) : Prop := {
  ii_queue : idequeue (st y) = map snd (reqs y);
  ii_val : val (chan_sem (st y)) = - Z.of_nat (length (reqs y));
  ii_wait : waiting (chan_sem (st y)) = rev (map fst (reqs y));
  ii_task : Forall is_task (map fst (busy y));
  ii_apart : NoDup (map fst (busy y));
  ii_reqs : Forall (req_ok (ibufs (st y)) false) (reqs y);
  ii_woken : Forall (req_ok (ibufs (st y)) true) (woken y);
  ii_cmd : forall r q x, reqs y = r :: q -> ibufs (st y) !! r.2 = Some x -> cmd (st y) = Some (cmd_of slave x);
}.

Lemma busy_elem y r : r ∈ busy y -> exists d, r ∈ (if d : bool then woken y else reqs y).
Proof. unfold busy. rewrite elem_of_app. intros [H|H]; [by exists false|by exists true]. Qed.

Lemma inv_req slave y r : ide_inv slave y -> r ∈ busy y -> exists d, req_ok (ibufs (st y)) d r.
Proof.
  intros I (d & Hr)%busy_elem. exists d. destruct d;
    [apply (proj1 (Forall_forall _ _) (ii_woken _ _ I) _ Hr)|apply (proj1 (Forall_forall _ _) (ii_reqs _ _ I) _ Hr)].
Qed.

(** The buffers of the requests are different. *)
Lemma inv_bufs slave y r r' : ide_inv slave y -> r ∈ busy y -> r' ∈ busy y -> r.2 = r'.2 -> r = r'.
Proof.
  intros I Hr Hr' E.
  destruct (inv_req _ _ _ I Hr) as (d & x & Hx & Hh & _).
  destruct (inv_req _ _ _ I Hr') as (d' & x' & Hx' & Hh' & _).
  rewrite E in Hx. destruct r, r'. simpl in *. simplify_eq. congruence.
Qed.

(** An update of another buffer. *)
Lemma reqs_insert l d rs i z : (forall r, r ∈ rs -> r.2 <> i) ->
  Forall (req_ok l d) rs -> Forall (req_ok (<[i := z]> l) d) rs.
Proof.
  intros Hr. rewrite !Forall_forall. intros H r Hin. destruct (H r Hin) as (x & Hx & ?).
  exists x. by rewrite list_lookup_insert_ne by (apply not_eq_sym, Hr, Hin).
Qed.

Lemma req_ok_same l l' d r :
  (forall x, l !! r.2 = Some x -> exists x', l' !! r.2 = Some x' /\ same_buf x x') -> req_ok l d r -> req_ok l' d r.
Proof.
  intros H (x & Hx & Hh & Hb & Hc). destruct (H x Hx) as (x' & Hx' & E1 & E2 & E3 & E4 & E5).
  exists x'. unfold complete in *. rewrite E1, E2, E3, E5. done.
Qed.

Lemma inv_sem_ok slave y : ide_inv slave y -> sem_ok (chan_sem (st y)).
Proof.
  intros I. pose proof (ii_task _ _ I) as Ht. pose proof (ii_apart _ _ I) as Hn.
  unfold busy in *. rewrite map_app in Ht, Hn.
  apply Forall_app in Ht as [Ht _]. apply NoDup_app in Hn as [Hn _].
  pose proof (tasks_bound _ Ht Hn) as Hl. rewrite length_map in Hl. unfold NTASK in Hl.
  split.
  - rewrite (ii_val _ _ I). unfold is_i32. lia.
  - rewrite (ii_val _ _ I), (ii_wait _ _ I), length_rev, length_map.
    destruct (reqs y); [done|]. simpl length. rewrite (proj2 (Z.ltb_lt _ _)) by lia. lia.
  - rewrite (ii_wait _ _ I). by apply Forall_rev.
  - rewrite (ii_wait _ _ I). rewrite <- (Permutation_rev (map fst (reqs y))). done.
Qed.

(** A task that calls [iderw] with a buffer it holds waits. *)
Lemma iderw_start_Ok slave t i y x : ide_inv slave y -> t ∉ map fst (busy y) ->
  ibufs (st y) !! i = Some x -> holder (bsem x) = Some t -> complete x = false ->
  iderw_start slave t i (st y) = Ok (tt, MkIde (ibufs (st y)) (idequeue (st y) ++ [i]) (chan_sem (st y)) (idrive (st y))
    (match idequeue (st y) with [] => Some (cmd_of slave x) | _ => cmd (st y) end)).
Proof.
  intros I Ht Hx Hh Hc. unfold iderw_start. rewrite (bind_Ok _ _ _ _ _ (ide_buf_Ok _ _ _ Hx)).
  unfold sem_holding. rewrite bool_decide_eq_true_2 by done. rewrite Hc. mrun.
  destruct (st y) as [l q sm d c]. simpl in *. destruct q; simpl; [|done].
  by erewrite idestart_Ok by exact Hx.
Qed.

Lemma iderw_wait_blocks t i s x : ibufs s !! i = Some x -> complete x = false ->
  sem_ok (chan_sem s) -> is_task t -> t ∉ waiting (chan_sem s) -> val (chan_sem s) <= 0 ->
  iderw_wait t i s = Ok (false, MkIde (ibufs s) (idequeue s)
    (Sem (val (chan_sem s) - 1) (t :: waiting (chan_sem s)) (holder (chan_sem s))) (idrive s) (cmd s)).
Proof.
  intros Hx Hc Hok Ht Hw Hv. unfold iderw_wait. rewrite (bind_Ok _ _ _ s s) by done.
  cbn [wait_loop]. rewrite (bind_Ok _ _ _ _ _ (ide_buf_Ok _ _ _ Hx)), Hc.
  destruct (sem_wait_cases (chan_sem s) t) as [(V & _)|(V & E & _)]; [done..|lia|].
  mrun. by rewrite E.
Qed.

Lemma iderw_resume_Ok t i s x : ibufs s !! i = Some x -> complete x = true ->
  iderw_resume t i s = Ok (true, MkIde (ibufs s) (idequeue s) (sem_wait_resume t (chan_sem s)) (idrive s) (cmd s)).
Proof.
  intros Hx Hc. unfold iderw_resume. rewrite (bind_Ok _ _ _ s s) by done.
  erewrite bind_Ok by done. unfold iderw_wait. erewrite bind_Ok by done.
  cbn [wait_loop]. erewrite bind_Ok by (by apply ide_buf_Ok). by rewrite Hc.
Qed.

Lemma ide_buf_inv i s x s' : ide_buf i s = Ok (x, s') -> ibufs s !! i = Some x /\ s' = s.
Proof.
  unfold ide_buf. mrun. unfold index. rewrite (proj2 (Z.ltb_ge _ _)) by lia. rewrite Nat2Z.id.
  destruct (ibufs s !! i); [|done]. unfold mret, M_ret. intros [= -> ->]. done.
Qed.

Lemma iderw_start_inv slave t i s s1 : iderw_start slave t i s = Ok (tt, s1) ->
  exists x, ibufs s !! i = Some x /\ holder (bsem x) = Some t /\ complete x = false.
Proof.
  unfold iderw_start. intros (x & s' & [E ->]%ide_buf_inv & H)%bind_Ok_inv. exists x. split; [done|].
  revert H. mrun. unfold sem_holding. case_bool_decide; [|done]. by destruct (complete x).
Qed.

Lemma waiting_reqs slave y t : ide_inv slave y -> t ∉ map fst (busy y) -> t ∉ waiting (chan_sem (st y)).
Proof.
  intros I Ht Hw. apply Ht. unfold busy. rewrite map_app. apply elem_of_app. left.
  rewrite (ii_wait _ _ I), list_elem_of_In, <- in_rev in Hw. by apply list_elem_of_In.
Qed.

(** A call: the task is at the end of the queue and waits. *)
Lemma call_inv slave y t i x : ide_inv slave y -> is_task t -> t ∉ map fst (busy y) ->
  ibufs (st y) !! i = Some x -> holder (bsem x) = Some t -> complete x = false -> 0 <= block_no x < 2 ^ 28 ->
  exists s1 s2, iderw_start slave t i (st y) = Ok (tt, s1) /\ iderw_wait t i s1 = Ok (false, s2) /\
    ide_inv slave (IdeSys s2 (reqs y ++ [(t, i)]) (woken y)) /\ ibufs s2 = ibufs (st y) /\ idrive s2 = idrive (st y).
Proof.
  intros I Ht Hn Hx Hh Hc Hb. eexists _, _. split; [by eapply iderw_start_Ok|].
  pose proof (waiting_reqs _ _ _ I Hn) as Hw. pose proof (inv_sem_ok _ _ I) as Hok.
  pose proof (ii_val _ _ I) as Hv.
  split; [eapply iderw_wait_blocks; simpl; try done; lia|]. simpl. split; [|done].
  assert (map fst (busy (IdeSys (st y) (reqs y ++ [(t, i)]) (woken y))) ≡ₚ t :: map fst (busy y)) as P.
  { unfold busy; simpl. rewrite !map_app. simpl.
    rewrite <- app_assoc. simpl. symmetry. apply Permutation_middle. }
  split; simpl.
  - by rewrite map_app, (ii_queue _ _ I).
  - rewrite length_app, Hv. simpl. lia.
  - by rewrite map_app, rev_app_distr, (ii_wait _ _ I).
  - unfold busy in *; simpl in *. rewrite P. constructor; [done|apply (ii_task _ _ I)].
  - unfold busy in *; simpl in *. rewrite P. apply NoDup_cons. split; [done|apply (ii_apart _ _ I)].
  - apply Forall_app. split; [apply (ii_reqs _ _ I)|]. apply Forall_singleton. by exists x.
  - apply (ii_woken _ _ I).
  - intros r q z Er Ez. rewrite (ii_queue _ _ I). destruct (reqs y) as [|r' q'] eqn:E; simpl in *.
    + injection Er as <- <-. simpl in Ez. congruence.
    + injection Er as -> <-. eapply (ii_cmd _ _ I); eauto.
Qed.

(** An interrupt: the first request is served and its task woken up. *)
Lemma intr_inv slave ok y t i q : ide_inv slave y -> reqs y = (t, i) :: q ->
  exists x c, ibufs (st y) !! i = Some x /\ 0 <= block_no x < 2 ^ 28 /\ holder (bsem x) = Some t /\ complete x = false /\
    let s' := MkIde (<[i := served x ok (idrive (st y))]> (ibufs (st y))) (map snd q)
      (Sem (- Z.of_nat (length q)) (rev (map fst q)) None) (drive_after x ok (idrive (st y))) c in
    interrupt slave ok (st y) = Ok (Some t, s') /\ ide_inv slave (IdeSys s' q (woken y ++ [(t, i)])).
Proof.
  intros I Er. pose proof (inv_sem_ok _ _ I) as Hok.
  pose proof (ii_reqs _ _ I) as Hreq. rewrite Er in Hreq.
  apply Forall_cons in Hreq as [(x & Hx & Hh & Hb & Hc) Hreq]. simpl in Hx, Hh.
  pose proof (ii_val _ _ I) as Hv. pose proof (ii_wait _ _ I) as Hw. rewrite Er in Hv, Hw. simpl in Hv, Hw.
  assert (forall r, r ∈ q ++ woken y -> r.2 <> i) as Hne.
  { intros r Hr Ei. assert ((t, i) = r) as <-.
    { eapply (inv_bufs _ _ _ _ I); unfold busy; rewrite ?Er; simpl; [left|by right|done]. }
    pose proof (ii_apart _ _ I) as Hnd. unfold busy in Hnd. rewrite Er in Hnd. simpl in Hnd.
    apply NoDup_cons in Hnd as [Hnd _]. apply Hnd. by apply (list_elem_of_fmap_2 fst _ (t, i)). }
  destruct (sem_signal_cases (chan_sem (st y))) as [(V & _)|(V & w & t' & Ew & Es & _)]; [done|lia|lia|].
  rewrite Hw in Ew. apply app_inj_tail in Ew as [<- <-].
  destruct (interrupt_Ok slave ok (st y) i (map snd q) x (Some t) (Sem (val (chan_sem (st y)) + 1) (rev (map fst q)) None))
    as (c & Hi & Hcmd); [by rewrite (ii_queue _ _ I), Er|done|done|by eapply (ii_cmd _ _ I)|done|..].
  { intros j q' Eq. destruct q as [|r q'']; [done|]. injection Eq as <- <-.
    apply Forall_cons in Hreq as [(z & Hz & _) _]. exists z. split; [done|]. apply Hne. left. }
  replace (val (chan_sem (st y)) + 1) with (- Z.of_nat (length q)) in Hi by lia.
  exists x, c. do 4 (split; [done|]). split; [done|].
  assert (map fst (q ++ woken y ++ [(t, i)]) ≡ₚ map fst (busy y)) as P.
  { unfold busy. rewrite Er, app_assoc, (Permutation_app_comm _ [(t, i)]). done. }
  split; simpl.
  - done.
  - done.
  - done.
  - unfold busy; simpl. rewrite P. apply (ii_task _ _ I).
  - unfold busy; simpl. rewrite P. apply (ii_apart _ _ I).
  - apply reqs_insert; [|done]. intros r Hr. apply Hne. set_solver.
  - apply Forall_app. split.
    + apply reqs_insert; [|apply (ii_woken _ _ I)]. intros r Hr. apply Hne. set_solver.
    + apply Forall_singleton. exists (served x ok (idrive (st y))). simpl.
      rewrite list_lookup_insert_eq by (by eapply lookup_lt_Some). done.
  - intros r q' z -> Ez. rewrite list_lookup_insert_ne in Ez by (apply not_eq_sym, Hne; left).
    by eapply Hcmd.
Qed.

Lemma resume_inv slave y t i w1 w2 : ide_inv slave y -> woken y = w1 ++ (t, i) :: w2 ->
  exists s1, iderw_resume t i (st y) = Ok (true, s1) /\ ide_inv slave (IdeSys s1 (reqs y) (w1 ++ w2)) /\
    ibufs s1 = ibufs (st y) /\ idrive s1 = idrive (st y).
Proof.
  intros I Ew. pose proof (ii_woken _ _ I) as Hw. rewrite Ew in Hw.
  pose proof Hw as Hw'. apply Forall_app in Hw as [Hw1 Hw]. apply Forall_cons in Hw as [(x & Hx & _ & _ & Hc) Hw2].
  eexists. split; [by eapply iderw_resume_Ok|]. split; [|done].
  assert (map fst (busy y) ≡ₚ t :: map fst (reqs y ++ w1 ++ w2)) as P.
  { unfold busy. rewrite Ew, !map_app. simpl. rewrite !app_assoc. symmetry. apply Permutation_middle. }
  pose proof (ii_task _ _ I) as H1. pose proof (ii_apart _ _ I) as H2. rewrite P in H1, H2.
  apply Forall_cons in H1 as [_ H1]. apply NoDup_cons in H2 as [_ H2].
  split; simpl; [apply I..|done|done|apply I|by apply Forall_app|apply I].
Qed.

Lemma env_inv slave y l : ide_inv slave y ->
  (forall t i x, (t, i) ∈ busy y -> ibufs (st y) !! i = Some x -> exists x', l !! i = Some x' /\ same_buf x x') ->
  ide_inv slave (IdeSys (MkIde l (idequeue (st y)) (chan_sem (st y)) (idrive (st y)) (cmd (st y))) (reqs y) (woken y)).
Proof.
  intros I Hl. split; simpl; try apply I.
  - apply Forall_forall. intros [t i] Hr. eapply req_ok_same; [|apply (proj1 (Forall_forall _ _) (ii_reqs _ _ I) _ Hr)].
    intros x Hx. eapply (Hl t); [|done]. apply elem_of_app. by left.
  - apply Forall_forall. intros [t i] Hr. eapply req_ok_same; [|apply (proj1 (Forall_forall _ _) (ii_woken _ _ I) _ Hr)].
    intros x Hx. eapply (Hl t); [|done]. apply elem_of_app. by right.
  - intros [t i] q x' Er Ex. pose proof (ii_reqs _ _ I) as Hr. rewrite Er in Hr.
    apply Forall_cons in Hr as [(x & Hx & _) _]. simpl in *.
    destruct (Hl t i x) as (z & Hz & Hs); [unfold busy; rewrite Er; left|done|].
    assert (z = x') as -> by congruence. rewrite (cmd_of_same _ _ _ Hs). by eapply (ii_cmd _ _ I).
Qed.

Lemma interrupt_idle slave ok y : ide_inv slave y -> reqs y = [] ->
  exists s1, interrupt slave ok (st y) = Ok (None, s1) /\ ibufs s1 = ibufs (st y) /\ idequeue s1 = [] /\
    chan_sem s1 = chan_sem (st y).
Proof.
  intros I E. pose proof (ii_queue _ _ I) as Hq. rewrite E in Hq. simpl in Hq.
  unfold interrupt, drive_done, ide_intr_handler. mrun.
  destruct (st y) as [l qu sm d c]. simpl in *. subst qu. destruct c as [[]|]; simpl; eauto.
Qed.

Lemma istep_inv slave y y' : ide_inv slave y -> istep slave y y' -> ide_inv slave y'.
Proof.
  intros I Hs. destruct Hs as [t i b s1 s2 y Ht Hn Hb E1 E2|ok t i q1 q2 s1 y E Er|ok s1 y E|t i b w1 w2 s1 y Ew E|l y Hl].
  - destruct (iderw_start_inv _ _ _ _ _ E1) as (x & Hx & Hh & Hc).
    destruct (call_inv slave y t i x) as (s1' & s2' & E1' & E2' & I' & _); [auto..|].
    rewrite E1 in E1'. injection E1' as <-. rewrite E2 in E2'. injection E2' as -> <-. done.
  - destruct q1 as [|[t1 i1] q1]; simpl in *.
    + destruct (intr_inv slave ok _ _ _ _ I Er) as (x & c & _ & _ & _ & _ & E' & I').
      rewrite E in E'. injection E' as ->. done.
    + destruct (intr_inv slave ok _ _ _ _ I Er) as (x & c & _ & _ & _ & _ & E' & I').
      rewrite E in E'. injection E' as -> ->. pose proof (ii_apart _ _ I) as Hnd. unfold busy in Hnd.
      rewrite Er in Hnd. simpl in Hnd. apply NoDup_cons in Hnd as [Hnd _]. exfalso. apply Hnd.
      rewrite map_app, map_app. set_solver.
  - destruct (reqs y) as [|[t i] q] eqn:Er.
    + destruct (interrupt_idle slave ok _ I Er) as (s1' & E' & H1 & H2 & H3). rewrite E in E'. injection E' as <-.
      destruct I as [J1 J2 J3 J4 J5 J6 J7 J8]. unfold busy in *. rewrite Er in *.
      split; simpl; rewrite ?H1, ?H2, ?H3; done.
    + destruct (intr_inv slave ok _ _ _ _ I Er) as (x & c & _ & _ & _ & _ & E' & I'). congruence.
  - destruct (resume_inv _ _ _ _ _ _ I Ew) as (s1' & E' & I' & _). rewrite E in E'. injection E' as -> <-. done.
  - by apply env_inv.
Qed.

Lemma istep_reach slave y y' : rtc (istep slave) y y' -> ide_inv slave y -> ide_inv slave y'.
Proof. induction 1; eauto using istep_inv. Qed.

Lemma ide_init_inv slave l d : ide_inv slave (IdeSys (MkIde l [] (sem_init 0) d None) [] []).
Proof. split; simpl; constructor || done. Qed.

Lemma ide_reach hd_cnt l d c s0 y :
  ide_init hd_cnt l d = Ok (c, s0) -> rtc (istep (c.2 =? 1)) (IdeSys s0 [] []) y -> ide_inv (c.2 =? 1) y.
Proof.
  intros E Hr. apply (istep_reach _ _ _ Hr). unfold ide_init in E. destruct (init_disks hd_cnt); [|done].
  injection E as _ <-. apply ide_init_inv.
Qed.

(** The run of some interrupts, each with what the drive reports; the tasks woken up. *)
Fixpoint interrupts (slave : bool) (oks : list bool) : M ide (list (option Z)) :=
  match oks with
  | [] => mret []
  | ok :: oks => t ← interrupt slave ok; ts ← interrupts slave oks; mret (t :: ts)
  end.

(** The drive after the transfers of some requests, one after the other. *)
Definition drive_run (l : list buf) (rs : list (Z * nat)) (d : gmap Z block) : gmap Z block :=
  fold_left (fun d r => match l !! r.2 with Some x => drive_after x true d | None => d end) rs d.

Lemma drive_run_insert l rs d i z : i ∉ map snd rs -> drive_run (<[i := z]> l) rs d = drive_run l rs d.
Proof.
  unfold drive_run. revert d. induction rs as [|[t j] rs IH]; intros d Hi; [done|]. simpl in *.
  rewrite list_lookup_insert_ne by set_solver. apply IH. set_solver.
Qed.

(** The buffers of the requests that follow the first. *)
Lemma first_buf slave y t i q : ide_inv slave y -> reqs y = (t, i) :: q -> i ∉ map snd q.
Proof.
  intros I Er (r & Ei & Hr)%list_elem_of_fmap_1. pose proof (ii_apart _ _ I) as Hnd. unfold busy in Hnd.
  rewrite Er in Hnd. simpl in Hnd. apply NoDup_cons in Hnd as [Hnd _].
  assert ((t, i) = r) as <-.
  { eapply (inv_bufs _ _ _ _ I); unfold busy; rewrite ?Er; simpl; [left|right; set_solver|done]. }
  apply Hnd. rewrite map_app. apply elem_of_app. left. by apply (list_elem_of_fmap_2 fst _ (t, i)).
Qed.

(** The buffers after the interrupts of a drive that does not fail. *)
Definition all_served (l l' : list buf) (rs : list (Z * nat)) (d : gmap Z block) : Prop :=
  (forall q1 t i q2 x, rs = q1 ++ (t, i) :: q2 -> l !! i = Some x ->
     l' !! i = Some (served x true (drive_run l q1 d))) /\
  (forall i, i ∉ map snd rs -> l' !! i = l !! i).

Lemma all_served_cons l l' t i q x d :
  l !! i = Some x -> i ∉ map snd q ->
  all_served (<[i := served x true d]> l) l' q (drive_after x true d) -> all_served l l' ((t, i) :: q) d.
Proof.
  intros Hx Hi [H1 H2]. split.
  - intros [|[t1 i1] q1] t' i' q2 z E Hz; injection E as <- <- E.
    + subst q2. rewrite H2 by done. simplify_eq. by rewrite list_lookup_insert_eq by (by eapply lookup_lt_Some).
    + assert (i' <> i) as Hne by (subst q; rewrite map_app in Hi; set_solver).
      rewrite (H1 q1 t' i' q2 z E) by (by rewrite list_lookup_insert_ne by done).
      rewrite drive_run_insert by (subst q; rewrite map_app in Hi; set_solver).
      unfold drive_run. simpl. by rewrite Hx.
  - intros j Hj. simpl in Hj. rewrite H2 by set_solver. rewrite list_lookup_insert_ne by set_solver. done.
Qed.

Lemma interrupts_inv slave : forall n y, ide_inv slave y -> length (reqs y) = n ->
  exists s', interrupts slave (replicate n true) (st y) = Ok (map (fun r => Some r.1) (reqs y), s') /\
    ide_inv slave (IdeSys s' [] (woken y ++ reqs y)) /\
    idrive s' = drive_run (ibufs (st y)) (reqs y) (idrive (st y)) /\
    all_served (ibufs (st y)) (ibufs s') (reqs y) (idrive (st y)).
Proof.
  induction n as [|n IH]; intros y I Hl; destruct (reqs y) as [|[t i] q] eqn:Er; try discriminate.
  - exists (st y). split; [done|]. split; [|split; [done|split; [intros [|? ?]; done|done]]].
    rewrite app_nil_r. destruct y as [s r w]. simpl in *. by subst.
  - destruct (intr_inv slave true _ _ _ _ I Er) as (x & c & Hx & _ & _ & _ & E & I').
    pose proof (first_buf _ _ _ _ _ I Er) as Hi.
    injection Hl as Hl. destruct (IH _ I' Hl) as (s' & E' & J & D & A). simpl in *. exists s'. split_and!.
    + rewrite (bind_Ok _ _ _ _ _ E). by rewrite (bind_Ok _ _ _ _ _ E').
    + rewrite <- app_assoc in J. exact J.
    + rewrite D, drive_run_insert by done. unfold drive_run. simpl. by rewrite Hx.
    + by eapply all_served_cons.
Qed.

(** ** Theorems *)

(** however requests, interrupts, woken tasks and the rest of the kernel interleave, the
    queue of the driver is the list of the requests in the order they were made; a task that
    calls [iderw] with an incomplete buffer it holds passes the assertions and waits; an
    interrupt never trips an assertion and wakes up the task whose buffer is at the head of
    the queue, and only that one; and a task that was woken up finds its own transfer
    complete and returns at once. *)
Theorem ide_queue_correct hd_cnt l d c s0 y ok :
  ide_init hd_cnt l d = Ok (c, s0) -> rtc (istep (c.2 =? 1)) (IdeSys s0 [] []) y ->
  idequeue (st y) = map snd (reqs y) /\
  (forall t i x, is_task t -> t ∉ map fst (busy y) -> ibufs (st y) !! i = Some x ->
     sem_holding t (bsem x) = true -> complete x = false -> 0 <= block_no x < 2 ^ 28 ->
     exists s1 s2, iderw_start (c.2 =? 1) t i (st y) = Ok (tt, s1) /\ iderw_wait t i s1 = Ok (false, s2)) /\
  (exists s1, interrupt (c.2 =? 1) ok (st y) = Ok (head (map fst (reqs y)), s1)) /\
  (forall t i, (t, i) ∈ woken y -> exists s1, iderw_resume t i (st y) = Ok (true, s1) /\ ibufs s1 = ibufs (st y)).
Proof.
  intros E Hr. pose proof (ide_reach _ _ _ _ _ _ E Hr) as I. split_and!.
  - apply I.
  - intros t i x Ht Hn Hx Hh Hc Hb. apply bool_decide_eq_true in Hh.
    destruct (call_inv _ _ _ _ _ I Ht Hn Hx Hh Hc Hb) as (s1 & s2 & E1 & E2 & _). eauto.
  - destruct (reqs y) as [|[t i] q] eqn:Er.
    + destruct (interrupt_idle (c.2 =? 1) ok _ I Er) as (s1 & E1 & _). eauto.
    + destruct (intr_inv (c.2 =? 1) ok _ _ _ _ I Er) as (x & c' & _ & _ & _ & _ & E1 & _). eauto.
  - intros t i Hw. apply list_elem_of_split in Hw as (w1 & w2 & Ew).
    destruct (resume_inv _ _ _ _ _ _ I Ew) as (s1 & E1 & _ & H & _). eauto.
Qed.

(** C3: the buffer cache sees a transfer as one step ([BufCache.iderw]).  In every reachable
    state of the driver, an interrupt of a drive that has done its work changes the buffers
    and the drive exactly as that step does for the request at the head of the queue, and
    the assertions of the step hold. *)
Theorem ide_implements_iderw hd_cnt l d c s0 y t i q lru tr :
  ide_init hd_cnt l d = Ok (c, s0) -> rtc (istep (c.2 =? 1)) (IdeSys s0 [] []) y ->
  reqs y = (t, i) :: q ->
  exists s1 bc, interrupt (c.2 =? 1) true (st y) = Ok (Some t, s1) /\
    iderw t i (BCache (ibufs (st y)) lru (idrive (st y)) tr) = Ok (tt, bc) /\
    ibufs s1 = bufs bc /\ idrive s1 = drive bc.
Proof.
  intros E Hr Er. pose proof (ide_reach _ _ _ _ _ _ E Hr) as I.
  destruct (intr_inv (c.2 =? 1) true _ _ _ _ I Er) as (x & c' & Hx & Hb & Hh & Hc & E1 & _).
  unfold iderw. rewrite (bind_Ok _ _ _ _ _ (get_buf_Ok (BCache _ _ _ _) _ _ Hx)).
  unfold sem_holding. rewrite bool_decide_eq_true_2 by done. unfold complete in Hc. rewrite Hc. mrun.
  unfold served, drive_after in E1. destruct (f_dirty x); simpl in *; eexists _, _.
  all: split; [exact E1|]; split; [reflexivity|]; done.
Qed.

(** C18: no request is forgotten by a drive that does not fail: after as many interrupts
    as there are requests, each reporting success, the queue is empty, the tasks have been
    woken up in the order of their requests, the drive has the writes of the queue in
    that order, and the buffer of every request is valid and clean: one to be written has
    kept its data, which is on the drive, and one to be read has what the drive had for
    its block after the requests before it.  No other buffer has changed. *)
Theorem ide_serves_all hd_cnt l d c s0 y :
  ide_init hd_cnt l d = Ok (c, s0) -> rtc (istep (c.2 =? 1)) (IdeSys s0 [] []) y ->
  exists s1, interrupts (c.2 =? 1) (replicate (length (reqs y)) true) (st y) =
      Ok (map (fun r => Some r.1) (reqs y), s1) /\
    idequeue s1 = [] /\
    idrive s1 = drive_run (ibufs (st y)) (reqs y) (idrive (st y)) /\
    (forall q1 t i q2, reqs y = q1 ++ (t, i) :: q2 ->
       exists x x', ibufs (st y) !! i = Some x /\ ibufs s1 !! i = Some x' /\
         complete x' = true /\ block_no x' = block_no x /\
         data x' = (if f_dirty x then data x
                    else dread (drive_run (ibufs (st y)) q1 (idrive (st y))) (block_no x))) /\
    (forall i, i ∉ map snd (reqs y) -> ibufs s1 !! i = ibufs (st y) !! i).
Proof.
  intros E Hr. pose proof (ide_reach _ _ _ _ _ _ E Hr) as I.
  destruct (interrupts_inv _ _ _ I eq_refl) as (s1 & E1 & J & D & A1 & A2). exists s1.
  split_and!; [done|apply J|done| |done].
  intros q1 t i q2 Eq.
  destruct (proj1 (Forall_forall _ _) (ii_reqs _ _ I) (t, i)) as (x & Hx & _); [rewrite Eq; set_solver|].
  eexists x, _. split; [done|]. split; [by eapply A1|]. unfold served. simpl. by destruct (f_dirty x).
Qed.

(** the drive failing to read a block goes unnoticed: the interrupt handler skips the
    transfer, but marks the buffer valid and clean as after a successful one, so that the
    old contents of the buffer are taken for those of the block. *)
Theorem ide_failed_read_valid hd_cnt l d c s0 y t i q x :
  ide_init hd_cnt l d = Ok (c, s0) -> rtc (istep (c.2 =? 1)) (IdeSys s0 [] []) y ->
  reqs y = (t, i) :: q -> ibufs (st y) !! i = Some x -> f_dirty x = false ->
  exists s1 x', interrupt (c.2 =? 1) false (st y) = Ok (Some t, s1) /\
    ibufs s1 !! i = Some x' /\ complete x' = true /\ data x' = data x /\ block_no x' = block_no x.
Proof.
  intros E Hr Er Hx Hd. pose proof (ide_reach _ _ _ _ _ _ E Hr) as I.
  destruct (intr_inv (c.2 =? 1) false _ _ _ _ I Er) as (x' & c' & Hx' & _ & _ & _ & E1 & _).
  assert (x' = x) as -> by congruence.
  eexists _, _. split; [exact E1|]. simpl. rewrite list_lookup_insert_eq by (by eapply lookup_lt_Some).
  split; [done|]. unfold served. rewrite Hd. done.
Qed.

(** ** Witnesses *)

(** Two buffers, one to be written and one to be read, held by the tasks 4 and 5. *)
Definition demo_bufs : list buf :=
  [Buf true true true (Sem 0 [] (Some 4)) 7 1 (replicate 512 9);
   Buf false false true (Sem 0 [] (Some 5)) 7 1 zero_block].

Definition demo_ide (t : nat) : ide :=
  match t with
  | O => MkIde demo_bufs [] (sem_init 0) ∅ None
  | _ => MkIde demo_bufs [0%nat; 1%nat] (Sem (-2) [5; 4] None) ∅
           (Some (cmd_of true (Buf true true true (Sem 0 [] (Some 4)) 7 1 (replicate 512 9))))
  end.

Lemma ide_demo_reach : rtc (istep true) (IdeSys (demo_ide 0) [] []) (IdeSys (demo_ide 1) [(4, 0%nat); (5, 1%nat)] []).
Proof.
  eapply rtc_l; [eapply (istep_call _ 4 0 false); [unfold is_task, NTASK; lia|set_solver|
    intros x [= <-]; simpl; lia|lazy; reflexivity|lazy; reflexivity]|].
  eapply rtc_l; [eapply (istep_call _ 5 1 false); [unfold is_task, NTASK; lia|set_solver|
    intros x [= <-]; simpl; lia|lazy; reflexivity|lazy; reflexivity]|].
  apply rtc_refl.
Qed.

Lemma ide_queue_correct_witness :
  exists s1, interrupt true true (demo_ide 1) = Ok (Some 4, s1).
Proof.
  destruct (ide_queue_correct 2 demo_bufs ∅ (0, 1) (demo_ide 0) _ true ltac:(reflexivity) ide_demo_reach)
    as (_ & _ & (s1 & H) & _). exists s1. exact H.
Defined.

Lemma ide_implements_iderw_witness :
  exists s1 bc, interrupt true true (demo_ide 1) = Ok (Some 4, s1) /\
    iderw 4 0 (BCache demo_bufs [] ∅ []) = Ok (tt, bc) /\ ibufs s1 = bufs bc /\ idrive s1 = drive bc.
Proof.
  exact (ide_implements_iderw 2 demo_bufs ∅ (0, 1) (demo_ide 0) _ 4 0%nat [(5, 1%nat)] [] []
    ltac:(reflexivity) ide_demo_reach ltac:(reflexivity)).
Defined.

(** The second request reads the block that the first has written. *)
Lemma ide_serves_all_witness :
  exists s1 x', interrupts true [true; true] (demo_ide 1) = Ok ([Some 4; Some 5], s1) /\ idequeue s1 = [] /\
    ibufs s1 !! 1%nat = Some x' /\ complete x' = true /\ data x' = replicate 512 9.
Proof.
  destruct (ide_serves_all 2 demo_bufs ∅ (0, 1) (demo_ide 0) _
    ltac:(reflexivity) ide_demo_reach) as (s1 & H & Hq & _ & Hb & _).
  destruct (Hb [(4, 0%nat)] 5 1%nat [] eq_refl) as (x & x' & Hx & Hx' & Hc & _ & Hd).
  exists s1, x'. split; [exact H|]. split; [exact Hq|]. split; [exact Hx'|]. split; [exact Hc|].
  rewrite Hd. injection Hx as <-. vm_compute. reflexivity.
Defined.

Lemma demo_read_reach : rtc (istep true) (IdeSys (demo_ide 0) [] [])
  (IdeSys (MkIde demo_bufs [1%nat] (Sem (-1) [5] None) ∅ (Some (cmd_of true (Buf false false true (Sem 0 [] (Some 5)) 7 1 zero_block))))
    [(5, 1%nat)] []).
Proof.
  eapply rtc_l; [eapply (istep_call _ 5 1 false); [unfold is_task, NTASK; lia|set_solver|
    intros x [= <-]; simpl; lia|lazy; reflexivity|lazy; reflexivity]|].
  apply rtc_refl.
Qed.

Lemma ide_failed_read_valid_witness : exists s1 x',
  interrupt true false (MkIde demo_bufs [1%nat] (Sem (-1) [5] None) ∅
    (Some (cmd_of true (Buf false false true (Sem 0 [] (Some 5)) 7 1 zero_block)))) = Ok (Some 5, s1) /\
  ibufs s1 !! 1%nat = Some x' /\ complete x' = true /\ data x' = zero_block /\ block_no x' = 7.
Proof.
  exact (ide_failed_read_valid 2 demo_bufs ∅ (0, 1) (demo_ide 0) _ 5 1%nat [] _
    ltac:(reflexivity) demo_read_reach ltac:(reflexivity) ltac:(reflexivity) ltac:(reflexivity)).
Defined.
End Ide.
