(* ===== verification/Log.v ===== *)
(** The write-ahead log of src/fs/log.c, on the buffer cache of BlockIO.v.

    A file-system operation runs between [log_begin_op] and [log_end_op] and calls
    [log_write] instead of [buf_write]: the block is recorded in the in-memory
    header and its buffer stays dirty.  When the last operation ends, [commit]
    copies the recorded blocks to the log area, writes the header (the commit
    point), copies the blocks to their home and clears the header.  [log_init]
    runs at mount and redoes what a committed header names.

    The theorems: however many of the transfers of a [commit] reach the drive
    before the power fails, and however often the recovery is itself interrupted,
    the mounted drive has all the blocks of the transaction or none of them; the
    reservation of [log_begin_op] keeps the log from overflowing. *)

From stdpp Require Import base numbers list gmap relations.
From Stdlib Require Import ZArith Lia.
From S2P Require Import Prelude Semaphore BlockIO.
#[local] Open Scope Z_scope.

Module Log.
Import Semaphore BlockIO.

(** Constants of src/include/fs/log.h. *)
Definition MAX_OPEN_BLOCKS : Z := 10.

Definition LOG_SIZE : Z := MAX_OPEN_BLOCKS * 3.

(** [struct log] with its [struct logheader]. *)
Record log := MkLog {
  log_start : Z;
  outstanding : Z;
  committing : bool;
  lh_n : Z;
  lh_blocks : list Z;      (* LOG_SIZE words *)
  wait_sem : semaphore;
}.

(** The blocks and the log of a mounted drive. *)
Record fss := Fss { bs : bstore; lg : log }.

#[global] Instance Part_bs : Part fss bstore :=
  {| part := bs; set_part := fun b s => Fss b (lg s) |}.

#[global] Instance Part_lg : Part fss log :=
  {| part := lg; set_part := fun l s => Fss (bs s) l |}.

Definition set_lh_n (n : Z) (l : log) : log :=
  MkLog (log_start l) (outstanding l) (committing l) n (lh_blocks l) (wait_sem l).

Definition set_lh_blocks (b : list Z) (l : log) : log :=
  MkLog (log_start l) (outstanding l) (committing l) (lh_n l) b (wait_sem l).

Definition set_outstanding (n : Z) (l : log) : log :=
  MkLog (log_start l) n (committing l) (lh_n l) (lh_blocks l) (wait_sem l).

Definition set_committing (c : bool) (l : log) : log :=
  MkLog (log_start l) (outstanding l) c (lh_n l) (lh_blocks l) (wait_sem l).

Definition set_wait_sem (w : semaphore) (l : log) : log :=
  MkLog (log_start l) (outstanding l) (committing l) (lh_n l) (lh_blocks l) w.

(** [log->log_start + i + 1]: the block of the log area for the entry [i]. *)
Definition log_block (l : log) (i : nat) : Z := u32 (log_start l + Z.of_nat i + 1).

Definition head_block (l : log) : Z := u32 (log_start l).

(** Copy the committed blocks from the log to their home. *)
Definition install_trans : M fss unit :=
  s ← get;
  for_loop (Z.to_nat (lh_n (lg s))) 0 (fun i =>
    let logb := log_block (lg s) i in
    data ← lift (buf_read logb);
    datab ← index (lh_blocks (lg s)) (Z.of_nat i);
    _ ← lift (buf_read datab);
    lift (buf_store datab data);;
    lift (buf_write datab);;
    lift (buf_release logb);;
    lift (buf_release datab)).

(** Copy the modified blocks from the cache to the log. *)
Definition write_log : M fss unit :=
  s ← get;
  for_loop (Z.to_nat (lh_n (lg s))) 0 (fun i =>
    let to := log_block (lg s) i in
    _ ← lift (buf_read to);
    from ← index (lh_blocks (lg s)) (Z.of_nat i);
    data ← lift (buf_read from);
    lift (buf_store to data);;
    lift (buf_write to);;
    lift (buf_release to);;
    lift (buf_release from)).

(** [struct logheader] as it lies in a block: the count and the block numbers. *)
Definition put_header (n : Z) (blocks : list Z) (data : block) : block :=
  fold_left (fun d i => set32 d (S i) (default 0 (blocks !! i)))
    (seq 0 (Z.to_nat n)) (set32 data 0 (u32 n)).

Definition write_head : M fss unit :=
  s ← get;
  data ← lift (buf_read (head_block (lg s)));
  (if LOG_SIZE <? lh_n (lg s) then panic else mret tt);;
  lift (buf_store (head_block (lg s)) (put_header (lh_n (lg s)) (lh_blocks (lg s)) data));;
  lift (buf_write (head_block (lg s)));;
  lift (buf_release (head_block (lg s))).

(** The header of a drive that was never committed to by this kernel may hold any
    count; one beyond LOG_SIZE makes the loop run over the end of [blocks]. *)
Definition read_head : M fss unit :=
  s ← get;
  data ← lift (buf_read (head_block (lg s)));
  let n := i32 (get32 data 0) in
  lift (modify (set_lh_n n));;
  for_loop (Z.to_nat n) 0 (fun i =>
    l ← get;
    _ ← index (lh_blocks (lg l)) (Z.of_nat i);
    lift (modify (set_lh_blocks (<[i := get32 data (S i)]> (lh_blocks (lg l))))));;
  lift (buf_release (head_block (lg s))).

Definition commit : M fss unit :=
  s ← get;
  if 0 <? lh_n (lg s) then
    write_log;;
    write_head;;
    install_trans;;
    lift (modify (set_lh_n 0));;
    write_head
  else mret tt.

Definition recover_from_log : M fss unit :=
  read_head;;
  install_trans;;
  lift (modify (set_lh_n 0));;
  write_head.

(** The [while (1)] of [log_begin_op] run by the task [cur]: the operation is
    admitted, or the task is queued on [wait_sem]. *)
Inductive begin_result := Admitted_op (l : log) | Waits (l : log).

Fixpoint log_begin_loop (fuel : nat) (cur : Z) (l : log) : outcome begin_result :=
  match fuel with
  | O => Hang
  | S fuel =>
      if committing l || (LOG_SIZE <? lh_n l + (outstanding l + 1) * MAX_OPEN_BLOCKS) then
        match sem_wait cur (wait_sem l) with
        | Acquired w => log_begin_loop fuel cur (set_wait_sem w l)
        | Blocks w => Ok (Waits (set_wait_sem w l))
        end
      else Ok (Admitted_op (set_outstanding (outstanding l + 1) l))
  end.

(** Each turn of the loop takes a unit of [wait_sem]. *)
Definition begin_fuel (l : log) : nat := S (S (Z.to_nat (val (wait_sem l)))).

Definition log_begin_op (cur : Z) : M fss unit := fun s =>
  match log_begin_loop (begin_fuel (lg s)) cur (lg s) with
  | Ok (Admitted_op l) => Ok (tt, Fss (bs s) l)
  | Ok (Waits _) => Hang
  | Panic => Panic
  | Hang => Hang
  end.

(** [sem_signal(&log->wait_sem)]. *)
Definition signal_waiter : M fss unit := fun s =>
  match sem_signal all_blocked (wait_sem (lg s)) with
  | Ok (_, w) => Ok (tt, Fss (bs s) (set_wait_sem w (lg s)))
  | Panic => Panic
  | Hang => Hang
  end.

(** [log_end_op] up to its first [spinlock_release]; the result is [do_commit]. *)
Definition end_op_enter : M fss bool :=
  s ← get;
  let o := outstanding (lg s) - 1 in
  lift (modify (set_outstanding o));;
  if o =? 0 then lift (modify (set_committing true));; mret true
  else if bool_decide (waiting (wait_sem (lg s)) <> []) then signal_waiter;; mret false
  else mret false.

(** The second critical section of [log_end_op]. *)
Definition end_op_leave : M fss unit :=
  lift (modify (set_committing false));;
  signal_waiter.

Definition log_end_op : M fss unit :=
  s ← get;
  ASSERT (negb (committing (lg s)));;
  do_commit ← end_op_enter;
  if do_commit : bool then commit;; end_op_leave else mret tt.

(** The search of [log_write]: the first of the [n] entries that holds [b], or [n]. *)
Fixpoint find_entry (n : nat) (b : Z) (blocks : list Z) : nat :=
  match n, blocks with
  | S n, x :: blocks => if x =? b then O else S (find_entry n b blocks)
  | _, _ => n
  end.

(** [log_write] of the buffer of block [b], which belongs to the drive of the log. *)
Definition log_write (b : Z) : M fss unit :=
  s ← get;
  ASSERT (lh_n (lg s) <? LOG_SIZE);;
  ASSERT (1 <=? outstanding (lg s));;
  let i := find_entry (Z.to_nat (lh_n (lg s))) b (lh_blocks (lg s)) in
  _ ← index (lh_blocks (lg s)) (Z.of_nat i);
  lift (modify (set_lh_blocks (<[i := b]> (lh_blocks (lg s)))));;
  (if Z.of_nat i =? lh_n (lg s) then lift (modify (set_lh_n (lh_n (lg s) + 1))) else mret tt);;
  lift (buf_set_dirty b).

Definition init_log (start : Z) (junk : list Z) : log :=
  MkLog start 0 false 0 junk (sem_init 0).

(** [junk]: what the freshly allocated [struct log] holds in [lh.blocks]. *)
Definition log_init (start : Z) (junk : list Z) (b : bstore) : outcome (unit * fss) :=
  recover_from_log (Fss b (init_log start junk)).

(** *** Sequences of transfers *)

(** Block contents after the transfers [ws]. *)
Definition over (ws : list (Z * block)) (v : Z -> block) : Z -> block :=
  fold_left (fun v w x => if decide (x = fst w) then snd w else v x) ws v.

Lemma over_app ws1 ws2 v : over (ws1 ++ ws2) v = over ws2 (over ws1 v).
Proof. apply fold_left_app. Qed.

Lemma over_other ws v x : x ∉ ws.*1 -> over ws v x = v x.
Proof.
  revert v. induction ws as [|[b y] ws IH]; intros v Hx; [done|]. simpl.
  rewrite fmap_cons in Hx. simpl in Hx. rewrite IH by set_solver.
  rewrite decide_False by set_solver. done.
Qed.

Lemma over_lookup ws v x y : NoDup ws.*1 -> (x, y) ∈ ws -> over ws v x = y.
Proof.
  revert v. induction ws as [|[b z] ws IH]; intros v Hnd Hin; [set_solver|]. simpl.
  rewrite fmap_cons in Hnd. simpl in Hnd. apply NoDup_cons in Hnd as [H1 H2].
  apply elem_of_cons in Hin as [Heq|Hin].
  - injection Heq as -> ->. rewrite over_other by done. by rewrite decide_True.
  - by apply IH.
Qed.

Lemma over_ext ws v v' x : v x = v' x -> over ws v x = over ws v' x.
Proof.
  revert v v'. induction ws as [|w ws IH]; intros v v' H; [done|]. simpl.
  apply IH. case_decide; done.
Qed.

Lemma dread_apply_writes ws d x : dread (apply_writes ws d) x = over ws (dread d) x.
Proof.
  revert d. induction ws as [|[b y] ws IH]; intros d; [done|]. simpl.
  unfold apply_writes in *. simpl. rewrite IH. apply over_ext. by rewrite dread_insert.
Qed.

(** Redoing some of the transfers before all of them changes nothing. *)
Lemma over_take ws k v x : NoDup ws.*1 -> over ws (over (take k ws) v) x = over ws v x.
Proof.
  intros Hnd. destruct (decide (x ∈ ws.*1)) as [Hx|Hx].
  - apply list_elem_of_fmap in Hx as ([b y] & -> & Hin). simpl.
    by rewrite !(over_lookup _ _ b y).
  - rewrite !over_other; [done|done| |done]. intros Hx'. apply Hx.
    rewrite fmap_take in Hx'. apply elem_of_take in Hx' as (i & Hi & _).
    by apply list_elem_of_lookup_2 in Hi.
Qed.

(** [b'] is [b] after the transfers [ws]. *)
Record wrote (ws : list (Z * block)) (b b' : bstore) : Prop := {
  w_disk : disk b' = apply_writes ws (disk b);
  w_view : forall x, view b' x = over ws (view b) x;
  w_dirty : forall x, x ∈ dirty b' <-> x ∈ dirty b /\ x ∉ ws.*1;
  w_held : held b' = held b;
  w_writes : writes b' = writes b ++ ws;
}.

Lemma wrote_nil b : wrote [] b b.
Proof. split; try done; [set_solver|by rewrite app_nil_r]. Qed.

Lemma wrote_app ws1 ws2 b1 b2 b3 :
  wrote ws1 b1 b2 -> wrote ws2 b2 b3 -> wrote (ws1 ++ ws2) b1 b3.
Proof.
  intros [A1 A2 A3 A4 A5] [B1 B2 B3 B4 B5]. split.
  - by rewrite B1, A1, apply_writes_app.
  - intros x. rewrite B2, over_app. by apply over_ext.
  - intros x. rewrite B3, A3, fmap_app, elem_of_app. tauto.
  - congruence.
  - by rewrite B5, A5, app_assoc.
Qed.

Lemma wrote_room ws b b' k : wrote ws b b' -> room b k -> room b' k.
Proof.
  intros [_ _ H1 H2 _] H. unfold room, pinned in *.
  enough (size (held b' ∪ dirty b') <= size (held b ∪ dirty b))%nat by lia.
  apply subseteq_size. rewrite H2. intros x. rewrite !elem_of_union, H1. tauto.
Qed.

(** *** Copying a block to another through two buffers *)

Definition copy_order1 (src dst : Z) : M fss unit :=
  data ← lift (buf_read src);
  _ ← lift (buf_read dst);
  lift (buf_store dst data);;
  lift (buf_write dst);;
  lift (buf_release src);;
  lift (buf_release dst).

Definition copy_order2 (src dst : Z) : M fss unit :=
  _ ← lift (buf_read dst);
  data ← lift (buf_read src);
  lift (buf_store dst data);;
  lift (buf_write dst);;
  lift (buf_release dst);;
  lift (buf_release src).

Lemma lift_bs_Ok {A} (m : M bstore A) s a b :
  m (bs s) = Ok (a, b) -> lift m s = Ok (a, Fss b (lg s)).
Proof. intros H. unfold lift. simpl. by rewrite H. Qed.

(** The last four calls. *)
Lemma copy_tail src dst data b b2 l :
  src ∉ held b -> dst ∉ held b -> src <> dst ->
  (forall x, view b2 x = view b x) -> disk b2 = disk b -> dirty b2 = dirty b ->
  (forall x, x ∈ held b2 <-> x = src \/ x = dst \/ x ∈ held b) -> writes b2 = writes b ->
  exists b', wrote [(dst, data)] b b' /\
    (lift (buf_store dst data);; lift (buf_write dst);; lift (buf_release src);;
     lift (buf_release dst)) (Fss b2 l) = Ok (tt, Fss b' l) /\
    (lift (buf_store dst data);; lift (buf_write dst);; lift (buf_release dst);;
     lift (buf_release src)) (Fss b2 l) = Ok (tt, Fss b' l).
Proof.
  intros Hs Hd Hne Hv Hk Hy Hh Hw.
  assert (dst ∈ held b2) as Hin by (apply Hh; auto).
  eexists (BStore (<[dst := data]> (disk b2)) (<[dst := data]> (cache b2)) (dirty b2 ∖ {[dst]})
             (held b) (writes b2 ++ [(dst, data)])).
  assert (forall x, default (dread (disk b2) x) (<[dst:=data]> (cache b2) !! x) =
            if decide (x = dst) then data else view b x) as Hx.
  { intros x. rewrite default_insert. case_decide; [done|]. by rewrite <- Hv. }
  split_and!.
  - split; simpl.
    + by rewrite Hk.
    + intros x. unfold view at 1. simpl. rewrite default_insert. case_decide; [done|].
      rewrite dread_insert, decide_False by done. rewrite <- Hv. done.
    + intros x. rewrite elem_of_difference, elem_of_singleton, Hy. set_solver.
    + done.
    + by rewrite Hw.
  - mrun. unfold lift, buf_write. mrun. rewrite bool_decide_true by done. mrun.
    unfold view. simpl. rewrite default_insert, decide_True by done. do 4 f_equal.
    apply set_eq. intros x. rewrite !elem_of_difference, !elem_of_singleton, Hh. naive_solver.
  - mrun. unfold lift, buf_write. mrun. rewrite bool_decide_true by done. mrun.
    unfold view. simpl. rewrite default_insert, decide_True by done. do 4 f_equal.
    apply set_eq. intros x. rewrite !elem_of_difference, !elem_of_singleton, Hh. naive_solver.
Qed.

Lemma copy_spec src dst s :
  src ∉ held (bs s) -> dst ∉ held (bs s) -> src <> dst -> room (bs s) 2 ->
  exists b', wrote [(dst, view (bs s) src)] (bs s) b' /\
    copy_order1 src dst s = Ok (tt, Fss b' (lg s)).
Proof.
  intros Hs Hd Hne Hr. destruct s as [b l]. simpl in *. unfold copy_order1.
  destruct (buf_read_Ok b src) as (b1 & E1 & V1 & K1 & D1 & H1 & W1); [done|by eapply room_le; [|done]; lia|].
  rewrite (bind_Ok _ _ _ _ _ (lift_bs_Ok _ (Fss b l) _ _ E1)). simpl.
  destruct (buf_read_Ok b1 dst) as (b2 & E2 & V2 & K2 & D2 & H2 & W2);
    [rewrite H1; set_solver|by eapply room_read|].
  rewrite (bind_Ok _ _ _ _ _ (lift_bs_Ok _ (Fss b1 l) _ _ E2)). simpl.
  destruct (copy_tail src dst (view b src) b b2 l) as (b' & Hw & Hx & _);
    [done|done|done|by intros; rewrite V2, V1|congruence|congruence| |congruence|].
  - intros x. rewrite H2, H1. set_solver.
  - eauto.
Qed.

Lemma copy_spec2 src dst s :
  src ∉ held (bs s) -> dst ∉ held (bs s) -> src <> dst -> room (bs s) 2 ->
  exists b', wrote [(dst, view (bs s) src)] (bs s) b' /\
    copy_order2 src dst s = Ok (tt, Fss b' (lg s)).
Proof.
  intros Hs Hd Hne Hr. destruct s as [b l]. simpl in *. unfold copy_order2.
  destruct (buf_read_Ok b dst) as (b1 & E1 & V1 & K1 & D1 & H1 & W1); [done|by eapply room_le; [|done]; lia|].
  rewrite (bind_Ok _ _ _ _ _ (lift_bs_Ok _ (Fss b l) _ _ E1)). simpl.
  destruct (buf_read_Ok b1 src) as (b2 & E2 & V2 & K2 & D2 & H2 & W2);
    [rewrite H1; set_solver|by eapply room_read|].
  rewrite (bind_Ok _ _ _ _ _ (lift_bs_Ok _ (Fss b1 l) _ _ E2)). simpl. rewrite V1.
  destruct (copy_tail src dst (view b src) b b2 l) as (b' & Hw & _ & Hx);
    [done|done|done|by intros; rewrite V2, V1|congruence|congruence| |congruence|].
  - intros x. rewrite H2, H1. set_solver.
  - eauto.
Qed.

(** *** The copying loops *)

(** The transfers of [n] copies from [src i] to [dst i] with contents [v]. *)
Definition copies (dst : nat -> Z) (src : nat -> Z) (v : Z -> block) (n : nat) : list (Z * block) :=
  map (fun i => (dst i, v (src i))) (seq 0 n).

Lemma copies_S dst src v n : copies dst src v (S n) = copies dst src v n ++ [(dst n, v (src n))].
Proof. unfold copies. by rewrite seq_S, map_app. Qed.

Lemma copies_keys dst src v n : (copies dst src v n).*1 = map dst (seq 0 n).
Proof. unfold copies. by induction (seq 0 n); f_equal/=. Qed.

Lemma copies_key_in dst src v n x :
  x ∈ (copies dst src v n).*1 <-> exists i, (i < n)%nat /\ x = dst i.
Proof.
  rewrite copies_keys. rewrite list_elem_of_In, in_map_iff. split.
  - intros (i & <- & Hi). apply in_seq in Hi. exists i. split; [lia|done].
  - intros (i & Hi & ->). exists i. split; [done|]. apply in_seq. lia.
Qed.

Lemma copies_NoDup dst src v n :
  (forall i j, (i < n)%nat -> (j < n)%nat -> dst i = dst j -> i = j) ->
  NoDup (copies dst src v n).*1.
Proof.
  induction n as [|n IH]; intros Hinj; [constructor|].
  rewrite copies_S, fmap_app. apply NoDup_app. split_and!.
  - apply IH. intros. apply Hinj; lia.
  - intros x Hx. apply copies_key_in in Hx as (i & Hi & ->).
    change ([(dst n, v (src n))].*1) with [dst n]. rewrite list_elem_of_singleton.
    intros Heq. apply Hinj in Heq; lia.
  - apply NoDup_singleton.
Qed.

Lemma copies_in dst src v n i : (i < n)%nat -> (dst i, v (src i)) ∈ copies dst src v n.
Proof.
  intros Hi. unfold copies. rewrite list_elem_of_In, in_map_iff.
  exists i. split; [done|]. apply in_seq. lia.
Qed.

Lemma copies_ext dst src dst' src' v v' n :
  (forall i, (i < n)%nat -> dst i = dst' i /\ v (src i) = v' (src' i)) ->
  copies dst src v n = copies dst' src' v' n.
Proof.
  intros H. unfold copies. apply map_ext_in. intros i Hi. apply in_seq in Hi.
  destruct (H i) as [-> ->]; [lia|done].
Qed.

Lemma length_copies dst src v n : length (copies dst src v n) = n.
Proof. unfold copies. by rewrite length_map, length_seq. Qed.

(** A loop whose turn [i] copies the block [src i] to [dst i]. *)
Lemma copy_loop (body : nat -> M fss unit) (src dst : nat -> Z) n s :
  (forall i s', (i < n)%nat -> lg s' = lg s -> held (bs s') = held (bs s) -> room (bs s') 2 ->
     exists b', wrote [(dst i, view (bs s') (src i))] (bs s') b' /\
       body i s' = Ok (tt, Fss b' (lg s'))) ->
  (forall i j, (i < n)%nat -> (j < n)%nat -> src i <> dst j) ->
  room (bs s) 2 ->
  exists b', wrote (copies dst src (view (bs s)) n) (bs s) b' /\
    for_loop n 0 body s = Ok (tt, Fss b' (lg s)).
Proof.
  intros Hb Hne Hr.
  destruct (for_loop_inv (fun i s' => lg s' = lg s /\
    wrote (copies dst src (view (bs s)) i) (bs s) (bs s')) body n 0 s) as (s' & E & H1 & H2).
  - intros i s' [_ Hi] [H1 H2]. simpl in Hi. pose proof H2 as [K V D H W].
    destruct (Hb i s') as (b' & Hw & E); [done|done|done|by eapply wrote_room|].
    exists (Fss b' (lg s')). split; [done|]. split; [done|]. simpl. rewrite copies_S.
    eapply wrote_app; [done|]. rewrite V in Hw. rewrite over_other in Hw; [done|].
    rewrite copies_key_in. intros (j & Hj & Heq). apply (Hne i j); [done|lia|done].
  - split; [done|]. apply wrote_nil.
  - exists (bs s'). split; [done|]. rewrite E. destruct s'. simpl in *. by subst.
Qed.

(** *** Well-formed logs *)

(** A block outside of the log area. *)
Definition home (start b : Z) : Prop := b < start \/ start + LOG_SIZE < b.

(** Where the log area may be. *)
Definition start_ok (start : Z) : Prop := 0 <= start /\ start + LOG_SIZE + 1 < 2 ^ 31.

Record log_ok (l : log) : Prop := {
  lo_start : start_ok (log_start l);
  lo_len : length (lh_blocks l) = Z.to_nat LOG_SIZE;
  lo_n : 0 <= lh_n l <= LOG_SIZE;
  lo_nodup : NoDup (take (Z.to_nat (lh_n l)) (lh_blocks l));
  lo_home : Forall (fun b => is_u32 b /\ home (log_start l) b)
              (take (Z.to_nat (lh_n l)) (lh_blocks l));
}.

(** The blocks recorded in the log. *)
Definition entries (l : log) : list Z := take (Z.to_nat (lh_n l)) (lh_blocks l).

Definition entry (l : log) (i : nat) : Z := default 0 (lh_blocks l !! i).

Lemma entry_lookup l i : log_ok l -> (i < Z.to_nat (lh_n l))%nat ->
  lh_blocks l !! i = Some (entry l i) /\ entries l !! i = Some (entry l i).
Proof.
  intros [_ Hl Hn _ _] Hi. unfold entry, entries. rewrite lookup_take_lt by lia.
  destruct (lh_blocks l !! i) eqn:E; [done|]. apply lookup_ge_None in E. lia.
Qed.

Lemma entry_inj l i j : log_ok l -> (i < Z.to_nat (lh_n l))%nat -> (j < Z.to_nat (lh_n l))%nat ->
  entry l i = entry l j -> i = j.
Proof.
  intros Hl Hi Hj Heq. destruct (entry_lookup l i Hl Hi) as [_ H1].
  destruct (entry_lookup l j Hl Hj) as [_ H2]. rewrite Heq in H1.
  eapply NoDup_lookup; [apply (lo_nodup _ Hl)|done|done].
Qed.

Lemma entry_home l i : log_ok l -> (i < Z.to_nat (lh_n l))%nat ->
  is_u32 (entry l i) /\ home (log_start l) (entry l i).
Proof.
  intros Hl Hi. destruct (entry_lookup l i Hl Hi) as [_ H1].
  pose proof (lo_home _ Hl) as H. rewrite Forall_lookup in H. by eapply H.
Qed.

Lemma entries_elem l x : log_ok l ->
  x ∈ entries l <-> exists i, (i < Z.to_nat (lh_n l))%nat /\ x = entry l i.
Proof.
  intros Hl. split.
  - intros Hx. apply list_elem_of_lookup in Hx as (i & Hi). pose proof (lookup_lt_Some _ _ _ Hi) as Hlt.
    unfold entries in Hlt. rewrite length_take in Hlt. exists i. split; [lia|].
    destruct (entry_lookup l i Hl) as [_ H]; [lia|]. congruence.
  - intros (i & Hi & ->). destruct (entry_lookup l i Hl Hi) as [_ H].
    by apply list_elem_of_lookup_2 in H.
Qed.

Lemma log_block_eq l i : start_ok (log_start l) -> (i < Z.to_nat LOG_SIZE)%nat ->
  log_block l i = log_start l + Z.of_nat i + 1.
Proof. unfold start_ok, LOG_SIZE, MAX_OPEN_BLOCKS, log_block. intros H Hi. apply u32_small. ulia. Qed.

Lemma head_block_eq l : start_ok (log_start l) -> head_block l = log_start l.
Proof. unfold start_ok, LOG_SIZE, MAX_OPEN_BLOCKS, head_block. intros H. apply u32_small. ulia. Qed.

(** The log area is not locked by the caller, nor are the recorded blocks. *)
Definition unlocked (s : fss) : Prop :=
  forall x, x ∈ held (bs s) -> home (log_start (lg s)) x /\ x ∉ entries (lg s).

Lemma unlocked_area s i : unlocked s -> start_ok (log_start (lg s)) ->
  (i < Z.to_nat LOG_SIZE)%nat -> log_block (lg s) i ∉ held (bs s).
Proof.
  intros H Hs Hi Hx. apply H in Hx as [Hx _]. rewrite log_block_eq in Hx by done.
  unfold home, start_ok, LOG_SIZE, MAX_OPEN_BLOCKS in *. lia.
Qed.

Lemma unlocked_entry s i : unlocked s -> log_ok (lg s) ->
  (i < Z.to_nat (lh_n (lg s)))%nat -> entry (lg s) i ∉ held (bs s).
Proof.
  intros H Hl Hi Hx. apply H in Hx as [_ Hx]. apply Hx, entries_elem; eauto.
Qed.

Lemma area_home l i x : start_ok (log_start l) -> (i < Z.to_nat LOG_SIZE)%nat ->
  home (log_start l) x -> log_block l i <> x.
Proof.
  intros Hs Hi Hx. rewrite log_block_eq by done.
  unfold home, start_ok, LOG_SIZE, MAX_OPEN_BLOCKS in *. lia.
Qed.

Lemma index_lookup {S A} (l : list A) i x (s : S) :
  l !! i = Some x -> index l (Z.of_nat i) s = Ok (x, s).
Proof.
  intros H. unfold index. rewrite (proj2 (Z.ltb_ge _ _)) by lia. by rewrite Nat2Z.id, H.
Qed.

(** *** What the parts of [commit] do *)

Lemma index_mret {S A} (l : list A) i x : l !! i = Some x -> index (S := S) l (Z.of_nat i) = mret x.
Proof.
  intros H. unfold index. rewrite (proj2 (Z.ltb_ge _ _)) by lia. by rewrite Nat2Z.id, H.
Qed.

Definition nents (l : log) : nat := Z.to_nat (lh_n l).

Lemma nents_le l : log_ok l -> (nents l <= Z.to_nat LOG_SIZE)%nat.
Proof. intros [_ _ H _ _]. unfold nents. lia. Qed.

Lemma write_log_spec s :
  log_ok (lg s) -> unlocked s -> room (bs s) 2 ->
  exists b', wrote (copies (log_block (lg s)) (entry (lg s)) (view (bs s)) (nents (lg s))) (bs s) b' /\
    write_log s = Ok (tt, Fss b' (lg s)).
Proof.
  intros Hl Hu Hr. pose proof (nents_le _ Hl) as Hn.
  unfold write_log. mrun. apply (copy_loop _ (entry (lg s)) (log_block (lg s))); [| |done].
  - intros i s' Hi E1 E2 Hr'. destruct (entry_lookup _ i Hl Hi) as [El _].
    rewrite (index_mret _ _ _ El). apply copy_spec2; [..|done].
    + rewrite E2. by apply unlocked_entry.
    + rewrite E2. apply unlocked_area; [done|apply Hl|unfold nents in Hn; lia].
    + apply not_eq_sym, area_home; [apply Hl|unfold nents in Hn; lia|by apply entry_home].
  - intros i j Hi Hj. apply not_eq_sym, area_home; [apply Hl|unfold nents in Hn; lia|by apply entry_home].
Qed.

Lemma install_trans_spec s :
  log_ok (lg s) -> unlocked s -> room (bs s) 2 ->
  exists b', wrote (copies (entry (lg s)) (log_block (lg s)) (view (bs s)) (nents (lg s))) (bs s) b' /\
    install_trans s = Ok (tt, Fss b' (lg s)).
Proof.
  intros Hl Hu Hr. pose proof (nents_le _ Hl) as Hn.
  unfold install_trans. mrun. apply (copy_loop _ (log_block (lg s)) (entry (lg s))); [| |done].
  - intros i s' Hi E1 E2 Hr'. destruct (entry_lookup _ i Hl Hi) as [El _].
    rewrite (index_mret _ _ _ El). apply copy_spec; [..|done].
    + rewrite E2. apply unlocked_area; [done|apply Hl|unfold nents in Hn; lia].
    + rewrite E2. by apply unlocked_entry.
    + apply area_home; [apply Hl|unfold nents in Hn; lia|by apply entry_home].
  - intros i j Hi Hj. apply area_home; [apply Hl|unfold nents in Hn; lia|by apply entry_home].
Qed.

(** Rewriting one block. *)
Lemma rewrite_spec x data b l :
  x ∉ held b -> room b 1 ->
  exists b1 b', buf_read x b = Ok (view b x, b1) /\ wrote [(x, data)] b b' /\
    (lift (buf_store x data);; lift (buf_write x);; lift (buf_release x)) (Fss b1 l)
      = Ok (tt, Fss b' l).
Proof.
  intros Hh Hr. destruct (buf_read_Ok b x Hh Hr) as (b1 & E & V & K & D & H & W).
  eexists b1, (BStore (<[x := data]> (disk b1)) (<[x := data]> (cache b1)) (dirty b1 ∖ {[x]})
             (held b) (writes b1 ++ [(x, data)])).
  split; [done|]. split.
  - split; simpl.
    + by rewrite K.
    + intros y. unfold view at 1. simpl. rewrite default_insert. case_decide; [done|].
      rewrite dread_insert, decide_False by done. rewrite <- V. done.
    + intros y. rewrite D. set_solver.
    + done.
    + by rewrite W.
  - assert (x ∈ held b1) by (rewrite H; set_solver).
    mrun. unfold lift, buf_write. mrun. rewrite bool_decide_true by done. mrun.
    unfold view. simpl. rewrite default_insert, decide_True by done. do 4 f_equal.
    rewrite H. set_solver.
Qed.

Lemma head_unlocked s : unlocked s -> start_ok (log_start (lg s)) -> head_block (lg s) ∉ held (bs s).
Proof.
  intros H Hs Hx. apply H in Hx as [Hx _]. rewrite head_block_eq in Hx by done.
  unfold home, start_ok, LOG_SIZE, MAX_OPEN_BLOCKS in *. lia.
Qed.

Definition new_head (s : fss) : block :=
  put_header (lh_n (lg s)) (lh_blocks (lg s)) (view (bs s) (log_start (lg s))).

Lemma write_head_spec s :
  log_ok (lg s) -> unlocked s -> room (bs s) 1 ->
  exists b', wrote [(log_start (lg s), new_head s)] (bs s) b' /\
    write_head s = Ok (tt, Fss b' (lg s)).
Proof.
  intros Hl Hu Hr. pose proof (head_unlocked _ Hu (lo_start _ Hl)) as Hh.
  pose proof (head_block_eq _ (lo_start _ Hl)) as He. rewrite He in Hh.
  destruct (rewrite_spec (log_start (lg s)) (new_head s) (bs s) (lg s) Hh Hr) as (b1 & b' & E & Hw & Et).
  exists b'. split; [done|]. unfold write_head. rewrite (bind_Ok _ _ _ s s) by done. rewrite !He.
  rewrite (bind_Ok _ _ _ _ _ (lift_bs_Ok _ s _ _ E)).
  rewrite (proj2 (Z.ltb_ge _ _)) by (pose proof (lo_n _ Hl); lia). exact Et.
Qed.

(** *** The header on the drive *)

Definition hdr_n (h : block) : Z := i32 (get32 h 0).

Definition hdr_entry (h : block) (i : nat) : Z := get32 h (S i).

Lemma put_header_loop_spec (e : nat -> Z) n d :
  block_ok d -> (n <= Z.to_nat LOG_SIZE)%nat -> (forall i, (i < n)%nat -> is_u32 (e i)) ->
  let d' := fold_left (fun d i => set32 d (S i) (e i)) (seq 0 n) d in
  block_ok d' /\ get32 d' 0 = get32 d 0 /\ forall i, (i < n)%nat -> get32 d' (S i) = e i.
Proof.
  intros Hd. induction n as [|n IH]; intros Hn He; [split_and!; [done|done|lia]|].
  rewrite seq_S, fold_left_app. simpl. destruct IH as ([Hl Hb] & H0 & Hi); [lia|intros; apply He; lia|].
  unfold LOG_SIZE, MAX_OPEN_BLOCKS in Hn. unfold BLOCK_SIZE in Hl.
  split_and!.
  - split; [rewrite length_set32; unfold BLOCK_SIZE; lia|by apply bytes_set32].
  - rewrite get32_set32_ne by lia. done.
  - intros i Hin. destruct (decide (i = n)) as [->|].
    + apply get32_set32_eq; [lia|apply He; lia].
    + rewrite get32_set32_ne by lia. apply Hi. lia.
Qed.

Lemma put_header_spec n blocks d :
  block_ok d -> 0 <= n <= LOG_SIZE ->
  (forall i, (i < Z.to_nat n)%nat -> is_u32 (default 0 (blocks !! i))) ->
  block_ok (put_header n blocks d) /\ hdr_n (put_header n blocks d) = n /\
  forall i, (i < Z.to_nat n)%nat -> hdr_entry (put_header n blocks d) i = default 0 (blocks !! i).
Proof.
  intros [Hl Hb] Hn He. unfold BLOCK_SIZE in Hl. unfold LOG_SIZE, MAX_OPEN_BLOCKS in Hn.
  assert (block_ok (set32 d 0 (u32 n))) as H1
    by (split; [rewrite length_set32; unfold BLOCK_SIZE; lia|by apply bytes_set32]).
  destruct (put_header_loop_spec (fun i => default 0 (blocks !! i)) (Z.to_nat n) _ H1)
    as (A & B & C); [unfold LOG_SIZE, MAX_OPEN_BLOCKS; lia|done|].
  unfold put_header, hdr_n, hdr_entry. split_and!; [done| |done].
  rewrite B, get32_set32_eq by (lia || apply u32_range). ulia.
Qed.

(** *** [commit] as a sequence of transfers *)

Definition commit_writes (s : fss) : list (Z * block) :=
  let l := lg s in let v := view (bs s) in
  copies (log_block l) (entry l) v (nents l) ++ [(log_start l, new_head s)] ++
  copies (entry l) (entry l) v (nents l) ++
  [(log_start l, put_header 0 (lh_blocks l) (new_head s))].

Lemma log_block_inj l i j : start_ok (log_start l) ->
  (i < Z.to_nat LOG_SIZE)%nat -> (j < Z.to_nat LOG_SIZE)%nat -> log_block l i = log_block l j -> i = j.
Proof. intros Hs Hi Hj. rewrite !log_block_eq by done. lia. Qed.

Lemma log_block_start l i : start_ok (log_start l) -> (i < Z.to_nat LOG_SIZE)%nat ->
  log_block l i <> log_start l.
Proof. intros Hs Hi. rewrite log_block_eq by done. lia. Qed.

Lemma entry_start l i : log_ok l -> (i < nents l)%nat -> entry l i <> log_start l.
Proof.
  intros Hl Hi. destruct (entry_home l i Hl Hi) as [_ H].
  unfold home, LOG_SIZE, MAX_OPEN_BLOCKS in H. lia.
Qed.

Lemma log_ok_clear l : log_ok l -> log_ok (set_lh_n 0 l).
Proof. intros [H1 H2 H3 H4 H5]. split; simpl; try done; try constructor; unfold LOG_SIZE, MAX_OPEN_BLOCKS; lia. Qed.

Lemma unlocked_held s b : unlocked s -> held b = held (bs s) -> unlocked (Fss b (lg s)).
Proof. intros H E x. simpl. rewrite E. apply H. Qed.

Lemma unlocked_clear s : unlocked s -> unlocked (Fss (bs s) (set_lh_n 0 (lg s))).
Proof. intros H x Hx. apply H in Hx as [Hx _]. split; [done|]. unfold entries. simpl. set_solver. Qed.

(** Clearing the header. *)
Lemma clear_spec s :
  log_ok (lg s) -> unlocked s -> room (bs s) 1 ->
  exists b', wrote [(log_start (lg s), put_header 0 (lh_blocks (lg s)) (view (bs s) (log_start (lg s))))]
      (bs s) b' /\
    (lift (modify (set_lh_n 0));; write_head) s = Ok (tt, Fss b' (set_lh_n 0 (lg s))).
Proof.
  intros Hl Hu Hr. destruct (write_head_spec (Fss (bs s) (set_lh_n 0 (lg s)))) as (b' & Hw & E);
    [by apply log_ok_clear|by apply unlocked_clear|done|].
  exists b'. split; [exact Hw|]. rewrite (bind_Ok _ _ _ tt (Fss (bs s) (set_lh_n 0 (lg s)))) by done. done.
Qed.

Lemma commit_spec s :
  log_ok (lg s) -> unlocked s -> room (bs s) 2 -> 0 < lh_n (lg s) ->
  exists b', wrote (commit_writes s) (bs s) b' /\
    commit s = Ok (tt, Fss b' (set_lh_n 0 (lg s))).
Proof.
  intros Hl Hu Hr Hn. pose proof (nents_le _ Hl) as Hle. pose proof (lo_start _ Hl) as Hs.
  unfold commit. rewrite (bind_Ok _ _ _ s s) by done. rewrite (proj2 (Z.ltb_lt _ _)) by done.
  destruct (write_log_spec s Hl Hu Hr) as (b1 & W1 & E1). rewrite (bind_Ok _ _ _ _ _ E1).
  pose proof (wrote_room _ _ _ _ W1 Hr) as R1. pose proof (unlocked_held _ b1 Hu (w_held _ _ _ W1)) as U1.
  destruct (write_head_spec (Fss b1 (lg s)) Hl U1) as (b2 & W2 & E2); [by eapply room_le; [|done]; lia|].
  rewrite (bind_Ok _ _ _ _ _ E2). simpl in W2.
  pose proof (wrote_room _ _ _ _ W2 R1) as R2. pose proof (unlocked_held _ b2 U1 (w_held _ _ _ W2)) as U2.
  assert (new_head (Fss b1 (lg s)) = new_head s) as Eh.
  { unfold new_head. simpl. f_equal. rewrite (w_view _ _ _ W1). apply over_other.
    rewrite copies_key_in. intros (i & Hi & Heq). symmetry in Heq. revert Heq.
    apply log_block_start; [done|lia]. }
  rewrite Eh in W2. destruct (install_trans_spec (Fss b2 (lg s)) Hl U2 R2) as (b3 & W3 & E3).
  rewrite (bind_Ok _ _ _ _ _ E3). simpl in W3.
  pose proof (wrote_room _ _ _ _ W3 R2) as R3. pose proof (unlocked_held _ b3 U2 (w_held _ _ _ W3)) as U3.
  assert (copies (entry (lg s)) (log_block (lg s)) (view b2) (nents (lg s)) =
          copies (entry (lg s)) (entry (lg s)) (view (bs s)) (nents (lg s))) as Ec.
  { apply copies_ext. intros i Hi. split; [done|].
    rewrite (w_view _ _ _ W2). rewrite over_other.
    - rewrite (w_view _ _ _ W1). apply over_lookup; [|by apply copies_in].
      apply copies_NoDup. intros ????. apply log_block_inj; [done|lia|lia].
    - change ([(log_start (lg s), new_head s)].*1) with [log_start (lg s)].
      rewrite list_elem_of_singleton. apply log_block_start; [done|lia]. }
  rewrite Ec in W3.
  destruct (clear_spec (Fss b3 (lg s)) Hl U3) as (b4 & W4 & E4); [by eapply room_le; [|done]; lia|].
  simpl in *. exists b4. split; [|exact E4]. unfold commit_writes.
  eapply wrote_app; [exact W1|]. eapply wrote_app; [exact W2|]. eapply wrote_app; [exact W3|].
  replace (put_header 0 (lh_blocks (lg s)) (new_head s)) with
    (put_header 0 (lh_blocks (lg s)) (view b3 (log_start (lg s)))); [exact W4|].
  f_equal. rewrite (w_view _ _ _ W3), over_other.
  - rewrite (w_view _ _ _ W2). simpl. by rewrite decide_True.
  - rewrite copies_key_in. intros (i & Hi & Heq). symmetry in Heq. revert Heq. by apply entry_start.
Qed.

(** *** Recovery *)

(** A header that this kernel can have written. *)
Record hdr_ok (start : Z) (h : block) : Prop := {
  ho_block : block_ok h;
  ho_n : 0 <= hdr_n h <= LOG_SIZE;
  ho_inj : forall i j, (i < Z.to_nat (hdr_n h))%nat -> (j < Z.to_nat (hdr_n h))%nat ->
             hdr_entry h i = hdr_entry h j -> i = j;
  ho_home : forall i, (i < Z.to_nat (hdr_n h))%nat -> home start (hdr_entry h i);
}.

Definition area (start : Z) (i : nat) : Z := start + Z.of_nat i + 1.

(** The transfers that redo the transaction of a drive. *)
Definition redo (start : Z) (d : gmap Z block) : list (Z * block) :=
  let h := dread d start in
  copies (hdr_entry h) (area start) (dread d) (Z.to_nat (hdr_n h)).

(** The contents of the home blocks that recovery leaves on the drive. *)
Definition recovered (start : Z) (d : gmap Z block) (x : Z) : block := over (redo start d) (dread d) x.

(** The in-memory header after [read_head]. *)
Lemma read_head_loop h l0 n b : (n <= length (lh_blocks l0))%nat ->
  exists blocks, for_loop n 0 (fun i =>
      l ← get;
      _ ← index (lh_blocks (lg l)) (Z.of_nat i);
      lift (modify (set_lh_blocks (<[i := get32 h (S i)]> (lh_blocks (lg l)))))) (Fss b l0)
    = Ok (tt, Fss b (set_lh_blocks blocks l0)) /\
    length blocks = length (lh_blocks l0) /\
    forall i, (i < n)%nat -> blocks !! i = Some (hdr_entry h i).
Proof.
  intros Hn. edestruct (for_loop_inv (fun i s => bs s = b /\ exists blocks,
    lg s = set_lh_blocks blocks l0 /\ length blocks = length (lh_blocks l0) /\
    forall j, (j < i)%nat -> blocks !! j = Some (hdr_entry h j))) as (s' & E & Hb & bl & Hl & Hlen & Hi).
  3: { exists bl. rewrite E. destruct s'. simpl in *. subst. done. }
  - intros i s [_ Hi] (Hb & bl & Hl & Hlen & Hj). simpl in Hi.
    destruct (lh_blocks (lg s) !! i) as [y|] eqn:Ey.
    2: { apply lookup_ge_None in Ey. rewrite Hl in Ey. simpl in Ey. lia. }
    rewrite (bind_Ok _ _ _ s s) by done. rewrite (index_mret _ _ _ Ey). eexists. split; [reflexivity|].
    simpl. split; [done|]. exists (<[i := get32 h (S i)]> bl). rewrite Hl. simpl. split; [done|].
    split; [by rewrite length_insert|]. intros j Hji. destruct (decide (j = i)) as [->|].
    + rewrite list_lookup_insert_eq by lia. done.
    + rewrite list_lookup_insert_ne by done. apply Hj. lia.
  - split; [done|]. exists (lh_blocks l0). split; [by destruct l0|]. split; [done|lia].
Qed.

Definition cleared (h : block) : block := set32 h 0 (u32 0).

Definition recover_writes (start : Z) (d : gmap Z block) : list (Z * block) :=
  redo start d ++ [(start, cleared (dread d start))].

(** Reading a block and giving it back. *)
Lemma peek_spec b x : x ∉ held b -> room b 1 ->
  exists b1, buf_read x b = Ok (view b x, b1) /\ held b1 = {[x]} ∪ held b /\
    wrote [] b (BStore (disk b1) (cache b1) (dirty b1) (held b1 ∖ {[x]}) (writes b1)).
Proof.
  intros Hh Hr. destruct (buf_read_Ok b x Hh Hr) as (b1 & E & V & K & D & H & W).
  exists b1. split; [done|]. split; [done|]. split; simpl.
  - done.
  - intros y. rewrite <- V. done.
  - intros y. rewrite D. set_solver.
  - rewrite H. set_solver.
  - by rewrite W, app_nil_r.
Qed.

Record recover_pre (start : Z) (junk : list Z) (b : bstore) : Prop := {
  rp_start : start_ok start;
  rp_junk : length junk = Z.to_nat LOG_SIZE;
  rp_hdr : hdr_ok start (dread (disk b) start);
  rp_clean : forall x, view b x = dread (disk b) x;
  rp_held : forall x, x ∈ held b -> home start x /\ x ∉ (redo start (disk b)).*1;
  rp_room : room b 2;
}.

Lemma read_head_spec start junk b :
  recover_pre start junk b ->
  exists b' l, wrote [] b b' /\ read_head (Fss b (init_log start junk)) = Ok (tt, Fss b' l) /\
    log_ok l /\ log_start l = start /\ outstanding l = 0 /\ committing l = false /\
    wait_sem l = sem_init 0 /\ lh_n l = hdr_n (dread (disk b) start) /\
    forall i, (i < nents l)%nat -> entry l i = hdr_entry (dread (disk b) start) i.
Proof.
  intros [Hs Hj Hh Hc Hd Hr]. set (l0 := init_log start junk). set (h := dread (disk b) start).
  assert (head_block l0 = start) as He by (apply head_block_eq; done).
  destruct (peek_spec b start) as (b1 & E & Hb1 & Hw);
    [intros Hx; apply Hd in Hx as [Hx _]; unfold home, LOG_SIZE, MAX_OPEN_BLOCKS in Hx; lia
    |by eapply room_le; [|done]; lia|].
  rewrite Hc in E. fold h in E. set (n := hdr_n h).
  destruct (read_head_loop h (set_lh_n n l0) (Z.to_nat n) b1) as (bl & El & Hlen & Hent);
    [simpl; rewrite Hj; pose proof (ho_n _ _ Hh); fold h n in H; lia|].
  eexists _, (set_lh_blocks bl (set_lh_n n l0)). split; [exact Hw|]. split.
  { unfold read_head. rewrite (bind_Ok _ _ _ (Fss b l0) (Fss b l0)) by done. simpl. rewrite He.
    rewrite (bind_Ok _ _ _ _ _ (lift_bs_Ok _ (Fss b l0) _ _ E)).
    rewrite (bind_Ok _ _ _ tt (Fss b1 (set_lh_n n l0))) by done.
    rewrite (bind_Ok _ _ _ _ _ El). done. }
  assert (forall i, (i < Z.to_nat n)%nat -> default 0 (bl !! i) = hdr_entry h i) as Hent'
    by (intros i Hi; by rewrite Hent).
  assert (length (take (Z.to_nat n) bl) = Z.to_nat n) as Hlt.
  { rewrite length_take, Hlen. simpl. rewrite Hj. pose proof (ho_n _ _ Hh). fold h n in H. lia. }
  split_and!; try done. split; simpl; try done.
  - rewrite Hlen. done.
  - apply (ho_n _ _ Hh).
  - apply NoDup_alt. intros i j x Hi Hj'.
    pose proof (lookup_lt_Some _ _ _ Hi). pose proof (lookup_lt_Some _ _ _ Hj'). rewrite Hlt in *.
    rewrite lookup_take_lt in Hi, Hj' by lia. rewrite Hent in Hi, Hj' by lia.
    apply (ho_inj _ _ Hh); [fold h n; lia..|fold h; congruence].
  - apply Forall_lookup. intros i x Hi. pose proof (lookup_lt_Some _ _ _ Hi). rewrite Hlt in *.
    rewrite lookup_take_lt in Hi by lia. rewrite Hent in Hi by lia. injection Hi as <-. split.
    + apply get32_range, (ho_block _ _ Hh).
    + apply (ho_home _ _ Hh). fold h n. lia.
Qed.

Lemma recover_spec start junk b :
  recover_pre start junk b ->
  exists b' l, wrote (recover_writes start (disk b)) b b' /\
    log_init start junk b = Ok (tt, Fss b' l) /\
    log_ok l /\ log_start l = start /\ outstanding l = 0 /\ committing l = false /\
    wait_sem l = sem_init 0 /\ lh_n l = 0.
Proof.
  intros Hp. destruct (read_head_spec start junk b Hp) as (b1 & l & W1 & E1 & Hl & Hst & Ho & Hc & Hw & Hn & He).
  destruct Hp as [Hs Hj Hh Hcl Hd Hr]. set (h := dread (disk b) start) in *.
  unfold log_init, recover_from_log. rewrite (bind_Ok _ _ _ _ _ E1).
  assert (redo start (disk b) = copies (entry l) (log_block l) (view b1) (nents l)) as Er.
  { unfold redo, nents. rewrite Hn. fold h. apply copies_ext. intros i Hi.
    assert (i < nents l)%nat by (unfold nents; rewrite Hn; done).
    rewrite He by done. split; [done|]. pose proof (nents_le _ Hl).
    rewrite (w_view _ _ _ W1). simpl. rewrite Hcl. unfold area.
    rewrite log_block_eq by (rewrite ?Hst; done || lia). by rewrite Hst. }
  assert (unlocked (Fss b1 l)) as U1.
  { intros x. simpl. rewrite (w_held _ _ _ W1), Hst. intros Hx. apply Hd in Hx as [Hx Hx'].
    split; [done|]. intros Hin. apply Hx'. rewrite Er, copies_key_in.
    by apply entries_elem in Hin. }
  pose proof (wrote_room _ _ _ _ W1 Hr) as R1.
  destruct (install_trans_spec (Fss b1 l) Hl U1 R1) as (b2 & W2 & E2). rewrite (bind_Ok _ _ _ _ _ E2).
  simpl in W2. rewrite <- Er in W2.
  destruct (clear_spec (Fss b2 l) Hl) as (b3 & W3 & E3);
    [apply (unlocked_held _ b2 U1), (w_held _ _ _ W2)
    |eapply room_le; [|by eapply wrote_room]; lia|].
  simpl in *. exists b3, (set_lh_n 0 l). split.
  2: { split; [exact E3|]. split_and!; try done. by apply log_ok_clear. }
  unfold recover_writes. change (redo start (disk b)) with ([] ++ redo start (disk b)).
  rewrite <- app_assoc. eapply wrote_app; [exact W1|]. eapply wrote_app; [exact W2|].
  unfold cleared. fold h. rewrite Hst in W3.
  replace h with (view b2 start); [exact W3|].
  rewrite (w_view _ _ _ W2), over_other.
  - rewrite (w_view _ _ _ W1). simpl. rewrite Hcl. done.
  - rewrite Er, copies_key_in. intros (i & Hi & Heq). symmetry in Heq. rewrite <- Hst in Heq.
    revert Heq. by apply entry_start.
Qed.

(** *** Crashes during recovery *)

Lemma cleared_spec start h : hdr_ok start h -> hdr_ok start (cleared h) /\ hdr_n (cleared h) = 0.
Proof.
  intros [Hb Hn _ _]. destruct (put_header_spec 0 [] h Hb) as (B & C & _);
    [unfold LOG_SIZE, MAX_OPEN_BLOCKS; lia|simpl; lia|].
  change (put_header 0 [] h) with (cleared h) in *.
  split; [|done]. split; rewrite ?C; simpl; try done; try lia.
Qed.

Lemma recovered_clear start d : hdr_n (dread d start) = 0 -> forall x, recovered start d x = dread d x.
Proof. intros H x. unfold recovered, redo. rewrite H. done. Qed.

Lemma area_not_home start i : (i < Z.to_nat LOG_SIZE)%nat -> ~ home start (area start i).
Proof. unfold home, area. lia. Qed.

Lemma start_not_home start : ~ home start start.
Proof. unfold home, LOG_SIZE, MAX_OPEN_BLOCKS. lia. Qed.

Lemma redo_keys start d x : hdr_ok start (dread d start) -> x ∈ (redo start d).*1 -> home start x.
Proof.
  intros Hh Hx. unfold redo in Hx. apply copies_key_in in Hx as (i & Hi & ->). by apply Hh.
Qed.

Lemma take_keys k (ws : list (Z * block)) x : x ∈ (take k ws).*1 -> x ∈ ws.*1.
Proof.
  rewrite fmap_take. intros Hx. apply elem_of_take in Hx as (i & Hi & _).
  by apply list_elem_of_lookup_2 in Hi.
Qed.

(** The drive after some of the transfers of a recovery recovers to the same. *)
Lemma recover_crash start d k :
  hdr_ok start (dread d start) ->
  let d' := apply_writes (take k (recover_writes start d)) d in
  hdr_ok start (dread d' start) /\ forall x, home start x -> recovered start d' x = recovered start d x.
Proof.
  intros Hh d'. assert (start ∉ (redo start d).*1) as Hst.
  { intros Hx. apply redo_keys in Hx; [|done]. by apply start_not_home in Hx. }
  assert (NoDup (redo start d).*1) as Hnd by (apply copies_NoDup; apply Hh).
  subst d'. unfold recover_writes. destruct (decide (k <= length (redo start d))%nat) as [Hk|Hk].
  - rewrite take_app_le by done.
    assert (forall x, ~ home start x -> dread (apply_writes (take k (redo start d)) d) x = dread d x) as Hsame.
    { intros x Hx. apply apply_writes_other. intros Hin. apply take_keys in Hin. by apply redo_keys in Hin. }
    rewrite (Hsame start (start_not_home start)). split; [done|]. intros x Hx.
    unfold recovered. assert (redo start (apply_writes (take k (redo start d)) d) = redo start d) as ->.
    { unfold redo at 1 3. rewrite (Hsame start (start_not_home start)). apply copies_ext. intros i Hi. split; [done|].
      apply Hsame, area_not_home. pose proof (ho_n _ _ Hh). lia. }
    rewrite <- (over_take _ k (dread d)) by done. apply over_ext. by rewrite dread_apply_writes.
  - rewrite take_ge by (rewrite length_app; simpl; lia).
    destruct (cleared_spec _ _ Hh) as [C1 C2].
    assert (dread (apply_writes (redo start d ++ [(start, cleared (dread d start))]) d) start
              = cleared (dread d start)) as E.
    { rewrite dread_apply_writes, over_app. simpl. by rewrite decide_True. }
    rewrite E. split; [done|]. intros x Hx. rewrite recovered_clear by (by rewrite E).
    rewrite dread_apply_writes, over_app. simpl. rewrite decide_False; [done|].
    intros ->. by apply start_not_home in Hx.
Qed.

(** *** Crashes during [commit] *)

(** The state in which the last operation of a transaction ends: the recorded
    blocks are the only ones that differ from the drive, whose header is clear. *)
Record txn_ok (s : fss) : Prop := {
  tx_log : log_ok (lg s);
  tx_unlocked : unlocked s;
  tx_room : room (bs s) 2;
  tx_hdr : hdr_ok (log_start (lg s)) (dread (disk (bs s)) (log_start (lg s)));
  tx_clear : hdr_n (dread (disk (bs s)) (log_start (lg s))) = 0;
  tx_clean : forall x, x ∉ entries (lg s) -> view (bs s) x = dread (disk (bs s)) x;
}.

Lemma start_not_entry l : log_ok l -> log_start l ∉ entries l.
Proof.
  intros Hl Hx. apply entries_elem in Hx as (i & Hi & Heq); [|done].
  symmetry in Heq. revert Heq. by apply entry_start.
Qed.

(** The header that is the commit point. *)
Lemma new_head_ok s : txn_ok s ->
  hdr_ok (log_start (lg s)) (new_head s) /\ hdr_n (new_head s) = lh_n (lg s) /\
  forall i, (i < nents (lg s))%nat -> hdr_entry (new_head s) i = entry (lg s) i.
Proof.
  intros [Hl Hu Hr Hh Hc Hcl]. pose proof (start_not_entry _ Hl) as Hne.
  destruct (put_header_spec (lh_n (lg s)) (lh_blocks (lg s)) (view (bs s) (log_start (lg s))))
    as (B & N & E); [by rewrite Hcl; [apply Hh|]|apply Hl| |].
  { intros i Hi. by apply entry_home. }
  fold (new_head s) in *. split_and!; [|done|done]. split; rewrite ?N.
  - done.
  - apply Hl.
  - intros i j Hi Hj. rewrite !E by done. by apply entry_inj.
  - intros i Hi. rewrite E by done. by apply entry_home.
Qed.

(** The transfers of [commit] after its commit point are those of a recovery. *)
Lemma commit_writes_recover s d1 : txn_ok s ->
  d1 = apply_writes (copies (log_block (lg s)) (entry (lg s)) (view (bs s)) (nents (lg s)) ++
         [(log_start (lg s), new_head s)]) (disk (bs s)) ->
  dread d1 (log_start (lg s)) = new_head s /\
  redo (log_start (lg s)) d1 = copies (entry (lg s)) (entry (lg s)) (view (bs s)) (nents (lg s)) /\
  (forall x, home (log_start (lg s)) x -> dread d1 x = dread (disk (bs s)) x).
Proof.
  intros Ht ->. destruct (new_head_ok s Ht) as (B & N & E). destruct Ht as [Hl Hu Hr Hh Hc Hcl].
  pose proof (nents_le _ Hl) as Hle. pose proof (lo_start _ Hl) as Hs.
  assert (dread (apply_writes (copies (log_block (lg s)) (entry (lg s)) (view (bs s)) (nents (lg s)) ++
         [(log_start (lg s), new_head s)]) (disk (bs s))) (log_start (lg s)) = new_head s) as Eh.
  { rewrite dread_apply_writes, over_app. simpl. by rewrite decide_True. }
  split_and!; [done| |].
  - unfold redo. rewrite Eh, N. apply copies_ext. intros i Hi. split; [by apply E|].
    fold (nents (lg s)) in Hi. unfold area. rewrite <- log_block_eq by (done || lia).
    rewrite dread_apply_writes, over_app. simpl.
    rewrite decide_False by (apply log_block_start; [done|lia]).
    apply over_lookup; [|by apply copies_in].
    apply copies_NoDup. intros ????. apply log_block_inj; [done|lia|lia].
  - intros x Hx. rewrite dread_apply_writes, over_app. simpl. rewrite decide_False.
    2: { intros ->. by apply start_not_home in Hx. }
    apply over_other. rewrite copies_key_in. intros (i & Hi & Heq). symmetry in Heq. revert Heq.
    apply area_home; [done|lia|done].
Qed.

Lemma over_entries s x : txn_ok s ->
  over (copies (entry (lg s)) (entry (lg s)) (view (bs s)) (nents (lg s))) (dread (disk (bs s))) x
  = view (bs s) x.
Proof.
  intros [Hl Hu Hr Hh Hc Hcl]. destruct (decide (x ∈ entries (lg s))) as [Hx|Hx].
  - apply entries_elem in Hx as (i & Hi & ->); [|done].
    apply over_lookup; [|by apply copies_in]. apply copies_NoDup. intros ????. by apply entry_inj.
  - rewrite over_other; [by rewrite Hcl|]. rewrite copies_key_in. intros H. by apply Hx, entries_elem.
Qed.

(** After [k] transfers of the commit the drive recovers to the old contents when the
    header was not written, and to the new contents when it was. *)
Lemma commit_crash s k :
  txn_ok s ->
  let d' := apply_writes (take k (commit_writes s)) (disk (bs s)) in
  hdr_ok (log_start (lg s)) (dread d' (log_start (lg s))) /\
  forall x, home (log_start (lg s)) x -> recovered (log_start (lg s)) d' x =
    if decide (k <= nents (lg s))%nat then dread (disk (bs s)) x else view (bs s) x.
Proof.
  intros Ht. pose proof Ht as [Hl Hu Hr Hh Hc Hcl].
  pose proof (nents_le _ Hl) as Hle. pose proof (lo_start _ Hl) as Hs.
  unfold commit_writes. set (W1 := copies (log_block (lg s)) _ _ _).
  set (W3 := copies (entry (lg s)) _ _ _). set (st := log_start (lg s)) in *.
  assert (length W1 = nents (lg s)) as Hlen by apply length_copies. case_decide as Hk.
  - rewrite take_app_le by lia.
    assert (forall x, (x = st \/ home st x) -> x ∉ (take k W1).*1) as Hn.
    { intros x Hx Hin. apply take_keys in Hin. unfold W1 in Hin. apply copies_key_in in Hin as (i & Hi & ->).
      destruct Hx as [Hx|Hx]; [|by apply (area_home (lg s) i) in Hx; [|done|lia]].
      revert Hx. apply log_block_start; [done|lia]. }
    rewrite apply_writes_other by auto. split; [done|]. intros x Hx.
    rewrite recovered_clear by (by rewrite apply_writes_other by auto).
    by rewrite apply_writes_other by auto.
  - destruct (commit_writes_recover s _ Ht eq_refl) as (Eh & Er & Ed). fold st W1 in Eh, Er, Ed.
    destruct (new_head_ok s Ht) as (B & N & E). fold st in B.
    set (d1 := apply_writes (W1 ++ [(st, new_head s)]) (disk (bs s))) in *.
    assert (W1 ++ [(st, new_head s)] ++ W3 ++ [(st, put_header 0 (lh_blocks (lg s)) (new_head s))] =
            (W1 ++ [(st, new_head s)]) ++ recover_writes st d1) as ->.
    { unfold recover_writes. rewrite Er, Eh. by rewrite <- !app_assoc. }
    rewrite take_app_ge by (rewrite length_app; simpl; lia). rewrite apply_writes_app. fold d1.
    edestruct (recover_crash st d1) as [R1 R2]; [by rewrite Eh|]. split; [exact R1|].
    intros x Hx. rewrite R2 by done. unfold recovered. rewrite Er.
    rewrite <- (over_entries s x Ht). apply over_ext. by apply Ed.
Qed.

(** *** Admission *)

(** The loop of [log_begin_op] ends: each turn takes one of the units that earlier
    commits left in [wait_sem], and the task is queued when there is none. *)
Lemma log_begin_ends fuel : forall cur l,
  - 2 ^ 31 < val (wait_sem l) < 2 ^ 31 -> (Z.to_nat (val (wait_sem l)) < fuel)%nat ->
  exists r, log_begin_loop fuel cur l = Ok r /\
    match r with
    | Admitted_op l' => committing l = false /\
        lh_n l + (outstanding l + 1) * MAX_OPEN_BLOCKS <= LOG_SIZE /\
        exists w, l' = set_outstanding (outstanding l + 1) (set_wait_sem w l)
    | Waits l' => (committing l = true \/ LOG_SIZE < lh_n l + (outstanding l + 1) * MAX_OPEN_BLOCKS) /\
        exists w, cur ∈ waiting w /\ l' = set_wait_sem w l
    end.
Proof.
  induction fuel as [|fuel IH]; intros cur l Hv Hf; [lia|]. simpl.
  destruct (committing l || _) eqn:Ec.
  - assert (committing l = true \/ LOG_SIZE < lh_n l + (outstanding l + 1) * MAX_OPEN_BLOCKS) as Hc.
    { apply orb_true_iff in Ec as [|Ec]; [by left|right]. by apply Z.ltb_lt in Ec. }
    unfold sem_wait. assert (i32 (val (wait_sem l) - 1) = val (wait_sem l) - 1) as Ei
      by (apply i32_small; ulia). rewrite Ei.
    destruct (Z.ltb_spec (val (wait_sem l) - 1) 0).
    + eexists. split; [done|]. simpl. split; [done|]. eexists. split; [|done]. simpl. set_solver.
    + destruct (IH cur (set_wait_sem (Sem (val (wait_sem l) - 1) (waiting (wait_sem l)) (Some cur)) l))
        as (r & E & Hr); [simpl; lia|simpl; lia|].
      exists r. split; [done|]. destruct r; simpl in *; [exfalso|].
      * destruct Hr as (H1 & H2 & _). destruct Hc; [congruence|lia].
      * destruct Hr as (_ & w & Hw & ->). split; [done|]. by exists w.
  - bprop. eexists. split; [done|]. simpl. split; [done|]. split; [done|].
    exists (wait_sem l). by destruct l.
Qed.

Lemma find_entry_spec b n : forall blocks, (n <= length blocks)%nat ->
  (find_entry n b blocks <= n)%nat /\
  ((find_entry n b blocks < n)%nat -> blocks !! find_entry n b blocks = Some b) /\
  (find_entry n b blocks = n -> b ∉ take n blocks).
Proof.
  induction n as [|n IH]; intros blocks Hl; simpl; [destruct blocks; simpl; split_and!; try lia; set_solver|].
  destruct blocks as [|x blocks]; simpl in *; [lia|]. destruct (Z.eqb_spec x b) as [->|Hne].
  - split_and!; [lia|done|lia].
  - destruct (IH blocks) as (H1 & H2 & H3); [lia|]. split_and!; [lia| |].
    + intros H. apply H2. lia.
    + intros [= H]. apply not_elem_of_cons. split; [done|auto].
Qed.

(** [log_write] records the block once, and marks its buffer dirty. *)
Lemma log_write_spec s b :
  log_ok (lg s) -> lh_n (lg s) < LOG_SIZE -> 1 <= outstanding (lg s) ->
  is_u32 b -> home (log_start (lg s)) b ->
  exists n' blocks', log_write b s = Ok (tt, Fss (BStore (disk (bs s)) (cache (bs s)) ({[b]} ∪ dirty (bs s))
      (held (bs s)) (writes (bs s))) (set_lh_n n' (set_lh_blocks blocks' (lg s)))) /\
    log_ok (set_lh_n n' (set_lh_blocks blocks' (lg s))) /\ lh_n (lg s) <= n' <= lh_n (lg s) + 1 /\
    (forall x, x ∈ take (Z.to_nat n') blocks' <-> x = b \/ x ∈ entries (lg s)).
Proof.
  intros Hl Hn Ho Hb Hh. destruct s as [bst l]. simpl in *. pose proof Hl as [L1 L2 L3 L4 L5].
  set (n := Z.to_nat (lh_n l)) in *.
  assert (n <= length (lh_blocks l))%nat as Hnl by (rewrite L2; lia).
  destruct (find_entry_spec b n (lh_blocks l) Hnl) as (F1 & F2 & F3).
  set (i := find_entry n b (lh_blocks l)) in *.
  assert (is_Some (lh_blocks l !! i)) as [y Hy] by (apply lookup_lt_is_Some; lia).
  assert (forall r, (ASSERT (lh_n l <? LOG_SIZE);; ASSERT (1 <=? outstanding l);; r)
            (Fss bst l) = (r : M fss unit) (Fss bst l)) as Ha.
  { intros r. rewrite (proj2 (Z.ltb_lt _ _)), (proj2 (Z.leb_le _ _)) by lia. done. }
  unfold log_write. rewrite (bind_Ok _ _ _ (Fss bst l) (Fss bst l)) by done. cbn [lg bs]. rewrite Ha. fold n.
  cbv zeta. fold i. rewrite (index_mret _ _ _ Hy).
  destruct (decide (i = n)) as [Hin|Hin].
  - rewrite (proj2 (Z.eqb_eq _ _)) by lia. exists (lh_n l + 1), (<[i := b]> (lh_blocks l)).
    replace (Z.to_nat (lh_n l + 1)) with (S n) by lia.
    assert (take (S n) (<[i:=b]> (lh_blocks l)) = take n (lh_blocks l) ++ [b]) as Et.
    { rewrite Hin, (take_S_r _ _ b) by (apply list_lookup_insert_eq; lia).
      by rewrite take_insert_ge by lia. }
    split_and!; [done| |lia|lia|].
    + split; simpl; replace (Z.to_nat (lh_n l + 1)) with (S n) by lia; rewrite ?Et.
      * done.
      * by rewrite length_insert.
      * lia.
      * apply NoDup_app. split_and!; [done| |apply NoDup_singleton]. intros x Hx. rewrite list_elem_of_singleton.
        intros ->. by apply F3.
      * apply Forall_app. split; [done|]. by apply Forall_singleton.
    + intros x. rewrite Et. unfold entries. fold n. set_solver.
  - rewrite (proj2 (Z.eqb_neq _ _)) by lia. exists (lh_n l), (lh_blocks l). fold n.
    rewrite list_insert_id by (apply F2; lia).
    split_and!; [by destruct l|by destruct l|lia|lia|].
    intros x. unfold entries. fold n. split; [auto|]. intros [->|]; [|done].
    apply (list_elem_of_lookup_2 _ i). rewrite lookup_take_lt by lia. apply F2. lia.
Qed.

(** *** Power failures *)

(** A mount interrupted after [k] of its transfers. *)
Definition interrupted (start : Z) (junk : list Z) (d d' : gmap Z block) : Prop :=
  exists s k, log_init start junk (mount d) = Ok (tt, s) /\
    d' = apply_writes (take k (writes (bs s))) d.

Lemma mount_pre start junk d :
  start_ok start -> length junk = Z.to_nat LOG_SIZE -> hdr_ok start (dread d start) ->
  recover_pre start junk (mount d).
Proof.
  intros Hs Hj Hh. split; try done.
  unfold room, pinned, mount. cbn [held dirty]. rewrite union_empty_l_L, size_empty. unfold NBUF. lia.
Qed.

Lemma mount_recovers start junk d :
  start_ok start -> length junk = Z.to_nat LOG_SIZE -> hdr_ok start (dread d start) ->
  exists s, log_init start junk (mount d) = Ok (tt, s) /\
    writes (bs s) = recover_writes start d /\ lh_n (lg s) = 0 /\
    forall x, home start x -> dread (disk (bs s)) x = recovered start d x.
Proof.
  intros Hs Hj Hh. destruct (recover_spec start junk (mount d)) as (b' & l & Hw & E & _ & _ & _ & _ & _ & Hn);
    [by apply mount_pre|].
  exists (Fss b' l). split; [done|]. split; [apply (w_writes _ _ _ Hw)|]. split; [done|].
  intros x Hx. simpl. rewrite (w_disk _ _ _ Hw), dread_apply_writes. simpl.
  unfold recover_writes. rewrite over_app. simpl. rewrite decide_False; [done|].
  intros ->. by apply start_not_home in Hx.
Qed.

Lemma interrupted_recovered start junk d d' :
  start_ok start -> length junk = Z.to_nat LOG_SIZE -> hdr_ok start (dread d start) ->
  rtc (interrupted start junk) d d' ->
  hdr_ok start (dread d' start) /\ forall x, home start x -> recovered start d' x = recovered start d x.
Proof.
  intros Hs Hj Hh Hr. induction Hr as [d|d d1 d2 (s & k & E & ->) _ IH]; [done|].
  destruct (mount_recovers start junk d Hs Hj Hh) as (s' & E' & Ew & _).
  rewrite E in E'. injection E' as <-. rewrite Ew in IH.
  destruct (recover_crash start d k Hh) as [R1 R2]. destruct (IH R1) as [I1 I2].
  split; [done|]. intros x Hx. by rewrite I2, R2.
Qed.

Lemma copies_ok dst src v n : (forall x, block_ok (v x)) -> Forall (fun w : Z * block => block_ok (snd w)) (copies dst src v n).
Proof.
  intros Hv. induction n as [|n IH]; [constructor|]. rewrite copies_S. apply Forall_app. split; [done|].
  apply Forall_singleton, Hv.
Qed.

Lemma commit_writes_ok s : txn_ok s -> (forall x, block_ok (view (bs s) x)) ->
  Forall (fun w : Z * block => block_ok (snd w)) (commit_writes s).
Proof.
  intros Ht Hv. destruct (new_head_ok s Ht) as (B & _). unfold commit_writes. rewrite !Forall_app, !Forall_singleton.
  split_and!; try by apply copies_ok.
  - apply B.
  - apply (cleared_spec (log_start (lg s)) _ B).
Qed.

(** [log_end_op] of the last operation: [commit] between the two critical sections. *)
Lemma log_end_last s :
  txn_ok s -> committing (lg s) = false -> outstanding (lg s) = 1 ->
  sem_ok (wait_sem (lg s)) -> val (wait_sem (lg s)) + 1 < 2 ^ 31 - 1 ->
  exists s' ws, log_end_op s = Ok (tt, s') /\ wrote ws (bs s) (bs s') /\ lh_n (lg s') = 0 /\
    log_start (lg s') = log_start (lg s) /\
    (log_ok (lg s') /\ outstanding (lg s') = 0 /\ committing (lg s') = false /\
     sem_ok (wait_sem (lg s')) /\ val (wait_sem (lg s')) <= val (wait_sem (lg s)) + 1 /\
     hdr_n (dread (apply_writes ws (disk (bs s))) (log_start (lg s))) = 0 /\
     (forall x, x ∈ entries (lg s) -> x ∈ ws.*1) /\
     ((forall x, block_ok (view (bs s) x)) -> Forall (fun w => block_ok (snd w)) ws)) /\
    (forall x, home (log_start (lg s)) x -> over ws (dread (disk (bs s))) x = view (bs s) x) /\
    forall k, let d := apply_writes (take k ws) (disk (bs s)) in
      hdr_ok (log_start (lg s)) (dread d (log_start (lg s))) /\
      ((forall x, home (log_start (lg s)) x -> recovered (log_start (lg s)) d x = dread (disk (bs s)) x) \/
       (forall x, home (log_start (lg s)) x -> recovered (log_start (lg s)) d x = view (bs s) x)).
Proof.
  intros Ht Hc Ho Hw Hv. destruct s as [b l]. simpl in *.
  set (l1 := set_committing true (set_outstanding 0 l)).
  assert (forall b' n, exists s', end_op_leave (Fss b' (set_lh_n n l1)) = Ok (tt, s') /\ bs s' = b' /\
            lh_n (lg s') = n /\ log_start (lg s') = log_start l /\
            lh_blocks (lg s') = lh_blocks l /\ outstanding (lg s') = 0 /\ committing (lg s') = false /\
            sem_ok (wait_sem (lg s')) /\ val (wait_sem (lg s')) <= val (wait_sem l) + 1) as Hleave.
  { intros b' n. unfold end_op_leave, signal_waiter. mrun. unfold lift. simpl.
    destruct (sem_signal_cases _ Hw Hv) as [(_ & E & ?)|(_ & w & t & _ & E & ?)]; rewrite E;
      eexists; (split; [reflexivity|]); simpl; split_and!; try done; lia. }
  assert (forall l', log_start l' = log_start l -> lh_n l' = 0 -> lh_blocks l' = lh_blocks l -> log_ok l') as Hlog.
  { intros l' E1 E2 E3. destruct (log_ok_clear _ (tx_log _ Ht)) as [A1 A2 A3 A4 A5]. simpl in *.
    split; rewrite ?E1, ?E2, ?E3; done. }
  assert (log_end_op (Fss b l) = (commit;; end_op_leave) (Fss b l1)) as E0.
  { unfold log_end_op, end_op_enter. mrun. rewrite Hc. simpl. rewrite Ho. done. }
  destruct (decide (0 < lh_n l)) as [Hn|Hn].
  - assert (txn_ok (Fss b l1)) as Ht1 by (destruct Ht as [[L1 L2 L3 L4 L5] H2 H3 H4 H5 H6]; split; [by split|done..]).
    destruct (commit_spec (Fss b l1)) as (b' & Hwr & E); [apply Ht1..|done|].
    destruct (Hleave b' 0) as (s' & El & Hb & Hn' & Hst & Hlb & Hou & Hco & Hsem & Hval).
    exists s', (commit_writes (Fss b l1)). rewrite E0, (bind_Ok _ _ _ _ _ E). simpl.
    assert (forall k, let d := apply_writes (take k (commit_writes (Fss b l1))) (disk b) in
      hdr_ok (log_start l) (dread d (log_start l)) /\
      forall x, home (log_start l) x -> recovered (log_start l) d x =
        if decide (k <= nents l)%nat then dread (disk b) x else view b x) as Hk
      by exact (fun k => commit_crash (Fss b l1) k Ht1).
    assert (hdr_n (dread (apply_writes (commit_writes (Fss b l1)) (disk b)) (log_start l)) = 0) as Hz.
    { rewrite dread_apply_writes. unfold commit_writes. rewrite !over_app. simpl.
      rewrite decide_True by done. apply (cleared_spec (log_start l)). apply (new_head_ok (Fss b l1) Ht1). }
    split_and!; [exact El|by rewrite Hb|done|done|by apply Hlog|done|done|done|done|done| | | |].
    + intros x Hx. apply (entries_elem l x (tx_log _ Ht)) in Hx as (i & Hi & ->).
      unfold commit_writes. rewrite !fmap_app, !elem_of_app. right. right. left. rewrite copies_key_in. by exists i.
    + intros Hv'. by apply commit_writes_ok.
    + intros x Hx. destruct (Hk (length (commit_writes (Fss b l1)))) as [_ H]. specialize (H x Hx).
      rewrite take_ge in H by lia. rewrite decide_False in H.
      2: { unfold commit_writes. rewrite !length_app, !length_copies. simpl. unfold l1, nents. simpl. lia. }
      rewrite recovered_clear in H; [by rewrite <- H, dread_apply_writes|done].
    + intros k. destruct (Hk k) as [H1 H2]. split; [done|].
      destruct (decide (k <= nents l)%nat); [left|right]; exact H2.
  - assert (lh_n l = 0) as Hz by (pose proof (lo_n _ (tx_log _ Ht)) as H; simpl in H; lia).
    destruct (Hleave b 0) as (s' & El & Hb & Hn' & Hst & Hlb & Hou & Hco & Hsem & Hval). exists s', [].
    assert (commit (Fss b l1) = Ok (tt, Fss b (set_lh_n 0 l1))) as E.
    { unfold commit. mrun. rewrite Hz. simpl. rewrite <- Hz. by destruct l. }
    rewrite E0, (bind_Ok _ _ _ _ _ E).
    split_and!; [done|rewrite Hb; apply wrote_nil|done|done|by apply Hlog|done|done|done|done|apply (tx_clear _ Ht)| | | |].
    + intros x. unfold entries. simpl. rewrite Hz. set_solver.
    + intros _. constructor.
    + intros x Hx. simpl. symmetry. apply (tx_clean _ Ht). unfold entries. simpl. rewrite Hz. set_solver.
    + intros k. rewrite take_nil. simpl. split; [apply (tx_hdr _ Ht)|]. left. intros x Hx.
      apply recovered_clear, (tx_clear _ Ht).
Qed.

(** *** Theorems *)

(** C1: transactions are atomic under power failures.  When the last operation of a
    transaction ends, [log_end_op] returns and the drive has the new contents of
    every block outside the log area.  If instead the power fails after any number
    [k] of the transfers of the commit, and then any number of mounts are
    themselves interrupted at any point, the next mount succeeds, and either every
    block has the contents it had before the transaction, or every block has the
    contents the transaction gave it. *)
Theorem log_crash_atomic s junk :
  txn_ok s -> committing (lg s) = false -> outstanding (lg s) = 1 ->
  sem_ok (wait_sem (lg s)) -> val (wait_sem (lg s)) + 1 < 2 ^ 31 - 1 ->
  length junk = Z.to_nat LOG_SIZE ->
  let start := log_start (lg s) in
  exists s' ws, log_end_op s = Ok (tt, s') /\
    writes (bs s') = writes (bs s) ++ ws /\
    (forall x, home start x -> dread (disk (bs s')) x = view (bs s) x) /\
    forall k d, rtc (interrupted start junk) (apply_writes (take k ws) (disk (bs s))) d ->
      exists s'', log_init start junk (mount d) = Ok (tt, s'') /\ lh_n (lg s'') = 0 /\
        ((forall x, home start x -> dread (disk (bs s'')) x = dread (disk (bs s)) x) \/
         (forall x, home start x -> dread (disk (bs s'')) x = view (bs s) x)).
Proof.
  intros Ht Hc Ho Hw Hv Hj start.
  destruct (log_end_last s Ht Hc Ho Hw Hv) as (s' & ws & E & Hwr & _ & _ & _ & Hnew & Hk).
  pose proof (lo_start _ (tx_log _ Ht)) as Hs. fold start in Hs, Hnew, Hk.
  exists s', ws. split; [done|]. split; [apply Hwr|]. split.
  { intros x Hx. rewrite (w_disk _ _ _ Hwr), dread_apply_writes. by apply Hnew. }
  intros k d Hr. destruct (Hk k) as [H1 H2].
  destruct (interrupted_recovered start junk _ d Hs Hj H1 Hr) as [H3 H4].
  destruct (mount_recovers start junk d Hs Hj H3) as (s'' & E'' & _ & Hn & Hx).
  exists s''. split; [done|]. split; [done|].
  destruct H2 as [H2|H2]; [left|right]; intros x Hh; by rewrite Hx, H4, H2.
Qed.

(** ** Operations inside a transaction

    What a file-system operation may rely on between [log_begin_op] and
    [log_end_op], and the relation between the states before and after a part of
    it: the drive is untouched, the blocks [ws] have new contents and are recorded. *)

Definition MAXHELD : nat := 8.

Record tx (s : fss) : Prop := {
  t_log : log_ok (lg s);
  t_out : 1 <= outstanding (lg s);
  t_dirty : forall x, x ∈ dirty (bs s) -> x ∈ entries (lg s);
  t_held : (size (held (bs s)) <= MAXHELD)%nat;
  t_block : forall x, block_ok (view (bs s) x);
  t_hdr : hdr_ok (log_start (lg s)) (dread (disk (bs s)) (log_start (lg s)));
  t_clear : hdr_n (dread (disk (bs s)) (log_start (lg s))) = 0;
  t_clean : forall x, x ∉ entries (lg s) -> view (bs s) x = dread (disk (bs s)) x;
}.

(** The log has room for [k] more calls of [log_write]. *)
Definition cap (s : fss) (k : Z) : Prop := lh_n (lg s) + k <= LOG_SIZE.

(** A block that a transaction may write. *)
Definition loggable (start b : Z) : Prop := is_u32 b /\ home start b.

Record logged (ws : list (Z * block)) (s s' : fss) : Prop := {
  lw_tx : tx s';
  lw_disk : disk (bs s') = disk (bs s) /\ writes (bs s') = writes (bs s);
  lw_view : forall x, view (bs s') x = over ws (view (bs s)) x;
  lw_entries : forall x, x ∈ entries (lg s') <-> x ∈ ws.*1 \/ x ∈ entries (lg s);
  lw_n : lh_n (lg s) <= lh_n (lg s') <= lh_n (lg s) + Z.of_nat (length ws);
  lw_log : log_start (lg s') = log_start (lg s) /\ outstanding (lg s') = outstanding (lg s) /\
           committing (lg s') = committing (lg s) /\ wait_sem (lg s') = wait_sem (lg s);
}.

Lemma logged_nil s : tx s -> logged [] s s.
Proof. intros H. split; try done; [set_solver|simpl; lia]. Qed.

Lemma logged_app ws1 ws2 s1 s2 s3 :
  logged ws1 s1 s2 -> logged ws2 s2 s3 -> logged (ws1 ++ ws2) s1 s3.
Proof.
  intros [A1 [A2 A2'] A3 A4 A5 (A6 & A7 & A8 & A9)] [B1 [B2 B2'] B3 B4 B5 (B6 & B7 & B8 & B9)]. split.
  - done.
  - split; congruence.
  - intros x. rewrite B3, over_app. by apply over_ext.
  - intros x. rewrite B4, A4, fmap_app, elem_of_app. tauto.
  - rewrite length_app. lia.
  - split_and!; congruence.
Qed.

Lemma logged_cap ws s s' k k' : logged ws s s' -> cap s k -> Z.of_nat (length ws) + k' <= k -> cap s' k'.
Proof. intros H Hc Hk. pose proof (lw_n _ _ _ H). unfold cap in *. lia. Qed.

Lemma cap_le s k k' : cap s k -> k' <= k -> cap s k'.
Proof. unfold cap. lia. Qed.

Lemma tx_dirty_size s : tx s -> (size (dirty (bs s)) <= 30)%nat.
Proof.
  intros Ht. transitivity (size (list_to_set (entries (lg s)) : gset Z)).
  - apply subseteq_size. intros x Hx. apply elem_of_list_to_set. by apply (t_dirty _ Ht).
  - rewrite size_list_to_set by apply (lo_nodup _ (t_log _ Ht)). unfold entries.
    rewrite length_take. pose proof (lo_n _ (t_log _ Ht)). unfold LOG_SIZE, MAX_OPEN_BLOCKS in *. lia.
Qed.

(** A transaction always finds a free buffer: 30 dirty and 8 locked ones at most. *)
Lemma tx_has_room s : tx s -> room (bs s) 1.
Proof.
  intros Ht. unfold room, pinned. pose proof (tx_dirty_size s Ht) as H1.
  assert (size (held (bs s) ∪ dirty (bs s)) <= size (held (bs s)) + size (dirty (bs s)))%nat as H2.
  { rewrite size_union_alt. pose proof (subseteq_size (dirty (bs s) ∖ held (bs s)) (dirty (bs s)) ltac:(set_solver)).
    lia. }
  pose proof (t_held _ Ht). unfold NBUF, MAXHELD in *. lia.
Qed.

Lemma tx_read s b :
  tx s -> b ∉ held (bs s) -> (size (held (bs s)) < MAXHELD)%nat ->
  exists s', lift (buf_read b) s = Ok (view (bs s) b, s') /\ logged [] s s' /\
    held (bs s') = {[b]} ∪ held (bs s).
Proof.
  intros Ht Hb Hs. destruct (buf_read_Ok (bs s) b Hb (tx_has_room s Ht)) as (b1 & E & V & K & D & H & W).
  exists (Fss b1 (lg s)). split; [by apply lift_bs_Ok|]. split; [|done].
  destruct Ht as [T1 T2 T3 T4 T5 T6 T7 T8].
  split; simpl; try done; [|set_solver|lia]. split; simpl; try done; rewrite ?K; try done.
  - by rewrite D.
  - rewrite H, size_union by set_solver. rewrite size_singleton. lia.
  - intros x. by rewrite V.
  - intros x Hx. by rewrite V, T8.
Qed.

Lemma tx_release s b :
  tx s -> exists s', lift (buf_release b) s = Ok (tt, s') /\ logged [] s s' /\
    held (bs s') = held (bs s) ∖ {[b]}.
Proof.
  intros [T1 T2 T3 T4 T5 T6 T7 T8]. eexists. split; [done|]. split; [|done].
  split; simpl; try done; [|set_solver|lia]. split; simpl; try done.
  pose proof (subseteq_size (held (bs s) ∖ {[b]}) (held (bs s)) ltac:(set_solver)). lia.
Qed.

Lemma tx_update s b d :
  tx s -> loggable (log_start (lg s)) b -> block_ok d -> cap s 1 ->
  exists s', (lift (buf_store b d);; log_write b) s = Ok (tt, s') /\ logged [(b, d)] s s' /\
    held (bs s') = held (bs s).
Proof.
  intros [T1 T2 T3 T4 T5 T6 T7 T8] [Hb Hh] Hd Hc. unfold cap in Hc.
  set (s1 := Fss (BStore (disk (bs s)) (<[b := d]> (cache (bs s))) (dirty (bs s)) (held (bs s))
               (writes (bs s))) (lg s)).
  destruct (log_write_spec s1 b) as (n' & bl & E & Hl & Hn & Hin); [done|simpl; lia|done..|].
  eexists. split; [rewrite (bind_Ok _ _ _ tt s1) by done; exact E|]. split; [|done].
  assert (forall x, view (BStore (disk (bs s)) (<[b:=d]> (cache (bs s))) ({[b]} ∪ dirty (bs s)) (held (bs s))
     (writes (bs s))) x = if decide (x = b) then d else view (bs s) x) as Hv.
  { intros x. unfold view. simpl. by rewrite default_insert. }
  split; simpl; try done.
  - split; simpl; try done.
    + intros x Hx. unfold entries. simpl. rewrite Hin. apply elem_of_union in Hx as [Hx|Hx]; [set_solver|].
      right. by apply T3.
    + intros x. rewrite Hv. by case_decide.
    + intros x Hx. unfold entries in Hx. simpl in Hx. rewrite Hin in Hx. rewrite Hv.
      rewrite decide_False by tauto. apply T8. simpl in Hx. tauto.
  - intros x. unfold entries at 1. simpl. rewrite Hin. simpl. set_solver.
Qed.

(** Update a block that was read, and give it back. *)
Lemma tx_update_release s b d :
  tx s -> b ∈ held (bs s) -> loggable (log_start (lg s)) b -> block_ok d -> cap s 1 ->
  exists s', (lift (buf_store b d);; log_write b;; lift (buf_release b)) s = Ok (tt, s') /\
    logged [(b, d)] s s' /\ held (bs s') = held (bs s) ∖ {[b]}.
Proof.
  intros Ht Hb Hl Hd Hc. destruct (tx_update s b d Ht Hl Hd Hc) as (s1 & E1 & L1 & H1).
  destruct (tx_release s1 b (lw_tx _ _ _ L1)) as (s2 & E2 & L2 & H2).
  exists s2. split; [|split; [|by rewrite H2, H1]].
  - change ((lift (buf_store b d);; log_write b;; lift (buf_release b)) s)
      with (((lift (buf_store b d) ≫= fun _ => (log_write b ≫= fun _ => lift (buf_release b)))) s).
    unfold mbind, M_bind in *. destruct (lift (buf_store b d) s) as [[[] s0]| |]; try done.
    rewrite E1. done.
  - change [(b, d)] with ([(b, d)] ++ []). by eapply logged_app.
Qed.

(** The end of a transaction sees what [log_crash_atomic] asks for. *)
Lemma tx_txn_ok s : tx s -> held (bs s) = ∅ -> txn_ok s.
Proof.
  intros Ht Hh. pose proof Ht as [T1 T2 T3 T4 T5 T6 T7 T8]. split; try done.
  - intros x. rewrite Hh. set_solver.
  - unfold room, pinned. rewrite Hh, union_empty_l_L. pose proof (tx_dirty_size s Ht). unfold NBUF. lia.
Qed.

(** ** Concurrent operations

    Tasks that begin, write and end operations in any order, one critical section
    at a time; [opens] holds the running operations with the number of [log_write]s
    each has made, [committer] the task that is inside [commit]. *)

Record logsys := LogSys { fs : fss; opens : list (Z * Z); committer : option Z }.

Inductive lstep : logsys -> logsys -> Prop :=
| ls_begin s ops c t l :
    log_begin_loop (begin_fuel (lg s)) t (lg s) = Ok (Admitted_op l) ->
    lstep (LogSys s ops c) (LogSys (Fss (bs s) l) ((t, 0) :: ops) c)
| ls_wait s ops c t l :
    log_begin_loop (begin_fuel (lg s)) t (lg s) = Ok (Waits l) ->
    lstep (LogSys s ops c) (LogSys (Fss (bs s) l) ops c)
| ls_write s l1 l2 c t k b s' :
    k < MAX_OPEN_BLOCKS -> is_u32 b -> home (log_start (lg s)) b ->
    log_write b s = Ok (tt, s') ->
    lstep (LogSys s (l1 ++ (t, k) :: l2) c) (LogSys s' (l1 ++ (t, k + 1) :: l2) c)
| ls_end s l1 l2 c t k s' :
    committing (lg s) = false ->
    end_op_enter s = Ok (false, s') ->
    lstep (LogSys s (l1 ++ (t, k) :: l2) c) (LogSys s' (l1 ++ l2) c)
| ls_end_last s l1 l2 c t k s' :
    committing (lg s) = false ->
    end_op_enter s = Ok (true, s') ->
    lstep (LogSys s (l1 ++ (t, k) :: l2) c) (LogSys s' (l1 ++ l2) (Some t))
| ls_commit s ops t s' :
    unlocked s -> room (bs s) 2 ->
    (commit;; end_op_leave) s = Ok (tt, s') ->
    lstep (LogSys s ops (Some t)) (LogSys s' ops None).

(** What the running operations may still record. *)
Fixpoint reserved (ops : list (Z * Z)) : Z :=
  match ops with
  | [] => 0
  | (_, k) :: ops => (MAX_OPEN_BLOCKS - k) + reserved ops
  end.

Record linv (y : logsys) : Prop := {
  li_log : log_ok (lg (fs y));
  li_cap : lh_n (lg (fs y)) + reserved (opens y) <= LOG_SIZE;
  li_ops : Forall (fun o => 0 <= snd o <= MAX_OPEN_BLOCKS) (opens y);
  li_out : outstanding (lg (fs y)) = Z.of_nat (length (opens y));
  li_commit : committing (lg (fs y)) = bool_decide (is_Some (committer y));
  li_excl : is_Some (committer y) -> opens y = [];
}.

Lemma reserved_app l1 l2 : reserved (l1 ++ l2) = reserved l1 + reserved l2.
Proof. induction l1 as [|[t k] l1 IH]; simpl; [done|]. rewrite IH. lia. Qed.

Lemma reserved_bound ops : Forall (fun o => 0 <= snd o <= MAX_OPEN_BLOCKS) ops ->
  0 <= reserved ops <= MAX_OPEN_BLOCKS * Z.of_nat (length ops).
Proof.
  induction 1 as [|[t k] ops Hk _ IH]; simpl in *; [lia|]. unfold MAX_OPEN_BLOCKS in *. lia.
Qed.

Lemma log_begin_frame fuel : forall cur l r,
  log_begin_loop fuel cur l = Ok r ->
  match r with
  | Admitted_op l' => committing l = false /\
      lh_n l + (outstanding l + 1) * MAX_OPEN_BLOCKS <= LOG_SIZE /\
      exists w, l' = set_outstanding (outstanding l + 1) (set_wait_sem w l)
  | Waits l' => exists w, l' = set_wait_sem w l
  end.
Proof.
  induction fuel as [|fuel IH]; intros cur l r; simpl; [done|].
  destruct (committing l || _) eqn:Ec.
  - destruct (sem_wait cur (wait_sem l)) as [w|w]; [|intros [= <-]; eauto].
    intros H. apply IH in H. destruct r; naive_solver.
  - bprop. intros [= <-]. split; [done|]. split; [done|]. exists (wait_sem l). by destruct l.
Qed.

Lemma log_ok_frame l l' :
  log_start l' = log_start l -> lh_n l' = lh_n l -> lh_blocks l' = lh_blocks l ->
  log_ok l -> log_ok l'.
Proof. intros E1 E2 E3 []. split; rewrite ?E1, ?E2, ?E3; done. Qed.

Lemma end_op_enter_frame s r s' :
  end_op_enter s = Ok (r, s') ->
  log_start (lg s') = log_start (lg s) /\ lh_n (lg s') = lh_n (lg s) /\
  lh_blocks (lg s') = lh_blocks (lg s) /\ outstanding (lg s') = outstanding (lg s) - 1 /\
  committing (lg s') = (if r then true else committing (lg s)) /\
  r = (outstanding (lg s) - 1 =? 0) /\ bs s' = bs s.
Proof.
  unfold end_op_enter. mrun. unfold lift, signal_waiter. simpl.
  destruct (outstanding (lg s) - 1 =? 0); [by intros [= <- <-]|].
  destruct (bool_decide _); [|by intros [= <- <-]]. simpl.
  destruct (sem_signal _ _) as [[]| |]; [by intros [= <- <-]|done|done].
Qed.

Lemma end_op_leave_frame s s' :
  end_op_leave s = Ok (tt, s') ->
  log_start (lg s') = log_start (lg s) /\ lh_n (lg s') = lh_n (lg s) /\
  lh_blocks (lg s') = lh_blocks (lg s) /\ outstanding (lg s') = outstanding (lg s) /\
  committing (lg s') = false /\ bs s' = bs s.
Proof.
  unfold end_op_leave, signal_waiter. mrun. unfold lift. simpl.
  destruct (sem_signal _ _) as [[]| |]; [by intros [= <-]|done|done].
Qed.

Lemma linv_write s l1 l2 c t k b s' :
  k < MAX_OPEN_BLOCKS -> is_u32 b -> home (log_start (lg s)) b ->
  linv (LogSys s (l1 ++ (t, k) :: l2) c) ->
  exists s0, log_write b s = Ok (tt, s0) /\
    (s' = s0 -> linv (LogSys s' (l1 ++ (t, k + 1) :: l2) c)).
Proof.
  intros Hk Hb Hh [I1 I2 I3 I4 I5 I6]. simpl in *.
  rewrite reserved_app in I2. simpl in I2. rewrite length_app in I4. simpl in I4.
  apply Forall_app in I3 as [I3 I3']. apply Forall_cons in I3' as [I3' I3''].
  pose proof (reserved_bound _ I3). pose proof (reserved_bound _ I3''). simpl in I3'.
  destruct (log_write_spec s b I1) as (n' & bl & E & Hl & Hn & _); [lia|lia|done|done|].
  eexists. split; [exact E|]. intros ->. split; simpl.
  - exact Hl.
  - rewrite reserved_app. simpl. lia.
  - apply Forall_app. split; [done|]. apply Forall_cons. split; [simpl; lia|done].
  - rewrite length_app. simpl. done.
  - done.
  - intros Hc. apply I6 in Hc. by destruct l1.
Qed.

Lemma linv_end s l1 l2 c t k s' r :
  committing (lg s) = false -> end_op_enter s = Ok (r, s') ->
  linv (LogSys s (l1 ++ (t, k) :: l2) c) ->
  linv (LogSys s' (l1 ++ l2) (if r : bool then Some t else c)).
Proof.
  intros Hc E [I1 I2 I3 I4 I5 I6]. simpl in *.
  destruct (end_op_enter_frame _ _ _ E) as (F1 & F2 & F3 & F4 & F5 & F6 & _).
  rewrite reserved_app in I2. simpl in I2. rewrite length_app in I4. simpl in I4.
  apply Forall_app in I3 as [I3 I3']. apply Forall_cons in I3' as [I3' I3'']. simpl in I3'.
  assert (c = None) as ->.
  { destruct c; [|done]. rewrite Hc, bool_decide_true in I5 by eauto. done. }
  split; simpl.
  - by eapply log_ok_frame.
  - rewrite reserved_app, F2. unfold MAX_OPEN_BLOCKS in *. lia.
  - by apply Forall_app.
  - rewrite F4, I4, length_app. lia.
  - rewrite F5. destruct r; [done|].
    by rewrite Hc.
  - destruct r; [|by intros []]. intros _. symmetry in F6. bprop. rewrite I4 in F6.
    apply nil_length_inv. rewrite length_app. lia.
Qed.

Lemma linv_step y y' : linv y -> lstep y y' -> linv y'.
Proof.
  intros Hi Hs. destruct Hs as [s ops c t l E|s ops c t l E|s l1 l2 c t k b s' Hk Hb Hh E
    |s l1 l2 c t k s' Hc E|s l1 l2 c t k s' Hc E|s ops t s' Hu Hr E].
  - apply log_begin_frame in E as (E1 & E2 & w & ->). destruct Hi as [I1 I2 I3 I4 I5 I6]. simpl in *.
    pose proof (reserved_bound _ I3). split; simpl; try done.
    + by eapply log_ok_frame; [..|exact I1].
    + rewrite I4 in E2. unfold MAX_OPEN_BLOCKS in *. lia.
    + apply Forall_cons. split; [simpl; unfold MAX_OPEN_BLOCKS; lia|done].
    + lia.
    + intros [x ->]. rewrite E1 in I5. done.
  - apply log_begin_frame in E as (w & ->). destruct Hi as [I1 I2 I3 I4 I5 I6]. simpl in *.
    split; simpl; try done. by eapply log_ok_frame; [..|exact I1].
  - destruct (linv_write s l1 l2 c t k b s' Hk Hb Hh Hi) as (s0 & E0 & H). apply H. congruence.
  - by eapply (linv_end _ _ _ _ _ _ _ false).
  - by eapply (linv_end _ _ _ _ _ _ _ true).
  - destruct Hi as [I1 I2 I3 I4 I5 I6]. simpl in *. specialize (I6 ltac:(eauto)). subst ops.
    apply bind_Ok_inv in E as ([] & s1 & E1 & E2). apply end_op_leave_frame in E2 as (F1 & F2 & F3 & F4 & F5 & _).
    assert (exists b, s1 = Fss b (set_lh_n 0 (lg s))) as (b & ->).
    { destruct (decide (0 < lh_n (lg s))) as [Hn|Hn].
      - destruct (commit_spec s I1 Hu Hr Hn) as (b & _ & E). rewrite E in E1. injection E1 as <-. eauto.
      - unfold commit in E1. mrun. unfold commit in E1. unfold mbind, M_bind, get in E1.
        rewrite (proj2 (Z.ltb_ge _ _)) in E1 by lia. injection E1 as <-. exists (bs s).
        replace 0 with (lh_n (lg s)) by (pose proof (lo_n _ I1); lia). by destruct s as [? []]. }
    simpl in *. split; simpl.
    + eapply log_ok_frame; [..|by apply log_ok_clear]; done.
    + rewrite F2. unfold LOG_SIZE, MAX_OPEN_BLOCKS. lia.
    + constructor.
    + by rewrite F4.
    + by rewrite F5.
    + intros []; done.
Qed.

Lemma linv_reachable y y' : rtc lstep y y' -> linv y -> linv y'.
Proof. induction 1; eauto using linv_step. Qed.

(** C7: the reservation of [log_begin_op] is enough.  From a fresh log, whatever
    operations begin, wait, write, end and commit in whatever order, an operation
    that has made fewer than [MAX_OPEN_BLOCKS] calls of [log_write] can make one
    more: no assertion of [log_write] fails and the header never exceeds
    [LOG_SIZE] entries; no operation runs while a commit is in progress. *)
Theorem log_no_overflow s y :
  log_ok (lg s) -> lh_n (lg s) = 0 -> outstanding (lg s) = 0 -> committing (lg s) = false ->
  rtc lstep (LogSys s [] None) y ->
  0 <= lh_n (lg (fs y)) <= LOG_SIZE /\
  (opens y <> [] -> committing (lg (fs y)) = false) /\
  forall t k b, (t, k) ∈ opens y -> k < MAX_OPEN_BLOCKS -> is_u32 b -> home (log_start (lg (fs y))) b ->
    exists s', log_write b (fs y) = Ok (tt, s') /\ lh_n (lg s') <= LOG_SIZE.
Proof.
  intros Hl Hn Ho Hc Hr. assert (linv y) as Hi.
  { eapply linv_reachable; [exact Hr|]. split; simpl; try done; try (by intros []).
    all: rewrite Hn; unfold LOG_SIZE, MAX_OPEN_BLOCKS; lia. }
  split; [apply Hi|]. split.
  - intros Hne. destruct (committing (lg (fs y))) eqn:E; [|done]. exfalso. apply Hne, Hi.
    rewrite (li_commit _ Hi) in E. by apply bool_decide_eq_true in E.
  - intros t k b Hin Hk Hb Hh. apply list_elem_of_split in Hin as (l1 & l2 & Eo).
    destruct y as [s1 ops c]. simpl in *. subst ops.
    destruct (linv_write s1 l1 l2 c t k b s1 Hk Hb Hh Hi) as (s' & E & _).
    destruct (linv_write s1 l1 l2 c t k b s' Hk Hb Hh Hi) as (s'' & E' & Hi').
    exists s'. split; [done|]. rewrite E in E'. injection E' as <-.
    apply (li_log _ (Hi' eq_refl)).
Qed.

(** A drive of zeros with the log area in the blocks 2 to 32. *)
Lemma zero_hdr_ok start : hdr_ok start zero_block /\ hdr_n zero_block = 0.
Proof.
  assert (hdr_n zero_block = 0) as E by (vm_compute; reflexivity). split; [|done].
  split; rewrite ?E; [apply zero_block_ok|unfold LOG_SIZE, MAX_OPEN_BLOCKS; lia| |]; simpl; lia.
Qed.

Definition demo_block : block := replicate BLOCK_SIZE 7.

Definition demo : fss :=
  Fss (BStore ∅ {[ 40 := demo_block ]} {[ 40 ]} ∅ [])
      (MkLog 2 1 false 1 (40 :: replicate 29 0) (sem_init 0)).

Lemma demo_log_ok : log_ok (lg demo).
Proof.
  split; simpl.
  - unfold start_ok, LOG_SIZE, MAX_OPEN_BLOCKS. lia.
  - done.
  - unfold LOG_SIZE, MAX_OPEN_BLOCKS. lia.
  - apply NoDup_singleton.
  - apply Forall_singleton. split; [ulia|]. unfold home, LOG_SIZE, MAX_OPEN_BLOCKS. lia.
Qed.

Lemma log_crash_atomic_witness :
  exists s' ws, log_end_op demo = Ok (tt, s') /\ writes (bs s') = ws /\
    dread (disk (bs s')) 40 = demo_block /\ view (bs demo) 40 <> dread (disk (bs demo)) 40 /\
    forall k d, rtc (interrupted 2 (replicate 30 0)) (apply_writes (take k ws) ∅) d ->
      exists s'', log_init 2 (replicate 30 0) (mount d) = Ok (tt, s'') /\ lh_n (lg s'') = 0 /\
        ((forall x, home 2 x -> dread (disk (bs s'')) x = zero_block) \/
         (forall x, home 2 x -> dread (disk (bs s'')) x = view (bs demo) x)).
Proof.
  destruct (log_crash_atomic demo (replicate 30 0)) as (s' & ws & E & W & N & C).
  - split.
    + apply demo_log_ok.
    + intros x Hx. set_solver.
    + unfold room. vm_compute. lia.
    + apply zero_hdr_ok.
    + apply (zero_hdr_ok 2).
    + intros x Hx. unfold view. simpl. rewrite lookup_singleton_ne; [done|]. intros <-.
      apply Hx. unfold entries. simpl. set_solver.
  - done.
  - done.
  - apply sem_init_ok. lia.
  - simpl. lia.
  - done.
  - exists s', ws. split_and!; [done|by rewrite W| |by vm_compute|].
    + rewrite N; [by vm_compute|]. unfold home, LOG_SIZE, MAX_OPEN_BLOCKS. simpl. lia.
    + intros k d Hr. destruct (C k d Hr) as (s'' & E'' & H1 & H2). eauto.
Defined.

Lemma log_no_overflow_witness :
  let s := Fss (mount ∅) (init_log 2 (replicate 30 0)) in
  exists y, rtc lstep (LogSys s [] None) y /\ opens y = [(5, 1); (4, 0)] /\ lh_n (lg (fs y)) = 1 /\
  exists s', log_write 41 (fs y) = Ok (tt, s') /\ lh_n (lg s') <= LOG_SIZE.
Proof.
  simpl. eassert (rtc lstep (LogSys (Fss (mount ∅) (init_log 2 (replicate 30 0))) [] None) _) as Hr.
  { eapply rtc_l; [apply (ls_begin _ _ _ 4); vm_compute; reflexivity|].
    eapply rtc_l; [apply (ls_begin _ _ _ 5); vm_compute; reflexivity|].
    eapply rtc_l; [apply (ls_write _ [] _ _ 5 0 40);
      [done|ulia|unfold home, LOG_SIZE, MAX_OPEN_BLOCKS; simpl; lia|vm_compute; reflexivity]|].
    apply rtc_refl. }
  eexists. split; [exact Hr|]. split; [done|]. split; [done|].
  eapply (log_no_overflow _ _) in Hr; [|..].
  - apply (proj2 (proj2 Hr) 5 1); [simpl; set_solver|unfold MAX_OPEN_BLOCKS; lia|ulia|].
    unfold home, LOG_SIZE, MAX_OPEN_BLOCKS. simpl. lia.
  - split; simpl; try done; try constructor; unfold start_ok, LOG_SIZE, MAX_OPEN_BLOCKS; lia.
  - done.
  - done.
  - done.
Defined.

(** ** Between transactions *)

(** No operation is running, and the drive is up to date. *)
Record idle (s : fss) : Prop := {
  id_log : log_ok (lg s);
  id_n : lh_n (lg s) = 0;
  id_out : outstanding (lg s) = 0;
  id_committing : committing (lg s) = false;
  id_sem : sem_ok (wait_sem (lg s));
  id_held : held (bs s) = ∅;
  id_dirty : dirty (bs s) = ∅;
  id_block : forall x, block_ok (view (bs s) x);
  id_hdr : hdr_ok (log_start (lg s)) (dread (disk (bs s)) (log_start (lg s)));
  id_clear : hdr_n (dread (disk (bs s)) (log_start (lg s))) = 0;
  id_clean : forall x, view (bs s) x = dread (disk (bs s)) x;
}.

Lemma begin_idle cur s : idle s ->
  exists s', log_begin_op cur s = Ok (tt, s') /\ bs s' = bs s /\ tx s' /\ outstanding (lg s') = 1 /\
    committing (lg s') = false /\ lh_n (lg s') = 0 /\ log_start (lg s') = log_start (lg s) /\
    wait_sem (lg s') = wait_sem (lg s).
Proof.
  intros [I1 I2 I3 I4 I5 I6 I7 I8 I9 I10 I11].
  exists (Fss (bs s) (set_outstanding 1 (lg s))). split_and!; try done.
  - unfold log_begin_op, begin_fuel. cbn [log_begin_loop]. rewrite I4, I2, I3. done.
  - split; simpl; try done.
    + destruct I1 as [L1 L2 L3 L4 L5]. by split.
    + rewrite I7. set_solver.
    + rewrite I6. unfold MAXHELD. rewrite size_empty. lia.
Qed.

Lemma over_keys ws v v' x : x ∈ ws.*1 -> over ws v x = over ws v' x.
Proof.
  revert v v'. induction ws as [|[b y] ws IH]; intros v v' Hx; [set_solver|]. simpl.
  destruct (decide (x ∈ ws.*1)) as [Hin|Hin]; [by apply IH|].
  rewrite !over_other by done. rewrite fmap_cons in Hx. simpl in Hx. rewrite !decide_True by set_solver. done.
Qed.

Lemma over_ok ws v x : Forall (fun w : Z * block => block_ok (snd w)) ws -> block_ok (v x) -> block_ok (over ws v x).
Proof.
  intros Hw. revert v. induction Hw as [|[b y] ws Hy _ IH]; intros v Hv; [done|]. simpl. apply IH. by case_decide.
Qed.

(** The end of a transaction that only one operation was part of. *)
Lemma end_idle s :
  tx s -> held (bs s) = ∅ -> outstanding (lg s) = 1 -> committing (lg s) = false ->
  sem_ok (wait_sem (lg s)) -> val (wait_sem (lg s)) + 1 < 2 ^ 31 - 1 ->
  exists s', log_end_op s = Ok (tt, s') /\ idle s' /\ log_start (lg s') = log_start (lg s) /\
    val (wait_sem (lg s')) <= val (wait_sem (lg s)) + 1 /\
    forall x, home (log_start (lg s)) x ->
      view (bs s') x = view (bs s) x /\ dread (disk (bs s')) x = view (bs s) x.
Proof.
  intros Ht Hh Ho Hc Hs Hv.
  destruct (log_end_last s (tx_txn_ok s Ht Hh) Hc Ho Hs Hv)
    as (s' & ws & E & W & Hn & Hst & (Hl & Ho' & Hc' & Hs' & Hv' & Hz & Hk & Hok) & Hnew & Hcr).
  specialize (Hok (t_block _ Ht)). pose proof W as [W1 W2 W3 W4 W5].
  assert (forall x, view (bs s') x = dread (disk (bs s')) x) as Hclean.
  { intros x. rewrite W2, W1, dread_apply_writes. destruct (decide (x ∈ ws.*1)) as [Hx|Hx]; [by apply over_keys|].
    rewrite !over_other by done. apply (t_clean _ Ht). intros Hin. by apply Hx, Hk. }
  assert (forall x, home (log_start (lg s)) x -> dread (disk (bs s')) x = view (bs s) x) as Hhome.
  { intros x Hx. rewrite W1, dread_apply_writes. by apply Hnew. }
  exists s'. split_and!; [done| |done|done|intros x Hx; rewrite Hclean, Hhome; done].
  split; rewrite ?Hst; try done.
  - by rewrite W4.
  - apply set_eq. intros x. rewrite W3. split; [|set_solver]. intros [H1 H2].
    exfalso. by apply H2, Hk, (t_dirty _ Ht).
  - intros x. rewrite W2. apply over_ok; [done|apply (t_block _ Ht)].
  - destruct (Hcr (length ws)) as [H1 _]. rewrite take_ge in H1 by lia. by rewrite W1.
  - by rewrite W1.
Qed.
End Log.
