(* ===== verification/BAlloc.v ===== *)
(** The allocator of data blocks of src/fs/balloc.c: one bit per data block, in the
    bitmap blocks that follow the log.

    The theorems give the allocator its contract: [balloc] takes the first free
    block, zeroes it and marks it; [bfree] undoes it; a second [bfree] of the same
    block stops the machine. *)

From stdpp Require Import base numbers list gmap.
From Stdlib Require Import ZArith Lia.
From S2P Require Import Prelude Semaphore BlockIO Log.
#[local] Open Scope Z_scope.

Module BAlloc.
Import BlockIO Log.

(** [struct superblock] of src/include/fs/superblock.h. *)
Record superblock := Superblock {
  sb_magic : Z;
  sb_size : Z;
  sb_nblocks : Z;
  sb_ninodes : Z;
  sb_inode_start : Z;
  sb_nlog : Z;
  sb_log_start : Z;
  sb_bmap_start : Z;
  sb_bmap_bytes : Z;
  sb_bdata_start : Z;
}.

(** [BLOCK_SIZE * 8]. *)
Definition BITS_PER_BLOCK : Z := 4096.

Definition bzero (block_no : Z) : M fss unit :=
  _ ← lift (buf_read block_no);
  lift (buf_store block_no zero_block);;
  log_write block_no;;
  lift (buf_release block_no).

(** [m = 1 << (bit % 8)]. *)
Definition bit_mask (bit : nat) : Z := u8 (Z.shiftl 1 (Z.of_nat (bit mod 8))).

(** [(data[bit / 8] & m) != 0]. *)
Definition bit_set (data : block) (bit : nat) : bool :=
  negb (Z.land (data !!! (bit / 8)%nat) (bit_mask bit) =? 0).

(** [data[bit / 8] |= m]. *)
Definition mark_bit (data : block) (bit : nat) : block :=
  <[(bit / 8)%nat := Z.lor (data !!! (bit / 8)%nat) (bit_mask bit)]> data.

(** [data[bit / 8] &= ~m]. *)
Definition clear_bit (data : block) (bit : nat) : block :=
  <[(bit / 8)%nat := Z.land (data !!! (bit / 8)%nat) (Z.lnot (bit_mask bit))]> data.

(** [for (bit = 0; bit < bits; bit++)]: the first clear bit. *)
Fixpoint find_free (n bit : nat) (data : block) : option nat :=
  match n with
  | O => None
  | S n => if bit_set data bit then find_free n (S bit) data else Some bit
  end.

(** The [while (bmap_bits > 0)] of [balloc]; a turn per bitmap block. *)
Fixpoint balloc_loop (fuel : nat) (sb : superblock) (bmap_bits bmap_block_no : Z) : M fss Z :=
  match fuel with
  | O => hang
  | S fuel =>
      if 0 <? bmap_bits then
        let bits := if bmap_bits <? BITS_PER_BLOCK then bmap_bits else BITS_PER_BLOCK in
        data ← lift (buf_read bmap_block_no);
        match find_free (Z.to_nat bits) 0 data with
        | Some bit =>
            lift (buf_store bmap_block_no (mark_bit data bit));;
            log_write bmap_block_no;;
            lift (buf_release bmap_block_no);;
            let block_no := u32 (sb_bdata_start sb
              + (bmap_block_no - sb_bmap_start sb) * BITS_PER_BLOCK + Z.of_nat bit) in
            bzero block_no;;
            mret block_no
        | None =>
            lift (buf_release bmap_block_no);;
            balloc_loop fuel sb (bmap_bits - bits) (u32 (bmap_block_no + 1))
        end
      else panic
  end.

Definition bmap_bits (sb : superblock) : Z := u32 (sb_bmap_bytes sb * 8).

(** Turns of the loop over the bitmap blocks, and the one that ends it. *)
Definition bmap_fuel (sb : superblock) : nat := S (S (Z.to_nat (bmap_bits sb / BITS_PER_BLOCK))).

Definition balloc (sb : superblock) : M fss Z :=
  balloc_loop (bmap_fuel sb) sb (bmap_bits sb) (sb_bmap_start sb).

Definition bfree (sb : superblock) (dblock_no : Z) : M fss unit :=
  let dblock_no := u32 (dblock_no - sb_bdata_start sb) in
  let bblock_no := u32 (sb_bmap_start sb + dblock_no / BITS_PER_BLOCK) in
  let bits := Z.to_nat (dblock_no mod BITS_PER_BLOCK) in
  data ← lift (buf_read bblock_no);
  ASSERT (bit_set data bits);;
  lift (buf_store bblock_no (clear_bit data bits));;
  log_write bblock_no;;
  lift (buf_release bblock_no).

(** The clear bits among the first [n] from [bit] on. *)
Fixpoint count_free (n bit : nat) (data : block) : Z :=
  match n with
  | O => 0
  | S n => (if bit_set data bit then 0 else 1) + count_free n (S bit) data
  end.

Fixpoint free_blocks_loop (fuel : nat) (bmap_bits bmap_block_no free : Z) : M fss Z :=
  match fuel with
  | O => hang
  | S fuel =>
      if 0 <? bmap_bits then
        let bits := if bmap_bits <? BITS_PER_BLOCK then bmap_bits else BITS_PER_BLOCK in
        data ← lift (buf_read bmap_block_no);
        lift (buf_release bmap_block_no);;
        free_blocks_loop fuel (bmap_bits - bits) (u32 (bmap_block_no + 1))
          (u32 (free + count_free (Z.to_nat bits) 0 data))
      else mret free
  end.

Definition get_free_data_blocks (sb : superblock) : M fss Z :=
  free_blocks_loop (bmap_fuel sb) (bmap_bits sb) (sb_bmap_start sb) 0.

(** *** The layout of a drive *)

Definition INODES_PER_BLOCK : Z := 7.

(** The regions of the drive, as mkfs lays them out (see Mkfs.v). *)
Record layout (sb : superblock) : Prop := {
  la_inode : 1 < sb_inode_start sb /\ 0 < sb_ninodes sb;
  la_log : sb_inode_start sb + sb_ninodes sb / INODES_PER_BLOCK < sb_log_start sb;
  la_start : start_ok (sb_log_start sb);
  la_bmap : sb_log_start sb + LOG_SIZE < sb_bmap_start sb;
  la_bytes : 0 <= sb_bmap_bytes sb /\ sb_bmap_bytes sb * 8 < 2 ^ 32;
  la_data : sb_bmap_start sb + (sb_bmap_bytes sb * 8) / BITS_PER_BLOCK < sb_bdata_start sb;
  la_end : sb_bdata_start sb + sb_bmap_bytes sb * 8 < 2 ^ 32;
}.

(** The bitmap block and the bit of data block [i]. *)
Definition bmap_block (sb : superblock) (i : Z) : Z := sb_bmap_start sb + i / BITS_PER_BLOCK.

Definition bmap_bit (i : Z) : nat := Z.to_nat (i mod BITS_PER_BLOCK).

(** The bit of data block [i] in the contents [v] of the blocks. *)
Definition used (sb : superblock) (v : Z -> block) (i : Z) : bool :=
  bit_set (v (bmap_block sb i)) (bmap_bit i).

(** The drive block of data block [i]. *)
Definition data_block (sb : superblock) (i : Z) : Z := sb_bdata_start sb + i.

Definition is_data (sb : superblock) (i : Z) : Prop := 0 <= i < bmap_bits sb.

(** *** Bits of a block *)

Lemma bit_mask_pow bit : bit_mask bit = 2 ^ Z.of_nat (bit mod 8).
Proof.
  unfold bit_mask. rewrite Z.shiftl_1_l. apply u8_small.
  pose proof (Nat.mod_upper_bound bit 8). unfold is_u8. split; [lia|].
  apply Z.pow_lt_mono_r; lia.
Qed.

Lemma bit_set_testbit data bit :
  bit_set data bit = Z.testbit (data !!! (bit / 8)%nat) (Z.of_nat (bit mod 8)).
Proof.
  unfold bit_set. rewrite bit_mask_pow. set (x := data !!! (bit / 8)%nat). set (k := Z.of_nat (bit mod 8)).
  assert (0 <= k) as Hk by lia. destruct (Z.testbit x k) eqn:E.
  - apply negb_true_iff, Z.eqb_neq. intros H.
    assert (Z.testbit (Z.land x (2 ^ k)) k = false) as H1 by (by rewrite H, Z.bits_0).
    rewrite Z.land_spec, E, Z.pow2_bits_true in H1 by done. done.
  - apply negb_false_iff, Z.eqb_eq. apply Z.bits_inj'. intros n Hn.
    rewrite Z.land_spec, Z.bits_0, Z.pow2_bits_eqb by done.
    destruct (Z.eqb_spec k n) as [<-|]; [by rewrite E|by rewrite andb_false_r].
Qed.

Lemma insert_bit_spec data bit bit' x (b : bool) :
  length data = BLOCK_SIZE -> (bit < 4096)%nat ->
  (forall k, 0 <= k -> Z.testbit x k =
     if decide (k = Z.of_nat (bit mod 8)) then b else Z.testbit (data !!! (bit / 8)%nat) k) ->
  bit_set (<[(bit / 8)%nat := x]> data) bit' = if decide (bit' = bit) then b else bit_set data bit'.
Proof.
  intros Hl Hb Hx. rewrite !bit_set_testbit.
  assert (bit / 8 < length data)%nat as Hlt.
  { rewrite Hl. unfold BLOCK_SIZE. apply Nat.Div0.div_lt_upper_bound. lia. }
  destruct (decide (bit' / 8 = bit / 8)%nat) as [Hd|Hd].
  - rewrite Hd, list_lookup_total_insert_eq by done. rewrite Hx by lia.
    pose proof (Nat.div_mod_eq bit 8). pose proof (Nat.div_mod_eq bit' 8).
    destruct (decide (bit' = bit)) as [->|]; [by rewrite decide_True|].
    rewrite decide_False by lia. done.
  - rewrite list_lookup_total_insert_ne by done. rewrite decide_False; [done|]. by intros ->.
Qed.

Lemma mark_bit_spec data bit bit' :
  length data = BLOCK_SIZE -> (bit < 4096)%nat ->
  bit_set (mark_bit data bit) bit' = if decide (bit' = bit) then true else bit_set data bit'.
Proof.
  intros Hl Hb. apply insert_bit_spec; [done..|]. intros k Hk.
  rewrite Z.lor_spec, bit_mask_pow, Z.pow2_bits_eqb by lia. case_decide as D.
  - subst. rewrite Z.eqb_refl. by rewrite orb_true_r.
  - rewrite (proj2 (Z.eqb_neq _ _)) by lia. by rewrite orb_false_r.
Qed.

Lemma clear_bit_spec data bit bit' :
  length data = BLOCK_SIZE -> (bit < 4096)%nat ->
  bit_set (clear_bit data bit) bit' = if decide (bit' = bit) then false else bit_set data bit'.
Proof.
  intros Hl Hb. apply insert_bit_spec; [done..|]. intros k Hk.
  rewrite Z.land_spec, Z.lnot_spec, bit_mask_pow, Z.pow2_bits_eqb by lia. case_decide as D.
  - subst. rewrite Z.eqb_refl. by rewrite andb_false_r.
  - rewrite (proj2 (Z.eqb_neq _ _)) by lia. by rewrite andb_true_r.
Qed.

Lemma byte_lor x y : is_u8 x -> is_u8 y -> is_u8 (Z.lor x y).
Proof.
  unfold is_u8. intros Hx Hy. split; [apply Z.lor_nonneg; lia|].
  destruct (Z.eq_dec (Z.lor x y) 0) as [->|]; [lia|].
  assert (0 <= Z.lor x y) by (apply Z.lor_nonneg; lia).
  apply Z.log2_lt_pow2; [lia|]. rewrite Z.log2_lor by lia.
  apply Z.max_lub_lt.
  - destruct (Z.eq_dec x 0) as [->|]; [done|]. apply Z.log2_lt_pow2; lia.
  - destruct (Z.eq_dec y 0) as [->|]; [done|]. apply Z.log2_lt_pow2; lia.
Qed.

Lemma byte_land x y : is_u8 x -> is_u8 (Z.land x y).
Proof.
  unfold is_u8. intros Hx. split; [apply Z.land_nonneg; lia|].
  enough (Z.land x y <= x) by lia.
  assert (0 <= Z.ldiff x (Z.land x y)) as H by (apply Z.ldiff_nonneg; lia).
  rewrite <- Z.sub_nocarry_ldiff in H; [lia|]. apply Z.bits_inj'. intros n Hn.
  rewrite Z.ldiff_spec, Z.land_spec, Z.bits_0. by destruct (Z.testbit x n), (Z.testbit y n).
Qed.

Lemma bytes_lookup_total data i : bytes data -> is_u8 (data !!! i).
Proof.
  intros H. destruct (data !! i) as [x|] eqn:E.
  - rewrite (list_lookup_total_correct _ _ _ E). unfold bytes in H. rewrite Forall_lookup in H. eauto.
  - rewrite list_lookup_total_alt, E. simpl. ulia.
Qed.

Lemma mark_bit_ok data bit : block_ok data -> block_ok (mark_bit data bit).
Proof.
  intros [Hl Hb]. split; [by unfold mark_bit; rewrite length_insert|]. apply Forall_insert; [done|].
  apply byte_lor; [by apply bytes_lookup_total|]. rewrite bit_mask_pow.
  pose proof (Nat.mod_upper_bound bit 8). unfold is_u8. split; [lia|]. apply Z.pow_lt_mono_r; lia.
Qed.

Lemma clear_bit_ok data bit : block_ok data -> block_ok (clear_bit data bit).
Proof.
  intros [Hl Hb]. split; [by unfold clear_bit; rewrite length_insert|]. apply Forall_insert; [done|].
  apply byte_land. by apply bytes_lookup_total.
Qed.

Lemma find_free_spec data n : forall bit,
  match find_free n bit data with
  | Some i => (bit <= i < bit + n)%nat /\ bit_set data i = false /\
              forall j, (bit <= j < i)%nat -> bit_set data j = true
  | None => forall j, (bit <= j < bit + n)%nat -> bit_set data j = true
  end.
Proof.
  induction n as [|n IH]; intros bit; simpl; [lia|].
  destruct (bit_set data bit) eqn:E.
  - specialize (IH (S bit)). destruct (find_free n (S bit) data) as [i|].
    + destruct IH as (H1 & H2 & H3). split_and!; [lia|lia|done|].
      intros j Hj. destruct (decide (j = bit)) as [->|]; [done|]. apply H3. lia.
    + intros j Hj. destruct (decide (j = bit)) as [->|]; [done|]. apply IH. lia.
  - split_and!; [lia|lia|done|lia].
Qed.

(** *** The search of [balloc] *)

Section search.
Context (sb : superblock) (Hla : layout sb).

Lemma bmap_bits_eq : bmap_bits sb = sb_bmap_bytes sb * 8.
Proof. unfold bmap_bits. apply u32_small. destruct Hla as [_ _ _ _ H _ _]. ulia. Qed.

(** What the search needs of a state: it is inside a transaction, and neither the
    bitmap nor a free block is locked. *)
Record search_ok (s : fss) : Prop := {
  so_tx : tx s;
  so_start : log_start (lg s) = sb_log_start sb;
  so_held : (size (held (bs s)) < MAXHELD)%nat;
  so_bmap : forall i, is_data sb i -> bmap_block sb i ∉ held (bs s);
  so_free : forall i, is_data sb i -> used sb (view (bs s)) i = false -> data_block sb i ∉ held (bs s);
}.

Lemma search_ok_same s s' : search_ok s -> logged [] s s' -> held (bs s') = held (bs s) -> search_ok s'.
Proof.
  intros [S1 S2 S3 S4 S5] L H. split.
  - apply L.
  - destruct (lw_log _ _ _ L) as [-> _]. done.
  - by rewrite H.
  - intros. rewrite H. auto.
  - intros i Hi Hu. rewrite H. apply S5; [done|]. unfold used in *. by rewrite (lw_view _ _ _ L) in Hu.
Qed.

Lemma bmap_block_loggable i : is_data sb i -> loggable (sb_log_start sb) (bmap_block sb i).
Proof.
  intros Hi. unfold is_data in Hi. rewrite bmap_bits_eq in Hi. destruct Hla as [L1 L2 L3 L4 L5 L6 L7].
  unfold loggable, home, bmap_block, BITS_PER_BLOCK, start_ok, LOG_SIZE, MAX_OPEN_BLOCKS in *.
  assert (i / 4096 <= sb_bmap_bytes sb * 8 / 4096) by (apply Z.div_le_mono; lia).
  assert (0 <= i / 4096) by (apply Z.div_pos; lia). ulia.
Qed.

Lemma data_block_loggable i : is_data sb i -> loggable (sb_log_start sb) (data_block sb i).
Proof.
  intros Hi. unfold is_data in Hi. rewrite bmap_bits_eq in Hi. destruct Hla as [L1 L2 L3 L4 L5 L6 L7].
  unfold loggable, home, data_block, BITS_PER_BLOCK, start_ok, LOG_SIZE, MAX_OPEN_BLOCKS in *.
  assert (0 <= sb_bmap_bytes sb * 8 / 4096) by (apply Z.div_pos; lia). ulia.
Qed.

Lemma data_not_bmap i j : is_data sb i -> is_data sb j -> data_block sb i <> bmap_block sb j.
Proof.
  intros Hi Hj. unfold is_data in *. rewrite bmap_bits_eq in *. destruct Hla as [L1 L2 L3 L4 L5 L6 L7].
  unfold bmap_block, data_block, BITS_PER_BLOCK in *.
  assert (j / 4096 <= sb_bmap_bytes sb * 8 / 4096) by (apply Z.div_le_mono; lia). lia.
Qed.

(** The bits looked at in the bitmap block [k]. *)
Definition turn_bits (k : Z) : Z :=
  let r := bmap_bits sb - k * BITS_PER_BLOCK in if r <? BITS_PER_BLOCK then r else BITS_PER_BLOCK.

Lemma turn_first k : 0 <= k -> k * BITS_PER_BLOCK < bmap_bits sb ->
  is_data sb (k * BITS_PER_BLOCK) /\ bmap_block sb (k * BITS_PER_BLOCK) = sb_bmap_start sb + k.
Proof.
  intros Hk Hr. split; [unfold is_data, BITS_PER_BLOCK in *; lia|].
  unfold bmap_block. by rewrite Z.div_mul.
Qed.

Lemma bit_of k j : 0 <= j < BITS_PER_BLOCK ->
  bmap_block sb (k * BITS_PER_BLOCK + j) = sb_bmap_start sb + k /\
  bmap_bit (k * BITS_PER_BLOCK + j) = Z.to_nat j.
Proof.
  intros Hj. unfold bmap_block, bmap_bit, BITS_PER_BLOCK in *. split.
  - rewrite Z.div_add_l by lia. rewrite Z.div_small by lia. lia.
  - rewrite Z.add_comm, Z.mod_add, Z.mod_small by lia. done.
Qed.

Lemma next_block k : 0 <= k -> k * BITS_PER_BLOCK < bmap_bits sb ->
  u32 (sb_bmap_start sb + k + 1) = sb_bmap_start sb + (k + 1).
Proof.
  intros Hk Hr. destruct (bmap_block_loggable _ (proj1 (turn_first k Hk Hr))) as [H _].
  rewrite (proj2 (turn_first k Hk Hr)) in H. rewrite bmap_bits_eq in Hr.
  destruct Hla as [L1 L2 L3 L4 L5 L6 L7].
  assert (k <= sb_bmap_bytes sb * 8 / BITS_PER_BLOCK) by (apply Z.div_le_lower_bound; unfold BITS_PER_BLOCK in *; lia).
  rewrite u32_small; [lia|]. unfold BITS_PER_BLOCK, is_u32 in *. lia.
Qed.

(** A turn over a bitmap block with no clear bit. *)
Lemma balloc_turn_full fuel k s :
  search_ok s -> 0 <= k -> k * BITS_PER_BLOCK < bmap_bits sb ->
  (forall j, 0 <= j < turn_bits k -> used sb (view (bs s)) (k * BITS_PER_BLOCK + j) = true) ->
  exists s', balloc_loop (S fuel) sb (bmap_bits sb - k * BITS_PER_BLOCK) (sb_bmap_start sb + k) s =
      balloc_loop fuel sb (bmap_bits sb - k * BITS_PER_BLOCK - turn_bits k) (sb_bmap_start sb + (k + 1)) s' /\
    logged [] s s' /\ held (bs s') = held (bs s).
Proof.
  intros Hs Hk Hr Hu. destruct (turn_first k Hk Hr) as [Hd Hb].
  pose proof (so_bmap _ Hs _ Hd) as Hh. rewrite Hb in Hh.
  destruct (tx_read s (sb_bmap_start sb + k) (so_tx _ Hs) Hh (so_held _ Hs)) as (s1 & E1 & L1 & H1).
  destruct (tx_release s1 (sb_bmap_start sb + k) (lw_tx _ _ _ L1)) as (s2 & E2 & L2 & H2).
  exists s2. split; [|split].
  - simpl. rewrite (proj2 (Z.ltb_lt _ _)) by lia. rewrite (bind_Ok _ _ _ _ _ E1).
    fold (turn_bits k). pose proof (find_free_spec (view (bs s) (sb_bmap_start sb + k)) (Z.to_nat (turn_bits k)) 0) as F.
    destruct (find_free _ 0 _) as [i|].
    + destruct F as (F1 & F2 & _). exfalso. assert (turn_bits k <= BITS_PER_BLOCK) as Ht.
      { unfold turn_bits. destruct (Z.ltb_spec (bmap_bits sb - k * BITS_PER_BLOCK) BITS_PER_BLOCK); lia. }
      specialize (Hu (Z.of_nat i)). destruct (bit_of k (Z.of_nat i)) as [B1 B2]; [lia|].
      unfold used in Hu. rewrite B1, B2, Nat2Z.id, F2 in Hu. discriminate Hu. lia.
    + rewrite (bind_Ok _ _ _ _ _ E2). by rewrite next_block.
  - change (@nil (Z * block)) with (@nil (Z * block) ++ []). by eapply logged_app.
  - rewrite H2, H1. set_solver.
Qed.
End search.

(** Zeroing a block that is not locked. *)
Lemma bzero_spec s b :
  tx s -> b ∉ held (bs s) -> (size (held (bs s)) < MAXHELD)%nat ->
  loggable (log_start (lg s)) b -> cap s 1 ->
  exists s', bzero b s = Ok (tt, s') /\ logged [(b, zero_block)] s s' /\ held (bs s') = held (bs s).
Proof.
  intros Ht Hb Hh Hl Hc. destruct (tx_read s b Ht Hb Hh) as (s1 & E1 & L1 & H1).
  destruct (tx_update_release s1 b zero_block (lw_tx _ _ _ L1)) as (s2 & E2 & L2 & H2).
  - rewrite H1. set_solver.
  - destruct (lw_log _ _ _ L1) as [-> _]. done.
  - apply zero_block_ok.
  - eapply logged_cap; [exact L1|exact Hc|simpl; lia].
  - exists s2. unfold bzero. rewrite (bind_Ok _ _ _ _ _ E1). split; [exact E2|]. split.
    + change [(b, zero_block)] with ([] ++ [(b, zero_block)]). by eapply logged_app.
    + rewrite H2, H1. set_solver.
Qed.

(** The contents that [balloc] gives the two blocks it writes. *)
Definition balloc_writes (sb : superblock) (v : Z -> block) (i : Z) : list (Z * block) :=
  [(bmap_block sb i, mark_bit (v (bmap_block sb i)) (bmap_bit i)); (data_block sb i, zero_block)].

(** The turn that finds the data block [i]. *)
Lemma balloc_turn_found sb fuel i s :
  layout sb -> search_ok sb s -> is_data sb i -> cap s 2 ->
  used sb (view (bs s)) i = false ->
  (forall j, BITS_PER_BLOCK * (i / BITS_PER_BLOCK) <= j < i -> used sb (view (bs s)) j = true) ->
  exists s', balloc_loop (S fuel) sb (bmap_bits sb - i / BITS_PER_BLOCK * BITS_PER_BLOCK)
      (sb_bmap_start sb + i / BITS_PER_BLOCK) s = Ok (data_block sb i, s') /\
    logged (balloc_writes sb (view (bs s)) i) s s' /\ held (bs s') = held (bs s).
Proof.
  intros Hla Hs Hi Hc Hu Hlt. set (k := i / BITS_PER_BLOCK) in *.
  pose proof (Z.div_mod i BITS_PER_BLOCK ltac:(done)) as Hdm. fold k in Hdm.
  pose proof (Z.mod_pos_bound i BITS_PER_BLOCK ltac:(done)) as Hm. set (j := i mod BITS_PER_BLOCK) in *.
  assert (0 <= k) as Hk by (apply Z.div_pos; [apply Hi|done]).
  destruct (bit_of sb k j Hm) as [B1 B2].
  replace (k * BITS_PER_BLOCK + j) with i in * by lia.
  pose proof (so_bmap _ _ Hs _ Hi) as Hh. rewrite B1 in Hh. unfold used in Hu. rewrite B1, B2 in Hu.
  set (data := view (bs s) (sb_bmap_start sb + k)) in *.
  destruct (tx_read s (sb_bmap_start sb + k) (so_tx _ _ Hs) Hh (so_held _ _ Hs)) as (s1 & E1 & L1 & H1).
  destruct (tx_update_release s1 (sb_bmap_start sb + k) (mark_bit data (bmap_bit i)) (lw_tx _ _ _ L1))
    as (s2 & E2 & L2 & H2).
  { rewrite H1. set_solver. }
  { destruct (lw_log _ _ _ L1) as [-> _]. rewrite (so_start _ _ Hs), <- B1. by apply bmap_block_loggable. }
  { apply mark_bit_ok, (t_block _ (so_tx _ _ Hs)). }
  { eapply logged_cap; [exact L1|exact Hc|simpl; lia]. }
  assert (held (bs s2) = held (bs s)) as H2' by (rewrite H2, H1; set_solver).
  pose proof (logged_app _ _ _ _ _ L1 L2) as L12. simpl in L12.
  destruct (bzero_spec s2 (data_block sb i) (lw_tx _ _ _ L2)) as (s3 & E3 & L3 & H3).
  { rewrite H2'. apply (so_free _ _ Hs); [done|]. unfold used. by rewrite B1, B2. }
  { rewrite H2'. apply Hs. }
  { destruct (lw_log _ _ _ L12) as [-> _]. rewrite (so_start _ _ Hs). by apply data_block_loggable. }
  { eapply logged_cap; [exact L12|exact Hc|simpl; lia]. }
  exists s3. split; [|split].
  - assert (0 < bmap_bits sb - k * BITS_PER_BLOCK) as Hpos by (unfold is_data in Hi; lia).
    assert (j < turn_bits sb k) as Hj.
    { unfold turn_bits. destruct (Z.ltb_spec (bmap_bits sb - k * BITS_PER_BLOCK) BITS_PER_BLOCK);
        unfold is_data in Hi; lia. }
    assert (turn_bits sb k <= BITS_PER_BLOCK) as Htb.
    { unfold turn_bits. destruct (Z.ltb_spec (bmap_bits sb - k * BITS_PER_BLOCK) BITS_PER_BLOCK); lia. }
    simpl. rewrite (proj2 (Z.ltb_lt _ _)) by lia. rewrite (bind_Ok _ _ _ _ _ E1). fold data.
    fold (turn_bits sb k). pose proof (find_free_spec data (Z.to_nat (turn_bits sb k)) 0) as F.
    assert (find_free (Z.to_nat (turn_bits sb k)) 0 data = Some (bmap_bit i)) as ->.
    { assert (forall j', (j' < Z.to_nat j)%nat -> bit_set data j' = true) as Hbelow.
      { intros j' Hj'. destruct (bit_of sb k (Z.of_nat j')) as [C1 C2]; [lia|].
        specialize (Hlt (k * BITS_PER_BLOCK + Z.of_nat j')). unfold used in Hlt.
        rewrite C1, C2, Nat2Z.id in Hlt. apply Hlt. lia. }
      destruct (find_free (Z.to_nat (turn_bits sb k)) 0 data) as [j'|].
      - destruct F as (F1 & F2 & F3). f_equal. rewrite B2.
        destruct (Nat.lt_trichotomy j' (Z.to_nat j)) as [H|[H|H]]; [|done|].
        + rewrite Hbelow in F2 by done. done.
        + rewrite F3 in Hu by lia. done.
      - rewrite F in Hu; [done|]. lia. }
    assert (u32 (sb_bdata_start sb + (sb_bmap_start sb + k - sb_bmap_start sb) * BITS_PER_BLOCK +
              Z.of_nat (bmap_bit i)) = data_block sb i) as ->.
    { rewrite B2, Z2Nat.id by lia. unfold data_block. rewrite u32_small; [lia|].
      destruct (data_block_loggable sb Hla i Hi) as [H _]. unfold data_block in H. ulia. }
    unfold mbind, M_bind in E2 |- *. destruct (lift (buf_store _ _) s1) as [[[] s1a]| |]; try done.
    destruct (log_write _ s1a) as [[[] s1b]| |]; try done. rewrite E2. rewrite E3. done.
  - unfold balloc_writes. rewrite B1. change [(sb_bmap_start sb + k, ?x); ?y] with ([(sb_bmap_start sb + k, x)] ++ [y]).
    by eapply logged_app.
  - by rewrite H3.
Qed.

(** The turns over full bitmap blocks before the one of [i]. *)
Lemma balloc_loop_found sb i :
  layout sb -> is_data sb i ->
  forall fuel k s, search_ok sb s -> cap s 2 -> 0 <= k <= i / BITS_PER_BLOCK ->
  used sb (view (bs s)) i = false ->
  (forall j, 0 <= j < i -> used sb (view (bs s)) j = true) ->
  i / BITS_PER_BLOCK - k < Z.of_nat fuel ->
  exists s', balloc_loop fuel sb (bmap_bits sb - k * BITS_PER_BLOCK) (sb_bmap_start sb + k) s
      = Ok (data_block sb i, s') /\
    logged (balloc_writes sb (view (bs s)) i) s s' /\ held (bs s') = held (bs s).
Proof.
  intros Hla Hi. pose proof (Z.div_mod i BITS_PER_BLOCK ltac:(done)) as Hdm.
  pose proof (Z.mod_pos_bound i BITS_PER_BLOCK ltac:(done)) as Hm. pose proof Hi as [Hi0 Hi1].
  induction fuel as [|fuel IH]; intros k s Hs Hc Hk Hu Hlt Hf; [lia|].
  destruct (decide (k = i / BITS_PER_BLOCK)) as [->|Hne].
  - apply balloc_turn_found; try done. intros j Hj. apply Hlt.
    assert (0 <= i / BITS_PER_BLOCK) by lia. unfold BITS_PER_BLOCK in *. lia.
  - assert (turn_bits sb k = BITS_PER_BLOCK) as Ht.
    { unfold turn_bits. destruct (Z.ltb_spec (bmap_bits sb - k * BITS_PER_BLOCK) BITS_PER_BLOCK); [|done].
      unfold BITS_PER_BLOCK in *. lia. }
    destruct (balloc_turn_full sb Hla fuel k s Hs) as (s1 & E1 & L1 & H1);
      [lia|unfold BITS_PER_BLOCK in *; lia| |].
    { intros j Hj. apply Hlt. rewrite Ht in Hj. unfold BITS_PER_BLOCK in *. lia. }
    rewrite E1, Ht.
    replace (bmap_bits sb - k * BITS_PER_BLOCK - BITS_PER_BLOCK) with
      (bmap_bits sb - (k + 1) * BITS_PER_BLOCK) by lia.
    assert (forall x, view (bs s1) x = view (bs s) x) as Hv by apply L1.
    destruct (IH (k + 1) s1) as (s2 & E2 & L2 & H2).
    + by eapply search_ok_same.
    + eapply logged_cap; [exact L1|exact Hc|simpl; lia].
    + lia.
    + unfold used. by rewrite Hv.
    + intros j Hj. unfold used. rewrite Hv. by apply Hlt.
    + lia.
    + exists s2. split; [done|]. split; [|congruence].
      unfold balloc_writes in L2. rewrite Hv in L2.
      change (logged ([] ++ balloc_writes sb (view (bs s)) i) s s2). by eapply logged_app.
Qed.


(** A full bitmap. *)
Lemma balloc_loop_full sb :
  layout sb ->
  forall fuel k s, search_ok sb s -> 0 <= k <= bmap_bits sb / BITS_PER_BLOCK + 1 ->
  (forall j, is_data sb j -> used sb (view (bs s)) j = true) ->
  bmap_bits sb / BITS_PER_BLOCK + 1 - k < Z.of_nat fuel ->
  balloc_loop fuel sb (Z.max 0 (bmap_bits sb - k * BITS_PER_BLOCK)) (sb_bmap_start sb + k) s = Panic.
Proof.
  intros Hla. assert (0 <= bmap_bits sb) as Hnn by (apply u32_range).
  pose proof (Z.div_mod (bmap_bits sb) BITS_PER_BLOCK ltac:(done)) as Hdm.
  pose proof (Z.mod_pos_bound (bmap_bits sb) BITS_PER_BLOCK ltac:(done)) as Hm.
  induction fuel as [|fuel IH]; intros k s Hs Hk Hu Hf; [lia|].
  destruct (decide (0 < bmap_bits sb - k * BITS_PER_BLOCK)) as [Hpos|Hpos].
  2: { simpl. rewrite (proj2 (Z.ltb_ge _ _)) by lia. done. }
  rewrite Z.max_r by lia.
  destruct (balloc_turn_full sb Hla fuel k s Hs) as (s1 & E1 & L1 & H1); [lia|lia| |].
  { intros j Hj. apply Hu. unfold turn_bits in Hj. unfold is_data.
    destruct (Z.ltb_spec (bmap_bits sb - k * BITS_PER_BLOCK) BITS_PER_BLOCK);
      unfold BITS_PER_BLOCK in *; lia. }
  rewrite E1. replace (bmap_bits sb - k * BITS_PER_BLOCK - turn_bits sb k) with
    (Z.max 0 (bmap_bits sb - (k + 1) * BITS_PER_BLOCK)).
  2: { unfold turn_bits. destruct (Z.ltb_spec (bmap_bits sb - k * BITS_PER_BLOCK) BITS_PER_BLOCK); lia. }
  apply IH; [by eapply search_ok_same|unfold BITS_PER_BLOCK in *; lia| |lia].
  intros j Hj. unfold used. rewrite (lw_view _ _ _ L1). by apply Hu.
Qed.

(** The allocation map after one bitmap block changed. *)
Lemma used_over sb v i j d b :
  0 <= i -> 0 <= j ->
  (forall bit', bit_set d bit' = if decide (bit' = bmap_bit i) then b else bit_set (v (bmap_block sb i)) bit') ->
  used sb (over [(bmap_block sb i, d)] v) j = if decide (j = i) then b else used sb v j.
Proof.
  intros Hi Hj Hd. unfold used. simpl.
  pose proof (Z.div_mod i BITS_PER_BLOCK ltac:(done)). pose proof (Z.mod_pos_bound i BITS_PER_BLOCK ltac:(done)).
  pose proof (Z.div_mod j BITS_PER_BLOCK ltac:(done)). pose proof (Z.mod_pos_bound j BITS_PER_BLOCK ltac:(done)).
  unfold bmap_block, bmap_bit in *. case_decide as D.
  - rewrite Hd. assert (i / BITS_PER_BLOCK = j / BITS_PER_BLOCK) as Eq by lia. rewrite Eq.
    destruct (decide (j = i)) as [->|]; [by rewrite decide_True|]. rewrite decide_False; [done|].
    intros Heq. apply Z2Nat.inj in Heq; lia.
  - rewrite decide_False; [done|]. by intros ->.
Qed.

Lemma bmap_bit_lt i : (bmap_bit i < 4096)%nat.
Proof.
  unfold bmap_bit. pose proof (Z.mod_pos_bound i BITS_PER_BLOCK ltac:(done)). unfold BITS_PER_BLOCK in *. lia.
Qed.

Lemma used_ext sb v v' j : v (bmap_block sb j) = v' (bmap_block sb j) -> used sb v j = used sb v' j.
Proof. unfold used. by intros ->. Qed.

Lemma balloc_writes_used sb v i j :
  layout sb -> is_data sb i -> is_data sb j -> block_ok (v (bmap_block sb i)) ->
  used sb (over (balloc_writes sb v i) v) j = if decide (j = i) then true else used sb v j.
Proof.
  intros Hla Hi Hj [Hl _]. rewrite <- (used_over sb v i j (mark_bit (v (bmap_block sb i)) (bmap_bit i)) true).
  - apply used_ext. unfold balloc_writes. simpl.
    rewrite (decide_False (P := bmap_block sb j = data_block sb i)); [done|]. apply not_eq_sym. by apply data_not_bmap.
  - apply Hi.
  - apply Hj.
  - intros bit'. apply mark_bit_spec; [done|apply bmap_bit_lt].
Qed.

(** [bfree] of a block in use. *)
Lemma bfree_used sb i s :
  layout sb -> search_ok sb s -> is_data sb i -> cap s 1 -> used sb (view (bs s)) i = true ->
  exists s', bfree sb (data_block sb i) s = Ok (tt, s') /\
    logged [(bmap_block sb i, clear_bit (view (bs s) (bmap_block sb i)) (bmap_bit i))] s s' /\
    held (bs s') = held (bs s).
Proof.
  intros Hla Hs Hi Hc Hu. pose proof (so_bmap _ _ Hs _ Hi) as Hh.
  pose proof (bmap_block_loggable sb Hla i Hi) as Hl.
  assert (u32 (data_block sb i - sb_bdata_start sb) = i) as E0.
  { unfold data_block. replace (sb_bdata_start sb + i - sb_bdata_start sb) with i by lia.
    apply u32_small. pose proof (u32_range (sb_bmap_bytes sb * 8)). unfold is_data, bmap_bits in Hi. ulia. }
  destruct (tx_read s (bmap_block sb i) (so_tx _ _ Hs) Hh (so_held _ _ Hs)) as (s1 & E1 & L1 & H1).
  destruct (tx_update_release s1 (bmap_block sb i)
    (clear_bit (view (bs s) (bmap_block sb i)) (bmap_bit i)) (lw_tx _ _ _ L1)) as (s2 & E2 & L2 & H2).
  { rewrite H1. set_solver. }
  { destruct (lw_log _ _ _ L1) as [-> _]. by rewrite (so_start _ _ Hs). }
  { apply clear_bit_ok, (t_block _ (so_tx _ _ Hs)). }
  { eapply logged_cap; [exact L1|exact Hc|simpl; lia]. }
  exists s2. split; [|split].
  - unfold bfree. cbv zeta. rewrite E0. fold (bmap_bit i). change (sb_bmap_start sb + i / BITS_PER_BLOCK) with (bmap_block sb i).
    rewrite (u32_small _ (proj1 Hl)). rewrite (bind_Ok _ _ _ _ _ E1). unfold used in Hu. rewrite Hu. exact E2.
  - change (logged ([] ++ [(bmap_block sb i, clear_bit (view (bs s) (bmap_block sb i)) (bmap_bit i))]) s s2).
    by eapply logged_app.
  - rewrite H2, H1. set_solver.
Qed.

(** A second [bfree] stops at the assertion. *)
Lemma bfree_unused sb i s :
  layout sb -> search_ok sb s -> is_data sb i -> used sb (view (bs s)) i = false ->
  bfree sb (data_block sb i) s = Panic.
Proof.
  intros Hla Hs Hi Hu. pose proof (so_bmap _ _ Hs _ Hi) as Hh.
  pose proof (bmap_block_loggable sb Hla i Hi) as Hl.
  assert (u32 (data_block sb i - sb_bdata_start sb) = i) as E0.
  { unfold data_block. replace (sb_bdata_start sb + i - sb_bdata_start sb) with i by lia.
    apply u32_small. pose proof (u32_range (sb_bmap_bytes sb * 8)). unfold is_data, bmap_bits in Hi. ulia. }
  destruct (tx_read s (bmap_block sb i) (so_tx _ _ Hs) Hh (so_held _ _ Hs)) as (s1 & E1 & L1 & H1).
  unfold bfree. cbv zeta. rewrite E0. fold (bmap_bit i). change (sb_bmap_start sb + i / BITS_PER_BLOCK) with (bmap_block sb i).
  rewrite (u32_small _ (proj1 Hl)). rewrite (bind_Ok _ _ _ _ _ E1). unfold used in Hu. by rewrite Hu.
Qed.

(** *** Theorems *)

Lemma balloc_found sb i s :
  layout sb -> search_ok sb s -> is_data sb i -> cap s 2 ->
  used sb (view (bs s)) i = false -> (forall j, 0 <= j < i -> used sb (view (bs s)) j = true) ->
  exists s', balloc sb s = Ok (data_block sb i, s') /\
    logged (balloc_writes sb (view (bs s)) i) s s' /\ held (bs s') = held (bs s).
Proof.
  intros Hla Hs Hi Hc Hu Hlt.
  destruct (balloc_loop_found sb i Hla Hi (bmap_fuel sb) 0 s) as (s' & E & L & H); try done.
  - split; [lia|]. apply Z.div_pos; [apply Hi|done].
  - unfold bmap_fuel. assert (i / BITS_PER_BLOCK <= bmap_bits sb / BITS_PER_BLOCK).
    { apply Z.div_le_mono; [done|]. unfold is_data in Hi. lia. }
    assert (0 <= i / BITS_PER_BLOCK) by (apply Z.div_pos; [apply Hi|done]). lia.
  - exists s'. split; [|done]. unfold balloc. rewrite <- E. f_equal; lia.
Qed.

(** A free block is the data block with the least number among the free ones. *)
Lemma first_free sb v n : (exists i, 0 <= i < Z.of_nat n /\ used sb v i = false) ->
  exists i, 0 <= i < Z.of_nat n /\ used sb v i = false /\ forall j, 0 <= j < i -> used sb v j = true.
Proof.
  induction n as [|n IH]; intros (i & Hi & Hu); [lia|].
  destruct (decide (Exists (fun j => used sb v (Z.of_nat j) = false) (seq 0 n))) as [He|He].
  - destruct IH as (k & Hk & Hx); [|exists k; split; [lia|done]].
    apply Exists_exists in He as (j & Hj & Hx). apply elem_of_seq in Hj. exists (Z.of_nat j).
    split; [lia|done].
  - assert (forall j, 0 <= j < Z.of_nat n -> used sb v j = true) as Hall.
    { intros j Hj. destruct (used sb v j) eqn:E; [done|]. exfalso. apply He, Exists_exists.
      exists (Z.to_nat j). split; [apply elem_of_seq; lia|]. by rewrite Z2Nat.id by lia. }
    exists i. split; [done|]. split; [done|]. intros j Hj. apply Hall. lia.
Qed.

(** C10: the block allocator.  With a free data block left, [balloc] returns the
    first one, [i]: afterwards its contents are zero, exactly the bit [i] of the
    allocation map has changed, no block but it and its bitmap block has changed,
    nothing was sent to the drive, and the transaction is intact.  With none left it
    stops the machine. *)
Theorem balloc_contract sb s :
  layout sb -> search_ok sb s -> cap s 2 ->
  (exists i s', is_data sb i /\ used sb (view (bs s)) i = false /\
     (forall j, 0 <= j < i -> used sb (view (bs s)) j = true) /\
     balloc sb s = Ok (data_block sb i, s') /\ tx s' /\ held (bs s') = held (bs s) /\
     disk (bs s') = disk (bs s) /\ view (bs s') (data_block sb i) = zero_block /\
     (forall j, is_data sb j -> used sb (view (bs s')) j = if decide (j = i) then true else used sb (view (bs s)) j) /\
     (forall x, x <> data_block sb i -> x <> bmap_block sb i -> view (bs s') x = view (bs s) x))
  \/ ((forall i, is_data sb i -> used sb (view (bs s)) i = true) /\ balloc sb s = Panic).
Proof.
  intros Hla Hs Hc.
  destruct (decide (Exists (fun j => used sb (view (bs s)) (Z.of_nat j) = false) (seq 0 (Z.to_nat (bmap_bits sb)))))
    as [He|He].
  - left. apply Exists_exists in He as (j & Hj & Hx). apply elem_of_seq in Hj.
    destruct (first_free sb (view (bs s)) (Z.to_nat (bmap_bits sb))) as (i & Hi & Hu & Hlt).
    { exists (Z.of_nat j). split; [lia|done]. }
    assert (is_data sb i) as Hd by (unfold is_data; lia).
    destruct (balloc_found sb i s Hla Hs Hd Hc Hu Hlt) as (s' & E & L & H).
    exists i, s'. split_and!; try done; try apply L.
    + rewrite (lw_view _ _ _ L). simpl. by rewrite decide_True.
    + intros k Hk. rewrite <- (balloc_writes_used sb (view (bs s)) i k Hla Hd Hk) by apply (t_block _ (so_tx _ _ Hs)).
      apply used_ext, L.
    + intros x Hx1 Hx2. rewrite (lw_view _ _ _ L). simpl. by rewrite !decide_False.
  - right. assert (forall i, is_data sb i -> used sb (view (bs s)) i = true) as Hall.
    { intros i Hi. destruct (used sb (view (bs s)) i) eqn:E; [done|]. exfalso. apply He, Exists_exists.
      unfold is_data in Hi. exists (Z.to_nat i). split; [apply elem_of_seq; lia|]. by rewrite Z2Nat.id by lia. }
    split; [done|]. unfold balloc.
    assert (0 <= bmap_bits sb / BITS_PER_BLOCK) by (apply Z.div_pos; [apply u32_range|done]).
    rewrite <- (balloc_loop_full sb Hla (bmap_fuel sb) 0 s Hs); [|lia|done|unfold bmap_fuel; lia].
    pose proof (u32_range (sb_bmap_bytes sb * 8)) as [Hnn _]. fold (bmap_bits sb) in Hnn. f_equal; lia.
Qed.

(** [bfree] undoes [balloc]: freeing the block just allocated succeeds and gives
    back the allocation map of before, and freeing it once more stops the machine. *)
Theorem balloc_bfree_roundtrip sb i s :
  layout sb -> search_ok sb s -> is_data sb i -> cap s 3 ->
  used sb (view (bs s)) i = false -> (forall j, 0 <= j < i -> used sb (view (bs s)) j = true) ->
  exists s1 s2, balloc sb s = Ok (data_block sb i, s1) /\ bfree sb (data_block sb i) s1 = Ok (tt, s2) /\
    (forall j, is_data sb j -> used sb (view (bs s2)) j = used sb (view (bs s)) j) /\
    bfree sb (data_block sb i) s2 = Panic.
Proof.
  intros Hla Hs Hi Hc Hu Hlt.
  destruct (balloc_found sb i s Hla Hs Hi) as (s1 & E1 & L1 & H1); [apply (cap_le s 3); [done|lia]|done..|].
  assert (forall j, is_data sb j -> used sb (view (bs s1)) j = if decide (j = i) then true else used sb (view (bs s)) j) as U1.
  { intros j Hj. rewrite <- (balloc_writes_used sb (view (bs s)) i j Hla Hi Hj) by apply (t_block _ (so_tx _ _ Hs)).
    apply used_ext, L1. }
  assert (search_ok sb s1) as Hs1.
  { destruct Hs as [S1 S2 S3 S4 S5]. split; rewrite ?H1; try done; [apply L1|by rewrite (proj1 (lw_log _ _ _ L1))|].
    intros j Hj Huj. rewrite U1 in Huj by done. apply S5; [done|]. by case_decide. }
  destruct (bfree_used sb i s1 Hla Hs1 Hi) as (s2 & E2 & L2 & H2).
  { eapply logged_cap; [exact L1|exact Hc|simpl; lia]. }
  { rewrite U1 by done. by rewrite decide_True. }
  assert (forall j, is_data sb j -> used sb (view (bs s2)) j = used sb (view (bs s)) j) as U2.
  { intros j Hj. rewrite (used_ext _ _ _ _ (lw_view _ _ _ L2 _)).
    rewrite (used_over sb _ i j _ false); [|apply Hi|apply Hj|].
    - case_decide; [by subst|]. rewrite U1 by done. by rewrite decide_False.
    - intros b. apply clear_bit_spec; [apply (t_block _ (so_tx _ _ Hs1))|apply bmap_bit_lt]. }
  exists s1, s2. split_and!; [done..|]. apply bfree_unused; [done| |done|by rewrite U2].
  destruct Hs1 as [S1 S2 S3 S4 S5]. split; rewrite ?H2; try done; [apply L2|by rewrite (proj1 (lw_log _ _ _ L2))|].
  intros j Hj Huj. destruct Hs as [T1 T2 T3 T4 T5]. rewrite H1. apply T5; [done|]. by rewrite <- U2.
Qed.

(** *** A small drive *)

Definition demo_sb : superblock := Superblock 0xF2E3EACF 60 16 7 2 31 5 37 2 39.

Definition demo_fss : fss :=
  Fss (mount ∅) (MkLog 5 1 false 0 (replicate 30 0) (Semaphore.sem_init 0)).

Lemma demo_layout : layout demo_sb.
Proof.
  split; unfold start_ok, LOG_SIZE, MAX_OPEN_BLOCKS, INODES_PER_BLOCK, BITS_PER_BLOCK; simpl;
    Z.div_mod_to_equations; lia.
Qed.

Lemma demo_tx : tx demo_fss.
Proof.
  split; simpl; try done.
  - split; simpl; try done; try constructor; unfold start_ok, LOG_SIZE, MAX_OPEN_BLOCKS; lia.
  - unfold MAXHELD. vm_compute. lia.
  - intros x. apply zero_block_ok.
  - apply zero_hdr_ok.
Qed.

Lemma demo_search_ok : search_ok demo_sb demo_fss.
Proof.
  split; [apply demo_tx|done|unfold MAXHELD; vm_compute; lia|by intros; apply not_elem_of_empty..].
Qed.

Lemma balloc_contract_witness :
  exists i s', is_data demo_sb i /\ balloc demo_sb demo_fss = Ok (data_block demo_sb i, s') /\
    view (bs s') (data_block demo_sb i) = zero_block.
Proof.
  destruct (balloc_contract demo_sb demo_fss) as [(i & s' & H1 & _ & _ & H2 & _ & _ & _ & H3 & _)|[H _]];
    [apply demo_layout|apply demo_search_ok|unfold cap, LOG_SIZE, MAX_OPEN_BLOCKS; simpl; lia| |].
  - eauto.
  - specialize (H 0). exfalso. assert (is_data demo_sb 0) as Hd by (vm_compute; split; congruence).
    specialize (H Hd). vm_compute in H. discriminate H.
Defined.

Lemma balloc_bfree_roundtrip_witness :
  exists s1 s2, balloc demo_sb demo_fss = Ok (39, s1) /\ bfree demo_sb 39 s1 = Ok (tt, s2) /\
    bfree demo_sb 39 s2 = Panic.
Proof.
  destruct (balloc_bfree_roundtrip demo_sb 0 demo_fss) as (s1 & s2 & H1 & H2 & _ & H3);
    [apply demo_layout|apply demo_search_ok|vm_compute; split; congruence
    |unfold cap, LOG_SIZE, MAX_OPEN_BLOCKS; simpl; lia|by vm_compute|lia|].
  exists s1, s2. done.
Defined.
End BAlloc.
