(* ===== verification/Inode.v ===== *)
(** Inodes: src/fs/inode.c and src/include/fs/inodes.h, with [get_free_inodes] of
    src/fs/fs.c.

    The in-memory inodes are the entries of [icache]; a [struct inode *] is the
    position of one.  The contents of a file are reached through [bmap]: eleven
    direct blocks and one block of 128 block numbers.  The theorems say what
    [inode_read] and [inode_write] do to the bytes of a file, and that [bmap]
    changes no byte when it extends it. *)

From stdpp Require Import base numbers list gmap.
From Stdlib Require Import ZArith Lia.
From S2P Require Import Prelude Semaphore BlockIO Log BAlloc.
#[local] Open Scope Z_scope.

Module Inode.
Import Semaphore BlockIO Log BAlloc.

(** Constants of src/include/fs/inodes.h. *)
Definition NDIRECT_DATA_BLOCKS : Z := 11.

Definition NINDIRECT_DATA_BLOCKS : Z := 128.

Definition MAX_DATA_BLOCKS : Z := NDIRECT_DATA_BLOCKS + NINDIRECT_DATA_BLOCKS.

Definition ROOT_INUM : Z := 1.

Definition NINODES : Z := 50.

(** [enum inode_type]; a drive may hold any number. *)
Definition INODE_NONE : Z := 0.

Definition INODE_FILE : Z := 1.

Definition INODE_DIRECTORY : Z := 2.

Definition INODE_DEVICE : Z := 3.

Definition BSIZE : Z := 512.

(** [struct dinode]: 17 words on the drive. *)
Record dinode := Dinode {
  type : Z;
  nlink : Z;
  dsize : Z;
  major : Z;
  minor : Z;
  addrs : list Z;
}.

(** [struct inode], without the drive it is on: there is one. *)
Record inode := MkInode {
  inum : Z;
  ref : Z;
  isem : semaphore;
  valid : bool;
  disk_inode : dinode;
}.

Record ist := Ist {
  fl : fss;                 (* blocks and log *)
  icache : list inode;      (* NINODES + 1 entries, the last one unused *)
  curtask : Z;              (* get_current_task() *)
}.

#[global] Instance Part_fl : Part ist fss :=
  {| part := fl; set_part := fun f s => Ist f (icache s) (curtask s) |}.

(** An operation of the buffer cache. *)
Definition bio {A} (m : M bstore A) : M ist A := lift (lift m : M fss A).

(** Device drivers: the functions in [devio], by the major number. *)
Class Devices := {
  dev_read : Z -> option (Z -> Z -> M ist (Z * list Z));   (* ip, n *)
  dev_write : Z -> option (Z -> list Z -> M ist Z);        (* ip, the n bytes *)
}.

Definition NDEVICE : Z := 1.

(** *** The inode blocks *)

Definition DINODE_WORDS : nat := 17.

(** [GET_INODE_BLOCK_NO(i, sb)]. *)
Definition GET_INODE_BLOCK_NO (i : Z) (sb : superblock) : Z :=
  u32 (sb_inode_start sb + i / INODES_PER_BLOCK).

(** [(struct dinode * ) buf->data + slot], read and written. *)
Definition dinode_words (di : dinode) : list Z :=
  [type di; nlink di; dsize di; u32 (major di); u32 (minor di)] ++ addrs di.

Definition words_dinode (w : list Z) : dinode :=
  Dinode (w !!! 0%nat) (w !!! 1%nat) (w !!! 2%nat) (i32 (w !!! 3%nat)) (i32 (w !!! 4%nat)) (drop 5 w).

Definition get_dinode (data : block) (slot : nat) : dinode :=
  words_dinode (map (fun j => get32 data (DINODE_WORDS * slot + j)) (seq 0 DINODE_WORDS)).

Definition put_dinode (data : block) (slot : nat) (di : dinode) : block :=
  splice (4 * (DINODE_WORDS * slot)) (concat (map enc32 (dinode_words di))) data.

Definition slot_of (i : Z) : nat := Z.to_nat (i mod INODES_PER_BLOCK).

(** *** Access to the cache *)

Definition get_inode (ip : Z) : M ist inode :=
  s ← get; index (icache s) ip.

Definition set_inode (ip : Z) (i : inode) : M ist unit :=
  modify (fun s => Ist (fl s) (<[Z.to_nat ip := i]> (icache s)) (curtask s)).

Definition set_ref (r : Z) (i : inode) : inode := MkInode (inum i) r (isem i) (valid i) (disk_inode i).

Definition set_isem (w : semaphore) (i : inode) : inode := MkInode (inum i) (ref i) w (valid i) (disk_inode i).

Definition set_valid (v : bool) (i : inode) : inode := MkInode (inum i) (ref i) (isem i) v (disk_inode i).

Definition set_dinode (d : dinode) (i : inode) : inode := MkInode (inum i) (ref i) (isem i) (valid i) d.

Definition upd_inode (ip : Z) (f : inode -> inode) : M ist unit :=
  i ← get_inode ip; set_inode ip (f i).

Definition upd_dinode (ip : Z) (f : dinode -> dinode) : M ist unit :=
  upd_inode ip (fun i => set_dinode (f (disk_inode i)) i).

Definition set_addr (n : Z) (a : Z) (d : dinode) : dinode :=
  Dinode (type d) (nlink d) (dsize d) (major d) (minor d) (<[Z.to_nat n := a]> (addrs d)).

Definition set_dsize (n : Z) (d : dinode) : dinode :=
  Dinode (type d) (nlink d) n (major d) (minor d) (addrs d).

Definition set_type (t : Z) (d : dinode) : dinode :=
  Dinode t (nlink d) (dsize d) (major d) (minor d) (addrs d).

Definition set_nlink (n : Z) (d : dinode) : dinode :=
  Dinode (type d) n (dsize d) (major d) (minor d) (addrs d).

(** [sem_wait(&ip->sem)] and [sem_signal(&ip->sem)]; a task that would wait does not
    come back in the execution of one task modelled here. *)
Definition isem_wait (ip : Z) : M ist unit :=
  s ← get;
  i ← get_inode ip;
  match sem_wait (curtask s) (isem i) with
  | Acquired w => set_inode ip (set_isem w i)
  | Blocks _ => hang
  end.

Definition isem_signal (ip : Z) : M ist unit :=
  i ← get_inode ip;
  match sem_signal all_blocked (isem i) with
  | Ok (_, w) => set_inode ip (set_isem w i)
  | Panic => panic
  | Hang => hang
  end.

(** *** The operations *)

Definition inodes_init : M ist unit :=
  modify (fun s => Ist (fl s)
    (imap (fun k i => if Z.of_nat k <? NINODES
       then MkInode 0 0 (sem_init 1) false (set_type INODE_NONE (disk_inode i)) else i) (icache s))
    (curtask s)).

(** The scan of [iget]: an entry in use for [i], or the first free one seen. *)
Fixpoint iget_scan (n : nat) (ip : Z) (l : list inode) (i : Z) (empty : option Z) : Z + option Z :=
  match n, l with
  | S n, e :: l =>
      if (0 <? ref e) && (inum e =? i) then inl ip
      else iget_scan n (ip + 1) l i
             (match empty with
              | None => if ref e =? 0 then Some ip else None
              | Some _ => empty
              end)
  | _, _ => inr empty
  end.

Definition iget (i : Z) : M ist Z :=
  s ← get;
  match iget_scan (Z.to_nat NINODES) 0 (icache s) i None with
  | inl ip => upd_inode ip (fun e => set_ref (ref e + 1) e);; mret ip
  | inr (Some ip) =>
      upd_inode ip (fun e => MkInode i 1 (isem e) false (disk_inode e));; mret ip
  | inr None => panic
  end.

Definition inode_update (sb : superblock) (ip : Z) : M ist unit :=
  i ← get_inode ip;
  let b := GET_INODE_BLOCK_NO (inum i) sb in
  data ← bio (buf_read b);
  bio (buf_store b (put_dinode data (slot_of (inum i)) (disk_inode i)));;
  lift (log_write b);;
  bio (buf_release b).

(** The loop of [itruncate] over the numbers in the indirect block; the block is
    locked, so its new contents are passed along. *)
Fixpoint free_indirect (sb : superblock) (n i : nat) (data : block) : M ist block :=
  match n with
  | O => mret data
  | S n =>
      if get32 data i =? 0 then free_indirect sb n (S i) data
      else lift (bfree sb (get32 data i));; free_indirect sb n (S i) (set32 data i 0)
  end.

Definition itruncate (sb : superblock) (ip : Z) : M ist unit :=
  for_loop (Z.to_nat NDIRECT_DATA_BLOCKS) 0 (fun k =>
    i ← get_inode ip;
    a ← index (addrs (disk_inode i)) (Z.of_nat k);
    if a =? 0 then mret tt
    else lift (bfree sb a);; upd_dinode ip (set_addr (Z.of_nat k) 0));;
  i ← get_inode ip;
  a ← index (addrs (disk_inode i)) NDIRECT_DATA_BLOCKS;
  (if a =? 0 then mret tt
   else
     data ← bio (buf_read a);
     data' ← free_indirect sb (Z.to_nat NINDIRECT_DATA_BLOCKS) 0 data;
     bio (buf_store a data');;
     lift (log_write a);;
     bio (buf_release a);;
     lift (bfree sb a));;
  upd_dinode ip (set_dsize 0);;
  inode_update sb ip.

Definition bmap (sb : superblock) (ip : Z) (bn : Z) : M ist Z :=
  ASSERT (bn <? MAX_DATA_BLOCKS);;
  i ← get_inode ip;
  if bn <? NDIRECT_DATA_BLOCKS then
    addr ← index (addrs (disk_inode i)) bn;
    if addr =? 0 then
      addr ← lift (balloc sb);
      upd_dinode ip (set_addr bn addr);;
      mret addr
    else mret addr
  else
    let bn := bn - NDIRECT_DATA_BLOCKS in
    a ← index (addrs (disk_inode i)) NDIRECT_DATA_BLOCKS;
    ind ← (if a =? 0 then
             n ← lift (balloc sb);
             upd_dinode ip (set_addr NDIRECT_DATA_BLOCKS n);;
             mret n
           else mret a);
    data ← bio (buf_read ind);
    let addr := get32 data (Z.to_nat bn) in
    if addr =? 0 then
      addr ← lift (balloc sb);
      bio (buf_store ind (set32 data (Z.to_nat bn) addr));;
      lift (log_write ind);;
      bio (buf_release ind);;
      mret addr
    else
      bio (buf_release ind);;
      mret addr.

(** [for (inum = 1; inum < sb->ninodes; inum++)] of [inode_alloc]. *)
Fixpoint inode_alloc_loop (n : nat) (sb : superblock) (i : Z) (typ : Z) : M ist Z :=
  match n with
  | O => panic
  | S n =>
      let b := GET_INODE_BLOCK_NO i sb in
      data ← bio (buf_read b);
      if type (get_dinode data (slot_of i)) =? INODE_NONE then
        bio (buf_store b (put_dinode data (slot_of i)
          (Dinode typ 0 0 0 0 (replicate 12 0))));;
        lift (log_write b);;
        bio (buf_release b);;
        iget i
      else
        bio (buf_release b);;
        inode_alloc_loop n sb (i + 1) typ
  end.

Definition inode_alloc (sb : superblock) (typ : Z) : M ist Z :=
  inode_alloc_loop (Z.to_nat (sb_ninodes sb) - 1) sb 1 typ.

Definition inode_dup (ip : Z) : M ist Z :=
  upd_inode ip (fun i => set_ref (ref i + 1) i);; mret ip.

Definition inode_lock (sb : superblock) (ip : Z) : M ist unit :=
  i ← get_inode ip;
  ASSERT (1 <=? ref i);;
  isem_wait ip;;
  i ← get_inode ip;
  if valid i then mret tt
  else
    let b := GET_INODE_BLOCK_NO (inum i) sb in
    data ← bio (buf_read b);
    let di := get_dinode data (slot_of (inum i)) in
    ASSERT (negb (type di =? INODE_NONE));;
    upd_inode ip (fun i => set_valid true (set_dinode di i));;
    bio (buf_release b).

Definition inode_holding (ip : Z) : M ist bool :=
  s ← get; i ← get_inode ip; mret (sem_holding (curtask s) (isem i)).

Definition inode_unlock (ip : Z) : M ist unit :=
  h ← inode_holding ip;
  i ← get_inode ip;
  ASSERT (h && (1 <=? ref i));;
  isem_signal ip.

Definition inode_put (sb : superblock) (ip : Z) : M ist unit :=
  i ← get_inode ip;
  ASSERT (1 <=? ref i);;
  isem_wait ip;;
  i ← get_inode ip;
  (if valid i && (nlink (disk_inode i) =? 0) && (ref i =? 1) then
     itruncate sb ip;;
     upd_dinode ip (set_type INODE_NONE);;
     inode_update sb ip;;
     upd_inode ip (set_valid false)
   else mret tt);;
  isem_signal ip;;
  upd_inode ip (fun i => set_ref (ref i - 1) i).

Definition inode_unlockput (sb : superblock) (ip : Z) : M ist unit :=
  inode_unlock ip;; inode_put sb ip.

(** Bytes moved in a turn at [offset] with [left] bytes to go. *)
Definition chunk (offset left : Z) : Z :=
  let m := BSIZE - offset mod BSIZE in if left <? m then left else m.

Fixpoint inode_read_loop (fuel : nat) (sb : superblock) (ip offset left : Z) (acc : list Z)
    : M ist (list Z) :=
  match fuel with
  | O => hang
  | S fuel =>
      if 0 <? left then
        db_addr ← bmap sb ip (offset / BSIZE);
        data ← bio (buf_read db_addr);
        let m := chunk offset left in
        bio (buf_release db_addr);;
        inode_read_loop fuel sb ip (offset + m) (left - m)
          (acc ++ slice (Z.to_nat (offset mod BSIZE)) (Z.to_nat m) data)
      else mret acc
  end.

(** Turns of the loop over [n] bytes. *)
Definition rw_fuel (n : Z) : nat := Z.to_nat (n / BSIZE) + 3.

(** The result and the bytes stored at [dst]. *)
Definition inode_read `{Devices} (sb : superblock) (ip offset n : Z) : M ist (Z * list Z) :=
  i ← get_inode ip;
  let dp := disk_inode i in
  if type dp =? INODE_DEVICE then
    ASSERT ((1 <=? major dp) && (major dp <=? NDEVICE));;
    match dev_read (major dp) with
    | None => mret (-1, [])
    | Some f => f ip n
    end
  else if (dsize dp <? offset) || (u32 (offset + n) <? offset) then mret (-1, [])
  else
    let n := if dsize dp <? u32 (offset + n) then dsize dp - offset else n in
    l ← inode_read_loop (rw_fuel n) sb ip offset n [];
    mret (i32 n, l).

Fixpoint inode_write_loop (fuel : nat) (sb : superblock) (ip offset : Z) (src : list Z) : M ist Z :=
  match fuel with
  | O => hang
  | S fuel =>
      if 0 <? Z.of_nat (length src) then
        db_addr ← bmap sb ip (offset / BSIZE);
        data ← bio (buf_read db_addr);
        let m := chunk offset (Z.of_nat (length src)) in
        bio (buf_store db_addr
          (splice (Z.to_nat (offset mod BSIZE)) (take (Z.to_nat m) src) data));;
        lift (log_write db_addr);;
        bio (buf_release db_addr);;
        inode_write_loop fuel sb ip (offset + m) (drop (Z.to_nat m) src)
      else mret offset
  end.

(** [src] holds the [n] bytes to write. *)
Definition inode_write `{Devices} (sb : superblock) (ip : Z) (src : list Z) (offset : Z) : M ist Z :=
  let n := Z.of_nat (length src) in
  i ← get_inode ip;
  let dp := disk_inode i in
  if type dp =? INODE_DEVICE then
    ASSERT ((1 <=? major dp) && (major dp <=? NDEVICE));;
    match dev_write (major dp) with
    | None => mret (-1)
    | Some f => f ip src
    end
  else if (dsize dp <? offset) || (u32 (offset + n) <? offset) then mret (-1)
  else if MAX_DATA_BLOCKS * BSIZE <? u32 (offset + n) then mret (-1)
  else
    offset ← inode_write_loop (rw_fuel n) sb ip offset src;
    i ← get_inode ip;
    (if (0 <? n) && (dsize (disk_inode i) <? offset) then
       upd_dinode ip (set_dsize offset);;
       inode_update sb ip
     else mret tt);;
    mret (i32 n).

(** [struct stat] and [inode_stat]: [st_nlink] and [st_type] are shorts. *)
Record stat := Stat { st_type : Z; st_ino : Z; st_size : Z; st_nlink : Z }.

Definition i16 (x : Z) : Z := (x + 2 ^ 15) mod 2 ^ 16 - 2 ^ 15.

Definition inode_stat (ip : Z) : M ist stat :=
  i ← get_inode ip;
  let d := disk_inode i in
  mret (Stat (i16 (type d)) (inum i) (dsize d) (i16 (nlink d))).

(** [get_free_inodes] of src/fs/fs.c. *)
Fixpoint free_inodes_loop (n : nat) (sb : superblock) (i : Z) (free : Z) : M ist Z :=
  match n with
  | O => mret free
  | S n =>
      let b := GET_INODE_BLOCK_NO i sb in
      data ← bio (buf_read b);
      bio (buf_release b);;
      free_inodes_loop n sb (i + 1)
        (if type (get_dinode data (slot_of i)) =? INODE_NONE then free + 1 else free)
  end.

Definition get_free_inodes (sb : superblock) : M ist Z :=
  free_inodes_loop (Z.to_nat (sb_ninodes sb) - 1) sb 1 0.

(** ** The blocks of a file

    A file has 140 slots for block numbers: 0 to 10 are the direct blocks, 11 the
    indirect block, 12 to 139 the numbers in the indirect block. *)

Definition NSLOTS : nat := 140.

Definition slot (v : Z -> block) (d : dinode) (k : nat) : Z :=
  if (k <? 12)%nat then addrs d !!! k
  else let a := addrs d !!! 11%nat in if a =? 0 then 0 else get32 (v a) (k - 12).

(** The slot of the block [bn] of a file. *)
Definition bslot (bn : Z) : nat :=
  if bn <? NDIRECT_DATA_BLOCKS then Z.to_nat bn else S (Z.to_nat bn).

(** The contents of the block [bn] of a file; a block that is not there is zero. *)
Definition fblock (v : Z -> block) (d : dinode) (bn : Z) : block :=
  let a := slot v d (bslot bn) in if a =? 0 then zero_block else v a.

(** The blocks of a file are allocated data blocks, all different. *)
Record file_wf (sb : superblock) (v : Z -> block) (d : dinode) : Prop := {
  fw_len : length (addrs d) = 12%nat;
  fw_data : forall k, (k < NSLOTS)%nat -> slot v d k <> 0 ->
    exists i, is_data sb i /\ used sb v i = true /\ slot v d k = data_block sb i;
  fw_inj : forall k k', (k < NSLOTS)%nat -> (k' < NSLOTS)%nat -> slot v d k <> 0 ->
    slot v d k = slot v d k' -> k = k';
}.

Lemma bslot_lt bn : 0 <= bn < MAX_DATA_BLOCKS -> (bslot bn < NSLOTS)%nat /\ bslot bn <> 11%nat.
Proof.
  unfold bslot, NSLOTS, MAX_DATA_BLOCKS, NDIRECT_DATA_BLOCKS, NINDIRECT_DATA_BLOCKS. intros H.
  destruct (Z.ltb_spec bn 11); lia.
Qed.

Lemma bslot_inj bn bn' : 0 <= bn -> 0 <= bn' -> bslot bn = bslot bn' -> bn = bn'.
Proof.
  unfold bslot, NDIRECT_DATA_BLOCKS. intros H H'.
  destruct (Z.ltb_spec bn 11), (Z.ltb_spec bn' 11); lia.
Qed.

Lemma get32_zero k : get32 zero_block k = 0.
Proof.
  unfold get32, zero_block, slice. rewrite drop_replicate, take_replicate.
  destruct ((4 `min` (BLOCK_SIZE - 4 * k))%nat) as [|[|[|[|[|n]]]]]; done.
Qed.

(** A fresh block put into an empty slot: the other slots and the bytes of the file
    are as before. *)
Lemma extend_wf sb v d v' d' k0 a :
  file_wf sb v d -> (k0 < NSLOTS)%nat -> slot v d k0 = 0 -> a <> 0 ->
  length (addrs d') = 12%nat ->
  (forall k, (k < NSLOTS)%nat -> slot v d k <> a) ->
  (exists i, is_data sb i /\ used sb v' i = true /\ a = data_block sb i) ->
  (forall i, is_data sb i -> used sb v i = true -> used sb v' i = true) ->
  (forall k, (k < NSLOTS)%nat -> slot v' d' k = if decide (k = k0) then a else slot v d k) ->
  file_wf sb v' d'.
Proof.
  intros [W1 W2 W3] Hk Hz Ha Hl Hf Hda Hmono Hs. split; [done| |].
  - intros k Hk'. rewrite Hs by done. case_decide as D; [done|]. intros Hn.
    destruct (W2 k Hk' Hn) as (i & H1 & H2 & H3). exists i. auto.
  - intros k k' Hk1 Hk2. rewrite !Hs by done. repeat case_decide; subst; try done.
    + intros _ Heq. symmetry in Heq. by apply Hf in Heq.
    + intros _ Heq. by apply Hf in Heq.
    + by apply W3.
Qed.

Lemma extend_fblock v d v' d' k0 a bn :
  0 <= bn < MAX_DATA_BLOCKS -> (k0 < NSLOTS)%nat -> slot v d k0 = 0 -> a <> 0 ->
  (forall k, (k < NSLOTS)%nat -> slot v' d' k = if decide (k = k0) then a else slot v d k) ->
  (k0 <> 11%nat -> v' a = zero_block) ->
  (forall k, (k < NSLOTS)%nat -> k <> 11%nat -> slot v d k <> 0 -> v' (slot v d k) = v (slot v d k)) ->
  fblock v' d' bn = fblock v d bn.
Proof.
  intros Hbn Hk Hz Ha Hs Hzero Hsame. destruct (bslot_lt bn Hbn) as [Hb Hb11].
  unfold fblock. cbv zeta. rewrite Hs by done. case_decide as D.
  - rewrite D, Hz. rewrite (proj2 (Z.eqb_neq a 0)) by done. simpl. apply Hzero. congruence.
  - destruct (Z.eqb_spec (slot v d (bslot bn)) 0); [done|]. by apply Hsame.
Qed.

(** *** Free blocks *)

Definition nfree (sb : superblock) (v : Z -> block) : nat :=
  length (filter (fun i => used sb v i = false) (seqZ 0 (bmap_bits sb))).

Lemma filter_used_ext sb v v' (l : list Z) :
  (forall j, j ∈ l -> used sb v' j = used sb v j) ->
  filter (fun j => used sb v' j = false) l = filter (fun j => used sb v j = false) l.
Proof.
  induction l as [|x l IH]; intros H; [done|]. rewrite !filter_cons. rewrite (H x) by set_solver.
  rewrite IH by set_solver. done.
Qed.

Lemma filter_used_one sb v v' (l : list Z) i :
  NoDup l -> i ∈ l -> used sb v i = false ->
  (forall j, j ∈ l -> used sb v' j = if decide (j = i) then true else used sb v j) ->
  length (filter (fun j => used sb v j = false) l) =
    S (length (filter (fun j => used sb v' j = false) l)).
Proof.
  induction l as [|x l IH]; intros Hnd Hin Hu Hv; [set_solver|].
  apply NoDup_cons in Hnd as [Hx Hnd]. rewrite !filter_cons.
  assert (used sb v' x = if decide (x = i) then true else used sb v x) as Ex by (apply Hv; set_solver).
  destruct (decide (x = i)) as [->|Hne].
  - rewrite decide_True by done. rewrite Ex, decide_False by done. simpl. f_equal. f_equal.
    symmetry. apply filter_used_ext. intros j Hj.
    rewrite (Hv j) by set_solver. rewrite decide_False by set_solver. done.
  - rewrite Ex. assert (i ∈ l) as Hil by set_solver.
    specialize (IH Hnd Hil Hu ltac:(intros; apply Hv; set_solver)). case_decide; simpl; lia.
Qed.

Lemma nfree_mark sb v v' i :
  is_data sb i -> used sb v i = false ->
  (forall j, is_data sb j -> used sb v' j = if decide (j = i) then true else used sb v j) ->
  nfree sb v = S (nfree sb v').
Proof.
  intros Hi Hu Hv. apply (filter_used_one _ _ _ _ i); [apply NoDup_seqZ| |done|].
  - apply elem_of_seqZ. unfold is_data in Hi. lia.
  - intros j Hj. apply elem_of_seqZ in Hj. apply Hv. unfold is_data. lia.
Qed.

Lemma nfree_first sb v : (1 <= nfree sb v)%nat ->
  exists i, is_data sb i /\ used sb v i = false /\ forall j, 0 <= j < i -> used sb v j = true.
Proof.
  intros Hn. destruct (filter (fun i => used sb v i = false) (seqZ 0 (bmap_bits sb))) as [|x l] eqn:E.
  { unfold nfree in Hn. rewrite E in Hn. simpl in Hn. lia. }
  assert (x ∈ filter (fun i => used sb v i = false) (seqZ 0 (bmap_bits sb))) as Hx by (rewrite E; set_solver).
  apply list_elem_of_filter in Hx as [Hu Hx]. apply elem_of_seqZ in Hx.
  destruct (first_free sb v (Z.to_nat (bmap_bits sb))) as (i & Hi & Hui & Hlt).
  { exists x. split; [lia|done]. }
  exists i. split_and!; [unfold is_data; lia..|done|done].
Qed.

Lemma nfree_ext sb v v' : (forall j, is_data sb j -> used sb v' j = used sb v j) -> nfree sb v' = nfree sb v.
Proof.
  intros H. unfold nfree. f_equal. apply filter_used_ext. intros j Hj.
  apply elem_of_seqZ in Hj. apply H. unfold is_data. lia.
Qed.

(** A block that is neither in the bitmap nor a free data block. *)
Definition settled (sb : superblock) (v : Z -> block) (x : Z) : Prop :=
  (forall i, is_data sb i -> x <> bmap_block sb i) /\
  (forall i, is_data sb i -> used sb v i = false -> x <> data_block sb i).

Lemma settled_used sb v i : layout sb -> is_data sb i -> used sb v i = true -> settled sb v (data_block sb i).
Proof.
  intros Hla Hi Hu. split.
  - intros j Hj. by apply data_not_bmap.
  - intros j Hj Huj Heq. unfold data_block in Heq. assert (i = j) by lia. congruence.
Qed.

Lemma data_block_pos sb i : layout sb -> is_data sb i -> data_block sb i <> 0.
Proof.
  intros Hla Hi. destruct (data_block_loggable sb Hla i Hi) as [_ H]. destruct Hla as [L1 L2 L3 L4 L5 L6 L7].
  unfold data_block, is_data, start_ok, LOG_SIZE, MAX_OPEN_BLOCKS, BITS_PER_BLOCK in *.
  assert (0 <= sb_bmap_bytes sb * 8 / 4096) by (apply Z.div_pos; lia). lia.
Qed.

(** [balloc] as its callers see it. *)
Lemma balloc_fresh sb s :
  layout sb -> search_ok sb s -> cap s 2 -> (1 <= nfree sb (view (bs s)))%nat ->
  exists i s' ws, balloc sb s = Ok (data_block sb i, s') /\ logged ws s s' /\ length ws = 2%nat /\
    held (bs s') = held (bs s) /\ search_ok sb s' /\ is_data sb i /\ used sb (view (bs s)) i = false /\
    (forall j, is_data sb j ->
       used sb (view (bs s')) j = if decide (j = i) then true else used sb (view (bs s)) j) /\
    view (bs s') (data_block sb i) = zero_block /\
    (forall x, settled sb (view (bs s)) x -> view (bs s') x = view (bs s) x) /\
    nfree sb (view (bs s)) = S (nfree sb (view (bs s'))).
Proof.
  intros Hla Hs Hc Hn. destruct (nfree_first _ _ Hn) as (i & Hi & Hu & Hlt).
  destruct (balloc_found sb i s Hla Hs Hi Hc Hu Hlt) as (s' & E & L & H).
  assert (forall j, is_data sb j ->
    used sb (view (bs s')) j = if decide (j = i) then true else used sb (view (bs s)) j) as U.
  { intros j Hj. rewrite <- (balloc_writes_used sb (view (bs s)) i j Hla Hi Hj) by apply (t_block _ (so_tx _ _ Hs)).
    apply used_ext, L. }
  exists i, s', (balloc_writes sb (view (bs s)) i). split_and!; try done.
  - destruct Hs as [S1 S2 S3 S4 S5]. split; rewrite ?H; try done; [apply L|by rewrite (proj1 (lw_log _ _ _ L))|].
    intros j Hj Huj. rewrite U in Huj by done. apply S5; [done|]. by case_decide.
  - rewrite (lw_view _ _ _ L). simpl. by rewrite decide_True.
  - intros x [Hx1 Hx2]. rewrite (lw_view _ _ _ L). simpl. rewrite !decide_False; auto.
  - by apply (nfree_mark _ _ _ i).
Qed.

(** *** Running parts on the whole state *)

Lemma lift_fl_Ok {A} (m : M fss A) s a f :
  m (fl s) = Ok (a, f) -> lift m s = Ok (a, Ist f (icache s) (curtask s)).
Proof. intros H. unfold lift. simpl. by rewrite H. Qed.

Lemma get_inode_Ok s ip i :
  0 <= ip -> icache s !! Z.to_nat ip = Some i -> get_inode ip s = Ok (i, s).
Proof.
  intros Hp Hi. unfold get_inode, index. mrun. rewrite (proj2 (Z.ltb_ge _ _)) by lia. by rewrite Hi.
Qed.

Lemma upd_inode_Ok s ip i g :
  0 <= ip -> icache s !! Z.to_nat ip = Some i ->
  upd_inode ip g s = Ok (tt, Ist (fl s) (<[Z.to_nat ip := g i]> (icache s)) (curtask s)).
Proof. intros Hp Hi. unfold upd_inode. rewrite (bind_Ok _ _ _ _ _ (get_inode_Ok _ _ _ Hp Hi)). done. Qed.

Lemma index_total {S} (l : list Z) k (s : S) :
  0 <= k -> (Z.to_nat k < length l)%nat -> index l k s = Ok (l !!! Z.to_nat k, s).
Proof.
  intros Hk Hl. unfold index. rewrite (proj2 (Z.ltb_ge _ _)) by lia.
  destruct (l !! Z.to_nat k) as [x|] eqn:E; [|apply lookup_ge_None in E; lia].
  by rewrite (list_lookup_total_correct _ _ _ E).
Qed.

(** *** [bmap] *)

(** A file ready to be read and written by the task that holds its inode. *)
Record file_pre (sb : superblock) (ip : Z) (i : inode) (s : ist) : Prop := {
  fp_ip : 0 <= ip;
  fp_get : icache s !! Z.to_nat ip = Some i;
  fp_search : search_ok sb (fl s);
  fp_wf : file_wf sb (view (bs (fl s))) (disk_inode i);
  fp_held : forall k, (k < NSLOTS)%nat -> slot (view (bs (fl s))) (disk_inode i) k <> 0 ->
    slot (view (bs (fl s))) (disk_inode i) k ∉ held (bs (fl s));
  fp_room : (size (held (bs (fl s))) + 1 < MAXHELD)%nat;
}.

(** The rest of the inode is not touched. *)
Definition same_meta (i i' : inode) : Prop :=
  i' = set_dinode (disk_inode i') i /\ type (disk_inode i') = type (disk_inode i) /\
  nlink (disk_inode i') = nlink (disk_inode i) /\ dsize (disk_inode i') = dsize (disk_inode i) /\
  major (disk_inode i') = major (disk_inode i) /\ minor (disk_inode i') = minor (disk_inode i).

(** A settled block that is not one of the file's. *)
Definition outside (sb : superblock) (v : Z -> block) (d : dinode) (x : Z) : Prop :=
  settled sb v x /\ forall k, (k < NSLOTS)%nat -> slot v d k <> 0 -> slot v d k <> x.

(** A change of a file: at most [w] writes and [f] new blocks, the blocks of the
    file have the contents [g], and no block outside of the file changes. *)
Record fstep (sb : superblock) (ip : Z) (w f : nat) (g : Z -> block)
    (i : inode) (s : ist) (i' : inode) (s' : ist) : Prop := {
  bm_pre : file_pre sb ip i' s';
  bm_icache : icache s' = <[Z.to_nat ip := i']> (icache s) /\ curtask s' = curtask s;
  bm_meta : same_meta i i';
  bm_log : exists ws, logged ws (fl s) (fl s') /\ (length ws <= w)%nat;
  bm_held : held (bs (fl s')) = held (bs (fl s));
  bm_fblock : forall bn, 0 <= bn < MAX_DATA_BLOCKS ->
    fblock (view (bs (fl s'))) (disk_inode i') bn = g bn;
  bm_frame : forall x, outside sb (view (bs (fl s))) (disk_inode i) x ->
    outside sb (view (bs (fl s'))) (disk_inode i') x /\ view (bs (fl s')) x = view (bs (fl s)) x;
  bm_mono : forall k, (k < NSLOTS)%nat -> slot (view (bs (fl s))) (disk_inode i) k <> 0 ->
    slot (view (bs (fl s'))) (disk_inode i') k = slot (view (bs (fl s))) (disk_inode i) k;
  bm_free : (nfree sb (view (bs (fl s))) <= nfree sb (view (bs (fl s'))) + f)%nat;
}.

(** The effect of [bmap]: no byte of the file changes. *)
Notation bmapped sb ip w f i s i' s' :=
  (fstep sb ip w f (fblock (view (bs (fl s))) (disk_inode i)) i s i' s').

Lemma bmapped_refl sb ip i s : file_pre sb ip i s -> bmapped sb ip 0 0 i s i s.
Proof.
  intros Hp. pose proof (fp_get _ _ _ _ Hp). split; try done.
  - split; [|done]. symmetry. by apply list_insert_id.
  - by destruct i.
  - exists []. split; [|done]. apply logged_nil, (so_tx _ _ (fp_search _ _ _ _ Hp)).
  - lia.
Qed.


Lemma fstep_weaken sb ip w f g w' f' g' i s i' s' :
  fstep sb ip w f g i s i' s' -> (w <= w')%nat -> (f <= f')%nat ->
  (forall bn, 0 <= bn < MAX_DATA_BLOCKS -> g bn = g' bn) -> fstep sb ip w' f' g' i s i' s'.
Proof.
  intros [A1 A2 A3 (ws & A4 & A5) A6 A7 A8 A9 A10] Hw Hf Hg.
  split; [done..| |done|by intros; rewrite A7, Hg|done|done|lia].
  exists ws. split; [done|lia].
Qed.

Lemma fstep_trans sb ip w1 f1 w2 f2 g1 g2 i1 s1 i2 s2 i3 s3 :
  fstep sb ip w1 f1 g1 i1 s1 i2 s2 -> fstep sb ip w2 f2 g2 i2 s2 i3 s3 ->
  fstep sb ip (w1 + w2) (f1 + f2) g2 i1 s1 i3 s3.
Proof.
  intros [A1 [A2 A2'] A3 (ws1 & A4 & A4') A5 A6 A7 A8 A10] [B1 [B2 B2'] B3 (ws2 & B4 & B4') B5 B6 B7 B8 B10].
  split.
  - done.
  - split; [|congruence]. by rewrite B2, A2, list_insert_insert_eq.
  - destruct A3 as (C1 & C2 & C3 & C4 & C5 & C6), B3 as (D1 & D2 & D3 & D4 & D5 & D6).
    unfold same_meta. split_and!; try congruence. rewrite D1, C1. done.
  - exists (ws1 ++ ws2). split; [by eapply logged_app|]. rewrite length_app. lia.
  - congruence.
  - done.
  - intros x Hx. destruct (A7 x Hx) as [C1 C2]. destruct (B7 x C1) as [D1 D2]. split; [done|congruence].
  - intros k Hk Hn. rewrite B8, A8; try done. by rewrite A8.
  - lia.
Qed.

(** A fresh block in an empty slot, after [balloc] returned data block [j]. *)
Lemma extended sb ip i s j f1 ws i' s' k0 :
  layout sb -> file_pre sb ip i s -> (k0 < NSLOTS)%nat ->
  slot (view (bs (fl s))) (disk_inode i) k0 = 0 ->
  is_data sb j -> used sb (view (bs (fl s))) j = false ->
  (forall k, is_data sb k ->
     used sb (view (bs (fl s'))) k = if decide (k = j) then true else used sb (view (bs (fl s))) k) ->
  (k0 <> 11%nat -> view (bs (fl s')) (data_block sb j) = zero_block) ->
  (forall x, settled sb (view (bs (fl s))) x ->
     (slot (view (bs (fl s))) (disk_inode i) 11 <> 0 -> slot (view (bs (fl s))) (disk_inode i) 11 <> x) ->
     view (bs (fl s')) x = view (bs (fl s)) x) ->
  (forall k, (k < NSLOTS)%nat -> slot (view (bs (fl s'))) (disk_inode i') k =
     if decide (k = k0) then data_block sb j else slot (view (bs (fl s))) (disk_inode i) k) ->
  length (addrs (disk_inode i')) = 12%nat -> same_meta i i' ->
  icache s' = <[Z.to_nat ip := i']> (icache s) -> curtask s' = curtask s ->
  logged ws (fl s) (fl s') -> held (bs (fl s')) = held (bs (fl s)) ->
  nfree sb (view (bs (fl s))) = (nfree sb (view (bs (fl s'))) + f1)%nat ->
  bmapped sb ip (length ws) f1 i s i' s'.
Proof.
  intros Hla Hp Hk Hz Hj Hu Hused Hzero Hsame Hslot Hlen Hmeta Hic Hcur HL Hheld Hfree.
  pose proof Hp as [P1 P2 P3 P4 P5 P6].
  assert (forall k, (k < NSLOTS)%nat -> slot (view (bs (fl s))) (disk_inode i) k <> data_block sb j) as Hfresh.
  { intros k Hk' Heq. pose proof (data_block_pos sb j Hla Hj) as Hn.
    destruct (fw_data _ _ _ P4 k Hk' ltac:(congruence)) as (m & M1 & M2 & M3).
    rewrite Heq in M3. unfold data_block in M3. assert (m = j) by lia. congruence. }
  assert (file_wf sb (view (bs (fl s'))) (disk_inode i')) as Hwf.
  { eapply (extend_wf sb _ _ _ _ k0 (data_block sb j)); try done.
    - by apply data_block_pos.
    - exists j. split_and!; [done| |done]. rewrite Hused by done. by rewrite decide_True.
    - intros k Hk' Huk. rewrite Hused by done. by case_decide. }
  assert (forall x, settled sb (view (bs (fl s))) x -> settled sb (view (bs (fl s'))) x) as Hset.
  { intros x [X1 X2]. split; [done|]. intros m Hm Hum. apply X2; [done|]. rewrite Hused in Hum by done.
    by case_decide. }
  split; try done.
  - split; try done.
    + rewrite Hic. apply list_lookup_insert_eq. by eapply lookup_lt_Some.
    + destruct P3 as [S1 S2 S3 S4 S5]. split; rewrite ?Hheld; try done.
      * apply HL.
      * by rewrite (proj1 (lw_log _ _ _ HL)).
      * intros m Hm Hum. apply S5; [done|]. rewrite Hused in Hum by done. by case_decide.
    + intros k Hk'. rewrite Hslot, Hheld by done. case_decide; [|by apply P5].
      intros _. destruct P3 as [S1 S2 S3 S4 S5]. by apply S5.
    + by rewrite Hheld.
  - exists ws. split; [done|lia].
  - intros bn Hbn. apply (extend_fblock _ _ _ _ k0 (data_block sb j)); try done.
    + by apply data_block_pos.
    + intros k Hk' Hk11 Hn. destruct (fw_data _ _ _ P4 k Hk' Hn) as (m & M1 & M2 & M3).
      apply Hsame; [rewrite M3; by apply settled_used|].
      intros Hn11 Heq. apply (fw_inj _ _ _ P4) in Heq; [done|unfold NSLOTS; lia|done|done].
  - intros x [Hx1 Hx2]. split.
    + split; [by apply Hset|]. intros k Hk'. rewrite Hslot by done. case_decide; [|by apply Hx2].
      intros _ <-. by eapply (proj2 Hx1).
    + apply Hsame; [done|]. intros Hn. apply Hx2; [unfold NSLOTS; lia|done].
  - intros k Hk' Hn. rewrite Hslot by done. case_decide; [by subst|done].
  - lia.
Qed.

Lemma slot_settled sb s ip i k :
  layout sb -> file_pre sb ip i s -> (k < NSLOTS)%nat ->
  slot (view (bs (fl s))) (disk_inode i) k <> 0 ->
  settled sb (view (bs (fl s))) (slot (view (bs (fl s))) (disk_inode i) k).
Proof.
  intros Hla [P1 P2 P3 P4 P5 P6] Hk Hn. destruct (fw_data _ _ _ P4 k Hk Hn) as (m & M1 & M2 & ->).
  by apply settled_used.
Qed.

Lemma slot_loggable sb s ip i k :
  layout sb -> file_pre sb ip i s -> (k < NSLOTS)%nat ->
  slot (view (bs (fl s))) (disk_inode i) k <> 0 ->
  loggable (log_start (lg (fl s))) (slot (view (bs (fl s))) (disk_inode i) k).
Proof.
  intros Hla [P1 P2 P3 P4 P5 P6] Hk Hn. destruct (fw_data _ _ _ P4 k Hk Hn) as (m & M1 & M2 & ->).
  rewrite (so_start _ _ P3). by apply data_block_loggable.
Qed.

(** Allocating a block for a slot of the inode itself. *)
Lemma alloc_addr_spec sb ip i s k0 :
  layout sb -> file_pre sb ip i s -> 0 <= k0 <= NDIRECT_DATA_BLOCKS ->
  addrs (disk_inode i) !!! Z.to_nat k0 = 0 -> cap (fl s) 2 -> (1 <= nfree sb (view (bs (fl s))))%nat ->
  exists a i' s', (n ← lift (balloc sb); upd_dinode ip (set_addr k0 n);; mret n) s = Ok (a, s') /\
    bmapped sb ip 2 1 i s i' s' /\ a <> 0 /\ a = addrs (disk_inode i') !!! Z.to_nat k0.
Proof.
  intros Hla Hp Hk Hz Hc Hn. pose proof Hp as [P1 P2 P3 P4 P5 P6].
  unfold NDIRECT_DATA_BLOCKS in Hk.
  destruct (balloc_fresh sb (fl s) Hla P3 Hc Hn) as (j & f' & ws & E & L & Hw & Hh & Hs' & Hj & Hu & U & Z0 & Hsame & Hf).
  set (i' := set_dinode (set_addr k0 (data_block sb j) (disk_inode i)) i).
  exists (data_block sb j), i', (Ist f' (<[Z.to_nat ip := i']> (icache s)) (curtask s)).
  assert (addrs (disk_inode i') !!! Z.to_nat k0 = data_block sb j) as Ha.
  { simpl. rewrite list_lookup_total_insert_eq; [done|]. rewrite (fw_len _ _ _ P4). lia. }
  split_and!; [| |by apply data_block_pos|done].
  - rewrite (bind_Ok _ _ _ _ _ (lift_fl_Ok _ _ _ _ E)). unfold upd_dinode.
    erewrite (bind_Ok (upd_inode _ _)); [|by apply upd_inode_Ok; [|exact P2]]. done.
  - rewrite <- Hw. apply (extended sb ip i s j 1 ws i' _ (Z.to_nat k0)); try done; simpl.
    + unfold NSLOTS. lia.
    + unfold slot. rewrite (proj2 (Nat.ltb_lt _ _)) by lia. done.
    + intros x Hx _. by apply Hsame.
    + intros k Hk'. unfold slot. simpl. destruct (Nat.ltb_spec k 12) as [Hk12|Hk12].
      * case_decide as D; [subst; by rewrite list_lookup_total_insert_eq by (rewrite (fw_len _ _ _ P4); lia)|].
        by rewrite list_lookup_total_insert_ne.
      * rewrite decide_False by lia. destruct (decide (k0 = 11)) as [->|Hne].
        -- change (Z.to_nat 11) with 11%nat. rewrite list_lookup_total_insert_eq by (rewrite (fw_len _ _ _ P4); lia).
           change (Z.to_nat 11) with 11%nat in Hz. rewrite Hz.
           rewrite Z0, get32_zero. simpl. by destruct (data_block sb j =? 0).
        -- rewrite list_lookup_total_insert_ne by lia.
           destruct (Z.eqb_spec (addrs (disk_inode i) !!! 11%nat) 0) as [|H11]; [done|].
           rewrite Hsame; [done|]. apply (slot_settled sb s ip i 11 Hla Hp); [unfold NSLOTS; lia|done].
    + by rewrite length_insert, (fw_len _ _ _ P4).
    + lia.
Qed.

Lemma bio_Ok {A} (m : M bstore A) s a f :
  lift m (fl s) = Ok (a, f) -> bio m s = Ok (a, Ist f (icache s) (curtask s)).
Proof. apply lift_fl_Ok. Qed.

Lemma file_pre_same sb ip i s f :
  file_pre sb ip i s -> logged [] (fl s) f -> held (bs f) = held (bs (fl s)) ->
  bmapped sb ip 0 0 i s i (Ist f (icache s) (curtask s)).
Proof.
  intros Hp L Hh. pose proof Hp as [P1 P2 P3 P4 P5 P6].
  assert (forall x, view (bs f) x = view (bs (fl s)) x) as Hv by apply L.
  assert (forall k, slot (view (bs f)) (disk_inode i) k = slot (view (bs (fl s))) (disk_inode i) k) as Hsl
    by (intros; unfold slot; by rewrite Hv).
  assert (forall j, used sb (view (bs f)) j = used sb (view (bs (fl s))) j) as Hu
    by (intros; apply used_ext, Hv).
  split; simpl; try done.
  - split; simpl; try done.
    + by eapply search_ok_same.
    + destruct P4 as [W1 W2 W3]. split; [done|..].
      * intros k Hk. rewrite Hsl. intros Hn. destruct (W2 k Hk Hn) as (j & J). exists j. by rewrite Hu.
      * intros k k' Hk Hk'. rewrite !Hsl. by apply W3.
    + intros k Hk. rewrite Hsl, Hh. by apply P5.
    + by rewrite Hh.
  - split; [|done]. symmetry. by apply list_insert_id.
  - by destruct i.
  - exists []. split; [done|simpl; lia].
  - intros bn _. unfold fblock. rewrite Hsl. by rewrite Hv.
  - intros x [[X1 X2] X3]. split; [|done]. split; [split|]; [done|..].
    + intros j Hj. rewrite Hu. by apply X2.
    + intros k Hk. rewrite Hsl. by apply X3.
  - rewrite (nfree_ext sb (view (bs (fl s))) (view (bs f))) by (intros; apply Hu). lia.
Qed.

(** The part of [bmap] after the indirect block is there. *)
Definition bmap_indirect (sb : superblock) (ind bn : Z) : M ist Z :=
  data ← bio (buf_read ind);
  let addr := get32 data (Z.to_nat bn) in
  if addr =? 0 then
    addr ← lift (balloc sb);
    bio (buf_store ind (set32 data (Z.to_nat bn) addr));;
    lift (log_write ind);;
    bio (buf_release ind);;
    mret addr
  else
    bio (buf_release ind);;
    mret addr.

Lemma upd_rel_ist s b d f :
  (lift (buf_store b d);; log_write b;; lift (buf_release b)) (fl s) = Ok (tt, f) ->
  forall {A} (r : M ist A), (bio (buf_store b d);; lift (log_write b);; bio (buf_release b);; r) s =
    r (Ist f (icache s) (curtask s)).
Proof.
  intros E A r. unfold mbind, M_bind, bio, lift, buf_store, buf_release, modify in *. simpl in *.
  destruct (log_write b _) as [[[] f2]| |]; try done. injection E as <-. done.
Qed.

(** The slots after an entry of the indirect block was written. *)
Lemma slot_indirect v v' d bn a k : block_ok (v (addrs d !!! 11%nat)) -> 0 <= bn < 128 -> is_u32 a -> addrs d !!! 11%nat <> 0 ->
  v' (addrs d !!! 11%nat) = set32 (v (addrs d !!! 11%nat)) (Z.to_nat bn) a ->
  slot v' d k = if decide (k = 12 + Z.to_nat bn)%nat then a else slot v d k.
Proof.
  intros [Hb1 Hb2] Hbn Ha Hn Hv. unfold slot. destruct (Nat.ltb_spec k 12) as [Hk|Hk].
  - rewrite decide_False by lia. done.
  - cbv zeta. rewrite (proj2 (Z.eqb_neq _ _)) by done. rewrite Hv.
    assert (4 * Z.to_nat bn + 4 <= length (v (addrs d !!! 11%nat)))%nat by (rewrite Hb1; unfold BLOCK_SIZE; lia).
    case_decide as D.
    + subst k. replace (12 + Z.to_nat bn - 12)%nat with (Z.to_nat bn) by lia. by apply get32_set32_eq.
    + apply get32_set32_ne; [done|lia].
Qed.

Lemma slot_in_indirect v d bn : addrs d !!! 11%nat <> 0 -> slot v d (12 + bn) = get32 (v (addrs d !!! 11%nat)) bn.
Proof.
  intros Hn. unfold slot. rewrite (proj2 (Nat.ltb_ge _ _)) by lia. cbv zeta. rewrite (proj2 (Z.eqb_neq _ _)) by done. f_equal. lia.
Qed.

(** The bitmap can be searched while a block that is not free is locked. *)
Lemma search_ok_held sb s f b : search_ok sb s -> logged [] s f -> held (bs f) = {[b]} ∪ held (bs s) -> settled sb (view (bs s)) b ->
  b ∉ held (bs s) -> (size (held (bs s)) + 1 < MAXHELD)%nat -> search_ok sb f.
Proof.
  intros [S1 S2 S3 S4 S5] L H Hset Hb Hr. assert (forall x, view (bs f) x = view (bs s) x) as Hv by apply L. split; rewrite ?H.
  - apply L.
  - by rewrite (proj1 (lw_log _ _ _ L)).
  - rewrite size_union by set_solver. rewrite size_singleton. lia.
  - intros j Hj. apply not_elem_of_union. split; [|by apply S4]. apply not_elem_of_singleton, not_eq_sym. by apply (proj1 Hset).
  - intros j Hj Huj. rewrite (used_ext _ _ _ _ (Hv _)) in Huj. apply not_elem_of_union.
    split; [|by apply S5]. apply not_elem_of_singleton, not_eq_sym. by apply (proj2 Hset).
Qed.

(** A new block for an entry of the indirect block [ind], which [f1] has locked. *)
Lemma indirect_alloc sb ip i s f1 bn : layout sb -> file_pre sb ip i s -> 0 <= bn < 128 ->
  let v := view (bs (fl s)) in let ind := addrs (disk_inode i) !!! 11%nat in
  ind <> 0 -> cap (fl s) 3 -> (1 <= nfree sb v)%nat -> logged [] (fl s) f1 -> held (bs f1) = {[ind]} ∪ held (bs (fl s)) ->
  slot v (disk_inode i) (12 + Z.to_nat bn) = 0 ->
  exists a s', (addr ← lift (balloc sb);
      bio (buf_store ind (set32 (v ind) (Z.to_nat bn) addr));; lift (log_write ind);; bio (buf_release ind);; mret addr)
      (Ist f1 (icache s) (curtask s)) = Ok (a, s') /\
    bmapped sb ip 3 1 i s i s' /\ a <> 0 /\ a = slot (view (bs (fl s'))) (disk_inode i) (12 + Z.to_nat bn).
Proof.
  intros Hla Hp Hbn v ind Hn0 Hc Hn L1 H1 Hz. pose proof Hp as [P1 P2 P3 P4 P5 P6].
  assert (11 < NSLOTS)%nat as H11 by (unfold NSLOTS; lia).
  assert (ind ∉ held (bs (fl s))) as Hih by (by apply (P5 11%nat)).
  assert (settled sb v ind) as Hset by (by apply (slot_settled sb s ip i 11 Hla Hp)).
  assert (forall x, view (bs f1) x = v x) as Hv1 by apply L1.
  destruct (balloc_fresh sb f1 Hla (search_ok_held sb _ f1 ind P3 L1 H1 Hset Hih P6))
    as (j & f2 & ws & E2 & L2 & Hw & Hh2 & Hs2 & Hj & Hu & U & Z0 & Hsame & Hf).
  { eapply logged_cap; [exact L1|exact Hc|simpl; lia]. }
  { rewrite (nfree_ext sb v (view (bs f1))); [done|]. intros k _. apply used_ext, Hv1. }
  rewrite (used_ext sb (view (bs f1)) v) in Hu by apply Hv1.
  assert (forall x, settled sb v x -> view (bs f2) x = v x) as Hv2.
  { intros x [X1 X2]. rewrite Hsame; [apply Hv1|]. split; [done|]. intros k Hk. rewrite (used_ext sb (view (bs f1)) v) by apply Hv1. by apply X2. }
  pose proof (logged_app _ _ _ _ _ L1 L2) as L12. simpl in L12. destruct (t_block _ (so_tx _ _ P3) ind) as [B1 B2]. fold v in B1, B2.
  destruct (tx_update_release f2 ind (set32 (v ind) (Z.to_nat bn) (data_block sb j)) (lw_tx _ _ _ L2)) as (f3 & E3 & L3 & H3).
  { rewrite Hh2, H1. set_solver. }
  { rewrite (proj1 (lw_log _ _ _ L12)). by apply (slot_loggable sb s ip i 11 Hla Hp). }
  { split; [rewrite length_set32; rewrite B1; unfold BLOCK_SIZE; lia|by apply bytes_set32]. }
  { eapply logged_cap; [exact L12|exact Hc|rewrite Hw; lia]. }
  assert (forall x, view (bs f3) x = if decide (x = ind) then set32 (v ind) (Z.to_nat bn) (data_block sb j) else view (bs f2) x) as Hv3
    by (intros x; rewrite (lw_view _ _ _ L3); done).
  assert (forall k, is_data sb k -> used sb (view (bs f3)) k = if decide (k = j) then true else used sb v k) as U3.
  { intros k Hk. rewrite <- (used_ext sb (view (bs f1)) v k (Hv1 _)), <- U by done. apply used_ext. rewrite Hv3.
    rewrite decide_False; [done|]. intros Heq. apply (proj1 Hset k Hk). done. }
  assert (forall k, slot (view (bs f3)) (disk_inode i) k = if decide (k = 12 + Z.to_nat bn)%nat then data_block sb j else slot v (disk_inode i) k) as Sl.
  { intros k. apply slot_indirect; [done|done|apply (data_block_loggable sb Hla j Hj)|done|]. fold ind. by rewrite Hv3, decide_True. }
  exists (data_block sb j), (Ist f3 (icache s) (curtask s)). split_and!; [| |by apply data_block_pos|simpl; by rewrite Sl, decide_True].
  - erewrite bind_Ok; [|by apply lift_fl_Ok; simpl; exact E2]. simpl. by rewrite (upd_rel_ist (Ist f2 (icache s) (curtask s)) ind _ f3 E3).
  - replace 3%nat with (length (ws ++ [(ind, set32 (v ind) (Z.to_nat bn) (data_block sb j))])) by (rewrite length_app, Hw; done).
    apply (extended sb ip i s j 1 _ i _ (12 + Z.to_nat bn)); try done; simpl; fold v.
    + unfold NSLOTS. lia.
    + intros _. rewrite Hv3, decide_False; [done|]. intros Heq. by apply (proj2 Hset j Hj Hu).
    + intros x Hx Hne. rewrite Hv3, decide_False; [by apply Hv2|]. intros ->. by apply Hne.
    + apply P4.
    + by destruct i.
    + symmetry. by apply list_insert_id.
    + by apply (logged_app _ _ _ _ _ L12 L3).
    + rewrite H3, Hh2, H1. set_solver.
    + rewrite (nfree_mark sb v (view (bs f3)) j Hj Hu U3). lia.
Qed.

Lemma bmap_indirect_spec sb ip i s ind bn :
  layout sb -> file_pre sb ip i s -> 0 <= bn < NINDIRECT_DATA_BLOCKS ->
  ind = addrs (disk_inode i) !!! 11%nat -> ind <> 0 -> cap (fl s) 3 ->
  (1 <= nfree sb (view (bs (fl s))))%nat ->
  exists a i' s', bmap_indirect sb ind bn s = Ok (a, s') /\ bmapped sb ip 3 1 i s i' s' /\
    a <> 0 /\ a = slot (view (bs (fl s'))) (disk_inode i') (12 + Z.to_nat bn).
Proof.
  intros Hla Hp Hbn -> Hn0 Hc Hn. pose proof Hp as [P1 P2 P3 P4 P5 P6]. unfold NINDIRECT_DATA_BLOCKS in Hbn.
  pose proof (slot_in_indirect (view (bs (fl s))) (disk_inode i) (Z.to_nat bn) Hn0) as Hsl.
  destruct (tx_read (fl s) (addrs (disk_inode i) !!! 11%nat) (so_tx _ _ P3)) as (f1 & E1 & L1 & H1); [apply (P5 11%nat); [unfold NSLOTS; lia|done]|lia|].
  unfold bmap_indirect. rewrite (bind_Ok _ _ _ _ _ (bio_Ok _ s _ _ E1)). cbv zeta.
  destruct (Z.eqb_spec (get32 (view (bs (fl s)) (addrs (disk_inode i) !!! 11%nat)) (Z.to_nat bn)) 0) as [Hz|Hz].
  - destruct (indirect_alloc sb ip i s f1 bn Hla Hp Hbn Hn0 Hc Hn L1 H1 ltac:(congruence)) as (a & s' & E & Hm & Ha & Hs). by exists a, i, s'.
  - destruct (tx_release f1 (addrs (disk_inode i) !!! 11%nat) (lw_tx _ _ _ L1)) as (f2 & E2 & L2 & H2).
    pose proof (logged_app _ _ _ _ _ L1 L2) as L12. simpl in L12.
    assert (held (bs f2) = held (bs (fl s))) as Hh.
    { rewrite H2, H1. assert (addrs (disk_inode i) !!! 11%nat ∉ held (bs (fl s))) by (apply (P5 11%nat); [unfold NSLOTS; lia|done]). set_solver. }
    eexists _, i, (Ist f2 (icache s) (curtask s)). split_and!.
    + erewrite bind_Ok; [|by apply bio_Ok; exact E2]. done.
    + eapply fstep_weaken; [by apply (file_pre_same sb ip i s f2)|lia|lia|done].
    + done.
    + cbn [fl]. rewrite slot_in_indirect by done. by rewrite (lw_view _ _ _ L12).
Qed.

Lemma fstep_cap sb ip w f g i s i' s' k k' :
  fstep sb ip w f g i s i' s' -> cap (fl s) k -> Z.of_nat w + k' <= k -> cap (fl s') k'.
Proof. intros H Hc Hk. destruct (bm_log _ _ _ _ _ _ _ _ _ H) as (ws & L & Hw). eapply logged_cap; [exact L|exact Hc|lia]. Qed.

Lemma bmap_spec sb ip i s bn :
  layout sb -> file_pre sb ip i s -> 0 <= bn < MAX_DATA_BLOCKS -> cap (fl s) 5 ->
  (2 <= nfree sb (view (bs (fl s))))%nat ->
  exists a i' s', bmap sb ip bn s = Ok (a, s') /\ bmapped sb ip 5 2 i s i' s' /\
    a <> 0 /\ a = slot (view (bs (fl s'))) (disk_inode i') (bslot bn).
Proof.
  intros Hla Hp Hbn Hc Hn. pose proof Hp as [P1 P2 P3 P4 P5 P6].
  unfold MAX_DATA_BLOCKS, NDIRECT_DATA_BLOCKS, NINDIRECT_DATA_BLOCKS in Hbn.
  unfold bmap. rewrite (bind_Ok _ _ _ tt s)
    by (apply ASSERT_true, Z.ltb_lt; unfold MAX_DATA_BLOCKS, NDIRECT_DATA_BLOCKS, NINDIRECT_DATA_BLOCKS; lia).
  rewrite (bind_Ok _ _ _ _ _ (get_inode_Ok _ _ _ P1 P2)). unfold bslot, NDIRECT_DATA_BLOCKS.
  destruct (Z.ltb_spec bn 11) as [Hd|Hd].
  - rewrite (bind_Ok _ _ _ _ _ (index_total (addrs (disk_inode i)) bn s ltac:(lia) ltac:(rewrite (fw_len _ _ _ P4); lia))).
    destruct (Z.eqb_spec (addrs (disk_inode i) !!! Z.to_nat bn) 0) as [Hz|Hz].
    + destruct (alloc_addr_spec sb ip i s bn Hla Hp) as (a & i' & s' & E & B & Ha & Ha');
        [unfold NDIRECT_DATA_BLOCKS; lia|done|eapply cap_le; [exact Hc|lia]|lia|].
      exists a, i', s'. split_and!; [exact E|eapply fstep_weaken; [exact B|lia|lia|done]|done|].
      unfold slot. rewrite (proj2 (Nat.ltb_lt _ _)) by lia. done.
    + exists (addrs (disk_inode i) !!! Z.to_nat bn), i, s. split_and!; [done| |done|].
      * eapply fstep_weaken; [by apply bmapped_refl|lia|lia|done].
      * unfold slot. rewrite (proj2 (Nat.ltb_lt _ _)) by lia. done.
  - rewrite (bind_Ok _ _ _ _ _ (index_total (addrs (disk_inode i)) 11 s ltac:(lia) ltac:(rewrite (fw_len _ _ _ P4); lia))).
    change (Z.to_nat 11) with 11%nat.
    assert (exists ind i1 s1, (if addrs (disk_inode i) !!! 11%nat =? 0 then
             n ← lift (balloc sb); upd_dinode ip (set_addr 11 n);; mret n
           else mret (addrs (disk_inode i) !!! 11%nat)) s = Ok (ind, s1) /\
        bmapped sb ip 2 1 i s i1 s1 /\ ind <> 0 /\ ind = addrs (disk_inode i1) !!! 11%nat) as
      (ind & i1 & s1 & E1 & B1 & Hi1 & Hi1').
    { destruct (Z.eqb_spec (addrs (disk_inode i) !!! 11%nat) 0) as [Hz|Hz].
      - apply (alloc_addr_spec sb ip i s 11); [done|done|unfold NDIRECT_DATA_BLOCKS; lia|done
          |eapply cap_le; [exact Hc|lia]|lia].
      - exists (addrs (disk_inode i) !!! 11%nat), i, s. split_and!; [done| |done|done].
        eapply fstep_weaken; [by apply bmapped_refl|lia|lia|done]. }
    rewrite (bind_Ok _ _ _ _ _ E1).
    destruct (bmap_indirect_spec sb ip i1 s1 ind (bn - 11) Hla) as (a & i2 & s2 & E2 & B2 & Ha & Ha').
    + apply B1.
    + unfold NINDIRECT_DATA_BLOCKS. lia.
    + done.
    + done.
    + eapply fstep_cap; [exact B1|exact Hc|lia].
    + pose proof (bm_free _ _ _ _ _ _ _ _ _ B1). lia.
    + exists a, i2, s2. split_and!; [exact E2| |done|].
      * eapply fstep_weaken; [eapply fstep_trans; [exact B1|exact B2]|lia|lia|].
        intros b Hb. apply (bm_fblock _ _ _ _ _ _ _ _ _ B1). done.
      * rewrite Ha'. f_equal. lia.
Qed.

(** *** Writing a block of the file *)

Lemma update_block sb ip i s bn d f :
  layout sb -> file_pre sb ip i s -> 0 <= bn < MAX_DATA_BLOCKS ->
  let v := view (bs (fl s)) in
  let a := slot v (disk_inode i) (bslot bn) in
  a <> 0 -> logged [(a, d)] (fl s) f -> held (bs f) = held (bs (fl s)) ->
  fstep sb ip 1 0 (fun bn' => if decide (bn' = bn) then d else fblock v (disk_inode i) bn') i s
    i (Ist f (icache s) (curtask s)).
Proof.
  intros Hla Hp Hbn v a Ha L Hh. pose proof Hp as [P1 P2 P3 P4 P5 P6]. fold v in P4, P5.
  destruct (bslot_lt bn Hbn) as [Hk Hk11].
  assert (forall x, view (bs f) x = if decide (x = a) then d else v x) as Hv by (intros x; rewrite (lw_view _ _ _ L); done).
  assert (settled sb v a) as Hset by (apply (slot_settled sb s ip i); done).
  assert (forall k, (k < NSLOTS)%nat -> slot (view (bs f)) (disk_inode i) k = slot v (disk_inode i) k) as Hsl.
  { intros k Hk'. unfold slot. destruct (Nat.ltb_spec k 12); [done|]. cbv zeta.
    destruct (Z.eqb_spec (addrs (disk_inode i) !!! 11%nat) 0) as [|Hn]; [done|].
    rewrite Hv, decide_False; [done|]. intros Heq. apply Hk11, (fw_inj _ _ _ P4); try done. unfold NSLOTS; lia. }
  assert (forall j, is_data sb j -> used sb (view (bs f)) j = used sb v j) as Hu.
  { intros j Hj. apply used_ext. rewrite Hv, decide_False; [done|]. intros Heq.
    by apply (proj1 Hset j Hj). }
  split; simpl; try done.
  - split; simpl; try done.
    + destruct P3 as [S1 S2 S3 S4 S5]. split; rewrite ?Hh; try done; [apply L|by rewrite (proj1 (lw_log _ _ _ L))|].
      intros j Hj. rewrite Hu by done. by apply S5.
    + destruct P4 as [W1 W2 W3]. split; [done|..].
      * intros k Hk'. rewrite Hsl by done. intros Hn. destruct (W2 k Hk' Hn) as (j & J1 & J2 & J3). exists j.
        by rewrite Hu.
      * intros k k' Hk1 Hk2. rewrite !Hsl by done. by apply W3.
    + intros k Hk'. rewrite Hsl, Hh by done. by apply P5.
    + by rewrite Hh.
  - split; [|done]. symmetry. by apply list_insert_id.
  - by destruct i.
  - exists [(a, d)]. split; [done|simpl; lia].
  - intros b Hb. destruct (bslot_lt b Hb) as [Hkb _]. unfold fblock. cbv zeta. rewrite Hsl by done.
    case_decide as D.
    + subst b. fold a. rewrite (proj2 (Z.eqb_neq _ _)) by done. rewrite Hv, decide_True by done. done.
    + destruct (Z.eqb_spec (slot v (disk_inode i) (bslot b)) 0); [done|]. rewrite Hv, decide_False; [done|].
      intros Heq. apply D, (bslot_inj); [lia|lia|]. by apply (fw_inj _ _ _ P4).
  - intros x [[X1 X2] X3]. split.
    + split; [split|]; [done|..].
      * intros j Hj. rewrite Hu by done. by apply X2.
      * intros k Hk'. rewrite Hsl by done. by apply X3.
    + rewrite Hv, decide_False; [done|]. intros ->. by apply (X3 (bslot bn)).
  - intros k Hk' _. by apply Hsl.
  - rewrite (nfree_ext sb v (view (bs f)) Hu). unfold v. lia.
Qed.

(** ** The bytes of a file *)

Definition fbyte (v : Z -> block) (d : dinode) (k : Z) : Z :=
  fblock v d (k / BSIZE) !!! Z.to_nat (k mod BSIZE).

(** [n] bytes from [off] on. *)
Definition frange (v : Z -> block) (d : dinode) (off n : Z) : list Z :=
  map (fun j => fbyte v d (off + Z.of_nat j)) (seq 0 (Z.to_nat n)).

Lemma frange_length v d off n : length (frange v d off n) = Z.to_nat n.
Proof. unfold frange. by rewrite length_map, length_seq. Qed.

Lemma frange_lookup v d off n j : (j < Z.to_nat n)%nat ->
  frange v d off n !! j = Some (fbyte v d (off + Z.of_nat j)).
Proof.
  intros Hj. unfold frange. rewrite list_lookup_fmap. rewrite lookup_seq_lt by done. done.
Qed.

Lemma frange_app v d off m n : 0 <= m -> 0 <= n ->
  frange v d off (m + n) = frange v d off m ++ frange v d (off + m) n.
Proof.
  intros Hm Hn. apply list_eq. intros j. destruct (decide (j < Z.to_nat (m + n))%nat) as [Hj|Hj].
  - rewrite frange_lookup by done. destruct (decide (j < Z.to_nat m)%nat).
    + rewrite lookup_app_l by (rewrite frange_length; lia). by rewrite frange_lookup.
    + rewrite lookup_app_r by (rewrite frange_length; lia). rewrite frange_length.
      rewrite frange_lookup by lia. do 2 f_equal. lia.
  - rewrite !lookup_ge_None_2; [done|..]; rewrite ?length_app, !frange_length; lia.
Qed.

Lemma fbyte_ext v d v' d' k :
  fblock v d (k / BSIZE) = fblock v' d' (k / BSIZE) -> fbyte v d k = fbyte v' d' k.
Proof. unfold fbyte. by intros ->. Qed.

Lemma frange_ext v d v' d' off n :
  (forall k, off <= k < off + n -> fbyte v d k = fbyte v' d' k) -> frange v d off n = frange v' d' off n.
Proof.
  intros H. unfold frange. apply map_ext_in. intros j Hj. apply in_seq in Hj. apply H. lia.
Qed.

Lemma chunk_bounds off left : 0 <= off -> 0 < left ->
  0 < chunk off left <= left /\ off mod BSIZE + chunk off left <= BSIZE.
Proof.
  intros Ho Hl. pose proof (Z.mod_pos_bound off BSIZE ltac:(done)). unfold chunk. cbv zeta.
  destruct (Z.ltb_spec left (BSIZE - off mod BSIZE)); lia.
Qed.

(** Positions inside the block of [off]. *)
Lemma same_block off j : 0 <= off -> 0 <= j -> off mod BSIZE + j < BSIZE ->
  (off + j) / BSIZE = off / BSIZE /\ (off + j) mod BSIZE = off mod BSIZE + j.
Proof.
  intros Ho Hj Hlt. pose proof (Z.div_mod off BSIZE ltac:(done)). pose proof (Z.mod_pos_bound off BSIZE ltac:(done)).
  assert ((off + j) / BSIZE = off / BSIZE) as E.
  { symmetry. apply (Z.div_unique _ _ _ (off mod BSIZE + j)); [left; lia|lia]. }
  split; [done|]. pose proof (Z.div_mod (off + j) BSIZE ltac:(done)) as H3. rewrite E in H3. lia.
Qed.

Lemma fblock_ok v d bn : (forall x, block_ok (v x)) -> block_ok (fblock v d bn).
Proof. intros H. unfold fblock. cbv zeta. destruct (_ =? 0); [apply zero_block_ok|apply H]. Qed.

Lemma slice_frange v d off m :
  (forall x, block_ok (v x)) -> 0 <= off -> 0 <= m -> off mod BSIZE + m <= BSIZE ->
  slice (Z.to_nat (off mod BSIZE)) (Z.to_nat m) (fblock v d (off / BSIZE)) = frange v d off m.
Proof.
  intros Hb Ho Hm Hle. pose proof (Z.mod_pos_bound off BSIZE ltac:(done)) as Hmod.
  destruct (fblock_ok v d (off / BSIZE) Hb) as [Hl _]. apply list_eq. intros j.
  destruct (decide (j < Z.to_nat m)%nat) as [Hj|Hj].
  - rewrite slice_lookup, frange_lookup by done. unfold fbyte.
    destruct (same_block off (Z.of_nat j) Ho ltac:(lia) ltac:(lia)) as [-> ->].
    rewrite list_lookup_lookup_total_lt by (rewrite Hl; unfold BLOCK_SIZE, BSIZE in *; lia).
    do 2 f_equal. lia.
  - rewrite !lookup_ge_None_2; [done|rewrite frange_length; lia|]. rewrite length_slice; [lia|].
    rewrite Hl. unfold BLOCK_SIZE, BSIZE in *. lia.
Qed.

(** *** Reading *)

(** Nothing but the buffers has changed. *)
Definition seen (s s' : ist) : Prop :=
  wrote [] (bs (fl s)) (bs (fl s')) /\ lg (fl s') = lg (fl s) /\
  icache s' = icache s /\ curtask s' = curtask s.

Lemma seen_refl s : seen s s.
Proof. split; [apply wrote_nil|done]. Qed.

Lemma seen_trans s1 s2 s3 : seen s1 s2 -> seen s2 s3 -> seen s1 s3.
Proof.
  intros (A1 & A2 & A3 & A4) (B1 & B2 & B3 & B4). split; [|split_and!; congruence].
  change (@nil (Z * block)) with (@nil (Z * block) ++ []). by eapply wrote_app.
Qed.

(** A block read and given back. *)
Lemma peek_ist s b {A} (k : block -> M ist A) :
  b ∉ held (bs (fl s)) -> room (bs (fl s)) 1 ->
  exists s', seen s s' /\
    (data ← bio (buf_read b); bio (buf_release b);; k data) s = k (view (bs (fl s)) b) s'.
Proof.
  intros Hh Hr. destruct (peek_spec _ _ Hh Hr) as (b1 & E & Hb & Hw).
  exists (Ist (Fss (BStore (disk b1) (cache b1) (dirty b1) (held b1 ∖ {[b]}) (writes b1)) (lg (fl s)))
            (icache s) (curtask s)).
  split; [done|]. rewrite (bind_Ok _ _ _ _ _ (bio_Ok _ s _ _ (lift_bs_Ok _ (fl s) _ _ E))). done.
Qed.

(** A file whose first [n] bytes are there, none of its blocks locked. *)
Record read_pre (ip : Z) (i : inode) (n : Z) (s : ist) : Prop := {
  rp_ip : 0 <= ip;
  rp_get : icache s !! Z.to_nat ip = Some i;
  rp_len : length (addrs (disk_inode i)) = 12%nat;
  rp_ok : forall x, block_ok (view (bs (fl s)) x);
  rp_rm : room (bs (fl s)) 1;
  rp_n : n <= MAX_DATA_BLOCKS * BSIZE;
  rp_there : forall bn, 0 <= bn -> bn * BSIZE < n -> slot (view (bs (fl s))) (disk_inode i) (bslot bn) <> 0;
  rp_unlocked : forall k, (k < NSLOTS)%nat -> slot (view (bs (fl s))) (disk_inode i) k <> 0 ->
    slot (view (bs (fl s))) (disk_inode i) k ∉ held (bs (fl s));
}.

Lemma slot_seen s s' d k : seen s s' ->
  slot (view (bs (fl s'))) d k = slot (view (bs (fl s))) d k.
Proof. intros [H _]. unfold slot. by rewrite (w_view _ _ _ H). Qed.

Lemma fbyte_seen s s' d k : seen s s' ->
  fbyte (view (bs (fl s'))) d k = fbyte (view (bs (fl s))) d k.
Proof.
  intros H. apply fbyte_ext. unfold fblock. rewrite (slot_seen s s') by done.
  destruct H as [H _]. by rewrite (w_view _ _ _ H).
Qed.

Lemma read_pre_seen ip i n s s' : read_pre ip i n s -> seen s s' -> read_pre ip i n s'.
Proof.
  intros [R1 R2 R3 R4 R5 R6 R7 R8] H. pose proof H as (H1 & H2 & H3 & H4). split; try done.
  - by rewrite H3.
  - intros x. rewrite (w_view _ _ _ H1). apply R4.
  - by eapply wrote_room.
  - intros bn Hbn Hlt. rewrite (slot_seen s s') by done. by apply R7.
  - intros k Hk. rewrite (slot_seen s s') by done. rewrite (w_held _ _ _ H1). by apply R8.
Qed.

(** [bmap] of a block that is there. *)
Lemma bmap_there sb ip i n s bn :
  read_pre ip i n s -> 0 <= bn < MAX_DATA_BLOCKS -> bn * BSIZE < n ->
  exists s', bmap sb ip bn s = Ok (slot (view (bs (fl s))) (disk_inode i) (bslot bn), s') /\ seen s s'.
Proof.
  intros Hp Hbn Hlt. pose proof Hp as [R1 R2 R3 R4 R5 R6 R7 R8]. pose proof (R7 bn (proj1 Hbn) Hlt) as Hn.
  destruct (bslot_lt bn Hbn) as [Hk Hk11].
  unfold bmap. rewrite (bind_Ok _ _ _ tt s) by (apply ASSERT_true, Z.ltb_lt; lia).
  rewrite (bind_Ok _ _ _ _ _ (get_inode_Ok _ _ _ R1 R2)).
  unfold MAX_DATA_BLOCKS, NDIRECT_DATA_BLOCKS, NINDIRECT_DATA_BLOCKS in Hbn.
  unfold bslot, slot, NDIRECT_DATA_BLOCKS in Hn |- *. destruct (Z.ltb_spec bn 11) as [Hd|Hd].
  - rewrite (proj2 (Nat.ltb_lt _ _)) in Hn |- * by lia.
    rewrite (bind_Ok _ _ _ _ _ (index_total (addrs (disk_inode i)) bn s ltac:(lia) ltac:(lia))).
    rewrite (proj2 (Z.eqb_neq _ _)) by done. exists s. split; [done|apply seen_refl].
  - rewrite (proj2 (Nat.ltb_ge _ _)) in Hn |- * by lia. cbv zeta in Hn |- *.
    rewrite (bind_Ok _ _ _ _ _ (index_total (addrs (disk_inode i)) 11 s ltac:(lia) ltac:(lia))).
    change (Z.to_nat 11) with 11%nat.
    destruct (Z.eqb_spec (addrs (disk_inode i) !!! 11%nat) 0) as [|H11]; [done|].
    set (ind := addrs (disk_inode i) !!! 11%nat) in *.
    rewrite (bind_Ok _ _ _ ind s) by done.
    replace (S (Z.to_nat bn) - 12)%nat with (Z.to_nat (bn - 11)) in Hn |- * by lia.
    set (data := view (bs (fl s)) ind) in *.
    destruct (peek_ist s ind (fun data => mret (get32 data (Z.to_nat (bn - 11))))) as (s' & Hs & E).
    { apply (R8 11%nat); [unfold NSLOTS; lia|done]. }
    { done. }
    exists s'. split; [|done]. etransitivity; [|exact E].
    unfold mbind, M_bind. destruct (bio (buf_read ind) s) as [[x s1]| |] eqn:E1; try done.
    assert (x = data) as ->.
    { unfold bio, lift in E1. simpl in E1. unfold buf_read in E1. destruct (bool_decide _); [done|].
      destruct (_ && _); [done|]. by injection E1 as <- <-. }
    rewrite (proj2 (Z.eqb_neq _ _)) by done. done.
Qed.

(** The turns of the loops over [left] bytes from [off] on. *)
Definition nturns (off left : Z) : Z :=
  if left <=? 0 then 0 else (off mod BSIZE + left - 1) / BSIZE + 1.

Lemma nturns_next off left : 0 <= off -> 0 < left ->
  nturns (off + chunk off left) (left - chunk off left) + 1 <= nturns off left.
Proof.
  intros Ho Hl. pose proof (Z.mod_pos_bound off BSIZE ltac:(done)). pose proof (Z.div_mod off BSIZE ltac:(done)).
  unfold nturns. rewrite (proj2 (Z.leb_gt left 0)) by lia. unfold chunk. cbv zeta. unfold BSIZE in *.
  destruct (Z.ltb_spec left (512 - off mod 512)).
  - rewrite (proj2 (Z.leb_le _ _)) by lia.
    assert (0 <= (off mod 512 + left - 1) / 512) by (apply Z.div_pos; lia). lia.
  - replace ((off + (512 - off mod 512)) mod 512) with 0.
    2: { replace (off + (512 - off mod 512)) with ((off / 512 + 1) * 512) by lia. symmetry. apply Z.mod_mul. lia. }
    replace (off mod 512 + left - 1) with ((left - (512 - off mod 512) - 1) + 1 * 512) by lia.
    rewrite Z.div_add by lia. destruct (Z.leb_spec (left - (512 - off mod 512)) 0).
    + assert (left - (512 - off mod 512) = 0) as -> by lia. by vm_compute.
    + rewrite Z.add_0_l. lia.
Qed.

Lemma nturns_nonneg off left : 0 <= nturns off left.
Proof.
  unfold nturns. pose proof (Z.mod_pos_bound off BSIZE ltac:(done)). destruct (Z.leb_spec left 0); [lia|].
  assert (0 <= (off mod BSIZE + left - 1) / BSIZE) by (apply Z.div_pos; [lia|done]). lia.
Qed.

Lemma nturns_fuel off n : 0 <= n -> nturns off n < Z.of_nat (rw_fuel n).
Proof.
  intros Hn. unfold nturns, rw_fuel. pose proof (Z.mod_pos_bound off BSIZE ltac:(done)).
  assert (0 <= n / BSIZE) by (apply Z.div_pos; [lia|done]).
  destruct (Z.leb_spec n 0); [lia|].
  assert ((off mod BSIZE + n - 1) / BSIZE <= (n + 1 * BSIZE) / BSIZE) as H3 by (apply Z.div_le_mono; [done|lia]).
  rewrite Z.div_add in H3 by done. lia.
Qed.

Lemma inode_read_loop_spec sb ip i n : forall fuel s off left acc,
  read_pre ip i n s -> 0 <= off -> 0 <= left -> off + left <= n ->
  nturns off left < Z.of_nat fuel ->
  exists s', inode_read_loop fuel sb ip off left acc s =
      Ok (acc ++ frange (view (bs (fl s))) (disk_inode i) off left, s') /\ seen s s'.
Proof.
  induction fuel as [|fuel IH]; intros s off left acc Hp Ho Hl Hn Hf.
  { pose proof (nturns_nonneg off left). lia. }
  simpl. destruct (Z.ltb_spec 0 left) as [Hpos|Hpos].
  2: { exists s. split; [|apply seen_refl]. replace left with 0 by lia. by rewrite app_nil_r. }
  destruct (chunk_bounds off left Ho Hpos) as [Hc1 Hc2]. set (m := chunk off left) in *.
  pose proof (Z.div_mod off BSIZE ltac:(done)) as Hdm. pose proof (Z.mod_pos_bound off BSIZE ltac:(done)) as Hmod.
  assert (0 <= off / BSIZE) as Hq by (apply Z.div_pos; [lia|done]).
  assert (0 <= off / BSIZE < MAX_DATA_BLOCKS) as Hbn.
  { split; [done|]. pose proof (rp_n _ _ _ _ Hp). unfold BSIZE, MAX_DATA_BLOCKS in *. lia. }
  destruct (bmap_there sb ip i n s (off / BSIZE) Hp Hbn) as (s1 & E1 & S1); [unfold BSIZE in *; lia|].
  rewrite (bind_Ok _ _ _ _ _ E1). pose proof (read_pre_seen _ _ _ _ _ Hp S1) as Hp1.
  set (a := slot (view (bs (fl s))) (disk_inode i) (bslot (off / BSIZE))) in *.
  assert (a <> 0) as Ha by (apply Hp; [done|unfold BSIZE in *; lia]).
  destruct (peek_ist s1 a (fun data => inode_read_loop fuel sb ip (off + m) (left - m)
     (acc ++ slice (Z.to_nat (off mod BSIZE)) (Z.to_nat m) data))) as (s2 & S2 & E2).
  { rewrite (w_held _ _ _ (proj1 S1)). apply (rp_unlocked _ _ _ _ Hp); [by apply bslot_lt|done]. }
  { apply Hp1. }
  rewrite E2. pose proof (seen_trans _ _ _ S1 S2) as S12. pose proof (read_pre_seen _ _ _ _ _ Hp S12) as Hp2.
  destruct (IH s2 (off + m) (left - m) (acc ++ slice (Z.to_nat (off mod BSIZE)) (Z.to_nat m)
     (view (bs (fl s1)) a)) Hp2) as (s3 & E3 & S3); [lia|lia|lia| |].
  { pose proof (nturns_next off left Ho Hpos). fold m in H. lia. }
  exists s3. split; [|by eapply seen_trans].
  rewrite E3. do 2 f_equal. rewrite <- app_assoc. f_equal.
  assert (frange (view (bs (fl s))) (disk_inode i) off left =
    frange (view (bs (fl s))) (disk_inode i) off m ++
    frange (view (bs (fl s))) (disk_inode i) (off + m) (left - m)) as ->
    by (rewrite <- frange_app by lia; f_equal; lia).
  f_equal.
  - assert (view (bs (fl s1)) a = fblock (view (bs (fl s))) (disk_inode i) (off / BSIZE)) as ->.
    { rewrite (w_view _ _ _ (proj1 S1)). unfold fblock. cbv zeta. fold a.
      by rewrite (proj2 (Z.eqb_neq _ _)). }
    apply slice_frange; [apply Hp|lia|lia|lia].
  - apply frange_ext. intros k _. by apply fbyte_seen.
Qed.

(** *** Writing *)

(** A position of the file is in the block [bn] when its quotient is [bn]. *)
Lemma block_range k : 0 <= k < MAX_DATA_BLOCKS * BSIZE -> 0 <= k / BSIZE < MAX_DATA_BLOCKS.
Proof.
  intros H. pose proof (Z.div_mod k BSIZE ltac:(done)). pose proof (Z.mod_pos_bound k BSIZE ltac:(done)).
  split; [apply Z.div_pos; [lia|done]|]. unfold BSIZE, MAX_DATA_BLOCKS in *. lia.
Qed.

(** The bytes of the block at [off] after [src] was written over them. *)
Lemma splice_fbyte (x : block) (src : list Z) off k :
  length x = BLOCK_SIZE -> 0 <= off -> 0 <= k -> off mod BSIZE + Z.of_nat (length src) <= BSIZE ->
  k / BSIZE = off / BSIZE ->
  splice (Z.to_nat (off mod BSIZE)) src x !!! Z.to_nat (k mod BSIZE) =
    if decide (off <= k < off + Z.of_nat (length src)) then src !!! Z.to_nat (k - off)
    else x !!! Z.to_nat (k mod BSIZE).
Proof.
  intros Hl Ho Hk Hle Hq. pose proof (Z.mod_pos_bound off BSIZE ltac:(done)) as M1.
  pose proof (Z.mod_pos_bound k BSIZE ltac:(done)) as M2. pose proof (Z.div_mod k BSIZE ltac:(done)) as D1.
  pose proof (Z.div_mod off BSIZE ltac:(done)) as D2. rewrite Hq in D1.
  rewrite !list_lookup_total_alt, splice_lookup by (rewrite Hl; unfold BLOCK_SIZE, BSIZE in *; lia).
  case_decide as C1; case_decide as C2; try lia. do 2 f_equal. lia.
Qed.

(** The bytes of the file after [src] was written at [off]. *)
Definition bytes_after (s s' : ist) (i i' : inode) (off : Z) (src : list Z) : Prop :=
  forall k, 0 <= k < MAX_DATA_BLOCKS * BSIZE ->
    fbyte (view (bs (fl s'))) (disk_inode i') k =
      if decide (off <= k < off + Z.of_nat (length src)) then src !!! Z.to_nat (k - off)
      else fbyte (view (bs (fl s))) (disk_inode i) k.

(** A turn of the loop of [inode_write] after [bmap]: the block [a] is there. *)
Lemma store_turn sb ip i s off (src : list Z) {A} (r : M ist A) :
  layout sb -> file_pre sb ip i s -> 0 <= off -> bytes src ->
  off mod BSIZE + Z.of_nat (length src) <= BSIZE -> off < MAX_DATA_BLOCKS * BSIZE ->
  cap (fl s) 1 ->
  let a := slot (view (bs (fl s))) (disk_inode i) (bslot (off / BSIZE)) in
  a <> 0 ->
  exists s' g,
    (data ← bio (buf_read a);
     bio (buf_store a (splice (Z.to_nat (off mod BSIZE)) src data));;
     lift (log_write a);;
     bio (buf_release a);; r) s = r s' /\
    fstep sb ip 1 0 g i s i s' /\ icache s' = icache s /\
    slot (view (bs (fl s'))) (disk_inode i) (bslot (off / BSIZE)) <> 0 /\
    bytes_after s s' i i off src.
Proof.
  intros Hla Hp Ho Hb Hle Hmax Hc a Ha. pose proof (block_range off ltac:(lia)) as Hbn.
  set (bn := off / BSIZE) in *. pose proof Hp as [P1 P2 P3 P4 P5 P6].
  set (v := view (bs (fl s))) in *. destruct (bslot_lt bn Hbn) as [Hk _].
  destruct (tx_read (fl s) a (so_tx _ _ P3)) as (f2 & E2 & L2 & H2); [by apply P5|lia|]. fold v in E2.
  set (d := splice (Z.to_nat (off mod BSIZE)) src (v a)).
  destruct (t_block _ (so_tx _ _ P3) a) as [Bl Bb]. fold v in Bl, Bb.
  pose proof (Z.mod_pos_bound off BSIZE ltac:(done)) as Hmod.
  destruct (tx_update_release f2 a d (lw_tx _ _ _ L2)) as (f3 & E3 & L3 & H3).
  { rewrite H2. set_solver. }
  { rewrite (proj1 (lw_log _ _ _ L2)). by apply (slot_loggable sb s ip i). }
  { split; [|by apply bytes_splice]. unfold d. rewrite length_splice; rewrite Bl; [done|].
    unfold BLOCK_SIZE, BSIZE in *. lia. }
  { eapply logged_cap; [exact L2|exact Hc|simpl; lia]. }
  pose proof (logged_app _ _ _ _ _ L2 L3) as L23. simpl in L23.
  assert (held (bs f3) = held (bs (fl s))) as Hh by (rewrite H3, H2; set_solver).
  pose proof (update_block sb ip i s bn d f3 Hla Hp Hbn Ha L23 Hh) as U. fold v in U.
  eexists _, _. split_and!; [|exact U|done| |].
  - rewrite (bind_Ok _ _ _ _ _ (bio_Ok _ s _ _ E2)).
    rewrite (upd_rel_ist (Ist f2 (icache s) (curtask s)) a _ f3 E3). done.
  - rewrite (bm_mono _ _ _ _ _ _ _ _ _ U); done.
  - intros k Hk'. pose proof (block_range k Hk') as Hkb. unfold fbyte. cbn [fl].
    pose proof (bm_fblock _ _ _ _ _ _ _ _ _ U (k / BSIZE) Hkb) as FU. cbn [fl] in FU. rewrite FU. fold v. case_decide as D.
    + assert (v a = fblock v (disk_inode i) (k / BSIZE)) as Ev.
      { unfold fblock. cbv zeta. rewrite D. fold a. by rewrite (proj2 (Z.eqb_neq _ _)). }
      unfold d. rewrite splice_fbyte by (done || lia). by rewrite Ev.
    + rewrite decide_False; [done|]. intros [C1 C2]. apply D.
      destruct (same_block off (k - off)) as [Q _]; [lia|lia|lia|]. unfold bn. rewrite <- Q. f_equal. lia.
Qed.

(** One turn of the loop of [inode_write]. *)
Lemma write_turn sb ip i s off (src : list Z) {A} (r : M ist A) :
  layout sb -> file_pre sb ip i s -> 0 <= off -> bytes src ->
  off mod BSIZE + Z.of_nat (length src) <= BSIZE -> off < MAX_DATA_BLOCKS * BSIZE ->
  cap (fl s) 6 -> (2 <= nfree sb (view (bs (fl s))))%nat ->
  exists i' s' g,
    (db_addr ← bmap sb ip (off / BSIZE);
     data ← bio (buf_read db_addr);
     bio (buf_store db_addr (splice (Z.to_nat (off mod BSIZE)) src data));;
     lift (log_write db_addr);;
     bio (buf_release db_addr);; r) s = r s' /\
    fstep sb ip 6 2 g i s i' s' /\
    slot (view (bs (fl s'))) (disk_inode i') (bslot (off / BSIZE)) <> 0 /\
    bytes_after s s' i i' off src.
Proof.
  intros Hla Hp Ho Hb Hle Hmax Hc Hn. pose proof (block_range off ltac:(lia)) as Hbn.
  destruct (bmap_spec sb ip i s (off / BSIZE) Hla Hp Hbn) as (a & i1 & s1 & E1 & B1 & Ha & Ha');
    [eapply cap_le; [exact Hc|lia]|done|].
  destruct (store_turn sb ip i1 s1 off src r Hla (bm_pre _ _ _ _ _ _ _ _ _ B1) Ho Hb Hle Hmax) as (s2 & g & E2 & U & _ & N2 & By);
    [eapply (fstep_cap _ _ _ _ _ _ _ _ _ _ 1); [exact B1|exact Hc|lia]|congruence|].
  exists i1, s2, g. split_and!; [|eapply fstep_weaken; [eapply fstep_trans; [exact B1|exact U]|lia|lia|done]|done|].
  - rewrite (bind_Ok _ _ _ _ _ E1). rewrite Ha'. exact E2.
  - intros k Hk. rewrite By by done. case_decide; [done|]. apply fbyte_ext, (bm_fblock _ _ _ _ _ _ _ _ _ B1), block_range, Hk.
Qed.

(** A turn for a block that is there: nothing is allocated. *)
Lemma overwrite_turn sb ip i s off (src : list Z) {A} (r : M ist A) :
  layout sb -> file_pre sb ip i s -> read_pre ip i (off + 1) s -> 0 <= off -> bytes src ->
  off mod BSIZE + Z.of_nat (length src) <= BSIZE -> off < MAX_DATA_BLOCKS * BSIZE -> cap (fl s) 1 ->
  exists s' g,
    (db_addr ← bmap sb ip (off / BSIZE);
     data ← bio (buf_read db_addr);
     bio (buf_store db_addr (splice (Z.to_nat (off mod BSIZE)) src data));;
     lift (log_write db_addr);;
     bio (buf_release db_addr);; r) s = r s' /\
    fstep sb ip 1 0 g i s i s' /\ icache s' = icache s /\ bytes_after s s' i i off src.
Proof.
  intros Hla Hp Hr Ho Hb Hle Hmax Hc. pose proof (block_range off ltac:(lia)) as Hbn.
  pose proof (Z.div_mod off BSIZE ltac:(done)) as Hdm. pose proof (Z.mod_pos_bound off BSIZE ltac:(done)) as Hmod.
  assert (off / BSIZE * BSIZE < off + 1) as Hlt by lia.
  destruct (bmap_there sb ip i (off + 1) s (off / BSIZE) Hr Hbn Hlt) as (s1 & E1 & S1).
  pose proof S1 as (V1 & V2 & V3 & V4). pose proof (so_tx _ _ (fp_search _ _ _ _ Hp)) as Ht.
  assert (logged [] (fl s) (fl s1)) as L1.
  { destruct Ht as [T1 T2 T3 T4 T5 T6 T7 T8]. destruct V1 as [W1 W2 W3 W4 W5]. simpl in *. rewrite app_nil_r in W5.
    split; simpl; rewrite ?V2; try done; [|set_solver|lia]. split; rewrite ?V2, ?W1, ?W4; try done.
    - intros x Hx. apply T3. by apply W3.
    - intros x. by rewrite W2.
    - intros x Hx. by rewrite W2, T8. }
  assert (s1 = Ist (fl s1) (icache s) (curtask s)) as Es1 by (destruct s1; simpl in *; congruence).
  pose proof (file_pre_same sb ip i s (fl s1) Hp L1 (w_held _ _ _ V1)) as B1. rewrite <- Es1 in B1.
  assert (slot (view (bs (fl s1))) (disk_inode i) (bslot (off / BSIZE)) = slot (view (bs (fl s))) (disk_inode i) (bslot (off / BSIZE))) as Hsl
    by (by apply slot_seen).
  destruct (store_turn sb ip i s1 off src r Hla (bm_pre _ _ _ _ _ _ _ _ _ B1) Ho Hb Hle Hmax) as (s2 & g & E2 & U & Ic & _ & By).
  { eapply (fstep_cap _ _ _ _ _ _ _ _ _ _ 1); [exact B1|exact Hc|lia]. }
  { rewrite Hsl. apply (rp_there _ _ _ _ Hr); [lia|done]. }
  exists s2, g. split_and!; [|eapply fstep_weaken; [eapply fstep_trans; [exact B1|exact U]|lia|lia|done]|congruence|].
  - rewrite (bind_Ok _ _ _ _ _ E1). rewrite <- Hsl. exact E2.
  - intros k Hk. rewrite By by done. case_decide; [done|]. by apply fbyte_seen.
Qed.

(** Two writes one after the other. *)
Lemma bytes_after_app s1 s2 s3 i1 i2 i3 off off' (src1 src2 src : list Z) :
  bytes_after s1 s2 i1 i2 off src1 -> off' = off + Z.of_nat (length src1) -> bytes_after s2 s3 i2 i3 off' src2 ->
  src1 ++ src2 = src -> bytes_after s1 s3 i1 i3 off src.
Proof.
  intros H1 -> H2 <- k Hk. rewrite H2 by done. rewrite H1 by done. rewrite length_app.
  case_decide as D1; case_decide as D2; try lia.
  - rewrite lookup_total_app_r by lia. f_equal. lia.
  - rewrite decide_True by lia. by rewrite lookup_total_app_l by lia.
  - by rewrite decide_False by lia.
Qed.

Lemma inode_write_loop_spec sb ip : layout sb -> forall fuel i s off (src : list Z),
  file_pre sb ip i s -> 0 <= off -> bytes src ->
  off + Z.of_nat (length src) <= MAX_DATA_BLOCKS * BSIZE ->
  let t := nturns off (Z.of_nat (length src)) in
  t < Z.of_nat fuel -> cap (fl s) (6 * t) -> 2 * t <= Z.of_nat (nfree sb (view (bs (fl s)))) ->
  exists i' s' g, inode_write_loop fuel sb ip off src s = Ok (off + Z.of_nat (length src), s') /\
    fstep sb ip (6 * Z.to_nat t) (2 * Z.to_nat t) g i s i' s' /\
    bytes_after s s' i i' off src /\
    (forall k, off <= k < off + Z.of_nat (length src) ->
       slot (view (bs (fl s'))) (disk_inode i') (bslot (k / BSIZE)) <> 0).
Proof.
  intros Hla. induction fuel as [|fuel IH]; intros i s off src Hp Ho Hb Hmax t Hf Hc Hn.
  { pose proof (nturns_nonneg off (Z.of_nat (length src))). unfold t in Hf. lia. }
  simpl. destruct (Z.ltb_spec 0 (Z.of_nat (length src))) as [Hpos|Hpos].
  2: { destruct src; [|simpl in Hpos; lia]. exists i, s, (fblock (view (bs (fl s))) (disk_inode i)).
       split_and!; [simpl; by rewrite Z.add_0_r| |intros k Hk; rewrite decide_False; [done|simpl; lia]|simpl; lia].
       eapply fstep_weaken; [by apply bmapped_refl|lia|lia|done]. }
  destruct (chunk_bounds off _ Ho Hpos) as [Hc1 Hc2]. pose proof (nturns_next off _ Ho Hpos) as Hnext.
  set (m := chunk off (Z.of_nat (length src))) in *.
  pose proof (nturns_nonneg (off + m) (Z.of_nat (length src) - m)) as Hnn.
  assert (length (take (Z.to_nat m) src) = Z.to_nat m) as Hlt by (rewrite length_take; lia).
  assert (length (drop (Z.to_nat m) src) = (length src - Z.to_nat m)%nat) as Hld by (apply length_drop).
  destruct (write_turn sb ip i s off (take (Z.to_nat m) src)
    (inode_write_loop fuel sb ip (off + m) (drop (Z.to_nat m) src)) Hla Hp Ho) as (i1 & s1 & g1 & E1 & S1 & N1 & F1).
  { by apply Forall_take. }
  { rewrite Hlt. lia. }
  { lia. }
  { eapply cap_le; [exact Hc|lia]. }
  { lia. }
  rewrite E1.
  destruct (IH i1 s1 (off + m) (drop (Z.to_nat m) src)) as (i2 & s2 & g2 & E2 & S2 & F2 & N2).
  { apply S1. }
  { lia. }
  { by apply Forall_drop. }
  { rewrite Hld. lia. }
  { rewrite Hld. replace (Z.of_nat (length src - Z.to_nat m)) with (Z.of_nat (length src) - m) by lia. lia. }
  { rewrite Hld. replace (Z.of_nat (length src - Z.to_nat m)) with (Z.of_nat (length src) - m) by lia.
    eapply fstep_cap; [exact S1|exact Hc|lia]. }
  { rewrite Hld. replace (Z.of_nat (length src - Z.to_nat m)) with (Z.of_nat (length src) - m) by lia.
    pose proof (bm_free _ _ _ _ _ _ _ _ _ S1). lia. }
  rewrite Hld in *. replace (Z.of_nat (length src - Z.to_nat m)) with (Z.of_nat (length src) - m) in * by lia.
  exists i2, s2, g2. split_and!.
  - rewrite E2. do 2 f_equal. lia.
  - eapply fstep_weaken; [eapply fstep_trans; [exact S1|exact S2]|lia|lia|done].
  - eapply (bytes_after_app _ _ _ _ _ _ off (off + m)); [exact F1|rewrite Hlt; lia|exact F2|by rewrite take_drop].
  - intros k Hk. destruct (decide (k < off + m)) as [Hlt'|Hge].
    + assert (k / BSIZE = off / BSIZE) as ->.
      { destruct (same_block off (k - off)) as [Q _]; [lia|lia|lia|]. rewrite <- Q. f_equal. lia. }
      pose proof (block_range off ltac:(lia)) as Hbr. destruct (bslot_lt _ Hbr) as [Hsl _].
      rewrite (bm_mono _ _ _ _ _ _ _ _ _ S2); done.
    + apply N2. lia.
Qed.

(** *** Inodes on the drive *)

(** The fields of an inode have the ranges of their types. *)
Record dinode_ok (d : dinode) : Prop := {
  do_type : is_u32 (type d);
  do_nlink : is_u32 (nlink d);
  do_size : is_u32 (dsize d);
  do_major : is_i32 (major d);
  do_minor : is_i32 (minor d);
  do_addrs : Forall is_u32 (addrs d) /\ length (addrs d) = 12%nat;
}.

Lemma length_enc_words (w : list Z) : length (concat (map enc32 w)) = (4 * length w)%nat.
Proof. induction w as [|x w IH]; [done|]. simpl. rewrite IH. lia. Qed.

Lemma enc_words_slice (w : list Z) j x : w !! j = Some x ->
  slice (4 * j) 4 (concat (map enc32 w)) = enc32 x.
Proof.
  revert j. induction w as [|y w IH]; intros j Hj; [done|]. destruct j as [|j]; simpl in Hj.
  - injection Hj as ->. done.
  - rewrite <- (IH j Hj). apply slice_eq; [done|]. intros n Hn.
    replace (4 * S j + n)%nat with (length (enc32 y) + (4 * j + n))%nat by (rewrite length_enc32; lia).
    change (concat (map enc32 (y :: w))) with (enc32 y ++ concat (map enc32 w)).
    by rewrite lookup_app_r, Nat.add_sub' by lia.
Qed.

Lemma length_dinode_words d : length (addrs d) = 12%nat -> length (dinode_words d) = DINODE_WORDS.
Proof. intros H. unfold dinode_words. rewrite length_app, H. done. Qed.

Lemma put_dinode_ok data sl d :
  block_ok data -> (sl < 7)%nat -> length (addrs d) = 12%nat -> block_ok (put_dinode data sl d).
Proof.
  intros [Hl Hb] Hs Hd. pose proof (length_dinode_words d Hd) as Hw. unfold put_dinode, DINODE_WORDS in *. split.
  - rewrite length_splice; rewrite ?length_enc_words, ?Hw, ?Hl; unfold BLOCK_SIZE; lia.
  - apply bytes_splice; [|done]. clear. induction (dinode_words d) as [|x w IH]; [constructor|].
    change (concat (map enc32 (x :: w))) with (enc32 x ++ concat (map enc32 w)).
    apply Forall_app. split; [apply bytes_enc32|done].
Qed.

(** The word [j] of the slot [sl] after an inode was stored in it. *)
Lemma put_dinode_word data sl d j x :
  length data = BLOCK_SIZE -> (sl < 7)%nat -> length (addrs d) = 12%nat ->
  dinode_words d !! j = Some x -> is_u32 x ->
  get32 (put_dinode data sl d) (DINODE_WORDS * sl + j) = x.
Proof.
  intros Hl Hs Hd Hj Hx. pose proof (length_dinode_words d Hd) as Hw.
  pose proof (lookup_lt_Some _ _ _ Hj) as Hjl. rewrite Hw in Hjl. unfold DINODE_WORDS in *.
  rewrite <- (dec32_enc32 x Hx), <- (enc_words_slice _ _ _ Hj). unfold get32. f_equal. apply slice_eq; [done|].
  intros n Hn. unfold put_dinode, DINODE_WORDS. rewrite splice_lookup;
    rewrite length_enc_words, Hw; [|rewrite Hl; unfold BLOCK_SIZE; lia].
  rewrite decide_True by lia. f_equal. lia.
Qed.

Lemma get_put_dinode data sl d :
  length data = BLOCK_SIZE -> (sl < 7)%nat -> dinode_ok d -> get_dinode (put_dinode data sl d) sl = d.
Proof.
  intros Hl Hs [D1 D2 D3 D4 D5 [D6 D7]]. unfold get_dinode.
  assert (Forall is_u32 (dinode_words d)) as Hall.
  { unfold dinode_words. apply Forall_app. split; [|done]. repeat (apply Forall_cons; split); auto using u32_range. }
  assert (map (fun j => get32 (put_dinode data sl d) (DINODE_WORDS * sl + j)) (seq 0 DINODE_WORDS) = dinode_words d) as ->.
  { pose proof (length_dinode_words d D7) as Hw. apply list_eq. intros j.
    destruct (dinode_words d !! j) as [x|] eqn:E.
    - pose proof (lookup_lt_Some _ _ _ E) as Hj. rewrite Hw in Hj.
      change (map ?f ?l) with (f <$> l). rewrite list_lookup_fmap, lookup_seq_lt by done. simpl. f_equal.
      apply put_dinode_word; try done. rewrite Forall_lookup in Hall. eauto.
    - apply lookup_ge_None in E. apply lookup_ge_None. rewrite length_map, length_seq. lia. }
  unfold words_dinode, dinode_words. destruct d as [t n z ma mi ad]. simpl in *. f_equal.
  - unfold lookup_total. simpl. ulia.
  - unfold lookup_total. simpl. ulia.
Qed.

(** Storing an inode leaves the other slots of its block alone. *)
Lemma get_put_dinode_ne data sl sl' d :
  length data = BLOCK_SIZE -> (sl < 7)%nat -> (sl' < 7)%nat -> sl <> sl' -> length (addrs d) = 12%nat ->
  get_dinode (put_dinode data sl d) sl' = get_dinode data sl'.
Proof.
  intros Hl Hs Hs' Hne Hd. pose proof (length_dinode_words d Hd) as Hw. unfold get_dinode. f_equal.
  apply map_ext_in. intros j Hj. apply in_seq in Hj. unfold get32. f_equal. unfold put_dinode, DINODE_WORDS in *.
  apply slice_splice_ne; rewrite length_enc_words, Hw; [rewrite Hl; unfold BLOCK_SIZE; lia|lia].
Qed.

Lemma slot_of_lt i : (slot_of i < 7)%nat.
Proof. unfold slot_of, INODES_PER_BLOCK. pose proof (Z.mod_pos_bound i 7 ltac:(lia)). lia. Qed.

Lemma inode_block_eq sb i : layout sb -> 0 <= i < sb_ninodes sb ->
  GET_INODE_BLOCK_NO i sb = sb_inode_start sb + i / INODES_PER_BLOCK /\
  loggable (sb_log_start sb) (GET_INODE_BLOCK_NO i sb) /\
  forall v j, is_data sb j -> GET_INODE_BLOCK_NO i sb <> bmap_block sb j /\ GET_INODE_BLOCK_NO i sb <> data_block sb j /\
    settled sb v (GET_INODE_BLOCK_NO i sb).
Proof.
  intros Hla Hi. pose proof Hla as [L1 L2 L3 L4 L5 L6 L7]. unfold INODES_PER_BLOCK in *.
  assert (i / 7 <= sb_ninodes sb / 7) by (apply Z.div_le_mono; lia).
  assert (0 <= i / 7) by (apply Z.div_pos; lia). unfold start_ok, LOG_SIZE, MAX_OPEN_BLOCKS in *.
  assert (GET_INODE_BLOCK_NO i sb = sb_inode_start sb + i / 7) as E
    by (unfold GET_INODE_BLOCK_NO, INODES_PER_BLOCK; apply u32_small; ulia).
  assert (forall j, is_data sb j -> GET_INODE_BLOCK_NO i sb <> bmap_block sb j /\
            GET_INODE_BLOCK_NO i sb <> data_block sb j) as Hd.
  { intros j Hj. rewrite E. unfold is_data in Hj. unfold bmap_block, data_block, BITS_PER_BLOCK in *.
    assert (0 <= j / 4096) by (apply Z.div_pos; lia).
    assert (0 <= sb_bmap_bytes sb * 8 / 4096) by (apply Z.div_pos; lia). lia. }
  split; [done|]. split.
  - rewrite E. unfold loggable, home, LOG_SIZE, MAX_OPEN_BLOCKS. ulia.
  - intros v j Hj. split_and!; [by apply Hd|by apply Hd|]. split; intros k Hk; [by apply Hd|]. intros _. by apply Hd.
Qed.

(** [inode_update] inside a transaction. *)
Lemma inode_update_spec sb ip i s :
  layout sb -> 0 <= ip -> icache s !! Z.to_nat ip = Some i -> tx (fl s) ->
  log_start (lg (fl s)) = sb_log_start sb -> 0 <= inum i < sb_ninodes sb ->
  length (addrs (disk_inode i)) = 12%nat ->
  let b := GET_INODE_BLOCK_NO (inum i) sb in
  b ∉ held (bs (fl s)) -> (size (held (bs (fl s))) < MAXHELD)%nat -> cap (fl s) 1 ->
  exists f, inode_update sb ip s = Ok (tt, Ist f (icache s) (curtask s)) /\
    logged [(b, put_dinode (view (bs (fl s)) b) (slot_of (inum i)) (disk_inode i))] (fl s) f /\
    held (bs f) = held (bs (fl s)).
Proof.
  intros Hla Hip Hget Ht Hst Hin Hlen b Hb Hsz Hc.
  destruct (inode_block_eq sb (inum i) Hla Hin) as (_ & Hlog & _). fold b in Hlog.
  destruct (tx_read (fl s) b Ht Hb Hsz) as (f1 & E1 & L1 & H1).
  destruct (tx_update_release f1 b (put_dinode (view (bs (fl s)) b) (slot_of (inum i)) (disk_inode i)) (lw_tx _ _ _ L1))
    as (f2 & E2 & L2 & H2).
  { rewrite H1. set_solver. }
  { by rewrite (proj1 (lw_log _ _ _ L1)), Hst. }
  { apply put_dinode_ok; [apply (t_block _ Ht)|apply slot_of_lt|done]. }
  { eapply logged_cap; [exact L1|exact Hc|simpl; lia]. }
  exists f2. split; [|split].
  - unfold inode_update. rewrite (bind_Ok _ _ _ _ _ (get_inode_Ok _ _ _ Hip Hget)). cbv zeta. fold b.
    rewrite (bind_Ok _ _ _ _ _ (bio_Ok _ s _ _ E1)).
    pose proof (upd_rel_ist (Ist f1 (icache s) (curtask s)) b _ f2 E2 (mret tt)) as R. simpl in R.
    unfold mbind, M_bind in R |- *. destruct (bio (buf_store _ _) _) as [[[] ?]| |]; try done.
  - change (logged ([] ++ [(b, put_dinode (view (bs (fl s)) b) (slot_of (inum i)) (disk_inode i))]) (fl s) f2).
    by eapply logged_app.
  - rewrite H2, H1. set_solver.
Qed.

(** *** Files *)

(** The invariant of an open file: its blocks are its own, every block below its
    size is there, and its inode can be stored. *)
Record file_inv (sb : superblock) (ip : Z) (i : inode) (s : ist) : Prop := {
  fi_pre : file_pre sb ip i s;
  fi_size : 0 <= dsize (disk_inode i) <= MAX_DATA_BLOCKS * BSIZE;
  fi_there : forall bn, 0 <= bn -> bn * BSIZE < dsize (disk_inode i) ->
    slot (view (bs (fl s))) (disk_inode i) (bslot bn) <> 0;
  fi_dinode : dinode_ok (disk_inode i);
  fi_inum : 0 <= inum i < sb_ninodes sb;
  fi_iblock : GET_INODE_BLOCK_NO (inum i) sb ∉ held (bs (fl s));
}.

Lemma file_inv_read sb ip i s n :
  file_inv sb ip i s -> n <= dsize (disk_inode i) -> read_pre ip i n s.
Proof.
  intros [F1 F2 F3 F4 F5 F6] Hn. pose proof F1 as [P1 P2 P3 P4 P5 P6]. split; try done.
  - apply P4.
  - apply (so_tx _ _ P3).
  - apply tx_has_room, (so_tx _ _ P3).
  - lia.
  - intros bn Hb Hlt. apply F3; [done|lia].
Qed.

(** A change that keeps the inode keeps the file. *)
Lemma file_inv_step sb ip w g i s s' : file_inv sb ip i s -> fstep sb ip w 0 g i s i s' -> file_inv sb ip i s'.
Proof.
  intros [F1 F2 F3 F4 F5 F6] S. split; [apply S|done| |done|done|by rewrite (bm_held _ _ _ _ _ _ _ _ _ S)].
  intros bn Hbn Hlt. assert (0 <= bn < MAX_DATA_BLOCKS) as Hr by (unfold BSIZE in *; lia). destruct (bslot_lt _ Hr) as [Hk _].
  rewrite (bm_mono _ _ _ _ _ _ _ _ _ S); [by apply F3|done|by apply F3].
Qed.

(** A change of the inode block outside of the file. *)
Lemma file_pre_outside sb ip i s b d f ic :
  layout sb -> file_pre sb ip i s ->
  (forall j, is_data sb j -> b <> bmap_block sb j /\ b <> data_block sb j) ->
  logged [(b, d)] (fl s) f -> held (bs f) = held (bs (fl s)) ->
  ic !! Z.to_nat ip = Some i ->
  file_pre sb ip i (Ist f ic (curtask s)) /\
  (forall k, (k < NSLOTS)%nat ->
     slot (view (bs f)) (disk_inode i) k = slot (view (bs (fl s))) (disk_inode i) k) /\
  (forall k, 0 <= k < MAX_DATA_BLOCKS * BSIZE ->
     fbyte (view (bs f)) (disk_inode i) k = fbyte (view (bs (fl s))) (disk_inode i) k).
Proof.
  intros Hla Hp Hb L Hh Hic. pose proof Hp as [P1 P2 P3 P4 P5 P6]. set (v := view (bs (fl s))) in *.
  assert (forall x, view (bs f) x = if decide (x = b) then d else v x) as Hv by (intros x; rewrite (lw_view _ _ _ L); done).
  assert (forall k, (k < NSLOTS)%nat -> slot v (disk_inode i) k <> 0 -> view (bs f) (slot v (disk_inode i) k) = v (slot v (disk_inode i) k)) as Hsame.
  { intros k Hk Hn. rewrite Hv, decide_False; [done|]. destruct (fw_data _ _ _ P4 k Hk Hn) as (j & J1 & J2 & ->).
    intros Heq. by apply (Hb j J1). }
  assert (forall k, (k < NSLOTS)%nat -> slot (view (bs f)) (disk_inode i) k = slot v (disk_inode i) k) as Hsl.
  { intros k Hk'. unfold slot at 1 2. destruct (Nat.ltb_spec k 12); [done|]. cbv zeta.
    destruct (Z.eqb_spec (addrs (disk_inode i) !!! 11%nat) 0) as [|Hn]; [done|].
    f_equal. apply (Hsame 11%nat); [unfold NSLOTS; lia|done]. }
  assert (forall j, is_data sb j -> used sb (view (bs f)) j = used sb v j) as Hu.
  { intros j Hj. apply used_ext. rewrite Hv, decide_False; [done|]. intros Heq. destruct (Hb j Hj) as [Hne _]. congruence. }
  split_and!; [|done|].
  - split; simpl; try done.
    + destruct P3 as [S1 S2 S3 S4 S5]. split; rewrite ?Hh; try done; [apply L|by rewrite (proj1 (lw_log _ _ _ L))|].
      intros j Hj. rewrite Hu by done. by apply S5.
    + destruct P4 as [W1 W2 W3]. split; [done|..].
      * intros k Hk'. rewrite Hsl by done. intros Hn. destruct (W2 k Hk' Hn) as (j & J1 & J2 & J3). exists j.
        by rewrite Hu.
      * intros k k' Hk1 Hk2. rewrite !Hsl by done. by apply W3.
    + intros k Hk'. rewrite Hsl, Hh by done. by apply P5.
    + by rewrite Hh.
  - intros k Hk. apply fbyte_ext. pose proof (block_range k Hk) as Hbr. destruct (bslot_lt _ Hbr) as [Hk1 _].
    unfold fblock. cbv zeta. rewrite Hsl by done.
    destruct (Z.eqb_spec (slot v (disk_inode i) (bslot (k / BSIZE))) 0); [done|]. by apply Hsame.
Qed.

(** Setting the size in memory. *)
Lemma file_pre_size sb ip i s n :
  file_pre sb ip i s ->
  let i' := set_dinode (set_dsize n (disk_inode i)) i in
  file_pre sb ip i' (Ist (fl s) (<[Z.to_nat ip := i']> (icache s)) (curtask s)).
Proof.
  intros [P1 P2 P3 [W1 W2 W3] P5 P6] i'. split; simpl; try done.
  apply list_lookup_insert_eq. by eapply lookup_lt_Some.
Qed.

Lemma wf_addrs sb v d : layout sb -> file_wf sb v d -> Forall is_u32 (addrs d) /\ length (addrs d) = 12%nat.
Proof.
  intros Hla [W1 W2 W3]. split; [|done]. apply Forall_lookup. intros k x Hk.
  pose proof (lookup_lt_Some _ _ _ Hk) as Hlt.
  assert (slot v d k = x) as E.
  { unfold slot. rewrite (proj2 (Nat.ltb_lt _ _)) by lia. by apply list_lookup_total_correct. }
  destruct (Z.eq_dec x 0) as [->|Hn]; [ulia|].
  destruct (W2 k) as (j & J1 & J2 & J3); [unfold NSLOTS; lia|congruence|].
  rewrite <- E, J3. by apply data_block_loggable.
Qed.

Lemma dinode_ok_size d n : dinode_ok d -> is_u32 n -> dinode_ok (set_dsize n d).
Proof. intros [D1 D2 D3 D4 D5 D6] Hn. by split. Qed.

(** The file gets a new size, and its inode is written. *)
Lemma grow_size sb ip i s n : layout sb -> file_pre sb ip i s -> dinode_ok (disk_inode i) -> is_u32 n -> 0 <= inum i < sb_ninodes sb ->
  let b := GET_INODE_BLOCK_NO (inum i) sb in
  let i' := set_dinode (set_dsize n (disk_inode i)) i in
  b ∉ held (bs (fl s)) -> cap (fl s) 1 ->
  exists f, (upd_dinode ip (set_dsize n);; inode_update sb ip) s = Ok (tt, Ist f (<[Z.to_nat ip := i']> (icache s)) (curtask s)) /\
    file_pre sb ip i' (Ist f (<[Z.to_nat ip := i']> (icache s)) (curtask s)) /\
    logged [(b, put_dinode (view (bs (fl s)) b) (slot_of (inum i)) (disk_inode i'))] (fl s) f /\ held (bs f) = held (bs (fl s)) /\
    (forall k, (k < NSLOTS)%nat -> slot (view (bs f)) (disk_inode i') k = slot (view (bs (fl s))) (disk_inode i') k) /\
    (forall k, 0 <= k < MAX_DATA_BLOCKS * BSIZE -> fbyte (view (bs f)) (disk_inode i') k = fbyte (view (bs (fl s))) (disk_inode i') k) /\
    get_dinode (view (bs f) b) (slot_of (inum i)) = disk_inode i' /\ (forall x, x <> b -> view (bs f) x = view (bs (fl s)) x) /\
    (forall j, is_data sb j -> used sb (view (bs f)) j = used sb (view (bs (fl s))) j).
Proof.
  intros Hla Hp Hd Hn Hi b i' Hb Hc. pose proof Hp as [P1 P2 P3 P4 P5 P6].
  set (s2 := Ist (fl s) (<[Z.to_nat ip := i']> (icache s)) (curtask s)).
  assert (file_pre sb ip i' s2) as Hp2 by apply (file_pre_size sb ip i s n Hp). pose proof (dinode_ok_size _ n Hd Hn) as Hd2.
  destruct (inode_update_spec sb ip i' s2 Hla P1 (fp_get _ _ _ _ Hp2) (so_tx _ _ P3) (so_start _ _ P3) Hi ltac:(apply Hd2) Hb ltac:(simpl; lia) Hc)
    as (f & E & L & H).
  change (fl s2) with (fl s) in L, H. change (inum i') with (inum i) in L. fold b in L.
  assert (forall x, view (bs f) x = if decide (x = b) then put_dinode (view (bs (fl s)) b) (slot_of (inum i)) (disk_inode i')
            else view (bs (fl s)) x) as Hv by (intros x; rewrite (lw_view _ _ _ L); done).
  destruct (inode_block_eq sb (inum i) Hla Hi) as (_ & _ & Hdb). fold b in Hdb.
  destruct (file_pre_outside sb ip i' s2 b (put_dinode (view (bs (fl s)) b) (slot_of (inum i)) (disk_inode i')) f (icache s2) Hla Hp2) as (Hp3 & Sl & By); [|exact L|exact H|apply Hp2|].
  { intros j Hj. by destruct (Hdb (view (bs (fl s))) j Hj) as (A & B & _). }
  exists f. split_and!; try done.
  - unfold upd_dinode. erewrite (bind_Ok (upd_inode _ _)); [|by apply upd_inode_Ok; [|exact P2]]. exact E.
  - rewrite Hv, decide_True by done. apply get_put_dinode; [apply (t_block _ (so_tx _ _ P3))|apply slot_of_lt|done].
  - intros x Hx. by rewrite Hv, decide_False.
  - intros j Hj. apply used_ext. rewrite Hv, decide_False; [done|]. destruct (Hdb (view (bs (fl s))) j Hj) as (A & _). congruence.
Qed.

(** The loop inside of the file: every block is there, the inode does not change. *)
Lemma overwrite_loop_spec sb ip i : layout sb -> forall fuel s off (src : list Z),
  file_inv sb ip i s -> 0 <= off -> bytes src -> off + Z.of_nat (length src) <= dsize (disk_inode i) ->
  let t := nturns off (Z.of_nat (length src)) in
  t < Z.of_nat fuel -> cap (fl s) t ->
  exists s' g, inode_write_loop fuel sb ip off src s = Ok (off + Z.of_nat (length src), s') /\
    fstep sb ip (Z.to_nat t) 0 g i s i s' /\ icache s' = icache s /\ file_inv sb ip i s' /\
    bytes_after s s' i i off src.
Proof.
  intros Hla. induction fuel as [|fuel IH]; intros s off src HI Ho Hb Hsz t Hf Hc.
  { pose proof (nturns_nonneg off (Z.of_nat (length src))). unfold t in Hf. lia. }
  pose proof (fi_pre _ _ _ _ HI) as Hp. pose proof (fi_size _ _ _ _ HI) as Hmax.
  simpl. destruct (Z.ltb_spec 0 (Z.of_nat (length src))) as [Hpos|Hpos].
  2: { destruct src; [|simpl in Hpos; lia]. exists s, (fblock (view (bs (fl s))) (disk_inode i)).
       split_and!; [simpl; by rewrite Z.add_0_r| |done|done|intros k Hk; rewrite decide_False; [done|simpl; lia]].
       eapply fstep_weaken; [by apply bmapped_refl|lia|lia|done]. }
  destruct (chunk_bounds off _ Ho Hpos) as [Hc1 Hc2]. pose proof (nturns_next off _ Ho Hpos) as Hnext.
  set (m := chunk off (Z.of_nat (length src))) in *.
  pose proof (nturns_nonneg (off + m) (Z.of_nat (length src) - m)) as Hnn.
  assert (length (take (Z.to_nat m) src) = Z.to_nat m) as Hlt by (rewrite length_take; lia).
  assert (Z.of_nat (length (drop (Z.to_nat m) src)) = Z.of_nat (length src) - m) as Hld by (rewrite length_drop; lia).
  destruct (overwrite_turn sb ip i s off (take (Z.to_nat m) src)
    (inode_write_loop fuel sb ip (off + m) (drop (Z.to_nat m) src)) Hla Hp) as (s1 & g1 & E1 & S1 & Ic1 & F1).
  { apply (file_inv_read sb); [done|lia]. }
  { done. }
  { by apply Forall_take. }
  { rewrite Hlt. lia. }
  { lia. }
  { eapply cap_le; [exact Hc|lia]. }
  pose proof (file_inv_step sb ip _ _ i s s1 HI S1) as HI1.
  destruct (IH s1 (off + m) (drop (Z.to_nat m) src) HI1) as (s2 & g2 & E2 & S2 & Ic2 & HI2 & F2);
    [lia|by apply Forall_drop|rewrite Hld; lia|rewrite Hld; lia|rewrite Hld; eapply fstep_cap; [exact S1|exact Hc|lia]|].
  rewrite Hld in *. exists s2, g2. rewrite E1, E2. split_and!; [do 2 f_equal; lia| |congruence|done|].
  - eapply fstep_weaken; [eapply fstep_trans; [exact S1|exact S2]|lia|lia|done].
  - eapply (bytes_after_app _ _ _ _ _ _ off (off + m)); [exact F1|rewrite Hlt; lia|exact F2|by rewrite take_drop].
Qed.

(** The block of the inode is none of the file's. *)
Lemma inode_block_outside sb ip i s : layout sb -> file_inv sb ip i s ->
  outside sb (view (bs (fl s))) (disk_inode i) (GET_INODE_BLOCK_NO (inum i) sb).
Proof.
  intros Hla [F1 F2 F3 F4 F5 F6]. destruct (inode_block_eq sb (inum i) Hla F5) as (_ & _ & Hd).
  set (b := GET_INODE_BLOCK_NO (inum i) sb) in *. pose proof (fp_wf _ _ _ _ F1) as W.
  assert (forall j, is_data sb j -> b <> bmap_block sb j /\ b <> data_block sb j) as Hne.
  { intros j Hj. destruct (Hd (view (bs (fl s))) j Hj) as (A & B & _). done. }
  split; [split; [intros j Hj|intros j Hj _]; destruct (Hne j Hj); congruence|].
  intros k Hk Hn. destruct (fw_data _ _ _ W k Hk Hn) as (j & J1 & _ & ->). destruct (Hne j J1). congruence.
Qed.

(** [inode_write] inside of the file: the inode is not touched, no block is allocated, and
    the log needs no more than the blocks written. *)
Lemma inode_overwrite_spec `{Devices} sb ip i s src off :
  layout sb -> file_inv sb ip i s -> type (disk_inode i) <> INODE_DEVICE ->
  0 <= off -> bytes src ->
  let n := Z.of_nat (length src) in let t := nturns off n in
  off + n <= dsize (disk_inode i) -> cap (fl s) t ->
  exists s' g, inode_write sb ip src off s = Ok (n, s') /\ file_inv sb ip i s' /\
    fstep sb ip (Z.to_nat t) 0 g i s i s' /\ icache s' = icache s /\ bytes_after s s' i i off src.
Proof.
  intros Hla HI Hdev Hoff Hb n t Hsz Hc. pose proof HI as [F1 F2 F3 F4 F5 F6]. pose proof F1 as [P1 P2 P3 P4 P5 P6].
  assert (off + n < 2 ^ 31) as Hsmall by (unfold MAX_DATA_BLOCKS, NDIRECT_DATA_BLOCKS, NINDIRECT_DATA_BLOCKS, BSIZE in *; lia).
  assert (u32 (off + n) = off + n) as Eu by (apply u32_small; ulia).
  destruct (overwrite_loop_spec sb ip i Hla (rw_fuel n) s off src HI) as (s1 & g & E1 & S1 & Ic1 & HI1 & B1);
    [lia|done|done|apply nturns_fuel; lia|done|].
  exists s1, g. split_and!; try done. fold n in E1.
  unfold inode_write. rewrite (bind_Ok _ _ _ _ _ (get_inode_Ok _ _ _ P1 P2)). cbv zeta. fold n.
  rewrite (proj2 (Z.eqb_neq _ _)) by done. rewrite Eu, (proj2 (Z.ltb_ge (dsize (disk_inode i)) off)) by lia.
  rewrite (proj2 (Z.ltb_ge (off + n) off)) by lia. change (false || false) with false. cbv iota.
  rewrite (proj2 (Z.ltb_ge (MAX_DATA_BLOCKS * BSIZE) (off + n))) by lia.
  rewrite (bind_Ok _ _ _ _ _ E1). rewrite (bind_Ok _ _ _ _ _ (get_inode_Ok _ _ _ P1 (fp_get _ _ _ _ (fi_pre _ _ _ _ HI1)))).
  rewrite (proj2 (Z.ltb_ge (dsize (disk_inode i)) (off + n))) by lia. rewrite andb_false_r.
  by rewrite (i32_small n) by ulia.
Qed.

Lemma inode_write_spec `{Devices} sb ip i s src off :
  layout sb -> file_inv sb ip i s -> type (disk_inode i) <> INODE_DEVICE ->
  0 <= off <= dsize (disk_inode i) -> bytes src ->
  let n := Z.of_nat (length src) in let t := nturns off n in
  off + n <= MAX_DATA_BLOCKS * BSIZE -> cap (fl s) (6 * t + 1) ->
  2 * t <= Z.of_nat (nfree sb (view (bs (fl s)))) ->
  let b := GET_INODE_BLOCK_NO (inum i) sb in
  exists i' s', inode_write sb ip src off s = Ok (n, s') /\
    file_inv sb ip i' s' /\ icache s' = <[Z.to_nat ip := i']> (icache s) /\
    (type (disk_inode i') = type (disk_inode i) /\ i' = set_dinode (disk_inode i') i /\ curtask s' = curtask s) /\
    dsize (disk_inode i') = Z.max (dsize (disk_inode i)) (off + n) /\
    (forall k, 0 <= k < MAX_DATA_BLOCKS * BSIZE ->
       fbyte (view (bs (fl s'))) (disk_inode i') k =
         if decide (off <= k < off + n) then src !!! Z.to_nat (k - off)
         else fbyte (view (bs (fl s))) (disk_inode i) k) /\
    (forall x, outside sb (view (bs (fl s))) (disk_inode i) x -> x <> b ->
       view (bs (fl s')) x = view (bs (fl s)) x) /\
    (dsize (disk_inode i) < off + n \/ get_dinode (view (bs (fl s)) b) (slot_of (inum i)) = disk_inode i ->
       get_dinode (view (bs (fl s')) b) (slot_of (inum i)) = disk_inode i') /\
    (exists ws, logged ws (fl s) (fl s')) /\ held (bs (fl s')) = held (bs (fl s)) /\
    (nfree sb (view (bs (fl s))) <= nfree sb (view (bs (fl s'))) + 2 * Z.to_nat t)%nat.
Proof.
  intros Hla HI Hdev Hoff Hb n t Hmax Hc Hn b. pose proof (nturns_nonneg off n) as Ht0. fold t in Ht0.
  destruct (decide (off + n <= dsize (disk_inode i))) as [Hin|Hgrow].
  { destruct (inode_overwrite_spec sb ip i s src off Hla HI Hdev ltac:(lia) Hb Hin) as (s' & g & E & HI' & S & Ic & By);
      [eapply cap_le; [exact Hc|fold n t; lia]|]. destruct (bm_log _ _ _ _ _ _ _ _ _ S) as (ws & L & _).
    exists i, s'. split_and!; try done; [| | |lia|..].
    - rewrite Ic. symmetry. apply list_insert_id, HI.
    - by destruct i.
    - by apply (bm_icache _ _ _ _ _ _ _ _ _ S).
    - intros x Hx _. by apply (bm_frame _ _ _ _ _ _ _ _ _ S).
    - intros [?|Hst]; [lia|]. by rewrite (proj2 (bm_frame _ _ _ _ _ _ _ _ _ S b (inode_block_outside sb ip i s Hla HI))).
    - by exists ws.
    - apply S.
    - pose proof (bm_free _ _ _ _ _ _ _ _ _ S). lia. }
  assert (dsize (disk_inode i) < off + n) as Hg by lia. clear Hgrow. pose proof HI as [F1 F2 F3 F4 F5 F6].
  pose proof F1 as [P1 P2 P3 P4 P5 P6].
  assert (off + n < 2 ^ 31) as Hsmall by (unfold MAX_DATA_BLOCKS, NDIRECT_DATA_BLOCKS, NINDIRECT_DATA_BLOCKS, BSIZE in *; lia).
  assert (u32 (off + n) = off + n) as Eu by (apply u32_small; ulia).
  destruct (inode_write_loop_spec sb ip Hla (rw_fuel n) i s off src F1) as (i1 & s1 & g & E1 & S1 & B1 & N1);
    [lia|done|done|apply nturns_fuel; lia|eapply cap_le; [exact Hc|fold n t; lia]|done|].
  fold n t in E1, S1, B1, N1. pose proof (bm_pre _ _ _ _ _ _ _ _ _ S1) as Hp1.
  destruct (bm_meta _ _ _ _ _ _ _ _ _ S1) as (M0 & M1 & M2 & M3 & M4 & M5).
  destruct (bm_icache _ _ _ _ _ _ _ _ _ S1) as [Ic1 Cur1]. pose proof (bm_held _ _ _ _ _ _ _ _ _ S1) as Hh1.
  destruct (bm_log _ _ _ _ _ _ _ _ _ S1) as (ws1 & L1 & Hw1).
  assert (inum i1 = inum i) as Hinum by (by rewrite M0).
  assert (forall bn, 0 <= bn -> bn * BSIZE < Z.max (dsize (disk_inode i)) (off + n) ->
            slot (view (bs (fl s1))) (disk_inode i1) (bslot bn) <> 0) as There.
  { intros bn Hbn Hlt. destruct (decide (bn * BSIZE < dsize (disk_inode i))) as [Hd|Hd].
    - assert (0 <= bn < MAX_DATA_BLOCKS) as Hr by (unfold BSIZE in *; lia). destruct (bslot_lt _ Hr) as [Hk _].
      rewrite (bm_mono _ _ _ _ _ _ _ _ _ S1); [by apply F3|done|by apply F3].
    - rewrite <- (Z.div_mul bn BSIZE) by done. apply N1. lia. }
  assert (dinode_ok (disk_inode i1)) as Dok1.
  { destruct F4 as [D1 D2 D3 D4 D5 D6]. split; [congruence..|]. eapply wf_addrs; [done|]. apply (fp_wf _ _ _ _ Hp1). }
  unfold inode_write. rewrite (bind_Ok _ _ _ _ _ (get_inode_Ok _ _ _ P1 P2)). cbv zeta. fold n.
  rewrite (proj2 (Z.eqb_neq _ _)) by done. rewrite Eu, (proj2 (Z.ltb_ge (dsize (disk_inode i)) off)) by lia.
  rewrite (proj2 (Z.ltb_ge (off + n) off)) by lia. change (false || false) with false. cbv iota.
  rewrite (proj2 (Z.ltb_ge (MAX_DATA_BLOCKS * BSIZE) (off + n))) by lia.
  rewrite (bind_Ok _ _ _ _ _ E1). pose proof (fp_get _ _ _ _ Hp1) as G1.
  rewrite (bind_Ok _ _ _ _ _ (get_inode_Ok _ _ _ P1 G1)). rewrite M3.
  rewrite (i32_small n) by ulia.
  rewrite (proj2 (Z.ltb_lt (dsize (disk_inode i)) (off + n)) Hg). rewrite (proj2 (Z.ltb_lt 0 n)) by lia. change (true && true) with true. cbv iota.
  destruct (grow_size sb ip i1 s1 (off + n) Hla Hp1 Dok1) as (f & Er & Hp3 & L3 & H3 & Sl3 & By3 & Ge3 & Fr3 & U3);
    [ulia|by rewrite Hinum|by rewrite Hinum, Hh1|by eapply fstep_cap; [exact S1|exact Hc|lia]|].
  rewrite Hinum in L3, Ge3, Fr3. set (i2 := set_dinode (set_dsize (off + n) (disk_inode i1)) i1) in *.
  exists i2, (Ist f (<[Z.to_nat ip := i2]> (icache s1)) (curtask s1)). rewrite (bind_Ok _ _ _ _ _ Er). split_and!; try done.
  - split; simpl; [exact Hp3|lia| |by apply dinode_ok_size; [|ulia]|by rewrite Hinum|by rewrite H3, Hinum, Hh1].
    intros bn Hbn Hlt. rewrite Sl3; [|apply bslot_lt; unfold BSIZE in *; lia]. apply There; [done|lia].
  - simpl. by rewrite Ic1, list_insert_insert_eq.
  - unfold i2. rewrite M0. done.
  - simpl. lia.
  - intros k Hk. simpl. rewrite <- B1 by done. rewrite By3 by done. by apply fbyte_ext.
  - intros x Hx Hxb. simpl. rewrite Fr3 by done. apply (bm_frame _ _ _ _ _ _ _ _ _ S1 x Hx).
  - eexists (ws1 ++ _). simpl. by eapply logged_app.
  - simpl. by rewrite H3, Hh1.
  - simpl. rewrite (nfree_ext sb (view (bs (fl s1))) (view (bs f)) U3). apply S1.
Qed.

Lemma inode_read_spec `{Devices} sb ip i s off n :
  read_pre ip i (dsize (disk_inode i)) s -> type (disk_inode i) <> INODE_DEVICE ->
  0 <= off <= dsize (disk_inode i) -> 0 <= n -> off + n < 2 ^ 32 ->
  let m := Z.min n (dsize (disk_inode i) - off) in
  exists s', inode_read sb ip off n s =
      Ok ((m, frange (view (bs (fl s))) (disk_inode i) off m), s') /\ seen s s'.
Proof.
  intros Hp Hdev Hoff Hn Hov m. pose proof Hp as [R1 R2 R3 R4 R5 R6 R7 R8].
  unfold inode_read. rewrite (bind_Ok _ _ _ _ _ (get_inode_Ok _ _ _ R1 R2)). cbv zeta.
  rewrite (proj2 (Z.eqb_neq _ _)) by done. rewrite (u32_small (off + n)) by ulia.
  rewrite (proj2 (Z.ltb_ge (dsize (disk_inode i)) off)) by lia.
  rewrite (proj2 (Z.ltb_ge (off + n) off)) by lia. change (false || false) with false. cbv iota.
  assert ((if dsize (disk_inode i) <? off + n then dsize (disk_inode i) - off else n) = m) as ->.
  { unfold m. destruct (Z.ltb_spec (dsize (disk_inode i)) (off + n)); lia. }
  destruct (inode_read_loop_spec sb ip i (dsize (disk_inode i)) (rw_fuel m) s off m [] Hp) as (s' & E & S1);
    [lia|lia|lia|apply nturns_fuel; lia|].
  exists s'. split; [|done]. rewrite (bind_Ok _ _ _ _ _ E).
  rewrite (i32_small m); [done|]. unfold MAX_DATA_BLOCKS, NDIRECT_DATA_BLOCKS, NINDIRECT_DATA_BLOCKS, BSIZE in *. ulia.
Qed.

(** *** The cache of inodes *)

(** No inode is in two entries in use, references are counted from 0. *)
Record icache_ok (c : list inode) : Prop := {
  ic_len : length c = Z.to_nat (NINODES + 1);
  ic_ref : forall k e, c !! k = Some e -> 0 <= ref e;
  ic_uniq : forall k k' e e', (k < Z.to_nat NINODES)%nat -> (k' < Z.to_nat NINODES)%nat ->
    c !! k = Some e -> c !! k' = Some e' -> 0 < ref e -> 0 < ref e' -> inum e = inum e' -> k = k';
}.

Lemma iget_scan_spec i n : forall (l : list inode) ip empty,
  (n <= length l)%nat ->
  match iget_scan n ip l i empty with
  | inl p => exists k e, (k < n)%nat /\ p = ip + Z.of_nat k /\ l !! k = Some e /\ 0 < ref e /\ inum e = i
  | inr r => (forall k e, (k < n)%nat -> l !! k = Some e -> 0 < ref e -> inum e <> i) /\
      match empty with
      | Some _ => r = empty
      | None => match r with
                | Some p => exists k e, (k < n)%nat /\ p = ip + Z.of_nat k /\ l !! k = Some e /\ ref e = 0
                | None => forall k e, (k < n)%nat -> l !! k = Some e -> ref e <> 0
                end
      end
  end.
Proof.
  induction n as [|n IH]; intros l ip empty Hl; simpl.
  { split; [lia|]. destruct empty; [done|]. lia. }
  destruct l as [|x l]; [simpl in Hl; lia|]. simpl in Hl.
  destruct ((0 <? ref x) && (inum x =? i)) eqn:E.
  { bprop. exists 0%nat, x. split_and!; [lia|lia|done|done|done]. }
  assert (0 < ref x -> inum x <> i) as Hx.
  { intros Hr Hi. rewrite (proj2 (Z.ltb_lt _ _)), (proj2 (Z.eqb_eq _ _)) in E by done. done. }
  set (empty' := match empty with None => if ref x =? 0 then Some ip else None | Some _ => empty end).
  specialize (IH l (ip + 1) empty' ltac:(lia)). destruct (iget_scan n (ip + 1) l i empty') as [p|r].
  - destruct IH as (k & e & H1 & H2 & H3 & H4 & H5). exists (S k), e. split_and!; [lia|lia|done|done|done].
  - destruct IH as [H1 H2]. split.
    { intros k e Hk Hke. destruct k as [|k]; simpl in Hke; [by injection Hke as <-|]. apply (H1 k); [lia|done]. }
    subst empty'. destruct empty as [p|]; [done|]. destruct (Z.eqb_spec (ref x) 0) as [Hz|Hz].
    + subst r. exists 0%nat, x. split_and!; [lia|lia|done|done].
    + destruct r as [p|].
      * destruct H2 as (k & e & K1 & K2 & K3 & K4). exists (S k), e. split_and!; [lia|lia|done|done].
      * intros k e Hk Hke. destruct k as [|k]; simpl in Hke; [by injection Hke as <-|]. apply (H2 k); [lia|done].
Qed.

(** ** Theorems *)

(** [iget] keeps one entry per inode.  On a well-formed cache it returns the entry
    in use for the inode with one more reference, or else the first free entry, now
    with one reference and not yet read from the drive; the cache stays well formed
    and no other entry changes.  It stops at the assertion only when all 50 entries
    are in use by other inodes. *)
Theorem iget_one_entry s i :
  icache_ok (icache s) ->
  (exists p e e' s', iget i s = Ok (p, s') /\ 0 <= p < NINODES /\ icache s !! Z.to_nat p = Some e /\
     icache s' = <[Z.to_nat p := e']> (icache s) /\ icache_ok (icache s') /\ fl s' = fl s /\ curtask s' = curtask s /\
     inum e' = i /\
     ((0 < ref e /\ inum e = i /\ e' = set_ref (ref e + 1) e) \/
      (ref e = 0 /\ ref e' = 1 /\ valid e' = false /\ isem e' = isem e /\
       forall k x, (k < Z.to_nat NINODES)%nat -> icache s !! k = Some x -> 0 < ref x -> inum x <> i)))
  \/ (iget i s = Panic /\
      forall k x, (k < Z.to_nat NINODES)%nat -> icache s !! k = Some x -> 0 < ref x /\ inum x <> i).
Proof.
  intros [C1 C2 C3].
  assert (Z.to_nat NINODES <= length (icache s))%nat as Hlen by (rewrite C1; unfold NINODES; lia).
  pose proof (iget_scan_spec i (Z.to_nat NINODES) (icache s) 0 None Hlen) as H.
  unfold iget. rewrite (bind_Ok _ _ _ s s) by done.
  destruct (iget_scan (Z.to_nat NINODES) 0 (icache s) i None) as [p|[p|]].
  - left. destruct H as (k & e & K1 & K2 & K3 & K4 & K5). rewrite Z.add_0_l in K2. subst p.
    exists (Z.of_nat k), e, (set_ref (ref e + 1) e). eexists. rewrite Nat2Z.id. split_and!.
    + erewrite bind_Ok; [|apply upd_inode_Ok; [lia|by rewrite Nat2Z.id]]. reflexivity.
    + lia.
    + unfold NINODES in *. lia.
    + done.
    + simpl. by rewrite Nat2Z.id.
    + simpl. rewrite Nat2Z.id. split; [by rewrite length_insert| |].
      * intros k' x Hx. apply list_lookup_insert_Some in Hx as [(-> & <- & _)|[_ Hx]]; [simpl; lia|eauto].
      * intros k1 k2 x y Hk1 Hk2 Hx Hy.
        apply list_lookup_insert_Some in Hx as [(-> & <- & _)|[? Hx]];
          apply list_lookup_insert_Some in Hy as [(E & <- & _)|[? Hy]]; subst; try done; simpl; intros ???.
        -- by apply (C3 k1 k2 e y).
        -- by apply (C3 k1 k2 x e).
        -- by apply (C3 k1 k2 x y).
    + done.
    + done.
    + done.
    + left. done.
  - left. destruct H as [Hno (k & e & K1 & K2 & K3 & K4)]. rewrite Z.add_0_l in K2. subst p.
    exists (Z.of_nat k), e, (MkInode i 1 (isem e) false (disk_inode e)). eexists. rewrite Nat2Z.id. split_and!.
    + erewrite bind_Ok; [|apply upd_inode_Ok; [lia|by rewrite Nat2Z.id]]. reflexivity.
    + lia.
    + unfold NINODES in *. lia.
    + done.
    + simpl. by rewrite Nat2Z.id.
    + simpl. rewrite Nat2Z.id. split; [by rewrite length_insert| |].
      * intros k' x Hx. apply list_lookup_insert_Some in Hx as [(-> & <- & _)|[_ Hx]]; [simpl; lia|eauto].
      * intros k1 k2 x y Hk1 Hk2 Hx Hy.
        apply list_lookup_insert_Some in Hx as [(-> & <- & _)|[? Hx]];
          apply list_lookup_insert_Some in Hy as [(E & <- & _)|[? Hy]]; subst; try done; simpl; intros ?? Heq.
        -- exfalso. eapply (Hno k2 y); [done|done|done|by symmetry].
        -- exfalso. eapply (Hno k1 x); done.
        -- by apply (C3 k1 k2 x y).
    + done.
    + done.
    + done.
    + right. done.
  - right. split; [done|]. destruct H as [Hno Hnz]. intros k x Hk Hx. pose proof (C2 k x Hx). pose proof (Hnz k x Hk Hx).
    split; [lia|]. apply (Hno k x); [done|done|lia].
Qed.

(** an inode stored in its block is read back unchanged, and storing it changes
    no other inode of the block. *)
Theorem dinode_roundtrip data sl sl' d :
  block_ok data -> (sl < 7)%nat -> (sl' < 7)%nat -> dinode_ok d ->
  get_dinode (put_dinode data sl d) sl' = (if decide (sl' = sl) then d else get_dinode data sl') /\
  block_ok (put_dinode data sl d).
Proof.
  intros Hb Hs Hs' Hd. split; [|apply put_dinode_ok; [done|done|apply Hd]].
  case_decide as D; [subst; by apply get_put_dinode; [apply Hb|..]|].
  apply get_put_dinode_ne; [apply Hb|done|done|congruence|apply Hd].
Qed.

(** What a write of [n] bytes at [off] may need: inside of the file the room in the log for
    the blocks it touches; beyond its end also for the blocks and the bitmaps and indirect
    blocks of new ones and for the inode, and two free blocks for each block it touches.
    Where they run out the code stops the machine ([log_write], [balloc]). *)
Definition write_room (sb : superblock) (i : inode) (s : ist) (off n : Z) : Prop :=
  (off + n <= dsize (disk_inode i) /\ cap (fl s) (nturns off n)) \/
  (cap (fl s) (6 * nturns off n + 1) /\ 2 * nturns off n <= Z.of_nat (nfree sb (view (bs (fl s))))).

(** C4: [inode_write] of a file.  A write that starts within the file and ends within
    the largest size is given this room: when it ends inside of the file, one free place in
    the log for each block that it touches; when it ends beyond, six places for each of
    them and one more, and two free blocks for each of them (the code stops the machine
    where the log or the drive is full).  It then returns the number of bytes, and afterwards
    the bytes written are the file's bytes at that position, every other byte of the file
    is as before, the size is the larger of the old one and the end of the write, the
    stored inode agrees with the one in memory when the file grew or when it did before,
    no block outside the file, its inode block, the bitmap and the free blocks has
    changed, and the file is well formed again. *)
Theorem inode_write_correct `{Devices} sb ip i s src off :
  layout sb -> file_inv sb ip i s -> type (disk_inode i) <> INODE_DEVICE ->
  0 <= off <= dsize (disk_inode i) -> bytes src ->
  off + Z.of_nat (length src) <= MAX_DATA_BLOCKS * BSIZE ->
  write_room sb i s off (Z.of_nat (length src)) ->
  let n := Z.of_nat (length src) in
  let b := GET_INODE_BLOCK_NO (inum i) sb in
  exists i' s', inode_write sb ip src off s = Ok (n, s') /\
    file_inv sb ip i' s' /\ icache s' = <[Z.to_nat ip := i']> (icache s) /\
    dsize (disk_inode i') = Z.max (dsize (disk_inode i)) (off + n) /\
    (forall k, 0 <= k < MAX_DATA_BLOCKS * BSIZE ->
       fbyte (view (bs (fl s'))) (disk_inode i') k =
         if decide (off <= k < off + n) then src !!! Z.to_nat (k - off)
         else fbyte (view (bs (fl s))) (disk_inode i) k) /\
    (forall x, outside sb (view (bs (fl s))) (disk_inode i) x -> x <> b ->
       view (bs (fl s')) x = view (bs (fl s)) x) /\
    (dsize (disk_inode i) < off + n \/ get_dinode (view (bs (fl s)) b) (slot_of (inum i)) = disk_inode i ->
       get_dinode (view (bs (fl s')) b) (slot_of (inum i)) = disk_inode i') /\
    disk (bs (fl s')) = disk (bs (fl s)).
Proof.
  intros Hla Hi Hd Ho Hb Hm [[Hin Hc]|[Hc Hn]] n b.
  - destruct (inode_overwrite_spec sb ip i s src off Hla Hi Hd ltac:(lia) Hb Hin Hc) as (s' & g & E & HI' & S & Ic & By).
    destruct (bm_log _ _ _ _ _ _ _ _ _ S) as (ws & L & _).
    exists i, s'. fold n in Hin. split_and!; try done; [| |..|apply L].
    + rewrite Ic. symmetry. apply list_insert_id, Hi.
    + lia.
    + intros x Hx _. by apply (bm_frame _ _ _ _ _ _ _ _ _ S).
    + intros [?|Hst]; [lia|]. by rewrite (proj2 (bm_frame _ _ _ _ _ _ _ _ _ S b (inode_block_outside sb ip i s Hla Hi))).
  - destruct (inode_write_spec sb ip i s src off Hla Hi Hd Ho Hb Hm Hc Hn)
      as (i' & s' & E & F & Ic & _ & Sz & By & Fr & St & (ws & L) & _).
    exists i', s'. split_and!; try done. apply L.
Qed.

(** C11: [inode_read] of a file returns the bytes of the file from the offset on, as
    many as were asked for or as there are up to the size, and changes nothing but
    which blocks are cached. *)
Theorem inode_read_correct `{Devices} sb ip i s off n :
  read_pre ip i (dsize (disk_inode i)) s -> type (disk_inode i) <> INODE_DEVICE ->
  0 <= off <= dsize (disk_inode i) -> 0 <= n -> off + n < 2 ^ 32 ->
  let m := Z.min n (dsize (disk_inode i) - off) in
  exists s', inode_read sb ip off n s =
      Ok ((m, frange (view (bs (fl s))) (disk_inode i) off m), s') /\ seen s s'.
Proof. intros. by apply inode_read_spec. Qed.

(** what was written is read back: after a successful [inode_write] of [src] at
    [off], an [inode_read] of that range returns [src]. *)
Theorem inode_write_read_roundtrip `{Devices} sb ip i s src off :
  layout sb -> file_inv sb ip i s -> type (disk_inode i) <> INODE_DEVICE ->
  0 <= off <= dsize (disk_inode i) -> bytes src ->
  off + Z.of_nat (length src) <= MAX_DATA_BLOCKS * BSIZE ->
  cap (fl s) (6 * nturns off (Z.of_nat (length src)) + 1) ->
  2 * nturns off (Z.of_nat (length src)) <= Z.of_nat (nfree sb (view (bs (fl s)))) ->
  exists s1 s2, inode_write sb ip src off s = Ok (Z.of_nat (length src), s1) /\
    inode_read sb ip off (Z.of_nat (length src)) s1 = Ok ((Z.of_nat (length src), src), s2).
Proof.
  intros Hla Hi Hd Ho Hb Hm Hc Hn.
  destruct (inode_write_spec sb ip i s src off Hla Hi Hd Ho Hb Hm Hc Hn)
    as (i' & s1 & E & F & Ic & (Ty & _) & Sz & By & _).
  destruct (inode_read_spec sb ip i' s1 off (Z.of_nat (length src))) as (s2 & E2 & _).
  - by apply (file_inv_read sb).
  - congruence.
  - lia.
  - lia.
  - unfold MAX_DATA_BLOCKS, NDIRECT_DATA_BLOCKS, NINDIRECT_DATA_BLOCKS, BSIZE in *. lia.
  - exists s1, s2. split; [done|]. rewrite E2. rewrite Z.min_l by lia. do 3 f_equal.
    apply list_eq. intros j. destruct (decide (j < length src)%nat) as [Hj|Hj].
    + rewrite frange_lookup by lia. rewrite By by lia. rewrite decide_True by lia.
      replace (Z.to_nat (off + Z.of_nat j - off)) with j by lia.
      symmetry. by apply list_lookup_lookup_total_lt.
    + rewrite !lookup_ge_None_2; [done|lia|rewrite frange_length; lia].
Qed.

(** the errors of [inode_read] and [inode_write]: an offset beyond the size, a
    range that wraps around 32 bits, and a write beyond the largest file return -1
    and change nothing. *)
Theorem inode_rw_errors `{Devices} sb ip i s src off n :
  0 <= ip -> icache s !! Z.to_nat ip = Some i -> type (disk_inode i) <> INODE_DEVICE ->
  is_u32 off -> is_u32 n -> n = Z.of_nat (length src) ->
  (dsize (disk_inode i) < off \/ 2 ^ 32 <= off + n ->
     inode_read sb ip off n s = Ok ((-1, []), s) /\ inode_write sb ip src off s = Ok (-1, s)) /\
  (MAX_DATA_BLOCKS * BSIZE < off + n -> inode_write sb ip src off s = Ok (-1, s)).
Proof.
  intros Hip Hget Hd Ho Hn0 Hn.
  assert (forall {A} (a b : M ist A), dsize (disk_inode i) < off \/ 2 ^ 32 <= off + n ->
    (if (dsize (disk_inode i) <? off) || (u32 (off + n) <? off) then a else b) = a) as Hcase.
  { intros A a b [H1|H1].
    - by rewrite (proj2 (Z.ltb_lt _ _)).
    - rewrite (proj2 (Z.ltb_lt (u32 (off + n)) off)); [by rewrite orb_true_r|]. ulia. }
  assert (dsize (disk_inode i) < off \/ 2 ^ 32 <= off + n -> inode_write sb ip src off s = Ok (-1, s)) as Hw.
  { intros Hc. unfold inode_write. rewrite (bind_Ok _ _ _ _ _ (get_inode_Ok _ _ _ Hip Hget)). cbv zeta.
    rewrite (proj2 (Z.eqb_neq _ _)) by done. rewrite <- Hn. rewrite Hcase by done. done. }
  split; [intros Hc; split; [|by apply Hw]|].
  - unfold inode_read. rewrite (bind_Ok _ _ _ _ _ (get_inode_Ok _ _ _ Hip Hget)). cbv zeta.
    rewrite (proj2 (Z.eqb_neq _ _)) by done. rewrite Hcase by done. done.
  - intros Hmax. destruct (decide (dsize (disk_inode i) < off \/ 2 ^ 32 <= off + n)) as [Hc|Hc]; [by apply Hw|].
    unfold inode_write. rewrite (bind_Ok _ _ _ _ _ (get_inode_Ok _ _ _ Hip Hget)). cbv zeta.
    rewrite (proj2 (Z.eqb_neq _ _)) by done. rewrite <- Hn. rewrite (u32_small (off + n)) by ulia.
    rewrite (proj2 (Z.ltb_ge (dsize (disk_inode i)) off)) by lia.
    rewrite (proj2 (Z.ltb_ge (off + n) off)) by (unfold is_u32 in *; lia). change (false || false) with false. cbv iota.
    rewrite (proj2 (Z.ltb_lt _ _)) by done. done.
Qed.

(** *** An empty file on a small drive *)

Definition demo_dinode : dinode := Dinode INODE_FILE 1 0 0 0 (replicate 12 0).

Definition demo_inode : inode := MkInode 1 1 (Sem 0 [] (Some 3)) true demo_dinode.

Definition free_inode : inode := MkInode 0 0 (sem_init 1) false (Dinode 0 0 0 0 0 (replicate 12 0)).

Definition demo_ist : ist := Ist demo_fss (demo_inode :: replicate 50 free_inode) 3.

#[local] Instance no_devices : Devices := {| dev_read := fun _ => None; dev_write := fun _ => None |}.

Lemma demo_slot k : slot (view (bs (fl demo_ist))) demo_dinode k = 0.
Proof.
  unfold slot. destruct (Nat.ltb_spec k 12); [|done]. simpl.
  do 12 (destruct k as [|k]; [done|]). lia.
Qed.

Lemma demo_file_inv : file_inv demo_sb 0 demo_inode demo_ist.
Proof.
  split.
  - split; try done.
    + apply demo_search_ok.
    + split; [done| |].
      * intros k _ Hn. exfalso. apply Hn, demo_slot.
      * intros k k' _ _ Hn. exfalso. apply Hn, demo_slot.
    + unfold MAXHELD. vm_compute. lia.
  - vm_compute. split; congruence.
  - simpl. intros bn H1 H2. unfold BSIZE in H2. lia.
  - split; simpl; unfold INODE_FILE; try ulia. split; [|done]. by repeat (apply Forall_cons; split; [ulia|]).
  - vm_compute. split; congruence.
  - apply not_elem_of_empty.
Qed.

Lemma demo_free k e : icache demo_ist !! S k = Some e -> ref e = 0.
Proof.
  intros H. change (replicate 50 free_inode !! k = Some e) in H. by apply lookup_replicate in H as [-> _].
Qed.

Lemma demo_icache_ok : icache_ok (icache demo_ist).
Proof.
  split; [done|..].
  - intros [|k] e Hk; [by injection Hk as <-|]. by rewrite (demo_free k e Hk).
  - intros [|k] [|k'] e e' _ _ Hk Hk' Hr Hr' _; [done|..].
    + rewrite (demo_free _ _ Hk') in Hr'. lia.
    + rewrite (demo_free _ _ Hk) in Hr. lia.
    + rewrite (demo_free _ _ Hk) in Hr. lia.
Qed.

Lemma iget_one_entry_witness :
  exists p s', iget 1 demo_ist = Ok (p, s') /\ 0 <= p < NINODES.
Proof.
  destruct (iget_one_entry demo_ist 1 demo_icache_ok) as [(p & e & e' & s' & H1 & H2 & _)|[_ H]].
  - eauto.
  - destruct (H 0%nat demo_inode) as [_ H']; [unfold NINODES; lia|done|]. by destruct H'.
Defined.

Lemma dinode_roundtrip_witness :
  get_dinode (put_dinode zero_block 3 demo_dinode) 3 = demo_dinode /\
  get_dinode (put_dinode zero_block 3 demo_dinode) 4 = get_dinode zero_block 4.
Proof.
  assert (dinode_ok demo_dinode) as Hd by apply (fi_dinode _ _ _ _ demo_file_inv).
  split.
  - apply (dinode_roundtrip zero_block 3 3 demo_dinode); [apply zero_block_ok|lia|lia|done].
  - apply (dinode_roundtrip zero_block 3 4 demo_dinode); [apply zero_block_ok|lia|lia|done].
Defined.

Lemma inode_write_correct_witness :
  exists i' s', inode_write demo_sb 0 [104; 105] 0 demo_ist = Ok (2, s') /\
    dsize (disk_inode i') = 2 /\ fbyte (view (bs (fl s'))) (disk_inode i') 1 = 105.
Proof.
  destruct (inode_write_correct demo_sb 0 demo_inode demo_ist [104; 105] 0) as
    (i' & s' & E & _ & _ & Sz & By & _).
  - apply demo_layout.
  - apply demo_file_inv.
  - done.
  - simpl. lia.
  - by repeat (apply Forall_cons; split; [ulia|]).
  - by vm_compute.
  - right. split; by vm_compute.
  - exists i', s'. split; [exact E|]. split; [exact Sz|].
    assert (0 <= 1 < MAX_DATA_BLOCKS * BSIZE) as H1 by (vm_compute; split; congruence).
    specialize (By 1 H1). rewrite decide_True in By by (simpl; lia). exact By.
Defined.

Lemma inode_write_read_roundtrip_witness :
  exists s1 s2, inode_write demo_sb 0 [104; 105] 0 demo_ist = Ok (2, s1) /\
    inode_read demo_sb 0 0 2 s1 = Ok ((2, [104; 105]), s2).
Proof.
  apply (inode_write_read_roundtrip demo_sb 0 demo_inode demo_ist [104; 105] 0).
  - apply demo_layout.
  - apply demo_file_inv.
  - done.
  - simpl. lia.
  - by repeat (apply Forall_cons; split; [ulia|]).
  - by vm_compute.
  - by vm_compute.
  - by vm_compute.
Defined.

Lemma inode_read_correct_witness :
  exists s', inode_read demo_sb 0 0 5 demo_ist = Ok ((0, []), s') /\ seen demo_ist s'.
Proof.
  apply (inode_read_correct demo_sb 0 demo_inode demo_ist 0 5).
  - apply (file_inv_read demo_sb); [apply demo_file_inv|lia].
  - done.
  - simpl. lia.
  - lia.
  - lia.
Defined.

Lemma inode_rw_errors_witness :
  inode_read demo_sb 0 9 1 demo_ist = Ok ((-1, []), demo_ist) /\
  inode_write demo_sb 0 [7] 9 demo_ist = Ok (-1, demo_ist).
Proof.
  apply (inode_rw_errors demo_sb 0 demo_inode demo_ist [7] 9 1); [lia|done|done|ulia|ulia|done|].
  left. simpl. lia.
Defined.
End Inode.
