(* ===== verification/Console.v ===== *)
(** The console: src/kernel/device/console.c.

    A task that reads from the console edits a line with the keyboard; the line is kept and
    handed out in the pieces that the readers ask for.  The characters come from
    [keyboard_read] (Keyboard.v): they are a list, in which [None] stands for a read that
    gave up because the task was killed; a task that reads beyond its end waits for good.
    [put_char] is assembly: the characters it was given are collected. *)

From stdpp Require Import base numbers list gmap.
From Stdlib Require Import ZArith Lia.
From S2P Require Import Prelude Semaphore BlockIO Log BAlloc Inode.
#[local] Open Scope Z_scope.

Module Console.
Import Semaphore BlockIO Log BAlloc Inode.

Definition CONS_BUF : nat := 1024.

(** [inputbuf], the keys to come, the characters on the screen, and the inodes. *)
Record console := Cons {
  cbuf : list Z;
  cp : Z;
  csize : Z;
  keys : list (option Z);
  screen : list Z;
  cinodes : ist;
}.

#[global] Instance Part_inodes : Part console ist :=
  {| part := cinodes; set_part := fun i c => Cons (cbuf c) (cp c) (csize c) (keys c) (screen c) i |}.

Definition put_char (ch : Z) : M console unit :=
  modify (fun c => Cons (cbuf c) (cp c) (csize c) (keys c) (screen c ++ [ch]) (cinodes c)).

Definition read_key : M console (option Z) :=
  c ← get;
  match keys c with
  | [] => hang
  | k :: ks => put (Cons (cbuf c) (cp c) (csize c) ks (screen c) (cinodes c));; mret k
  end.

(** [*p = ch]. *)
Definition put_at (p : Z) (ch : Z) : M console unit :=
  if (0 <=? p) && (p <? Z.of_nat CONS_BUF) then
    modify (fun c => Cons (<[Z.to_nat p := ch]> (cbuf c)) (cp c) (csize c) (keys c) (screen c) (cinodes c))
  else panic.

Fixpoint cprint (str : list Z) : M console unit :=
  match str with [] => mret tt | ch :: str => put_char ch;; cprint str end.

(** "Warn: the line buffer is full.\n" *)
Definition full_warning : list Z :=
  [87; 97; 114; 110; 58; 32; 116; 104; 101; 32; 108; 105; 110; 101; 32; 98; 117; 102; 102; 101; 114; 32; 105; 115; 32;
   102; 117; 108; 108; 46; 10].

(** The loop of [console_readline]: where [p] is at the label [exit]. *)
Fixpoint readline_loop (fuel : nat) (p : Z) : M console Z :=
  match fuel with
  | O => hang
  | S fuel =>
      r ← read_key;
      match r with
      | None => put_at p 0;; mret (p + 1)
      | Some ch =>
          if Z.of_nat CONS_BUF <=? p then cprint full_warning;; mret p
          else if ch =? 10 then put_char ch;; put_at p ch;; mret (p + 1)
          else if ch =? 0 then put_at p ch;; mret (p + 1)
          else if ch =? 8 then
            (if negb (p =? 0) then
               put_at p 0;; put_char 8;; readline_loop fuel (p - 1)
             else readline_loop fuel p)
          else put_at p ch;; put_char ch;; readline_loop fuel (p + 1)
      end
  end.

Definition console_readline : M console unit :=
  c ← get;
  p ← readline_loop (S (length (keys c))) 0;
  put_at p 0;;
  modify (fun c => Cons (cbuf c) 0 p (keys c) (screen c) (cinodes c)).

Section ops.
Context (sb : superblock).

(** The result and what is copied to [str]. *)
Definition console_read (ip nbytes : Z) : M console (Z * list Z) :=
  if nbytes <=? 0 then mret (0, [])
  else
    lift (inode_unlock ip);;
    c ← get;
    (if csize c =? 0 then console_readline else mret tt);;
    c ← get;
    let size := if nbytes <? csize c then nbytes else csize c in
    let str := slice (Z.to_nat (cp c)) (Z.to_nat size) (cbuf c) in
    put (Cons (cbuf c) (cp c + size) (csize c - size) (keys c) (screen c) (cinodes c));;
    lift (inode_lock sb ip);;
    mret (size, str).

(** [str] are the [nbytes] bytes at the pointer. *)
Definition console_write (ip : Z) (str : list Z) (nbytes : Z) : M console Z :=
  if nbytes <? 0 then mret (-1)
  else cprint (take (Z.to_nat nbytes) str);; mret nbytes.
End ops.

(** 80 columns and 25 lines; the cursor itself is set in assembly. *)
Definition clear_screen : M console unit := cprint (replicate (80 * 25) 32).

(** ** Line editing *)

(** The line after the keys [l]. *)
Definition edit (l : list Z) : list Z :=
  fold_left (fun line ch => if ch =? 8 then take (length line - 1) line else line ++ [ch]) l [].

(** Text that a line is made of. *)
Definition is_text (ch : Z) : Prop := ch <> 10 /\ ch <> 0.

Definition edit_from (line l : list Z) : list Z :=
  fold_left (fun line ch => if ch =? 8 then take (length line - 1) line else line ++ [ch]) l line.

Lemma put_at_Ok p ch c : 0 <= p < Z.of_nat CONS_BUF ->
  put_at p ch c = Ok (tt, Cons (<[Z.to_nat p := ch]> (cbuf c)) (cp c) (csize c) (keys c) (screen c) (cinodes c)).
Proof.
  intros H. unfold put_at. rewrite (proj2 (Z.leb_le _ _)), (proj2 (Z.ltb_lt _ _)) by lia. done.
Qed.

Lemma take_insert_snoc (l : list Z) p ch : (p < length l)%nat -> take (S p) (<[p := ch]> l) = take p l ++ [ch].
Proof.
  intros H. rewrite (take_S_r _ _ ch) by (by apply list_lookup_insert_eq). by rewrite take_insert_ge.
Qed.

(** The buffer holds the line so far in its first bytes. *)
Lemma readline_loop_Ok e ks : e = 10 \/ e = 0 -> forall l fuel line c,
  length (cbuf c) = CONS_BUF -> take (length line) (cbuf c) = line -> keys c = map Some l ++ Some e :: ks ->
  Forall is_text l -> (length line + length l <= 1022)%nat -> (length l < fuel)%nat ->
  exists b sc, readline_loop fuel (Z.of_nat (length line)) c =
      Ok (Z.of_nat (length (edit_from line l)) + 1, Cons b (cp c) (csize c) ks (screen c ++ sc) (cinodes c)) /\
    length b = CONS_BUF /\ take (S (length (edit_from line l))) b = edit_from line l ++ [e] /\
    (length (edit_from line l) <= 1022)%nat.
Proof.
  intros He. induction l as [|ch l IH]; intros fuel line c Hl Hb Hk Ht Hlen Hf; (destruct fuel as [|fuel]; [simpl in Hf; lia|]);
    cbn [readline_loop]; (erewrite bind_Ok; [|unfold read_key; mrun; rewrite Hk; reflexivity]); simpl in Hlen.
  - unfold CONS_BUF in *. rewrite (proj2 (Z.leb_gt _ _)) by lia. unfold edit_from. simpl fold_left.
    assert (take (S (length line)) (<[length line := e]> (cbuf c)) = line ++ [e]) as Htk.
    { rewrite take_insert_snoc by lia. by rewrite Hb. }
    destruct He as [-> | ->]; [change (10 =? 10) with true|change (0 =? 10) with false; change (0 =? 0) with true]; cbv iota.
    + erewrite bind_Ok by done. erewrite bind_Ok by (apply put_at_Ok; unfold CONS_BUF; lia). simpl.
      eexists _, [10]. split; [done|]. rewrite length_insert, Nat2Z.id. split_and!; [done|done|lia].
    + erewrite bind_Ok by (apply put_at_Ok; unfold CONS_BUF; lia). simpl.
      eexists _, []. rewrite app_nil_r. split; [done|]. rewrite length_insert, Nat2Z.id. split_and!; [done|done|lia].
  - apply Forall_cons in Ht as [[T1 T2] Ht]. unfold CONS_BUF in *. rewrite (proj2 (Z.leb_gt _ _)) by lia.
    rewrite (proj2 (Z.eqb_neq ch 10)), (proj2 (Z.eqb_neq ch 0)) by done.
    destruct (Z.eqb_spec ch 8) as [->|Hne].
    + destruct (Z.eqb_spec (Z.of_nat (length line)) 0) as [Hz|Hz]; cbn [negb]; cbv iota.
      * destruct line; [|simpl in Hz; lia]. edestruct (IH fuel [] (Cons (cbuf c) (cp c) (csize c) (map Some l ++ Some e :: ks) (screen c) (cinodes c))) as (b & sc & E & J);
          [done|done|done|done|simpl in *; lia|simpl in Hf; lia|]. exists b, sc. split; [exact E|exact J].
      * erewrite bind_Ok by (apply put_at_Ok; unfold CONS_BUF; lia). erewrite bind_Ok by done. simpl.
        set (line' := take (length line - 1) line).
        assert (length line' = length line - 1)%nat as Hl' by (unfold line'; rewrite length_take; lia).
        edestruct (IH fuel line') as (b & sc & E & J); [| | |done| | |].
        6: { replace (Z.of_nat (length line')) with (Z.of_nat (length line) - 1) in E by lia.
             exists b, ([8] ++ sc). split; [|exact J]. rewrite E. simpl. by rewrite <- app_assoc. }
        -- simpl. by rewrite length_insert.
        -- simpl. rewrite Hl', Nat2Z.id. unfold line'. rewrite take_insert_ge by lia. rewrite <- Hb at 3. rewrite take_take. f_equal. lia.
        -- done.
        -- lia.
        -- simpl in Hf. lia.
    + erewrite bind_Ok by (apply put_at_Ok; unfold CONS_BUF; lia). erewrite bind_Ok by done. simpl.
      edestruct (IH fuel (line ++ [ch])) as (b & sc & E & J); [| | |done| | |].
      6: { replace (Z.of_nat (length (line ++ [ch]))) with (Z.of_nat (length line) + 1) in E by (rewrite length_app; simpl; lia).
           exists b, ([ch] ++ sc). unfold edit_from in *. simpl. rewrite (proj2 (Z.eqb_neq ch 8)) by done. split; [|exact J].
           rewrite E. simpl. by rewrite <- app_assoc. }
      * simpl. by rewrite length_insert.
      * simpl. rewrite length_app, Nat2Z.id. simpl. rewrite Nat.add_1_r, take_insert_snoc by lia. by rewrite Hb.
      * done.
      * rewrite length_app. simpl in *. lia.
      * simpl in Hf. lia.
Qed.

Lemma readline_Ok l e ks c : e = 10 \/ e = 0 -> length (cbuf c) = CONS_BUF -> keys c = map Some l ++ Some e :: ks ->
  Forall is_text l -> (length l <= 1022)%nat ->
  exists b sc, console_readline c =
      Ok (tt, Cons b 0 (Z.of_nat (length (edit l)) + 1) ks (screen c ++ sc) (cinodes c)) /\
    length b = CONS_BUF /\ take (S (length (edit l))) b = edit l ++ [e] /\ (length (edit l) <= 1022)%nat.
Proof.
  intros He Hl Hk Ht Hlen. unfold console_readline. rewrite (bind_Ok _ _ _ c c) by done.
  destruct (readline_loop_Ok e ks He l (S (length (keys c))) [] c) as (b & sc & E & Hb & Htk & Hle);
    [done|done|done|done|done|rewrite Hk, length_app, length_map; lia|].
  change (Z.of_nat (length [])) with 0 in E. change (edit_from [] l) with (edit l) in *.
  rewrite (bind_Ok _ _ _ _ _ E). erewrite bind_Ok by (apply put_at_Ok; unfold CONS_BUF; lia). unfold modify. simpl.
  eexists _, sc. split; [done|]. rewrite length_insert. split; [done|].
  replace (Z.to_nat (Z.of_nat (length (edit l)) + 1)) with (S (length (edit l))) by lia. rewrite take_insert_ge by lia. done.
Qed.

(** The console between two calls; the reader holds the inode [ip], and nobody waits for
    it. *)
Record cons_ok (ip : Z) (c : console) : Prop := {
  c_len : length (cbuf c) = CONS_BUF;
  c_cp : 0 <= cp c;
  c_csize : 0 <= csize c;
  c_fit : cp c + csize c <= Z.of_nat CONS_BUF;
  c_inode : exists i, 0 <= ip /\ icache (cinodes c) !! Z.to_nat ip = Some i /\ 1 <= ref i /\ valid i = true /\
    isem i = Sem 0 [] (Some (curtask (cinodes c)));
}.

(** The part of the line that has not been read. *)
Definition pending (c : console) : list Z := slice (Z.to_nat (cp c)) (Z.to_nat (csize c)) (cbuf c).

Lemma unlocked_lock sb ip s i : 0 <= ip -> icache s !! Z.to_nat ip = Some i -> 1 <= ref i -> valid i = true ->
  isem i = Sem 0 [] (Some (curtask s)) ->
  exists s', inode_unlock ip s = Ok (tt, s') /\ inode_lock sb ip s' = Ok (tt, s).
Proof.
  intros Hip Hi Hr Hv Hs.
  assert (forall s j, icache s !! Z.to_nat ip = Some j -> get_inode ip s = Ok (j, s)) as Hget.
  { intros s0 j Hj. unfold get_inode. mrun. unfold index. rewrite (proj2 (Z.ltb_ge _ _)) by lia. by rewrite Hj. }
  pose proof (lookup_lt_Some _ _ _ Hi) as Hlt.
  set (s' := Ist (fl s) (<[Z.to_nat ip := set_isem (Sem 1 [] None) i]> (icache s)) (curtask s)).
  assert (icache s' !! Z.to_nat ip = Some (set_isem (Sem 1 [] None) i)) as Hi' by (simpl; by rewrite list_lookup_insert_eq).
  exists s'. split.
  - unfold inode_unlock, inode_holding. erewrite bind_Ok; [|erewrite bind_Ok by done; erewrite bind_Ok by (by apply Hget); done].
    erewrite bind_Ok by (by apply Hget). unfold sem_holding. rewrite Hs. simpl holder. rewrite bool_decide_eq_true_2 by done.
    rewrite (proj2 (Z.leb_le _ _)) by done. erewrite bind_Ok by done. unfold isem_signal. erewrite bind_Ok by (by apply Hget).
    rewrite Hs. done.
  - unfold inode_lock. erewrite bind_Ok by (by apply Hget). simpl ref. rewrite (proj2 (Z.leb_le _ _)) by done.
    erewrite bind_Ok by done. unfold isem_wait. erewrite bind_Ok; [|erewrite bind_Ok by done; erewrite bind_Ok by (by apply Hget); done].
    simpl. erewrite bind_Ok by (apply Hget; simpl; rewrite list_lookup_insert_eq by (by rewrite length_insert); done).
    simpl. rewrite Hv. unfold mret, M_ret. rewrite list_insert_insert_eq. unfold set_isem. simpl.
    rewrite list_insert_id; [by destruct s|]. rewrite Hi. f_equal. destruct i. simpl in *. by subst.
Qed.

Lemma slice_take k n m (b : list Z) : (k <= m)%nat -> slice n k b = take k (slice n m b).
Proof. intros H. unfold slice. rewrite take_take. f_equal. lia. Qed.

Lemma slice_drop k n m (b : list Z) : slice (n + k) (m - k) b = drop k (slice n m b).
Proof. unfold slice. rewrite skipn_firstn_comm, drop_drop. done. Qed.

(** The end of a read, with something in the buffer. *)
Lemma read_pending ip n c : cons_ok ip c -> 0 < n -> pending c <> [] ->
  let size := if n <? csize c then n else csize c in
  let c' := Cons (cbuf c) (cp c + size) (csize c - size) (keys c) (screen c) (cinodes c) in
  slice (Z.to_nat (cp c)) (Z.to_nat size) (cbuf c) = take (Z.to_nat n) (pending c) /\
  size = Z.of_nat (length (take (Z.to_nat n) (pending c))) /\
  cons_ok ip c' /\ pending c' = drop (Z.to_nat n) (pending c).
Proof.
  intros K Hn Hp size c'. destruct K as [K1 K2 K3 K4 K5].
  assert (length (pending c) = Z.to_nat (csize c)) as Hlp by (unfold pending; apply length_slice; unfold CONS_BUF in *; lia).
  assert (0 <= size <= csize c /\ size = Z.min n (csize c)) as [Hs Hs'] by (unfold size; destruct (Z.ltb_spec n (csize c)); lia).
  split_and!.
  - unfold pending. rewrite (slice_take _ _ (Z.to_nat (csize c))) by lia. rewrite Hs'.
    destruct (Z.le_ge_cases n (csize c)); [by rewrite Z.min_l by done|]. rewrite Z.min_r by done.
    rewrite !take_ge; [done|..]; fold (pending c); lia.
  - rewrite length_take, Hlp. lia.
  - split; simpl; [done|lia|lia|lia|done].
  - unfold pending, c'. simpl. replace (Z.to_nat (cp c + size)) with (Z.to_nat (cp c) + Z.to_nat size)%nat by lia.
    replace (Z.to_nat (csize c - size)) with (Z.to_nat (csize c) - Z.to_nat size)%nat by lia. rewrite slice_drop. fold (pending c).
    rewrite Hs'. destruct (Z.le_ge_cases n (csize c)); [by rewrite Z.min_l by done|]. rewrite Z.min_r by done.
    rewrite !drop_ge; [done|..]; lia.
Qed.

(** A line as it is typed: its text and the key that ends it, and what becomes of it. *)
Definition typed_line (x : list Z * Z) : list (option Z) := map Some x.1 ++ [Some x.2].

Definition line_ok (x : list Z * Z) : Prop := (x.2 = 10 \/ x.2 = 0) /\ Forall is_text x.1 /\ (length x.1 <= 1022)%nat.

Definition line_of (x : list Z * Z) : list Z := edit x.1 ++ [x.2].

(** One read: from what is left of the last line, or from the next one. *)
Lemma console_read_Ok sb ip n c lines : cons_ok ip c -> 0 < n -> Forall line_ok lines -> lines <> [] ->
  keys c = concat (map typed_line lines) ->
  exists c' out used left, console_read sb ip n c = Ok ((Z.of_nat (length out), out), c') /\ cons_ok ip c' /\ lines = used ++ left /\
    (length left >= length lines - 1)%nat /\ keys c' = concat (map typed_line left) /\ out <> [] /\ (length out <= Z.to_nat n)%nat /\
    pending c ++ concat (map line_of used) = out ++ pending c'.
Proof.
  intros K Hn Hlines Hne Hk. destruct (c_inode _ _ K) as (i & I1 & I2 & I3 & I4 & I5).
  destruct (unlocked_lock sb ip _ _ I1 I2 I3 I4 I5) as (s' & Eu & El).
  set (c1 := Cons (cbuf c) (cp c) (csize c) (keys c) (screen c) s').
  assert (forall (c2 : console) used left, Forall line_ok left -> lines = used ++ left -> (length left >= length lines - 1)%nat ->
    (if csize c =? 0 then console_readline else mret tt) c1 = Ok (tt, Cons (cbuf c2) (cp c2) (csize c2) (keys c2) (screen c2) s') ->
    cons_ok ip c2 -> cinodes c2 = cinodes c -> keys c2 = concat (map typed_line left) -> pending c2 <> [] ->
    pending c2 = pending c ++ concat (map line_of used) ->
    exists c' out used left, console_read sb ip n c = Ok ((Z.of_nat (length out), out), c') /\ cons_ok ip c' /\ lines = used ++ left /\
    (length left >= length lines - 1)%nat /\ keys c' = concat (map typed_line left) /\ out <> [] /\ (length out <= Z.to_nat n)%nat /\
    pending c ++ concat (map line_of used) = out ++ pending c') as Hend.
  { intros c2 used left _ El2 Hlen Hrun K2 Hi2 Hk2 Hp2 Hp2'.
    destruct (read_pending ip n c2 K2 Hn Hp2) as (R1 & R2 & R3 & R4).
    eexists _, (take (Z.to_nat n) (pending c2)), used, left. split.
    - unfold console_read. rewrite (proj2 (Z.leb_gt _ _)) by lia.
      rewrite (bind_Ok _ _ _ tt c1) by (unfold lift; simpl; by rewrite Eu). rewrite (bind_Ok _ _ _ c1 c1) by done.
      simpl csize at 1. rewrite (bind_Ok _ _ _ _ _ Hrun). erewrite bind_Ok by done. cbv zeta. cbn [csize cp cbuf keys screen cinodes].
      erewrite bind_Ok by done. erewrite bind_Ok by (unfold lift; simpl; by rewrite El). rewrite R1, R2 at 1. simpl.
      rewrite <- Hi2. reflexivity.
    - cbn [keys]. split_and!; [exact R3|done|done|done| |rewrite length_take; lia|].
      + destruct (pending c2); [done|]. replace (Z.to_nat n) with (S (Z.to_nat (n - 1))) by lia. done.
      + rewrite <- Hp2', R4. by rewrite take_drop. }
  destruct (Z.eqb_spec (csize c) 0) as [Hz|Hz].
  - destruct lines as [|[l e] lines]; [done|]. apply Forall_cons in Hlines as [(L1 & L2 & L3) Hlines]. simpl in L1, L2, L3.
    destruct (readline_Ok l e (concat (map typed_line lines)) c1 L1 (c_len _ _ K)) as (b & sc & E & B1 & B2 & B3);
      [simpl; rewrite Hk; simpl; unfold typed_line; simpl; by rewrite <- app_assoc|done|done|].
    eapply (Hend (Cons b 0 (Z.of_nat (length (edit l)) + 1) (concat (map typed_line lines)) (screen c ++ sc) (cinodes c)) [(l, e)] lines);
      [done|done|simpl; lia|exact E| |done|done| |].
    + split; simpl; [done|lia|lia|unfold CONS_BUF; lia|apply (c_inode _ _ K)].
    + unfold pending, slice. simpl. replace (Z.to_nat (Z.of_nat (length (edit l)) + 1)) with (S (length (edit l))) by lia.
      rewrite drop_0, B2. by destruct (edit l).
    + unfold pending at 1, slice. simpl. replace (Z.to_nat (Z.of_nat (length (edit l)) + 1)) with (S (length (edit l))) by lia.
      rewrite drop_0, B2. unfold pending. rewrite Hz. unfold slice. simpl. by rewrite app_nil_r.
  - eapply (Hend c [] lines); [done|done|lia|done|done|done|done| |by rewrite app_nil_r].
    intros Hp. apply (f_equal length) in Hp. unfold pending in Hp. pose proof (c_fit _ _ K). pose proof (c_len _ _ K).
    pose proof (c_cp _ _ K). pose proof (c_csize _ _ K). rewrite length_slice in Hp by (unfold CONS_BUF in *; lia). simpl in Hp. lia.
Qed.

(** Reads of the sizes [ns], one after the other. *)
Fixpoint console_reads (sb : superblock) (ip : Z) (ns : list Z) : M console (list (list Z)) :=
  match ns with
  | [] => mret []
  | n :: ns => r ← console_read sb ip n; rs ← console_reads sb ip ns; mret (r.2 :: rs)
  end.

(** ** Theorems *)

(** C21: reading from the console gives the typed lines, edited: for any sizes of the reads
    and any lines of up to 1022 keys, every read returns at least one byte and no more than
    it asked for, and together the reads return the edited lines in order, without losing or
    repeating a byte; what is not read yet stays in the buffer. *)
Theorem console_reads_lines sb ip ns c lines : cons_ok ip c -> Forall (fun n => 0 < n) ns -> Forall line_ok lines ->
  (length ns <= length lines)%nat -> keys c = concat (map typed_line lines) ->
  exists c' outs used left, console_reads sb ip ns c = Ok (outs, c') /\ cons_ok ip c' /\ lines = used ++ left /\
    keys c' = concat (map typed_line left) /\
    Forall2 (fun out n => out <> [] /\ (length out <= Z.to_nat n)%nat) outs ns /\
    pending c ++ concat (map line_of used) = concat outs ++ pending c'.
Proof.
  revert c lines. induction ns as [|n ns IH]; intros c lines K Hns Hl Hlen Hk.
  - exists c, [], [], lines. split_and!; try done. simpl. by rewrite app_nil_r.
  - apply Forall_cons in Hns as [Hn Hns]. simpl in Hlen.
    destruct (console_read_Ok sb ip n c lines K Hn Hl) as (c1 & out & u1 & l1 & E1 & K1 & El1 & Hl1 & Hk1 & Ho1 & Ho2 & Hp1);
      [by intros ->; simpl in Hlen; lia|done|].
    assert (Forall line_ok l1) as Hok1 by (rewrite El1 in Hl; by apply Forall_app in Hl as [_ Hl]).
    destruct (IH c1 l1 K1 Hns Hok1 ltac:(lia) Hk1) as (c' & outs & u2 & l2 & E2 & K2 & El2 & Hk2 & Ho3 & Hp2).
    exists c', (out :: outs), (u1 ++ u2), l2. split_and!.
    + simpl. rewrite (bind_Ok _ _ _ _ _ E1). by rewrite (bind_Ok _ _ _ _ _ E2).
    + done.
    + by rewrite El1, El2, app_assoc.
    + done.
    + by constructor.
    + rewrite map_app, concat_app, app_assoc, Hp1. simpl. by rewrite <- !app_assoc, Hp2.
Qed.

(** a line of exactly 1023 characters and the enter key overruns the line buffer: the
    terminating zero is stored behind its end. *)
Theorem console_line_overrun c : length (cbuf c) = CONS_BUF -> forall l ks, length l = 1023%nat -> Forall (fun ch => is_text ch /\ ch <> 8) l ->
  keys c = map Some l ++ Some 10 :: ks -> console_readline c = Panic.
Proof.
  assert (forall ks l fuel c p, length (cbuf c) = CONS_BUF -> Forall (fun ch => is_text ch /\ ch <> 8) l -> keys c = map Some l ++ Some 10 :: ks ->
    0 <= p -> p + Z.of_nat (length l) = 1023 -> (length l < fuel)%nat -> exists c', readline_loop fuel p c = Ok (1024, c')) as Hloop.
  { intros ks. induction l as [|ch l IH]; intros fuel c0 p Hb Ht Hk Hp Hpl Hf; (destruct fuel as [|fuel]; [simpl in Hf; lia|]);
      cbn [readline_loop]; (erewrite bind_Ok; [|unfold read_key; mrun; rewrite Hk; reflexivity]); simpl in Hpl.
    - unfold CONS_BUF in *. rewrite (proj2 (Z.leb_gt _ _)) by lia. change (10 =? 10) with true. cbv iota.
      erewrite bind_Ok by done. erewrite bind_Ok by (apply put_at_Ok; unfold CONS_BUF; lia).
      replace (p + 1) with 1024 by lia. eexists. reflexivity.
    - apply Forall_cons in Ht as [[[T1 T2] T3] Ht]. unfold CONS_BUF in *. rewrite (proj2 (Z.leb_gt _ _)) by lia.
      rewrite (proj2 (Z.eqb_neq ch 10)), (proj2 (Z.eqb_neq ch 0)), (proj2 (Z.eqb_neq ch 8)) by done.
      erewrite bind_Ok by (apply put_at_Ok; unfold CONS_BUF; lia). erewrite bind_Ok by done.
      apply IH; [simpl; by rewrite length_insert|done|done|lia|lia|simpl in Hf; lia]. }
  intros Hb l ks Hl Ht Hk. unfold console_readline. rewrite (bind_Ok _ _ _ c c) by done.
  destruct (Hloop ks l (S (length (keys c))) c 0 Hb Ht Hk) as (c' & E); [lia|lia|rewrite Hk, length_app, length_map; lia|].
  rewrite (bind_Ok _ _ _ _ _ E). done.
Qed.

(** ** Witnesses *)

Definition demo_console (keys : list (option Z)) : console :=
  Cons (replicate CONS_BUF 0) 0 0 keys []
    (Ist (fl demo_ist) [MkInode 5 1 (Sem 0 [] (Some 3)) true (disk_inode demo_inode)] 3).

Lemma demo_console_ok k : cons_ok 0 (demo_console k).
Proof.
  split; cbn [demo_console cbuf cp csize]; [apply length_replicate|lia|lia|unfold CONS_BUF; lia|].
  eexists. split; [lia|]. split; [reflexivity|]. done.
Qed.

(** "lx", a correction to "ls", and the enter key, read in two pieces. *)
Lemma console_reads_lines_witness : exists c',
  console_reads demo_sb 0 [2; 9] (demo_console (concat (map typed_line [([108; 120; 8; 115], 10); ([], 10)]))) = Ok ([[108; 115]; [10]], c').
Proof.
  destruct (console_reads_lines demo_sb 0 [2; 9] _ [([108; 120; 8; 115], 10); ([], 10)]
    (demo_console_ok (concat (map typed_line [([108; 120; 8; 115], 10); ([], 10)])))) as (c' & outs & used & left & E & _).
  - repeat constructor.
  - repeat constructor; simpl; try lia; by left.
  - simpl. lia.
  - reflexivity.
  - assert (outs = [[108; 115]; [10]]) as -> by (vm_compute in E; congruence). exists c'. exact E.
Defined.

Lemma console_line_overrun_witness : console_readline (demo_console (map Some (replicate 1023 97) ++ [Some 10])) = Panic.
Proof.
  apply (console_line_overrun (demo_console (map Some (replicate 1023 97) ++ [Some 10])) eq_refl (replicate 1023 97) []); [done| |done].
  apply Forall_replicate. unfold is_text. lia.
Defined.
End Console.
