(* ===== verification/Dir.v ===== *)
(** Directories: src/fs/dir.c.  A directory is a file of 64-byte entries, an inode
    number and a name; an entry with inode number 0 is free.

    A C string is the list of its bytes before the NUL.  The theorems relate the
    operations to the list of entries of the directory. *)

From stdpp Require Import base numbers list gmap.
From Stdlib Require Import ZArith Lia.
From S2P Require Import Prelude Semaphore BlockIO Log BAlloc Inode.
#[local] Open Scope Z_scope.

Module Dir.
Import Semaphore BlockIO Log BAlloc Inode.

(** [struct dirent] of src/include/dirent.h. *)
Definition DIRENT_NAME_LENGTH : Z := 60.

Definition DIRENT_SIZE : Z := 64.

Record dirent := Dirent { d_inum : Z; d_name : list Z (* 60 bytes *) }.

Definition dec_dirent (l : list Z) : dirent := Dirent (dec32 (take 4 l)) (drop 4 l).

Definition enc_dirent (d : dirent) : list Z := enc32 (d_inum d) ++ d_name d.

(** [strcmp(dirent.name, name) == 0] on the 60 bytes of a name: the comparison runs
    over the end of the array when it is not terminated and all its bytes match. *)
Fixpoint name_eq (field name : list Z) : outcome bool :=
  match field, name with
  | [], _ => Panic
  | c :: _, [] => Ok (c =? 0)
  | c :: field, x :: name => if c =? x then name_eq field name else Ok false
  end.

(** [strcpy(dirent.name, name)]: the bytes of the array after the NUL stay. *)
Definition set_name (field name : list Z) : outcome (list Z) :=
  if (length name <? length field)%nat then Ok (name ++ 0 :: drop (S (length name)) field) else Panic.

Definition of_outcome {S A} (o : outcome A) : M S A := fun s =>
  match o with Ok a => Ok (a, s) | Panic => Panic | Hang => Hang end.

Section dir.
Context `{Devices}.

(** The scan of [dir_lookup] from [offset] on; the result is the inode and the offset
    of the entry. *)
Fixpoint dir_lookup_loop (fuel : nat) (sb : superblock) (dir : Z) (name : list Z) (offset : Z)
    : M ist (option (Z * Z)) :=
  match fuel with
  | O => hang
  | S fuel =>
      d ← get_inode dir;
      if offset <? dsize (disk_inode d) then
        r ← inode_read sb dir offset DIRENT_SIZE;
        if fst r <? 0 then dir_lookup_loop fuel sb dir name (u32 (offset + DIRENT_SIZE))
        else
          ASSERT (fst r =? DIRENT_SIZE);;
          let e := dec_dirent (snd r) in
          if negb (d_inum e =? 0) then
            eq ← of_outcome (name_eq (d_name e) name);
            if eq : bool then
              ip ← iget (d_inum e);
              mret (Some (ip, offset))
            else dir_lookup_loop fuel sb dir name (u32 (offset + DIRENT_SIZE))
          else dir_lookup_loop fuel sb dir name (u32 (offset + DIRENT_SIZE))
      else mret None
  end.

(** Turns of a scan over the entries of a directory of [n] bytes. *)
Definition dir_fuel (n : Z) : nat := S (S (Z.to_nat (n / DIRENT_SIZE))).

Definition dir_lookup (sb : superblock) (dir : Z) (name : list Z) : M ist (option (Z * Z)) :=
  d ← get_inode dir;
  ASSERT (type (disk_inode d) =? INODE_DIRECTORY);;
  ASSERT (Z.of_nat (length name) <=? DIRENT_NAME_LENGTH);;
  ASSERT (dsize (disk_inode d) mod DIRENT_SIZE =? 0);;
  h ← inode_holding dir;
  ASSERT h;;
  dir_lookup_loop (dir_fuel (dsize (disk_inode d))) sb dir name 0.

(** The search of [dir_link] for a free entry: its offset, or the size; [None] is the
    [return -1]. *)
Fixpoint dir_link_loop (fuel : nat) (sb : superblock) (dir offset : Z) : M ist (option Z) :=
  match fuel with
  | O => hang
  | S fuel =>
      d ← get_inode dir;
      if offset <? dsize (disk_inode d) then
        r ← inode_read sb dir offset DIRENT_SIZE;
        if fst r <? 0 then mret None
        else
          ASSERT (fst r =? DIRENT_SIZE);;
          if d_inum (dec_dirent (snd r)) =? 0 then mret (Some offset)
          else dir_link_loop fuel sb dir (u32 (offset + fst r))
      else mret (Some offset)
  end.

(** The bytes before the first NUL of an array. *)
Fixpoint str_of (l : list Z) : list Z :=
  match l with
  | [] => []
  | c :: l => if c =? 0 then [] else c :: str_of l
  end.

Definition dir_link (sb : superblock) (dir : Z) (new_dirent : dirent) : M ist Z :=
  d ← get_inode dir;
  ASSERT (type (disk_inode d) =? INODE_DIRECTORY);;
  ASSERT (negb (d_inum new_dirent =? 0));;
  ASSERT (negb (length (str_of (d_name new_dirent)) =? 0)%nat);;
  h ← inode_holding dir;
  ASSERT h;;
  found ← dir_lookup sb dir (str_of (d_name new_dirent));
  match found with
  | Some (ip, _) => inode_put sb ip;; mret (-1)
  | None =>
      off ← dir_link_loop (dir_fuel (dsize (disk_inode d))) sb dir 0;
      match off with
      | None => mret (-1)
      | Some offset =>
          n ← inode_write sb dir (enc_dirent new_dirent) offset;
          if n <? 0 then mret (-1)
          else ASSERT (n =? DIRENT_SIZE);; mret 0
      end
  end.

Definition dir_unlink (sb : superblock) (dir offset : Z) : M ist Z :=
  d ← get_inode dir;
  h ← inode_holding dir;
  ASSERT h;;
  ASSERT (type (disk_inode d) =? INODE_DIRECTORY);;
  ASSERT (offset <? dsize (disk_inode d));;
  ASSERT (offset mod DIRENT_SIZE =? 0);;
  r ← inode_read sb dir offset DIRENT_SIZE;
  ASSERT (fst r =? DIRENT_SIZE);;
  ASSERT (negb (d_inum (dec_dirent (snd r)) =? 0));;
  n ← inode_write sb dir (replicate (Z.to_nat DIRENT_SIZE) 0) offset;
  if negb (n =? DIRENT_SIZE) then mret (-1) else mret 0.

Fixpoint dir_isempty_loop (fuel : nat) (sb : superblock) (dir offset : Z) : M ist bool :=
  match fuel with
  | O => hang
  | S fuel =>
      d ← get_inode dir;
      if offset <? dsize (disk_inode d) then
        r ← inode_read sb dir offset DIRENT_SIZE;
        if fst r <? 0 then mret true
        else
          ASSERT (fst r =? DIRENT_SIZE);;
          if negb (d_inum (dec_dirent (snd r)) =? 0) then mret false
          else dir_isempty_loop fuel sb dir (u32 (offset + fst r))
      else mret true
  end.

Definition dir_isempty (sb : superblock) (dir : Z) : M ist bool :=
  d ← get_inode dir;
  ASSERT (type (disk_inode d) =? INODE_DIRECTORY);;
  h ← inode_holding dir;
  ASSERT h;;
  dir_isempty_loop (dir_fuel (dsize (disk_inode d))) sb dir (DIRENT_SIZE * 2).

(** [junk]: what the stack holds where [dir_make] has its [struct dirent]. *)
Definition dir_make (sb : superblock) (junk : list Z) (parent dir : Z) : M ist Z :=
  hp ← inode_holding parent;
  hd ← inode_holding dir;
  ASSERT (hp && hd);;
  p ← get_inode parent;
  ASSERT (type (disk_inode p) =? INODE_DIRECTORY);;
  d ← get_inode dir;
  ASSERT (type (disk_inode d) =? INODE_DIRECTORY);;
  n1 ← of_outcome (set_name junk [46]);
  r ← dir_link sb dir (Dirent (inum d) n1);
  if r <? 0 then mret (-1)
  else
    n2 ← of_outcome (set_name n1 [46; 46]);
    r ← dir_link sb dir (Dirent (inum p) n2);
    if r <? 0 then mret (-1)
    else
      upd_dinode parent (fun dp => set_nlink (u32 (nlink dp + 1)) dp);;
      inode_update sb parent;;
      mret 0.
End dir.

(** ** The entries of a directory *)

Definition entry_at (v : Z -> block) (d : dinode) (k : nat) : dirent :=
  dec_dirent (frange v d (DIRENT_SIZE * Z.of_nat k) DIRENT_SIZE).

Definition nentries (d : dinode) : nat := Z.to_nat (dsize d / DIRENT_SIZE).

Definition dir_entries (v : Z -> block) (d : dinode) : list dirent :=
  map (entry_at v d) (seq 0 (nentries d)).

(** The entry a name stands for. *)
Definition named (name : list Z) (e : dirent) : Prop := d_inum e <> 0 /\ str_of (d_name e) = name.

#[global] Instance named_dec name e : Decision (named name e).
Proof. apply _. Defined.

Definition dir_find (es : list dirent) (name : list Z) : option (nat * dirent) :=
  list_find (named name) es.

(** The names of the entries in use are terminated. *)
Definition terminated (e : dirent) : Prop := d_inum e <> 0 -> 0 ∈ d_name e.

Lemma name_eq_spec field name : 0 ∈ field -> 0 ∉ name ->
  name_eq field name = Ok (bool_decide (str_of field = name)).
Proof.
  revert name. induction field as [|c field IH]; intros name Hf Hn; [set_solver|]. simpl.
  destruct name as [|x name].
  - destruct (Z.eqb_spec c 0) as [->|]; [by rewrite bool_decide_true|by rewrite bool_decide_false].
  - apply not_elem_of_cons in Hn as [Hx Hn].
    destruct (Z.eqb_spec c 0) as [->|Hc].
    + rewrite (proj2 (Z.eqb_neq _ _)) by done. by rewrite bool_decide_false.
    + destruct (Z.eqb_spec c x) as [->|].
      * rewrite IH; [|set_solver|done]. do 1 f_equal. apply bool_decide_ext. naive_solver.
      * rewrite bool_decide_false; [done|]. naive_solver.
Qed.

Lemma str_of_nonzero l : 0 ∉ str_of l.
Proof.
  induction l as [|c l IH]; simpl; [set_solver|]. destruct (Z.eqb_spec c 0); set_solver.
Qed.

Lemma nentries_size d : 0 <= dsize d -> dsize d mod DIRENT_SIZE = 0 ->
  dsize d = DIRENT_SIZE * Z.of_nat (nentries d).
Proof.
  intros H0 Hm. unfold nentries. pose proof (Z.div_mod (dsize d) DIRENT_SIZE ltac:(done)).
  assert (0 <= dsize d / DIRENT_SIZE) by (apply Z.div_pos; [lia|done]). unfold DIRENT_SIZE in *. lia.
Qed.

(** A directory that the current task holds and can read. *)
Record dir_pre (dir : Z) (d : inode) (s : ist) : Prop := {
  dp_read : read_pre dir d (dsize (disk_inode d)) s;
  dp_size : 0 <= dsize (disk_inode d);
  dp_type : type (disk_inode d) = INODE_DIRECTORY;
  dp_mod : dsize (disk_inode d) mod DIRENT_SIZE = 0;
  dp_holder : holder (isem d) = Some (curtask s);
  dp_names : Forall terminated (dir_entries (view (bs (fl s))) (disk_inode d));
}.

Lemma entry_at_seen s s' d k : seen s s' ->
  entry_at (view (bs (fl s'))) d k = entry_at (view (bs (fl s))) d k.
Proof. intros Hs. unfold entry_at. f_equal. apply frange_ext. intros. by apply fbyte_seen. Qed.

Lemma dir_entries_seen s s' d : seen s s' ->
  dir_entries (view (bs (fl s'))) d = dir_entries (view (bs (fl s))) d.
Proof. intros Hs. unfold dir_entries. apply map_ext. intros. by apply entry_at_seen. Qed.

Lemma dir_pre_seen dir d s s' : dir_pre dir d s -> seen s s' -> dir_pre dir d s'.
Proof.
  intros [D1 D2 D3 D4 D5 D6] Hs. split; try done.
  - by eapply read_pre_seen.
  - destruct Hs as (_ & _ & _ & ->). done.
  - by rewrite (dir_entries_seen _ _ _ Hs).
Qed.

Lemma dir_entries_lookup v d k : (k < nentries d)%nat -> dir_entries v d !! k = Some (entry_at v d k).
Proof.
  intros Hk. unfold dir_entries. change (map ?f ?l) with (f <$> l).
  by rewrite list_lookup_fmap, lookup_seq_lt.
Qed.

Lemma length_dir_entries v d : length (dir_entries v d) = nentries d.
Proof. unfold dir_entries. by rewrite length_map, length_seq. Qed.

Lemma drop_dir_entries v d k : (k < nentries d)%nat ->
  drop k (dir_entries v d) = entry_at v d k :: drop (S k) (dir_entries v d).
Proof. intros Hk. apply drop_S. by apply dir_entries_lookup. Qed.

Section dir_specs.
Context `{Devices}.

(** Reading the entry [k]. *)
Lemma read_entry sb dir d s k :
  dir_pre dir d s -> (k < nentries (disk_inode d))%nat ->
  exists s', inode_read sb dir (DIRENT_SIZE * Z.of_nat k) DIRENT_SIZE s =
      Ok ((DIRENT_SIZE, frange (view (bs (fl s))) (disk_inode d) (DIRENT_SIZE * Z.of_nat k) DIRENT_SIZE), s') /\
    seen s s'.
Proof.
  intros [D1 D2 D3 D4 D5 D6] Hk. pose proof (nentries_size _ D2 D4) as Hsz.
  pose proof (rp_n _ _ _ _ D1) as Hmax.
  unfold MAX_DATA_BLOCKS, NDIRECT_DATA_BLOCKS, NINDIRECT_DATA_BLOCKS, BSIZE in Hmax. unfold DIRENT_SIZE in *.
  destruct (inode_read_spec sb dir d s (64 * Z.of_nat k) 64 D1) as (s' & E & S1);
    [by rewrite D3|lia|lia|lia|].
  rewrite Z.min_l in E by lia. eauto.
Qed.

(** The offset after the entry [k]. *)
Lemma next_offset dir d s k : dir_pre dir d s -> (k < nentries (disk_inode d))%nat ->
  u32 (DIRENT_SIZE * Z.of_nat k + DIRENT_SIZE) = DIRENT_SIZE * Z.of_nat (S k).
Proof.
  intros [D1 D2 D3 D4 D5 D6] Hk. pose proof (nentries_size _ D2 D4) as Hsz.
  pose proof (rp_n _ _ _ _ D1) as Hmax.
  unfold MAX_DATA_BLOCKS, NDIRECT_DATA_BLOCKS, NINDIRECT_DATA_BLOCKS, BSIZE in Hmax. unfold DIRENT_SIZE in *.
  rewrite u32_small; ulia.
Qed.

Lemma dir_lookup_loop_spec sb dir d name : 0 ∉ name -> forall n k s fuel,
  dir_pre dir d s -> (k + n)%nat = nentries (disk_inode d) -> (n < fuel)%nat ->
  exists s', seen s s' /\
    dir_lookup_loop fuel sb dir name (DIRENT_SIZE * Z.of_nat k) s =
      match list_find (named name) (drop k (dir_entries (view (bs (fl s))) (disk_inode d))) with
      | None => Ok (None, s')
      | Some (j, e) => (ip ← iget (d_inum e); mret (Some (ip, DIRENT_SIZE * Z.of_nat (k + j)))) s'
      end.
Proof.
  intros Hname. induction n as [|n IH]; intros k s fuel Hp Hk Hf; (destruct fuel as [|fuel]; [lia|]);
    pose proof Hp as [D1 D2 D3 D4 D5 D6]; pose proof (nentries_size _ D2 D4) as Hsz; cbn [dir_lookup_loop];
    rewrite (bind_Ok _ _ _ _ _ (get_inode_Ok _ _ _ (rp_ip _ _ _ _ D1) (rp_get _ _ _ _ D1))).
  - rewrite (proj2 (Z.ltb_ge _ _)) by (unfold DIRENT_SIZE in *; lia). exists s. split; [apply seen_refl|].
    rewrite drop_ge by (rewrite length_dir_entries; lia). done.
  - rewrite (proj2 (Z.ltb_lt _ _)) by (unfold DIRENT_SIZE in *; lia).
    destruct (read_entry sb dir d s k Hp) as (s1 & E1 & S1); [lia|]. rewrite (bind_Ok _ _ _ _ _ E1).
    cbn [fst snd]. change (DIRENT_SIZE <? 0) with false. cbv iota. rewrite (bind_Ok _ _ _ tt s1) by done. cbv zeta.
    change (dec_dirent (frange _ _ _ _)) with (entry_at (view (bs (fl s))) (disk_inode d) k).
    set (e := entry_at (view (bs (fl s))) (disk_inode d) k).
    destruct (IH (S k) s1 fuel (dir_pre_seen _ _ _ _ Hp S1)) as (s2 & S2 & E2); [lia|lia|].
    rewrite (dir_entries_seen _ _ _ S1) in E2.
    pose proof (next_offset dir d s k Hp ltac:(lia)) as Hno. rewrite Hno.
    assert (forall b : bool, b = false -> exists s' : ist, seen s s' /\
       dir_lookup_loop fuel sb dir name (DIRENT_SIZE * Z.of_nat (S k)) s1 =
       match list_find (named name) (drop (S k) (dir_entries (view (bs (fl s))) (disk_inode d))) with
       | None => Ok (None, s')
       | Some (j, e) => (ip ← iget (d_inum e); mret (Some (ip, DIRENT_SIZE * Z.of_nat (k + S j)))) s'
       end) as Hskip.
    { intros b _. exists s2. split; [by eapply seen_trans|]. rewrite E2.
      destruct (list_find _ _) as [[j x]|]; [|done]. by replace (k + S j)%nat with (S k + j)%nat by lia. }
    rewrite drop_dir_entries by lia. fold e. cbn [list_find].
    assert (terminated e) as Hterm.
    { rewrite Forall_lookup in D6. apply (D6 k). apply dir_entries_lookup. lia. }
    destruct (Z.eqb_spec (d_inum e) 0) as [Hz|Hz]; cbn [negb].
    + rewrite decide_False by (intros [? ?]; done).
      destruct (Hskip false eq_refl) as (s' & S' & E'). exists s'. split; [done|]. rewrite E'.
      by destruct (list_find _ _) as [[j x]|].
    + rewrite name_eq_spec by auto. rewrite (bind_Ok _ _ _ (bool_decide (str_of (d_name e) = name)) s1) by done.
      case_bool_decide as Hc.
      * rewrite decide_True by done. exists s1. split; [done|]. by replace (k + 0)%nat with k by lia.
      * rewrite decide_False by (intros [? ?]; done).
        destruct (Hskip false eq_refl) as (s' & S' & E'). exists s'. split; [done|]. rewrite E'.
        by destruct (list_find _ _) as [[j x]|].
Qed.

Lemma holding_Ok dir d s : dir_pre dir d s -> inode_holding dir s = Ok (true, s).
Proof.
  intros [D1 D2 D3 D4 D5 D6]. unfold inode_holding. rewrite (bind_Ok _ _ _ s s) by done.
  rewrite (bind_Ok _ _ _ _ _ (get_inode_Ok _ _ _ (rp_ip _ _ _ _ D1) (rp_get _ _ _ _ D1))).
  unfold sem_holding. rewrite D5. by rewrite bool_decide_true.
Qed.

Lemma dir_lookup_spec sb dir d s name :
  dir_pre dir d s -> 0 ∉ name -> Z.of_nat (length name) <= DIRENT_NAME_LENGTH ->
  exists s', seen s s' /\
    dir_lookup sb dir name s =
      match dir_find (dir_entries (view (bs (fl s))) (disk_inode d)) name with
      | None => Ok (None, s')
      | Some (k, e) => (ip ← iget (d_inum e); mret (Some (ip, DIRENT_SIZE * Z.of_nat k))) s'
      end.
Proof.
  intros Hp Hn Hl. pose proof Hp as [D1 D2 D3 D4 D5 D6].
  unfold dir_lookup.
  rewrite (bind_Ok _ _ _ _ _ (get_inode_Ok _ _ _ (rp_ip _ _ _ _ D1) (rp_get _ _ _ _ D1))).
  rewrite (bind_Ok _ _ _ tt s) by (apply ASSERT_true, Z.eqb_eq; done).
  rewrite (bind_Ok _ _ _ tt s) by (apply ASSERT_true, Z.leb_le; done).
  rewrite (bind_Ok _ _ _ tt s) by (apply ASSERT_true, Z.eqb_eq; done).
  rewrite (bind_Ok _ _ _ _ _ (holding_Ok _ _ _ Hp)). rewrite (bind_Ok _ _ _ tt s) by done.
  apply (dir_lookup_loop_spec sb dir d name Hn (nentries (disk_inode d)) 0 s); [done|lia|].
  unfold dir_fuel, nentries. lia.
Qed.
End dir_specs.

(** *** Adding an entry *)

Lemma seen_logged s s' : tx (fl s) -> seen s s' -> logged [] (fl s) (fl s').
Proof.
  intros [T1 T2 T3 T4 T5 T6 T7 T8] ([W1 W2 W3 W4 W5] & E & _ & _). simpl in W1.
  split; rewrite ?E; try done.
  - split; rewrite ?E, ?W1; try done.
    + intros x Hx. apply T3. by apply W3 in Hx as [Hx _].
    + by rewrite W4.
    + intros x. rewrite W2. apply T5.
    + intros x Hx. rewrite W2. by apply T8.
  - by rewrite W1, W5, app_nil_r.
  - set_solver.
  - simpl. lia.
Qed.

Lemma file_inv_seen sb ip i s s' : file_inv sb ip i s -> seen s s' -> file_inv sb ip i s'.
Proof.
  intros [F1 F2 F3 F4 F5 F6] Hs. pose proof Hs as (W & E & I & C).
  pose proof (seen_logged s s' (so_tx _ _ (fp_search _ _ _ _ F1)) Hs) as L.
  pose proof (file_pre_same sb ip i s (fl s') F1 L (w_held _ _ _ W)) as B.
  assert (Ist (fl s') (icache s) (curtask s) = s') as Es by (destruct s'; simpl in *; congruence).
  rewrite Es in B. split; try done.
  - apply B.
  - intros bn Hb Hlt. rewrite (slot_seen s s') by done. by apply F3.
  - by rewrite (w_held _ _ _ W).
Qed.

Definition free_slot (es : list dirent) : nat :=
  match list_find (fun e => d_inum e = 0) es with Some (k, _) => k | None => length es end.

Lemma free_slot_le es : (free_slot es <= length es)%nat.
Proof.
  unfold free_slot. destruct (list_find _ es) as [[k e]|] eqn:E; [|lia].
  apply list_find_Some in E as (E & _). apply lookup_lt_Some in E. lia.
Qed.

Lemma free_slot_cons e es : free_slot (e :: es) = if decide (d_inum e = 0) then 0%nat else S (free_slot es).
Proof.
  unfold free_slot. cbn [list_find]. case_decide; [done|]. by destruct (list_find _ es) as [[k x]|].
Qed.

Definition add_entry (es : list dirent) (e : dirent) : list dirent :=
  if (free_slot es <? length es)%nat then <[free_slot es := e]> es else es ++ [e].

Lemma length_enc_dirent e : length (d_name e) = 60%nat -> length (enc_dirent e) = 64%nat.
Proof. intros Hl. unfold enc_dirent. rewrite length_app, Hl. done. Qed.

Lemma dec_enc_dirent e : is_u32 (d_inum e) -> dec_dirent (enc_dirent e) = e.
Proof.
  intros Hu. unfold dec_dirent, enc_dirent. rewrite take_app_le, drop_app_ge by (rewrite length_enc32; lia).
  rewrite length_enc32, take_ge by (rewrite length_enc32; lia). rewrite dec32_enc32 by done.
  rewrite Nat.sub_diag, drop_0. by destruct e.
Qed.

Section link.
Context `{Devices}.

Lemma dir_link_loop_spec sb dir d : forall n k s fuel,
  dir_pre dir d s -> (k + n)%nat = nentries (disk_inode d) -> (n < fuel)%nat ->
  exists s', seen s s' /\
    dir_link_loop fuel sb dir (DIRENT_SIZE * Z.of_nat k) s =
      Ok (Some (DIRENT_SIZE * Z.of_nat (k + free_slot (drop k (dir_entries (view (bs (fl s))) (disk_inode d))))), s').
Proof.
  induction n as [|n IH]; intros k s fuel Hp Hk Hf; (destruct fuel as [|fuel]; [lia|]);
    pose proof Hp as [D1 D2 D3 D4 D5 D6]; pose proof (nentries_size _ D2 D4) as Hsz; cbn [dir_link_loop];
    rewrite (bind_Ok _ _ _ _ _ (get_inode_Ok _ _ _ (rp_ip _ _ _ _ D1) (rp_get _ _ _ _ D1))).
  - rewrite (proj2 (Z.ltb_ge _ _)) by (unfold DIRENT_SIZE in *; lia). exists s. split; [apply seen_refl|].
    rewrite drop_ge by (rewrite length_dir_entries; lia). unfold free_slot. simpl. by rewrite Nat.add_0_r.
  - rewrite (proj2 (Z.ltb_lt _ _)) by (unfold DIRENT_SIZE in *; lia).
    destruct (read_entry sb dir d s k Hp) as (s1 & E1 & S1); [lia|]. rewrite (bind_Ok _ _ _ _ _ E1).
    cbn [fst snd]. change (DIRENT_SIZE <? 0) with false. cbv iota. rewrite (bind_Ok _ _ _ tt s1) by done.
    change (dec_dirent (frange _ _ _ _)) with (entry_at (view (bs (fl s))) (disk_inode d) k).
    rewrite drop_dir_entries by lia. rewrite free_slot_cons. case_decide as Hz.
    + rewrite (proj2 (Z.eqb_eq _ _)) by done. exists s1. split; [done|]. by rewrite Nat.add_0_r.
    + rewrite (proj2 (Z.eqb_neq _ _)) by done. rewrite (next_offset dir d s k Hp ltac:(lia)).
      destruct (IH (S k) s1 fuel (dir_pre_seen _ _ _ _ Hp S1)) as (s2 & S2 & E2); [lia|lia|].
      rewrite (dir_entries_seen _ _ _ S1) in E2. exists s2. split; [by eapply seen_trans|].
      rewrite E2. do 4 f_equal. lia.
Qed.

(** The write of one entry touches one block. *)
Lemma entry_nturns k : 0 <= k -> nturns (DIRENT_SIZE * k) DIRENT_SIZE = 1.
Proof.
  intros Hk. unfold nturns, DIRENT_SIZE, BSIZE. change (64 <=? 0) with false. cbv iota.
  rewrite (Z.div_small (64 * k mod 512 + 64 - 1)); [done|].
  pose proof (Z.mod_pos_bound (64 * k) 512 ltac:(lia)).
  assert ((64 * k) mod 512 = 64 * (k mod 8)) as E by (change 512 with (64 * 8); apply Z.mul_mod_distr_l; lia).
  pose proof (Z.mod_pos_bound k 8 ltac:(lia)). lia.
Qed.

(** The entries after [e] was written at the position [k]. *)
Lemma entries_after v v' d d' k e :
  is_u32 (d_inum e) -> length (d_name e) = 60%nat -> (k <= nentries d)%nat ->
  0 <= dsize d -> dsize d mod DIRENT_SIZE = 0 ->
  dsize d' = Z.max (dsize d) (DIRENT_SIZE * Z.of_nat k + DIRENT_SIZE) ->
  dsize d' <= MAX_DATA_BLOCKS * BSIZE ->
  (forall p, 0 <= p < MAX_DATA_BLOCKS * BSIZE -> fbyte v' d' p =
     if decide (DIRENT_SIZE * Z.of_nat k <= p < DIRENT_SIZE * Z.of_nat k + DIRENT_SIZE)
     then enc_dirent e !!! Z.to_nat (p - DIRENT_SIZE * Z.of_nat k) else fbyte v d p) ->
  dsize d' mod DIRENT_SIZE = 0 /\
  dir_entries v' d' = if (k <? nentries d)%nat then <[k := e]> (dir_entries v d) else dir_entries v d ++ [e].
Proof.
  intros Hu Hlen Hk H0 Hm Hsz Hmax Hb. pose proof (nentries_size _ H0 Hm) as Hn.
  pose proof (length_enc_dirent e Hlen) as Hel.
  assert (dsize d' = DIRENT_SIZE * Z.of_nat (Nat.max (nentries d) (S k))) as Hsz'
    by (unfold DIRENT_SIZE in *; lia).
  assert (nentries d' = Nat.max (nentries d) (S k)) as Hn'.
  { unfold nentries at 1. rewrite Hsz', Z.mul_comm, Z.div_mul by done. lia. }
  split; [rewrite Hsz', Z.mul_comm; by apply Z.mod_mul|].
  assert (forall j, (j < nentries d')%nat -> entry_at v' d' j = if decide (j = k) then e else entry_at v d j) as He.
  { intros j Hj. rewrite Hn' in Hj. unfold entry_at. case_decide as D.
    - subst j. rewrite <- (dec_enc_dirent e Hu) at 1. f_equal. apply list_eq. intros p.
      destruct (decide (p < 64)%nat) as [Hp|Hp].
      + rewrite frange_lookup by (unfold DIRENT_SIZE; lia).
        rewrite Hb by (unfold DIRENT_SIZE in *; lia). rewrite decide_True by (unfold DIRENT_SIZE in *; lia).
        rewrite (list_lookup_lookup_total_lt (enc_dirent e) p) by lia. do 2 f_equal. lia.
      + rewrite !lookup_ge_None_2; [done|lia|rewrite frange_length; unfold DIRENT_SIZE; lia].
    - f_equal. apply frange_ext. intros p Hp. rewrite Hb by (unfold DIRENT_SIZE in *; lia).
      rewrite decide_False; [done|]. unfold DIRENT_SIZE in *. lia. }
  apply list_eq. intros j. destruct (decide (j < nentries d')%nat) as [Hj|Hj].
  - rewrite dir_entries_lookup by done. rewrite He by done. rewrite Hn' in Hj.
    destruct (Nat.ltb_spec k (nentries d)) as [Hkn|Hkn].
    + case_decide as D; [subst; by rewrite list_lookup_insert_eq by (rewrite length_dir_entries; lia)|].
      rewrite list_lookup_insert_ne by done. by rewrite dir_entries_lookup by lia.
    + case_decide as D.
      * subst j. rewrite lookup_app_r by (rewrite length_dir_entries; lia). rewrite length_dir_entries.
        by replace (k - nentries d)%nat with 0%nat by lia.
      * rewrite lookup_app_l by (rewrite length_dir_entries; lia). by rewrite dir_entries_lookup by lia.
  - rewrite lookup_ge_None_2 by (rewrite length_dir_entries; lia). rewrite Hn' in Hj.
    symmetry. apply lookup_ge_None_2. destruct (Nat.ltb_spec k (nentries d));
      rewrite ?length_insert, ?length_app, length_dir_entries; simpl; lia.
Qed.
End link.

(** A directory open for changes. *)
Record dir_inv (sb : superblock) (dir : Z) (d : inode) (s : ist) : Prop := {
  di_file : file_inv sb dir d s;
  di_type : type (disk_inode d) = INODE_DIRECTORY;
  di_mod : dsize (disk_inode d) mod DIRENT_SIZE = 0;
  di_holder : holder (isem d) = Some (curtask s);
  di_names : Forall terminated (dir_entries (view (bs (fl s))) (disk_inode d));
}.

Lemma dir_inv_pre sb dir d s : dir_inv sb dir d s -> dir_pre dir d s.
Proof.
  intros [F T M H N]. split; try done; [by apply (file_inv_read sb)|apply F].
Qed.

(** A new entry that [dir_link] accepts. *)
Record dirent_ok (e : dirent) : Prop := {
  eo_inum : is_u32 (d_inum e);
  eo_used : d_inum e <> 0;
  eo_len : length (d_name e) = 60%nat;
  eo_bytes : bytes (d_name e);
  eo_term : 0 ∈ d_name e;
  eo_name : str_of (d_name e) <> [];
}.

Lemma str_of_length l : (length (str_of l) <= length l)%nat.
Proof. induction l as [|c l IH]; simpl; [lia|]. destruct (c =? 0); simpl; lia. Qed.

Lemma dir_inv_seen sb dir d s s' : dir_inv sb dir d s -> seen s s' -> dir_inv sb dir d s'.
Proof.
  intros [F T M H N] Hs. split; try done.
  - by eapply file_inv_seen.
  - destruct Hs as (_ & _ & _ & ->). done.
  - by rewrite (dir_entries_seen _ _ _ Hs).
Qed.

Section link_specs.
Context `{Devices}.

(** Writing an entry over the one at the position [k]: one block changes, and the inode
    of the directory does not. *)
Lemma overwrite_entry sb dir d s k e :
  layout sb -> dir_inv sb dir d s -> (k < nentries (disk_inode d))%nat ->
  is_u32 (d_inum e) -> length (d_name e) = 60%nat -> bytes (d_name e) -> terminated e ->
  cap (fl s) 1 ->
  exists s', inode_write sb dir (enc_dirent e) (DIRENT_SIZE * Z.of_nat k) s = Ok (DIRENT_SIZE, s') /\
    dir_inv sb dir d s' /\ icache s' = icache s /\
    dir_entries (view (bs (fl s'))) (disk_inode d) = <[k := e]> (dir_entries (view (bs (fl s))) (disk_inode d)) /\
    disk (bs (fl s')) = disk (bs (fl s)) /\
    (exists b, forall x, x <> b -> view (bs (fl s')) x = view (bs (fl s)) x).
Proof.
  intros Hla Hi Hk Hu Hl Hb Ht Hc. pose proof Hi as [F T M Ho N]. pose proof (length_enc_dirent e Hl) as Hel.
  assert (Z.of_nat (length (enc_dirent e)) = DIRENT_SIZE) as Hz by (rewrite Hel; done).
  pose proof (nentries_size _ (proj1 (fi_size _ _ _ _ F)) M) as Hsz.
  destruct (inode_overwrite_spec sb dir d s (enc_dirent e) (DIRENT_SIZE * Z.of_nat k) Hla F)
    as (s' & g & E & F' & S & Ic & By).
  - rewrite T. done.
  - unfold DIRENT_SIZE in *. lia.
  - unfold enc_dirent. apply Forall_app. split; [apply bytes_enc32|done].
  - rewrite Hz. unfold DIRENT_SIZE in *. lia.
  - rewrite Hz, entry_nturns by lia. exact Hc.
  - unfold bytes_after in By. rewrite Hz in *. rewrite entry_nturns in S by lia.
    destruct (bm_log _ _ _ _ _ _ _ _ _ S) as (ws & L & Hw).
    destruct (entries_after (view (bs (fl s))) (view (bs (fl s'))) (disk_inode d) (disk_inode d) k e)
      as [M' En]; try done.
    { lia. }
    { apply F. }
    { unfold DIRENT_SIZE in *. lia. }
    { apply F. }
    rewrite (proj2 (Nat.ltb_lt _ _)) in En by done.
    exists s'. split_and!; try done; [|apply L|].
    + split; try done.
      * by rewrite (proj2 (bm_icache _ _ _ _ _ _ _ _ _ S)).
      * rewrite En. by apply Forall_insert.
    + destruct ws as [|[b y] [|? ?]]; [exists 0|exists b|simpl in Hw; lia];
        intros x Hx; rewrite (lw_view _ _ _ L); [done|]. simpl. by rewrite decide_False by done.
Qed.

(** What a write at the position [k] needs: in the place of an entry, room in the log for
    its block; at the end, room under the size limit, for seven blocks in the log, and two
    free blocks. *)
Definition entry_room (sb : superblock) (d : dinode) (s : ist) (k : nat) : Prop :=
  ((k < nentries d)%nat /\ cap (fl s) 1) \/
  (DIRENT_SIZE * Z.of_nat k + DIRENT_SIZE <= MAX_DATA_BLOCKS * BSIZE /\
   cap (fl s) 7 /\ (2 <= nfree sb (view (bs (fl s))))%nat).

(** Writing an entry at the position [k]. *)
Lemma write_entry sb dir d s k e :
  layout sb -> dir_inv sb dir d s -> (k <= nentries (disk_inode d))%nat ->
  is_u32 (d_inum e) -> length (d_name e) = 60%nat -> bytes (d_name e) -> terminated e ->
  entry_room sb (disk_inode d) s k ->
  exists d' s', inode_write sb dir (enc_dirent e) (DIRENT_SIZE * Z.of_nat k) s = Ok (DIRENT_SIZE, s') /\
    dir_inv sb dir d' s' /\ icache s' = <[Z.to_nat dir := d']> (icache s) /\
    dir_entries (view (bs (fl s'))) (disk_inode d') =
      (if (k <? nentries (disk_inode d))%nat
       then <[k := e]> (dir_entries (view (bs (fl s))) (disk_inode d))
       else dir_entries (view (bs (fl s))) (disk_inode d) ++ [e]) /\
    disk (bs (fl s')) = disk (bs (fl s)).
Proof.
  intros Hla Hi Hk Hu Hl Hb Ht [[Hlt Hc]|(Hmax & Hc & Hn)].
  { destruct (overwrite_entry sb dir d s k e) as (s' & E & I & Ic & En & Dk & _); try done.
    exists d, s'. split_and!; try done; [|by rewrite (proj2 (Nat.ltb_lt _ _))].
    rewrite Ic. symmetry. apply list_insert_id, (di_file _ _ _ _ Hi). }
  pose proof Hi as [F T M Ho N]. pose proof (length_enc_dirent e Hl) as Hel.
  assert (Z.of_nat (length (enc_dirent e)) = DIRENT_SIZE) as Hz by (rewrite Hel; done).
  pose proof (nentries_size _ (proj1 (fi_size _ _ _ _ F)) M) as Hsz.
  destruct (inode_write_spec sb dir d s (enc_dirent e) (DIRENT_SIZE * Z.of_nat k) Hla F)
    as (d' & s' & E & F' & Ic & (Ty & Hd' & Hcur) & Sz & By & _ & _ & (ws & L) & _).
  - rewrite T. done.
  - unfold DIRENT_SIZE in *. lia.
  - unfold enc_dirent. apply Forall_app. split; [apply bytes_enc32|done].
  - rewrite Hz. done.
  - rewrite Hz, entry_nturns by lia. exact Hc.
  - rewrite Hz, entry_nturns by lia. lia.
  - rewrite Hz in *. exists d', s'. split; [done|].
    destruct (entries_after (view (bs (fl s))) (view (bs (fl s'))) (disk_inode d) (disk_inode d') k e)
      as [M' En]; try done.
    { apply F. }
    { apply F'. }
    assert (isem d' = isem d) as Hs by (by rewrite Hd').
    split_and!; [|done|done|apply L]. split; [done|congruence|done|by rewrite Hs, Hcur|].
    rewrite En. destruct (_ <? _)%nat; [by apply Forall_insert|]. apply Forall_app. split; [done|]. by apply Forall_singleton.
Qed.

(** [dir_link] of a name that is not in the directory. *)
Lemma dir_link_spec sb dir d s e :
  layout sb -> dir_inv sb dir d s -> dirent_ok e ->
  let es := dir_entries (view (bs (fl s))) (disk_inode d) in
  dir_find es (str_of (d_name e)) = None ->
  entry_room sb (disk_inode d) s (free_slot es) ->
  exists d' s', dir_link sb dir e s = Ok (0, s') /\ dir_inv sb dir d' s' /\
    icache s' = <[Z.to_nat dir := d']> (icache s) /\
    dir_entries (view (bs (fl s'))) (disk_inode d') = add_entry es e /\
    disk (bs (fl s')) = disk (bs (fl s)).
Proof.
  intros Hla Hi [E1 E2 E3 E4 E5 E6] es Hf Hr. pose proof (dir_inv_pre _ _ _ _ Hi) as Hp.
  pose proof Hp as [D1 D2 D3 D4 D5 D6]. unfold dir_link.
  rewrite (bind_Ok _ _ _ _ _ (get_inode_Ok _ _ _ (rp_ip _ _ _ _ D1) (rp_get _ _ _ _ D1))).
  rewrite (bind_Ok _ _ _ tt s) by (apply ASSERT_true, Z.eqb_eq; done).
  rewrite (bind_Ok _ _ _ tt s) by (apply ASSERT_true; by rewrite (proj2 (Z.eqb_neq _ _))).
  rewrite (bind_Ok _ _ _ tt s) by (apply ASSERT_true, negb_true_iff, Nat.eqb_neq; by destruct (str_of (d_name e))).
  rewrite (bind_Ok _ _ _ _ _ (holding_Ok _ _ _ Hp)). rewrite (bind_Ok _ _ _ tt s) by done.
  destruct (dir_lookup_spec sb dir d s (str_of (d_name e)) Hp) as (s1 & S1 & L1);
    [apply str_of_nonzero|pose proof (str_of_length (d_name e)); unfold DIRENT_NAME_LENGTH; lia|].
  fold es in L1. rewrite Hf in L1. rewrite (bind_Ok _ _ _ _ _ L1).
  pose proof (dir_inv_seen _ _ _ _ _ Hi S1) as Hi1. pose proof (dir_inv_pre _ _ _ _ Hi1) as Hp1.
  destruct (dir_link_loop_spec sb dir d (nentries (disk_inode d)) 0 s1 (dir_fuel (dsize (disk_inode d))) Hp1)
    as (s2 & S2 & L2); [lia|unfold dir_fuel, nentries; lia|].
  rewrite drop_0, (dir_entries_seen _ _ _ S1) in L2. fold es in L2. rewrite Nat.add_0_l in L2.
  change (DIRENT_SIZE * Z.of_nat 0) with 0 in L2. rewrite (bind_Ok _ _ _ _ _ L2).
  pose proof (seen_trans _ _ _ S1 S2) as S12. pose proof (dir_inv_seen _ _ _ _ _ Hi S12) as Hi2.
  assert (forall x, view (bs (fl s2)) x = view (bs (fl s)) x) as Hv by (intros x; apply (w_view _ _ _ (proj1 S12))).
  pose proof (free_slot_le es) as Hfs. assert (length es = nentries (disk_inode d)) as Hlen by apply length_dir_entries.
  destruct (write_entry sb dir d s2 (free_slot es) e Hla Hi2) as (d' & s' & W1 & W2 & W3 & W4 & W5); try done.
  { lia. }
  { intros _. exact E5. }
  { unfold entry_room, cap in *. destruct S12 as (_ & -> & _).
    by rewrite (nfree_ext sb (view (bs (fl s))) (view (bs (fl s2)))) by (intros; by apply used_ext). }
  rewrite (bind_Ok _ _ _ _ _ W1). exists d', s'. split_and!.
  - done.
  - done.
  - rewrite W3. destruct S12 as (_ & _ & -> & _). done.
  - rewrite W4. unfold add_entry. rewrite (dir_entries_seen _ _ _ S12). fold es. by rewrite Hlen.
  - rewrite W5. apply (w_disk _ _ _ (proj1 S12)).
Qed.
End link_specs.

(** Looking up a name after an entry was added. *)
Lemma find_add es e name :
  d_inum e <> 0 -> dir_find es (str_of (d_name e)) = None ->
  d_inum <$> (snd <$> dir_find (add_entry es e) name) =
    if decide (name = str_of (d_name e)) then Some (d_inum e) else d_inum <$> (snd <$> dir_find es name).
Proof.
  intros Hn. unfold dir_find, add_entry. induction es as [|x es IH]; intros Hf.
  - simpl. unfold named. repeat case_decide; simpl; naive_solver.
  - cbn [list_find] in Hf. destruct (decide (named (str_of (d_name e)) x)) as [|Hx]; [done|].
    assert (list_find (named (str_of (d_name e))) es = None) as Hf' by (by destruct (list_find _ es)).
    specialize (IH Hf'). rewrite free_slot_cons. destruct (decide (d_inum x = 0)) as [Hz|Hz].
    + simpl length. rewrite (proj2 (Nat.ltb_lt 0 (S (length es)))) by lia. change (<[0%nat := e]> (x :: es)) with (e :: es).
      cbn [list_find]. rewrite (decide_False (P := named name x)) by (intros [? ?]; done).
      destruct (decide (named name e)) as [[? <-]|Hne].
      * by rewrite decide_True.
      * rewrite decide_False by (intros ->; by apply Hne). by destruct (list_find _ es) as [[j y]|].
    + simpl length. change (S (free_slot es) <? S (length es))%nat with (free_slot es <? length es)%nat.
      replace (if (free_slot es <? length es)%nat then <[S (free_slot es) := e]> (x :: es) else (x :: es) ++ [e])
        with (x :: (if (free_slot es <? length es)%nat then <[free_slot es := e]> es else es ++ [e]))
        by (by destruct (free_slot es <? length es)%nat).
      cbn [list_find]. destruct (decide (named name x)) as [[Hx1 Hx2]|Hnx].
      * rewrite decide_False; [done|]. intros ->. by apply Hx.
      * assert (forall o : option (nat * dirent), d_inum <$> (snd <$> (prod_map S id <$> o)) = d_inum <$> (snd <$> o)) as Ho
          by (by intros [[]|]).
        rewrite !Ho. exact IH.
Qed.

(** *** Theorems *)

Section theorems.
Context `{Devices}.

Lemma dir_isempty_loop_spec sb dir d : forall n k s fuel,
  dir_pre dir d s -> (k + n)%nat = nentries (disk_inode d) -> (n < fuel)%nat ->
  exists s', seen s s' /\
    dir_isempty_loop fuel sb dir (DIRENT_SIZE * Z.of_nat k) s =
      Ok (bool_decide (Forall (fun e => d_inum e = 0)
            (drop k (dir_entries (view (bs (fl s))) (disk_inode d)))), s').
Proof.
  induction n as [|n IH]; intros k s fuel Hp Hk Hf; (destruct fuel as [|fuel]; [lia|]);
    pose proof Hp as [D1 D2 D3 D4 D5 D6]; pose proof (nentries_size _ D2 D4) as Hsz; cbn [dir_isempty_loop];
    rewrite (bind_Ok _ _ _ _ _ (get_inode_Ok _ _ _ (rp_ip _ _ _ _ D1) (rp_get _ _ _ _ D1))).
  - rewrite (proj2 (Z.ltb_ge _ _)) by (unfold DIRENT_SIZE in *; lia). exists s. split; [apply seen_refl|].
    rewrite drop_ge by (rewrite length_dir_entries; lia). by rewrite bool_decide_true by constructor.
  - rewrite (proj2 (Z.ltb_lt _ _)) by (unfold DIRENT_SIZE in *; lia).
    destruct (read_entry sb dir d s k Hp) as (s1 & E1 & S1); [lia|]. rewrite (bind_Ok _ _ _ _ _ E1).
    cbn [fst snd]. change (DIRENT_SIZE <? 0) with false. cbv iota. rewrite (bind_Ok _ _ _ tt s1) by done.
    change (dec_dirent (frange _ _ _ _)) with (entry_at (view (bs (fl s))) (disk_inode d) k).
    rewrite drop_dir_entries by lia.
    destruct (Z.eqb_spec (d_inum (entry_at (view (bs (fl s))) (disk_inode d) k)) 0) as [Hz|Hz]; cbn [negb].
    + rewrite (next_offset dir d s k Hp ltac:(lia)).
      destruct (IH (S k) s1 fuel (dir_pre_seen _ _ _ _ Hp S1)) as (s2 & S2 & E2); [lia|lia|].
      rewrite (dir_entries_seen _ _ _ S1) in E2. exists s2. split; [by eapply seen_trans|].
      rewrite E2. do 2 f_equal. apply bool_decide_ext. rewrite Forall_cons. tauto.
    + exists s1. split; [done|]. rewrite bool_decide_false; [done|]. rewrite Forall_cons. tauto.
Qed.

(** [dir_lookup] finds the first entry in use with the name: it returns a
    reference to that entry's inode and the offset of the entry, or NULL when no
    entry in use has the name, and changes nothing else. *)
Theorem dir_lookup_correct sb dir d s name :
  dir_pre dir d s -> 0 ∉ name -> Z.of_nat (length name) <= DIRENT_NAME_LENGTH ->
  exists s', seen s s' /\
    dir_lookup sb dir name s =
      match dir_find (dir_entries (view (bs (fl s))) (disk_inode d)) name with
      | None => Ok (None, s')
      | Some (k, e) => (ip ← iget (d_inum e); mret (Some (ip, DIRENT_SIZE * Z.of_nat k))) s'
      end.
Proof. intros. by apply dir_lookup_spec. Qed.

(** C8: [dir_link] of a new name, a non-empty one of less than 60 bytes.  When the
    directory has a free entry and the log has room for one block, or when it has none but
    is below the largest size, and there are two free blocks and room for seven blocks in
    the log (otherwise the code fails or stops the machine), the call succeeds and adds
    exactly that name: afterwards the directory maps the name to the new inode number and
    every other name to what it was before; the directory stays well formed and the drive
    is untouched until the commit. *)
Theorem dir_link_correct sb dir d s e :
  layout sb -> dir_inv sb dir d s -> dirent_ok e ->
  let es := dir_entries (view (bs (fl s))) (disk_inode d) in
  dir_find es (str_of (d_name e)) = None ->
  entry_room sb (disk_inode d) s (free_slot es) ->
  exists d' s', dir_link sb dir e s = Ok (0, s') /\ dir_inv sb dir d' s' /\
    disk (bs (fl s')) = disk (bs (fl s)) /\
    forall name, d_inum <$> (snd <$> dir_find (dir_entries (view (bs (fl s'))) (disk_inode d')) name) =
      if decide (name = str_of (d_name e)) then Some (d_inum e) else d_inum <$> (snd <$> dir_find es name).
Proof.
  intros Hla Hi He es Hf Hr.
  destruct (dir_link_spec sb dir d s e Hla Hi He Hf Hr) as (d' & s' & E & I & _ & En & Dk).
  exists d', s'. split_and!; [done..|]. intros name. rewrite En. apply find_add; [apply He|done].
Qed.

(** C9: [dir_unlink] at the offset of an entry in use, with room for one block in the log
    (otherwise [log_write] stops the machine), succeeds whether or not the drive has a free
    block: it clears that entry and leaves every other entry of the directory, its inode
    and every cached inode as they are; no other block than the one with the entry changes,
    the bitmap included, and the drive is untouched until the commit. *)
Theorem dir_unlink_correct sb dir d s k e :
  layout sb -> dir_inv sb dir d s ->
  let es := dir_entries (view (bs (fl s))) (disk_inode d) in
  es !! k = Some e -> d_inum e <> 0 -> cap (fl s) 1 ->
  exists s', dir_unlink sb dir (DIRENT_SIZE * Z.of_nat k) s = Ok (0, s') /\ dir_inv sb dir d s' /\
    dir_entries (view (bs (fl s'))) (disk_inode d) = <[k := Dirent 0 (replicate 60 0)]> es /\
    icache s' = icache s /\ disk (bs (fl s')) = disk (bs (fl s)) /\
    (exists b, forall x, x <> b -> view (bs (fl s')) x = view (bs (fl s)) x).
Proof.
  intros Hla Hi es Hk He Hc. pose proof (dir_inv_pre _ _ _ _ Hi) as Hp.
  pose proof Hp as [D1 D2 D3 D4 D5 D6]. pose proof (nentries_size _ D2 D4) as Hsz.
  assert (length es = nentries (disk_inode d)) as Hlen by apply length_dir_entries.
  pose proof (lookup_lt_Some _ _ _ Hk) as Hlt. rewrite Hlen in Hlt.
  pose proof (dir_entries_lookup (view (bs (fl s))) (disk_inode d) k Hlt) as Hk'. fold es in Hk'.
  rewrite Hk in Hk'. injection Hk' as ->.
  unfold dir_unlink.
  rewrite (bind_Ok _ _ _ _ _ (get_inode_Ok _ _ _ (rp_ip _ _ _ _ D1) (rp_get _ _ _ _ D1))).
  rewrite (bind_Ok _ _ _ _ _ (holding_Ok _ _ _ Hp)). rewrite (bind_Ok _ _ _ tt s) by done.
  rewrite (bind_Ok _ _ _ tt s) by (apply ASSERT_true, Z.eqb_eq; done).
  rewrite (bind_Ok _ _ _ tt s) by (apply ASSERT_true, Z.ltb_lt; unfold DIRENT_SIZE in *; lia).
  rewrite (bind_Ok _ _ _ tt s) by (apply ASSERT_true, Z.eqb_eq; rewrite Z.mul_comm; by apply Z.mod_mul).
  destruct (read_entry sb dir d s k Hp Hlt) as (s1 & E1 & S1). rewrite (bind_Ok _ _ _ _ _ E1). cbn [fst snd].
  rewrite (bind_Ok _ _ _ tt s1) by done.
  change (dec_dirent (frange _ _ _ _)) with (entry_at (view (bs (fl s))) (disk_inode d) k).
  rewrite (bind_Ok _ _ _ tt s1) by (apply ASSERT_true; by rewrite (proj2 (Z.eqb_neq _ _))).
  pose proof (dir_inv_seen _ _ _ _ _ Hi S1) as Hi1.
  assert (forall x, view (bs (fl s1)) x = view (bs (fl s)) x) as Hv by (intros x; apply (w_view _ _ _ (proj1 S1))).
  destruct (overwrite_entry sb dir d s1 k (Dirent 0 (replicate 60 0)) Hla Hi1)
    as (s' & W1 & W2 & W3 & W4 & W5 & b & W6).
  - lia.
  - simpl. ulia.
  - done.
  - apply Forall_replicate. ulia.
  - intros Hz. by simpl in Hz.
  - unfold cap in *. destruct S1 as (_ & -> & _). done.
  - change (enc_dirent (Dirent 0 (replicate 60 0))) with (replicate (Z.to_nat DIRENT_SIZE) 0) in W1.
    rewrite (bind_Ok _ _ _ _ _ W1). exists s'. split_and!; try done.
    + rewrite W4. by rewrite (dir_entries_seen _ _ _ S1).
    + rewrite W3. by destruct S1 as (_ & _ & -> & _).
    + rewrite W5. apply (w_disk _ _ _ (proj1 S1)).
    + exists b. intros x Hx. rewrite W6 by done. apply Hv.
Qed.

(** [dir_isempty] answers whether every entry after the first two ("." and "..")
    is free. *)
Theorem dir_isempty_correct sb dir d s :
  dir_pre dir d s -> (2 <= nentries (disk_inode d))%nat ->
  exists s', seen s s' /\
    dir_isempty sb dir s =
      Ok (bool_decide (Forall (fun e => d_inum e = 0)
            (drop 2 (dir_entries (view (bs (fl s))) (disk_inode d)))), s').
Proof.
  intros Hp H2. pose proof Hp as [D1 D2 D3 D4 D5 D6]. unfold dir_isempty.
  rewrite (bind_Ok _ _ _ _ _ (get_inode_Ok _ _ _ (rp_ip _ _ _ _ D1) (rp_get _ _ _ _ D1))).
  rewrite (bind_Ok _ _ _ tt s) by (apply ASSERT_true, Z.eqb_eq; done).
  rewrite (bind_Ok _ _ _ _ _ (holding_Ok _ _ _ Hp)). rewrite (bind_Ok _ _ _ tt s) by done.
  apply (dir_isempty_loop_spec sb dir d (nentries (disk_inode d) - 2) 2 s); [done|lia|].
  unfold dir_fuel, nentries. lia.
Qed.
End theorems.

(** *** A directory with "." on a small drive *)

Definition dot : dirent := Dirent 1 (46 :: replicate 59 0).

Definition demo_dir_data : block := enc_dirent dot ++ replicate 448 0.

Definition demo_dir_bs : bstore := BStore {[ 39 := demo_dir_data; 37 := 1 :: replicate 511 0 ]} ∅ ∅ ∅ [].

Definition demo_dir_inode : inode :=
  MkInode 1 1 (Sem 0 [] (Some 3)) true (Dinode INODE_DIRECTORY 1 64 0 0 (39 :: replicate 11 0)).

Definition demo_dir_ist : ist :=
  Ist (Fss demo_dir_bs (lg demo_fss)) (demo_dir_inode :: replicate 50 free_inode) 3.

#[local] Existing Instance no_devices.

Lemma demo_dir_view x : view demo_dir_bs x =
  if decide (x = 39) then demo_dir_data else if decide (x = 37) then 1 :: replicate 511 0 else zero_block.
Proof.
  unfold view, demo_dir_bs. cbn [disk cache]. rewrite lookup_empty. cbn [default]. unfold dread.
  repeat case_decide; subst; [done|done|]. by rewrite lookup_insert_ne, lookup_singleton_ne.
Qed.

Lemma demo_dir_blocks x : block_ok (view demo_dir_bs x).
Proof.
  rewrite demo_dir_view. repeat case_decide; [| |apply zero_block_ok]; split; try done; unfold bytes.
  - unfold demo_dir_data, enc_dirent. apply Forall_app. split; [|apply Forall_replicate; ulia].
    apply Forall_app. split; [apply bytes_enc32|]. simpl d_name. apply Forall_cons; split; [ulia|apply (Forall_replicate is_u8 59 0); ulia].
  - apply Forall_cons; split; [ulia|apply Forall_replicate; ulia].
Qed.

Lemma demo_dir_slot k : slot (view demo_dir_bs) (disk_inode demo_dir_inode) k = if decide (k = 0%nat) then 39 else 0.
Proof.
  unfold slot. destruct (Nat.ltb_spec k 12).
  - do 12 (destruct k as [|k]; [done|]). lia.
  - rewrite decide_False by lia. done.
Qed.

Lemma demo_dir_tx : tx (fl demo_dir_ist).
Proof.
  split; simpl; try done.
  - apply demo_tx.
  - unfold MAXHELD. vm_compute. lia.
  - apply demo_dir_blocks.
  - apply zero_hdr_ok.
Qed.

Lemma demo_dir_file : file_inv demo_sb 0 demo_dir_inode demo_dir_ist.
Proof.
  split.
  - split; try done.
    + split; [apply demo_dir_tx|done|unfold MAXHELD; vm_compute; lia|by intros; apply not_elem_of_empty..].
    + split; [done| |].
      * intros k Hk Hn. simpl in Hn |- *. rewrite demo_dir_slot in Hn |- *. case_decide; [|done].
        exists 0. by vm_compute.
      * intros k k' _ _ Hn Heq. simpl in Hn, Heq. rewrite !demo_dir_slot in Heq. rewrite demo_dir_slot in Hn.
        repeat case_decide; congruence.
    + unfold MAXHELD. vm_compute. lia.
  - vm_compute. split; congruence.
  - simpl. intros bn H1 H2. unfold BSIZE in H2. assert (bn = 0) as -> by lia.
    change (fl demo_dir_ist) with (Fss demo_dir_bs (lg demo_fss)). by vm_compute.
  - split; simpl; unfold INODE_DIRECTORY; try ulia. split; [|done]. by repeat (apply Forall_cons; split; [ulia|]).
  - vm_compute. split; congruence.
  - apply not_elem_of_empty.
Qed.

Lemma demo_dir_entries : dir_entries (view demo_dir_bs) (disk_inode demo_dir_inode) = [dot].
Proof. by vm_compute. Qed.

Lemma demo_dir_inv : dir_inv demo_sb 0 demo_dir_inode demo_dir_ist.
Proof.
  split; [apply demo_dir_file|done|done|done|]. change (view (bs (fl demo_dir_ist))) with (view demo_dir_bs). rewrite demo_dir_entries.
  apply Forall_singleton. intros _. simpl. set_solver.
Qed.

Definition new_entry : dirent := Dirent 2 (97 :: replicate 59 0).

Lemma dir_lookup_correct_witness :
  exists s', seen demo_dir_ist s' /\
    dir_lookup demo_sb 0 [46] demo_dir_ist = (ip ← iget 1; mret (Some (ip, 0))) s'.
Proof.
  destruct (dir_lookup_correct demo_sb 0 demo_dir_inode demo_dir_ist [46]) as (s' & S1 & E).
  - apply (dir_inv_pre demo_sb), demo_dir_inv.
  - set_solver.
  - by vm_compute.
  - exists s'. split; [done|]. rewrite E. change (view (bs (fl demo_dir_ist))) with (view demo_dir_bs). rewrite demo_dir_entries. reflexivity.
Defined.

Lemma dir_link_correct_witness :
  exists d' s', dir_link demo_sb 0 new_entry demo_dir_ist = Ok (0, s') /\
    d_inum <$> (snd <$> dir_find (dir_entries (view (bs (fl s'))) (disk_inode d')) [97]) = Some 2 /\
    d_inum <$> (snd <$> dir_find (dir_entries (view (bs (fl s'))) (disk_inode d')) [46]) = Some 1.
Proof.
  destruct (dir_link_correct demo_sb 0 demo_dir_inode demo_dir_ist new_entry) as (d' & s' & E & _ & _ & F).
  - apply demo_layout.
  - apply demo_dir_inv.
  - split.
    + simpl. ulia.
    + done.
    + done.
    + apply Forall_cons. split; [ulia|]. apply (Forall_replicate is_u8 59 0). ulia.
    + simpl. set_solver.
    + done.
  - by vm_compute.
  - right. split; [by vm_compute|]. split; [by vm_compute|]. apply Nat.leb_le. by vm_compute.
  - exists d', s'. split; [done|]. split.
    + rewrite F. by vm_compute.
    + rewrite F. rewrite decide_False by done. change (view (bs (fl demo_dir_ist))) with (view demo_dir_bs). rewrite demo_dir_entries. by vm_compute.
Defined.

Lemma dir_unlink_correct_witness :
  exists s', dir_unlink demo_sb 0 0 demo_dir_ist = Ok (0, s') /\
    dir_entries (view (bs (fl s'))) (disk_inode demo_dir_inode) = [Dirent 0 (replicate 60 0)].
Proof.
  destruct (dir_unlink_correct demo_sb 0 demo_dir_inode demo_dir_ist 0 dot) as (s' & E & _ & F & _).
  - apply demo_layout.
  - apply demo_dir_inv.
  - change (view (bs (fl demo_dir_ist))) with (view demo_dir_bs). by rewrite demo_dir_entries.
  - done.
  - by vm_compute.
  - exists s'. split; [done|]. rewrite F. change (view (bs (fl demo_dir_ist))) with (view demo_dir_bs). by rewrite demo_dir_entries.
Defined.

Definition demo_dir2 : inode :=
  MkInode 1 1 (Sem 0 [] (Some 3)) true (Dinode INODE_DIRECTORY 1 128 0 0 (39 :: replicate 11 0)).

Lemma dir_isempty_correct_witness :
  exists s', dir_isempty demo_sb 0 (Ist (fl demo_dir_ist) [demo_dir2] 3) = Ok (true, s').
Proof.
  destruct (dir_isempty_correct demo_sb 0 demo_dir2 (Ist (fl demo_dir_ist) [demo_dir2] 3)) as (s' & _ & E).
  - split; try done.
    + split; try done.
      * apply demo_dir_blocks.
      * apply tx_has_room, demo_dir_tx.
      * intros bn H1 H2. simpl in H2. unfold BSIZE in H2. assert (bn = 0) as -> by lia. by vm_compute.
    + assert (dir_entries (view (bs (fl (Ist (fl demo_dir_ist) [demo_dir2] 3)))) (disk_inode demo_dir2)
        = [dot; Dirent 0 (replicate 60 0)]) as -> by (by vm_compute).
      apply Forall_cons. split; [intros _; simpl; set_solver|]. apply Forall_singleton. intros Hz. by simpl in Hz.
  - apply Nat.leb_le. by vm_compute.
  - exists s'. rewrite E. by vm_compute.
Defined.
End Dir.
