(* ===== verification/Pathname.v ===== *)
(** Path names: src/fs/pathname.c.

    A [char *] into a path is the list of the bytes from there to the NUL.  The
    first part of the file is the parsing of paths, compared with the list of the
    elements of a path; the second is the walk through the directories. *)

From stdpp Require Import base numbers list gmap.
From Stdlib Require Import ZArith Lia.
From S2P Require Import Prelude Semaphore BlockIO Log BAlloc Inode Dir.
#[local] Open Scope Z_scope.

Module Pathname.
Import Semaphore BlockIO Log BAlloc Inode Dir.

Definition SLASH : Z := 47.

(** [while ( *path == '/' ) path++]. *)
Fixpoint skip_slashes (path : list Z) : list Z :=
  match path with
  | c :: p => if c =? SLASH then skip_slashes p else path
  | [] => []
  end.

(** [do *name++ = *path++ while ( *path != 0 && *path != '/' )]: the bytes copied and
    the rest. *)
Fixpoint copy_elem (path : list Z) : list Z * list Z :=
  match path with
  | [] => ([], [])
  | c :: p =>
      match p with
      | [] => ([c], [])
      | x :: _ => if x =? SLASH then ([c], p) else let r := copy_elem p in (c :: fst r, snd r)
      end
  end.

(** The name copied out and the rest of the path; [None] is NULL. *)
Definition path_skipelem (path : list Z) : option (list Z * list Z) :=
  match skip_slashes path with
  | [] => None
  | p => Some (copy_elem p)
  end.

(** The [for (;;)] of [path_parent]: [p] is where the bytes not yet copied to
    [parent] start, [name] the last element copied. *)
Fixpoint path_parent_loop (fuel : nat) (p path parent name : list Z) : option (list Z * list Z) :=
  match fuel with
  | O => None
  | S fuel =>
      match skip_slashes path with
      | [] => Some (parent, name)
      | path' =>
          let r := copy_elem path' in
          path_parent_loop fuel path' (snd r)
            (parent ++ take (length p - length path') p) (fst r)
      end
  end.

(** The result is the two strings stored; [name0] is what [name] held before. *)
Definition path_parent (path name0 : list Z) : option (list Z * list Z) :=
  path_parent_loop (S (length path)) path path [] name0.

(** [invalid_charset]. *)
Definition invalid_char (c : Z) : bool := (c =? SLASH) || (c =? 127).

Fixpoint valid_chars (name : list Z) : bool :=
  match name with
  | [] => true
  | c :: name => if i8 c <=? 31 then false else if invalid_char c then false else valid_chars name
  end.

Definition path_valid_name (name : list Z) : bool :=
  let len := Z.of_nat (length name) in
  if (len =? 0) || (DIRENT_NAME_LENGTH <? len) then false
  else
    match name with
    | c :: _ => if (c =? 43) || (c =? 45) || (c =? 46) then false else valid_chars name
    | [] => valid_chars name
    end.

Section walk.
Context `{Devices}.

(** [char name[DIRENT_NAME_LENGTH]]: an element of 60 bytes or more and its NUL do not
    fit, and [path_skipelem] does not stop at the end of the array. *)
Definition fits (name : list Z) : bool := Z.of_nat (length name) <? DIRENT_NAME_LENGTH.

(** The [while] of [path_lookup0]: the inode, or NULL, and the last name copied. *)
Fixpoint path_lookup_loop (fuel : nat) (sb : superblock) (path : list Z) (nameiparent : bool)
    (parent : Z) (name : list Z) : M ist (option (Z * list Z)) :=
  match fuel with
  | O => hang
  | S fuel =>
      match path_skipelem path with
      | None =>
          if nameiparent then inode_put sb parent;; mret None
          else mret (Some (parent, name))
      | Some (name, path) =>
          (if fits name then mret tt else panic);;
          inode_lock sb parent;;
          p ← get_inode parent;
          if negb (type (disk_inode p) =? INODE_DIRECTORY) then
            inode_unlockput sb parent;; mret None
          else
            let path := skip_slashes path in
            if (match path with [] => true | _ => false end) && nameiparent then
              inode_unlock parent;; mret (Some (parent, name))
            else
              next ← dir_lookup sb parent name;
              match next with
              | None => inode_unlockput sb parent;; mret None
              | Some (ip, _) =>
                  inode_unlockput sb parent;;
                  path_lookup_loop fuel sb path nameiparent ip name
              end
      end
  end.

(** [cwd]: the current directory of the task. *)
Definition path_lookup0 (sb : superblock) (cwd : Z) (path : list Z) (nameiparent : bool)
    : M ist (option (Z * list Z)) :=
  match path with
  | c :: p =>
      if c =? SLASH then
        parent ← iget ROOT_INUM;
        path_lookup_loop (S (length p)) sb p nameiparent parent []
      else
        parent ← inode_dup cwd;
        path_lookup_loop (S (length path)) sb path nameiparent parent []
  | [] =>
      parent ← inode_dup cwd;
      path_lookup_loop (S (length path)) sb path nameiparent parent []
  end.

Definition path_lookup (sb : superblock) (cwd : Z) (path : list Z) : M ist (option Z) :=
  r ← path_lookup0 sb cwd path false;
  mret (fst <$> r).

Definition path_lookup_parent (sb : superblock) (cwd : Z) (path : list Z) : M ist (option (Z * list Z)) :=
  path_lookup0 sb cwd path true.
End walk.

(** ** The elements of a path *)

(** Split at every slash. *)
Fixpoint split_slash (path : list Z) : list (list Z) :=
  match path with
  | [] => [[]]
  | c :: p =>
      if c =? SLASH then [] :: split_slash p
      else match split_slash p with
           | e :: es => (c :: e) :: es
           | [] => [[c]]
           end
  end.

Definition elements (path : list Z) : list (list Z) := filter (fun e => e <> []) (split_slash path).

Lemma elements_nil : elements [] = [].
Proof. done. Qed.

Lemma elements_slash p : elements (SLASH :: p) = elements p.
Proof. done. Qed.

Lemma split_slash_cons p : exists e es, split_slash p = e :: es.
Proof.
  induction p as [|c p (e & es & IH)]; [by exists [], []|]. simpl.
  destruct (c =? SLASH); [eauto|]. rewrite IH. eauto.
Qed.

Lemma skip_slashes_elements path : elements (skip_slashes path) = elements path.
Proof.
  induction path as [|c p IH]; [done|]. simpl. destruct (Z.eqb_spec c SLASH) as [->|]; [|done].
  by rewrite IH, elements_slash.
Qed.

Lemma skip_slashes_head path : match skip_slashes path with c :: _ => c <> SLASH | [] => True end.
Proof.
  induction path as [|c p IH]; [done|]. simpl. by destruct (Z.eqb_spec c SLASH).
Qed.

Lemma skip_slashes_suffix path : exists sl, path = sl ++ skip_slashes path /\ Forall (eq SLASH) sl.
Proof.
  induction path as [|c p (sl & E & Hs)]; [by exists []|]. simpl.
  destruct (Z.eqb_spec c SLASH) as [->|]; [|by exists []].
  exists (SLASH :: sl). split; [simpl; congruence|by constructor].
Qed.

(** [copy_elem] takes the first element of a path that does not start with a slash. *)
Lemma copy_elem_spec path : path <> [] -> match path with c :: _ => c <> SLASH | [] => True end ->
  let r := copy_elem path in
  path = fst r ++ snd r /\ fst r <> [] /\ SLASH ∉ fst r /\
  match snd r with c :: _ => c = SLASH | [] => True end /\
  elements path = fst r :: elements (snd r).
Proof.
  induction path as [|c p IH]; intros Hne Hc; [done|]. simpl. destruct p as [|x p'].
  - simpl. split_and!; [done|done|set_solver|done|]. unfold elements. simpl.
    by rewrite (proj2 (Z.eqb_neq _ _)) by done.
  - destruct (Z.eqb_spec x SLASH) as [->|Hx].
    + simpl. split_and!; [done|done|set_solver|done|].
      unfold elements. simpl. by rewrite (proj2 (Z.eqb_neq c SLASH)) by done.
    + destruct IH as (E & N & S1 & S2 & El); [done|done|].
      set (r := copy_elem (x :: p')) in *. cbn [fst snd].
      split_and!; [by rewrite E at 1|done|set_solver|done|].
      unfold elements in *. cbn [split_slash]. rewrite (proj2 (Z.eqb_neq c SLASH)) by done.
      change (if x =? SLASH then [] :: split_slash p' else
        match split_slash p' with | [] => [[x]] | e :: es => (x :: e) :: es end) with (split_slash (x :: p')).
      destruct (split_slash (x :: p')) as [|e es] eqn:Es.
      { destruct (split_slash_cons (x :: p')) as (? & ? & ?). congruence. }
      assert (e <> []) as He.
      { intros ->. simpl in Es. rewrite (proj2 (Z.eqb_neq x SLASH)) in Es by done. by destruct (split_slash p'). }
      rewrite filter_cons_True in El by done. rewrite filter_cons_True by done. congruence.
Qed.

Lemma copy_elem_length path : path <> [] -> (length (snd (copy_elem path)) < length path)%nat.
Proof.
  intros Hne. induction path as [|c p IH]; [done|]. simpl. destruct p as [|x p']; [simpl; lia|].
  destruct (x =? SLASH); [simpl; lia|]. cbn [snd]. specialize (IH ltac:(done)). simpl in *. lia.
Qed.

Lemma skip_slashes_length path : (length (skip_slashes path) <= length path)%nat.
Proof. induction path as [|c p IH]; [done|]. simpl. destruct (c =? SLASH); simpl; lia. Qed.

Lemma elements_app_slash a b : elements (a ++ SLASH :: b) = elements a ++ elements b.
Proof.
  unfold elements. assert (split_slash (a ++ SLASH :: b) = split_slash a ++ split_slash b) as ->.
  { induction a as [|c a IH]; [done|]. simpl. rewrite IH. destruct (c =? SLASH); [done|].
    by destruct (split_slash_cons a) as (e & es & ->). }
  by rewrite filter_app.
Qed.

Lemma elements_slashes sl b : Forall (eq SLASH) sl -> elements (sl ++ b) = elements b.
Proof. induction 1 as [|c sl <- _ IH]; [done|]. simpl. by rewrite elements_slash. Qed.

(** After an element the rest of the path starts with a slash or is empty. *)
Definition at_boundary (e path : list Z) : Prop :=
  e = [] \/ match path with c :: _ => c = SLASH | [] => True end.

Lemma elements_boundary e sl b : at_boundary e (sl ++ b) -> Forall (eq SLASH) sl -> (b <> [] -> e <> [] -> sl <> []) ->
  elements (e ++ sl ++ b) = elements e ++ elements b.
Proof.
  intros Hb Hsl Hne. destruct sl as [|c sl].
  - simpl. destruct (decide (e = [])) as [->|He]; [done|]. destruct (decide (b = [])) as [->|Hb'].
    + by rewrite !app_nil_r.
    + by destruct (Hne Hb' He).
  - apply Forall_cons in Hsl as [<- Hsl]. change ((SLASH :: sl) ++ b) with (SLASH :: (sl ++ b)).
    rewrite elements_app_slash. by rewrite elements_slashes.
Qed.

Lemma path_parent_loop_spec fuel : forall e path parent name,
  (length path < fuel)%nat -> at_boundary e path ->
  (elements path = [] /\ path_parent_loop fuel (e ++ path) path parent name = Some (parent, name)) \/
  (exists q nm, path_parent_loop fuel (e ++ path) path parent name = Some (parent ++ q, nm) /\
     elements q ++ [nm] = elements e ++ elements path /\ q `prefix_of` (e ++ path) /\
     nm <> [] /\ SLASH ∉ nm).
Proof.
  induction fuel as [|fuel IH]; intros e path parent name Hf Hb; [lia|]. cbn [path_parent_loop].
  destruct (skip_slashes_suffix path) as (sl & Esl & Hsl). pose proof (skip_slashes_elements path) as Hel.
  pose proof (skip_slashes_head path) as Hh. pose proof (skip_slashes_length path) as Hlen.
  destruct (skip_slashes path) as [|c p'] eqn:Es.
  { left. split; [by rewrite <- Hel|done]. }
  right. set (path' := c :: p') in *.
  destruct (copy_elem_spec path' ltac:(done) Hh) as (R1 & R2 & R3 & R4 & R5).
  pose proof (copy_elem_length path' ltac:(done)) as Hl'. set (r := copy_elem path') in *.
  assert (take (length (e ++ path) - length path') (e ++ path) = e ++ sl) as ->.
  { rewrite Esl, app_assoc, length_app. replace (length (e ++ sl) + length path' - length path')%nat
      with (length (e ++ sl)) by lia. by rewrite take_app_length. }
  assert (elements (e ++ sl) = elements e) as Ees.
  { clear -Hsl. induction sl as [|x sl IH] using rev_ind; [by rewrite app_nil_r|].
    apply Forall_app in Hsl as [H1 H2]. apply Forall_singleton in H2 as <-.
    rewrite app_assoc, elements_app_slash, IH by done. by rewrite elements_nil, app_nil_r. }
  assert (e <> [] -> sl <> []) as Hsne.
  { intros He ->. simpl in Esl. destruct Hb as [|Hb]; [done|]. rewrite Esl in Hb. by apply Hh. }
  destruct (IH (fst r) (snd r) (parent ++ e ++ sl) (fst r)) as [[En E]|(q & nm & E & En & Hq & N1 & N2)].
  { lia. }
  { by right. }
  - exists (e ++ sl), (fst r). rewrite R1 at 1. rewrite E. split_and!; try done.
    + rewrite Ees, <- Hel, R5, En. done.
    + exists path'. rewrite Esl, <- !app_assoc. done.
  - exists ((e ++ sl) ++ q), nm. rewrite R1 at 1. rewrite E. split_and!; try done.
    + by rewrite !app_assoc.
    + assert (elements ((e ++ sl) ++ q) = elements e ++ elements q) as ->.
      { rewrite <- app_assoc. destruct sl as [|x sl] using rev_ind.
        - destruct (decide (e = [])) as [->|He]; [done|]. by destruct (Hsne He).
        - apply Forall_app in Hsl as [H1 H2]. apply Forall_singleton in H2 as <-.
          rewrite <- app_assoc, app_assoc. change ([SLASH] ++ q) with (SLASH :: q).
          rewrite elements_app_slash. f_equal.
          rewrite <- Ees, app_assoc, elements_app_slash. by rewrite elements_nil, app_nil_r. }
      rewrite <- app_assoc, En. rewrite <- Hel, R5. f_equal.
      assert (elements (fst r) = [fst r]) as ->; [|done].
      destruct (copy_elem_spec path' ltac:(done) Hh) as (_ & _ & _ & _ & _).
      clear -R2 R3. revert R2 R3. generalize (fst r) as w. intros w Hw Hs. unfold elements.
      assert (split_slash w = [w]) as ->.
      { clear Hw. induction w as [|x w IHw]; [done|]. simpl. apply not_elem_of_cons in Hs as [Hx Hs].
        rewrite (proj2 (Z.eqb_neq _ _)) by done. by rewrite IHw. }
      by rewrite filter_cons_True.
    + destruct Hq as [t Ht]. exists t. rewrite Esl, R1, Ht. by rewrite !app_assoc.
Qed.

Lemma path_skipelem_spec path :
  match path_skipelem path with
  | None => elements path = []
  | Some (name, rest) => elements path = name :: elements rest /\ name <> [] /\ SLASH ∉ name /\
      (length rest < length path)%nat
  end.
Proof.
  unfold path_skipelem. pose proof (skip_slashes_elements path) as Hel.
  pose proof (skip_slashes_head path) as Hh. pose proof (skip_slashes_length path) as Hlen.
  destruct (skip_slashes path) as [|c p]; [done|].
  destruct (copy_elem_spec (c :: p) ltac:(done) Hh) as (R1 & R2 & R3 & R4 & R5).
  pose proof (copy_elem_length (c :: p) ltac:(done)) as Hl.
  destruct (copy_elem (c :: p)) as [n r]. simpl fst in *. simpl snd in *.
  split_and!; [congruence|done|done|lia].
Qed.

(** *** Theorems *)

(** [path_skipelem] splits off the first element of a path: it returns NULL
    exactly when the path has no element, and otherwise the first element and a rest
    with the elements that follow; the rest is shorter, so a walk over a path ends. *)
Theorem path_skipelem_correct path :
  match path_skipelem path with
  | None => elements path = []
  | Some (name, rest) => elements path = name :: elements rest /\ name <> [] /\ SLASH ∉ name /\
      (length rest < length path)%nat
  end.
Proof. apply path_skipelem_spec. Qed.

(** [path_parent] splits a path into its parent and its last element: it returns
    for every path; with no element the parent is empty and the name is not touched,
    otherwise the parent is a prefix of the path with all the elements but the last,
    and the name is the last element. *)
Theorem path_parent_correct path name0 :
  exists parent name, path_parent path name0 = Some (parent, name) /\
    (elements path = [] -> parent = [] /\ name = name0) /\
    (elements path <> [] -> elements parent ++ [name] = elements path /\ parent `prefix_of` path).
Proof.
  unfold path_parent.
  destruct (path_parent_loop_spec (S (length path)) [] path [] name0) as [[En E]|(q & nm & E & En & Hq & N1 & N2)].
  - lia.
  - by left.
  - change ([] ++ path) with path in E. exists [], name0. rewrite E. split_and!; [done..|]. by intros.
  - change ([] ++ path) with path in E, Hq. change ([] ++ q) with q in E. simpl in En. exists q, nm. rewrite E. split_and!; [done| |done].
    intros Hz. rewrite Hz in En. by destruct (elements q).
Qed.

Lemma valid_chars_spec name : bytes name ->
  valid_chars name = true <-> Forall (fun c => 32 <= c < 127 /\ c <> SLASH) name.
Proof.
  induction 1 as [|c name Hc _ IH]; [simpl; split; [constructor|done]|]. simpl. rewrite Forall_cons.
  unfold invalid_char, SLASH in *. destruct (Z.leb_spec (i8 c) 31) as [H1|H1].
  - split; [done|]. intros [[? ?] _]. exfalso. revert H1 Hc. unfold i8, is_u8. intros.
    rewrite Z.mod_small in H1 by lia. lia.
  - assert (32 <= c < 128) as Hr.
    { revert H1 Hc. unfold i8, is_u8. intros. destruct (decide (c < 128)); [rewrite Z.mod_small in H1 by lia; lia|].
      replace (c + 2 ^ 7) with (c - 128 + 1 * 2 ^ 8) in H1 by lia. rewrite Z.mod_add in H1 by lia.
      rewrite Z.mod_small in H1 by lia. lia. }
    destruct (Z.eqb_spec c 47), (Z.eqb_spec c 127); simpl; rewrite ?IH; try (split; [done|]; intros [[? ?] _]; lia).
    split; [|tauto]. intros. split; [|done]. lia.
Qed.

(** C13: [path_valid_name] accepts exactly the names of 1 to 60 bytes that do not start
    with '+', '-' or '.', and whose bytes are printable ASCII other than '/'; a name
    it accepts is a single element of a path. *)
Theorem path_valid_name_correct name :
  bytes name ->
  (path_valid_name name = true <->
     1 <= Z.of_nat (length name) <= DIRENT_NAME_LENGTH /\
     (forall c rest, name = c :: rest -> c <> 43 /\ c <> 45 /\ c <> 46) /\
     Forall (fun c => 32 <= c < 127 /\ c <> SLASH) name) /\
  (path_valid_name name = true -> elements name = [name]).
Proof.
  intros Hb. assert (path_valid_name name = true <->
     1 <= Z.of_nat (length name) <= DIRENT_NAME_LENGTH /\
     (forall c rest, name = c :: rest -> c <> 43 /\ c <> 45 /\ c <> 46) /\
     Forall (fun c => 32 <= c < 127 /\ c <> SLASH) name) as Hiff.
  { rewrite <- valid_chars_spec by done. unfold path_valid_name. cbv zeta.
    destruct (Z.eqb_spec (Z.of_nat (length name)) 0) as [H0|H0]; simpl orb; cbv iota; [split; [done|lia]|].
    destruct (Z.ltb_spec DIRENT_NAME_LENGTH (Z.of_nat (length name))) as [H1|H1]; [split; [done|lia]|].
    destruct name as [|c name]; [done|].
    destruct (Z.eqb_spec c 43), (Z.eqb_spec c 45), (Z.eqb_spec c 46); simpl orb; cbv iota;
      try (split; [done|]; intros (_ & H2 & _); destruct (H2 c name eq_refl) as (? & ? & ?); done).
    split; [|tauto]. intros. split; [lia|]. split; [|done]. intros c' rest [= <- <-]. done. }
  split; [done|]. intros Hv. apply Hiff in Hv as (H1 & _ & H3). unfold elements.
  assert (split_slash name = [name]) as ->.
  { clear -H3. induction H3 as [|x w [_ Hx] _ IH]; [done|]. simpl.
    rewrite (proj2 (Z.eqb_neq _ _)) by done. by rewrite IH. }
  rewrite filter_cons_True; [done|]. intros ->. simpl in H1. lia.
Qed.

(** a path element of 60 bytes or more overruns the buffer of the caller: every
    [path_lookup] and [path_lookup_parent] of a path whose first element is that long
    writes outside of [name] before any check of its length. *)
Theorem path_element_overflow `{Devices} sb cwd path name rest s :
  elements path = name :: rest -> DIRENT_NAME_LENGTH <= Z.of_nat (length name) ->
  icache_ok (icache s) -> 0 <= cwd -> is_Some (icache s !! Z.to_nat cwd) ->
  path_lookup sb cwd path s = Panic /\ path_lookup_parent sb cwd path s = Panic.
Proof.
  intros Hel Hlong Hic Hcwd [ci Hci].
  assert (forall fuel p b par nm s', elements p = name :: rest -> path_lookup_loop (S fuel) sb p b par nm s' = Panic) as Hloop.
  { intros fuel p b par nm s' Hp. cbn [path_lookup_loop].
    pose proof (path_skipelem_spec p) as Hs. destruct (path_skipelem p) as [[n r]|]; [|congruence].
    destruct Hs as (Hs & _). rewrite Hp in Hs. injection Hs as -> _.
    unfold fits. by rewrite (proj2 (Z.ltb_ge _ _)). }
  assert (forall b, path_lookup0 sb cwd path b s = Panic) as H0.
  { intros b. unfold path_lookup0. destruct path as [|c p]; [done|].
    destruct (Z.eqb_spec c SLASH) as [->|Hc].
    - rewrite elements_slash in Hel.
      destruct (iget ROOT_INUM s) as [[q s']| |] eqn:E.
      + rewrite (bind_Ok _ _ _ _ _ E). by apply Hloop.
      + unfold mbind, M_bind. by rewrite E.
      + exfalso. unfold iget in E. rewrite (bind_Ok _ _ _ s s) in E by done.
        destruct (iget_scan _ _ _ _ _) as [q|[q|]]; [| |done];
          unfold upd_inode, get_inode, index, set_inode in E; mrun; revert E; mrun;
          (destruct (q <? 0); [done|]); destruct (icache s !! Z.to_nat q); done.
    - unfold inode_dup. erewrite bind_Ok; [by apply Hloop|].
      erewrite bind_Ok; [reflexivity|]. by apply upd_inode_Ok. }
  unfold path_lookup, path_lookup_parent, mbind, M_bind. by rewrite !H0.
Qed.

Lemma path_valid_name_correct_witness :
  path_valid_name [97; 46; 99] = true /\ elements [97; 46; 99] = [[97; 46; 99]].
Proof.
  assert (bytes [97; 46; 99]) as Hb by (by repeat (apply Forall_cons; split; [ulia|])).
  split; [reflexivity|]. apply (path_valid_name_correct [97; 46; 99] Hb). reflexivity.
Defined.

#[local] Existing Instance no_devices.

Lemma path_element_overflow_witness :
  path_lookup demo_sb 0 (SLASH :: replicate 60 97) demo_ist = Panic /\
  path_lookup_parent demo_sb 0 (SLASH :: replicate 60 97) demo_ist = Panic.
Proof.
  apply (path_element_overflow demo_sb 0 (SLASH :: replicate 60 97) (replicate 60 97) [] demo_ist).
  - reflexivity.
  - by vm_compute.
  - apply demo_icache_ok.
  - lia.
  - by eexists.
Defined.
End Pathname.
