(* ===== verification/Walk.v ===== *)
(** Walking along path names: the theorem of [path_lookup] and [path_lookup_parent] of
    src/fs/pathname.c, with the cache of inodes underneath.

    [v] is what the blocks hold.  The references of the cache are a multiset of inode numbers; a
    walk ends with the references it had and one to its result. *)

From stdpp Require Import base numbers list gmap gmultiset.
From Stdlib Require Import ZArith Lia.
From S2P Require Import Prelude Semaphore BlockIO Log BAlloc Inode Dir Pathname.
#[local] Open Scope Z_scope.

Module Walk.
Import Semaphore BlockIO Log BAlloc Inode Dir Pathname.

Section walk.
Context `{Devices} (sb : superblock) (v : Z -> block).

(** The inode [i] on the drive. *)
Definition dino (i : Z) : dinode := get_dinode (v (GET_INODE_BLOCK_NO i sb)) (slot_of i).

Definition is_dir (i : Z) : Prop := type (dino i) = INODE_DIRECTORY.

#[global] Instance is_dir_dec i : Decision (is_dir i).
Proof. unfold is_dir. apply _. Defined.

(** ** What a path means *)

(** The inode that [name] stands for in the directory [i]. *)
Definition find_in (i : Z) (name : list Z) : option Z :=
  if decide (is_dir i) then d_inum ∘ snd <$> dir_find (dir_entries v (dino i)) name else None.

Fixpoint walk (i : Z) (es : list (list Z)) : option Z :=
  match es with
  | [] => Some i
  | n :: es => find_in i n ≫= fun j => walk j es
  end.

(** ** Sound file systems *)

(** The inodes below [good] are allocated and linked; directories among them can be read and lead
    to others of them. *)
Record dir_good (good : Z -> Prop) (i : Z) : Prop := {
  dg_size : 0 <= dsize (dino i) <= MAX_DATA_BLOCKS * BSIZE;
  dg_mod : dsize (dino i) mod DIRENT_SIZE = 0;
  dg_there : forall bn, 0 <= bn -> bn * BSIZE < dsize (dino i) -> slot v (dino i) (bslot bn) <> 0;
  dg_names : Forall terminated (dir_entries v (dino i));
  dg_below : forall e, e ∈ dir_entries v (dino i) -> d_inum e <> 0 -> good (d_inum e);
}.

Definition sound (good : Z -> Prop) : Prop := forall i, good i ->
  type (dino i) <> INODE_NONE /\ nlink (dino i) <> 0 /\ (is_dir i -> dir_good good i).

Context (good : Z -> Prop) (Hsound : sound good).

Lemma walk_good es : forall i j, good i -> walk i es = Some j -> good j.
Proof.
  induction es as [|n es IH]; intros i j G E; [by simplify_eq/=|]. simpl in E.
  unfold find_in in E. destruct (decide (is_dir i)) as [D|]; [|done]. destruct (dir_find (dir_entries v (dino i)) n) as [[k e]|] eqn:F; [|done]. simpl in E.
  apply (IH (d_inum e)); [|done]. destruct (Hsound i G) as (_ & _ & Hd).
  apply list_find_Some in F as (F & [Hn _] & _). apply (dg_below _ _ (Hd D)); [by eapply list_elem_of_lookup_2|done].
Qed.

(** ** The cache of inodes *)

(** The references of the entries in use. *)
Definition cached (c : list inode) (R : gmultiset Z) : Prop :=
  (forall k e, (k < Z.to_nat NINODES)%nat -> c !! k = Some e -> 0 < ref e -> multiplicity (inum e) R = Z.to_nat (ref e)) /\
  (forall i, i ∈ R -> exists k e, (k < Z.to_nat NINODES)%nat /\ c !! k = Some e /\ 0 < ref e /\ inum e = i).

(** An entry: the one that [cur] holds is locked and read, the others are free to lock. *)
Definition entry_fit (L : option nat) (cur : Z) (k : nat) (e : inode) : Prop :=
  (if decide (L = Some k) then isem e = Sem 0 [] (Some cur) /\ valid e = true /\ 0 < ref e else val (isem e) = 1 /\ waiting (isem e) = []) /\
  (0 < ref e -> valid e = true -> disk_inode e = dino (inum e)).

Record quiet (c : list inode) (R : gmultiset Z) (L : option nat) (cur : Z) : Prop := {
  q_ok : icache_ok c;
  q_refs : cached c R;
  q_good : forall i, i ∈ R -> good i;
  q_fit : forall k e, (k < Z.to_nat NINODES)%nat -> c !! k = Some e -> entry_fit L cur k e;
}.

(** An entry changes, but neither its inode nor its references. *)
Lemma quiet_update c R L L' cur p e e' : quiet c R L cur -> (p < Z.to_nat NINODES)%nat -> c !! p = Some e ->
  inum e' = inum e -> ref e' = ref e -> entry_fit L' cur p e' ->
  (forall k x, k <> p -> entry_fit L cur k x -> entry_fit L' cur k x) -> quiet (<[p := e']> c) R L' cur.
Proof.
  intros [[C1 C2 C3] [R1 R2] Hg Hf] Hp He Hi Hr Hfit Hoth. split.
  - split; [by rewrite length_insert| |].
    + intros k x Hx. apply list_lookup_insert_Some in Hx as [(-> & <- & _)|[_ Hx]]; [rewrite Hr|]; eauto.
    + intros k1 k2 x y Hk1 Hk2 Hx Hy.
      apply list_lookup_insert_Some in Hx as [(-> & <- & _)|[? Hx]];
        apply list_lookup_insert_Some in Hy as [(E & <- & _)|[? Hy]]; subst; try done; rewrite ?Hr, ?Hi; eauto.
  - split.
    + intros k x Hk Hx. apply list_lookup_insert_Some in Hx as [(-> & <- & _)|[_ Hx]]; [rewrite Hr, Hi|]; eauto.
    + intros i (k & x & Hk & Hx & Hrx & Hix)%R2. destruct (decide (k = p)) as [->|Hn].
      * exists p, e'. rewrite list_lookup_insert_eq by (by eapply lookup_lt_Some). simplify_eq. rewrite Hr. done.
      * exists k, x. by rewrite list_lookup_insert_ne.
  - done.
  - intros k x Hk Hx. apply list_lookup_insert_Some in Hx as [(-> & <- & _)|[Hn Hx]]; [done|]. apply Hoth; [done|eauto].
Qed.

(** The references of an entry change. *)
Lemma quiet_ref c R R' L cur p e e' : quiet c R L cur -> (p < Z.to_nat NINODES)%nat -> c !! p = Some e ->
  (forall k x, k <> p -> (k < Z.to_nat NINODES)%nat -> c !! k = Some x -> 0 < ref x -> inum x <> inum e') -> 0 <= ref e' ->
  entry_fit L cur p e' -> (0 < ref e' -> good (inum e')) ->
  multiplicity (inum e') R' = Z.to_nat (ref e') -> (0 < ref e -> inum e' = inum e) ->
  (forall i, i <> inum e' -> multiplicity i R' = multiplicity i R) -> quiet (<[p := e']> c) R' L cur.
Proof.
  intros [[C1 C2 C3] [R1 R2] Hg Hf] Hp He Hu H0 Hfit Hgood Hm Hi Hoth.
  assert (p < length c)%nat as Hpl by (by eapply lookup_lt_Some).
  assert (forall i, i ∈ R' -> i = inum e' /\ 0 < ref e' \/ i <> inum e' /\ i ∈ R) as Hin.
  { intros i. rewrite !elem_of_multiplicity. destruct (decide (i = inum e')) as [->|Hn]; [rewrite Hm; intros; left; lia|]. rewrite Hoth by done. auto. }
  split.
  - split; [by rewrite length_insert| |].
    + intros k x Hx. apply list_lookup_insert_Some in Hx as [(-> & <- & _)|[_ Hx]]; eauto.
    + intros k1 k2 x y Hk1 Hk2 Hx Hy.
      apply list_lookup_insert_Some in Hx as [(-> & <- & _)|[? Hx]];
        apply list_lookup_insert_Some in Hy as [(E & <- & _)|[? Hy]]; subst; try done; intros Hr1 Hr2 Heq; eauto.
      * exfalso. by eapply (Hu k2 y).
      * exfalso. by eapply (Hu k1 x).
  - split.
    + intros k x Hk Hx Hr. apply list_lookup_insert_Some in Hx as [(-> & <- & _)|[Hn Hx]]; [done|].
      rewrite Hoth; [eauto|]. by eapply (Hu k x).
    + intros i [[-> Hr]|[Hn Hi']]%Hin.
      * exists p, e'. by rewrite list_lookup_insert_eq.
      * destruct (R2 i Hi') as (k & x & Hk & Hx & Hrx & Hix). exists k, x. rewrite list_lookup_insert_ne; [done|].
        intros ->. simplify_eq. by rewrite Hi in Hn.
  - intros i [[-> Hr]|[Hn Hi']]%Hin; eauto.
  - intros k x Hk Hx. apply list_lookup_insert_Some in Hx as [(-> & <- & _)|[Hn Hx]]; eauto.
Qed.

(** There is a free entry while fewer than 50 inodes are in use. *)
Lemma free_entry c R L cur : quiet c R L cur -> (size (dom R) < Z.to_nat NINODES)%nat ->
  exists k e, (k < Z.to_nat NINODES)%nat /\ c !! k = Some e /\ ref e = 0.
Proof.
  intros [[C1 C2 C3] [R1 R2] Hg Hf] Hsz.
  destruct (decide (Exists (fun e => ref e = 0) (take (Z.to_nat NINODES) c))) as [E|E].
  - apply Exists_exists in E as (e & Hin%list_elem_of_In & He). apply list_elem_of_lookup_1 in Hin as [k Hk].
    apply lookup_take_Some in Hk as [Hk Hlt]. eauto.
  - exfalso. rewrite <- Forall_Exists_neg in E. rewrite Forall_lookup in E.
    assert (length (inum <$> take (Z.to_nat NINODES) c) = Z.to_nat NINODES) as Hl
      by (rewrite length_fmap, length_take, C1; unfold NINODES; lia).
    assert (forall k e, take (Z.to_nat NINODES) c !! k = Some e -> (k < Z.to_nat NINODES)%nat /\ c !! k = Some e /\ 0 < ref e) as Hk.
    { intros k e He. pose proof (E k e He). apply lookup_take_Some in He as [He Hlt]. pose proof (C2 k e He). split; [done|]. split; [done|lia]. }
    assert (NoDup (inum <$> take (Z.to_nat NINODES) c)) as Nd.
    { apply NoDup_alt. intros k1 k2 i. rewrite !list_lookup_fmap. intros H1 H2.
      apply fmap_Some in H1 as (e1 & E1%Hk & ->). apply fmap_Some in H2 as (e2 & E2%Hk & Heq).
      destruct E1 as (? & ? & ?), E2 as (? & ? & ?). by eapply (C3 k1 k2 e1 e2). }
    pose proof (size_list_to_set (C := gset Z) _ Nd) as Hs. rewrite Hl in Hs.
    assert (list_to_set (inum <$> take (Z.to_nat NINODES) c) ⊆ dom R) as Hsub; [|apply subseteq_size in Hsub; lia].
    intros i. rewrite elem_of_list_to_set. intros (e & -> & Hin)%list_elem_of_fmap. apply list_elem_of_lookup_1 in Hin as [k He%Hk].
    destruct He as (H1 & H2 & H3). apply gmultiset_elem_of_dom, elem_of_multiplicity. rewrite (R1 k e H1 H2 H3). lia.
Qed.

(** ** States *)

(** The blocks and the log are those of [v], and nothing of them is locked. *)
Record ready (R : gmultiset Z) (L : option nat) (s : ist) : Prop := {
  rd_view : forall x, view (bs (fl s)) x = v x;
  rd_held : held (bs (fl s)) = ∅;
  rd_room : room (bs (fl s)) 1;
  rd_ok : forall x, block_ok (v x);
  rd_quiet : quiet (icache s) R L (curtask s);
}.

(** The file system is the same, the buffers and the cache of inodes may differ. *)
Definition same_fs (s s' : ist) : Prop :=
  wrote [] (bs (fl s)) (bs (fl s')) /\ lg (fl s') = lg (fl s) /\ curtask s' = curtask s.

Lemma same_fs_refl s : same_fs s s.
Proof. split; [apply wrote_nil|done]. Qed.

Lemma same_fs_trans s1 s2 s3 : same_fs s1 s2 -> same_fs s2 s3 -> same_fs s1 s3.
Proof.
  intros (A1 & A2 & A3) (B1 & B2 & B3). split; [|split; congruence].
  change (@nil (Z * block)) with (@nil (Z * block) ++ []). by eapply wrote_app.
Qed.

Lemma seen_same s s' : seen s s' -> same_fs s s'.
Proof. intros (A & B & _ & C). done. Qed.

(** A state with the blocks of a ready one. *)
Lemma ready_same R L R' L' s s' : ready R L s -> same_fs s s' -> quiet (icache s') R' L' (curtask s') -> ready R' L' s'.
Proof.
  intros [V Hh Hr Hok Q] (W & _ & _) Q'. split; [|by rewrite (w_held _ _ _ W)|by eapply wrote_room|done|done].
  intros x. rewrite (w_view _ _ _ W). apply V.
Qed.

Definition upd (s : ist) (p : nat) (e : inode) : ist := Ist (fl s) (<[p := e]> (icache s)) (curtask s).

Lemma same_upd s p e : same_fs s (upd s p e).
Proof. split; [apply wrote_nil|done]. Qed.

Lemma get_Ok (s : ist) p e : icache s !! p = Some e -> get_inode (Z.of_nat p) s = Ok (e, s).
Proof. intros E. apply get_inode_Ok; [lia|]. by rewrite Nat2Z.id. Qed.

Lemma set_Ok (s : ist) p e : set_inode (Z.of_nat p) e s = Ok (tt, upd s p e).
Proof. unfold set_inode, modify, upd. by rewrite Nat2Z.id. Qed.

Lemma upd_get s p e e' : icache s !! p = Some e -> icache (upd s p e') !! p = Some e'.
Proof. intros E. simpl. apply list_lookup_insert_eq. by eapply lookup_lt_Some. Qed.

Lemma upd_upd s p e e' : upd (upd s p e) p e' = upd s p e'.
Proof. unfold upd. simpl. by rewrite list_insert_insert_eq. Qed.

(** The semaphore of an entry that nobody holds. *)
Lemma isem_wait_Ok (s : ist) p e : icache s !! p = Some e -> val (isem e) = 1 -> waiting (isem e) = [] ->
  isem_wait (Z.of_nat p) s = Ok (tt, upd s p (set_isem (Sem 0 [] (Some (curtask s))) e)).
Proof.
  intros E V W. unfold isem_wait. rewrite (bind_Ok _ _ _ s s) by done. rewrite (bind_Ok _ _ _ _ _ (get_Ok _ _ _ E)).
  unfold sem_wait. rewrite V, W. change (i32 (1 - 1)) with 0. simpl. apply set_Ok.
Qed.

Lemma signal_Ok (s : ist) p e h : icache s !! p = Some e -> isem e = Sem 0 [] h ->
  isem_signal (Z.of_nat p) s = Ok (tt, upd s p (set_isem (Sem 1 [] None) e)).
Proof.
  intros E I. unfold isem_signal. rewrite (bind_Ok _ _ _ _ _ (get_Ok _ _ _ E)). unfold sem_signal. rewrite I.
  change (i32 (val (Sem 0 [] h) + 1)) with 1. simpl. apply set_Ok.
Qed.
Lemma dinode_addrs data sl : length (addrs (get_dinode data sl)) = 12%nat.
Proof. unfold get_dinode, words_dinode. cbn [addrs]. by rewrite length_drop, length_map, length_seq. Qed.

Lemma updf_Ok (s : ist) p e f : icache s !! p = Some e -> upd_inode (Z.of_nat p) f s = Ok (tt, upd s p (f e)).
Proof. intros E. rewrite (upd_inode_Ok s (Z.of_nat p) e f) by (try lia; by rewrite Nat2Z.id). unfold upd. by rewrite Nat2Z.id. Qed.

(** ** The operations on one entry *)

Lemma ref_in c R L cur p e : quiet c R L cur -> (p < Z.to_nat NINODES)%nat -> c !! p = Some e -> 0 < ref e -> inum e ∈ R.
Proof. intros Q Hp E Hr. apply elem_of_multiplicity. rewrite (proj1 (q_refs _ _ _ _ Q) p e Hp E Hr). lia. Qed.

Lemma lock_ok R s p e : ready R None s -> (p < Z.to_nat NINODES)%nat -> icache s !! p = Some e -> 0 < ref e ->
  exists s' e', inode_lock sb (Z.of_nat p) s = Ok (tt, s') /\ same_fs s s' /\ ready R (Some p) s' /\ icache s' !! p = Some e' /\
    inum e' = inum e /\ ref e' = ref e /\ disk_inode e' = dino (inum e) /\ isem e' = Sem 0 [] (Some (curtask s)).
Proof.
  intros Rd Hp E Hr. pose proof Rd as [V Hh Hrm Hok Q]. destruct (q_fit _ _ _ _ Q p e Hp E) as [[V1 V2] Hd].
  unfold inode_lock. rewrite (bind_Ok _ _ _ _ _ (get_Ok _ _ _ E)). rewrite (bind_Ok _ _ _ tt s) by (apply ASSERT_true; lia).
  rewrite (bind_Ok _ _ _ _ _ (isem_wait_Ok s p e E V1 V2)). set (e1 := set_isem (Sem 0 [] (Some (curtask s))) e).
  rewrite (bind_Ok _ _ _ _ _ (get_Ok (upd s p e1) p e1 (upd_get _ _ _ _ E))).
  assert (forall x y, x <> p -> entry_fit None (curtask s) x y -> entry_fit (Some p) (curtask s) x y) as Hoth.
  { intros x y Hx [F1 F2]. split; [|done]. rewrite decide_False in F1 by done. by rewrite decide_False by congruence. }
  change (valid e1) with (valid e). destruct (valid e) eqn:Ev.
  - exists (upd s p e1), e1. split; [done|]. split; [apply same_upd|]. split; [|split; [by eapply upd_get|split; [done|split; [done|split; [by apply Hd|done]]]]].
    eapply ready_same; [done|apply same_upd|]. eapply quiet_update; [done|done|done|done|done| |done].
    split; [by rewrite decide_True|]. intros _ _. by apply Hd.
  - destruct (Hsound (inum e)) as (Ht & _ & _); [eapply q_good; [done|]; by eapply ref_in|].
    change (inum e1) with (inum e). cbv zeta. set (b := GET_INODE_BLOCK_NO (inum e) sb).
    destruct (peek_spec (bs (fl s)) b) as (b1 & Eb & Hb & Hw); [rewrite Hh; apply not_elem_of_empty|done|].
    assert (view (bs (fl s)) b = v b) as Evb by apply V. rewrite Evb in Eb.
    rewrite (bind_Ok _ _ _ _ _ (bio_Ok _ (upd s p e1) _ _ (lift_bs_Ok _ (fl s) _ _ Eb))).
    set (s1 := Ist (Fss b1 (lg (fl s))) (<[p := e1]> (icache s)) (curtask s)).
    change (get_dinode (v b) (slot_of (inum e))) with (dino (inum e)).
    rewrite (bind_Ok _ _ _ tt s1) by (apply ASSERT_true, negb_true_iff, Z.eqb_neq; done).
    rewrite (bind_Ok _ _ _ _ _ (updf_Ok s1 p e1 _ (upd_get _ _ _ _ E))).
    set (e2 := set_valid true (set_dinode (dino (inum e)) e1)).
    eexists (Ist (Fss (BStore (disk b1) (cache b1) (dirty b1) (held b1 ∖ {[b]}) (writes b1)) (lg (fl s))) (<[p := e2]> (icache s)) (curtask s)), e2.
    assert (<[p := e2]> (<[p := e1]> (icache s)) = <[p := e2]> (icache s)) as Ei by apply list_insert_insert_eq.
    split; [unfold bio, buf_release, lift, modify, upd; simpl; by rewrite Ei|]. split; [done|]. split; [|by split; [by apply (upd_get s p e)|]].
    eapply ready_same; [done|done|]. eapply quiet_update; [done|done|done|done|done| |done].
    split; [by rewrite decide_True|]. done.
Qed.
Lemma unlock_ok R s p e : ready R (Some p) s -> (p < Z.to_nat NINODES)%nat -> icache s !! p = Some e -> 0 < ref e ->
  inode_unlock (Z.of_nat p) s = Ok (tt, upd s p (set_isem (Sem 1 [] None) e)) /\ ready R None (upd s p (set_isem (Sem 1 [] None) e)).
Proof.
  intros Rd Hp E Hr. pose proof (rd_quiet _ _ _ Rd) as Q. destruct (q_fit _ _ _ _ Q p e Hp E) as [F Hd].
  rewrite decide_True in F by done. destruct F as (F1 & F2 & _). split.
  - unfold inode_unlock, inode_holding. rewrite (bind_Ok _ _ _ true s).
    + rewrite (bind_Ok _ _ _ _ _ (get_Ok _ _ _ E)). rewrite (bind_Ok _ _ _ tt s) by (apply ASSERT_true; simpl; lia). by eapply signal_Ok.
    + rewrite (bind_Ok _ _ _ s s) by done. rewrite (bind_Ok _ _ _ _ _ (get_Ok _ _ _ E)). unfold sem_holding. rewrite F1. by rewrite bool_decide_true.
  - eapply ready_same; [done|apply same_upd|]. eapply quiet_update; [done|done|done|done|done| |].
    + split; [by rewrite decide_False|done].
    + intros k x Hk [X1 X2]. split; [|done]. rewrite decide_False in X1 by congruence. by rewrite decide_False.
Qed.

Lemma put_ok R s p e : ready R None s -> (p < Z.to_nat NINODES)%nat -> icache s !! p = Some e -> 0 < ref e ->
  exists s', inode_put sb (Z.of_nat p) s = Ok (tt, s') /\ same_fs s s' /\ ready (R ∖ {[+ inum e +]}) None s' /\
    (forall q x, q <> p -> icache s !! q = Some x -> icache s' !! q = Some x) /\
    exists e', icache s' !! p = Some e' /\ inum e' = inum e /\ ref e' = ref e - 1.
Proof.
  intros Rd Hp E Hr. pose proof (rd_quiet _ _ _ Rd) as Q. destruct (q_fit _ _ _ _ Q p e Hp E) as [[V1 V2] Hd].
  set (e1 := set_isem (Sem 0 [] (Some (curtask s))) e). set (e2 := set_isem (Sem 1 [] None) e). set (e3 := set_ref (ref e - 1) e2).
  exists (upd s p e3). split; [|split; [apply same_upd|split; [|split]]].
  - unfold inode_put. rewrite (bind_Ok _ _ _ _ _ (get_Ok _ _ _ E)). rewrite (bind_Ok _ _ _ tt s) by (apply ASSERT_true; lia).
    rewrite (bind_Ok _ _ _ _ _ (isem_wait_Ok s p e E V1 V2)). fold e1.
    rewrite (bind_Ok _ _ _ _ _ (get_Ok (upd s p e1) p e1 (upd_get _ _ _ _ E))).
    assert ((valid e1 && (nlink (disk_inode e1) =? 0) && (ref e1 =? 1)) = false) as ->.
    { change (valid e1) with (valid e). change (disk_inode e1) with (disk_inode e). destruct (valid e) eqn:Ev; [|done]. rewrite Hd by done.
      destruct (Hsound (inum e)) as (_ & Hn & _); [eapply q_good; [done|]; by eapply ref_in|]. by rewrite (proj2 (Z.eqb_neq _ _)). }
    rewrite (bind_Ok _ _ _ tt (upd s p e1)) by done.
    rewrite (bind_Ok _ _ _ _ _ (signal_Ok (upd s p e1) p e1 (Some (curtask s)) (upd_get _ _ _ _ E) eq_refl)). rewrite upd_upd.
    rewrite (updf_Ok (upd s p e2) p e2) by (by eapply upd_get). by rewrite upd_upd.
  - eapply ready_same; [done|apply same_upd|]. pose proof Q as [[C1 C2 C3] [R1 R2] _ _].
    eapply (quiet_ref _ R _ _ _ p e e3); [done|done|done| |simpl; lia| | | |done|].
    + intros k x Hk Hlt Hx Hrx Heq. apply Hk. by eapply (C3 k p x e).
    + split; [by rewrite decide_False|]. intros _. by apply Hd.
    + intros _. eapply q_good; [done|]. by eapply (ref_in _ _ _ _ p e).
    + change (inum e3) with (inum e). change (ref e3) with (ref e - 1). rewrite multiplicity_difference, multiplicity_singleton_eq, (R1 p e Hp E Hr). lia.
    + intros i Hi. rewrite multiplicity_difference, multiplicity_singleton_ne by done. lia.
  - intros q x Hq Hx. simpl. by rewrite list_lookup_insert_ne.
  - exists e3. split; [by eapply upd_get|done].
Qed.

Lemma iget_ok R L s i : ready R L s -> (size (dom R) < Z.to_nat NINODES)%nat -> good i ->
  exists p s' e', iget i s = Ok (Z.of_nat p, s') /\ (p < Z.to_nat NINODES)%nat /\ icache s' !! p = Some e' /\ inum e' = i /\ 0 < ref e' /\
    same_fs s s' /\ ready (R ⊎ {[+ i +]}) L s' /\
    (forall q x, icache s !! q = Some x -> 0 < ref x -> exists x', icache s' !! q = Some x' /\ inum x' = inum x /\ 0 < ref x').
Proof.
  intros Rd Hsz Hg. pose proof (rd_quiet _ _ _ Rd) as Q. pose proof Q as [Ci [R1 R2] _ Qf].
  destruct (iget_one_entry s i Ci) as [(p & e & e' & s' & E & Hp & He & Hc & _ & Hfl & Hcur & Hi & Hcase)|[_ Hfull]].
  2: { exfalso. destruct (free_entry _ _ _ _ Q Hsz) as (k & x & Hk & Hx & H0). destruct (Hfull k x Hk Hx). lia. }
  assert (0 <= ref e) as Hre by (by eapply (ic_ref _ Ci)). set (k := Z.to_nat p). assert (k < Z.to_nat NINODES)%nat as Hk by (unfold k; lia).
  assert (p = Z.of_nat k) as Ep by (unfold k; lia). fold k in He, Hc.
  assert (same_fs s s') as Hs by (split; [rewrite Hfl; apply wrote_nil|by rewrite Hfl]).
  assert (icache s' !! k = Some e') as He' by (rewrite Hc; apply list_lookup_insert_eq; by eapply lookup_lt_Some).
  assert (0 < ref e' /\ (0 < ref e -> inum e' = inum e)) as [Hr' Hsame].
  { destruct Hcase as [(? & ? & ->)|(? & ? & _)]; [simpl; split; [lia|done]|split; lia]. }
  exists k, s', e'. split; [by rewrite <- Ep|]. split; [done|]. split; [done|]. split; [done|]. split; [done|]. split; [done|]. split.
  - eapply ready_same; [done|done|]. rewrite Hc, Hcur. pose proof Ci as [C1 C2 C3]. destruct (Qf k e Hk He) as [F1 F2].
    eapply (quiet_ref _ R _ _ _ k e e'); [done|done|done| |lia| |by rewrite Hi| |done|].
    + intros q x Hq Hlt Hx Hrx Heq. destruct Hcase as [(Hr & Hie & ->)|(_ & _ & _ & _ & Hno)].
      * apply Hq. by eapply (C3 q k x e).
      * eapply (Hno q x); [done|done|done|congruence].
    + destruct Hcase as [(Hr & Hie & ->)|(Hr & _ & Hv & Hsem & _)]; [split; [|intros _; simpl; by apply F2]|].
      { destruct (decide (L = Some k)); [|exact F1]. destruct F1 as (? & ? & ?). split; [done|]. split; [done|simpl; lia]. }
      split; [|intros _ Hv'; congruence]. destruct (decide (L = Some k)) as [->|]; [|by rewrite Hsem].
      destruct F1 as (_ & _ & ?). lia.
    + rewrite Hi, multiplicity_disj_union, multiplicity_singleton_eq. destruct Hcase as [(Hr & Hie & ->)|(Hr & Hr1 & _ & _ & Hno)].
      * rewrite <- Hie, (R1 k e Hk He Hr). simpl. lia.
      * rewrite Hr1. assert (multiplicity i R = 0%nat) as ->; [|lia]. destruct (decide (i ∈ R)) as [Hin|Hin].
        -- destruct (R2 i Hin) as (q & x & Hq & Hx & Hrx & Hix). by destruct (Hno q x Hq Hx Hrx).
        -- apply not_elem_of_multiplicity. done.
    + intros j Hj. rewrite multiplicity_disj_union, multiplicity_singleton_ne by congruence. lia.
  - intros q x Hx Hrx. destruct (decide (q = k)) as [->|Hq].
    + exists e'. simplify_eq. split; [done|]. split; [by apply Hsame|done].
    + exists x. rewrite Hc, list_lookup_insert_ne by done. done.
Qed.
Lemma unlockput_ok R s p e : ready R (Some p) s -> (p < Z.to_nat NINODES)%nat -> icache s !! p = Some e -> 0 < ref e ->
  exists s', inode_unlockput sb (Z.of_nat p) s = Ok (tt, s') /\ same_fs s s' /\ ready (R ∖ {[+ inum e +]}) None s' /\
    (forall q x, q <> p -> icache s !! q = Some x -> icache s' !! q = Some x) /\
    exists e', icache s' !! p = Some e' /\ inum e' = inum e /\ ref e' = ref e - 1.
Proof.
  intros Rd Hp E Hr. destruct (unlock_ok R s p e Rd Hp E Hr) as [U Rd1].
  destruct (put_ok R _ p (set_isem (Sem 1 [] None) e) Rd1 Hp (upd_get _ _ _ _ E) Hr) as (s' & P & Hs & Rd2 & Hoth & He).
  exists s'. split; [unfold inode_unlockput; by rewrite (bind_Ok _ _ _ _ _ U)|].
  split; [eapply same_fs_trans; [apply same_upd|done]|]. split; [done|]. split; [|done].
  intros q x Hq Hx. apply Hoth; [done|]. simpl. by rewrite list_lookup_insert_ne.
Qed.

(** ** Reading a directory *)

Lemma slot_ext (w : Z -> block) d k : (forall x, w x = v x) -> slot w d k = slot v d k.
Proof. intros Hw. unfold slot. by rewrite Hw. Qed.

Lemma dir_entries_ext (w : Z -> block) d : (forall x, w x = v x) -> dir_entries w d = dir_entries v d.
Proof.
  intros Hw. unfold dir_entries. apply map_ext. intros k. unfold entry_at. f_equal. apply frange_ext. intros j _. apply fbyte_ext.
  unfold fblock. rewrite slot_ext by done. by rewrite Hw.
Qed.

Lemma lookup_ok R s p e n : ready R (Some p) s -> (p < Z.to_nat NINODES)%nat -> icache s !! p = Some e -> is_dir (inum e) ->
  0 ∉ n -> fits n = true ->
  exists s1, same_fs s s1 /\ icache s1 = icache s /\ ready R (Some p) s1 /\
    dir_lookup sb (Z.of_nat p) n s =
      match dir_find (dir_entries v (dino (inum e))) n with
      | None => Ok (None, s1)
      | Some (k, x) => (ip ← iget (d_inum x); mret (Some (ip, DIRENT_SIZE * Z.of_nat k))) s1
      end.
Proof.
  intros Rd Hp E D Hz Hn. pose proof Rd as [V Hh Hrm Hok Q]. destruct (q_fit _ _ _ _ Q p e Hp E) as [F Hd].
  rewrite decide_True in F by done. destruct F as (F1 & F2 & F3). specialize (Hd F3 F2).
  destruct (Hsound (inum e)) as (_ & _ & Hg); [eapply q_good; [done|]; by eapply ref_in|]. destruct (Hg D) as [G1 G2 G3 G4 G5].
  assert (dir_pre (Z.of_nat p) e s) as Pre.
  { rewrite <- Hd in *. split; [|lia|unfold is_dir in D; congruence|done|by rewrite F1|by rewrite dir_entries_ext].
    split; [lia|by rewrite Nat2Z.id|rewrite Hd; apply dinode_addrs|intros x; by rewrite V|done|lia| |].
    - intros bn H1 H2. rewrite slot_ext by done. by apply G3.
    - intros k _ _. rewrite Hh. apply not_elem_of_empty. }
  destruct (dir_lookup_spec sb (Z.of_nat p) e s n Pre Hz) as (s1 & Hs & El).
  { unfold fits in Hn. lia. }
  rewrite dir_entries_ext, Hd in El by done. exists s1. pose proof Hs as (W & Lg & Ic & Cu).
  split; [by apply seen_same|]. split; [done|]. split; [|done]. eapply ready_same; [done|by apply seen_same|]. by rewrite Ic, Cu.
Qed.
(** ** The walk *)

(** What the walk is after: the file at the end of the path, or the directory that has it. *)
Definition goal_of (nameiparent : bool) (i : Z) (es : list (list Z)) : option Z :=
  if nameiparent then
    match es with
    | [] => None
    | _ => walk i (removelast es) ≫= fun j => if decide (is_dir j) then Some j else None
    end
  else walk i es.

Lemma goal_step np i n es : (es <> [] \/ np = false) -> goal_of np i (n :: es) = find_in i n ≫= fun j => goal_of np j es.
Proof.
  intros Hes. destruct np; [|done]. destruct Hes as [Hes|]; [|done]. unfold goal_of. destruct es as [|m es]; [done|].
  change (removelast (n :: m :: es)) with (n :: removelast (m :: es)). simpl walk. by destruct (find_in i n).
Qed.

Lemma skip_slashes_empty r : skip_slashes r = [] <-> elements r = [].
Proof.
  pose proof (path_skipelem_spec r) as P. unfold path_skipelem in P. destruct (skip_slashes r) as [|c q]; [done|].
  split; [done|]. destruct (copy_elem (c :: q)) as [n rest]. destruct P as [P _]. intros E. by rewrite E in P.
Qed.

Lemma size_dom_add (R : gmultiset Z) i : (size (dom (R ⊎ {[+ i +]})) <= S (size (dom R)))%nat.
Proof.
  assert (dom (R ⊎ {[+ i +]}) ⊆ {[i]} ∪ dom R) as Hs.
  { intros j. rewrite elem_of_union, elem_of_singleton, !gmultiset_elem_of_dom. multiset_solver. }
  apply subseteq_size in Hs. rewrite size_union_alt, size_singleton in Hs.
  pose proof (subseteq_size (dom R ∖ {[i]}) (dom R) ltac:(set_solver)). lia.
Qed.

(** What a walk from the inode [i], with a reference to it besides [R], leaves. *)
Definition arrives (R : gmultiset Z) (o : option Z) (r : option (Z * list Z)) (s' : ist) : Prop :=
  match o with
  | None => r = None /\ ready R None s'
  | Some j => exists q nm e, r = Some (Z.of_nat q, nm) /\ (q < Z.to_nat NINODES)%nat /\ icache s' !! q = Some e /\ inum e = j /\ 0 < ref e /\
      ready (R ⊎ {[+ j +]}) None s'
  end.

(** One step: from the locked directory [i] to the inode [j] of the entry [x]. *)
Lemma step_ok R s p e x (k : Z) : ready (R ⊎ {[+ inum e +]}) (Some p) s -> (p < Z.to_nat NINODES)%nat -> icache s !! p = Some e -> 0 < ref e ->
  good (d_inum x) -> (size (dom R) + 2 <= Z.to_nat NINODES)%nat ->
  exists q s1 s2 e', (ip ← iget (d_inum x); mret (Some (ip, k))) s = Ok (Some (Z.of_nat q, k), s1) /\
    inode_unlockput sb (Z.of_nat p) s1 = Ok (tt, s2) /\ same_fs s s2 /\ ready (R ⊎ {[+ d_inum x +]}) None s2 /\
    (q < Z.to_nat NINODES)%nat /\ icache s2 !! q = Some e' /\ inum e' = d_inum x /\ 0 < ref e'.
Proof.
  intros Rd Hp E Hr Hg Hsz. pose proof (size_dom_add R (inum e)) as Hsz1.
  destruct (iget_ok _ _ _ (d_inum x) Rd) as (q & s1 & eq & I & Hq & Eq & Hqi & Hqr & Hs1 & Rd1 & Hkeep); [lia|done|].
  destruct (Hkeep p e E Hr) as (e1 & E1 & Hi1 & Hr1).
  destruct (unlockput_ok _ s1 p e1 Rd1 Hp E1 Hr1) as (s2 & U & Hs2 & Rd2 & Hoth & e2 & E2 & Hi2 & Hr2).
  assert ((R ⊎ {[+ inum e +]} ⊎ {[+ d_inum x +]}) ∖ {[+ inum e1 +]} = R ⊎ {[+ d_inum x +]}) as Em by (rewrite Hi1; multiset_solver).
  rewrite Em in Rd2. exists q, s1, s2. destruct (decide (q = p)) as [->|Hne].
  - exists e2. split; [by rewrite (bind_Ok _ _ _ _ _ I)|]. split; [done|]. split; [by eapply same_fs_trans|]. split; [done|]. split; [done|]. split; [done|].
    simplify_eq. split; [congruence|]. rewrite Hr2. pose proof (rd_quiet _ _ _ Rd1) as [_ [R1 _] _ _]. specialize (R1 p eq Hq Eq Hqr).
    assert (inum eq = inum e) as Hee by congruence. rewrite <- Hqi, Hee, !multiplicity_disj_union, multiplicity_singleton_eq in R1. lia.
  - exists eq. split; [by rewrite (bind_Ok _ _ _ _ _ I)|]. split; [done|]. split; [by eapply same_fs_trans|]. split; [done|]. split; [done|]. by split; [apply Hoth|].
Qed.

Lemma goal_not_dir np i n es : ~ is_dir i -> goal_of np i (n :: es) = None.
Proof.
  intros Hd. assert (find_in i n = None) as E by (unfold find_in; by rewrite decide_False). unfold goal_of. destruct np; [|simpl; by rewrite E].
  destruct es as [|m es]; [simpl; by rewrite decide_False|]. change (removelast (n :: m :: es)) with (n :: removelast (m :: es)). simpl. by rewrite E.
Qed.

(** Giving up at a locked directory. *)
Lemma fail_ok R s p e : ready (R ⊎ {[+ inum e +]}) (Some p) s -> (p < Z.to_nat NINODES)%nat -> icache s !! p = Some e -> 0 < ref e ->
  exists s', inode_unlockput sb (Z.of_nat p) s = Ok (tt, s') /\ same_fs s s' /\ ready R None s'.
Proof.
  intros Rd Hp E Hr. destruct (unlockput_ok _ s p e Rd Hp E Hr) as (s' & U & Hs & Rd2 & _). exists s'. split; [done|]. split; [done|].
  by replace ((R ⊎ {[+ inum e +]}) ∖ {[+ inum e +]}) with R in Rd2 by multiset_solver.
Qed.

Lemma path_lookup_loop_ok np R : (size (dom R) + 2 <= Z.to_nat NINODES)%nat -> forall fuel path p e nm s,
  ready (R ⊎ {[+ inum e +]}) None s -> (p < Z.to_nat NINODES)%nat -> icache s !! p = Some e -> 0 < ref e ->
  Forall (fun n => fits n = true /\ 0 ∉ n) (elements path) -> (length path < fuel)%nat ->
  exists r s', path_lookup_loop fuel sb path np (Z.of_nat p) nm s = Ok (r, s') /\ same_fs s s' /\
    arrives R (goal_of np (inum e) (elements path)) r s' /\
    (np = true -> match r with Some (_, n) => list.last (elements path) = Some n | None => True end).
Proof.
  intros Hsz fuel. induction fuel as [|fuel IH]; intros path p e nm s Rd Hp E Hr Hn Hf; [lia|]. cbn [path_lookup_loop].
  pose proof (path_skipelem_spec path) as P. destruct (path_skipelem path) as [[n rest]|].
  - destruct P as (Ep & _ & _ & Hlen). rewrite Ep in Hn |- *. apply Forall_cons_iff in Hn as [[Hfit Hz] Hn]. rewrite Hfit.
    rewrite (bind_Ok _ _ _ tt s) by done.
    destruct (lock_ok _ s p e Rd Hp E Hr) as (s1 & e1 & L1 & Hs1 & Rd1 & E1 & Hi1 & Hr1 & Hd1 & Hsem1).
    rewrite (bind_Ok _ _ _ _ _ L1), (bind_Ok _ _ _ _ _ (get_Ok _ _ _ E1)). rewrite Hd1.
    destruct (decide (is_dir (inum e))) as [D|D].
    + change (type (dino (inum e)) = INODE_DIRECTORY) in D. rewrite (proj2 (Z.eqb_eq _ _) D). cbn [negb]. cbv zeta.
      destruct (decide (elements rest = [] /\ np = true)) as [[Er ->]|Hmore].
      * rewrite (proj2 (skip_slashes_empty rest) Er), Er. cbn [andb].
        destruct (unlock_ok _ s1 p e1 Rd1 Hp E1 ltac:(lia)) as [U Rd2]. rewrite (bind_Ok _ _ _ _ _ U).
        eexists _, _. split; [done|]. split; [eapply same_fs_trans; [exact Hs1|apply same_upd]|]. split; [|done].
        unfold goal_of. simpl. rewrite decide_True by done. eexists p, n, _. split; [done|]. split; [done|]. split; [by eapply upd_get|].
        split; [done|]. split; [simpl; lia|done].
      * assert (elements rest <> [] \/ np = false) as Hcase.
        { destruct np; [left|by right]. intros Er. by apply Hmore. }
        replace ((match skip_slashes rest with [] => true | _ => false end) && np) with false.
        2: { symmetry. destruct Hcase as [Hne| ->]; [|apply andb_false_r]. destruct (skip_slashes rest) eqn:Esk; [|done]. by apply skip_slashes_empty in Esk. }
        rewrite goal_step by done. unfold find_in. rewrite decide_True by done.
        destruct (lookup_ok _ s1 p e1 n Rd1 Hp E1) as (s2 & Hs2 & Ic2 & Rd2 & Lk); [by rewrite Hi1|done|done|].
        rewrite Hi1 in Lk. destruct (dir_find (dir_entries v (dino (inum e))) n) as [[k x]|] eqn:Fd.
        -- assert (good (d_inum x)) as Hgx.
           { destruct (Hsound (inum e)) as (_ & _ & Hd); [apply (q_good _ _ _ _ (rd_quiet _ _ _ Rd)); multiset_solver|].
             apply list_find_Some in Fd as (Fd & [Hx _] & _). apply (dg_below _ _ (Hd D)); [by eapply list_elem_of_lookup_2|done]. }
           rewrite <- Hi1 in Rd2. destruct (step_ok R s2 p e1 x (DIRENT_SIZE * Z.of_nat k) Rd2 Hp ltac:(by rewrite Ic2) ltac:(lia) Hgx Hsz) as (q & s3 & s4 & e' & G & U & Hs4 & Rd4 & Hq & Eq & Hqi & Hqr).
           rewrite G in Lk. rewrite (bind_Ok _ _ _ _ _ Lk). cbv beta iota. rewrite (bind_Ok _ _ _ _ _ U).
           rewrite <- Hqi in Rd4. destruct (IH (skip_slashes rest) q e' n s4 Rd4 Hq Eq Hqr) as (r & s5 & L5 & Hs5 & A5 & N5);
             [by rewrite skip_slashes_elements|pose proof (skip_slashes_length rest); lia|].
           rewrite skip_slashes_elements in A5, N5. exists r, s5. split; [done|].
           split; [eapply same_fs_trans; [exact Hs1|]; eapply same_fs_trans; [exact Hs2|]; eapply same_fs_trans; [exact Hs4|done]|].
           split; [simpl; by rewrite <- Hqi|]. intros ->. specialize (N5 eq_refl). destruct r as [[? ?]|]; [|done].
           destruct Hcase as [Hne|]; [|done]. destruct (elements rest); [done|by rewrite last_cons_cons].
        -- rewrite (bind_Ok _ _ _ _ _ Lk). cbv beta iota.
           destruct (fail_ok R s2 p e1 ltac:(by rewrite Hi1) Hp ltac:(by rewrite Ic2) ltac:(lia)) as (s3 & U & Hs3 & Rd3). rewrite (bind_Ok _ _ _ _ _ U).
           exists None, s3. split; [done|]. split; [|done]. eapply same_fs_trans; [exact Hs1|]. by eapply same_fs_trans.
    + rewrite (proj2 (Z.eqb_neq _ _)) by done. cbn [negb].
      destruct (fail_ok R s1 p e1 ltac:(by rewrite Hi1) Hp E1 ltac:(lia)) as (s3 & U & Hs3 & Rd3). rewrite (bind_Ok _ _ _ _ _ U).
      exists None, s3. split; [done|]. split; [by eapply same_fs_trans|]. rewrite goal_not_dir by done. done.
  - rewrite P. destruct np; simpl goal_of.
    + destruct (put_ok _ s p e Rd Hp E Hr) as (s2 & U & Hs2 & Rd2 & _). exists None, s2. rewrite (bind_Ok _ _ _ _ _ U).
      split; [done|]. split; [done|]. split; [|done]. split; [done|].
      by replace ((R ⊎ {[+ inum e +]}) ∖ {[+ inum e +]}) with R in Rd2 by multiset_solver.
    + exists (Some (Z.of_nat p, nm)), s. split; [done|]. split; [apply same_fs_refl|]. split; [|done]. by exists p, nm, e.
Qed.
Lemma dup_ok R s p e : ready R None s -> (p < Z.to_nat NINODES)%nat -> icache s !! p = Some e -> 0 < ref e ->
  exists s' e', inode_dup (Z.of_nat p) s = Ok (Z.of_nat p, s') /\ same_fs s s' /\ ready (R ⊎ {[+ inum e +]}) None s' /\
    icache s' !! p = Some e' /\ inum e' = inum e /\ 0 < ref e'.
Proof.
  intros Rd Hp E Hr. pose proof (rd_quiet _ _ _ Rd) as Q. pose proof Q as [[C1 C2 C3] [R1 R2] _ Qf]. destruct (Qf p e Hp E) as [F1 F2].
  set (e' := set_ref (ref e + 1) e). exists (upd s p e'), e'. split; [unfold inode_dup; by rewrite (bind_Ok _ _ _ _ _ (updf_Ok s p e _ E))|].
  split; [apply same_upd|]. split; [|split; [by eapply upd_get|split; [done|simpl; lia]]].
  eapply ready_same; [done|apply same_upd|]. eapply (quiet_ref _ R _ _ _ p e e'); [done|done|done| |simpl; lia| | | |done|].
  - intros k x Hk Hlt Hx Hrx Heq. apply Hk. by eapply (C3 k p x e).
  - split; [exact F1|]. intros _. by apply F2.
  - intros _. eapply q_good; [done|]. by eapply (ref_in _ _ _ _ p e).
  - change (inum e') with (inum e). change (ref e') with (ref e + 1). rewrite multiplicity_disj_union, multiplicity_singleton_eq, (R1 p e Hp E Hr). lia.
  - intros i Hi. rewrite multiplicity_disj_union, multiplicity_singleton_ne by done. lia.
Qed.

Lemma split_slash_nonzero path : 0 ∉ path -> forall n, n ∈ split_slash path -> 0 ∉ n.
Proof.
  induction path as [|c path IH]; intros Hz n Hn.
  - apply list_elem_of_singleton in Hn as ->. done.
  - apply not_elem_of_cons in Hz as [Hc Hz]. specialize (IH Hz). simpl in Hn. destruct (split_slash_cons path) as (a & es & Es). rewrite Es in Hn, IH.
    destruct (c =? SLASH); apply elem_of_cons in Hn as [->|Hn].
    + apply not_elem_of_nil.
    + by apply IH.
    + apply not_elem_of_cons. split; [done|]. apply IH. apply elem_of_cons. by left.
    + apply IH. apply elem_of_cons. by right.
Qed.

(** Names that fit into the arrays of the walk. *)
Definition names_fit (path : list Z) : Prop := 0 ∉ path /\ Forall (fun n => fits n = true) (elements path).

Lemma names_fit_all path : names_fit path -> Forall (fun n => fits n = true /\ 0 ∉ n) (elements path).
Proof.
  intros [Hz F]. apply Forall_forall. intros n Hn. split; [by eapply (proj1 (Forall_forall _ _) F)|].
  apply list_elem_of_In in Hn. apply list_elem_of_filter in Hn as [_ Hn]. by eapply split_slash_nonzero.
Qed.

(** Where a path starts. *)
Definition start_of (cwd : inode) (path : list Z) : Z :=
  match path with c :: _ => if c =? SLASH then ROOT_INUM else inum cwd | [] => inum cwd end.

Lemma path_lookup0_ok np R s path c e : good ROOT_INUM -> ready R None s -> (size (dom R) + 2 <= Z.to_nat NINODES)%nat ->
  (c < Z.to_nat NINODES)%nat -> icache s !! c = Some e -> 0 < ref e -> names_fit path ->
  exists r s', path_lookup0 sb (Z.of_nat c) path np s = Ok (r, s') /\ same_fs s s' /\
    arrives R (goal_of np (start_of e path) (elements path)) r s' /\
    (np = true -> match r with Some (_, n) => list.last (elements path) = Some n | None => True end).
Proof.
  intros Hroot Rd Hsz Hc E Hr Hn. pose proof (names_fit_all _ Hn) as Hn'.
  assert (forall p q, start_of e path = inum e -> elements q = elements path -> (length q < p)%nat ->
    exists r s', (parent ← inode_dup (Z.of_nat c); path_lookup_loop p sb q np parent []) s = Ok (r, s') /\ same_fs s s' /\
      arrives R (goal_of np (start_of e path) (elements path)) r s' /\
      (np = true -> match r with Some (_, n) => list.last (elements path) = Some n | None => True end)) as Hrel.
  { intros p q Hst Hq Hl. destruct (dup_ok R s c e Rd Hc E Hr) as (s1 & e1 & D & Hs1 & Rd1 & E1 & Hi1 & Hr1).
    rewrite (bind_Ok _ _ _ _ _ D). rewrite <- Hi1 in Rd1.
    destruct (path_lookup_loop_ok np R Hsz p q c e1 [] s1 Rd1 Hc E1 Hr1) as (r & s2 & L & Hs2 & A & N); [by rewrite Hq|done|].
    rewrite Hq, Hi1 in A. rewrite Hq in N. exists r, s2. split; [done|]. split; [by eapply same_fs_trans|]. by rewrite Hst. }
  unfold path_lookup0. destruct path as [|x path]; [apply Hrel; [done|done|simpl; lia]|].
  unfold start_of in *. destruct (x =? SLASH) eqn:Ex; [|apply Hrel; [done|done|simpl; lia]].
  bprop. subst x. rewrite elements_slash in *. destruct (iget_ok R None s ROOT_INUM Rd) as (p & s1 & e1 & I & Hp & E1 & Hi1 & Hr1 & Hs1 & Rd1 & _); [lia|done|].
  rewrite (bind_Ok _ _ _ _ _ I). rewrite <- Hi1 in Rd1.
  destruct (path_lookup_loop_ok np R Hsz (S (length path)) path p e1 [] s1 Rd1 Hp E1 Hr1 Hn' ltac:(lia)) as (r & s2 & L & Hs2 & A & N).
  rewrite Hi1 in A. exists r, s2. split; [done|]. split; [by eapply same_fs_trans|]. done.
Qed.

(** C12: [path_lookup] finds the file that a path means.  The path is a string (no NUL) whose
    elements are all shorter than 60 bytes (a longer one stops the machine, see
    [path_element_overflow]), the file system is sound, no inode is locked, the buffer cache
    has room, and at least two entries of the inode cache are free.  Then, from the root for a path that starts
    with a slash and from the current directory otherwise, it returns an entry of the inode
    cache for the inode at the end of the path, with one more reference; if some name does
    not exist or something on the way is not a directory it returns NULL, and every reference
    it took is given back.  It leaves no inode or buffer locked and changes nothing on the
    drive. *)
Theorem path_lookup_correct R s path c e : good ROOT_INUM -> ready R None s -> (size (dom R) + 2 <= Z.to_nat NINODES)%nat ->
  (c < Z.to_nat NINODES)%nat -> icache s !! c = Some e -> 0 < ref e -> names_fit path ->
  exists s', same_fs s s' /\
    match walk (start_of e path) (elements path) with
    | None => path_lookup sb (Z.of_nat c) path s = Ok (None, s') /\ ready R None s'
    | Some j => exists q x, path_lookup sb (Z.of_nat c) path s = Ok (Some (Z.of_nat q), s') /\ ready (R ⊎ {[+ j +]}) None s' /\
        icache s' !! q = Some x /\ inum x = j /\ 0 < ref x
    end.
Proof.
  intros Hroot Rd Hsz Hc E Hr Hn. destruct (path_lookup0_ok false R s path c e Hroot Rd Hsz Hc E Hr Hn) as (r & s' & L & Hs & A & _).
  exists s'. split; [done|]. unfold path_lookup. simpl goal_of in A. destruct (walk (start_of e path) (elements path)) as [j|].
  - destruct A as (q & nm & x & -> & _ & Ex & Hx & Hrx & Rd'). exists q, x. by rewrite (bind_Ok _ _ _ _ _ L).
  - destruct A as [-> Rd']. by rewrite (bind_Ok _ _ _ _ _ L).
Qed.

(** [path_lookup_parent] returns the directory that has the last name of a path, and that
    name; NULL, with all references given back, when the path has no name or a directory on the way is not there. *)
Theorem path_lookup_parent_correct R s path c e : good ROOT_INUM -> ready R None s -> (size (dom R) + 2 <= Z.to_nat NINODES)%nat ->
  (c < Z.to_nat NINODES)%nat -> icache s !! c = Some e -> 0 < ref e -> names_fit path ->
  exists s', same_fs s s' /\
    match goal_of true (start_of e path) (elements path) with
    | None => path_lookup_parent sb (Z.of_nat c) path s = Ok (None, s') /\ ready R None s'
    | Some j => exists q n x, path_lookup_parent sb (Z.of_nat c) path s = Ok (Some (Z.of_nat q, n), s') /\ list.last (elements path) = Some n /\
        is_dir j /\ ready (R ⊎ {[+ j +]}) None s' /\ icache s' !! q = Some x /\ inum x = j /\ 0 < ref x
    end.
Proof.
  intros Hroot Rd Hsz Hc E Hr Hn. destruct (path_lookup0_ok true R s path c e Hroot Rd Hsz Hc E Hr Hn) as (r & s' & L & Hs & A & N).
  exists s'. split; [done|]. unfold path_lookup_parent. specialize (N eq_refl).
  destruct (goal_of true (start_of e path) (elements path)) as [j|] eqn:G.
  - destruct A as (q & nm & x & -> & _ & Ex & Hx & Hrx & Rd'). exists q, nm, x. split; [done|]. split; [done|]. split; [|done].
    unfold goal_of in G. destruct (elements path); [done|]. destruct (walk _ _) as [k|]; [|done]. simpl in G. destruct (decide (is_dir k)); by simplify_eq.
  - by destruct A as [-> Rd'].
Qed.
End walk.

(** *** A root directory with "." and a file "a" *)

Definition walk_inodes : block :=
  put_dinode (put_dinode zero_block 1 (Dinode INODE_DIRECTORY 1 128 0 0 (39 :: replicate 11 0))) 2 (Dinode INODE_FILE 1 0 0 0 (replicate 12 0)).

Definition walk_root : block := enc_dirent dot ++ enc_dirent new_entry ++ replicate 384 0.

Definition walk_bs : bstore := BStore {[ 2 := walk_inodes; 39 := walk_root ]} ∅ ∅ ∅ [].

Definition walk_cwd : inode := MkInode 1 1 (sem_init 1) false (Dinode 0 0 0 0 0 (replicate 12 0)).

Definition walk_ist : ist := Ist (Fss walk_bs (lg demo_fss)) (walk_cwd :: replicate 50 free_inode) 3.

Definition demo_good (i : Z) : Prop := i = 1 \/ i = 2.

#[local] Existing Instance no_devices.

Lemma walk_bs_view x : view walk_bs x = if decide (x = 2) then walk_inodes else if decide (x = 39) then walk_root else zero_block.
Proof.
  unfold view, walk_bs. cbn [disk cache]. rewrite lookup_empty. cbn [default]. unfold dread.
  repeat case_decide; subst; [done|done|]. by rewrite lookup_insert_ne, lookup_singleton_ne.
Qed.

Lemma walk_bs_blocks x : block_ok (view walk_bs x).
Proof.
  rewrite walk_bs_view. repeat case_decide; [| |apply zero_block_ok]; (split; [by vm_compute|]); unfold bytes.
  - apply (bool_decide_unpack (Forall is_u8 walk_inodes)). by vm_compute.
  - apply (bool_decide_unpack (Forall is_u8 walk_root)). by vm_compute.
Qed.

Lemma walk_root_entries : dir_entries (view walk_bs) (dino demo_sb (view walk_bs) 1) = [dot; new_entry].
Proof. by vm_compute. Qed.

Lemma walk_sound : sound demo_sb (view walk_bs) demo_good.
Proof.
  intros i [-> | ->]; (split; [by vm_compute|]; split; [by vm_compute|]); [|by vm_compute]. intros _. split.
  - by vm_compute.
  - by vm_compute.
  - intros bn H0 H1. assert (dsize (dino demo_sb (view walk_bs) 1) = 128) as E by by vm_compute. rewrite E in H1.
    assert (bn = 0) as -> by (unfold BSIZE in H1; lia). by vm_compute.
  - rewrite walk_root_entries. apply Forall_cons_2; [|apply Forall_singleton]; intros _; simpl; set_solver.
  - rewrite walk_root_entries. intros e. rewrite !elem_of_cons. intros [-> |[-> |H]] _; [by left|by right|by apply not_elem_of_nil in H].
Qed.

(** The cache of inodes of a kernel whose first process has the root as its directory. *)
Definition boot_icache : list inode := walk_cwd :: replicate 50 free_inode.

Lemma boot_entry k e : boot_icache !! k = Some e -> (k = 0%nat /\ e = walk_cwd) \/ e = free_inode.
Proof.
  destruct k as [|k]; [intros E; simplify_eq/=; by left|]. change (replicate 50 free_inode !! k = Some e -> (S k = 0%nat /\ e = walk_cwd) \/ e = free_inode).
  intros [-> _]%lookup_replicate. by right.
Qed.

Lemma boot_quiet sb v (good : Z -> Prop) cur : good ROOT_INUM -> quiet sb v good boot_icache {[+ ROOT_INUM +]} None cur.
Proof.
  intros Hg. split.
  - split; [done| |].
    + intros k e [[_ ->]| ->]%boot_entry; done.
    + intros k k' e e' _ _ [[-> ->]| ->]%boot_entry [[-> ->]| ->]%boot_entry; done.
  - split.
    + intros k e _ [[-> ->]| ->]%boot_entry; [|done]. intros _. change (multiplicity 1 ({[+ 1 +]} : gmultiset Z) = 1%nat).
      by rewrite multiplicity_singleton, decide_True.
    + intros i ->%gmultiset_elem_of_singleton. exists 0%nat, walk_cwd. split; [unfold NINODES; lia|]. by split_and!.
  - by intros i ->%gmultiset_elem_of_singleton.
  - intros k e _ [[-> ->]| ->]%boot_entry; by split.
Qed.

Lemma walk_ready : ready demo_sb (view walk_bs) demo_good {[+ 1 +]} None walk_ist.
Proof. split; [done|done|unfold room; vm_compute; lia|apply walk_bs_blocks|]. apply boot_quiet. by left. Qed.

Lemma walk_ref_size : size (dom ({[+ 1 +]} : gmultiset Z)) = 1%nat.
Proof. by vm_compute. Qed.

(** From the root, "/a" is the inode 2. *)
Lemma path_lookup_correct_witness : exists s' q x, path_lookup demo_sb 0 [47; 97] walk_ist = Ok (Some (Z.of_nat q), s') /\
  ready demo_sb (view walk_bs) demo_good ({[+ 1 +]} ⊎ {[+ 2 +]}) None s' /\ icache s' !! q = Some x /\ inum x = 2.
Proof.
  destruct (path_lookup_correct demo_sb (view walk_bs) demo_good walk_sound {[+ 1 +]} walk_ist [47; 97] 0 walk_cwd) as (s' & _ & L).
  - by left.
  - apply walk_ready.
  - rewrite walk_ref_size. unfold NINODES. lia.
  - unfold NINODES. lia.
  - done.
  - done.
  - split; [set_solver|]. by apply (bool_decide_unpack (Forall (fun n => fits n = true) (elements [47; 97]))); vm_compute.
  - replace (walk demo_sb (view walk_bs) (start_of walk_cwd [47; 97]) (elements [47; 97])) with (Some 2) in L by by vm_compute.
    destruct L as (q & x & L & Rd & X & I & _). change (Z.of_nat 0) with 0 in L.
    exists s', q, x. split; [exact L|]. split; [exact Rd|]. split; [exact X|exact I].
Defined.

(** The directory of "/a" is the root. *)
Lemma path_lookup_parent_correct_witness : exists s' q, path_lookup_parent demo_sb 0 [47; 97] walk_ist = Ok (Some (Z.of_nat q, [97]), s') /\
  ready demo_sb (view walk_bs) demo_good ({[+ 1 +]} ⊎ {[+ 1 +]}) None s'.
Proof.
  destruct (path_lookup_parent_correct demo_sb (view walk_bs) demo_good walk_sound {[+ 1 +]} walk_ist [47; 97] 0 walk_cwd) as (s' & _ & L).
  - by left.
  - apply walk_ready.
  - rewrite walk_ref_size. unfold NINODES. lia.
  - unfold NINODES. lia.
  - done.
  - done.
  - split; [set_solver|]. by apply (bool_decide_unpack (Forall (fun n => fits n = true) (elements [47; 97]))); vm_compute.
  - replace (goal_of demo_sb (view walk_bs) true (start_of walk_cwd [47; 97]) (elements [47; 97])) with (Some 1) in L by by vm_compute.
    destruct L as (q & n & x & L & N & _ & Rd & _). replace (list.last (elements [47; 97])) with (Some [97]) in N by by vm_compute.
    injection N as <-. change (Z.of_nat 0) with 0 in L. exists s', q. split; [exact L|exact Rd].
Defined.
End Walk.
