(* ===== verification/File.v ===== *)
(** Open files and pipes: src/fs/file.c and src/kernel/pipe.c.

    [kst] is what the file layer of the kernel has: the inodes, the table of open
    files, the pipes and the part of the current task it uses. *)

From stdpp Require Import base numbers list gmap.
From Stdlib Require Import ZArith Lia.
From S2P Require Import Prelude Semaphore RingBuffer BlockIO Log BAlloc Inode Dir.
#[local] Open Scope Z_scope.

Module File.
Import Semaphore BlockIO Log BAlloc Inode Dir.

(** [enum fd_type]. *)
Inductive fd_type := FD_NONE | FD_INODE | FD_PIPE.

#[global] Instance fd_type_eq_dec : EqDecision fd_type.
Proof. solve_decision. Defined.

(** [struct file]. *)
Record file := MkFile {
  ftype : fd_type;
  refs : Z;
  writable : bool;
  readable : bool;
  finode : Z;
  fpipe : Z;
  offset : Z;
}.

Definition NFILES : Z := 50.

Record kst := Kst {
  il : ist;
  ftable : list file;
  pipes : gmap Z RingBuffer.ringbuffer;   (* allocated pipes, by address *)
  next_pipe : Z;                          (* the address of the next one *)
  ofiles : list (option Z);               (* task->ofiles *)
  cwd : Z;                                (* task->cwd *)
  killed : bool;                          (* task->killed *)
}.

#[global] Instance Part_il : Part kst ist :=
  {| part := il;
     set_part := fun i s => Kst i (ftable s) (pipes s) (next_pipe s) (ofiles s) (cwd s) (killed s) |}.

Definition ino {A} (m : M ist A) : M kst A := lift m.

Definition logop {A} (m : M fss A) : M kst A := lift (lift m : M ist A).

Definition set_ftable (t : list file) (s : kst) : kst :=
  Kst (il s) t (pipes s) (next_pipe s) (ofiles s) (cwd s) (killed s).

Definition set_pipes (p : gmap Z RingBuffer.ringbuffer) (s : kst) : kst :=
  Kst (il s) (ftable s) p (next_pipe s) (ofiles s) (cwd s) (killed s).

Definition get_file (f : Z) : M kst file := s ← get; index (ftable s) f.

Definition set_file (f : Z) (x : file) : M kst unit :=
  modify (fun s => set_ftable (<[Z.to_nat f := x]> (ftable s)) s).

Definition set_refs (r : Z) (x : file) : file :=
  MkFile (ftype x) r (writable x) (readable x) (finode x) (fpipe x) (offset x).

Definition set_ftype (t : fd_type) (x : file) : file :=
  MkFile t (refs x) (writable x) (readable x) (finode x) (fpipe x) (offset x).

Definition set_offset (o : Z) (x : file) : file :=
  MkFile (ftype x) (refs x) (writable x) (readable x) (finode x) (fpipe x) o.

Definition zero_file : file := MkFile FD_NONE 0 false false 0 0 0.

(** [file_init], without the table of device functions (see [Devices]). *)
Definition file_init : M kst unit :=
  modify (fun s => set_ftable (replicate (Z.to_nat NFILES) zero_file) s).

Fixpoint file_alloc_scan (n : nat) (i : Z) (l : list file) : option Z :=
  match n, l with
  | S n, f :: l => if refs f =? 0 then Some i else file_alloc_scan n (i + 1) l
  | _, _ => None
  end.

Definition file_alloc : M kst (option Z) :=
  s ← get;
  match file_alloc_scan (Z.to_nat NFILES) 0 (ftable s) with
  | Some i => f ← get_file i; set_file i (set_refs 1 f);; mret (Some i)
  | None => mret None
  end.

Definition file_dup (f : Z) : M kst Z :=
  x ← get_file f;
  ASSERT (1 <=? refs x);;
  set_file f (set_refs (u32 (refs x + 1)) x);;
  mret f.

(** *** Pipes *)

Definition get_pipe (p : Z) : M kst RingBuffer.ringbuffer :=
  s ← get; match pipes s !! p with Some rb => mret rb | None => panic end.

Definition put_pipe (p : Z) (rb : RingBuffer.ringbuffer) : M kst unit :=
  modify (fun s => set_pipes (<[p := rb]> (pipes s)) s).

Definition pipe_close (p : Z) (w : bool) : M kst unit :=
  rb ← get_pipe p;
  match RingBuffer.ringbuffer_close all_blocked rb (if w then RingBuffer.RBUF_WRITE else RingBuffer.RBUF_READ) with
  | Ok (_, rb) =>
      if RingBuffer.rclosed rb && RingBuffer.wclosed rb
      then modify (fun s => set_pipes (delete p (pipes s)) s)
      else put_pipe p rb
  | Panic => panic
  | Hang => hang
  end.

(** The loop of [pipe_read]; the bytes read so far.  A task that waits for a writer
    does not come back in the execution of one task. *)
Fixpoint pipe_read_loop (n : nat) (p : Z) (acc : list Z) : M kst (list Z) :=
  match n with
  | O => mret acc
  | S n =>
      s ← get;
      rb ← get_pipe p;
      match RingBuffer.ringbuffer_read_char all_blocked (curtask (il s)) (killed s) rb with
      | Ok (RingBuffer.Return r ch _ rb) =>
          put_pipe p rb;;
          if r <=? 0 then mret acc
          else pipe_read_loop n p (acc ++ match ch with Some c => [c] | None => [] end)
      | Ok (RingBuffer.Block _) => hang
      | Panic => panic
      | Hang => hang
      end
  end.

Definition pipe_read (p n : Z) : M kst (Z * list Z) :=
  if n <? 0 then mret (-1, [])
  else l ← pipe_read_loop (Z.to_nat n) p []; mret (Z.of_nat (length l), l).

Fixpoint pipe_write_loop (src : list Z) (p : Z) (done : Z) : M kst Z :=
  match src with
  | [] => mret done
  | c :: src =>
      s ← get;
      rb ← get_pipe p;
      match RingBuffer.ringbuffer_put_char all_blocked (curtask (il s)) (killed s) c rb with
      | Ok (RingBuffer.Return r _ _ rb) =>
          put_pipe p rb;;
          if r <=? 0 then mret done else pipe_write_loop src p (done + 1)
      | Ok (RingBuffer.Block _) => hang
      | Panic => panic
      | Hang => hang
      end
  end.

(** [src] holds the [n] bytes. *)
Definition pipe_write (p : Z) (src : list Z) (n : Z) : M kst Z :=
  if n <? 0 then mret (-1) else pipe_write_loop (take (Z.to_nat n) src) p 0.

Section file.
Context `{Devices}.

Definition file_close (sb : superblock) (f : Z) : M kst unit :=
  x ← get_file f;
  ASSERT (1 <=? refs x);;
  set_file f (set_refs (refs x - 1) x);;
  if 0 <? refs x - 1 then mret tt
  else
    set_file f (set_ftype FD_NONE (set_refs (refs x - 1) x));;
    match ftype x with
    | FD_INODE =>
        s ← get;
        logop (log_begin_op (curtask (il s)));;
        ino (inode_put sb (finode x));;
        logop log_end_op
    | FD_PIPE => pipe_close (fpipe x) (writable x)
    | FD_NONE => mret tt
    end.

(** The two files, or [None] when something could not be allocated.  [kalloc_ok] and
    [page_ok] say whether [kalloc] and [get_free_page] return memory. *)
Definition pipe_alloc (sb : superblock) (kalloc_ok page_ok : bool) : M kst (option (Z * Z)) :=
  rfp ← file_alloc;
  match rfp with
  | None => mret None
  | Some r =>
      wfp ← file_alloc;
      match wfp with
      | None => file_close sb r;; mret None
      | Some w =>
          if kalloc_ok && page_ok then
            s ← get;
            let p := next_pipe s in
            put (Kst (il s) (ftable s) (<[p := RingBuffer.ringbuffer_init 4096]> (pipes s)) (p + 1)
                     (ofiles s) (cwd s) (killed s));;
            fr ← get_file r;
            set_file r (MkFile FD_PIPE (refs fr) false true (finode fr) p (offset fr));;
            fw ← get_file w;
            set_file w (MkFile FD_PIPE (refs fw) true false (finode fw) p (offset fw));;
            mret (Some (r, w))
          else
            file_close sb r;;
            file_close sb w;;
            mret None
      end
  end.

Definition file_read (sb : superblock) (f n : Z) : M kst (Z * list Z) :=
  x ← get_file f;
  if negb (readable x) then mret (-1, [])
  else
    match ftype x with
    | FD_INODE =>
        ino (inode_lock sb (finode x));;
        r ← ino (inode_read sb (finode x) (offset x) n);
        (if 0 <? fst r then set_file f (set_offset (u32 (offset x + fst r)) x) else mret tt);;
        ino (inode_unlock (finode x));;
        mret r
    | FD_PIPE => pipe_read (fpipe x) (i32 n)
    | FD_NONE => panic
    end.

(** [((MAX_OPEN_BLOCKS - 4) / 2) * BLOCK_SIZE]. *)
Definition max_write : Z := ((MAX_OPEN_BLOCKS - 4) / 2) * BSIZE.

(** The part of a turn of the loop of [file_write] that is one transaction: it writes
    the [n1] bytes [src1] at the offset of the file. *)
Definition file_write_chunk (sb : superblock) (f : Z) (src1 : list Z) : M kst Z :=
  x ← get_file f;
  s ← get;
  logop (log_begin_op (curtask (il s)));;
  ino (inode_lock sb (finode x));;
  r ← ino (inode_write sb (finode x) src1 (offset x));
  (if 0 <? r then set_file f (set_offset (u32 (offset x + r)) x) else mret tt);;
  ino (inode_unlock (finode x));;
  logop log_end_op;;
  mret r.

(** The [for (i = 0; i < n; i += r)] of [file_write]; [src] is not advanced.  The
    result is [i] at the end of the loop. *)
Fixpoint file_write_loop (fuel : nat) (sb : superblock) (f : Z) (src : list Z) (i n : Z) : M kst Z :=
  match fuel with
  | O => hang
  | S fuel =>
      if i <? n then
        let n1 := if max_write <? n - i then max_write else n - i in
        r ← file_write_chunk sb f (take (Z.to_nat n1) src);
        if r <? 0 then mret i
        else
          ASSERT (r =? n1);;
          file_write_loop fuel sb f src (i + r) n
      else mret i
  end.

(** [src] holds the [n] bytes. *)
Definition file_write (sb : superblock) (f : Z) (src : list Z) : M kst Z :=
  let n := Z.of_nat (length src) in
  x ← get_file f;
  if negb (writable x) then mret (-1)
  else
    match ftype x with
    | FD_INODE =>
        i ← file_write_loop (S (S (Z.to_nat (n / max_write)))) sb f src 0 n;
        mret (if i =? n then 0 else -1)
    | FD_PIPE => pipe_write (fpipe x) src (i32 n)
    | FD_NONE => panic
    end.
End file.

(** ** An open file between operations *)

(** The inode [inum] as it is stored on the drive. *)
Definition drive_inode (sb : superblock) (s : kst) (inum : Z) : dinode :=
  get_dinode (dread (disk (bs (fl (il s)))) (GET_INODE_BLOCK_NO inum sb)) (slot_of inum).

(** The byte [k] of the file [inum] on the drive, found through the inode stored there: what
    a machine that starts from the drive will read. *)
Definition stored_byte (sb : superblock) (s : kst) (inum k : Z) : Z :=
  fbyte (dread (disk (bs (fl (il s))))) (drive_inode sb s inum) k.

Record open_file (sb : superblock) (f : Z) (x : file) (i : inode) (s : kst) : Prop := {
  of_f : 0 <= f;
  of_get : ftable s !! Z.to_nat f = Some x;
  of_type : ftype x = FD_INODE;
  of_writable : writable x = true;
  of_idle : idle (fl (il s));
  of_start : log_start (lg (fl (il s))) = sb_log_start sb;
  of_ip : 0 <= finode x;
  of_inode : icache (il s) !! Z.to_nat (finode x) = Some i;
  of_ref : 1 <= ref i;
  of_valid : valid i = true;
  of_sem : exists h, isem i = Sem 1 [] h;
  of_file : type (disk_inode i) <> INODE_DEVICE;
  of_wf : file_wf sb (view (bs (fl (il s)))) (disk_inode i);
  of_size : 0 <= dsize (disk_inode i) <= MAX_DATA_BLOCKS * BSIZE;
  of_there : forall bn, 0 <= bn -> bn * BSIZE < dsize (disk_inode i) ->
    slot (view (bs (fl (il s)))) (disk_inode i) (bslot bn) <> 0;
  of_dinode : dinode_ok (disk_inode i);
  of_inum : 0 <= inum i < sb_ninodes sb;
  of_off : 0 <= offset x <= dsize (disk_inode i);
  of_stored : drive_inode sb s (inum i) = disk_inode i;
}.

(** *** Contents that agree outside of the log area *)

Section agree.
Context (sb : superblock) (Hla : layout sb) (v v' : Z -> block).
Hypothesis Hagree : forall x, home (sb_log_start sb) x -> v' x = v x.

Lemma agree_used j : is_data sb j -> used sb v' j = used sb v j.
Proof. intros Hj. apply used_ext, Hagree. by apply bmap_block_loggable. Qed.

Lemma agree_slot d k : file_wf sb v d -> (k < NSLOTS)%nat -> slot v' d k = slot v d k.
Proof.
  intros W Hk. unfold slot. destruct (Nat.ltb_spec k 12); [done|]. cbv zeta.
  destruct (Z.eqb_spec (addrs d !!! 11%nat) 0) as [|Hn]; [done|]. f_equal. apply Hagree.
  destruct (fw_data _ _ _ W 11%nat) as (j & J1 & _ & J3); [unfold NSLOTS; lia|done|].
  change (slot v d 11) with (addrs d !!! 11%nat) in J3. rewrite J3. by apply data_block_loggable.
Qed.

Lemma agree_wf d : file_wf sb v d -> file_wf sb v' d.
Proof.
  intros W. pose proof W as [W1 W2 W3]. split; [done|..].
  - intros k Hk. rewrite agree_slot by done. intros Hn. destruct (W2 k Hk Hn) as (j & J1 & J2 & J3).
    exists j. split_and!; [done| |done]. by rewrite agree_used.
  - intros k k' Hk Hk'. rewrite !agree_slot by done. by apply W3.
Qed.

Lemma agree_fbyte d k : file_wf sb v d -> 0 <= k < MAX_DATA_BLOCKS * BSIZE -> fbyte v' d k = fbyte v d k.
Proof.
  intros W Hk. apply fbyte_ext. destruct (bslot_lt _ (block_range k Hk)) as [Hs _].
  unfold fblock. cbv zeta. rewrite agree_slot by done.
  destruct (Z.eqb_spec (slot v d (bslot (k / BSIZE))) 0) as [|Hn]; [done|]. apply Hagree.
  destruct (fw_data _ _ _ W _ Hs Hn) as (j & J1 & _ & ->). by apply data_block_loggable.
Qed.

Lemma agree_nfree : nfree sb v' = nfree sb v.
Proof. apply nfree_ext. intros. by apply agree_used. Qed.
End agree.

(** *** Running parts *)

Lemma ino_Ok {A} (m : M ist A) s a i :
  m (il s) = Ok (a, i) -> ino m s = Ok (a, Kst i (ftable s) (pipes s) (next_pipe s) (ofiles s) (cwd s) (killed s)).
Proof. intros E. unfold ino, lift. simpl. by rewrite E. Qed.

Lemma logop_Ok {A} (m : M fss A) s a g :
  m (fl (il s)) = Ok (a, g) ->
  logop m s = Ok (a, Kst (Ist g (icache (il s)) (curtask (il s))) (ftable s) (pipes s) (next_pipe s)
                     (ofiles s) (cwd s) (killed s)).
Proof. intros E. unfold logop, lift. simpl. by rewrite E. Qed.

Lemma get_file_Ok s f x : 0 <= f -> ftable s !! Z.to_nat f = Some x -> get_file f s = Ok (x, s).
Proof.
  intros Hf Hx. unfold get_file, index. mrun. rewrite (proj2 (Z.ltb_ge _ _)) by lia. by rewrite Hx.
Qed.

(** Locking and unlocking an inode that nobody else uses. *)
Lemma lock_free sb s ip i h :
  0 <= ip -> icache s !! Z.to_nat ip = Some i -> 1 <= ref i -> valid i = true -> isem i = Sem 1 [] h ->
  inode_lock sb ip s =
    Ok (tt, Ist (fl s) (<[Z.to_nat ip := set_isem (Sem 0 [] (Some (curtask s))) i]> (icache s)) (curtask s)).
Proof.
  intros Hp Hi Hr Hv Hs. unfold inode_lock. rewrite (bind_Ok _ _ _ _ _ (get_inode_Ok _ _ _ Hp Hi)).
  rewrite (bind_Ok _ _ _ tt s) by (apply ASSERT_true, Z.leb_le; done).
  assert (isem_wait ip s = Ok (tt, Ist (fl s)
    (<[Z.to_nat ip := set_isem (Sem 0 [] (Some (curtask s))) i]> (icache s)) (curtask s))) as E.
  { unfold isem_wait. rewrite (bind_Ok _ _ _ s s) by done.
    rewrite (bind_Ok _ _ _ _ _ (get_inode_Ok _ _ _ Hp Hi)). rewrite Hs. done. }
  rewrite (bind_Ok _ _ _ _ _ E).
  erewrite bind_Ok; [|apply get_inode_Ok; [done|apply list_lookup_insert_eq; by eapply lookup_lt_Some]].
  simpl. by rewrite Hv.
Qed.

Lemma unlock_held s ip i :
  0 <= ip -> icache s !! Z.to_nat ip = Some i -> 1 <= ref i -> isem i = Sem 0 [] (Some (curtask s)) ->
  inode_unlock ip s =
    Ok (tt, Ist (fl s) (<[Z.to_nat ip := set_isem (Sem 1 [] None) i]> (icache s)) (curtask s)).
Proof.
  intros Hp Hi Hr Hs. unfold inode_unlock, inode_holding. rewrite (bind_Ok _ _ _ true s).
  2: { rewrite (bind_Ok _ _ _ s s) by done. rewrite (bind_Ok _ _ _ _ _ (get_inode_Ok _ _ _ Hp Hi)).
       unfold sem_holding. rewrite Hs. simpl. by rewrite bool_decide_true. }
  rewrite (bind_Ok _ _ _ _ _ (get_inode_Ok _ _ _ Hp Hi)).
  rewrite (bind_Ok _ _ _ tt s) by (apply ASSERT_true; simpl; by apply Z.leb_le).
  unfold isem_signal. rewrite (bind_Ok _ _ _ _ _ (get_inode_Ok _ _ _ Hp Hi)). rewrite Hs. done.
Qed.

Section chunk.
Context `{Devices}.

(** A chunk ends in the fourth block at the latest. *)
Lemma chunk_turns off n : 0 < n -> n <= max_write -> nturns off n <= 4.
Proof.
  intros Hn Hm. unfold nturns. rewrite (proj2 (Z.leb_gt n 0)) by lia. pose proof (Z.mod_pos_bound off BSIZE ltac:(done)).
  assert ((off mod BSIZE + n - 1) / BSIZE < 4); [|lia]. apply Z.div_lt_upper_bound; [done|].
  unfold max_write, MAX_OPEN_BLOCKS, BSIZE in *. change ((10 - 4) / 2 * 512) with 1536 in Hm. lia.
Qed.

(** Without a transaction the drive has what the buffers have. *)
Lemma idle_fbyte g : idle g -> forall d k, fbyte (dread (disk (bs g))) d k = fbyte (view (bs g)) d k.
Proof. intros I d k. apply fbyte_ext. unfold fblock, slot. by rewrite <- !(id_clean _ I). Qed.

(** An open file whose inode is locked in a transaction that has just begun. *)
Lemma begun_file_inv sb f x i s g1 cur : open_file sb f x i s -> bs g1 = bs (fl (il s)) -> tx g1 -> log_start (lg g1) = log_start (lg (fl (il s))) ->
  let i1 := set_isem (Sem 0 [] (Some cur)) i in
  file_inv sb (finode x) i1 (Ist g1 (<[Z.to_nat (finode x) := i1]> (icache (il s))) cur).
Proof.
  intros [O1 O2 O3 O4 O5 O6 O7 O8 O9 O10 O11 O12 O13 O14 O15 O16 O17 O18 O19] B2 B3 B7 i1.
  pose proof (id_held _ O5) as I6. pose proof (id_block _ O5) as I8. split; simpl; rewrite ?B2; try done.
  - split; simpl; rewrite ?B2, ?I6; try done.
    + apply list_lookup_insert_eq. by eapply lookup_lt_Some.
    + split; rewrite ?B2, ?I6; [done|congruence| |by intros; apply not_elem_of_empty..]. unfold MAXHELD. rewrite size_empty. lia.
    + rewrite size_empty. unfold MAXHELD. lia.
  - rewrite I6. apply not_elem_of_empty.
Qed.

(** One transaction of [file_write]: the bytes are on the drive when it returns. *)
Lemma file_write_chunk_spec sb f x i s src :
  layout sb -> open_file sb f x i s -> bytes src -> src <> [] ->
  Z.of_nat (length src) <= max_write -> offset x + Z.of_nat (length src) <= MAX_DATA_BLOCKS * BSIZE ->
  8 <= Z.of_nat (nfree sb (view (bs (fl (il s))))) ->
  val (wait_sem (lg (fl (il s)))) + 1 < 2 ^ 31 - 1 ->
  let n := Z.of_nat (length src) in
  exists i' s', file_write_chunk sb f src s = Ok (n, s') /\
    open_file sb f (set_offset (offset x + n) x) i' s' /\ inum i' = inum i /\
    dsize (disk_inode i') = Z.max (dsize (disk_inode i)) (offset x + n) /\
    (forall k, 0 <= k < MAX_DATA_BLOCKS * BSIZE -> stored_byte sb s' (inum i) k =
       if decide (offset x <= k < offset x + n) then src !!! Z.to_nat (k - offset x)
       else stored_byte sb s (inum i) k) /\
    (nfree sb (view (bs (fl (il s)))) <= nfree sb (view (bs (fl (il s')))) + 8)%nat /\
    val (wait_sem (lg (fl (il s')))) <= val (wait_sem (lg (fl (il s)))) + 1.
Proof.
  intros Hla Hof Hb Hne Hn1 Hmax Hfree Hval n.
  pose proof Hof as [O1 O2 O3 O4 O5 O6 O7 O8 O9 O10 [h O11] O12 O13 O14 O15 O16 O17 O18 O19].
  assert (0 < n) as Hn0 by (destruct src; [done|unfold n; simpl; lia]).
  set (cur := curtask (il s)). set (ip := finode x) in *. pose proof O5 as [I1 I2 I3 I4 I5 I6 I7 I8 I9 I10 I11].
  destruct (begin_idle cur _ O5) as (g1 & B1 & B2 & B3 & B4 & B5 & B6 & B7 & B8).
  set (i1 := set_isem (Sem 0 [] (Some cur)) i).
  set (t2 := Ist g1 (<[Z.to_nat ip := i1]> (icache (il s))) cur).
  pose proof (chunk_turns (offset x) n Hn0 Hn1) as Hturns. pose proof (nturns_nonneg (offset x) n) as Ht0.
  assert (forall y, view (bs g1) y = view (bs (fl (il s))) y) as Hv1 by (intros; by rewrite B2).
  assert (file_inv sb ip i1 t2) as Hinv by (by apply (begun_file_inv sb f x)).
  destruct (inode_write_spec sb ip i1 t2 src (offset x) Hla Hinv O12 O18 Hb Hmax)
    as (i2 & t3 & W1 & W2 & W3 & (W4 & W4' & W4'') & W5 & W6 & _ & W10 & (ws & W7) & W8 & W9).
  { simpl. unfold cap. rewrite B6. fold n. unfold LOG_SIZE, MAX_OPEN_BLOCKS. lia. }
  { simpl. rewrite B2. fold n. lia. }
  fold n in W1, W5, W6, W9. simpl in W3, W4''.
  assert (isem i2 = Sem 0 [] (Some (curtask t3)) /\ ref i2 = ref i /\ valid i2 = valid i /\ inum i2 = inum i)
    as (Wsem & Wref & Wval & Wnum) by (rewrite W4', W4''; done).
  pose proof W2 as [F1 F2 F3 F4 F5 F6]. pose proof F1 as [P1 P2 P3 P4 P5 P6].
  set (i3 := set_isem (Sem 1 [] None) i2).
  destruct (lw_log _ _ _ W7) as (Q1 & Q2 & Q3 & Q4). simpl in Q1, Q2, Q3, Q4.
  destruct (end_idle (fl t3)) as (g4 & E1 & E2 & E3 & E4 & E5).
  { apply W7. }
  { rewrite W8. simpl. by rewrite B2, I6. }
  { congruence. }
  { congruence. }
  { by rewrite Q4, B8. }
  { by rewrite Q4, B8. }
  assert (forall y, home (sb_log_start sb) y -> view (bs g4) y = view (bs (fl t3)) y) as Hag.
  { intros y Hy. apply E5. by rewrite Q1, B7, O6. }
  destruct (inode_block_eq sb (inum i) Hla O17) as (_ & Hlog & _). set (b := GET_INODE_BLOCK_NO (inum i) sb) in *.
  assert (get_dinode (dread (disk (bs g4)) b) (slot_of (inum i)) = disk_inode i2) as Hst.
  { rewrite <- (id_clean _ E2), Hag by apply Hlog. apply W10. right. change (inum i1) with (inum i). fold b.
    simpl. rewrite B2, (id_clean _ O5). exact O19. }
  exists i3, (Kst (Ist g4 (<[Z.to_nat ip := i3]> (icache t3)) (curtask t3))
    (<[Z.to_nat f := set_offset (offset x + n) x]> (ftable s)) (pipes s) (next_pipe s) (ofiles s) (cwd s) (killed s)).
  split_and!.
  - unfold file_write_chunk. rewrite (bind_Ok _ _ _ _ _ (get_file_Ok _ _ _ O1 O2)).
    rewrite (bind_Ok _ _ _ s s) by done. fold cur.
    rewrite (bind_Ok _ _ _ _ _ (logop_Ok _ _ _ _ B1)).
    erewrite bind_Ok; [|apply ino_Ok; eapply lock_free; [exact O7|exact O8|exact O9|exact O10|exact O11]].
    cbn [il icache fl curtask]. fold cur ip i1 t2.
    erewrite bind_Ok; [|apply ino_Ok; exact W1]. rewrite (proj2 (Z.ltb_lt _ _)) by done.
    erewrite bind_Ok; [|reflexivity].
    erewrite bind_Ok; [|apply ino_Ok; eapply unlock_held; [exact O7|exact P2|lia|exact Wsem]].
    erewrite bind_Ok; [|apply logop_Ok; exact E1]. cbn [ftable pipes next_pipe ofiles cwd killed set_ftable il icache curtask].
    rewrite (u32_small (offset x + n)); [done|].
    unfold MAX_DATA_BLOCKS, NDIRECT_DATA_BLOCKS, NINDIRECT_DATA_BLOCKS, BSIZE in *. fold n in Hmax. ulia.
  - split; simpl; try done.
    + apply list_lookup_insert_eq. by eapply lookup_lt_Some.
    + congruence.
    + apply list_lookup_insert_eq. by eapply lookup_lt_Some.
    + lia.
    + congruence.
    + eauto.
    + rewrite W4. exact O12.
    + eapply agree_wf; [exact Hla|exact Hag|exact P4].
    + intros bn Hbn Hlt. rewrite (agree_slot sb Hla (view (bs (fl t3))) (view (bs g4)) Hag); [by apply F3|exact P4|].
      apply bslot_lt. pose proof F2. unfold BSIZE in *. lia.
    + fold n. lia.
    + unfold drive_inode. simpl. rewrite Wnum. fold b. exact Hst.
  - simpl. exact Wnum.
  - simpl. exact W5.
  - intros k Hk. unfold stored_byte, drive_inode at 1. cbn [il fl]. fold b. rewrite Hst, O19.
    rewrite (idle_fbyte g4 E2). rewrite (agree_fbyte sb Hla (view (bs (fl t3))) (view (bs g4)) Hag) by done.
    rewrite W6 by done. case_decide; [done|]. simpl. rewrite B2.
    by rewrite <- (idle_fbyte _ O5).
  - simpl. rewrite (agree_nfree sb Hla (view (bs (fl t3))) (view (bs g4)) Hag).
    simpl in W9. rewrite B2 in W9. lia.
  - simpl. rewrite Q4, B8 in E4. exact E4.
Qed.
End chunk.

(** *** Theorems *)

Section theorems.
Context `{Devices}.

Lemma file_write_turn fuel sb f src i n s n1 s1 :
  i < n -> n1 = (if max_write <? n - i then max_write else n - i) -> 0 <= n1 ->
  file_write_chunk sb f (take (Z.to_nat n1) src) s = Ok (n1, s1) ->
  file_write_loop (S fuel) sb f src i n s = file_write_loop fuel sb f src (i + n1) n s1.
Proof.
  intros Hi Hn1 H0 E. cbn [file_write_loop]. rewrite (proj2 (Z.ltb_lt _ _)) by done. cbv zeta. rewrite <- Hn1.
  rewrite (bind_Ok _ _ _ _ _ E). rewrite (proj2 (Z.ltb_ge _ _)) by done.
  by rewrite (bind_Ok _ _ _ tt s1) by (apply ASSERT_true, Z.eqb_refl).
Qed.

Lemma file_write_loop_end fuel sb f src n s : file_write_loop (S fuel) sb f src n n s = Ok (n, s).
Proof. cbn [file_write_loop]. by rewrite Z.ltb_irrefl. Qed.

Lemma file_write_inode sb f x i s src :
  open_file sb f x i s ->
  file_write sb f src s =
    (i ← file_write_loop (S (S (Z.to_nat (Z.of_nat (length src) / max_write)))) sb f src 0 (Z.of_nat (length src));
     mret (if i =? Z.of_nat (length src) then 0 else -1)) s.
Proof.
  intros [O1 O2 O3 O4]. unfold file_write. rewrite (bind_Ok _ _ _ _ _ (get_file_Ok _ _ _ O1 O2)).
  rewrite O4, O3. done.
Qed.

(** C5: a [file_write] of up to 1536 bytes is durable.  From a file system with no
    transaction running and at least 8 free blocks, and with a file whose inode is stored, a
    write that ends within the largest size of a file returns 0, and when it returns the
    drive has it: a machine that starts from the drive finds, through the inode stored
    there, the new size, the bytes at the offset of the file and every other byte of the
    file as before; the offset has moved on, and the file and the log are ready for the
    next operation. *)
Theorem file_write_durable sb f x i s src :
  layout sb -> open_file sb f x i s -> bytes src -> src <> [] ->
  Z.of_nat (length src) <= max_write -> offset x + Z.of_nat (length src) <= MAX_DATA_BLOCKS * BSIZE ->
  8 <= Z.of_nat (nfree sb (view (bs (fl (il s))))) ->
  val (wait_sem (lg (fl (il s)))) + 1 < 2 ^ 31 - 1 ->
  let n := Z.of_nat (length src) in
  exists i' s', file_write sb f src s = Ok (0, s') /\
    open_file sb f (set_offset (offset x + n) x) i' s' /\ inum i' = inum i /\
    dsize (drive_inode sb s' (inum i)) = Z.max (dsize (drive_inode sb s (inum i))) (offset x + n) /\
    forall k, 0 <= k < MAX_DATA_BLOCKS * BSIZE -> stored_byte sb s' (inum i) k =
      if decide (offset x <= k < offset x + n) then src !!! Z.to_nat (k - offset x)
      else stored_byte sb s (inum i) k.
Proof.
  intros Hla Ho Hb Hne Hm Hmax Hf Hv n.
  destruct (file_write_chunk_spec sb f x i s src Hla Ho Hb Hne Hm Hmax Hf Hv) as (i' & s' & E & O & Nu & Sz & By & _).
  fold n in E, O, Sz, By. exists i', s'. pose proof (of_stored _ _ _ _ _ O) as St. rewrite Nu in St.
  split_and!; try done; [|by rewrite St, (of_stored _ _ _ _ _ Ho)].
  rewrite (file_write_inode sb f x i s src Ho). fold n.
  assert (0 < n) as Hn0 by (destruct src; [done|unfold n; simpl; lia]).
  assert (file_write_loop (S (S (Z.to_nat (n / max_write)))) sb f src 0 n s = Ok (n, s')) as El.
  { rewrite (file_write_turn _ _ _ _ _ _ _ n s').
    - rewrite Z.add_0_l. apply file_write_loop_end.
    - done.
    - rewrite Z.sub_0_r, (proj2 (Z.ltb_ge max_write n) Hm). done.
    - lia.
    - rewrite take_ge by (unfold n; lia). done. }
  rewrite (bind_Ok _ _ _ _ _ El). by rewrite Z.eqb_refl.
Qed.

(** C40: a longer [file_write] repeats its first bytes.  The loop of [file_write] never
    advances [src]: from a file system with no transaction running and at least 16 free
    blocks, a write of between 1537 and 3072 bytes that ends within the largest size of a
    file returns success, but what the drive has in the file from 1536 bytes behind the
    offset on, found through the inode stored there, is the first bytes of the buffer
    again, whatever the buffer holds there; the first 1536 bytes are right, and so is the
    size. *)
Theorem file_write_repeats sb f x i s src :
  layout sb -> open_file sb f x i s -> bytes src ->
  max_write < Z.of_nat (length src) <= 2 * max_write ->
  offset x + Z.of_nat (length src) <= MAX_DATA_BLOCKS * BSIZE ->
  16 <= Z.of_nat (nfree sb (view (bs (fl (il s))))) ->
  val (wait_sem (lg (fl (il s)))) + 2 < 2 ^ 31 - 1 ->
  let n := Z.of_nat (length src) in
  exists i' s', file_write sb f src s = Ok (0, s') /\
    open_file sb f (set_offset (offset x + n) x) i' s' /\ inum i' = inum i /\
    dsize (drive_inode sb s' (inum i)) = Z.max (dsize (drive_inode sb s (inum i))) (offset x + n) /\
    (forall j, 0 <= j < max_write -> stored_byte sb s' (inum i) (offset x + j) = src !!! Z.to_nat j) /\
    (forall j, 0 <= j < n - max_write -> stored_byte sb s' (inum i) (offset x + max_write + j) = src !!! Z.to_nat j).
Proof.
  intros Hla Ho Hb Hm Hmax Hf Hv n. fold n in Hm, Hmax.
  change max_write with 1536 in *.
  destruct (file_write_chunk_spec sb f x i s (take 1536 src) Hla Ho) as (i1 & s1 & E1 & O1 & Nu1 & Sz1 & By1 & Fr1 & Va1).
  { by apply Forall_take. }
  { intros Hnil. apply (f_equal length) in Hnil. rewrite length_take in Hnil. cbn [length] in Hnil. lia. }
  { rewrite length_take. change max_write with 1536. lia. }
  { rewrite length_take. lia. }
  { lia. }
  { lia. }
  assert (Z.of_nat (length (take 1536 src)) = 1536) as L1 by (rewrite length_take; lia). rewrite L1 in *.
  destruct (file_write_chunk_spec sb f _ i1 s1 (take (Z.to_nat (n - 1536)) src) Hla O1)
    as (i2 & s2 & E2 & O2 & Nu2 & Sz2 & By2 & _).
  { by apply Forall_take. }
  { intros Hnil. apply (f_equal length) in Hnil. rewrite length_take in Hnil. cbn [length] in Hnil. lia. }
  { rewrite length_take. change max_write with 1536. lia. }
  { rewrite length_take. simpl. lia. }
  { lia. }
  { lia. }
  assert (Z.of_nat (length (take (Z.to_nat (n - 1536)) src)) = n - 1536) as L2 by (rewrite length_take; lia).
  rewrite L2, Nu1 in *. simpl offset in *. exists i2, s2. pose proof (of_off _ _ _ _ _ Ho) as Hoff.
  pose proof (of_stored _ _ _ _ _ O2) as St. rewrite Nu2 in St. split_and!.
  - rewrite (file_write_inode sb f x i s src Ho). fold n. change max_write with 1536.
    assert (exists k, S (S (Z.to_nat (n / 1536))) = S (S (S k))) as [k Hk].
    { exists (Z.to_nat (n / 1536) - 1)%nat. assert (1 <= n / 1536) by (apply Z.div_le_lower_bound; lia). lia. }
    assert (file_write_loop (S (S (Z.to_nat (n / 1536)))) sb f src 0 n s = Ok (n, s2)) as El.
    { rewrite Hk. rewrite (file_write_turn _ _ _ _ _ _ _ 1536 s1).
      - rewrite Z.add_0_l. rewrite (file_write_turn _ _ _ _ _ _ _ (n - 1536) s2).
        + replace (1536 + (n - 1536)) with n by lia. apply file_write_loop_end.
        + lia.
        + change max_write with 1536. rewrite (proj2 (Z.ltb_ge _ _)) by lia. done.
        + lia.
        + done.
      - lia.
      - change max_write with 1536. rewrite (proj2 (Z.ltb_lt _ _)) by lia. done.
      - lia.
      - done. }
    rewrite (bind_Ok _ _ _ _ _ El). by rewrite Z.eqb_refl.
  - replace (offset x + n) with (offset x + 1536 + (n - 1536)) by lia. done.
  - done.
  - rewrite St, Sz2, Sz1, (of_stored _ _ _ _ _ Ho). lia.
  - intros j Hj. rewrite By2 by lia. rewrite decide_False by lia. rewrite By1 by lia.
    rewrite decide_True by lia. rewrite lookup_total_take_lt by lia. f_equal. lia.
  - intros j Hj. rewrite By2 by lia. rewrite decide_True by lia. rewrite lookup_total_take_lt by lia. f_equal. lia.
Qed.

(** a file that is not open for writing, or for reading, is refused with -1 and
    nothing changes, whatever the file is. *)
Theorem file_rw_permission sb f x s src n :
  0 <= f -> ftable s !! Z.to_nat f = Some x ->
  (writable x = false -> file_write sb f src s = Ok (-1, s)) /\
  (readable x = false -> file_read sb f n s = Ok ((-1, []), s)).
Proof.
  intros Hf Hx. split; intros Hp; unfold file_write, file_read;
    rewrite (bind_Ok _ _ _ _ _ (get_file_Ok _ _ _ Hf Hx)); by rewrite Hp.
Qed.

Lemma file_alloc_scan_spec n : forall l i,
  match file_alloc_scan n i l with
  | Some p => exists k e, (k < n)%nat /\ p = i + Z.of_nat k /\ l !! k = Some e /\ refs e = 0
  | None => forall k e, (k < n)%nat -> l !! k = Some e -> refs e <> 0
  end.
Proof.
  induction n as [|n IH]; intros l i; simpl; [lia|]. destruct l as [|e l]; [done|].
  destruct (Z.eqb_spec (refs e) 0) as [Hz|Hz]; [exists 0%nat, e; split_and!; [lia|lia|done|done]|].
  specialize (IH l (i + 1)). destruct (file_alloc_scan n (i + 1) l) as [p|].
  - destruct IH as (k & e' & H1 & H2 & H3 & H4). exists (S k), e'. split_and!; [lia|lia|done|done].
  - intros [|k] e' Hk He; simpl in He; [by injection He as <-|]. apply (IH k); [lia|done].
Qed.

(** the table of open files.  [file_alloc] hands out an entry that nobody uses,
    now with one reference, or none when all 50 are in use; [file_dup] adds a
    reference; [file_close] of an entry with more than one reference only takes one
    away, so an entry is freed by exactly as many closes as it has references. *)
Theorem file_refs sb s :
  length (ftable s) = Z.to_nat NFILES ->
  ((exists f x, file_alloc s = Ok (Some f, set_ftable (<[Z.to_nat f := set_refs 1 x]> (ftable s)) s) /\
      ftable s !! Z.to_nat f = Some x /\ refs x = 0) \/
   (file_alloc s = Ok (None, s) /\ forall k x, ftable s !! k = Some x -> refs x <> 0)) /\
  forall f x, 0 <= f -> ftable s !! Z.to_nat f = Some x -> 1 <= refs x < 2 ^ 32 - 1 ->
    let s1 := set_ftable (<[Z.to_nat f := set_refs (refs x + 1) x]> (ftable s)) s in
    file_dup f s = Ok (f, s1) /\ file_close sb f s1 = Ok (tt, s).
Proof.
  intros Hlen. split.
  - unfold file_alloc. rewrite (bind_Ok _ _ _ s s) by done.
    pose proof (file_alloc_scan_spec (Z.to_nat NFILES) (ftable s) 0) as Hs.
    destruct (file_alloc_scan (Z.to_nat NFILES) 0 (ftable s)) as [p|].
    + left. destruct Hs as (k & e & H1 & -> & H3 & H4). exists (0 + Z.of_nat k), e.
      assert (ftable s !! Z.to_nat (0 + Z.of_nat k) = Some e) as H3' by (by rewrite Z.add_0_l, Nat2Z.id).
      split; [|done]. rewrite (bind_Ok _ _ _ _ _ (get_file_Ok s (0 + Z.of_nat k) e ltac:(lia) H3')). done.
    + right. split; [done|]. intros k x Hk. apply (Hs k); [|done]. apply lookup_lt_Some in Hk. lia.
  - intros f x Hf Hx Hr s1. pose proof (lookup_lt_Some _ _ _ Hx) as Hlt. split.
    + unfold file_dup. rewrite (bind_Ok _ _ _ _ _ (get_file_Ok _ _ _ Hf Hx)).
      rewrite (bind_Ok _ _ _ tt s) by (apply ASSERT_true, Z.leb_le; lia). rewrite u32_small by ulia. done.
    + unfold file_close. assert (ftable s1 !! Z.to_nat f = Some (set_refs (refs x + 1) x)) as Hx1
        by (by apply list_lookup_insert_eq).
      rewrite (bind_Ok _ _ _ _ _ (get_file_Ok _ _ _ Hf Hx1)).
      rewrite (bind_Ok _ _ _ tt s1) by (apply ASSERT_true, Z.leb_le; simpl; lia).
      erewrite bind_Ok; [|reflexivity]. 
      change (refs (set_refs (refs x + 1) x)) with (refs x + 1). rewrite (proj2 (Z.ltb_lt 0 (refs x + 1 - 1))) by lia.
      unfold s1, set_ftable. simpl. rewrite list_insert_insert_eq. replace (refs x + 1 - 1) with (refs x) by lia.
      rewrite list_insert_id; [by destruct s|]. rewrite Hx. by destruct x.
Qed.
End theorems.

(** *** A file open on the small drive *)

#[local] Existing Instance no_devices.

Definition demo_file : file := MkFile FD_INODE 1 true true 0 0 0.

Definition demo_open_inode : inode :=
  MkInode 1 1 (Sem 1 [] None) true (Dinode INODE_FILE 1 0 0 0 (replicate 12 0)).

(** The drive has the inode. *)
Definition demo_drive : gmap Z block :=
  {[GET_INODE_BLOCK_NO 1 demo_sb := put_dinode zero_block (slot_of 1) (disk_inode demo_open_inode)]}.

Definition demo_kst : kst :=
  Kst (Ist (Fss (mount demo_drive) (MkLog 5 0 false 0 (replicate 30 0) (Semaphore.sem_init 0)))
        (demo_open_inode :: replicate 50 free_inode) 3)
      (demo_file :: replicate 49 zero_file) ∅ 0 (replicate 16 None) 0 false.

Lemma demo_open_slot k : slot (view (bs (fl (il demo_kst)))) (disk_inode demo_open_inode) k = 0.
Proof.
  unfold slot. destruct (Nat.ltb_spec k 12); [|done].
  do 12 (destruct k as [|k]; [done|]). lia.
Qed.

Lemma demo_idle : idle (fl (il demo_kst)).
Proof.
  split; simpl; try done.
  - split; simpl; try done; try constructor; unfold start_ok, LOG_SIZE, MAX_OPEN_BLOCKS; lia.
  - apply sem_init_ok; lia.
  - intros x. change (block_ok (default zero_block (demo_drive !! x))). unfold demo_drive.
    destruct (decide (x = GET_INODE_BLOCK_NO 1 demo_sb)) as [->|Hx].
    + rewrite lookup_singleton_eq. apply put_dinode_ok; [apply zero_block_ok|apply slot_of_lt|done].
    + rewrite lookup_singleton_ne by congruence. apply zero_block_ok.
  - apply zero_hdr_ok.
Qed.

Lemma demo_open : open_file demo_sb 0 demo_file demo_open_inode demo_kst.
Proof.
  split; try done.
  - apply demo_idle.
  - by exists None.
  - split; [done|..]; intros k; intros; by rewrite demo_open_slot in *.
  - simpl. intros. unfold BSIZE in *. lia.
  - split; simpl; unfold INODE_FILE; try ulia. split; [|done]. by repeat (apply Forall_cons; split; [ulia|]).
Qed.

Lemma demo_nfree : Z.of_nat (nfree demo_sb (view (bs (fl (il demo_kst))))) = 16.
Proof. by vm_compute. Qed.

Lemma file_write_durable_witness :
  exists s', file_write demo_sb 0 [104; 105] demo_kst = Ok (0, s') /\
    dsize (drive_inode demo_sb s' 1) = 2 /\ stored_byte demo_sb s' 1 0 = 104 /\ stored_byte demo_sb s' 1 1 = 105.
Proof.
  destruct (file_write_durable demo_sb 0 demo_file demo_open_inode demo_kst [104; 105])
    as (i' & s' & E & _ & _ & Sz & By).
  - apply demo_layout.
  - apply demo_open.
  - repeat (apply Forall_cons; split; [ulia|]). apply Forall_nil_2.
  - discriminate.
  - vm_compute. congruence.
  - vm_compute. congruence.
  - rewrite demo_nfree. lia.
  - vm_compute. congruence.
  - exists s'. split; [exact E|]. split; [exact Sz|].
    split; rewrite (By _) by (vm_compute; split; congruence); reflexivity.
Defined.

Definition demo_long : list Z := replicate (Z.to_nat 1536) 65 ++ [66].

Lemma file_write_repeats_witness :
  exists s', file_write demo_sb 0 demo_long demo_kst = Ok (0, s') /\
    stored_byte demo_sb s' 1 1536 = 65 /\ demo_long !!! Z.to_nat 1536 = 66.
Proof.
  destruct (file_write_repeats demo_sb 0 demo_file demo_open_inode demo_kst demo_long) as (i' & s' & E & _ & _ & _ & _ & By).
  - apply demo_layout.
  - apply demo_open.
  - unfold demo_long. apply Forall_app. split; [apply Forall_replicate; ulia|].
    apply Forall_cons; split; [ulia|apply Forall_nil_2].
  - vm_compute. split; congruence.
  - vm_compute. congruence.
  - rewrite demo_nfree. lia.
  - vm_compute. congruence.
  - exists s'. split; [exact E|]. split; [|by vm_compute].
    transitivity (demo_long !!! Z.to_nat 0); [|reflexivity].
    apply (By 0). vm_compute. split; congruence.
Defined.

Lemma file_rw_permission_witness :
  file_write demo_sb 1 [104] demo_kst = Ok (-1, demo_kst) /\ file_read demo_sb 1 4 demo_kst = Ok ((-1, []), demo_kst).
Proof.
  destruct (file_rw_permission demo_sb 1 zero_file demo_kst [104] 4) as [Hw Hr]; [lia|reflexivity|].
  split; [by apply Hw|by apply Hr].
Defined.

Lemma file_refs_witness :
  exists f, file_alloc demo_kst = Ok (Some f, set_ftable (<[Z.to_nat f := set_refs 1 zero_file]> (ftable demo_kst)) demo_kst).
Proof.
  destruct (file_refs demo_sb demo_kst) as [[(f & x & E & F & _)|[E _]] _]; [reflexivity| |discriminate E].
  vm_compute in E. injection E as <- _. exists 1. vm_compute. reflexivity.
Defined.
End File.
