(* ===== verification/Balance.v ===== *)
(** Transactions are balanced: what the layers above the log do to it.

    [keeps m]: whatever [m] does, it neither opens nor closes a transaction, outside of
    a transaction it logs nothing, and it changes no buffer behind the log's back: a buffer
    that differs from the drive is dirty, and every dirty buffer is in the log ([covered]).
    Every operation of the inode, directory and path layers keeps the log in this sense;
    only the calls that say [log_begin_op] and [log_end_op] open and close transactions. *)

From stdpp Require Import base numbers list gmap.
From Stdlib Require Import ZArith Lia.
From S2P Require Import Prelude Semaphore RingBuffer BlockIO Log BAlloc Inode Dir Pathname File.
#[local] Open Scope Z_scope.

Module Balance.
Import Semaphore BlockIO Log BAlloc Inode Dir Pathname File.

(** States that have a log. *)
Class HasLog (S : Type) := the_fs : S -> fss.

#[global] Instance fss_log : HasLog fss := fun s => s.

#[global] Instance ist_log : HasLog ist := fl.

#[global] Instance kst_log : HasLog kst := fun s => fl (il s).

(** Every dirty buffer is in the log, and a buffer that is not dirty is as the drive. *)
Record covered (s : fss) : Prop := {
  cov_pos : 0 <= lh_n (lg s);
  cov_dirty : forall b, b ∈ dirty (bs s) -> b ∈ entries (lg s);
  cov_clean : forall b, b ∉ dirty (bs s) -> view (bs s) b = dread (disk (bs s)) b;
}.

(** A drive after it was mounted: nothing is in memory. *)
Lemma covered_mount d l : 0 <= lh_n l -> covered (Fss (mount d) l).
Proof. intros Hn. split; [done|set_solver|]. intros b _. unfold view. simpl. by rewrite lookup_empty. Qed.

Record same_tx (s s' : fss) : Prop := {
  st_out : outstanding (lg s') = outstanding (lg s);
  st_com : committing (lg s') = committing (lg s);
  st_zero : outstanding (lg s) = 0 -> lh_n (lg s') = lh_n (lg s);
  st_cov : covered s -> covered s';
}.

#[global] Instance same_tx_preorder : PreOrder same_tx.
Proof.
  split; [by split|]. intros a b c [A1 A2 A3 A4] [B1 B2 B3 B4].
  split; [congruence|congruence| |auto]. intros H. rewrite B3, A3 by congruence. done.
Qed.

Definition keeps {S A} `{HasLog S} (m : M S A) : Prop :=
  forall s a s', m s = Ok (a, s') -> same_tx (the_fs s) (the_fs s').

Section rules.
Context {S : Type} `{HasLog S}.

Lemma keeps_ret {A} (a : A) : keeps (mret a : M S A).
Proof. intros s a' s' E. injection E as <- <-. reflexivity. Qed.

Lemma keeps_get : keeps (get : M S S).
Proof. intros s a' s' E. injection E as <- <-. reflexivity. Qed.

Lemma keeps_panic {A} : keeps (panic : M S A).
Proof. by intros s a s' E. Qed.

Lemma keeps_hang {A} : keeps (hang : M S A).
Proof. by intros s a s' E. Qed.

Lemma keeps_bind {A B} (m : M S A) (k : A -> M S B) : keeps m -> (forall a, keeps (k a)) -> keeps (m ≫= k).
Proof.
  intros Hm Hk s b s'' E. apply bind_Ok_inv in E as (a & s' & E1 & E2).
  transitivity (the_fs s'); [by eapply Hm|by eapply Hk].
Qed.

Lemma keeps_ASSERT c : keeps (ASSERT c : M S unit).
Proof. destruct c; [apply keeps_ret|apply keeps_panic]. Qed.

Lemma keeps_index {A} (l : list A) i : keeps (index l i : M S A).
Proof.
  unfold index. destruct (i <? 0); [apply keeps_panic|]. destruct (l !! _); [apply keeps_ret|apply keeps_panic].
Qed.

Lemma keeps_modify (f : S -> S) : (forall s, the_fs (f s) = the_fs s) -> keeps (modify f).
Proof. intros Hf s a s' E. injection E as <- <-. rewrite Hf. reflexivity. Qed.

Lemma keeps_of_outcome {A} (o : outcome A) : keeps (of_outcome o : M S A).
Proof. intros s a s' E. unfold of_outcome in E. destruct o; try done. injection E as _ <-. reflexivity. Qed.

Lemma keeps_for_loop n : forall a (body : nat -> M S unit), (forall i, keeps (body i)) -> keeps (for_loop n a body).
Proof.
  induction n as [|n IH]; intros a body Hb; [apply keeps_ret|]. simpl.
  apply keeps_bind; [apply Hb|]. intros. by apply IH.
Qed.
End rules.

(** An operation on the buffers that makes none dirty and changes no contents. *)
Lemma keeps_lift_bs {A} (m : M bstore A) :
  (forall t a t', m t = Ok (a, t') -> dirty t' = dirty t /\ disk t' = disk t /\ forall b, view t' b = view t b) ->
  keeps (lift m : M fss A).
Proof.
  intros Hm s a s' E. unfold lift in E. destruct (m (part s)) as [[x t]| |] eqn:Em; try done.
  injection E as <- <-. destruct (Hm _ _ _ Em) as (D & K & V). split; [done..|].
  intros [C1 C2 C3]. split; [done| |]; unfold the_fs, fss_log in *; simpl in *; rewrite D; [done|].
  intros b Hb. rewrite V, K. by apply C3.
Qed.

Lemma keeps_buf_read b : keeps (lift (buf_read b) : M fss block).
Proof.
  apply keeps_lift_bs. intros t a t' E. unfold buf_read in E. repeat case_match; try done.
  injection E as _ <-. split_and!; [done..|]. intros b'. unfold view at 1. simpl. rewrite default_insert.
  destruct (decide (b' = b)); [by subst|done].
Qed.

Lemma keeps_buf_release b : keeps (lift (buf_release b) : M fss unit).
Proof. apply keeps_lift_bs. intros t a t' E. by injection E as _ <-. Qed.

Lemma keeps_lift_fss {A} (m : M fss A) : keeps m -> keeps (lift m : M ist A).
Proof.
  intros Hm s a s' E. unfold lift in E. destruct (m (part s)) as [[x t]| |] eqn:Em; try done.
  injection E as <- <-. exact (Hm _ _ _ Em).
Qed.

Lemma keeps_bio {A} (m : M bstore A) : keeps (lift m : M fss A) -> keeps (bio m).
Proof. apply keeps_lift_fss. Qed.

Lemma keeps_ino {A} (m : M ist A) : keeps m -> keeps (ino m).
Proof.
  intros Hm s a s' E. unfold ino, lift in E. destruct (m (part s)) as [[x t]| |] eqn:Em; try done.
  injection E as <- <-. exact (Hm _ _ _ Em).
Qed.

Create HintDb keeps.
#[export] Hint Resolve keeps_ret keeps_get keeps_panic keeps_hang keeps_ASSERT keeps_index keeps_of_outcome
  keeps_buf_read keeps_buf_release : keeps.
#[export] Hint Resolve keeps_lift_fss keeps_bio keeps_ino : keeps.

(** *** Stores to buffers *)

(** The store of [data] in the buffer of [b], then [m], which leaves [b] logged or written. *)
Lemma view_store t b data t' x : buf_store b data t = Ok (tt, t') ->
  view t' x = if decide (x = b) then data else view t x.
Proof. intros [= <-]. unfold view. simpl. rewrite default_insert. done. Qed.

Lemma find_entry_found b : forall n blocks, (find_entry n b blocks < length blocks)%nat ->
  find_entry n b blocks = n \/ ((find_entry n b blocks < n)%nat /\ blocks !! find_entry n b blocks = Some b).
Proof.
  induction n as [|n IH]; intros [|x blocks] Hl; simpl in *; [lia|by left|lia|].
  destruct (Z.eqb_spec x b) as [->|]; [right; split; [lia|done]|].
  destruct (IH blocks ltac:(lia)) as [E|[E1 E2]]; [left; lia|right; split; [lia|done]].
Qed.

(** The log after [log_write]: the block is in it and its buffer is dirty. *)
Lemma log_write_effect b s a s' : log_write b s = Ok (a, s') ->
  1 <= outstanding (lg s) /\ outstanding (lg s') = outstanding (lg s) /\ committing (lg s') = committing (lg s) /\
  (0 <= lh_n (lg s) -> 0 <= lh_n (lg s') /\ forall x, x ∈ entries (lg s) \/ x = b -> x ∈ entries (lg s')) /\
  bs s' = BStore (disk (bs s)) (cache (bs s)) ({[b]} ∪ dirty (bs s)) (held (bs s)) (writes (bs s)).
Proof.
  intros E. unfold log_write in E. apply bind_Ok_inv in E as (? & ? & E0 & E). injection E0 as <- <-.
  apply bind_Ok_inv in E as ([] & s1 & E1 & E).
  destruct (lh_n (lg s) <? LOG_SIZE) eqn:H1; [|done]. injection E1 as <-.
  apply bind_Ok_inv in E as ([] & s1 & E1 & E).
  destruct (1 <=? outstanding (lg s)) eqn:H2; [|done]. injection E1 as <-. bprop. cbv zeta in E.
  apply bind_Ok_inv in E as (? & s1 & E1 & E). unfold index in E1. rewrite Nat2Z.id in E1.
  destruct (_ <? 0); [done|]. destruct (_ !! _) as [y|] eqn:Ey; [|done]. injection E1 as _ <-.
  apply bind_Ok_inv in E as ([] & s1 & E1 & E). injection E1 as <-.
  apply bind_Ok_inv in E as ([] & s2 & E1 & E). injection E as _ <-.
  apply lookup_lt_Some in Ey. set (i := find_entry _ _ _) in *.
  assert (0 <= lh_n (lg s2) /\ (forall x, x ∈ entries (lg s) \/ x = b -> x ∈ entries (lg s2)) \/ lh_n (lg s) < 0) as Hen.
  { destruct (Z.lt_ge_cases (lh_n (lg s)) 0) as [?|H0]; [by right|left].
    destruct (find_entry_found b _ _ Ey) as [F|[F1 F2]]; [fold i in F|fold i in F1, F2].
    - rewrite (proj2 (Z.eqb_eq _ _)) in E1 by lia. injection E1 as <-. split; [simpl; lia|].
      unfold entries. simpl. rewrite Z2Nat.inj_add by lia. change (Z.to_nat 1) with 1%nat. rewrite Nat.add_1_r.
      rewrite <- F in *. rewrite (take_S_r _ _ b) by (apply list_lookup_insert_eq; lia).
      rewrite take_insert_ge by lia. intros z [?| ->]; apply elem_of_app; [by left|right; set_solver].
    - rewrite (proj2 (Z.eqb_neq _ _)) in E1 by lia. injection E1 as <-. split; [done|].
      unfold entries. simpl. rewrite list_insert_id by done. intros z [?| ->]; [done|].
      apply list_elem_of_lookup. exists i. by rewrite lookup_take_lt. }
  destruct (_ =? lh_n (lg s)); injection E1 as <-; (split_and!; [done..|intros ?; destruct Hen; [done|lia]|done]).
Qed.

Lemma keeps_store_log {A} b data (k : unit -> M fss A) : (forall u, keeps (k u)) ->
  keeps (lift (buf_store b data) ≫= fun _ => log_write b ≫= k).
Proof.
  intros Hk s a s' E. apply bind_Ok_inv in E as ([] & s1 & E1 & E). apply bind_Ok_inv in E as (u & s2 & E2 & E).
  transitivity s2; [|by eapply Hk]. clear E.
  assert (lg s1 = lg s /\ buf_store b data (bs s) = Ok (tt, bs s1) /\
          dirty (bs s1) = dirty (bs s) /\ disk (bs s1) = disk (bs s)) as (L1 & B1 & Hd & Hk1)
    by (unfold lift in E1; simpl in E1; injection E1 as <-; done).
  destruct (log_write_effect _ _ _ _ E2) as (O1 & O2 & C2 & En & Bs).
  split; unfold the_fs, fss_log; rewrite ?O2, ?C2, ?L1, ?Hd, ?Hk1 in *; try done; [lia|].
  intros [C1 CD CC]. destruct (En C1) as [P2 En2]. split; [done| |]; rewrite Bs; simpl.
  - intros x Hx. apply En2. set_solver.
  - intros x Hx. trans (view (bs s1) x); [unfold view; simpl; by rewrite Hk1|].
    rewrite (view_store _ _ _ _ _ B1), decide_False by set_solver. apply CC. set_solver.
Qed.

Lemma keeps_store_log_ist {A} b data (k : unit -> M ist A) : (forall u, keeps (k u)) ->
  keeps (bio (buf_store b data) ≫= fun _ => lift (log_write b) ≫= k).
Proof.
  intros Hk s a s' E. apply bind_Ok_inv in E as ([] & s1 & E1 & E). apply bind_Ok_inv in E as (u & s2 & E2 & E).
  transitivity (the_fs s2); [|by eapply Hk]. unfold bio, lift in E1, E2. simpl in E1. injection E1 as <-. simpl in E2.
  destruct (log_write b _) as [[v t]| |] eqn:El; try done. injection E2 as _ <-.
  apply (keeps_store_log b data (fun _ => mret tt) (fun _ => keeps_ret tt) (fl s) tt t).
  rewrite (bind_Ok _ _ _ tt _ eq_refl). by rewrite (bind_Ok _ _ _ _ _ El).
Qed.

(** A store to a buffer that goes to the drive at once; afterwards the buffer is clean. *)
Lemma store_write_effect b data s u s1 u' s2 :
  (lift (buf_store b data) : M fss unit) s = Ok (u, s1) -> (lift (buf_write b) : M fss unit) s1 = Ok (u', s2) ->
  same_tx s s2 /\ lg s2 = lg s /\ dirty (bs s2) = dirty (bs s) ∖ {[b]}.
Proof.
  intros E1 E2. unfold lift in E1, E2. simpl in E1. injection E1 as _ <-. simpl in E2.
  destruct (buf_write b _) as [[v t]| |] eqn:Ew; try done. injection E2 as _ <-. unfold buf_write in Ew.
  apply bind_Ok_inv in Ew as (? & ? & E0 & Ew). injection E0 as <- <-. apply bind_Ok_inv in Ew as ([] & t1 & E1 & Ew).
  case_bool_decide; [|done]. injection E1 as <-. injection Ew as _ <-. split; [|done]. split; try done. intros [C1 CD CC]. split; simpl; [done|set_solver|].
  intros x Hx. unfold view. simpl. rewrite dread_insert, !default_insert.
  destruct (decide (x = b)) as [->|]; [by rewrite decide_True|]. apply CC. set_solver.
Qed.

Lemma keeps_store_write {A} b data (k : unit -> M fss A) : (forall u, keeps (k u)) ->
  keeps (lift (buf_store b data) ≫= fun _ => lift (buf_write b) ≫= k).
Proof.
  intros Hk s a s' E. apply bind_Ok_inv in E as ([] & s1 & E1 & E). apply bind_Ok_inv in E as (u & s2 & E2 & E).
  transitivity s2; [|by eapply Hk]. by eapply store_write_effect.
Qed.

(** Follow the structure of an operation: binds, tests, matches; the operations it
    calls are in the database. *)
Ltac keeps_step :=
  lazymatch goal with
  | |- keeps (lift (buf_store _ _) ≫= _) =>
      first [apply keeps_store_log | apply keeps_store_write]; intros ?
  | |- keeps (bio (buf_store _ _) ≫= _) => apply keeps_store_log_ist; intros ?
  | |- keeps (_ ≫= _) => apply keeps_bind; [|intros ?]
  | |- keeps (let _ := _ in _) => cbv zeta
  | |- keeps (match ?b with _ => _ end) => destruct b eqn:?
  | |- keeps ((fun _ => _) _) => cbv beta
  | |- keeps (for_loop _ _ _) => apply keeps_for_loop; intros ?
  | |- keeps (modify _) => apply keeps_modify; intros ?; reflexivity
  | |- _ => solve [eauto with keeps]
  end.

Ltac keeps := repeat keeps_step.

(** *** The log *)

Lemma install_trans_keeps : keeps install_trans.
Proof. unfold install_trans. keeps. Qed.

Lemma write_log_keeps : keeps write_log.
Proof. unfold write_log. keeps. Qed.

Lemma write_head_keeps : keeps write_head.
Proof. unfold write_head. keeps. Qed.
#[export] Hint Resolve install_trans_keeps write_log_keeps write_head_keeps : keeps.

(** *** Blocks and inodes *)

Lemma bzero_keeps b : keeps (bzero b).
Proof. unfold bzero. keeps. Qed.
#[export] Hint Resolve bzero_keeps : keeps.

Lemma balloc_loop_keeps fuel : forall sb bits b, keeps (balloc_loop fuel sb bits b).
Proof. induction fuel as [|fuel IH]; intros; simpl; keeps. Qed.

Lemma balloc_keeps sb : keeps (balloc sb).
Proof. apply balloc_loop_keeps. Qed.

Lemma bfree_keeps sb b : keeps (bfree sb b).
Proof. unfold bfree. keeps. Qed.
#[export] Hint Resolve balloc_keeps bfree_keeps : keeps.

Lemma get_inode_keeps ip : keeps (get_inode ip).
Proof. unfold get_inode. keeps. Qed.

Lemma set_inode_keeps ip i : keeps (set_inode ip i).
Proof. unfold set_inode. keeps. Qed.
#[export] Hint Resolve get_inode_keeps set_inode_keeps : keeps.

Lemma upd_inode_keeps ip f : keeps (upd_inode ip f).
Proof. unfold upd_inode. keeps. Qed.
#[export] Hint Resolve upd_inode_keeps : keeps.

Lemma upd_dinode_keeps ip f : keeps (upd_dinode ip f).
Proof. unfold upd_dinode. keeps. Qed.

Lemma isem_wait_keeps ip : keeps (isem_wait ip).
Proof. unfold isem_wait. keeps. Qed.

Lemma isem_signal_keeps ip : keeps (isem_signal ip).
Proof. unfold isem_signal. keeps. Qed.
#[export] Hint Resolve upd_dinode_keeps isem_wait_keeps isem_signal_keeps : keeps.

Lemma iget_keeps i : keeps (iget i).
Proof. unfold iget. keeps. Qed.

Lemma inode_update_keeps sb ip : keeps (inode_update sb ip).
Proof. unfold inode_update. keeps. Qed.

Lemma free_indirect_keeps sb n : forall i d, keeps (free_indirect sb n i d).
Proof. induction n as [|n IH]; intros; simpl; keeps. Qed.
#[export] Hint Resolve iget_keeps inode_update_keeps free_indirect_keeps : keeps.

Lemma itruncate_keeps sb ip : keeps (itruncate sb ip).
Proof. unfold itruncate. keeps. Qed.

Lemma bmap_keeps sb ip bn : keeps (bmap sb ip bn).
Proof. unfold bmap. keeps. Qed.

Lemma inode_alloc_loop_keeps n : forall sb i typ, keeps (inode_alloc_loop n sb i typ).
Proof. induction n as [|n IH]; intros; simpl; keeps. Qed.

Lemma inode_alloc_keeps sb typ : keeps (inode_alloc sb typ).
Proof. apply inode_alloc_loop_keeps. Qed.

Lemma inode_dup_keeps ip : keeps (inode_dup ip).
Proof. unfold inode_dup. keeps. Qed.

Lemma inode_lock_keeps sb ip : keeps (inode_lock sb ip).
Proof. unfold inode_lock. keeps. Qed.

Lemma inode_holding_keeps ip : keeps (inode_holding ip).
Proof. unfold inode_holding. keeps. Qed.
#[export] Hint Resolve itruncate_keeps bmap_keeps inode_alloc_keeps inode_dup_keeps inode_lock_keeps inode_holding_keeps : keeps.

Lemma inode_unlock_keeps ip : keeps (inode_unlock ip).
Proof. unfold inode_unlock. keeps. Qed.

Lemma inode_put_keeps sb ip : keeps (inode_put sb ip).
Proof. unfold inode_put. keeps. Qed.
#[export] Hint Resolve inode_unlock_keeps inode_put_keeps : keeps.

Lemma inode_unlockput_keeps sb ip : keeps (inode_unlockput sb ip).
Proof. unfold inode_unlockput. keeps. Qed.

Lemma inode_stat_keeps ip : keeps (inode_stat ip).
Proof. unfold inode_stat. keeps. Qed.

Lemma inode_read_loop_keeps fuel : forall sb ip offset left acc, keeps (inode_read_loop fuel sb ip offset left acc).
Proof. induction fuel as [|fuel IH]; intros; simpl; keeps. Qed.

Lemma inode_write_loop_keeps fuel : forall sb ip offset src, keeps (inode_write_loop fuel sb ip offset src).
Proof. induction fuel as [|fuel IH]; intros; simpl; keeps. Qed.
#[export] Hint Resolve inode_unlockput_keeps inode_stat_keeps inode_read_loop_keeps inode_write_loop_keeps : keeps.

(** The device drivers keep the log: the console driver, the only one there is, does
    not touch the drive. *)
Class DevicesKeep `{Devices} : Prop := {
  dev_read_keeps : forall i f ip n, dev_read i = Some f -> keeps (f ip n);
  dev_write_keeps : forall i f ip l, dev_write i = Some f -> keeps (f ip l);
}.

#[export] Hint Resolve dev_read_keeps dev_write_keeps : keeps.

Section devices.
Context `{DevicesKeep}.

Lemma inode_read_keeps sb ip offset n : keeps (inode_read sb ip offset n).
Proof. unfold inode_read. keeps. Qed.

Lemma inode_write_keeps sb ip src offset : keeps (inode_write sb ip src offset).
Proof. unfold inode_write. keeps. Qed.
End devices.
#[export] Hint Resolve inode_read_keeps inode_write_keeps : keeps.

(** *** Directories and paths *)

Section dirs.
Context `{DevicesKeep}.

Lemma dir_lookup_loop_keeps fuel : forall sb dir name offset, keeps (dir_lookup_loop fuel sb dir name offset).
Proof. induction fuel as [|fuel IH]; intros; simpl; keeps. Qed.

Lemma dir_lookup_keeps sb dir name : keeps (dir_lookup sb dir name).
Proof. pose proof dir_lookup_loop_keeps. unfold dir_lookup. keeps. Qed.

Lemma dir_link_loop_keeps fuel : forall sb dir offset, keeps (dir_link_loop fuel sb dir offset).
Proof. induction fuel as [|fuel IH]; intros; simpl; keeps. Qed.

Lemma dir_link_keeps sb dir e : keeps (dir_link sb dir e).
Proof. pose proof dir_lookup_keeps. pose proof dir_link_loop_keeps. unfold dir_link. keeps. Qed.

Lemma dir_unlink_keeps sb dir offset : keeps (dir_unlink sb dir offset).
Proof. unfold dir_unlink. keeps. Qed.

Lemma dir_isempty_loop_keeps fuel : forall sb dir offset, keeps (dir_isempty_loop fuel sb dir offset).
Proof. induction fuel as [|fuel IH]; intros; simpl; keeps. Qed.

Lemma dir_isempty_keeps sb dir : keeps (dir_isempty sb dir).
Proof. pose proof dir_isempty_loop_keeps. unfold dir_isempty. keeps. Qed.

Lemma dir_make_keeps sb junk parent dir : keeps (dir_make sb junk parent dir).
Proof. pose proof dir_link_keeps. unfold dir_make. keeps. Qed.

Lemma path_lookup_loop_keeps fuel : forall sb path nip parent name,
  keeps (path_lookup_loop fuel sb path nip parent name).
Proof. pose proof dir_lookup_keeps. induction fuel as [|fuel IH]; intros; simpl; keeps. Qed.

Lemma path_lookup0_keeps sb cwd path nip : keeps (path_lookup0 sb cwd path nip).
Proof. pose proof path_lookup_loop_keeps. unfold path_lookup0. keeps. Qed.

Lemma path_lookup_keeps sb cwd path : keeps (path_lookup sb cwd path).
Proof. pose proof path_lookup0_keeps. unfold path_lookup. keeps. Qed.

Lemma path_lookup_parent_keeps sb cwd path : keeps (path_lookup_parent sb cwd path).
Proof. apply path_lookup0_keeps. Qed.
End dirs.
#[export] Hint Resolve dir_lookup_keeps dir_link_keeps dir_unlink_keeps dir_isempty_keeps dir_make_keeps
  path_lookup_keeps path_lookup_parent_keeps : keeps.
(** *** Opening and closing transactions *)

(** [k] transactions are open, and the log covers what is not on the drive. *)
Record txs (k : Z) (s : fss) : Prop := {
  txs_out : outstanding (lg s) = k;
  txs_com : committing (lg s) = false;
  txs_zero : k = 0 -> lh_n (lg s) = 0;
  txs_cov : covered s;
}.

(** Without a transaction the log is empty, no buffer is dirty and every block is on the
    drive as the cache shows it. *)
Lemma txs_idle s : txs 0 s -> lh_n (lg s) = 0 /\ dirty (bs s) = ∅ /\ forall b, view (bs s) b = dread (disk (bs s)) b.
Proof.
  intros [T1 T2 T3 [C1 C2 C3]]. specialize (T3 eq_refl).
  assert (dirty (bs s) = ∅) as D.
  { apply set_eq. intros b. split; [|set_solver]. intros Hb%C2. unfold entries in Hb. rewrite T3 in Hb. set_solver. }
  split_and!; [done|done|]. intros b. apply C3. rewrite D. set_solver.
Qed.

Definition triple {S A} `{HasLog S} (k : Z) (m : M S A) (k' : Z) : Prop :=
  forall s a s', txs k (the_fs s) -> m s = Ok (a, s') -> txs k' (the_fs s').

Lemma txs_same k s s' : txs k s -> same_tx s s' -> txs k s'.
Proof.
  intros [T1 T2 T3 T4] [S1 S2 S3 S4]. split; [congruence|congruence| |auto].
  intros Hk. rewrite S3 by congruence. auto.
Qed.

(** Only the counters of the log change, and not the entries. *)
Lemma covered_counters s l : lh_n l = lh_n (lg s) -> lh_blocks l = lh_blocks (lg s) -> covered s -> covered (Fss (bs s) l).
Proof. intros E1 E2 [C1 C2 C3]. split; simpl; unfold entries in *; rewrite ?E1, ?E2; done. Qed.

Section triples.
Context {S : Type} `{HasLog S}.

Lemma triple_keeps {A} k (m : M S A) : keeps m -> triple k m k.
Proof. intros Hm s a s' Ht E. eapply txs_same; [exact Ht|by eapply Hm]. Qed.

Lemma triple_bind {A B} k k' k'' (m : M S A) (f : A -> M S B) :
  triple k m k' -> (forall a, triple k' (f a) k'') -> triple k (m ≫= f) k''.
Proof.
  intros Hm Hf s b s'' Ht E. apply bind_Ok_inv in E as (a & s' & E1 & E2).
  eapply Hf; [|exact E2]. by eapply Hm.
Qed.

Lemma triple_get_put {A} k k' (g : S -> S) (f : S -> unit -> M S A) :
  (forall s, the_fs (g s) = the_fs s) -> (forall s u, triple k (f s u) k') ->
  triple k (get ≫= fun s => put (g s) ≫= f s) k'.
Proof.
  intros Hg Hf s a s' Ht E. apply (Hf s tt (g s) a s'); [by rewrite Hg|exact E].
Qed.
End triples.

Lemma begin_loop_txs fuel cur b : forall l l' k,
  txs k (Fss b l) -> 0 <= k -> log_begin_loop fuel cur l = Ok (Admitted_op l') -> txs (k + 1) (Fss b l').
Proof.
  induction fuel as [|fuel IH]; intros l l' k Ht Hk E; simpl in E; [done|]. destruct Ht as [T1 T2 T3 T4].
  destruct (committing l || _).
  - destruct (sem_wait cur (wait_sem l)) as [w|]; [|done]. eapply (IH (set_wait_sem w l)); [|done|exact E].
    split; [done..|]. by apply (covered_counters (Fss b l)).
  - injection E as <-. split; simpl in *; [lia|done|lia|]. by apply (covered_counters (Fss b l)).
Qed.

Lemma begin_txs cur k : 0 <= k -> triple k (log_begin_op cur) (k + 1).
Proof.
  intros Hk [b l] a s' Ht E. unfold log_begin_op in E.
  destruct (log_begin_loop _ _ _) as [[l'|l']| |] eqn:El; try done. injection E as _ <-.
  by eapply begin_loop_txs.
Qed.

Lemma signal_waiter_spec s a s' : signal_waiter s = Ok (a, s') ->
  bs s' = bs s /\ exists w, lg s' = set_wait_sem w (lg s).
Proof.
  unfold signal_waiter. destruct (sem_signal _ _) as [[? w]| |]; intros E; try done. injection E as _ <-. eauto.
Qed.

(** [install_trans] leaves the buffers of the logged blocks clean. *)
Lemma install_loop_cleans s0 : forall n i s a s',
  for_loop n i (fun i =>
    let logb := log_block (lg s0) i in
    data ← lift (buf_read logb);
    datab ← index (lh_blocks (lg s0)) (Z.of_nat i);
    _ ← lift (buf_read datab);
    lift (buf_store datab data);;
    lift (buf_write datab);;
    lift (buf_release logb);;
    lift (buf_release datab)) s = Ok (a, s') ->
  same_tx s s' /\ lg s' = lg s /\ dirty (bs s') ⊆ dirty (bs s) /\
  forall j, (i <= j < i + n)%nat -> exists b, lh_blocks (lg s0) !! j = Some b /\ b ∉ dirty (bs s').
Proof.
  assert (forall b s a s', (lift (buf_read b) : M fss block) s = Ok (a, s') -> same_tx s s' /\ lg s' = lg s /\ dirty (bs s') = dirty (bs s)) as Hr.
  { intros b s a s' E. split; [exact (keeps_buf_read b _ _ _ E)|]. unfold lift, buf_read in E. repeat case_match; try done. by simplify_eq. }
  induction n as [|n IH]; intros i s a s' E; cbn [for_loop] in E.
  { injection E as _ <-. split_and!; [reflexivity|done|done|lia]. }
  apply bind_Ok_inv in E as (? & s1 & E & E'). cbv zeta in E.
  apply bind_Ok_inv in E as (data & t1 & F1 & E). apply Hr in F1 as (S1 & L1 & D1).
  apply bind_Ok_inv in E as (datab & t2 & F2 & E). unfold index in F2. rewrite Nat2Z.id in F2.
  destruct (_ <? 0); [done|]. destruct (_ !! i) as [y|] eqn:Ey; [|done]. injection F2 as -> <-.
  apply bind_Ok_inv in E as (? & t3 & F3 & E). apply Hr in F3 as (S3 & L3 & D3).
  apply bind_Ok_inv in E as (? & t4 & F4 & E). apply bind_Ok_inv in E as (? & t5 & F5 & E).
  destruct (store_write_effect _ _ _ _ _ _ _ F4 F5) as (S5 & L5 & D5).
  apply bind_Ok_inv in E as (? & t6 & F6 & E). pose proof (keeps_buf_release _ _ _ _ F6) as S6. injection F6 as _ <-.
  pose proof (keeps_buf_release _ _ _ _ E) as S7. injection E as _ <-.
  destruct (IH _ _ _ _ E') as (S8 & L8 & D8 & J8). simpl in *.
  split_and!.
  - do 5 (etransitivity; [eassumption|]). exact S8.
  - congruence.
  - set_solver.
  - intros j Hj. destruct (decide (j = i)) as [->|]; [|apply J8; lia]. exists datab. split; [done|]. set_solver.
Qed.

Lemma install_trans_cleans s a s' : covered s -> install_trans s = Ok (a, s') ->
  lg s' = lg s /\ covered s' /\ dirty (bs s') = ∅.
Proof.
  intros C E. unfold install_trans in E. apply bind_Ok_inv in E as (? & ? & E0 & E). injection E0 as <- <-.
  destruct (install_loop_cleans _ _ _ _ _ _ E) as (S & L & D & J). pose proof (st_cov _ _ S C) as C'. split_and!; [done..|].
  apply set_eq. intros b. split; [|set_solver]. intros Hb. pose proof (cov_dirty _ C' _ Hb) as He.
  unfold entries in He. rewrite L in He. apply list_elem_of_lookup in He as [j Hj].
  apply lookup_take_Some in Hj as [Hj Hlt]. destruct (J j ltac:(lia)) as (b' & Hb' & Hn). congruence.
Qed.

(** [commit] empties the log and leaves no buffer dirty. *)
Lemma commit_empties s a s' : covered s -> commit s = Ok (a, s') ->
  outstanding (lg s') = outstanding (lg s) /\ covered s' /\ (outstanding (lg s) = 0 -> lh_n (lg s') = 0).
Proof.
  intros C E. pose proof (cov_pos _ C). unfold commit in E. apply bind_Ok_inv in E as (? & ? & E0 & E). injection E0 as <- <-.
  destruct (Z.ltb_spec 0 (lh_n (lg s))); [|injection E as _ <-; split_and!; [done|done|lia]].
  apply bind_Ok_inv in E as (? & s1 & E1 & E). apply write_log_keeps in E1.
  apply bind_Ok_inv in E as (? & s2 & E2 & E). apply write_head_keeps in E2.
  assert (same_tx s s2) as S2 by (etransitivity; [exact E1|exact E2]).
  apply bind_Ok_inv in E as (? & s3 & E3 & E). apply install_trans_cleans in E3 as (L3 & C3 & D3); [|by apply S2].
  apply bind_Ok_inv in E as (? & s4 & E4 & E). injection E4 as _ <-. apply write_head_keeps in E.
  assert (covered (Fss (bs s3) (set_lh_n 0 (lg s3)))) as C4.
  { split; simpl; [done|rewrite D3; set_solver|]. apply C3. }
  destruct S2 as [O1 _ _ _], E as [O2 _ L2 C5]. unfold the_fs, fss_log in *. simpl in *. split_and!; [congruence|by apply C5|].
  intros Ho. rewrite L2; congruence.
Qed.

Lemma end_txs k : 0 <= k -> triple (k + 1) log_end_op k.
Proof.
  intros Hk s a s' [T1 T2 T3 T4] E. unfold log_end_op in E.
  apply bind_Ok_inv in E as (? & ? & E0 & E). injection E0 as <- <-.
  apply bind_Ok_inv in E as ([] & s1 & E1 & E). destruct (negb _); [|done]. injection E1 as <-.
  apply bind_Ok_inv in E as (c & s1 & E1 & E). unfold end_op_enter in E1.
  apply bind_Ok_inv in E1 as (? & ? & E0 & E1). injection E0 as <- <-. cbv zeta in E1.
  apply bind_Ok_inv in E1 as ([] & s2 & E2 & E1). injection E2 as <-.
  unfold the_fs, fss_log in *. rewrite T1 in E1. replace (k + 1 - 1) with k in E1 by lia.
  destruct (Z.eqb_spec k 0) as [->|Hk0].
  - apply bind_Ok_inv in E1 as ([] & s2 & E2 & E1). injection E2 as <-. injection E1 as <- <-.
    apply bind_Ok_inv in E as (? & s2 & E2 & E).
    apply commit_empties in E2 as (O2 & C2 & L2); [|by apply (covered_counters s)].
    apply bind_Ok_inv in E as ([] & s3 & E3 & E). injection E3 as <-.
    apply signal_waiter_spec in E as (B4 & w & L4). simpl in *. specialize (L2 eq_refl).
    split; [by rewrite L4|by rewrite L4|by rewrite L4|]. destruct s' as [b' l']. simpl in B4, L4. subst b' l'.
    by apply (covered_counters s2).
  - assert (txs k (set_part (set_outstanding k (part s)) s)) as Ht
      by (split; simpl; [done|done|lia|by apply (covered_counters s)]).
    case_bool_decide.
    + apply bind_Ok_inv in E1 as (? & s2 & E2 & E1). injection E1 as <- <-. injection E as _ <-.
      apply signal_waiter_spec in E2 as (B4 & w & L4). destruct Ht as [U1 U2 U3 U4].
      split; [by rewrite L4|by rewrite L4|by rewrite L4|]. destruct s2 as [b' l']. simpl in B4, L4. subst b' l'.
      exact (covered_counters (Fss (bs s) (set_outstanding k (lg s))) (set_wait_sem w (set_outstanding k (lg s))) eq_refl eq_refl U4).
    + injection E1 as <- <-. injection E as _ <-. exact Ht.
Qed.

Lemma triple_logop {A} k k' (m : M fss A) : triple k m k' -> triple k (logop m) k'.
Proof.
  intros Hm s a s' Ht E. unfold logop, lift in E. simpl in E.
  destruct (m _) as [[x t]| |] eqn:Em; try done. injection E as <- <-. exact (Hm _ _ _ Ht Em).
Qed.

(** Follow a call: tests and matches, the transactions it opens and closes, and the
    operations in between. *)
Ltac triple_step :=
  lazymatch goal with
  | |- triple _ (match ?b with _ => _ end) _ => destruct b eqn:?
  | |- triple _ (let _ := _ in _) _ => cbv zeta
  | |- triple _ (get ≫= (fun s => put (@?g s) ≫= (@?f s))) _ =>
      apply (triple_get_put _ _ g f); [intros ?; reflexivity|intros ? ?]
  | |- triple ?k (logop (log_begin_op _) ≫= _) _ =>
      apply (triple_bind k (k + 1)); [apply triple_logop, begin_txs; lia|intros ?]
  | |- triple (?k + 1) (logop log_end_op ≫= _) _ =>
      apply (triple_bind (k + 1) k); [apply triple_logop, end_txs; lia|intros ?]
  | |- triple (?k + 1) (logop log_end_op) _ => apply triple_logop, end_txs; lia
  | |- triple ?k (_ ≫= _) _ =>
      apply (triple_bind k k); [solve [auto with keeps | apply triple_keeps; keeps]|intros ?]
  | |- triple _ _ _ => solve [auto with keeps | apply triple_keeps; keeps]
  end.

Ltac triple := repeat triple_step.

(** *** Open files *)

Lemma get_file_keeps f : keeps (get_file f).
Proof. unfold get_file. keeps. Qed.

Lemma set_file_keeps f x : keeps (set_file f x).
Proof. unfold set_file. keeps. Qed.
#[export] Hint Resolve get_file_keeps set_file_keeps : keeps.

Lemma file_alloc_keeps : keeps file_alloc.
Proof. unfold file_alloc. keeps. Qed.

Lemma file_dup_keeps f : keeps (file_dup f).
Proof. unfold file_dup. keeps. Qed.

Lemma get_pipe_keeps p : keeps (get_pipe p).
Proof. unfold get_pipe. keeps. Qed.

Lemma put_pipe_keeps p rb : keeps (put_pipe p rb).
Proof. unfold put_pipe. keeps. Qed.
#[export] Hint Resolve file_alloc_keeps file_dup_keeps get_pipe_keeps put_pipe_keeps : keeps.

Lemma pipe_close_keeps p w : keeps (pipe_close p w).
Proof. unfold pipe_close. keeps. Qed.

Lemma pipe_read_loop_keeps n : forall p acc, keeps (pipe_read_loop n p acc).
Proof. induction n as [|n IH]; intros; simpl; keeps. Qed.

Lemma pipe_write_loop_keeps src : forall p n, keeps (pipe_write_loop src p n).
Proof. induction src as [|c src IH]; intros; simpl; keeps. Qed.
#[export] Hint Resolve pipe_close_keeps pipe_read_loop_keeps pipe_write_loop_keeps : keeps.

Section files.
Context `{DevicesKeep}.

Lemma file_close_balanced sb f k : 0 <= k -> triple k (file_close sb f) k.
Proof. intros Hk. unfold file_close. triple. Qed.

Lemma file_read_keeps sb f n : keeps (file_read sb f n).
Proof. unfold file_read, pipe_read. keeps. Qed.

Lemma file_write_chunk_balanced sb f src k : 0 <= k -> triple k (file_write_chunk sb f src) k.
Proof. intros Hk. unfold file_write_chunk. triple. Qed.

Lemma file_write_loop_balanced fuel : forall sb f src i n k, 0 <= k -> triple k (file_write_loop fuel sb f src i n) k.
Proof.
  pose proof file_write_chunk_balanced.
  induction fuel as [|fuel IH]; intros; simpl; triple.
Qed.

Lemma file_write_balanced sb f src k : 0 <= k -> triple k (file_write sb f src) k.
Proof. intros Hk. pose proof file_write_loop_balanced. unfold file_write, pipe_write. triple. Qed.

Lemma pipe_alloc_balanced sb kalloc_ok page_ok k : 0 <= k -> triple k (pipe_alloc sb kalloc_ok page_ok) k.
Proof.
  intros Hk. pose proof file_close_balanced. unfold pipe_alloc. cbv zeta.
  triple.
Qed.
End files.
#[export] Hint Resolve file_close_balanced file_write_balanced pipe_alloc_balanced : keeps.
#[export] Hint Resolve file_read_keeps : keeps.
End Balance.
