(* ===== verification/SysFs.v ===== *)
(** The system calls of the file system: src/kernel/syscall/sysfs.c and the checks of
    their arguments, src/kernel/syscall/include/syscall_pri.h.

    A system call takes the registers of the trap frame and the memory of the address
    space it runs in, [mem]; what it stores to user memory is part of its result. *)

From stdpp Require Import base numbers list gmap.
From Stdlib Require Import ZArith Lia.
From S2P Require Import Prelude Semaphore RingBuffer BlockIO Log BAlloc Inode Dir Pathname File Balance.
#[local] Open Scope Z_scope.

Module SysFs.
Import Semaphore BlockIO Log BAlloc Inode Dir Pathname File Balance.

(** The general registers of [struct trap_frame]. *)
Record trap_frame := TrapFrame { eax : Z; ebx : Z; ecx : Z; edx : Z }.

Definition USER_BASE : Z := 0x04048000.

Definition USER_TOP : Z := 0x80000000.

Definition NOFILE : Z := 16.

Definition O_RDONLY : Z := 0.

Definition O_WRONLY : Z := 1.

Definition O_RDWR : Z := 2.

Definition O_CREAT : Z := 64.

Definition O_APPEND : Z := 1024.

(** At most [p] turns of a loop; a turn ends the loop or gives its next state. *)
Fixpoint turns {A B} (p : positive) (body : A -> A + B) (a : A) : A + B :=
  match p with
  | xH => body a
  | xO p =>
      match turns p body a with
      | inl a => turns p body a
      | inr b => inr b
      end
  | xI p =>
      match body a with
      | inl a =>
          match turns p body a with
          | inl a => turns p body a
          | inr b => inr b
          end
      | inr b => inr b
      end
  end.

(** *** Arguments *)

(** [None] is NULL. *)
Definition check_ptr (ptr sz : Z) : option Z :=
  if sz <? 0 then None
  else if (USER_BASE <=? ptr) && (u32 (ptr + sz) <=? USER_TOP) then Some ptr else None.

(** User memory is a function [mem]; a read where it is [None], a page fault in the kernel,
    stops the machine ([exception_handler] of src/kernel/trap.c). *)

(** One turn of [for (; s < end; s++)]; [true]: a NUL was found. *)
Definition check_str_turn (mem : Z -> option Z) (s : Z) : Z + outcome bool :=
  if s <? USER_TOP then
    match mem s with
    | None => inr Panic
    | Some c => if c =? 0 then inr (Ok true) else inl (s + 1)
    end
  else inr (Ok false).

(** The pointer itself when it is not in user space; it may be NULL then. *)
Definition check_str (mem : Z -> option Z) (ptr : Z) : outcome (option Z) :=
  if (ptr <? USER_BASE) || (USER_TOP <=? ptr) then Ok (if ptr =? 0 then None else Some ptr)
  else
    match turns (Z.to_pos USER_TOP) (check_str_turn mem) ptr with
    | inr (Ok true) => Ok (Some ptr)
    | inr (Ok false) => Ok None
    | inr Panic => Panic
    | _ => Hang
    end.

(** The bytes of a C string, as the callees of the system calls see it; [None] when
    there is no NUL up to the end of the address space or the memory before it. *)
Definition string_turn (mem : Z -> option Z) (a : Z * list Z) : Z * list Z + option (list Z) :=
  let (s, acc) := a in
  if s <? 2 ^ 32 then
    match mem s with
    | None => inr None
    | Some c => if c =? 0 then inr (Some (rev acc)) else inl (s + 1, c :: acc)
    end
  else inr None.

Definition string_at {S} (mem : Z -> option Z) (ptr : Z) : M S (list Z) :=
  match turns (2 ^ 32)%positive (string_turn mem) (ptr, []) with
  | inr (Some l) => mret l
  | _ => panic
  end.

Definition bytes_at (mem : Z -> option Z) (ptr n : Z) : option (list Z) := mapM (fun k => mem (u32 (ptr + k))) (seqZ 0 n).

(** *** File descriptors *)

Fixpoint fd_scan (n : nat) (fd : Z) (l : list (option Z)) : option Z :=
  match n, l with
  | S n, o :: l => match o with None => Some fd | Some _ => fd_scan n (fd + 1) l end
  | _, _ => None
  end.

Definition set_ofile (fd : Z) (o : option Z) : M kst unit :=
  modify (fun s => Kst (il s) (ftable s) (pipes s) (next_pipe s) (<[Z.to_nat fd := o]> (ofiles s)) (cwd s) (killed s)).

Definition fd_alloc (f : Z) : M kst Z :=
  s ← get;
  match fd_scan (Z.to_nat NOFILE) 0 (ofiles s) with
  | Some fd => set_ofile fd (Some f);; mret fd
  | None => mret (-1)
  end.

Definition fetch_file (fd : Z) : M kst (option Z) :=
  if (fd <? 0) || (NOFILE <=? fd) then mret None
  else s ← get; index (ofiles s) fd.

(** [log_begin_op(disk->log)] and [log_end_op(disk->log)]. *)
Definition begin_op : M kst unit := s ← get; logop (log_begin_op (curtask (il s))).

Definition end_op : M kst unit := logop log_end_op.

Section calls.
Context `{Devices} (sb : superblock) (mem : Z -> option Z).

(** The labels [success] and [bad] of [create_file]. *)
Definition create_success (dir ip : Z) : M ist (option Z) :=
  inode_unlock ip;;
  inode_unlockput sb dir;;
  mret (Some ip).

Definition create_bad (dir ip : Z) : M ist (option Z) :=
  inode_unlockput sb ip;;
  inode_unlockput sb dir;;
  mret None.

(** [junk1] and [junk2]: what the stack holds where [create_file] and [dir_make] have
    their [struct dirent].  [inode_alloc] does not return NULL. *)
Definition create_file (junk1 junk2 : list Z) (cwd : Z) (path : list Z) (typ : Z) : M ist (option Z) :=
  r ← path_lookup_parent sb cwd path;
  match r with
  | None => mret None
  | Some (dir, name) =>
      if negb (path_valid_name name) then inode_put sb dir;; mret None
      else
        inode_lock sb dir;;
        d ← get_inode dir;
        ASSERT (type (disk_inode d) =? INODE_DIRECTORY);;
        e ← dir_lookup sb dir name;
        match e with
        | Some (ip, _) =>
            inode_lock sb ip;;
            i ← get_inode ip;
            if (type (disk_inode i) =? typ) && (typ =? INODE_FILE) then create_success dir ip
            else create_bad dir ip
        | None =>
            ip ← inode_alloc sb typ;
            inode_lock sb ip;;
            upd_dinode ip (set_nlink 1);;
            upd_dinode ip (set_dsize 0);;
            inode_update sb ip;;
            i ← get_inode ip;
            n ← of_outcome (set_name junk1 name);
            r ← dir_link sb dir (Dirent (inum i) n);
            if r <? 0 then
              upd_dinode ip (set_nlink 0);;
              create_bad dir ip
            else
              (if typ =? INODE_DIRECTORY then dir_make sb junk2 dir ip;; mret tt else mret tt);;
              create_success dir ip
        end
  end.

(** The part of [sys_open] that finds or creates the inode, in the transaction. *)
Definition open_inode (junk1 junk2 path : list Z) (omode : Z) : M kst (option Z) :=
  s ← get;
  if negb (Z.land omode O_CREAT =? 0) then ino (create_file junk1 junk2 (cwd s) path INODE_FILE)
  else
    r ← ino (path_lookup sb (cwd s) path);
    match r with
    | None => mret None
    | Some ip =>
        ino (inode_lock sb ip);;
        i ← ino (get_inode ip);
        if (type (disk_inode i) =? INODE_DIRECTORY) && negb (omode =? O_RDONLY) then
          ino (inode_unlockput sb ip);;
          mret None
        else
          ino (inode_unlock ip);;
          mret (Some ip)
    end.

Definition sys_open (junk1 junk2 : list Z) (tf : trap_frame) : M kst Z :=
  c ← of_outcome (check_str mem (ebx tf));
  match c with
  | None => mret (-1)
  | Some p =>
      path ← string_at mem p;
      let omode := ecx tf in
      begin_op;;
      r ← open_inode junk1 junk2 path omode;
      match r with
      | None => end_op;; mret (-1)
      | Some ip =>
          file ← file_alloc;
          match file with
          | None => ino (inode_put sb ip);; end_op;; mret (-1)
          | Some f =>
              fd ← fd_alloc f;
              if fd <? 0 then
                file_close sb f;;
                ino (inode_put sb ip);;
                end_op;;
                mret (-1)
              else
                end_op;;
                i ← ino (get_inode ip);
                x ← get_file f;
                set_file f (MkFile FD_INODE (refs x)
                  (negb (Z.land omode O_WRONLY =? 0) || negb (Z.land omode O_RDWR =? 0))
                  (Z.land omode O_WRONLY =? 0) ip (fpipe x)
                  (if Z.land omode O_APPEND =? 0 then 0 else dsize (disk_inode i)));;
                mret fd
          end
      end
  end.

Definition sys_close (tf : trap_frame) : M kst Z :=
  let fd := i32 (ebx tf) in
  r ← fetch_file fd;
  match r with
  | None => mret (-1)
  | Some f => set_ofile fd None;; file_close sb f;; mret 0
  end.

Definition sys_dup (tf : trap_frame) : M kst Z :=
  let fd := i32 (ebx tf) in
  r ← fetch_file fd;
  match r with
  | None => mret (-1)
  | Some fp =>
      newfd ← fd_alloc fp;
      if newfd <? 0 then mret (-1)
      else file_dup fp;; mret 0
  end.

Definition sys_mkdir (junk1 junk2 : list Z) (tf : trap_frame) : M kst Z :=
  c ← of_outcome (check_str mem (ebx tf));
  match c with
  | None => mret (-1)
  | Some p =>
      path ← string_at mem p;
      begin_op;;
      s ← get;
      r ← ino (create_file junk1 junk2 (cwd s) path INODE_DIRECTORY);
      match r with
      | Some ip => ino (inode_put sb ip);; end_op;; mret 0
      | None => end_op;; mret (-1)
      end
  end.

(** From the [dir_lookup] of [sys_unlink] on; [false] is the label [bad]. *)
Definition unlink_entry (parent : Z) (name : list Z) : M ist bool :=
  e ← dir_lookup sb parent name;
  match e with
  | None => inode_unlockput sb parent;; mret false
  | Some (ip, offset) =>
      let bad := inode_unlockput sb ip;; inode_unlockput sb parent;; mret false in
      inode_lock sb ip;;
      i ← get_inode ip;
      ASSERT (1 <=? nlink (disk_inode i));;
      full ← (if type (disk_inode i) =? INODE_DIRECTORY then e ← dir_isempty sb ip; mret (negb e) else mret false);
      if full : bool then bad
      else
        r ← dir_unlink sb parent offset;
        if r <? 0 then bad
        else
          i ← get_inode ip;
          (if type (disk_inode i) =? INODE_DIRECTORY then
             upd_dinode parent (fun d => set_nlink (u32 (nlink d - 1)) d);;
             inode_update sb parent
           else mret tt);;
          upd_dinode ip (fun d => set_nlink (u32 (nlink d - 1)) d);;
          inode_update sb ip;;
          inode_unlockput sb ip;;
          inode_unlockput sb parent;;
          mret true
  end.

Definition sys_unlink (tf : trap_frame) : M kst Z :=
  c ← of_outcome (check_str mem (ebx tf));
  match c with
  | None => mret (-1)
  | Some p =>
      path ← string_at mem p;
      begin_op;;
      s ← get;
      r ← ino (path_lookup_parent sb (cwd s) path);
      match r with
      | None => end_op;; mret (-1)
      | Some (parent, name) =>
          if bool_decide (name = [46]) || bool_decide (name = [46; 46]) then end_op;; mret (-1)
          else
            ino (inode_lock sb parent);;
            ok ← ino (unlink_entry parent name);
            end_op;;
            mret (if ok : bool then 0 else -1)
      end
  end.

(** The result and the bytes stored at the pointer. *)
Definition sys_read (tf : trap_frame) : M kst (Z * list Z) :=
  let fd := i32 (ebx tf) in
  let n := i32 (edx tf) in
  match check_ptr (ecx tf) n with
  | None => mret (-1, [])
  | Some ptr =>
      r ← fetch_file fd;
      match r with
      | None => mret (-1, [])
      | Some f => file_read sb f n
      end
  end.

(** The bytes at [ptr] that [file_write] looks at: it starts each transaction at [ptr] again. *)
Definition write_reads (x : file) (n : Z) : Z :=
  match ftype x with FD_INODE => Z.min n max_write | _ => n end.

(** A write with an unmapped byte among those stops the machine, unless it is refused before
    it copies. *)
Definition sys_write (tf : trap_frame) : M kst Z :=
  let fd := i32 (ebx tf) in
  let n := i32 (edx tf) in
  match check_ptr (ecx tf) n with
  | None => mret (-1)
  | Some ptr =>
      r ← fetch_file fd;
      match r with
      | None => mret (-1)
      | Some f =>
          x ← get_file f;
          let data := (fun k => default 0 (mem (u32 (ptr + k)))) <$> seqZ 0 n in
          match bytes_at mem ptr (write_reads x n) with
          | Some _ => file_write sb f data
          | None => r ← file_write sb f data; if r <? 0 then mret r else panic
          end
      end
  end.

(** The result and the descriptors stored in [fds].  [kalloc_ok] and [page_ok]: see
    [pipe_alloc]. *)
Definition sys_pipe (kalloc_ok page_ok : bool) (tf : trap_frame) : M kst (Z * list Z) :=
  match check_ptr (ebx tf) 8 with
  | None => mret (-1, [])
  | Some fds =>
      r ← pipe_alloc sb kalloc_ok page_ok;
      match r with
      | None => mret (-1, [])
      | Some (rfp, wfp) =>
          rfd ← fd_alloc rfp;
          wfd ← (if rfd <? 0 then mret (-1) else fd_alloc wfp);
          if (rfd <? 0) || (wfd <? 0) then
            file_close sb rfp;;
            file_close sb wfp;;
            (if 0 <=? rfd then set_ofile rfd None else mret tt);;
            (if 0 <=? wfd then set_ofile wfd None else mret tt);;
            mret (-1, [])
          else mret (0, [rfd; wfd])
      end
  end.

Definition sizeof_stat : Z := 16.

(** The result and the [struct stat] stored. *)
Definition sys_stat (tf : trap_frame) : M kst (Z * option stat) :=
  c ← of_outcome (check_str mem (ebx tf));
  match c, check_ptr (ecx tf) sizeof_stat with
  | Some p, Some st =>
      path ← string_at mem p;
      s ← get;
      r ← ino (path_lookup sb (cwd s) path);
      match r with
      | None => mret (-1, None)
      | Some ip =>
          ino (inode_lock sb ip);;
          st ← ino (inode_stat ip);
          ino (inode_unlockput sb ip);;
          mret (0, Some st)
      end
  | _, _ => mret (-1, None)
  end.

Definition sys_chdir (tf : trap_frame) : M kst Z :=
  c ← of_outcome (check_str mem (ebx tf));
  match c with
  | None => mret (-1)
  | Some p =>
      path ← string_at mem p;
      begin_op;;
      s ← get;
      r ← ino (path_lookup sb (cwd s) path);
      match r with
      | None => end_op;; mret (-1)
      | Some new_cwd =>
          ino (inode_lock sb new_cwd);;
          i ← ino (get_inode new_cwd);
          if negb (type (disk_inode i) =? INODE_DIRECTORY) then
            ino (inode_unlockput sb new_cwd);;
            end_op;;
            mret (-1)
          else
            prev_cwd ← (s ← get; mret (cwd s));
            c ← ino (inode_dup new_cwd);
            modify (fun s => Kst (il s) (ftable s) (pipes s) (next_pipe s) (ofiles s) c (killed s));;
            ino (inode_unlockput sb new_cwd);;
            ino (inode_put sb prev_cwd);;
            end_op;;
            mret 0
      end
  end.
End calls.

(** *** The table of system calls *)

Section table.
Context `{Devices} (sb : superblock) (mem : Z -> option Z) (junk1 junk2 : list Z) (kalloc_ok page_ok : bool).

(** The entries of [syscalls] that are the file system's, by their numbers in
    src/include/kernel/syscall.h; the result is what [syscall] puts in [eax]. *)
Definition fs_syscalls (nr : Z) (tf : trap_frame) : option (M kst Z) :=
  match nr with
  | 1 => Some (sys_write sb mem tf)
  | 2 => Some (r ← sys_read sb tf; mret (fst r))
  | 3 => Some (sys_open sb mem junk1 junk2 tf)
  | 4 => Some (r ← sys_stat sb mem tf; mret (fst r))
  | 5 => Some (sys_close sb tf)
  | 6 => Some (sys_mkdir sb mem junk1 junk2 tf)
  | 7 => Some (sys_unlink sb mem tf)
  | 14 => Some (sys_chdir sb mem tf)
  | 15 => Some (sys_dup tf)
  | 16 => Some (r ← sys_pipe sb kalloc_ok page_ok tf; mret (fst r))
  | _ => None
  end.
End table.
(** *** Loops of a bounded number of turns *)

Fixpoint turnsN {A B} (n : nat) (body : A -> A + B) (a : A) : A + B :=
  match n with
  | O => inl a
  | S n => match body a with inl a => turnsN n body a | inr b => inr b end
  end.

Lemma turnsN_add {A B} (body : A -> A + B) m n a :
  turnsN (m + n) body a = match turnsN m body a with inl a => turnsN n body a | inr b => inr b end.
Proof. revert a. induction m as [|m IH]; intros a; [done|]. simpl. by destruct (body a). Qed.

Lemma turns_N {A B} (body : A -> A + B) p : forall a, turns p body a = turnsN (Pos.to_nat p) body a.
Proof.
  induction p as [p IH|p IH|]; intros a; simpl turns.
  - rewrite Pos2Nat.inj_xI. cbn [turnsN]. destruct (body a) as [a'|]; [|done].
    replace (2 * Pos.to_nat p)%nat with (Pos.to_nat p + Pos.to_nat p)%nat by lia.
    rewrite turnsN_add, IH. destruct (turnsN _ body a'); [apply IH|done].
  - rewrite Pos2Nat.inj_xO.
    replace (2 * Pos.to_nat p)%nat with (Pos.to_nat p + Pos.to_nat p)%nat by lia.
    rewrite turnsN_add, IH. destruct (turnsN _ body a); [apply IH|done].
  - simpl. by destruct (body a).
Qed.

(** *** The checks of pointers *)

(** The memory from [s] to [e] has no NUL. *)
Definition no_nul (mem : Z -> option Z) (s e : Z) : Prop := forall a, s <= a < e -> exists c, mem a = Some c /\ c <> 0.

Lemma check_str_loop mem n : forall s, s <= USER_TOP -> USER_TOP - s < Z.of_nat n ->
  exists e, s <= e <= USER_TOP /\ no_nul mem s e /\
    ((turnsN n (check_str_turn mem) s = inr (Ok true) /\ e < USER_TOP /\ mem e = Some 0) \/
     (turnsN n (check_str_turn mem) s = inr (Ok false) /\ e = USER_TOP) \/
     (turnsN n (check_str_turn mem) s = inr Panic /\ e < USER_TOP /\ mem e = None)).
Proof.
  induction n as [|n IH]; intros s Hs Hn; [lia|]. cbn [turnsN]. unfold check_str_turn at 1 3 5.
  destruct (Z.ltb_spec s USER_TOP) as [Hlt|Hge].
  2:{ exists s. split; [lia|]. split; [intros a Ha; lia|]. right. left. split; [done|lia]. }
  destruct (mem s) as [c|] eqn:Em.
  2:{ exists s. split; [lia|]. split; [intros a Ha; lia|]. by do 2 right. }
  destruct (Z.eqb_spec c 0) as [->|H0].
  { exists s. split; [lia|]. split; [intros a Ha; lia|]. by left. }
  destruct (IH (s + 1)) as (e & He & Hno & Hcase); [lia|lia|]. exists e. split; [lia|]. split; [|done].
  intros a Ha. destruct (decide (a = s)) as [->|]; [by exists c|]. apply Hno. lia.
Qed.

Lemma check_str_user mem ptr : USER_BASE <= ptr < USER_TOP ->
  exists e, ptr <= e <= USER_TOP /\ no_nul mem ptr e /\
    ((check_str mem ptr = Ok (Some ptr) /\ e < USER_TOP /\ mem e = Some 0) \/
     (check_str mem ptr = Ok None /\ e = USER_TOP) \/
     (check_str mem ptr = Panic /\ e < USER_TOP /\ mem e = None)).
Proof.
  intros Hp. unfold check_str. rewrite (proj2 (Z.ltb_ge _ _)), (proj2 (Z.leb_gt _ _)) by lia.
  change (false || false) with false. cbv iota. rewrite turns_N.
  assert (USER_TOP - ptr < Z.of_nat (Pos.to_nat (Z.to_pos USER_TOP))) as Hn
    by (rewrite positive_nat_Z, Z2Pos.id; unfold USER_BASE, USER_TOP in *; lia).
  revert Hn. generalize (Pos.to_nat (Z.to_pos USER_TOP)). intros n Hn.
  destruct (check_str_loop mem n ptr) as (e & He & Hno & Hcase); [lia|done|]. exists e. split; [done|]. split; [done|].
  destruct Hcase as [[-> Hx]|[[-> Hx]|[-> Hx]]]; [by left|by right; left|by do 2 right].
Qed.

(** what the checks of system call arguments let through.  A buffer of [sz] bytes
    inside user space passes [check_ptr], and a buffer that passes is inside user space
    unless its end lies beyond 4 GiB, where the sum wraps around; [check_str] of a string in user
    space reads it up to its first NUL and accepts it, refuses it when there is none in user space,
    and stops the machine at the first byte that is not mapped. *)
Theorem check_args_correct mem ptr sz :
  is_u32 ptr -> is_i32 sz ->
  (check_ptr ptr sz = Some ptr <->
     0 <= sz /\ USER_BASE <= ptr /\ (ptr + sz <= USER_TOP \/ 2 ^ 32 <= ptr + sz)) /\
  (USER_BASE <= ptr < USER_TOP ->
   exists e, ptr <= e <= USER_TOP /\ no_nul mem ptr e /\
     ((check_str mem ptr = Ok (Some ptr) /\ e < USER_TOP /\ mem e = Some 0) \/
      (check_str mem ptr = Ok None /\ e = USER_TOP) \/
      (check_str mem ptr = Panic /\ e < USER_TOP /\ mem e = None))).
Proof.
  intros Hp Hs. split; [|apply check_str_user].
  unfold check_ptr. destruct (Z.ltb_spec sz 0); [split; [done|lia]|].
  destruct (Z.leb_spec USER_BASE ptr); simpl; [|split; [done|lia]].
  destruct (Z.leb_spec (u32 (ptr + sz)) USER_TOP) as [Hle|Hle]; unfold USER_TOP in *.
  - split; [intros _|done]. split_and!; [done|done|]. ulia.
  - split; [done|]. ulia.
Qed.

(** the checks accept pointers into the kernel.  A string pointer outside of user
    space, where the kernel is, passes [check_str] whatever the memory holds, and a
    buffer that starts in the kernel passes [check_ptr] when it is long enough to reach
    the end of the address space. *)
Theorem check_args_kernel mem ptr sz :
  USER_TOP <= ptr < 2 ^ 32 -> 2 ^ 32 - ptr <= sz < 2 ^ 31 ->
  check_str mem ptr = Ok (Some ptr) /\ check_ptr ptr sz = Some ptr.
Proof.
  intros Hp Hs. unfold USER_TOP in *. split.
  - unfold check_str. rewrite (proj2 (Z.leb_le _ _)) by (unfold USER_TOP; lia).
    rewrite orb_true_r. by rewrite (proj2 (Z.eqb_neq _ _)) by lia.
  - unfold check_ptr. rewrite (proj2 (Z.ltb_ge _ _)) by lia.
    rewrite (proj2 (Z.leb_le _ _)) by (unfold USER_BASE; lia).
    rewrite (proj2 (Z.leb_le _ _)); [done|]. unfold USER_TOP. ulia.
Qed.

Lemma check_args_kernel_witness :
  check_str (fun _ => None) 0x80030000 = Ok (Some 0x80030000) /\ check_ptr 0x90000000 0x70000000 = Some 0x90000000.
Proof.
  split; [apply (check_args_kernel (fun _ => None) 0x80030000 0x7FFD0000); unfold USER_TOP; lia|].
  apply (check_args_kernel (fun _ => None) 0x90000000 0x70000000); unfold USER_TOP; lia.
Defined.

Lemma check_args_correct_witness : check_ptr 0x04048000 16 = Some 0x04048000 /\
  check_str (fun _ => Some 0) 0x7FFFFFFF = Ok (Some 0x7FFFFFFF).
Proof.
  destruct (check_args_correct (fun _ => Some 0) 0x04048000 16) as [H1 _]; [ulia|ulia|].
  destruct (check_args_correct (fun _ => Some 0) 0x7FFFFFFF 16) as [_ H2]; [ulia|ulia|].
  split; [apply H1; unfold USER_BASE, USER_TOP; lia|].
  destruct H2 as (e & He & Hno & Hcase); [unfold USER_BASE, USER_TOP; lia|].
  destruct Hcase as [[E _]|[[_ ->]|[_ [_ E]]]]; [exact E| |discriminate].
  destruct (Hno 0x7FFFFFFF) as (c & [= <-] & Hc); [unfold USER_TOP; lia|done].
Defined.
(** *** Transactions *)

Section balanced.
Context `{DevicesKeep} (sb : superblock) (mem : Z -> option Z).

Lemma string_at_keeps {S} `{HasLog S} p : keeps (string_at (S := S) mem p).
Proof. unfold string_at. generalize (turns (2 ^ 32)%positive (string_turn mem) (p, [])). intros r. keeps. Qed.

Lemma set_ofile_keeps fd o : keeps (set_ofile fd o).
Proof. unfold set_ofile. keeps. Qed.

Lemma fetch_file_keeps fd : keeps (fetch_file fd).
Proof. unfold fetch_file. keeps. Qed.

Lemma fd_alloc_keeps f : keeps (fd_alloc f).
Proof. pose proof set_ofile_keeps. unfold fd_alloc. keeps. Qed.

Lemma create_file_keeps junk1 junk2 cwd path typ : keeps (create_file sb junk1 junk2 cwd path typ).
Proof. unfold create_file, create_success, create_bad. keeps. Qed.

Lemma unlink_entry_keeps parent name : keeps (unlink_entry sb parent name).
Proof. unfold unlink_entry. keeps. Qed.

Lemma open_inode_keeps junk1 junk2 path omode : keeps (open_inode sb junk1 junk2 path omode).
Proof. pose proof create_file_keeps. unfold open_inode. keeps. Qed.

Lemma begin_op_txs k : 0 <= k -> triple k begin_op (k + 1).
Proof. intros Hk. unfold begin_op. apply (triple_bind k k); [apply triple_keeps; keeps|]. intros s. apply triple_logop. by apply begin_txs. Qed.

Lemma end_op_txs k : 0 <= k -> triple (k + 1) end_op k.
Proof. intros Hk. by apply triple_logop, end_txs. Qed.
End balanced.

#[export] Hint Resolve string_at_keeps set_ofile_keeps fetch_file_keeps fd_alloc_keeps create_file_keeps
  unlink_entry_keeps open_inode_keeps : keeps.

(** As [triple], with the transactions of the system calls. *)
Ltac call_step :=
  lazymatch goal with
  | |- triple ?k (begin_op ≫= _) _ => apply (triple_bind k (k + 1)); [apply begin_op_txs; lia|intros ?]
  | |- triple (?k + 1) (end_op ≫= _) _ => apply (triple_bind (k + 1) k); [apply end_op_txs; lia|intros ?]
  | |- triple ?k (file_close _ _ ≫= _) _ => apply (triple_bind k k); [apply file_close_balanced; lia|intros ?]
  | |- _ => triple_step
  end.

Section table_balanced.
Context `{DevicesKeep} (sb : superblock) (mem : Z -> option Z) (junk1 junk2 : list Z) (kalloc_ok page_ok : bool).

Lemma sys_open_balanced tf k : 0 <= k -> triple k (sys_open sb mem junk1 junk2 tf) k.
Proof. intros Hk. unfold sys_open. repeat call_step. Qed.

Lemma sys_close_balanced tf k : 0 <= k -> triple k (sys_close sb tf) k.
Proof. intros Hk. unfold sys_close. repeat call_step. Qed.

Lemma sys_dup_balanced tf k : 0 <= k -> triple k (sys_dup tf) k.
Proof. intros Hk. unfold sys_dup. repeat call_step. Qed.

Lemma sys_mkdir_balanced tf k : 0 <= k -> triple k (sys_mkdir sb mem junk1 junk2 tf) k.
Proof. intros Hk. unfold sys_mkdir. repeat call_step. Qed.

Lemma sys_unlink_balanced tf k : 0 <= k -> triple k (sys_unlink sb mem tf) k.
Proof. intros Hk. unfold sys_unlink. repeat call_step. Qed.

Lemma sys_read_balanced tf k : 0 <= k -> triple k (sys_read sb tf) k.
Proof. intros Hk. unfold sys_read. repeat call_step. Qed.

Lemma sys_write_balanced tf k : 0 <= k -> triple k (sys_write sb mem tf) k.
Proof. intros Hk. unfold sys_write. repeat call_step. Qed.

Lemma sys_pipe_balanced tf k : 0 <= k -> triple k (sys_pipe sb kalloc_ok page_ok tf) k.
Proof. intros Hk. unfold sys_pipe. repeat call_step. Qed.

Lemma sys_stat_balanced tf k : 0 <= k -> triple k (sys_stat sb mem tf) k.
Proof. intros Hk. unfold sys_stat. repeat call_step. Qed.

Lemma sys_chdir_balanced tf k : 0 <= k -> triple k (sys_chdir sb mem tf) k.
Proof. intros Hk. unfold sys_chdir. repeat call_step. Qed.
#[local] Hint Resolve sys_open_balanced sys_close_balanced sys_dup_balanced sys_mkdir_balanced sys_unlink_balanced
  sys_read_balanced sys_write_balanced sys_pipe_balanced sys_stat_balanced sys_chdir_balanced : keeps.

Lemma fs_syscalls_txs nr tf call k :
  fs_syscalls sb mem junk1 junk2 kalloc_ok page_ok nr tf = Some call -> 0 <= k -> triple k call k.
Proof.
  intros E Hk. unfold fs_syscalls in E.
  repeat match type of E with context [match ?x with _ => _ end] => destruct x; try discriminate E end;
    injection E as <-; repeat call_step.
Qed.

(** C6: every system call of the file system closes the transactions it opens, on every
    path through it, errors included, and changes the file system only through the log.
    Called with [k] transactions open by other tasks it returns with those [k] open; a
    dirty buffer is then still in the log, and a buffer that is not dirty is as the drive.
    When it was the only one ([k] = 0) the transaction has been committed and installed: the
    log is empty, no buffer is dirty, and every block of the drive holds what the buffer
    cache shows for it.  The statement is about calls that return: one that waits, or that
    stops the machine, has no result. *)
Theorem fs_syscalls_balanced nr tf call k s r s' :
  fs_syscalls sb mem junk1 junk2 kalloc_ok page_ok nr tf = Some call ->
  0 <= k -> txs k (the_fs s) -> call s = Ok (r, s') ->
  txs k (the_fs s') /\
  (k = 0 -> lh_n (lg (the_fs s')) = 0 /\ dirty (bs (the_fs s')) = ∅ /\
     forall b, dread (disk (bs (the_fs s'))) b = view (bs (the_fs s')) b).
Proof.
  intros E Hk Ht Ec. pose proof (fs_syscalls_txs nr tf call k E Hk s r s' Ht Ec) as Ht'. split; [done|].
  intros ->. destruct (txs_idle _ Ht') as (L & D & V). done.
Qed.
End table_balanced.
#[local] Existing Instance no_devices.

#[local] Instance no_devices_keep : DevicesKeep.
Proof. by split. Qed.

Definition demo_task : kst :=
  Kst (il demo_kst) (ftable demo_kst) ∅ 0 (Some 0 :: replicate 15 None) 0 false.

Lemma fs_syscalls_balanced_witness :
  exists s', sys_write demo_sb (fun _ => Some 65) (TrapFrame 1 0 USER_BASE 3) demo_task = Ok (0, s') /\
    dirty (bs (the_fs s')) = ∅ /\ forall b, dread (disk (bs (the_fs s'))) b = view (bs (the_fs s')) b.
Proof.
  assert (exists s', sys_write demo_sb (fun _ => Some 65) (TrapFrame 1 0 USER_BASE 3) demo_task = Ok (0, s')) as [s' E]
    by (eexists; vm_compute; reflexivity).
  exists s'. split; [exact E|].
  destruct (fs_syscalls_balanced demo_sb (fun _ => Some 65) [] [] true true 1 (TrapFrame 1 0 USER_BASE 3)
    (sys_write demo_sb (fun _ => Some 65) (TrapFrame 1 0 USER_BASE 3)) 0 demo_task 0 s') as [_ H0];
    [reflexivity|lia| |exact E|by apply H0].
  split; [done|done|done|]. by apply covered_mount.
Defined.

(** *** File descriptors *)

Lemma fd_scan_spec n : forall l fd,
  match fd_scan n fd l with
  | Some r => exists k, r = fd + Z.of_nat k /\ (k < n)%nat /\ l !! k = Some None /\
      forall j, (j < k)%nat -> l !! j <> Some None
  | None => forall k, (k < n)%nat -> l !! k <> Some None
  end.
Proof.
  induction n as [|n IH]; intros l fd; simpl; [lia|]. destruct l as [|[f|] l]; [done| |].
  - specialize (IH l (fd + 1)). destruct (fd_scan n (fd + 1) l) as [r|].
    + destruct IH as (k & -> & Hk & H1 & H2). exists (S k). split_and!; [lia|lia|done|].
      intros [|j] Hj; [done|]. apply H2. lia.
    + intros [|k] Hk; [done|]. apply IH. lia.
  - exists 0%nat. split_and!; [lia|lia|done|lia].
Qed.

Lemma fetch_file_Ok fd o s : 0 <= fd < NOFILE -> ofiles s !! Z.to_nat fd = Some o -> fetch_file fd s = Ok (o, s).
Proof.
  intros Hfd Ho. unfold fetch_file. rewrite (proj2 (Z.ltb_ge _ _)), (proj2 (Z.leb_gt _ _)) by lia. simpl.
  rewrite (bind_Ok _ _ _ s s) by done. unfold index. rewrite (proj2 (Z.ltb_ge _ _)) by lia. by rewrite Ho.
Qed.

(** [sys_dup] gives the file of a descriptor a second one, the lowest that is free,
    and closing that one again brings back the state before: the two share one entry of
    the file table, which counts both.  Without a free descriptor it fails and changes
    nothing.  The new descriptor is not returned: the result is 0. *)
Theorem sys_dup_close `{Devices} sb tf s fd f x :
  i32 (ebx tf) = fd -> 0 <= fd < NOFILE -> length (ofiles s) = Z.to_nat NOFILE ->
  ofiles s !! Z.to_nat fd = Some (Some f) -> 0 <= f -> ftable s !! Z.to_nat f = Some x -> 1 <= refs x < 2 ^ 32 - 1 ->
  (exists nfd s1, 0 <= nfd < NOFILE /\ ofiles s !! Z.to_nat nfd = Some None /\
     (forall j, (j < Z.to_nat nfd)%nat -> ofiles s !! j <> Some None) /\
     sys_dup tf s = Ok (0, s1) /\
     ofiles s1 = <[Z.to_nat nfd := Some f]> (ofiles s) /\
     ftable s1 = <[Z.to_nat f := set_refs (refs x + 1) x]> (ftable s) /\
     forall tf', ebx tf' = nfd -> sys_close sb tf' s1 = Ok (0, s)) \/
  ((forall j, ofiles s !! j <> Some None) /\ sys_dup tf s = Ok (-1, s)).
Proof.
  intros Hfd Hr Hlen Hf H0 Hx Hrefs. unfold sys_dup. rewrite Hfd.
  rewrite (bind_Ok _ _ _ _ _ (fetch_file_Ok _ _ _ Hr Hf)). unfold fd_alloc at 1 2.
  pose proof (fd_scan_spec (Z.to_nat NOFILE) (ofiles s) 0) as Hs.
  destruct (fd_scan (Z.to_nat NOFILE) 0 (ofiles s)) as [nfd|] eqn:Es.
  - left. destruct Hs as (k & Hk & Hk1 & Hk2 & Hk3). rewrite Z.add_0_l in Hk.
    assert (Z.to_nat nfd = k) as Hn by lia.
    set (s1 := set_ftable (<[Z.to_nat f := set_refs (refs x + 1) x]> (ftable s))
      (Kst (il s) (ftable s) (pipes s) (next_pipe s) (<[k := Some f]> (ofiles s)) (cwd s) (killed s))).
    exists nfd, s1. rewrite Hn. split_and!; [unfold NOFILE in *; lia|unfold NOFILE in *; lia|done|done| |done|done|].
    + erewrite bind_Ok; [|unfold get, mbind, M_bind; rewrite Es; reflexivity].
      rewrite (proj2 (Z.ltb_ge _ _)) by lia. rewrite Hn.
      erewrite bind_Ok; [reflexivity|]. unfold file_dup.
      erewrite bind_Ok; [|apply get_file_Ok; [done|exact Hx]].
      erewrite bind_Ok; [|apply ASSERT_true, Z.leb_le; lia]. rewrite u32_small by ulia. reflexivity.
    + intros tf' Htf. unfold sys_close. rewrite Htf. rewrite i32_small by (unfold NOFILE in *; ulia).
      assert (ofiles s1 !! Z.to_nat nfd = Some (Some f)) as Ho1
        by (rewrite Hn; apply list_lookup_insert_eq; by eapply lookup_lt_Some).
      erewrite bind_Ok; [|apply fetch_file_Ok; [unfold NOFILE in *; lia|exact Ho1]].
      cbv iota. erewrite bind_Ok; [|reflexivity]. rewrite Hn.
      erewrite bind_Ok; [reflexivity|]. unfold file_close.
      erewrite bind_Ok; [|apply (get_file_Ok _ _ (set_refs (refs x + 1) x)); [done|]].
      2: { apply list_lookup_insert_eq. by eapply lookup_lt_Some. }
      erewrite bind_Ok; [|apply ASSERT_true, Z.leb_le; simpl; lia].
      erewrite bind_Ok; [|reflexivity].
      change (refs (set_refs (refs x + 1) x)) with (refs x + 1). rewrite (proj2 (Z.ltb_lt 0 (refs x + 1 - 1))) by lia.
      unfold s1, set_ftable, mret, M_ret. simpl. rewrite !list_insert_insert_eq.
      replace (refs x + 1 - 1) with (refs x) by lia.
      rewrite !list_insert_id; [by destruct s|done|]. rewrite Hx. by destruct x.
  - right. split.
    + intros j Hj. apply (Hs j); [|done]. apply lookup_lt_Some in Hj. lia.
    + erewrite bind_Ok; [|unfold get, mbind, M_bind; rewrite Es; reflexivity]. done.
Qed.

Lemma sys_dup_close_witness :
  exists s1, sys_dup (TrapFrame 15 0 0 0) demo_task = Ok (0, s1) /\ ofiles s1 !! 1%nat = Some (Some 0) /\
    sys_close demo_sb (TrapFrame 5 1 0 0) s1 = Ok (0, demo_task).
Proof.
  destruct (sys_dup_close demo_sb (TrapFrame 15 0 0 0) demo_task 0 0 demo_file)
    as [(nfd & s1 & R & H1 & H2 & H3 & H4 & _ & H5)|[H _]];
    [reflexivity|unfold NOFILE; lia|reflexivity|reflexivity|lia|reflexivity|simpl; lia| |].
  - exists s1. assert (nfd = 1) as ->.
    { destruct (decide (nfd = 0)) as [->|]; [discriminate H1|]. destruct (decide (nfd = 1)) as [->|]; [done|].
      exfalso. apply (H2 1%nat); [lia|reflexivity]. }
    split; [exact H3|]. split; [rewrite H4; reflexivity|by apply H5].
  - exfalso. by apply (H 1%nat).
Defined.
End SysFs.
