(* ===== verification/Sched.v ===== *)
(** The scheduler: src/kernel/sched/sched.c, the two policies of src/kernel/sched/rr
    and src/kernel/sched/linux0.11, and the [struct schedular] that is the interface
    between them.

    A task is its index in [task_table].  The ready queue is the sequence of the tasks
    in its list, from the head to the tail (KList.v shows what the list operations do
    to that sequence); a task's [ready_queue_node] is linked when the task is in it. *)

From stdpp Require Import base numbers list gmap.
From Stdlib Require Import ZArith Lia.
From S2P Require Import Prelude.
#[local] Open Scope Z_scope.

Module Sched.

Definition NTASK : Z := 128.

(** [enum task_status]. *)
Inductive task_status :=
| TASK_UNUSED | TASK_ALLOCATED | TASK_READY | TASK_RUNNING | TASK_BLOCKED | TASK_WAITING | TASK_ZOMBIE.

#[global] Instance task_status_eq_dec : EqDecision task_status.
Proof. solve_decision. Defined.

(** [task->vm]: NULL, the kernel's, or one of its own. *)
Inductive vm_ref := VmNull | VmKernel | VmUser (vm : Z).

#[global] Instance vm_ref_eq_dec : EqDecision vm_ref.
Proof. solve_decision. Defined.

(** [struct task_struct], without the registers saved on the kernel stack. *)
Record task_struct := MkTask {
  pid : Z;
  name : list Z;
  state : task_status;
  time_slice : Z;
  priority : Z;
  kstack_ptr : option Z;
  vm : vm_ref;
  parent : option Z;
  killed : bool;
  exit_status : Z;
  t_ofiles : list (option Z);
  t_cwd : option Z;
}.

(** The task table, the ready queue and the variables of src/kernel/task.c. *)
Record tst := Tst {
  task_table : list task_struct;
  rq_list : list Z;
  running_task_cnt : Z;
  current_task : Z;
  idle_task : Z;
  init_proc : option Z;
  next_pid : Z;
}.

Definition set_table (l : list task_struct) (s : tst) : tst :=
  Tst l (rq_list s) (running_task_cnt s) (current_task s) (idle_task s) (init_proc s) (next_pid s).

Definition set_rq (l : list Z) (s : tst) : tst :=
  Tst (task_table s) l (running_task_cnt s) (current_task s) (idle_task s) (init_proc s) (next_pid s).

Definition set_cnt (n : Z) (s : tst) : tst :=
  Tst (task_table s) (rq_list s) n (current_task s) (idle_task s) (init_proc s) (next_pid s).

Definition set_current (t : Z) (s : tst) : tst :=
  Tst (task_table s) (rq_list s) (running_task_cnt s) t (idle_task s) (init_proc s) (next_pid s).

Definition set_state (x : task_status) (t : task_struct) : task_struct :=
  MkTask (pid t) (name t) x (time_slice t) (priority t) (kstack_ptr t) (vm t) (parent t) (killed t)
    (exit_status t) (t_ofiles t) (t_cwd t).

Definition set_time_slice (n : Z) (t : task_struct) : task_struct :=
  MkTask (pid t) (name t) (state t) n (priority t) (kstack_ptr t) (vm t) (parent t) (killed t)
    (exit_status t) (t_ofiles t) (t_cwd t).

Definition get_task (t : Z) : M tst task_struct := s ← get; index (task_table s) t.

Definition set_task (t : Z) (x : task_struct) : M tst unit :=
  modify (fun s => set_table (<[Z.to_nat t := x]> (task_table s)) s).

Definition upd_task (t : Z) (f : task_struct -> task_struct) : M tst unit :=
  x ← get_task t; set_task t (f x).

(** [is_unlinked_node(&task->ready_queue_node)]. *)
Definition unlinked (t : Z) (s : tst) : bool := bool_decide (t ∉ rq_list s).

(** [struct schedular]: the functions of a policy. *)
Class Schedular := {
  enqueue : Z -> M tst unit;
  dequeue : Z -> M tst unit;
  pick_task : M tst Z;
  slice_check : Z -> M tst bool;
  get_running_task_cnt : M tst Z;
}.

(** *** src/kernel/sched/rr/round_robin.c *)

(** [list_unlinked] of a linked node. *)
Definition rq_remove (t : Z) (l : list Z) : list Z := filter (fun x => x <> t) l.

Definition rr_timeslice_check (t : Z) : M tst bool :=
  x ← get_task t;
  if negb (time_slice x =? 0) then set_task t (set_time_slice (time_slice x - 1) x);; mret false
  else mret true.

(** [list_push] links at the tail. *)
Definition rr_rq_enqueue (t : Z) : M tst unit :=
  s ← get;
  ASSERT (unlinked t s && negb (t =? idle_task s));;
  put (set_rq (rq_list s ++ [t]) s);;
  x ← get_task t;
  (if time_slice x =? 0 then set_task t (set_time_slice (priority x) x) else mret tt);;
  s ← get;
  put (set_cnt (running_task_cnt s + 1) s).

Definition rr_rq_dequeue (t : Z) : M tst unit :=
  s ← get;
  ASSERT (negb (unlinked t s));;
  put (set_cnt (running_task_cnt s - 1) (set_rq (rq_remove t (rq_list s)) s)).

(** [list_poll] takes the node at the tail. *)
Definition rr_pick_task : M tst Z :=
  s ← get;
  match last (rq_list s) with
  | Some t => put (set_rq (removelast (rq_list s)) s);; mret t
  | None =>
      upd_task (idle_task s) (fun x => set_time_slice (priority x) x);;
      mret (idle_task s)
  end.

Definition rq_running_task_cnt : M tst Z := s ← get; mret (u32 (running_task_cnt s)).

Definition round_robin : Schedular := {|
  enqueue := rr_rq_enqueue;
  dequeue := rr_rq_dequeue;
  pick_task := rr_pick_task;
  slice_check := rr_timeslice_check;
  get_running_task_cnt := rq_running_task_cnt;
|}.

(** *** src/kernel/sched/linux0.11/linux0.11.c *)

(** [list_offer] links at the head. *)
Definition rq_enqueue (t : Z) : M tst unit :=
  s ← get;
  ASSERT (unlinked t s && negb (t =? idle_task s));;
  put (set_cnt (running_task_cnt s + 1) (set_rq (t :: rq_list s) s)).

Definition rq_dequeue (t : Z) : M tst unit :=
  s ← get;
  ASSERT (negb (unlinked t s));;
  put (set_cnt (running_task_cnt s - 1) (set_rq (rq_remove t (rq_list s)) s)).

Definition sched_timeslice_check (t : Z) : M tst bool :=
  x ← get_task t;
  if negb (time_slice x =? 0) then set_task t (set_time_slice (time_slice x - 1) x);; mret false
  else mret true.

(** The [LIST_FOREACH] of [pick_task]: [maxts] and [next] at its end. *)
Fixpoint max_slice (l : list Z) (maxts : Z) (next : option Z) : M tst (option Z) :=
  match l with
  | [] => mret next
  | t :: l =>
      x ← get_task t;
      if maxts <? time_slice x then max_slice l (time_slice x) (Some t)
      else max_slice l maxts next
  end.

(** [for (t = FIRST_TASK; t <= LAST_TASK; t++)]: every task that is in use gets a new
    time slice. *)
Definition refill_one (idle i : Z) (x : task_struct) : task_struct :=
  if bool_decide (state x <> TASK_UNUSED) && negb (i =? idle)
  then set_time_slice (u32 (priority x + Z.shiftr (time_slice x) 1)) x else x.

Definition refill : M tst unit :=
  modify (fun s => set_table (imap (fun k x => refill_one (idle_task s) (Z.of_nat k) x) (task_table s)) s).

(** The [while (1)] of [pick_task]. *)
Fixpoint pick_loop (fuel : nat) : M tst Z :=
  match fuel with
  | O => hang
  | S fuel =>
      s ← get;
      next ← max_slice (rq_list s) 0 None;
      match next with
      | Some t => put (set_rq (rq_remove t (rq_list s)) s);; mret t
      | None => refill;; pick_loop fuel
      end
  end.

Definition linux_pick_task (fuel : nat) : M tst Z :=
  s ← get;
  match rq_list s with
  | [] =>
      upd_task (idle_task s) (fun x => set_time_slice (priority x) x);;
      mret (idle_task s)
  | _ => pick_loop fuel
  end.

(** Two turns are enough when a ready task has a priority (see [linux_pick_max]). *)
Definition linux011 : Schedular := {|
  enqueue := rq_enqueue;
  dequeue := rq_dequeue;
  pick_task := linux_pick_task 2;
  slice_check := sched_timeslice_check;
  get_running_task_cnt := rq_running_task_cnt;
|}.

(** *** src/kernel/sched/sched.c *)

Section sched.
Context `{Schedular}.

Definition sched_enqueue (t : Z) : M tst unit := enqueue t.

Definition sched_dequeue (t : Z) : M tst unit := dequeue t.

(** [schedule] up to the [context_switch]: the previous task is out of the CPU and the
    next one is the current task. *)
Definition schedule : M tst unit :=
  s ← get;
  let prev := current_task s in
  x ← get_task prev;
  (if prev =? idle_task s then set_task prev (set_state TASK_BLOCKED x)
   else if bool_decide (state x = TASK_RUNNING) then
     set_task prev (set_state TASK_READY x);;
     sched_enqueue prev
   else mret tt);;
  next ← pick_task;
  upd_task next (set_state TASK_RUNNING);;
  modify (set_current next).

Definition timeslice_check : M tst unit :=
  s ← get;
  b ← slice_check (current_task s);
  if b : bool then schedule else mret tt.
End sched.
(** ** What a policy promises *)

Definition task_at (s : tst) (t : Z) : option task_struct :=
  if t <? 0 then None else task_table s !! Z.to_nat t.

(** A task that can be in the ready queue. *)
Definition runnable (x : task_struct) : Prop :=
  state x <> TASK_UNUSED /\ 0 < priority x < 2 ^ 32 /\ 0 <= time_slice x.

Record queue_ok (s : tst) : Prop := {
  q_nodup : NoDup (rq_list s);
  q_idle : idle_task s ∉ rq_list s;
  q_idle_at : is_Some (task_at s (idle_task s));
  q_tasks : forall t, t ∈ rq_list s -> exists x, task_at s t = Some x /\ runnable x;
}.

(** A policy changes nothing of a task but its time slice. *)
Definition same_task (x y : task_struct) : Prop :=
  y = set_time_slice (time_slice y) x /\ (0 <= time_slice x -> 0 <= priority x -> 0 <= time_slice y).

Record frame (s s' : tst) : Prop := {
  f_current : current_task s' = current_task s;
  f_idle : idle_task s' = idle_task s;
  f_init : init_proc s' = init_proc s;
  f_pid : next_pid s' = next_pid s;
  f_len : length (task_table s') = length (task_table s);
  f_tasks : forall t x, task_at s t = Some x -> exists y, task_at s' t = Some y /\ same_task x y;
}.

Class SchedularLaws `{Schedular} : Prop := {
  enqueue_law : forall s t, queue_ok s -> t ∉ rq_list s -> t <> idle_task s -> is_Some (task_at s t) ->
    exists s', enqueue t s = Ok (tt, s') /\ frame s s' /\ rq_list s' ≡ₚ t :: rq_list s;
  enqueue_idle_law : forall s, enqueue (idle_task s) s = Panic;
  pick_idle_law : forall s, queue_ok s -> rq_list s = [] ->
    exists s', pick_task s = Ok (idle_task s, s') /\ frame s s' /\ rq_list s' = [];
  pick_law : forall s, queue_ok s -> rq_list s <> [] ->
    exists t s', pick_task s = Ok (t, s') /\ frame s s' /\ rq_list s ≡ₚ t :: rq_list s';
  slice_law : forall s t x, task_at s t = Some x -> 0 <= time_slice x ->
    exists b s', slice_check t s = Ok (b, s') /\ frame s s' /\ rq_list s' = rq_list s;
}.

(** *** Lemmas *)

Lemma task_at_get s t x : task_at s t = Some x -> get_task t s = Ok (x, s).
Proof.
  unfold task_at. destruct (Z.ltb_spec t 0) as [|Ht]; [done|]. intros E. unfold get_task.
  rewrite (bind_Ok _ _ _ s s) by done. unfold index. rewrite (proj2 (Z.ltb_ge _ _)) by done. by rewrite E.
Qed.

Lemma task_at_nonneg s t x : task_at s t = Some x -> 0 <= t /\ task_table s !! Z.to_nat t = Some x.
Proof. unfold task_at. by destruct (Z.ltb_spec t 0). Qed.

Lemma task_at_insert s t t' x y :
  task_at s t = Some x -> 0 <= t' ->
  task_at (set_table (<[Z.to_nat t := y]> (task_table s)) s) t' = if decide (t = t') then Some y else task_at s t'.
Proof.
  intros E Ht'. apply task_at_nonneg in E as [Ht E]. unfold task_at. simpl.
  rewrite (proj2 (Z.ltb_ge t' 0)) by done. case_decide as D.
  - subst. apply list_lookup_insert_eq. by eapply lookup_lt_Some.
  - apply list_lookup_insert_ne. lia.
Qed.

Lemma same_task_refl x : same_task x x.
Proof. split; [by destruct x|done]. Qed.

Lemma same_task_trans x y z : same_task x y -> same_task y z -> same_task x z.
Proof.
  intros [E1 H1] [E2 H2]. split; [by rewrite E2, E1|]. intros A B. apply H2; [by apply H1|].
  rewrite E1. done.
Qed.

Lemma frame_refl s : frame s s.
Proof. split; try done. intros t x E. exists x. split; [done|apply same_task_refl]. Qed.

Lemma frame_trans s1 s2 s3 : frame s1 s2 -> frame s2 s3 -> frame s1 s3.
Proof.
  intros [A1 A2 A3 A4 A5 A6] [B1 B2 B3 B4 B5 B6]. split; try congruence.
  intros t x E. destruct (A6 t x E) as (y & E1 & S1). destruct (B6 t y E1) as (z & E2 & S2).
  exists z. split; [done|by eapply same_task_trans].
Qed.

Lemma frame_none s s' t : frame s s' -> task_at s t = None -> task_at s' t = None.
Proof.
  intros [_ _ _ _ L _]. unfold task_at. destruct (t <? 0); [done|].
  intros E. apply lookup_ge_None in E. apply lookup_ge_None. lia.
Qed.

(** The other direction of [f_tasks]. *)
Lemma frame_back s s' t y : frame s s' -> task_at s' t = Some y -> exists x, task_at s t = Some x /\ same_task x y.
Proof.
  intros F E. destruct (task_at s t) as [x|] eqn:Ex.
  - destruct (f_tasks _ _ F t x Ex) as (y' & E' & S'). exists x. split; [done|]. congruence.
  - apply (frame_none s s') in Ex; [congruence|done].
Qed.

Lemma frame_set_slice s t x n : task_at s t = Some x -> (0 <= time_slice x -> 0 <= priority x -> 0 <= n) ->
  frame s (set_table (<[Z.to_nat t := set_time_slice n x]> (task_table s)) s).
Proof.
  intros E Hn. split; try done; [apply length_insert|].
  intros t' y Ey. pose proof (task_at_nonneg _ _ _ Ey) as [Ht' _].
  rewrite (task_at_insert s t t' x) by done. case_decide as D; subst.
  - exists (set_time_slice n x). split; [done|]. rewrite E in Ey. injection Ey as <-. split; [done|exact Hn].
  - exists y. split; [done|apply same_task_refl].
Qed.

(** The fields of a task a policy leaves alone. *)
Lemma same_task_fields x y : same_task x y ->
  state y = state x /\ priority y = priority x /\ pid y = pid x /\ parent y = parent x /\ killed y = killed x /\
  exit_status y = exit_status x.
Proof. intros [-> _]. done. Qed.

Lemma frame_rq s l : frame s (set_rq l s).
Proof. split; try done. intros t x E. exists x. split; [done|apply same_task_refl]. Qed.

Lemma frame_cnt s n : frame s (set_cnt n s).
Proof. split; try done. intros t x E. exists x. split; [done|apply same_task_refl]. Qed.

Lemma unlinked_enqueue s t : t ∉ rq_list s -> t <> idle_task s -> unlinked t s && negb (t =? idle_task s) = true.
Proof.
  intros H1 H2. unfold unlinked. rewrite bool_decide_eq_true_2 by done.
  by rewrite (proj2 (Z.eqb_neq _ _)) by done.
Qed.

(** Both policies give the idle task a full time slice when there is no other. *)
Lemma pick_idle s : is_Some (task_at s (idle_task s)) -> exists s',
  (upd_task (idle_task s) (fun x => set_time_slice (priority x) x);; mret (idle_task s)) s = Ok (idle_task s, s') /\
  frame s s' /\ rq_list s' = rq_list s.
Proof.
  intros [x E]. eexists. split_and!.
  - unfold upd_task. erewrite bind_Ok; [|erewrite bind_Ok; [|by apply task_at_get]; reflexivity]. reflexivity.
  - by apply frame_set_slice.
  - done.
Qed.

Lemma check_slice s t x : task_at s t = Some x -> 0 <= time_slice x ->
  exists b s', rr_timeslice_check t s = Ok (b, s') /\ frame s s' /\ rq_list s' = rq_list s.
Proof.
  intros E H0. unfold rr_timeslice_check. rewrite (bind_Ok _ _ _ _ _ (task_at_get _ _ _ E)).
  destruct (Z.eqb_spec (time_slice x) 0) as [Hz|Hz]; simpl.
  - exists true, s. split_and!; [done|apply frame_refl|done].
  - eexists false, _. split_and!; [reflexivity| |done]. apply frame_set_slice; [done|]. lia.
Qed.
(** *** Round robin *)

Lemma last_app_removelast {A} (l : list A) x : last l = Some x -> l = removelast l ++ [x].
Proof.
  destruct l as [|y l]; [done|]. intros E. rewrite (app_removelast_last x) at 1 by done. do 2 f_equal.
  revert y E. induction l as [|z l IH]; intros y E; [by injection E as ->|]. simpl in *. by apply IH.
Qed.

#[export] Instance round_robin_laws : SchedularLaws (H := round_robin).
Proof.
  split; simpl.
  - intros s t _ Hq Hi [x E]. unfold rr_rq_enqueue. rewrite (bind_Ok _ _ _ s s) by done.
    rewrite (bind_Ok _ _ _ tt s) by (by apply ASSERT_true, unlinked_enqueue).
    set (s1 := set_rq (rq_list s ++ [t]) s). rewrite (bind_Ok _ _ _ tt s1) by done.
    assert (task_at s1 t = Some x) as E1 by done.
    rewrite (bind_Ok _ _ _ _ _ (task_at_get _ _ _ E1)).
    set (s2 := if time_slice x =? 0 then
      set_table (<[Z.to_nat t := set_time_slice (priority x) x]> (task_table s1)) s1 else s1).
    rewrite (bind_Ok _ _ _ tt s2) by (unfold s2; by destruct (_ =? _)).
    assert (frame s1 s2 /\ rq_list s2 = rq_list s1) as [F2 R2].
    { unfold s2. destruct (_ =? _); [|split; [apply frame_refl|done]]. split; [by apply frame_set_slice|done]. }
    eexists. split; [reflexivity|]. split.
    + eapply frame_trans; [apply frame_rq|]. eapply frame_trans; [exact F2|apply frame_cnt].
    + simpl. rewrite R2. simpl. by rewrite Permutation_app_comm.
  - intros s. unfold rr_rq_enqueue. rewrite (bind_Ok _ _ _ s s) by done. rewrite Z.eqb_refl, andb_false_r. done.
  - intros s Q E. unfold rr_pick_task. rewrite (bind_Ok _ _ _ s s) by done. rewrite E. simpl.
    destruct (pick_idle s (q_idle_at _ Q)) as (s' & H1 & H2 & H3). exists s'. by rewrite H3.
  - intros s Q Hne. unfold rr_pick_task. rewrite (bind_Ok _ _ _ s s) by done.
    destruct (last (rq_list s)) as [t|] eqn:El; [|by apply last_None in El].
    eexists t, _. split; [reflexivity|]. split; [apply frame_rq|]. simpl.
    rewrite (last_app_removelast _ _ El) at 1. by rewrite Permutation_app_comm.
  - apply check_slice.
Qed.

(** *** linux0.11 *)

Lemma rq_remove_perm t l : NoDup l -> t ∈ l -> l ≡ₚ t :: rq_remove t l.
Proof.
  unfold rq_remove. induction l as [|y l IH]; intros Hnd Hin; [by apply elem_of_nil in Hin|].
  apply NoDup_cons in Hnd as [Hy Hnd]. rewrite filter_cons. case_decide as D.
  - apply elem_of_cons in Hin as [->|Hin]; [done|]. rewrite (IH Hnd Hin) at 1. apply Permutation_swap.
  - subst y. f_equiv. clear IH Hin Hnd. induction l as [|z l IH]; [done|].
    rewrite filter_cons_True by set_solver. f_equiv. apply IH. set_solver.
Qed.

Lemma max_slice_spec s l : (forall t, t ∈ l -> is_Some (task_at s t)) -> forall m nx,
  exists r, max_slice l m nx s = Ok (r, s) /\
   ((r = nx /\ forall t x, t ∈ l -> task_at s t = Some x -> time_slice x <= m) \/
    (exists t x, r = Some t /\ t ∈ l /\ task_at s t = Some x /\ m < time_slice x /\
      forall t' x', t' ∈ l -> task_at s t' = Some x' -> time_slice x' <= time_slice x)).
Proof.
  induction l as [|t l IH]; intros Hin m nx.
  { exists nx. split; [done|]. left. split; [done|]. set_solver. }
  destruct (Hin t) as [x Ex]; [set_solver|]. cbn [max_slice].
  rewrite (bind_Ok _ _ _ _ _ (task_at_get _ _ _ Ex)).
  destruct (Z.ltb_spec m (time_slice x)) as [Hlt|Hge].
  - destruct (IH ltac:(set_solver) (time_slice x) (Some t)) as (r & E & Hr). exists r. split; [done|]. right.
    destruct Hr as [[-> Hall]|(t1 & x1 & -> & H1 & H2 & H3 & H4)].
    + exists t, x. split_and!; [done|set_solver|done|done|]. intros t' x' Ht' Ex'.
      apply elem_of_cons in Ht' as [->|Ht']; [|eauto]. rewrite Ex in Ex'. injection Ex' as <-. lia.
    + exists t1, x1. split_and!; [done|set_solver|done|lia|]. intros t' x' Ht' Ex'.
      apply elem_of_cons in Ht' as [->|Ht']; [|eauto]. rewrite Ex in Ex'. injection Ex' as <-. lia.
  - destruct (IH ltac:(set_solver) m nx) as (r & E & Hr). exists r. split; [done|].
    destruct Hr as [[-> Hall]|(t1 & x1 & -> & H1 & H2 & H3 & H4)]; [left|right].
    + split; [done|]. intros t' x' Ht' Ex'.
      apply elem_of_cons in Ht' as [->|Ht']; [|eauto]. rewrite Ex in Ex'. injection Ex' as <-. lia.
    + exists t1, x1. split_and!; [done|set_solver|done|lia|]. intros t' x' Ht' Ex'.
      apply elem_of_cons in Ht' as [->|Ht']; [|eauto]. rewrite Ex in Ex'. injection Ex' as <-. lia.
Qed.

Definition refilled (s : tst) : tst :=
  set_table (imap (fun k x => refill_one (idle_task s) (Z.of_nat k) x) (task_table s)) s.

Lemma task_at_refilled s t : task_at (refilled s) t = refill_one (idle_task s) t <$> task_at s t.
Proof.
  unfold task_at, refilled. simpl. destruct (Z.ltb_spec t 0); [done|].
  rewrite list_lookup_imap. by rewrite Z2Nat.id by done.
Qed.

Lemma frame_refilled s : frame s (refilled s).
Proof.
  split; try done; [apply length_imap|]. intros t x E. rewrite task_at_refilled, E. eexists. split; [done|].
  unfold refill_one. destruct (_ && _); [|apply same_task_refl]. split; [done|]. intros _ _. apply u32_range.
Qed.

(** A turn of the loop that finds a task finds one with the longest time slice. *)
Lemma pick_loop_found s fuel : queue_ok s ->
  (exists t x, t ∈ rq_list s /\ task_at s t = Some x /\ 0 < time_slice x) ->
  exists t x s', pick_loop (S fuel) s = Ok (t, s') /\ s' = set_rq (rq_remove t (rq_list s)) s /\
    t ∈ rq_list s /\ task_at s t = Some x /\ 0 < time_slice x /\
    forall t' x', t' ∈ rq_list s -> task_at s t' = Some x' -> time_slice x' <= time_slice x.
Proof.
  intros Q (t0 & x0 & H0 & E0 & P0).
  destruct (max_slice_spec s (rq_list s)) with (m := 0) (nx := @None Z) as (r & E & Hr).
  { intros t Ht. destruct (q_tasks _ Q t Ht) as (x & Ex & _). by exists x. }
  destruct Hr as [[-> Hall]|(t & x & -> & H1 & H2 & H3 & H4)].
  { specialize (Hall t0 x0 H0 E0). lia. }
  exists t, x. eexists. split_and!; try done. cbn [pick_loop]. rewrite (bind_Ok _ _ _ s s) by done.
  by rewrite (bind_Ok _ _ _ _ _ E).
Qed.

(** A turn that finds none refills the time slices. *)
Lemma pick_loop_refill s fuel : queue_ok s ->
  (forall t x, t ∈ rq_list s -> task_at s t = Some x -> time_slice x <= 0) ->
  pick_loop (S fuel) s = pick_loop fuel (refilled s).
Proof.
  intros Q Hz. destruct (max_slice_spec s (rq_list s)) with (m := 0) (nx := @None Z) as (r & E & Hr).
  { intros t Ht. destruct (q_tasks _ Q t Ht) as (x & Ex & _). by exists x. }
  destruct Hr as [[-> Hall]|(t & x & -> & H1 & H2 & H3 & H4)]; [|specialize (Hz t x H1 H2); lia].
  cbn [pick_loop]. rewrite (bind_Ok _ _ _ s s) by done. by rewrite (bind_Ok _ _ _ _ _ E).
Qed.

Lemma queue_ok_refilled s : queue_ok s -> queue_ok (refilled s).
Proof.
  intros [Q1 Q2 Q3 Q4]. split; try done.
  - rewrite task_at_refilled. change (idle_task (refilled s)) with (idle_task s). by apply fmap_is_Some.
  - intros t Ht. destruct (Q4 t Ht) as (x & E & R1 & R2 & R3). rewrite task_at_refilled, E. eexists.
    split; [done|]. unfold refill_one. destruct (_ && _); [|done]. split; [done|]. split; [done|]. apply u32_range.
Qed.

Lemma refilled_slice s t x : queue_ok s -> t ∈ rq_list s -> task_at s t = Some x -> time_slice x <= 0 ->
  task_at (refilled s) t = Some (set_time_slice (priority x) x).
Proof.
  intros Q Ht E Hz. rewrite task_at_refilled, E. simpl. unfold refill_one.
  destruct (q_tasks _ Q t Ht) as (x' & E' & R1 & R2 & R3). rewrite E in E'. injection E' as <-.
  rewrite bool_decide_eq_true_2 by done. rewrite (proj2 (Z.eqb_neq _ _)).
  2: { intros ->. by destruct Q. }
  simpl. replace (time_slice x) with 0 by lia. rewrite Z.shiftr_0_l, Z.add_0_r. rewrite u32_small by (unfold is_u32; lia). done.
Qed.

(** Two turns of the loop are enough. *)
Lemma linux_pick_spec s : queue_ok s -> rq_list s <> [] ->
  exists s0 t x s', (s0 = s \/ (s0 = refilled s /\ forall t x, t ∈ rq_list s -> task_at s t = Some x -> time_slice x <= 0)) /\
    linux_pick_task 2 s = Ok (t, s') /\ s' = set_rq (rq_remove t (rq_list s)) s0 /\
    t ∈ rq_list s /\ task_at s0 t = Some x /\ 0 < time_slice x /\
    forall t' x', t' ∈ rq_list s -> task_at s0 t' = Some x' -> time_slice x' <= time_slice x.
Proof.
  intros Q Hne.
  assert (linux_pick_task 2 s = pick_loop 2 s) as ->.
  { unfold linux_pick_task. rewrite (bind_Ok _ _ _ s s) by done. by destruct (rq_list s). }
  destruct (max_slice_spec s (rq_list s)) with (m := 0) (nx := @None Z) as (r & _ & Hr).
  { intros t Ht. destruct (q_tasks _ Q t Ht) as (x & Ex & _). by exists x. }
  destruct Hr as [[-> Hall]|(t & x & -> & H1 & H2 & H3 & H4)].
  - exists (refilled s). rewrite pick_loop_refill by done.
    destruct (pick_loop_found (refilled s) 0 (queue_ok_refilled s Q)) as (t & x & s' & E & -> & Hx).
    { destruct (rq_list s) as [|t l] eqn:El; [done|]. assert (t ∈ rq_list s) as Ht by (rewrite El; set_solver).
      destruct (q_tasks _ Q t Ht) as (x & Ex & R1 & R2 & R3).
      exists t. eexists. split_and!; [by change (rq_list (refilled s)) with (rq_list s)|apply refilled_slice; try done; apply (Hall t); [by rewrite <- El|done]|].
      simpl. lia. }
    exists t, x. eexists. split; [by right|]. split; [exact E|]. done.
  - exists s. destruct (pick_loop_found s 1 Q) as (t' & x' & s' & E & Hx); [by exists t, x|].
    exists t', x', s'. split; [by left|]. split; [exact E|]. done.
Qed.

#[export] Instance linux011_laws : SchedularLaws (H := linux011).
Proof.
  split; simpl.
  - intros s t _ Hq Hi _. unfold rq_enqueue. rewrite (bind_Ok _ _ _ s s) by done.
    rewrite (bind_Ok _ _ _ tt s) by (by apply ASSERT_true, unlinked_enqueue).
    eexists. split; [reflexivity|]. split; [|done]. eapply frame_trans; [apply frame_rq|apply frame_cnt].
  - intros s. unfold rq_enqueue. rewrite (bind_Ok _ _ _ s s) by done. rewrite Z.eqb_refl, andb_false_r. done.
  - intros s Q E. unfold linux_pick_task. rewrite (bind_Ok _ _ _ s s) by done. rewrite E.
    destruct (pick_idle s (q_idle_at _ Q)) as (s' & H1 & H2 & H3). exists s'. by rewrite H3.
  - intros s Q Hne. destruct (linux_pick_spec s Q Hne) as (s0 & t & x & s' & H0 & E & -> & H1 & _).
    eexists t, _. split; [exact E|]. split; [|by apply rq_remove_perm; [apply Q|]].
    eapply frame_trans; [|apply frame_rq]. destruct H0 as [->|[-> _]]; [apply frame_refl|apply frame_refilled].
  - apply check_slice.
Qed.
(** ** The invariant of the task table *)

Definition state_at (s : tst) (t : Z) : option task_status := state <$> task_at s t.

Record sched_inv (s : tst) : Prop := {
  v_len : length (task_table s) = Z.to_nat NTASK;
  v_cur : is_Some (task_at s (current_task s));
  v_idle : exists x, task_at s (idle_task s) = Some x /\ state x <> TASK_UNUSED;
  v_tasks : forall t x, task_at s t = Some x -> state x <> TASK_UNUSED -> runnable x;
  v_nodup : NoDup (rq_list s);
  v_idle_rq : idle_task s ∉ rq_list s;
  v_ready : forall t, t ∈ rq_list s <-> state_at s t = Some TASK_READY;
  v_running : forall t, state_at s t = Some TASK_RUNNING -> t = current_task s;
}.

(** Between the operations the current task is the one that is running. *)
Definition running (s : tst) : Prop := state_at s (current_task s) = Some TASK_RUNNING.

Lemma inv_queue s : sched_inv s -> queue_ok s.
Proof.
  intros [V1 V2 V3 V4 V5 V6 V7 V8]. split; try done; [by destruct V3 as (x & -> & _)|].
  intros t Ht. apply V7 in Ht. unfold state_at in Ht.
  apply fmap_Some in Ht as (x & E & Hx). exists x. split; [done|]. apply (V4 t); [done|congruence].
Qed.

Lemma frame_state s s' t : frame s s' -> state_at s' t = state_at s t.
Proof.
  intros F. unfold state_at. destruct (task_at s t) as [x|] eqn:E; simpl.
  - destruct (f_tasks _ _ F t x E) as (y & -> & Sy). simpl. f_equal. by apply same_task_fields.
  - by rewrite (frame_none _ _ _ F E).
Qed.

Lemma frame_inv_tasks s s' :
  (forall t x, task_at s t = Some x -> state x <> TASK_UNUSED -> runnable x) -> frame s s' ->
  forall t x, task_at s' t = Some x -> state x <> TASK_UNUSED -> runnable x.
Proof.
  intros V4 F t y Ey Hu. destruct (frame_back _ _ _ _ F Ey) as (x & Ex & Sx).
  pose proof (same_task_fields _ _ Sx) as (Hs & Hp & _).
  destruct (V4 t x Ex) as (R1 & R2 & R3); [congruence|]. split; [done|]. split; [congruence|].
  destruct Sx as [_ Hn]. apply Hn; lia.
Qed.

Lemma frame_inv s s' : sched_inv s -> frame s s' -> rq_list s' = rq_list s -> sched_inv s'.
Proof.
  intros [V1 V2 V3 V4 V5 V6 V7 V8] F R. pose proof F as [F1 F2 F3 F4 F5 F6].
  split.
  - congruence.
  - rewrite F1. destruct V2 as [x Ex]. destruct (F6 _ _ Ex) as (y & Ey & _). eauto.
  - rewrite F2. destruct V3 as (x & Ex & Hu). destruct (F6 _ _ Ex) as (y & Ey & Sy). exists y. split; [done|].
    pose proof (same_task_fields _ _ Sy) as (-> & _). done.
  - by apply (frame_inv_tasks s).
  - by rewrite R.
  - by rewrite R, F2.
  - intros t. rewrite R, (frame_state _ _ _ F). apply V7.
  - intros t. rewrite (frame_state _ _ _ F), F1. apply V8.
Qed.

(** A store to a task. *)
Definition with_task (t : Z) (x : task_struct) (s : tst) : tst :=
  set_table (<[Z.to_nat t := x]> (task_table s)) s.

Lemma task_at_with s t x y t' : task_at s t = Some x ->
  task_at (with_task t y s) t' = if decide (t = t') then Some y else task_at s t'.
Proof.
  intros E. destruct (decide (0 <= t')) as [H|H]; [by apply task_at_insert with x|].
  rewrite decide_False by (apply task_at_nonneg in E; lia). unfold task_at. by rewrite (proj2 (Z.ltb_lt t' 0)) by lia.
Qed.

Lemma state_at_with s t x y t' : task_at s t = Some x ->
  state_at (with_task t y s) t' = if decide (t = t') then Some (state y) else state_at s t'.
Proof. intros E. unfold state_at. rewrite (task_at_with s t x) by done. by case_decide. Qed.

(** A store that neither makes the task ready nor takes it from the ready queue. *)
Lemma inv_with s t x y : sched_inv s -> task_at s t = Some x ->
  (state y = TASK_READY <-> state x = TASK_READY) -> (state y = TASK_RUNNING -> t = current_task s) ->
  (state y <> TASK_UNUSED -> runnable y) -> (t = idle_task s -> state y <> TASK_UNUSED) ->
  sched_inv (with_task t y s).
Proof.
  intros [V1 V2 V3 V4 V5 V6 V7 V8] E Hr Hrun Hok Hid.
  assert (forall t', is_Some (task_at s t') -> is_Some (task_at (with_task t y s) t')) as Hsome.
  { intros t' H. rewrite (task_at_with s t x) by done. by case_decide. }
  split; try done; [by rewrite <- V1; apply length_insert|by apply Hsome|..].
  - destruct V3 as (z & Ez & Hz). change (idle_task (with_task t y s)) with (idle_task s).
    rewrite (task_at_with s t x) by done. case_decide; [eauto|eauto].
  - intros t' z. rewrite (task_at_with s t x) by done. case_decide; [|eauto]. intros H'. injection H' as <-. done.
  - intros t'. change (rq_list (with_task t y s)) with (rq_list s). rewrite V7.
    rewrite (state_at_with s t x) by done. case_decide as D; [|done]. subst. unfold state_at. rewrite E. simpl.
    split; intros H'; injection H' as H'; f_equal; by apply Hr.
  - intros t'. rewrite (state_at_with s t x) by done. case_decide as D; [|by apply V8]. subst.
    intros H'. injection H' as H'. by apply Hrun.
Qed.

Section schedule.
Context `{SchedularLaws}.

(** [task->state = TASK_READY; sched_enqueue(task)]. *)
Lemma make_ready s t x :
  sched_inv s -> task_at s t = Some x -> state x <> TASK_READY -> state x <> TASK_UNUSED -> t <> idle_task s ->
  exists s', (set_task t (set_state TASK_READY x);; sched_enqueue t) s = Ok (tt, s') /\
    sched_inv s' /\ frame (with_task t (set_state TASK_READY x) s) s' /\ rq_list s' ≡ₚ t :: rq_list s.
Proof.
  intros V E Hr Hu Hi. pose proof (inv_queue _ V) as [Q1 Q2 Q3 Q4]. pose proof V as [V1 V2 V3 V4 V5 V6 V7 V8].
  set (s1 := with_task t (set_state TASK_READY x) s).
  assert (runnable (set_state TASK_READY x)) as Hrun by (destruct (V4 t x E Hu) as (? & ? & ?); done).
  assert (forall t', task_at s1 t' = if decide (t = t') then Some (set_state TASK_READY x) else task_at s t') as Hat
    by (intros; by apply task_at_with with x).
  assert (t ∉ rq_list s) as Hnin.
  { intros Hin. apply V7 in Hin. unfold state_at in Hin. rewrite E in Hin. injection Hin as Hin. done. }
  assert (queue_ok s1) as Q.
  { split; try done.
    - rewrite Hat. by case_decide.
    - intros t' Ht'. rewrite Hat. case_decide; [eauto|]. by apply Q4. }
  destruct (enqueue_law s1 t) as (s' & E' & F & P); [done|done|done|rewrite Hat; by rewrite decide_True|].
  exists s'. split_and!; [|  |done|done].
  { rewrite (bind_Ok _ _ _ tt s1) by done. exact E'. }
  pose proof F as [F1 F2 F3 F4 F5 F6].
  assert (forall t', state_at s' t' = if decide (t = t') then Some TASK_READY else state_at s t') as Hst.
  { intros t'. rewrite (frame_state _ _ _ F). unfold s1. by rewrite (state_at_with s t x). }
  assert (forall t', is_Some (task_at s t') -> is_Some (task_at s' t')) as Hsome.
  { intros t' H'. destruct (task_at s1 t') as [z|] eqn:Ez.
    - destruct (F6 _ _ Ez) as (y & Ey & _). eauto.
    - rewrite Hat in Ez. case_decide; [done|]. rewrite Ez in H'. by destruct H'. }
  split.
  - rewrite F5, <- V1. apply length_insert.
  - rewrite F1. by apply Hsome.
  - rewrite F2. change (idle_task s1) with (idle_task s). destruct V3 as (z & Ez & Hz).
    destruct (F6 (idle_task s) z) as (y & Ey & Sy); [rewrite Hat; by rewrite decide_False|].
    exists y. split; [done|]. by pose proof (same_task_fields _ _ Sy) as (-> & _).
  - apply (frame_inv_tasks s1); [|done]. intros t' z. rewrite Hat.
    case_decide; [intros Hz _; by injection Hz as <-|apply V4].
  - rewrite P. by apply NoDup_cons.
  - rewrite P, F2. by apply not_elem_of_cons.
  - intros t'. rewrite P, elem_of_cons, Hst. case_decide as D; [naive_solver|].
    change (rq_list s1) with (rq_list s). rewrite V7. naive_solver.
  - intros t'. rewrite Hst, F1. case_decide; [done|]. apply V8.
Qed.

(** From [pick_task] on. *)
Lemma switch_in s : sched_inv s -> (forall t, state_at s t <> Some TASK_RUNNING) ->
  exists s', (next ← pick_task; upd_task next (set_state TASK_RUNNING);; modify (set_current next)) s = Ok (tt, s') /\
    sched_inv s' /\ running s' /\
    (rq_list s = [] -> current_task s' = idle_task s /\ rq_list s' = []) /\
    (rq_list s <> [] -> rq_list s ≡ₚ current_task s' :: rq_list s') /\
    (forall t, t <> current_task s' -> state_at s' t = state_at s t) /\
    idle_task s' = idle_task s /\ init_proc s' = init_proc s.
Proof.
  intros V Hno. pose proof (inv_queue _ V) as Q. pose proof V as [V1 V2 V3 V4 V5 V6 V7 V8].
  assert (exists t s1, pick_task s = Ok (t, s1) /\ frame s s1 /\ is_Some (task_at s t) /\
    NoDup (rq_list s1) /\ t ∉ rq_list s1 /\ idle_task s ∉ rq_list s1 /\
    (forall t', t' <> t -> t' ∈ rq_list s1 <-> t' ∈ rq_list s) /\
    (t = idle_task s \/ state_at s t = Some TASK_READY) /\
    (rq_list s = [] -> t = idle_task s /\ rq_list s1 = []) /\
    (rq_list s <> [] -> rq_list s ≡ₚ t :: rq_list s1)) as
    (t & s1 & E & F & [x Ex] & N1 & N2 & N3 & N4 & N5 & N6 & N7).
  { destruct (decide (rq_list s = [])) as [R|R].
    - destruct (pick_idle_law s Q R) as (s1 & E & F & R1). exists (idle_task s), s1. rewrite R1, R.
      split_and!; [done|done|by destruct V3 as (x & -> & _)|constructor|set_solver|set_solver|set_solver|by left|done|done].
    - destruct (pick_law s Q R) as (t & s1 & E & F & P). exists t, s1.
      assert (t ∈ rq_list s) as Ht by (rewrite P; set_solver).
      rewrite P in V5, V6. apply NoDup_cons in V5 as [? ?]. apply not_elem_of_cons in V6 as [? ?].
      split_and!; try done.
      + destruct (q_tasks _ Q t Ht) as (x & Ex & _). eauto.
      + intros t' Ht'. rewrite P. set_solver.
      + right. by apply V7. }
  pose proof F as [F1 F2 F3 F4 F5 F6]. destruct (F6 t x Ex) as (y & Ey & Sy).
  set (z := set_state TASK_RUNNING y). set (s' := set_current t (with_task t z s1)).
  assert (forall t', task_at s' t' = if decide (t = t') then Some z else task_at s1 t') as Hat
    by (intros; by apply (task_at_with s1 t y)).
  assert (forall t', state_at s' t' = if decide (t = t') then Some TASK_RUNNING else state_at s t') as Hst.
  { intros t'. unfold state_at at 1. rewrite Hat. case_decide; [done|]. by rewrite <- (frame_state _ _ _ F). }
  assert (state x <> TASK_UNUSED) as Hu.
  { destruct N5 as [->|N5]; [destruct V3 as (x' & Ex' & Hx'); congruence|].
    unfold state_at in N5. rewrite Ex in N5. injection N5 as N5. congruence. }
  exists s'. split_and!; [| | | |done| |done|done].
  - rewrite (bind_Ok _ _ _ _ _ E). unfold upd_task.
    erewrite bind_Ok; [|erewrite bind_Ok; [|by apply task_at_get]; reflexivity]. reflexivity.
  - split.
    + rewrite <- V1, <- F5. apply length_insert.
    + simpl. rewrite Hat. by rewrite decide_True.
    + change (idle_task s') with (idle_task s1). rewrite F2. rewrite Hat. destruct V3 as (x' & Ex' & Hx').
      case_decide; [by exists z|]. destruct (F6 _ _ Ex') as (y' & Ey' & Sy'). exists y'. split; [done|].
      by pose proof (same_task_fields _ _ Sy') as (-> & _).
    + intros t' w. rewrite Hat. pose proof (frame_inv_tasks s s1 V4 F) as Hok. case_decide; [|apply Hok].
      intros Hw _. injection Hw as <-. destruct (Hok t y Ey) as (R1 & R2 & R3); [|done].
      pose proof (same_task_fields _ _ Sy) as (-> & _). done.
    + exact N1.
    + simpl. rewrite F2. done.
    + intros t'. rewrite Hst. change (rq_list s') with (rq_list s1). case_decide as D; [subst; naive_solver|].
      rewrite N4 by done. apply V7.
    + intros t'. rewrite Hst. case_decide; [done|]. intros Hr. by destruct (Hno t').
  - unfold running. simpl. rewrite Hst. by rewrite decide_True.
  - exact N6.
  - intros t' Ht'. simpl in Ht'. rewrite Hst. by rewrite decide_False.
Qed.
End schedule.
Section theorems.
Context `{SchedularLaws}.

Lemma schedule_spec s : sched_inv s ->
  let cur := current_task s in
  let again := state_at s cur = Some TASK_RUNNING /\ cur <> idle_task s in
  exists s', schedule s = Ok (tt, s') /\ sched_inv s' /\ running s' /\
    ((current_task s' = idle_task s /\ rq_list s = [] /\ ~ again) \/
     (current_task s' ∈ rq_list s \/ (again /\ current_task s' = cur))) /\
    (forall t, t ∈ rq_list s \/ (again /\ t = cur) -> t = current_task s' \/ t ∈ rq_list s') /\
    idle_task s' = idle_task s /\ init_proc s' = init_proc s /\
    (forall t, state_at s' t = state_at s t \/
       exists st, state_at s' t = Some st /\ st ∈ [TASK_READY; TASK_RUNNING; TASK_BLOCKED]).
Proof.
  intros V cur again. pose proof V as [V1 [x Ex] V3 V4 V5 V6 V7 V8].
  assert (exists s1, (if cur =? idle_task s then set_task cur (set_state TASK_BLOCKED x)
    else if bool_decide (state x = TASK_RUNNING) then set_task cur (set_state TASK_READY x);; sched_enqueue cur
    else mret tt) s = Ok (tt, s1) /\ sched_inv s1 /\ (forall t, state_at s1 t <> Some TASK_RUNNING) /\
    idle_task s1 = idle_task s /\ init_proc s1 = init_proc s /\
    (forall t, state_at s1 t = state_at s t \/
       exists st, state_at s1 t = Some st /\ st ∈ [TASK_READY; TASK_RUNNING; TASK_BLOCKED]) /\
    ((~ again /\ rq_list s1 = rq_list s) \/ (again /\ rq_list s1 ≡ₚ cur :: rq_list s))) as
    (s1 & E1 & V1' & Hno & Hid & Hin1 & Hst1 & Hrq).
  { assert (state_at s (current_task s) = Some (state x)) as Hsc by (unfold state_at; by rewrite Ex).
    unfold again, cur in *. clear again. rewrite Hsc.
    destruct (Z.eqb_spec (current_task s) (idle_task s)) as [Hi|Hi].
    - eexists. split; [reflexivity|]. split_and!; [| |done|done| |left; split; [naive_solver|done]].
      + eapply (inv_with s _ x); try done; simpl.
        * split; [done|]. intros Hr. destruct V6. rewrite <- Hi. apply V7. unfold state_at. rewrite Ex. simpl. congruence.
        * intros _. destruct V3 as (y & Ey & Hy). rewrite Hi in Ex. rewrite Ex in Ey. injection Ey as <-.
          by destruct (V4 _ _ Ex Hy) as (? & ? & ?).
      + intros t. change (state_at (with_task (current_task s) (set_state TASK_BLOCKED x) s) t <> Some TASK_RUNNING).
        rewrite (state_at_with s _ x) by done. case_decide; [done|]. intros Hr. by apply V8 in Hr.
      + intros t. change (state_at (set_table _ s) t) with (state_at (with_task (current_task s) (set_state TASK_BLOCKED x) s) t).
        rewrite (state_at_with s _ x) by done. case_decide; [right|by left]. eexists. split; [done|]. simpl. set_solver.
    - case_bool_decide as Hr.
      + destruct (make_ready s (current_task s) x) as (s1 & E1 & I1 & F1 & P1); [done|done|congruence|congruence|done|].
        exists s1. split_and!; [done|done| |by apply (f_idle _ _ F1)|by apply (f_init _ _ F1)| |right; split; [split; [congruence|done]|done]].
        2: { intros t. rewrite (frame_state _ _ _ F1), (state_at_with s _ x) by done.
             case_decide; [right|by left]. eexists. split; [done|]. simpl. set_solver. }
        intros t. rewrite (frame_state _ _ _ F1), (state_at_with s _ x) by done. case_decide; [done|].
        intros Hr'. by apply V8 in Hr'.
      + exists s. split_and!; try done.
        * intros t Hr'. pose proof (V8 _ Hr') as ->. unfold state_at in Hr'. rewrite Ex in Hr'. injection Hr' as Hr'. done.
        * intros t. by left.
        * left. split; [|done]. intros [Hr' _]. injection Hr' as Hr'. done. }
  destruct (switch_in s1 V1' Hno) as (s' & E & I & R & P0 & P1 & St & Id & In).
  exists s'. split_and!; [|done|done| | |congruence|congruence|].
  - unfold schedule. rewrite (bind_Ok _ _ _ s s) by done. cbv zeta.
    rewrite (bind_Ok _ _ _ _ _ (task_at_get _ _ _ Ex)). fold cur. rewrite (bind_Ok _ _ _ _ _ E1). exact E.
  - destruct (decide (rq_list s1 = [])) as [N|N].
    + destruct (P0 N) as [C _]. left. rewrite N in Hrq. destruct Hrq as [[Ha Hq]|[Ha Hq]]; [|by apply Permutation_nil_cons in Hq].
      split_and!; [congruence|congruence|done].
    + right. specialize (P1 N). assert (current_task s' ∈ rq_list s1) as Hin by (rewrite P1; set_solver).
      destruct Hrq as [[Ha Hq]|[Ha Hq]]; rewrite Hq in Hin; [by left|]. apply elem_of_cons in Hin as [->|Hin]; [by right|by left].
  - intros t Ht. assert (t ∈ rq_list s1) as Hin.
    { destruct Hrq as [[Ha Hq]|[Ha Hq]]; rewrite Hq; set_solver. }
    destruct (decide (rq_list s1 = [])) as [N|N]; [rewrite N in Hin; by apply elem_of_nil in Hin|].
    rewrite (P1 N) in Hin. by apply elem_of_cons in Hin.
  - intros t. destruct (decide (t = current_task s')) as [->|Ht].
    + right. exists TASK_RUNNING. split; [exact R|set_solver].
    + rewrite (St t Ht). apply Hst1.
Qed.

(** C15: [schedule] under any policy that keeps the promises of [SchedularLaws], both
    policies of the kernel among them.  From a consistent task table it never fails: it
    leaves the table consistent, with exactly the current task running; that task was
    ready, or was running before, or is the idle task when nothing else was ready, and
    no ready task is lost. *)
Theorem schedule_correct s : sched_inv s ->
  let cur := current_task s in
  let again := state_at s cur = Some TASK_RUNNING /\ cur <> idle_task s in
  exists s', schedule s = Ok (tt, s') /\ sched_inv s' /\ running s' /\
    ((current_task s' = idle_task s /\ rq_list s = [] /\ ~ again) \/
     (current_task s' ∈ rq_list s \/ (again /\ current_task s' = cur))) /\
    (forall t, t ∈ rq_list s \/ (again /\ t = cur) -> t = current_task s' \/ t ∈ rq_list s').
Proof.
  intros V. destruct (schedule_spec s V) as (s' & E & I & R & C & L & _). exists s'. split_and!; done.
Qed.
End theorems.

(** under the round robin policy a running task that yields, or whose time slice has
    run out, goes on running, however many tasks are ready: the queue is used as a stack,
    [list_push] and [list_poll] work at the same end of the list.  The queue is the same
    afterwards, so the ready tasks wait until the running one blocks or exits. *)
Theorem rr_yield_starves s :
  sched_inv s -> running s -> current_task s <> idle_task s ->
  exists s', schedule (H := round_robin) s = Ok (tt, s') /\
    current_task s' = current_task s /\ rq_list s' = rq_list s.
Proof.
  intros V R Hi. unfold running, state_at in R. apply fmap_Some in R as (x & Ex & Hx). symmetry in Hx.
  pose proof V as [V1 _ V3 V4 V5 V6 V7 V8].
  assert (current_task s ∉ rq_list s) as Hnin.
  { intros Hin. apply V7 in Hin. unfold state_at in Hin. rewrite Ex in Hin. simpl in Hin. congruence. }
  set (cur := current_task s) in *. set (s1 := with_task cur (set_state TASK_READY x) s).
  set (s2 := set_rq (rq_list s ++ [cur]) s1). set (x1 := set_state TASK_READY x).
  assert (task_at s2 cur = Some x1) as E2.
  { change (task_at s1 cur = Some x1). unfold s1. rewrite (task_at_with s cur x) by done. by rewrite decide_True. }
  assert (exists s3 y, rr_rq_enqueue cur s1 = Ok (tt, s3) /\ rq_list s3 = rq_list s ++ [cur] /\
    task_at s3 cur = Some y) as (s3 & y & E3 & R3 & T3).
  { unfold rr_rq_enqueue. rewrite (bind_Ok _ _ _ s1 s1) by done.
    rewrite (bind_Ok _ _ _ tt s1) by (by apply ASSERT_true, unlinked_enqueue).
    rewrite (bind_Ok _ _ _ tt s2) by done. rewrite (bind_Ok _ _ _ _ _ (task_at_get _ _ _ E2)).
    destruct (time_slice x1 =? 0).
    - eexists _, (set_time_slice (priority x1) x1). split; [reflexivity|]. split; [done|].
      change (task_at (with_task cur (set_time_slice (priority x1) x1) s2) cur = Some (set_time_slice (priority x1) x1)).
      rewrite (task_at_with s2 cur x1) by done. by rewrite decide_True.
    - eexists _, x1. split; [reflexivity|]. done. }
  eexists. split; [|split].
  - unfold schedule. rewrite (bind_Ok _ _ _ s s) by done. cbv zeta. fold cur.
    rewrite (bind_Ok _ _ _ _ _ (task_at_get _ _ _ Ex)). rewrite (proj2 (Z.eqb_neq _ _)) by done.
    rewrite bool_decide_eq_true_2 by done.
    erewrite bind_Ok; [|erewrite bind_Ok; [|reflexivity]; exact E3].
    erewrite bind_Ok; [|simpl; unfold rr_pick_task; erewrite bind_Ok; [|reflexivity]; rewrite R3, last_snoc;
      erewrite bind_Ok; [|reflexivity]; reflexivity].
    erewrite bind_Ok; [|unfold upd_task; erewrite bind_Ok; [|apply task_at_get; exact T3]; reflexivity]. reflexivity.
  - reflexivity.
  - simpl. by rewrite removelast_last.
Qed.

(** the linux0.11 policy picks, from a non-empty queue, a task with the longest time
    slice; when every ready task has used its slice up, all slices are refilled once
    first, so the loop of [pick_task] ends within two turns.  The rest of the queue
    stays as it is. *)
Theorem linux_pick_max s : queue_ok s -> rq_list s <> [] ->
  exists s0 t x s',
    (s0 = s \/ (s0 = refilled s /\ forall t x, t ∈ rq_list s -> task_at s t = Some x -> time_slice x <= 0)) /\
    linux_pick_task 2 s = Ok (t, s') /\ s' = set_rq (rq_remove t (rq_list s)) s0 /\
    t ∈ rq_list s /\ task_at s0 t = Some x /\ 0 < time_slice x /\
    forall t' x', t' ∈ rq_list s -> task_at s0 t' = Some x' -> time_slice x' <= time_slice x.
Proof. exact (linux_pick_spec s). Qed.

(** *** A small task table *)

Definition demo_task (st : task_status) (slice : Z) : task_struct :=
  MkTask 1 [] st slice 10 None VmKernel None false 0 [] None.

Definition demo_tst : tst :=
  Tst (demo_task TASK_RUNNING 5 :: demo_task TASK_BLOCKED 10 :: demo_task TASK_READY 0 :: demo_task TASK_READY 0
       :: replicate 124 (demo_task TASK_UNUSED 0)) [2; 3] 2 0 1 None 4.

Lemma demo_task_at t x : task_at demo_tst t = Some x ->
  (t = 0 /\ x = demo_task TASK_RUNNING 5) \/ (t = 1 /\ x = demo_task TASK_BLOCKED 10) \/
  ((t = 2 \/ t = 3) /\ x = demo_task TASK_READY 0) \/ (4 <= t /\ x = demo_task TASK_UNUSED 0).
Proof.
  intros E. apply task_at_nonneg in E as [Ht E]. unfold demo_tst in E. cbn [task_table] in E.
  destruct (Z.to_nat t) as [|[|[|[|n]]]] eqn:En; cbn [lookup list_lookup] in E; try (injection E as <-).
  - left. split; [lia|done].
  - right; left. split; [lia|done].
  - right; right; left. split; [lia|done].
  - right; right; left. split; [lia|done].
  - right; right; right. split; [lia|]. by apply lookup_replicate in E as [-> _].
Qed.

Lemma demo_inv : sched_inv demo_tst.
Proof.
  split.
  - done.
  - by eexists.
  - by exists (demo_task TASK_BLOCKED 10).
  - intros t x E Hu. apply demo_task_at in E.
    destruct E as [[_ ->]|[[_ ->]|[[_ ->]|[_ ->]]]]; [| | |done]; split; try done; simpl; lia.
  - apply (bool_decide_unpack _). by vm_compute.
  - apply (bool_decide_unpack _). by vm_compute.
  - intros t. change (rq_list demo_tst) with [2; 3]. rewrite !elem_of_cons, elem_of_nil. split.
    + intros [->|[->|[]]]; done.
    + unfold state_at. destruct (task_at demo_tst t) as [x|] eqn:E; [|done]. intros Hs. injection Hs as Hs.
      apply demo_task_at in E. destruct E as [[_ ->]|[[_ ->]|[[H _]|[_ ->]]]]; try done. naive_solver.
  - intros t. unfold state_at. destruct (task_at demo_tst t) as [x|] eqn:E; [|done]. intros Hs. injection Hs as Hs.
    apply demo_task_at in E. by destruct E as [[-> _]|[[_ ->]|[[_ ->]|[_ ->]]]].
Qed.

Lemma schedule_correct_witness :
  exists s', schedule (H := linux011) demo_tst = Ok (tt, s') /\ running s'.
Proof.
  destruct (schedule_correct (H := linux011) demo_tst demo_inv) as (s' & E & _ & R & _). by exists s'.
Defined.

Lemma rr_yield_starves_witness :
  exists s', schedule (H := round_robin) demo_tst = Ok (tt, s') /\ current_task s' = 0 /\ rq_list s' = [2; 3].
Proof. exact (rr_yield_starves demo_tst demo_inv eq_refl ltac:(done)). Defined.

Lemma linux_pick_max_witness :
  exists t s', linux_pick_task 2 demo_tst = Ok (t, s') /\ t ∈ [2; 3].
Proof.
  destruct (linux_pick_max demo_tst) as (s0 & t & x & s' & _ & E & _ & H & _).
  - apply inv_queue, demo_inv.
  - discriminate.
  - exists t, s'. split; [exact E|exact H].
Defined.
End Sched.
