(* ===== verification/Task.v ===== *)
(** Tasks: src/kernel/task.c.

    The operations on the task table are operations on [tst] of Sched.v; the ones that
    also close files run on [os], the table together with the file layer of File.v.  The
    [ofiles], [cwd] and [killed] of the current task are those of the file layer: a
    context switch saves them to the task and loads the ones of the next. *)

From stdpp Require Import base numbers list gmap.
From Stdlib Require Import ZArith Lia.
From S2P Require Import Prelude Semaphore BlockIO Log BAlloc Inode File Sched.
#[local] Open Scope Z_scope.

Module Task.
Import Sched.

Definition NOFILE : Z := 16.

(** What [task_free] gives back to the allocators: the kernel stack, the address space. *)
Inductive released := Page (p : Z) | Vm (v : Z).

(** *** Operations on the task table *)

Definition task_wakeup `{Schedular} (t : Z) : M tst unit :=
  x ← get_task t;
  ASSERT (bool_decide (state x <> TASK_RUNNING) && bool_decide (state x <> TASK_READY));;
  set_task t (set_state TASK_READY x);;
  sched_enqueue t.

Definition set_pid (p : Z) (t : task_struct) : task_struct :=
  MkTask p (name t) (state t) (time_slice t) (priority t) (kstack_ptr t) (vm t) (parent t) (killed t)
    (exit_status t) (t_ofiles t) (t_cwd t).

Definition set_parent (p : option Z) (t : task_struct) : task_struct :=
  MkTask (pid t) (name t) (state t) (time_slice t) (priority t) (kstack_ptr t) (vm t) p (killed t)
    (exit_status t) (t_ofiles t) (t_cwd t).

Definition set_killed (b : bool) (t : task_struct) : task_struct :=
  MkTask (pid t) (name t) (state t) (time_slice t) (priority t) (kstack_ptr t) (vm t) (parent t) b
    (exit_status t) (t_ofiles t) (t_cwd t).

Definition set_exit_status (n : Z) (t : task_struct) : task_struct :=
  MkTask (pid t) (name t) (state t) (time_slice t) (priority t) (kstack_ptr t) (vm t) (parent t) (killed t)
    n (t_ofiles t) (t_cwd t).

Definition set_kstack (p : option Z) (t : task_struct) : task_struct :=
  MkTask (pid t) (name t) (state t) (time_slice t) (priority t) p (vm t) (parent t) (killed t)
    (exit_status t) (t_ofiles t) (t_cwd t).

Definition set_files (o : list (option Z)) (c : option Z) (t : task_struct) : task_struct :=
  MkTask (pid t) (name t) (state t) (time_slice t) (priority t) (kstack_ptr t) (vm t) (parent t) (killed t)
    (exit_status t) o c.

Fixpoint find_unused (i : Z) (l : list task_struct) : option Z :=
  match l with
  | [] => None
  | x :: l => if bool_decide (state x = TASK_UNUSED) then Some i else find_unused (i + 1) l
  end.

Definition task_alloc : M tst (option Z) :=
  s ← get;
  match find_unused 0 (task_table s) with
  | Some t =>
      x ← get_task t;
      set_task t (set_pid (next_pid s) (set_state TASK_ALLOCATED x));;
      modify (fun s => Tst (task_table s) (rq_list s) (running_task_cnt s) (current_task s) (idle_task s)
                        (init_proc s) (i32 (next_pid s + 1)));;
      mret (Some t)
  | None => mret None
  end.

(** [name] is what [vsprintf] makes of the format. *)
Definition init_task_struct (t : Z) (prio : Z) (nm : list Z) : M tst unit :=
  s ← get;
  upd_task t (fun x => MkTask (pid x) nm (state x) prio prio (kstack_ptr x) VmKernel (Some (current_task s))
    false 0 (replicate (Z.to_nat NOFILE) None) None).

(** The part of [task_free] that releases memory, and the part under [tblock]. *)
Definition free_memory (x : task_struct) : list released :=
  match kstack_ptr x with Some p => [Page p] | None => [] end ++
  match vm x with VmUser v => [Vm v] | _ => [] end.

Definition task_free (t : Z) : M tst (list released) :=
  x ← get_task t;
  ASSERT (bool_decide (state x <> TASK_UNUSED));;
  (if bool_decide (state x <> TASK_ZOMBIE) && bool_decide (state x <> TASK_ALLOCATED) then panic else mret tt);;
  set_task t (MkTask 0 [] TASK_UNUSED (time_slice x) (priority x) None VmNull None false 0 (t_ofiles x) (t_cwd x));;
  mret (free_memory x).

(** [init_task_stack] with the page that [get_free_page] returns; the frames it builds
    on the stack are not modelled. *)
Definition init_task_stack (t : Z) (page : option Z) : M tst bool :=
  upd_task t (set_kstack page);;
  mret (match page with Some _ => true | None => false end).

Definition kthread_create (prio : Z) (nm : list Z) (page : option Z) : M tst (option Z) :=
  r ← task_alloc;
  match r with
  | None => mret None
  | Some t =>
      init_task_struct t prio nm;;
      ok ← init_task_stack t page;
      if ok : bool then mret (Some t)
      else task_free t;; mret None
  end.

Section ops.
Context `{Schedular}.

Definition task_yield : M tst unit :=
  s ← get;
  x ← get_task (current_task s);
  ASSERT (bool_decide (state x = TASK_RUNNING));;
  schedule.

Definition task_block : M tst unit :=
  s ← get;
  upd_task (current_task s) (set_state TASK_BLOCKED);;
  schedule.

(** [task_wakeup(init_proc)]. *)
Definition wake_init : M tst unit :=
  s ← get;
  match init_proc s with Some i => task_wakeup i | None => panic end.

(** [task_exit] from the [spinlock_acquire] to the [schedule], which does not return to
    the task. *)
Definition exit_table (status : Z) : M tst unit :=
  s ← get;
  let task := current_task s in
  x ← get_task task;
  match parent x with
  | None => panic
  | Some p =>
      px ← get_task p;
      (if bool_decide (state px = TASK_WAITING) then task_wakeup p else mret tt);;
      for_loop (Z.to_nat NTASK) 0 (fun k =>
        t ← get_task (Z.of_nat k);
        if bool_decide (parent t = Some task) then
          s ← get;
          set_task (Z.of_nat k) (set_parent (init_proc s) t);;
          if bool_decide (state t = TASK_ZOMBIE) then wake_init else mret tt
        else mret tt);;
      upd_task task (fun x => set_exit_status status (set_state TASK_ZOMBIE x));;
      schedule
  end.

(** A turn of the [for (;;)] of [task_wait]. *)
Inductive wait_result := Reaped (p status : Z) | NoChildren | Waits.

(** The scan of the table: the first zombie child, or whether there are children. *)
Fixpoint wait_scan (cur i : Z) (l : list task_struct) (has_children : bool) : Z + bool :=
  match l with
  | [] => inr has_children
  | x :: l =>
      if bool_decide (parent x = Some cur) then
        if bool_decide (state x = TASK_ZOMBIE) then inl i else wait_scan cur (i + 1) l true
      else wait_scan cur (i + 1) l has_children
  end.

Definition task_wait_turn : M tst (wait_result * list released) :=
  s ← get;
  let cur := current_task s in
  match wait_scan cur 0 (task_table s) false with
  | inl t =>
      x ← get_task t;
      r ← task_free t;
      mret (Reaped (pid x) (exit_status x), r)
  | inr false => mret (NoChildren, [])
  | inr true =>
      upd_task cur (set_state TASK_WAITING);;
      schedule;;
      mret (Waits, [])
  end.

Fixpoint find_pid (p i : Z) (l : list task_struct) : option Z :=
  match l with
  | [] => None
  | x :: l => if pid x =? p then Some i else find_pid p (i + 1) l
  end.

Definition task_kill (p : Z) : M tst Z :=
  s ← get;
  match find_pid p 0 (task_table s) with
  | Some t =>
      upd_task t (set_killed true);;
      x ← get_task t;
      (if bool_decide (state x = TASK_BLOCKED) || bool_decide (state x = TASK_WAITING) then task_wakeup t
       else mret tt);;
      mret 0
  | None => mret (-1)
  end.
End ops.

(** [setup_main_task], [setup_idle_task] and [task_init]. *)
Definition MAIN_STACK_PTR : Z := Z.lor 0x00007000 0x80000000.

Definition setup_main_task (nm : list Z) : M tst unit :=
  r ← task_alloc;
  match r with
  | None => panic
  | Some t =>
      init_task_struct t 10 nm;;
      upd_task t (fun x => set_kstack (Some (MAIN_STACK_PTR + 4096)) (set_state TASK_RUNNING (set_parent None x)));;
      modify (set_current t)
  end.

Definition setup_idle_task (page : option Z) : M tst unit :=
  r ← kthread_create 10 [105; 100; 108; 101] page;
  match r with
  | None => panic
  | Some t =>
      modify (fun s => Tst (task_table s) (rq_list s) (running_task_cnt s) (current_task s) t (init_proc s) (next_pid s));;
      upd_task t (set_parent None)
  end.

Definition task_init (nm : list Z) (page : option Z) : M tst unit :=
  setup_main_task nm;;
  setup_idle_task page.

(** *** Together with the file layer *)

Record os := Os { ts : tst; fs : File.kst }.

#[global] Instance Part_ts : Part os tst := {| part := ts; set_part := fun t s => Os t (fs s) |}.

#[global] Instance Part_fs : Part os File.kst := {| part := fs; set_part := fun f s => Os (ts s) f |}.

(** No current directory: NULL. *)
Definition NOCWD : Z := -1.

Section exit.
Context `{Inode.Devices} `{Schedular} (sb : BAlloc.superblock).

Definition set_ofile (fd : Z) (o : option Z) : M File.kst unit :=
  modify (fun s => File.Kst (File.il s) (File.ftable s) (File.pipes s) (File.next_pipe s)
    (<[Z.to_nat fd := o]> (File.ofiles s)) (File.cwd s) (File.killed s)).

(** [task_exit] up to the [spinlock_acquire]: the files and the directory. *)
Definition exit_files : M File.kst unit :=
  for_loop (Z.to_nat NOFILE) 0 (fun fd =>
    s ← get;
    o ← index (File.ofiles s) (Z.of_nat fd);
    match o with
    | Some f => File.file_close sb f;; set_ofile (Z.of_nat fd) None
    | None => mret tt
    end);;
  s ← get;
  if File.cwd s =? NOCWD then mret tt
  else
    File.logop (Log.log_begin_op (Inode.curtask (File.il s)));;
    File.ino (Inode.inode_put sb (File.cwd s));;
    File.logop Log.log_end_op;;
    modify (fun s => File.Kst (File.il s) (File.ftable s) (File.pipes s) (File.next_pipe s)
      (File.ofiles s) NOCWD (File.killed s)).

(** What a context switch from [prev] means for the fields of the current task. *)
Definition switch_files (prev : Z) : M os unit :=
  s ← get;
  let next := current_task (ts s) in
  lift (upd_task prev (set_files (File.ofiles (fs s))
    (if File.cwd (fs s) =? NOCWD then None else Some (File.cwd (fs s)))));;
  x ← lift (get_task next : M tst task_struct);
  lift (modify (fun f : File.kst => File.Kst
    (Inode.Ist (Inode.fl (File.il f)) (Inode.icache (File.il f)) next)
    (File.ftable f) (File.pipes f) (File.next_pipe f) (t_ofiles x)
    (match t_cwd x with Some c => c | None => NOCWD end) (killed x))).

Definition task_exit (status : Z) : M os unit :=
  s ← get;
  let task := current_task (ts s) in
  ASSERT (bool_decide (init_proc (ts s) <> Some task));;
  x ← lift (get_task task : M tst task_struct);
  ASSERT (bool_decide (parent x <> None));;
  lift exit_files;;
  lift (exit_table status : M tst unit);;
  switch_files task.
End exit.
(** ** The life of tasks *)

(** Consistent, with the current task running, and an init process and an idle task that
    did not exit. *)
Record task_inv (s : tst) : Prop := {
  ti_sched : sched_inv s;
  ti_running : running s;
  ti_init : forall i, init_proc s = Some i ->
    exists st, state_at s i = Some st /\ st <> TASK_UNUSED /\ st <> TASK_ZOMBIE;
  ti_idle : state_at s (idle_task s) <> Some TASK_ZOMBIE;
}.

Lemma with_with t x y s : with_task t x (with_task t y s) = with_task t x s.
Proof. unfold with_task, set_table. simpl. by rewrite list_insert_insert_eq. Qed.

Lemma get_task_inv t s x s' : get_task t s = Ok (x, s') -> s' = s /\ task_at s t = Some x.
Proof.
  unfold get_task. intros E. apply bind_Ok_inv in E as (? & ? & E0 & E). injection E0 as <- <-.
  unfold index in E. unfold task_at. destruct (t <? 0); [done|]. destruct (_ !! _); [|done].
  by injection E as <- <-.
Qed.

Lemma upd_task_inv t f s u s' : upd_task t f s = Ok (u, s') ->
  exists x, task_at s t = Some x /\ s' = with_task t (f x) s.
Proof.
  unfold upd_task. intros E. apply bind_Ok_inv in E as (x & s1 & E1 & E).
  apply get_task_inv in E1 as [-> Hx]. injection E as _ <-. eauto.
Qed.

Lemma ASSERT_inv {S} c (s : S) u s' : ASSERT c s = Ok (u, s') -> c = true /\ s' = s.
Proof. destruct c; [|done]. intros E. by injection E as _ <-. Qed.

Lemma for_loop_pres {S} (P : S -> Prop) n : forall a (body : nat -> M S unit) s u s',
  (forall i s u s', P s -> body i s = Ok (u, s') -> P s') -> P s -> for_loop n a body s = Ok (u, s') -> P s'.
Proof.
  induction n as [|n IH]; intros a body s u s' Hb Hs E; simpl in E; [by injection E as _ <-|].
  apply bind_Ok_inv in E as (v & s1 & E1 & E). eapply IH; [exact Hb| |exact E]. by eapply Hb.
Qed.

(** A store that keeps the state of a task keeps the invariant. *)
Lemma task_inv_with s t x y : task_inv s -> task_at s t = Some x -> state y = state x ->
  priority y = priority x -> time_slice y = time_slice x -> task_inv (with_task t y s).
Proof.
  intros [V R I Z] E Hs Hp Ht.
  assert (forall t', state_at (with_task t y s) t' = state_at s t') as Hst.
  { intros t'. rewrite (state_at_with s t x) by done. case_decide; [|done]. subst. unfold state_at. rewrite E. by rewrite Hs. }
  split.
  - apply (inv_with s t x); try done; [by rewrite Hs|..].
    + rewrite Hs. intros Hr. apply (v_running _ V). unfold state_at. rewrite E. by rewrite <- Hr.
    + rewrite Hs. intros Hu. destruct (v_tasks _ V t x E Hu) as (R1 & R2 & R3). by split; [congruence|rewrite Hp, Ht].
    + intros ->. destruct (v_idle _ V) as (z & Ez & Hz). rewrite E in Ez. injection Ez as <-. by rewrite Hs.
  - unfold running. rewrite Hst. exact R.
  - intros i Hi. rewrite Hst. by apply I.
  - by rewrite Hst.
Qed.

Section preserve.
Context `{SchedularLaws}.

(** [schedule] after the current task has got the state [st]. *)
Lemma schedule_after s x y s' u :
  task_inv s -> task_at s (current_task s) = Some x -> state y <> TASK_READY -> state y <> TASK_UNUSED -> runnable y ->
  (state y = TASK_ZOMBIE -> init_proc s <> Some (current_task s) /\ current_task s <> idle_task s) ->
  schedule (with_task (current_task s) y s) = Ok (u, s') -> task_inv s'.
Proof.
  intros [V R I Z] E Hr Hu Hok Hz Es. set (cur := current_task s) in *. set (s1 := with_task cur y s) in *.
  unfold running, state_at in R. fold cur in R. rewrite E in R. injection R as R.
  assert (sched_inv s1) as V1.
  { apply (inv_with s cur x); try done. rewrite R. naive_solver. }
  destruct (schedule_spec s1 V1) as (s'' & E' & V' & R' & _ & _ & Hid & Hin & Hst). rewrite Es in E'. injection E' as _ <-.
  split; [done|done|..].
  2: { rewrite Hid. destruct (Hst (idle_task s1)) as [->|(st & -> & Hst')]; [|set_solver].
       unfold s1. rewrite (state_at_with s cur x) by done. case_decide as D; [|done].
       intros Hzz. injection Hzz as Hzz. by destruct (Hz Hzz). }
  intros i Hi. rewrite Hin in Hi. change (init_proc s1) with (init_proc s) in Hi.
  destruct (Hst i) as [->|(st & -> & Hst')].
  - unfold s1. rewrite (state_at_with s cur x) by done. case_decide; [|by apply I]. subst.
    exists (state y). split_and!; [done|done|]. intros Hzz. by destruct (Hz Hzz).
  - exists st. split_and!; [done|set_solver|set_solver].
Qed.

Lemma schedule_inv s s' u : task_inv s -> schedule s = Ok (u, s') -> task_inv s'.
Proof.
  intros T E. pose proof T as [V R I _]. pose proof R as R'. unfold running, state_at in R'.
  apply fmap_Some in R' as (x & Ex & Hx). symmetry in Hx.
  assert (s = with_task (current_task s) x s) as Hs.
  { unfold with_task, set_table. apply task_at_nonneg in Ex as [_ Ex]. rewrite list_insert_id by done. by destruct s. }
  rewrite Hs in E. apply (schedule_after s x x s' u); try done; [congruence|congruence|..|congruence].
  apply (v_tasks _ V _ _ Ex). congruence.
Qed.

Lemma task_wakeup_inv s t u s' : task_inv s -> state_at s t <> Some TASK_UNUSED -> task_wakeup t s = Ok (u, s') ->
  task_inv s' /\ current_task s' = current_task s /\ init_proc s' = init_proc s /\ idle_task s' = idle_task s /\
  (forall t', state_at s' t' = if decide (t = t') then Some TASK_READY else state_at s t').
Proof.
  intros [V R I Z] Hu E. unfold task_wakeup in E. apply bind_Ok_inv in E as (x & s1 & E1 & E).
  apply get_task_inv in E1 as [-> Ex]. apply bind_Ok_inv in E as (v & s1 & E1 & E).
  apply ASSERT_inv in E1 as [Ha ->]. bprop.
  assert (t <> idle_task s) as Hi.
  { intros ->. apply bind_Ok_inv in E as (? & s1 & E1 & E). injection E1 as _ <-. unfold sched_enqueue in E.
    change (idle_task s) with (idle_task (with_task (idle_task s) (set_state TASK_READY x) s)) in E at 1.
    by rewrite enqueue_idle_law in E. }
  unfold state_at in Hu. rewrite Ex in Hu. simpl in Hu.
  destruct (make_ready s t x) as (s2 & E2 & V2 & F2 & P2); [done|done|done|congruence|done|].
  rewrite E2 in E. injection E as _ <-.
  assert (forall t', state_at s2 t' = if decide (t = t') then Some TASK_READY else state_at s t') as Hst.
  { intros t'. rewrite (frame_state _ _ _ F2). by rewrite (state_at_with s t x). }
  split_and!; [|apply (f_current _ _ F2)|apply (f_init _ _ F2)|apply (f_idle _ _ F2)|done]. split; [done|..].
  - unfold running. rewrite Hst, (f_current _ _ F2). change (current_task (with_task _ _ s)) with (current_task s).
    case_decide; [|exact R]. subst. unfold running, state_at in R. rewrite Ex in R. injection R as R. done.
  - intros i Hi'. rewrite (f_init _ _ F2) in Hi'. rewrite Hst. case_decide; [by eexists|by apply I].
  - rewrite Hst. case_decide; [done|]. by rewrite (f_idle _ _ F2).
Qed.

Lemma exit_table_inv s status u s' : task_inv s -> init_proc s <> Some (current_task s) ->
  current_task s <> idle_task s ->
  exit_table status s = Ok (u, s') -> task_inv s'.
Proof.
  intros T Hni Hnd E. unfold exit_table in E. apply bind_Ok_inv in E as (? & ? & E0 & E). injection E0 as <- <-.
  cbv zeta in E. set (cur := current_task s) in *. apply bind_Ok_inv in E as (x & s1 & E1 & E).
  apply get_task_inv in E1 as [-> Ex]. destruct (parent x) as [p|]; [|done].
  apply bind_Ok_inv in E as (px & s1 & E1 & E). apply get_task_inv in E1 as [-> Epx].
  set (P := fun s1 => task_inv s1 /\ current_task s1 = cur /\ init_proc s1 = init_proc s /\ idle_task s1 = idle_task s).
  apply bind_Ok_inv in E as (v & s1 & E1 & E).
  assert (P s1) as P1.
  { case_bool_decide as Hw; [|injection E1 as _ <-; by split_and!].
    apply task_wakeup_inv in E1 as (T1 & C1 & I1 & D1 & _); [by split_and!|done|].
    unfold state_at. rewrite Epx. simpl. congruence. }
  apply bind_Ok_inv in E as (v' & s2 & E2 & E).
  assert (P s2) as (T2 & C2 & I2 & D2).
  { eapply (for_loop_pres P); [|exact P1|exact E2]. clear -H0 H. intros k s3 w s4 (T3 & C3 & I3 & D3) E3.
    apply bind_Ok_inv in E3 as (t & ? & E4 & E3). apply get_task_inv in E4 as [-> Et].
    case_bool_decide; [|injection E3 as _ <-; by split_and!].
    apply bind_Ok_inv in E3 as (? & ? & E0 & E3). injection E0 as <- <-.
    apply bind_Ok_inv in E3 as (? & s5 & E5 & E3). injection E5 as _ <-.
    change (set_table _ s3) with (with_task (Z.of_nat k) (set_parent (init_proc s3) t) s3) in E3.
    assert (task_inv (with_task (Z.of_nat k) (set_parent (init_proc s3) t) s3)) as T5 by (by apply (task_inv_with s3 _ t)).
    case_bool_decide; [|injection E3 as _ <-; by split_and!].
    unfold wake_init in E3. apply bind_Ok_inv in E3 as (? & ? & E0 & E3). injection E0 as <- <-.
    destruct (init_proc (with_task _ _ s3)) as [i|] eqn:Ei; [|done].
    apply task_wakeup_inv in E3 as (T6 & C6 & I6 & D6 & _); [|done|].
    - split_and!; [done|by rewrite C6|by rewrite I6|by rewrite D6].
    - destruct (ti_init _ T5 i Ei) as (st & -> & ? & _). congruence. }
  apply bind_Ok_inv in E as (? & s3 & E3 & E). apply upd_task_inv in E3 as (y & Ey & ->).
  rewrite <- C2 in E, Ey. eapply schedule_after; [exact T2|exact Ey| | | | |exact E]; try done.
  - destruct T2 as [V2 R2 _ _]. destruct (v_tasks _ V2 _ _ Ey) as (_ & ? & ?); [|done]. unfold running, state_at in R2.
    rewrite Ey in R2. injection R2 as R2. congruence.
  - intros _. by rewrite I2, C2, D2.
Qed.

(** Freeing a zombie or an unstarted task. *)
Lemma task_free_inv s t r s' : task_inv s -> init_proc s <> Some t -> t <> idle_task s -> task_free t s = Ok (r, s') ->
  task_inv s'.
Proof.
  intros [V R I Z] Hni Hid E. unfold task_free in E. apply bind_Ok_inv in E as (x & ? & E1 & E).
  apply get_task_inv in E1 as [-> Ex]. apply bind_Ok_inv in E as (? & ? & E1 & E). apply ASSERT_inv in E1 as [Ha ->].
  apply bind_Ok_inv in E as (? & s1 & E1 & E).
  destruct (bool_decide (state x <> TASK_ZOMBIE) && bool_decide (state x <> TASK_ALLOCATED)) eqn:Eb; [done|].
  injection E1 as _ <-. apply bind_Ok_inv in E as (? & s1 & E1 & E). injection E1 as _ <-. injection E as _ <-.
  set (y := MkTask _ _ _ _ _ _ _ _ _ _ _ _).
  change (set_table _ s) with (with_task t y s).
  assert (state x = TASK_ZOMBIE \/ state x = TASK_ALLOCATED) as Hx.
  { apply andb_false_iff in Eb as [Eb|Eb]; apply bool_decide_eq_false in Eb; [left|right]; by apply dec_stable. }
  assert (forall t', t <> t' -> state_at (with_task t y s) t' = state_at s t') as Hst.
  { intros t' Ht'. rewrite (state_at_with s t x) by done. by rewrite decide_False. }
  split.
  - apply (inv_with s t x); try done. simpl. destruct Hx; naive_solver congruence.
  - unfold running. rewrite Hst; [exact R|]. simpl. intros ->. unfold running, state_at in R. rewrite Ex in R.
    injection R as R. destruct Hx; congruence.
  - intros i Hi. rewrite Hst; [by apply I|]. intros ->. done.
  - by rewrite Hst.
Qed.
End preserve.
Lemma find_unused_spec s : forall l i t, (forall k x, l !! k = Some x -> task_at s (i + Z.of_nat k) = Some x) ->
  find_unused i l = Some t -> exists x, task_at s t = Some x /\ state x = TASK_UNUSED.
Proof.
  induction l as [|x l IH]; intros i t Hl E; simpl in E; [done|]. case_bool_decide.
  - injection E as <-. exists x. split; [|done]. rewrite <- (Hl 0%nat x); [f_equal; lia|done].
  - apply (IH (i + 1)); [|done]. intros k y Hk. rewrite <- (Hl (S k) y); [f_equal; lia|done].
Qed.

Lemma table_at s k x : task_table s !! k = Some x -> task_at s (0 + Z.of_nat k) = Some x.
Proof.
  intros E. unfold task_at. rewrite (proj2 (Z.ltb_ge _ _)) by lia. by rewrite Z.add_0_l, Nat2Z.id.
Qed.

Definition count_pid (s : tst) : tst :=
  Tst (task_table s) (rq_list s) (running_task_cnt s) (current_task s) (idle_task s) (init_proc s) (i32 (next_pid s + 1)).

Lemma task_inv_count s : task_inv s -> task_inv (count_pid s).
Proof. intros [[] R I Z]. by split; [split|..]. Qed.

Lemma unused_inv s t x y : task_inv s -> task_at s t = Some x -> state x = TASK_UNUSED ->
  state y = TASK_ALLOCATED /\ runnable y \/ state y = TASK_UNUSED -> task_inv (with_task t y s).
Proof.
  intros [V R I Z] E Hu Hy.
  assert (forall t', t <> t' -> state_at (with_task t y s) t' = state_at s t') as Hst.
  { intros t' Ht'. rewrite (state_at_with s t x) by done. by rewrite decide_False. }
  split.
  - apply (inv_with s t x); try done; rewrite ?Hu.
    + destruct Hy as [[-> _]| ->]; done.
    + destruct Hy as [[-> _]| ->]; done.
    + naive_solver.
    + intros ->. destruct (v_idle _ V) as (z & Ez & Hz). congruence.
  - unfold running. rewrite Hst; [exact R|]. simpl. intros ->. unfold running, state_at in R. rewrite E in R.
    injection R as R. congruence.
  - intros i Hi. rewrite Hst; [by apply I|]. intros ->. destruct (I i Hi) as (st & Hs & Hn & _).
    unfold state_at in Hs. rewrite E in Hs. injection Hs as Hs. congruence.
  - rewrite Hst; [done|]. intros Hi. change (t = idle_task s) in Hi. subst t. destruct (v_idle _ V) as (z & Ez & Hz). congruence.
Qed.

Lemma kthread_create_inv s prio nm page r s' : task_inv s -> 0 < prio < 2 ^ 32 ->
  kthread_create prio nm page s = Ok (r, s') -> task_inv s'.
Proof.
  intros T Hp E. unfold kthread_create in E. apply bind_Ok_inv in E as (o & s1 & E1 & E). unfold task_alloc in E1.
  apply bind_Ok_inv in E1 as (? & ? & E0 & E1). injection E0 as <- <-.
  destruct (find_unused 0 (task_table s)) as [t|] eqn:Ef.
  2: { injection E1 as <- <-. by injection E as _ <-. }
  apply (find_unused_spec s) in Ef as (x & Ex & Hu); [|apply table_at].
  apply bind_Ok_inv in E1 as (x' & ? & E2 & E1). apply get_task_inv in E2 as [-> Ex']. rewrite Ex in Ex'. injection Ex' as <-.
  apply bind_Ok_inv in E1 as (? & s2 & E2 & E1). injection E2 as _ <-.
  apply bind_Ok_inv in E1 as (? & s2 & E2 & E1). injection E2 as _ <-. injection E1 as <- <-.
  set (y1 := set_pid (next_pid s) (set_state TASK_ALLOCATED x)) in E.
  change (Tst _ _ _ _ _ _ _) with (with_task t y1 (count_pid s)) in E.
  assert (forall y z, task_at (with_task t y (count_pid s)) t = Some z -> z = y) as Hat.
  { intros y z. rewrite (task_at_with (count_pid s) t x) by done. rewrite decide_True by done. by injection 1. }
  apply bind_Ok_inv in E as (? & s2 & E2 & E). unfold init_task_struct in E2.
  apply bind_Ok_inv in E2 as (? & ? & E0 & E2). injection E0 as <- <-.
  apply upd_task_inv in E2 as (z & Ez & ->). apply Hat in Ez as ->. rewrite with_with in E.
  apply bind_Ok_inv in E as (ok & s3 & E3 & E). unfold init_task_stack in E3.
  apply bind_Ok_inv in E3 as (? & s4 & E4 & E3). apply upd_task_inv in E4 as (z & Ez & ->). apply Hat in Ez as ->.
  rewrite with_with in E3. injection E3 as <- <-.
  destruct page as [pg|].
  - injection E as _ <-. apply (unused_inv (count_pid s) t x); try done; [by apply task_inv_count|]. left. split; [done|].
    split; [done|]. simpl. lia.
  - apply bind_Ok_inv in E as (? & s3 & E3 & E). injection E as _ <-. unfold task_free in E3.
    apply bind_Ok_inv in E3 as (z & ? & E4 & E3). apply get_task_inv in E4 as [-> Ez]. apply Hat in Ez as ->.
    apply bind_Ok_inv in E3 as (? & s4 & E4 & E3). injection E4 as _ <-.
    apply bind_Ok_inv in E3 as (? & s4 & E4 & E3). injection E4 as _ <-.
    apply bind_Ok_inv in E3 as (? & s4 & E4 & E3). injection E4 as _ <-. injection E3 as _ <-.
    match goal with |- task_inv (set_table (<[_ := ?y]> _) (with_task _ ?y0 _)) =>
      change (task_inv (with_task t y (with_task t y0 (count_pid s)))) end.
    rewrite with_with. apply (unused_inv (count_pid s) t x); try done; [by apply task_inv_count|]. by right.
Qed.

Lemma wait_scan_spec s cur : forall l i b, (forall k x, l !! k = Some x -> task_at s (i + Z.of_nat k) = Some x) ->
  match wait_scan cur i l b with
  | inl t => exists k x, t = i + Z.of_nat k /\ l !! k = Some x /\ parent x = Some cur /\ state x = TASK_ZOMBIE /\
      forall j y, (j < k)%nat -> l !! j = Some y -> ~ (parent y = Some cur /\ state y = TASK_ZOMBIE)
  | inr r => (forall k x, l !! k = Some x -> ~ (parent x = Some cur /\ state x = TASK_ZOMBIE)) /\
      (r = true <-> b = true \/ exists k x, l !! k = Some x /\ parent x = Some cur)
  end.
Proof.
  induction l as [|x l IH]; intros i b Hl; cbn [wait_scan].
  { split; [by intros k x Hk|]. split; [by left|]. intros [?|(k & x & Hk & _)]; done. }
  assert (forall k y, l !! k = Some y -> task_at s (i + 1 + Z.of_nat k) = Some y) as Hl'.
  { intros k y Hk. rewrite <- (Hl (S k) y); [f_equal; lia|done]. }
  case_bool_decide as Hp; [case_bool_decide as Hz|].
  - exists 0%nat, x. split_and!; [lia|done|done|done|lia].
  - specialize (IH (i + 1) true Hl'). destruct (wait_scan cur (i + 1) l true) as [t|r].
    + destruct IH as (k & y & -> & H1 & H2 & H3 & H4). exists (S k), y. split_and!; [lia|done|done|done|].
      intros [|j] z Hj Hjz; [injection Hjz as <-; naive_solver|]. apply (H4 j); [lia|done].
    + destruct IH as [H1 H2]. split.
      * intros [|k] y Hk; [injection Hk as <-; naive_solver|by apply (H1 k)].
      * rewrite H2. split; [intros _; right; by exists 0%nat, x|by left].
  - specialize (IH (i + 1) b Hl'). destruct (wait_scan cur (i + 1) l b) as [t|r].
    + destruct IH as (k & y & -> & H1 & H2 & H3 & H4). exists (S k), y. split_and!; [lia|done|done|done|].
      intros [|j] z Hj Hjz; [injection Hjz as <-; naive_solver|]. apply (H4 j); [lia|done].
    + destruct IH as [H1 H2]. split.
      * intros [|k] y Hk; [injection Hk as <-; naive_solver|by apply (H1 k)].
      * rewrite H2. split; (intros [?|(k & y & Hk & Hpy)]; [by left|right]).
        -- by exists (S k), y.
        -- destruct k as [|k]; [injection Hk as <-; done|by exists k, y].
Qed.
(** ** Steps of the kernel on the task table *)

Section steps.
Context `{SchedularLaws}.

(** What the running task, or an interrupt during it, can do to the table. *)
Inductive tstep (s : tst) : tst -> Prop :=
| St_yield s' : task_yield s = Ok (tt, s') -> tstep s s'
| St_block s' : task_block s = Ok (tt, s') -> tstep s s'
| St_wakeup t s' : state_at s t <> Some TASK_UNUSED -> task_wakeup t s = Ok (tt, s') -> tstep s s'
| St_exit status s' : init_proc s <> Some (current_task s) -> current_task s <> idle_task s ->
    exit_table status s = Ok (tt, s') -> tstep s s'
| St_wait r s' : task_wait_turn s = Ok (r, s') -> tstep s s'
| St_kill p r s' : task_kill p s = Ok (r, s') -> tstep s s'
| St_create prio nm page r s' : 0 < prio < 2 ^ 32 -> kthread_create prio nm page s = Ok (r, s') -> tstep s s'
| St_tick s' : timeslice_check s = Ok (tt, s') -> tstep s s'.

Lemma tick_inv s u s' : task_inv s -> timeslice_check s = Ok (u, s') -> task_inv s'.
Proof.
  intros T E. unfold timeslice_check in E. apply bind_Ok_inv in E as (? & ? & E0 & E). injection E0 as <- <-.
  apply bind_Ok_inv in E as (b & s1 & E1 & E). pose proof T as [V R I Z].
  pose proof (v_cur _ V) as [x Ex].
  assert (runnable x) as (_ & _ & Hx).
  { apply (v_tasks _ V _ _ Ex). unfold running, state_at in R. rewrite Ex in R. injection R as R. congruence. }
  destruct (slice_law s _ x Ex Hx) as (b' & s1' & E1' & F & Q). rewrite E1 in E1'. injection E1' as <- <-.
  assert (task_inv s1) as T1.
  { split; [by apply (frame_inv s)|..].
    - unfold running. rewrite (f_current _ _ F), (frame_state _ _ _ F). exact R.
    - intros i Hi. rewrite (f_init _ _ F) in Hi. rewrite (frame_state _ _ _ F). by apply I.
    - by rewrite (frame_state _ _ _ F), (f_idle _ _ F). }
  destruct b; [by eapply schedule_inv|by injection E as _ <-].
Qed.

Lemma task_block_inv s u s' : task_inv s -> task_block s = Ok (u, s') -> task_inv s'.
Proof.
  intros T E. unfold task_block in E. apply bind_Ok_inv in E as (? & ? & E0 & E). injection E0 as <- <-.
  apply bind_Ok_inv in E as (? & s1 & E1 & E). apply upd_task_inv in E1 as (x1 & Ex & ->).
  pose proof T as [V R I Z]. unfold running, state_at in R. rewrite Ex in R. injection R as R.
  eapply schedule_after; [exact T|exact Ex|..|exact E]; try done.
  destruct (v_tasks _ V _ _ Ex) as (_ & ? & ?); [congruence|done].
Qed.

Lemma task_wait_inv s r s' : task_inv s -> task_wait_turn s = Ok (r, s') -> task_inv s'.
Proof.
  intros T E. unfold task_wait_turn in E. apply bind_Ok_inv in E as (? & ? & E0 & E). injection E0 as <- <-. cbv zeta in E.
  pose proof (wait_scan_spec s (current_task s) (task_table s) 0 false (table_at s)) as Hs.
  pose proof T as [V R I Z]. destruct (wait_scan _ _ _ _) as [t|[]].
  - destruct Hs as (k & y & -> & Hk & _ & Hz & _). apply table_at in Hk.
    apply bind_Ok_inv in E as (? & ? & E1 & E). apply get_task_inv in E1 as [-> Ex]. rewrite Hk in Ex. injection Ex as <-.
    apply bind_Ok_inv in E as (? & s1 & E1 & E). injection E as _ <-. eapply task_free_inv; [exact T| | |exact E1].
    + intros Hi. destruct (I _ Hi) as (st & Hst & _ & Hn). unfold state_at in Hst. rewrite Hk in Hst. simpl in Hst. congruence.
    + intros Hi. apply Z. unfold state_at. rewrite <- Hi, Hk. simpl. congruence.
  - apply bind_Ok_inv in E as (? & s1 & E1 & E). apply upd_task_inv in E1 as (x1 & Ex & ->).
    apply bind_Ok_inv in E as (? & s1 & E1 & E). injection E as _ <-.
    unfold running, state_at in R. rewrite Ex in R. injection R as R.
    eapply schedule_after; [exact T|exact Ex|..|exact E1]; try done.
    destruct (v_tasks _ V _ _ Ex) as (_ & ? & ?); [congruence|done].
  - by injection E as _ <-.
Qed.

Lemma task_kill_inv s p r s' : task_inv s -> task_kill p s = Ok (r, s') -> task_inv s'.
Proof.
  intros T E. unfold task_kill in E. apply bind_Ok_inv in E as (? & ? & E0 & E). injection E0 as <- <-.
  destruct (find_pid _ _ _) as [t|]; [|by injection E as _ <-].
  apply bind_Ok_inv in E as (? & s1 & E1 & E). apply upd_task_inv in E1 as (x1 & Ex & ->).
  assert (task_inv (with_task t (set_killed true x1) s)) as T1 by (by apply (task_inv_with s t x1)).
  apply bind_Ok_inv in E as (y & ? & E1 & E). apply get_task_inv in E1 as [-> Ey].
  apply bind_Ok_inv in E as (? & s2 & E2 & E). injection E as _ <-.
  destruct (bool_decide (state y = TASK_BLOCKED) || bool_decide (state y = TASK_WAITING)) eqn:Eb.
  - apply task_wakeup_inv in E2 as (T2 & _); [done|done|]. unfold state_at. rewrite Ey. simpl.
    apply orb_true_iff in Eb as [Eb|Eb]; apply bool_decide_eq_true in Eb; congruence.
  - by injection E2 as _ <-.
Qed.

Lemma tstep_inv s s' : task_inv s -> tstep s s' -> task_inv s'.
Proof.
  intros T St. destruct St.
  - unfold task_yield in *.
    match goal with E : _ = Ok (tt, s') |- _ => apply bind_Ok_inv in E as (? & ? & E0 & E); injection E0 as <- <-;
      apply bind_Ok_inv in E as (? & ? & E1 & E); apply get_task_inv in E1 as [-> _];
      apply bind_Ok_inv in E as (? & ? & E1 & E); apply ASSERT_inv in E1 as [_ ->]; by eapply schedule_inv end.
  - by eapply task_block_inv.
  - by eapply task_wakeup_inv.
  - by eapply exit_table_inv.
  - by eapply task_wait_inv.
  - by eapply task_kill_inv.
  - by eapply kthread_create_inv.
  - by eapply tick_inv.
Qed.

(** C14: whatever sequence of yields, blocks, wake-ups, exits, waits, kills, thread
    creations and timer ticks the kernel goes through, under any lawful scheduling
    policy, the task table stays consistent: the current task is the one and only that is
    running, the ready queue holds exactly the ready tasks, each once and the idle task
    never, and every task in use can be scheduled. *)
Theorem task_table_consistent s s' : rtc tstep s s' -> task_inv s -> task_inv s'.
Proof. induction 1 as [|s1 s2 s3 St _ IH]; [done|]. intros T. apply IH. by eapply tstep_inv. Qed.
End steps.
Section wait.
Context `{SchedularLaws}.

(** [task_wait].  A task with a child that has exited gets the pid and the exit status
    of the first one in the table, whose entry is free again and whose kernel stack and
    address space are released, and nothing else changes; without any child it is told
    so; a task whose children all live waits, and another task runs. *)
Theorem task_wait_correct s : task_inv s ->
  let child t x := task_at s t = Some x /\ parent x = Some (current_task s) in
  (exists t x s', child t x /\ state x = TASK_ZOMBIE /\
     (forall t' x', t' < t -> child t' x' -> state x' <> TASK_ZOMBIE) /\
     task_wait_turn s = Ok ((Reaped (pid x) (exit_status x), free_memory x), s') /\
     state_at s' t = Some TASK_UNUSED /\ (forall t', t' <> t -> task_at s' t' = task_at s t')) \/
  ((forall t x, ~ child t x) /\ task_wait_turn s = Ok ((NoChildren, []), s)) \/
  ((exists t x, child t x) /\ (forall t x, child t x -> state x <> TASK_ZOMBIE) /\
   exists s', task_wait_turn s = Ok ((Waits, []), s') /\ task_inv s').
Proof.
  intros T child. unfold task_wait_turn. rewrite (bind_Ok _ _ _ s s) by done. cbv zeta.
  pose proof (wait_scan_spec s (current_task s) (task_table s) 0 false (table_at s)) as Hs.
  destruct (wait_scan _ _ _ _) as [t|[]].
  - left. destruct Hs as (k & x & -> & Hk & Hp & Hz & Hmin). pose proof (table_at _ _ _ Hk) as Ex.
    eexists _, x, _. split_and!; [done|done|..].
    + intros t' x' Ht' [Ex' Hp'] Hz'. apply task_at_nonneg in Ex' as [H0' Ex']. apply (Hmin (Z.to_nat t') x'); [lia|done|done].
    + rewrite (bind_Ok _ _ _ _ _ (task_at_get _ _ _ Ex)). unfold task_free.
      erewrite bind_Ok; [reflexivity|]. rewrite (bind_Ok _ _ _ _ _ (task_at_get _ _ _ Ex)).
      rewrite Hz. erewrite bind_Ok; [|reflexivity]. erewrite bind_Ok; [|reflexivity]. reflexivity.
    + match goal with |- context [set_table (<[_ := ?y]> _) _] =>
        change (state_at (with_task (0 + Z.of_nat k) y s) (0 + Z.of_nat k) = Some TASK_UNUSED) end.
      rewrite (state_at_with s _ x) by done. by rewrite decide_True.
    + intros t' Ht'. match goal with |- context [set_table (<[_ := ?y]> _) _] =>
        change (task_at (with_task (0 + Z.of_nat k) y s) t' = task_at s t') end.
      rewrite (task_at_with s _ x) by done. by rewrite decide_False.
  - right. right. destruct Hs as [Hnz [Hc _]]. destruct (Hc eq_refl) as [?|(k & x & Hk & Hp)]; [done|].
    split; [exists (0 + Z.of_nat k), x; split; [by apply table_at|done]|]. split.
    { intros t y [Ey Hpy] Hzy. apply task_at_nonneg in Ey as [_ Ey]. by apply (Hnz _ _ Ey). }
    pose proof T as [V R _ _]. destruct (v_cur _ V) as [c Ec]. unfold running, state_at in R. rewrite Ec in R. injection R as R.
    assert (runnable (set_state TASK_WAITING c)) as Hrun
      by (destruct (v_tasks _ V _ _ Ec) as (_ & ? & ?); [congruence|done]).
    destruct (schedule_spec (with_task (current_task s) (set_state TASK_WAITING c) s)) as (s' & Es & _).
    { apply (inv_with s _ c); try done. simpl. rewrite R. done. }
    exists s'. split; [|eapply schedule_after; [exact T|exact Ec| | |exact Hrun| |exact Es]; done].
    erewrite bind_Ok; [|unfold upd_task; erewrite bind_Ok; [|apply task_at_get; exact Ec]; reflexivity].
    erewrite bind_Ok; [|exact Es]. reflexivity.
  - right. left. destruct Hs as [_ [_ Hc]]. split; [|done]. intros t x [Ex Hp].
    apply task_at_nonneg in Ex as [_ Ex]. enough (false = true) by done. apply Hc. right. eauto.
Qed.
End wait.

(** *** Small task tables *)

Definition demo_child (par : Z) (st : task_status) (status : Z) : task_struct :=
  MkTask 7 [] st 10 10 (Some 0x80500000) (VmUser 3) (Some par) false status [] None.

(** Task 0 is running and has the zombies 3 and 4 as children; init, task 2, waits. *)
Definition demo_orphans : tst :=
  Tst (demo_child 2 TASK_RUNNING 0 :: demo_task TASK_BLOCKED 10 :: demo_task TASK_WAITING 10
       :: demo_child 0 TASK_ZOMBIE 5 :: demo_child 0 TASK_ZOMBIE 6 :: replicate 123 (demo_task TASK_UNUSED 0))
      [] 0 0 1 (Some 2) 8.

Lemma demo_orphans_at t x : task_at demo_orphans t = Some x ->
  (t = 0 /\ x = demo_child 2 TASK_RUNNING 0) \/ (t = 1 /\ x = demo_task TASK_BLOCKED 10) \/
  (t = 2 /\ x = demo_task TASK_WAITING 10) \/ (t = 3 /\ x = demo_child 0 TASK_ZOMBIE 5) \/
  (t = 4 /\ x = demo_child 0 TASK_ZOMBIE 6) \/ (5 <= t /\ x = demo_task TASK_UNUSED 0).
Proof.
  intros E. apply task_at_nonneg in E as [Ht E]. unfold demo_orphans in E. cbn [task_table] in E.
  destruct (Z.to_nat t) as [|[|[|[|[|n]]]]] eqn:En; cbn [lookup list_lookup] in E; try (injection E as <-).
  - left. split; [lia|done].
  - right; left. split; [lia|done].
  - right; right; left. split; [lia|done].
  - do 3 right; left. split; [lia|done].
  - do 4 right; left. split; [lia|done].
  - do 5 right. split; [lia|]. by apply lookup_replicate in E as [-> _].
Qed.

Lemma demo_orphans_inv : task_inv demo_orphans.
Proof.
  split; [split|..].
  - done.
  - by eexists.
  - by exists (demo_task TASK_BLOCKED 10).
  - intros t x E Hu. apply demo_orphans_at in E. destruct_or! E; destruct E as [_ ->]; try done; split; try done; simpl; lia.
  - constructor.
  - apply not_elem_of_nil.
  - intros t. split; [intros Hin; by apply elem_of_nil in Hin|]. unfold state_at.
    destruct (task_at demo_orphans t) as [x|] eqn:E; [|done]. intros Hs. injection Hs as Hs.
    apply demo_orphans_at in E. destruct_or! E; destruct E as [_ ->]; done.
  - intros t. unfold state_at. destruct (task_at demo_orphans t) as [x|] eqn:E; [|done]. intros Hs. injection Hs as Hs.
    apply demo_orphans_at in E. destruct_or! E; destruct E as [Et ->]; done.
  - done.
  - intros i Hi. injection Hi as <-. exists TASK_WAITING. done.
  - done.
Qed.

(** a task that exits and leaves two children that have already exited stops the
    kernel.  [task_exit] wakes init up for each of them, and the second
    [task_wakeup(init_proc)] meets a task that is already ready; with either scheduling
    policy the exit of a consistent system ends in the panic of the assertion. *)
Theorem task_exit_orphans_panic :
  exists s, task_inv s /\ init_proc s <> Some (current_task s) /\
    exit_table (H := round_robin) 0 s = Panic /\ exit_table (H := linux011) 0 s = Panic.
Proof.
  exists demo_orphans. split_and!; [apply demo_orphans_inv|done|by vm_compute|by vm_compute].
Qed.

Lemma task_wait_correct_witness :
  exists s', task_wait_turn (H := round_robin) demo_orphans
    = Ok ((Reaped 7 5, [Page 0x80500000; Vm 3]), s') /\ state_at s' 3 = Some TASK_UNUSED.
Proof.
  destruct (task_wait_correct (H := round_robin) demo_orphans demo_orphans_inv)
    as [(t & x & s' & [E P] & Z & Hmin & Er & Hu & _)|[[Hn _]|[_ [Hn _]]]].
  - assert (t = 3 /\ x = demo_child 0 TASK_ZOMBIE 5) as [-> ->].
    { apply demo_orphans_at in E. destruct_or! E; destruct E as [Et ->]; try done. }
    exists s'. split; [exact Er|exact Hu].
  - exfalso. by apply (Hn 3 (demo_child 0 TASK_ZOMBIE 5)).
  - exfalso. by apply (Hn 3 (demo_child 0 TASK_ZOMBIE 5)).
Defined.

Lemma task_table_consistent_witness :
  exists s', task_yield (H := round_robin) demo_orphans = Ok (tt, s') /\ task_inv s'.
Proof.
  assert (exists s', task_yield (H := round_robin) demo_orphans = Ok (tt, s')) as [s' E]
    by (eexists; vm_compute; reflexivity).
  exists s'. split; [exact E|].
  apply (task_table_consistent (H := round_robin) demo_orphans s'); [|apply demo_orphans_inv].
  apply rtc_once. by apply St_yield.
Defined.

(** ** Exit *)

Section exit_spec.
Context `{SchedularLaws}.

(** [schedule] when the current task does not go on: the other tasks are the same but for
    their time slices and the state of the one that runs now. *)
Lemma schedule_leaves s x : sched_inv s -> task_at s (current_task s) = Some x ->
  state x <> TASK_RUNNING -> state x <> TASK_READY -> current_task s <> idle_task s ->
  exists s', schedule s = Ok (tt, s') /\ current_task s' <> current_task s /\
    state_at s (current_task s') <> Some TASK_UNUSED /\
    (forall t z, task_at s t = Some z -> exists z', task_at s' t = Some z' /\
       same_task (if decide (t = current_task s') then set_state TASK_RUNNING z else z) z').
Proof.
  intros V Ex Hnr Hnrd Hni. pose proof V as [V1 V2 V3 V4 V5 V6 V7 V8]. pose proof (inv_queue _ V) as Q.
  assert (exists t s2, pick_task s = Ok (t, s2) /\ frame s s2 /\ (t = idle_task s \/ t ∈ rq_list s)) as (t & s2 & Ep & F & Ht).
  { destruct (decide (rq_list s = [])) as [N|N].
    - destruct (pick_idle_law s Q N) as (s2 & E & F & _). exists (idle_task s), s2. auto.
    - destruct (pick_law s Q N) as (t & s2 & E & F & P). exists t, s2. split_and!; [done|done|]. right. rewrite P. by left. }
  assert (is_Some (task_at s t)) as [y Ey].
  { destruct Ht as [->|Ht]; [destruct V3 as (z & -> & _); by eexists|]. apply V7 in Ht. unfold state_at in Ht. destruct (task_at s t); [by eexists|done]. }
  destruct (f_tasks _ _ F t y Ey) as (y2 & Ey2 & Sy).
  exists (set_current t (with_task t (set_state TASK_RUNNING y2) s2)). split_and!.
  - unfold schedule. rewrite (bind_Ok _ _ _ s s) by done. cbv zeta. rewrite (bind_Ok _ _ _ _ _ (task_at_get _ _ _ Ex)).
    rewrite (proj2 (Z.eqb_neq _ _)) by done. rewrite bool_decide_eq_false_2 by done. rewrite (bind_Ok _ _ _ tt s) by done.
    rewrite (bind_Ok _ _ _ _ _ Ep). unfold upd_task.
    rewrite (bind_Ok _ _ _ tt (with_task t (set_state TASK_RUNNING y2) s2)); [done|].
    by rewrite (bind_Ok _ _ _ _ _ (task_at_get _ _ _ Ey2)).
  - simpl. intros ->. destruct Ht as [Ht|Ht]; [done|]. apply V7 in Ht. unfold state_at in Ht. rewrite Ex in Ht. injection Ht as Ht. done.
  - simpl. destruct Ht as [->|Ht]; [|apply V7 in Ht; congruence].
    destruct V3 as (z & Ez & Hz). unfold state_at. rewrite Ez. simpl. intros [= Hu]. destruct_or? Hz; naive_solver congruence.
  - intros t' z Ez. change (current_task (set_current _ _)) with t. change (task_at (set_current t ?a) t') with (task_at a t').
    rewrite (task_at_with s2 t y2) by done. case_decide as D.
    + subst t'. rewrite Ey in Ez. injection Ez as <-. rewrite decide_True by done. eexists. split; [done|].
      destruct Sy as [-> Hs]. split; [by destruct y|exact Hs].
    + rewrite decide_False by congruence. by apply (f_tasks _ _ F).
Qed.

(** The loop of [task_exit] over the table. *)
Definition adopt (c : Z) (i : option Z) (x : task_struct) : task_struct :=
  if bool_decide (parent x = Some c) then set_parent i x else x.

Lemma adopt_loop c n : forall k s, length (task_table s) = (k + n)%nat ->
  (forall j x, (k <= j)%nat -> task_table s !! j = Some x -> parent x = Some c -> state x <> TASK_ZOMBIE) ->
  for_loop n k (fun k =>
        t ← get_task (Z.of_nat k);
        if bool_decide (parent t = Some c) then
          s ← get;
          set_task (Z.of_nat k) (set_parent (init_proc s) t);;
          if bool_decide (state t = TASK_ZOMBIE) then wake_init else mret tt
        else mret tt) s =
    Ok (tt, set_table (take k (task_table s) ++ map (adopt c (init_proc s)) (drop k (task_table s))) s).
Proof.
  induction n as [|n IH]; intros k s Hl Hz.
  { simpl. rewrite drop_ge, take_ge, app_nil_r by lia. by destruct s. }
  destruct (lookup_lt_is_Some_2 (task_table s) k) as [x Hx]; [lia|].
  assert (task_at s (Z.of_nat k) = Some x) as Ex by (unfold task_at; rewrite (proj2 (Z.ltb_ge _ _)) by lia; by rewrite Nat2Z.id).
  cbn [for_loop]. set (s1 := with_task (Z.of_nat k) (adopt c (init_proc s) x) s).
  match goal with |- (?m ≫= _) s = _ => assert (m s = Ok (tt, s1)) as E1 end.
  { rewrite (bind_Ok _ _ _ _ _ (task_at_get _ _ _ Ex)). unfold s1, adopt. case_bool_decide as Hp.
    - rewrite (bind_Ok _ _ _ s s) by done. rewrite bool_decide_eq_false_2 by (by apply (Hz k x)). done.
    - unfold mret, M_ret. do 2 f_equal. unfold with_task, set_table. rewrite Nat2Z.id, list_insert_id by done. by destruct s. }
  rewrite (bind_Ok _ _ _ _ _ E1).
  assert (task_table s1 = <[k := adopt c (init_proc s) x]> (task_table s)) as Ht by (unfold s1; simpl; by rewrite Nat2Z.id).
  rewrite IH; rewrite Ht.
  - unfold s1, with_task, set_table. simpl. do 3 f_equal. rewrite (drop_S (task_table s) x k) by done. simpl.
    rewrite drop_insert_lt by lia. rewrite take_S_r with (x := adopt c (init_proc s) x) by (by rewrite list_lookup_insert_eq by lia).
    rewrite take_insert_ge by lia. by rewrite <- app_assoc.
  - rewrite length_insert. lia.
  - intros j y Hj. rewrite list_lookup_insert_ne by lia. apply Hz. lia.
Qed.
Lemma task_at_map f s t : task_at (set_table (map f (task_table s)) s) t = f <$> task_at s t.
Proof. unfold task_at. destruct (t <? 0); [done|]. simpl. apply list_lookup_fmap. Qed.

Lemma map_inv f s : (forall x, state (f x) = state x /\ priority (f x) = priority x /\ time_slice (f x) = time_slice x) ->
  task_inv s -> task_inv (set_table (map f (task_table s)) s).
Proof.
  intros Hf [[V1 V2 V3 V4 V5 V6 V7 V8] R I Z]. set (s' := set_table _ s).
  assert (forall t, state_at s' t = state_at s t) as Hst.
  { intros t. unfold state_at, s'. rewrite task_at_map. destruct (task_at s t) as [x|]; [|done]. simpl. by rewrite (proj1 (Hf x)). }
  split; [split|..].
  - unfold s'. simpl. by rewrite length_map.
  - unfold s'. rewrite task_at_map. destruct V2 as [x Ex]. simpl. rewrite Ex. by eexists.
  - destruct V3 as (x & Ex & Hx). exists (f x). unfold s'. rewrite task_at_map. simpl. rewrite Ex. by rewrite (proj1 (Hf x)).
  - intros t x. unfold s'. rewrite task_at_map. intros (z & Ez & ->)%fmap_Some Hu. destruct (Hf z) as (F1 & F2 & F3).
    rewrite F1 in Hu. destruct (V4 t z Ez Hu) as (R1 & R2 & R3). split; [by rewrite F1|by rewrite F2, F3].
  - exact V5.
  - exact V6.
  - intros t. rewrite Hst. apply V7.
  - intros t. rewrite Hst. apply V8.
  - unfold running. rewrite Hst. exact R.
  - intros i Hi. rewrite Hst. by apply I.
  - by rewrite Hst.
Qed.

(** What [task_exit] leaves of the task [z]: the children of [c] are adopted by init. *)
Definition after_exit (c : Z) (s : tst) (z z' : task_struct) : Prop :=
  pid z' = pid z /\ parent z' = (if bool_decide (parent z = Some c) then init_proc s else parent z) /\
  exit_status z' = exit_status z /\ kstack_ptr z' = kstack_ptr z /\ vm z' = vm z.

(** The parent is woken up if it waits. *)
Lemma wake_parent s p px : task_inv s -> task_at s p = Some px -> p <> idle_task s ->
  exists s1, (if bool_decide (state px = TASK_WAITING) then task_wakeup p else mret tt) s = Ok (tt, s1) /\
    task_inv s1 /\ current_task s1 = current_task s /\ init_proc s1 = init_proc s /\ idle_task s1 = idle_task s /\
    (state px = TASK_WAITING -> p ∈ rq_list s1) /\
    (forall t z, task_at s t = Some z -> exists z', task_at s1 t = Some z' /\
       same_task (if bool_decide (t = p /\ state px = TASK_WAITING) then set_state TASK_READY z else z) z').
Proof.
  intros T Epx Hpi. case_bool_decide as Hw.
  - destruct (make_ready s p px (ti_sched _ T) Epx) as (s1 & E & V & F & P); [congruence|congruence|done|].
    assert (task_wakeup p s = Ok (tt, s1)) as E'.
    { unfold task_wakeup. rewrite (bind_Ok _ _ _ _ _ (task_at_get _ _ _ Epx)). rewrite (bind_Ok _ _ _ tt s); [exact E|].
      apply ASSERT_true, andb_true_iff. rewrite !bool_decide_eq_true. by rewrite Hw. }
    destruct (task_wakeup_inv s p tt s1 T) as (T1 & C1 & I1 & D1 & _); [unfold state_at; rewrite Epx; simpl; congruence|exact E'|].
    exists s1. split_and!; try done.
    + intros _. rewrite P. by left.
    + intros t z Et. destruct (decide (t = p)) as [->|Hne].
      * rewrite bool_decide_eq_true_2 by done. rewrite Epx in Et. injection Et as <-. apply (f_tasks _ _ F).
        rewrite (task_at_with s p px) by done. by rewrite decide_True.
      * rewrite bool_decide_eq_false_2 by naive_solver. apply (f_tasks _ _ F). rewrite (task_at_with s p px) by done. by rewrite decide_False.
  - exists s. split_and!; try done. intros t z Et. rewrite bool_decide_eq_false_2 by naive_solver. exists z. split; [done|apply same_task_refl].
Qed.

Lemma exit_spec s x p px status : task_inv s -> task_at s (current_task s) = Some x ->
  parent x = Some p -> p <> current_task s -> task_at s p = Some px -> p <> idle_task s ->
  current_task s <> idle_task s -> init_proc s <> Some (current_task s) ->
  (forall t z, task_at s t = Some z -> parent z = Some (current_task s) -> state z <> TASK_ZOMBIE) ->
  exists s' y, exit_table status s = Ok (tt, s') /\ task_inv s' /\ current_task s' <> current_task s /\
    task_at s' (current_task s) = Some y /\ state y = TASK_ZOMBIE /\ exit_status y = status /\
    pid y = pid x /\ parent y = Some p /\ kstack_ptr y = kstack_ptr x /\ vm y = vm x /\ killed y = killed x /\
    state_at s (current_task s') <> Some TASK_UNUSED /\ (state px = TASK_WAITING -> p = current_task s' \/ p ∈ rq_list s') /\
    (forall t z, t <> current_task s -> task_at s t = Some z -> exists z', task_at s' t = Some z' /\ after_exit (current_task s) s z z').
Proof.
  intros T Ex Hp Hpc Epx Hpi Hci Hni Hz. set (c := current_task s) in *.
  assert (state x = TASK_RUNNING) as Hrun.
  { pose proof (ti_running _ T) as R. unfold running, state_at in R. fold c in R. rewrite Ex in R. by injection R. }
  destruct (wake_parent s p px T Epx Hpi) as (s1 & E1 & T1 & C1 & I1 & D1 & W1 & K1). fold c in C1.
  (* the children *)
  set (s2 := set_table (map (adopt c (init_proc s1)) (task_table s1)) s1).
  assert (task_inv s2) as T2 by (apply map_inv; [|exact T1]; intros z; unfold adopt; destruct (bool_decide (parent z = Some c)); done).
  destruct (K1 c x Ex) as (x1 & Ex1 & Sx1). rewrite bool_decide_eq_false_2 in Sx1 by naive_solver.
  pose proof (same_task_fields _ _ Sx1) as (F1 & F2 & F3 & F4 & F5 & F6).
  assert (task_at s2 c = Some x1) as Ex2.
  { unfold s2. rewrite task_at_map, Ex1. simpl. unfold adopt. rewrite bool_decide_eq_false_2; [done|]. rewrite F4, Hp. congruence. }
  set (y := set_exit_status status (set_state TASK_ZOMBIE x1)). set (s3 := with_task c y s2).
  assert (sched_inv s3) as V3.
  { destruct T2 as [V _ _ _]. apply (inv_with s2 c x1); [done|done| |done| |done].
    - simpl. rewrite F1, Hrun. done.
    - intros _. destruct (v_tasks _ V _ _ Ex2) as (_ & R2 & R3); [rewrite F1, Hrun; done|]. done. }
  destruct (schedule_leaves s3 y V3) as (s' & E3 & Hcur & Hun & K3); [|done|done|simpl; by rewrite C1, D1|].
  { change (current_task s3) with (current_task s1). rewrite C1. unfold s3. rewrite (task_at_with s2 c x1) by done. by rewrite decide_True. }
  change (current_task s3) with (current_task s1) in Hcur. rewrite C1 in Hcur.
  assert (exit_table status s = Ok (tt, s')) as E.
  { unfold exit_table. rewrite (bind_Ok _ _ _ s s) by done. cbv zeta. fold c. rewrite (bind_Ok _ _ _ _ _ (task_at_get _ _ _ Ex)), Hp.
    rewrite (bind_Ok _ _ _ _ _ (task_at_get _ _ _ Epx)). rewrite (bind_Ok _ _ _ _ _ E1).
    rewrite (bind_Ok _ _ _ tt s2).
    - unfold upd_task. rewrite (bind_Ok _ _ _ tt s3); [exact E3|]. by rewrite (bind_Ok _ _ _ _ _ (task_at_get _ _ _ Ex2)).
    - rewrite (adopt_loop c (Z.to_nat NTASK) 0 s1).
      + by rewrite take_0, drop_0.
      + exact (v_len _ (ti_sched _ T1)).
      + intros j z _ Hj Hpar. apply table_at in Hj. destruct (task_at s (0 + Z.of_nat j)) as [z0|] eqn:Ez0.
        * destruct (K1 _ _ Ez0) as (z' & Ez' & Sz). rewrite Hj in Ez'. injection Ez' as <-.
          apply same_task_fields in Sz as (G1 & _ & _ & G4 & _). rewrite G1. rewrite G4 in Hpar.
          case_bool_decide as Hb; [done|]. by apply (Hz _ _ Ez0).
        * exfalso. unfold task_at in Ez0, Hj. rewrite (proj2 (Z.ltb_ge _ _)) in Ez0, Hj by lia. apply lookup_lt_Some in Hj. apply lookup_ge_None in Ez0.
          rewrite (v_len _ (ti_sched _ T1)) in Hj. rewrite (v_len _ (ti_sched _ T)) in Ez0. lia. }
  assert (task_at s3 c = Some y) as Ey3 by (unfold s3; rewrite (task_at_with s2 c x1) by done; by rewrite decide_True).
  destruct (K3 c y Ey3) as (y' & Ey' & Sy). rewrite decide_False in Sy by congruence.
  exists s', y'. destruct Sy as [Sy _], Sx1 as [Sx1 _].
  do 3 (split; [first [exact E|by apply (exit_table_inv s status tt s')|done]|]). split; [exact Ey'|].
  do 7 (split; [rewrite Sy; simpl; first [reflexivity|rewrite Sx1; simpl; first [reflexivity|exact Hp]]|]).
  assert (forall t z, t <> c -> task_at s t = Some z -> exists z1, task_at s1 t = Some z1 /\
    same_task (if bool_decide (t = p /\ state px = TASK_WAITING) then set_state TASK_READY z else z) z1 /\
    task_at s3 t = Some (adopt c (init_proc s) z1)) as K13.
  { intros t z Hne Et. destruct (K1 t z Et) as (z1 & Ez1 & S1). exists z1. split_and!; [done|done|].
    unfold s3. rewrite (task_at_with s2 c x1) by done. rewrite decide_False by congruence. unfold s2. by rewrite task_at_map, Ez1, <- I1. }
  split; [|split].
  - unfold state_at. destruct (task_at s (current_task s')) as [z|] eqn:Ez; [|done]. simpl. intros [= Hu]. apply Hun.
    destruct (K13 _ _ Hcur Ez) as (z1 & _ & [S1 _] & E3t). unfold state_at. rewrite E3t. simpl. f_equal. unfold adopt.
    rewrite S1. repeat case_bool_decide; simpl; try done; destruct_and!; subst; congruence.
  - intros Hw. destruct (schedule_spec s3 V3) as (s'' & E3' & _ & _ & _ & Hq & _). rewrite E3 in E3'. injection E3' as <-.
    apply Hq. left. exact (W1 Hw).
  - intros t z Hne Et. destruct (K13 t z Hne Et) as (z1 & Ez1 & S1 & E3t).
    destruct (K3 t _ E3t) as (z3 & Ez3 & S3). exists z3. split; [done|]. destruct S3 as [-> _], S1 as [-> _].
    unfold after_exit, adopt. repeat (case_bool_decide || case_decide); simpl in *; try done; congruence.
Qed.
End exit_spec.

Section exit_wait.
Context `{SchedularLaws}.

(** what a process exits with is what its parent's [wait] returns.  A process none of
    whose children is a zombie exits: the table stays consistent, another task runs, the
    process is a zombie with its status, its children belong to init, and its parent, if it
    waits, is ready or running; as soon as the parent runs, and has no other child that has
    exited before it in the table, its [task_wait] takes the pid and the status of the
    process and frees its entry. *)
Theorem exit_wait_roundtrip s x p px status : task_inv s -> task_at s (current_task s) = Some x ->
  parent x = Some p -> p <> current_task s -> task_at s p = Some px -> p <> idle_task s ->
  current_task s <> idle_task s -> init_proc s <> Some (current_task s) ->
  (forall t z, task_at s t = Some z -> parent z = Some (current_task s) -> state z <> TASK_ZOMBIE) ->
  exists s', exit_table status s = Ok (tt, s') /\ task_inv s' /\ state_at s' (current_task s) = Some TASK_ZOMBIE /\
    (state px = TASK_WAITING -> p = current_task s' \/ p ∈ rq_list s') /\
    (forall t z, t <> current_task s -> task_at s t = Some z -> exists z', task_at s' t = Some z' /\ after_exit (current_task s) s z z') /\
    (current_task s' = p ->
     (forall t z, t < current_task s -> task_at s' t = Some z -> parent z = Some p -> state z <> TASK_ZOMBIE) ->
     exists s'', task_wait_turn s' = Ok ((Reaped (pid x) status, free_memory x), s'') /\
       state_at s'' (current_task s) = Some TASK_UNUSED).
Proof.
  intros T Ex Hp Hpc Epx Hpi Hci Hni Hz.
  destruct (exit_spec s x p px status T Ex Hp Hpc Epx Hpi Hci Hni Hz)
    as (s' & y & E & T' & Hc & Ey & Hy & Hst & Hpid & Hpar & Hks & Hvm & _ & _ & Hw & Ho).
  exists s'. split; [exact E|]. split; [exact T'|]. split; [unfold state_at; rewrite Ey; simpl; by rewrite Hy|]. split; [exact Hw|]. split; [exact Ho|].
  intros Hcur Hfirst. unfold task_wait_turn.
  pose proof (wait_scan_spec s' (current_task s') (task_table s') 0 false (table_at s')) as Hs.
  assert (wait_scan (current_task s') 0 (task_table s') false = inl (current_task s)) as Ew.
  { pose proof (task_at_nonneg _ _ _ Ey) as [H0c Eyt]. destruct (wait_scan _ _ _ _) as [t'|b].
    - destruct Hs as (k & z & -> & Hk & Hpz & Hzz & Hmin). f_equal.
      destruct (Z.lt_trichotomy (0 + Z.of_nat k) (current_task s)) as [Hlt|[->|Hgt]]; [|done|]; exfalso.
      + by apply (Hfirst (0 + Z.of_nat k) z Hlt (table_at _ _ _ Hk)); [rewrite <- Hcur|].
      + apply (Hmin (Z.to_nat (current_task s)) y); [lia|exact Eyt|]. by rewrite Hcur.
    - exfalso. apply (proj1 Hs _ _ Eyt). by rewrite Hcur. }
  eexists. split.
  - rewrite (bind_Ok _ _ _ s' s') by done. rewrite Ew. rewrite (bind_Ok _ _ _ _ _ (task_at_get _ _ _ Ey)).
    assert (free_memory y = free_memory x) as Hm by (unfold free_memory; by rewrite Hks, Hvm).
    unfold task_free. rewrite <- Hpid, <- Hst, <- Hm. erewrite bind_Ok; [reflexivity|]. rewrite (bind_Ok _ _ _ _ _ (task_at_get _ _ _ Ey)).
    rewrite Hy. erewrite bind_Ok; [|reflexivity]. erewrite bind_Ok; [|reflexivity]. reflexivity.
  - match goal with |- state_at (set_table (<[_ := ?z]> _) _) _ = _ =>
      change (state_at (with_task (current_task s) z s') (current_task s) = Some TASK_UNUSED) end.
    rewrite (state_at_with s' _ y) by done. by rewrite decide_True.
Qed.
End exit_wait.

(** The running task 0 of a table with init, task 2, its waiting parent. *)
Definition demo_family : tst :=
  Tst (demo_child 2 TASK_RUNNING 0 :: demo_task TASK_BLOCKED 10 :: demo_task TASK_WAITING 10
       :: demo_child 0 TASK_BLOCKED 0 :: demo_child 0 TASK_BLOCKED 0 :: replicate 123 (demo_task TASK_UNUSED 0))
      [] 0 0 1 (Some 2) 8.

Lemma demo_family_inv : task_inv demo_family.
Proof.
  assert (demo_family = with_task 4 (demo_child 0 TASK_BLOCKED 0) (with_task 3 (demo_child 0 TASK_BLOCKED 0) demo_orphans)) as -> by reflexivity.
  pose proof demo_orphans_inv as [V R I Z].
  assert (forall t y s st, sched_inv s -> running s -> task_at s t = Some (demo_child 0 TASK_ZOMBIE st) -> y = demo_child 0 TASK_BLOCKED 0 ->
    t <> idle_task s -> sched_inv (with_task t y s) /\ running (with_task t y s)) as Hstep.
  { intros t y s st Vs Rs E -> Hi. split.
    - apply (inv_with s t _ _ Vs E); [done|done| |done]. intros _. split_and!; simpl; [done|lia|lia|lia].
    - unfold running. rewrite (state_at_with s t _ _ _ E). case_decide as D; [|exact Rs]. exfalso. change (t = current_task s) in D. subst t. unfold running, state_at in Rs.
      rewrite E in Rs. done. }
  destruct (Hstep 3 (demo_child 0 TASK_BLOCKED 0) demo_orphans 5 V R) as [V1 R1]; [reflexivity|reflexivity|done|].
  destruct (Hstep 4 (demo_child 0 TASK_BLOCKED 0) (with_task 3 (demo_child 0 TASK_BLOCKED 0) demo_orphans) 6 V1 R1) as [V2 R2]; [reflexivity|reflexivity|done|].
  split; [exact V2|exact R2| |done]. intros i Hi. injection Hi as <-. by exists TASK_WAITING.
Qed.

Lemma exit_wait_roundtrip_witness :
  exists s', exit_table (H := round_robin) 42 demo_family = Ok (tt, s') /\ state_at s' 0 = Some TASK_ZOMBIE /\
    exists s'', task_wait_turn (H := round_robin) s' = Ok ((Reaped 7 42, [Page 0x80500000; Vm 3]), s'').
Proof.
  destruct (exit_wait_roundtrip (H := round_robin) demo_family (demo_child 2 TASK_RUNNING 0) 2 (demo_task TASK_WAITING 10) 42 demo_family_inv)
    as (s' & E & _ & Hz & _ & _ & Hw); try done.
  - intros t z E Hp. apply task_at_nonneg in E as [_ E]. unfold demo_family in E. cbn [task_table] in E.
    destruct (Z.to_nat t) as [|[|[|[|[|n]]]]]; cbn [lookup list_lookup] in E; try (injection E as <-; done).
    by apply lookup_replicate in E as [-> _].
  - exists s'. split; [exact E|]. split; [exact Hz|].
    assert (current_task s' = 2) as Hc.
    { assert (option_map current_task (match exit_table (H := round_robin) 42 demo_family with Ok (_, s) => Some s | _ => None end) = Some 2) as H
        by (vm_compute; reflexivity). rewrite E in H. by injection H. }
    destruct (Hw Hc) as (s'' & E2 & _); [|exists s''; exact E2].
    intros t z Ht Ez. apply task_at_nonneg in Ez as [H0 _]. change (current_task demo_family) with 0 in Ht. lia.
Defined.
End Task.
