(* ===== verification/KMem.v ===== *)
(** The kernel's memory: src/kernel/mem/pmemory.c, which hands out pages, the wrappers of
    src/kernel/mem/memory.c, and src/kernel/mem/kalloc.c, which cuts pages into objects.

    The free pages are linked through their first word, which nobody else uses while a
    page is free; [free_list] is the sequence of their addresses.  So is [head], the list
    of free objects of a size.  The semaphore of kalloc.c is taken and given back on every
    path; the operations here are the parts in between. *)

From stdpp Require Import base numbers list gmap.
From Stdlib Require Import ZArith Lia.
From S2P Require Import Prelude.
#[local] Open Scope Z_scope.

Module KMem.

Definition PG_SIZE : Z := 4096.

Definition KERNEL_BASE : Z := 0x80000000.

Definition PHY_MEMORY_TOP : Z := 1024 * 1024 * 1024.

Definition KERNEL_SPACE_SIZE : Z := 1024 * 1024 * 4.

Definition FREE_BASE : Z := KERNEL_BASE + KERNEL_SPACE_SIZE.

Definition MAX_FREE_MEMORY_SPACE : Z := PHY_MEMORY_TOP - KERNEL_SPACE_SIZE.

Definition KV2P (vaddr : Z) : Z := u32 (vaddr - KERNEL_BASE).

Definition KP2V (paddr : Z) : Z := u32 (paddr + KERNEL_BASE).

(** *** Pages *)

(** [struct phy_mem_pool]. *)
Record pmem := PMem { free_list : list Z; free_page_cnt : Z; using_page_cnt : Z }.

Definition get_free_page_cnt : M pmem Z := s ← get; mret (free_page_cnt s).

Definition get_using_page_cnt : M pmem Z := s ← get; mret (using_page_cnt s).

Definition palloc : M pmem Z :=
  s ← get;
  match free_list s with
  | page :: next =>
      put (PMem next (u32 (free_page_cnt s - 1)) (u32 (using_page_cnt s + 1)));;
      mret (KV2P page)
  | [] => mret (KV2P 0)
  end.

Definition pfree (paddr : Z) : M pmem unit :=
  ASSERT (negb (paddr =? 0));;
  modify (fun s => PMem (KP2V paddr :: free_list s) (u32 (free_page_cnt s + 1)) (u32 (using_page_cnt s - 1))).

(** [for (; start <= end; start += PG_SIZE)]. *)
Fixpoint pfree_loop (fuel : nat) (start end_ : Z) : M pmem unit :=
  match fuel with
  | O => hang
  | S fuel =>
      if start <=? end_ then
        modify (fun s => PMem (start :: free_list s) (u32 (free_page_cnt s + 1)) (using_page_cnt s));;
        pfree_loop fuel (u32 (start + PG_SIZE)) end_
      else mret tt
  end.

Definition pfree_range (start end_ : Z) : M pmem unit :=
  ASSERT (start mod PG_SIZE =? 0);;
  ASSERT (end_ mod PG_SIZE =? 0);;
  pfree_loop (S (S (Z.to_nat ((end_ - start) / PG_SIZE)))) start end_.

Definition pmem_init (total_memory : Z) : M pmem unit :=
  (if total_memory <? 1024 * 1024 * 32 then panic else mret tt);;
  (if negb (total_memory mod PG_SIZE =? 0) then panic else mret tt);;
  let total := total_memory - KERNEL_SPACE_SIZE in
  let total := if MAX_FREE_MEMORY_SPACE <? total then MAX_FREE_MEMORY_SPACE else total in
  modify (fun s => PMem [] 0 (using_page_cnt s));;
  pfree_range FREE_BASE (KP2V total).

Definition get_free_page : M pmem Z := p ← palloc; mret (KP2V p).

Definition free_page (pg_addr : Z) : M pmem unit := pfree (KV2P pg_addr).

(** Without a free page this is [memset(NULL, 0, PG_SIZE)].  Whether that is a page fault,
    at which the kernel stops, depends on the page directory in use: in the kernel's own one
    page 0 is mapped ([setup_page] of src/boot/setup.asm maps the first 4 MB and nothing
    takes them away), and NULL is returned; in that of a user process it is not.  The zeros
    themselves are not part of this state. *)
Definition get_zeroed_free_page (null_mapped : bool) : M pmem Z :=
  ptr ← get_free_page;
  if (ptr =? 0) && negb null_mapped then panic else mret ptr.

(** *** Objects *)

Definition NBLOCK : Z := 7.

Definition MAX_OBJ_SIZE : Z := Z.shiftl 16 (NBLOCK - 1).

Definition DESC_SIZE : Z := 4.   (* sizeof(struct mem_object_desc) *)

(** [struct mem_block]. *)
Record mem_block := MemBlock {
  block_idx : Z;
  obj_size : Z;
  inuse : Z;
  free : Z;
  num : Z;
  head : list Z;
}.

(** [blocks], the [block_idx] in the descriptors of the objects in use, and the pages. *)
Record kmem := KMemSt { blocks : list mem_block; desc : gmap Z Z; pages : pmem }.

#[global] Instance Part_pages : Part kmem pmem :=
  {| part := pages; set_part := fun p s => KMemSt (blocks s) (desc s) p |}.

Definition get_block (i : Z) : M kmem mem_block := s ← get; index (blocks s) i.

Definition set_block (i : Z) (b : mem_block) : M kmem unit :=
  modify (fun s => KMemSt (<[Z.to_nat i := b]> (blocks s)) (desc s) (pages s)).

(** [for (p = 0; p < PG_SIZE; p += size)]: the objects of a page. *)
Fixpoint page_objs (fuel : nat) (page size p : Z) : list Z :=
  match fuel with
  | O => []
  | S fuel => if p <? PG_SIZE then (page + p) :: page_objs fuel page size (p + size) else []
  end.

Definition objs_fuel : nat := Z.to_nat (PG_SIZE / 16).

(** The page is zeroed, so the last object's [next] is NULL; 0 is NULL. *)
Definition alloc_new_objs (null_mapped : bool) (i : Z) : M kmem bool :=
  b ← get_block i;
  ASSERT (bool_decide (head b = []));;
  let size := obj_size b + DESC_SIZE in
  page ← lift (get_zeroed_free_page null_mapped : M pmem Z);
  if page =? 0 then mret false
  else
    let objs := page_objs objs_fuel page size 0 in
    let cnt := Z.of_nat (length objs) in
    set_block i (MemBlock (block_idx b) (obj_size b) (inuse b) (u32 (free b + cnt)) (u32 (num b + cnt)) objs);;
    mret true.

(** The pointer, or NULL. *)
Definition fetch_obj_from_block (null_mapped : bool) (i : Z) : M kmem Z :=
  b ← get_block i;
  ok ← (if free b =? 0 then alloc_new_objs null_mapped i else mret true);
  if negb ok then mret 0
  else
    b ← get_block i;
    match head b with
    | [] => panic
    | obj :: next =>
        set_block i (MemBlock (block_idx b) (obj_size b) (u32 (inuse b + 1)) (u32 (free b - 1)) (num b) next);;
        modify (fun s => KMemSt (blocks s) (<[obj := block_idx b]> (desc s)) (pages s));;
        mret (obj + DESC_SIZE)
    end.

Definition kalloc_init : M kmem unit :=
  modify (fun s => KMemSt (map (fun i => MemBlock i (Z.shiftl 16 i) 0 0 0 []) (seqZ 0 NBLOCK)) (desc s) (pages s)).

(** [for (i = 0; i < NBLOCK; i++)] of [kalloc]. *)
Fixpoint kalloc_loop (null_mapped : bool) (n : nat) (i nbytes : Z) : M kmem Z :=
  match n with
  | O => mret 0
  | S n =>
      b ← get_block i;
      if nbytes <=? obj_size b then
        r ← fetch_obj_from_block null_mapped i;
        if r =? 0 then kalloc_loop null_mapped n (i + 1) nbytes else mret r
      else kalloc_loop null_mapped n (i + 1) nbytes
  end.

(** [killed] is that of the current task. *)
Definition kalloc (null_mapped killed : bool) (nbytes : Z) : M kmem Z :=
  if nbytes =? 0 then mret 0
  else
    ASSERT (nbytes <? PG_SIZE);;
    if killed then mret 0
    else if MAX_OBJ_SIZE <? nbytes then lift (get_zeroed_free_page null_mapped : M pmem Z)
    else kalloc_loop null_mapped (Z.to_nat NBLOCK) 0 nbytes.

Definition kfree (killed : bool) (ptr : Z) : M kmem unit :=
  if ptr =? 0 then mret tt
  else if killed then mret tt
  else
    let obj := ptr - DESC_SIZE in
    s ← get;
    match desc s !! obj with
    | None => panic
    | Some i =>
        b ← get_block i;
        set_block i (MemBlock (block_idx b) (obj_size b) (u32 (inuse b - 1)) (u32 (free b + 1)) (num b) (obj :: head b));;
        modify (fun s => KMemSt (blocks s) (delete obj (desc s)) (pages s))
    end.

(** ** Pages *)

(** A page of the area that is handed out. *)
Definition is_page (p : Z) : Prop := p mod PG_SIZE = 0 /\ FREE_BASE <= p < 2 ^ 32.

Record pmem_ok (s : pmem) : Prop := {
  p_pages : Forall is_page (free_list s);
  p_nodup : NoDup (free_list s);
  p_cnt : free_page_cnt s = Z.of_nat (length (free_list s));
  p_bound : Z.of_nat (length (free_list s)) < 2 ^ 20;
}.

(** the page allocator.  [palloc] takes a free page that is no longer free afterwards,
    and [pfree] of it brings back the state before; without a free page [palloc] changes
    nothing, and what it returns is then not 0, which all its callers test for, but
    0x80000000. *)
Theorem palloc_correct s : pmem_ok s -> is_u32 (using_page_cnt s) -> using_page_cnt s + 1 < 2 ^ 32 ->
  (exists p s', p ∈ free_list s /\ palloc s = Ok (p - KERNEL_BASE, s') /\ p - KERNEL_BASE <> 0 /\
     p ∉ free_list s' /\ pmem_ok s' /\ pfree (p - KERNEL_BASE) s' = Ok (tt, s)) \/
  (free_list s = [] /\ palloc s = Ok (0x80000000, s)).
Proof.
  intros [P1 P2 P3 P4] Hu Hu'. unfold palloc. rewrite (bind_Ok _ _ _ s s) by done.
  destruct s as [[|p l] cnt used]; simpl in *; [by right|left].
  apply Forall_cons in P1 as [[Hm Hp] P1]. apply NoDup_cons in P2 as [Hnin P2].
  assert (KV2P p = p - KERNEL_BASE) as Ekv by (unfold KV2P, KERNEL_BASE, FREE_BASE, KERNEL_BASE, KERNEL_SPACE_SIZE in *; ulia).
  assert (KP2V (p - KERNEL_BASE) = p) as Epv by (unfold KP2V, KERNEL_BASE in *; rewrite Z.sub_add; apply u32_small; unfold is_u32, FREE_BASE, KERNEL_BASE, KERNEL_SPACE_SIZE in *; lia).
  assert (u32 (cnt - 1) = cnt - 1) as Ec by (rewrite P3; ulia).
  assert (u32 (used + 1) = used + 1) as Eg by ulia.
  exists p, (PMem l (cnt - 1) (used + 1)). split_and!.
  - set_solver.
  - erewrite bind_Ok; [|reflexivity]. by rewrite Ekv, Ec, Eg.
  - unfold FREE_BASE, KERNEL_BASE, KERNEL_SPACE_SIZE in *. lia.
  - done.
  - split; simpl; [done|done|lia|lia].
  - unfold pfree. rewrite (bind_Ok _ _ _ tt (PMem l (cnt - 1) (used + 1))).
    + unfold modify. simpl. rewrite Epv. repeat f_equal; ulia.
    + apply ASSERT_true, negb_true_iff, Z.eqb_neq. unfold FREE_BASE, KERNEL_BASE, KERNEL_SPACE_SIZE in *. lia.
Qed.

(** The pages that the loop adds. *)
Lemma pfree_loop_spec fuel : forall start s end_,
  start mod PG_SIZE = 0 -> end_ mod PG_SIZE = 0 -> FREE_BASE <= start -> start <= end_ + PG_SIZE -> end_ + PG_SIZE < 2 ^ 32 ->
  (end_ - start) / PG_SIZE + 1 < Z.of_nat fuel ->
  pmem_ok s -> (forall p, p ∈ free_list s -> p < start) ->
  Z.of_nat (length (free_list s)) + (end_ - start) / PG_SIZE + 1 < 2 ^ 20 ->
  exists s', pfree_loop fuel start end_ s = Ok (tt, s') /\ pmem_ok s' /\
    (forall p, p ∈ free_list s' <-> p ∈ free_list s \/ (p mod PG_SIZE = 0 /\ start <= p <= end_)).
Proof.
  induction fuel as [|fuel IH]; intros start s end_ Hs He Hf Hse Hmax Hfuel Hok Hlt Hlen.
  { unfold PG_SIZE in *. exfalso. Z.div_mod_to_equations. lia. }
  cbn [pfree_loop]. destruct (Z.leb_spec start end_) as [Hle|Hgt].
  - destruct Hok as [P1 P2 P3 P4].
    assert (0 <= (end_ - start) / PG_SIZE) as Hq by (apply Z.div_pos; unfold PG_SIZE; lia).
    set (s1 := PMem (start :: free_list s) (u32 (free_page_cnt s + 1)) (using_page_cnt s)).
    assert (u32 (start + PG_SIZE) = start + PG_SIZE) as -> by (apply u32_small; unfold is_u32, FREE_BASE, KERNEL_BASE, KERNEL_SPACE_SIZE, PG_SIZE in *; lia).
    assert ((end_ - (start + PG_SIZE)) / PG_SIZE = (end_ - start) / PG_SIZE - 1) as Hd
      by (unfold PG_SIZE; Z.div_mod_to_equations; lia).
    destruct (IH (start + PG_SIZE) s1 end_) as (s' & E & Hok' & Hin).
    + unfold PG_SIZE in *. Z.div_mod_to_equations. lia.
    + done.
    + unfold PG_SIZE. lia.
    + unfold PG_SIZE in *. Z.div_mod_to_equations. lia.
    + done.
    + lia.
    + split; simpl.
      * constructor; [|done]. split; [done|]. unfold PG_SIZE in *. lia.
      * constructor; [|done]. intros Hin. apply Hlt in Hin. lia.
      * rewrite P3. ulia.
      * lia.
    + simpl. intros p Hp. apply elem_of_cons in Hp as [->|Hp]; [unfold PG_SIZE; lia|]. specialize (Hlt p Hp). unfold PG_SIZE. lia.
    + simpl length. rewrite Hd. lia.
    + exists s'. rewrite (bind_Ok _ _ _ tt s1) by done. split_and!; [done|done|].
      intros p. rewrite Hin. simpl. rewrite elem_of_cons. unfold PG_SIZE in *. split.
      * intros [[->|H]|[H1 H2]]; [right; split; [done|lia]|by left|right; split; [done|lia]].
      * intros [H|[H1 H2]]; [by left; right|]. destruct (decide (p = start)) as [->|Hn]; [by left; left|].
        right. split; [done|]. Z.div_mod_to_equations. lia.
  - exists s. split_and!; [done|done|]. intros p. split; [by left|]. intros [H|[_ H]]; [done|lia].
Qed.

Lemma pmem_init_spec total s : 1024 * 1024 * 32 <= total <= PHY_MEMORY_TOP -> total mod PG_SIZE = 0 ->
  exists s', pmem_init total s = Ok (tt, s') /\ pmem_ok s' /\
    forall p, p ∈ free_list s' <-> p mod PG_SIZE = 0 /\ FREE_BASE <= p <= KERNEL_BASE + (total - KERNEL_SPACE_SIZE).
Proof.
  intros Ht Hm. unfold pmem_init. rewrite (proj2 (Z.ltb_ge total _)) by lia. rewrite (bind_Ok _ _ _ tt s) by done.
  rewrite Hm. rewrite (bind_Ok _ _ _ tt s) by done. cbv zeta.
  rewrite (proj2 (Z.ltb_ge MAX_FREE_MEMORY_SPACE _)) by (unfold MAX_FREE_MEMORY_SPACE; lia).
  set (s1 := PMem [] 0 (using_page_cnt s)). rewrite (bind_Ok _ _ _ tt s1) by done.
  set (e := total - KERNEL_SPACE_SIZE).
  assert (KP2V e = KERNEL_BASE + e) as -> by (unfold KP2V, e; rewrite Z.add_comm; apply u32_small;
    unfold is_u32, KERNEL_BASE, KERNEL_SPACE_SIZE, PHY_MEMORY_TOP in *; lia).
  assert ((KERNEL_BASE + e) mod PG_SIZE = 0) as He.
  { unfold e, KERNEL_BASE, KERNEL_SPACE_SIZE, PG_SIZE in *. Z.div_mod_to_equations. lia. }
  unfold pfree_range. rewrite (bind_Ok _ _ _ tt s1) by done. rewrite He. rewrite (bind_Ok _ _ _ tt s1) by done.
  destruct (pfree_loop_spec (S (S (Z.to_nat ((KERNEL_BASE + e - FREE_BASE) / PG_SIZE)))) FREE_BASE s1 (KERNEL_BASE + e))
    as (s' & E & Hok & Hin).
  - done.
  - done.
  - lia.
  - unfold e, FREE_BASE, KERNEL_SPACE_SIZE, PG_SIZE in *. lia.
  - unfold e, KERNEL_BASE, KERNEL_SPACE_SIZE, PG_SIZE, PHY_MEMORY_TOP in *. lia.
  - assert (0 <= (KERNEL_BASE + e - FREE_BASE) / PG_SIZE); [|lia].
    apply Z.div_pos; unfold e, FREE_BASE, KERNEL_SPACE_SIZE, PG_SIZE in *; lia.
  - split; simpl; [constructor|constructor|done|lia].
  - intros p Hp. by apply elem_of_nil in Hp.
  - simpl. unfold e, FREE_BASE, KERNEL_SPACE_SIZE, PG_SIZE, PHY_MEMORY_TOP in *. Z.div_mod_to_equations. lia.
  - exists s'. split_and!; [done|done|]. intros p. rewrite Hin. simpl. rewrite elem_of_nil. naive_solver.
Qed.

(** ** Objects *)

Lemma page_objs_elem fuel : forall page size p obj, 0 < size -> 0 <= p ->
  obj ∈ page_objs fuel page size p -> page + p <= obj < page + PG_SIZE.
Proof.
  induction fuel as [|fuel IH]; intros page size p obj Hs Hp; cbn [page_objs]; [set_solver|].
  destruct (Z.ltb_spec p PG_SIZE); [|set_solver]. intros [->|Hin]%elem_of_cons; [lia|].
  apply IH in Hin; lia.
Qed.

Lemma page_objs_nodup fuel : forall page size p, 0 < size -> 0 <= p -> NoDup (page_objs fuel page size p).
Proof.
  induction fuel as [|fuel IH]; intros page size p Hs Hp; cbn [page_objs]; [constructor|].
  destruct (Z.ltb_spec p PG_SIZE); constructor; [|by apply IH; lia].
  intros Hin%page_objs_elem; lia.
Qed.

Lemma page_objs_length fuel : forall page size p, (length (page_objs fuel page size p) <= fuel)%nat.
Proof.
  induction fuel as [|fuel IH]; intros page size p; cbn [page_objs]; [done|].
  destruct (p <? PG_SIZE); simpl; [|lia]. specialize (IH page size (p + size)). lia.
Qed.

(** The fuel is enough: more of it changes nothing. *)
Lemma page_objs_fuel fuel k : forall page size p, 0 < size -> PG_SIZE - p <= size * Z.of_nat fuel ->
  page_objs (fuel + k) page size p = page_objs fuel page size p.
Proof.
  induction fuel as [|fuel IH]; intros page size p Hs Hf; cbn [page_objs Nat.add].
  - destruct k; cbn [page_objs]; [done|]. by rewrite (proj2 (Z.ltb_ge _ _)) by lia.
  - destruct (p <? PG_SIZE); [|done]. f_equal. apply IH; lia.
Qed.

Lemma objs_fuel_eq : objs_fuel = 256%nat.
Proof. reflexivity. Qed.

Lemma page_objs_nonempty page size : page_objs objs_fuel page size 0 <> [].
Proof. by rewrite objs_fuel_eq. Qed.

Lemma page_objs_shift fuel : forall page size p,
  page_objs fuel page size p = map (Z.add page) (page_objs fuel 0 size p).
Proof.
  induction fuel as [|fuel IH]; intros page size p; cbn [page_objs]; [done|].
  destruct (p <? PG_SIZE); [|done]. cbn [map]. f_equal. apply IH.
Qed.

(** The sizes of the objects. *)
Lemma size_class i : 0 <= i < NBLOCK -> 16 <= Z.shiftl 16 i <= MAX_OBJ_SIZE.
Proof.
  intros H. unfold NBLOCK, MAX_OBJ_SIZE in *.
  assert (i = 0 \/ i = 1 \/ i = 2 \/ i = 3 \/ i = 4 \/ i = 5 \/ i = 6) as Hi by lia.
  destruct_or! Hi; subst; vm_compute; split; discriminate.
Qed.

(** [kalloc] hands out objects that reach beyond their page.  Whatever the size class,
    the last object that [alloc_new_objs] cuts from a page starts in the page but ends
    after it: the loop stops when an object would start beyond the page, not when it would
    end there.  The bytes after the end belong to another page. *)
Theorem kalloc_overruns_page i page : 0 <= i < NBLOCK ->
  exists obj, obj ∈ page_objs objs_fuel page (Z.shiftl 16 i + DESC_SIZE) 0 /\
    page <= obj < page + PG_SIZE /\ page + PG_SIZE < obj + DESC_SIZE + Z.shiftl 16 i.
Proof.
  intros Hi. rewrite page_objs_shift.
  assert (exists o, o ∈ page_objs objs_fuel 0 (Z.shiftl 16 i + DESC_SIZE) 0 /\
    0 <= o < PG_SIZE /\ PG_SIZE < o + DESC_SIZE + Z.shiftl 16 i) as (o & Ho & H1 & H2).
  { unfold NBLOCK in Hi.
    assert (i = 0 \/ i = 1 \/ i = 2 \/ i = 3 \/ i = 4 \/ i = 5 \/ i = 6) as H by lia.
    exists (default 0 (last (page_objs objs_fuel 0 (Z.shiftl 16 i + DESC_SIZE) 0))).
    destruct_or! H; subst; (split; [by eapply last_Some_elem_of; vm_compute|vm_compute; done]). }
  exists (page + o). split_and!; [by apply list_elem_of_fmap_2|lia|lia|lia].
Qed.

Lemma kalloc_overruns_page_witness :
  exists obj, obj ∈ page_objs objs_fuel FREE_BASE (Z.shiftl 16 2 + DESC_SIZE) 0 /\
    FREE_BASE <= obj < FREE_BASE + PG_SIZE /\ FREE_BASE + PG_SIZE < obj + DESC_SIZE + Z.shiftl 16 2.
Proof. apply (kalloc_overruns_page 2 FREE_BASE). unfold NBLOCK. lia. Defined.

(** *** The invariant of the object allocator *)

Definition page_of (obj : Z) : Z := obj - obj mod PG_SIZE.

Definition block_ok (i : nat) (b : mem_block) : Prop :=
  block_idx b = Z.of_nat i /\ obj_size b = Z.shiftl 16 (Z.of_nat i) /\
  free b = Z.of_nat (length (head b)) /\ NoDup (head b).

(** An address that [kalloc] cut from a page which is not free. *)
Definition is_obj (s : kmem) (obj : Z) : Prop :=
  FREE_BASE <= obj < 2 ^ 32 /\ page_of obj ∉ free_list (pages s).

Record kmem_ok (s : kmem) : Prop := {
  k_pages : pmem_ok (pages s);
  k_length : length (blocks s) = Z.to_nat NBLOCK;
  k_blocks : forall i b, blocks s !! i = Some b -> block_ok i b;
  k_heads : forall i b obj, blocks s !! i = Some b -> obj ∈ head b -> is_obj s obj /\ desc s !! obj = None;
  k_disjoint : forall i j b c obj, blocks s !! i = Some b -> blocks s !! j = Some c ->
    obj ∈ head b -> obj ∈ head c -> i = j;
  k_desc : forall obj i, desc s !! obj = Some i -> is_obj s obj /\ 0 <= i < NBLOCK;
}.

(** An object of the allocator, in use or not. *)
Definition known (s : kmem) (obj : Z) : Prop :=
  is_Some (desc s !! obj) \/ exists i b, blocks s !! i = Some b /\ obj ∈ head b.

Lemma known_is_obj s obj : kmem_ok s -> known s obj -> is_obj s obj.
Proof. intros Hok [[i Hd]|(i & b & Hb & Hin)]; [by apply (k_desc _ Hok obj i)|by apply (k_heads _ Hok i b)]. Qed.

(** Distinct addresses are fewer than [2^32]. *)
Lemma addrs_bound (l : list Z) : NoDup l -> (forall x, x ∈ l -> FREE_BASE <= x < 2 ^ 32) -> Z.of_nat (length l) < 2 ^ 32.
Proof.
  intros Hn Hl. assert (l ⊆+ seqZ FREE_BASE (2 ^ 32 - FREE_BASE)) as Hsub.
  { apply NoDup_submseteq; [done|]. intros x Hx. apply elem_of_seqZ. specialize (Hl x Hx). lia. }
  apply submseteq_length in Hsub. rewrite length_seqZ in Hsub.
  unfold FREE_BASE, KERNEL_BASE, KERNEL_SPACE_SIZE in *. lia.
Qed.

(** What the operations on blocks do. *)
Lemma get_block_Ok s i b : blocks s !! i = Some b -> get_block (Z.of_nat i) s = Ok (b, s).
Proof.
  intros H. unfold get_block. rewrite (bind_Ok _ _ _ s s) by done. unfold index.
  rewrite (proj2 (Z.ltb_ge _ _)) by lia. by rewrite Nat2Z.id, H.
Qed.

(** [s] with the block [i] replaced. *)
Definition with_block (s : kmem) (i : nat) (b : mem_block) : kmem :=
  KMemSt (<[i := b]> (blocks s)) (desc s) (pages s).

Lemma set_block_Ok s i b : set_block (Z.of_nat i) b s = Ok (tt, with_block s i b).
Proof. unfold set_block, modify, with_block. by rewrite Nat2Z.id. Qed.

(** The first object of a block goes into use. *)
Lemma take_obj_ok s i b obj next :
  kmem_ok s -> blocks s !! i = Some b -> head b = obj :: next ->
  kmem_ok (KMemSt (<[i := MemBlock (block_idx b) (obj_size b) (u32 (inuse b + 1)) (u32 (free b - 1)) (num b) next]> (blocks s))
    (<[obj := block_idx b]> (desc s)) (pages s)).
Proof.
  intros [K1 K2 K3 K4 K5 K6] Hb Hh.
  pose proof (K3 _ _ Hb) as (B1 & B2 & B3 & B4). rewrite Hh in B3, B4.
  pose proof (lookup_lt_Some _ _ _ Hb) as Hlt.
  apply NoDup_cons in B4 as [Hnin B4].
  assert (obj ∈ head b) as Hobj by (rewrite Hh; set_solver).
  assert (forall x, x ∈ next -> x ∈ head b) as Hsub by (rewrite Hh; set_solver).
  split; simpl.
  - done.
  - by rewrite length_insert.
  - intros j c Hj. apply list_lookup_insert_Some in Hj as [(<- & <- & _)|[Hne Hj]]; [|by apply K3].
    split_and!; simpl; [done|done| |done]. rewrite B3. simpl length.
    pose proof (addrs_bound (head b)) as Hbd. rewrite Hh in Hbd. simpl length in Hbd.
    assert (Z.of_nat (S (length next)) < 2 ^ 32); [|ulia].
    apply Hbd; [by constructor|]. intros x Hx. rewrite <- Hh in Hx. by apply (K4 _ _ _ Hb).
  - intros j c x Hj Hx. apply list_lookup_insert_Some in Hj as [(<- & <- & _)|[Hne Hj]]; simpl in *.
    + rewrite lookup_insert_ne by (intros ->; done). by apply (K4 i b x Hb); auto.
    + rewrite lookup_insert_ne; [by apply (K4 j c)|]. intros ->. apply Hne. by apply (K5 i j b c x).
  - intros j k c d x Hj Hk Hx Hy.
    apply list_lookup_insert_Some in Hj as [(<- & <- & _)|[Hne Hj]];
      apply list_lookup_insert_Some in Hk as [(<- & <- & _)|[Hne' Hk]]; simpl in *; [done|..]; eauto.
  - intros x j. rewrite lookup_insert_Some. intros [[<- <-]|[_ Hx]]; [|by apply K6].
    split; [by apply (K4 _ _ _ Hb)|]. rewrite B1. rewrite K2 in Hlt. lia.
Qed.

(** An object in use goes back to its block. *)
Lemma give_obj_ok s i b obj :
  kmem_ok s -> blocks s !! i = Some b -> desc s !! obj = Some (Z.of_nat i) ->
  kmem_ok (KMemSt (<[i := MemBlock (block_idx b) (obj_size b) (u32 (inuse b - 1)) (u32 (free b + 1)) (num b) (obj :: head b)]> (blocks s))
    (delete obj (desc s)) (pages s)).
Proof.
  intros [K1 K2 K3 K4 K5 K6] Hb Hd. pose proof (K3 _ _ Hb) as (B1 & B2 & B3 & B4).
  assert (forall j c, blocks s !! j = Some c -> obj ∉ head c) as Hfresh.
  { intros j c Hj Hin. destruct (K4 _ _ _ Hj Hin) as [_ ?]. congruence. }
  split; simpl.
  - done.
  - by rewrite length_insert.
  - intros j c Hj. apply list_lookup_insert_Some in Hj as [(<- & <- & _)|[Hne Hj]]; [|by apply K3].
    assert (NoDup (obj :: head b)) as Hn by (constructor; [by eapply Hfresh|done]).
    split_and!; simpl; [done|done| |done].
    assert (Z.of_nat (length (obj :: head b)) < 2 ^ 32) as Hbd.
    { apply addrs_bound; [done|]. intros x [->|Hx]%elem_of_cons; [by apply (K6 _ _ Hd)|by apply (K4 _ _ _ Hb)]. }
    simpl length in *. ulia.
  - intros j c x Hj Hx. apply list_lookup_insert_Some in Hj as [(<- & <- & _)|[Hne Hj]]; simpl in *.
    + apply elem_of_cons in Hx as [->|Hx].
      * split; [by apply (K6 _ _ Hd)|by rewrite lookup_delete_eq].
      * destruct (K4 _ _ _ Hb Hx). split; [done|]. by apply lookup_delete_None; right.
    + destruct (K4 _ _ _ Hj Hx). split; [done|]. by apply lookup_delete_None; right.
  - intros j k c d x Hj Hk Hx Hy.
    apply list_lookup_insert_Some in Hj as [(<- & <- & _)|[Hne Hj]];
      apply list_lookup_insert_Some in Hk as [(<- & <- & _)|[Hne' Hk]]; simpl in *; [done|..].
    + apply elem_of_cons in Hx as [->|Hx]; [by apply Hfresh in Hk|eauto].
    + apply elem_of_cons in Hy as [->|Hy]; [by apply Hfresh in Hj|eauto].
    + eauto.
  - intros x j. rewrite lookup_delete_Some. intros [_ Hx]. by apply K6.
Qed.

Lemma get_zeroed_free_page_Ok nm s p l : pmem_ok s -> free_list s = p :: l ->
  exists s', get_zeroed_free_page nm s = Ok (p, s') /\ free_list s' = l /\ pmem_ok s' /\ is_page p /\ p ∉ l.
Proof.
  intros [P1 P2 P3 P4] Hf. rewrite Hf in *.
  apply Forall_cons in P1 as [[Hm Hp] P1]. apply NoDup_cons in P2 as [Hnin P2].
  exists (PMem l (u32 (free_page_cnt s - 1)) (u32 (using_page_cnt s + 1))). split_and!; [|done| |done|done].
  - unfold get_zeroed_free_page, get_free_page, palloc. unfold mbind, M_bind, get. rewrite Hf. simpl.
    assert (KP2V (KV2P p) = p) as ->
      by (unfold KP2V, KV2P, FREE_BASE, KERNEL_BASE, KERNEL_SPACE_SIZE in *; ulia).
    by rewrite (proj2 (Z.eqb_neq p 0)) by (unfold FREE_BASE, KERNEL_BASE, KERNEL_SPACE_SIZE in *; lia).
  - simpl in P3, P4. split; simpl; [done|done| |lia]. rewrite P3. simpl length. ulia.
Qed.

Lemma get_zeroed_free_page_none nm s : free_list s = [] ->
  get_zeroed_free_page nm s = if nm then Ok (0, s) else Panic.
Proof. intros H. unfold get_zeroed_free_page, get_free_page, palloc, mbind, M_bind, get. rewrite H. by destruct nm. Qed.

Lemma page_of_obj p obj : is_page p -> p <= obj < p + PG_SIZE -> page_of obj = p.
Proof. unfold is_page, page_of, PG_SIZE. intros [H _] H'. Z.div_mod_to_equations. lia. Qed.

(** A new page's objects are new objects. *)
Lemma new_objs_ok s i b p l pm cnt n :
  kmem_ok s -> blocks s !! i = Some b -> head b = [] -> free_list (pages s) = p :: l ->
  free_list pm = l -> pmem_ok pm -> is_page p -> p ∉ l ->
  let objs := page_objs objs_fuel p (obj_size b + DESC_SIZE) 0 in
  cnt = Z.of_nat (length objs) ->
  kmem_ok (with_block (KMemSt (blocks s) (desc s) pm) i
    (MemBlock (block_idx b) (obj_size b) (inuse b) cnt n objs)).
Proof.
  intros [K1 K2 K3 K4 K5 K6] Hb Hh Hf Hl Hpm Hp Hnin objs Hcnt.
  pose proof (K3 _ _ Hb) as (B1 & B2 & B3 & B4). pose proof (lookup_lt_Some _ _ _ Hb) as Hlt.
  assert (0 < obj_size b + DESC_SIZE) as Hsz.
  { rewrite B2. rewrite K2 in Hlt. pose proof (size_class (Z.of_nat i)). unfold DESC_SIZE. lia. }
  assert (forall x, x ∈ objs -> p <= x < p + PG_SIZE) as Hobjs.
  { intros x Hx. apply page_objs_elem in Hx; [lia|done|done]. }
  assert (NoDup objs) as Hnd by (by apply page_objs_nodup).
  clearbody objs.
  assert (forall x, is_obj s x -> x ∉ objs) as Hold.
  { intros x [_ Hx] Hin. apply Hobjs, (page_of_obj p) in Hin; [|done]. rewrite Hin, Hf in Hx. apply Hx, elem_of_cons. by left. }
  assert (forall x, is_obj s x -> is_obj (with_block (KMemSt (blocks s) (desc s) pm) i
    (MemBlock (block_idx b) (obj_size b) (inuse b) cnt n objs)) x) as Hmono.
  { intros x [Hr Hx]. split; [done|]. simpl. rewrite Hl. rewrite Hf in Hx. intros Hin. apply Hx, elem_of_cons. by right. }
  split; simpl.
  - done.
  - by rewrite length_insert.
  - intros j c Hj. apply list_lookup_insert_Some in Hj as [(<- & <- & _)|[Hne Hj]]; [|by apply K3].
    by split_and!.
  - intros j c x Hj Hx. apply list_lookup_insert_Some in Hj as [(<- & <- & _)|[Hne Hj]]; simpl in *.
    + apply Hobjs in Hx as Hx'. split.
      * split; [destruct Hp as [Hp1 Hp2]; unfold PG_SIZE in *; Z.div_mod_to_equations; lia|].
        simpl. by rewrite (page_of_obj p), Hl.
      * destruct (desc s !! x) as [k|] eqn:E; [|done]. apply K6 in E as [E _]. by apply Hold in E.
    + destruct (K4 _ _ _ Hj Hx). auto.
  - intros j k c d x Hj Hk Hx Hy.
    apply list_lookup_insert_Some in Hj as [(<- & <- & _)|[Hne Hj]];
      apply list_lookup_insert_Some in Hk as [(<- & <- & _)|[Hne' Hk]]; simpl in *; [done|..].
    + destruct (K4 _ _ _ Hk Hy) as [H _]. by apply Hold in H.
    + destruct (K4 _ _ _ Hj Hx) as [H _]. by apply Hold in H.
    + eauto.
  - intros x j Hx. destruct (K6 _ _ Hx). auto.
Qed.

#[local] Opaque page_objs objs_fuel.

(** A block without objects gets those of a new page. *)
Lemma alloc_new_objs_spec nm s i b p l :
  kmem_ok s -> blocks s !! i = Some b -> head b = [] -> free_list (pages s) = p :: l ->
  exists s' b', alloc_new_objs nm (Z.of_nat i) s = Ok (true, s') /\ kmem_ok s' /\ blocks s' !! i = Some b' /\
    head b' <> [] /\ desc s' = desc s /\ free_list (pages s') = l /\
    (forall x, known s' x -> known s x \/ page_of x = p).
Proof.
  intros Hok Hb Hh Hf. pose proof (k_blocks _ Hok _ _ Hb) as (B1 & B2 & B3 & B4).
  destruct (get_zeroed_free_page_Ok nm _ _ _ (k_pages _ Hok) Hf) as (pm & Epm & Hl & Hpm & Hp & Hnin).
  pose proof (lookup_lt_Some _ _ _ Hb) as Hlt.
  set (objs := page_objs objs_fuel p (obj_size b + DESC_SIZE) 0).
  set (b' := MemBlock (block_idx b) (obj_size b) (inuse b) (u32 (free b + Z.of_nat (length objs)))
    (u32 (num b + Z.of_nat (length objs))) objs).
  exists (with_block (KMemSt (blocks s) (desc s) pm) i b'), b'. split_and!.
  - unfold alloc_new_objs. rewrite (bind_Ok _ _ _ _ _ (get_block_Ok _ _ _ Hb)).
    rewrite (bind_Ok _ _ _ tt s) by (apply ASSERT_true; by apply bool_decide_eq_true).
    rewrite (bind_Ok _ _ _ p (KMemSt (blocks s) (desc s) pm)) by (unfold lift; simpl; by rewrite Epm).
    rewrite (proj2 (Z.eqb_neq p 0)) by (destruct Hp; unfold FREE_BASE, KERNEL_BASE, KERNEL_SPACE_SIZE in *; lia).
    cbv zeta. fold objs. by rewrite (bind_Ok _ _ _ _ _ (set_block_Ok _ _ _)).
  - eapply new_objs_ok; try done. fold objs. rewrite B3, Hh. apply u32_small.
    pose proof (page_objs_length objs_fuel p (obj_size b + DESC_SIZE) 0) as Hlen. fold objs in Hlen.
    rewrite objs_fuel_eq in Hlen. cbn [length]. ulia.
  - simpl. by apply list_lookup_insert_eq.
  - apply page_objs_nonempty.
  - done.
  - done.
  - intros x [Hx|(j & c & Hj & Hx)]; [by left; left|]. simpl in Hj.
    apply list_lookup_insert_Some in Hj as [(_ & <- & _)|[_ Hj]]; [|left; right; eauto].
    right. apply page_of_obj; [done|]. simpl in Hx. unfold objs in Hx. apply page_objs_elem in Hx; [lia| |done].
    rewrite B2. rewrite (k_length _ Hok) in Hlt. pose proof (size_class (Z.of_nat i)). unfold DESC_SIZE. lia.
Qed.

Lemma fetch_obj_spec nm s i b : kmem_ok s -> blocks s !! i = Some b -> head b <> [] \/ free_list (pages s) <> [] ->
  exists obj s', fetch_obj_from_block nm (Z.of_nat i) s = Ok (obj + DESC_SIZE, s') /\ kmem_ok s' /\
    desc s !! obj = None /\ desc s' = <[obj := Z.of_nat i]> (desc s) /\ is_obj s' obj /\
    (exists l, free_list (pages s) = l ++ free_list (pages s') /\ (length l <= 1)%nat /\
       forall x, known s' x -> known s x \/ page_of x ∈ l).
Proof.
  intros Hok Hb Hav.
  assert (exists s1 b1 obj next, (if free b =? 0 then alloc_new_objs nm (Z.of_nat i) else mret true) s = Ok (true, s1) /\
    kmem_ok s1 /\ blocks s1 !! i = Some b1 /\ head b1 = obj :: next /\ desc s1 = desc s /\
    exists l, free_list (pages s) = l ++ free_list (pages s1) /\ (length l <= 1)%nat /\
      forall x, known s1 x -> known s x \/ page_of x ∈ l) as
    (s1 & b1 & obj & next & E1 & Hok1 & Hb1 & Hh1 & Hd1 & Hl1).
  { pose proof (k_blocks _ Hok _ _ Hb) as (B1 & B2 & B3 & B4). destruct (head b) as [|obj next] eqn:Hh.
    - rewrite B3. simpl. destruct (free_list (pages s)) as [|p l] eqn:Hf; [naive_solver|].
      destruct (alloc_new_objs_spec nm s i b p l) as (s1 & b1 & E & Hok1 & Hb1 & Hh1 & Hd1 & Hl1 & Hk1); [done..|].
      destruct (head b1) as [|obj next] eqn:Hh'; [done|]. exists s1, b1, obj, next. split_and!; try done.
      exists [p]. rewrite Hl1. split_and!; [done|done|]. intros x [?| ->]%Hk1; [by left|right; by left].
    - exists s, b, obj, next. rewrite B3.
      rewrite (proj2 (Z.eqb_neq (Z.of_nat (length (obj :: next))) 0)) by (cbn [length]; lia).
      split_and!; try done. exists []. split_and!; [done|simpl; lia|]. intros x Hx. by left. }
  pose proof (k_blocks _ Hok1 _ _ Hb1) as (B1 & _ & _ & _).
  destruct (k_heads _ Hok1 i b1 obj Hb1) as [Hobj Hnone]; [rewrite Hh1; by left|].
  set (b2 := MemBlock (block_idx b1) (obj_size b1) (u32 (inuse b1 + 1)) (u32 (free b1 - 1)) (num b1) next).
  exists obj, (KMemSt (<[i := b2]> (blocks s1)) (<[obj := block_idx b1]> (desc s1)) (pages s1)). split_and!.
  - unfold fetch_obj_from_block. rewrite (bind_Ok _ _ _ _ _ (get_block_Ok _ _ _ Hb)).
    rewrite (bind_Ok _ _ _ _ _ E1). cbn [negb]. rewrite (bind_Ok _ _ _ _ _ (get_block_Ok _ _ _ Hb1)), Hh1.
    fold b2. by rewrite (bind_Ok _ _ _ _ _ (set_block_Ok _ _ _)).
  - by apply (take_obj_ok s1 i b1 obj next).
  - by rewrite <- Hd1.
  - simpl. by rewrite Hd1, B1.
  - done.
  - destruct Hl1 as (l & Hl1 & Hl2 & Hk1). exists l. split_and!; [done|done|]. intros x Hx. apply Hk1. unfold known in Hx. simpl in Hx.
    assert (forall y, y ∈ obj :: next -> known s1 y) as Hnext by (intros y Hy; right; exists i, b1; by rewrite Hh1).
    destruct Hx as [Hx|(j & c & Hj & Hx)].
    + destruct (decide (x = obj)) as [->|Hne]; [apply Hnext; by left|]. left. by rewrite lookup_insert_ne in Hx.
    + apply list_lookup_insert_Some in Hj as [(_ & <- & _)|[_ Hj]]; [apply Hnext; by right|right; eauto].
Qed.

(** The first size class that holds [n] bytes. *)
Definition class_of (n : Z) (i : Z) : Prop :=
  0 <= i < NBLOCK /\ n <= Z.shiftl 16 i /\ (forall j, 0 <= j < i -> Z.shiftl 16 j < n).

(** [kalloc]'s loop goes to the first class that holds [n] bytes. *)
Lemma kalloc_loop_skip nm s n k i : kmem_ok s -> class_of n k -> 0 <= i <= k ->
  kalloc_loop nm (Z.to_nat (NBLOCK - i)) i n s = kalloc_loop nm (Z.to_nat (NBLOCK - k)) k n s.
Proof.
  intros Hok (Hk & Hnk & Hmin) Hi. remember (Z.to_nat (k - i)) as d eqn:Ed.
  revert i Hi Ed. induction d as [|d IH]; intros i Hi Ed; [by replace i with k by lia|].
  rewrite <- (IH (i + 1)) by lia.
  replace (Z.to_nat (NBLOCK - i)) with (S (Z.to_nat (NBLOCK - (i + 1)))) by lia. cbn [kalloc_loop].
  destruct (lookup_lt_is_Some_2 (blocks s) (Z.to_nat i)) as [b Hb]; [rewrite (k_length _ Hok); lia|].
  pose proof (get_block_Ok _ _ _ Hb) as Eb. rewrite Z2Nat.id in Eb by lia. rewrite (bind_Ok _ _ _ _ _ Eb).
  pose proof (k_blocks _ Hok _ _ Hb) as (_ & B2 & _). rewrite Z2Nat.id in B2 by lia.
  rewrite B2. specialize (Hmin i). by rewrite (proj2 (Z.leb_gt _ _)) by lia.
Qed.

(** A turn of the loop in a class that is large enough. *)
Lemma kalloc_loop_turn nm s n k : kmem_ok s -> 0 <= k < NBLOCK -> n <= Z.shiftl 16 k ->
  exists b, blocks s !! Z.to_nat k = Some b /\
    kalloc_loop nm (Z.to_nat (NBLOCK - k)) k n s =
      (r ← fetch_obj_from_block nm k;
       if r =? 0 then kalloc_loop nm (Z.to_nat (NBLOCK - (k + 1))) (k + 1) n else mret r) s.
Proof.
  intros Hok Hk Hnk. destruct (lookup_lt_is_Some_2 (blocks s) (Z.to_nat k)) as [b Hb]; [rewrite (k_length _ Hok); lia|].
  exists b. split; [done|]. replace (Z.to_nat (NBLOCK - k)) with (S (Z.to_nat (NBLOCK - (k + 1)))) by lia. cbn [kalloc_loop].
  pose proof (get_block_Ok _ _ _ Hb) as Eb. rewrite Z2Nat.id in Eb by lia. rewrite (bind_Ok _ _ _ _ _ Eb).
  pose proof (k_blocks _ Hok _ _ Hb) as (_ & B2 & _). rewrite Z2Nat.id in B2 by lia.
  by rewrite B2, (proj2 (Z.leb_le _ _)) by lia.
Qed.

Lemma kalloc_to_class nm s n k : kmem_ok s -> class_of n k -> 0 < n ->
  kalloc nm false n s = kalloc_loop nm (Z.to_nat (NBLOCK - k)) k n s.
Proof.
  intros Hok Hc Hn. pose proof Hc as (Hk & Hnk & _). pose proof (size_class k Hk) as Hsz. unfold kalloc.
  rewrite (proj2 (Z.eqb_neq n 0)) by lia. assert (MAX_OBJ_SIZE = 1024) as Hmax by done.
  rewrite (bind_Ok _ _ _ tt s) by (apply ASSERT_true, Z.ltb_lt; unfold PG_SIZE; lia).
  rewrite (proj2 (Z.ltb_ge MAX_OBJ_SIZE n)) by lia.
  rewrite <- (kalloc_loop_skip nm s n k 0) by (done || lia). by rewrite Z.sub_0_r.
Qed.

(** Without a free page a class that has no free object gives none. *)
Lemma fetch_obj_none nm s i b : kmem_ok s -> blocks s !! i = Some b -> head b = [] -> free_list (pages s) = [] ->
  fetch_obj_from_block nm (Z.of_nat i) s = if nm then Ok (0, s) else Panic.
Proof.
  intros Hok Hb Hh Hf. pose proof (k_blocks _ Hok _ _ Hb) as (_ & _ & B3 & _). rewrite Hh in B3.
  pose proof (get_block_Ok _ _ _ Hb) as Eb. unfold fetch_obj_from_block. rewrite (bind_Ok _ _ _ _ _ Eb), B3.
  change (Z.of_nat (length []) =? 0) with true. cbv iota.
  assert (alloc_new_objs nm (Z.of_nat i) s = if nm then Ok (false, s) else Panic) as Ea.
  { unfold alloc_new_objs. rewrite (bind_Ok _ _ _ _ _ Eb).
    rewrite (bind_Ok _ _ _ tt s) by (apply ASSERT_true; by apply bool_decide_eq_true).
    pose proof (get_zeroed_free_page_none nm _ Hf) as Ez. destruct s as [bl de pg]. simpl in *.
    destruct nm; unfold lift, mbind, M_bind; simpl; by rewrite Ez. }
  destruct nm; [by rewrite (bind_Ok _ _ _ _ _ Ea)|by apply bind_Panic].
Qed.

Lemma kfree_spec s obj i : kmem_ok s -> desc s !! obj = Some i ->
  exists s', kfree false (obj + DESC_SIZE) s = Ok (tt, s') /\ kmem_ok s' /\ desc s' = delete obj (desc s) /\
    pages s' = pages s /\ (forall x, known s' x -> known s x).
Proof.
  intros Hok Hd. destruct (k_desc _ Hok _ _ Hd) as [[Hobj _] Hi].
  destruct (lookup_lt_is_Some_2 (blocks s) (Z.to_nat i)) as [b Hb]; [rewrite (k_length _ Hok); lia|].
  pose proof (get_block_Ok _ _ _ Hb) as Eb. rewrite Z2Nat.id in Eb by lia.
  eexists. split_and!; [|apply (give_obj_ok s (Z.to_nat i) b obj); [done|done|by rewrite Z2Nat.id by lia]|done|done|].
  2:{ intros x [Hx|(j & c & Hj & Hx)]; simpl in *.
      - left. destruct Hx as [k Hx]. apply lookup_delete_Some in Hx as [_ Hx]. by eexists.
      - apply list_lookup_insert_Some in Hj as [(_ & <- & _)|[_ Hj]]; [|right; eauto].
        simpl in Hx. apply elem_of_cons in Hx as [->|Hx]; [left; by eexists|right; eauto]. }
  unfold kfree. rewrite (proj2 (Z.eqb_neq _ 0)) by (unfold DESC_SIZE, FREE_BASE, KERNEL_BASE, KERNEL_SPACE_SIZE in *; lia).
  rewrite Z.add_simpl_r. cbv zeta. rewrite (bind_Ok _ _ _ s s) by done. rewrite Hd.
  rewrite (bind_Ok _ _ _ _ _ Eb). reflexivity.
Qed.

(** The loop at a class with a free object or with a free page. *)
Lemma kalloc_loop_serves nm s n k b : kmem_ok s -> 0 <= k < NBLOCK -> n <= Z.shiftl 16 k -> blocks s !! Z.to_nat k = Some b ->
  head b <> [] \/ free_list (pages s) <> [] ->
  exists obj s', kalloc_loop nm (Z.to_nat (NBLOCK - k)) k n s = Ok (obj + DESC_SIZE, s') /\ kmem_ok s' /\ desc s !! obj = None /\
    desc s' = <[obj := k]> (desc s) /\ is_obj s' obj /\
    (exists l, free_list (pages s) = l ++ free_list (pages s') /\ (length l <= 1)%nat /\
       forall x, known s' x -> known s x \/ page_of x ∈ l).
Proof.
  intros Hok Hk Hnk Hb Hav. destruct (kalloc_loop_turn nm s n k Hok Hk Hnk) as (b' & Hb' & ->). simplify_eq.
  destruct (fetch_obj_spec nm s (Z.to_nat k) b Hok Hb Hav) as (obj & s' & E & Hok' & Hnone & Hd & Hobj & Hl).
  rewrite Z2Nat.id in E, Hd by lia. exists obj, s'. split_and!; try done.
  rewrite (bind_Ok _ _ _ _ _ E). destruct Hobj as [Hobj _].
  by rewrite (proj2 (Z.eqb_neq _ 0)) by (unfold DESC_SIZE, FREE_BASE, KERNEL_BASE, KERNEL_SPACE_SIZE in *; lia).
Qed.

Lemma kalloc_spec nm s n k b : kmem_ok s -> class_of n k -> 0 < n -> blocks s !! Z.to_nat k = Some b ->
  head b <> [] \/ free_list (pages s) <> [] ->
  exists obj s', kalloc nm false n s = Ok (obj + DESC_SIZE, s') /\ kmem_ok s' /\ desc s !! obj = None /\
    desc s' = <[obj := k]> (desc s) /\ is_obj s' obj /\
    (exists l, free_list (pages s) = l ++ free_list (pages s') /\ (length l <= 1)%nat /\
       forall x, known s' x -> known s x \/ page_of x ∈ l).
Proof.
  intros Hok Hc Hn Hb Hav. rewrite (kalloc_to_class nm s n k Hok Hc Hn). destruct Hc as (Hk & Hnk & _).
  by apply (kalloc_loop_serves nm s n k b).
Qed.

(** The classes from [i] up to [j] have no free object. *)
Definition classes_empty (s : kmem) (i j : Z) : Prop :=
  forall c b, i <= c < j -> blocks s !! Z.to_nat c = Some b -> head b = [].

(** The loop without a free page, when page 0 is mapped: the next larger class with a free
    object, or NULL. *)
Lemma kalloc_loop_scan s n d : forall i, kmem_ok s -> free_list (pages s) = [] -> 0 <= i -> i + Z.of_nat d = NBLOCK ->
  n <= Z.shiftl 16 i ->
  (classes_empty s i NBLOCK /\ kalloc_loop true d i n s = Ok (0, s)) \/
  exists j b, i <= j < NBLOCK /\ n <= Z.shiftl 16 j /\ classes_empty s i j /\ blocks s !! Z.to_nat j = Some b /\ head b <> [] /\
    kalloc_loop true d i n s = kalloc_loop true (Z.to_nat (NBLOCK - j)) j n s.
Proof.
  induction d as [|d IH]; intros i Hok Hf Hi Hd Hn; [left; split; [intros c b Hc; lia|done]|].
  destruct (kalloc_loop_turn true s n i Hok ltac:(lia) Hn) as (b & Hb & E).
  replace (Z.to_nat (NBLOCK - i)) with (S d) in E by lia. replace (Z.to_nat (NBLOCK - (i + 1))) with d in E by lia.
  destruct (decide (head b = [])) as [Hh|Hh].
  - pose proof (fetch_obj_none true s (Z.to_nat i) b Hok Hb Hh Hf) as Ef. rewrite Z2Nat.id in Ef by lia.
    rewrite (bind_Ok _ _ _ _ _ Ef) in E. change (0 =? 0) with true in E. cbv iota in E. rewrite E.
    assert (forall j, classes_empty s (i + 1) j -> classes_empty s i j) as Hce.
    { intros j H c x Hc Hx. destruct (decide (c = i)) as [->|Hne]; [congruence|]. apply (H c x); [lia|done]. }
    destruct (IH (i + 1) Hok Hf) as [[H1 H2]|(j & b' & H1 & H2 & H3 & H4)]; [lia|lia| |left; auto|].
    + rewrite !Z.shiftl_mul_pow2 in * by lia. rewrite Z.pow_add_r by lia. lia.
    + right. exists j, b'. split_and!; try apply H4; auto; lia.
  - right. exists i, b. split_and!; [lia|unfold NBLOCK in *; lia|done|intros c x Hc; lia|done|done|].
    f_equal. lia.
Qed.

(** A request of [n] bytes is served from the class [j]: the object is one that no caller
    holds, its class is noted, the invariant is kept, and [kfree] of the pointer leaves the
    objects in use those before. *)
Definition serves (nm : bool) (s : kmem) (n j : Z) : Prop :=
  exists obj s' s'',
    kalloc nm false n s = Ok (obj + DESC_SIZE, s') /\ kmem_ok s' /\
    desc s !! obj = None /\ desc s' = <[obj := j]> (desc s) /\ n <= Z.shiftl 16 j /\
    kfree false (obj + DESC_SIZE) s' = Ok (tt, s'') /\ kmem_ok s'' /\ desc s'' = desc s.

Lemma serves_intro nm s n k j b : kmem_ok s -> class_of n k -> 0 < n -> 0 <= j < NBLOCK -> n <= Z.shiftl 16 j ->
  blocks s !! Z.to_nat j = Some b -> head b <> [] \/ free_list (pages s) <> [] ->
  kalloc nm false n s = kalloc_loop nm (Z.to_nat (NBLOCK - j)) j n s -> serves nm s n j.
Proof.
  intros Hok Hc Hn Hj Hnj Hb Hav E.
  destruct (kalloc_loop_serves nm s n j b) as (obj & s' & E' & Hok' & Hnone & Hd & _ & _); try done.
  destruct (kfree_spec s' obj j) as (s'' & Ef & Hok'' & Hd'' & _); [done|by rewrite Hd, lookup_insert_eq|].
  exists obj, s', s''. rewrite E. split_and!; try done. rewrite Hd'', Hd. by apply delete_insert_id.
Qed.

(** C28: the object allocator.  For a request of [n] bytes, up to the largest size class,
    [kalloc] goes to the smallest class that holds them.  When the class has a free object
    or there is a free page, it returns an object of the class that no caller holds, notes
    its class, keeps the invariant of the allocator, and [kfree] of the pointer leaves the
    objects in use those before.  Otherwise the page it gets is zeroed before it is tested
    for NULL: where page 0 is mapped (the kernel's own page directory) the request is served
    by the next larger class that has a free object, or NULL is returned when there is none;
    elsewhere the kernel stops.  A task that has been killed gets NULL, and its [kfree]
    does nothing. *)
Theorem kalloc_correct (nm : bool) s n k : kmem_ok s -> class_of n k -> 0 < n ->
  (exists b, blocks s !! Z.to_nat k = Some b /\
    if decide (head b = [] /\ free_list (pages s) = []) then
      if nm then
        (classes_empty s k NBLOCK /\ kalloc nm false n s = Ok (0, s)) \/
        (exists j, k < j < NBLOCK /\ classes_empty s k j /\ serves nm s n j)
      else kalloc nm false n s = Panic
    else serves nm s n k) /\
  kalloc nm true n s = Ok (0, s) /\ (forall ptr, kfree true ptr s = Ok (tt, s)).
Proof.
  intros Hok Hc Hn. pose proof Hc as (Hk & Hnk & _). pose proof (kalloc_to_class nm s n k Hok Hc Hn) as Ek.
  split_and!.
  - destruct (kalloc_loop_turn nm s n k Hok Hk Hnk) as (b & Hb & Et). exists b. split; [done|]. case_decide as D.
    + destruct D as [Hh Hf]. destruct nm.
      * destruct (kalloc_loop_scan s n (Z.to_nat (NBLOCK - k)) k Hok Hf) as [[H1 H2]|(j & b' & H1 & H2 & H3 & H4 & H5 & H6)];
          [lia|lia|done|left; split; [done|congruence]|right].
        exists j. split; [|split; [done|]].
        -- destruct (decide (j = k)) as [->|]; [congruence|lia].
        -- eapply (serves_intro true s n k j b'); eauto; [lia|congruence].
      * rewrite Ek, Et. apply bind_Panic. pose proof (fetch_obj_none false s (Z.to_nat k) b Hok Hb Hh Hf) as Ef.
        by rewrite Z2Nat.id in Ef by lia.
    + eapply (serves_intro nm s n k k b); eauto.
      destruct (head b); [|by left]. destruct (free_list (pages s)); [|by right]. by destruct D.
  - unfold kalloc. rewrite (proj2 (Z.eqb_neq n 0)) by lia. pose proof (size_class k Hk) as Hsz.
    assert (MAX_OBJ_SIZE = 1024) as Hmax by done.
    by rewrite (bind_Ok _ _ _ tt s) by (apply ASSERT_true, Z.ltb_lt; unfold PG_SIZE; lia).
  - intros ptr. unfold kfree. by destruct (ptr =? 0).
Qed.

(** [kalloc_init] establishes the invariant. *)
Lemma kalloc_init_ok s : pmem_ok (pages s) -> desc s = ∅ ->
  exists s', kalloc_init s = Ok (tt, s') /\ kmem_ok s' /\ pages s' = pages s /\ desc s' = ∅.
Proof.
  intros Hp Hd. eexists. split_and!; [reflexivity| |done|done].
  set (f := fun i : Z => MemBlock i (Z.shiftl 16 i) 0 0 0 []).
  assert (forall i b, map f (seqZ 0 NBLOCK) !! i = Some b -> b = f (Z.of_nat i)) as Hf.
  { intros i b (x & -> & Hx)%list_lookup_fmap_Some. apply lookup_seqZ in Hx as [-> _]. done. }
  split; simpl; fold f; [done|done|..].
  - intros i b ->%Hf. split_and!; try done. constructor.
  - intros i b obj ->%Hf Hin. by apply elem_of_nil in Hin.
  - intros i j b c obj ->%Hf _ Hin. by apply elem_of_nil in Hin.
  - intros obj i. by rewrite Hd, lookup_empty.
Qed.

Definition demo_pages : pmem := PMem [FREE_BASE + PG_SIZE; FREE_BASE] 2 0.

Lemma demo_pages_ok : pmem_ok demo_pages.
Proof.
  split; [| |done|done].
  - repeat constructor; vm_compute; try done; discriminate.
  - apply NoDup_cons. split; [|by apply NoDup_singleton]. by intros [=]%list_elem_of_singleton.
Qed.

Lemma palloc_correct_witness :
  (exists p s', p ∈ free_list demo_pages /\ palloc demo_pages = Ok (p - KERNEL_BASE, s') /\ p - KERNEL_BASE <> 0 /\
     p ∉ free_list s' /\ pmem_ok s' /\ pfree (p - KERNEL_BASE) s' = Ok (tt, demo_pages)) \/
  (free_list demo_pages = [] /\ palloc demo_pages = Ok (0x80000000, demo_pages)).
Proof. apply (palloc_correct demo_pages demo_pages_ok); vm_compute; [split; [discriminate|done]|done]. Defined.

Definition demo_kmem : kmem :=
  KMemSt (map (fun i => MemBlock i (Z.shiftl 16 i) 0 0 0 []) (seqZ 0 NBLOCK)) ∅ demo_pages.

Lemma demo_kmem_ok : kmem_ok demo_kmem.
Proof.
  destruct (kalloc_init_ok demo_kmem demo_pages_ok eq_refl) as (s' & E & Hok & _). by injection E as <-.
Qed.

Lemma kalloc_correct_witness :
  exists b, blocks demo_kmem !! Z.to_nat 2 = Some b /\
    if decide (head b = [] /\ free_list (pages demo_kmem) = []) then kalloc false false 50 demo_kmem = Panic
    else serves false demo_kmem 50 2.
Proof.
  destruct (kalloc_correct false demo_kmem 50 2 demo_kmem_ok) as [H _]; [|lia|exact H].
  split_and!; [lia|done|done|]. intros j Hj. assert (j = 0 \/ j = 1) as [-> | ->] by lia; done.
Defined.
End KMem.
