(* ===== verification/PgTab.v ===== *)
(** Page tables: src/kernel/mem/pgtab.c.

    Physical memory is a map from page frames (their physical addresses) to their 4096
    bytes.  The kernel reaches the frame [f] through the virtual address [KERNEL_BASE + f];
    an access through any other address, as the one the code makes at address 0 when it is
    out of pages, is a page fault in the kernel, which stops the machine.  Page directories
    and page tables are frames read as 1024 words.  The lock around the operations keeps
    interrupts away. *)

From stdpp Require Import base numbers list gmap.
From Stdlib Require Import ZArith Lia.
From S2P Require Import Prelude KMem.
Import KMem.
#[local] Open Scope Z_scope.

Module PgTab.

Definition KPGDIR_PADDR : Z := 0x10000.

Definition kpgdir : Z := KP2V KPGDIR_PADDR.

Definition PG_PRESENT : Z := 1.

Definition PG_RW_RW : Z := 2.

Definition PG_US_USER : Z := 4.

Definition PG_US_SUPER : Z := 0.

(** The entries of a table. *)
Definition NPTE : nat := 1024.

Definition PDE_NR (vaddr : Z) : Z := Z.land (Z.shiftr vaddr 22) 0x3FF.

Definition PTE_NR (vaddr : Z) : Z := Z.land (Z.shiftr vaddr 12) 0x3FF.

Definition VMEMORY_TOP : Z := KERNEL_BASE + PHY_MEMORY_TOP.

Definition KERNEL_FIRST_PDE_NR : Z := Z.shiftr KERNEL_BASE 20 / 4.

Definition KERNEL_LAST_PDE_NR : Z := Z.shiftr VMEMORY_TOP 20 / 4 - 1.

Definition FREE_FIRST_PDE_NR : Z := Z.shiftr FREE_BASE 20 / 4.

Definition FREE_LAST_PDE_NR : Z := Z.shiftr VMEMORY_TOP 20 / 4 - 1.

Definition USER_LAST_PDE_NR : Z := Z.shiftr KERNEL_BASE 20 / 4 - 1.

(** [PDE_IS_PRESENT] and [PTE_IS_PRESENT]. *)
Definition IS_PRESENT (e : Z) : bool := negb (Z.land e PG_PRESENT =? 0).

(** [PDE_PADDR] and [PTE_PADDR]. *)
Definition PADDR (e : Z) : Z := Z.land e 0xFFFFF000.

(** [PDE_VADDR] and [PTE_VADDR]. *)
Definition VADDR (e : Z) : Z := KV2P (PADDR e).

(** ** Memory *)

Record vmem := VMem { frames : gmap Z (list Z); pm : pmem }.

#[global] Instance Part_pm : Part vmem pmem :=
  {| part := pm; set_part := fun p s => VMem (frames s) p |}.

Definition zero_page : list Z := replicate (Z.to_nat PG_SIZE) 0.

Definition frame (s : vmem) (f : Z) : list Z := default zero_page (frames s !! f).

(** The frame behind an address of the kernel. *)
Definition frame_at (va : Z) : option Z :=
  if (KERNEL_BASE <=? va) && (va <? VMEMORY_TOP) then Some (page_of (va - KERNEL_BASE)) else None.

Definition get_frame (va : Z) : M vmem (list Z) := fun s =>
  match frame_at va with Some f => Ok (frame s f, s) | None => Panic end.

Definition set_frame (va : Z) (d : list Z) : M vmem unit := fun s =>
  match frame_at va with Some f => Ok (tt, VMem (<[f := d]> (frames s)) (pm s)) | None => Panic end.

(** The word [i] of the table at [va]. *)
Definition load_entry (va i : Z) : M vmem Z := d ← get_frame va; mret (get32 d (Z.to_nat i)).

Definition store_entry (va i v : Z) : M vmem unit := d ← get_frame va; set_frame va (set32 d (Z.to_nat i) v).

(** [memset(va, 0, PG_SIZE)] and [memcpy(dst, src, PG_SIZE)] of whole pages. *)
Definition clear_page (va : Z) : M vmem unit := set_frame va zero_page.

Definition copy_page (dst src : Z) : M vmem unit := d ← get_frame src; set_frame dst d.

Definition palloc : M vmem Z := lift (KMem.palloc : M pmem Z).

(** The link to the next free page is in the page. *)
Definition pfree (paddr : Z) : M vmem unit :=
  ASSERT (negb (paddr =? 0));;
  s ← get;
  store_entry (KP2V paddr) 0 (List.hd 0 (free_list (pm s)));;
  lift (KMem.pfree paddr).

Definition free_page (pg_addr : Z) : M vmem unit := pfree (KV2P pg_addr).

(** See KMem.v: without a free page this zeroes the page at NULL, which is the first frame
    where page 0 is mapped and a page fault elsewhere. *)
Definition get_zeroed_free_page (null_mapped : bool) : M vmem Z :=
  p ← palloc;
  clear_page (if (KP2V p =? 0) && null_mapped then KERNEL_BASE else KP2V p);;
  mret (KP2V p).

(** ** Operations *)

(** The table and the index of the entry that [pte_ptr] points to. *)
Definition pte_ptr (pgdir vaddr : Z) : M vmem (Z * Z) :=
  pde ← load_entry pgdir (PDE_NR vaddr);
  mret (VADDR pde, PTE_NR vaddr).

Definition v2p_addr (pgdir vaddr : Z) : M vmem Z :=
  pde ← load_entry pgdir (PDE_NR vaddr);
  if negb (IS_PRESENT pde) then panic
  else
    pte ← load_entry (VADDR pde) (PTE_NR vaddr);
    if negb (IS_PRESENT pte) then panic else mret (PADDR pte).

(** 0 is NULL. *)
Definition page_frame_ptr (pgdir vaddr : Z) : M vmem Z :=
  pde ← load_entry pgdir (PDE_NR vaddr);
  if negb (IS_PRESENT pde) then mret 0
  else
    pte ← load_entry (VADDR pde) (PTE_NR vaddr);
    if negb (IS_PRESENT pte) then mret 0 else mret (VADDR pte).

(** The page table of [vaddr] is there, or it is allocated now. *)
Definition need_pgtab (pgdir vaddr : Z) : M vmem bool :=
  pde ← load_entry pgdir (PDE_NR vaddr);
  if negb (IS_PRESENT pde) then
    new_pgtab ← palloc;
    if new_pgtab =? 0 then mret false
    else
      clear_page (KP2V new_pgtab);;
      store_entry pgdir (PDE_NR vaddr) (Z.lor (Z.lor (Z.lor new_pgtab PG_RW_RW) PG_US_USER) PG_PRESENT);;
      mret true
  else mret true.

Definition map_page (pgdir vaddr paddr attr : Z) : M vmem bool :=
  ASSERT (paddr mod PG_SIZE =? 0);;
  ok ← need_pgtab pgdir vaddr;
  if negb ok then mret false
  else
    p ← pte_ptr pgdir vaddr;
    pte ← load_entry (fst p) (snd p);
    ASSERT (negb (IS_PRESENT pte));;
    store_entry (fst p) (snd p) (Z.lor (Z.lor paddr attr) PG_PRESENT);;
    mret true.

Definition unmap_page (pgdir vaddr : Z) : M vmem unit :=
  p ← pte_ptr pgdir vaddr;
  pte ← load_entry (fst p) (snd p);
  store_entry (fst p) (snd p) (Z.land pte (Z.lnot PG_PRESENT)).

Definition pgdir_new (null_mapped : bool) : M vmem Z :=
  pgdir ← get_zeroed_free_page null_mapped;
  if negb (pgdir =? 0) then
    kd ← get_frame kpgdir;
    d ← get_frame pgdir;
    let off := Z.to_nat (4 * KERNEL_FIRST_PDE_NR) in
    set_frame pgdir (splice off (slice off (Z.to_nat ((KERNEL_LAST_PDE_NR - KERNEL_FIRST_PDE_NR + 1) * 4)) kd) d);;
    mret pgdir
  else mret pgdir.

(** [for (pte_nr = 0; pte_nr < 1024; pte_nr++)] of [pgdir_free]. *)
Fixpoint free_ptes (n : nat) (pgtab pte_nr : Z) : M vmem unit :=
  match n with
  | O => mret tt
  | S n =>
      pte ← load_entry pgtab pte_nr;
      (if IS_PRESENT pte then
         clear_page (KP2V (PADDR pte));;
         pfree (PADDR pte)
       else mret tt);;
      store_entry pgtab pte_nr 0;;
      free_ptes n pgtab (pte_nr + 1)
  end.

(** [for (pde_nr = 0; pde_nr <= USER_LAST_PDE_NR; pde_nr++)] of [pgdir_free]. *)
Fixpoint free_pdes (n : nat) (pgdir pde_nr : Z) : M vmem unit :=
  match n with
  | O => mret tt
  | S n =>
      pde ← load_entry pgdir pde_nr;
      (if negb (IS_PRESENT pde) then mret tt
       else
         free_ptes NPTE (VADDR pde) 0;;
         free_page (VADDR pde));;
      free_pdes n pgdir (pde_nr + 1)
  end.

Definition pgdir_free (pgdir : Z) : M vmem unit :=
  ASSERT (negb (kpgdir =? pgdir));;
  free_pdes (Z.to_nat (USER_LAST_PDE_NR + 1)) pgdir 0;;
  free_page pgdir.

(** The [bad:] of [pgdir_valloc]: [for (i = 0; i < cnt; i++)]. *)
Fixpoint valloc_undo (cnt : nat) (pgdir vaddr : Z) : M vmem unit :=
  match cnt with
  | O => mret tt
  | S cnt =>
      let vaddr := u32 (vaddr - PG_SIZE) in
      p ← v2p_addr pgdir vaddr;
      pfree p;;
      unmap_page pgdir vaddr;;
      valloc_undo cnt pgdir vaddr
  end.

(** [for (cnt = 0; cnt < pg_cnt; cnt++)] of [pgdir_valloc], with [n] pages to go. *)
Fixpoint valloc_loop (n cnt : nat) (pgdir vaddr attr : Z) : M vmem bool :=
  match n with
  | O => mret true
  | S n =>
      paddr ← palloc;
      if paddr =? 0 then valloc_undo cnt pgdir vaddr;; mret false
      else
        ok ← map_page pgdir vaddr paddr attr;
        if negb ok then pfree paddr;; valloc_undo cnt pgdir vaddr;; mret false
        else valloc_loop n (S cnt) pgdir (u32 (vaddr + PG_SIZE)) attr
  end.

Definition pgdir_valloc (pgdir vaddr pg_cnt attr : Z) : M vmem bool :=
  valloc_loop (Z.to_nat pg_cnt) 0 pgdir vaddr attr.

(** [for (pte_nr = 0; pte_nr < 1024; pte_nr++)] of [pgtab_copy]. *)
Fixpoint copy_ptes (n : nat) (src dst pte_nr : Z) : M vmem bool :=
  match n with
  | O => mret true
  | S n =>
      store_entry dst pte_nr 0;;
      pte ← load_entry src pte_nr;
      if IS_PRESENT pte then
        paddr ← palloc;
        if paddr =? 0 then mret false
        else
          store_entry dst pte_nr (Z.lor (Z.lor (Z.lor paddr PG_RW_RW) PG_US_USER) PG_PRESENT);;
          copy_page (KP2V paddr) (KP2V (PADDR pte));;
          copy_ptes n src dst (pte_nr + 1)
      else copy_ptes n src dst (pte_nr + 1)
  end.

Definition pgtab_copy (src dst : Z) : M vmem bool := copy_ptes NPTE src dst 0.

(** [for (pde_nr = 0; pde_nr <= USER_LAST_PDE_NR; pde_nr++)] of [pgdir_copy]. *)
Fixpoint copy_pdes (n : nat) (pgdir cp pde_nr : Z) : M vmem bool :=
  match n with
  | O => mret true
  | S n =>
      pde ← load_entry pgdir pde_nr;
      if negb (IS_PRESENT pde) then copy_pdes n pgdir cp (pde_nr + 1)
      else
        paddr ← palloc;
        if paddr =? 0 then mret false
        else
          store_entry cp pde_nr (Z.lor (Z.lor (Z.lor paddr PG_RW_RW) PG_US_USER) PG_PRESENT);;
          ok ← pgtab_copy (KP2V (PADDR pde)) (KP2V paddr);
          if negb ok then mret false else copy_pdes n pgdir cp (pde_nr + 1)
  end.

Definition pgdir_copy (null_mapped : bool) (pgdir : Z) : M vmem Z :=
  cp ← pgdir_new null_mapped;
  if cp =? 0 then mret 0
  else
    ok ← copy_pdes (Z.to_nat (USER_LAST_PDE_NR + 1)) pgdir cp 0;
    if ok : bool then mret cp else pgdir_free cp;; mret 0.

(** [for (done = 0; done < n; done += per, vp += per)] of [pgdir_setrange]; each turn but
    the last reaches the end of a page. *)
Fixpoint setrange_loop (fuel : nat) (pgdir vp val done n : Z) : M vmem bool :=
  match fuel with
  | O => hang
  | S fuel =>
      if done <? n then
        rp ← page_frame_ptr pgdir vp;
        if rp =? 0 then mret false
        else
          let offset := vp mod PG_SIZE in
          let per := if n - done <? PG_SIZE - offset then n - done else PG_SIZE - offset in
          d ← get_frame rp;
          set_frame rp (splice (Z.to_nat offset) (replicate (Z.to_nat per) (u8 val)) d);;
          setrange_loop fuel pgdir (u32 (vp + per)) val (done + per) n
      else mret true
  end.

Definition pgdir_setrange (pgdir vstart val n : Z) : M vmem bool :=
  setrange_loop (S (S (S (Z.to_nat (n / PG_SIZE))))) pgdir vstart val 0 n.

(** The two loops of [pgtab_init]. *)
Fixpoint init_ptes (n : nat) (pgtab pte_nr paddr : Z) : M vmem unit :=
  match n with
  | O => mret tt
  | S n =>
      store_entry pgtab pte_nr (Z.lor (Z.lor (Z.lor paddr PG_US_SUPER) PG_RW_RW) PG_PRESENT);;
      init_ptes n pgtab (pte_nr + 1) (paddr + PG_SIZE)
  end.

Fixpoint init_pdes (n : nat) (pde_nr pgtab_paddr paddr : Z) : M vmem unit :=
  match n with
  | O => mret tt
  | S n =>
      store_entry kpgdir pde_nr (Z.lor (Z.lor (Z.lor pgtab_paddr PG_US_SUPER) PG_RW_RW) PG_PRESENT);;
      init_ptes NPTE (KP2V pgtab_paddr) 0 paddr;;
      init_pdes n (pde_nr + 1) (pgtab_paddr + PG_SIZE) (paddr + 1024 * PG_SIZE)
  end.

Definition pgtab_init : M vmem unit :=
  init_pdes (Z.to_nat (FREE_LAST_PDE_NR - FREE_FIRST_PDE_NR + 1)) FREE_FIRST_PDE_NR 0x100000 KERNEL_SPACE_SIZE.

(** ** Entries as integers *)

Lemma aligned_lor x f : x mod PG_SIZE = 0 -> 0 <= f < PG_SIZE -> Z.lor x f = x + f.
Proof.
  unfold PG_SIZE. intros Hx Hf. assert (Z.land x f = 0) as Hl.
  { apply Z.bits_inj'. intros n Hn. rewrite Z.land_spec, Z.bits_0. destruct (Z.ltb_spec n 12).
    - apply andb_false_intro1. rewrite <- (Z.mod_pow2_bits_low x 12 n) by done.
      change (2 ^ 12) with 4096. by rewrite Hx, Z.bits_0.
    - apply andb_false_intro2. rewrite <- (Z.mod_small f (2 ^ 12)) by (change (2 ^ 12) with 4096; lia).
      apply Z.mod_pow2_bits_high. lia. }
  by rewrite Z.add_nocarry_lxor, Z.lxor_lor.
Qed.

Lemma PADDR_eq e : is_u32 e -> PADDR e = e - e mod PG_SIZE.
Proof.
  intros He. unfold PADDR, PG_SIZE.
  replace 0xFFFFF000 with (Z.ones 32 - Z.ones 12) by done.
  assert (Z.land e (Z.ones 32 - Z.ones 12) = Z.shiftl (Z.shiftr e 12) 12) as ->.
  { apply Z.bits_inj'. intros n Hn. rewrite Z.land_spec.
    replace (Z.ones 32 - Z.ones 12) with (Z.shiftl (Z.ones 20) 12) by done.
    destruct (Z.ltb_spec n 12).
    - rewrite !Z.shiftl_spec_low by done. by rewrite andb_false_r.
    - rewrite !Z.shiftl_spec by done. rewrite Z.shiftr_spec by lia. replace (n - 12 + 12) with n by lia.
      destruct (Z.ltb_spec n 32).
      + rewrite Z.ones_spec_low by lia. by rewrite andb_true_r.
      + rewrite Z.ones_spec_high by lia. rewrite andb_false_r. symmetry.
        rewrite <- (Z.mod_small e (2 ^ 32)) by done. apply Z.mod_pow2_bits_high. lia. }
  rewrite Z.shiftl_mul_pow2, Z.shiftr_div_pow2 by lia. change (2 ^ 12) with 4096. Z.div_mod_to_equations. lia.
Qed.

Lemma IS_PRESENT_odd e : IS_PRESENT e = Z.odd e.
Proof.
  unfold IS_PRESENT, PG_PRESENT. change 1 with (Z.ones 1) at 1. rewrite Z.land_ones by lia.
  change (2 ^ 1) with 2. rewrite Zmod_odd. destruct (Z.odd e); done.
Qed.

(** An entry for the frame [f]. *)
Definition entry_of (f attr : Z) : Z := Z.lor (Z.lor f attr) PG_PRESENT.

Lemma entry_of_spec f attr : f mod PG_SIZE = 0 -> 0 <= f < 2 ^ 32 -> 0 <= attr < PG_SIZE -> Z.even attr = true ->
  is_u32 (entry_of f attr) /\ PADDR (entry_of f attr) = f /\ IS_PRESENT (entry_of f attr) = true.
Proof.
  intros Hm Hf Ha He.
  assert (entry_of f attr = f + (attr + 1)) as Ee.
  { unfold entry_of. rewrite <- Z.lor_assoc.
    assert (Z.lor attr PG_PRESENT = attr + 1) as ->.
    { apply Z.even_spec in He as [q ->]. unfold PG_PRESENT.
      apply Z.bits_inj'. intros n Hn. rewrite Z.lor_spec.
      destruct (decide (n = 0)) as [->|Hn0].
      - rewrite Z.testbit_even_0, Z.testbit_odd_0. done.
      - replace n with (Z.succ (n - 1)) by lia. rewrite Z.testbit_even_succ, Z.testbit_odd_succ by lia.
        change 1 with (2 * 0 + 1) at 2. rewrite Z.testbit_odd_succ, Z.bits_0 by lia. by rewrite orb_false_r. }
    apply aligned_lor; [done|]. apply Z.even_spec in He as [q ->]. unfold PG_SIZE in *. lia. }
  rewrite Ee. assert (attr + 1 < PG_SIZE) as Ha' by (apply Z.even_spec in He as [q ->]; unfold PG_SIZE in *; lia).
  split_and!.
  - unfold is_u32, PG_SIZE in *. Z.div_mod_to_equations. lia.
  - rewrite PADDR_eq by (unfold is_u32, PG_SIZE in *; Z.div_mod_to_equations; lia).
    unfold PG_SIZE in *. Z.div_mod_to_equations. lia.
  - rewrite IS_PRESENT_odd. rewrite Z.odd_add, <- Z.negb_even, Z.add_1_r, Z.odd_succ, He.
    assert (Z.even f = true) as ->; [|done]. apply Z.even_spec. exists (2048 * (f / 4096)). unfold PG_SIZE in Hm. Z.div_mod_to_equations. lia.
Qed.

(** ** Memory *)

Lemma NPTE_eq : NPTE = 1024%nat.
Proof. done. Qed.

#[local] Opaque NPTE.

(** A frame the kernel can reach, and one of the area that is handed out. *)
Definition in_mem (f : Z) : Prop := f mod PG_SIZE = 0 /\ 0 <= f < PHY_MEMORY_TOP.

Definition pool_frame (f : Z) : Prop := f mod PG_SIZE = 0 /\ KERNEL_SPACE_SIZE <= f < PHY_MEMORY_TOP.

Definition free_frames (s : vmem) : list Z := map (fun p => p - KERNEL_BASE) (free_list (pm s)).

Definition page_ok (d : list Z) : Prop := length d = Z.to_nat PG_SIZE /\ bytes d.

Record vm_ok (s : vmem) : Prop := {
  v_pm : pmem_ok (pm s);
  v_top : forall f, f ∈ free_frames s -> pool_frame f;
  v_frames : forall f, page_ok (frame s f);
}.

(** The entry [i] of the table in the frame [t]. *)
Definition pte (s : vmem) (t : Z) (i : nat) : Z := get32 (frame s t) i.

Definition with_frame (s : vmem) (t : Z) (d : list Z) : vmem := VMem (<[t := d]> (frames s)) (pm s).

Lemma pool_in_mem f : pool_frame f -> in_mem f.
Proof. unfold pool_frame, in_mem, KERNEL_SPACE_SIZE. intros [? ?]. split; [done|lia]. Qed.

Lemma frame_at_KP2V f : in_mem f -> frame_at (KP2V f) = Some f.
Proof.
  intros [Hm Hf]. unfold frame_at, KP2V, VMEMORY_TOP, page_of.
  assert (u32 (f + KERNEL_BASE) = f + KERNEL_BASE) as ->
    by (apply u32_small; unfold is_u32, KERNEL_BASE, PHY_MEMORY_TOP in *; lia).
  rewrite (proj2 (Z.leb_le _ _)), (proj2 (Z.ltb_lt _ _)) by lia.
  simpl. rewrite Z.add_simpl_r, Hm. f_equal. lia.
Qed.

Lemma VADDR_eq e : VADDR e = KP2V (PADDR e).
Proof. unfold VADDR, KV2P, KP2V, KERNEL_BASE. ulia. Qed.

Lemma KV2P_KP2V f : is_u32 f -> KV2P (KP2V f) = f.
Proof. unfold KV2P, KP2V, KERNEL_BASE. ulia. Qed.

Lemma zero_page_ok : page_ok zero_page.
Proof.
  unfold page_ok, zero_page, bytes. split; [by rewrite length_replicate|].
  apply Forall_replicate. split; [done|done].
Qed.

Lemma frame_with s t d f : frame (with_frame s t d) f = if decide (f = t) then d else frame s f.
Proof.
  unfold frame, with_frame. simpl. case_decide as D; [subst; by rewrite lookup_insert_eq|by rewrite lookup_insert_ne].
Qed.

Lemma frame_with_eq s t d : frame (with_frame s t d) t = d.
Proof. by rewrite frame_with, decide_True. Qed.

Lemma frame_with_ne s t d f : f <> t -> frame (with_frame s t d) f = frame s f.
Proof. intros H. by rewrite frame_with, decide_False. Qed.

Lemma vm_ok_with s t d : vm_ok s -> page_ok d -> vm_ok (with_frame s t d).
Proof.
  intros [V1 V2 V3] Hd. split; [done|done|]. intros f. rewrite frame_with. by case_decide.
Qed.

Lemma get_frame_Ok s f : in_mem f -> get_frame (KP2V f) s = Ok (frame s f, s).
Proof. intros H. unfold get_frame. by rewrite frame_at_KP2V. Qed.

Lemma set_frame_Ok s f d : in_mem f -> set_frame (KP2V f) d s = Ok (tt, with_frame s f d).
Proof. intros H. unfold set_frame. by rewrite frame_at_KP2V. Qed.

Lemma load_entry_Ok s t i : in_mem t -> load_entry (KP2V t) i s = Ok (pte s t (Z.to_nat i), s).
Proof. intros H. unfold load_entry. by rewrite (bind_Ok _ _ _ _ _ (get_frame_Ok _ _ H)). Qed.

Lemma store_entry_Ok s t i v : in_mem t ->
  store_entry (KP2V t) i v s = Ok (tt, with_frame s t (set32 (frame s t) (Z.to_nat i) v)).
Proof. intros H. unfold store_entry. rewrite (bind_Ok _ _ _ _ _ (get_frame_Ok _ _ H)). by apply set_frame_Ok. Qed.

Lemma page_ok_set32 d i v : page_ok d -> (i < NPTE)%nat -> page_ok (set32 d i v).
Proof.
  intros [Hl Hb] Hi. split; [|auto with nico]. rewrite length_set32; [done|]. rewrite Hl. rewrite NPTE_eq in Hi. unfold PG_SIZE. lia.
Qed.

Lemma pte_store s t i v t' j : vm_ok s -> (i < NPTE)%nat -> is_u32 v ->
  pte (with_frame s t (set32 (frame s t) i v)) t' j = if decide (t' = t /\ j = i) then v else pte s t' j.
Proof.
  intros Hok Hi Hv. destruct (v_frames _ Hok t) as [Hl _]. unfold pte. rewrite frame_with.
  assert (4 * i + 4 <= length (frame s t))%nat as Hlen by (rewrite Hl; rewrite NPTE_eq in Hi; unfold PG_SIZE; lia).
  repeat case_decide; try naive_solver.
  - destruct_and!. subst. by rewrite get32_set32_eq.
  - subst. rewrite get32_set32_ne; [done|done|naive_solver].
Qed.

Lemma pte_store_eq s t i v j : vm_ok s -> (i < NPTE)%nat -> is_u32 v ->
  pte (with_frame s t (set32 (frame s t) i v)) t j = if decide (j = i) then v else pte s t j.
Proof. intros Hok Hi Hv. rewrite pte_store by done. destruct (decide (j = i)); [by rewrite decide_True|rewrite decide_False; naive_solver]. Qed.

Lemma pte_u32 s t i : vm_ok s -> is_u32 (pte s t i).
Proof. intros Hok. destruct (v_frames _ Hok t) as [_ Hb]. by apply get32_range. Qed.

Lemma PADDR_aligned e : is_u32 e -> PADDR e mod PG_SIZE = 0.
Proof. intros H. rewrite PADDR_eq by done. unfold PG_SIZE. Z.div_mod_to_equations. lia. Qed.

(** [palloc] takes the first free frame. *)
Lemma palloc_Ok s f l : vm_ok s -> free_frames s = f :: l ->
  exists s', palloc s = Ok (f, s') /\ vm_ok s' /\ free_frames s' = l /\ frames s' = frames s /\
    f <> 0 /\ f ∉ l /\ pool_frame f.
Proof.
  intros [V1 V2 V3] Hf. unfold free_frames in Hf. destruct (free_list (pm s)) as [|p l'] eqn:Hl; [done|].
  simpl in Hf. injection Hf as Hp Hl'.
  destruct V1 as [P1 P2 P3 P4]. rewrite Hl in *. apply Forall_cons in P1 as [[Hm Hr] P1]. apply NoDup_cons in P2 as [Hnin P2].
  assert (pool_frame f) as Hpool by (apply V2; unfold free_frames; rewrite Hl; simpl; rewrite Hp; by left).
  set (m := PMem l' (u32 (free_page_cnt (pm s) - 1)) (u32 (using_page_cnt (pm s) + 1))).
  exists (VMem (frames s) m). split_and!; try done.
  - unfold palloc, lift. simpl. unfold KMem.palloc, mbind, M_bind, get. rewrite Hl. simpl. fold m.
    do 2 f_equal. rewrite <- Hp. unfold KV2P. apply u32_small. unfold is_u32, FREE_BASE, KERNEL_BASE, KERNEL_SPACE_SIZE in *. lia.
  - split; simpl.
    + split; simpl; [done|done| |]; simpl in P3, P4; [|lia]. rewrite P3. ulia.
    + intros g Hg. apply V2. unfold free_frames. rewrite Hl. right. done.
    + done.
  - destruct Hpool as [_ Hpool]. unfold KERNEL_SPACE_SIZE in Hpool. lia.
  - rewrite <- Hl', <- Hp. intros Hin. apply list_elem_of_fmap in Hin as (q & Hq & Hin). by replace q with p in Hin by lia.
Qed.

(** There are at most [2^18] frames. *)
Lemma frames_bound (l : list Z) : NoDup l -> (forall f, f ∈ l -> pool_frame f) -> Z.of_nat (length l) <= 2 ^ 18.
Proof.
  intros Hn Hl. assert (exists n, n = 2 ^ 18) as [n En] by eauto. rewrite <- En.
  assert (l ⊆+ map (fun i => i * PG_SIZE) (seqZ 0 n)) as Hsub.
  { apply NoDup_submseteq; [done|]. intros f Hf. apply Hl in Hf as [Hm Hr]. apply list_elem_of_fmap.
    exists (f / PG_SIZE). unfold PG_SIZE, PHY_MEMORY_TOP, KERNEL_SPACE_SIZE in *. split; [Z.div_mod_to_equations; lia|].
    apply elem_of_seqZ. rewrite En. Z.div_mod_to_equations. lia. }
  apply submseteq_length in Hsub. rewrite length_map, length_seqZ in Hsub. lia.
Qed.

Lemma free_frames_nodup s : vm_ok s -> NoDup (free_frames s).
Proof.
  intros [[_ P2 _ _] _ _]. unfold free_frames. apply NoDup_fmap_2; [|done]. intros x y. lia.
Qed.

(** [pfree] of a frame in use puts it first. *)
Lemma pfree_Ok s f : vm_ok s -> pool_frame f -> f ∉ free_frames s ->
  exists s', pfree f s = Ok (tt, s') /\ vm_ok s' /\ free_frames s' = f :: free_frames s /\
    (forall g, g <> f -> frame s' g = frame s g).
Proof.
  intros Hok Hf Hnin. pose proof Hok as [V1 V2 V3]. pose proof (pool_in_mem f Hf) as Hin.
  pose proof (free_frames_nodup s Hok) as Hnd.
  assert (KP2V f = f + KERNEL_BASE) as Ev.
  { apply u32_small. destruct Hin. unfold is_u32, KERNEL_BASE, PHY_MEMORY_TOP in *. lia. }
  set (hd := List.hd 0 (free_list (pm s))).
  set (s1 := with_frame s f (set32 (frame s f) 0 hd)).
  set (m := PMem (KP2V f :: free_list (pm s)) (u32 (free_page_cnt (pm s) + 1)) (u32 (using_page_cnt (pm s) - 1))).
  assert (free_frames (VMem (frames s1) m) = f :: free_frames s) as Efree.
  { unfold free_frames. simpl. f_equal. rewrite Ev. lia. }
  assert (f <> 0) as Hf0 by (destruct Hf; unfold KERNEL_SPACE_SIZE in *; lia).
  exists (VMem (frames s1) m). split_and!; [|split|done|].
  - unfold pfree. rewrite (bind_Ok _ _ _ tt s) by (by apply ASSERT_true, negb_true_iff, Z.eqb_neq).
    rewrite (bind_Ok _ _ _ s s) by done. rewrite (bind_Ok _ _ _ tt s1) by (by apply store_entry_Ok).
    unfold lift, KMem.pfree. simpl.
    by rewrite (bind_Ok _ _ _ tt (pm s)) by (by apply ASSERT_true, negb_true_iff, Z.eqb_neq).
  - destruct V1 as [P1 P2 P3 P4].
    assert (NoDup (f :: free_frames s)) as Hnd' by (by constructor).
    assert (Z.of_nat (length (f :: free_frames s)) <= 2 ^ 18) as Hb.
    { apply frames_bound; [done|]. intros g [->|Hg]%elem_of_cons; [done|by apply V2]. }
    simpl in Hb. unfold free_frames in Hb. rewrite length_map in Hb.
    split; simpl.
    + constructor; [|done]. rewrite Ev. destruct Hf as [Hm Hr].
      split; unfold FREE_BASE, KERNEL_BASE, PHY_MEMORY_TOP, KERNEL_SPACE_SIZE, PG_SIZE in *; [|lia].
      Z.div_mod_to_equations. lia.
    + constructor; [|done]. intros Hc. apply Hnin. unfold free_frames. apply list_elem_of_fmap.
      exists (KP2V f). split; [lia|done].
    + rewrite P3. ulia.
    + lia.
  - rewrite Efree. intros g [->|Hg]%elem_of_cons; [done|by apply V2].
  - intros g. change (page_ok (frame s1 g)). unfold s1. rewrite frame_with. case_decide; [|done].
    apply page_ok_set32; [done|rewrite NPTE_eq; lia].
  - intros g Hg. change (frame s1 g = frame s g). by apply frame_with_ne.
Qed.

(** ** Address spaces *)

(** The frame the entry [j] of the table [k] of the directory [pd] maps. *)
Definition present (e : Z) : option Z := if IS_PRESENT e then Some (PADDR e) else None.

Definition lookup_pte (s : vmem) (pd : Z) (k j : nat) : option Z :=
  t ← present (pte s pd k); present (pte s t j).

(** The frames mapped by the entries [i .. i + n - 1] of the table [t], and the tables and
    frames below the entries of a directory, in order. *)
Definition pt_frames (s : vmem) (t : Z) (i n : nat) : list Z := omap (fun j => present (pte s t j)) (seq i n).

Definition pde_frames (s : vmem) (pd : Z) (k : nat) : list Z :=
  match present (pte s pd k) with Some t => t :: pt_frames s t 0 NPTE | None => [] end.

Definition pd_frames (s : vmem) (pd : Z) (k n : nat) : list Z := seq k n ≫= pde_frames s pd.

Definition USER_PDES : nat := 512.

(** An address space: its frames are distinct and none of them is free. *)
Record as_ok (s : vmem) (pd : Z) : Prop := {
  a_nodup : NoDup (pd :: pd_frames s pd 0 USER_PDES);
  a_pool : forall f, f ∈ pd :: pd_frames s pd 0 USER_PDES -> pool_frame f /\ f ∉ free_frames s;
}.

Lemma pt_frames_S s t i n : pt_frames s t i (S n) =
  match present (pte s t i) with Some f => f :: pt_frames s t (S i) n | None => pt_frames s t (S i) n end.
Proof. unfold pt_frames. simpl. by destruct (present (pte s t i)). Qed.

Lemma pd_frames_S s pd k n : pd_frames s pd k (S n) = pde_frames s pd k ++ pd_frames s pd (S k) n.
Proof. done. Qed.

Lemma pt_frames_elem s t i n f : f ∈ pt_frames s t i n <-> exists j, (i <= j < i + n)%nat /\ present (pte s t j) = Some f.
Proof.
  unfold pt_frames. rewrite list_elem_of_omap. setoid_rewrite elem_of_seq. done.
Qed.

Lemma pt_frames_ext s s' t t' i n : (forall j, (i <= j < i + n)%nat -> pte s' t' j = pte s t j) ->
  pt_frames s' t' i n = pt_frames s t i n.
Proof.
  revert i. induction n as [|n IH]; intros i H; [done|]. rewrite !pt_frames_S, H by lia.
  rewrite (IH (S i)); [done|]. intros j Hj. apply H. lia.
Qed.

(** What the tables of [pd] say does not depend on other frames. *)
Lemma pde_frames_ext s s' pd k : frame s' pd = frame s pd ->
  (forall t, present (pte s pd k) = Some t -> frame s' t = frame s t) -> pde_frames s' pd k = pde_frames s pd k.
Proof.
  intros Hpd Ht. unfold pde_frames, pte at 1. rewrite Hpd. fold (pte s pd k).
  destruct (present (pte s pd k)) as [t|] eqn:E; [|done]. f_equal. apply pt_frames_ext.
  intros j _. unfold pte. by rewrite Ht.
Qed.

Lemma pd_frames_elem s pd k n f : f ∈ pd_frames s pd k n <-> exists j, (k <= j < k + n)%nat /\ f ∈ pde_frames s pd j.
Proof.
  unfold pd_frames. rewrite list_elem_of_bind. setoid_rewrite elem_of_seq. naive_solver.
Qed.

Lemma pd_frames_ext s s' pd k n : frame s' pd = frame s pd ->
  (forall f, f ∈ pd_frames s pd k n -> frame s' f = frame s f) -> pd_frames s' pd k n = pd_frames s pd k n.
Proof.
  intros Hpd. revert k. induction n as [|n IH]; intros k H; [done|].
  rewrite !pd_frames_S in *. rewrite IH.
  - f_equal. apply pde_frames_ext; [done|]. intros t Ht. apply H, elem_of_app. left. unfold pde_frames. rewrite Ht. by left.
  - intros f Hf. apply H, elem_of_app. by right.
Qed.

(** The entries the kernel writes for user pages. *)
Definition user_entry (p : Z) : Z := Z.lor (Z.lor (Z.lor p PG_RW_RW) PG_US_USER) PG_PRESENT.

Lemma user_entry_spec p : in_mem p -> is_u32 (user_entry p) /\ present (user_entry p) = Some p.
Proof.
  intros [Hm Hp]. unfold user_entry. rewrite <- (Z.lor_assoc p). change (Z.lor PG_RW_RW PG_US_USER) with 6.
  destruct (entry_of_spec p 6) as (H1 & H2 & H3); [done|unfold PHY_MEMORY_TOP in Hp; lia|unfold PG_SIZE; lia|done|].
  split; [done|]. unfold present, entry_of in *. by rewrite H2, H3.
Qed.

Lemma present_0 : present 0 = None.
Proof. done. Qed.

Lemma pte_with_ne s t d t' j : t' <> t -> pte (with_frame s t d) t' j = pte s t' j.
Proof. intros H. unfold pte. by rewrite frame_with_ne. Qed.

Lemma elem_of_take_in {A} k (x : A) l : x ∈ take k l -> x ∈ l.
Proof. intros (i & H & _)%elem_of_take. by eapply list_elem_of_lookup_2. Qed.

Lemma elem_of_drop_in {A} k (x : A) l : x ∈ drop k l -> x ∈ l.
Proof. intros H. rewrite <- (take_drop k l). apply elem_of_app. by right. Qed.

(** A turn of the loop of [pgtab_copy] for an entry that is present: the first free frame
    gets the contents. *)
Lemma copy_present s dst i f g l : vm_ok s -> in_mem dst -> in_mem f -> (i < NPTE)%nat ->
  free_frames s = g :: l -> dst ∉ g :: l -> f <> dst -> f ∉ g :: l ->
  exists s', vm_ok s' /\ free_frames s' = l /\ pool_frame g /\
    (forall x, x <> dst -> x <> g -> frame s' x = frame s x) /\ frame s' g = frame s f /\
    (forall j, pte s' dst j = if decide (j = i) then user_entry g else pte s dst j) /\
    forall (k : M vmem bool),
      (paddr ← palloc;
       if paddr =? 0 then mret false
       else
         store_entry (KP2V dst) (Z.of_nat i) (Z.lor (Z.lor (Z.lor paddr PG_RW_RW) PG_US_USER) PG_PRESENT);;
         copy_page (KP2V paddr) (KP2V f);; k) s = k s'.
Proof.
  intros Hok Hdst Hf Hi Hl Hdl Hfd Hfl.
  destruct (palloc_Ok s g l Hok Hl) as (s2 & E2 & Hok2 & Hl2 & Hfr & Hg0 & Hgl & Hpool).
  pose proof (pool_in_mem g Hpool) as Hg. destruct (user_entry_spec g Hg) as [Hu Hpr].
  assert (forall x, frame s2 x = frame s x) as Efr by (intros x; unfold frame; by rewrite Hfr).
  set (s3 := with_frame s2 dst (set32 (frame s2 dst) i (user_entry g))).
  set (s4 := with_frame s3 g (frame s3 f)).
  assert (vm_ok s3) as Hok3 by (apply vm_ok_with; [done|apply page_ok_set32; [by apply v_frames|done]]).
  assert (dst <> g /\ f <> g) as [Hdg Hfg] by (split; intros ->; set_solver).
  exists s4. split_and!.
  - apply vm_ok_with; [done|]. by apply v_frames.
  - done.
  - done.
  - intros x Hx Hxg. unfold s4, s3. by rewrite !frame_with_ne, Efr by done.
  - unfold s4, s3. rewrite frame_with_eq. by rewrite frame_with_ne, Efr by done.
  - intros j. unfold s4. rewrite pte_with_ne by done. unfold s3. rewrite pte_store_eq by done.
    unfold pte. by rewrite Efr.
  - intros k. rewrite (bind_Ok _ _ _ _ _ E2). rewrite (proj2 (Z.eqb_neq g 0)) by done.
    rewrite (bind_Ok _ _ _ tt s3) by (rewrite store_entry_Ok by done; by rewrite Nat2Z.id).
    rewrite (bind_Ok _ _ _ tt s4); [done|]. unfold copy_page.
    rewrite (bind_Ok _ _ _ _ _ (get_frame_Ok s3 f Hf)). by apply set_frame_Ok.
Qed.

(** [pgtab_copy]: every frame the table maps is copied to a new one. *)
Lemma copy_ptes_spec n : forall i s src dst,
  (i + n = NPTE)%nat -> vm_ok s -> in_mem src -> in_mem dst -> src <> dst ->
  src ∉ free_frames s -> dst ∉ free_frames s ->
  (forall f, f ∈ pt_frames s src i n -> in_mem f /\ f ∉ free_frames s /\ f <> dst) ->
  let k := length (pt_frames s src i n) in
  (k <= length (free_frames s))%nat ->
  exists s', copy_ptes n (KP2V src) (KP2V dst) (Z.of_nat i) s = Ok (true, s') /\ vm_ok s' /\
    free_frames s' = drop k (free_frames s) /\
    pt_frames s' dst i n = take k (free_frames s) /\
    (forall j, (j < i)%nat -> pte s' dst j = pte s dst j) /\
    (forall f, f <> dst -> f ∉ take k (free_frames s) -> frame s' f = frame s f) /\
    (forall j, (i <= j < NPTE)%nat ->
       match present (pte s src j) with
       | Some f => exists f', present (pte s' dst j) = Some f' /\ frame s' f' = frame s f
       | None => present (pte s' dst j) = None
       end).
Proof.
  induction n as [|n IH]; intros i s src dst Hn Hok Hsrc Hdst Hne Hsf Hdf Hfr k Hk.
  { exists s. split_and!; try done. intros j Hj. lia. }
  set (s1 := with_frame s dst (set32 (frame s dst) i 0)).
  assert (vm_ok s1) as Hok1 by (apply vm_ok_with; [done|apply page_ok_set32; [by apply v_frames|lia]]).
  assert (forall j, pte s1 dst j = if decide (j = i) then 0 else pte s dst j) as Hd1.
  { intros j. unfold s1. apply pte_store_eq; [done|lia|done]. }
  assert (forall j, pte s1 src j = pte s src j) as Hs1 by (intros j; unfold s1; by apply pte_with_ne).
  assert (forall f, f <> dst -> frame s1 f = frame s f) as Hf1 by (intros; by apply frame_with_ne).
  cbn [copy_ptes]. rewrite (bind_Ok _ _ _ tt s1) by (rewrite store_entry_Ok by done; by rewrite Nat2Z.id).
  rewrite (bind_Ok _ _ _ _ _ (load_entry_Ok s1 src _ Hsrc)), Nat2Z.id, Hs1.
  subst k. rewrite pt_frames_S in Hfr, Hk |- *. unfold present in Hfr, Hk at 1.
  destruct (IS_PRESENT (pte s src i)) eqn:Ep.
  - set (f := PADDR (pte s src i)) in *. simpl in Hk.
    assert (present (pte s src i) = Some f) as Epr by (unfold present; by rewrite Ep).
    destruct (Hfr f) as (Hfm & Hff & Hfd); [by left|].
    destruct (free_frames s) as [|g l] eqn:El; [simpl in Hk; lia|].
    destruct (copy_present s1 dst i f g l) as (s4 & Hok4 & Hl4 & Hpool & Hx4 & Hg4 & Hd4 & Erun); try done; [lia|].
    rewrite Erun. clear Erun. pose proof (free_frames_nodup s Hok) as Hnd. rewrite El in Hnd. apply NoDup_cons in Hnd as [Hgl Hnd].
    assert (forall j, pte s4 src j = pte s src j) as Hs4.
    { intros j. unfold pte. rewrite Hx4; [by rewrite Hf1|done|]. intros ->. set_solver. }
    assert (pt_frames s4 src (S i) n = pt_frames s src (S i) n) as Ept by (by apply pt_frames_ext).
    destruct (IH (S i) s4 src dst) as (s' & E & Hok' & Hfree & Hpt & Hlow & Hoth & Hall); try done.
    + lia.
    + rewrite Hl4. set_solver.
    + rewrite Hl4. set_solver.
    + rewrite Ept, Hl4. intros x Hx. destruct (Hfr x) as (? & ? & ?); [by right|]. set_solver.
    + rewrite Ept, Hl4. simpl in Hk. lia.
    + rewrite Ept, Hl4 in *. exists s'. rewrite Epr. cbn [length take drop].
      assert (pte s' dst i = user_entry g) as Edi by (rewrite Hlow by lia; by rewrite Hd4, decide_True).
      split_and!; try done.
      * replace (Z.of_nat i + 1) with (Z.of_nat (S i)) by lia. done.
      * rewrite pt_frames_S, Edi, Hpt. by destruct (user_entry_spec g (pool_in_mem g Hpool)) as [_ ->].
      * intros j Hj. rewrite Hlow by lia. rewrite Hd4, decide_False by lia. by rewrite Hd1, decide_False by lia.
      * intros x Hx [Hxg Hxl]%not_elem_of_cons. rewrite Hoth by done. rewrite Hx4 by done. by apply Hf1.
      * intros j Hj. destruct (decide (j = i)) as [->|Hji].
        -- rewrite Epr, Edi. exists g. split; [by apply user_entry_spec, pool_in_mem|].
           rewrite Hoth, Hg4; [by apply Hf1| |].
           ++ intros ->. set_solver.
           ++ intros Hin. apply Hgl. by apply elem_of_take_in in Hin.
        -- specialize (Hall j). rewrite Hs4 in Hall. destruct (present (pte s src j)) as [x|] eqn:Ex; [|apply Hall; lia].
           destruct Hall as (f' & H1 & H2); [lia|]. exists f'. split; [done|]. rewrite H2.
           destruct (Hfr x) as (? & ? & ?).
           { right. apply pt_frames_elem. exists j. split; [lia|done]. }
           rewrite Hx4; [by apply Hf1|done|]. intros ->. set_solver.
  - assert (present (pte s src i) = None) as Epr by (unfold present; by rewrite Ep).
    assert (pt_frames s1 src (S i) n = pt_frames s src (S i) n) as Ept by (by apply pt_frames_ext).
    destruct (IH (S i) s1 src dst) as (s' & E & Hok' & Hfree & Hpt & Hlow & Hoth & Hall); try done.
    + lia.
    + by rewrite Ept.
    + by rewrite Ept.
    + rewrite Ept in *. exists s'. rewrite Epr.
      assert (pte s' dst i = 0) as Edi by (rewrite Hlow by lia; by rewrite Hd1, decide_True).
      split_and!; try done.
      * replace (Z.of_nat i + 1) with (Z.of_nat (S i)) by lia. done.
      * by rewrite pt_frames_S, Edi, present_0.
      * intros j Hj. rewrite Hlow by lia. by rewrite Hd1, decide_False by lia.
      * intros x Hx Hxl. rewrite Hoth by done. by apply Hf1.
      * intros j Hj. destruct (decide (j = i)) as [->|Hji]; [by rewrite Epr, Edi|].
        specialize (Hall j). rewrite Hs1 in Hall. destruct (present (pte s src j)) as [x|] eqn:Ex; [|apply Hall; lia].
        destruct Hall as (f' & H1 & H2); [lia|]. exists f'. split; [done|]. rewrite H2.
        destruct (Hfr x) as (? & ? & ?); [apply pt_frames_elem; exists j; split; [lia|done]|]. by apply Hf1.
Qed.

Lemma pde_frames_table s pd k t : present (pte s pd k) = Some t -> t ∈ pde_frames s pd k.
Proof. intros H. unfold pde_frames. rewrite H. by left. Qed.

Lemma lookup_pte_elem s pd k j f : lookup_pte s pd k j = Some f -> (j < NPTE)%nat -> f ∈ pde_frames s pd k.
Proof.
  unfold lookup_pte, pde_frames. intros (t & Ht & Hf)%bind_Some Hj. rewrite Ht. right.
  apply pt_frames_elem. exists j. split; [lia|done].
Qed.

Lemma lookup_pte_ext s s' pd k j : frame s' pd = frame s pd ->
  (forall f, f ∈ pde_frames s pd k -> frame s' f = frame s f) -> lookup_pte s' pd k j = lookup_pte s pd k j.
Proof.
  intros Hpd Hf. unfold lookup_pte. assert (pte s' pd k = pte s pd k) as -> by (unfold pte; by rewrite Hpd).
  destruct (present (pte s pd k)) as [t|] eqn:E; [|done]. simpl. unfold pte. by rewrite Hf by (by apply pde_frames_table).
Qed.

(** The copy maps at the entry [(k, j)] a frame with the same contents, if any. *)
Definition copied (s s' : vmem) (pd cp : Z) (k j : nat) : Prop :=
  match lookup_pte s pd k j with
  | Some f => exists f', lookup_pte s' cp k j = Some f' /\ frame s' f' = frame s f
  | None => lookup_pte s' cp k j = None
  end.

(** The table behind the entry [k] is copied to the frame [g] and its frames to the
    following free frames, [l]. *)
Record table_copied (s s' : vmem) (pd cp : Z) (k k1 : nat) (g : Z) (l : list Z) : Prop := {
  tc_ok : vm_ok s';
  tc_free : free_frames s' = drop k1 l;
  tc_fresh : g ∉ l /\ pool_frame g;
  tc_entry : forall j, pte s' cp j = if decide (j = k) then user_entry g else pte s cp j;
  tc_new : pde_frames s' cp k = g :: take k1 l;
  tc_frame : forall f, f <> cp -> f ∉ g :: take k1 l -> frame s' f = frame s f;
  tc_copied : forall j, (j < NPTE)%nat -> copied s s' pd cp k j;
}.

(** One turn of the loop of [pgdir_copy] for a table that is present. *)
Lemma copy_table s pd cp k t g l : vm_ok s -> in_mem cp -> in_mem pd -> (k < NPTE)%nat ->
  present (pte s pd k) = Some t -> free_frames s = g :: l -> cp ∉ g :: l -> pd ∉ g :: l -> cp <> pd ->
  (forall f, f ∈ pde_frames s pd k -> in_mem f /\ f ∉ g :: l /\ f <> cp) ->
  let k1 := length (pt_frames s t 0 NPTE) in
  (k1 <= length l)%nat ->
  exists s', table_copied s s' pd cp k k1 g l /\
    forall (cont : M vmem bool),
      (paddr ← palloc;
       if paddr =? 0 then mret false
       else
         store_entry (KP2V cp) (Z.of_nat k) (Z.lor (Z.lor (Z.lor paddr PG_RW_RW) PG_US_USER) PG_PRESENT);;
         ok ← pgtab_copy (KP2V t) (KP2V paddr);
         if negb ok then mret false else cont) s = cont s'.
Proof.
  intros Hok Hcp Hpd Hk Ht Hl Hcl Hpl Hcpd Hfr k1 Hlen.
  destruct (palloc_Ok s g l Hok Hl) as (s2 & E2 & Hok2 & Hl2 & Hfr2 & Hg0 & Hgl & Hpool).
  pose proof (pool_in_mem g Hpool) as Hg. destruct (user_entry_spec g Hg) as [Hu Hpr].
  assert (forall x, frame s2 x = frame s x) as Efr by (intros x; unfold frame; by rewrite Hfr2).
  set (s3 := with_frame s2 cp (set32 (frame s2 cp) k (user_entry g))).
  assert (vm_ok s3) as Hok3 by (apply vm_ok_with; [done|apply page_ok_set32; [by apply v_frames|done]]).
  assert (forall x, x <> cp -> frame s3 x = frame s x) as Hx3 by (intros x Hx; unfold s3; by rewrite frame_with_ne, Efr by done).
  destruct (Hfr t) as (Htm & Htl & Htc); [by apply pde_frames_table|].
  apply not_elem_of_cons in Htl as [Htg Htl]. apply not_elem_of_cons in Hcl as [Hcg Hcl]. apply not_elem_of_cons in Hpl as [Hpg Hpl].
  assert (forall f, f ∈ pt_frames s t 0 NPTE -> in_mem f /\ f ∉ g :: l /\ f <> cp) as Hfr'.
  { intros f Hf. apply Hfr. unfold pde_frames. rewrite Ht. by right. }
  assert (pt_frames s3 t 0 NPTE = pt_frames s t 0 NPTE) as Ept.
  { apply pt_frames_ext. intros j _. unfold pte. by rewrite Hx3. }
  destruct (copy_ptes_spec NPTE 0 s3 t g) as (s4 & E4 & Hok4 & Hfree & Hpt & _ & Hoth & Hall); try done.
  1,2: change (free_frames s3) with (free_frames s2); by rewrite Hl2.
  { rewrite Ept. change (free_frames s3) with (free_frames s2). rewrite Hl2. intros f Hf.
    destruct (Hfr' f Hf) as (H1 & [H2 H3]%not_elem_of_cons & H4). done. }
  { rewrite Ept. change (free_frames s3) with (free_frames s2). by rewrite Hl2. }
  rewrite Ept in *. change (free_frames s3) with (free_frames s2) in *. rewrite Hl2 in *. fold k1 in Hfree, Hpt, Hoth.
  assert (forall f, f ∉ l -> f ∉ take k1 l) as Htake by (intros f Hf Hin; by apply Hf, (elem_of_take_in k1)).
  assert (frame s4 cp = frame s3 cp) as Ecp by (apply Hoth; auto).
  assert (forall j, pte s4 cp j = if decide (j = k) then user_entry g else pte s cp j) as Hcpte.
  { intros j. unfold pte at 1. rewrite Ecp. fold (pte s3 cp j). unfold s3. rewrite pte_store_eq by done.
    unfold pte. by rewrite Efr. }
  assert (present (pte s4 cp k) = Some g) as Ecpk by (by rewrite Hcpte, decide_True).
  exists s4. split; [split; try done|].
  - unfold pde_frames. rewrite Ecpk. by rewrite Hpt.
  - intros f Hf [Hfg Hft]%not_elem_of_cons. rewrite Hoth by done. by apply Hx3.
  - intros j Hj. unfold copied, lookup_pte. rewrite Ht, Ecpk. simpl. specialize (Hall j ltac:(lia)).
    assert (pte s3 t j = pte s t j) as Etj by (unfold pte; by rewrite Hx3). rewrite Etj in Hall.
    destruct (present (pte s t j)) as [f|] eqn:Ef; [|done]. destruct Hall as (f' & H1 & H2). exists f'. split; [done|].
    rewrite H2. apply Hx3. apply Hfr'. apply pt_frames_elem. exists j. split; [lia|done].
  - intros cont. rewrite (bind_Ok _ _ _ _ _ E2). rewrite (proj2 (Z.eqb_neq g 0)) by done.
    rewrite (bind_Ok _ _ _ tt s3) by (rewrite store_entry_Ok by done; by rewrite Nat2Z.id).
    by rewrite (bind_Ok _ _ _ true s4).
Qed.

(** What the loop of [pgdir_copy] needs before the entry [k], with [n] to go, and what it
    has done at the end. *)
Record copy_pre (s : vmem) (pd cp : Z) (k n : nat) : Prop := {
  cp_ok : vm_ok s;
  cp_range : (k + n = USER_PDES)%nat;
  cp_dirs : in_mem pd /\ in_mem cp /\ cp <> pd;
  cp_used : pd ∉ free_frames s /\ cp ∉ free_frames s;
  cp_frames : forall f, f ∈ pd_frames s pd k n -> in_mem f /\ f ∉ free_frames s /\ f <> cp;
  cp_zero : forall j, (k <= j < USER_PDES)%nat -> pte s cp j = 0;
  cp_enough : (length (pd_frames s pd k n) <= length (free_frames s))%nat;
}.

Record pdes_copied (s s' : vmem) (pd cp : Z) (k n m : nat) : Prop := {
  pc_ok : vm_ok s';
  pc_free : free_frames s' = drop m (free_frames s);
  pc_new : pd_frames s' cp k n = take m (free_frames s);
  pc_entry : forall j, (j < k \/ USER_PDES <= j)%nat -> pte s' cp j = pte s cp j;
  pc_frame : forall f, f <> cp -> f ∉ take m (free_frames s) -> frame s' f = frame s f;
  pc_copied : forall j i, (k <= j < USER_PDES)%nat -> (i < NPTE)%nat -> copied s s' pd cp j i;
}.

(** The frames of the other tables are not touched. *)
Lemma table_copied_old s s4 pd cp k n k1 g l :
  copy_pre s pd cp k (S n) -> free_frames s = g :: l -> table_copied s s4 pd cp k k1 g l ->
  frame s4 pd = frame s pd /\ (forall f, f ∈ pd_frames s pd (S k) n -> frame s4 f = frame s f) /\
  pd_frames s4 pd (S k) n = pd_frames s pd (S k) n.
Proof.
  intros [P1 P2 P3 P4 P5 P6 P7] El [T1 T2 T3 T4 T5 T6 T7]. rewrite El in *.
  assert (forall f, f <> cp -> f ∉ g :: l -> frame s4 f = frame s f) as Hx.
  { intros f Hf Hn. apply T6; [done|]. intros [->|Hin]%elem_of_cons; apply Hn; [by left|right; by apply (elem_of_take_in k1)]. }
  assert (frame s4 pd = frame s pd) as Epd by (apply Hx; naive_solver).
  assert (forall f, f ∈ pd_frames s pd (S k) n -> frame s4 f = frame s f) as Eold.
  { intros f Hf. destruct (P5 f) as (_ & H2 & H3); [rewrite pd_frames_S; apply elem_of_app; by right|]. auto. }
  split_and!; [done|done|by apply pd_frames_ext].
Qed.

Lemma copy_pre_step s s4 pd cp k n t g l :
  copy_pre s pd cp k (S n) -> free_frames s = g :: l -> present (pte s pd k) = Some t ->
  table_copied s s4 pd cp k (length (pt_frames s t 0 NPTE)) g l -> copy_pre s4 pd cp (S k) n.
Proof.
  intros P El Et T. destruct (table_copied_old _ _ _ _ _ _ _ _ _ P El T) as (_ & _ & Epf).
  destruct P as [P1 P2 P3 P4 P5 P6 P7], T as [T1 T2 T3 T4 T5 T6 T7]. rewrite El in *.
  assert (forall f, f ∈ free_frames s4 -> f ∈ g :: l) as Hdrop.
  { intros f. rewrite T2. intros Hf%elem_of_drop_in. by right. }
  split; try done.
  - lia.
  - destruct P4 as [H1 H2]. split; intros Hin%Hdrop; done.
  - rewrite Epf. intros f Hf. destruct (P5 f) as (H1 & H2 & H3); [rewrite pd_frames_S; apply elem_of_app; by right|].
    split_and!; [done| |done]. intros Hin%Hdrop. done.
  - intros j Hj. rewrite T4, decide_False by lia. apply P6. lia.
  - rewrite Epf, T2, length_drop. rewrite pd_frames_S, length_app in P7. unfold pde_frames in P7. rewrite Et in P7.
    cbn [length] in P7. lia.
Qed.

(** The frames of the table just copied are not touched by the rest of the loop. *)
Lemma pdes_copied_old s s4 s' pd cp k n k1 m g l :
  vm_ok s -> free_frames s = g :: l -> cp ∉ g :: l -> table_copied s s4 pd cp k k1 g l ->
  pdes_copied s4 s' pd cp (S k) n m ->
  pte s' cp k = user_entry g /\ (forall f, f ∈ g :: take k1 l -> frame s' f = frame s4 f) /\
  pde_frames s' cp k = g :: take k1 l /\ (forall j, lookup_pte s' cp k j = lookup_pte s4 cp k j).
Proof.
  intros Hok El Hcp [T1 T2 [T3 T3'] T4 T5 T6 T7] [C1 C2 C3 C4 C5 C6].
  pose proof (free_frames_nodup s Hok) as Hnd. rewrite El in Hnd. apply NoDup_cons in Hnd as [_ Hnd].
  rewrite <- (take_drop k1 l) in Hnd. apply NoDup_app in Hnd as (_ & Hdisj & _).
  assert (pte s' cp k = user_entry g) as Ek by (rewrite C4 by lia; by rewrite T4, decide_True).
  assert (forall f, f ∈ g :: take k1 l -> frame s' f = frame s4 f) as Enew.
  { intros f Hf. rewrite T2 in C5. apply C5.
    - intros ->. apply Hcp. apply elem_of_cons in Hf as [->|Hf]; [by left|right; by apply (elem_of_take_in k1)].
    - intros Hin%elem_of_take_in. apply elem_of_cons in Hf as [->|Hf]; [|by apply (Hdisj f)].
      by apply T3, (elem_of_drop_in k1). }
  destruct (user_entry_spec g (pool_in_mem g T3')) as [_ Epr].
  assert (forall j, pte s' g j = pte s4 g j) as Eg by (intros j; unfold pte; rewrite Enew; [done|by left]).
  split_and!; [done|done| |].
  - rewrite <- T5. unfold pde_frames. rewrite Ek, T4, decide_True, Epr by done. f_equal. by apply pt_frames_ext.
  - intros j. unfold lookup_pte. rewrite Ek, T4, decide_True, Epr by done. simpl. by rewrite Eg.
Qed.

Lemma pdes_copied_step s s4 s' pd cp k n t g l :
  copy_pre s pd cp k (S n) -> free_frames s = g :: l -> present (pte s pd k) = Some t ->
  let k1 := length (pt_frames s t 0 NPTE) in
  table_copied s s4 pd cp k k1 g l ->
  pdes_copied s4 s' pd cp (S k) n (length (pd_frames s pd (S k) n)) ->
  pdes_copied s s' pd cp k (S n) (length (pd_frames s pd k (S n))).
Proof.
  intros P El Et k1 T C. destruct (table_copied_old _ _ _ _ _ _ _ _ _ P El T) as (Epd & Eold & Epf).
  pose proof P as [P1 P2 P3 [_ P4] P5 P6 P7]. rewrite El in P4.
  destruct (pdes_copied_old _ _ _ _ _ _ _ _ _ _ _ P1 El P4 T C) as (Ek & Enew & Epk & Elk).
  pose proof T as [T1 T2 [T3 T3'] T4 T5 T6 T7]. pose proof C as [C1 C2 C3 C4 C5 C6]. rewrite T2 in C2, C3, C5.
  set (m1 := length (pd_frames s pd (S k) n)) in *.
  assert (length (pd_frames s pd k (S n)) = S (k1 + m1)) as ->.
  { rewrite pd_frames_S, length_app. unfold pde_frames. by rewrite Et. }
  split; rewrite ?El; cbn [take drop].
  - done.
  - by rewrite C2, drop_drop.
  - rewrite pd_frames_S, Epk, C3. cbn [app]. by rewrite take_take_drop.
  - intros j Hj. rewrite C4 by lia. by rewrite T4, decide_False by (unfold USER_PDES in *; lia).
  - intros f Hf. rewrite <- take_take_drop. intros [Hfg [H1 H2]%not_elem_of_app]%not_elem_of_cons.
    rewrite C5 by done. apply T6; [done|]. by apply not_elem_of_cons.
  - intros j i Hj Hi. destruct (decide (j = k)) as [->|Hjk].
    + specialize (T7 i Hi). unfold copied in *. rewrite Elk.
      destruct (lookup_pte s pd k i) as [f|]; [|done]. destruct T7 as (f' & H1 & H2). exists f'. split; [done|].
      rewrite <- H2. apply Enew. rewrite <- T5. by eapply lookup_pte_elem.
    + specialize (C6 j i ltac:(lia) Hi). unfold copied in *.
      assert (forall f, f ∈ pde_frames s pd j -> f ∈ pd_frames s pd (S k) n) as Hsub.
      { intros f Hf. apply pd_frames_elem. exists j. split; [lia|done]. }
      assert (lookup_pte s4 pd j i = lookup_pte s pd j i) as El4 by (apply lookup_pte_ext; auto).
      rewrite El4 in C6. destruct (lookup_pte s pd j i) as [f|] eqn:Ef; [|done].
      destruct C6 as (f' & H1 & H2). exists f'. split; [done|]. rewrite H2. apply Eold, Hsub. by eapply lookup_pte_elem.
Qed.

Lemma pdes_copied_skip s s' pd cp k n :
  copy_pre s pd cp k (S n) -> present (pte s pd k) = None ->
  pdes_copied s s' pd cp (S k) n (length (pd_frames s pd (S k) n)) ->
  pdes_copied s s' pd cp k (S n) (length (pd_frames s pd k (S n))).
Proof.
  intros [P1 P2 P3 P4 P5 P6 P7] Et [C1 C2 C3 C4 C5 C6].
  assert (pde_frames s pd k = []) as Epde by (unfold pde_frames; by rewrite Et).
  assert (pte s' cp k = 0) as Ek by (rewrite C4 by lia; apply P6; lia).
  rewrite pd_frames_S, Epde in *. cbn [app] in *. split; try done.
  - rewrite pd_frames_S. unfold pde_frames. by rewrite Ek, present_0.
  - intros j Hj. apply C4. lia.
  - intros j i Hj Hi. destruct (decide (j = k)) as [->|Hjk]; [|apply C6; [lia|done]].
    unfold copied, lookup_pte. by rewrite Et, Ek, present_0.
Qed.

Lemma USER_PDES_eq : USER_PDES = 512%nat.
Proof. done. Qed.

Lemma USER_PDES_NPTE : (USER_PDES < NPTE)%nat.
Proof. rewrite NPTE_eq. unfold USER_PDES. lia. Qed.

#[local] Opaque USER_PDES.

(** The loop of [pgdir_copy]. *)
Lemma copy_pdes_spec n : forall k s pd cp, copy_pre s pd cp k n ->
  exists s', copy_pdes n (KP2V pd) (KP2V cp) (Z.of_nat k) s = Ok (true, s') /\
    pdes_copied s s' pd cp k n (length (pd_frames s pd k n)).
Proof.
  induction n as [|n IH]; intros k s pd cp P.
  { exists s. split; [done|]. pose proof (cp_range _ _ _ _ _ P). split; try done; [by apply P|]. intros j i Hj. lia. }
  pose proof P as [P1 P2 (P3 & P3' & P3'') [P4 P4'] P5 P6 P7].
  cbn [copy_pdes]. rewrite (bind_Ok _ _ _ _ _ (load_entry_Ok s pd _ P3)), Nat2Z.id.
  replace (Z.of_nat k + 1) with (Z.of_nat (S k)) by lia.
  destruct (IS_PRESENT (pte s pd k)) eqn:Ep.
  - set (t := PADDR (pte s pd k)). assert (present (pte s pd k) = Some t) as Et by (unfold present; by rewrite Ep).
    destruct (free_frames s) as [|g l] eqn:El.
    { rewrite pd_frames_S in P7. unfold pde_frames in P7. rewrite Et in P7. cbn [app length] in P7. lia. }
    destruct (copy_table s pd cp k t g l) as (s4 & T & Erun); try done.
    { pose proof USER_PDES_NPTE. lia. }
    { intros f Hf. apply P5. rewrite pd_frames_S. apply elem_of_app. by left. }
    { rewrite pd_frames_S, length_app in P7. unfold pde_frames in P7. rewrite Et in P7. cbn [length] in P7. lia. }
    destruct (IH (S k) s4 pd cp) as (s' & E & C); [by eapply copy_pre_step|].
    destruct (table_copied_old _ _ _ _ _ _ _ _ _ P El T) as (_ & _ & Epf). rewrite Epf in C.
    exists s'. split; [|by eapply pdes_copied_step]. cbn [negb]. by rewrite Erun.
  - assert (present (pte s pd k) = None) as Et by (unfold present; by rewrite Ep).
    destruct (IH (S k) s pd cp) as (s' & E & C).
    { assert (pd_frames s pd k (S n) = pd_frames s pd (S k) n) as Epf by (rewrite pd_frames_S; unfold pde_frames; by rewrite Et).
      rewrite Epf in *. split; try done; [lia|]. intros j Hj. apply P6. lia. }
    exists s'. split; [done|by apply pdes_copied_skip].
Qed.

(** *** New directories *)

Lemma get32_zero_page j : get32 zero_page j = 0.
Proof.
  unfold get32, slice, zero_page. rewrite drop_replicate, take_replicate.
  assert (forall n, dec32 (replicate n 0) = 0) as H by (by intros [|[|[|[|[|]]]]]).
  apply H.
Qed.

(** The user half of a new directory is empty, the kernel half is that of [kpgdir]. *)
Lemma pgdir_new_spec nm s c l : vm_ok s -> free_frames s = c :: l ->
  exists s', pgdir_new nm s = Ok (KP2V c, s') /\ vm_ok s' /\ free_frames s' = l /\ pool_frame c /\ c ∉ l /\
    (forall f, f <> c -> frame s' f = frame s f) /\
    (forall j, (j < USER_PDES)%nat -> pte s' c j = 0) /\
    (forall j, (USER_PDES <= j < 768)%nat -> pte s' c j = pte s KPGDIR_PADDR j).
Proof.
  intros Hok Hl. destruct (palloc_Ok s c l Hok Hl) as (s2 & E2 & Hok2 & Hl2 & Hfr & Hc0 & Hcl & Hpool).
  pose proof (pool_in_mem c Hpool) as Hc.
  assert (forall x, frame s2 x = frame s x) as Efr by (intros x; unfold frame; by rewrite Hfr).
  set (s3 := with_frame s2 c zero_page). set (kd := frame s KPGDIR_PADDR).
  assert (KPGDIR_PADDR <> c) as Hkc by (destruct Hpool; unfold KPGDIR_PADDR, KERNEL_SPACE_SIZE in *; lia).
  assert (frame s3 KPGDIR_PADDR = kd) as Ekd by (unfold s3; by rewrite frame_with_ne, Efr).
  assert (frame s3 c = zero_page) as Ec by (unfold s3; apply frame_with_eq).
  destruct (v_frames _ Hok KPGDIR_PADDR) as [Hkl Hkb]. fold kd in Hkl, Hkb. destruct zero_page_ok as [Hzl Hzb].
  set (d := splice 2048 (slice 2048 1024 kd) zero_page).
  assert (length (slice 2048 1024 kd) = 1024%nat) as Hsl by (apply length_slice; rewrite Hkl; unfold PG_SIZE; lia).
  assert (2048 + length (slice 2048 1024 kd) <= length zero_page)%nat as Hfit by (rewrite Hsl, Hzl; unfold PG_SIZE; lia).
  assert (KP2V c <> 0) as Hv0.
  { unfold KP2V. destruct Hpool. rewrite u32_small; unfold is_u32, KERNEL_BASE, KERNEL_SPACE_SIZE, PHY_MEMORY_TOP in *; lia. }
  assert (in_mem KPGDIR_PADDR) as Hk by (split; [done|unfold PHY_MEMORY_TOP, KPGDIR_PADDR; lia]).
  exists (with_frame s3 c d). split_and!; [| |done|done|done| | |].
  - unfold pgdir_new, get_zeroed_free_page. rewrite (bind_Ok _ _ _ (KP2V c) s3).
    + rewrite (proj2 (Z.eqb_neq _ 0)) by done. cbn [negb]. unfold kpgdir.
      rewrite (bind_Ok _ _ _ _ _ (get_frame_Ok s3 KPGDIR_PADDR Hk)).
      rewrite (bind_Ok _ _ _ _ _ (get_frame_Ok s3 c Hc)). rewrite Ekd, Ec.
      change (Z.to_nat (4 * KERNEL_FIRST_PDE_NR)) with 2048%nat.
      change (Z.to_nat ((KERNEL_LAST_PDE_NR - KERNEL_FIRST_PDE_NR + 1) * 4)) with 1024%nat.
      cbv zeta. by rewrite (bind_Ok _ _ _ _ _ (set_frame_Ok s3 c _ Hc)).
    + rewrite (bind_Ok _ _ _ _ _ E2). rewrite (proj2 (Z.eqb_neq _ 0)) by done. unfold clear_page. by rewrite (bind_Ok _ _ _ _ _ (set_frame_Ok s2 c _ Hc)).
  - apply vm_ok_with; [apply vm_ok_with; [done|apply zero_page_ok]|].
    split; [unfold d; by rewrite length_splice|]. apply bytes_splice; [by apply bytes_slice|done].
  - intros f Hf. rewrite frame_with_ne by done. unfold s3. by rewrite frame_with_ne, Efr.
  - intros j Hj. unfold pte. rewrite frame_with_eq. unfold d, get32. rewrite slice_splice_ne by (done || (rewrite Hsl; rewrite ?USER_PDES_eq in *; lia)).
    apply get32_zero_page.
  - intros j Hj. unfold pte. rewrite frame_with_eq. unfold d, get32. f_equal. fold kd. apply slice_eq; [done|].
    intros i Hi. rewrite splice_lookup by done. rewrite Hsl. rewrite USER_PDES_eq in *. rewrite decide_True by lia.
    rewrite slice_lookup by lia. f_equal. lia.
Qed.

(** *** The memory a user program sees *)

(** The frame of the page at the address [va], and the byte there. *)
Definition translate (s : vmem) (pd va : Z) : option Z :=
  lookup_pte s pd (Z.to_nat (PDE_NR va)) (Z.to_nat (PTE_NR va)).

Definition uload (s : vmem) (pd va : Z) : option Z :=
  f ← translate s pd va; frame s f !! Z.to_nat (va mod PG_SIZE).

Lemma PDE_NR_eq va : 0 <= va -> PDE_NR va = (va / 2 ^ 22) mod 1024.
Proof.
  intros H. unfold PDE_NR. rewrite Z.shiftr_div_pow2 by lia. change 0x3FF with (Z.ones 10). by rewrite Z.land_ones by lia.
Qed.

Lemma PTE_NR_eq va : 0 <= va -> PTE_NR va = (va / 2 ^ 12) mod 1024.
Proof.
  intros H. unfold PTE_NR. rewrite Z.shiftr_div_pow2 by lia. change 0x3FF with (Z.ones 10). by rewrite Z.land_ones by lia.
Qed.

Lemma user_indices va : 0 <= va < KERNEL_BASE ->
  (Z.to_nat (PDE_NR va) < USER_PDES)%nat /\ (Z.to_nat (PTE_NR va) < NPTE)%nat.
Proof.
  intros H. rewrite PDE_NR_eq, PTE_NR_eq, NPTE_eq by lia. rewrite USER_PDES_eq. unfold KERNEL_BASE in H.
  change (2 ^ 22) with 4194304. change (2 ^ 12) with 4096. split; Z.div_mod_to_equations; lia.
Qed.

Lemma pgdir_copy_spec nm s pd : vm_ok s -> as_ok s pd ->
  let n := S (length (pd_frames s pd 0 USER_PDES)) in
  (n <= length (free_frames s))%nat ->
  exists cp s', pgdir_copy nm (KP2V pd) s = Ok (KP2V cp, s') /\ vm_ok s' /\ as_ok s' pd /\ as_ok s' cp /\
    cp :: pd_frames s' cp 0 USER_PDES = take n (free_frames s) /\ free_frames s' = drop n (free_frames s) /\
    (forall f, f ∉ free_frames s -> frame s' f = frame s f) /\
    (forall j, (USER_PDES <= j < 768)%nat -> pte s' cp j = pte s KPGDIR_PADDR j) /\
    (forall j i, (j < USER_PDES)%nat -> (i < NPTE)%nat -> copied s s' pd cp j i).
Proof.
  intros Hok [A1 A2] n Hn. destruct (free_frames s) as [|cp l] eqn:El; [simpl in Hn; lia|].
  destruct (pgdir_new_spec nm s cp l Hok El) as (s1 & E1 & Hok1 & Hl1 & Hpool & Hcl & Hx1 & Hz1 & Hk1).
  assert (forall f, f ∈ pd :: pd_frames s pd 0 USER_PDES -> in_mem f /\ f ∉ l /\ f <> cp) as Hold.
  { intros f Hf. destruct (A2 f Hf) as [H1 [H2 H3]%not_elem_of_cons]. split_and!; [by apply pool_in_mem|done|done]. }
  destruct (Hold pd) as (Hpd & Hpdl & Hpdc); [by left|].
  assert (pd_frames s1 pd 0 USER_PDES = pd_frames s pd 0 USER_PDES) as Epf.
  { apply pd_frames_ext; [by apply Hx1|]. intros f Hf. apply Hx1, Hold. by right. }
  destruct (copy_pdes_spec USER_PDES 0 s1 pd cp) as (s' & E & C).
  { split; rewrite ?Epf, ?Hl1; try done.
    - split_and!; [done|by apply pool_in_mem|done].
    - intros f Hf. apply Hold. by right.
    - intros j Hj. apply Hz1. lia.
    - simpl in Hn. unfold n in Hn. lia. }
  rewrite Epf in C. destruct C as [C1 C2 C3 C4 C5 C6]. rewrite Hl1 in *. subst n. set (m := length (pd_frames s pd 0 USER_PDES)) in *.
  assert (forall f, f ∉ cp :: l -> frame s' f = frame s f) as Hfr.
  { intros f [H1 H2]%not_elem_of_cons. rewrite C5; [by apply Hx1|done|]. intros Hin%elem_of_take_in. done. }
  assert (pd_frames s' pd 0 USER_PDES = pd_frames s pd 0 USER_PDES) as Epf'.
  { apply pd_frames_ext; [apply Hfr; by apply A2; left|]. intros f Hf. apply Hfr, A2. by right. }
  pose proof (free_frames_nodup s Hok) as Hnd. rewrite El in Hnd.
  assert (cp :: take m l = take (S m) (cp :: l)) as Etake by done.
  exists cp, s'. cbn [take drop]. split_and!; try done.
  - unfold pgdir_copy. rewrite (bind_Ok _ _ _ _ _ E1).
    assert (KP2V cp <> 0) as H0.
    { unfold KP2V. destruct Hpool. rewrite u32_small; unfold is_u32, KERNEL_BASE, KERNEL_SPACE_SIZE, PHY_MEMORY_TOP in *; lia. }
    rewrite (proj2 (Z.eqb_neq _ 0)) by done. change (Z.of_nat 0) with 0 in E.
    replace (Z.to_nat (USER_LAST_PDE_NR + 1)) with USER_PDES by (by vm_compute). by rewrite (bind_Ok _ _ _ _ _ E).
  - split; rewrite Epf'; [done|]. intros f Hf. destruct (A2 f Hf) as [H1 H2]. split; [done|]. rewrite C2.
    intros Hin%elem_of_drop_in. apply H2. by right.
  - split; rewrite C3, Etake.
    + rewrite <- (take_drop (S m) (cp :: l)) in Hnd. by apply NoDup_app in Hnd as (H & _ & _).
    + intros f Hf. split; [apply (v_top _ Hok); rewrite El; by eapply elem_of_take_in|].
      rewrite C2. rewrite <- (take_drop (S m) (cp :: l)) in Hnd. apply NoDup_app in Hnd as (_ & H & _). by apply H in Hf.
  - by rewrite C3.
  - intros j Hj. rewrite C4 by lia. by apply Hk1.
  - intros j i Hj Hi. specialize (C6 j i ltac:(lia) Hi). unfold copied in *.
    assert (lookup_pte s1 pd j i = lookup_pte s pd j i) as Elk.
    { apply lookup_pte_ext; [by apply Hx1|]. intros f Hf. apply Hx1, Hold. right. apply pd_frames_elem. exists j. split; [lia|done]. }
    rewrite Elk in C6. destruct (lookup_pte s pd j i) as [f|] eqn:Ef; [|done]. destruct C6 as (f' & H1 & H2).
    exists f'. split; [done|]. rewrite H2. apply Hx1, Hold. right. apply pd_frames_elem. exists j. split; [lia|by eapply lookup_pte_elem].
Qed.

(** *** Freeing an address space *)

(** [pgdir_free] of a page: cleared, and given back. *)
Lemma free_frame s f : vm_ok s -> pool_frame f -> f ∉ free_frames s ->
  exists s', (clear_page (KP2V f);; pfree f) s = Ok (tt, s') /\ vm_ok s' /\ free_frames s' = f :: free_frames s /\
    (forall g, g <> f -> frame s' g = frame s g).
Proof.
  intros Hok Hf Hnin. pose proof (pool_in_mem f Hf) as Hin.
  set (s1 := with_frame s f zero_page). assert (vm_ok s1) as Hok1 by (apply vm_ok_with; [done|apply zero_page_ok]).
  destruct (pfree_Ok s1 f Hok1 Hf Hnin) as (s' & E & Hok' & Hl & Hx). exists s'. split_and!; try done.
  - unfold clear_page. by rewrite (bind_Ok _ _ _ _ _ (set_frame_Ok s f _ Hin)).
  - intros g Hg. rewrite Hx by done. by apply frame_with_ne.
Qed.

(** A set of frames in use. *)
Definition owned (s : vmem) (l : list Z) : Prop := NoDup l /\ forall f, f ∈ l -> pool_frame f /\ f ∉ free_frames s.

Lemma owned_cons s f l : owned s (f :: l) -> pool_frame f /\ f ∉ free_frames s /\ f ∉ l /\ owned s l.
Proof.
  intros [[H1 H2]%NoDup_cons H3]. destruct (H3 f) as [H4 H5]; [by left|].
  split_and!; try done. split; [done|]. intros g Hg. apply H3. by right.
Qed.

(** Frames stay in use when others are given back. *)
Lemma owned_free s s' l l' : owned s (l ++ l') -> free_frames s' ≡ₚ l ++ free_frames s -> owned s' l'.
Proof.
  intros [(_ & Hd & Hn)%NoDup_app H] Hf. split; [done|]. intros f Hin. destruct (H f) as [H1 H2]; [apply elem_of_app; by right|].
  split; [done|]. rewrite Hf. intros [Hc|Hc]%elem_of_app; [by apply (Hd f)|done].
Qed.

Lemma free_ptes_spec n : forall i s t, (i + n = NPTE)%nat -> vm_ok s -> in_mem t ->
  t ∉ pt_frames s t i n -> owned s (pt_frames s t i n) ->
  exists s', free_ptes n (KP2V t) (Z.of_nat i) s = Ok (tt, s') /\ vm_ok s' /\
    free_frames s' ≡ₚ pt_frames s t i n ++ free_frames s /\
    (forall f, f <> t -> f ∉ pt_frames s t i n -> frame s' f = frame s f).
Proof.
  induction n as [|n IH]; intros i s t Hn Hok Ht Htn Hown; [by exists s|].
  rewrite pt_frames_S in *. cbn [free_ptes].
  rewrite (bind_Ok _ _ _ _ _ (load_entry_Ok s t _ Ht)), Nat2Z.id. replace (Z.of_nat i + 1) with (Z.of_nat (S i)) by lia.
  assert (exists s2 l, (if IS_PRESENT (pte s t i) then clear_page (KP2V (PADDR (pte s t i)));; pfree (PADDR (pte s t i))
      else mret tt) s = Ok (tt, s2) /\ vm_ok s2 /\ free_frames s2 = l ++ free_frames s /\ t ∉ l /\
      match present (pte s t i) with Some f => f :: pt_frames s t (S i) n | None => pt_frames s t (S i) n end
        = l ++ pt_frames s t (S i) n /\ (forall g, g ∉ l -> frame s2 g = frame s g))
    as (s2 & l & E2 & Hok2 & Hl2 & Htl & El & Hx2).
  { unfold present in *. destruct (IS_PRESENT (pte s t i)); [|exists s, []; split_and!; try done; apply not_elem_of_nil].
    apply owned_cons in Hown as (H1 & H2 & H3 & H4). destruct (free_frame s _ Hok H1 H2) as (s2 & E2 & H5 & H6 & H7).
    exists s2, [PADDR (pte s t i)]. split_and!; try done.
    - intros Hc%list_elem_of_singleton. apply Htn, elem_of_cons. by left.
    - intros g Hg. apply H7. intros ->. apply Hg. by left. }
  rewrite El in *. rewrite (bind_Ok _ _ _ _ _ E2).
  set (s3 := with_frame s2 t (set32 (frame s2 t) i 0)).
  rewrite (bind_Ok _ _ _ tt s3) by (rewrite store_entry_Ok by done; by rewrite Nat2Z.id).
  assert (vm_ok s3) as Hok3 by (apply vm_ok_with; [done|apply page_ok_set32; [by apply v_frames|lia]]).
  assert (pt_frames s3 t (S i) n = pt_frames s t (S i) n) as Ept.
  { apply pt_frames_ext. intros j Hj. unfold s3. rewrite pte_store_eq by (done || lia). rewrite decide_False by lia.
    unfold pte. by rewrite Hx2. }
  destruct (IH (S i) s3 t) as (s' & E & Hok' & Hf & Hx); try done.
  - lia.
  - rewrite Ept. intros Hin. apply Htn, elem_of_app. by right.
  - rewrite Ept. eapply owned_free; [done|]. change (free_frames s3) with (free_frames s2). by rewrite Hl2.
  - rewrite Ept in *. exists s'. split_and!; try done.
    + rewrite Hf. change (free_frames s3) with (free_frames s2). rewrite Hl2. rewrite !(assoc_L (++)). f_equiv. apply Permutation_app_comm.
    + intros f Hft [Hf1 Hf2]%not_elem_of_app. rewrite Hx by done. unfold s3. rewrite frame_with_ne by done. by apply Hx2.
Qed.

Lemma free_pdes_spec n : forall k s pd, (k + n = USER_PDES)%nat -> vm_ok s -> in_mem pd ->
  pd ∉ pd_frames s pd k n -> owned s (pd_frames s pd k n) ->
  exists s', free_pdes n (KP2V pd) (Z.of_nat k) s = Ok (tt, s') /\ vm_ok s' /\
    free_frames s' ≡ₚ pd_frames s pd k n ++ free_frames s /\
    (forall f, f ∉ pd_frames s pd k n -> frame s' f = frame s f).
Proof.
  induction n as [|n IH]; intros k s pd Hn Hok Hpd Hpn Hown; [by exists s|].
  rewrite pd_frames_S in *. cbn [free_pdes].
  rewrite (bind_Ok _ _ _ _ _ (load_entry_Ok s pd _ Hpd)), Nat2Z.id. replace (Z.of_nat k + 1) with (Z.of_nat (S k)) by lia.
  assert (exists s2, (if negb (IS_PRESENT (pte s pd k)) then mret tt
      else free_ptes NPTE (VADDR (pte s pd k)) 0;; free_page (VADDR (pte s pd k))) s = Ok (tt, s2) /\ vm_ok s2 /\
      free_frames s2 ≡ₚ pde_frames s pd k ++ free_frames s /\
      (forall g, g ∉ pde_frames s pd k -> frame s2 g = frame s g)) as (s2 & E2 & Hok2 & Hl2 & Hx2).
  { unfold pde_frames, present in *. destruct (IS_PRESENT (pte s pd k)); [|by exists s].
    set (t := PADDR (pte s pd k)) in *. rewrite <- app_comm_cons in Hown. apply owned_cons in Hown as (H1 & H2 & H3 & H4).
    pose proof (pool_in_mem t H1) as Htm. rewrite VADDR_eq. fold t. cbn [negb].
    destruct (free_ptes_spec NPTE 0 s t) as (s1 & E1 & Hok1 & Hl1 & Hx1); try done.
    { intros Hin. apply H3, elem_of_app. by left. }
    { destruct H4 as [(H4 & _ & _)%NoDup_app H5]. split; [done|]. intros f Hf. apply H5, elem_of_app. by left. }
    destruct (pfree_Ok s1 t Hok1 H1) as (s2 & E2 & Hok2 & Hl2 & Hx2).
    { rewrite Hl1. intros [Hin|Hin]%elem_of_app; [apply H3, elem_of_app; by left|done]. }
    exists s2. split_and!; try done.
    - rewrite (bind_Ok _ _ _ _ _ E1). unfold free_page. rewrite KV2P_KP2V; [done|].
      destruct Htm. unfold is_u32, PHY_MEMORY_TOP in *. lia.
    - rewrite Hl2, Hl1. done.
    - intros g [Hg1 Hg2]%not_elem_of_cons. rewrite Hx2 by done. by apply Hx1. }
  rewrite (bind_Ok _ _ _ _ _ E2).
  assert (pd_frames s2 pd (S k) n = pd_frames s pd (S k) n) as Epf.
  { apply pd_frames_ext; [apply Hx2; intros Hin; apply Hpn, elem_of_app; by left|].
    intros f Hf. apply Hx2. intros Hin. destruct Hown as [(_ & Hd & _)%NoDup_app _]. by apply (Hd f). }
  destruct (IH (S k) s2 pd) as (s' & E & Hok' & Hf & Hx); try done.
  - lia.
  - rewrite Epf. intros Hin. apply Hpn, elem_of_app. by right.
  - rewrite Epf. by eapply owned_free.
  - rewrite Epf in *. exists s'. split_and!; try done.
    + rewrite Hf, Hl2. rewrite !(assoc_L (++)). f_equiv. apply Permutation_app_comm.
    + intros f [Hf1 Hf2]%not_elem_of_app. rewrite Hx by done. by apply Hx2.
Qed.

Lemma pgdir_free_spec s pd : vm_ok s -> as_ok s pd ->
  exists s', pgdir_free (KP2V pd) s = Ok (tt, s') /\ vm_ok s' /\
    free_frames s' ≡ₚ pd :: pd_frames s pd 0 USER_PDES ++ free_frames s /\
    (forall f, f ∉ pd :: pd_frames s pd 0 USER_PDES -> frame s' f = frame s f).
Proof.
  intros Hok [A1 A2]. assert (owned s (pd :: pd_frames s pd 0 USER_PDES)) as Hown by done.
  apply owned_cons in Hown as (H1 & H2 & H3 & H4). pose proof (pool_in_mem pd H1) as Hpd.
  destruct (free_pdes_spec USER_PDES 0 s pd) as (s1 & E1 & Hok1 & Hl1 & Hx1); try done.
  destruct (pfree_Ok s1 pd Hok1 H1) as (s2 & E2 & Hok2 & Hl2 & Hx2).
  { rewrite Hl1. by intros [Hin|Hin]%elem_of_app. }
  exists s2. split_and!; try done.
  - unfold pgdir_free. rewrite (bind_Ok _ _ _ tt s).
    + replace (Z.to_nat (USER_LAST_PDE_NR + 1)) with USER_PDES by (by vm_compute). change (Z.of_nat 0) with 0 in E1.
      rewrite (bind_Ok _ _ _ _ _ E1). unfold free_page. rewrite KV2P_KP2V; [done|].
      destruct Hpd. unfold is_u32, PHY_MEMORY_TOP in *. lia.
    + apply ASSERT_true, negb_true_iff, Z.eqb_neq. unfold kpgdir, KP2V. destruct H1 as [_ H1].
      rewrite !u32_small; unfold is_u32, KPGDIR_PADDR, KERNEL_BASE, KERNEL_SPACE_SIZE, PHY_MEMORY_TOP in *; lia.
  - by rewrite Hl2, Hl1.
  - intros f [Hf1 Hf2]%not_elem_of_cons. rewrite Hx2 by done. by apply Hx1.
Qed.

(** *** Mapping pages *)

Lemma pt_frames_app s t i a b : pt_frames s t i (a + b) = pt_frames s t i a ++ pt_frames s t (i + a) b.
Proof.
  revert i. induction a as [|a IH]; intros i; simpl Nat.add; [by rewrite Nat.add_0_r|].
  rewrite !pt_frames_S, IH. replace (S i + a)%nat with (i + S a)%nat by lia. by destruct (present (pte s t i)).
Qed.

Lemma pd_frames_app s pd k a b : pd_frames s pd k (a + b) = pd_frames s pd k a ++ pd_frames s pd (k + a) b.
Proof.
  revert k. induction a as [|a IH]; intros k; simpl Nat.add; [by rewrite Nat.add_0_r|].
  rewrite !pd_frames_S, IH. replace (S k + a)%nat with (k + S a)%nat by lia. by rewrite assoc_L by apply _.
Qed.

(** A table with a new entry. *)
Lemma pt_frames_insert s s' t j f : (j < NPTE)%nat -> present (pte s t j) = None -> present (pte s' t j) = Some f ->
  (forall i, i <> j -> pte s' t i = pte s t i) ->
  pt_frames s' t 0 NPTE ≡ₚ f :: pt_frames s t 0 NPTE.
Proof.
  intros Hj Hn Hf Ho. replace NPTE with (j + S (NPTE - S j))%nat by lia.
  rewrite !pt_frames_app. cbn [Nat.add]. rewrite !pt_frames_S, Hn, Hf.
  rewrite (pt_frames_ext s s' t t 0 j) by (intros i Hi; apply Ho; lia).
  rewrite (pt_frames_ext s s' t t (S j)) by (intros i Hi; apply Ho; lia).
  by rewrite Permutation_middle.
Qed.

(** A directory of which the part below one entry changes. *)
Lemma pd_frames_insert s s' pd k new : (k < USER_PDES)%nat ->
  pde_frames s' pd k ≡ₚ new ++ pde_frames s pd k ->
  (forall i, (i < USER_PDES)%nat -> i <> k -> pde_frames s' pd i = pde_frames s pd i) ->
  pd_frames s' pd 0 USER_PDES ≡ₚ new ++ pd_frames s pd 0 USER_PDES.
Proof.
  intros Hk Hnew Ho. assert (forall a n, (forall i, (a <= i < a + n)%nat -> pde_frames s' pd i = pde_frames s pd i) ->
    pd_frames s' pd a n = pd_frames s pd a n) as Hext.
  { intros a n. revert a. induction n as [|n IH]; intros a H; [done|]. rewrite !pd_frames_S, H, IH; [done| |lia].
    intros i Hi. apply H. lia. }
  replace USER_PDES with (k + S (USER_PDES - S k))%nat in * by lia.
  rewrite !pd_frames_app. cbn [Nat.add]. rewrite !pd_frames_S, (Hext 0%nat k), (Hext (S k)), Hnew.
  - rewrite !(assoc_L (++)). do 2 f_equiv. apply Permutation_app_comm.
  - intros i Hi. apply Ho; lia.
  - intros i Hi. apply Ho; lia.
Qed.

Lemma as_ok_table s pd k t : as_ok s pd -> (k < USER_PDES)%nat -> present (pte s pd k) = Some t ->
  pool_frame t /\ t ∉ free_frames s /\ t <> pd /\
  (forall i, (i < USER_PDES)%nat -> i <> k -> t ∉ pde_frames s pd i).
Proof.
  intros [A1 A2] Hk Ht. apply NoDup_cons in A1 as [Hpd A1].
  assert (t ∈ pd_frames s pd 0 USER_PDES) as Hin.
  { apply pd_frames_elem. exists k. split; [lia|by apply pde_frames_table]. }
  destruct (A2 t) as [H1 H2]; [by right|]. split_and!; try done; [by intros ->|].
  intros i Hi Hik Hti. pose proof (pde_frames_table s pd k t Ht) as Htk.
  assert (forall a b, (a < b < USER_PDES)%nat -> t ∈ pde_frames s pd a -> t ∈ pde_frames s pd b -> False) as Hd.
  { intros a b Hab Ha Hb. replace USER_PDES with (a + S (USER_PDES - S a))%nat in A1 by lia.
    rewrite pd_frames_app, pd_frames_S in A1. apply NoDup_app in A1 as (_ & _ & A1). apply NoDup_app in A1 as (_ & A1 & _).
    apply (A1 t Ha), pd_frames_elem. exists b. split; [simpl; lia|done]. }
  destruct (Nat.lt_total i k) as [H|[H|H]]; [by apply (Hd i k)|lia|by apply (Hd k i)].
Qed.

(** No page of a program is a page table. *)
Lemma table_not_mapped s pd k t i j : as_ok s pd -> (k < USER_PDES)%nat -> present (pte s pd k) = Some t ->
  (i < USER_PDES)%nat -> (j < NPTE)%nat -> lookup_pte s pd i j <> Some t.
Proof.
  intros Has Hk Ht Hi Hj Hl. destruct (as_ok_table s pd k t Has Hk Ht) as (_ & _ & _ & Hto).
  destruct (decide (i = k)) as [->|Hik]; [|by apply (Hto i Hi Hik), (lookup_pte_elem _ _ _ j)].
  assert (t ∈ pt_frames s t 0 NPTE) as Hin.
  { apply pt_frames_elem. exists j. split; [lia|]. unfold lookup_pte in Hl. by rewrite Ht in Hl. }
  destruct Has as [A1 _]. apply NoDup_cons in A1 as [_ A1].
  replace USER_PDES with (k + S (USER_PDES - S k))%nat in A1 by lia.
  rewrite pd_frames_app, pd_frames_S in A1. apply NoDup_app in A1 as (_ & _ & A1). apply NoDup_app in A1 as (A1 & _ & _).
  unfold pde_frames in A1. cbn [Nat.add] in A1. rewrite Ht in A1. by apply NoDup_cons in A1 as [A1 _].
Qed.

(** The table of a page is there, or is made from a free frame. *)
Lemma need_pgtab_spec s pd va : vm_ok s -> as_ok s pd -> 0 <= va < KERNEL_BASE ->
  let k := Z.to_nat (PDE_NR va) in
  is_Some (present (pte s pd k)) \/ free_frames s <> [] ->
  exists s' t new, need_pgtab (KP2V pd) va s = Ok (true, s') /\ vm_ok s' /\ as_ok s' pd /\
    present (pte s' pd k) = Some t /\ free_frames s = new ++ free_frames s' /\ (length new <= 1)%nat /\
    pd_frames s' pd 0 USER_PDES ≡ₚ new ++ pd_frames s pd 0 USER_PDES /\
    (forall i j, (i < USER_PDES)%nat -> lookup_pte s' pd i j = lookup_pte s pd i j) /\
    (forall f, f <> pd -> f ∉ new -> frame s' f = frame s f).
Proof.
  intros Hok Has Hva k Hav. destruct (user_indices va Hva) as [Hk _]. fold k in Hk.
  destruct (a_pool _ _ Has pd) as [Hpool Hnf]; [by left|]. pose proof (pool_in_mem pd Hpool) as Hpd.
  assert (Z.to_nat (PDE_NR va) = k) as Ek by done.
  unfold need_pgtab. rewrite (bind_Ok _ _ _ _ _ (load_entry_Ok s pd _ Hpd)), Ek.
  destruct (present (pte s pd k)) as [t|] eqn:Et.
  { unfold present in Et. destruct (IS_PRESENT (pte s pd k)) eqn:Ep; [|done]. exists s, t, [].
    split_and!; try done; [|simpl; lia]. unfold present. by rewrite Ep. }
  unfold present in Et. destruct (IS_PRESENT (pte s pd k)) eqn:Ep; [done|]. cbn [negb].
  assert (present (pte s pd k) = None) as Epk by (unfold present; by rewrite Ep).
  destruct (free_frames s) as [|g l] eqn:El; [naive_solver|].
  destruct (palloc_Ok s g l Hok El) as (s2 & E2 & Hok2 & Hl2 & Hfr & Hg0 & Hgl & Hgp).
  pose proof (pool_in_mem g Hgp) as Hg. destruct (user_entry_spec g Hg) as [Hu Hpr].
  assert (forall x, frame s2 x = frame s x) as Efr by (intros x; unfold frame; by rewrite Hfr).
  set (s3 := with_frame s2 g zero_page). assert (vm_ok s3) as Hok3 by (apply vm_ok_with; [done|apply zero_page_ok]).
  set (s4 := with_frame s3 pd (set32 (frame s3 pd) k (user_entry g))).
  assert (k < NPTE)%nat as Hkn by (pose proof USER_PDES_NPTE; lia).
  assert (vm_ok s4) as Hok4 by (apply vm_ok_with; [done|apply page_ok_set32; [by apply v_frames|done]]).
  apply not_elem_of_cons in Hnf as [Hpg Hpl].
  assert (forall f, f <> pd -> f <> g -> frame s4 f = frame s f) as Hx.
  { intros f H1 H2. unfold s4, s3. by rewrite !frame_with_ne, Efr by done. }
  assert (forall j, pte s4 pd j = if decide (j = k) then user_entry g else pte s pd j) as Hd4.
  { intros j. unfold s4. rewrite pte_store_eq by done. unfold s3. rewrite pte_with_ne by done. unfold pte. by rewrite Efr. }
  assert (forall j, pte s4 g j = 0) as Hg4.
  { intros j. unfold s4. rewrite pte_with_ne by done. unfold pte, s3. rewrite frame_with_eq. apply get32_zero_page. }
  assert (pde_frames s4 pd k = [g]) as Ek4.
  { unfold pde_frames. rewrite Hd4, decide_True, Hpr by done. f_equal.
    unfold pt_frames.
    generalize (seq 0 NPTE). intros js. induction js as [|j js IHj]; [done|]. simpl. by rewrite Hg4, present_0. }
  assert (forall f, f ∈ pd_frames s pd 0 USER_PDES -> f <> g /\ f <> pd) as Hne.
  { intros f Hf. destruct Has as [A1 A2]. apply NoDup_cons in A1 as [A1 _].
    destruct (A2 f) as [_ H2]; [by right|]. rewrite El in H2. split; intros ->; [apply H2; by left|done]. }
  assert (forall i, (i < USER_PDES)%nat -> i <> k -> pde_frames s4 pd i = pde_frames s pd i) as Ho.
  { intros i Hi Hik. unfold pde_frames. rewrite Hd4, decide_False by done.
    destruct (present (pte s pd i)) as [t|] eqn:Et'; [|done]. f_equal. apply pt_frames_ext. intros j _. unfold pte.
    rewrite Hx; [done|..]; apply Hne, pd_frames_elem; exists i; (split; [lia|by apply pde_frames_table]). }
  assert (pd_frames s4 pd 0 USER_PDES ≡ₚ [g] ++ pd_frames s pd 0 USER_PDES) as Epf.
  { apply (pd_frames_insert s s4 pd k); [done| |done]. rewrite Ek4. unfold pde_frames. by rewrite Epk. }
  exists s4, g, [g]. split_and!; try done.
  - rewrite (bind_Ok _ _ _ _ _ E2). rewrite (proj2 (Z.eqb_neq g 0)) by done. unfold clear_page.
    rewrite (bind_Ok _ _ _ _ _ (set_frame_Ok s2 g _ Hg)). fold s3.
    rewrite (bind_Ok _ _ _ tt s4); [done|]. by rewrite store_entry_Ok, Ek.
  - destruct Has as [A1 A2]. split.
    + rewrite Epf. simpl. rewrite Permutation_swap. constructor; [|done]. intros [->|Hin]%elem_of_cons; [done|].
      by destruct (Hne g Hin).
    + intros f. rewrite Epf. intros Hf. assert (f = g \/ f ∈ pd :: pd_frames s pd 0 USER_PDES) as [->|Hf'] by (clear - Hf; set_solver).
      * split; [done|]. change (free_frames s4) with (free_frames s2). by rewrite Hl2.
      * destruct (A2 f Hf') as [H1 H2]. split; [done|]. change (free_frames s4) with (free_frames s2). rewrite Hl2.
        rewrite El in H2. by apply not_elem_of_cons in H2 as [_ H2].
  - by rewrite Hd4, decide_True.
  - change (free_frames s4) with (free_frames s2). by rewrite Hl2.
  - intros i j Hi. unfold lookup_pte. rewrite Hd4. case_decide as D.
    + subst i. rewrite Epk, Hpr. simpl. by rewrite Hg4, present_0.
    + destruct (present (pte s pd i)) as [t|] eqn:Et'; [|done]. simpl. unfold pte.
      rewrite Hx; [done|..]; apply Hne, pd_frames_elem; exists i; (split; [lia|by apply pde_frames_table]).
  - intros f H1 [H2 _]%not_elem_of_cons. by apply Hx.
Qed.

(** Pages differ when their indices do. *)
Lemma same_page va va' : 0 <= va < KERNEL_BASE -> 0 <= va' < KERNEL_BASE ->
  PDE_NR va = PDE_NR va' -> PTE_NR va = PTE_NR va' -> page_of va = page_of va'.
Proof.
  intros H H'. rewrite !PDE_NR_eq, !PTE_NR_eq by lia. unfold page_of, PG_SIZE, KERNEL_BASE in *.
  change (2 ^ 22) with 4194304. change (2 ^ 12) with 4096. intros. Z.div_mod_to_equations. lia.
Qed.

(** Writing the entry of a page that is not mapped. *)
Lemma set_pte_spec s pd va t f attr : vm_ok s -> as_ok s pd -> 0 <= va < KERNEL_BASE ->
  let k := Z.to_nat (PDE_NR va) in let j := Z.to_nat (PTE_NR va) in
  present (pte s pd k) = Some t -> translate s pd va = None -> present (entry_of f attr) = Some f -> is_u32 (entry_of f attr) ->
  f ∉ pd :: pd_frames s pd 0 USER_PDES ->
  let s' := with_frame s t (set32 (frame s t) j (entry_of f attr)) in
  vm_ok s' /\ pd_frames s' pd 0 USER_PDES ≡ₚ f :: pd_frames s pd 0 USER_PDES /\
  translate s' pd va = Some f /\
  (forall va', 0 <= va' < KERNEL_BASE -> page_of va' <> page_of va -> translate s' pd va' = translate s pd va').
Proof.
  intros Hok Has Hva k j Ht Hun Hf Hu Hfn s'. destruct (user_indices va Hva) as [Hk Hj]. fold k in Hk. fold j in Hj.
  destruct (as_ok_table s pd k t Has Hk Ht) as (Htp & Htf & Htpd & Hto).
  assert (vm_ok s') as Hok' by (apply vm_ok_with; [done|apply page_ok_set32; [by apply v_frames|done]]).
  assert (forall i, pte s' pd i = pte s pd i) as Epd by (intros i; by apply pte_with_ne).
  assert (forall i, pte s' t i = if decide (i = j) then entry_of f attr else pte s t i) as Et by (intros i; by apply pte_store_eq).
  assert (present (pte s t j) = None) as Hnone.
  { unfold translate, lookup_pte in Hun. fold k j in Hun. by rewrite Ht in Hun. }
  assert (forall i u, (i < USER_PDES)%nat -> i <> k -> present (pte s pd i) = Some u -> u <> t) as Hneq.
  { intros i u Hi Hik Hu' ->. apply (Hto i Hi Hik). by apply pde_frames_table. }
  split_and!; [done| |unfold translate, lookup_pte; fold k j; rewrite Epd, Ht; simpl; by rewrite Et, decide_True|].
  - apply (pd_frames_insert s s' pd k [f]); [done| |].
    + unfold pde_frames. rewrite Epd, Ht. rewrite (pt_frames_insert s s' t j f Hj Hnone).
      * apply Permutation_swap.
      * by rewrite Et, decide_True.
      * intros i Hi. by rewrite Et, decide_False.
    + intros i Hi Hik. unfold pde_frames. rewrite Epd. destruct (present (pte s pd i)) as [u|] eqn:Eu; [|done].
      f_equal. apply pt_frames_ext. intros i' _. apply pte_with_ne. by eapply Hneq.
  - intros va' Hva' Hp. unfold translate, lookup_pte. rewrite Epd.
    destruct (present (pte s pd (Z.to_nat (PDE_NR va')))) as [u|] eqn:Eu; [|done]. simpl. f_equal.
    destruct (user_indices va' Hva') as [Hk' Hj'].
    destruct (decide (Z.to_nat (PDE_NR va') = k)) as [Ek|Ek].
    + rewrite Ek, Ht in Eu. injection Eu as <-. rewrite Et. rewrite decide_False; [done|]. intros Ej. apply Hp.
      apply same_page; try done; unfold k, j in *.
      * rewrite PDE_NR_eq, PDE_NR_eq in * by lia. apply Z2Nat.inj in Ek; [done|apply Z.mod_pos_bound; lia|apply Z.mod_pos_bound; lia].
      * rewrite PTE_NR_eq, PTE_NR_eq in * by lia. apply Z2Nat.inj in Ej; [done|apply Z.mod_pos_bound; lia|apply Z.mod_pos_bound; lia].
    + apply pte_with_ne. by eapply (Hneq _ _ Hk').
Qed.

(** [map_page] of a page that is not mapped; [f] may be any aligned address. *)
Lemma map_page_any s pd va f attr : vm_ok s -> as_ok s pd -> 0 <= va < KERNEL_BASE ->
  is_Some (present (pte s pd (Z.to_nat (PDE_NR va)))) \/ free_frames s <> [] ->
  translate s pd va = None -> f mod PG_SIZE = 0 -> 0 <= f < 2 ^ 32 -> 0 <= attr < PG_SIZE -> Z.even attr = true ->
  f ∉ pd :: pd_frames s pd 0 USER_PDES -> f ∉ free_frames s ->
  exists s' new, map_page (KP2V pd) va f attr s = Ok (true, s') /\ vm_ok s' /\
    free_frames s = new ++ free_frames s' /\ (length new <= 1)%nat /\
    pd_frames s' pd 0 USER_PDES ≡ₚ f :: new ++ pd_frames s pd 0 USER_PDES /\
    translate s' pd va = Some f /\
    (forall va', 0 <= va' < KERNEL_BASE -> page_of va' <> page_of va -> translate s' pd va' = translate s pd va') /\
    (forall va' g, 0 <= va' < KERNEL_BASE -> translate s pd va' = Some g -> frame s' g = frame s g) /\
    (forall g, g ∉ pd :: pd_frames s pd 0 USER_PDES -> g ∉ new -> frame s' g = frame s g).
Proof.
  intros Hok Has Hva Hav Hun Hm Hf Ha He Hfn Hff.
  destruct (need_pgtab_spec s pd va Hok Has Hva Hav) as (s1 & t & new & E1 & Hok1 & Has1 & Ht & Hfree & Hlen & Hpf & Hlk & Hx).
  destruct (user_indices va Hva) as [Hk Hj].
  destruct (entry_of_spec f attr Hm Hf Ha He) as (Hu & Hpa & Hpr).
  assert (present (entry_of f attr) = Some f) as Hpe by (unfold present; by rewrite Hpr, Hpa).
  assert (forall va', 0 <= va' < KERNEL_BASE -> translate s1 pd va' = translate s pd va') as Htr.
  { intros va' Hva'. apply Hlk. by apply user_indices. }
  assert (f ∉ pd :: pd_frames s1 pd 0 USER_PDES) as Hfn1.
  { rewrite Hpf. intros [->|[Hin|Hin]%elem_of_app]%elem_of_cons; [apply Hfn; by left| |apply Hfn; by right].
    apply Hff. rewrite Hfree. apply elem_of_app. by left. }
  destruct (set_pte_spec s1 pd va t f attr Hok1 Has1 Hva Ht) as (Hok2 & Hpf2 & Htr2 & Hoth); [by rewrite Htr|done|done|done|].
  set (s2 := with_frame s1 t (set32 (frame s1 t) (Z.to_nat (PTE_NR va)) (entry_of f attr))) in *.
  destruct (as_ok_table s1 pd _ t Has1 Hk Ht) as (Htp & Htf & Htpd & Hto). pose proof (pool_in_mem t Htp) as Htm.
  destruct (a_pool _ _ Has pd) as [Hpool Hnf]; [by left|]. pose proof (pool_in_mem pd Hpool) as Hpd.
  assert (t ∈ pd_frames s1 pd 0 USER_PDES) as Htin.
  { apply pd_frames_elem. eexists. split; [|by apply pde_frames_table]. lia. }
  exists s2, new. split_and!; try done.
  - unfold map_page. rewrite (bind_Ok _ _ _ tt s) by (apply ASSERT_true; by apply Z.eqb_eq).
    rewrite (bind_Ok _ _ _ _ _ E1). cbn [negb]. unfold pte_ptr.
    assert (VADDR (pte s1 pd (Z.to_nat (PDE_NR va))) = KP2V t) as Ev.
    { rewrite VADDR_eq. unfold present in Ht. destruct (IS_PRESENT _); congruence. }
    rewrite (bind_Ok _ _ _ (KP2V t, PTE_NR va) s1) by (rewrite (bind_Ok _ _ _ _ _ (load_entry_Ok s1 pd _ Hpd)); by rewrite Ev).
    cbn [fst snd]. rewrite (bind_Ok _ _ _ _ _ (load_entry_Ok s1 t _ Htm)).
    rewrite (bind_Ok _ _ _ tt s1).
    + by rewrite (bind_Ok _ _ _ _ _ (store_entry_Ok s1 t _ _ Htm)).
    + apply ASSERT_true, negb_true_iff. specialize (Htr va Hva). rewrite Hun in Htr. unfold translate, lookup_pte in Htr.
      rewrite Ht in Htr. simpl in Htr. unfold present in Htr. by destruct (IS_PRESENT (pte s1 t _)).
  - by rewrite Hpf2, Hpf.
  - intros va' Hva' Hp. by rewrite Hoth, Htr.
  - intros va' g Hva' Hg. assert (g ∈ pd_frames s pd 0 USER_PDES) as Hgin.
    { apply pd_frames_elem. eexists. split; [|eapply lookup_pte_elem; [exact Hg|by apply user_indices]].
      destruct (user_indices va' Hva'). lia. }
    assert (frame s1 g = frame s g) as <-.
    { destruct Has as [A1 A2]. apply NoDup_cons in A1 as [A1 _]. apply Hx; [by intros ->|].
      intros Hin. apply (A2 g); [by right|]. rewrite Hfree. apply elem_of_app. by left. }
    apply frame_with_ne. intros ->. rewrite <- (Htr va' Hva') in Hg. destruct (user_indices va' Hva').
    by eapply (table_not_mapped s1 pd _ t _ _ Has1 Hk Ht).
  - intros g Hg1 Hg2.
    apply not_elem_of_cons in Hg1 as [Hg0 Hg1].
    rewrite <- Hx by done. apply frame_with_ne. intros ->. rewrite Hpf in Htin. by apply elem_of_app in Htin as [?|?].
Qed.

(** A translation depends on the page only. *)
Lemma translate_page s pd va va' : 0 <= va < KERNEL_BASE -> 0 <= va' < KERNEL_BASE -> page_of va = page_of va' ->
  translate s pd va = translate s pd va'.
Proof.
  intros H H' Hp. unfold translate. unfold page_of, PG_SIZE, KERNEL_BASE in *. rewrite !PDE_NR_eq, !PTE_NR_eq by lia.
  change (2 ^ 22) with 4194304. change (2 ^ 12) with 4096.
  replace (va / 4194304) with (va' / 4194304) by (Z.div_mod_to_equations; lia).
  replace (va / 4096) with (va' / 4096) by (Z.div_mod_to_equations; lia). done.
Qed.

Lemma map_as_ok s s' pd f new : vm_ok s -> as_ok s pd -> pool_frame f -> f ∉ free_frames s ->
  f ∉ pd :: pd_frames s pd 0 USER_PDES -> free_frames s = new ++ free_frames s' ->
  pd_frames s' pd 0 USER_PDES ≡ₚ f :: new ++ pd_frames s pd 0 USER_PDES -> as_ok s' pd.
Proof.
  intros Hok [A1 A2] Hf Hff Hfn Hfree Hpf.
  pose proof (free_frames_nodup s Hok) as Hnd. rewrite Hfree in Hnd. apply NoDup_app in Hnd as (Hn1 & Hn2 & _).
  apply NoDup_cons in A1 as [A0 A1]. apply not_elem_of_cons in Hfn as [Hfp Hfn].
  assert (forall g, g ∈ new -> g ∈ free_frames s) as Hnew by (intros g Hg; rewrite Hfree; apply elem_of_app; by left).
  split; setoid_rewrite Hpf.
  - constructor; [|constructor].
    + intros [->|[Hin|Hin]%elem_of_app]%elem_of_cons; [done| |done]. apply (A2 pd); [by left|auto].
    + intros [Hin|Hin]%elem_of_app; [auto|done].
    + apply NoDup_app. split_and!; [done| |done]. intros g Hg Hin. apply (A2 g); [by right|auto].
  - intros g Hg. assert (g = f \/ g ∈ new \/ g ∈ pd :: pd_frames s pd 0 USER_PDES) as [->|[Hin|Hin]] by (clear - Hg; set_solver).
    + split; [done|]. intros Hin. apply Hff. rewrite Hfree. apply elem_of_app. by right.
    + split; [apply (v_top _ Hok); auto|]. by apply Hn2.
    + destruct (A2 g Hin) as [H1 H2]. split; [done|]. intros Hc. apply H2. rewrite Hfree. apply elem_of_app. by right.
Qed.

(** *** What an operation on one address space does to the rest of memory *)

(** What a program reads depends on the frames of its address space only. *)
Lemma uload_ext s s' pd va : as_ok s pd -> 0 <= va < KERNEL_BASE ->
  (forall f, f ∈ pd :: pd_frames s pd 0 USER_PDES -> frame s' f = frame s f) -> uload s' pd va = uload s pd va.
Proof.
  intros Has Hva Hf. destruct (user_indices va Hva) as [Hk Hj]. unfold uload, translate.
  assert (forall f, f ∈ pde_frames s pd (Z.to_nat (PDE_NR va)) -> frame s' f = frame s f) as Hpde.
  { intros f Hin. apply Hf. right. apply pd_frames_elem. eexists. split; [|done]. lia. }
  rewrite (lookup_pte_ext s s') by (auto || (apply Hf; by left)).
  destruct (lookup_pte s pd _ _) as [f|] eqn:E; [|done]. simpl. by rewrite Hpde by (by eapply lookup_pte_elem).
Qed.

(** From [s] to [s'] the address space has taken frames from the free list and kept its own;
    only its frames have been written. *)
Definition evolves (pd : Z) (s s' : vmem) : Prop :=
  exists used, free_frames s = used ++ free_frames s' /\
    pd_frames s' pd 0 USER_PDES ≡ₚ used ++ pd_frames s pd 0 USER_PDES /\
    forall g, g ∉ pd :: pd_frames s pd 0 USER_PDES -> g ∉ used -> frame s' g = frame s g.

Lemma evolves_refl pd s : evolves pd s s.
Proof. by exists []. Qed.

Lemma evolves_trans pd s1 s2 s3 : evolves pd s1 s2 -> evolves pd s2 s3 -> evolves pd s1 s3.
Proof.
  intros (u1 & F1 & P1 & K1) (u2 & F2 & P2 & K2). exists (u1 ++ u2). split_and!.
  - by rewrite F1, F2, app_assoc.
  - rewrite P2, P1. generalize (pd_frames s1 pd 0 USER_PDES). clear. intros L. solve_Permutation.
  - intros g Hg Hu. rewrite K2; [|rewrite P1; set_solver|set_solver]. apply K1; set_solver.
Qed.

(** Two address spaces have no frame in common. *)
Definition apart (s : vmem) (pd pd' : Z) : Prop :=
  forall f, f ∈ pd :: pd_frames s pd 0 USER_PDES -> f ∉ pd' :: pd_frames s pd' 0 USER_PDES.

Lemma evolves_apart pd pd' s s' : as_ok s pd' -> apart s pd pd' -> evolves pd s s' ->
  as_ok s' pd' /\ apart s' pd pd' /\ pd_frames s' pd' 0 USER_PDES = pd_frames s pd' 0 USER_PDES /\
  (forall va, 0 <= va < KERNEL_BASE -> uload s' pd' va = uload s pd' va).
Proof.
  intros Has Hap (used & Hf & Hp & Hk).
  assert (forall f, f ∈ pd' :: pd_frames s pd' 0 USER_PDES -> frame s' f = frame s f) as Hsame.
  { intros f Hin. apply Hk; [intros Hin'; exact (Hap f Hin' Hin)|]. intros Hu. apply (a_pool _ _ Has) in Hin as [_ Hin].
    apply Hin. rewrite Hf. apply elem_of_app. by left. }
  assert (pd_frames s' pd' 0 USER_PDES = pd_frames s pd' 0 USER_PDES) as Epf.
  { apply pd_frames_ext; [apply Hsame; by left|]. intros f Hin. apply Hsame. by right. }
  split_and!; [| |done|].
  - destruct Has as [A1 A2]. split; rewrite Epf; [done|]. intros f Hin. destruct (A2 f Hin) as [H1 H2]. split; [done|].
    intros H3. apply H2. rewrite Hf. apply elem_of_app. by right.
  - intros f. rewrite Epf, Hp. intros Hin Hin'.
    assert (f ∈ used \/ f ∈ pd :: pd_frames s pd 0 USER_PDES) as [Hu|Ho] by (clear - Hin; set_solver).
    + apply (a_pool _ _ Has) in Hin' as [_ Hin']. apply Hin'. rewrite Hf. apply elem_of_app. by left.
    + exact (Hap f Ho Hin').
  - intros va Hva. by apply uload_ext.
Qed.

(** The address [i] pages after [va]. *)
Definition page_va (va : Z) (i : nat) : Z := va + Z.of_nat i * PG_SIZE.

Lemma page_va_S va i : page_va (va + PG_SIZE) i = page_va va (S i).
Proof. unfold page_va. lia. Qed.

Lemma valloc_loop_spec n : forall cnt s pd va attr, vm_ok s -> as_ok s pd ->
  va mod PG_SIZE = 0 -> 0 <= va -> page_va va n <= KERNEL_BASE -> 0 <= attr < PG_SIZE -> Z.even attr = true ->
  (forall i, (i < n)%nat -> translate s pd (page_va va i) = None) ->
  (2 * n <= length (free_frames s))%nat ->
  exists s', valloc_loop n cnt (KP2V pd) va attr s = Ok (true, s') /\ vm_ok s' /\ as_ok s' pd /\
    (forall i, (i < n)%nat -> exists f, translate s' pd (page_va va i) = Some f /\ f ∈ free_frames s /\ frame s' f = frame s f) /\
    (forall va', 0 <= va' < KERNEL_BASE -> (forall i, (i < n)%nat -> page_of va' <> page_va va i) ->
       translate s' pd va' = translate s pd va') /\
    (forall va' g, 0 <= va' < KERNEL_BASE -> translate s pd va' = Some g -> frame s' g = frame s g) /\
    (length (free_frames s) <= 2 * n + length (free_frames s'))%nat /\ evolves pd s s'.
Proof.
  induction n as [|n IH]; intros cnt s pd va attr Hok Has Hm Hva Hend Ha He Hun Hlen.
  { exists s. split_and!; try done; [intros i Hi; lia|apply evolves_refl]. }
  assert (0 <= va < KERNEL_BASE) as Hu by (unfold page_va, PG_SIZE in Hend; lia).
  assert (page_of va = va) as Epg by (unfold page_of; lia).
  assert (page_va va 0 = va) as E0 by (unfold page_va; lia).
  destruct (free_frames s) as [|f l] eqn:El; [simpl in Hlen; lia|].
  destruct (palloc_Ok s f l Hok El) as (s1 & E1 & Hok1 & Hl1 & Hfr & Hf0 & Hfl & Hfp).
  assert (forall x, frame s1 x = frame s x) as Efr by (intros x; unfold frame; by rewrite Hfr).
  assert (pd_frames s1 pd 0 USER_PDES = pd_frames s pd 0 USER_PDES) as Epf by (by apply pd_frames_ext).
  assert (forall v, translate s1 pd v = translate s pd v) as Etr by (intros v; by apply lookup_pte_ext).
  assert (as_ok s1 pd) as Has1.
  { destruct Has as [A1 A2]. split; rewrite Epf; [done|]. intros g Hg. destruct (A2 g Hg) as [H1 H2].
    split; [done|]. rewrite Hl1. rewrite El in H2. by apply not_elem_of_cons in H2 as [_ H2]. }
  assert (f ∉ pd :: pd_frames s1 pd 0 USER_PDES) as Hfn.
  { rewrite Epf. intros Hin. apply (a_pool _ _ Has) in Hin as [_ Hin]. rewrite El in Hin. apply Hin. by left. }
  destruct (map_page_any s1 pd va f attr) as (s2 & new & E2 & Hok2 & Hfree & Hnl & Hpf2 & Htr2 & Hoth & Hcont & Hout2); try done.
  { right. rewrite Hl1. intros ->. simpl in Hlen. lia. }
  { rewrite Etr, <- E0. apply Hun. lia. }
  { destruct Hfp as [H _]. done. } { destruct Hfp as [_ H]. unfold KERNEL_SPACE_SIZE, PHY_MEMORY_TOP in H. lia. }
  { by rewrite Hl1. }
  assert (as_ok s2 pd) as Has2 by (eapply (map_as_ok s1); try done; by rewrite Hl1).
  rewrite Hl1 in Hfree.
  assert (forall g, g ∈ f :: l -> g ∉ new -> frame s2 g = frame s g) as Hpool2.
  { intros g Hg Hgn. rewrite <- Efr. apply Hout2; [|done]. rewrite Epf. intros Hin.
    apply (a_pool _ _ Has) in Hin as [_ Hin]. by rewrite El in Hin. }
  assert (NoDup (f :: l)) as Hnd by (rewrite <- El; by apply free_frames_nodup).
  assert (f ∉ new) as Hfnew.
  { apply NoDup_cons in Hnd as [Hnd _]. rewrite Hfree in Hnd. intros Hin. apply Hnd, elem_of_app. by left. }
  destruct (IH (S cnt) s2 pd (va + PG_SIZE) attr) as (s' & E & Hok' & Has' & Hnew & Hold & Hmem & Hl' & Hev); try done.
  - unfold PG_SIZE in *. Z.div_mod_to_equations. lia.
  - unfold PG_SIZE. lia.
  - by rewrite page_va_S.
  - intros i Hi. rewrite page_va_S, Hoth, Etr; [apply Hun; lia|unfold page_va, PG_SIZE in *; lia|].
    rewrite Epg. unfold page_of, page_va. rewrite Z.mod_add, Hm by done. unfold PG_SIZE. lia.
  - assert (length l = length new + length (free_frames s2))%nat by (rewrite Hfree; apply length_app). simpl in Hlen. lia.
  - exists s'. split_and!; try done.
    + cbn [valloc_loop]. rewrite (bind_Ok _ _ _ _ _ E1). rewrite (proj2 (Z.eqb_neq f 0)) by done.
      rewrite (bind_Ok _ _ _ _ _ E2). cbn [negb]. rewrite u32_small; [done|].
      unfold is_u32, PG_SIZE, KERNEL_BASE in *. lia.
    + intros [|i] Hi.
      * exists f. rewrite E0. split_and!; [|by left|].
        -- rewrite Hold; [done|done|]. intros i Hi'. rewrite Epg, page_va_S. unfold page_va, PG_SIZE. lia.
        -- rewrite (Hmem va f) by done. apply Hpool2; [by left|done].
      * destruct (Hnew i) as (g & H1 & H2 & H3); [lia|]. rewrite page_va_S in H1.
        assert (g ∈ f :: l) as Hin by (right; rewrite Hfree; apply elem_of_app; by right).
        exists g. split_and!; [done|done|]. rewrite H3. apply Hpool2; [done|].
        apply NoDup_cons in Hnd as [_ Hnd]. rewrite Hfree in Hnd. apply NoDup_app in Hnd as (_ & Hnd & _).
        intros Hg. by apply (Hnd g).
    + intros va' Hva' Hne. rewrite Hold; [|done|].
      * rewrite Hoth, Etr; [done|done|]. rewrite Epg, <- E0. apply Hne. lia.
      * intros i Hi. rewrite page_va_S. apply Hne. lia.
    + intros va' g Hva' Hg. rewrite <- Efr, <- (Hcont va' g), <- (Hmem va' g); [done..| |done|by rewrite Etr].
      rewrite Hoth, Etr; [done|done|]. intros Hp. rewrite Epg in Hp.
      assert (translate s pd va = translate s pd va') as Hsame.
      { apply translate_page; [done|done|congruence]. }
      rewrite <- Hsame, <- E0, Hun in Hg by lia. done.
    + cbn [length]. rewrite Hfree, length_app. lia.
    + eapply evolves_trans; [|exact Hev]. exists (f :: new). split_and!.
      * by rewrite El, Hfree.
      * by rewrite Hpf2, Epf.
      * intros g Hg1 Hg2. rewrite <- Efr. apply Hout2; [by rewrite Epf|set_solver].
Qed.

(** *** Writing the pages of a program *)

Lemma pde_disjoint s pd a b f : as_ok s pd -> (a < USER_PDES)%nat -> (b < USER_PDES)%nat ->
  f ∈ pde_frames s pd a -> f ∈ pde_frames s pd b -> a = b.
Proof.
  intros [A1 _]. apply NoDup_cons in A1 as [_ A1].
  assert (forall a b, (a < b < USER_PDES)%nat -> f ∈ pde_frames s pd a -> f ∈ pde_frames s pd b -> False) as Hd.
  { intros a' b' Hab Ha Hb. replace USER_PDES with (a' + S (USER_PDES - S a'))%nat in A1 by lia.
    rewrite pd_frames_app, pd_frames_S in A1. apply NoDup_app in A1 as (_ & _ & A1). apply NoDup_app in A1 as (_ & A1 & _).
    apply (A1 f Ha), pd_frames_elem. exists b'. split; [simpl; lia|done]. }
  intros Ha Hb Hfa Hfb. destruct (Nat.lt_total a b) as [H|[H|H]]; [exfalso; by apply (Hd a b)|done|exfalso; by apply (Hd b a)].
Qed.

Lemma pt_nodup_inj s t i n j j' f : NoDup (pt_frames s t i n) -> (i <= j < i + n)%nat -> (i <= j' < i + n)%nat ->
  present (pte s t j) = Some f -> present (pte s t j') = Some f -> j = j'.
Proof.
  assert (forall j j', NoDup (pt_frames s t i n) -> (i <= j)%nat -> (j < j' < i + n)%nat ->
    present (pte s t j) = Some f -> present (pte s t j') = Some f -> False) as Hd.
  { clear. intros j j' Hn Hij Hj H H'. replace n with ((j - i) + S (i + n - S j))%nat in Hn by lia.
    rewrite pt_frames_app, pt_frames_S in Hn. replace (i + (j - i))%nat with j in Hn by lia. rewrite H in Hn.
    apply NoDup_app in Hn as (_ & _ & Hn). apply NoDup_cons in Hn as [Hn _]. apply Hn, pt_frames_elem.
    exists j'. split; [lia|done]. }
  intros Hn Hj Hj' H H'. destruct (Nat.lt_total j j') as [Hl|[Hl|Hl]]; [exfalso; apply (Hd j j'); [done|lia|lia|done|done]|done|].
  exfalso. apply (Hd j' j); [done|lia|lia|done|done].
Qed.

(** Two pages of a program are never in the same frame. *)
Lemma translate_inj s pd va va' f : as_ok s pd -> 0 <= va < KERNEL_BASE -> 0 <= va' < KERNEL_BASE ->
  translate s pd va = Some f -> translate s pd va' = Some f -> page_of va = page_of va'.
Proof.
  intros Has Hva Hva' H H'. destruct (user_indices va Hva) as [Hk Hj], (user_indices va' Hva') as [Hk' Hj'].
  assert (Z.to_nat (PDE_NR va) = Z.to_nat (PDE_NR va')) as Ek.
  { eapply pde_disjoint; [done|done|done|by eapply lookup_pte_elem|by eapply lookup_pte_elem]. }
  unfold translate, lookup_pte in H, H'. rewrite <- Ek in H'.
  destruct (present (pte s pd (Z.to_nat (PDE_NR va)))) as [t|] eqn:Et; [|done]. simpl in H, H'.
  assert (Z.to_nat (PTE_NR va) = Z.to_nat (PTE_NR va')) as Ej.
  { apply (pt_nodup_inj s t 0 NPTE _ _ f); [|lia|lia|done|done]. destruct Has as [A1 _]. apply NoDup_cons in A1 as [_ A1].
    set (k := Z.to_nat (PDE_NR va)) in *. replace USER_PDES with (k + S (USER_PDES - S k))%nat in A1 by lia.
    rewrite pd_frames_app, pd_frames_S in A1. apply NoDup_app in A1 as (_ & _ & A1). apply NoDup_app in A1 as (A1 & _ & _).
    unfold pde_frames in A1. cbn [Nat.add] in A1. rewrite Et in A1. by apply NoDup_cons in A1 as [_ A1]. }
  rewrite !PDE_NR_eq in Ek by lia. rewrite !PTE_NR_eq in Ej by lia.
  apply Z2Nat.inj in Ek, Ej; try (apply Z.mod_pos_bound; lia).
  apply same_page; [done|done|by rewrite !PDE_NR_eq by lia|by rewrite !PTE_NR_eq by lia].
Qed.

Lemma translate_elem s pd va f : 0 <= va < KERNEL_BASE -> translate s pd va = Some f -> f ∈ pd_frames s pd 0 USER_PDES.
Proof.
  intros Hva H. destruct (user_indices va Hva) as [Hk Hj]. apply pd_frames_elem.
  eexists. split; [|by eapply lookup_pte_elem]. lia.
Qed.

(** New contents [d] of the page at [va]. *)
Lemma set_data_spec s pd va f d : vm_ok s -> as_ok s pd -> 0 <= va < KERNEL_BASE -> translate s pd va = Some f -> page_ok d ->
  let s' := with_frame s f d in
  vm_ok s' /\ as_ok s' pd /\ (forall va', 0 <= va' < KERNEL_BASE -> translate s' pd va' = translate s pd va') /\
  (forall va', 0 <= va' < KERNEL_BASE -> uload s' pd va' =
     if decide (page_of va' = page_of va) then d !! Z.to_nat (va' mod PG_SIZE) else uload s pd va') /\
  evolves pd s s'.
Proof.
  intros Hok Has Hva Ht Hd s'. destruct (user_indices va Hva) as [Hk Hj].
  pose proof (translate_elem _ _ _ _ Hva Ht) as Hin.
  assert (f <> pd) as Hfpd.
  { intros ->. destruct Has as [A1 _]. by apply NoDup_cons in A1 as [A1 _]. }
  assert (forall i t, (i < USER_PDES)%nat -> present (pte s pd i) = Some t -> t <> f) as Hntab.
  { intros i t Hi Ht' ->. by apply (table_not_mapped s pd i f _ _ Has Hi Ht' Hk Hj). }
  assert (forall i, pte s' pd i = pte s pd i) as Epd by (intros i; by apply pte_with_ne).
  assert (forall va', 0 <= va' < KERNEL_BASE -> translate s' pd va' = translate s pd va') as Htr.
  { intros va' Hva'. destruct (user_indices va' Hva') as [Hk' _]. unfold translate, lookup_pte. rewrite Epd.
    destruct (present (pte s pd (Z.to_nat (PDE_NR va')))) as [t|] eqn:Et; [|done]. simpl. f_equal.
    apply pte_with_ne. by eapply Hntab. }
  assert (forall i, (i < USER_PDES)%nat -> pde_frames s' pd i = pde_frames s pd i) as Epde.
  { intros i Hi. unfold pde_frames. rewrite Epd. destruct (present (pte s pd i)) as [t|] eqn:Et; [|done]. f_equal.
    apply pt_frames_ext. intros j _. apply pte_with_ne. by eapply Hntab. }
  assert (pd_frames s' pd 0 USER_PDES ≡ₚ [] ++ pd_frames s pd 0 USER_PDES) as Epf.
  { apply (pd_frames_insert s s' pd (Z.to_nat (PDE_NR va))); [done|by rewrite Epde|]. intros i Hi _. by apply Epde. }
  split_and!; [by apply vm_ok_with| |done| |].
  - destruct Has as [A1 A2]. split; setoid_rewrite Epf; done.
  - intros va' Hva'. unfold uload. rewrite Htr by done. case_decide as D.
    + rewrite (translate_page s pd va' va) by done. rewrite Ht. simpl. unfold s'. by rewrite frame_with_eq.
    + destruct (translate s pd va') as [g|] eqn:Eg; [|done]. simpl. unfold s'. rewrite frame_with_ne; [done|].
      intros ->. by apply D, (translate_inj s pd va' va f).
  - exists []. split_and!; [done|done|]. intros g Hg _. apply frame_with_ne. intros ->. apply Hg. by right.
Qed.

Lemma page_frame_ptr_Ok s pd va : vm_ok s -> as_ok s pd -> 0 <= va < KERNEL_BASE ->
  page_frame_ptr (KP2V pd) va s = Ok (match translate s pd va with Some f => KP2V f | None => 0 end, s).
Proof.
  intros Hok Has Hva. destruct (user_indices va Hva) as [Hk Hj].
  destruct (a_pool _ _ Has pd) as [Hpool _]; [by left|].
  unfold page_frame_ptr, translate, lookup_pte. rewrite (bind_Ok _ _ _ _ _ (load_entry_Ok s pd _ (pool_in_mem _ Hpool))).
  destruct (present (pte s pd (Z.to_nat (PDE_NR va)))) as [t|] eqn:Et.
  - destruct (as_ok_table _ _ _ _ Has Hk Et) as (Htp & _). unfold present in Et.
    destruct (IS_PRESENT (pte s pd (Z.to_nat (PDE_NR va)))); [|done]. injection Et as Et. cbn [negb].
    rewrite VADDR_eq, Et. rewrite (bind_Ok _ _ _ _ _ (load_entry_Ok s t _ (pool_in_mem _ Htp))).
    cbn [mbind option_bind]. unfold present. destruct (IS_PRESENT (pte s t _)); cbn [negb]; [by rewrite VADDR_eq|done].
  - unfold present in Et. by destruct (IS_PRESENT (pte s pd (Z.to_nat (PDE_NR va)))).
Qed.

Lemma setrange_loop_spec fuel : forall s pd vp val don n, vm_ok s -> as_ok s pd ->
  0 <= vp -> don <= n -> vp + (n - don) <= KERNEL_BASE -> (1 <= fuel)%nat ->
  (don < n -> n - don + vp mod PG_SIZE <= PG_SIZE * (Z.of_nat fuel - 1)) ->
  (forall va, vp <= va < vp + (n - don) -> is_Some (translate s pd va)) ->
  exists s', setrange_loop fuel (KP2V pd) vp val don n s = Ok (true, s') /\ vm_ok s' /\ as_ok s' pd /\
    (forall va, 0 <= va < KERNEL_BASE -> uload s' pd va =
       if decide (vp <= va < vp + (n - don)) then Some (u8 val) else uload s pd va) /\ evolves pd s s'.
Proof.
  induction fuel as [|fuel IH]; intros s pd vp val don n Hok Has Hvp Hdn Hend Hf1 Hfuel Hmap; [lia|].
  cbn [setrange_loop]. destruct (Z.ltb_spec don n) as [Hlt|Hge].
  2:{ exists s. split_and!; try done; [|apply evolves_refl]. intros va Hva. rewrite decide_False by lia. done. }
  assert (0 <= vp < KERNEL_BASE) as Hu by lia.
  destruct (Hmap vp) as [f Ef]; [lia|].
  rewrite (bind_Ok _ _ _ _ _ (page_frame_ptr_Ok s pd vp Hok Has Hu)), Ef.
  destruct (a_pool _ _ Has f) as [Hfp _]; [right; by eapply translate_elem|]. pose proof (pool_in_mem f Hfp) as Hfm.
  rewrite (proj2 (Z.eqb_neq (KP2V f) 0)).
  2:{ unfold KP2V. destruct Hfp. rewrite u32_small; unfold is_u32, KERNEL_BASE, KERNEL_SPACE_SIZE, PHY_MEMORY_TOP in *; lia. }
  set (off := vp mod PG_SIZE). assert (0 <= off < PG_SIZE) as Hoff by (by apply Z.mod_pos_bound).
  set (per := if n - don <? PG_SIZE - off then n - don else PG_SIZE - off).
  assert (0 < per /\ per <= n - don /\ per <= PG_SIZE - off /\ (per = n - don \/ per = PG_SIZE - off)) as (Hp0 & Hp1 & Hp2 & Hp3).
  { unfold per. destruct (Z.ltb_spec (n - don) (PG_SIZE - off)); lia. }
  destruct (v_frames _ Hok f) as [Hl Hb].
  set (d := splice (Z.to_nat off) (replicate (Z.to_nat per) (u8 val)) (frame s f)).
  assert (Z.to_nat off + length (replicate (Z.to_nat per) (u8 val)) <= length (frame s f))%nat as Hfit.
  { rewrite length_replicate, Hl. lia. }
  assert (page_ok d) as Hd.
  { split; [unfold d; by rewrite length_splice|]. apply bytes_splice; [apply Forall_replicate; auto with nico|done]. }
  destruct (set_data_spec s pd vp f d Hok Has Hu Ef Hd) as (Hok1 & Has1 & Htr & Hul & Hev).
  set (s1 := with_frame s f d) in *.
  cbv zeta. fold off per. rewrite (bind_Ok _ _ _ _ _ (get_frame_Ok s f Hfm)).
  rewrite (bind_Ok _ _ _ _ _ (set_frame_Ok s f _ Hfm)). fold d s1.
  assert (u32 (vp + per) = vp + per) as -> by (apply u32_small; unfold is_u32, KERNEL_BASE in *; lia).
  destruct (IH s1 pd (vp + per) val (don + per) n) as (s' & E & Hok' & Has' & Hul' & Hev'); try done; try lia.
  - intros Hlt'. fold off in Hfuel. specialize (Hfuel Hlt). assert ((vp + per) mod PG_SIZE = 0) as ->; [|unfold PG_SIZE in *; lia].
    assert (per = PG_SIZE - off) as -> by lia. unfold off, PG_SIZE in *. Z.div_mod_to_equations. lia.
  - intros va Hva. rewrite Htr by lia. apply Hmap. lia.
  - exists s'. split_and!; try done; [|by eapply evolves_trans]. intros va Hva. rewrite Hul' by done. rewrite Hul by done.
    assert (page_of va = page_of vp -> uload s pd va = frame s f !! Z.to_nat (va mod PG_SIZE)) as Hsame.
    { intros Hp. unfold uload. by rewrite (translate_page s pd va vp), Ef by done. }
    assert (page_of va = page_of vp <-> vp - off <= va < vp - off + PG_SIZE) as Hpage.
    { unfold page_of, off, PG_SIZE. Z.div_mod_to_equations. lia. }
    assert (page_of va = page_of vp -> va mod PG_SIZE = va - (vp - off)) as Hmod.
    { unfold page_of, off, PG_SIZE. Z.div_mod_to_equations. lia. }
    destruct (decide (vp + per <= va < vp + per + (n - (don + per)))).
    { by rewrite decide_True by lia. }
    destruct (decide (page_of va = page_of vp)) as [Hp|Hp].
    + rewrite (Hmod Hp). unfold d. rewrite splice_lookup, length_replicate by done.
      destruct (decide (vp <= va < vp + (n - don))).
      * rewrite decide_True by lia. apply lookup_replicate. split; [done|lia].
      * rewrite decide_False by lia. by rewrite Hsame, Hmod.
    + rewrite decide_False; [done|]. apply not_iff_compat in Hpage. lia.
Qed.

(** ** The theorems *)

(** copying an address space, as [fork] does.  With enough free pages [pgdir_copy] gives
    a directory in which a program reads at every user address the byte it read before, and
    faults where it faulted before; the original is as it was, the two address spaces share
    no page, and [pgdir_free] of the copy gives exactly the pages back that the copy took,
    with the original still intact. *)
Theorem pgdir_copy_correct nm s pd : vm_ok s -> as_ok s pd ->
  (S (length (pd_frames s pd 0 USER_PDES)) <= length (free_frames s))%nat ->
  exists cp s' s'', pgdir_copy nm (KP2V pd) s = Ok (KP2V cp, s') /\ vm_ok s' /\ as_ok s' pd /\ as_ok s' cp /\
    (forall va, 0 <= va < KERNEL_BASE -> uload s' cp va = uload s pd va /\ uload s' pd va = uload s pd va) /\
    (forall f, f ∈ cp :: pd_frames s' cp 0 USER_PDES -> f ∉ pd :: pd_frames s' pd 0 USER_PDES) /\
    pgdir_free (KP2V cp) s' = Ok (tt, s'') /\ vm_ok s'' /\ free_frames s'' ≡ₚ free_frames s /\
    (forall va, 0 <= va < KERNEL_BASE -> uload s'' pd va = uload s pd va).
Proof.
  intros Hok Has Hn.
  destruct (pgdir_copy_spec nm s pd Hok Has Hn) as (cp & s' & E & Hok' & Has' & Hcp & Hnew & Hfree & Hfr & _ & Hcop).
  set (n := S (length (pd_frames s pd 0 USER_PDES))) in *.
  destruct (pgdir_free_spec s' cp Hok' Hcp) as (s'' & E'' & Hok'' & Hfree'' & Hfr'').
  assert (forall f, f ∈ pd :: pd_frames s pd 0 USER_PDES -> frame s' f = frame s f) as Hold.
  { intros f Hf. apply Hfr. by apply (a_pool _ _ Has). }
  assert (pd_frames s' pd 0 USER_PDES = pd_frames s pd 0 USER_PDES) as Epf.
  { apply pd_frames_ext; [apply Hold; by left|]. intros f Hf. apply Hold. by right. }
  assert (forall f, f ∈ cp :: pd_frames s' cp 0 USER_PDES -> f ∉ pd :: pd_frames s' pd 0 USER_PDES) as Hdisj.
  { rewrite Hnew, Epf. intros f Hf%elem_of_take_in Hin. by apply (a_pool _ _ Has) in Hin as [_ Hin]. }
  exists cp, s', s''. split_and!; try done.
  - intros va Hva. split; [|apply uload_ext; [done|done|exact Hold]].
    destruct (user_indices va Hva) as [Hk Hj]. specialize (Hcop _ _ Hk Hj). unfold copied in Hcop. unfold uload, translate.
    destruct (lookup_pte s pd _ _) as [f|]; [destruct Hcop as (f' & -> & Hf); simpl; by rewrite Hf|by rewrite Hcop].
  - rewrite Hfree'', app_comm_cons, Hnew, Hfree. by rewrite take_drop.
  - intros va Hva. transitivity (uload s' pd va); [|apply uload_ext; [done|done|exact Hold]].
    apply uload_ext; [done|done|]. intros f Hf. apply Hfr''. intros Hin. exact (Hdisj f Hin Hf).
Qed.

(** allocating address space.  With two free pages for every page asked for,
    [pgdir_valloc] of a range of user pages that are not mapped returns true, every page of
    the range has a frame of its own that was free, all other user addresses hold the bytes
    they held, and the address space is well formed again. *)
Theorem pgdir_valloc_correct s pd va n attr : vm_ok s -> as_ok s pd ->
  va mod PG_SIZE = 0 -> 0 <= va -> 0 <= n -> va + n * PG_SIZE <= KERNEL_BASE -> 0 <= attr < PG_SIZE -> Z.even attr = true ->
  (forall a, va <= a < va + n * PG_SIZE -> translate s pd a = None) ->
  2 * n <= Z.of_nat (length (free_frames s)) ->
  exists s', pgdir_valloc (KP2V pd) va n attr s = Ok (true, s') /\ vm_ok s' /\ as_ok s' pd /\
    (forall a, va <= a < va + n * PG_SIZE -> exists f, translate s' pd a = Some f /\ f ∈ free_frames s) /\
    (forall a, 0 <= a < KERNEL_BASE -> ~ (va <= a < va + n * PG_SIZE) -> uload s' pd a = uload s pd a).
Proof.
  intros Hok Has Hm Hva Hn Hend Ha He Hun Hlen.
  destruct (valloc_loop_spec (Z.to_nat n) 0 s pd va attr) as (s' & E & Hok' & Has' & Hnew & Hold & Hmem & _); try done.
  - unfold page_va. by rewrite Z2Nat.id.
  - intros i Hi. apply Hun. unfold page_va, PG_SIZE in *. lia.
  - lia.
  - exists s'. split_and!; try done.
    + intros a Hr. destruct (Hnew (Z.to_nat ((a - va) / PG_SIZE))) as (f & H1 & H2 & _).
      { unfold PG_SIZE in *. Z.div_mod_to_equations. lia. }
      exists f. split; [|done]. rewrite <- H1. apply translate_page; [lia|unfold page_va, PG_SIZE in *; Z.div_mod_to_equations; lia|].
      unfold page_of, page_va, PG_SIZE in *. Z.div_mod_to_equations. lia.
    + intros a Hr Hout. unfold uload. rewrite Hold; [|done|].
      * destruct (translate s pd a) as [g|] eqn:Eg; [|done]. simpl. by rewrite (Hmem a g).
      * intros i Hi. unfold page_of, page_va, PG_SIZE in *. intros Hp. apply Hout. Z.div_mod_to_equations. lia.
Qed.

(** running out of memory is not noticed.  With no free page left, [pgdir_valloc] of a
    page whose table exists still returns true: the page is mapped to the physical address
    0x80000000, where there is no memory, because [palloc] reports its failure with that
    address and not with the 0 that is tested for. *)
Theorem pgdir_valloc_no_memory s pd va attr : vm_ok s -> as_ok s pd -> free_frames s = [] ->
  va mod PG_SIZE = 0 -> 0 <= va < KERNEL_BASE -> 0 <= attr < PG_SIZE -> Z.even attr = true ->
  is_Some (present (pte s pd (Z.to_nat (PDE_NR va)))) -> translate s pd va = None ->
  exists s', pgdir_valloc (KP2V pd) va 1 attr s = Ok (true, s') /\ translate s' pd va = Some 0x80000000.
Proof.
  intros Hok Has Hfree Hm Hva Ha He Ht Hun.
  assert (palloc s = Ok (0x80000000, s)) as E1.
  { unfold palloc, lift. unfold free_frames in Hfree. apply fmap_nil_inv in Hfree. simpl.
    unfold KMem.palloc, mbind, M_bind, get. rewrite Hfree. simpl. by destruct s. }
  destruct (map_page_any s pd va 0x80000000 attr) as (s2 & new & E2 & _ & _ & _ & _ & Htr & _); try done.
  - by left.
  - intros Hin. apply (a_pool _ _ Has) in Hin as [[_ Hin] _]. unfold PHY_MEMORY_TOP in Hin. lia.
  - rewrite Hfree. apply not_elem_of_nil.
  - exists s2. split; [|done]. unfold pgdir_valloc. change (Z.to_nat 1) with 1%nat. cbn [valloc_loop].
    rewrite (bind_Ok _ _ _ _ _ E1). change (0x80000000 =? 0) with false. cbv iota.
    by rewrite (bind_Ok _ _ _ _ _ E2).
Qed.

(** [pgdir_setrange] of a range of mapped user addresses returns true, and afterwards the
    bytes of the range, whatever pages it spans, are the given one and all other user
    addresses hold what they held. *)
Theorem pgdir_setrange_correct s pd vstart val n : vm_ok s -> as_ok s pd ->
  0 <= vstart -> 0 <= n -> vstart + n <= KERNEL_BASE ->
  (forall va, vstart <= va < vstart + n -> is_Some (translate s pd va)) ->
  exists s', pgdir_setrange (KP2V pd) vstart val n s = Ok (true, s') /\ vm_ok s' /\ as_ok s' pd /\
    (forall va, 0 <= va < KERNEL_BASE -> uload s' pd va =
       if decide (vstart <= va < vstart + n) then Some (u8 val) else uload s pd va).
Proof.
  intros Hok Has Hv Hn Hend Hmap.
  destruct (setrange_loop_spec (S (S (S (Z.to_nat (n / PG_SIZE))))) s pd vstart val 0 n) as (s' & E & Hok' & Has' & Hul & _);
    rewrite ?Z.sub_0_r in *; try done.
  - lia.
  - intros _. pose proof (Z.mod_pos_bound vstart PG_SIZE ltac:(done)). unfold PG_SIZE in *. Z.div_mod_to_equations. lia.
  - by exists s'.
Qed.

(** An address space with one page, at 0x400000, and [n] free pages. *)
Definition demo_frame (k : Z) : Z := KERNEL_SPACE_SIZE + k * PG_SIZE.

Definition demo_base (n : Z) : vmem :=
  VMem ∅ (PMem (map (fun k => KERNEL_BASE + demo_frame k) (seqZ 0 n)) n 0).

Definition demo_as (n : Z) : vmem :=
  with_frame (with_frame (with_frame (demo_base n)
    (demo_frame 8) (set32 zero_page 1 (user_entry (demo_frame 9))))
    (demo_frame 9) (set32 zero_page 0 (user_entry (demo_frame 10))))
    (demo_frame 10) (replicate (Z.to_nat PG_SIZE) 7).

Lemma demo_pool k : 0 <= k < 16 -> pool_frame (demo_frame k).
Proof.
  intros Hk. unfold pool_frame, demo_frame, KERNEL_SPACE_SIZE, PHY_MEMORY_TOP, PG_SIZE. split; [|lia].
  Z.div_mod_to_equations. lia.
Qed.

Lemma demo_pool_free n : free_frames (demo_base n) = map demo_frame (seqZ 0 n).
Proof.
  unfold free_frames, demo_base. simpl. rewrite map_map. apply map_ext. intros k. lia.
Qed.

Lemma demo_base_ok n : 0 <= n <= 8 -> vm_ok (demo_base n).
Proof.
  intros Hn. split.
  - split; unfold demo_base; simpl.
    + apply Forall_map, Forall_forall. intros k Hk%elem_of_seqZ. destruct (demo_pool k) as [H1 H2]; [lia|].
      unfold demo_frame, is_page, FREE_BASE, KERNEL_BASE, KERNEL_SPACE_SIZE, PG_SIZE, PHY_MEMORY_TOP in *.
      split; [Z.div_mod_to_equations; lia|lia].
    + apply NoDup_fmap_2; [|apply NoDup_seqZ]. intros x y. unfold demo_frame, PG_SIZE. lia.
    + rewrite length_map, length_seqZ. lia.
    + rewrite length_map, length_seqZ. lia.
  - intros f. rewrite demo_pool_free. intros (k & -> & Hk%elem_of_seqZ)%list_elem_of_fmap. apply demo_pool. lia.
  - intros f. unfold frame, demo_base. simpl. apply zero_page_ok.
Qed.

Lemma demo_as_ok n : 0 <= n <= 8 -> vm_ok (demo_as n).
Proof.
  intros Hn. assert (0 < NPTE /\ 1 < NPTE)%nat as [H0 H1] by (rewrite NPTE_eq; lia).
  repeat apply vm_ok_with; try (apply page_ok_set32; [apply zero_page_ok|done]); [by apply demo_base_ok|].
  split; [by rewrite length_replicate|]. apply Forall_replicate. done.
Qed.

Lemma demo_as_frames n : pd_frames (demo_as n) (demo_frame 8) 0 USER_PDES = [demo_frame 9; demo_frame 10].
Proof.
  rewrite (pd_frames_ext (demo_as 0) (demo_as n)) by done. vm_compute. done.
Qed.

Lemma demo_as_space n : 0 <= n <= 8 -> as_ok (demo_as n) (demo_frame 8).
Proof.
  intros Hn. split; rewrite demo_as_frames.
  - repeat constructor; intros Hin; apply (bool_decide_pack _) in Hin; vm_compute in Hin; done.
  - intros f Hf. assert (exists k, f = demo_frame k /\ 8 <= k < 11) as (k & -> & Hk).
    { repeat (apply elem_of_cons in Hf as [->|Hf]); [exists 8|exists 9|exists 10|by apply elem_of_nil in Hf]; (split; [done|lia]). }
    split; [apply demo_pool; lia|]. change (free_frames (demo_as n)) with (free_frames (demo_base n)).
    rewrite demo_pool_free. intros (j & Hj & Hin%elem_of_seqZ)%list_elem_of_fmap. unfold demo_frame, PG_SIZE in Hj. lia.
Qed.

Lemma pgdir_copy_correct_witness :
  exists cp s' s'', pgdir_copy false (KP2V (demo_frame 8)) (demo_as 8) = Ok (KP2V cp, s') /\
    vm_ok s' /\ as_ok s' (demo_frame 8) /\ as_ok s' cp /\
    (forall va, 0 <= va < KERNEL_BASE ->
       uload s' cp va = uload (demo_as 8) (demo_frame 8) va /\ uload s' (demo_frame 8) va = uload (demo_as 8) (demo_frame 8) va) /\
    (forall f, f ∈ cp :: pd_frames s' cp 0 USER_PDES -> f ∉ demo_frame 8 :: pd_frames s' (demo_frame 8) 0 USER_PDES) /\
    pgdir_free (KP2V cp) s' = Ok (tt, s'') /\ vm_ok s'' /\ free_frames s'' ≡ₚ free_frames (demo_as 8) /\
    (forall va, 0 <= va < KERNEL_BASE -> uload s'' (demo_frame 8) va = uload (demo_as 8) (demo_frame 8) va).
Proof.
  apply (pgdir_copy_correct false (demo_as 8) (demo_frame 8)); [by apply demo_as_ok|by apply demo_as_space|].
  rewrite demo_as_frames. change (free_frames (demo_as 8)) with (free_frames (demo_base 8)). rewrite demo_pool_free. simpl. lia.
Defined.

Lemma demo_unmapped n a : 0x401000 <= a < 0x403000 -> translate (demo_as n) (demo_frame 8) a = None.
Proof.
  intros Ha. assert (forall b, translate (demo_as n) (demo_frame 8) b = translate (demo_as 0) (demo_frame 8) b) as E.
  { intros b. by apply lookup_pte_ext. }
  assert (page_of a = 0x401000 \/ page_of a = 0x402000) as [H|H] by (unfold page_of, PG_SIZE; Z.div_mod_to_equations; lia).
  - rewrite E, (translate_page _ _ a 0x401000) by (unfold KERNEL_BASE; lia || done). by vm_compute.
  - rewrite E, (translate_page _ _ a 0x402000) by (unfold KERNEL_BASE; lia || done). by vm_compute.
Qed.

Lemma pgdir_valloc_correct_witness :
  exists s', pgdir_valloc (KP2V (demo_frame 8)) 0x401000 2 6 (demo_as 8) = Ok (true, s') /\ vm_ok s' /\ as_ok s' (demo_frame 8) /\
    (forall a, 0x401000 <= a < 0x401000 + 2 * PG_SIZE -> exists f, translate s' (demo_frame 8) a = Some f /\ f ∈ free_frames (demo_as 8)) /\
    (forall a, 0 <= a < KERNEL_BASE -> ~ (0x401000 <= a < 0x401000 + 2 * PG_SIZE) ->
       uload s' (demo_frame 8) a = uload (demo_as 8) (demo_frame 8) a).
Proof.
  apply (pgdir_valloc_correct (demo_as 8) (demo_frame 8) 0x401000 2 6); try done; try lia.
  - by apply demo_as_ok.
  - by apply demo_as_space.
  - intros a Ha. apply demo_unmapped. unfold PG_SIZE in Ha. lia.
Defined.

Lemma pgdir_valloc_no_memory_witness :
  exists s', pgdir_valloc (KP2V (demo_frame 8)) 0x401000 1 6 (demo_as 0) = Ok (true, s') /\
    translate s' (demo_frame 8) 0x401000 = Some 0x80000000.
Proof.
  apply (pgdir_valloc_no_memory (demo_as 0) (demo_frame 8) 0x401000 6); try done.
  - by apply demo_as_ok.
  - by apply demo_as_space.
Defined.

Lemma pgdir_setrange_correct_witness :
  exists s', pgdir_setrange (KP2V (demo_frame 8)) 0x400ff0 65 8 (demo_as 0) = Ok (true, s') /\ vm_ok s' /\ as_ok s' (demo_frame 8) /\
    (forall va, 0 <= va < KERNEL_BASE -> uload s' (demo_frame 8) va =
       if decide (0x400ff0 <= va < 0x400ff0 + 8) then Some (u8 65) else uload (demo_as 0) (demo_frame 8) va).
Proof.
  apply (pgdir_setrange_correct (demo_as 0) (demo_frame 8) 0x400ff0 65 8); try done; try lia.
  - by apply demo_as_ok.
  - by apply demo_as_space.
  - intros va Hva. rewrite (translate_page _ _ va 0x400000).
    + vm_compute. by eexists.
    + unfold KERNEL_BASE. lia.
    + done.
    + unfold page_of, PG_SIZE. Z.div_mod_to_equations. lia.
Defined.

(** ** The kernel's own mappings *)

Definition super_entry (p : Z) : Z := Z.lor (Z.lor (Z.lor p PG_US_SUPER) PG_RW_RW) PG_PRESENT.

Lemma super_entry_spec p : p mod PG_SIZE = 0 -> 0 <= p < 2 ^ 32 ->
  is_u32 (super_entry p) /\ present (super_entry p) = Some p.
Proof.
  intros Hm Hp. unfold super_entry. rewrite <- (Z.lor_assoc p). change (Z.lor PG_US_SUPER PG_RW_RW) with 2.
  destruct (entry_of_spec p 2) as (H1 & H2 & H3); [done|done|unfold PG_SIZE; lia|done|].
  split; [done|]. unfold present, entry_of in *. by rewrite H2, H3.
Qed.

Lemma init_ptes_spec n : forall i s t paddr, (i + n <= NPTE)%nat -> vm_ok s -> in_mem t ->
  paddr mod PG_SIZE = 0 -> 0 <= paddr -> paddr + Z.of_nat n * PG_SIZE <= 2 ^ 32 ->
  exists s', init_ptes n (KP2V t) (Z.of_nat i) paddr s = Ok (tt, s') /\ vm_ok s' /\
    (forall f, f <> t -> frame s' f = frame s f) /\
    (forall j, pte s' t j = if decide (i <= j < i + n)%nat then super_entry (page_va paddr (j - i)) else pte s t j).
Proof.
  induction n as [|n IH]; intros i s t paddr Hn Hok Ht Hm H0 Hp.
  { exists s. split_and!; try done. intros j. by rewrite decide_False by lia. }
  destruct (super_entry_spec paddr) as [Hu _]; [done|unfold PG_SIZE in *; lia|].
  set (s1 := with_frame s t (set32 (frame s t) i (super_entry paddr))).
  assert (vm_ok s1) as Hok1 by (apply vm_ok_with; [done|apply page_ok_set32; [by apply v_frames|lia]]).
  destruct (IH (S i) s1 t (paddr + PG_SIZE)) as (s' & E & Hok' & Hx & Hp'); try done.
  - lia.
  - unfold PG_SIZE in *. Z.div_mod_to_equations. lia.
  - unfold PG_SIZE. lia.
  - unfold PG_SIZE in *. lia.
  - exists s'. split_and!; try done.
    + cbn [init_ptes]. rewrite (bind_Ok _ _ _ tt s1) by (rewrite store_entry_Ok by done; by rewrite Nat2Z.id).
      by replace (Z.of_nat i + 1) with (Z.of_nat (S i)) by lia.
    + intros f Hf. rewrite Hx by done. by apply frame_with_ne.
    + intros j. rewrite Hp'. unfold s1. rewrite pte_store_eq by (done || lia). destruct (decide (j = i)) as [->|Hj].
      * rewrite decide_False, decide_True by lia. rewrite Nat.sub_diag. f_equal. unfold page_va. lia.
      * destruct (decide (S i <= j < S i + n)%nat); [|by rewrite decide_False by lia].
        rewrite decide_True by lia. rewrite page_va_S. do 2 f_equal. lia.
Qed.

Lemma init_pdes_spec n : forall k s tp paddr, (k + n <= NPTE)%nat -> vm_ok s ->
  tp mod PG_SIZE = 0 -> KPGDIR_PADDR < tp -> page_va tp n <= KERNEL_SPACE_SIZE ->
  paddr mod PG_SIZE = 0 -> 0 <= paddr -> paddr + Z.of_nat n * (1024 * PG_SIZE) <= 2 ^ 32 ->
  exists s', init_pdes n (Z.of_nat k) tp paddr s = Ok (tt, s') /\ vm_ok s' /\
    (forall f, f <> KPGDIR_PADDR -> (forall i, (i < n)%nat -> f <> page_va tp i) -> frame s' f = frame s f) /\
    (forall i, (i < n)%nat -> pte s' KPGDIR_PADDR (k + i) = super_entry (page_va tp i)) /\
    (forall j, (j < k)%nat -> pte s' KPGDIR_PADDR j = pte s KPGDIR_PADDR j) /\
    (forall i j, (i < n)%nat -> (j < NPTE)%nat -> pte s' (page_va tp i) j = super_entry (page_va paddr (i * NPTE + j))).
Proof.
  induction n as [|n IH]; intros k s tp paddr Hn Hok Htm Ht0 Htn Hm H0 Hp.
  { exists s. split_and!; try done; intros; lia. }
  assert (in_mem KPGDIR_PADDR) as Hk by (split; [done|unfold PHY_MEMORY_TOP, KPGDIR_PADDR; lia]).
  assert (in_mem tp) as Ht.
  { split; [done|]. unfold page_va, PG_SIZE, PHY_MEMORY_TOP, KPGDIR_PADDR, KERNEL_SPACE_SIZE in *. lia. }
  destruct (super_entry_spec tp) as [Hu _]; [done|destruct Ht; unfold PHY_MEMORY_TOP in *; lia|].
  set (s1 := with_frame s KPGDIR_PADDR (set32 (frame s KPGDIR_PADDR) k (super_entry tp))).
  assert (vm_ok s1) as Hok1 by (apply vm_ok_with; [done|apply page_ok_set32; [by apply v_frames|lia]]).
  destruct (init_ptes_spec NPTE 0 s1 tp paddr) as (s2 & E2 & Hok2 & Hx2 & Hp2); try done.
  { rewrite NPTE_eq in *. unfold PG_SIZE in *. lia. }
  destruct (IH (S k) s2 (tp + PG_SIZE) (paddr + 1024 * PG_SIZE)) as (s' & E & Hok' & Hx & Hd & Hlow & Hpt); try done.
  - lia.
  - unfold PG_SIZE in *. Z.div_mod_to_equations. lia.
  - unfold PG_SIZE. lia.
  - by rewrite page_va_S.
  - unfold PG_SIZE in *. Z.div_mod_to_equations. lia.
  - unfold PG_SIZE. lia.
  - rewrite NPTE_eq in *. unfold PG_SIZE in *. lia.
  - assert (forall i, page_va tp (S i) <> tp) as Hne by (intros i; unfold page_va, PG_SIZE; lia).
    assert (forall i, page_va tp i <> KPGDIR_PADDR) as Hnk by (intros i; unfold page_va, PG_SIZE in *; lia).
    exists s'. split_and!; try done.
    + cbn [init_pdes]. unfold kpgdir. rewrite (bind_Ok _ _ _ tt s1) by (rewrite store_entry_Ok by done; by rewrite Nat2Z.id).
      rewrite (bind_Ok _ _ _ _ _ E2). by replace (Z.of_nat k + 1) with (Z.of_nat (S k)) by lia.
    + intros f Hf Hft. rewrite Hx; [|done|].
      * rewrite Hx2; [by apply frame_with_ne|]. intros ->. apply (Hft 0%nat); [lia|]. unfold page_va. lia.
      * intros i Hi. rewrite page_va_S. apply Hft. lia.
    + intros [|i] Hi.
      * rewrite Hlow by lia. replace (page_va tp 0) with tp by (unfold page_va; lia).
        unfold pte. rewrite Hx2 by lia. fold (pte s1 KPGDIR_PADDR (k + 0)). unfold s1.
        rewrite pte_store_eq by (done || lia). by rewrite decide_True by lia.
      * replace (k + S i)%nat with (S k + i)%nat by lia. rewrite Hd by lia. by rewrite page_va_S.
    + intros j Hj. rewrite Hlow by lia. unfold pte. rewrite Hx2 by lia. fold (pte s1 KPGDIR_PADDR j). unfold s1.
      rewrite pte_store_eq by (done || lia). by rewrite decide_False by lia.
    + intros [|i] j Hi Hj.
      * replace (page_va tp 0) with tp by (unfold page_va; lia). unfold pte. rewrite Hx; [|lia|].
        -- fold (pte s2 tp j). rewrite Hp2, decide_True by lia. do 2 f_equal. lia.
        -- intros i Hi'. rewrite page_va_S. unfold page_va, PG_SIZE. lia.
      * specialize (Hpt i j ltac:(lia) Hj). rewrite page_va_S in Hpt. rewrite Hpt. f_equal. unfold page_va. rewrite NPTE_eq. lia.
Qed.

(** Where the addresses above the kernel are in the tables. *)
Lemma free_indices va : FREE_BASE <= va < VMEMORY_TOP ->
  513 <= PDE_NR va < 768 /\ 0 <= PTE_NR va < 1024 /\
  KERNEL_SPACE_SIZE + ((PDE_NR va - 513) * 1024 + PTE_NR va) * PG_SIZE = page_of (va - KERNEL_BASE) /\
  page_of (va - KERNEL_BASE) mod PG_SIZE = 0 /\ 0 <= page_of (va - KERNEL_BASE) < 2 ^ 32.
Proof.
  unfold FREE_BASE, VMEMORY_TOP, KERNEL_BASE, KERNEL_SPACE_SIZE, PHY_MEMORY_TOP, page_of, PG_SIZE. intros H.
  rewrite PDE_NR_eq, PTE_NR_eq by lia. change (2 ^ 22) with 4194304. change (2 ^ 12) with 4096. change (2 ^ 32) with 4294967296.
  split_and!; Z.div_mod_to_equations; lia.
Qed.

(** [pgtab_init] maps the memory above the kernel where the kernel expects it: every
    address from 0x80400000 to 0xC0000000 translates to itself less 0x80000000, and the
    entries of the directory below are those of the boot loader. *)
Theorem pgtab_init_correct s : vm_ok s ->
  exists s', pgtab_init s = Ok (tt, s') /\ vm_ok s' /\
    (forall va, FREE_BASE <= va < VMEMORY_TOP -> translate s' KPGDIR_PADDR va = Some (page_of (va - KERNEL_BASE))) /\
    (forall j, (j < Z.to_nat FREE_FIRST_PDE_NR)%nat -> pte s' KPGDIR_PADDR j = pte s KPGDIR_PADDR j).
Proof.
  intros Hok. destruct (init_pdes_spec 255 513 s 0x100000 KERNEL_SPACE_SIZE) as (s' & E & Hok' & _ & Hd & Hlow & Hpt);
    [rewrite NPTE_eq; lia|done|done|done|done|done|done|done|].
  exists s'. split_and!; [exact E|done| |exact Hlow].
  intros va Hva. set (i := Z.to_nat (PDE_NR va - 513)). set (j := Z.to_nat (PTE_NR va)).
  destruct (free_indices va Hva) as (Hk & Hj' & Ev & Hp & Hr).
  assert (i < 255)%nat as Hi by (unfold i; lia).
  assert (j < NPTE)%nat as Hj by (unfold j; rewrite NPTE_eq; lia).
  unfold translate, lookup_pte. replace (Z.to_nat (PDE_NR va)) with (513 + i)%nat by (unfold i; lia). fold j.
  rewrite Hd by done. destruct (super_entry_spec (page_va 0x100000 i)) as [_ ->].
  { unfold page_va. by rewrite Z.mod_add. } { unfold page_va, PG_SIZE. lia. }
  cbn [mbind option_bind]. rewrite Hpt by done. 
  assert (page_va KERNEL_SPACE_SIZE (i * NPTE + j) = page_of (va - KERNEL_BASE)) as ->; [|by apply super_entry_spec].
  rewrite <- Ev. unfold page_va. rewrite NPTE_eq. unfold i, j, PG_SIZE. lia.
Qed.

Lemma pgtab_init_correct_witness :
  exists s', pgtab_init (demo_base 8) = Ok (tt, s') /\ vm_ok s' /\
    (forall va, FREE_BASE <= va < VMEMORY_TOP -> translate s' KPGDIR_PADDR va = Some (page_of (va - KERNEL_BASE))) /\
    (forall j, (j < Z.to_nat FREE_FIRST_PDE_NR)%nat -> pte s' KPGDIR_PADDR j = pte (demo_base 8) KPGDIR_PADDR j).
Proof. apply (pgtab_init_correct (demo_base 8)). apply demo_base_ok. lia. Defined.
End PgTab.
