(* ===== verification/Vm.v ===== *)
(** Address spaces of processes: src/kernel/mem/vm.c, on top of the page tables (PgTab) and
    the kernel's allocators (KMem).

    A [struct vm] lives in an object of [kalloc]; here the objects that are one are a map
    from their addresses to their fields.  [vm->lock] only disables interrupts, as every
    spin lock of the kernel does; [intr] says whether they are enabled. *)

From stdpp Require Import base numbers list gmap.
From Stdlib Require Import ZArith Lia.
From S2P Require Import Prelude KMem PgTab.
Import KMem PgTab.
#[local] Open Scope Z_scope.

Module Vm.

Definition USER_BASE : Z := 0x04048000.

Definition USER_TOP : Z := KERNEL_BASE.

Definition NPAGES_USER_STACK : Z := 4.

Definition TOP_USER_STACK : Z := USER_TOP.

Definition BOTTOM_USER_STACK : Z := TOP_USER_STACK - NPAGES_USER_STACK * PG_SIZE.

Definition USER_HEAP_BASE : Z := USER_BASE + 0x4000000.

Definition USER_HEAP_TOP : Z := BOTTOM_USER_STACK.

(** [struct vm], without the lock. *)
Record vm := MkVm { pgdir : Z; brk : Z }.

(** [cur_vm] is the [vm] of the current task, [kvm] the address of the kernel's. *)
Record vst := VSt {
  km : kmem;
  vframes : gmap Z (list Z);
  vms : gmap Z vm;
  cur_vm : Z;
  intr : bool;
}.

Definition set_km (k : kmem) (s : vst) : vst := VSt k (vframes s) (vms s) (cur_vm s) (intr s).

Definition set_vms (m : gmap Z vm) (s : vst) : vst := VSt (km s) (vframes s) m (cur_vm s) (intr s).

Definition set_intr (b : bool) (s : vst) : vst := VSt (km s) (vframes s) (vms s) (cur_vm s) b.

(** Physical memory: the frames and the free pages, which [kalloc] takes pages from too. *)
Definition mem (s : vst) : vmem := VMem (vframes s) (pages (km s)).

Definition set_mem (m : vmem) (s : vst) : vst :=
  VSt (KMemSt (blocks (km s)) (desc (km s)) (pm m)) (frames m) (vms s) (cur_vm s) (intr s).

#[global] Instance Part_mem : Part vst vmem := {| part := mem; set_part := set_mem |}.

#[global] Instance Part_km : Part vst kmem := {| part := km; set_part := set_km |}.

(** [&kvm]: an address of the kernel's data. *)
Definition kvm : Z := 0x80030000.

Definition SIZEOF_VM : Z := 12.

Definition get_vm (v : Z) : M vst vm :=
  s ← get; match vms s !! v with Some r => mret r | None => panic end.

Definition put_vm (v : Z) (r : vm) : M vst unit := modify (fun s => set_vms (<[v := r]> (vms s)) s).

(** [spinlock_acquire], giving [int_save], and [spinlock_release]. *)
Definition lock : M vst bool := s ← get; put (set_intr false s);; mret (intr s).

Definition unlock (int_save : bool) : M vst unit := modify (set_intr int_save).

(** Page 0 is mapped in the page directory of [kvm] and in no other: programs lie above
    USER_PROG_BASE. *)
Definition null_mapped (s : vst) : bool := cur_vm s =? kvm.

Section vm.
(** Whether the current task has been killed. *)
Context (killed : bool).

Definition vm_free (v : Z) : M vst unit :=
  ASSERT (negb (v =? kvm));;
  s ← get;
  ASSERT (negb (cur_vm s =? v));;
  r ← get_vm v;
  (if negb (pgdir r =? 0) then lift (pgdir_free (pgdir r)) else mret tt);;
  modify (fun s => set_vms (delete v (vms s)) s);;
  lift (kfree killed v).

(** [init_vm] sets [brk]; the [pgdir] of the new object is not. *)
Definition vm_new : M vst Z :=
  s ← get;
  v ← lift (kalloc (null_mapped s) killed SIZEOF_VM);
  if v =? 0 then mret 0
  else
    pd ← lift (pgdir_new (null_mapped s));
    put_vm v (MkVm pd 0);;
    if pd =? 0 then vm_free v;; mret 0
    else put_vm v (MkVm pd USER_HEAP_BASE);; mret v.

Definition vm_copy (v : Z) : M vst Z :=
  s ← get;
  new_vm ← lift (kalloc (null_mapped s) killed SIZEOF_VM);
  if new_vm =? 0 then mret 0
  else
    put_vm new_vm (MkVm 0 USER_HEAP_BASE);;
    int_save ← lock;
    r ← get_vm v;
    cp ← lift (pgdir_copy (null_mapped s) (pgdir r));
    put_vm new_vm (MkVm cp USER_HEAP_BASE);;
    if cp =? 0 then unlock int_save;; vm_free new_vm;; mret 0
    else
      put_vm new_vm (MkVm cp (brk r));;
      unlock int_save;;
      mret new_vm.
End vm.

Definition vm_valloc (v vaddr pgcnt : Z) : M vst bool :=
  ASSERT (negb (pgcnt =? 0));;
  ASSERT (vaddr <? u32 (vaddr + u32 (pgcnt * PG_SIZE)));;
  ASSERT (u32 (vaddr + u32 (pgcnt * PG_SIZE)) <=? KERNEL_BASE);;
  r ← get_vm v;
  lift (pgdir_valloc (pgdir r) vaddr pgcnt (Z.lor PG_RW_RW PG_US_USER)).

(** [memcpy(va, src, n)] to physical memory, for at most a page of bytes: those that do not
    fit into the frame of [va] go to the frame after it. *)
Definition write_bytes (va : Z) (src : list Z) : M vmem unit :=
  let off := Z.to_nat (va mod PG_SIZE) in
  let k := (Z.to_nat PG_SIZE - off)%nat in
  d ← get_frame va;
  set_frame va (splice off (take k src) d);;
  if (length src <=? k)%nat then mret tt
  else
    d ← get_frame (va + Z.of_nat k);
    set_frame (va + Z.of_nat k) (splice 0 (drop k src) d).

(** [for (done = 0; done < sz; done += per_sz, ...)] of [vm_copyout]. *)
Fixpoint copyout_loop (fuel : nat) (pd dst : Z) (src : list Z) (don sz : Z) : M vmem bool :=
  match fuel with
  | O => hang
  | S fuel =>
      if don <? sz then
        let per_sz := if sz - don <? PG_SIZE then sz - don else PG_SIZE in
        page ← page_frame_ptr pd dst;
        if page =? 0 then mret false
        else
          write_bytes (u32 (page + dst mod PG_SIZE)) (take (Z.to_nat per_sz) src);;
          copyout_loop fuel pd (u32 (dst + per_sz)) (drop (Z.to_nat per_sz) src) (don + per_sz) sz
      else mret true
  end.

(** [src] holds the [sz] bytes. *)
Definition vm_copyout (v dst : Z) (src : list Z) : M vst bool :=
  let sz := Z.of_nat (length src) in
  int_save ← lock;
  r ← get_vm v;
  b ← lift (copyout_loop (S (S (Z.to_nat (sz / PG_SIZE)))) (pgdir r) dst src 0 sz);
  unlock int_save;;
  mret b.

Definition vm_setrange (v dst val n : Z) : M vst bool :=
  int_save ← lock;
  r ← get_vm v;
  b ← lift (pgdir_setrange (pgdir r) dst val n);
  unlock int_save;;
  mret b.

(** [for (; brk < ebrk; brk += PG_SIZE)] of [vm_grow_userheap]; false when [palloc] fails. *)
Fixpoint grow_loop (fuel : nat) (pd b ebrk : Z) : M vmem bool :=
  match fuel with
  | O => hang
  | S fuel =>
      if b <? ebrk then
        p ← page_frame_ptr pd b;
        if p =? 0 then
          paddr ← palloc;
          if paddr =? 0 then mret false
          else map_page pd b paddr (Z.lor PG_US_USER PG_RW_RW);; grow_loop fuel pd (u32 (b + PG_SIZE)) ebrk
        else grow_loop fuel pd (u32 (b + PG_SIZE)) ebrk
      else mret true
  end.

(** The result 0 is NULL.  The second early return leaves the lock taken. *)
Definition vm_grow_userheap (v bytes_cnt : Z) : M vst Z :=
  r ← get_vm v;
  ASSERT (negb (brk r =? 0));;
  if i32 bytes_cnt <? 0 then mret 0
  else
    int_save ← lock;
    let sbrk := brk r in
    let ebrk := u32 (sbrk + i32 bytes_cnt) in
    if (ebrk <? sbrk) || (USER_HEAP_TOP <=? ebrk) then mret 0
    else
      ok ← lift (grow_loop (S (S (Z.to_nat (i32 bytes_cnt / PG_SIZE)))) (pgdir r) sbrk ebrk);
      if negb ok then unlock int_save;; mret 0
      else
        put_vm v (MkVm (pgdir r) ebrk);;
        unlock int_save;;
        mret sbrk.

Definition kvm_init : M vst unit := put_vm kvm (MkVm kpgdir 0).

(** ** Growing the heap *)

(** [ebrk] lies in the [m]-th page-sized step from [b]. *)
Definition steps (b ebrk : Z) (m : nat) : Prop :=
  ebrk <= page_va b m /\ match m with O => True | S n => page_va b n < ebrk end.

Lemma steps_exist b ebrk : b <= ebrk -> steps b ebrk (Z.to_nat ((ebrk - b + PG_SIZE - 1) / PG_SIZE)).
Proof.
  intros H. unfold steps, page_va, PG_SIZE.
  destruct (Z.to_nat ((ebrk - b + 4096 - 1) / 4096)) as [|n] eqn:E; (split; [|try done]); Z.div_mod_to_equations; lia.
Qed.

(** A new page at [b], which is not mapped. *)
Lemma grow_turn s pd b : vm_ok s -> as_ok s pd -> 0 <= b < KERNEL_BASE -> translate s pd b = None ->
  (2 <= length (free_frames s))%nat ->
  exists s', vm_ok s' /\ as_ok s' pd /\ (length (free_frames s) <= 2 + length (free_frames s'))%nat /\
    is_Some (translate s' pd b) /\
    (forall va, 0 <= va < KERNEL_BASE -> page_of va <> page_of b -> translate s' pd va = translate s pd va) /\
    (forall va g, 0 <= va < KERNEL_BASE -> translate s pd va = Some g -> frame s' g = frame s g) /\
    forall (k : M vmem bool),
      (paddr ← palloc;
       if paddr =? 0 then mret false else map_page (KP2V pd) b paddr (Z.lor PG_US_USER PG_RW_RW);; k) s = k s'.
Proof.
  intros Hok Has Hb Hun Hlen. destruct (free_frames s) as [|f l] eqn:El; [simpl in Hlen; lia|].
  destruct (palloc_Ok s f l Hok El) as (s1 & E1 & Hok1 & Hl1 & Hfr & Hf0 & Hfl & Hfp).
  assert (forall x, frame s1 x = frame s x) as Efr by (intros x; unfold frame; by rewrite Hfr).
  assert (pd_frames s1 pd 0 USER_PDES = pd_frames s pd 0 USER_PDES) as Epf by (by apply pd_frames_ext).
  assert (forall v, translate s1 pd v = translate s pd v) as Etr by (intros v; by apply lookup_pte_ext).
  assert (as_ok s1 pd) as Has1.
  { destruct Has as [A1 A2]. split; rewrite Epf; [done|]. intros g Hg. destruct (A2 g Hg) as [H1 H2].
    split; [done|]. rewrite Hl1. rewrite El in H2. by apply not_elem_of_cons in H2 as [_ H2]. }
  assert (f ∉ pd :: pd_frames s1 pd 0 USER_PDES) as Hfn.
  { rewrite Epf. intros Hin. apply (a_pool _ _ Has) in Hin as [_ Hin]. rewrite El in Hin. apply Hin. by left. }
  destruct (map_page_any s1 pd b f (Z.lor PG_US_USER PG_RW_RW)) as (s2 & new & E2 & Hok2 & Hfree & Hnl & Hpf2 & Htr2 & Hoth & Hcont & _);
    [done|done|done|right; rewrite Hl1; intros ->; simpl in Hlen; lia|by rewrite Etr|by destruct Hfp| |done|done|done|by rewrite Hl1|].
  { destruct Hfp as [_ H]. unfold KERNEL_SPACE_SIZE, PHY_MEMORY_TOP in H. lia. }
  exists s2. split_and!; try done.
  - eapply (map_as_ok s1); try done. by rewrite Hl1.
  - rewrite Hl1 in Hfree. rewrite Hfree. cbn [length]. rewrite length_app. lia.
  - intros va Hva Hp. rewrite Hoth by done. apply Etr.
  - intros va g Hva Hg. rewrite <- Efr. apply (Hcont va); [done|]. by rewrite Etr.
  - intros k. rewrite (bind_Ok _ _ _ _ _ E1). rewrite (proj2 (Z.eqb_neq f 0)) by done. by rewrite (bind_Ok _ _ _ _ _ E2).
Qed.

Lemma grow_loop_spec m : forall fuel s pd b ebrk, vm_ok s -> as_ok s pd -> 0 <= b -> steps b ebrk m ->
  page_va b m <= KERNEL_BASE -> (m < fuel)%nat -> (2 * m <= length (free_frames s))%nat ->
  exists s', grow_loop fuel (KP2V pd) b ebrk s = Ok (true, s') /\ vm_ok s' /\ as_ok s' pd /\
    (forall i, (i < m)%nat -> is_Some (translate s' pd (page_va b i))) /\
    (forall va, 0 <= va < KERNEL_BASE -> (forall i, (i < m)%nat -> page_of va <> page_of (page_va b i)) ->
       translate s' pd va = translate s pd va) /\
    (forall va, 0 <= va < KERNEL_BASE -> is_Some (translate s pd va) -> uload s' pd va = uload s pd va).
Proof.
  induction m as [|m IH]; intros fuel s pd b ebrk Hok Has Hb Hst Hend Hfuel Hlen; (destruct fuel as [|fuel]; [lia|]); cbn [grow_loop].
  { exists s. destruct Hst as [Hst _]. unfold page_va in Hst. rewrite (proj2 (Z.ltb_ge _ _)) by lia.
    split_and!; try done. intros i Hi. lia. }
  assert (b < ebrk) as Hlt by (destruct Hst as [_ Hst]; unfold page_va, PG_SIZE in Hst; lia).
  assert (0 <= b < KERNEL_BASE) as Hu by (unfold page_va, PG_SIZE in *; lia).
  assert (page_va b 0 = b) as E0 by (unfold page_va; lia).
  rewrite (proj2 (Z.ltb_lt _ _)) by done. rewrite (bind_Ok _ _ _ _ _ (page_frame_ptr_Ok s pd b Hok Has Hu)).
  assert (u32 (b + PG_SIZE) = b + PG_SIZE) as -> by (apply u32_small; unfold is_u32, page_va, PG_SIZE, KERNEL_BASE in *; lia).
  assert (exists s1, vm_ok s1 /\ as_ok s1 pd /\ (length (free_frames s) <= 2 + length (free_frames s1))%nat /\
    is_Some (translate s1 pd b) /\
    (forall va, 0 <= va < KERNEL_BASE -> page_of va <> page_of b -> translate s1 pd va = translate s pd va) /\
    (forall va, 0 <= va < KERNEL_BASE -> is_Some (translate s pd va) ->
       translate s1 pd va = translate s pd va /\ uload s1 pd va = uload s pd va) /\
    forall k : M vmem bool, (if (match translate s pd b with Some f => KP2V f | None => 0 end) =? 0
      then paddr ← palloc; if paddr =? 0 then mret false else map_page (KP2V pd) b paddr (Z.lor PG_US_USER PG_RW_RW);; k
      else k) s = k s1) as (s1 & Hok1 & Has1 & Hl1 & Hb1 & Ho1 & Hm1 & Erun).
  { destruct (translate s pd b) as [f|] eqn:Ef.
    - exists s. split_and!; try done; [lia|]. intros k. rewrite (proj2 (Z.eqb_neq _ 0)); [done|].
      destruct (a_pool _ _ Has f) as [[_ Hfp] _]; [right; by eapply translate_elem|].
      unfold KP2V. rewrite u32_small; unfold is_u32, KERNEL_BASE, KERNEL_SPACE_SIZE, PHY_MEMORY_TOP in *; lia.
    - destruct (grow_turn s pd b Hok Has Hu Ef) as (s1 & H1 & H2 & H3 & H4 & H5 & H6 & H7); [lia|].
      exists s1. split_and!; try done. intros va Hva [g Hg].
      assert (translate s1 pd va = Some g) as Hg1.
      { rewrite <- Hg. apply H5; [done|]. intros Hp. rewrite (translate_page s pd va b) in Hg by done. congruence. }
      split; [congruence|]. unfold uload. rewrite Hg1, Hg. simpl. by rewrite (H6 va g). }
  rewrite Erun. destruct (IH fuel s1 pd (b + PG_SIZE) ebrk) as (s' & E & Hok' & Has' & Hnew & Hold & Hmem); try done.
  - unfold PG_SIZE. lia.
  - unfold steps in *. rewrite page_va_S. split; [lia|]. destruct m; [done|]. rewrite page_va_S. lia.
  - by rewrite page_va_S.
  - lia.
  - lia.
  - exists s'. split_and!; try done.
    + intros [|i] Hi; [|rewrite <- page_va_S; apply Hnew; lia]. rewrite E0. rewrite Hold; [done|done|].
      intros i Hi'. rewrite page_va_S. unfold page_of, page_va, PG_SIZE. Z.div_mod_to_equations. lia.
    + intros va Hva Hne. rewrite Hold; [|done|].
      * apply Ho1; [done|]. rewrite <- E0. apply Hne. lia.
      * intros i Hi. rewrite page_va_S. apply Hne. lia.
    + intros va Hva Hs. destruct (Hm1 va Hva Hs) as [H1 H2]. rewrite <- H2. apply Hmem; [done|]. by rewrite H1.
Qed.

Lemma mem_set_mem m s : mem (set_mem m s) = m.
Proof. by destruct m. Qed.

Lemma lift_mem {A} (m : M vmem A) s a m' : m (mem s) = Ok (a, m') -> lift m s = Ok (a, set_mem m' s).
Proof. intros H. unfold lift. simpl. by rewrite H. Qed.

Lemma get_vm_Ok s v r : vms s !! v = Some r -> get_vm v s = Ok (r, s).
Proof. intros H. unfold get_vm. rewrite (bind_Ok _ _ _ s s) by done. by rewrite H. Qed.

Lemma lock_Ok s : lock s = Ok (intr s, set_intr false s).
Proof. done. Qed.

(** A process with an address space of its own. *)
Record proc_vm (s : vst) (v pd : Z) (r : vm) : Prop := {
  pv_vm : vms s !! v = Some r;
  pv_pgdir : pgdir r = KP2V pd;
  pv_mem : vm_ok (mem s);
  pv_space : as_ok (mem s) pd;
}.

Lemma grow_spec s v pd r n : proc_vm s v pd r -> 0 < brk r -> 0 <= n < 2 ^ 31 -> brk r + n < USER_HEAP_TOP ->
  let m := Z.to_nat ((n + PG_SIZE - 1) / PG_SIZE) in
  (2 * m <= length (free_frames (mem s)))%nat ->
  exists s', vm_grow_userheap v n s = Ok (brk r, s') /\ intr s' = intr s /\
    vms s' = <[v := MkVm (pgdir r) (brk r + n)]> (vms s) /\ vm_ok (mem s') /\ as_ok (mem s') pd /\
    (forall i, (i < m)%nat -> is_Some (translate (mem s') pd (page_va (brk r) i))) /\
    (forall va, 0 <= va < KERNEL_BASE -> (forall i, (i < m)%nat -> page_of va <> page_of (page_va (brk r) i)) ->
       translate (mem s') pd va = translate (mem s) pd va) /\
    (forall va, 0 <= va < KERNEL_BASE -> is_Some (translate (mem s) pd va) -> uload (mem s') pd va = uload (mem s) pd va).
Proof.
  intros [P1 P2 P3 P4] Hb Hn Htop m Hm.
  assert (USER_HEAP_TOP = KERNEL_BASE - 4 * PG_SIZE) as Et by done.
  destruct (grow_loop_spec m (S (S (Z.to_nat (n / PG_SIZE)))) (mem s) pd (brk r) (brk r + n))
    as (m' & E & Hok' & Has' & Hnew & Hold & Hmem); try done.
  - lia.
  - replace m with (Z.to_nat ((brk r + n - brk r + PG_SIZE - 1) / PG_SIZE)) by (unfold m; do 3 f_equal; lia).
    apply steps_exist. lia.
  - unfold page_va, m, PG_SIZE in *. Z.div_mod_to_equations. lia.
  - unfold m, PG_SIZE. Z.div_mod_to_equations. lia.
  - set (s1 := set_mem m' (set_intr false s)).
    exists (set_intr (intr s) (set_vms (<[v := MkVm (pgdir r) (brk r + n)]> (vms s)) s1)).
    split_and!; try done; try (by destruct m').
    unfold vm_grow_userheap. rewrite (bind_Ok _ _ _ _ _ (get_vm_Ok _ _ _ P1)).
    rewrite (bind_Ok _ _ _ tt s) by (apply ASSERT_true, negb_true_iff, Z.eqb_neq; lia).
    rewrite (i32_small n) by (unfold is_i32; lia). rewrite (proj2 (Z.ltb_ge n 0)) by lia.
    rewrite (bind_Ok _ _ _ _ _ (lock_Ok s)). cbv zeta.
    assert (u32 (brk r + n) = brk r + n) as -> by (apply u32_small; unfold is_u32, KERNEL_BASE, PG_SIZE in *; lia).
    rewrite (proj2 (Z.ltb_ge _ _)), (proj2 (Z.leb_gt _ _)) by lia. cbn [orb].
    rewrite (bind_Ok _ _ _ true s1) by (apply lift_mem; rewrite P2; exact E). done.
Qed.

(** [sbrk].  From a break at a page boundary [vm_grow_userheap] returns the old break,
    every address of the new part of the heap is mapped, everything that was mapped holds
    what it held, the break has moved on, and interrupts are as they were. *)
Theorem vm_grow_userheap_correct s v pd r n : proc_vm s v pd r -> 0 < brk r -> brk r mod PG_SIZE = 0 ->
  0 <= n < 2 ^ 31 -> brk r + n < USER_HEAP_TOP ->
  2 * ((n + PG_SIZE - 1) / PG_SIZE) <= Z.of_nat (length (free_frames (mem s))) ->
  exists s', vm_grow_userheap v n s = Ok (brk r, s') /\ intr s' = intr s /\
    proc_vm s' v pd (MkVm (pgdir r) (brk r + n)) /\
    (forall va, brk r <= va < brk r + n -> is_Some (translate (mem s') pd va)) /\
    (forall va, 0 <= va < KERNEL_BASE -> is_Some (translate (mem s) pd va) -> uload (mem s') pd va = uload (mem s) pd va).
Proof.
  intros P Hb Hal Hn Htop Hlen.
  destruct (grow_spec s v pd r n P Hb Hn Htop) as (s' & E & Hi & Hv & Hok' & Has' & Hnew & _ & Hmem); [lia|].
  exists s'. split_and!; try done.
  - split; [by rewrite Hv, lookup_insert_eq|by destruct P|done|done].
  - intros va Hva. rewrite (translate_page _ _ va (page_va (brk r) (Z.to_nat ((va - brk r) / PG_SIZE)))).
    + apply Hnew. unfold PG_SIZE. Z.div_mod_to_equations. lia.
    + unfold USER_HEAP_TOP, BOTTOM_USER_STACK, TOP_USER_STACK, USER_TOP, NPAGES_USER_STACK, PG_SIZE in Htop. lia.
    + unfold USER_HEAP_TOP, BOTTOM_USER_STACK, TOP_USER_STACK, USER_TOP, NPAGES_USER_STACK, page_va, PG_SIZE in *.
      Z.div_mod_to_equations. lia.
    + unfold page_of, page_va, PG_SIZE in *. Z.div_mod_to_equations. lia.
Qed.

(** growing the heap from a break inside of a page can leave a hole.  The loop tests one
    address per page-sized step from the old break, so when the new part reaches into one
    more page than it has steps, that page is not mapped although the call succeeds: the
    last byte of the heap faults.  And a call that asks for more than the heap can hold
    returns NULL with the lock taken, that is, with interrupts disabled. *)
Theorem vm_grow_userheap_hole s v pd r n : proc_vm s v pd r -> 0 < brk r ->
  0 < n < 2 ^ 31 -> brk r < USER_HEAP_TOP ->
  (brk r + n < USER_HEAP_TOP -> PG_SIZE <= brk r mod PG_SIZE + (n - 1) mod PG_SIZE ->
   2 * ((n + PG_SIZE - 1) / PG_SIZE) <= Z.of_nat (length (free_frames (mem s))) ->
   translate (mem s) pd (brk r + n - 1) = None ->
   exists s', vm_grow_userheap v n s = Ok (brk r, s') /\ vms s' = <[v := MkVm (pgdir r) (brk r + n)]> (vms s) /\
     translate (mem s') pd (brk r + n - 1) = None) /\
  (USER_HEAP_TOP <= brk r + n -> vm_grow_userheap v n s = Ok (0, set_intr false s)).
Proof.
  intros P Hb Hn Hb'. unfold USER_HEAP_TOP, BOTTOM_USER_STACK, TOP_USER_STACK, USER_TOP, NPAGES_USER_STACK in *. split.
  - intros Htop Hc Hlen Hun.
    destruct (grow_spec s v pd r n P Hb) as (s' & E & _ & Hv & _ & _ & _ & Hold & _); [lia|done|lia|].
    exists s'. split_and!; [done|done|]. rewrite Hold; [done|unfold PG_SIZE in *; lia|].
    intros i Hi. unfold page_of, page_va, PG_SIZE in *. Z.div_mod_to_equations. lia.
  - intros Htop. destruct P as [P1 _ _ _]. unfold vm_grow_userheap. rewrite (bind_Ok _ _ _ _ _ (get_vm_Ok _ _ _ P1)).
    rewrite (bind_Ok _ _ _ tt s) by (apply ASSERT_true, negb_true_iff, Z.eqb_neq; lia).
    rewrite (i32_small n) by (unfold is_i32; lia). rewrite (proj2 (Z.ltb_ge n 0)) by lia.
    rewrite (bind_Ok _ _ _ _ _ (lock_Ok s)). cbv zeta.
    assert (u32 (brk r + n) = brk r + n) as -> by (apply u32_small; unfold is_u32, KERNEL_BASE, PG_SIZE in *; lia).
    rewrite (proj2 (Z.leb_le _ _)) by done. by rewrite orb_true_r.
Qed.

(** ** Copying into an address space *)

Lemma frame_at_off f off : in_mem f -> 0 <= off < PG_SIZE ->
  u32 (KP2V f + off) = KERNEL_BASE + f + off /\ frame_at (KERNEL_BASE + f + off) = Some f /\
  (KERNEL_BASE + f + off) mod PG_SIZE = off.
Proof.
  intros [Hm Hf] Hoff. unfold KP2V, frame_at, VMEMORY_TOP, page_of.
  assert (f + off < PHY_MEMORY_TOP) as Hlt by (unfold PHY_MEMORY_TOP, PG_SIZE in *; Z.div_mod_to_equations; lia).
  rewrite (u32_small (f + KERNEL_BASE)) by (unfold is_u32, KERNEL_BASE, PHY_MEMORY_TOP in *; lia).
  split_and!.
  - rewrite u32_small by (unfold is_u32, KERNEL_BASE, PHY_MEMORY_TOP, PG_SIZE in *; lia). lia.
  - rewrite (proj2 (Z.leb_le _ _)), (proj2 (Z.ltb_lt _ _)) by lia. cbn [andb]. f_equal.
    unfold PG_SIZE in *. Z.div_mod_to_equations. lia.
  - unfold KERNEL_BASE, PG_SIZE in *. Z.div_mod_to_equations. lia.
Qed.

(** Bytes that fit into the frame. *)
Lemma write_bytes_in s f off src : in_mem f -> 0 <= off < PG_SIZE -> off + Z.of_nat (length src) <= PG_SIZE ->
  write_bytes (u32 (KP2V f + off)) src s = Ok (tt, with_frame s f (splice (Z.to_nat off) src (frame s f))).
Proof.
  intros Hf Hoff Hlen. destruct (frame_at_off f off Hf Hoff) as (-> & Ea & Em). unfold write_bytes. rewrite Em. cbv zeta.
  unfold get_frame, set_frame, mbind, M_bind. rewrite Ea. rewrite take_ge by lia.
  by rewrite (proj2 (Nat.leb_le _ _)) by lia.
Qed.

(** Bytes that do not: the rest goes to the following frame. *)
Lemma write_bytes_over s f off src : in_mem f -> in_mem (f + PG_SIZE) -> 0 <= off < PG_SIZE ->
  PG_SIZE < off + Z.of_nat (length src) ->
  let k := Z.to_nat (PG_SIZE - off) in
  write_bytes (u32 (KP2V f + off)) src s =
    Ok (tt, with_frame (with_frame s f (splice (Z.to_nat off) (take k src) (frame s f))) (f + PG_SIZE)
      (splice 0 (drop k src) (frame s (f + PG_SIZE)))).
Proof.
  intros Hf Hf' Hoff Hlen k. destruct (frame_at_off f off Hf Hoff) as (-> & Ea & Em).
  destruct (frame_at_off (f + PG_SIZE) 0 Hf') as (_ & Ea' & _); [done|].
  unfold write_bytes. rewrite Em. cbv zeta.
  replace (Z.to_nat PG_SIZE - Z.to_nat off)%nat with k by lia.
  unfold get_frame, set_frame, mbind, M_bind. rewrite Ea.
  rewrite (proj2 (Nat.leb_gt _ _)) by lia.
  replace (KERNEL_BASE + f + off + Z.of_nat k) with (KERNEL_BASE + (f + PG_SIZE) + 0) by lia. rewrite Ea'.
  change (VMem (<[f := ?d]> (frames s)) (pm s)) with (with_frame s f d).
  rewrite frame_with_ne; [done|]. unfold PG_SIZE. lia.
Qed.

Lemma copyout_loop_spec fuel : forall s pd dst src don sz, vm_ok s -> as_ok s pd -> bytes src ->
  Z.of_nat (length src) = sz - don -> 0 <= dst -> dst + (sz - don) <= KERNEL_BASE ->
  (dst mod PG_SIZE = 0 \/ dst mod PG_SIZE + (sz - don) <= PG_SIZE) ->
  (1 <= fuel)%nat -> (don < sz -> sz - don <= PG_SIZE * (Z.of_nat fuel - 1)) ->
  (forall va, dst <= va < dst + (sz - don) -> is_Some (translate s pd va)) ->
  exists s', copyout_loop fuel (KP2V pd) dst src don sz s = Ok (true, s') /\ vm_ok s' /\ as_ok s' pd /\
    (forall va, 0 <= va < KERNEL_BASE -> uload s' pd va =
       if decide (dst <= va < dst + (sz - don)) then src !! Z.to_nat (va - dst) else uload s pd va) /\ evolves pd s s'.
Proof.
  induction fuel as [|fuel IH]; intros s pd dst src don sz Hok Has Hby Hsrc Hd Hend Hal Hf1 Hfuel Hmap; [lia|].
  cbn [copyout_loop]. destruct (Z.ltb_spec don sz) as [Hlt|Hge].
  2:{ exists s. split_and!; try done; [|apply evolves_refl]. intros va Hva. by rewrite decide_False by lia. }
  specialize (Hfuel Hlt). assert (0 <= dst < KERNEL_BASE) as Hu by lia. destruct (Hmap dst) as [f Ef]; [lia|].
  cbv zeta. set (per := if sz - don <? PG_SIZE then sz - don else PG_SIZE).
  assert (0 < per /\ per <= sz - don /\ per <= PG_SIZE /\ (per = sz - don \/ per = PG_SIZE)) as (Hp0 & Hp1 & Hp2 & Hp3).
  { unfold per. destruct (Z.ltb_spec (sz - don) PG_SIZE); unfold PG_SIZE in *; lia. }
  rewrite (bind_Ok _ _ _ _ _ (page_frame_ptr_Ok s pd dst Hok Has Hu)), Ef.
  destruct (a_pool _ _ Has f) as [Hfp _]; [right; by eapply translate_elem|]. pose proof (pool_in_mem f Hfp) as Hfm.
  rewrite (proj2 (Z.eqb_neq (KP2V f) 0)).
  2:{ unfold KP2V. destruct Hfp. rewrite u32_small; unfold is_u32, KERNEL_BASE, KERNEL_SPACE_SIZE, PHY_MEMORY_TOP in *; lia. }
  set (off := dst mod PG_SIZE) in *. assert (0 <= off < PG_SIZE) as Hoff by (by apply Z.mod_pos_bound).
  assert (off + per <= PG_SIZE) as Hfit by lia.
  set (v := take (Z.to_nat per) src). assert (length v = Z.to_nat per) as Hv by (unfold v; rewrite length_take; lia).
  rewrite (bind_Ok _ _ _ _ _ (write_bytes_in s f off v Hfm Hoff ltac:(lia))).
  destruct (v_frames _ Hok f) as [Hl Hb]. set (d := splice (Z.to_nat off) v (frame s f)).
  assert (Z.to_nat off + length v <= length (frame s f))%nat as Hfit' by (rewrite Hv, Hl; lia).
  assert (page_ok d) as Hdok.
  { split; [unfold d; by rewrite length_splice|]. apply bytes_splice; [by apply Forall_take|done]. }
  destruct (set_data_spec s pd dst f d Hok Has Hu Ef Hdok) as (Hok1 & Has1 & Htr & Hul & Hev). set (s1 := with_frame s f d) in *.
  assert (u32 (dst + per) = dst + per) as -> by (apply u32_small; unfold is_u32, KERNEL_BASE in *; lia).
  assert (don + per < sz -> off = 0 /\ per = PG_SIZE /\ (dst + per) mod PG_SIZE = 0) as Hnext.
  { intros H. assert (off = 0) as H0 by lia. split_and!; [done|lia|]. assert (per = PG_SIZE) as -> by lia.
    unfold off, PG_SIZE in *. Z.div_mod_to_equations. lia. }
  destruct (IH s1 pd (dst + per) (drop (Z.to_nat per) src) (don + per) sz) as (s' & E & Hok' & Has' & Hul' & Hev'); try done.
  - by apply Forall_drop.
  - rewrite length_drop. lia.
  - lia.
  - lia.
  - destruct (decide (don + per < sz)) as [H|H]; [left; by apply Hnext|]. right.
    assert (sz - (don + per) = 0) as -> by lia. pose proof (Z.mod_pos_bound (dst + per) PG_SIZE ltac:(done)). lia.
  - unfold PG_SIZE in *. lia.
  - intros H. destruct (Hnext H) as (_ & H2 & _). unfold PG_SIZE in *. lia.
  - intros va Hva. rewrite Htr by lia. apply Hmap. lia.
  - exists s'. split_and!; try done; [|by eapply evolves_trans]. intros va Hva. rewrite Hul' by done. rewrite Hul by done.
    assert (page_of va = page_of dst <-> dst - off <= va < dst - off + PG_SIZE) as Hpage.
    { unfold page_of, off, PG_SIZE. Z.div_mod_to_equations. lia. }
    assert (page_of va = page_of dst -> va mod PG_SIZE = va - (dst - off)) as Hmod.
    { unfold page_of, off, PG_SIZE. Z.div_mod_to_equations. lia. }
    destruct (decide (dst + per <= va < dst + per + (sz - (don + per)))).
    { rewrite decide_True by lia. rewrite lookup_drop. f_equal. lia. }
    destruct (decide (page_of va = page_of dst)) as [Hp|Hp].
    + rewrite (Hmod Hp). unfold d. rewrite splice_lookup by done. rewrite Hv. apply Hpage in Hp as Hr.
      destruct (decide (dst <= va < dst + (sz - don))).
      * rewrite decide_True by lia. unfold v. rewrite lookup_take_lt by lia. f_equal. lia.
      * rewrite decide_False by lia. unfold uload. rewrite (translate_page s pd va dst), Ef by done.
        simpl. by rewrite (Hmod Hp).
    + rewrite decide_False; [done|]. apply not_iff_compat in Hpage. lia.
Qed.

(** copying into the memory of a process.  When the range starts at a page boundary or
    lies within one page, and is mapped, [vm_copyout] returns true and the process sees the
    bytes there, and everywhere else what it saw. *)
Theorem vm_copyout_correct s v pd r dst src : proc_vm s v pd r -> bytes src ->
  0 <= dst -> dst + Z.of_nat (length src) <= KERNEL_BASE ->
  (dst mod PG_SIZE = 0 \/ dst mod PG_SIZE + Z.of_nat (length src) <= PG_SIZE) ->
  (forall va, dst <= va < dst + Z.of_nat (length src) -> is_Some (translate (mem s) pd va)) ->
  exists s', vm_copyout v dst src s = Ok (true, s') /\ proc_vm s' v pd r /\ intr s' = intr s /\
    (forall va, 0 <= va < KERNEL_BASE -> uload (mem s') pd va =
       if decide (dst <= va < dst + Z.of_nat (length src)) then src !! Z.to_nat (va - dst) else uload (mem s) pd va).
Proof.
  intros [P1 P2 P3 P4] Hby Hd Hend Hal Hmap. set (sz := Z.of_nat (length src)) in *.
  destruct (copyout_loop_spec (S (S (Z.to_nat (sz / PG_SIZE)))) (mem s) pd dst src 0 sz)
    as (m' & E & Hok' & Has' & Hul & Hev); rewrite ?Z.sub_0_r in *; try done.
  - lia.
  - intros _. unfold PG_SIZE in *. Z.div_mod_to_equations. lia.
  - exists (set_intr (intr s) (set_mem m' (set_intr false s))). split_and!; try done; [|by split; destruct m'].
    unfold vm_copyout. rewrite (bind_Ok _ _ _ _ _ (lock_Ok s)).
    rewrite (bind_Ok _ _ _ r (set_intr false s)) by (by apply get_vm_Ok).
    by rewrite (bind_Ok _ _ _ true (set_mem m' (set_intr false s))) by (apply lift_mem; rewrite P2; exact E).
Qed.

(** a copy of at most a page that starts in one page and ends in the next overwrites
    memory it should not.  [vm_copyout] looks up the page of the first byte only, so the
    bytes beyond its end go to the physical frame that happens to follow, whoever owns it;
    the call returns true. *)
Theorem vm_copyout_overrun s v pd r dst src f : proc_vm s v pd r ->
  0 <= dst < KERNEL_BASE -> translate (mem s) pd dst = Some f -> in_mem (f + PG_SIZE) ->
  PG_SIZE < dst mod PG_SIZE + Z.of_nat (length src) -> Z.of_nat (length src) <= PG_SIZE ->
  exists s', vm_copyout v dst src s = Ok (true, s') /\
    frame (mem s') (f + PG_SIZE) =
      splice 0 (drop (Z.to_nat (PG_SIZE - dst mod PG_SIZE)) src) (frame (mem s) (f + PG_SIZE)).
Proof.
  intros [P1 P2 P3 P4] Hd Ef Hnext Hover Hlen. set (sz := Z.of_nat (length src)) in *.
  set (off := dst mod PG_SIZE) in *. assert (0 <= off < PG_SIZE) as Hoff by (by apply Z.mod_pos_bound).
  destruct (a_pool _ _ P4 f) as [Hfp _]; [right; by eapply translate_elem|]. pose proof (pool_in_mem f Hfp) as Hfm.
  pose proof (write_bytes_over (mem s) f off src Hfm Hnext Hoff Hover) as Ew. cbv zeta in Ew.
  match type of Ew with _ = Ok (tt, ?m) => set (m' := m) in Ew end.
  exists (set_intr (intr s) (set_mem m' (set_intr false s))). split.
  - unfold vm_copyout. rewrite (bind_Ok _ _ _ _ _ (lock_Ok s)).
    rewrite (bind_Ok _ _ _ r (set_intr false s)) by (by apply get_vm_Ok).
    rewrite (bind_Ok _ _ _ true (set_mem m' (set_intr false s))); [done|]. apply lift_mem. rewrite P2. fold sz.
    change (mem (set_intr false s)) with (mem s). cbn [copyout_loop].
    rewrite (proj2 (Z.ltb_lt 0 sz)) by lia. rewrite Z.sub_0_r.
    assert ((if sz <? PG_SIZE then sz else PG_SIZE) = sz) as -> by (destruct (Z.ltb_spec sz PG_SIZE); lia).
    cbv zeta. rewrite (bind_Ok _ _ _ _ _ (page_frame_ptr_Ok (mem s) pd dst P3 P4 Hd)), Ef.
    rewrite (proj2 (Z.eqb_neq (KP2V f) 0)).
    2:{ unfold KP2V. destruct Hfp. rewrite u32_small; unfold is_u32, KERNEL_BASE, KERNEL_SPACE_SIZE, PHY_MEMORY_TOP in *; lia. }
    fold off. rewrite (take_ge src (Z.to_nat sz)) by (unfold sz; rewrite Nat2Z.id; done). rewrite (bind_Ok _ _ _ _ _ Ew). rewrite Z.add_0_l. by rewrite Z.ltb_irrefl.
  - change (mem (set_intr (intr s) (set_mem m' (set_intr false s)))) with (mem (set_mem m' (set_intr false s))).
    rewrite mem_set_mem. apply frame_with_eq.
Qed.

(** ** Copying an address space *)

#[local] Opaque NPTE USER_PDES.

(** Every [struct vm] but the kernel's is an object in use. *)
Definition vms_ok (s : vst) : Prop :=
  forall v r, vms s !! v = Some r -> v = kvm \/ is_Some (desc (km s) !! (v - DESC_SIZE)).

Lemma kmem_ok_pages k p : kmem_ok k -> pmem_ok p -> (forall x, x ∈ free_list p -> x ∈ free_list (pages k)) ->
  kmem_ok (KMemSt (blocks k) (desc k) p).
Proof.
  intros [K1 K2 K3 K4 K5 K6] Hp Hsub.
  assert (forall obj, is_obj k obj -> is_obj (KMemSt (blocks k) (desc k) p) obj) as Hobj.
  { intros obj [H1 H2]. split; [done|]. intros Hin. by apply H2, Hsub. }
  split; simpl; try done.
  - intros i b obj Hb Hin. destruct (K4 i b obj Hb Hin). auto.
  - intros obj i Hd. destruct (K6 obj i Hd). auto.
Qed.

(** Fewer free pages do not hurt an address space. *)
Lemma fewer_pages m m' pd l : vm_ok m -> as_ok m pd -> frames m' = frames m -> pmem_ok (pm m') ->
  free_list (pm m) = l ++ free_list (pm m') ->
  vm_ok m' /\ as_ok m' pd /\ (forall va, uload m' pd va = uload m pd va) /\
  pd_frames m' pd 0 USER_PDES = pd_frames m pd 0 USER_PDES /\
  length (free_frames m) = (length l + length (free_frames m'))%nat.
Proof.
  intros [V1 V2 V3] [A1 A2] Hfr Hp Hl.
  assert (forall x, frame m' x = frame m x) as Efr by (intros x; unfold frame; by rewrite Hfr).
  assert (forall f, f ∈ free_frames m' -> f ∈ free_frames m) as Hsub.
  { intros f. unfold free_frames. rewrite Hl, fmap_app. intros H. apply elem_of_app. by right. }
  assert (pd_frames m' pd 0 USER_PDES = pd_frames m pd 0 USER_PDES) as Epf by (by apply pd_frames_ext).
  split_and!; [split; [done|by auto|]|split; rewrite Epf; [done|]| |done|].
  - intros f. by rewrite Efr.
  - intros f Hf. destruct (A2 f Hf) as [H1 H2]. split; [done|]. intros Hin. by apply H2, Hsub.
  - intros va. unfold uload. assert (translate m' pd va = translate m pd va) as -> by (by apply lookup_pte_ext).
    destruct (translate m pd va) as [f|]; [|done]. simpl. by rewrite Efr.
  - unfold free_frames. by rewrite !length_map, Hl, length_app.
Qed.

Lemma class_of_vm : class_of SIZEOF_VM 0.
Proof. split_and!; [done|done|done|]. intros j Hj. lia. Qed.

(** ** One address space among others *)

(** No object of [kalloc] lies in a frame of the address space. *)
Definition objs_apart (s : vst) (pd : Z) : Prop :=
  forall x, known (km s) x -> KMem.page_of x - KERNEL_BASE ∉ pd :: pd_frames (mem s) pd 0 USER_PDES.

Record space (s : vst) (v pd : Z) (r : vm) : Prop := {
  sp_proc : proc_vm s v pd r;
  sp_kmem : kmem_ok (km s);
  sp_vms : vms_ok s;
  sp_objs : objs_apart s pd;
}.

Lemma free_list_frames m x : x ∈ free_list (pm m) <-> x - KERNEL_BASE ∈ free_frames m.
Proof.
  unfold free_frames. split.
  - intros H. apply list_elem_of_fmap. by exists x.
  - intros (y & Hy & H)%list_elem_of_fmap. by replace x with y by lia.
Qed.

(** Working on one address space keeps it and the others what they are. *)
Lemma evolves_space s v pd r m : space s v pd r -> vm_ok m -> as_ok m pd -> evolves pd (mem s) m ->
  space (set_mem m s) v pd r /\
  (forall v' pd' r', space s v' pd' r' -> apart (mem s) pd pd' ->
     space (set_mem m s) v' pd' r' /\ apart m pd pd' /\
     (forall va, 0 <= va < KERNEL_BASE -> uload m pd' va = uload (mem s) pd' va)).
Proof.
  intros [[P1 P2 P3 P4] Hk Hv Ho] Hok Has Hev. pose proof Hev as (used & Hf & Hp & _).
  assert (kmem_ok (km (set_mem m s))) as Hk'.
  { apply kmem_ok_pages; [done|by apply Hok|]. intros x Hx. apply (free_list_frames (mem s)). apply free_list_frames in Hx.
    rewrite Hf. apply elem_of_app. by right. }
  split.
  - split; [split; simpl; by rewrite ?mem_set_mem|done|done|]. intros x Hx. rewrite mem_set_mem, Hp. intros Hin.
    assert (KMem.page_of x - KERNEL_BASE ∈ used \/ KMem.page_of x - KERNEL_BASE ∈ pd :: pd_frames (mem s) pd 0 USER_PDES)
      as [Hu|Hu] by (clear - Hin; set_solver); [|exact (Ho x Hx Hu)].
    destruct (known_is_obj _ _ Hk Hx) as [_ Hnf]. apply Hnf. apply (free_list_frames (mem s)). rewrite Hf. apply elem_of_app. by left.
  - intros v' pd' r' [[Q1 Q2 Q3 Q4] _ _ Ho'] Hap.
    destruct (evolves_apart pd pd' (mem s) m Q4 Hap Hev) as (Q5 & Hap' & Epf & Hul).
    split_and!; [|done|done]. split; [split; simpl; by rewrite ?mem_set_mem|done|done|].
    intros x Hx. rewrite mem_set_mem, Epf. exact (Ho' x Hx).
Qed.

Definition holds (m : vmem) (pd va : Z) (l : list Z) : Prop :=
  forall k x, l !! k = Some x -> uload m pd (va + Z.of_nat k) = Some x.

Lemma uload_mapped m pd va : vm_ok m -> is_Some (uload m pd va) <-> is_Some (translate m pd va).
Proof.
  intros Hok. unfold uload. destruct (translate m pd va) as [f|]; simpl; [|by split; intros [? ?]].
  split; [by eexists|]. intros _. apply lookup_lt_is_Some_2. destruct (v_frames _ Hok f) as [-> _].
  pose proof (Z.mod_pos_bound va PG_SIZE ltac:(done)). unfold PG_SIZE in *. lia.
Qed.

(** Operations on an address space: [m] is the memory afterwards. *)
Record space_op (s : vst) (v pd : Z) (r : vm) (m : vmem) : Prop := {
  so_space : space (set_mem m s) v pd r;
  so_evolves : evolves pd (mem s) m;
  so_others : forall v' pd' r', space s v' pd' r' -> apart (mem s) pd pd' ->
     space (set_mem m s) v' pd' r' /\ apart m pd pd' /\
     (forall va, 0 <= va < KERNEL_BASE -> uload m pd' va = uload (mem s) pd' va);
}.

Lemma space_op_intro s v pd r m : space s v pd r -> vm_ok m -> as_ok m pd -> evolves pd (mem s) m -> space_op s v pd r m.
Proof. intros Hs H1 H2 H3. destruct (evolves_space s v pd r m Hs H1 H2 H3). by split. Qed.

Lemma vm_valloc_spec s v pd r va n : space s v pd r ->
  va mod PG_SIZE = 0 -> 0 <= va -> 0 < n -> va + n * PG_SIZE <= KERNEL_BASE ->
  (forall a, va <= a < va + n * PG_SIZE -> translate (mem s) pd a = None) ->
  2 * n <= Z.of_nat (length (free_frames (mem s))) ->
  exists m, vm_valloc v va n s = Ok (true, set_mem m s) /\ space_op s v pd r m /\
    (forall a, va <= a < va + n * PG_SIZE -> exists f, translate m pd a = Some f /\ f ∈ free_frames (mem s) /\ frame m f = frame (mem s) f) /\
    (forall a, 0 <= a < KERNEL_BASE -> ~ (va <= a < va + n * PG_SIZE) -> uload m pd a = uload (mem s) pd a) /\
    Z.of_nat (length (free_frames (mem s))) <= 2 * n + Z.of_nat (length (free_frames m)).
Proof.
  intros Hs Hm Hva Hn Hend Hun Hlen. pose proof Hs as [[P1 P2 P3 P4] _ _ _].
  destruct (valloc_loop_spec (Z.to_nat n) 0 (mem s) pd va (Z.lor PG_RW_RW PG_US_USER))
    as (m & E & Hok' & Has' & Hnew & Hold & Hmem & Hl & Hev); try done.
  - unfold page_va. by rewrite Z2Nat.id by lia.
  - intros i Hi. apply Hun. unfold page_va, PG_SIZE in *. lia.
  - lia.
  - exists m. split_and!; [|by apply space_op_intro|..|lia].
    + assert (u32 (n * PG_SIZE) = n * PG_SIZE) as En by (apply u32_small; unfold is_u32, KERNEL_BASE, PG_SIZE in *; lia).
      assert (u32 (va + n * PG_SIZE) = va + n * PG_SIZE) as Ev by (apply u32_small; unfold is_u32, KERNEL_BASE, PG_SIZE in *; lia).
      unfold vm_valloc. rewrite En, Ev.
      rewrite (bind_Ok _ _ _ tt s) by (apply ASSERT_true, negb_true_iff, Z.eqb_neq; lia).
      rewrite (bind_Ok _ _ _ tt s) by (apply ASSERT_true, Z.ltb_lt; unfold PG_SIZE in *; lia).
      rewrite (bind_Ok _ _ _ tt s) by (apply ASSERT_true, Z.leb_le; lia).
      rewrite (bind_Ok _ _ _ _ _ (get_vm_Ok _ _ _ P1)), P2. by apply lift_mem.
    + intros a Hr. destruct (Hnew (Z.to_nat ((a - va) / PG_SIZE))) as (f & H1 & H2 & H3).
      { unfold PG_SIZE in *. Z.div_mod_to_equations. lia. }
      exists f. split_and!; [|done|done]. rewrite <- H1. apply translate_page; [lia|unfold page_va, PG_SIZE in *; Z.div_mod_to_equations; lia|].
      unfold page_of, page_va, PG_SIZE in *. Z.div_mod_to_equations. lia.
    + intros a Hr Hout. unfold uload. rewrite Hold; [|done|].
      * destruct (translate (mem s) pd a) as [g|] eqn:Eg; [|done]. simpl. by rewrite (Hmem a g).
      * intros i Hi. unfold page_of, page_va, PG_SIZE in *. intros Hp. apply Hout. Z.div_mod_to_equations. lia.
Qed.

Lemma vm_copyout_spec s v pd r dst src : space s v pd r -> bytes src ->
  0 <= dst -> dst + Z.of_nat (length src) <= KERNEL_BASE ->
  (dst mod PG_SIZE = 0 \/ dst mod PG_SIZE + Z.of_nat (length src) <= PG_SIZE) ->
  (forall va, dst <= va < dst + Z.of_nat (length src) -> is_Some (translate (mem s) pd va)) ->
  exists m, vm_copyout v dst src s = Ok (true, set_mem m s) /\ space_op s v pd r m /\
    (forall va, 0 <= va < KERNEL_BASE -> uload m pd va =
       if decide (dst <= va < dst + Z.of_nat (length src)) then src !! Z.to_nat (va - dst) else uload (mem s) pd va).
Proof.
  intros Hs Hby Hd Hend Hal Hmap. pose proof Hs as [[P1 P2 P3 P4] _ _ _]. set (sz := Z.of_nat (length src)) in *.
  destruct (copyout_loop_spec (S (S (Z.to_nat (sz / PG_SIZE)))) (mem s) pd dst src 0 sz)
    as (m & E & Hok' & Has' & Hul & Hev); rewrite ?Z.sub_0_r in *; try done.
  - lia.
  - intros _. unfold PG_SIZE in *. Z.div_mod_to_equations. lia.
  - exists m. split_and!; [|by apply space_op_intro|done].
    unfold vm_copyout. rewrite (bind_Ok _ _ _ _ _ (lock_Ok s)).
    rewrite (bind_Ok _ _ _ r (set_intr false s)) by (by apply get_vm_Ok).
    by rewrite (bind_Ok _ _ _ true (set_mem m (set_intr false s))) by (apply lift_mem; rewrite P2; exact E).
Qed.

Lemma vm_setrange_spec s v pd r dst val n : space s v pd r -> 0 <= dst -> 0 <= n -> dst + n <= KERNEL_BASE ->
  (forall va, dst <= va < dst + n -> is_Some (translate (mem s) pd va)) ->
  exists m, vm_setrange v dst val n s = Ok (true, set_mem m s) /\ space_op s v pd r m /\
    (forall va, 0 <= va < KERNEL_BASE -> uload m pd va =
       if decide (dst <= va < dst + n) then Some (u8 val) else uload (mem s) pd va).
Proof.
  intros Hs Hd Hn Hend Hmap. pose proof Hs as [[P1 P2 P3 P4] _ _ _].
  destruct (setrange_loop_spec (S (S (S (Z.to_nat (n / PG_SIZE))))) (mem s) pd dst val 0 n)
    as (m & E & Hok' & Has' & Hul & Hev); rewrite ?Z.sub_0_r in *; try done.
  - lia.
  - intros _. pose proof (Z.mod_pos_bound dst PG_SIZE ltac:(done)). unfold PG_SIZE in *. Z.div_mod_to_equations. lia.
  - exists m. split_and!; [|by apply space_op_intro|done].
    unfold vm_setrange. rewrite (bind_Ok _ _ _ _ _ (lock_Ok s)).
    rewrite (bind_Ok _ _ _ r (set_intr false s)) by (by apply get_vm_Ok).
    by rewrite (bind_Ok _ _ _ true (set_mem m (set_intr false s))) by (apply lift_mem; rewrite P2; exact E).
Qed.

(** Memory in which pages have been taken from the free list for other purposes. *)
Lemma fewer_space s k v pd r l : space s v pd r -> kmem_ok k -> free_list (pages (km s)) = l ++ free_list (pages k) ->
  (forall x, known k x -> known (km s) x \/ KMem.page_of x ∈ l) ->
  (forall x, is_Some (desc (km s) !! x) -> is_Some (desc k !! x)) ->
  space (set_km k s) v pd r /\ (forall va, uload (mem (set_km k s)) pd va = uload (mem s) pd va) /\
  pd_frames (mem (set_km k s)) pd 0 USER_PDES = pd_frames (mem s) pd 0 USER_PDES /\
  length (free_frames (mem s)) = (length l + length (free_frames (mem (set_km k s))))%nat.
Proof.
  intros [[P1 P2 P3 P4] Hk Hv Ho] Hk' Hl Hkn Hdesc.
  destruct (fewer_pages (mem s) (mem (set_km k s)) pd l P3 P4) as (V1 & A1 & U1 & F1 & L1); [done|apply (k_pages _ Hk')|done|].
  split_and!; [|exact U1|exact F1|exact L1]. split; [by split|done| |].
  - intros w q Hw. destruct (Hv w q Hw) as [?|Hd]; [by left|right; by apply Hdesc].
  - intros x [Hx|Hx]%Hkn; rewrite F1; [by apply Ho|]. intros Hin. apply (a_pool _ _ P4) in Hin as [_ Hin].
    apply Hin, free_list_frames. simpl. rewrite Hl. apply elem_of_app. by left.
Qed.

(** A new directory is an empty address space. *)
Lemma pgdir_new_space nm m c l : vm_ok m -> free_frames m = c :: l ->
  exists m', pgdir_new nm m = Ok (KP2V c, m') /\ vm_ok m' /\ as_ok m' c /\ free_frames m' = l /\
    pd_frames m' c 0 USER_PDES = [] /\ (forall va, 0 <= va < KERNEL_BASE -> translate m' c va = None) /\
    (forall f, f <> c -> frame m' f = frame m f).
Proof.
  intros Hok Hf. destruct (pgdir_new_spec nm m c l Hok Hf) as (m' & E & Hok' & Hf' & Hp & Hc & Hfr & H0 & _).
  assert (pd_frames m' c 0 USER_PDES = []) as Epf.
  { apply elem_of_nil_inv. intros f (j & Hj & Hin)%pd_frames_elem. unfold pde_frames in Hin.
    rewrite H0, present_0 in Hin by lia. by apply elem_of_nil in Hin. }
  exists m'. split_and!; [exact E|exact Hok'| |exact Hf'|exact Epf| |exact Hfr].
  - split; rewrite Epf; [apply NoDup_singleton|]. intros f ->%list_elem_of_singleton. by rewrite Hf'.
  - intros va Hva. destruct (user_indices va Hva) as [Hk _]. unfold translate, lookup_pte. by rewrite H0, present_0.
Qed.

(** [vm_new] gives an empty address space apart from the one there is. *)
Lemma vm_new_spec s v pd r : space s v pd r -> (2 <= length (free_frames (mem s)))%nat ->
  exists nv c s', vm_new false s = Ok (nv, s') /\ vms s !! nv = None /\ nv <> kvm /\ nv <> 0 /\
    vms s' = <[nv := MkVm (KP2V c) USER_HEAP_BASE]> (vms s) /\ cur_vm s' = cur_vm s /\ intr s' = intr s /\
    space s' nv c (MkVm (KP2V c) USER_HEAP_BASE) /\ space s' v pd r /\ apart (mem s') c pd /\
    pd_frames (mem s') pd 0 USER_PDES = pd_frames (mem s) pd 0 USER_PDES /\
    (forall va, 0 <= va < KERNEL_BASE -> translate (mem s') c va = None) /\
    (forall va, 0 <= va < KERNEL_BASE -> uload (mem s') pd va = uload (mem s) pd va) /\
    (length (free_frames (mem s)) <= 2 + length (free_frames (mem s')))%nat.
Proof.
  intros Hs Hlen. pose proof Hs as [P Hk Hv Ho].
  destruct (lookup_lt_is_Some_2 (blocks (km s)) 0) as [b Hb]; [rewrite (k_length _ Hk); unfold NBLOCK; lia|].
  destruct (kalloc_spec (null_mapped s) (km s) SIZEOF_VM 0 b Hk class_of_vm) as (obj & k1 & E1 & Hk1 & Hnone & Hd1 & [Hobj _] & l & Hl & Hll & Hkn);
    [done|done|right; intros Hn; unfold free_frames in Hlen; simpl in Hlen; rewrite Hn in Hlen; simpl in Hlen; lia|].
  set (nv := obj + DESC_SIZE). set (s1 := set_km k1 s).
  destruct (fewer_space s k1 v pd r l Hs Hk1 Hl Hkn) as (Hs1 & U1 & F1 & L1).
  { intros x Hx. rewrite Hd1. destruct (decide (obj = x)) as [->|?]; [by rewrite lookup_insert_eq; eexists|by rewrite lookup_insert_ne]. }
  fold s1 in Hs1, U1, F1, L1. pose proof Hs1 as [[Q1 Q2 Q3 Q4] _ Hv1 Ho1].
  destruct (free_frames (mem s1)) as [|c fl] eqn:Ef; [simpl in L1; lia|].
  destruct (pgdir_new_space (null_mapped s) (mem s1) c fl Q3 Ef) as (m & E2 & Hok2 & Has2 & Hf2 & Epf & Hun & Hfr).
  assert (nv <> kvm /\ nv <> 0) as [Hnk Hn0] by (unfold nv, kvm, DESC_SIZE, FREE_BASE, KERNEL_BASE, KERNEL_SPACE_SIZE in *; lia).
  assert (vms s !! nv = None) as Hfresh.
  { destruct (vms s !! nv) as [x|] eqn:Ex; [|done]. destruct (Hv _ _ Ex) as [Heq|[i Hi]]; [contradiction|].
    unfold nv in Hi. rewrite Z.add_simpl_r in Hi. congruence. }
  assert (c ∉ pd :: pd_frames (mem s1) pd 0 USER_PDES) as Hcn.
  { intros Hin. apply (a_pool _ _ Q4) in Hin as [_ Hin]. apply Hin. rewrite Ef. by left. }
  assert (forall f, f ∈ pd :: pd_frames (mem s1) pd 0 USER_PDES -> frame m f = frame (mem s1) f) as Hsame.
  { intros f Hin. apply Hfr. intros Heq. rewrite Heq in Hin. exact (Hcn Hin). }
  assert (pd_frames m pd 0 USER_PDES = pd_frames (mem s1) pd 0 USER_PDES) as Epd.
  { apply pd_frames_ext; [apply Hsame; by left|]. intros f Hin. apply Hsame. by right. }
  set (s' := set_vms (<[nv := MkVm (KP2V c) USER_HEAP_BASE]> (vms s)) (set_mem m s1)).
  assert (mem s' = m) as Em by (by destruct m).
  assert (forall x, x ∈ free_list (pm m) -> x ∈ free_list (pages k1)) as Hsub.
  { intros x Hx. apply (free_list_frames (mem s1)). apply free_list_frames in Hx. rewrite Ef. rewrite Hf2 in Hx. by right. }
  assert (kmem_ok (km s')) as Hk' by (apply (kmem_ok_pages k1); [done|by apply Hok2|done]).
  assert (vms_ok s') as Hv'.
  { intros w q. simpl. rewrite lookup_insert_Some. intros [[<- _]|[_ Hw]]; [|by apply (Hv1 w q)].
    right. rewrite Hd1. unfold nv. rewrite Z.add_simpl_r, lookup_insert_eq. by eexists. }
  exists nv, c, s'. rewrite Em. split_and!; [|exact Hfresh|exact Hnk|exact Hn0|reflexivity|reflexivity|reflexivity| | | | |exact Hun| |].
  - unfold vm_new. rewrite (bind_Ok _ _ _ s s) by done. rewrite (bind_Ok _ _ _ nv s1) by (unfold lift; simpl; by rewrite E1).
    rewrite (proj2 (Z.eqb_neq nv 0)) by done.
    rewrite (bind_Ok _ _ _ (KP2V c) (set_mem m s1)) by (by apply lift_mem).
    rewrite (proj2 (Z.eqb_neq (KP2V c) 0)).
    + unfold put_vm, modify, mbind, M_bind, mret, M_ret, s', set_vms. simpl. by rewrite insert_insert_eq.
    + destruct (a_pool _ _ Has2 c) as [[_ Hp] _]; [by left|].
      unfold KP2V. rewrite u32_small; unfold is_u32, KERNEL_BASE, KERNEL_SPACE_SIZE, PHY_MEMORY_TOP in *; lia.
  - split; [split; [apply lookup_insert_eq|done|by rewrite Em|by rewrite Em]|done|done|].
    intros x Hx. rewrite Em, Epf. intros Hin%list_elem_of_singleton. destruct (known_is_obj _ _ Hk1 Hx) as [_ Hnf].
    apply Hnf, (free_list_frames (mem s1)). rewrite Hin, Ef. by left.
  - split; [split; [|done|by rewrite Em|rewrite Em]|done|done|].
    + simpl. rewrite lookup_insert_ne; [done|]. intros ->. destruct P. congruence.
    + destruct Q4 as [A1 A2]. split; rewrite Epd; [done|]. intros f Hin. destruct (A2 f Hin) as [H1 H2]. split; [done|].
      rewrite Hf2. rewrite Ef in H2. by apply not_elem_of_cons in H2 as [_ H2].
    + intros x Hx. rewrite Em, Epd. exact (Ho1 x Hx).
  - intros f. rewrite Epf, Epd. by intros ->%list_elem_of_singleton.
  - by rewrite Epd.
  - intros va Hva. rewrite <- U1. apply uload_ext; [done|done|exact Hsame].
  - rewrite Hf2. simpl in L1. lia.
Qed.

(** [vm_free] gives all frames of an address space back and leaves the others alone. *)
Lemma vm_free_spec s v pd r : space s v pd r -> v <> kvm -> cur_vm s <> v ->
  exists s', vm_free false v s = Ok (tt, s') /\ vms s' = delete v (vms s) /\ cur_vm s' = cur_vm s /\ intr s' = intr s /\
    free_frames (mem s') ≡ₚ pd :: pd_frames (mem s) pd 0 USER_PDES ++ free_frames (mem s) /\
    (forall v' pd' r', space s v' pd' r' -> v' <> v -> apart (mem s) pd' pd ->
       space s' v' pd' r' /\ (forall va, 0 <= va < KERNEL_BASE -> uload (mem s') pd' va = uload (mem s) pd' va)).
Proof.
  intros [[P1 P2 P3 P4] Hk Hv Ho] Hkv Hcur.
  destruct (pgdir_free_spec (mem s) pd P3 P4) as (m & E & Hok & Hf & Hfr).
  destruct (Hv _ _ P1) as [?|[i Hd]]; [done|]. set (s1 := set_vms (delete v (vms s)) (set_mem m s)).
  assert (kmem_ok (km s1)) as Hk1.
  { pose proof Hk as [K1 K2 K3 K4 K5 K6].
    assert (forall x, known (km s) x -> is_obj (km s1) x) as Hobj.
    { intros x Hx. destruct (known_is_obj _ _ Hk Hx) as [H1 H2]. split; [done|]. intros Hin.
      apply free_list_frames in Hin. rewrite Hf in Hin. specialize (Ho x Hx). apply elem_of_cons in Hin as [Hin|Hin]; [apply Ho; rewrite Hin; by left|].
      apply elem_of_app in Hin as [Hin|Hin]; [apply Ho; by right|]. by apply H2, (free_list_frames (mem s)). }
    split; simpl; try done; [by apply Hok|..].
    - intros j b x Hb Hin. split; [apply Hobj; right; eauto|by eapply K4].
    - intros x j Hx. split; [apply Hobj; left; by eexists|by eapply K6]. }
  destruct (kfree_spec (km s1) (v - DESC_SIZE) i Hk1 Hd) as (k & Ek & Hkok & Hdk & Hpk & Hkn). rewrite Z.sub_add in Ek.
  exists (set_km k s1). split_and!; try done.
  - unfold vm_free. rewrite (bind_Ok _ _ _ tt s) by (apply ASSERT_true, negb_true_iff, Z.eqb_neq; done).
    rewrite (bind_Ok _ _ _ s s) by done.
    rewrite (bind_Ok _ _ _ tt s) by (apply ASSERT_true, negb_true_iff, Z.eqb_neq; done).
    rewrite (bind_Ok _ _ _ _ _ (get_vm_Ok _ _ _ P1)), P2. destruct (a_pool _ _ P4 pd) as [[_ Hp] _]; [by left|].
    rewrite (proj2 (Z.eqb_neq (KP2V pd) 0)).
    2:{ unfold KP2V. rewrite u32_small; unfold is_u32, KERNEL_BASE, KERNEL_SPACE_SIZE, PHY_MEMORY_TOP in *; lia. }
    cbn [negb]. rewrite (bind_Ok _ _ _ tt (set_mem m s)) by (by apply lift_mem).
    rewrite (bind_Ok _ _ _ tt s1) by done. unfold lift. cbn [part Part_km]. by rewrite Ek.
  - rewrite <- Hf. unfold free_frames. simpl. by rewrite Hpk.
  - intros v' pd' r' [[Q1 Q2 Q3 Q4] _ _ Ho'] Hne Hap.
    assert (forall f, f ∈ pd' :: pd_frames (mem s) pd' 0 USER_PDES -> frame m f = frame (mem s) f) as Hsame.
    { intros f Hin. apply Hfr. exact (Hap f Hin). }
    assert (pd_frames m pd' 0 USER_PDES = pd_frames (mem s) pd' 0 USER_PDES) as Epf.
    { apply pd_frames_ext; [apply Hsame; by left|]. intros f Hin. apply Hsame. by right. }
    assert (mem (set_km k s1) = m) as Em by (unfold mem; simpl; rewrite Hpk; by destruct m).
    split; [|intros va Hva; rewrite Em; by apply uload_ext].
    split; [split; [simpl; by rewrite lookup_delete_ne|done|by rewrite Em|rewrite Em]|done| |].
    + destruct Q4 as [A1 A2]. split; rewrite Epf; [done|]. intros f Hin. destruct (A2 f Hin) as [H1 H2]. split; [done|].
      rewrite Hf. intros Hin'. apply (Hap f Hin). apply elem_of_cons in Hin' as [->|Hin']; [by left|].
      apply elem_of_app in Hin' as [Hin'|Hin']; [right; exact Hin'|exfalso; exact (H2 Hin')].
    + intros w q. simpl. rewrite lookup_delete_Some, Hdk. intros [Hw Hq]. destruct (Hv w q Hq) as [?|Hs]; [by left|right].
      rewrite lookup_delete_ne; [done|]. lia.
    + intros x Hx. rewrite Em, Epf. apply Ho'. by apply Hkn in Hx.
Qed.

(** [vm_copy] gives an address space with the same contents in other frames. *)
Lemma vm_copy_spec s v pd r : space s v pd r ->
  (2 + length (pd_frames (mem s) pd 0 USER_PDES) <= length (free_frames (mem s)))%nat ->
  exists nv cp s', vm_copy false v s = Ok (nv, s') /\ vms s !! nv = None /\ nv <> 0 /\ nv <> kvm /\
    intr s' = intr s /\ cur_vm s' = cur_vm s /\ vms s' = <[nv := MkVm (KP2V cp) (brk r)]> (vms s) /\
    space s' nv cp (MkVm (KP2V cp) (brk r)) /\ space s' v pd r /\ apart (mem s') cp pd /\
    (forall va, 0 <= va < KERNEL_BASE ->
       uload (mem s') cp va = uload (mem s) pd va /\ uload (mem s') pd va = uload (mem s) pd va).
Proof.
  intros Hs Hlen. pose proof Hs as [P Hk Hv Ho].
  destruct (lookup_lt_is_Some_2 (blocks (km s)) 0) as [b Hb]; [rewrite (k_length _ Hk); unfold NBLOCK; lia|].
  destruct (kalloc_spec (null_mapped s) (km s) SIZEOF_VM 0 b Hk class_of_vm) as (obj & k1 & E1 & Hk1 & Hnone & Hd1 & [Hobj _] & l & Hl & Hll & Hkn);
    [done|done|right; intros Hn; unfold free_frames in Hlen; simpl in Hlen; rewrite Hn in Hlen; simpl in Hlen; lia|].
  set (nv := obj + DESC_SIZE). set (s1 := set_km k1 s).
  destruct (fewer_space s k1 v pd r l Hs Hk1 Hl Hkn) as (Hs1 & U1 & F1 & L1).
  { intros x Hx. rewrite Hd1. destruct (decide (obj = x)) as [->|?]; [by rewrite lookup_insert_eq; eexists|by rewrite lookup_insert_ne]. }
  fold s1 in Hs1, U1, F1, L1. pose proof Hs1 as [[Q1 Q2 Q3 Q4] _ Hv1 Ho1].
  destruct (pgdir_copy_spec (null_mapped s) (mem s1) pd Q3 Q4) as (cp & m & E & Hok' & Has' & Hcp & Hnew & Hfree & Hfr & _ & Hcop); [rewrite F1; lia|].
  set (n := S (length (pd_frames (mem s1) pd 0 USER_PDES))) in *.
  assert (nv <> kvm /\ nv <> 0) as [Hnk Hn0] by (unfold nv, kvm, DESC_SIZE, FREE_BASE, KERNEL_BASE, KERNEL_SPACE_SIZE in *; lia).
  assert (vms s !! nv = None) as Hfresh.
  { destruct (vms s !! nv) as [x|] eqn:Ex; [|done]. destruct (Hv _ _ Ex) as [Heq|[i Hi]]; [contradiction|].
    unfold nv in Hi. rewrite Z.add_simpl_r in Hi. congruence. }
  assert (v <> nv) as Hvn by (intros ->; destruct P; congruence).
  assert (forall f, f ∈ pd :: pd_frames (mem s1) pd 0 USER_PDES -> frame m f = frame (mem s1) f) as Hsame.
  { intros f Hf. apply Hfr. by apply (a_pool _ _ Q4). }
  assert (pd_frames m pd 0 USER_PDES = pd_frames (mem s1) pd 0 USER_PDES) as Epd.
  { apply pd_frames_ext; [apply Hsame; by left|]. intros f Hin. apply Hsame. by right. }
  assert (forall f, f ∈ cp :: pd_frames m cp 0 USER_PDES -> f ∈ free_frames (mem s1)) as Hcpf.
  { intros f Hf. rewrite Hnew in Hf. by apply elem_of_take_in in Hf. }
  assert (forall x, x ∈ free_list (pm m) -> x ∈ free_list (pages k1)) as Hsub.
  { intros x Hx. apply (free_list_frames (mem s1)). apply free_list_frames in Hx. rewrite Hfree in Hx. by apply elem_of_drop_in in Hx. }
  set (s2 := set_vms (<[nv := MkVm 0 USER_HEAP_BASE]> (vms s)) s1).
  set (s3 := set_mem m (set_intr false s2)).
  set (s' := set_intr (intr s) (set_vms (<[nv := MkVm (KP2V cp) (brk r)]> (vms s)) s3)).
  assert (mem s' = m) as Em by (by destruct m).
  assert (kmem_ok (km s')) as Hk' by (apply (kmem_ok_pages k1); [done|by apply Hok'|done]).
  assert (vms_ok s') as Hv'.
  { intros w q. simpl. rewrite lookup_insert_Some. intros [[<- _]|[_ Hw]]; [|by apply (Hv1 w q)].
    right. rewrite Hd1. unfold nv. rewrite Z.add_simpl_r, lookup_insert_eq. by eexists. }
  exists nv, cp, s'. rewrite Em. split_and!; [|exact Hfresh|exact Hn0|exact Hnk|reflexivity|reflexivity|reflexivity| | | |].
  - unfold vm_copy. rewrite (bind_Ok _ _ _ s s) by done. rewrite (bind_Ok _ _ _ nv s1) by (unfold lift; simpl; by rewrite E1).
    rewrite (proj2 (Z.eqb_neq nv 0)) by done. rewrite (bind_Ok _ _ _ tt s2) by done.
    rewrite (bind_Ok _ _ _ _ _ (lock_Ok s2)).
    rewrite (bind_Ok _ _ _ r (set_intr false s2)) by (apply get_vm_Ok; simpl; rewrite lookup_insert_ne by done; exact Q1).
    rewrite (bind_Ok _ _ _ (KP2V cp) s3) by (apply lift_mem; rewrite Q2; exact E).
    assert (KP2V cp <> 0) as H0.
    { destruct (a_pool _ _ Hcp cp) as [[_ Hp] _]; [by left|].
      unfold KP2V. rewrite u32_small; unfold is_u32, KERNEL_BASE, KERNEL_SPACE_SIZE, PHY_MEMORY_TOP in *; lia. }
    rewrite (bind_Ok _ _ _ tt (set_vms (<[nv := MkVm (KP2V cp) USER_HEAP_BASE]> (vms s3)) s3)) by done.
    rewrite (proj2 (Z.eqb_neq (KP2V cp) 0)) by done.
    unfold put_vm, unlock, modify, mbind, M_bind, mret, M_ret, s', set_vms, set_intr. simpl. by rewrite !insert_insert_eq.
  - split; [split; [apply lookup_insert_eq|done|rewrite Em; exact Hok'|rewrite Em; exact Hcp]|exact Hk'|exact Hv'|].
    intros x Hx. rewrite Em. intros Hin. apply Hcpf in Hin. destruct (known_is_obj _ _ Hk1 Hx) as [_ Hnf].
    apply Hnf, (free_list_frames (mem s1)). exact Hin.
  - split; [split; [simpl; rewrite lookup_insert_ne by done; exact Q1|done|rewrite Em; exact Hok'|rewrite Em; exact Has']|exact Hk'|exact Hv'|].
    intros x Hx. rewrite Em, Epd. exact (Ho1 x Hx).
  - intros f Hf. rewrite Epd. intros Hin. apply Hcpf in Hf. apply (a_pool _ _ Q4) in Hin as [_ Hin]. exact (Hin Hf).
  - intros va Hva. split.
    + destruct (user_indices va Hva) as [Hk'' Hj]. specialize (Hcop _ _ Hk'' Hj). unfold copied in Hcop. rewrite <- U1. unfold uload, translate.
      destruct (lookup_pte (mem s1) pd _ _) as [f|]; [destruct Hcop as (f' & -> & Hf); simpl; by rewrite Hf|by rewrite Hcop].
    + rewrite <- U1. apply uload_ext; [done|done|exact Hsame].
Qed.

(** [fork]'s copy of an address space.  With enough free pages [vm_copy] gives a new
    [struct vm], distinct from all others, with the break of the original, in which the
    process sees at every user address what the original has there; the two share no
    frame, and the original, every other [struct vm] and the interrupt flag are unchanged. *)
Theorem vm_copy_correct s v pd r : space s v pd r ->
  (2 + length (pd_frames (mem s) pd 0 USER_PDES) <= length (free_frames (mem s)))%nat ->
  exists nv cp s', vm_copy false v s = Ok (nv, s') /\ vms s !! nv = None /\ intr s' = intr s /\
    vms s' = <[nv := MkVm (KP2V cp) (brk r)]> (vms s) /\
    space s' nv cp (MkVm (KP2V cp) (brk r)) /\ space s' v pd r /\ apart (mem s') cp pd /\
    (forall va, 0 <= va < KERNEL_BASE ->
       uload (mem s') cp va = uload (mem s) pd va /\ uload (mem s') pd va = uload (mem s) pd va).
Proof.
  intros Hs Hl. destruct (vm_copy_spec s v pd r Hs Hl) as (nv & cp & s' & E & H1 & _ & _ & H2 & _ & H3 & H4 & H5 & H6 & H7).
  exists nv, cp, s'. exact (conj E (conj H1 (conj H2 (conj H3 (conj H4 (conj H5 (conj H6 H7))))))).
Qed.

(** ** Examples *)

(** A process with the address space [demo_as], a page at 0x400000, and the break [b]. *)
Definition demo_vm (b : Z) : vm := MkVm (KP2V (demo_frame 8)) b.

Definition demo_ptr : Z := KERNEL_BASE + demo_frame 11 + DESC_SIZE.

Definition demo_vst (b : Z) : vst :=
  VSt (KMemSt (map (fun i => MemBlock i (Z.shiftl 16 i) 0 0 0 []) (seqZ 0 NBLOCK)) (<[KERNEL_BASE + demo_frame 11 := 0]> ∅) (pm (demo_as 8)))
    (frames (demo_as 8)) {[demo_ptr := demo_vm b]} kvm true.

Lemma demo_proc b : proc_vm (demo_vst b) demo_ptr (demo_frame 8) (demo_vm b).
Proof.
  split; [apply lookup_singleton_eq|done|by apply (demo_as_ok 8)|by apply (demo_as_space 8)].
Qed.

Lemma demo_kmem_obj : kmem_ok (km (demo_vst 0)).
Proof.
  set (k0 := KMemSt (blocks (km (demo_vst 0))) ∅ (pm (demo_as 8))).
  assert (kmem_ok k0) as [K1 K2 K3 K4 K5 K6].
  { destruct (kalloc_init_ok k0) as (s' & E & Hok & _); [apply (demo_base_ok 8); lia|done|]. by injection E as <-. }
  assert (forall i b, blocks k0 !! i = Some b -> head b = []) as Hh.
  { intros i b (x & -> & _)%list_lookup_fmap_Some. done. }
  split; try done.
  - intros i b obj Hb Hin. rewrite (Hh i b Hb) in Hin. by apply elem_of_nil in Hin.
  - intros obj i Hd. simpl in Hd. rewrite insert_empty in Hd. apply lookup_singleton_Some in Hd as [<- <-].
    split; [|done]. split; [by vm_compute|]. by apply (bool_decide_unpack _); vm_compute.
Qed.

Lemma vm_grow_userheap_correct_witness :
  exists s', vm_grow_userheap demo_ptr 5000 (demo_vst USER_HEAP_BASE) = Ok (USER_HEAP_BASE, s') /\ intr s' = true /\
    proc_vm s' demo_ptr (demo_frame 8) (MkVm (KP2V (demo_frame 8)) (USER_HEAP_BASE + 5000)) /\
    (forall va, USER_HEAP_BASE <= va < USER_HEAP_BASE + 5000 -> is_Some (translate (mem s') (demo_frame 8) va)) /\
    (forall va, 0 <= va < KERNEL_BASE -> is_Some (translate (mem (demo_vst USER_HEAP_BASE)) (demo_frame 8) va) ->
       uload (mem s') (demo_frame 8) va = uload (mem (demo_vst USER_HEAP_BASE)) (demo_frame 8) va).
Proof.
  apply (vm_grow_userheap_correct (demo_vst USER_HEAP_BASE) demo_ptr (demo_frame 8) (demo_vm USER_HEAP_BASE) 5000
    (demo_proc USER_HEAP_BASE)); [done|done|lia|done|by vm_compute].
Defined.

Lemma vm_grow_userheap_hole_witness :
  (exists s', vm_grow_userheap demo_ptr 4000 (demo_vst (USER_HEAP_BASE + 1000)) = Ok (USER_HEAP_BASE + 1000, s') /\
     vms s' = <[demo_ptr := MkVm (KP2V (demo_frame 8)) (USER_HEAP_BASE + 1000 + 4000)]> (vms (demo_vst (USER_HEAP_BASE + 1000))) /\
     translate (mem s') (demo_frame 8) (USER_HEAP_BASE + 1000 + 4000 - 1) = None) /\
  vm_grow_userheap demo_ptr 0x7fffffff (demo_vst USER_HEAP_BASE) = Ok (0, set_intr false (demo_vst USER_HEAP_BASE)).
Proof.
  split.
  - apply (vm_grow_userheap_hole (demo_vst (USER_HEAP_BASE + 1000)) demo_ptr (demo_frame 8) (demo_vm (USER_HEAP_BASE + 1000)) 4000
      (demo_proc (USER_HEAP_BASE + 1000))); [done|lia|done|done|done|by vm_compute|by vm_compute].
  - apply (vm_grow_userheap_hole (demo_vst USER_HEAP_BASE) demo_ptr (demo_frame 8) (demo_vm USER_HEAP_BASE) 0x7fffffff
      (demo_proc USER_HEAP_BASE)); [done|lia|done|by vm_compute].
Defined.

Lemma demo_mapped va b : 0x400000 <= va < 0x401000 -> is_Some (translate (mem (demo_vst b)) (demo_frame 8) va).
Proof.
  intros Hva. change (mem (demo_vst b)) with (demo_as 8). rewrite (translate_page _ _ va 0x400000).
  - vm_compute. by eexists.
  - unfold KERNEL_BASE. lia.
  - done.
  - unfold page_of, PG_SIZE. Z.div_mod_to_equations. lia.
Qed.

Lemma vm_copyout_correct_witness :
  exists s', vm_copyout demo_ptr 0x400ff0 [104; 105; 0] (demo_vst USER_HEAP_BASE) = Ok (true, s') /\
    proc_vm s' demo_ptr (demo_frame 8) (demo_vm USER_HEAP_BASE) /\ intr s' = true /\
    (forall va, 0 <= va < KERNEL_BASE -> uload (mem s') (demo_frame 8) va =
       if decide (0x400ff0 <= va < 0x400ff0 + 3) then [104; 105; 0] !! Z.to_nat (va - 0x400ff0)
       else uload (mem (demo_vst USER_HEAP_BASE)) (demo_frame 8) va).
Proof.
  apply (vm_copyout_correct (demo_vst USER_HEAP_BASE) demo_ptr (demo_frame 8) (demo_vm USER_HEAP_BASE) 0x400ff0 [104; 105; 0]
    (demo_proc USER_HEAP_BASE)).
  - repeat constructor; done.
  - lia.
  - done.
  - right. done.
  - intros va Hva. apply demo_mapped. simpl in Hva. lia.
Defined.

Lemma vm_copyout_overrun_witness :
  exists s', vm_copyout demo_ptr 0x400ffe [104; 105; 0] (demo_vst USER_HEAP_BASE) = Ok (true, s') /\
    frame (mem s') (demo_frame 10 + PG_SIZE) =
      splice 0 (drop (Z.to_nat (PG_SIZE - 0x400ffe mod PG_SIZE)) [104; 105; 0]) (frame (mem (demo_vst USER_HEAP_BASE)) (demo_frame 10 + PG_SIZE)).
Proof.
  apply (vm_copyout_overrun (demo_vst USER_HEAP_BASE) demo_ptr (demo_frame 8) (demo_vm USER_HEAP_BASE) 0x400ffe [104; 105; 0] (demo_frame 10)
    (demo_proc USER_HEAP_BASE)); [done|by vm_compute|by vm_compute|done|done].
Defined.

Lemma demo_space : space (demo_vst 0) demo_ptr (demo_frame 8) (demo_vm 0).
Proof.
  split; [apply demo_proc|apply demo_kmem_obj| |].
  - intros v r Hv. right. simpl in *. apply lookup_singleton_Some in Hv as [<- _].
    unfold demo_ptr. rewrite Z.add_simpl_r, lookup_insert_eq. by eexists.
  - assert (forall i b, blocks (km (demo_vst 0)) !! i = Some b -> head b = []) as Hh.
    { intros i b (x & -> & _)%list_lookup_fmap_Some. done. }
    intros x [[i Hx]|(i & b & Hb & Hin)]; [|rewrite (Hh i b Hb) in Hin; by apply elem_of_nil in Hin].
    simpl in Hx. rewrite insert_empty in Hx. apply lookup_singleton_Some in Hx as [<- _].
    change (mem (demo_vst 0)) with (demo_as 8). rewrite (demo_as_frames 8). by apply (bool_decide_unpack _).
Qed.

Lemma vm_copy_correct_witness :
  exists nv cp s', vm_copy false demo_ptr (demo_vst 0) = Ok (nv, s') /\ vms (demo_vst 0) !! nv = None /\ intr s' = true /\
    vms s' = <[nv := MkVm (KP2V cp) 0]> (vms (demo_vst 0)) /\
    space s' nv cp (MkVm (KP2V cp) 0) /\ space s' demo_ptr (demo_frame 8) (demo_vm 0) /\ apart (mem s') cp (demo_frame 8) /\
    (forall va, 0 <= va < KERNEL_BASE ->
       uload (mem s') cp va = uload (mem (demo_vst 0)) (demo_frame 8) va /\
       uload (mem s') (demo_frame 8) va = uload (mem (demo_vst 0)) (demo_frame 8) va).
Proof.
  apply (vm_copy_correct (demo_vst 0) demo_ptr (demo_frame 8) (demo_vm 0) demo_space).
  change (mem (demo_vst 0)) with (demo_as 8). rewrite (demo_as_frames 8).
  change (free_frames (demo_as 8)) with (free_frames (demo_base 8)). rewrite (demo_pool_free 8). simpl. lia.
Defined.
End Vm.
