(* ===== verification/Exec.v ===== *)
(** Program loading: src/kernel/proc_exec.c, with [vm_load] of src/kernel/mem/vm.c and the
    headers of src/include/kernel/elf.h.

    Loading works on the file layer (File.v) and on memory (Vm.v) at the same time; [world]
    is both, with what [proc_execv] changes of the calling process.  The arguments are the
    strings that [argv] points to, without their terminating zeros. *)

From stdpp Require Import base numbers list gmap.
From Stdlib Require Import ZArith Lia.
From S2P Require Import Prelude Semaphore BlockIO Log BAlloc Inode Dir Pathname File Balance KMem PgTab Vm.
#[local] Open Scope Z_scope.

Module Exec.
Import BlockIO Log BAlloc Inode File Pathname.

(** [struct trap_frame] of src/include/kernel/trap.h: the registers of a program at a trap. *)
Record tframe := TFrame {
  tf_edi : Z; tf_esi : Z; tf_ebp : Z; tf_esp : Z; tf_ebx : Z; tf_edx : Z; tf_ecx : Z; tf_eax : Z;
  tf_gs : Z; tf_fs : Z; tf_es : Z; tf_ds : Z;
  tf_intr_nr : Z; tf_errorcode : Z;
  tf_eip : Z; tf_cs : Z; tf_eflags : Z;
  tf_user_esp : Z; tf_user_ss : Z;
}.

Definition set_eax (x : Z) (t : tframe) : tframe :=
  TFrame (tf_edi t) (tf_esi t) (tf_ebp t) (tf_esp t) (tf_ebx t) (tf_edx t) (tf_ecx t) x (tf_gs t) (tf_fs t) (tf_es t) (tf_ds t) (tf_intr_nr t) (tf_errorcode t) (tf_eip t) (tf_cs t) (tf_eflags t) (tf_user_esp t) (tf_user_ss t).

Definition set_eip (x : Z) (t : tframe) : tframe :=
  TFrame (tf_edi t) (tf_esi t) (tf_ebp t) (tf_esp t) (tf_ebx t) (tf_edx t) (tf_ecx t) (tf_eax t) (tf_gs t) (tf_fs t) (tf_es t) (tf_ds t) (tf_intr_nr t) (tf_errorcode t) x (tf_cs t) (tf_eflags t) (tf_user_esp t) (tf_user_ss t).

(** The arguments of [main]. *)
Definition set_args (argc argv esp : Z) (t : tframe) : tframe :=
  TFrame (tf_edi t) (tf_esi t) (tf_ebp t) (tf_esp t) argc (tf_edx t) argv (tf_eax t) (tf_gs t) (tf_fs t) (tf_es t) (tf_ds t) (tf_intr_nr t) (tf_errorcode t) (tf_eip t) (tf_cs t) (tf_eflags t) esp (tf_user_ss t).

Definition zero_tframe : tframe := TFrame 0 0 0 0 0 0 0 0 0 0 0 0 0 0 0 0 0 0 0.

(** [proc_name] is [proc->name]. *)
Record world := World {
  wfs : kst;
  wvm : Vm.vst;
  wtf : tframe;
  proc_name : list Z;
}.

#[global] Instance Part_wfs : Part world kst :=
  {| part := wfs; set_part := fun x w => World x (wvm w) (wtf w) (proc_name w) |}.

#[global] Instance Part_wvm : Part world Vm.vst :=
  {| part := wvm; set_part := fun x w => World (wfs w) x (wtf w) (proc_name w) |}.

(** Operations of the parts. *)
Definition on_fs {A} (m : M kst A) : M world A := lift m.

Definition on_vm {A} (m : M Vm.vst A) : M world A := lift m.

Definition on_ino {A} (m : M ist A) : M world A := on_fs (ino m).

Definition on_mem {A} (m : M PgTab.vmem A) : M world A := on_vm (lift m).

(** ** Headers *)

Definition ELF_MAGIC : Z := 0x464C457F.

Definition ET_EXEC : Z := 2.

Definition SIZEOF_ELFHDR : Z := 52.

Definition SIZEOF_PROGHDR : Z := 32.

(** The fields of [struct elfhdr] and [struct proghdr] that are used. *)
Record elfhdr := ElfHdr { e_magic : Z; e_type : Z; e_entry : Z; e_phoff : Z; e_phnum : Z }.

Record proghdr := ProgHdr { p_offset : Z; p_vaddr : Z; p_filesz : Z; p_memsz : Z }.

Definition dec16 (l : list Z) : Z := match l with [a; b] => a + b * 2 ^ 8 | _ => 0 end.

Definition read_elfhdr (l : list Z) : elfhdr :=
  ElfHdr (dec32 (slice 0 4 l)) (dec16 (slice 16 2 l)) (dec32 (slice 24 4 l)) (dec32 (slice 28 4 l)) (dec16 (slice 44 2 l)).

Definition read_proghdr (l : list Z) : proghdr :=
  ProgHdr (get32 l 1) (get32 l 2) (get32 l 4) (get32 l 5).

Definition USER_PROG_BASE : Z := Vm.USER_BASE.

Definition USER_PROG_TOP : Z := Vm.USER_HEAP_BASE.

Definition verify_elfhdr (h : elfhdr) : bool :=
  if negb (e_magic h =? ELF_MAGIC) then false
  else if negb (e_type h =? ET_EXEC) then false
  else true.

Definition verify_proghdr (ph : proghdr) : bool :=
  if (u32 (p_vaddr ph + p_memsz ph) <? p_vaddr ph) || (p_memsz ph <? p_filesz ph) then false
  else if negb (p_vaddr ph mod KMem.PG_SIZE =? 0) then false
  else
    let svaddr := p_vaddr ph in
    let evaddr := u32 (p_vaddr ph + p_memsz ph) in
    (USER_PROG_BASE <=? svaddr) && (evaddr <=? USER_PROG_TOP).

(** [ROUND_UP] of src/include/kernel/defs.h, which divides. *)
Definition ROUND_UP (x step : Z) : Z := u32 (u32 (x + step) - 1) / step.

Section load.
Context `{Devices} (sb : superblock).

(** [inode_read] to kernel memory: the bytes go to the frame of [page]. *)
Definition read_to_page (ip page off n : Z) : M world Z :=
  r ← on_ino (inode_read sb ip off n);
  on_mem (Vm.write_bytes page (snd r));;
  mret (fst r).

(** [inode_read] to addresses of the current address space: a page that is not mapped is a
    page fault in the kernel. *)
Fixpoint store_user (fuel : nat) (pd dst : Z) (src : list Z) : M PgTab.vmem unit :=
  match fuel with
  | O => hang
  | S fuel =>
      match src with
      | [] => mret tt
      | _ =>
          let k := (Z.to_nat KMem.PG_SIZE - Z.to_nat (dst mod KMem.PG_SIZE))%nat in
          page ← PgTab.page_frame_ptr pd dst;
          if page =? 0 then panic
          else
            Vm.write_bytes (u32 (page + dst mod KMem.PG_SIZE)) (take k src);;
            store_user fuel pd (u32 (dst + Z.of_nat k)) (drop k src)
      end
  end.

(** The loop of [vm_load]. *)
Fixpoint load_loop (fuel : nat) (pd dst ip off don sz : Z) : M world bool :=
  match fuel with
  | O => hang
  | S fuel =>
      if don <? sz then
        let per_sz := if sz - don <? KMem.PG_SIZE then sz - don else KMem.PG_SIZE in
        page ← on_mem (PgTab.page_frame_ptr pd dst);
        if page =? 0 then mret false
        else
          r ← read_to_page ip page off per_sz;
          if r <? 0 then mret false
          else load_loop fuel pd (u32 (dst + per_sz)) ip (u32 (off + per_sz)) (don + per_sz) sz
      else mret true
  end.

Definition vm_load (v dst ip off sz : Z) : M world bool :=
  w ← get;
  x ← on_vm (Vm.get_vm v);
  if Vm.cur_vm (wvm w) =? v then
    r ← on_ino (inode_read sb ip off sz);
    on_mem (store_user (3 + Z.to_nat (sz / KMem.PG_SIZE)) (Vm.pgdir x) dst (snd r));;
    mret (0 <=? fst r)
  else load_loop (S (S (Z.to_nat (sz / KMem.PG_SIZE)))) (Vm.pgdir x) dst ip off 0 sz.

(** [for (i = 0, off = elfhdr->e_phoff; i < elfhdr->e_phnum; ...)], [n] turns left. *)
Fixpoint load_loop_hdrs (n : nat) (v ip off : Z) : M world bool :=
  match n with
  | O => mret true
  | S n =>
      r ← on_ino (inode_read sb ip off SIZEOF_PROGHDR);
      if negb (fst r =? SIZEOF_PROGHDR) then mret false
      else
        let ph := read_proghdr (snd r) in
        if p_memsz ph =? 0 then load_loop_hdrs n v ip (u32 (off + SIZEOF_PROGHDR))
        else if negb (verify_proghdr ph) then mret false
        else
          b ← on_vm (Vm.vm_valloc v (p_vaddr ph) (ROUND_UP (p_memsz ph) KMem.PG_SIZE));
          if negb b then mret false
          else
            b ← vm_load v (p_vaddr ph) ip (p_offset ph) (p_filesz ph);
            if negb b then mret false
            else load_loop_hdrs n v ip (u32 (off + SIZEOF_PROGHDR))
  end.

Definition load_proghdrs (v : Z) (h : elfhdr) (ip : Z) : M world bool :=
  load_loop_hdrs (Z.to_nat (e_phnum h)) v ip (e_phoff h).

(** ** The stack *)

Definition set_tf (f : tframe -> tframe) : M world unit :=
  modify (fun w => World (wfs w) (wvm w) (f (wtf w)) (proc_name w)).

(** The loop over the arguments; [argstr_ptr] at its end, or false. *)
Fixpoint copy_args (v argv_ptr : Z) (i : Z) (argstr_ptr : Z) (args : list (list Z)) : M world (option Z) :=
  match args with
  | [] => mret (Some argstr_ptr)
  | a :: args =>
      let len := u32 (Z.of_nat (length a) + 1) in
      let argstr_ptr := u32 (argstr_ptr - len) in
      b ← on_vm (Vm.vm_copyout v argstr_ptr (a ++ [0]));
      if negb b then mret None
      else
        b ← on_vm (Vm.vm_copyout v (u32 (argv_ptr + 4 * i)) (enc32 argstr_ptr));
        if negb b then mret None
        else copy_args v argv_ptr (i + 1) argstr_ptr args
  end.

Definition copy_argv_into_stack (v : Z) (argv : list (list Z)) : M world bool :=
  let argc := Z.of_nat (length argv) in
  let argv_ptr := u32 (Vm.TOP_USER_STACK - 4 * argc) in
  r ← copy_args v argv_ptr 0 argv_ptr argv;
  match r with
  | None => mret false
  | Some argstr_ptr =>
      set_tf (set_args argc argv_ptr argstr_ptr);;
      mret true
  end.

Definition setup_ustack (v : Z) : M world bool :=
  b ← on_vm (Vm.vm_valloc v Vm.BOTTOM_USER_STACK Vm.NPAGES_USER_STACK);
  if negb b then mret false
  else
    b ← on_vm (Vm.vm_setrange v Vm.BOTTOM_USER_STACK 0 (Vm.NPAGES_USER_STACK * KMem.PG_SIZE));
    mret b.

(** ** [proc_execv] *)

(** The label [bad]. *)
Definition exec_bad (ip : option Z) (new_vm : Z) : M world Z :=
  w ← get;
  (match ip with Some ip => on_ino (inode_unlockput sb ip) | None => mret tt end);;
  (if negb (new_vm =? 0) then on_vm (Vm.vm_free (killed (wfs w)) new_vm) else mret tt);;
  on_fs (logop Log.log_end_op);;
  mret (-1).

(** The size of [proc->name]. *)
Definition TASK_NAME_LENGTH : nat := 32.

(** [strcpy(proc->name, argv[0])].  [argv[0]] is NULL for an empty list, and a longer name is
    written over the fields after [name]: the model stops there. *)
Definition set_proc_name (argv : list (list Z)) : M world unit :=
  match argv with
  | [] => panic
  | a :: _ =>
      if (length a <? TASK_NAME_LENGTH)%nat then modify (fun w => World (wfs w) (wvm w) (wtf w) a) else panic
  end.

(** [proc->vm = new_vm; vm_switchvm(older_vm, new_vm)]. *)
Definition switch_to (v : Z) : M world unit :=
  on_vm (modify (fun s => Vm.VSt (Vm.km s) (Vm.vframes s) (Vm.vms s) v (Vm.intr s))).

(** From the end of the transaction on. *)
Definition exec_start (h : elfhdr) (older_vm new_vm : Z) (argv : list (list Z)) : M world Z :=
  w ← get;
  b ← setup_ustack new_vm;
  if negb b then on_vm (Vm.vm_free (killed (wfs w)) new_vm);; mret (-1)
  else
    b ← copy_argv_into_stack new_vm argv;
    if negb b then on_vm (Vm.vm_free (killed (wfs w)) new_vm);; mret (-1)
    else
      set_proc_name argv;;
      switch_to new_vm;;
      on_vm (Vm.vm_free (killed (wfs w)) older_vm);;
      set_tf (set_eip (e_entry h));;
      mret 0.

Definition proc_execv (path : list Z) (argv : list (list Z)) : M world Z :=
  w ← get;
  let older_vm := Vm.cur_vm (wvm w) in
  new_vm ← on_vm (Vm.vm_new (killed (wfs w)));
  if new_vm =? 0 then mret (-1)
  else
    on_fs (logop (Log.log_begin_op (curtask (il (wfs w)))));;
    r ← on_ino (path_lookup sb (cwd (wfs w)) path);
    match r with
    | None => exec_bad None new_vm
    | Some ip =>
        on_ino (inode_lock sb ip);;
        i ← on_ino (get_inode ip);
        if negb (type (disk_inode i) =? INODE_FILE) then exec_bad (Some ip) new_vm
        else
          r ← on_ino (inode_read sb ip 0 SIZEOF_ELFHDR);
          if negb (fst r =? SIZEOF_ELFHDR) then exec_bad (Some ip) new_vm
          else
            let eh := read_elfhdr (snd r) in
            if negb (verify_elfhdr eh) then exec_bad (Some ip) new_vm
            else
              b ← load_proghdrs new_vm eh ip;
              if negb b then exec_bad (Some ip) new_vm
              else
                on_ino (inode_unlockput sb ip);;
                on_fs (logop Log.log_end_op);;
                exec_start eh older_vm new_vm argv
    end.
End load.

(** ** Running the parts *)

Definition with_vm (s : Vm.vst) (w : world) : world := World (wfs w) s (wtf w) (proc_name w).

Lemma on_vm_Ok {A} (m : M Vm.vst A) w a s : m (wvm w) = Ok (a, s) -> on_vm m w = Ok (a, with_vm s w).
Proof. intros E. unfold on_vm, lift. simpl. by rewrite E. Qed.

Lemma set_mem_set_mem m m' s : Vm.set_mem m' (Vm.set_mem m s) = Vm.set_mem m' s.
Proof. done. Qed.

Lemma space_op_trans s v pd r m m' :
  Vm.space_op s v pd r m -> Vm.space_op (Vm.set_mem m s) v pd r m' -> Vm.space_op s v pd r m'.
Proof.
  intros [A1 A2 A3] [B1 B2 B3]. rewrite Vm.mem_set_mem in *. split; [done|by eapply PgTab.evolves_trans|].
  intros v' pd' r' Hs Hap. destruct (A3 v' pd' r' Hs Hap) as (C1 & C2 & C3).
  destruct (B3 v' pd' r' C1 C2) as (D1 & D2 & D3). split_and!; [done|done|].
  intros va Hva. by rewrite D3, C3.
Qed.

Lemma space_op_refl s v pd r : Vm.space s v pd r -> Vm.space_op s v pd r (Vm.mem s).
Proof.
  intros Hs. pose proof Hs as [[P1 P2 P3 P4] _ _ _]. apply Vm.space_op_intro; [done..|]. apply PgTab.evolves_refl.
Qed.

(** ** Arguments *)

(** The bytes of the argument strings, with their zeros. *)
Definition args_size (args : list (list Z)) : Z := foldr (fun a n => Z.of_nat (length a) + 1 + n) 0 args.

(** Where the argument [k] of [args] goes, below [p]. *)
Definition arg_addr (p : Z) (args : list (list Z)) (k : nat) : Z := p - args_size (take (S k) args).

Lemma args_size_nonneg args : 0 <= args_size args.
Proof. induction args as [|a args IH]; simpl; lia. Qed.

Lemma args_size_take k args : args_size (take k args) <= args_size args.
Proof.
  revert k. induction args as [|a args IH]; intros [|k]; simpl; try lia; [pose proof (args_size_nonneg args); lia|].
  specialize (IH k). lia.
Qed.

(** The page at the top of the stack. *)
Definition TOP_PAGE : Z := Vm.TOP_USER_STACK - KMem.PG_SIZE.

Definition mapped (m : PgTab.vmem) (pd a b : Z) : Prop := forall va, a <= va < b -> is_Some (PgTab.translate m pd va).

Lemma mapped_ext m m' pd a b : PgTab.vm_ok m -> PgTab.vm_ok m' ->
  (forall va, a <= va < b -> is_Some (PgTab.uload m pd va) -> is_Some (PgTab.uload m' pd va)) ->
  mapped m pd a b -> mapped m' pd a b.
Proof. intros Hok Hok' He Hm va Hva. apply Vm.uload_mapped; [done|]. apply He, Vm.uload_mapped; auto. Qed.

Lemma in_top_page d n : TOP_PAGE <= d -> d + n <= Vm.TOP_USER_STACK -> 0 < n ->
  0 <= d /\ d + n <= KMem.KERNEL_BASE /\ d mod KMem.PG_SIZE + n <= KMem.PG_SIZE /\ u32 d = d.
Proof.
  unfold TOP_PAGE, Vm.TOP_USER_STACK, Vm.USER_TOP, KMem.KERNEL_BASE, KMem.PG_SIZE. intros H1 H2 H3.
  split_and!; [lia|lia|Z.div_mod_to_equations; lia|apply u32_small; unfold is_u32; lia].
Qed.

(** A copy into the top page. *)
Lemma copyout_top s v pd r d src : Vm.space s v pd r -> mapped (Vm.mem s) pd TOP_PAGE Vm.TOP_USER_STACK -> bytes src ->
  (0 < length src)%nat -> TOP_PAGE <= d -> d + Z.of_nat (length src) <= Vm.TOP_USER_STACK ->
  exists m, Vm.vm_copyout v d src s = Ok (true, Vm.set_mem m s) /\ Vm.space_op s v pd r m /\
    mapped m pd TOP_PAGE Vm.TOP_USER_STACK /\ Vm.holds m pd d src /\
    (forall va, 0 <= va < KMem.KERNEL_BASE -> ~ (d <= va < d + Z.of_nat (length src)) ->
       PgTab.uload m pd va = PgTab.uload (Vm.mem s) pd va).
Proof.
  intros Hs Hm Hb Hl Hd He. destruct (in_top_page d (Z.of_nat (length src)) Hd He) as (H1 & H2 & H3 & _); [lia|].
  destruct (Vm.vm_copyout_spec s v pd r d src Hs Hb H1 H2) as (m & E & Hop & Hul); [by right|intros va Hva; apply Hm; lia|].
  exists m. split_and!; [done|done| | |].
  - pose proof Hs as [[_ _ Hok _] _ _ _]. pose proof (Vm.so_space _ _ _ _ _ Hop) as [[_ _ Hok' _] _ _ _]. rewrite Vm.mem_set_mem in Hok'.
    apply (mapped_ext (Vm.mem s)); [done|done| |done]. intros va Hva Hu. rewrite Hul; [|unfold TOP_PAGE, Vm.TOP_USER_STACK, Vm.USER_TOP, KMem.KERNEL_BASE, KMem.PG_SIZE in *; lia].
    case_decide; [|done]. apply lookup_lt_is_Some_2. lia.
  - intros k x Hk. pose proof (lookup_lt_Some _ _ _ Hk). rewrite Hul by lia. rewrite decide_True by lia.
    replace (Z.to_nat (d + Z.of_nat k - d)) with k by lia. done.
  - intros va Hva Hn. by rewrite Hul, decide_False by done.
Qed.

Lemma holds_ext m m' pd va l : (forall k, (k < length l)%nat -> PgTab.uload m' pd (va + Z.of_nat k) = PgTab.uload m pd (va + Z.of_nat k)) ->
  Vm.holds m pd va l -> Vm.holds m' pd va l.
Proof. intros He H k x Hk. rewrite He; [by apply H|]. by eapply lookup_lt_Some. Qed.

Lemma copy_args_spec v pd r argv_ptr args : forall w i p, Vm.space (wvm w) v pd r ->
  mapped (Vm.mem (wvm w)) pd TOP_PAGE Vm.TOP_USER_STACK -> Forall bytes args -> 0 <= i ->
  argv_ptr + 4 * (i + Z.of_nat (length args)) <= Vm.TOP_USER_STACK -> p <= argv_ptr -> TOP_PAGE <= p - args_size args ->
  exists m, copy_args v argv_ptr i p args w = Ok (Some (p - args_size args), with_vm (Vm.set_mem m (wvm w)) w) /\
    Vm.space_op (wvm w) v pd r m /\
    (forall k a, args !! k = Some a -> Vm.holds m pd (arg_addr p args k) (a ++ [0]) /\
       Vm.holds m pd (argv_ptr + 4 * (i + Z.of_nat k)) (enc32 (arg_addr p args k))) /\
    (forall va, 0 <= va < KMem.KERNEL_BASE -> ~ (p - args_size args <= va < p) ->
       ~ (argv_ptr + 4 * i <= va < argv_ptr + 4 * (i + Z.of_nat (length args))) ->
       PgTab.uload m pd va = PgTab.uload (Vm.mem (wvm w)) pd va).
Proof.
  induction args as [|a args IH]; intros w i p Hs Hm Hb Hi Ha Hp Htop.
  { exists (Vm.mem (wvm w)). split_and!; [|by apply space_op_refl|by intros k a Hk|done]. simpl. rewrite Z.sub_0_r.
    by destruct w as [f s t n], s as [[] ? ? ? ?]. }
  apply Forall_cons in Hb as [Hba Hb]. cbn [args_size foldr length] in *. fold (args_size args) in *.
  pose proof (args_size_nonneg args) as Hn0. set (n := Z.of_nat (length a) + 1) in *.
  assert (TOP_PAGE = 0x7ffff000 /\ Vm.TOP_USER_STACK = 0x80000000 /\ KMem.KERNEL_BASE = 0x80000000) as (Et & Eu & Ek) by done.
  destruct (copyout_top (wvm w) v pd r (p - n) (a ++ [0]) Hs Hm) as (m1 & E1 & O1 & M1 & H1 & K1);
    [apply Forall_app; split; [done|repeat constructor; done]|rewrite length_app; simpl; lia|lia|rewrite length_app; simpl; lia|].
  set (w1 := with_vm (Vm.set_mem m1 (wvm w)) w). pose proof (Vm.so_space _ _ _ _ _ O1) as Hs1.
  destruct (copyout_top (wvm w1) v pd r (argv_ptr + 4 * i) (enc32 (p - n))) as (m2 & E2 & O2 & M2 & H2 & K2);
    [done|by simpl; rewrite Vm.mem_set_mem|apply bytes_enc32|simpl; lia|lia|simpl; lia|].
  simpl in K2. rewrite Vm.mem_set_mem in K2. set (w2 := with_vm (Vm.set_mem m2 (wvm w1)) w1).
  pose proof (Vm.so_space _ _ _ _ _ O2) as Hs2.
  destruct (IH w2 (i + 1) (p - n)) as (m & E & O & H & K); [done|by simpl; rewrite Vm.mem_set_mem|done|lia|lia|lia|lia|].
  simpl in K. rewrite Vm.mem_set_mem in K. exists m. split_and!.
  - cbn [copy_args]. assert (u32 (Z.of_nat (length a) + 1) = n) as -> by (apply u32_small; unfold is_u32; lia).
    assert (u32 (p - n) = p - n) as -> by (apply u32_small; unfold is_u32; lia). cbv zeta.
    rewrite (bind_Ok _ _ _ _ _ (on_vm_Ok _ _ _ _ E1)). fold w1. cbn [negb].
    assert (u32 (argv_ptr + 4 * i) = argv_ptr + 4 * i) as -> by (apply u32_small; unfold is_u32; lia).
    rewrite (bind_Ok _ _ _ _ _ (on_vm_Ok _ _ _ _ E2)). fold w2. cbn [negb].
    replace (p - (n + args_size args)) with (p - n - args_size args) by lia. exact E.
  - eapply space_op_trans; [exact O1|]. eapply space_op_trans; [exact O2|exact O].
  - assert (forall k, arg_addr p (a :: args) (S k) = arg_addr (p - n) args k) as Es.
    { intros k. unfold arg_addr. cbn [take args_size foldr]. fold (args_size (take (S k) args)). unfold n. lia. }
    intros [|k] b Hk.
    + simpl in Hk. injection Hk as <-. assert (arg_addr p (a :: args) 0 = p - n) as ->.
      { unfold arg_addr. simpl. unfold n. lia. }
      rewrite Z.add_0_r. split.
      * apply (holds_ext m1); [|done]. intros j Hj. rewrite length_app in Hj. simpl in Hj.
        rewrite K by lia. rewrite K2; [done|lia|simpl; lia].
      * apply (holds_ext m2); [|done]. intros j Hj. simpl in Hj. apply K; lia.
    + rewrite Es. destruct (H k b Hk) as [H3 H4]. split; [done|].
      by replace (argv_ptr + 4 * (i + Z.of_nat (S k))) with (argv_ptr + 4 * (i + 1 + Z.of_nat k)) by lia.
  - intros va Hva Ho1 Ho2. rewrite K by lia. rewrite K2; [|lia|simpl; lia]. apply K1; [lia|]. rewrite length_app. simpl. lia.
Qed.

Lemma setup_ustack_spec w v pd r : Vm.space (wvm w) v pd r -> 
  (forall a, Vm.BOTTOM_USER_STACK <= a < Vm.TOP_USER_STACK -> PgTab.translate (Vm.mem (wvm w)) pd a = None) ->
  (8 <= length (PgTab.free_frames (Vm.mem (wvm w))))%nat ->
  exists m, setup_ustack v w = Ok (true, with_vm (Vm.set_mem m (wvm w)) w) /\ Vm.space_op (wvm w) v pd r m /\
    (forall va, 0 <= va < KMem.KERNEL_BASE -> PgTab.uload m pd va =
       if decide (Vm.BOTTOM_USER_STACK <= va) then Some 0 else PgTab.uload (Vm.mem (wvm w)) pd va).
Proof.
  intros Hs Hun Hl.
  assert (Vm.BOTTOM_USER_STACK = 0x7fffc000 /\ Vm.TOP_USER_STACK = 0x80000000 /\ KMem.KERNEL_BASE = 0x80000000 /\
    Vm.NPAGES_USER_STACK * KMem.PG_SIZE = 0x4000) as (Eb & Et & Ek & En) by done.
  destruct (Vm.vm_valloc_spec (wvm w) v pd r Vm.BOTTOM_USER_STACK Vm.NPAGES_USER_STACK Hs) as (m1 & E1 & O1 & H1 & K1 & _);
    [done|lia|done|lia|intros a Ha; apply Hun; lia|unfold Vm.NPAGES_USER_STACK; lia|].
  set (w1 := with_vm (Vm.set_mem m1 (wvm w)) w).
  destruct (Vm.vm_setrange_spec (wvm w1) v pd r Vm.BOTTOM_USER_STACK 0 (Vm.NPAGES_USER_STACK * KMem.PG_SIZE))
    as (m & E & O & K); [exact (Vm.so_space _ _ _ _ _ O1)|lia|lia|lia| |].
  { intros va Hva. simpl. rewrite Vm.mem_set_mem. destruct (H1 va Hva) as (f & Hf & _). by eexists. }
  simpl in K. rewrite Vm.mem_set_mem in K. exists m. split_and!.
  - unfold setup_ustack. rewrite (bind_Ok _ _ _ _ _ (on_vm_Ok _ _ _ _ E1)). fold w1. cbn [negb].
    by rewrite (bind_Ok _ _ _ _ _ (on_vm_Ok _ _ _ _ E)).
  - by eapply space_op_trans.
  - intros va Hva. rewrite K by done. destruct (decide (Vm.BOTTOM_USER_STACK <= va)).
    + rewrite decide_True by lia. done.
    + rewrite decide_False by lia. apply K1; lia.
Qed.

(** What a program finds when it starts: registers and stack, for the arguments [argv]. *)
Record started (w : world) (pd : Z) (entry : Z) (argv : list (list Z)) : Prop := {
  sd_argc : tf_ebx (wtf w) = Z.of_nat (length argv);
  sd_argv : tf_ecx (wtf w) = Vm.TOP_USER_STACK - 4 * Z.of_nat (length argv);
  sd_esp : tf_user_esp (wtf w) = tf_ecx (wtf w) - args_size argv;
  sd_eip : tf_eip (wtf w) = entry;
  sd_args : forall k a, argv !! k = Some a -> let p := arg_addr (tf_ecx (wtf w)) argv k in
    Vm.holds (Vm.mem (wvm w)) pd (tf_ecx (wtf w) + 4 * Z.of_nat k) (enc32 p) /\
    Vm.holds (Vm.mem (wvm w)) pd p (a ++ [0]);
  sd_stack : forall va, Vm.BOTTOM_USER_STACK <= va < tf_user_esp (wtf w) -> PgTab.uload (Vm.mem (wvm w)) pd va = Some 0;
}.

(** The old address space [ov] and the new one [nv], while a program is loaded. *)
Record execing (w : world) (ov opd : Z) (ovm : Vm.vm) (nv npd : Z) (nvm : Vm.vm) : Prop := {
  ex_old : Vm.space (wvm w) ov opd ovm;
  ex_new : Vm.space (wvm w) nv npd nvm;
  ex_apart : PgTab.apart (Vm.mem (wvm w)) npd opd;
  ex_user : ov <> Vm.kvm;
  ex_ne : nv <> ov;
  ex_cur : Vm.cur_vm (wvm w) = ov;
  ex_alive : killed (wfs w) = false;
}.

Lemma execing_op w ov opd ovm nv npd nvm m : execing w ov opd ovm nv npd nvm -> Vm.space_op (wvm w) nv npd nvm m ->
  execing (with_vm (Vm.set_mem m (wvm w)) w) ov opd ovm nv npd nvm.
Proof.
  intros [E1 E2 E3 E4 E5 E6 E7] [O1 O2 O3]. destruct (O3 _ _ _ E1 E3) as (H1 & H2 & _).
  split; [exact H1|exact O1|simpl; rewrite Vm.mem_set_mem; exact H2|exact E4|exact E5|exact E6|exact E7].
Qed.

Lemma switch_space s v v' pd r : Vm.space s v pd r ->
  Vm.space (Vm.VSt (Vm.km s) (Vm.vframes s) (Vm.vms s) v' (Vm.intr s)) v pd r.
Proof. intros [[P1 P2 P3 P4] H2 H3 H4]. by split. Qed.

Lemma exec_start_spec w ov opd ovm nv npd nvm h argv : execing w ov opd ovm nv npd nvm ->
  (forall a, Vm.BOTTOM_USER_STACK <= a < Vm.TOP_USER_STACK -> PgTab.translate (Vm.mem (wvm w)) npd a = None) ->
  (8 <= length (PgTab.free_frames (Vm.mem (wvm w))))%nat ->
  Forall bytes argv -> 4 * Z.of_nat (length argv) + args_size argv <= KMem.PG_SIZE ->
  (exists a, head argv = Some a /\ (length a < TASK_NAME_LENGTH)%nat) ->
  exists w', exec_start h ov nv argv w = Ok (0, w') /\ wfs w' = wfs w /\ head argv = Some (proc_name w') /\
    Vm.cur_vm (wvm w') = nv /\ Vm.vms (wvm w') = delete ov (Vm.vms (wvm w)) /\ Vm.space (wvm w') nv npd nvm /\
    started w' npd (e_entry h) argv /\
    (forall va, 0 <= va < Vm.BOTTOM_USER_STACK ->
       PgTab.uload (Vm.mem (wvm w')) npd va = PgTab.uload (Vm.mem (wvm w)) npd va) /\
    (forall f, f ∈ opd :: PgTab.pd_frames (Vm.mem (wvm w)) opd 0 PgTab.USER_PDES -> f ∈ PgTab.free_frames (Vm.mem (wvm w'))).
Proof.
  intros Hx Hun Hl Hb Hfit (a & Ha & Hal).
  assert (Vm.BOTTOM_USER_STACK = 0x7fffc000 /\ Vm.TOP_USER_STACK = 0x80000000 /\ KMem.KERNEL_BASE = 0x80000000 /\
    TOP_PAGE = 0x7ffff000 /\ KMem.PG_SIZE = 0x1000) as (Eb & Et & Ek & En & Ep) by done.
  destruct (setup_ustack_spec w nv npd nvm) as (m1 & E1 & O1 & K1); [by destruct Hx|done|done|].
  set (w1 := with_vm (Vm.set_mem m1 (wvm w)) w). assert (execing w1 ov opd ovm nv npd nvm) as Hx1 by (by apply execing_op).
  set (argv_ptr := Vm.TOP_USER_STACK - 4 * Z.of_nat (length argv)). pose proof (args_size_nonneg argv) as Hn0.
  assert (PgTab.vm_ok m1) as Hok1.
  { pose proof (ex_new _ _ _ _ _ _ _ Hx1) as [[_ _ P _] _ _ _]. simpl in P. by rewrite Vm.mem_set_mem in P. }
  destruct (copy_args_spec nv npd nvm argv_ptr argv w1 0 argv_ptr) as (m2 & E2 & O2 & H2 & K2); [by destruct Hx1| |done|done|unfold argv_ptr; lia|done|unfold argv_ptr; lia|].
  { intros va Hva. simpl. rewrite Vm.mem_set_mem. apply Vm.uload_mapped; [done|]. rewrite K1 by lia. rewrite decide_True by lia. by eexists. }
  simpl in K2. rewrite Vm.mem_set_mem in K2. set (esp := argv_ptr - args_size argv) in *.
  set (w2 := with_vm (Vm.set_mem m2 (wvm w1)) w1). assert (execing w2 ov opd ovm nv npd nvm) as Hx2 by (by apply execing_op).
  set (tf := set_args (Z.of_nat (length argv)) argv_ptr esp (wtf w)).
  set (s3 := Vm.VSt (Vm.km (wvm w2)) (Vm.vframes (wvm w2)) (Vm.vms (wvm w2)) nv (Vm.intr (wvm w2))).
  destruct Hx2 as [X1 X2 X3 X4 X5 X6 X7].
  destruct (Vm.vm_free_spec s3 ov opd ovm) as (s4 & E4 & V4 & C4 & _ & F4 & S4); [by apply switch_space|done|done|].
  destruct (S4 nv npd nvm) as (Hs4 & U4); [by apply switch_space|done|done|].
  assert (Vm.mem s3 = m2) as Em by (by destruct m2).
  assert (PgTab.pd_frames m2 opd 0 PgTab.USER_PDES = PgTab.pd_frames (Vm.mem (wvm w)) opd 0 PgTab.USER_PDES) as Epf.
  { destruct Hx as [Y1 Y2 Y3 _ _ _ _]. pose proof (space_op_trans _ _ _ _ _ _ O1 O2) as O.
    pose proof Y1 as [[_ _ _ A] _ _ _]. by destruct (PgTab.evolves_apart npd opd _ _ A Y3 (Vm.so_evolves _ _ _ _ _ O)) as (_ & _ & Z & _). }
  rewrite Em in *.
  exists (World (wfs w) s4 (set_eip (e_entry h) tf) a).
  split_and!; try done.
  - unfold exec_start. rewrite (bind_Ok _ _ _ w w) by done. rewrite (bind_Ok _ _ _ _ _ E1). fold w1. cbn [negb].
    assert (copy_argv_into_stack nv argv w1 = Ok (true, World (wfs w) (wvm w2) tf (proc_name w))) as E3.
    { unfold copy_argv_into_stack. cbv zeta. assert (u32 (Vm.TOP_USER_STACK - 4 * Z.of_nat (length argv)) = argv_ptr) as ->.
      { apply u32_small. unfold is_u32. lia. }
      by rewrite (bind_Ok _ _ _ _ _ E2). }
    rewrite (bind_Ok _ _ _ _ _ E3). cbn [negb].
    assert (set_proc_name argv (World (wfs w) (wvm w2) tf (proc_name w)) = Ok (tt, World (wfs w) (wvm w2) tf a)) as E5.
    { destruct argv as [|x l]; [done|]. injection Ha as ->. unfold set_proc_name. by rewrite (proj2 (Nat.ltb_lt _ _)). }
    rewrite (bind_Ok _ _ _ _ _ E5). rewrite (bind_Ok _ _ _ tt (World (wfs w) s3 tf a)) by done.
    change (killed (wfs w2)) with (killed (wfs w)) in X7. rewrite X7.
    rewrite (bind_Ok _ _ _ _ _ (on_vm_Ok _ (World (wfs w) s3 tf a) _ _ E4)). done.
  - split; simpl; try done.
    + intros k b Hk. destruct (H2 k b Hk) as [H3 H4]. rewrite Z.add_0_l in H4.
      assert (exists y, argv !! k = Some y) as [y Hy] by eauto. apply lookup_lt_Some in Hk as Hlt.
      pose proof (args_size_take (S k) argv) as Ht. assert (args_size (take (S k) argv) >= Z.of_nat (length b) + 1) as Hge.
      { clear - Hk. revert k Hk. induction argv as [|x l IH]; intros [|k] Hk; simpl in Hk; [done|done| |].
        - injection Hk as ->. simpl. lia.
        - specialize (IH k Hk). cbn [take args_size foldr] in *. fold (args_size (take (S k) l)) in *. lia. }
      unfold arg_addr in *. split; (eapply holds_ext; [|eassumption]); intros j Hj; apply U4;
        rewrite ?length_enc32, ?length_app in Hj; simpl in Hj; unfold argv_ptr; lia.
    + intros va Hva. rewrite U4 by lia. rewrite K2 by (unfold esp, argv_ptr in *; lia). rewrite K1 by (unfold esp, argv_ptr in *; lia).
      rewrite decide_True by lia. done.
  - intros va Hva. simpl. rewrite U4 by lia. rewrite K2 by (unfold argv_ptr; lia). rewrite K1 by lia. by rewrite decide_False by lia.
  - intros f Hf. rewrite F4. rewrite <- Epf in Hf. rewrite app_comm_cons. apply elem_of_app. by left.
Qed.

(** ** Loading the segments *)

(** [w] with the file system in the state [f]: reading only changes which blocks are cached. *)
Definition with_il (f : ist) (w : world) : world := World (set_part f (wfs w)) (wvm w) (wtf w) (proc_name w).

Lemma on_ino_Ok {A} (m : M ist A) w a f : m (il (wfs w)) = Ok (a, f) -> on_ino m w = Ok (a, with_il f w).
Proof. intros E. unfold on_ino, on_fs, ino, lift. simpl. by rewrite E. Qed.

Lemma on_mem_Ok {A} (m : M PgTab.vmem A) w a m' : m (Vm.mem (wvm w)) = Ok (a, m') ->
  on_mem m w = Ok (a, with_vm (Vm.set_mem m' (wvm w)) w).
Proof. intros E. unfold on_mem. apply on_vm_Ok. by apply Vm.lift_mem. Qed.

(** The program file, open and locked. *)
Record prog_file (s : ist) (ip : Z) (i : inode) : Prop := {
  pf_read : read_pre ip i (dsize (disk_inode i)) s;
  pf_type : type (disk_inode i) <> INODE_DEVICE;
  pf_size : dsize (disk_inode i) < 2 ^ 31;
}.

(** The byte [k] of the file. *)
Definition file_byte (s : ist) (i : inode) (k : Z) : Z := fbyte (view (bs (fl s))) (disk_inode i) k.

Lemma prog_file_seen s ip i f : prog_file s ip i -> seen s f ->
  prog_file f ip i /\ forall k, file_byte f i k = file_byte s i k.
Proof.
  intros [P1 P2 P3] Hf. split; [split; [by eapply read_pre_seen|done|done]|]. intros k. by apply fbyte_seen.
Qed.

(** [l] is the file's bytes from [off] on. *)
Lemma read_file `{Devices} sb w ip i off n : prog_file (il (wfs w)) ip i -> 0 <= off -> 0 <= n -> off + n <= dsize (disk_inode i) ->
  exists f, on_ino (inode_read sb ip off n) w = Ok ((n, frange (view (bs (fl (il (wfs w))))) (disk_inode i) off n), with_il f w) /\
    seen (il (wfs w)) f.
Proof.
  intros [P1 P2 P3] Ho Hn He. destruct (inode_read_spec sb ip i (il (wfs w)) off n P1 P2) as (f & E & Hs); [lia|lia|lia|].
  rewrite Z.min_l in E by lia. exists f. split; [by apply on_ino_Ok|done].
Qed.

Lemma with_il_vm f s w : with_vm s (with_il f w) = with_il f (with_vm s w).
Proof. done. Qed.

Lemma bytes_frange s ip i off n : prog_file s ip i -> bytes (frange (view (bs (fl s))) (disk_inode i) off n).
Proof.
  intros [P1 _ _]. apply Forall_forall. intros x (j & -> & _)%list_elem_of_fmap. unfold fbyte.
  assert (forall l k, bytes l -> is_u8 (l !!! k)) as Hl.
  { intros l k Hl. rewrite list_lookup_total_alt. destruct (l !! k) as [y|] eqn:E; [|done].
    simpl. exact (Forall_lookup_1 _ _ _ _ Hl E). }
  apply Hl. unfold fblock. destruct (_ =? 0); [by apply zero_block_ok|]. by apply (rp_ok _ _ _ _ P1).
Qed.

(** A page-wise copy of [sz - don] bytes of the file to [dst], all of whose pages are mapped. *)
Lemma load_loop_spec `{Devices} sb fuel v pd r ip i : forall w dst off don sz, Vm.space (wvm w) v pd r -> prog_file (il (wfs w)) ip i ->
  (don < sz -> dst mod KMem.PG_SIZE = 0) -> 0 <= dst -> dst + (sz - don) <= KMem.KERNEL_BASE -> 0 <= off -> don <= sz ->
  off + (sz - don) <= dsize (disk_inode i) -> (1 <= fuel)%nat -> (don < sz -> sz - don <= KMem.PG_SIZE * (Z.of_nat fuel - 1)) ->
  mapped (Vm.mem (wvm w)) pd dst (dst + (sz - don)) ->
  exists f m, load_loop sb fuel (KMem.KP2V pd) dst ip off don sz w = Ok (true, with_il f (with_vm (Vm.set_mem m (wvm w)) w)) /\
    seen (il (wfs w)) f /\ Vm.space_op (wvm w) v pd r m /\ PgTab.free_frames m = PgTab.free_frames (Vm.mem (wvm w)) /\
    (forall va, 0 <= va < KMem.KERNEL_BASE -> PgTab.uload m pd va =
       if decide (dst <= va < dst + (sz - don)) then Some (file_byte (il (wfs w)) i (off + (va - dst))) else PgTab.uload (Vm.mem (wvm w)) pd va).
Proof.
  induction fuel as [|fuel IH]; intros w dst off don sz Hs Hf Hal Hd Hend Hoff Hdon Hsz Hf1 Hfuel Hm; [lia|].
  cbn [load_loop]. destruct (Z.ltb_spec don sz) as [Hlt|Hge].
  2:{ exists (il (wfs w)), (Vm.mem (wvm w)). split_and!; [|apply seen_refl|by apply space_op_refl|done|].
      - by destruct w as [[] [[] ? ? ? ?] ? ?].
      - intros va Hva. by rewrite decide_False by lia. }
  specialize (Hfuel Hlt). specialize (Hal Hlt). pose proof Hs as [[P1 P2 P3 P4] _ _ _]. destruct (Hm dst) as [g Eg]; [lia|].
  cbv zeta. set (per := if sz - don <? KMem.PG_SIZE then sz - don else KMem.PG_SIZE).
  assert (0 < per /\ per <= sz - don /\ per <= KMem.PG_SIZE /\ (per = sz - don \/ per = KMem.PG_SIZE)) as (Hp0 & Hp1 & Hp2 & Hp3).
  { unfold per. destruct (Z.ltb_spec (sz - don) KMem.PG_SIZE); unfold KMem.PG_SIZE in *; lia. }
  assert (0 <= dst < KMem.KERNEL_BASE) as Hu by lia.
  assert (on_mem (PgTab.page_frame_ptr (KMem.KP2V pd) dst) w = Ok (KMem.KP2V g, w)) as E0.
  { rewrite (on_mem_Ok _ w _ _ (PgTab.page_frame_ptr_Ok _ pd dst P3 P4 Hu)), Eg. by destruct w as [? [[] ? ? ? ?] ? ?]. }
  rewrite (bind_Ok _ _ _ _ _ E0).
  destruct (PgTab.a_pool _ _ P4 g) as [Hgp _]; [right; by eapply PgTab.translate_elem|].
  rewrite (proj2 (Z.eqb_neq (KMem.KP2V g) 0)).
  2:{ destruct Hgp. unfold KMem.KP2V. rewrite u32_small; unfold is_u32, KMem.KERNEL_BASE, KMem.KERNEL_SPACE_SIZE, KMem.PHY_MEMORY_TOP in *; lia. }
  destruct (read_file sb w ip i off per Hf) as (f1 & E1 & S1); [lia|lia|lia|].
  set (d := frange _ _ off per) in E1. assert (length d = Z.to_nat per) as Hdl by apply frange_length.
  assert (bytes d) as Hdb by (by apply (bytes_frange (il (wfs w)) ip)).
  set (c := splice 0 d (PgTab.frame (Vm.mem (wvm w)) g)). set (m1 := PgTab.with_frame (Vm.mem (wvm w)) g c).
  destruct (PgTab.v_frames _ P3 g) as [Hgl Hgb].
  assert (0 + length d <= length (PgTab.frame (Vm.mem (wvm w)) g))%nat as Hfit by (rewrite Hdl, Hgl; unfold KMem.PG_SIZE in *; lia).
  assert (PgTab.page_ok c) as Hc by (split; [unfold c; by rewrite length_splice|by apply bytes_splice]).
  destruct (PgTab.set_data_spec _ pd dst g c P3 P4 Hu Eg Hc) as (Hok1 & Has1 & Htr & Hul & Hev). fold m1 in Hok1, Has1, Htr, Hul, Hev.
  set (w1 := with_il f1 w).
  assert (on_mem (Vm.write_bytes (KMem.KP2V g) d) w1 = Ok (tt, with_vm (Vm.set_mem m1 (wvm w)) w1)) as E2.
  { apply (on_mem_Ok _ w1). pose proof (Vm.write_bytes_in (Vm.mem (wvm w)) g 0 d (PgTab.pool_in_mem _ Hgp)) as E. rewrite Z.add_0_r in E.
    replace (u32 (KMem.KP2V g)) with (KMem.KP2V g) in E by (unfold KMem.KP2V; symmetry; apply u32_small, u32_range). apply E; [done|]. rewrite Hdl. unfold KMem.PG_SIZE in *. lia. }
  set (w2 := with_vm (Vm.set_mem m1 (wvm w)) w1) in *.
  assert (read_to_page sb ip (KMem.KP2V g) off per w = Ok (per, w2)) as E3.
  { unfold read_to_page. rewrite (bind_Ok _ _ _ _ _ E1). cbn [fst snd]. fold w1. by rewrite (bind_Ok _ _ _ _ _ E2). }
  rewrite (bind_Ok _ _ _ _ _ E3). rewrite (proj2 (Z.ltb_ge per 0)) by lia.
  pose proof (pf_size _ _ _ Hf) as Hsize.
  assert (u32 (dst + per) = dst + per) as -> by (apply u32_small; unfold is_u32, KMem.KERNEL_BASE in *; lia).
  assert (u32 (off + per) = off + per) as -> by (apply u32_small; unfold is_u32 in *; lia).
  assert (Vm.space_op (wvm w) v pd r m1) as O1 by (by apply Vm.space_op_intro).
  destruct (prog_file_seen (il (wfs w)) ip i f1 Hf S1) as [Hf2 Hb2].
  assert (don + per < sz -> per = KMem.PG_SIZE) as Hnext by lia.
  destruct (IH w2 (dst + per) (off + per) (don + per) sz) as (f & m & E & S & O & Fr & K);
    [exact (Vm.so_space _ _ _ _ _ O1)|exact Hf2| |lia|lia|lia|lia|lia|unfold KMem.PG_SIZE in *; lia| | |].
  - intros H'. rewrite (Hnext H'). rewrite <- Hal. unfold KMem.PG_SIZE. Z.div_mod_to_equations. lia.
  - intros H'. rewrite (Hnext H') in *. unfold KMem.PG_SIZE in *. lia.
  - intros va Hva. simpl. rewrite Vm.mem_set_mem. rewrite Htr by lia. apply Hm. lia.
  - exists f, m. split_and!.
    + rewrite E. done.
    + by eapply seen_trans.
    + by eapply space_op_trans.
    + rewrite Fr. simpl. by rewrite Vm.mem_set_mem.
    + intros va Hva. rewrite K by done. simpl. rewrite Vm.mem_set_mem. rewrite Hul by done.
      assert (KMem.page_of va = KMem.page_of dst <-> dst <= va < dst + KMem.PG_SIZE) as Hpage.
      { unfold KMem.page_of, KMem.PG_SIZE in *. Z.div_mod_to_equations. lia. }
      assert (dst <= va < dst + KMem.PG_SIZE -> va mod KMem.PG_SIZE = va - dst) as Hmod.
      { unfold KMem.PG_SIZE in *. Z.div_mod_to_equations. lia. }
      destruct (decide (dst + per <= va < dst + per + (sz - (don + per)))).
      { rewrite decide_True by lia. rewrite Hb2. do 2 f_equal. lia. }
      destruct (decide (KMem.page_of va = KMem.page_of dst)) as [Hp|Hp].
      * apply Hpage in Hp as Hr. rewrite (Hmod Hr). unfold c. rewrite splice_lookup by done. rewrite Hdl.
        destruct (decide (dst <= va < dst + (sz - don))).
        -- rewrite decide_True by lia. unfold d. rewrite frange_lookup by lia. unfold file_byte. do 2 f_equal. lia.
        -- rewrite decide_False by lia. unfold PgTab.uload. rewrite (PgTab.translate_page _ pd va dst), Eg by done. simpl. by rewrite (Hmod Hr).
      * rewrite decide_False; [done|]. apply not_iff_compat in Hpage. lia.
Qed.

Lemma vm_load_spec `{Devices} sb w v pd r ip i dst off sz : Vm.space (wvm w) v pd r -> Vm.cur_vm (wvm w) <> v ->
  prog_file (il (wfs w)) ip i -> dst mod KMem.PG_SIZE = 0 -> 0 <= dst -> dst + sz <= KMem.KERNEL_BASE -> 0 <= off -> 0 <= sz ->
  off + sz <= dsize (disk_inode i) -> mapped (Vm.mem (wvm w)) pd dst (dst + sz) ->
  exists f m, vm_load sb v dst ip off sz w = Ok (true, with_il f (with_vm (Vm.set_mem m (wvm w)) w)) /\
    seen (il (wfs w)) f /\ Vm.space_op (wvm w) v pd r m /\ PgTab.free_frames m = PgTab.free_frames (Vm.mem (wvm w)) /\
    (forall va, 0 <= va < KMem.KERNEL_BASE -> PgTab.uload m pd va =
       if decide (dst <= va < dst + sz) then Some (file_byte (il (wfs w)) i (off + (va - dst))) else PgTab.uload (Vm.mem (wvm w)) pd va).
Proof.
  intros Hs Hcur Hf Hal Hd Hend Hoff Hsz He Hm. pose proof Hs as [[P1 P2 _ _] _ _ _].
  destruct (load_loop_spec sb (S (S (Z.to_nat (sz / KMem.PG_SIZE)))) v pd r ip i w dst off 0 sz) as (f & m & E & S & O & Fr & K);
    rewrite ?Z.sub_0_r in *; try done.
  - lia.
  - intros _. unfold KMem.PG_SIZE. Z.div_mod_to_equations. lia.
  - exists f, m. split_and!; try done. unfold vm_load. rewrite (bind_Ok _ _ _ w w) by done.
    rewrite (bind_Ok _ _ _ r w).
    + by rewrite (proj2 (Z.eqb_neq _ _)), P2 by done.
    + rewrite (on_vm_Ok _ _ _ _ (Vm.get_vm_Ok _ _ _ P1)). by destruct w.
Qed.

(** *** Program headers *)

(** The pages of a segment. *)
Definition seg_pages (h : proghdr) : Z := (p_memsz h + KMem.PG_SIZE - 1) / KMem.PG_SIZE.

Definition in_seg (h : proghdr) (va : Z) : Prop := p_vaddr h <= va < p_vaddr h + seg_pages h * KMem.PG_SIZE.

(** A segment of a proper program for a file of [size] bytes. *)
Record seg_ok (size : Z) (h : proghdr) : Prop := {
  sg_words : is_u32 (p_vaddr h) /\ is_u32 (p_memsz h) /\ is_u32 (p_filesz h) /\ is_u32 (p_offset h);
  sg_verify : p_memsz h <> 0 -> verify_proghdr h = true;
  sg_file : p_memsz h <> 0 -> p_offset h + p_filesz h <= size;
}.

(** [verify_proghdr] means what it should, in spite of the 32-bit sums. *)
Lemma verify_proghdr_spec h : is_u32 (p_vaddr h) -> is_u32 (p_memsz h) ->
  verify_proghdr h = true <-> p_vaddr h mod KMem.PG_SIZE = 0 /\ p_filesz h <= p_memsz h /\
    USER_PROG_BASE <= p_vaddr h /\ p_vaddr h + p_memsz h <= USER_PROG_TOP.
Proof.
  intros Hv Hm. unfold verify_proghdr. assert (USER_PROG_TOP < 2 ^ 32) as Htop by done.
  assert (u32 (p_vaddr h + p_memsz h) = p_vaddr h + p_memsz h \/
    u32 (p_vaddr h + p_memsz h) = p_vaddr h + p_memsz h - 2 ^ 32 /\ 2 ^ 32 <= p_vaddr h + p_memsz h) as Hw by ulia.
  unfold is_u32 in *.
  destruct (Z.ltb_spec (u32 (p_vaddr h + p_memsz h)) (p_vaddr h)), (Z.ltb_spec (p_memsz h) (p_filesz h)); cbn [orb];
    try (split; [done|lia]).
  destruct (Z.eqb_spec (p_vaddr h mod KMem.PG_SIZE) 0); cbn [negb]; [|split; [done|lia]].
  rewrite andb_true_iff, !Z.leb_le. lia.
Qed.

Lemma seg_range size h : seg_ok size h -> p_memsz h <> 0 ->
  p_vaddr h mod KMem.PG_SIZE = 0 /\ USER_PROG_BASE <= p_vaddr h /\ 0 < seg_pages h /\
  0 <= p_filesz h <= p_memsz h /\ p_memsz h <= seg_pages h * KMem.PG_SIZE /\
  p_vaddr h + seg_pages h * KMem.PG_SIZE <= USER_PROG_TOP /\ ROUND_UP (p_memsz h) KMem.PG_SIZE = seg_pages h.
Proof.
  intros [(S1 & S2 & S3 & S4) V F] H0. apply verify_proghdr_spec in V as (V1 & V2 & V3 & V4); [|done..].
  assert (USER_PROG_TOP mod KMem.PG_SIZE = 0 /\ USER_PROG_TOP = 0x8048000 /\ USER_PROG_BASE = 0x4048000) as (T1 & T2 & T3) by done.
  unfold ROUND_UP, seg_pages, is_u32, KMem.PG_SIZE in *.
  rewrite (u32_small (p_memsz h + 4096)), u32_small by (unfold is_u32; lia).
  split_and!; try lia; Z.div_mod_to_equations; lia.
Qed.

(** The headers of a program: where they are and that the segments do not share a page. *)
Definition headers_at (s : ist) (i : inode) (off : Z) (hs : list proghdr) : Prop :=
  forall k h, hs !! k = Some h ->
    read_proghdr (frange (view (bs (fl s))) (disk_inode i) (off + SIZEOF_PROGHDR * Z.of_nat k) SIZEOF_PROGHDR) = h.

Fixpoint segs_apart (hs : list proghdr) : Prop :=
  match hs with
  | [] => True
  | h :: hs => (forall h' va, h' ∈ hs -> in_seg h va -> in_seg h' va -> False) /\ segs_apart hs
  end.

Definition total_pages (hs : list proghdr) : Z := foldr (fun h n => seg_pages h + n) 0 hs.

Lemma seg_pages_nonneg h : 0 <= p_memsz h -> 0 <= seg_pages h.
Proof. unfold seg_pages, KMem.PG_SIZE. intros. Z.div_mod_to_equations. lia. Qed.

(** What is in a loaded segment: the bytes of the file, and behind them whatever the free
    frames of [m0] held. *)
Record loaded (s : ist) (i : inode) (m0 m : PgTab.vmem) (pd : Z) (h : proghdr) : Prop := {
  ld_file : forall k, 0 <= k < p_filesz h -> PgTab.uload m pd (p_vaddr h + k) = Some (file_byte s i (p_offset h + k));
  ld_rest : forall va, in_seg h va -> p_vaddr h + p_filesz h <= va ->
    exists f, f ∈ PgTab.free_frames m0 /\ PgTab.uload m pd va = PgTab.frame m0 f !! Z.to_nat (va mod KMem.PG_SIZE);
}.

(** A frame that is still free holds what it held. *)
Lemma evolves_free pd s s' f : PgTab.vm_ok s -> PgTab.as_ok s pd -> PgTab.evolves pd s s' -> f ∈ PgTab.free_frames s' ->
  f ∈ PgTab.free_frames s /\ PgTab.frame s' f = PgTab.frame s f.
Proof.
  intros Hok Has (used & Hf & Hp & Hk) Hin.
  assert (f ∈ PgTab.free_frames s) as Hin' by (rewrite Hf; apply elem_of_app; by right). split; [done|].
  apply Hk; [intros H; by apply (PgTab.a_pool _ _ Has) in H as [_ H]|].
  pose proof (PgTab.free_frames_nodup s Hok) as Hnd. rewrite Hf in Hnd. apply NoDup_app in Hnd as (_ & Hnd & _).
  intros Hu. exact (Hnd f Hu Hin).
Qed.

Section segments.
Context `{Devices} (sb : superblock) (v pd : Z) (r : Vm.vm) (ip : Z) (i : inode).

(** Allocating and loading one segment. *)
Lemma load_segment_spec w h : Vm.space (wvm w) v pd r -> Vm.cur_vm (wvm w) <> v -> prog_file (il (wfs w)) ip i ->
  seg_ok (dsize (disk_inode i)) h -> p_memsz h <> 0 ->
  (forall va, in_seg h va -> PgTab.translate (Vm.mem (wvm w)) pd va = None) ->
  2 * seg_pages h <= Z.of_nat (length (PgTab.free_frames (Vm.mem (wvm w)))) ->
  exists f m, seen (il (wfs w)) f /\ Vm.space_op (wvm w) v pd r m /\
    loaded (il (wfs w)) i (Vm.mem (wvm w)) m pd h /\
    (forall va, 0 <= va < KMem.KERNEL_BASE -> ~ in_seg h va -> PgTab.uload m pd va = PgTab.uload (Vm.mem (wvm w)) pd va) /\
    Z.of_nat (length (PgTab.free_frames (Vm.mem (wvm w)))) <= 2 * seg_pages h + Z.of_nat (length (PgTab.free_frames m)) /\
    forall k : M world bool,
      (b ← on_vm (Vm.vm_valloc v (p_vaddr h) (ROUND_UP (p_memsz h) KMem.PG_SIZE));
       if negb b then mret false
       else
         b ← vm_load sb v (p_vaddr h) ip (p_offset h) (p_filesz h);
         if negb b then mret false else k) w = k (with_il f (with_vm (Vm.set_mem m (wvm w)) w)).
Proof.
  intros Hs Hcur Hf Hsg H0 Hun Hl. destruct (seg_range _ _ Hsg H0) as (R1 & R2 & R3 & R4 & R5 & R6 & R7).
  assert (USER_PROG_TOP = 0x8048000 /\ USER_PROG_BASE = 0x4048000 /\ KMem.KERNEL_BASE = 0x80000000) as (T1 & T2 & T3) by done.
  pose proof (sg_words _ _ Hsg) as (_ & _ & _ & Hpo). unfold is_u32 in Hpo. pose proof (sg_file _ _ Hsg H0) as Hfile.
  destruct (Vm.vm_valloc_spec (wvm w) v pd r (p_vaddr h) (seg_pages h) Hs) as (m1 & E1 & O1 & A1 & K1 & L1); [done|lia|lia|lia|done|lia|].
  set (w1 := with_vm (Vm.set_mem m1 (wvm w)) w).
  destruct (vm_load_spec sb w1 v pd r ip i (p_vaddr h) (p_offset h) (p_filesz h)) as (f & m & E2 & S2 & O2 & F2 & K2);
    [exact (Vm.so_space _ _ _ _ _ O1)|done|done|done|lia|lia|lia|lia|lia| |].
  { intros va Hva. simpl. rewrite Vm.mem_set_mem. destruct (A1 va) as (g & Hg & _); [lia|]. by eexists. }
  simpl in K2, F2. rewrite Vm.mem_set_mem in K2, F2. exists f, m. split_and!.
  - done.
  - by eapply space_op_trans.
  - split.
    + intros k Hk. rewrite K2 by lia. rewrite decide_True by lia. do 2 f_equal. lia.
    + intros va Hva Hge. unfold in_seg in Hva. destruct (A1 va) as (g & Hg & Hg' & Hc); [lia|]. exists g. split; [done|].
      rewrite K2 by lia. rewrite decide_False by lia. unfold PgTab.uload. rewrite Hg. simpl. by rewrite Hc.
  - intros va Hva Hn. unfold in_seg in Hn. rewrite K2 by done. rewrite decide_False by lia. by apply K1.
  - rewrite F2. lia.
  - intros k. rewrite R7, (bind_Ok _ _ _ _ _ (on_vm_Ok _ _ _ _ E1)). fold w1. cbn [negb].
    rewrite (bind_Ok _ _ _ _ _ E2). done.
Qed.

Lemma load_hdrs_spec hs : forall w off, Vm.space (wvm w) v pd r -> Vm.cur_vm (wvm w) <> v -> prog_file (il (wfs w)) ip i ->
  0 <= off -> off + SIZEOF_PROGHDR * Z.of_nat (length hs) <= dsize (disk_inode i) -> headers_at (il (wfs w)) i off hs ->
  Forall (seg_ok (dsize (disk_inode i))) hs -> segs_apart hs ->
  (forall h va, h ∈ hs -> in_seg h va -> PgTab.translate (Vm.mem (wvm w)) pd va = None) ->
  2 * total_pages hs <= Z.of_nat (length (PgTab.free_frames (Vm.mem (wvm w)))) ->
  exists f m, load_loop_hdrs sb (length hs) v ip off w = Ok (true, with_il f (with_vm (Vm.set_mem m (wvm w)) w)) /\
    seen (il (wfs w)) f /\ Vm.space_op (wvm w) v pd r m /\
    (forall h, h ∈ hs -> p_memsz h <> 0 -> loaded (il (wfs w)) i (Vm.mem (wvm w)) m pd h) /\
    (forall va, 0 <= va < KMem.KERNEL_BASE -> (forall h, h ∈ hs -> ~ in_seg h va) ->
       PgTab.uload m pd va = PgTab.uload (Vm.mem (wvm w)) pd va) /\
    Z.of_nat (length (PgTab.free_frames (Vm.mem (wvm w)))) <= 2 * total_pages hs + Z.of_nat (length (PgTab.free_frames m)).
Proof.
  induction hs as [|h hs IH]; intros w off Hs Hcur Hf Hoff Hend Hat Hsg Hap Hun Hl.
  { exists (il (wfs w)), (Vm.mem (wvm w)). split_and!; [by destruct w as [[] [[] ? ? ? ?] ? ?]|apply seen_refl|by apply space_op_refl| |done|simpl; lia].
    intros h Hin. by apply elem_of_nil in Hin. }
  apply Forall_cons in Hsg as [Hsg Hsgs]. destruct Hap as [Hap Haps]. cbn [length total_pages foldr] in *. fold (total_pages hs) in *.
  assert (0 <= seg_pages h) as Hp0 by (apply seg_pages_nonneg; pose proof (sg_words _ _ Hsg); unfold is_u32 in *; lia).
  assert (0 <= total_pages hs) as Ht0.
  { clear - Hsgs. induction Hsgs as [|h' hs' Hh _ IHs]; [done|]. simpl. pose proof (sg_words _ _ Hh) as (_ & Hm & _).
    pose proof (seg_pages_nonneg h'). unfold is_u32 in *. lia. }
  destruct (read_file sb w ip i off SIZEOF_PROGHDR Hf) as (f1 & E1 & S1); [done|done|unfold SIZEOF_PROGHDR in *; lia|].
  pose proof (Hat 0%nat h eq_refl) as Hh. rewrite Z.mul_0_r, Z.add_0_r in Hh.
  destruct (prog_file_seen _ ip i f1 Hf S1) as [Hf1 Hb1]. pose proof (pf_size _ _ _ Hf) as Hsize.
  assert (u32 (off + SIZEOF_PROGHDR) = off + SIZEOF_PROGHDR) as Eo by (apply u32_small; unfold is_u32, SIZEOF_PROGHDR in *; lia).
  assert (forall f, seen (il (wfs w)) f -> headers_at f i (off + SIZEOF_PROGHDR) hs) as Hat'.
  { intros f Sf k h' Hk. rewrite <- (Hat (S k) h' Hk). f_equal.
    replace (off + SIZEOF_PROGHDR * Z.of_nat (S k)) with (off + SIZEOF_PROGHDR + SIZEOF_PROGHDR * Z.of_nat k) by lia.
    apply frange_ext. intros j _. by apply fbyte_seen. }
  cbn [load_loop_hdrs]. rewrite (bind_Ok _ _ _ _ _ E1). cbn [fst snd]. rewrite Z.eqb_refl, Hh, Eo. cbn [negb]. cbv zeta.
  destruct (Z.eqb_spec (p_memsz h) 0) as [H0|H0].
  - destruct (IH (with_il f1 w) (off + SIZEOF_PROGHDR)) as (f & m & E & S & O & L & K & Fr);
      [done|done|done|unfold SIZEOF_PROGHDR in *; lia|lia|by apply Hat'|done|done|intros h' va Hin; apply Hun; by right|simpl; lia|].
    assert (forall va, ~ in_seg h va) as Hno.
    { intros va. unfold in_seg, seg_pages. rewrite H0. change ((0 + KMem.PG_SIZE - 1) / KMem.PG_SIZE) with 0. lia. }
    exists f, m. split_and!; [exact E|by eapply seen_trans|exact O| | |].
    + intros h' [->|Hin]%elem_of_cons Hne; [done|]. destruct (L h' Hin Hne) as [L1 L2]. split; [|done].
      intros k Hk. rewrite L1 by done. f_equal. apply Hb1.
    + intros va Hva Hn. apply K; [done|]. intros h' Hin. apply Hn. by right.
    + simpl in Fr. lia.
  - rewrite (sg_verify _ _ Hsg H0). cbn [negb].
    destruct (load_segment_spec (with_il f1 w) h Hs Hcur Hf1 Hsg H0) as (f2 & m2 & S2 & O2 & [L2 G2] & K2 & N2 & Erun);
      [intros va Hva; apply (Hun h va); [by left|done]|simpl; lia|].
    rewrite Erun. set (w2 := with_il f2 (with_vm (Vm.set_mem m2 (wvm w)) w)). simpl in K2, N2, G2, O2.
    pose proof (Vm.so_space _ _ _ _ _ O2) as Hs2. pose proof Hs as [[_ _ P3 P4] _ _ _]. pose proof Hs2 as [[_ _ P5 _] _ _ _].
    rewrite Vm.mem_set_mem in P5. pose proof (seen_trans _ _ _ S1 S2) as S12. destruct (prog_file_seen _ ip i f2 Hf S12) as [Hf2 Hb2].
    assert (forall va, in_seg h va -> 0 <= va < KMem.KERNEL_BASE) as Hrange.
    { intros va Hva. destruct (seg_range _ _ Hsg H0) as (_ & R2 & _ & _ & _ & R6 & _). unfold in_seg in Hva.
      change USER_PROG_BASE with 0x4048000 in *. change USER_PROG_TOP with 0x8048000 in *. unfold KMem.KERNEL_BASE. lia. }
    assert (forall h' va, h' ∈ hs -> in_seg h' va -> 0 <= va < KMem.KERNEL_BASE) as Hrange'.
    { intros h' va Hin Hva. rewrite Forall_forall in Hsgs. specialize (Hsgs h' Hin).
      destruct (Z.eq_dec (p_memsz h') 0) as [Hz|Hz].
      - unfold in_seg, seg_pages in Hva. rewrite Hz in Hva. change ((0 + KMem.PG_SIZE - 1) / KMem.PG_SIZE) with 0 in Hva. lia.
      - destruct (seg_range _ _ Hsgs Hz) as (_ & R2 & _ & _ & _ & R6 & _). unfold in_seg in Hva.
        change USER_PROG_BASE with 0x4048000 in *. change USER_PROG_TOP with 0x8048000 in *. unfold KMem.KERNEL_BASE. lia. }
    destruct (IH w2 (off + SIZEOF_PROGHDR)) as (f & m & E & S & O & L & K & Fr);
      [done|done|done|unfold SIZEOF_PROGHDR in *; lia|lia|by apply Hat'|done|done| |simpl; rewrite Vm.mem_set_mem; lia|].
    { intros h' va Hin Hva. simpl. rewrite Vm.mem_set_mem. pose proof (Hrange' h' va Hin Hva) as Hr.
      assert (~ is_Some (PgTab.translate m2 pd va)) as Hn; [|destruct (PgTab.translate m2 pd va); [exfalso; eauto|done]].
      rewrite <- (Vm.uload_mapped m2) by done. rewrite K2; [|done|intros Hva'; exact (Hap h' va Hin Hva' Hva)].
      rewrite Vm.uload_mapped by done. rewrite (Hun h' va); [by intros [? ?]|by right|done]. }
    simpl in K, Fr, L. rewrite Vm.mem_set_mem in K, Fr, L.
    assert (forall va, in_seg h va -> PgTab.uload m pd va = PgTab.uload m2 pd va) as Hkeep.
    { intros va Hva. apply K; [by apply Hrange|]. intros h' Hin Hva'. exact (Hap h' va Hin Hva Hva'). }
    destruct (seg_range _ _ Hsg H0) as (_ & _ & _ & R4 & R5 & _ & _).
    exists f, m. split_and!; [exact E|by eapply seen_trans|by eapply space_op_trans| | |lia].
    + intros h' [->|Hin]%elem_of_cons Hne.
      * split; [|intros va Hva Hge; rewrite Hkeep by done; by apply G2].
        intros k Hk. rewrite Hkeep by (unfold in_seg; lia). rewrite L2 by done. f_equal. apply Hb1.
      * destruct (L h' Hin Hne) as [L3 L4]. split; [intros k Hk; rewrite L3 by done; f_equal; apply Hb2|].
        intros va Hva Hge. destruct (L4 va Hva Hge) as (g & Hg & Hu). 
        destruct (evolves_free pd (Vm.mem (wvm w)) m2 g P3 P4 (Vm.so_evolves _ _ _ _ _ O2) Hg) as [Hg1 Hg2].
        exists g. by rewrite <- Hg2.
    + intros va Hva Hn. rewrite K; [|done|intros h' Hin; apply Hn; by right]. apply K2; [done|]. apply Hn. by left.
Qed.
End segments.

(** ** Transactions *)

Import Balance.

#[global] Instance world_log : HasLog world := fun w => the_fs (wfs w).

Lemma keeps_on_vm {A} (m : M Vm.vst A) : keeps (on_vm m).
Proof.
  intros w a w' E. unfold on_vm, lift in E. destruct (m (part w)) as [[x t]| |]; try done.
  injection E as <- <-. reflexivity.
Qed.

Lemma triple_on_fs {A} k k' (m : M kst A) : triple k m k' -> triple k (on_fs m) k'.
Proof.
  intros Hm w a w' Ht E. unfold on_fs, lift in E. destruct (m (part w)) as [[x t]| |] eqn:Em; try done.
  injection E as <- <-. exact (Hm _ _ _ Ht Em).
Qed.

Lemma keeps_on_fs {A} (m : M kst A) : keeps m -> keeps (on_fs m).
Proof.
  intros Hm w a w' E. unfold on_fs, lift in E. destruct (m (part w)) as [[x t]| |] eqn:Em; try done.
  injection E as <- <-. exact (Hm _ _ _ Em).
Qed.

Lemma keeps_on_ino {A} (m : M ist A) : keeps m -> keeps (on_ino m).
Proof. intros Hm. by apply keeps_on_fs, keeps_ino. Qed.

Lemma keeps_on_mem {A} (m : M PgTab.vmem A) : keeps (on_mem m).
Proof. apply keeps_on_vm. Qed.
#[export] Hint Resolve keeps_on_vm keeps_on_mem : keeps.
#[export] Hint Resolve keeps_on_ino : keeps.

Section balance.
Context `{DevicesKeep} (sb : superblock).

Lemma read_to_page_keeps ip page off n : keeps (read_to_page sb ip page off n).
Proof. unfold read_to_page. keeps. Qed.

Lemma load_loop_keeps fuel : forall pd dst ip off don sz, keeps (load_loop sb fuel pd dst ip off don sz).
Proof. pose proof read_to_page_keeps. induction fuel as [|fuel IH]; intros; simpl; keeps. Qed.

Lemma vm_load_keeps v dst ip off sz : keeps (vm_load sb v dst ip off sz).
Proof. pose proof load_loop_keeps. unfold vm_load. keeps. Qed.

Lemma load_hdrs_keeps n : forall v ip off, keeps (load_loop_hdrs sb n v ip off).
Proof. pose proof vm_load_keeps. induction n as [|n IH]; intros; simpl; keeps. Qed.

Lemma set_tf_keeps f : keeps (set_tf f).
Proof. apply keeps_modify. done. Qed.

Lemma copy_args_keeps args : forall v argv_ptr i p, keeps (copy_args v argv_ptr i p args).
Proof. induction args as [|a args IH]; intros; simpl; keeps. Qed.

Lemma exec_start_keeps h ov nv argv : keeps (exec_start h ov nv argv).
Proof.
  pose proof set_tf_keeps. pose proof copy_args_keeps. unfold exec_start, setup_ustack, copy_argv_into_stack, set_proc_name, switch_to.
  keeps.
Qed.

Lemma exec_bad_triple ip nv k : 0 <= k -> triple (k + 1) (exec_bad sb ip nv) k.
Proof.
  intros Hk. unfold exec_bad.
  do 3 (apply (triple_bind (k + 1) (k + 1)); [apply triple_keeps; keeps|intros ?]).
  apply (triple_bind (k + 1) k); [by apply triple_on_fs, triple_logop, end_txs|].
  intros ?. apply triple_keeps. keeps.
Qed.
End balance.

(** ** The theorems *)

(** transactions of [exec].  Whatever [proc_execv] meets, a missing file, a file that is no
    program, a broken header, too little memory, it leaves the log with as many open
    transactions as it found, also when it succeeds. *)
Theorem proc_execv_balanced `{DevicesKeep} sb path argv k w a w' : 0 <= k -> txs k (the_fs (wfs w)) ->
  proc_execv sb path argv w = Ok (a, w') -> txs k (the_fs (wfs w')).
Proof.
  intros Hk. change (txs k (the_fs w) -> proc_execv sb path argv w = Ok (a, w') -> txs k (the_fs w')).
  revert w a w'. change (triple k (proc_execv sb path argv) k).
  pose proof (load_hdrs_keeps sb). pose proof exec_start_keeps.
  unfold proc_execv, load_proghdrs. apply (triple_bind k k); [apply triple_keeps; keeps|intros w].
  apply (triple_bind k k); [apply triple_keeps; keeps|intros nv]. destruct (nv =? 0); [apply triple_keeps; keeps|].
  apply (triple_bind k (k + 1)); [by apply triple_on_fs, triple_logop, begin_txs|intros _].
  apply (triple_bind _ (k + 1)); [apply triple_keeps; keeps|intros [ip|]]; [|by apply exec_bad_triple].
  do 2 (apply (triple_bind _ (k + 1)); [apply triple_keeps; keeps|intros ?]).
  destruct (negb (type _ =? _)); [by apply exec_bad_triple|].
  apply (triple_bind _ (k + 1)); [apply triple_keeps; keeps|intros r].
  destruct (negb _); [by apply exec_bad_triple|]. cbv zeta. destruct (negb _); [by apply exec_bad_triple|].
  apply (triple_bind _ (k + 1)); [apply triple_keeps; keeps|intros b]. destruct (negb b); [by apply exec_bad_triple|].
  apply (triple_bind _ (k + 1)); [apply triple_keeps; keeps|intros _].
  apply (triple_bind _ k); [by apply triple_on_fs, triple_logop, end_txs|intros _].
  apply triple_keeps; keeps.
Qed.

(** A program file with the headers [hs]. *)
Record program (s : ist) (ip : Z) (i : inode) (h : elfhdr) (hs : list proghdr) : Prop := {
  pg_file : prog_file s ip i;
  pg_num : e_phnum h = Z.of_nat (length hs);
  pg_off : 0 <= e_phoff h;
  pg_end : e_phoff h + SIZEOF_PROGHDR * Z.of_nat (length hs) <= dsize (disk_inode i);
  pg_hdrs : headers_at s i (e_phoff h) hs;
  pg_segs : Forall (seg_ok (dsize (disk_inode i))) hs;
  pg_apart : segs_apart hs;
}.

Lemma load_program `{Devices} sb w ov opd ovm nv npd nvm ip i h hs :
  execing w ov opd ovm nv npd nvm -> program (il (wfs w)) ip i h hs ->
  (forall va, 0 <= va < KMem.KERNEL_BASE -> PgTab.translate (Vm.mem (wvm w)) npd va = None) ->
  2 * total_pages hs <= Z.of_nat (length (PgTab.free_frames (Vm.mem (wvm w)))) ->
  exists w', load_proghdrs sb nv h ip w = Ok (true, w') /\ execing w' ov opd ovm nv npd nvm /\ seen (il (wfs w)) (il (wfs w')) /\
    (forall p, p ∈ hs -> p_memsz p <> 0 -> loaded (il (wfs w)) i (Vm.mem (wvm w)) (Vm.mem (wvm w')) npd p) /\
    (forall va, 0 <= va < KMem.KERNEL_BASE -> (forall p, p ∈ hs -> ~ in_seg p va) -> PgTab.translate (Vm.mem (wvm w')) npd va = None) /\
    (forall va, 0 <= va < KMem.KERNEL_BASE -> PgTab.uload (Vm.mem (wvm w')) opd va = PgTab.uload (Vm.mem (wvm w)) opd va) /\
    Z.of_nat (length (PgTab.free_frames (Vm.mem (wvm w)))) <= 2 * total_pages hs + Z.of_nat (length (PgTab.free_frames (Vm.mem (wvm w')))).
Proof.
  intros Hx [G1 G2 G3 G4 G5 G6 G7] Hun Hl. pose proof Hx as [X1 X2 X3 X4 X5 X6 X7].
  destruct (load_hdrs_spec sb nv npd nvm ip i hs w (e_phoff h)) as (f & m & E & S & O & L & K & Fr); try done; [congruence| |].
  { intros p va Hp Hva. rewrite Forall_forall in G6. destruct (Z.eq_dec (p_memsz p) 0) as [H0|H0].
    - unfold in_seg, seg_pages in Hva. rewrite H0 in Hva. change ((0 + KMem.PG_SIZE - 1) / KMem.PG_SIZE) with 0 in Hva. lia.
    - destruct (seg_range _ _ (G6 p Hp) H0) as (_ & R2 & _ & _ & _ & R6 & _). unfold in_seg in Hva. apply Hun.
      change USER_PROG_BASE with 0x4048000 in *. change USER_PROG_TOP with 0x8048000 in *. unfold KMem.KERNEL_BASE. lia. }
  exists (with_il f (with_vm (Vm.set_mem m (wvm w)) w)). cbn [wvm with_il with_vm wfs]. rewrite Vm.mem_set_mem.
  destruct (execing_op w ov opd ovm nv npd nvm m Hx O) as [Y1 Y2 Y3 Y4 Y5 Y6 Y7].
  destruct (Vm.so_others _ _ _ _ _ O ov opd ovm X1 X3) as (_ & _ & U).
  pose proof X2 as [[_ _ V1 _] _ _ _]. pose proof Y2 as [[_ _ V2 _] _ _ _]. simpl in V2. rewrite Vm.mem_set_mem in V2.
  split_and!; [|by split|exact S|exact L| |exact U|exact Fr].
  - unfold load_proghdrs. rewrite G2, Nat2Z.id. exact E.
  - intros va Hva Hn. assert (~ is_Some (PgTab.translate m npd va)) as Hno; [|destruct (PgTab.translate m npd va); [exfalso; eauto|done]].
    rewrite <- (Vm.uload_mapped m) by done. rewrite K by done. rewrite Vm.uload_mapped by done. rewrite Hun by done. by intros [? ?].
Qed.

(** C29: loading a program.  For a program file whose segments pass [verify_proghdr], lie in the
    file and do not share a page, and an empty address space with two free pages for every
    page of the segments, [load_proghdrs] returns true; afterwards the new address space
    holds the bytes of every segment at its address, all of [p_memsz] is mapped and nothing
    else is; the address space of the caller reads as before. *)
Theorem load_proghdrs_correct `{Devices} sb w ov opd ovm nv npd nvm ip i h hs :
  execing w ov opd ovm nv npd nvm -> program (il (wfs w)) ip i h hs ->
  (forall va, 0 <= va < KMem.KERNEL_BASE -> PgTab.translate (Vm.mem (wvm w)) npd va = None) ->
  2 * total_pages hs <= Z.of_nat (length (PgTab.free_frames (Vm.mem (wvm w)))) ->
  exists w', load_proghdrs sb nv h ip w = Ok (true, w') /\ execing w' ov opd ovm nv npd nvm /\
    (forall p k, p ∈ hs -> p_memsz p <> 0 -> 0 <= k < p_filesz p ->
       PgTab.uload (Vm.mem (wvm w')) npd (p_vaddr p + k) = Some (file_byte (il (wfs w)) i (p_offset p + k))) /\
    (forall p k, p ∈ hs -> 0 <= k < p_memsz p -> is_Some (PgTab.translate (Vm.mem (wvm w')) npd (p_vaddr p + k))) /\
    (forall va, 0 <= va < KMem.KERNEL_BASE -> (forall p, p ∈ hs -> ~ in_seg p va) -> PgTab.translate (Vm.mem (wvm w')) npd va = None) /\
    (forall va, 0 <= va < KMem.KERNEL_BASE -> PgTab.uload (Vm.mem (wvm w')) opd va = PgTab.uload (Vm.mem (wvm w)) opd va).
Proof.
  intros Hx Hp Hun Hl. destruct (load_program sb w ov opd ovm nv npd nvm ip i h hs Hx Hp Hun Hl) as (w' & E & Hx' & S & L & N & U & _).
  pose proof (ex_new _ _ _ _ _ _ _ Hx') as [[_ _ V2 _] _ _ _]. pose proof (ex_new _ _ _ _ _ _ _ Hx) as [[_ _ V1 _] _ _ _].
  exists w'. split_and!; [done|done| | |done|done].
  - intros p k Hin H0 Hk. by apply (ld_file _ _ _ _ _ _ (L p Hin H0)).
  - intros p k Hin Hk. assert (p_memsz p <> 0) as H0 by lia. destruct (L p Hin H0) as [L1 L2].
    pose proof (pg_segs _ _ _ _ _ Hp) as Hsg. rewrite Forall_forall in Hsg.
    destruct (seg_range _ _ (Hsg p Hin) H0) as (_ & _ & _ & R4 & R5 & _ & _). apply Vm.uload_mapped; [done|].
    destruct (Z.lt_ge_cases k (p_filesz p)); [rewrite L1 by lia; by eexists|].
    destruct (L2 (p_vaddr p + k)) as (f & _ & ->); [unfold in_seg; lia|lia|]. apply lookup_lt_is_Some_2.
    destruct (PgTab.v_frames _ V1 f) as [-> _]. pose proof (Z.mod_pos_bound (p_vaddr p + k) KMem.PG_SIZE ltac:(done)).
    unfold KMem.PG_SIZE in *. lia.
Qed.

(** the part of a segment behind the bytes of the file is not cleared.  It holds what the
    free pages it was given held before: when they all have the byte [x] at the offset of
    an address, the new program reads [x] there. *)
Theorem exec_bss_stale `{Devices} sb w ov opd ovm nv npd nvm ip i h hs p k x :
  execing w ov opd ovm nv npd nvm -> program (il (wfs w)) ip i h hs ->
  (forall va, 0 <= va < KMem.KERNEL_BASE -> PgTab.translate (Vm.mem (wvm w)) npd va = None) ->
  2 * total_pages hs <= Z.of_nat (length (PgTab.free_frames (Vm.mem (wvm w)))) ->
  p ∈ hs -> p_filesz p <= k < p_memsz p ->
  (forall f, f ∈ PgTab.free_frames (Vm.mem (wvm w)) ->
     PgTab.frame (Vm.mem (wvm w)) f !! Z.to_nat ((p_vaddr p + k) mod KMem.PG_SIZE) = Some x) ->
  exists w', load_proghdrs sb nv h ip w = Ok (true, w') /\
    PgTab.uload (Vm.mem (wvm w')) npd (p_vaddr p + k) = Some x.
Proof.
  intros Hx Hp Hun Hl Hin Hk Hst. destruct (load_program sb w ov opd ovm nv npd nvm ip i h hs Hx Hp Hun Hl) as (w' & E & Hx' & S & L & N & U & _).
  exists w'. split; [done|]. pose proof (pg_segs _ _ _ _ _ Hp) as Hsg. rewrite Forall_forall in Hsg.
  pose proof (sg_words _ _ (Hsg p Hin)) as (_ & _ & Hw & _). unfold is_u32 in Hw. assert (p_memsz p <> 0) as H0 by lia.
  destruct (seg_range _ _ (Hsg p Hin) H0) as (_ & _ & _ & R4 & R5 & _ & _).
  destruct (ld_rest _ _ _ _ _ _ (L p Hin H0) (p_vaddr p + k)) as (f & Hf & ->); [unfold in_seg; lia|lia|]. by apply Hst.
Qed.

(** C30: starting a program, the part of [proc_execv] after the segments were loaded.  There is
    at least one argument and the first, the name of the process, is shorter than 32 bytes
    ([strcpy] writes beyond [proc->name] otherwise), the arguments and their pointers fit into
    a page, the new program has nothing where the stack goes, and eight pages are free.  Then
    it succeeds: the process has the name and runs in the new address space at the entry
    point; the argument count and vector are in EBX and ECX, the vector ends at the top of the stack, its
    first pointer the lowest, and points to the argument strings, which lie below it and end
    in zeros; the stack below them is cleared, the program itself is as it was loaded, and
    every page of the old address space is free. *)
Theorem exec_start_correct w ov opd ovm nv npd nvm h argv : execing w ov opd ovm nv npd nvm ->
  (forall a, Vm.BOTTOM_USER_STACK <= a < Vm.TOP_USER_STACK -> PgTab.translate (Vm.mem (wvm w)) npd a = None) ->
  (8 <= length (PgTab.free_frames (Vm.mem (wvm w))))%nat ->
  Forall bytes argv -> 4 * Z.of_nat (length argv) + args_size argv <= KMem.PG_SIZE ->
  (exists a, head argv = Some a /\ (length a < TASK_NAME_LENGTH)%nat) ->
  exists w', exec_start h ov nv argv w = Ok (0, w') /\ wfs w' = wfs w /\ head argv = Some (proc_name w') /\
    Vm.cur_vm (wvm w') = nv /\ Vm.vms (wvm w') = delete ov (Vm.vms (wvm w)) /\ Vm.space (wvm w') nv npd nvm /\
    started w' npd (e_entry h) argv /\
    (forall va, 0 <= va < Vm.BOTTOM_USER_STACK ->
       PgTab.uload (Vm.mem (wvm w')) npd va = PgTab.uload (Vm.mem (wvm w)) npd va) /\
    (forall f, f ∈ opd :: PgTab.pd_frames (Vm.mem (wvm w)) opd 0 PgTab.USER_PDES -> f ∈ PgTab.free_frames (Vm.mem (wvm w'))).
Proof. apply exec_start_spec. Qed.

(** [verify_proghdr] accepts a segment exactly when it starts at a page boundary, is not
    shorter in memory than in the file and lies in the program area: the sum in 32 bits
    lets no segment wrap around. *)
Theorem verify_proghdr_correct h : is_u32 (p_vaddr h) -> is_u32 (p_memsz h) ->
  verify_proghdr h = true <-> p_vaddr h mod KMem.PG_SIZE = 0 /\ p_filesz h <= p_memsz h /\
    USER_PROG_BASE <= p_vaddr h /\ p_vaddr h + p_memsz h <= USER_PROG_TOP.
Proof. apply verify_proghdr_spec. Qed.

(** ** Examples *)

#[local] Existing Instance no_devices.

(** A process with one page, a new empty address space, and eight free pages full of 170. *)
Definition demo_exec_mem : PgTab.vmem :=
  foldr (fun k m => PgTab.with_frame m (PgTab.demo_frame k) (replicate (Z.to_nat KMem.PG_SIZE) 170)) (PgTab.demo_as 8) (seqZ 0 8).

Definition demo_new_obj : Z := KMem.KERNEL_BASE + PgTab.demo_frame 13.

Definition demo_new_ptr : Z := demo_new_obj + KMem.DESC_SIZE.

Definition demo_new_vm : Vm.vm := Vm.MkVm (KMem.KP2V (PgTab.demo_frame 12)) Vm.USER_HEAP_BASE.

Definition demo_exec_vst : Vm.vst :=
  Vm.VSt (KMem.KMemSt (KMem.blocks (Vm.km (Vm.demo_vst 0))) (<[demo_new_obj := 0]> (KMem.desc (Vm.km (Vm.demo_vst 0)))) (PgTab.pm (PgTab.demo_as 8)))
    (PgTab.frames demo_exec_mem) (<[demo_new_ptr := demo_new_vm]> {[Vm.demo_ptr := Vm.demo_vm Vm.USER_HEAP_BASE]}) Vm.demo_ptr true.

(** A program: one header, two bytes in the file, four in memory. *)
Definition demo_hdr : proghdr := ProgHdr 32 USER_PROG_BASE 2 4.

Definition demo_elf : elfhdr := ElfHdr ELF_MAGIC ET_EXEC USER_PROG_BASE 0 1.

Definition demo_prog_block : block :=
  splice 0 (mjoin (map enc32 [1; 32; USER_PROG_BASE; 0; 2; 4; 5; 4096]) ++ [144; 195]) zero_block.

Definition demo_prog_inode : inode :=
  MkInode 1 1 (Semaphore.Sem 0 [] (Some 3)) true (Dinode INODE_FILE 1 34 0 0 (45 :: replicate 11 0)).

Definition demo_prog_ist : ist :=
  Ist (Fss (mount {[45 := demo_prog_block]}) (MkLog 5 1 false 0 (replicate 30 0) (Semaphore.sem_init 0)))
    (demo_prog_inode :: replicate 50 free_inode) 3.

Definition demo_world : world :=
  World (Kst demo_prog_ist (replicate 50 zero_file) ∅ 0 (replicate 16 None) 0 false) demo_exec_vst zero_tframe [].

Lemma demo_exec_mem_ok : PgTab.vm_ok demo_exec_mem /\ PgTab.pm demo_exec_mem = PgTab.pm (PgTab.demo_as 8) /\
  forall k, 8 <= k < 16 -> PgTab.frame demo_exec_mem (PgTab.demo_frame k) = PgTab.frame (PgTab.demo_as 8) (PgTab.demo_frame k).
Proof.
  unfold demo_exec_mem. assert (forall j, j ∈ seqZ 0 8 -> 0 <= j < 8) as Hj by (intros j Hj%elem_of_seqZ; lia). revert Hj.
  induction (seqZ 0 8) as [|j l IH]; intros Hj; cbn [foldr]; [split_and!; [by apply PgTab.demo_as_ok|done|done]|].
  destruct IH as (H1 & H2 & H3); [intros k Hk; apply Hj; by right|]. split_and!; [|done|].
  - apply PgTab.vm_ok_with; [done|]. split; [by rewrite length_replicate|]. apply Forall_replicate. done.
  - intros k Hk. rewrite PgTab.frame_with_ne; [by apply H3|]. specialize (Hj j ltac:(by left)).
    unfold PgTab.demo_frame, KMem.PG_SIZE. lia.
Qed.

Lemma demo_exec_mem_eq : Vm.mem demo_exec_vst = demo_exec_mem.
Proof. destruct demo_exec_mem_ok as (_ & H & _). unfold Vm.mem, demo_exec_vst. cbn [Vm.vframes Vm.km KMem.pages]. rewrite <- H. by destruct demo_exec_mem. Qed.

Lemma demo_exec_free : PgTab.free_frames demo_exec_mem = map PgTab.demo_frame (seqZ 0 8).
Proof.
  unfold PgTab.free_frames. destruct demo_exec_mem_ok as (_ & -> & _). exact (PgTab.demo_pool_free 8).
Qed.

Lemma demo_not_free k : 8 <= k -> PgTab.demo_frame k ∉ PgTab.free_frames demo_exec_mem.
Proof.
  intros Hk. rewrite demo_exec_free. intros (j & Hj & Hin%elem_of_seqZ)%list_elem_of_fmap. unfold PgTab.demo_frame, KMem.PG_SIZE in Hj. lia.
Qed.

Lemma demo_old_frames : PgTab.pd_frames demo_exec_mem (PgTab.demo_frame 8) 0 PgTab.USER_PDES = [PgTab.demo_frame 9; PgTab.demo_frame 10].
Proof.
  destruct demo_exec_mem_ok as (_ & _ & H). rewrite <- (PgTab.demo_as_frames 8). apply PgTab.pd_frames_ext; [by apply H|].
  rewrite PgTab.demo_as_frames. intros f Hf. repeat (apply elem_of_cons in Hf as [->|Hf]); [by apply H|by apply H|by apply elem_of_nil in Hf].
Qed.

Lemma demo_new_frames : PgTab.pd_frames demo_exec_mem (PgTab.demo_frame 12) 0 PgTab.USER_PDES = [] /\
  forall k, PgTab.pte demo_exec_mem (PgTab.demo_frame 12) k = 0.
Proof.
  destruct demo_exec_mem_ok as (_ & _ & H).
  assert (forall k, PgTab.pte demo_exec_mem (PgTab.demo_frame 12) k = 0) as H0.
  { intros k. unfold PgTab.pte. rewrite H by lia. apply PgTab.get32_zero_page. }
  split; [|done]. apply elem_of_nil_inv. intros f (j & _ & Hin)%PgTab.pd_frames_elem. unfold PgTab.pde_frames in Hin.
  rewrite H0, PgTab.present_0 in Hin. by apply elem_of_nil in Hin.
Qed.

Lemma demo_exec_kmem : KMem.kmem_ok (Vm.km demo_exec_vst) /\
  forall x, KMem.known (Vm.km demo_exec_vst) x -> exists k, (k = 11 \/ k = 13) /\ x = KMem.KERNEL_BASE + PgTab.demo_frame k.
Proof.
  pose proof Vm.demo_kmem_obj as [K1 K2 K3 K4 K5 K6].
  assert (forall i b, KMem.blocks (Vm.km (Vm.demo_vst 0)) !! i = Some b -> KMem.head b = []) as Hh.
  { intros i b (x & -> & _)%list_lookup_fmap_Some. done. }
  split.
  - split; try done.
    + intros i b x Hb Hin. rewrite (Hh i b Hb) in Hin. by apply elem_of_nil in Hin.
    + intros x i. unfold demo_exec_vst. cbn [Vm.km KMem.desc]. rewrite lookup_insert_Some. intros [[<- <-]|[_ Hx]]; [|by apply K6].
      split; [|done]. split; [by vm_compute|]. by apply (bool_decide_unpack _); vm_compute.
  - intros x [[i Hx]|(i & b & Hb & Hin)]; [|rewrite (Hh i b Hb) in Hin; by apply elem_of_nil in Hin].
    unfold demo_exec_vst in Hx. cbn [Vm.km KMem.desc] in Hx. apply lookup_insert_Some in Hx as [[<- _]|[_ Hx]]; [exists 13; auto|].
    simpl in Hx. rewrite insert_empty in Hx. apply lookup_singleton_Some in Hx as [<- _]. exists 11. auto.
Qed.

Lemma demo_frame_inj j k : PgTab.demo_frame j = PgTab.demo_frame k -> j = k.
Proof. unfold PgTab.demo_frame, KMem.PG_SIZE. lia. Qed.

Lemma demo_obj_apart l x : KMem.known (Vm.km demo_exec_vst) x -> 11 ∉ l -> 13 ∉ l ->
  KMem.page_of x - KMem.KERNEL_BASE ∉ map PgTab.demo_frame l.
Proof.
  intros (k & Hk & ->)%(proj2 demo_exec_kmem) H1 H2 (j & Hj & Hin)%list_elem_of_fmap.
  assert (j = k) as ->; [|destruct Hk as [-> | ->]; auto].
  apply demo_frame_inj. rewrite <- Hj. unfold KMem.page_of, PgTab.demo_frame, KMem.KERNEL_BASE, KMem.KERNEL_SPACE_SIZE, KMem.PG_SIZE.
  Z.div_mod_to_equations. lia.
Qed.

Lemma demo_execing : execing demo_world Vm.demo_ptr (PgTab.demo_frame 8) (Vm.demo_vm Vm.USER_HEAP_BASE)
  demo_new_ptr (PgTab.demo_frame 12) demo_new_vm.
Proof.
  destruct demo_exec_mem_ok as (Hok & _ & _). destruct demo_new_frames as [Hnf _]. pose proof demo_old_frames as Hof.
  assert (demo_new_ptr <> Vm.demo_ptr) as Hne by (by vm_compute).
  assert (Vm.vms_ok demo_exec_vst) as Hv.
  { intros v r Hr. right. unfold demo_exec_vst in *. cbn [Vm.vms Vm.km KMem.desc] in *.
    apply lookup_insert_Some in Hr as [[<- _]|[_ Hr]].
    - unfold demo_new_ptr. rewrite Z.add_simpl_r, lookup_insert_eq. by eexists.
    - apply lookup_singleton_Some in Hr as [<- _]. unfold Vm.demo_ptr. rewrite Z.add_simpl_r, lookup_insert_ne by done.
      simpl. rewrite insert_empty, lookup_singleton_eq. by eexists. }
  assert (forall k l, PgTab.pd_frames demo_exec_mem (PgTab.demo_frame k) 0 PgTab.USER_PDES = map PgTab.demo_frame l ->
    NoDup (k :: l) -> Forall (fun j => 8 <= j < 16) (k :: l) -> PgTab.as_ok demo_exec_mem (PgTab.demo_frame k)) as Has.
  { intros k l Hl Hnd Hr. split; rewrite Hl; change (PgTab.demo_frame k :: map PgTab.demo_frame l) with (PgTab.demo_frame <$> (k :: l)).
    - apply NoDup_fmap_2; [|done]. intros x y. apply demo_frame_inj.
    - intros f (j & -> & Hj)%list_elem_of_fmap. rewrite Forall_forall in Hr. specialize (Hr j Hj).
      split; [by apply PgTab.demo_pool; lia|apply demo_not_free; lia]. }
  split; cbn [wvm demo_world]; [| | |by vm_compute|exact Hne|reflexivity|reflexivity].
  - split; [split; [|reflexivity|rewrite demo_exec_mem_eq; exact Hok|rewrite demo_exec_mem_eq]|apply demo_exec_kmem|exact Hv|].
    + unfold demo_exec_vst. cbn [Vm.vms]. rewrite lookup_insert_ne by done. apply lookup_singleton_eq.
    + apply (Has 8 [9; 10]); [done|by apply (bool_decide_unpack _)|repeat constructor; lia].
    + intros x Hx. rewrite demo_exec_mem_eq, Hof. apply (demo_obj_apart [8; 9; 10]); [done|by apply (bool_decide_unpack _)..].
  - split; [split; [|reflexivity|rewrite demo_exec_mem_eq; exact Hok|rewrite demo_exec_mem_eq]|apply demo_exec_kmem|exact Hv|].
    + apply lookup_insert_eq.
    + apply (Has 12 []); [done|by apply (bool_decide_unpack _)|repeat constructor; lia].
    + intros x Hx. rewrite demo_exec_mem_eq, Hnf. apply (demo_obj_apart [12]); [done|by apply (bool_decide_unpack _)..].
  - rewrite demo_exec_mem_eq. intros f. rewrite Hnf, Hof. intros ->%list_elem_of_singleton. by apply (bool_decide_unpack _).
Qed.

Lemma demo_prog_block_ok : block_ok demo_prog_block.
Proof.
  destruct zero_block_ok as [Hl Hb]. split; [vm_compute; reflexivity|]. apply bytes_splice; [|done].
  apply (bool_decide_unpack _). vm_compute. reflexivity.
Qed.

Lemma demo_program : program demo_prog_ist 0 demo_prog_inode demo_elf [demo_hdr].
Proof.
  split.
  - split; [|done|by vm_compute]. split; [done|reflexivity|reflexivity| | | | |].
    + intros x. unfold view. cbn. unfold dread. destruct (decide (x = 45)) as [->|Hne].
      * rewrite lookup_singleton_eq. apply demo_prog_block_ok.
      * rewrite lookup_singleton_ne by done. apply zero_block_ok.
    + unfold room. vm_compute. lia.
    + by vm_compute.
    + intros bn Hb Hlt. change (dsize (disk_inode demo_prog_inode)) with 34 in Hlt. assert (bn = 0) as -> by (unfold BSIZE in Hlt; lia). by vm_compute.
    + intros k _ _. apply not_elem_of_empty.
  - reflexivity.
  - done.
  - by vm_compute.
  - intros [|k] h Hk; [|done]. injection Hk as <-. vm_compute. reflexivity.
  - repeat constructor; cbn; unfold is_u32, USER_PROG_BASE, Vm.USER_BASE; try lia; done.
  - split; [|done]. intros h' va Hin. by apply elem_of_nil in Hin.
Qed.

Lemma demo_empty va : 0 <= va < KMem.KERNEL_BASE -> PgTab.translate (Vm.mem demo_exec_vst) (PgTab.demo_frame 12) va = None.
Proof.
  intros Hva. rewrite demo_exec_mem_eq. unfold PgTab.translate, PgTab.lookup_pte. destruct demo_new_frames as [_ ->].
  by rewrite PgTab.present_0.
Qed.

Lemma demo_enough n : n <= 8 -> n <= Z.of_nat (length (PgTab.free_frames (Vm.mem demo_exec_vst))).
Proof. intros Hn. rewrite demo_exec_mem_eq, demo_exec_free, length_map, length_seqZ. lia. Qed.

Lemma load_proghdrs_correct_witness :
  exists w', load_proghdrs demo_sb demo_new_ptr demo_elf 0 demo_world = Ok (true, w') /\
    PgTab.uload (Vm.mem (wvm w')) (PgTab.demo_frame 12) (USER_PROG_BASE + 1) = Some 195.
Proof.
  destruct (load_proghdrs_correct demo_sb demo_world Vm.demo_ptr (PgTab.demo_frame 8) (Vm.demo_vm Vm.USER_HEAP_BASE)
    demo_new_ptr (PgTab.demo_frame 12) demo_new_vm 0 demo_prog_inode demo_elf [demo_hdr] demo_execing demo_program demo_empty)
    as (w' & E & _ & L & _); [by apply demo_enough|].
  exists w'. split; [exact E|]. assert (demo_hdr ∈ [demo_hdr]) as Hin by (by left).
  assert (file_byte demo_prog_ist demo_prog_inode 33 = 195) as <- by (vm_compute; reflexivity).
  exact (L demo_hdr 1 Hin ltac:(discriminate) ltac:(cbn; lia)).
Defined.

Lemma exec_bss_stale_witness :
  exists w', load_proghdrs demo_sb demo_new_ptr demo_elf 0 demo_world = Ok (true, w') /\
    PgTab.uload (Vm.mem (wvm w')) (PgTab.demo_frame 12) (USER_PROG_BASE + 3) = Some 170.
Proof.
  apply (exec_bss_stale demo_sb demo_world Vm.demo_ptr (PgTab.demo_frame 8) (Vm.demo_vm Vm.USER_HEAP_BASE)
    demo_new_ptr (PgTab.demo_frame 12) demo_new_vm 0 demo_prog_inode demo_elf [demo_hdr] demo_hdr 3 170 demo_execing demo_program demo_empty).
  - by apply demo_enough.
  - by left.
  - done.
  - intros f. cbn [wvm demo_world]. rewrite demo_exec_mem_eq, demo_exec_free. intros Hf.
    repeat (apply elem_of_cons in Hf as [->|Hf]; [vm_compute; reflexivity|]). by apply elem_of_nil in Hf.
Defined.

Lemma exec_start_correct_witness :
  exists w', exec_start demo_elf Vm.demo_ptr demo_new_ptr [[115; 104]; [45; 105]] demo_world = Ok (0, w') /\
    proc_name w' = [115; 104] /\ tf_ebx (wtf w') = 2 /\ tf_user_esp (wtf w') = 0x80000000 - 14 /\
    PgTab.uload (Vm.mem (wvm w')) (PgTab.demo_frame 12) (0x80000000 - 13) = Some 105.
Proof.
  destruct (exec_start_correct demo_world Vm.demo_ptr (PgTab.demo_frame 8) (Vm.demo_vm Vm.USER_HEAP_BASE)
    demo_new_ptr (PgTab.demo_frame 12) demo_new_vm demo_elf [[115; 104]; [45; 105]] demo_execing)
    as (w' & E & _ & N & _ & _ & _ & [S1 S2 S3 S4 S5 S6] & _).
  - intros a Ha. apply demo_empty. unfold Vm.BOTTOM_USER_STACK, Vm.TOP_USER_STACK, Vm.USER_TOP, KMem.PG_SIZE, KMem.KERNEL_BASE, Vm.NPAGES_USER_STACK in *. lia.
  - pose proof (demo_enough 8 ltac:(done)). cbn [wvm demo_world]. lia.
  - repeat constructor; done.
  - done.
  - exists [115; 104]. split; [done|]. unfold TASK_NAME_LENGTH. simpl. lia.
  - exists w'. split_and!; [exact E|by injection N as <-|exact S1|by rewrite S3, S2|].
    destruct (S5 1%nat [45; 105] eq_refl) as [_ H]. specialize (H 1%nat 105 eq_refl). rewrite S2 in H. exact H.
Defined.

Lemma verify_proghdr_correct_witness : verify_proghdr demo_hdr = true /\ verify_proghdr (ProgHdr 0 0xfffff000 0 0x5000000) = false.
Proof.
  split; [apply (verify_proghdr_correct demo_hdr); [done|done|by vm_compute]|reflexivity].
Defined.

#[local] Instance no_devices_keep : DevicesKeep.
Proof. by split. Qed.

(** Running a file that is not there. *)
Lemma proc_execv_balanced_witness :
  exists w', proc_execv demo_sb [113] [[113]] (with_il (il demo_kst) demo_world) = Ok (-1, w') /\ txs 0 (the_fs (wfs w')).
Proof.
  assert (exists w', proc_execv demo_sb [113] [[113]] (with_il (il demo_kst) demo_world) = Ok (-1, w')) as [w' E]
    by (eexists; vm_compute; reflexivity).
  exists w'. split; [exact E|].
  apply (proc_execv_balanced demo_sb [113] [[113]] 0 (with_il (il demo_kst) demo_world) (-1) w'); [lia| |exact E].
  split; [done|done|done|]. by apply covered_mount.
Defined.
End Exec.
