(* ===== verification/Proc.v ===== *)
(** Processes: src/kernel/proc.c and the system calls of src/kernel/syscall/sysproc.c, with
    the parts of src/kernel/task.c that allocate and free memory.

    [pst] is the whole kernel as processes see it: the task table and the files (Task.v), the
    memory (Vm.v), and the trap frames, which lie on top of the kernel stacks.  As in Task.v
    the files, the directory and the killed flag of the current task are in the file layer;
    its address space is the current one of Vm.v. *)

From stdpp Require Import base numbers list gmap.
From Stdlib Require Import ZArith Lia.
From S2P Require Import Prelude Semaphore BlockIO Log BAlloc Inode Dir Pathname File Balance Sched Task KMem PgTab Vm SysFs Exec.
#[local] Open Scope Z_scope.

Module Proc.
Import Sched Task Exec.

(** [ptf] has the trap frame [task->tf] of every task that has one. *)
Record pst := PSt { pos : os; pvm : Vm.vst; ptf : gmap Z tframe }.

#[global] Instance Part_pos : Part pst os := {| part := pos; set_part := fun x s => PSt x (pvm s) (ptf s) |}.

#[global] Instance Part_pvm : Part pst Vm.vst := {| part := pvm; set_part := fun x s => PSt (pos s) x (ptf s) |}.

(** Operations of the parts. *)
Definition on_tab {A} (m : M tst A) : M pst A := lift (lift m : M os A).

Definition on_file {A} (m : M File.kst A) : M pst A := lift (lift m : M os A).

Definition on_vm {A} (m : M Vm.vst A) : M pst A := lift m.

Definition on_mem {A} (m : M PgTab.vmem A) : M pst A := on_vm (lift m).

Definition set_ptf (f : gmap Z tframe -> gmap Z tframe) : M pst unit :=
  modify (fun s => PSt (pos s) (pvm s) (f (ptf s))).

Definition get_tf (t : Z) : M pst tframe :=
  s ← get; match ptf s !! t with Some x => mret x | None => panic end.

(** The current task, and whether it has been killed. *)
Definition cur (s : pst) : Z := current_task (ts (pos s)).

Definition is_killed (s : pst) : bool := File.killed (fs (pos s)).

Definition set_vm (v : vm_ref) (t : task_struct) : task_struct :=
  MkTask (pid t) (name t) (state t) (time_slice t) (priority t) (kstack_ptr t) v (parent t) (killed t)
    (exit_status t) (t_ofiles t) (t_cwd t).

(** A pointer that [vm_copy] or [vm_new] returned. *)
Definition vm_of (v : Z) : vm_ref := if v =? 0 then VmNull else VmUser v.

(** *** Tasks and memory *)

(** The memory that [task_free] gives back. *)
Fixpoint release (l : list released) : M pst unit :=
  match l with
  | [] => mret tt
  | Page p :: l => on_mem (PgTab.free_page p);; release l
  | Task.Vm v :: l => s ← get; on_vm (Vm.vm_free (is_killed s) v);; release l
  end.

Definition task_free (t : Z) : M pst unit := r ← on_tab (Task.task_free t); release r.

(** [get_free_page]: NULL is 0. *)
Definition get_free_page : M pst Z := p ← on_mem PgTab.palloc; mret (KMem.KP2V p).

Definition page_ref (p : Z) : option Z := if p =? 0 then None else Some p.

Definition kthread_create (prio : Z) (nm : list Z) : M pst (option Z) :=
  r ← on_tab task_alloc;
  match r with
  | None => mret None
  | Some t =>
      on_tab (init_task_struct t prio nm);;
      page ← get_free_page;
      ok ← on_tab (init_task_stack t (page_ref page));
      if ok : bool then mret (Some t)
      else task_free t;; mret None
  end.

(** *** [proc_fork] *)

(** The loop over the open files: the child gets the file in the slot [i]. *)
Definition dup_ofile (child : Z) (i : nat) : M pst unit :=
  s ← get;
  o ← on_file (index (File.ofiles (fs (pos s))) (Z.of_nat i));
  match o with
  | None => mret tt
  | Some f =>
      f ← on_file (File.file_dup f);
      on_tab (upd_task child (fun x => set_files (<[i := Some f]> (t_ofiles x)) (t_cwd x) x))
  end.

Section sched.
Context `{Schedular}.

Definition proc_fork : M pst Z :=
  s ← get;
  let parent := cur s in
  x ← on_tab (get_task parent);
  ASSERT (bool_decide (vm x <> VmKernel));;
  r ← kthread_create (priority x) (name x);
  match r with
  | None => mret (-1)
  | Some child =>
      s ← get;
      v ← on_vm (Vm.vm_copy (is_killed s) (Vm.cur_vm (pvm s)));
      on_tab (upd_task child (set_vm (vm_of v)));;
      if v =? 0 then task_free child;; mret (-1)
      else
        tf ← get_tf parent;
        set_ptf (fun m => <[child := set_eax 0 tf]> m);;
        on_tab (upd_task child (set_parent (Some parent)));;
        for_loop (Z.to_nat NOFILE) 0 (dup_ofile child);;
        s ← get;
        c ← on_file (File.ino (Inode.inode_dup (File.cwd (fs (pos s)))));
        on_tab (upd_task child (fun x => set_files (t_ofiles x) (Some c) x));;
        on_tab (task_wakeup child);;
        x ← on_tab (get_task child);
        mret (pid x)
  end.
End sched.

(** *** The first process *)

Definition PROC_PRIORITY_DEFAULT : Z := 10.

(** The machine code of src/init/initcode.asm. *)
Definition initcode : list Z :=
  [0xb8; 0xb; 0x0; 0x0; 0x0; 0xbb; 0x1a; 0x80; 0x4; 0x4;
   0xb9; 0x29; 0x80; 0x4; 0x4; 0xcd; 0x80; 0xb8; 0xc; 0x0;
   0x0; 0x0; 0xcd; 0x80; 0xeb; 0xf7; 0x2f; 0x62; 0x69; 0x6e;
   0x2f; 0x69; 0x6e; 0x69; 0x74; 0x0; 0x69; 0x6e; 0x69; 0x74;
   0x0; 0x24; 0x80; 0x4; 0x4; 0x0; 0x0; 0x0; 0x0].

Definition RPL0 : Z := 0.

Definition RPL3 : Z := 3.

Definition USER_CODE_SELECTOR : Z := Z.lor (Z.shiftl 5 3) RPL3.

Definition USER_DATA_SELECTOR : Z := Z.lor (Z.shiftl 6 3) RPL3.

Definition USER_STACK_SELECTOR : Z := USER_DATA_SELECTOR.

Definition EFLAGS_MBS : Z := Z.shiftl 1 1.

Definition EFLAGS_IF_1 : Z := Z.shiftl 1 9.

Definition EFLAGS_IOPL0 : Z := Z.shiftl 0 12.

(** The trap frame that [init_user_stack] makes. *)
Definition user_tframe (user_entry : Z) : tframe :=
  TFrame 0 0 0 0 0 0 0 0 USER_DATA_SELECTOR USER_DATA_SELECTOR USER_DATA_SELECTOR USER_DATA_SELECTOR 0 0
    user_entry USER_CODE_SELECTOR (Z.lor (Z.lor EFLAGS_IOPL0 EFLAGS_MBS) EFLAGS_IF_1)
    Vm.TOP_USER_STACK USER_STACK_SELECTOR.

(** [v] is [proc->vm]. *)
Definition init_user_stack (proc v user_entry : Z) : M pst bool :=
  b ← on_vm (Vm.vm_valloc v Vm.BOTTOM_USER_STACK Vm.NPAGES_USER_STACK);
  if negb b then mret false
  else
    b ← on_vm (Vm.vm_setrange v Vm.BOTTOM_USER_STACK 0 (Vm.NPAGES_USER_STACK * KMem.PG_SIZE));
    if negb b then mret false
    else set_ptf (fun m => <[proc := user_tframe user_entry]> m);; mret true.

Section init.
Context `{Inode.Devices} `{Schedular} (sb : BAlloc.superblock).

(** The new task and its address space. *)
Definition create_initproc (entry_addr : Z) : M pst (Z * Z) :=
  r ← kthread_create PROC_PRIORITY_DEFAULT [105; 110; 105; 116];
  match r with
  | None => panic
  | Some proc =>
      s ← get;
      v ← on_vm (Vm.vm_new (is_killed s));
      on_tab (upd_task proc (set_vm (vm_of v)));;
      if v =? 0 then panic
      else
        b ← init_user_stack proc v entry_addr;
        if negb b then panic
        else
          s ← get;
          r ← on_file (File.ino (Pathname.path_lookup sb (File.cwd (fs (pos s))) [47]));
          match r with
          | None => panic
          | Some ip =>
              on_tab (upd_task proc (fun x => set_files (t_ofiles x) (Some ip) x));;
              mret (proc, v)
          end
  end.

(** The results of the two calls are not looked at. *)
Definition load_initproc (v : Z) : M pst unit :=
  on_vm (Vm.vm_valloc v Vm.USER_BASE (ROUND_UP (Z.of_nat (length initcode)) KMem.PG_SIZE));;
  on_vm (Vm.vm_copyout v Vm.USER_BASE initcode);;
  mret tt.

Definition setup_init_proc : M pst unit :=
  r ← create_initproc Vm.USER_BASE;
  on_tab (modify (fun s => Tst (task_table s) (rq_list s) (running_task_cnt s) (current_task s) (idle_task s)
    (Some (fst r)) (next_pid s)));;
  load_initproc (snd r);;
  on_tab (task_wakeup (fst r)).
End init.

(** ** Running the parts *)

Lemma on_tab_Ok {A} (m : M tst A) s a t : m (ts (pos s)) = Ok (a, t) ->
  on_tab m s = Ok (a, PSt (Os t (fs (pos s))) (pvm s) (ptf s)).
Proof. intros E. unfold on_tab, lift. simpl. by rewrite E. Qed.

Lemma on_file_Ok {A} (m : M File.kst A) s a f : m (fs (pos s)) = Ok (a, f) ->
  on_file m s = Ok (a, PSt (Os (ts (pos s)) f) (pvm s) (ptf s)).
Proof. intros E. unfold on_file, lift. simpl. by rewrite E. Qed.

Lemma on_pvm_Ok {A} (m : M Vm.vst A) s a v : m (pvm s) = Ok (a, v) -> on_vm m s = Ok (a, PSt (pos s) v (ptf s)).
Proof. intros E. unfold on_vm, lift. simpl. by rewrite E. Qed.

Lemma upd_task_Ok s t x f : task_at s t = Some x -> upd_task t f s = Ok (tt, with_task t (f x) s).
Proof. intros E. unfold upd_task. by rewrite (bind_Ok _ _ _ _ _ (task_at_get _ _ _ E)). Qed.

Lemma task_at_same s t x y : task_at s t = Some x -> task_at (with_task t y s) t = Some y.
Proof. intros E. rewrite (task_at_with s t x) by done. by rewrite decide_True. Qed.

Lemma with_task_id s t x : task_at s t = Some x -> with_task t x s = s.
Proof.
  intros E. apply task_at_nonneg in E as [_ E]. unfold with_task, set_table. rewrite list_insert_id by done. by destruct s.
Qed.

(** ** A new task *)

Definition new_task (s : tst) (prio : Z) (nm : list Z) (page : Z) : task_struct :=
  MkTask (next_pid s) nm TASK_ALLOCATED prio prio (Some page) VmKernel (Some (current_task s)) false 0
    (replicate (Z.to_nat NOFILE) None) None.

Lemma kthread_create_spec prio nm s t x f l :
  find_unused 0 (task_table (ts (pos s))) = Some t -> task_at (ts (pos s)) t = Some x ->
  PgTab.vm_ok (Vm.mem (pvm s)) -> PgTab.free_frames (Vm.mem (pvm s)) = f :: l ->
  exists m, kthread_create prio nm s =
      Ok (Some t, PSt (Os (with_task t (new_task (ts (pos s)) prio nm (KMem.KP2V f)) (count_pid (ts (pos s)))) (fs (pos s)))
                      (Vm.set_mem m (pvm s)) (ptf s)) /\
    PgTab.vm_ok m /\ PgTab.free_frames m = l /\ PgTab.frames m = Vm.vframes (pvm s) /\ PgTab.pool_frame f.
Proof.
  intros Hu Ht Hok Hf. destruct (PgTab.palloc_Ok _ f l Hok Hf) as (m & E & Hok' & Hl & Hfr & Hf0 & Hfl & Hp).
  exists m. split_and!; try done. unfold kthread_create.
  assert (task_alloc (ts (pos s)) = Ok (Some t, with_task t (set_pid (next_pid (ts (pos s))) (set_state TASK_ALLOCATED x)) (count_pid (ts (pos s))))) as E1.
  { unfold task_alloc. rewrite (bind_Ok _ _ _ _ _ eq_refl). rewrite Hu. by rewrite (bind_Ok _ _ _ _ _ (task_at_get _ _ _ Ht)). }
  rewrite (bind_Ok _ _ _ _ _ (on_tab_Ok _ _ _ _ E1)). set (T := count_pid (ts (pos s))) in *.
  assert (task_at T t = Some x) as HT by done.
  set (s1 := PSt _ _ _).
  assert (init_task_struct t prio nm (ts (pos s1)) = Ok (tt, with_task t (MkTask (next_pid (ts (pos s))) nm TASK_ALLOCATED prio prio (kstack_ptr x)
    VmKernel (Some (current_task (ts (pos s)))) false 0 (replicate (Z.to_nat NOFILE) None) None) T)) as E2.
  { unfold s1, init_task_struct. cbn [pos ts]. rewrite (bind_Ok _ _ _ _ _ eq_refl).
    rewrite (upd_task_Ok _ t _ _ (task_at_same T t x _ HT)). by rewrite with_with. }
  rewrite (bind_Ok _ _ _ _ _ (on_tab_Ok _ _ _ _ E2)). set (s2 := PSt _ _ _).
  assert (get_free_page s2 = Ok (KMem.KP2V f, PSt (pos s2) (Vm.set_mem m (pvm s)) (ptf s))) as E3.
  { unfold get_free_page. rewrite (bind_Ok _ _ _ f (PSt (pos s2) (Vm.set_mem m (pvm s)) (ptf s))); [done|].
    unfold on_mem. apply (on_pvm_Ok _ s2). by apply Vm.lift_mem. }
  rewrite (bind_Ok _ _ _ _ _ E3). set (s3 := PSt _ _ _). assert (KMem.KP2V f <> 0) as Hpg.
  { destruct Hp. unfold KMem.KP2V. rewrite u32_small; unfold is_u32, KMem.KERNEL_BASE, KMem.KERNEL_SPACE_SIZE, KMem.PHY_MEMORY_TOP in *; lia. }
  unfold page_ref. rewrite (proj2 (Z.eqb_neq (KMem.KP2V f) 0)) by done.
  assert (init_task_stack t (Some (KMem.KP2V f)) (ts (pos s3)) = Ok (true, with_task t (new_task (ts (pos s)) prio nm (KMem.KP2V f)) T)) as E4.
  { unfold s3, s2, init_task_stack. cbn [pos ts]. rewrite (bind_Ok _ _ _ _ _ (upd_task_Ok _ t _ _ (task_at_same T t x _ HT))). by rewrite with_with. }
  by rewrite (bind_Ok _ _ _ _ _ (on_tab_Ok _ _ _ _ E4)).
Qed.

(** ** Files of the child *)

(** One more reference for every open file. *)
Definition dup_refs (l : list (option Z)) (ft : list File.file) : list File.file :=
  foldl (fun ft o => match o with Some f => alter (fun x => File.set_refs (File.refs x + 1) x) (Z.to_nat f) ft | None => ft end) ft l.

(** How often a file is open. *)
Definition opens (f : Z) (l : list (option Z)) : Z := Z.of_nat (length (filter (fun o => o = Some f) l)).

Lemma dup_refs_lookup l : forall ft f x, 0 <= f -> Forall (fun o => match o with Some g => 0 <= g | None => True end) l ->
  ft !! Z.to_nat f = Some x -> dup_refs l ft !! Z.to_nat f = Some (File.set_refs (File.refs x + opens f l) x).
Proof.
  induction l as [|o l IH]; intros ft f x Hf Hl Hx.
  { unfold opens. simpl. rewrite Z.add_0_r. by destruct x. }
  apply Forall_cons in Hl as [Ho Hl]. cbn [dup_refs foldl]. fold (dup_refs l). destruct o as [g|].
  - destruct (decide (g = f)) as [->|Hne].
    + change (foldl _ ?a l) with (dup_refs l a). rewrite (IH _ f (File.set_refs (File.refs x + 1) x)); [|done|done|by rewrite list_lookup_alter_eq, Hx].
      unfold opens. rewrite filter_cons_True by done. unfold File.set_refs. cbn [length File.refs File.ftype File.writable File.readable File.finode File.fpipe File.offset]. do 2 f_equal. lia.
    + change (foldl _ ?a l) with (dup_refs l a). rewrite (IH _ f x); [|done|done|rewrite list_lookup_alter_ne by lia; done].
      unfold opens. rewrite filter_cons_False by congruence. done.
  - change (foldl _ ?a l) with (dup_refs l a). rewrite (IH _ f x) by done. unfold opens. by rewrite filter_cons_False.
Qed.

(** The open files of a task are files of the table, whose reference counts do not overflow. *)
Definition files_ok (l : list (option Z)) (ft : list File.file) (n : Z) : Prop :=
  forall f, Some f ∈ l -> 0 <= f /\ exists x, ft !! Z.to_nat f = Some x /\ 1 <= File.refs x /\ File.refs x + n < 2 ^ 32.

Lemma dup_loop_spec child n : forall a s y, (a + n = 16)%nat -> length (File.ofiles (fs (pos s))) = 16%nat ->
  task_at (ts (pos s)) child = Some y -> length (t_ofiles y) = 16%nat ->
  (forall i, (i < 16)%nat -> t_ofiles y !! i = if decide (i < a)%nat then File.ofiles (fs (pos s)) !! i else Some None) ->
  files_ok (File.ofiles (fs (pos s))) (File.ftable (fs (pos s))) (Z.of_nat n) ->
  for_loop n a (dup_ofile child) s =
    Ok (tt, PSt (Os (with_task child (set_files (File.ofiles (fs (pos s))) (t_cwd y) y) (ts (pos s)))
                    (File.set_ftable (dup_refs (drop a (File.ofiles (fs (pos s)))) (File.ftable (fs (pos s)))) (fs (pos s)))) (pvm s) (ptf s)).
Proof.
  induction n as [|n IH]; intros a s y Ha Hl Hy Hyl Hof Hok; simpl.
  { rewrite drop_ge by lia. assert (t_ofiles y = File.ofiles (fs (pos s))) as Ho.
    { apply list_eq_same_length with 16%nat; [lia|done|]. intros i o o' Hi. rewrite Hof by lia. rewrite decide_True by lia. congruence. }
    rewrite <- Ho. assert (set_files (t_ofiles y) (t_cwd y) y = y) as -> by (by destruct y).
    rewrite with_task_id by done. by destruct s as [[? []] ? ?]. }
  destruct (lookup_lt_is_Some_2 (File.ofiles (fs (pos s))) a) as [o Ho]; [lia|].
  assert (on_file (index (File.ofiles (fs (pos s))) (Z.of_nat a)) s = Ok (o, s)) as E0.
  { erewrite on_file_Ok; [|unfold index; rewrite (proj2 (Z.ltb_ge _ _)) by lia; rewrite Nat2Z.id, Ho; reflexivity]. by destruct s as [[] ? ?]. }
  rewrite (drop_S _ o a) by done.
  unfold mbind at 1, M_bind at 1. unfold dup_ofile at 1. rewrite (bind_Ok _ _ _ _ _ eq_refl), (bind_Ok _ _ _ _ _ E0).
  destruct o as [f|].
  - destruct (Hok f) as (Hf & x & Hx & Hr & Hb); [by eapply list_elem_of_lookup_2|].
    set (F := File.set_ftable (<[Z.to_nat f := File.set_refs (File.refs x + 1) x]> (File.ftable (fs (pos s)))) (fs (pos s))).
    assert (File.file_dup f (fs (pos s)) = Ok (f, F)) as E1.
    { unfold File.file_dup. rewrite (bind_Ok _ _ _ _ _ (File.get_file_Ok _ _ _ Hf Hx)).
      rewrite (bind_Ok _ _ _ tt (fs (pos s))) by (apply ASSERT_true, Z.leb_le; done).
      rewrite u32_small by (unfold is_u32; lia). done. }
    rewrite (bind_Ok _ _ _ _ _ (on_file_Ok _ _ _ _ E1)). set (s1 := PSt _ _ _).
    set (y1 := set_files (<[a := Some f]> (t_ofiles y)) (t_cwd y) y).
    assert (upd_task child (fun x => set_files (<[a := Some f]> (t_ofiles x)) (t_cwd x) x) (ts (pos s1)) = Ok (tt, with_task child y1 (ts (pos s)))) as E2
      by exact (upd_task_Ok (ts (pos s)) child y (fun x => set_files (<[a := Some f]> (t_ofiles x)) (t_cwd x) x) Hy).
    rewrite (on_tab_Ok _ _ _ _ E2). set (s2 := PSt _ _ _).
    rewrite (IH (S a) s2 y1); [|lia|done|by apply task_at_same with y|simpl; by rewrite length_insert| |].
    + unfold s2, s1, F. cbn [pos ts fs pvm ptf]. rewrite with_with.
      assert (forall l ft, dup_refs (Some f :: l) ft = dup_refs l (alter (fun x => File.set_refs (File.refs x + 1) x) (Z.to_nat f) ft)) as Hd by done.
      rewrite Hd. assert (alter (fun x => File.set_refs (File.refs x + 1) x) (Z.to_nat f) (File.ftable (fs (pos s))) =
        <[Z.to_nat f := File.set_refs (File.refs x + 1) x]> (File.ftable (fs (pos s)))) as ->; [|done].
      apply list_eq. intros j. destruct (decide (Z.to_nat f = j)) as [<-|Hne].
      * rewrite list_lookup_alter_eq, Hx, list_lookup_insert_eq by (by eapply lookup_lt_Some). done.
      * by rewrite list_lookup_alter_ne, list_lookup_insert_ne.
    + intros i Hi. simpl. destruct (decide (i = a)) as [->|Hne].
      * rewrite list_lookup_insert_eq by lia. by rewrite decide_True by lia.
      * rewrite list_lookup_insert_ne by done. rewrite Hof by done. repeat case_decide; try done; lia.
    + intros g Hg. simpl. destruct (Hok g Hg) as (Hg0 & z & Hz & Hz1 & Hz2). split; [done|].
      destruct (decide (Z.to_nat f = Z.to_nat g)) as [Heq|Hne].
      * rewrite <- Heq, list_lookup_insert_eq by (by eapply lookup_lt_Some). eexists. split; [done|]. simpl. rewrite <- Heq, Hx in Hz. injection Hz as <-. lia.
      * rewrite list_lookup_insert_ne by done. exists z. split_and!; [done|done|lia].
  - simpl. rewrite (IH (S a) s y); [done|lia|done|done|done| |].
    + intros i Hi. rewrite Hof by done. destruct (decide (i = a)) as [->|Hne].
      * rewrite decide_False by lia. by rewrite decide_True, Ho by lia.
      * repeat case_decide; try done; lia.
    + intros g Hg. destruct (Hok g Hg) as (Hg0 & z & Hz & Hz1 & Hz2). split; [done|]. exists z. split_and!; [done|done|lia].
Qed.

(** A page taken for the kernel leaves address spaces alone. *)
Lemma page_taken s v pd r m f : Vm.space s v pd r -> PgTab.vm_ok m -> PgTab.frames m = Vm.vframes s ->
  PgTab.free_frames (Vm.mem s) = f :: PgTab.free_frames m ->
  Vm.space (Vm.set_mem m s) v pd r /\ (forall va, PgTab.uload m pd va = PgTab.uload (Vm.mem s) pd va) /\
  PgTab.pd_frames m pd 0 PgTab.USER_PDES = PgTab.pd_frames (Vm.mem s) pd 0 PgTab.USER_PDES.
Proof.
  intros Hs Hok Hfr Hfree. set (k := KMem.KMemSt (KMem.blocks (Vm.km s)) (KMem.desc (Vm.km s)) (PgTab.pm m)).
  assert (Vm.set_mem m s = Vm.set_km k s) as Es by (unfold Vm.set_mem, Vm.set_km; by rewrite Hfr).
  assert (KMem.free_list (KMem.pages (Vm.km s)) = [f + KMem.KERNEL_BASE] ++ KMem.free_list (PgTab.pm m)) as Hl.
  { unfold PgTab.free_frames in Hfree. simpl in Hfree. destruct (KMem.free_list (KMem.pages (Vm.km s))) as [|p l]; [done|].
    simpl in Hfree. injection Hfree as Hp Hl. apply (list_fmap_eq_inj (fun p => p - KMem.KERNEL_BASE)) in Hl; [|intros a b; lia]. simpl. rewrite Hl. f_equal. lia. }
  destruct (Vm.fewer_space s k v pd r [f + KMem.KERNEL_BASE] Hs) as (H1 & H2 & H3 & _).
  - pose proof Hs as [_ Hk _ _]. apply (Vm.kmem_ok_pages (Vm.km s)); [done|by apply Hok|].
    intros x Hx. rewrite Hl. apply elem_of_app. by right.
  - exact Hl.
  - intros x Hx. by left.
  - done.
  - rewrite <- Es in H1, H2, H3. rewrite Vm.mem_set_mem in H2, H3. done.
Qed.

(** ** [fork] *)

(** The process that forks: its task [x], its address space, its trap frame and its files. *)
Record forking (s : pst) (x : task_struct) (v pd : Z) (r : Vm.vm) (tf : tframe) (i : Inode.inode) : Prop := {
  fk_tasks : task_inv (ts (pos s));
  fk_task : task_at (ts (pos s)) (cur s) = Some x;
  fk_vm : vm x = VmUser v;
  fk_cur : Vm.cur_vm (pvm s) = v;
  fk_space : Vm.space (pvm s) v pd r;
  fk_tf : ptf s !! cur s = Some tf;
  fk_alive : is_killed s = false;
  fk_files : length (File.ofiles (fs (pos s))) = 16%nat /\ files_ok (File.ofiles (fs (pos s))) (File.ftable (fs (pos s))) 16;
  fk_cwd : 0 <= File.cwd (fs (pos s)) /\ Inode.icache (File.il (fs (pos s))) !! Z.to_nat (File.cwd (fs (pos s))) = Some i;
}.

Section fork.
Context `{SchedularLaws}.

Definition child_task (s : pst) (x : task_struct) (page nv : Z) : task_struct :=
  MkTask (next_pid (ts (pos s))) (name x) TASK_READY (priority x) (priority x) (Some page) (VmUser nv)
    (Some (cur s)) false 0 (File.ofiles (fs (pos s))) (Some (File.cwd (fs (pos s)))).

Lemma fork_spec s x v pd r tf i child : forking s x v pd r tf i ->
  find_unused 0 (task_table (ts (pos s))) = Some child ->
  (3 + length (PgTab.pd_frames (Vm.mem (pvm s)) pd 0 PgTab.USER_PDES) <= length (PgTab.free_frames (Vm.mem (pvm s))))%nat ->
  exists page nv cp s' y, proc_fork s = Ok (next_pid (ts (pos s)), s') /\
    task_inv (ts (pos s')) /\ cur s' = cur s /\ is_killed s' = false /\
    task_at (ts (pos s')) child = Some y /\ same_task (child_task s x page nv) y /\ child ∈ rq_list (ts (pos s')) /\
    (forall t z, t <> child -> task_at (ts (pos s)) t = Some z -> exists z', task_at (ts (pos s')) t = Some z' /\ same_task z z') /\
    ptf s' = <[child := set_eax 0 tf]> (ptf s) /\
    Vm.vms (pvm s) !! nv = None /\ Vm.space (pvm s') nv cp (Vm.MkVm (KMem.KP2V cp) (Vm.brk r)) /\ Vm.space (pvm s') v pd r /\
    PgTab.apart (Vm.mem (pvm s')) cp pd /\
    (forall va, 0 <= va < KMem.KERNEL_BASE ->
       PgTab.uload (Vm.mem (pvm s')) cp va = PgTab.uload (Vm.mem (pvm s)) pd va /\
       PgTab.uload (Vm.mem (pvm s')) pd va = PgTab.uload (Vm.mem (pvm s)) pd va) /\
    File.ftable (fs (pos s')) = dup_refs (File.ofiles (fs (pos s))) (File.ftable (fs (pos s))) /\
    File.ofiles (fs (pos s')) = File.ofiles (fs (pos s)) /\
    Inode.icache (File.il (fs (pos s'))) =
      <[Z.to_nat (File.cwd (fs (pos s))) := Inode.set_ref (Inode.ref i + 1) i]> (Inode.icache (File.il (fs (pos s)))).
Proof.
  intros [K1 K2 K3 K4 K5 K6 K7 [K8 K9] [K10 K11]] Hu Hlen. set (T0 := ts (pos s)) in *. set (F0 := fs (pos s)) in *.
  destruct (find_unused_spec T0 (task_table T0) 0 child (table_at T0) Hu) as (z & Hz & Hzu).
  destruct (PgTab.free_frames (Vm.mem (pvm s))) as [|f l] eqn:Ef; [simpl in Hlen; lia|].
  pose proof K5 as [[_ _ Hok _] _ _ _].
  destruct (kthread_create_spec (priority x) (name x) s child z f l Hu Hz Hok Ef) as (m & E1 & Hm & Hml & Hmf & Hfp). fold T0 F0 in E1.
  set (y1 := new_task T0 (priority x) (name x) (KMem.KP2V f)) in *. set (T1 := count_pid T0) in *.
  assert (task_at T1 child = Some z) as HT1 by done.
  destruct (page_taken (pvm s) v pd r m f K5 Hm Hmf) as (Hs1 & U1 & P1); [by rewrite Ef, Hml|].
  destruct (Vm.vm_copy_spec (Vm.set_mem m (pvm s)) v pd r Hs1) as (nv & cp & V2 & E2 & N1 & N2 & _ & _ & _ & _ & S1 & S2 & Ap & U2).
  { rewrite Vm.mem_set_mem, P1, Hml. simpl in Hlen. lia. }
  rewrite Vm.mem_set_mem in U2. set (y2 := set_vm (VmUser nv) y1). set (y3 := set_parent (Some (cur s)) y2).
  set (y4 := set_files (File.ofiles F0) (t_cwd y3) y3). set (y5 := set_files (t_ofiles y4) (Some (File.cwd F0)) y4).
  set (F1 := File.set_ftable (dup_refs (File.ofiles F0) (File.ftable F0)) F0).
  set (I2 := Inode.Ist (Inode.fl (File.il F0)) (<[Z.to_nat (File.cwd F0) := Inode.set_ref (Inode.ref i + 1) i]> (Inode.icache (File.il F0))) (Inode.curtask (File.il F0))).
  set (F2 := set_part I2 F1). set (T2 := with_task child y5 T1).
  assert (runnable y5) as Hrun.
  { destruct (v_tasks _ (ti_sched _ K1) _ _ K2) as (R1 & R2 & R3).
    - pose proof (ti_running _ K1) as R. unfold running, state_at in R. unfold cur in K2. fold T0 in K2. rewrite K2 in R. injection R as ->. done.
    - unfold runnable, y5, y4, y3, y2, y1. simpl. split_and!; [done|lia|lia|lia]. }
  assert (task_inv T2) as HI by (apply (unused_inv T1 child z); [by apply task_inv_count|done|done|left; by split]).
  assert (task_at T2 child = Some y5) as HT2 by (by apply task_at_same with z).
  assert (child <> idle_task T2) as Hidle.
  { intros Hc. destruct (v_idle _ (ti_sched _ K1)) as (q & Hq & Hq'). change (idle_task T2) with (idle_task T0) in Hc. rewrite <- Hc, Hz in Hq. congruence. }
  destruct (make_ready T2 child y5 (ti_sched _ HI) HT2) as (T3 & E3 & V3 & Fr & Prq); [done|done|done|].
  assert (task_wakeup child T2 = Ok (tt, T3)) as E4.
  { unfold task_wakeup. rewrite (bind_Ok _ _ _ _ _ (task_at_get _ _ _ HT2)). rewrite (bind_Ok _ _ _ tt T2) by done. exact E3. }
  destruct (task_wakeup_inv T2 child tt T3 HI) as (HI3 & C3 & _ & _ & _); [unfold state_at; by rewrite HT2|exact E4|].
  destruct (f_tasks _ _ Fr child (set_state TASK_READY y5)) as (y & Hy & Hsame); [by apply task_at_same with y5|].
  set (s' := PSt (Os T3 F2) V2 (<[child := set_eax 0 tf]> (ptf s))).
  exists (KMem.KP2V f), nv, cp, s', y. split_and!; try done.
  - unfold proc_fork. rewrite (bind_Ok _ _ _ s s) by done. cbv zeta.
    rewrite (bind_Ok _ _ _ x s).
    2:{ rewrite (on_tab_Ok _ _ _ _ (task_at_get _ _ _ K2)). by destruct s as [[] ? ?]. }
    rewrite (bind_Ok _ _ _ tt s) by (apply ASSERT_true, bool_decide_eq_true; by rewrite K3).
    rewrite (bind_Ok _ _ _ _ _ E1). rewrite (bind_Ok _ _ _ _ _ eq_refl). set (s1 := PSt _ _ _).
    change (is_killed s1) with (is_killed s). rewrite K7.
    assert (Vm.vm_copy false (Vm.cur_vm (pvm s1)) (pvm s1) = Ok (nv, V2)) as E2' by (simpl; by rewrite K4).
    rewrite (bind_Ok _ _ _ _ _ (on_pvm_Ok _ _ _ _ E2')). set (s2 := PSt _ _ _).
    unfold vm_of. rewrite (proj2 (Z.eqb_neq nv 0)) by done.
    assert (forall g y' y'' V tfs, g y' = y'' ->
      on_tab (upd_task child g) (PSt (Os (with_task child y' T1) F0) V tfs) = Ok (tt, PSt (Os (with_task child y'' T1) F0) V tfs)) as Hupd.
    { intros g y' y'' V tfs <-. erewrite on_tab_Ok; [|apply (upd_task_Ok _ child y'); by apply task_at_same with z]. cbn [pos ts fs]. by rewrite with_with. }
    rewrite (bind_Ok _ _ _ _ _ (Hupd (set_vm (VmUser nv)) y1 y2 V2 (ptf s) eq_refl)).
    rewrite (bind_Ok _ _ _ tf (PSt (Os (with_task child y2 T1) F0) V2 (ptf s))) by (unfold get_tf; rewrite (bind_Ok _ _ _ _ _ eq_refl); cbn [ptf]; by rewrite K6).
    rewrite (bind_Ok _ _ _ tt (PSt (Os (with_task child y2 T1) F0) V2 (<[child := set_eax 0 tf]> (ptf s)))) by done.
    rewrite (bind_Ok _ _ _ _ _ (Hupd (set_parent (Some (cur s))) y2 y3 V2 _ eq_refl)). set (s3 := PSt _ _ _).
    rewrite (bind_Ok _ _ _ tt (PSt (Os (with_task child y4 T1) F1) V2 (<[child := set_eax 0 tf]> (ptf s)))).
    2:{ change (Z.to_nat NOFILE) with 16%nat. rewrite (dup_loop_spec child 16 0 s3 y3); [|done|done|by apply task_at_same with z|done| |done].
        - cbn [s3 pos ts fs pvm ptf]. by rewrite with_with, drop_0.
        - intros j Hj. rewrite decide_False by lia. change (replicate 16 (@None Z) !! j = Some None). by apply lookup_replicate_2. }
    set (s4 := PSt _ _ _). rewrite (bind_Ok _ _ _ s4 s4) by done.
    assert (File.ino (Inode.inode_dup (File.cwd (fs (pos s4)))) (fs (pos s4)) = Ok (File.cwd F0, F2)) as E5.
    { unfold File.ino, lift, Inode.inode_dup. cbn [s4 pos fs].
      change (File.cwd F1) with (File.cwd F0).
      change (part F1) with (File.il F0). rewrite (bind_Ok _ _ _ _ _ (Inode.upd_inode_Ok _ _ _ _ K10 K11)). done. }
    rewrite (bind_Ok _ _ _ _ _ (on_file_Ok _ _ _ _ E5)). cbn [s4 pos ts pvm ptf].
    assert (on_tab (upd_task child (fun x => set_files (t_ofiles x) (Some (File.cwd F0)) x))
      (PSt (Os (with_task child y4 T1) F2) V2 (<[child := set_eax 0 tf]> (ptf s))) = Ok (tt, PSt (Os T2 F2) V2 (<[child := set_eax 0 tf]> (ptf s)))) as E6.
    { erewrite on_tab_Ok; [|apply (upd_task_Ok _ child y4 (fun x => set_files (t_ofiles x) (Some (File.cwd F0)) x)); by apply task_at_same with z].
      cbn [pos ts fs pvm ptf]. by rewrite with_with. }
    rewrite (bind_Ok _ _ _ _ _ E6). rewrite (bind_Ok _ _ _ tt s') by exact (on_tab_Ok (task_wakeup child) (PSt (Os T2 F2) V2 (<[child := set_eax 0 tf]> (ptf s))) tt T3 E4).
    rewrite (bind_Ok _ _ _ y s') by (by rewrite (on_tab_Ok _ s' _ _ (task_at_get _ _ _ Hy))).
    destruct Hsame as [Hsame _]. rewrite Hsame. done.
  - simpl. rewrite Prq. by left.
  - intros t q Ht Hq. apply (f_tasks _ _ Fr). rewrite (task_at_with T2 child y5) by done. rewrite decide_False by done.
    unfold T2. rewrite (task_at_with T1 child z) by done. by rewrite decide_False.
  - intros va Hva. change (pvm s') with V2. destruct (U2 va Hva) as [-> ->]. by rewrite U1.
Qed.
End fork.

Section claims.
Context `{SchedularLaws}.

(** C22: [fork] with a free task and enough memory.  It returns the pid of the child, which
    is ready to run in the first free entry of the table, a child of the caller with its
    name and priority; its trap frame is the caller's but for the result 0; its address space
    has the contents of the caller's in frames of its own, and the caller's is unchanged; both
    have the same files open, every open file has one more reference for every descriptor,
    and so has the current directory.  No other task changes. *)
Theorem proc_fork_correct s x v pd r tf i child : forking s x v pd r tf i ->
  find_unused 0 (task_table (ts (pos s))) = Some child ->
  (3 + length (PgTab.pd_frames (Vm.mem (pvm s)) pd 0 PgTab.USER_PDES) <= length (PgTab.free_frames (Vm.mem (pvm s))))%nat ->
  exists page nv cp s' y, proc_fork s = Ok (next_pid (ts (pos s)), s') /\
    task_inv (ts (pos s')) /\ cur s' = cur s /\
    task_at (ts (pos s')) child = Some y /\ same_task (child_task s x page nv) y /\ child ∈ rq_list (ts (pos s')) /\
    (forall t z, t <> child -> task_at (ts (pos s)) t = Some z -> exists z', task_at (ts (pos s')) t = Some z' /\ same_task z z') /\
    ptf s' = <[child := set_eax 0 tf]> (ptf s) /\
    Vm.vms (pvm s) !! nv = None /\ Vm.space (pvm s') nv cp (Vm.MkVm (KMem.KP2V cp) (Vm.brk r)) /\ Vm.space (pvm s') v pd r /\
    PgTab.apart (Vm.mem (pvm s')) cp pd /\
    (forall va, 0 <= va < KMem.KERNEL_BASE ->
       PgTab.uload (Vm.mem (pvm s')) cp va = PgTab.uload (Vm.mem (pvm s)) pd va /\
       PgTab.uload (Vm.mem (pvm s')) pd va = PgTab.uload (Vm.mem (pvm s)) pd va) /\
    (forall f z, 0 <= f -> File.ftable (fs (pos s)) !! Z.to_nat f = Some z ->
       File.ftable (fs (pos s')) !! Z.to_nat f = Some (File.set_refs (File.refs z + opens f (File.ofiles (fs (pos s)))) z)) /\
    File.ofiles (fs (pos s')) = File.ofiles (fs (pos s)) /\
    Inode.icache (File.il (fs (pos s'))) =
      <[Z.to_nat (File.cwd (fs (pos s))) := Inode.set_ref (Inode.ref i + 1) i]> (Inode.icache (File.il (fs (pos s)))).
Proof.
  intros Hk Hu Hlen. destruct (fork_spec s x v pd r tf i child Hk Hu Hlen)
    as (page & nv & cp & s' & y & E & H1 & H2 & _ & H3 & H4 & H5 & H6 & H7 & H8 & H9 & H10 & H11 & H12 & H13 & H14 & H15).
  exists page, nv, cp, s', y. do 13 (split; [assumption|]). split; [|split; assumption].
  intros f z Hf Hz. rewrite H13. apply dup_refs_lookup; [exact Hf| |exact Hz].
  apply Forall_forall. intros [g|] Hg; [|done]. by apply (proj2 (fk_files _ _ _ _ _ _ _ Hk) g).
Qed.

(** A task that cannot be created. *)
Lemma kthread_create_none prio nm s : find_unused 0 (task_table (ts (pos s))) = None ->
  kthread_create prio nm s = Ok (None, s).
Proof.
  intros Hu. unfold kthread_create. rewrite (bind_Ok _ _ _ None s); [done|].
  rewrite (on_tab_Ok _ s None (ts (pos s))).
  - by destruct s as [[] ? ?].
  - unfold task_alloc. rewrite (bind_Ok _ _ _ _ _ eq_refl). by rewrite Hu.
Qed.

Lemma kthread_create_nomem prio nm s t x : find_unused 0 (task_table (ts (pos s))) = Some t -> task_at (ts (pos s)) t = Some x ->
  PgTab.free_frames (Vm.mem (pvm s)) = [] ->
  kthread_create prio nm s = Ok (None, PSt (Os (with_task t
    (MkTask 0 [] TASK_UNUSED prio prio None VmNull None false 0 (replicate (Z.to_nat NOFILE) None) None) (count_pid (ts (pos s)))) (fs (pos s))) (pvm s) (ptf s)).
Proof.
  intros Hu Ht Hf. unfold kthread_create.
  assert (task_alloc (ts (pos s)) = Ok (Some t, with_task t (set_pid (next_pid (ts (pos s))) (set_state TASK_ALLOCATED x)) (count_pid (ts (pos s))))) as E1.
  { unfold task_alloc. rewrite (bind_Ok _ _ _ _ _ eq_refl). rewrite Hu. by rewrite (bind_Ok _ _ _ _ _ (task_at_get _ _ _ Ht)). }
  rewrite (bind_Ok _ _ _ _ _ (on_tab_Ok _ _ _ _ E1)). set (T := count_pid (ts (pos s))) in *.
  assert (task_at T t = Some x) as HT by done. set (s1 := PSt _ _ _).
  set (y1 := MkTask (next_pid (ts (pos s))) nm TASK_ALLOCATED prio prio (kstack_ptr x)
    VmKernel (Some (current_task (ts (pos s)))) false 0 (replicate (Z.to_nat NOFILE) None) None).
  assert (init_task_struct t prio nm (ts (pos s1)) = Ok (tt, with_task t y1 T)) as E2.
  { unfold s1, init_task_struct. cbn [pos ts]. rewrite (bind_Ok _ _ _ _ _ eq_refl).
    rewrite (upd_task_Ok _ t _ _ (task_at_same T t x _ HT)). by rewrite with_with. }
  rewrite (bind_Ok _ _ _ _ _ (on_tab_Ok _ _ _ _ E2)). set (s2 := PSt _ _ _).
  assert (get_free_page s2 = Ok (0, s2)) as E3.
  { unfold get_free_page. rewrite (bind_Ok _ _ _ (KMem.KV2P 0) s2); [done|].
    assert (PgTab.palloc (Vm.mem (pvm s)) = Ok (KMem.KV2P 0, Vm.mem (pvm s))) as E.
    { unfold PgTab.palloc, lift, KMem.palloc. rewrite (bind_Ok _ _ _ _ _ eq_refl).
      unfold PgTab.free_frames in Hf. apply map_eq_nil in Hf. change (part (Vm.mem (pvm s))) with (PgTab.pm (Vm.mem (pvm s))). rewrite Hf. reflexivity. }
    unfold on_mem. rewrite (on_pvm_Ok _ s2 (KMem.KV2P 0) (pvm s)); [done|]. change (pvm s2) with (pvm s). rewrite (Vm.lift_mem _ _ _ _ E). by destruct (pvm s) as [[] ? ? ? ?]. }
  rewrite (bind_Ok _ _ _ _ _ E3). change (page_ref 0) with (@None Z).
  assert (init_task_stack t None (ts (pos s2)) = Ok (false, with_task t (set_kstack None y1) T)) as E4.
  { unfold s2, init_task_stack. cbn [pos ts]. rewrite (bind_Ok _ _ _ _ _ (upd_task_Ok _ t _ _ (task_at_same T t x _ HT))). by rewrite with_with. }
  rewrite (bind_Ok _ _ _ _ _ (on_tab_Ok _ _ _ _ E4)). set (s3 := PSt _ _ _). unfold task_free.
  assert (Task.task_free t (ts (pos s3)) = Ok ([], with_task t (MkTask 0 [] TASK_UNUSED prio prio None VmNull None false 0 (replicate (Z.to_nat NOFILE) None) None) T)) as E5.
  { unfold Task.task_free, s3. cbn [pos ts]. rewrite (bind_Ok _ _ _ _ _ (task_at_get _ _ _ (task_at_same T t x _ HT))).
    rewrite (bind_Ok _ _ _ tt (with_task t (set_kstack None y1) T)) by done. rewrite (bind_Ok _ _ _ tt (with_task t (set_kstack None y1) T)) by done.
    erewrite bind_Ok; [|reflexivity].
    match goal with |- _ = Ok ([], with_task _ ?y _) => change (Ok (@nil released, with_task t y (with_task t (set_kstack None y1) T)) = Ok ([], with_task t y T)) end.
    by rewrite with_with. }
  rewrite (bind_Ok _ _ _ tt (PSt (Os (with_task t (MkTask 0 [] TASK_UNUSED prio prio None VmNull None false 0 (replicate (Z.to_nat NOFILE) None) None) T) (fs (pos s))) (pvm s) (ptf s)));
    [done|]. rewrite (bind_Ok _ _ _ _ _ (on_tab_Ok _ _ _ _ E5)). done.
Qed.

(** [fork] without a free task or without memory for a kernel stack returns -1; no task
    in use, no file, no memory and no trap frame has changed. *)
Theorem proc_fork_fails s x : task_inv (ts (pos s)) -> task_at (ts (pos s)) (cur s) = Some x -> vm x <> VmKernel ->
  find_unused 0 (task_table (ts (pos s))) = None \/ PgTab.free_frames (Vm.mem (pvm s)) = [] ->
  exists s', proc_fork s = Ok (-1, s') /\ task_inv (ts (pos s')) /\ cur s' = cur s /\
    (forall t z, task_at (ts (pos s)) t = Some z -> state z <> TASK_UNUSED -> task_at (ts (pos s')) t = Some z) /\
    (forall t, state_at (ts (pos s')) t = state_at (ts (pos s)) t) /\
    fs (pos s') = fs (pos s) /\ pvm s' = pvm s /\ ptf s' = ptf s.
Proof.
  intros HI Hx Hv Hor.
  assert (forall r s', kthread_create (priority x) (name x) s = Ok (None, s') -> r = -1 -> proc_fork s = Ok (r, s')) as Hf.
  { intros r s' E ->. unfold proc_fork. rewrite (bind_Ok _ _ _ s s) by done. cbv zeta.
    rewrite (bind_Ok _ _ _ x s).
    2:{ rewrite (on_tab_Ok _ _ _ _ (task_at_get _ _ _ Hx)). by destruct s as [[] ? ?]. }
    rewrite (bind_Ok _ _ _ tt s) by (by apply ASSERT_true, bool_decide_eq_true). by rewrite (bind_Ok _ _ _ _ _ E). }
  destruct (find_unused 0 (task_table (ts (pos s)))) as [t|] eqn:Hu.
  2:{ exists s. rewrite (Hf (-1) s (kthread_create_none _ _ _ Hu) eq_refl). done. }
  destruct Hor as [|Hor]; [done|].
  destruct (find_unused_spec (ts (pos s)) (task_table (ts (pos s))) 0 t (table_at _) Hu) as (z & Hz & Hzu).
  eexists. split; [apply Hf; [exact (kthread_create_nomem _ _ s t z Hu Hz Hor)|done]|]. cbn [pos ts fs pvm ptf].
  assert (task_at (count_pid (ts (pos s))) t = Some z) as Hz' by done.
  split_and!; try done.
  - apply (unused_inv (count_pid (ts (pos s))) t z); [by apply task_inv_count|done|done|by right].
  - intros t' z' Ht' Hs. rewrite (task_at_with (count_pid (ts (pos s))) t z) by done. rewrite decide_False; [done|]. intros ->. congruence.
  - intros t'. rewrite (state_at_with (count_pid (ts (pos s))) t z) by done. case_decide as Heq; [|done]. subst t'. change (Some TASK_UNUSED = state_at (ts (pos s)) t). unfold state_at. rewrite Hz. simpl. by rewrite Hzu.
Qed.
End claims.

(** ** Examples *)

(** The running process of [demo_orphans] in the address space of [Vm.demo_vst], with the
    file 0 open twice. *)
Definition demo_tst : tst :=
  with_task 0 (set_vm (VmUser Vm.demo_ptr) (demo_child 2 TASK_RUNNING 0)) demo_orphans.

Definition demo_ofiles : list (option Z) := Some 0 :: None :: Some 0 :: replicate 13 None.

Definition demo_pfs : File.kst :=
  File.Kst (File.il File.demo_kst) (File.ftable File.demo_kst) ∅ 0 demo_ofiles 0 false.

Definition demo_pvst : Vm.vst :=
  Vm.VSt (Vm.km (Vm.demo_vst 0)) (Vm.vframes (Vm.demo_vst 0)) (Vm.vms (Vm.demo_vst 0)) Vm.demo_ptr true.

Definition demo_pst : pst := PSt (Os demo_tst demo_pfs) demo_pvst {[0 := user_tframe Vm.USER_BASE]}.

Lemma demo_forking : forking demo_pst (set_vm (VmUser Vm.demo_ptr) (demo_child 2 TASK_RUNNING 0))
  Vm.demo_ptr (PgTab.demo_frame 8) (Vm.demo_vm 0) (user_tframe Vm.USER_BASE) File.demo_open_inode.
Proof.
  split; [|reflexivity|reflexivity|reflexivity| |reflexivity|reflexivity| |split; reflexivity].
  - apply (task_inv_with demo_orphans 0 (demo_child 2 TASK_RUNNING 0)); [apply demo_orphans_inv|reflexivity..].
  - destruct Vm.demo_space as [[H1 H2 H3 H4] H5 H6 H7]. split; [split; [exact H1|exact H2|exact H3|exact H4]|exact H5|exact H6|exact H7].
  - split; [reflexivity|]. intros f Hf. assert (f = 0) as ->.
    { repeat (apply elem_of_cons in Hf as [Hf|Hf]; [congruence|]). by apply elem_of_nil in Hf. }
    split; [lia|]. eexists. split; [reflexivity|]. simpl. lia.
Qed.

Lemma proc_fork_correct_witness :
  exists page nv cp s' y, proc_fork (H := round_robin) demo_pst = Ok (8, s') /\
    task_at (ts (pos s')) 5 = Some y /\ same_task (child_task demo_pst (demo_child 2 TASK_RUNNING 0) page nv) y /\
    PgTab.apart (Vm.mem (pvm s')) cp (PgTab.demo_frame 8) /\
    option_map File.refs (File.ftable (fs (pos s')) !! 0%nat) = Some 3.
Proof.
  destruct (proc_fork_correct (H := round_robin) demo_pst _ _ _ _ _ _ 5 demo_forking)
    as (page & nv & cp & s' & y & E & _ & _ & H3 & H4 & _ & _ & _ & _ & _ & _ & H11 & _ & H13 & _ & _).
  - by vm_compute.
  - change (Vm.mem (pvm demo_pst)) with (PgTab.demo_as 8). rewrite (PgTab.demo_as_frames 8).
    change (PgTab.free_frames (PgTab.demo_as 8)) with (PgTab.free_frames (PgTab.demo_base 8)). rewrite (PgTab.demo_pool_free 8). simpl. lia.
  - exists page, nv, cp, s', y. split; [exact E|]. split; [exact H3|]. split; [exact H4|]. split; [exact H11|].
    specialize (H13 0 File.demo_file ltac:(lia) eq_refl). change (Z.to_nat 0) with 0%nat in H13. rewrite H13. reflexivity.
Defined.

(** A table without a free entry. *)
Definition demo_full : pst :=
  PSt (Os (Tst (take 5 (task_table demo_tst) ++ replicate 123 (demo_task TASK_BLOCKED 10)) [] 0 0 1 (Some 2) 8) demo_pfs) demo_pvst ∅.

Lemma demo_full_at t x : task_at (ts (pos demo_full)) t = Some x ->
  (t < 5 /\ task_at demo_tst t = Some x) \/ (5 <= t /\ x = demo_task TASK_BLOCKED 10).
Proof.
  intros E. apply task_at_nonneg in E as [Ht E]. cbn [demo_full pos ts task_table] in E. apply lookup_app_Some in E as [E|[Hl E]].
  - left. assert (Z.to_nat t < 5)%nat as Hlt by (apply lookup_lt_Some in E; rewrite length_take in E; lia). split; [lia|].
    unfold task_at. rewrite (proj2 (Z.ltb_ge _ _)) by done. by rewrite lookup_take_lt in E.
  - right. split; [change (length (take 5 (task_table demo_tst))) with 5%nat in Hl; lia|]. by apply lookup_replicate in E as [-> _].
Qed.

Lemma demo_full_inv : task_inv (ts (pos demo_full)).
Proof.
  destruct (fk_tasks _ _ _ _ _ _ _ demo_forking) as [[V1 V2 V3 V4 V5 V6 V7 V8] R I Z]. change (ts (pos demo_pst)) with demo_tst in *.
  assert (forall t x, task_at (ts (pos demo_full)) t = Some x -> state x <> TASK_READY /\ (state x = TASK_RUNNING -> t = 0)) as Hs.
  { intros t x [[Ht E]|[Ht ->]]%demo_full_at; [|done]. split.
    - intros Hr. assert (t ∈ rq_list demo_tst) as Hin by (apply V7; unfold state_at; rewrite E; by rewrite <- Hr). by apply elem_of_nil in Hin.
    - intros Hr. apply V8. unfold state_at. rewrite E. by rewrite <- Hr. }
  split; [split|..].
  - reflexivity.
  - by eexists.
  - by exists (demo_task TASK_BLOCKED 10).
  - intros t x [[Ht E]|[Ht ->]]%demo_full_at Hu; [by apply (V4 t)|]. split; simpl; [done|lia].
  - constructor.
  - apply not_elem_of_nil.
  - intros t. split; [intros Hin; by apply elem_of_nil in Hin|]. unfold state_at.
    destruct (task_at _ t) as [x|] eqn:E; [|done]. intros Hr. injection Hr as Hr. by destruct (Hs t x E).
  - intros t. unfold state_at. destruct (task_at _ t) as [x|] eqn:E; [|done]. intros Hr. injection Hr as Hr. by apply (Hs t x E).
  - reflexivity.
  - intros i Hi. injection Hi as <-. by exists TASK_WAITING.
  - done.
Qed.

Lemma proc_fork_fails_witness :
  exists s', proc_fork (H := round_robin) demo_full = Ok (-1, s') /\ pvm s' = pvm demo_full.
Proof.
  destruct (proc_fork_fails (H := round_robin) demo_full (set_vm (VmUser Vm.demo_ptr) (demo_child 2 TASK_RUNNING 0)) demo_full_inv)
    as (s' & E & _ & _ & _ & _ & _ & Hm & _); [reflexivity|discriminate|left; by vm_compute|].
  exists s'. split; [exact E|exact Hm].
Defined.
End Proc.
