(* ===== verification/Syscall.v ===== *)
(** The system calls: src/kernel/syscall/sysproc.c and the dispatcher of
    src/kernel/syscall/syscall_init.c, over the processes of Proc.v, with the calls of the
    file system from SysFs.v.

    A system call runs until it returns, or until the task gives up the processor; then the
    model stops ([Off]) with what is left to do once the task runs again ([pending]). *)

From stdpp Require Import base numbers list gmap.
From Stdlib Require Import ZArith Lia.
From S2P Require Import Prelude Semaphore BlockIO Log BAlloc Inode Dir Pathname File Balance Sched Task KMem PgTab Vm SysFs Exec Proc.
#[local] Open Scope Z_scope.

Module Syscall.
Import Sched Task Exec Proc.

Definition KILLED_TASK_EXITSTATUS : Z := 100.

(** What a task has to do when it runs again: to return from [task_yield], or the next turn
    of the loop of [task_wait] with its argument. *)
Inductive pending := InYield | InWait (status : option Z).

(** [Gone]: the task has exited. *)
Inductive result := Ret (r : Z) | Off (p : pending) | Gone.

(** *** Memory of the current process *)

Definition cur_pgdir (s : pst) : option Z := Vm.pgdir <$> Vm.vms (pvm s) !! Vm.cur_vm (pvm s).

(** The byte at [va], [None] where nothing is mapped; [other] has the bytes from KERNEL_BASE on,
    the kernel's, which are not in the model. *)
Definition user_mem (other : Z -> option Z) (s : pst) (va : Z) : option Z :=
  if va <? KMem.KERNEL_BASE then cur_pgdir s ≫= (fun pd => PgTab.uload (Vm.mem (pvm s)) (KMem.KV2P pd) va)
  else other va.

(** A store to the memory of the current process. *)
Definition store (dst : Z) (src : list Z) : M pst unit :=
  s ← get;
  match cur_pgdir s with
  | None => panic
  | Some pd => on_mem (store_user (3 + Z.to_nat (Z.of_nat (length src) / KMem.PG_SIZE)) pd dst src)
  end.

(** *** Switching tasks *)

Definition on_os {A} (m : M os A) : M pst A := lift m.

(** [vm_switchvm] to the address space of the task that [schedule] chose. *)
Definition switch_vm : M pst unit :=
  s ← get;
  x ← on_tab (get_task (cur s));
  match vm x with
  | VmNull => panic
  | VmKernel => on_vm (modify (fun s => Vm.VSt (Vm.km s) (Vm.vframes s) (Vm.vms s) Vm.kvm (Vm.intr s)))
  | VmUser v => on_vm (modify (fun s => Vm.VSt (Vm.km s) (Vm.vframes s) (Vm.vms s) v (Vm.intr s)))
  end.

(** The rest of a switch that left [prev]. *)
Definition switch_context (prev : Z) : M pst unit :=
  s ← get;
  if cur s =? prev then mret tt else on_os (switch_files prev);; switch_vm.

(** *** Running [exec] *)

Definition set_name (nm : list Z) (t : task_struct) : task_struct :=
  MkTask (pid t) nm (state t) (time_slice t) (priority t) (kstack_ptr t) (vm t) (parent t) (killed t)
    (exit_status t) (t_ofiles t) (t_cwd t).

(** The part of the state that [proc_execv] works on; afterwards [task->vm] is the current
    address space. *)
Definition on_world {A} (m : M world A) : M pst A := fun s =>
  match task_at (ts (pos s)) (cur s), ptf s !! cur s with
  | Some x, Some tf =>
      match m (World (fs (pos s)) (pvm s) tf (name x)) with
      | Ok (a, w) =>
          Ok (a, PSt (Os (with_task (cur s) (set_name (proc_name w) (set_vm (VmUser (Vm.cur_vm (wvm w))) x)) (ts (pos s))) (wfs w))
                     (wvm w) (<[cur s := wtf w]> (ptf s)))
      | Panic => Panic
      | Hang => Hang
      end
  | _, _ => Panic
  end.

Section calls.
Context `{Inode.Devices} `{Schedular} (sb : BAlloc.superblock) (other : Z -> option Z) (junk1 junk2 : list Z) (kalloc_ok page_ok : bool).

Definition sys_getpid : M pst Z := s ← get; x ← on_tab (get_task (cur s)); mret (pid x).

Definition sys_yield : M pst result :=
  s ← get;
  on_tab task_yield;;
  switch_context (cur s);;
  s' ← get;
  mret (if cur s' =? cur s then Ret 0 else Off InYield).

Definition sys_sbrk (tf : tframe) : M pst Z :=
  s ← get;
  r ← on_vm (Vm.vm_grow_userheap (Vm.cur_vm (pvm s)) (tf_ebx tf));
  mret (i32 r).

Definition sys_fork : M pst Z := proc_fork.

(** [task_exit] does not return. *)
Definition exit (status : Z) : M pst result := on_os (task_exit sb status);; switch_vm;; mret Gone.

Definition sys_exit (tf : tframe) : M pst result := exit (i32 (tf_ebx tf)).

(** A turn of the loop of [task_wait]. *)
Definition task_wait (status : option Z) : M pst result :=
  s ← get;
  match wait_scan (cur s) 0 (task_table (ts (pos s))) false with
  | inl t =>
      x ← on_tab (get_task t);
      (match status with Some p => store p (enc32 (u32 (exit_status x))) | None => mret tt end);;
      task_free t;;
      mret (Ret (pid x))
  | inr false => mret (Ret (-1))
  | inr true =>
      on_tab (upd_task (cur s) (set_state TASK_WAITING));;
      on_tab schedule;;
      switch_context (cur s);;
      mret (Off (InWait status))
  end.

Definition sys_wait (tf : tframe) : M pst result := task_wait (SysFs.check_ptr (tf_ebx tf) 4).

(** The word at [p]. *)
Definition word_at (mem : Z -> option Z) (p : Z) : option Z := dec32 <$> SysFs.bytes_at mem p 4.

(** [for (; *p != NULL; p++)]; [inr None] is a page fault. *)
Definition argv_turn (mem : Z -> option Z) (p : Z) : Z + option Z :=
  match word_at mem p with
  | None => inr None
  | Some w => if w =? 0 then inr (Some p) else inl (u32 (p + 4))
  end.

(** The loop over the arguments: their strings. *)
Fixpoint check_args (mem : Z -> option Z) (n : nat) (argv : Z) : M pst (option (list (list Z))) :=
  match n with
  | O => mret (Some [])
  | S n =>
      match word_at mem argv with
      | None => panic
      | Some w =>
          c ← Dir.of_outcome (SysFs.check_str mem w);
          match c with
          | None => mret None
          | Some p =>
              a ← SysFs.string_at mem p;
              r ← check_args mem n (u32 (argv + 4));
              mret (match r with Some l => Some (a :: l) | None => None end)
          end
      end
  end.

Definition sys_execv (tf : tframe) : M pst Z :=
  s ← get;
  let mem := user_mem other s in
  c ← Dir.of_outcome (SysFs.check_str mem (tf_ebx tf));
  match c, SysFs.check_ptr (tf_ecx tf) 4 with
  | Some path, Some argv =>
      match SysFs.turns (2 ^ 30)%positive (argv_turn mem) argv with
      | inl _ => hang
      | inr None => panic
      | inr (Some p) =>
          let argc := i32 (u32 (p - argv) / 4) in
          match SysFs.check_ptr argv (i32 (u32 (argc * 4))) with
          | None => mret (-1)
          | Some argv =>
              r ← check_args mem (Z.to_nat argc) argv;
              match r with
              | None => mret (-1)
              | Some args =>
                  path ← SysFs.string_at mem path;
                  on_world (proc_execv sb path args)
              end
          end
      end
  | _, _ => mret (-1)
  end.

(** *** Calls of the file system *)

Definition user_tf (tf : tframe) : SysFs.trap_frame :=
  SysFs.TrapFrame (tf_eax tf) (tf_ebx tf) (tf_ecx tf) (tf_edx tf).

Definition enc16 (x : Z) : list Z := [x mod 256; x / 256 mod 256].

(** The calls that store a result in the memory of the process. *)
Definition sys_read (tf : tframe) : M pst Z :=
  r ← on_file (SysFs.sys_read sb (user_tf tf));
  store (tf_ecx tf) (snd r);;
  mret (fst r).

Definition sys_stat (tf : tframe) : M pst Z :=
  s ← get;
  r ← on_file (SysFs.sys_stat sb (user_mem other s) (user_tf tf));
  match snd r with
  | None => mret (fst r)
  | Some st =>
      store (u32 (tf_ecx tf + 8)) (enc32 (u32 (Inode.st_size st)));;
      store (u32 (tf_ecx tf + 12)) (enc16 (u32 (Inode.st_nlink st)));;
      store (tf_ecx tf) (enc16 (u32 (Inode.st_type st)));;
      store (u32 (tf_ecx tf + 4)) (enc32 (u32 (Inode.st_ino st)));;
      mret (fst r)
  end.

Definition sys_pipe (tf : tframe) : M pst Z :=
  r ← on_file (SysFs.sys_pipe sb kalloc_ok page_ok (user_tf tf));
  store (tf_ebx tf) (mjoin (map (fun x => enc32 (u32 x)) (snd r)));;
  mret (fst r).

(** *** The dispatcher *)

Definition ret (m : M pst Z) : M pst result := r ← m; mret (Ret r).

Definition NR_SYSCALLS : Z := 17.

(** The table [syscalls]. *)
Definition syscalls (nr : Z) (tf : tframe) : M pst result :=
  match nr with
  | 0 => ret sys_getpid
  | 2 => ret (sys_read tf)
  | 4 => ret (sys_stat tf)
  | 8 => sys_yield
  | 9 => ret sys_fork
  | 10 => ret (sys_sbrk tf)
  | 11 => ret (sys_execv tf)
  | 12 => sys_exit tf
  | 13 => sys_wait tf
  | 16 => ret (sys_pipe tf)
  | _ =>
      s ← get;
      match SysFs.fs_syscalls sb (user_mem other s) junk1 junk2 kalloc_ok page_ok nr (user_tf tf) with
      | Some m => ret (on_file m)
      | None => panic
      end
  end.

(** [task->killed = true]: the flag of the current task is also in the file layer. *)
Definition set_cur_killed : M pst unit :=
  s ← get;
  on_tab (upd_task (cur s) (set_killed true));;
  on_file (modify (fun f => File.Kst (File.il f) (File.ftable f) (File.pipes f) (File.next_pipe f) (File.ofiles f) (File.cwd f) true)).

(** [if (task->killed) task_exit(KILLED_TASK_EXITSTATUS)], [r] otherwise. *)
Definition exit_if_killed (r : result) : M pst result :=
  s ← get;
  if is_killed s then exit KILLED_TASK_EXITSTATUS else mret r.

(** The end of [syscall], after the call has returned. *)
Definition syscall_end (r : result) : M pst result :=
  match r with
  | Ret r => s ← get; set_ptf (alter (set_eax (u32 r)) (cur s));; exit_if_killed (Ret r)
  | _ => mret r
  end.

Definition syscall (tf : tframe) : M pst result :=
  s ← get;
  set_ptf (fun m => <[cur s := tf]> m);;
  if is_killed s then exit KILLED_TASK_EXITSTATUS
  else if tf_eax tf <? NR_SYSCALLS then r ← syscalls (tf_eax tf) tf; syscall_end r
  else set_cur_killed;; exit_if_killed (Ret (-1)).

(** The task is running again. *)
Definition resume (p : pending) : M pst result :=
  match p with
  | InYield => syscall_end (Ret 0)
  | InWait status => r ← task_wait status; syscall_end r
  end.
End calls.

(** ** Stores *)

Lemma store_user_spec fuel : forall s pd dst src, PgTab.vm_ok s -> PgTab.as_ok s pd -> bytes src ->
  0 <= dst -> dst + Z.of_nat (length src) <= KMem.KERNEL_BASE ->
  (forall va, dst <= va < dst + Z.of_nat (length src) -> is_Some (PgTab.translate s pd va)) ->
  (1 <= fuel)%nat -> (src <> [] -> dst mod KMem.PG_SIZE + Z.of_nat (length src) <= KMem.PG_SIZE * (Z.of_nat fuel - 1)) ->
  exists s', store_user fuel (KMem.KP2V pd) dst src s = Ok (tt, s') /\ PgTab.vm_ok s' /\ PgTab.as_ok s' pd /\
    (forall va, 0 <= va < KMem.KERNEL_BASE -> PgTab.uload s' pd va =
       if decide (dst <= va < dst + Z.of_nat (length src)) then src !! Z.to_nat (va - dst) else PgTab.uload s pd va) /\
    PgTab.evolves pd s s' /\ PgTab.pm s' = PgTab.pm s.
Proof.
  induction fuel as [|fuel IH]; intros s pd dst src Hok Has Hby Hd Hend Hmap Hf1 Hfuel; [lia|].
  cbn [store_user]. destruct (decide (src = [])) as [->|Hne].
  { exists s. split; [done|]. split; [done|]. split; [done|]. split; [|split; [apply PgTab.evolves_refl|done]].
    intros va Hva. by rewrite decide_False by (simpl; lia). }
  specialize (Hfuel Hne). assert (0 < Z.of_nat (length src)) as Hlen by (destruct src; [done|simpl; lia]).
  destruct src as [|b0 src0] eqn:Esrc; [done|]. rewrite <- Esrc in *. clear Hne. cbv zeta.
  assert (0 <= dst < KMem.KERNEL_BASE) as Hu by lia. destruct (Hmap dst) as [f Ef]; [lia|].
  rewrite (bind_Ok _ _ _ _ _ (PgTab.page_frame_ptr_Ok s pd dst Hok Has Hu)), Ef.
  destruct (PgTab.a_pool _ _ Has f) as [Hfp _]; [right; by eapply PgTab.translate_elem|]. pose proof (PgTab.pool_in_mem f Hfp) as Hfm.
  rewrite (proj2 (Z.eqb_neq (KMem.KP2V f) 0)).
  2:{ unfold KMem.KP2V. destruct Hfp. rewrite u32_small; unfold is_u32, KMem.KERNEL_BASE, KMem.KERNEL_SPACE_SIZE, KMem.PHY_MEMORY_TOP in *; lia. }
  set (off := dst mod KMem.PG_SIZE) in *. assert (0 <= off < KMem.PG_SIZE) as Hoff by (by apply Z.mod_pos_bound).
  set (k := (Z.to_nat KMem.PG_SIZE - Z.to_nat off)%nat). assert (Z.of_nat k = KMem.PG_SIZE - off) as Hk by (unfold k; lia).
  set (v := take k src). assert (length v = min k (length src)) as Hv by (unfold v; by rewrite length_take).
  rewrite (bind_Ok _ _ _ _ _ (Vm.write_bytes_in s f off v Hfm Hoff ltac:(lia))).
  destruct (PgTab.v_frames _ Hok f) as [Hl Hb]. set (d := splice (Z.to_nat off) v (PgTab.frame s f)).
  assert (Z.to_nat off + length v <= length (PgTab.frame s f))%nat as Hfit' by (rewrite Hv, Hl; lia).
  assert (PgTab.page_ok d) as Hdok.
  { split; [unfold d; by rewrite length_splice|]. apply bytes_splice; [by apply Forall_take|done]. }
  destruct (PgTab.set_data_spec s pd dst f d Hok Has Hu Ef Hdok) as (Hok1 & Has1 & Htr & Hul & Hev).
  set (s1 := PgTab.with_frame s f d) in *.
  assert (u32 (dst + Z.of_nat k) = dst + Z.of_nat k) as -> by (apply u32_small; unfold is_u32, KMem.KERNEL_BASE, KMem.PG_SIZE in *; lia).
  assert ((dst + Z.of_nat k) mod KMem.PG_SIZE = 0) as Hm by (rewrite Hk; unfold off, KMem.PG_SIZE in *; Z.div_mod_to_equations; lia).
  assert (drop k src <> [] -> (k < length src)%nat) as Hnext.
  { intros H. destruct (decide (k < length src)%nat); [done|]. by rewrite drop_ge in H by lia. }
  assert (length (drop k src) = (length src - k)%nat) as Hdl by apply length_drop.
  destruct (IH s1 pd (dst + Z.of_nat k) (drop k src)) as (s' & E & Hok' & Has' & Hul' & Hev' & Hpm'); try done.
  - by apply Forall_drop.
  - lia.
  - rewrite Hdl. unfold off, KMem.KERNEL_BASE, KMem.PG_SIZE in *. Z.div_mod_to_equations. lia.
  - intros va Hva. rewrite Htr by (unfold KMem.KERNEL_BASE, KMem.PG_SIZE in *; lia). apply Hmap. lia.
  - unfold KMem.PG_SIZE in *. lia.
  - intros H. apply Hnext in H. rewrite Hm, Hdl. unfold KMem.PG_SIZE in *. lia.
  - exists s'. split; [exact E|]. split; [exact Hok'|]. split; [exact Has'|]. split; [|split; [by eapply PgTab.evolves_trans|exact Hpm']].
    intros va Hva. rewrite Hul' by done. rewrite Hul by done.
    assert (KMem.page_of va = KMem.page_of dst <-> dst - off <= va < dst - off + KMem.PG_SIZE) as Hpage.
    { unfold KMem.page_of, off, KMem.PG_SIZE. Z.div_mod_to_equations. lia. }
    assert (KMem.page_of va = KMem.page_of dst -> va mod KMem.PG_SIZE = va - (dst - off)) as Hmod.
    { unfold KMem.page_of, off, KMem.PG_SIZE. Z.div_mod_to_equations. lia. }
    destruct (decide (dst + Z.of_nat k <= va < dst + Z.of_nat k + Z.of_nat (length (drop k src)))).
    { rewrite decide_True by lia. rewrite lookup_drop. f_equal. lia. }
    destruct (decide (KMem.page_of va = KMem.page_of dst)) as [Hp|Hp].
    + rewrite (Hmod Hp). unfold d. rewrite splice_lookup by done. apply Hpage in Hp as Hr.
      destruct (decide (dst <= va < dst + Z.of_nat (length src))).
      * rewrite decide_True by lia. unfold v. rewrite lookup_take_lt by lia. f_equal. lia.
      * rewrite decide_False by lia. unfold PgTab.uload. rewrite (PgTab.translate_page s pd va dst), Ef by done.
        simpl. by rewrite (Hmod Hp).
    + rewrite decide_False; [done|]. apply not_iff_compat in Hpage. lia.
Qed.

(** Bytes stored in the memory of the current process. *)
Lemma store_spec s v pd r dst src : Vm.space (pvm s) v pd r -> Vm.cur_vm (pvm s) = v -> bytes src ->
  0 <= dst -> dst + Z.of_nat (length src) <= KMem.KERNEL_BASE ->
  (forall va, dst <= va < dst + Z.of_nat (length src) -> is_Some (PgTab.translate (Vm.mem (pvm s)) pd va)) ->
  exists m, store dst src s = Ok (tt, PSt (pos s) (Vm.set_mem m (pvm s)) (ptf s)) /\ Vm.space_op (pvm s) v pd r m /\
    PgTab.free_frames m = PgTab.free_frames (Vm.mem (pvm s)) /\
    PgTab.pd_frames m pd 0 PgTab.USER_PDES ≡ₚ PgTab.pd_frames (Vm.mem (pvm s)) pd 0 PgTab.USER_PDES /\
    (forall va, 0 <= va < KMem.KERNEL_BASE -> PgTab.uload m pd va =
       if decide (dst <= va < dst + Z.of_nat (length src)) then src !! Z.to_nat (va - dst) else PgTab.uload (Vm.mem (pvm s)) pd va).
Proof.
  intros Hs Hc Hby Hd Hend Hmap. pose proof Hs as [[P1 P2 P3 P4] _ _ _].
  destruct (store_user_spec (3 + Z.to_nat (Z.of_nat (length src) / KMem.PG_SIZE)) (Vm.mem (pvm s)) pd dst src P3 P4 Hby Hd Hend Hmap)
    as (m & E & Hok & Has & Hul & Hev & Hpm).
  - lia.
  - intros _. pose proof (Z.mod_pos_bound dst KMem.PG_SIZE ltac:(done)). unfold KMem.PG_SIZE in *. Z.div_mod_to_equations. lia.
  - assert (PgTab.free_frames m = PgTab.free_frames (Vm.mem (pvm s))) as Hff by (unfold PgTab.free_frames; by rewrite Hpm).
    exists m. split; [|split; [by apply Vm.space_op_intro|split; [exact Hff|split; [|exact Hul]]]].
    2:{ destruct Hev as (used & H1 & H2 & _). rewrite Hff in H1. destruct used as [|u used]; [exact H2|].
        apply (f_equal length) in H1. rewrite length_app in H1. simpl in H1. lia. }
    unfold store. rewrite (bind_Ok _ _ _ _ _ eq_refl). unfold cur_pgdir. rewrite Hc, P1. simpl.
    rewrite P2. apply (on_pvm_Ok _ s). by apply Vm.lift_mem.
Qed.

(** ** Reaping a child *)

(** A frame that is in use, but not in the address space [pd]. *)
Definition outside (m : PgTab.vmem) (pd f : Z) : Prop := f ∉ pd :: PgTab.pd_frames m pd 0 PgTab.USER_PDES.

(** A page given back by the kernel leaves address spaces alone. *)
Lemma page_given s f : PgTab.vm_ok (Vm.mem s) -> KMem.kmem_ok (Vm.km s) -> PgTab.pool_frame f -> f ∉ PgTab.free_frames (Vm.mem s) ->
  (forall x, KMem.known (Vm.km s) x -> KMem.page_of x - KMem.KERNEL_BASE <> f) ->
  exists m, PgTab.free_page (KMem.KP2V f) (Vm.mem s) = Ok (tt, m) /\
    PgTab.free_frames m = f :: PgTab.free_frames (Vm.mem s) /\
    (forall v pd r, Vm.space s v pd r -> outside (Vm.mem s) pd f ->
       Vm.space (Vm.set_mem m s) v pd r /\
       (forall va, 0 <= va < KMem.KERNEL_BASE -> PgTab.uload m pd va = PgTab.uload (Vm.mem s) pd va) /\
       PgTab.pd_frames m pd 0 PgTab.USER_PDES = PgTab.pd_frames (Vm.mem s) pd 0 PgTab.USER_PDES).
Proof.
  intros Hok Hk Hf Hnf Hobj. destruct (PgTab.pfree_Ok (Vm.mem s) f Hok Hf Hnf) as (m & E & Hm & Hfree & Hfr).
  exists m. split.
  { unfold PgTab.free_page. rewrite PgTab.KV2P_KP2V; [exact E|]. destruct Hf. unfold is_u32, KMem.PHY_MEMORY_TOP, KMem.KERNEL_SPACE_SIZE in *. lia. }
  split; [exact Hfree|]. intros v pd r [[P1 P2 P3 P4] _ Hv Ho] Hout.
  assert (forall g, g ∈ pd :: PgTab.pd_frames (Vm.mem s) pd 0 PgTab.USER_PDES -> PgTab.frame m g = PgTab.frame (Vm.mem s) g) as Hsame.
  { intros g Hg. apply Hfr. intros ->. exact (Hout Hg). }
  assert (PgTab.pd_frames m pd 0 PgTab.USER_PDES = PgTab.pd_frames (Vm.mem s) pd 0 PgTab.USER_PDES) as Hpd.
  { apply PgTab.pd_frames_ext; [apply Hsame; by left|]. intros g Hg. apply Hsame. by right. }
  split; [|split; [intros va Hva; by apply PgTab.uload_ext|exact Hpd]].
  split; [split; [exact P1|exact P2|by rewrite Vm.mem_set_mem|rewrite Vm.mem_set_mem]| |exact Hv|].
  - destruct P4 as [A1 A2]. split; rewrite Hpd; [exact A1|]. intros g Hg. destruct (A2 g Hg) as [H1 H2]. split; [exact H1|].
    rewrite Hfree. intros [->|Hin]%elem_of_cons; [exact (Hout Hg)|exact (H2 Hin)].
  - assert (forall x, KMem.known (Vm.km s) x -> KMem.is_obj (Vm.km (Vm.set_mem m s)) x) as Hi.
    { intros x Hx. destruct (KMem.known_is_obj _ _ Hk Hx) as [H1 H2]. split; [exact H1|]. intros Hin.
      apply Vm.free_list_frames in Hin. rewrite Hfree in Hin. apply elem_of_cons in Hin as [Hin|Hin]; [by apply (Hobj x)|].
      by apply H2, (Vm.free_list_frames (Vm.mem s)). }
    pose proof Hk as [K1 K2 K3 K4 K5 K6]. split; [apply Hm|exact K2|exact K3| |exact K5|].
    + intros j b x Hb Hin. split; [apply Hi; right; by eauto|by eapply K4].
    + intros x j Hx. split; [apply Hi; left; by eexists|by eapply K6].
  - intros x Hx. rewrite Vm.mem_set_mem, Hpd. exact (Ho x Hx).
Qed.

(** The current process, in the address space [v], has the exited child [t], the first of
    the table, whose kernel stack is in the frame [f] and whose address space is [cv]. *)
Record reaping (s : pst) (t : Z) (x : task_struct) (v pd : Z) (r : Vm.vm) (cv cpd : Z) (cr : Vm.vm) (f : Z) : Prop := {
  rp_tasks : task_inv (ts (pos s));
  rp_child : task_at (ts (pos s)) t = Some x /\ parent x = Some (cur s) /\ state x = TASK_ZOMBIE;
  rp_first : forall t' x', t' < t -> task_at (ts (pos s)) t' = Some x' -> ~ (parent x' = Some (cur s) /\ state x' = TASK_ZOMBIE);
  rp_alive : is_killed s = false;
  rp_space : Vm.space (pvm s) v pd r /\ Vm.cur_vm (pvm s) = v;
  rp_cvm : vm x = VmUser cv /\ Vm.space (pvm s) cv cpd cr /\ cv <> v /\ cv <> Vm.kvm;
  rp_apart : PgTab.apart (Vm.mem (pvm s)) pd cpd;
  rp_stack : kstack_ptr x = Some (KMem.KP2V f) /\ PgTab.pool_frame f /\ f ∉ PgTab.free_frames (Vm.mem (pvm s)) /\
    outside (Vm.mem (pvm s)) pd f /\ outside (Vm.mem (pvm s)) cpd f;
  rp_objs : forall y, KMem.known (Vm.km (pvm s)) y -> KMem.page_of y - KMem.KERNEL_BASE <> f;
}.

Lemma scan_first s t x : task_at s t = Some x -> parent x = Some (current_task s) -> state x = TASK_ZOMBIE ->
  (forall t' x', t' < t -> task_at s t' = Some x' -> ~ (parent x' = Some (current_task s) /\ state x' = TASK_ZOMBIE)) ->
  wait_scan (current_task s) 0 (task_table s) false = inl t.
Proof.
  intros Ex Hp Hz Hfirst. pose proof (wait_scan_spec s (current_task s) (task_table s) 0 false (table_at s)) as Hs.
  apply task_at_nonneg in Ex as [Ht Ex]. destruct (wait_scan _ _ _ _) as [t'|b].
  - destruct Hs as (k & y & -> & Hk & Hpy & Hzy & Hmin). f_equal. destruct (Z.lt_trichotomy (0 + Z.of_nat k) t) as [Hlt|[->|Hgt]]; [|done|].
    + exfalso. apply (Hfirst (0 + Z.of_nat k) y Hlt); [by apply table_at|done].
    + exfalso. apply (Hmin (Z.to_nat t) x); [lia|exact Ex|done].
  - exfalso. by apply (proj1 Hs _ _ Ex).
Qed.

Section wait.
Context `{SchedularLaws}.

Lemma task_wait_spec s t x v pd r cv cpd cr f p : reaping s t x v pd r cv cpd cr f ->
  0 <= p -> p + 4 <= KMem.KERNEL_BASE ->
  (forall va, p <= va < p + 4 -> is_Some (PgTab.translate (Vm.mem (pvm s)) pd va)) ->
  exists V s', task_wait (Some p) s = Ok (Ret (pid x), s') /\
    s' = PSt (Os (with_task t (MkTask 0 [] TASK_UNUSED (time_slice x) (priority x) None VmNull None false 0 (t_ofiles x) (t_cwd x)) (ts (pos s))) (fs (pos s))) V (ptf s) /\
    Vm.space V v pd r /\ Vm.cur_vm V = v /\ Vm.vms V = delete cv (Vm.vms (pvm s)) /\
    PgTab.free_frames (Vm.mem V) ≡ₚ f :: (cpd :: PgTab.pd_frames (Vm.mem (pvm s)) cpd 0 PgTab.USER_PDES) ++ PgTab.free_frames (Vm.mem (pvm s)) /\
    (forall va, 0 <= va < KMem.KERNEL_BASE -> PgTab.uload (Vm.mem V) pd va =
       if decide (p <= va < p + 4) then enc32 (u32 (exit_status x)) !! Z.to_nat (va - p) else PgTab.uload (Vm.mem (pvm s)) pd va).
Proof.
  intros [R1 (R2 & R3 & R4) R5 R6 [R7 R8] (R9 & R10 & R11 & R12) R13 (R14 & R15 & R16 & R17 & R18) R19] Hp Hpe Hmap.
  destruct (store_spec s v pd r p (enc32 (u32 (exit_status x))) R7 R8 (bytes_enc32 _) Hp) as (m1 & E1 & [O1 O2 O3] & F1 & P1 & U1); [exact Hpe|exact Hmap|].
  destruct (O3 cv cpd cr R10 R13) as (C1 & A1 & _). pose proof R10 as [[_ _ _ Cas] _ _ _].
  destruct (PgTab.evolves_apart pd cpd _ m1 Cas R13 O2) as (_ & _ & P2 & _).
  set (V1 := Vm.set_mem m1 (pvm s)) in *. assert (Vm.mem V1 = m1) as M1 by apply Vm.mem_set_mem.
  pose proof O1 as [[_ _ Ok1 _] K1 _ _].
  destruct (page_given V1 f Ok1 K1 R15) as (m2 & E2 & F2 & S2).
  { rewrite M1, F1. exact R16. }
  { exact R19. }
  assert (outside (Vm.mem V1) pd f) as Of1 by (unfold outside; rewrite M1, P1; exact R17).
  assert (outside (Vm.mem V1) cpd f) as Of2 by (unfold outside; rewrite M1, P2; exact R18).
  destruct (S2 v pd r O1 Of1) as (S3 & U3 & P3). destruct (S2 cv cpd cr C1 Of2) as (S4 & _ & P4). set (V2 := Vm.set_mem m2 V1) in *.
  assert (Vm.mem V2 = m2) as M2 by apply Vm.mem_set_mem.
  destruct (Vm.vm_free_spec V2 cv cpd cr S4 R12) as (V3 & E3 & D3 & C3 & _ & F3 & S5).
  { change (Vm.cur_vm V2) with (Vm.cur_vm (pvm s)). congruence. }
  destruct (S5 v pd r S3) as (S6 & U6); [congruence| |].
  { intros g. rewrite M2, P3, P4, M1, P1, P2. exact (R13 g). }
  exists V3. eexists. split; [|split; [reflexivity|]].
  - unfold task_wait. rewrite (bind_Ok _ _ _ s s) by done. unfold cur.
    rewrite (scan_first (ts (pos s)) t x R2 R3 R4 R5).
    rewrite (bind_Ok _ _ _ x s).
    2:{ rewrite (on_tab_Ok _ _ _ _ (task_at_get _ _ _ R2)). by destruct s as [[] ? ?]. }
    rewrite (bind_Ok _ _ _ _ _ E1). set (s1 := PSt _ _ _). unfold task_free.
    set (y := MkTask 0 [] TASK_UNUSED (time_slice x) (priority x) None VmNull None false 0 (t_ofiles x) (t_cwd x)).
    assert (Task.task_free t (ts (pos s1)) = Ok ([Page (KMem.KP2V f); Task.Vm cv], with_task t y (ts (pos s)))) as E4.
    { unfold Task.task_free, s1. cbn [pos]. rewrite (bind_Ok _ _ _ _ _ (task_at_get _ _ _ R2)). rewrite R4.
      rewrite (bind_Ok _ _ _ tt (ts (pos s))) by done. rewrite (bind_Ok _ _ _ tt (ts (pos s))) by done.
      erewrite bind_Ok; [|reflexivity]. unfold free_memory. rewrite R14, R9. reflexivity. }
    rewrite (bind_Ok _ _ _ tt (PSt (Os (with_task t y (ts (pos s))) (fs (pos s))) V3 (ptf s))); [done|].
    rewrite (bind_Ok _ _ _ _ _ (on_tab_Ok _ _ _ _ E4)). set (s2 := PSt _ _ _). cbn [release].
    rewrite (bind_Ok _ _ _ tt (PSt (pos s2) V2 (ptf s))) by (apply (on_pvm_Ok _ s2); by apply (Vm.lift_mem _ V1)).
    rewrite (bind_Ok _ _ _ _ _ eq_refl). change (is_killed (PSt (pos s2) V2 (ptf s))) with (is_killed s). rewrite R6.
    by rewrite (bind_Ok _ _ _ _ _ (on_pvm_Ok _ (PSt (pos s2) V2 (ptf s)) _ _ E3)).
  - split; [exact S6|]. split; [rewrite C3; exact R8|]. split; [rewrite D3; reflexivity|]. split.
    + rewrite F3, M2, P4, M1, F2, M1, F1, P2. exact (Permutation_sym (Permutation_middle (cpd :: _) _ f)).
    + intros va Hva. rewrite U6 by exact Hva. rewrite M2, U3 by exact Hva. rewrite M1. rewrite U1 by exact Hva. reflexivity.
Qed.
End wait.

(** ** System calls *)

Section claims.
Context `{DV : Inode.Devices} `{SchedularLaws} (sb : BAlloc.superblock) (other : Z -> option Z) (junk1 junk2 : list Z) (kalloc_ok page_ok : bool).

(** A call that returns [r] to a process that was not killed. *)
Lemma syscall_returns s tf r s' : is_killed s = false -> tf_eax tf < NR_SYSCALLS ->
  syscalls sb other junk1 junk2 kalloc_ok page_ok (tf_eax tf) tf (PSt (pos s) (pvm s) (<[cur s := tf]> (ptf s))) = Ok (Ret r, s') ->
  is_killed s' = false ->
  syscall sb other junk1 junk2 kalloc_ok page_ok tf s = Ok (Ret r, PSt (pos s') (pvm s') (alter (set_eax (u32 r)) (cur s') (ptf s'))).
Proof.
  intros Hk Hn E Hk'. unfold syscall. rewrite (bind_Ok _ _ _ s s) by done.
  rewrite (bind_Ok _ _ _ tt (PSt (pos s) (pvm s) (<[cur s := tf]> (ptf s)))) by done. rewrite Hk.
  rewrite (proj2 (Z.ltb_lt _ _)) by done. rewrite (bind_Ok _ _ _ _ _ E). unfold syscall_end, exit_if_killed.
  rewrite (bind_Ok _ _ _ s' s') by done.
  rewrite (bind_Ok _ _ _ tt (PSt (pos s') (pvm s') (alter (set_eax (u32 r)) (cur s') (ptf s')))) by done.
  rewrite (bind_Ok _ _ _ _ _ eq_refl). change (is_killed (PSt (pos s') (pvm s') _)) with (is_killed s'). by rewrite Hk'.
Qed.

(** the system call 9, [fork], returns twice.  With a free task and memory, the caller
    continues with the pid of the new process in eax and the new process will start with 0
    there; all other registers of both are those of the trap, and both see the memory that
    the caller had, in different frames. *)
Theorem syscall_fork s x v pd r tf0 tf i child : forking s x v pd r tf0 i ->
  find_unused 0 (task_table (ts (pos s))) = Some child -> tf_eax tf = 9 ->
  (3 + length (PgTab.pd_frames (Vm.mem (pvm s)) pd 0 PgTab.USER_PDES) <= length (PgTab.free_frames (Vm.mem (pvm s))))%nat ->
  exists page nv cp s' y, syscall sb other junk1 junk2 kalloc_ok page_ok tf s = Ok (Ret (next_pid (ts (pos s))), s') /\
    cur s' = cur s /\ task_inv (ts (pos s')) /\
    ptf s' !! cur s = Some (set_eax (u32 (next_pid (ts (pos s)))) tf) /\ ptf s' !! child = Some (set_eax 0 tf) /\
    task_at (ts (pos s')) child = Some y /\ same_task (child_task s x page nv) y /\ child ∈ rq_list (ts (pos s')) /\
    Vm.space (pvm s') nv cp (Vm.MkVm (KMem.KP2V cp) (Vm.brk r)) /\ Vm.space (pvm s') v pd r /\
    PgTab.apart (Vm.mem (pvm s')) cp pd /\
    (forall va, 0 <= va < KMem.KERNEL_BASE ->
       PgTab.uload (Vm.mem (pvm s')) cp va = PgTab.uload (Vm.mem (pvm s)) pd va /\
       PgTab.uload (Vm.mem (pvm s')) pd va = PgTab.uload (Vm.mem (pvm s)) pd va).
Proof.
  intros Hk Hu Htf Hlen. set (s1 := PSt (pos s) (pvm s) (<[cur s := tf]> (ptf s))).
  assert (forking s1 x v pd r tf i) as Hk1.
  { destruct Hk as [K1 K2 K3 K4 K5 K6 K7 K8 K9]. split; [exact K1|exact K2|exact K3|exact K4|exact K5|apply lookup_insert_eq|exact K7|exact K8|exact K9]. }
  assert (child <> cur s) as Hne.
  { destruct Hk as [K1 _ _ _ _ _ _ _ _]. destruct (find_unused_spec (ts (pos s)) (task_table (ts (pos s))) 0 child (table_at _) Hu) as (z & Hz & Hzu).
    intros ->. pose proof (ti_running _ K1) as R. unfold running, state_at in R. unfold cur in Hz. rewrite Hz in R. simpl in R. congruence. }
  destruct (fork_spec s1 x v pd r tf i child Hk1 Hu Hlen)
    as (page & nv & cp & s' & y & E & H1 & H2 & H2' & H3 & H4 & H5 & _ & H7 & _ & H9 & H10 & H11 & H12 & _ & _ & _).
  assert (syscalls sb other junk1 junk2 kalloc_ok page_ok (tf_eax tf) tf s1 = Ok (Ret (next_pid (ts (pos s))), s')) as Es
    by (rewrite Htf; unfold syscalls, ret; rewrite (bind_Ok _ _ _ _ _ E); done).
  pose proof (syscall_returns s tf _ s' (fk_alive _ _ _ _ _ _ _ Hk) ltac:(by rewrite Htf) Es H2') as Ec.
  eexists page, nv, cp, _, y. split; [exact Ec|]. change (cur s1) with (cur s) in H2.
  split; [exact H2|]. split; [exact H1|]. split; [|split].
  - cbn [ptf]. rewrite H2, H7, lookup_alter_eq, lookup_insert_ne by done. cbn [s1 ptf]. by rewrite lookup_insert_eq.
  - cbn [ptf]. rewrite H2, H7, lookup_alter_ne by done. by rewrite lookup_insert_eq.
  - repeat (split; [assumption|]). assumption.
Qed.

(** C23: the system call 13, [wait], of a process with a child that has exited.  It returns
    the pid of the first such child and stores its exit status where the process asked; the
    entry of the child is free, its kernel stack, its page directory and all frames of its
    address space are back in the pool; nothing else of the caller's memory and no other
    task changes. *)
Theorem syscall_wait s t x v pd r cv cpd cr f tf : reaping s t x v pd r cv cpd cr f -> tf_eax tf = 13 ->
  Vm.USER_BASE <= tf_ebx tf -> tf_ebx tf + 4 <= Vm.USER_TOP ->
  (forall va, tf_ebx tf <= va < tf_ebx tf + 4 -> is_Some (PgTab.translate (Vm.mem (pvm s)) pd va)) ->
  exists s', syscall sb other junk1 junk2 kalloc_ok page_ok tf s = Ok (Ret (pid x), s') /\
    cur s' = cur s /\ ptf s' !! cur s = Some (set_eax (u32 (pid x)) tf) /\
    state_at (ts (pos s')) t = Some TASK_UNUSED /\ (forall t', t' <> t -> task_at (ts (pos s')) t' = task_at (ts (pos s)) t') /\
    Vm.space (pvm s') v pd r /\ Vm.vms (pvm s') = delete cv (Vm.vms (pvm s)) /\
    PgTab.free_frames (Vm.mem (pvm s')) ≡ₚ f :: (cpd :: PgTab.pd_frames (Vm.mem (pvm s)) cpd 0 PgTab.USER_PDES) ++ PgTab.free_frames (Vm.mem (pvm s)) /\
    (forall va, 0 <= va < KMem.KERNEL_BASE -> PgTab.uload (Vm.mem (pvm s')) pd va =
       if decide (tf_ebx tf <= va < tf_ebx tf + 4) then enc32 (u32 (exit_status x)) !! Z.to_nat (va - tf_ebx tf)
       else PgTab.uload (Vm.mem (pvm s)) pd va).
Proof.
  intros Hr Htf Hp Hpe Hmap. set (s1 := PSt (pos s) (pvm s) (<[cur s := tf]> (ptf s))).
  assert (reaping s1 t x v pd r cv cpd cr f) as Hr1
    by (destruct Hr as [K1 K2 K3 K4 K5 K6 K7 K8 K9]; split; [exact K1|exact K2|exact K3|exact K4|exact K5|exact K6|exact K7|exact K8|exact K9]).
  destruct (task_wait_spec s1 t x v pd r cv cpd cr f (tf_ebx tf) Hr1) as (V & s' & E & Es' & S1 & S2 & S3 & S4 & S5);
    [unfold Vm.USER_BASE in *; lia|exact Hpe|exact Hmap|].
  assert (syscalls sb other junk1 junk2 kalloc_ok page_ok (tf_eax tf) tf s1 = Ok (Ret (pid x), s')) as Es.
  { rewrite Htf. unfold syscalls, sys_wait. assert (SysFs.check_ptr (tf_ebx tf) 4 = Some (tf_ebx tf)) as ->; [|exact E].
    unfold SysFs.check_ptr. rewrite (proj2 (Z.ltb_ge 4 0)) by lia. unfold Vm.USER_BASE, Vm.USER_TOP, KMem.KERNEL_BASE, SysFs.USER_BASE, SysFs.USER_TOP in *.
    rewrite (proj2 (Z.leb_le _ _)) by lia. rewrite u32_small by (unfold is_u32; lia). by rewrite (proj2 (Z.leb_le _ _)) by lia. }
  pose proof (syscall_returns s tf (pid x) s' (rp_alive _ _ _ _ _ _ _ _ _ _ Hr) ltac:(by rewrite Htf)) as Ec. subst s'.
  specialize (Ec Es (rp_alive _ _ _ _ _ _ _ _ _ _ Hr)). destruct (rp_child _ _ _ _ _ _ _ _ _ _ Hr) as (Hx & _ & _).
  eexists. split; [exact Ec|]. cbn [pos pvm ptf ts]. split; [reflexivity|]. split; [|split; [|split]].
  - change (ptf s1) with (<[cur s := tf]> (ptf s)). change (alter _ ?c _ !! _ = _) with (alter (set_eax (u32 (pid x))) (cur s) (<[cur s := tf]> (ptf s)) !! cur s = Some (set_eax (u32 (pid x)) tf)).
    by rewrite lookup_alter_eq, lookup_insert_eq.
  - change (ts (pos s1)) with (ts (pos s)). rewrite (state_at_with (ts (pos s)) t x) by done. by rewrite decide_True.
  - intros t' Ht'. change (ts (pos s1)) with (ts (pos s)). rewrite (task_at_with (ts (pos s)) t x) by done. by rewrite decide_False.
  - split; [exact S1|]. split; [exact S3|]. split; [exact S4|exact S5].
Qed.
End claims.

(** ** Arguments of [execv] *)

(** A C string and a vector of pointers in memory. *)
Record cstr (mem : Z -> option Z) (p : Z) (l : list Z) : Prop := {
  cs_bytes : forall k x, l !! k = Some x -> mem (p + Z.of_nat k) = Some x /\ x <> 0;
  cs_end : mem (p + Z.of_nat (length l)) = Some 0;
}.

Record ptrs (mem : Z -> option Z) (p : Z) (l : list Z) : Prop := {
  pv_words : forall k x, l !! k = Some x -> word_at mem (p + 4 * Z.of_nat k) = Some x /\ x <> 0;
  pv_end : word_at mem (p + 4 * Z.of_nat (length l)) = Some 0;
}.

Lemma string_turns mem l : forall n p acc, (length l < n)%nat -> 0 <= p -> p + Z.of_nat (length l) < 2 ^ 32 -> cstr mem p l ->
  SysFs.turnsN n (SysFs.string_turn mem) (p, acc) = inr (Some (rev acc ++ l)).
Proof.
  induction l as [|x l IH]; intros [|n] p acc Hn Hp Hl [C1 C2]; simpl in Hn, Hl; try lia; cbn [SysFs.turnsN SysFs.string_turn].
  - simpl in C2. rewrite Z.add_0_r in C2. rewrite C2. rewrite (proj2 (Z.ltb_lt _ _)) by lia. by rewrite app_nil_r.
  - destruct (C1 0%nat x eq_refl) as [Hx Hx0]. rewrite Z.add_0_r in Hx. rewrite Hx.
    rewrite (proj2 (Z.ltb_lt _ _)) by lia. rewrite (proj2 (Z.eqb_neq _ _)) by done.
    rewrite (IH n (p + 1) (x :: acc)); [simpl; by rewrite <- app_assoc|lia|lia|lia|]. split.
    + intros k y Hk. destruct (C1 (S k) y Hk) as [H1 H2]. split; [|done]. rewrite <- H1. f_equal. lia.
    + rewrite <- C2. f_equal. simpl. lia.
Qed.

Lemma string_at_spec {S} mem p l (s : S) : 0 <= p -> p + Z.of_nat (length l) < 2 ^ 32 -> cstr mem p l ->
  SysFs.string_at mem p s = Ok (l, s).
Proof.
  intros Hp Hl C. unfold SysFs.string_at. rewrite SysFs.turns_N.
  assert (length l < Pos.to_nat (2 ^ 32))%nat as Hn by (apply Nat2Z.inj_lt; rewrite positive_nat_Z; lia).
  revert Hn. generalize (Pos.to_nat (2 ^ 32)). intros n Hn. by rewrite (string_turns mem l n p []).
Qed.

Lemma argv_turns mem l : forall n p, (length l < n)%nat -> 0 <= p -> p + 4 * Z.of_nat (length l) < 2 ^ 32 -> ptrs mem p l ->
  SysFs.turnsN n (argv_turn mem) p = inr (Some (p + 4 * Z.of_nat (length l))).
Proof.
  induction l as [|x l IH]; intros [|n] p Hn Hp Hl [C1 C2]; simpl in Hn, Hl; try lia; cbn [SysFs.turnsN]; unfold argv_turn at 1.
  - simpl in C2. rewrite Z.add_0_r in C2. rewrite C2. simpl. by rewrite Z.add_0_r.
  - destruct (C1 0%nat x eq_refl) as [Hx Hx0]. rewrite Z.mul_0_r, Z.add_0_r in Hx. rewrite Hx.
    rewrite (proj2 (Z.eqb_neq _ _)) by done. rewrite u32_small by (unfold is_u32; lia).
    rewrite (IH n (p + 4)); [f_equal; f_equal; simpl; lia|lia|lia|lia|]. split.
    + intros k y Hk. destruct (C1 (S k) y Hk) as [H1 H2]. split; [|done]. rewrite <- H1. f_equal. lia.
    + rewrite <- C2. f_equal. simpl. lia.
Qed.

(** A string of the program passes the check. *)
Lemma cstr_check mem p l : SysFs.USER_BASE <= p -> p + Z.of_nat (length l) < SysFs.USER_TOP -> cstr mem p l ->
  SysFs.check_str mem p = Ok (Some p).
Proof.
  intros Hp Hl [C1 C2]. destruct (SysFs.check_str_user mem p) as (e & He & Hno & Hcase); [lia|].
  assert (e <= p + Z.of_nat (length l)) as He2.
  { destruct (Z.le_gt_cases e (p + Z.of_nat (length l))) as [|Hgt]; [done|].
    destruct (Hno (p + Z.of_nat (length l))) as (c & Hc & Hc0); [lia|]. congruence. }
  destruct Hcase as [[E _]|[[_ ->]|[_ [_ E]]]]; [done|lia|]. exfalso.
  destruct (decide (e = p + Z.of_nat (length l))) as [->|]; [congruence|].
  destruct (lookup_lt_is_Some_2 l (Z.to_nat (e - p))) as [x Hx]; [lia|]. destruct (C1 _ _ Hx) as [Hm _].
  replace (p + Z.of_nat (Z.to_nat (e - p))) with e in Hm by lia. congruence.
Qed.

(** The strings of the vector [ps]. *)
Definition args_at (mem : Z -> option Z) (ps : list Z) (args : list (list Z)) : Prop :=
  Forall2 (fun p a => SysFs.USER_BASE <= p /\ p + Z.of_nat (length a) < SysFs.USER_TOP /\ cstr mem p a) ps args.

Lemma check_args_spec mem ps args (s : pst) : args_at mem ps args -> forall p, 0 <= p -> p + 4 * Z.of_nat (length ps) < 2 ^ 32 ->
  ptrs mem p ps -> check_args mem (length ps) p s = Ok (Some args, s).
Proof.
  unfold args_at. induction 1 as [|q a ps args (H1 & H2 & H3) Hall IH]; intros p Hp Hl [C1 C2]; simpl length in *; [done|].
  cbn [check_args]. destruct (C1 0%nat q eq_refl) as [Hq _]. rewrite Z.mul_0_r, Z.add_0_r in Hq. rewrite Hq.
  rewrite (cstr_check mem q a H1 H2 H3). rewrite (bind_Ok _ _ _ (Some q) s) by done.
  rewrite (bind_Ok _ _ _ _ _ (string_at_spec mem q a s ltac:(unfold SysFs.USER_BASE in *; lia) ltac:(unfold SysFs.USER_TOP in *; lia) H3)).
  rewrite u32_small by (unfold is_u32; lia). rewrite (bind_Ok _ _ _ _ _ (IH (p + 4) ltac:(lia) ltac:(lia) ltac:(split;
    [intros k y Hk; destruct (C1 (S k) y Hk) as [E1 E2]; split; [rewrite <- E1; f_equal; lia|done]|rewrite <- C2; f_equal; lia]))). done.
Qed.

Section execv.
Context `{DV : Inode.Devices} (sb : BAlloc.superblock) (other : Z -> option Z).

(** [execv] hands the strings of the program to [proc_execv]. *)
Lemma sys_execv_spec s tf path ps args : let mem := user_mem other s in
  SysFs.USER_BASE <= tf_ebx tf -> tf_ebx tf + Z.of_nat (length path) < SysFs.USER_TOP -> cstr mem (tf_ebx tf) path ->
  SysFs.USER_BASE <= tf_ecx tf -> tf_ecx tf + 4 * Z.of_nat (length ps) + 4 <= SysFs.USER_TOP -> ptrs mem (tf_ecx tf) ps -> args_at mem ps args ->
  sys_execv sb other tf s = on_world (proc_execv sb path args) s.
Proof.
  intros mem Hp Hpl Hps Ha Hal Hav Hargs. unfold sys_execv. rewrite (bind_Ok _ _ _ s s) by done. cbv zeta. fold mem.
  unfold SysFs.USER_BASE, SysFs.USER_TOP in *.
  rewrite (cstr_check mem _ path Hp Hpl Hps). rewrite (bind_Ok _ _ _ (Some (tf_ebx tf)) s) by done. set (n := Z.of_nat (length ps)) in *. assert (0 <= n) as Hn by lia.
  assert (forall sz, 0 <= sz <= 4 * n + 4 -> SysFs.check_ptr (tf_ecx tf) sz = Some (tf_ecx tf)) as Hc.
  { intros sz Hsz. unfold SysFs.check_ptr, SysFs.USER_BASE, SysFs.USER_TOP. rewrite (proj2 (Z.ltb_ge sz 0)) by lia.
    rewrite (proj2 (Z.leb_le _ _)) by lia. rewrite u32_small by (unfold is_u32; lia). by rewrite (proj2 (Z.leb_le _ _)) by lia. }
  rewrite (Hc 4) by lia. rewrite SysFs.turns_N.
  assert (length ps < Pos.to_nat (2 ^ 30))%nat as Hn30 by (apply Nat2Z.inj_lt; rewrite positive_nat_Z; lia).
  revert Hn30. generalize (Pos.to_nat (2 ^ 30)). intros N HN.
  rewrite (argv_turns mem ps N (tf_ecx tf)) by (done || lia). fold n.
  assert (i32 (u32 (tf_ecx tf + 4 * n - tf_ecx tf) / 4) = n) as En.
  { replace (tf_ecx tf + 4 * n - tf_ecx tf) with (n * 4) by lia. rewrite u32_small by (unfold is_u32; lia).
    rewrite Z.div_mul by done. apply i32_small. unfold is_i32. lia. }
  rewrite En. assert (i32 (u32 (n * 4)) = n * 4) as -> by (rewrite u32_small by (unfold is_u32; lia); apply i32_small; unfold is_i32; lia).
  rewrite Hc by lia. unfold n. rewrite Nat2Z.id.
  rewrite (bind_Ok _ _ _ _ _ (check_args_spec mem ps args s Hargs (tf_ecx tf) ltac:(lia) ltac:(lia) Hav)).
  by rewrite (bind_Ok _ _ _ _ _ (string_at_spec mem (tf_ebx tf) path s ltac:(lia) ltac:(lia) Hps)).
Qed.
End execv.

(** ** The first process *)

(** The bytes [code] are in memory at [base]. *)
Definition has_code (mem : Z -> option Z) (base : Z) (code : list Z) : Prop :=
  forall k x, code !! k = Some x -> mem (base + Z.of_nat k) = Some x.

Lemma cstr_code mem base code off l : has_code mem base code -> take (length l + 1) (drop off code) = l ++ [0] ->
  Forall (fun x => x <> 0) l -> cstr mem (base + Z.of_nat off) l.
Proof.
  intros Hc Ht Hn.
  assert (forall k x, (l ++ [0]) !! k = Some x -> mem (base + Z.of_nat off + Z.of_nat k) = Some x) as Hk.
  { intros k x Hx. rewrite <- Ht in Hx. apply lookup_take_Some in Hx as [Hx _]. rewrite lookup_drop in Hx.
    rewrite <- (Hc _ _ Hx). f_equal. lia. }
  split.
  - intros k x Hx. split; [apply Hk; by apply lookup_app_l_Some|]. exact (Forall_lookup_1 _ _ _ _ Hn Hx).
  - apply Hk. by rewrite lookup_app_r, Nat.sub_diag by lia.
Qed.

Lemma word_code mem base code off b0 b1 b2 b3 : has_code mem base code -> 0 <= base -> base + Z.of_nat off + 3 < 2 ^ 32 ->
  take 4 (drop off code) = [b0; b1; b2; b3] -> word_at mem (base + Z.of_nat off) = Some (dec32 [b0; b1; b2; b3]).
Proof.
  intros Hc Hb Hlt Ht.
  assert (forall k x, [b0; b1; b2; b3] !! k = Some x -> mem (base + Z.of_nat off + Z.of_nat k) = Some x) as Hk.
  { intros k x Hx. rewrite <- Ht in Hx. apply lookup_take_Some in Hx as [Hx _]. rewrite lookup_drop in Hx.
    rewrite <- (Hc _ _ Hx). f_equal. lia. }
  unfold word_at, SysFs.bytes_at. change (seqZ 0 4) with [0; 1; 2; 3]. cbn [mapM].
  rewrite !u32_small by (unfold is_u32; lia).
  rewrite (Hk 0%nat b0 eq_refl : mem (base + Z.of_nat off + 0) = Some b0), (Hk 1%nat b1 eq_refl : mem (base + Z.of_nat off + 1) = Some b1),
    (Hk 2%nat b2 eq_refl : mem (base + Z.of_nat off + 2) = Some b2), (Hk 3%nat b3 eq_refl : mem (base + Z.of_nat off + 3) = Some b3). reflexivity.
Qed.

Lemma holds_code other s v pd r base code : Vm.space (pvm s) v pd r -> Vm.cur_vm (pvm s) = v -> Vm.holds (Vm.mem (pvm s)) pd base code ->
  base + Z.of_nat (length code) <= KMem.KERNEL_BASE -> has_code (user_mem other s) base code.
Proof.
  intros [[P1 P2 _ P4] _ _ _] Hc Hh Hend k x Hx. unfold user_mem. pose proof (lookup_lt_Some _ _ _ Hx).
  rewrite (proj2 (Z.ltb_lt _ _)) by lia.
  assert (cur_pgdir s = Some (KMem.KP2V pd)) as -> by (unfold cur_pgdir; rewrite Hc, P1, <- P2; reflexivity).
  cbn [mbind option_bind]. rewrite PgTab.KV2P_KP2V.
  - rewrite (Hh k x Hx). reflexivity.
  - destruct (PgTab.a_pool _ _ P4 pd) as [[_ ?] _]; [by left|]. unfold is_u32, KMem.PHY_MEMORY_TOP, KMem.KERNEL_SPACE_SIZE in *. lia.
Qed.

Section init.
Context `{DV : Inode.Devices} `{Schedular} (sb : BAlloc.superblock) (other : Z -> option Z) (junk1 junk2 : list Z) (kalloc_ok page_ok : bool).

(** C24: the first process runs /bin/init.  [load_initproc] puts the machine code at the
    start of the program area; when the process runs it and comes to its first [int 0x80],
    with the immediate operands of the three [mov] before it in eax, ebx and ecx, the kernel
    calls [proc_execv] with the path /bin/init and the argument vector that has the single
    string init. *)
Theorem initproc_execs_init s v pd r : Vm.space (pvm s) v pd r ->
  (forall a, Vm.USER_BASE <= a < Vm.USER_BASE + KMem.PG_SIZE -> PgTab.translate (Vm.mem (pvm s)) pd a = None) ->
  (2 <= length (PgTab.free_frames (Vm.mem (pvm s))))%nat ->
  exists m, load_initproc v s = Ok (tt, PSt (pos s) (Vm.set_mem m (pvm s)) (ptf s)) /\
    Vm.space (Vm.set_mem m (pvm s)) v pd r /\ Vm.holds m pd Vm.USER_BASE initcode /\
    forall s' tf r', Vm.space (pvm s') v pd r' -> Vm.cur_vm (pvm s') = v -> Vm.holds (Vm.mem (pvm s')) pd Vm.USER_BASE initcode ->
      tf_eax tf = dec32 (take 4 (drop 1 initcode)) -> tf_ebx tf = dec32 (take 4 (drop 6 initcode)) -> tf_ecx tf = dec32 (take 4 (drop 11 initcode)) ->
      syscalls sb other junk1 junk2 kalloc_ok page_ok (tf_eax tf) tf s' =
        ret (on_world (proc_execv sb [47; 98; 105; 110; 47; 105; 110; 105; 116] [[105; 110; 105; 116]])) s'.
Proof.
  intros Hs Hun Hlen.
  destruct (Vm.vm_valloc_spec (pvm s) v pd r Vm.USER_BASE 1 Hs) as (m1 & E1 & [O1 O2 O3] & Hmap & _ & _);
    [done|done|done|done|exact Hun|lia|].
  set (V1 := Vm.set_mem m1 (pvm s)) in *. assert (Vm.mem V1 = m1) as M1 by apply Vm.mem_set_mem.
  destruct (Vm.vm_copyout_spec V1 v pd r Vm.USER_BASE initcode O1) as (m2 & E2 & [Q1 Q2 Q3] & U2).
  - apply (bool_decide_unpack _). by vm_compute.
  - done.
  - done.
  - left. done.
  - intros va Hva. rewrite M1. destruct (Hmap va) as (f & -> & _); [|by eexists].
    assert (Z.of_nat (length initcode) = 49) as Hl by reflexivity. rewrite Hl in Hva. unfold KMem.PG_SIZE. lia.
  - exists m2. split; [|split; [exact Q1|split]].
    + unfold load_initproc. change (ROUND_UP (Z.of_nat (length initcode)) KMem.PG_SIZE) with 1.
      rewrite (bind_Ok _ _ _ _ _ (on_pvm_Ok _ s _ _ E1)). by rewrite (bind_Ok _ _ _ _ _ (on_pvm_Ok _ (PSt (pos s) V1 (ptf s)) _ _ E2)).
    + intros k x Hx. assert (Z.of_nat k < 49) as Hk by (apply lookup_lt_Some in Hx; simpl in Hx; lia).
      rewrite U2 by (unfold Vm.USER_BASE, KMem.KERNEL_BASE; lia). assert (Z.of_nat (length initcode) = 49) as Hl by reflexivity.
      rewrite decide_True by (rewrite Hl; lia). replace (Vm.USER_BASE + Z.of_nat k - Vm.USER_BASE) with (Z.of_nat k) by lia. by rewrite Nat2Z.id.
    + intros s' tf r' Hs' Hc Hh H1 H2 H3. pose proof (holds_code other s' v pd r' _ _ Hs' Hc Hh ltac:(done)) as Hcode.
      rewrite H1. change (syscalls sb other junk1 junk2 kalloc_ok page_ok (dec32 (take 4 (drop 1 initcode))) tf) with (ret (sys_execv sb other tf)).
      assert (sys_execv sb other tf s' = on_world (proc_execv sb [47; 98; 105; 110; 47; 105; 110; 105; 116] [[105; 110; 105; 116]]) s') as E.
      { apply (sys_execv_spec sb other s' tf _ [Vm.USER_BASE + 36]); rewrite ?H2, ?H3.
        - done.
        - done.
        - apply (cstr_code _ Vm.USER_BASE initcode 26); [exact Hcode|reflexivity|repeat constructor; done].
        - done.
        - done.
        - split.
          + intros [|k] x Hx; [|done]. injection Hx as <-. split; [|done].
            by apply (word_code _ Vm.USER_BASE initcode 41 0x24 0x80 0x4 0x4).
          + by apply (word_code _ Vm.USER_BASE initcode 45 0 0 0 0).
        - constructor; [|constructor]. split; [done|]. split; [done|].
          apply (cstr_code _ Vm.USER_BASE initcode 36); [exact Hcode|reflexivity|repeat constructor; done]. }
      unfold ret, mbind, M_bind. by rewrite E.
Qed.
End init.

(** ** Examples *)

#[local] Existing Instance Inode.no_devices.

Lemma syscall_fork_witness :
  exists s', syscall (H0 := round_robin) BAlloc.demo_sb (fun _ => None) [] [] true true (set_eax 9 (user_tframe Vm.USER_BASE)) demo_pst = Ok (Ret 8, s') /\
    ptf s' !! 0 = Some (set_eax 8 (user_tframe Vm.USER_BASE)) /\ ptf s' !! 5 = Some (set_eax 0 (user_tframe Vm.USER_BASE)).
Proof.
  destruct (syscall_fork (H := round_robin) BAlloc.demo_sb (fun _ => None) [] [] true true demo_pst _ _ _ _ _
    (set_eax 9 (user_tframe Vm.USER_BASE)) _ 5 demo_forking) as (page & nv & cp & s' & y & E & _ & _ & H1 & H2 & _).
  - by vm_compute.
  - reflexivity.
  - change (Vm.mem (pvm demo_pst)) with (PgTab.demo_as 8). rewrite (PgTab.demo_as_frames 8).
    change (PgTab.free_frames (PgTab.demo_as 8)) with (PgTab.free_frames (PgTab.demo_base 8)). rewrite (PgTab.demo_pool_free 8). simpl. lia.
  - exists s'. split; [exact E|]. split; [exact H1|exact H2].
Defined.

(** The area of the program is free in the old address space of [demo_exec_vst]. *)
Lemma demo_prog_free a : Vm.USER_BASE <= a < Vm.USER_BASE + KMem.PG_SIZE ->
  PgTab.translate (Vm.mem demo_exec_vst) (PgTab.demo_frame 8) a = None.
Proof.
  intros Ha. rewrite demo_exec_mem_eq. rewrite (PgTab.translate_page _ _ a Vm.USER_BASE).
  - unfold PgTab.translate, PgTab.lookup_pte, PgTab.pte. destruct demo_exec_mem_ok as (_ & _ & ->); [|lia].
    change (PgTab.frame (PgTab.demo_as 8) (PgTab.demo_frame 8)) with (PgTab.frame (PgTab.demo_as 0) (PgTab.demo_frame 8)). by vm_compute.
  - unfold Vm.USER_BASE, KMem.KERNEL_BASE, KMem.PG_SIZE in *. lia.
  - done.
  - unfold KMem.page_of, Vm.USER_BASE, KMem.PG_SIZE in *. Z.div_mod_to_equations. lia.
Qed.

(** The process of [demo_tst] with the child 3, in the memory of [demo_exec_vst]. *)
Definition demo_zombie : task_struct :=
  MkTask 7 [] TASK_ZOMBIE 10 10 (Some (KMem.KP2V (PgTab.demo_frame 14))) (VmUser demo_new_ptr) (Some 0) false 5 [] None.

Definition demo_parent (m : PgTab.vmem) : pst :=
  PSt (Os (with_task 3 demo_zombie demo_tst) demo_pfs) (Vm.set_mem m demo_exec_vst) ∅.

Lemma demo_parent_inv m : task_inv (ts (pos (demo_parent m))).
Proof.
  apply (task_inv_with demo_tst 3 (demo_child 0 TASK_ZOMBIE 5)); [|reflexivity..].
  exact (fk_tasks _ _ _ _ _ _ _ demo_forking).
Qed.

Lemma demo_reaping : exists m, reaping (demo_parent m) 3 demo_zombie Vm.demo_ptr (PgTab.demo_frame 8) (Vm.demo_vm Vm.USER_HEAP_BASE)
    demo_new_ptr (PgTab.demo_frame 12) demo_new_vm (PgTab.demo_frame 14) /\
  forall va, Vm.USER_BASE <= va < Vm.USER_BASE + 4096 -> is_Some (PgTab.translate (Vm.mem (pvm (demo_parent m))) (PgTab.demo_frame 8) va).
Proof.
  pose proof demo_execing as [X1 X2 X3 X4 X5 X6 X7]. change (wvm demo_world) with demo_exec_vst in *.
  destruct (Vm.vm_valloc_spec demo_exec_vst Vm.demo_ptr (PgTab.demo_frame 8) (Vm.demo_vm Vm.USER_HEAP_BASE) Vm.USER_BASE 1 X1)
    as (m & _ & [O1 O2 O3] & Hmap & _ & _); [done|done|done|done| |by apply demo_enough|].
  { exact demo_prog_free. }
  assert (PgTab.apart (Vm.mem demo_exec_vst) (PgTab.demo_frame 8) (PgTab.demo_frame 12)) as Ap by (intros g Hg Hg'; exact (X3 g Hg' Hg)).
  destruct (O3 _ _ _ X2 Ap) as (S2 & A2 & _). pose proof X2 as [[_ _ _ Cas] _ _ _].
  destruct (PgTab.evolves_apart _ (PgTab.demo_frame 12) _ m Cas Ap O2) as (_ & _ & P2 & _). destruct demo_new_frames as [Hnf _].
  destruct O2 as (used & F1 & F2 & _). rewrite demo_exec_mem_eq in F1, F2, P2. rewrite demo_old_frames in F2. rewrite Hnf in P2.
  assert (forall k, 8 <= k -> PgTab.demo_frame k ∉ used /\ PgTab.demo_frame k ∉ PgTab.free_frames m) as Hk.
  { intros k Hk. pose proof (demo_not_free k Hk) as Hn. rewrite F1 in Hn. split; intros Hin; apply Hn, elem_of_app; [by left|by right]. }
  exists m. split.
  - split; cbn [demo_parent pos pvm ts fs].
    + exact (demo_parent_inv m).
    + split; [reflexivity|]. split; reflexivity.
    + intros t' x' Ht' Hx' [Hp Hz]. rewrite (task_at_with demo_tst 3 (demo_child 0 TASK_ZOMBIE 5)) in Hx' by reflexivity.
      rewrite decide_False in Hx' by lia. unfold demo_tst in Hx'.
      rewrite (task_at_with demo_orphans 0 (demo_child 2 TASK_RUNNING 0)) in Hx' by reflexivity. case_decide; [by injection Hx' as <-|].
      apply demo_orphans_at in Hx'. destruct_or! Hx'; destruct Hx' as [-> ->] || destruct Hx' as [? ->]; try done; lia.
    + reflexivity.
    + split; [exact O1|reflexivity].
    + split; [reflexivity|]. split; [exact S2|]. split; [exact X5|by vm_compute].
    + rewrite Vm.mem_set_mem. exact A2.
    + split; [reflexivity|]. split; [by apply PgTab.demo_pool; lia|]. rewrite Vm.mem_set_mem. split; [apply Hk; lia|]. unfold outside. split.
      * rewrite F2. intros Hin. apply elem_of_cons in Hin as [Hin|Hin]; [by apply demo_frame_inj in Hin|].
        apply elem_of_app in Hin as [Hin|Hin]; [exact (proj1 (Hk 14 ltac:(lia)) Hin)|]. apply (bool_decide_pack _) in Hin. by vm_compute in Hin.
      * rewrite P2. intros Hin. apply (bool_decide_pack _) in Hin. by vm_compute in Hin.
    + intros y (k & Hy & ->)%(proj2 demo_exec_kmem). destruct Hy as [-> | ->]; by vm_compute.
  - cbn [demo_parent pvm]. rewrite Vm.mem_set_mem. intros va Hva. destruct (Hmap va) as (g & -> & _); [exact Hva|]. by eexists.
Qed.

Lemma syscall_wait_witness :
  exists s s' tf, tf_eax tf = 13 /\
    syscall (H0 := round_robin) BAlloc.demo_sb (fun _ => None) [] [] true true tf s = Ok (Ret 7, s') /\
    state_at (ts (pos s')) 3 = Some TASK_UNUSED /\ PgTab.uload (Vm.mem (pvm s')) (PgTab.demo_frame 8) (Vm.USER_BASE + 12) = Some 5.
Proof.
  destruct demo_reaping as (m & Hr & Hmap).
  set (tf := TFrame 0 0 0 0 (Vm.USER_BASE + 12) 0 0 13 0 0 0 0 0 0 0 0 0 0 0).
  exists (demo_parent m).
  destruct (syscall_wait (H := round_robin) BAlloc.demo_sb (fun _ => None) [] [] true true (demo_parent m) 3 demo_zombie _ _ _ _ _ _ _ tf Hr)
    as (s' & E & _ & _ & H1 & _ & _ & _ & _ & U).
  - reflexivity.
  - done.
  - done.
  - intros va Hva. apply Hmap. simpl in Hva. lia.
  - exists s', tf. split; [reflexivity|]. split; [exact E|]. split; [exact H1|]. rewrite (U (Vm.USER_BASE + 12)) by done. reflexivity.
Defined.
Lemma initproc_execs_init_witness :
  exists s m s', load_initproc Vm.demo_ptr s = Ok (tt, s') /\ pvm s' = Vm.set_mem m (pvm s) /\
    syscalls (H0 := round_robin) BAlloc.demo_sb (fun _ => None) [] [] true true 11 (TFrame 0 0 0 0 0x0404801a 0 0x04048029 11 0 0 0 0 0 0 0 0 0 0 0) s' =
      ret (on_world (proc_execv BAlloc.demo_sb [47; 98; 105; 110; 47; 105; 110; 105; 116] [[105; 110; 105; 116]])) s'.
Proof.
  set (tf := TFrame 0 0 0 0 0x0404801a 0 0x04048029 11 0 0 0 0 0 0 0 0 0 0 0).
  set (s := PSt (Os demo_tst demo_pfs) demo_exec_vst ∅). exists s.
  destruct (initproc_execs_init (H := round_robin) BAlloc.demo_sb (fun _ => None) [] [] true true s Vm.demo_ptr (PgTab.demo_frame 8) (Vm.demo_vm Vm.USER_HEAP_BASE))
    as (m & E & S1 & H1 & Hx).
  - exact (ex_old _ _ _ _ _ _ _ demo_execing).
  - exact demo_prog_free.
  - pose proof (demo_enough 8 ltac:(done)). change (pvm s) with demo_exec_vst. lia.
  - eexists m, _. split; [exact E|]. split; [reflexivity|]. set (s' := PSt _ _ _).
    specialize (Hx s' tf _ S1 eq_refl). change (pvm s') with (Vm.set_mem m (pvm s)) in Hx. rewrite Vm.mem_set_mem in Hx.
    exact (Hx H1 eq_refl eq_refl eq_refl).
Defined.
End Syscall.
