(* ===== verification/Trap.v ===== *)
(** Traps and descriptors: src/kernel/trap.c, src/kernel/x86_mmu.c, the interrupt controller
    of src/kernel/device/iopic.c, the timer of src/kernel/device/timer.c, and their part of the
    start in src/kernel/main.c.

    [tables] is the interrupt descriptor table with the handlers, and the masks of the two
    interrupt controllers; a trap runs on the processes of Proc.v.  The entry points
    [vectors] are assembly, a parameter; so is what the handlers of the disk and the keyboard
    do (Ide.v and Keyboard.v), since their state is not part of a process. *)

From stdpp Require Import base numbers list gmap.
From Stdlib Require Import ZArith Lia.
From S2P Require Import Prelude Semaphore BlockIO Log BAlloc Inode Dir Pathname File Balance Sched Task KMem PgTab Vm SysFs Exec Proc Syscall.
#[local] Open Scope Z_scope.

Module Trap.
Import Sched Task Exec Proc Syscall.

(** ** The global descriptor table *)

Definition GDT_G_BYTE : Z := Z.shiftl 0 23.
Definition GDT_G_4KB : Z := Z.shiftl 1 23.
Definition GDT_D_32 : Z := Z.shiftl 1 22.
Definition GDT_L_32 : Z := Z.shiftl 0 21.
Definition GDT_P_1 : Z := Z.shiftl 1 15.
Definition GDT_DPL0 : Z := Z.shiftl 0 13.
Definition GDT_DPL3 : Z := Z.shiftl 3 13.
Definition GDT_S_NORMAL : Z := Z.shiftl 1 12.
Definition GDT_S_SYS : Z := Z.shiftl 0 12.
Definition GDT_TYPE_CODE : Z := Z.shiftl 8 8.
Definition GDT_TYPE_DATA : Z := Z.shiftl 2 8.
Definition GDT_TYPE_TSS : Z := Z.shiftl 9 8.

(** [a | b | ...]. *)
Definition ors (l : list Z) : Z := foldr Z.lor 0 l.

Definition GDT_ATTR_SYS_CODE : Z := ors [GDT_G_4KB; GDT_D_32; GDT_L_32; GDT_P_1; GDT_DPL0; GDT_S_NORMAL; GDT_TYPE_CODE].

Definition GDT_ATTR_SYS_DATA : Z := ors [GDT_G_4KB; GDT_D_32; GDT_L_32; GDT_P_1; GDT_DPL0; GDT_S_NORMAL; GDT_TYPE_DATA].

Definition GDT_ATTR_USER_CODE : Z := ors [GDT_G_4KB; GDT_D_32; GDT_L_32; GDT_P_1; GDT_DPL3; GDT_S_NORMAL; GDT_TYPE_CODE].

Definition GDT_ATTR_USER_DATA : Z := ors [GDT_G_4KB; GDT_D_32; GDT_L_32; GDT_P_1; GDT_DPL3; GDT_S_NORMAL; GDT_TYPE_DATA].

Definition GDT_ATTR_BYTE_DATA : Z := ors [GDT_G_BYTE; GDT_D_32; GDT_L_32; GDT_P_1; GDT_DPL0; GDT_S_NORMAL; GDT_TYPE_DATA].

Definition GDT_ATTR_TSS : Z := ors [GDT_P_1; GDT_DPL0; GDT_S_SYS; GDT_TYPE_TSS].

Record gdt_desc := GdtDesc { limit_low : Z; base_low : Z; desc_high : Z }.

Definition GDT_DESC_NULL : gdt_desc := GdtDesc 0 0 0.

Definition MAKE_GDT_DESC (base_addr limit attrs : Z) : gdt_desc :=
  GdtDesc (u16 limit) (u16 base_addr)
    (Z.lor (Z.lor (Z.lor attrs (Z.land (Z.shiftr base_addr 16) 0xFF)) (Z.land limit 0x000F0000)) (Z.land base_addr 0xFF000000)).

Definition gdt_table : list gdt_desc :=
  [GDT_DESC_NULL;
   MAKE_GDT_DESC 0x00000000 0xFFFFF GDT_ATTR_SYS_CODE;
   MAKE_GDT_DESC 0x00000000 0xFFFFF GDT_ATTR_SYS_DATA;
   MAKE_GDT_DESC 0x800B8000 0xFFFFF GDT_ATTR_BYTE_DATA;
   GDT_DESC_NULL;
   MAKE_GDT_DESC 0x00000000 0xFFFFF GDT_ATTR_USER_CODE;
   MAKE_GDT_DESC 0x00000000 0xFFFFF GDT_ATTR_USER_DATA].

Definition SIZEOF_TSS : Z := 104.

Definition SYS_CODE_SELECTOR : Z := Z.lor (Z.shiftl 1 3) RPL0.
Definition SYS_DATA_SELECTOR : Z := Z.lor (Z.shiftl 2 3) RPL0.
Definition TSS_SELECTOR : Z := Z.lor (Z.shiftl 4 3) RPL0.

(** The fields of [struct tss] that the kernel sets. *)
Record tss := Tss { esp0 : Z; ss0 : Z; tss_ds : Z; iomb : Z }.

(** [&tss] is the address of the task state segment. *)
Definition mmu_init (tss_addr : Z) : list gdt_desc * tss :=
  (<[4%nat := MAKE_GDT_DESC tss_addr SIZEOF_TSS GDT_ATTR_TSS]> gdt_table, Tss 0 SYS_DATA_SELECTOR SYS_DATA_SELECTOR 0xFFFF).

Definition load_esp0 (e : Z) (t : tss) : tss := Tss e (ss0 t) (tss_ds t) (iomb t).

(** ** The interrupt descriptor table *)

Definition IDT_VECTORS_NR : Z := 256.

Definition IDT_DESC_P : Z := Z.shiftl 1 15.
Definition IDT_DESC_DPL_KERNEL : Z := Z.shiftl 0 13.
Definition IDT_DESC_DPL_USER : Z := Z.shiftl 3 13.
Definition IDT_DESC_TYPE_32 : Z := Z.shiftl 14 8.

Definition IDT_DESC_ATTR_DPL_KERNEL : Z := ors [IDT_DESC_P; IDT_DESC_DPL_KERNEL; IDT_DESC_TYPE_32].

Definition IDT_DESC_ATTR_DPL_USER : Z := ors [IDT_DESC_P; IDT_DESC_DPL_USER; IDT_DESC_TYPE_32].

Record intr_gate_desc := Gate { entry_offset_low : Z; entry_cs : Z; attrs : Z; entry_offset_high : Z }.

Definition SETUP_IGATE (vec_entry _attrs : Z) : intr_gate_desc :=
  Gate (u16 (Z.land vec_entry 0x0000FFFF)) SYS_CODE_SELECTOR _attrs (u16 (Z.shiftr vec_entry 16)).

(** The functions that are installed as handlers. *)
Inductive intr_handler_fn := Exception | Call | Timer | KeyboardIntr | DiskIntr.

#[global] Instance intr_handler_fn_eq_dec : EqDecision intr_handler_fn.
Proof. solve_decision. Defined.

Record tables := Tables {
  idt : list intr_gate_desc;
  intr_handler_table : list (option intr_handler_fn);
  imr_main : Z;                 (* the mask registers of the controllers *)
  imr_slave : Z;
}.

Definition IRQ_START_VEC_NR : Z := 0x20.

(** A store to [intr_handler_table]. *)
Definition set_handler (nr : Z) (h : option intr_handler_fn) : M tables unit :=
  t ← get;
  if (0 <=? nr) && (nr <? IDT_VECTORS_NR) then
    put (Tables (idt t) (<[Z.to_nat nr := h]> (intr_handler_table t)) (imr_main t) (imr_slave t))
  else panic.

Definition set_gate (nr : Z) (g : intr_gate_desc) : M tables unit :=
  t ← get;
  if (0 <=? nr) && (nr <? IDT_VECTORS_NR) then
    put (Tables (<[Z.to_nat nr := g]> (idt t)) (intr_handler_table t) (imr_main t) (imr_slave t))
  else panic.

Definition setup_irq_handler (irq_nr : Z) (h : intr_handler_fn) : M tables unit := set_handler (IRQ_START_VEC_NR + irq_nr) (Some h).

Section init.
Context (vectors : Z -> Z).

Definition setup_intr_handler (nr : Z) (user : bool) (h : intr_handler_fn) : M tables unit :=
  set_handler nr (Some h);;
  if user then set_gate nr (SETUP_IGATE (vectors nr) IDT_DESC_ATTR_DPL_USER)
  else set_gate nr (SETUP_IGATE (vectors nr) IDT_DESC_ATTR_DPL_KERNEL).

Definition trap_init : M tables unit :=
  for_loop 20 0 (fun i => set_handler (Z.of_nat i) (Some Exception));;
  for_loop 236 20 (fun i => set_handler (Z.of_nat i) None);;
  for_loop 256 0 (fun i => set_gate (Z.of_nat i) (SETUP_IGATE (vectors (Z.of_nat i)) IDT_DESC_ATTR_DPL_KERNEL)).

(** The last two writes of [iopic_init]; the ones before are the commands that start the
    controllers. *)
Definition iopic_init : M tables unit :=
  modify (fun t => Tables (idt t) (intr_handler_table t) 0xFB 0xFD).

Definition enable_irq (irq : Z) : M tables unit :=
  t ← get;
  if irq <? 8 then
    put (Tables (idt t) (intr_handler_table t) (u8 (Z.land (imr_main t) (Z.lnot (Z.shiftl 1 irq)))) (imr_slave t))
  else
    put (Tables (idt t) (intr_handler_table t) (imr_main t) (u8 (Z.land (imr_slave t) (Z.lnot (Z.shiftl 1 (irq - 8)))))).

Definition syscall_init : M tables unit := setup_intr_handler 0x80 true Call.

Definition timer_init : M tables unit := setup_irq_handler 0 Timer;; enable_irq 0.

(** [init_ide_chan] of the channel with the interrupt [irq_no]. *)
Definition ide_irq_init (irq_no : Z) : M tables unit := setup_irq_handler irq_no DiskIntr;; enable_irq irq_no.

Definition keyboard_irq_init : M tables unit := setup_irq_handler 1 KeyboardIntr;; enable_irq 1.

(** [ide_init] starts the channels that there are. *)
Fixpoint ide_irqs_init (irqs : list Z) : M tables unit :=
  match irqs with
  | [] => mret tt
  | irq :: irqs => ide_irq_init irq;; ide_irqs_init irqs
  end.

(** [init_all], as far as the tables go. *)
Definition init_all (irqs : list Z) : M tables unit :=
  trap_init;;
  iopic_init;;
  timer_init;;
  syscall_init;;
  ide_irqs_init irqs;;
  keyboard_irq_init.
End init.

(** ** The timer *)

Definition INPUT_FREQUENCY : Z := 1193180.
Definition IRQ0_FREQUENCY : Z := 1000.
Definition PIC_COUNTER0 : Z := 0.
Definition PIC_RW_HIGH : Z := 2.
Definition PIC_RW_LOW_HIGH : Z := 2.
Definition PIC_METHOD_M2 : Z := 2.
Definition PIC_BCD_BINARY : Z := 0.
Definition PIC_PORT_CONTROL : Z := 0x43.
Definition PIC_PORT_COUNTER0 : Z := 0x40.

(** The bytes written, with their ports. *)
Definition setup_irq0_frequence : list (Z * Z) :=
  let value := u16 (INPUT_FREQUENCY / IRQ0_FREQUENCY) in
  [(PIC_PORT_CONTROL, u8 (Z.lor (Z.lor (Z.lor (Z.shiftl PIC_COUNTER0 6) (Z.shiftl PIC_RW_LOW_HIGH 4)) (Z.shiftl PIC_METHOD_M2 1)) (Z.shiftl PIC_BCD_BINARY 0)));
   (PIC_PORT_COUNTER0, u8 value);
   (PIC_PORT_COUNTER0, u8 (Z.shiftr value 8))].

(** ** Traps *)

(** How a trap ends: the task goes on, another task runs ([None]: the timer), or the task
    has exited. *)
Inductive trap_end := Return | Switched (p : option pending) | Dead.

Section traps.
Context `{Inode.Devices} `{Schedular} (sb : BAlloc.superblock) (other : Z -> option Z) (junk1 junk2 : list Z) (kalloc_ok page_ok : bool).

(** The handlers of the other devices. *)
Context (device_intr : intr_handler_fn -> M pst unit).

Definition exception_handler (tf : tframe) : M pst unit :=
  if Z.land (tf_cs tf) 3 =? 0 then panic else set_cur_killed.

(** [ticks] of timer.c counts the interrupts; it is read by [get_tick_count] only. *)
Definition timer_interrupt : M pst trap_end :=
  s ← get;
  on_tab timeslice_check;;
  switch_context (cur s);;
  s' ← get;
  mret (if cur s' =? cur s then Return else Switched None).

Definition of_result (r : result) : trap_end :=
  match r with Ret _ => Return | Off p => Switched (Some p) | Gone => Dead end.

Definition run_handler (h : intr_handler_fn) (tf : tframe) : M pst trap_end :=
  match h with
  | Exception => exception_handler tf;; mret Return
  | Call => r ← syscall sb other junk1 junk2 kalloc_ok page_ok tf; mret (of_result r)
  | Timer => timer_interrupt
  | KeyboardIntr | DiskIntr => device_intr h;; mret Return
  end.

(** The end of [general_trap], when the task runs. *)
Definition trap_exit (tf : tframe) : M pst trap_end :=
  s ← get;
  if is_killed s && (Z.land (tf_cs tf) 3 =? RPL3) then exit sb KILLED_TASK_EXITSTATUS;; mret Dead
  else mret Return.

Definition general_trap (t : tables) (tf : tframe) : M pst trap_end :=
  h ← index (intr_handler_table t) (tf_intr_nr tf);
  match h with
  | None => panic
  | Some h =>
      r ← run_handler h tf;
      match r with Return => trap_exit tf | _ => mret r end
  end.
End traps.

(** ** Reading descriptors

    The fields as the processor takes them from the descriptors. *)

Definition desc_base (d : gdt_desc) : Z :=
  Z.lor (base_low d) (Z.lor (Z.shiftl (Z.land (desc_high d) 0xFF) 16) (Z.land (desc_high d) 0xFF000000)).

Definition desc_limit (d : gdt_desc) : Z := Z.lor (limit_low d) (Z.land (desc_high d) 0x000F0000).

Definition desc_attrs (d : gdt_desc) : Z := Z.land (desc_high d) 0x00F0FF00.

(** The descriptor privilege level and the type of both kinds of descriptors. *)
Definition dpl (attrs : Z) : Z := Z.land (Z.shiftr attrs 13) 3.

Definition gate_entry (g : intr_gate_desc) : Z := Z.lor (entry_offset_low g) (Z.shiftl (entry_offset_high g) 16).

Lemma land_high k c x n : 0 <= c < 2 ^ k -> 0 <= k <= n -> Z.testbit (Z.land x c) n = false.
Proof.
  intros Hc Hn. rewrite Z.land_spec. rewrite andb_false_iff. right.
  destruct (decide (c = 0)) as [->|Hne]; [apply Z.testbit_0_l|]. apply Z.bits_above_log2; [lia|]. apply Z.log2_lt_pow2; [lia|].
  apply Z.lt_le_trans with (2 ^ k); [lia|]. apply Z.pow_le_mono_r; lia.
Qed.

(** Equal bits below 32, and none above. *)
Lemma bits32_eq a b : Forall (fun n => Z.testbit a n = Z.testbit b n) (seqZ 0 32) ->
  (forall n, 32 <= n -> Z.testbit a n = Z.testbit b n) -> a = b.
Proof.
  intros Hall Hhigh. apply Z.bits_inj'. intros n Hn. destruct (decide (32 <= n)); [by apply Hhigh|].
  rewrite Forall_forall in Hall. apply Hall. apply elem_of_seqZ. lia.
Qed.

Lemma land_u32 x : is_u32 x -> Z.land x 0xFFFFFFFF = x.
Proof. intros H. change 0xFFFFFFFF with (Z.ones 32). rewrite Z.land_ones by done. by apply Z.mod_small. Qed.

Lemma u16_land x : u16 x = Z.land x 0xFFFF.
Proof. unfold u16. change 0xFFFF with (Z.ones 16). by rewrite Z.land_ones. Qed.

(** Compares the bits of numbers made of constants and masked numbers. *)
Ltac bit_specs := rewrite ?Z.lor_spec, ?Z.land_spec, ?Z.shiftl_spec, ?Z.shiftr_spec by done.

Ltac bits32_low :=
  repeat constructor; repeat (progress bit_specs);
  repeat match goal with |- context [Z.testbit (Z.pos ?c) ?n] => let b := eval vm_compute in (Z.testbit (Z.pos c) n) in
    change (Z.testbit (Z.pos c) n) with b end;
  repeat match goal with |- context [Z.testbit ?x (?a + ?b)] => let n := eval vm_compute in (a + b) in change (Z.testbit x (a + b)) with (Z.testbit x n) end;
  rewrite ?andb_true_r, ?andb_false_r, ?orb_false_r, ?orb_false_l; try reflexivity.

Lemma desc_spec base limit attrs : is_u32 base -> 0 <= limit < 2 ^ 20 -> Z.land attrs 0x00F0FF00 = attrs ->
  let d := MAKE_GDT_DESC base limit attrs in
  desc_base d = base /\ desc_limit d = limit /\ desc_attrs d = attrs.
Proof.
  intros Hb Hl Ha. apply land_u32 in Hb.
  assert (Z.land limit 0xFFFFF = limit) as Hl'.
  { change 0xFFFFF with (Z.ones 20). rewrite Z.land_ones by done. by apply Z.mod_small. }
  unfold desc_base, desc_limit, desc_attrs, MAKE_GDT_DESC. cbv zeta. cbn [base_low limit_low desc_high]. rewrite !u16_land.
  rewrite <- Hb, <- Hl', <- Ha. split_and!.
  - apply bits32_eq; [bits32_low|]. intros n Hn. rewrite !Z.lor_spec, Z.shiftl_spec by lia.
    rewrite (land_high 16 0xFFFF), (land_high 8 0xFF), (land_high 32 0xFF000000), (land_high 32 0xFFFFFFFF) by lia. done.
  - apply bits32_eq; [bits32_low|]. intros n Hn. rewrite Z.lor_spec by lia.
    rewrite (land_high 16 0xFFFF), (land_high 32 0x000F0000), (land_high 20 0xFFFFF) by lia. done.
  - apply bits32_eq; [bits32_low|]. intros n Hn. by rewrite !(land_high 24 0x00F0FF00) by lia.
Qed.

Lemma gate_spec v a : is_u32 v -> gate_entry (SETUP_IGATE v a) = v.
Proof.
  intros Hv. apply land_u32 in Hv. unfold gate_entry, SETUP_IGATE. cbn [entry_offset_low entry_offset_high]. rewrite !u16_land, <- Hv.
  apply bits32_eq; [bits32_low|]. intros n Hn. rewrite Z.lor_spec, Z.shiftl_spec by lia.
  rewrite !(land_high 16 0xFFFF), (land_high 32 0xFFFFFFFF) by lia. done.
Qed.

(** the descriptors say what they are meant to.  Whatever base address, 20-bit limit and
    attributes are given, the processor reads them back from the scattered fields of the
    descriptor; the four segments of the kernel and of programs cover all of the address space
    (4 GiB in pages), the ones that programs load have privilege level 3 and the selectors of
    [init_user_stack] point to them, and an interrupt gate leads to the entry it was made
    for. *)
Theorem descriptors_correct base limit attrs v : is_u32 base -> 0 <= limit < 2 ^ 20 -> Z.land attrs 0x00F0FF00 = attrs -> is_u32 v ->
  (let d := MAKE_GDT_DESC base limit attrs in desc_base d = base /\ desc_limit d = limit /\ desc_attrs d = attrs) /\
  (forall tss_addr, Forall (fun '(sel, level) => exists d, fst (mmu_init tss_addr) !! Z.to_nat (Z.shiftr sel 3) = Some d /\
      desc_base d = 0 /\ (desc_limit d + 1) * KMem.PG_SIZE = 2 ^ 32 /\ dpl (desc_attrs d) = level /\ Z.land sel 3 = level)
    [(SYS_CODE_SELECTOR, 0); (SYS_DATA_SELECTOR, 0); (USER_CODE_SELECTOR, 3); (USER_DATA_SELECTOR, 3)]) /\
  gate_entry (SETUP_IGATE v IDT_DESC_ATTR_DPL_KERNEL) = v /\ gate_entry (SETUP_IGATE v IDT_DESC_ATTR_DPL_USER) = v.
Proof.
  intros Hb Hl Ha Hv. split; [by apply desc_spec|]. split; [|split; by apply gate_spec].
  intros tss_addr. repeat constructor; eexists; (split; [reflexivity|]); split_and!; vm_compute; reflexivity.
Qed.

Lemma descriptors_correct_witness :
  desc_base (MAKE_GDT_DESC 0x800B8000 0xFFFFF GDT_ATTR_BYTE_DATA) = 0x800B8000 /\
  gate_entry (SETUP_IGATE 0x80012345 IDT_DESC_ATTR_DPL_USER) = 0x80012345.
Proof.
  destruct (descriptors_correct 0x800B8000 0xFFFFF GDT_ATTR_BYTE_DATA 0x80012345) as ((H1 & _ & _) & _ & _ & H2); [done|done|reflexivity|done|].
  split; [exact H1|exact H2].
Defined.

(** ** The tables after the start *)

Lemma set_handler_Ok nr h t : 0 <= nr < 256 ->
  set_handler nr h t = Ok (tt, Tables (idt t) (<[Z.to_nat nr := h]> (intr_handler_table t)) (imr_main t) (imr_slave t)).
Proof.
  intros Hn. unfold set_handler, IDT_VECTORS_NR. rewrite (bind_Ok _ _ _ t t) by done.
  rewrite (proj2 (Z.leb_le _ _)), (proj2 (Z.ltb_lt _ _)) by lia. done.
Qed.

Lemma set_gate_Ok nr g t : 0 <= nr < 256 ->
  set_gate nr g t = Ok (tt, Tables (<[Z.to_nat nr := g]> (idt t)) (intr_handler_table t) (imr_main t) (imr_slave t)).
Proof.
  intros Hn. unfold set_gate, IDT_VECTORS_NR. rewrite (bind_Ok _ _ _ t t) by done.
  rewrite (proj2 (Z.leb_le _ _)), (proj2 (Z.ltb_lt _ _)) by lia. done.
Qed.

(** A loop that stores [f i] in the entry [i]. *)
Lemma fill_step {A} (f : nat -> A) n a (l : list A) : (a + S n <= length l)%nat ->
  take (S a) (<[a := f a]> l) ++ map f (seq (S a) n) ++ drop (S a + n) (<[a := f a]> l) =
  take a l ++ map f (seq a (S n)) ++ drop (a + S n) l.
Proof.
  intros Hl. rewrite (take_S_r _ _ (f a)) by (by rewrite list_lookup_insert_eq by lia).
  rewrite take_insert_ge, drop_insert_lt by lia. simpl. rewrite <- app_assoc. by replace (a + S n)%nat with (S (a + n)) by lia.
Qed.

Lemma fill_handlers f n : forall a t, (a + n <= 256)%nat -> length (intr_handler_table t) = 256%nat ->
  for_loop n a (fun i => set_handler (Z.of_nat i) (f i)) t =
    Ok (tt, Tables (idt t) (take a (intr_handler_table t) ++ map f (seq a n) ++ drop (a + n) (intr_handler_table t)) (imr_main t) (imr_slave t)).
Proof.
  induction n as [|n IH]; intros a t Hn Hl.
  { simpl. rewrite Nat.add_0_r, take_drop. by destruct t. }
  cbn [for_loop]. rewrite (bind_Ok _ _ _ _ _ (set_handler_Ok (Z.of_nat a) (f a) t ltac:(lia))). rewrite Nat2Z.id.
  rewrite IH by (simpl; rewrite ?length_insert; lia). cbn [idt intr_handler_table imr_main imr_slave]. by rewrite fill_step by lia.
Qed.

Lemma fill_gates f n : forall a t, (a + n <= 256)%nat -> length (idt t) = 256%nat ->
  for_loop n a (fun i => set_gate (Z.of_nat i) (f i)) t =
    Ok (tt, Tables (take a (idt t) ++ map f (seq a n) ++ drop (a + n) (idt t)) (intr_handler_table t) (imr_main t) (imr_slave t)).
Proof.
  induction n as [|n IH]; intros a t Hn Hl.
  { simpl. rewrite Nat.add_0_r, take_drop. by destruct t. }
  cbn [for_loop]. rewrite (bind_Ok _ _ _ _ _ (set_gate_Ok (Z.of_nat a) (f a) t ltac:(lia))). rewrite Nat2Z.id.
  rewrite IH by (simpl; rewrite ?length_insert; lia). cbn [idt intr_handler_table imr_main imr_slave]. by rewrite fill_step by lia.
Qed.

(** The handlers that are installed. *)
Definition handler_of (irqs : list Z) (nr : Z) : option intr_handler_fn :=
  if nr <? 20 then Some Exception
  else if nr =? 0x20 then Some Timer
  else if nr =? 0x21 then Some KeyboardIntr
  else if nr =? 0x80 then Some Call
  else if bool_decide (nr - 0x20 ∈ irqs) then Some DiskIntr
  else None.

(** Whether the controllers let the interrupt line [irq] through. *)
Definition unmasked (t : tables) (irq : Z) : bool :=
  if irq <? 8 then negb (Z.testbit (imr_main t) irq) else negb (Z.testbit (imr_slave t) (irq - 8)).

Section start.
Context (vectors : Z -> Z).

Lemma trap_init_spec t : length (idt t) = 256%nat -> length (intr_handler_table t) = 256%nat ->
  trap_init vectors t = Ok (tt, Tables (map (fun i => SETUP_IGATE (vectors (Z.of_nat i)) IDT_DESC_ATTR_DPL_KERNEL) (seq 0 256))
    (replicate 20 (Some Exception) ++ replicate 236 None) (imr_main t) (imr_slave t)).
Proof.
  intros Hi Hh. unfold trap_init. rewrite (bind_Ok _ _ _ _ _ (fill_handlers (fun _ => Some Exception) 20 0 t ltac:(lia) Hh)).
  rewrite take_0, app_nil_l. set (t1 := Tables _ _ _ _).
  assert (length (intr_handler_table t1) = 256%nat) as Hh1 by (unfold t1; simpl; rewrite length_drop; lia).
  rewrite (bind_Ok _ _ _ _ _ (fill_handlers (fun _ => None) 236 20 t1 ltac:(lia) Hh1)). set (t2 := Tables _ _ _ _).
  rewrite (fill_gates (fun i => SETUP_IGATE (vectors (Z.of_nat i)) IDT_DESC_ATTR_DPL_KERNEL) 256 0 t2 ltac:(lia) Hi).
  unfold t2. cbn [idt intr_handler_table imr_main imr_slave]. rewrite (drop_ge (intr_handler_table t1)) by (rewrite Hh1; lia). change (idt t1) with (idt t). rewrite (drop_ge (idt t)) by (rewrite Hi; lia).
  rewrite !app_nil_r, take_0, app_nil_l.
  reflexivity.
Qed.

Lemma masks_spec irqs irq : irqs = [14] \/ irqs = [14; 15] -> 0 <= irq < 16 ->
  (if irq <? 8 then negb (Z.testbit 0xF8 irq) else negb (Z.testbit (if bool_decide (irqs = [14]) then 0xBD else 0x3D) (irq - 8))) =
  bool_decide (irq ∈ [0; 1; 2; 9] ++ irqs).
Proof.
  intros Hirqs Hq. revert irq Hq. assert (forall l, l = [14] \/ l = [14; 15] -> Forall (fun irq =>
    (if irq <? 8 then negb (Z.testbit 0xF8 irq) else negb (Z.testbit (if bool_decide (l = [14]) then 0xBD else 0x3D) (irq - 8))) =
    bool_decide (irq ∈ [0; 1; 2; 9] ++ l)) (seqZ 0 16)) as Hall.
  { intros l [-> | ->]; apply (bool_decide_unpack _); vm_compute; exact I. }
  intros irq Hq. specialize (Hall irqs Hirqs). rewrite Forall_forall in Hall. apply Hall, elem_of_seqZ. lia.
Qed.

Definition kernel_gates : list intr_gate_desc := map (fun i => SETUP_IGATE (vectors (Z.of_nat i)) IDT_DESC_ATTR_DPL_KERNEL) (seq 0 256).

Lemma gates_spec n : 0 <= n < 256 -> <[128%nat := SETUP_IGATE (vectors 0x80) IDT_DESC_ATTR_DPL_USER]> kernel_gates !! Z.to_nat n =
  Some (SETUP_IGATE (vectors n) (if n =? 0x80 then IDT_DESC_ATTR_DPL_USER else IDT_DESC_ATTR_DPL_KERNEL)).
Proof.
  intros Hn. destruct (Z.eqb_spec n 0x80) as [->|Hne].
  - rewrite list_lookup_insert_eq; [done|]. unfold kernel_gates. rewrite length_map, length_seq. lia.
  - rewrite list_lookup_insert_ne by lia. unfold kernel_gates. rewrite list_lookup_fmap, lookup_seq_lt by lia. cbn [fmap option_fmap option_map].
    rewrite Nat.add_0_l, Z2Nat.id by lia. reflexivity.
Qed.

(** The steps after [trap_init]. *)
Lemma handlers_installed irqs (G : list intr_gate_desc) m s : irqs = [14] \/ irqs = [14; 15] ->
  (iopic_init;; timer_init;; syscall_init vectors;; ide_irqs_init irqs;; keyboard_irq_init)
    (Tables G (replicate 20 (Some Exception) ++ replicate 236 None) m s) =
  Ok (tt, Tables (<[128%nat := SETUP_IGATE (vectors 0x80) IDT_DESC_ATTR_DPL_USER]> G) (map (handler_of irqs) (seqZ 0 256)) 0xF8
    (if bool_decide (irqs = [14]) then 0xBD else 0x3D)).
Proof.
  unfold syscall_init, setup_intr_handler. generalize (SETUP_IGATE (vectors 0x80) IDT_DESC_ATTR_DPL_USER).
  generalize (SETUP_IGATE (vectors 0x80) IDT_DESC_ATTR_DPL_KERNEL). intros k g [-> | ->]; vm_compute; reflexivity.
Qed.

(** The processor takes a gate for the entry [v] in the kernel's code segment: the offset is
    [v], the selector is that of a descriptor of [mmu_init]'s table which is a code segment
    of privilege level 0 over all of the address space, and the gate is a 32-bit interrupt
    gate that is present. *)
Definition gate_to (g : intr_gate_desc) (v : Z) : Prop :=
  gate_entry g = v /\ 0 <= entry_offset_low g < 2 ^ 16 /\ 0 <= entry_offset_high g < 2 ^ 16 /\
  Z.land (entry_cs g) 7 = 0 /\
  (forall tss_addr, exists d, fst (mmu_init tss_addr) !! Z.to_nat (Z.shiftr (entry_cs g) 3) = Some d /\
     desc_attrs d = GDT_ATTR_SYS_CODE /\ desc_base d = 0 /\ (desc_limit d + 1) * KMem.PG_SIZE = 2 ^ 32) /\
  Z.testbit (attrs g) 15 = true /\ Z.land (Z.shiftr (attrs g) 8) 0x1F = 14.

Lemma gate_to_setup v a : is_u32 v -> a = IDT_DESC_ATTR_DPL_USER \/ a = IDT_DESC_ATTR_DPL_KERNEL -> gate_to (SETUP_IGATE v a) v.
Proof.
  intros Hv Ha. split_and!; [by apply gate_spec|apply Z.mod_pos_bound; done..|done| | |].
  - intros tss_addr. eexists. split; [reflexivity|]. split_and!; vm_compute; reflexivity.
  - by destruct Ha as [-> | ->].
  - by destruct Ha as [-> | ->].
Qed.

(** C26: the tables after the start of the kernel.  Every one of the 256 gates leads to the
    entry of its vector in the kernel's code segment: the processor reads the address of the
    entry from the two halves of the offset, the selector is that of the code segment of
    privilege level 0 over the whole address space, and the gate is a present 32-bit
    interrupt gate; programs may call vector 0x80 only, the system calls; exceptions, the
    timer, the keyboard, the disks and system calls have their handlers and no other vector
    has one; the controllers let exactly the interrupts 0, 1, 2, 9 and those of the disks
    through. *)
Theorem init_all_correct irqs t : (irqs = [14] \/ irqs = [14; 15]) -> (forall n, is_u32 (vectors n)) ->
  length (idt t) = 256%nat -> length (intr_handler_table t) = 256%nat ->
  exists t', init_all vectors irqs t = Ok (tt, t') /\
    (forall n, 0 <= n < 256 -> exists g, idt t' !! Z.to_nat n = Some g /\ gate_to g (vectors n) /\
       dpl (attrs g) = if n =? 0x80 then 3 else 0) /\
    (forall n, 0 <= n < 256 -> intr_handler_table t' !! Z.to_nat n = Some (handler_of irqs n)) /\
    (forall irq, 0 <= irq < 16 -> unmasked t' irq = bool_decide (irq ∈ [0; 1; 2; 9] ++ irqs)).
Proof.
  intros Hirqs Hv Hi Hh. unfold init_all. rewrite (bind_Ok _ _ _ _ _ (trap_init_spec t Hi Hh)).
  eexists. split; [apply handlers_installed; exact Hirqs|]. split_and!.
  - intros n Hn. eexists. split; [by apply gates_spec|]. split; [apply gate_to_setup; [done|destruct (n =? 0x80); auto]|].
    by destruct (n =? 0x80).
  - intros n Hn. cbn [intr_handler_table]. rewrite list_lookup_fmap, lookup_seqZ_lt by lia. cbn [fmap option_fmap option_map].
    rewrite Z.add_0_l, Z2Nat.id by lia. reflexivity.
  - intros irq Hq. unfold unmasked. cbn [imr_main imr_slave]. by apply masks_spec.
Qed.
End start.

Definition demo_vectors (n : Z) : Z := if (0 <=? n) && (n <? 256) then 0x80010000 + 16 * n else 0.

Lemma init_all_correct_witness :
  exists t' g, init_all demo_vectors [14] (Tables (replicate 256 (Gate 0 0 0 0)) (replicate 256 None) 0 0) = Ok (tt, t') /\
    idt t' !! 0x80%nat = Some g /\ gate_to g 0x80010800 /\ dpl (attrs g) = 3 /\
    intr_handler_table t' !! 0x2e%nat = Some (Some DiskIntr) /\ unmasked t' 9 = true /\ intr_handler_table t' !! 0x29%nat = Some None.
Proof.
  destruct (init_all_correct demo_vectors [14] (Tables (replicate 256 (Gate 0 0 0 0)) (replicate 256 None) 0 0))
    as (t' & E & Hg & Hh & Hu); [by left| |reflexivity|reflexivity|].
  - intros n. unfold demo_vectors, is_u32. destruct (Z.leb_spec 0 n), (Z.ltb_spec n 256); simpl; lia.
  - destruct (Hg 0x80 ltac:(lia)) as (g & G1 & G2 & G3). exists t', g. split; [exact E|]. split; [exact G1|].
    split; [exact G2|]. split; [exact G3|]. split; [exact (Hh 0x2e ltac:(lia))|].
    split; [exact (Hu 9 ltac:(lia))|exact (Hh 0x29 ltac:(lia))].
Defined.

(** ** Faults of programs *)

(** The file layer of a task that has been marked. *)
Definition mark_killed (f : File.kst) : File.kst :=
  File.Kst (File.il f) (File.ftable f) (File.pipes f) (File.next_pipe f) (File.ofiles f) (File.cwd f) true.

Section faults.
Context `{DV : Inode.Devices} `{SchedularLaws} (sb : BAlloc.superblock) (other : Z -> option Z) (junk1 junk2 : list Z) (kalloc_ok page_ok : bool).
Context (device_intr : intr_handler_fn -> M pst unit).

(** The running process: [x] in the table, [p] is its parent [px]; it is neither init nor
    idle, none of its children has exited, every task that is there has an address space, and
    the files and the directory of the process can be closed. *)
Record process (s : pst) (x : task_struct) (p : Z) (px : task_struct) (f' : File.kst) : Prop := {
  pr_inv : task_inv (ts (pos s));
  pr_task : task_at (ts (pos s)) (cur s) = Some x;
  pr_parent : parent x = Some p;
  pr_other : p <> cur s;
  pr_px : task_at (ts (pos s)) p = Some px;
  pr_pidle : p <> idle_task (ts (pos s));
  pr_idle : cur s <> idle_task (ts (pos s));
  pr_init : init_proc (ts (pos s)) <> Some (cur s);
  pr_children : forall t z, task_at (ts (pos s)) t = Some z -> parent z = Some (cur s) -> state z <> TASK_ZOMBIE;
  pr_vms : forall t z, task_at (ts (pos s)) t = Some z -> state z <> TASK_UNUSED -> vm z <> VmNull;
  pr_files : exit_files sb (mark_killed (fs (pos s))) = Ok (tt, f');
}.

(** The process of [s] is gone in [s'], with the status 100. *)
Record killed_off (s s' : pst) (x : task_struct) (p : Z) (px : task_struct) : Prop := {
  ko_inv : task_inv (ts (pos s'));
  ko_switched : cur s' <> cur s;
  ko_zombie : exists y, task_at (ts (pos s')) (cur s) = Some y /\ state y = TASK_ZOMBIE /\
    exit_status y = KILLED_TASK_EXITSTATUS /\ killed y = true /\ pid y = pid x /\ parent y = Some p /\
    kstack_ptr y = kstack_ptr x /\ vm y = vm x;
  ko_parent : state px = TASK_WAITING -> p = cur s' \/ p ∈ rq_list (ts (pos s'));
  ko_others : forall t z, t <> cur s -> task_at (ts (pos s)) t = Some z ->
    exists z', task_at (ts (pos s')) t = Some z' /\ after_exit (cur s) (ts (pos s)) z z';
  ko_memory : Vm.mem (pvm s') = Vm.mem (pvm s) /\ Vm.vms (pvm s') = Vm.vms (pvm s) /\ ptf s' = ptf s;
  ko_vm : exists z, task_at (ts (pos s')) (cur s') = Some z /\
    Vm.cur_vm (pvm s') = match vm z with VmUser v => v | _ => Vm.kvm end;
}.

Lemma set_cur_killed_Ok s x : task_at (ts (pos s)) (cur s) = Some x ->
  set_cur_killed s = Ok (tt, PSt (Os (with_task (cur s) (set_killed true x) (ts (pos s))) (mark_killed (fs (pos s)))) (pvm s) (ptf s)).
Proof.
  intros E. unfold set_cur_killed. rewrite (bind_Ok _ _ _ s s) by done.
  by rewrite (bind_Ok _ _ _ _ _ (on_tab_Ok _ _ _ _ (upd_task_Ok _ _ _ (set_killed true) E))).
Qed.

(** The table when another task runs and the files of [c] are stored in it. *)
Lemma switch_files_Ok T f c y : task_inv T -> task_at T c = Some y -> current_task T <> c ->
  exists z f', task_at T (current_task T) = Some z /\
    switch_files c (Os T f) = Ok (tt, Os (with_task c (set_files (File.ofiles f) (if File.cwd f =? NOCWD then None else Some (File.cwd f)) y) T) f').
Proof.
  intros I E Hc. pose proof (ti_running _ I) as R. unfold running, state_at in R.
  destruct (task_at T (current_task T)) as [z|] eqn:Ez; [|done]. eexists z, _. split; [done|]. unfold switch_files.
  rewrite (bind_Ok _ _ _ (Os T f) (Os T f)) by done. cbn [ts fs]. cbv zeta.
  erewrite bind_Ok; [|unfold lift; simpl; rewrite (upd_task_Ok _ _ _ _ E); reflexivity].
  erewrite bind_Ok; [|unfold lift; simpl; rewrite (task_at_get (with_task _ _ _) _ z); [reflexivity|];
    rewrite (task_at_with T c y) by done; by rewrite decide_False by congruence].
  reflexivity.
Qed.

(** A table has the entries of another one. *)
Lemma exists_at T T' t z : sched_inv T -> sched_inv T' -> task_at T' t = Some z -> exists w, task_at T t = Some w.
Proof.
  intros V V' E. pose proof (task_at_nonneg _ _ _ E) as [Hpos Hl]. apply lookup_lt_Some in Hl. rewrite (v_len _ V') in Hl.
  unfold task_at. rewrite (proj2 (Z.ltb_ge _ _)) by done. apply lookup_lt_is_Some_2. by rewrite (v_len _ V).
Qed.

Lemma task_exit_Ok o x p f' T : init_proc (ts o) <> Some (current_task (ts o)) -> task_at (ts o) (current_task (ts o)) = Some x ->
  parent x = Some p -> exit_files sb (fs o) = Ok (tt, f') -> exit_table KILLED_TASK_EXITSTATUS (ts o) = Ok (tt, T) ->
  task_exit sb KILLED_TASK_EXITSTATUS o = switch_files (current_task (ts o)) (Os T f').
Proof.
  intros Hi Ex Hp Hf Ht. unfold task_exit. rewrite (bind_Ok _ _ _ o o) by done. cbv zeta.
  rewrite (bind_Ok _ _ _ tt o) by (by apply ASSERT_true, bool_decide_eq_true_2).
  destruct o as [T0 f0]. simpl in *.
  erewrite bind_Ok; [|unfold lift; simpl; rewrite (task_at_get _ _ _ Ex); reflexivity].
  rewrite (bind_Ok _ _ _ tt (Os T0 f0)) by (apply ASSERT_true, bool_decide_eq_true_2; by rewrite Hp).
  erewrite bind_Ok; [|unfold lift; simpl; rewrite Hf; reflexivity].
  by erewrite bind_Ok; [|unfold lift; simpl; rewrite Ht; reflexivity].
Qed.

Lemma switch_vm_Ok s z : task_at (ts (pos s)) (cur s) = Some z -> vm z <> VmNull ->
  switch_vm s = Ok (tt, PSt (pos s) (Vm.VSt (Vm.km (pvm s)) (Vm.vframes (pvm s)) (Vm.vms (pvm s))
    (match vm z with VmUser v => v | _ => Vm.kvm end) (Vm.intr (pvm s))) (ptf s)).
Proof.
  intros E Hz. unfold switch_vm. rewrite (bind_Ok _ _ _ s s) by done.
  rewrite (bind_Ok _ _ _ _ _ (on_tab_Ok _ _ _ _ (task_at_get _ _ _ E))). destruct s as [[T f] v m]. simpl.
  by destruct (vm z).
Qed.

(** A process that has been marked exits. *)
Lemma killed_exit_spec s x p px f' : process s x p px f' ->
  exists s', (set_cur_killed;; exit sb KILLED_TASK_EXITSTATUS) s = Ok (Gone, s') /\ killed_off s s' x p px.
Proof.
  intros [I Ex Hp Hpc Epx Hpi Hci Hni Hch Hvm Hf]. rewrite (bind_Ok _ _ _ _ _ (set_cur_killed_Ok _ _ Ex)).
  set (T1 := with_task (cur s) (set_killed true x) (ts (pos s))). unfold cur in *.
  set (c := current_task (ts (pos s))) in *.
  assert (task_inv T1) as I1 by (by apply (task_inv_with _ _ x)).
  assert (forall t, task_at T1 t = if decide (t = c) then Some (set_killed true x) else task_at (ts (pos s)) t) as At.
  { intros t. unfold T1. rewrite (task_at_with _ c x) by done. destruct (decide (c = t)) as [->|]; [by rewrite decide_True|by rewrite decide_False]. }
  destruct (exit_spec T1 (set_killed true x) p px KILLED_TASK_EXITSTATUS I1)
    as (T2 & y & E2 & I2 & C2 & Ey & Y1 & Y2 & Y3 & Y4 & Y5 & Y6 & Y7 & Hu & W & O); try done.
  { by rewrite At, decide_True. }
  { by rewrite At, decide_False. }
  { intros t z. rewrite At. case_decide as D; [intros [= <-] Hpar; simpl in Hpar; rewrite Hp in Hpar; injection Hpar as Hpar; by destruct Hpc|by apply Hch]. }
  change (current_task T1) with c in *.
  destruct (switch_files_Ok T2 f' c y I2 Ey C2) as (z & f2 & Ez & E3).
  set (y3 := set_files _ _ y) in *.
  assert (task_inv (with_task c y3 T2)) as I3 by (by apply (task_inv_with _ _ y)).
  assert (forall t w, t <> c -> task_at (ts (pos s)) t = Some w -> exists w', task_at (with_task c y3 T2) t = Some w' /\ after_exit c (ts (pos s)) w w') as O'.
  { intros t w Ht Ew. destruct (O t w Ht) as (w' & Ew' & Aw); [by rewrite At, decide_False|]. exists w'. split; [|done].
    rewrite (task_at_with T2 c y) by done. by rewrite decide_False by congruence. }
  destruct (exists_at (ts (pos s)) T2 (current_task T2) z (ti_sched _ I) (ti_sched _ I2) Ez) as (w & Ew).
  assert (vm z <> VmNull) as Hz.
  { destruct (O (current_task T2) w C2) as (w' & Ew' & A1 & A2 & A3 & A4 & A5); [by rewrite At, decide_False|].
    rewrite Ez in Ew'. injection Ew' as <-. rewrite A5. eapply Hvm; [exact Ew|]. intros Hun. apply Hu.
    unfold state_at. rewrite At, decide_False by done. rewrite Ew. simpl. by rewrite Hun. }
  set (T3 := with_task c y3 T2) in *. set (v' := Vm.VSt (Vm.km (pvm s)) (Vm.vframes (pvm s)) (Vm.vms (pvm s))
    (match vm z with VmUser v => v | _ => Vm.kvm end) (Vm.intr (pvm s))).
  assert (task_at T3 (current_task T2) = Some z) as Ez3.
  { unfold T3. rewrite (task_at_with T2 c y) by done. by rewrite decide_False by congruence. }
  assert (task_exit sb KILLED_TASK_EXITSTATUS (Os T1 (mark_killed (fs (pos s)))) = Ok (tt, Os T3 f2)) as Et.
  { rewrite (task_exit_Ok _ (set_killed true x) p f' T2); [exact E3|done|by simpl; rewrite At, decide_True|done|done|exact E2]. }
  exists (PSt (Os T3 f2) v' (ptf s)). split.
  - unfold exit. erewrite bind_Ok; [|unfold on_os, lift; cbn [part Part_pos pos]; rewrite Et; reflexivity].
    erewrite bind_Ok; [reflexivity|]. apply (switch_vm_Ok (PSt (Os T3 f2) (pvm s) (ptf s)) z); [exact Ez3|done].
  - split; unfold cur; simpl; try done.
    + exists y3. split; [|done]. unfold T3. rewrite (task_at_with T2 c y) by done. by rewrite decide_True.
    + by exists z.
Qed.

Lemma run_exception t tf s : intr_handler_table t !! Z.to_nat (tf_intr_nr tf) = Some (Some Exception) -> 0 <= tf_intr_nr tf ->
  Z.land (tf_cs tf) 3 = RPL3 -> is_Some (task_at (ts (pos s)) (cur s)) ->
  general_trap sb other junk1 junk2 kalloc_ok page_ok device_intr t tf s = (set_cur_killed;; exit sb KILLED_TASK_EXITSTATUS;; mret Dead) s.
Proof.
  intros E Hn Hc [x Ex]. unfold general_trap, index.
  erewrite bind_Ok; [|rewrite (proj2 (Z.ltb_ge _ _)) by done; rewrite E; reflexivity]. cbn [run_handler]. unfold exception_handler.
  rewrite Hc. change (RPL3 =? 0) with false. cbv iota. pose proof (set_cur_killed_Ok s x Ex) as Ek.
  erewrite bind_Ok; [|rewrite (bind_Ok _ _ _ _ _ Ek); reflexivity]. rewrite (bind_Ok _ _ _ _ _ Ek).
  unfold trap_exit. rewrite (bind_Ok _ _ _ _ _ eq_refl). rewrite Hc. reflexivity.
Qed.

Lemma run_bad_call tf s : NR_SYSCALLS <= tf_eax tf -> is_killed s = false -> is_Some (task_at (ts (pos s)) (cur s)) ->
  syscall sb other junk1 junk2 kalloc_ok page_ok tf s =
    (set_cur_killed;; exit sb KILLED_TASK_EXITSTATUS) (PSt (pos s) (pvm s) (<[cur s := tf]> (ptf s))).
Proof.
  intros Hn Hk [x Ex]. unfold syscall. rewrite (bind_Ok _ _ _ s s) by done. unfold set_ptf. rewrite (bind_Ok _ _ _ _ _ eq_refl).
  rewrite Hk, (proj2 (Z.ltb_ge _ _)) by done. set (s1 := PSt _ _ _).
  pose proof (set_cur_killed_Ok s1 x Ex) as Ek. rewrite !(bind_Ok _ _ _ _ _ Ek).
  unfold exit_if_killed. by rewrite (bind_Ok _ _ _ _ _ eq_refl).
Qed.

(** C27: a process that does what it may not is ended, and the kernel does not go on after a
    fault of its own.  An exception from user mode, and a system call with a number that does
    not exist, end the running process, provided that it is not init, that none of its
    children has exited and not been waited for, and that its files and directory can be
    closed: it is marked and becomes a zombie with the status 100, its parent is woken up if
    it waits, its children belong to init, the table stays consistent and another task runs
    in its own address space; the memory of the process is still there, for its parent to
    free.  An exception of init stops the machine on the assertion of [task_exit]; so do an
    exception from kernel mode and a trap without a handler. *)
Theorem faults_exit t tf s x p px f' :
  intr_handler_table t !! Z.to_nat (tf_intr_nr tf) = Some (Some Exception) -> 0 <= tf_intr_nr tf ->
  (process s x p px f' ->
     (Z.land (tf_cs tf) 3 = RPL3 -> exists s',
        general_trap sb other junk1 junk2 kalloc_ok page_ok device_intr t tf s = Ok (Dead, s') /\ killed_off s s' x p px) /\
     (NR_SYSCALLS <= tf_eax tf -> is_killed s = false -> exists s',
        syscall sb other junk1 junk2 kalloc_ok page_ok tf s = Ok (Gone, s') /\
        killed_off (PSt (pos s) (pvm s) (<[cur s := tf]> (ptf s))) s' x p px)) /\
  (Z.land (tf_cs tf) 3 = RPL3 -> is_Some (task_at (ts (pos s)) (cur s)) -> init_proc (ts (pos s)) = Some (cur s) ->
     general_trap sb other junk1 junk2 kalloc_ok page_ok device_intr t tf s = Panic) /\
  (Z.land (tf_cs tf) 3 = 0 -> general_trap sb other junk1 junk2 kalloc_ok page_ok device_intr t tf s = Panic) /\
  (forall n, intr_handler_table t !! Z.to_nat n = Some None -> 0 <= n ->
     forall tf', tf_intr_nr tf' = n -> general_trap sb other junk1 junk2 kalloc_ok page_ok device_intr t tf' s = Panic).
Proof.
  intros E Hn. split_and!.
  - intros P. pose proof (pr_task _ _ _ _ _ P) as Ex. split.
    + intros Hc. destruct (killed_exit_spec s x p px f' P) as (s' & E' & K). exists s'. split; [|done].
      rewrite run_exception by (done || by eexists). rewrite (bind_Ok _ _ _ _ _ (set_cur_killed_Ok s x Ex)). rewrite (bind_Ok _ _ _ _ _ (set_cur_killed_Ok s x Ex)) in E'.
      by rewrite (bind_Ok _ _ _ _ _ E').
    + intros Hs Hk. rewrite run_bad_call by (done || by eexists).
      destruct (killed_exit_spec (PSt (pos s) (pvm s) (<[cur s := tf]> (ptf s))) x p px f') as (s' & E' & K); [by destruct P|].
      by exists s'.
  - intros Hc Ht Hi. pose proof Ht as [x' Ex]. rewrite run_exception by done. rewrite (bind_Ok _ _ _ _ _ (set_cur_killed_Ok s x' Ex)).
    apply bind_Panic. unfold exit. apply bind_Panic. unfold on_os, lift. simpl. unfold task_exit. rewrite (bind_Ok _ _ _ _ _ eq_refl).
    unfold mbind, M_bind. simpl. rewrite bool_decide_eq_false_2; [done|]. intros Hne. by apply Hne.
  - intros Hc. unfold general_trap, index. erewrite bind_Ok; [|rewrite (proj2 (Z.ltb_ge _ _)) by done; rewrite E; reflexivity].
    cbn [run_handler]. unfold exception_handler. by rewrite Hc.
  - intros n E' Hn' tf' Ef. unfold general_trap, index.
    erewrite bind_Ok; [|rewrite Ef, (proj2 (Z.ltb_ge _ _)) by done; rewrite E'; reflexivity]. done.
Qed.
End faults.

#[local] Existing Instance Inode.no_devices.

(** The running process of [demo_family], the child of the waiting init, has the file 0 open
    twice; its parent has it open too and is in the same directory. *)
Definition demo_fault_files : File.kst :=
  File.Kst (Inode.Ist (Inode.fl (File.il File.demo_kst))
      (Inode.set_ref 3 File.demo_open_inode :: replicate 50 Inode.free_inode) 0)
    (File.set_refs 3 File.demo_file :: replicate 49 File.zero_file) ∅ 0 demo_ofiles 0 false.

Definition demo_closed : File.kst :=
  match exit_files BAlloc.demo_sb (mark_killed demo_fault_files) with Ok (_, f) => f | _ => demo_fault_files end.

Definition demo_fault : pst := PSt (Os demo_family demo_fault_files) demo_pvst {[0 := user_tframe Vm.USER_BASE]}.

Lemma demo_process : process BAlloc.demo_sb demo_fault (demo_child 2 TASK_RUNNING 0) 2 (demo_task TASK_WAITING 10) demo_closed.
Proof.
  assert (forall t z, task_at demo_family t = Some z -> z ∈ [demo_child 2 TASK_RUNNING 0; demo_task TASK_BLOCKED 10;
    demo_task TASK_WAITING 10; demo_child 0 TASK_BLOCKED 0; demo_task TASK_UNUSED 0]) as Hall.
  { intros t z E. apply task_at_nonneg in E as [_ E]. unfold demo_family in E. cbn [task_table] in E.
    destruct (Z.to_nat t) as [|[|[|[|[|n]]]]]; cbn [lookup list_lookup] in E; try (injection E as <-; set_solver).
    apply lookup_replicate in E as [-> _]. set_solver. }
  split; try reflexivity; try done.
  - exact demo_family_inv.
  - intros t z E Hp. apply Hall in E. repeat (apply elem_of_cons in E as [->|E]; [done|]). by apply elem_of_nil in E.
  - intros t z E Hs. apply Hall in E. repeat (apply elem_of_cons in E as [->|E]; [done|]). by apply elem_of_nil in E.
Qed.

(** A page fault in user mode. *)
Lemma faults_exit_witness :
  exists s', general_trap (H0 := round_robin) BAlloc.demo_sb (fun _ => None) [] [] true true (fun _ => mret tt)
      (Tables [] (replicate 20 (Some Exception)) 0 0)
      (TFrame 0 0 0 0 0 0 0 0 0 0 0 0 14 0 0 USER_CODE_SELECTOR 0 0 0) demo_fault = Ok (Dead, s') /\
    killed_off demo_fault s' (demo_child 2 TASK_RUNNING 0) 2 (demo_task TASK_WAITING 10).
Proof.
  destruct (faults_exit (H := round_robin) BAlloc.demo_sb (fun _ => None) [] [] true true (fun _ => mret tt)
    (Tables [] (replicate 20 (Some Exception)) 0 0) (TFrame 0 0 0 0 0 0 0 0 0 0 0 0 14 0 0 USER_CODE_SELECTOR 0 0 0) demo_fault
    (demo_child 2 TASK_RUNNING 0) 2 (demo_task TASK_WAITING 10) demo_closed ltac:(reflexivity) ltac:(done)) as (F & _). destruct (F demo_process) as [F1 _]. exact (F1 eq_refl).
Defined.

(** the timer is not programmed as it is meant to be.  The access mode [PIC_RW_LOW_HIGH] is
    the number of the mode that takes the high byte only, so both bytes of the counter are
    written as high bytes. *)
Theorem timer_access_mode :
  setup_irq0_frequence = [(PIC_PORT_CONTROL, Z.lor (Z.shiftl PIC_RW_HIGH 4) (Z.shiftl PIC_METHOD_M2 1)); (PIC_PORT_COUNTER0, 0xA9); (PIC_PORT_COUNTER0, 4)].
Proof. reflexivity. Qed.
End Trap.
