(* ===== verification/Mkfs.v ===== *)
(** The tool that makes a file system in an image file: src/mkfs/superblock.c, fs.c and
    mkfs.c.  It runs on the host; the drive of the kernel is the image it leaves.

    [image] is the image file, by its sectors, which are blocks; a sector that was never
    written is zero, as in a fresh file.  [Panic] stands for the end of the program with an
    error message. *)

From stdpp Require Import base numbers list gmap.
From Stdlib Require Import ZArith Lia.
From S2P Require Import Prelude Semaphore BlockIO Log BAlloc Inode Dir Pathname.
#[local] Open Scope Z_scope.

Module Mkfs.
Import BlockIO BAlloc.

Definition NFILES_PER_DISK : Z := 4096 * 4.
Definition SUPER_BLOCK_MAGIC : Z := 0xF2E3EACF.
Definition SECTOR_SIZE : Z := 512.
Definition LBA_TO_BLOCK_NO (lba : Z) : Z := lba / 1.
Definition ROUND_UP (x step : Z) : Z := u32 (u32 (x + step) - 1) / step.

(** ** The superblock *)

(** [None]: the image is too small. *)
Definition superblock_init (sector_cnt : Z) : option superblock :=
  let size := u32 (LBA_TO_BLOCK_NO sector_cnt) in
  let inode_start := LBA_TO_BLOCK_NO 2 in
  let inode_blocks := ROUND_UP NFILES_PER_DISK INODES_PER_BLOCK in
  let log_start := u32 (inode_start + inode_blocks + 1) in
  let nlog := Log.LOG_SIZE + 1 in
  let data_blocks := u32 (size - inode_blocks - nlog - LBA_TO_BLOCK_NO 2 - 1) in
  if size <? data_blocks then None
  else
    let bmap_bytes := data_blocks / 8 in
    let bmap_blocks := ROUND_UP bmap_bytes (Z.of_nat BLOCK_SIZE) in
    if data_blocks <? u32 (data_blocks - bmap_blocks) then None
    else
      let data_blocks := u32 (data_blocks - bmap_blocks) in
      let bmap_bytes := data_blocks / 8 in
      let bmap_blocks := ROUND_UP bmap_bytes (Z.of_nat BLOCK_SIZE) in
      let bmap_start := u32 (log_start + nlog + 1) in
      let bdata_start := u32 (bmap_start + bmap_blocks + 1) in
      if 100 <=? data_blocks then
        Some (Superblock SUPER_BLOCK_MAGIC size data_blocks NFILES_PER_DISK inode_start nlog log_start bmap_start bmap_bytes bdata_start)
      else None.

(** ** The image *)

Record image := Img { sectors : gmap Z block; sector_cnt : Z }.

(** [read_sector]: the position must be a C [int], and inside of the file. *)
Definition bread (bno : Z) : M image block :=
  s ← get;
  if (0 <=? bno) && (bno * SECTOR_SIZE <? 2 ^ 31) && (bno <? sector_cnt s) then mret (dread (sectors s) bno) else panic.

(** [write_sector]: a write after the end makes the file longer. *)
Definition bwrite (bno : Z) (buf : block) : M image unit :=
  s ← get;
  if (0 <=? bno) && (bno * SECTOR_SIZE <? 2 ^ 31) then
    put (Img (<[bno := buf]> (sectors s)) (Z.max (sector_cnt s) (bno + 1)))
  else panic.

(** ** The command line *)

Record mkfs_flags := Flags { img_file : option (list Z); initsh_file : option (list Z); binfiles : list (list Z) }.

(** ["-h"], ["--help"], ["-i"], ["--imgfile"] and ["--ish"]. *)
Definition opt_h : list Z := [45; 104].
Definition opt_help : list Z := [45; 45; 104; 101; 108; 112].
Definition opt_i : list Z := [45; 105].
Definition opt_imgfile : list Z := [45; 45; 105; 109; 103; 102; 105; 108; 101].
Definition opt_ish : list Z := [45; 45; 105; 115; 104].

(** The loop over [argv[1..]]; [inl] is the exit status of a program that ends here. *)
Fixpoint parse_args (flags : mkfs_flags) (args : list (list Z)) : Z + mkfs_flags :=
  match args with
  | [] => inr flags
  | arg :: rest =>
      if bool_decide (arg = opt_h \/ arg = opt_help) then inl 0
      else if bool_decide (arg = opt_i \/ arg = opt_imgfile) then
        match rest with
        | [] => inl 1
        | f :: rest => parse_args (Flags (Some f) (initsh_file flags) (binfiles flags)) rest
        end
      else if bool_decide (arg = opt_ish) then
        match rest with
        | [] => inl 1
        | f :: rest => parse_args (Flags (img_file flags) (Some f) (binfiles flags)) rest
        end
      else inr (Flags (img_file flags) (initsh_file flags) (arg :: rest))
  end.

Definition parse_flags (argv : list (list Z)) : Z + mkfs_flags :=
  match argv with
  | [] | [_] => inl 0
  | _ :: args =>
      match parse_args (Flags None None []) args with
      | inr flags => match img_file flags with None => inl 1 | Some _ => inr flags end
      | inl code => inl code
      end
  end.

Section mkfs.
Context (sb : superblock).

Definition blockzero (blockno : Z) : M image unit := bwrite blockno zero_block.

(** [while (bmap_bits > 0)]. *)
Fixpoint balloc_loop (fuel : nat) (bmap_bits bmap_block_no : Z) : M image Z :=
  match fuel with
  | O => hang
  | S fuel =>
      if 0 <? bmap_bits then
        let bits := if bmap_bits <? BITS_PER_BLOCK then bmap_bits else BITS_PER_BLOCK in
        buf ← bread bmap_block_no;
        match find_free (Z.to_nat bits) 0 buf with
        | Some bit =>
            bwrite bmap_block_no (mark_bit buf bit);;
            let dblock_no := u32 (sb_bdata_start sb + (bmap_block_no - sb_bmap_start sb) * BITS_PER_BLOCK + Z.of_nat bit) in
            blockzero dblock_no;;
            mret dblock_no
        | None => balloc_loop fuel (bmap_bits - bits) (u32 (bmap_block_no + 1))
        end
      else panic
  end.

Definition balloc : M image Z := balloc_loop (bmap_fuel sb) (bmap_bits sb) (sb_bmap_start sb).

(** [struct inode] of mkfs is the kernel's [struct dinode]. *)
Definition iread (inum : Z) : M image Inode.dinode :=
  buf ← bread (Inode.GET_INODE_BLOCK_NO inum sb);
  mret (Inode.get_dinode buf (Inode.slot_of inum)).

Definition iwrite (src : Inode.dinode) (inum : Z) : M image unit :=
  let bno := Inode.GET_INODE_BLOCK_NO inum sb in
  buf ← bread bno;
  bwrite bno (Inode.put_dinode buf (Inode.slot_of inum) src).

(** [for (inum = 1; inum < sb->ninodes; inum++)], [n] turns left. *)
Fixpoint ialloc_loop (n : nat) (inum type : Z) : M image Z :=
  match n with
  | O => panic
  | S n =>
      i ← iread inum;
      if Inode.type i =? Inode.INODE_NONE then
        iwrite (Inode.Dinode type 0 0 0 0 (replicate 12 0)) inum;; mret inum
      else ialloc_loop n (inum + 1) type
  end.

Definition ialloc (type : Z) : M image Z := ialloc_loop (Z.to_nat (sb_ninodes sb - 1)) 1 type.

Definition NDIRECT_DATA_BLOCKS : Z := 11.

(** The address and the inode, whose [addrs] may have changed.  [indirect_addrs[bn]] of a
    block beyond the 128 addresses is outside of [buf]. *)
Definition bmap (ip : Inode.dinode) (bn : Z) : M image (Z * Inode.dinode) :=
  if bn <? NDIRECT_DATA_BLOCKS then
    let addr := Inode.addrs ip !!! Z.to_nat bn in
    if addr =? 0 then addr ← balloc; mret (addr, Inode.set_addr bn addr ip)
    else mret (addr, ip)
  else
    let bn := bn - NDIRECT_DATA_BLOCKS in
    ip ← (if Inode.addrs ip !!! Z.to_nat NDIRECT_DATA_BLOCKS =? 0 then
            a ← balloc; mret (Inode.set_addr NDIRECT_DATA_BLOCKS a ip)
          else mret ip);
    let ind := Inode.addrs ip !!! Z.to_nat NDIRECT_DATA_BLOCKS in
    buf ← bread ind;
    if 128 <=? bn then panic
    else
      let addr := get32 buf (Z.to_nat bn) in
      if addr =? 0 then
        addr ← balloc;
        bwrite ind (splice (4 * Z.to_nat bn) (enc32 addr) buf);;
        mret (addr, ip)
      else mret (addr, ip).

(** [for (total = 0; total < sz; total += m, ...)]: the inode and the offset at the end. *)
Fixpoint iappend_loop (fuel : nat) (i : Inode.dinode) (offset : Z) (src : list Z) : M image (Inode.dinode * Z) :=
  match fuel with
  | O => hang
  | S fuel =>
      match src with
      | [] => mret (i, offset)
      | _ =>
          r ← bmap i (offset / Inode.BSIZE);
          buf ← bread (fst r);
          let off := Z.to_nat (offset mod Inode.BSIZE) in
          let m := Nat.min (BLOCK_SIZE - off) (length src) in
          bwrite (fst r) (splice off (take m src) buf);;
          iappend_loop fuel (snd r) (u32 (offset + Z.of_nat m)) (drop m src)
      end
  end.

Definition iappend (inum : Z) (src : list Z) : M image unit :=
  i ← iread inum;
  r ← iappend_loop (S (length src)) i (Inode.dsize i) src;
  iwrite (Inode.set_dsize (snd r) (fst r)) inum.

(** [junk] is what [dirent.name] held on the stack. *)
Definition dir_link (junk : list Z) (dirinum : Z) (name : list Z) (child_inum : Z) : M image unit :=
  if Dir.DIRENT_NAME_LENGTH <=? Z.of_nat (length name) then mret tt
  else iappend dirinum (Dir.enc_dirent (Dir.Dirent child_inum (splice 0 (name ++ [0]) junk))).

Definition dir_make (junk : list Z) (parentinum childinum : Z) : M image unit :=
  dir_link junk childinum [46] childinum;;
  dir_link junk childinum [46; 46] parentinum;;
  i ← iread parentinum;
  iwrite (Inode.set_nlink (u32 (Inode.nlink i + 1)) i) parentinum.

Definition create_file (junk : list Z) (major minor type pinum : Z) (name : list Z) : M image Z :=
  inum ← ialloc type;
  i ← iread inum;
  iwrite (Inode.Dinode (Inode.type i) 1 0 major minor (Inode.addrs i)) inum;;
  (if negb (pinum =? 0) then dir_link junk pinum name inum else mret tt);;
  (if type =? Inode.INODE_DIRECTORY then dir_make junk (if pinum =? 0 then inum else pinum) inum else mret tt);;
  mret inum.

Definition fs_mkdir (junk : list Z) (pinum : Z) (name : list Z) : M image Z :=
  create_file junk 0 0 Inode.INODE_DIRECTORY pinum name.

Definition fs_mkfile (junk : list Z) (pinum : Z) (name : list Z) : M image Z :=
  create_file junk 0 0 Inode.INODE_FILE pinum name.

Definition fs_mkdev (junk : list Z) (major minor pinum : Z) (name : list Z) : M image Z :=
  create_file junk major minor Inode.INODE_DEVICE pinum name.

(** ** The program *)

(** The loop goes back from the end, [k], to a slash or to the start. *)
Fixpoint nameptr_loop (path : list Z) (k : nat) : nat :=
  if bool_decide (path !! k = Some 47) then S k
  else match k with O => O | S k => nameptr_loop path k end.

Definition nameptr (path : list Z) : list Z := drop (nameptr_loop path (length path)) path.

(** [host] gives the contents of the files of the host; without the file the program ends,
    and so it does for an empty file, since [fread] of no bytes reports no item. *)
Definition write_to_fsfile (host : list Z -> option (list Z)) (junk : list Z) (parent_inum : Z) (filepath name : list Z) : M image unit :=
  match host filepath with
  | None => panic
  | Some [] => panic
  | Some content =>
      inum ← fs_mkfile junk parent_inum name;
      iappend inum content
  end.

Definition create_root_file (junk : list Z) : M image Z :=
  inum ← fs_mkdir junk 0 [47];
  if negb (inum =? 1) then panic else mret inum.

(** The loop over the binary files, given by their paths. *)
Fixpoint write_binfiles (host : list Z -> option (list Z)) (junk : list Z) (bindir : Z) (l : list (list Z)) : M image unit :=
  match l with
  | [] => mret tt
  | path :: l => write_to_fsfile host junk bindir path (nameptr path);; write_binfiles host junk bindir l
  end.

Definition create_initial_files (host : list Z -> option (list Z)) (junk : list Z) (flags : mkfs_flags) : M image unit :=
  root ← create_root_file junk;
  bindir ← fs_mkdir junk root [98; 105; 110];
  devdir ← fs_mkdir junk root [100; 101; 118];
  etcdir ← fs_mkdir junk root [101; 116; 99];
  fs_mkdir junk root [104; 111; 109; 101];;
  fs_mkdev junk 1 0 devdir [99; 111; 110; 115; 111; 108; 101];;
  (match initsh_file flags with
   | Some f => write_to_fsfile host junk etcdir f [105; 110; 105; 116; 46; 115; 104]
   | None => mret tt
   end);;
  write_binfiles host junk bindir (binfiles flags).
End mkfs.

(** [struct superblock] in a sector. *)
Definition superblock_words (sb : superblock) : list Z :=
  [sb_magic sb; sb_size sb; sb_nblocks sb; sb_ninodes sb; sb_inode_start sb; sb_nlog sb; sb_log_start sb; sb_bmap_start sb;
   sb_bmap_bytes sb; sb_bdata_start sb].

Definition put_superblock (sb : superblock) (buf : block) : block := splice 0 (concat (map enc32 (superblock_words sb))) buf.

Definition get_superblock (buf : block) : superblock :=
  Superblock (get32 buf 0) (get32 buf 1) (get32 buf 2) (get32 buf 3) (get32 buf 4) (get32 buf 5) (get32 buf 6) (get32 buf 7)
    (get32 buf 8) (get32 buf 9).

(** The superblock, or [None] when there is a file system already. *)
Definition createfs : M image (option superblock) :=
  buf ← bread 1;
  if get32 buf 0 =? SUPER_BLOCK_MAGIC then mret None
  else
    s ← get;
    match superblock_init (sector_cnt s) with
    | None => panic
    | Some sb => bwrite 1 (put_superblock sb buf);; mret (Some sb)
    end.

(** [main], with the exit status: [s] is the image file, of [file_size] bytes. *)
Definition main (host : list Z -> option (list Z)) (junk : list Z) (argv : list (list Z)) (file_size : Z) : M image Z :=
  match parse_flags argv with
  | inl code => mret code
  | inr flags =>
      if negb (file_size mod 512 =? 0) || (file_size <? 512 * 40) then panic
      else
        modify (fun s => Img (sectors s) (file_size / 512));;
        r ← createfs;
        match r with
        | Some sb => create_initial_files sb host junk flags;; mret 0
        | None => mret 0
        end
  end.

(** The kernel's [scan_fs] up to the start of the log. *)
Definition scan_fs (v : Z -> block) : option superblock :=
  if get32 (v 1) 0 =? SUPER_BLOCK_MAGIC then Some (get_superblock (v 1)) else None.

(** The name of a host's file is what follows the last slash of its path. *)
Lemma nameptr_loop_skip (path : list Z) n k : (forall j, (n < j <= n + k)%nat -> path !! j <> Some 47) ->
  nameptr_loop path (n + k) = nameptr_loop path n.
Proof.
  induction k as [|k IH]; intros H; [by rewrite Nat.add_0_r|]. rewrite Nat.add_succ_r. cbn [nameptr_loop].
  rewrite bool_decide_eq_false_2 by (apply H; lia). apply IH. intros j Hj. apply H. lia.
Qed.

Lemma nameptr_spec (dir name : list Z) : 47 ∉ name -> nameptr name = name /\ nameptr (dir ++ 47 :: name) = name.
Proof.
  intros Hn. assert (forall j, name !! j <> Some 47) as Hs by (intros j E; apply Hn; by eapply list_elem_of_lookup_2).
  unfold nameptr. split.
  - pose proof (nameptr_loop_skip name 0 (length name) (fun j _ => Hs j)) as E. rewrite Nat.add_0_l in E. rewrite E.
    cbn [nameptr_loop]. by rewrite bool_decide_eq_false_2 by apply Hs.
  - replace (length (dir ++ 47 :: name)) with (length dir + S (length name))%nat by (rewrite length_app; done).
    rewrite nameptr_loop_skip.
    + assert ((dir ++ 47 :: name) !! length dir = Some 47) as E by (by rewrite lookup_app_r, Nat.sub_diag by lia).
      assert (nameptr_loop (dir ++ 47 :: name) (length dir) = S (length dir)) as ->.
      { destruct (length dir) eqn:El; cbn [nameptr_loop]; by rewrite bool_decide_eq_true_2. }
      rewrite drop_app_ge by lia. replace (S (length dir) - length dir)%nat with 1%nat by lia. done.
    + intros j Hj. rewrite lookup_app_r by lia. destruct (j - length dir)%nat as [|i] eqn:Ei; [lia|]. apply Hs.
Qed.

(** ** Images *)

Section images.
Context (sb : superblock).

(** The contents of the blocks. *)
Definition blocks (s : image) : Z -> block := dread (sectors s).

(** Blocks of 512 bytes, the file long enough for the inodes, the bitmap and the data blocks
    that are used, and short enough for the positions in it. *)
Record img_ok (s : image) : Prop := {
  io_layout : layout sb;
  io_blocks : forall x, block_ok (blocks s x);
  io_pos : (sb_bdata_start sb + bmap_bits sb) * SECTOR_SIZE < 2 ^ 31;
  io_bmap : forall i, is_data sb i -> bmap_block sb i < sector_cnt s;
  io_inodes : forall i, 0 <= i < sb_ninodes sb -> Inode.GET_INODE_BLOCK_NO i sb < sector_cnt s;
  io_data : forall i, is_data sb i -> used sb (blocks s) i = true -> data_block sb i < sector_cnt s;
}.

Definition wr (b : Z) (d : block) (s : image) : image := Img (<[b := d]> (sectors s)) (Z.max (sector_cnt s) (b + 1)).

Lemma blocks_wr b d s x : blocks (wr b d s) x = if decide (x = b) then d else blocks s x.
Proof.
  unfold blocks, wr, dread. cbn [sectors]. case_decide as D; [subst; by rewrite lookup_insert_eq|]. by rewrite lookup_insert_ne.
Qed.

Lemma bread_Ok s b : 0 <= b -> b * SECTOR_SIZE < 2 ^ 31 -> b < sector_cnt s -> bread b s = Ok (blocks s b, s).
Proof.
  intros H1 H2 H3. unfold bread. rewrite (bind_Ok _ _ _ s s) by done.
  rewrite (proj2 (Z.leb_le _ _)), (proj2 (Z.ltb_lt _ _)), (proj2 (Z.ltb_lt b _)) by done. done.
Qed.

Lemma bwrite_Ok s b d : 0 <= b -> b * SECTOR_SIZE < 2 ^ 31 -> bwrite b d s = Ok (tt, wr b d s).
Proof.
  intros H1 H2. unfold bwrite. rewrite (bind_Ok _ _ _ s s) by done.
  rewrite (proj2 (Z.leb_le _ _)), (proj2 (Z.ltb_lt _ _)) by done. done.
Qed.

(** Where the blocks of the bitmap and of files are. *)
Lemma block_pos s i : img_ok s -> is_data sb i ->
  0 <= bmap_block sb i /\ bmap_block sb i < sb_bdata_start sb /\ bmap_block sb i * SECTOR_SIZE < 2 ^ 31 /\
  0 < data_block sb i /\ data_block sb i * SECTOR_SIZE < 2 ^ 31.
Proof.
  intros [L _ Hp _ _ _] [Hi1 Hi2]. destruct L as [L1 L2 L3 L4 L5 L6 L7].
  unfold bmap_block, data_block, Log.start_ok, SECTOR_SIZE, bmap_bits in *. rewrite u32_small in * by (unfold is_u32; lia).
  assert (i / BITS_PER_BLOCK <= sb_bmap_bytes sb * 8 / BITS_PER_BLOCK) by (apply Z.div_le_mono; unfold BITS_PER_BLOCK; lia).
  assert (0 <= i / BITS_PER_BLOCK) by (apply Z.div_pos; unfold BITS_PER_BLOCK; lia).
  assert (0 <= sb_ninodes sb / INODES_PER_BLOCK) by (apply Z.div_pos; unfold INODES_PER_BLOCK; lia).
  unfold Log.LOG_SIZE, Log.MAX_OPEN_BLOCKS in *. lia.
Qed.

(** The first free bit of a bitmap block. *)
Lemma find_first data n b : (b < n)%nat -> bit_set data b = false -> (forall j, (j < b)%nat -> bit_set data j = true) ->
  find_free n 0 data = Some b.
Proof.
  intros Hb Hf Hlt. pose proof (find_free_spec data n 0) as H. destruct (find_free n 0 data) as [i|].
  - destruct H as (H1 & H2 & H3). f_equal. destruct (Nat.lt_trichotomy i b) as [Hl|[->|Hg]]; [|done|].
    + rewrite Hlt in H2 by done. done.
    + rewrite H3 in Hf by lia. done.
  - rewrite H in Hf by lia. done.
Qed.

Lemma find_full data n : (forall j, (j < n)%nat -> bit_set data j = true) -> find_free n 0 data = None.
Proof.
  intros Hall. pose proof (find_free_spec data n 0) as H. destruct (find_free n 0 data) as [i|]; [|done].
  destruct H as (H1 & H2 & _). rewrite Hall in H2 by lia. done.
Qed.

(** The image after the data block [i] was taken. *)
Definition taken (s : image) (i : Z) : image :=
  wr (data_block sb i) zero_block (wr (bmap_block sb i) (mark_bit (blocks s (bmap_block sb i)) (bmap_bit i)) s).

Lemma balloc_loop_img s i : img_ok s -> is_data sb i -> used sb (blocks s) i = false ->
  (forall j, 0 <= j < i -> used sb (blocks s) j = true) ->
  forall fuel k, 0 <= k <= i / BITS_PER_BLOCK -> i / BITS_PER_BLOCK - k < Z.of_nat fuel ->
  balloc_loop sb fuel (bmap_bits sb - k * BITS_PER_BLOCK) (sb_bmap_start sb + k) s = Ok (data_block sb i, taken s i).
Proof.
  intros Hok Hi Hu Hlt. pose proof Hi as [Hi0 Hi1]. pose proof (Z.div_mod i BITS_PER_BLOCK ltac:(done)) as Hdm.
  pose proof (Z.mod_pos_bound i BITS_PER_BLOCK ltac:(done)) as Hm. pose proof (block_pos s i Hok Hi) as (B1 & B2 & B3 & B4 & B5).
  induction fuel as [|fuel IH]; intros k Hk Hf; [lia|]. cbn [balloc_loop].
  assert (k * BITS_PER_BLOCK <= i) as Hki by (unfold BITS_PER_BLOCK in *; lia).
  rewrite (proj2 (Z.ltb_lt _ _)) by lia. cbv zeta. set (bits := if _ <? _ then _ else _).
  assert (forall j, 0 <= j < BITS_PER_BLOCK -> used sb (blocks s) (k * BITS_PER_BLOCK + j) = bit_set (blocks s (sb_bmap_start sb + k)) (Z.to_nat j)) as Hbit.
  { intros j Hj. unfold used. destruct (bit_of sb k j Hj) as [-> ->]. done. }
  assert (is_data sb (k * BITS_PER_BLOCK)) as Hkd by (split; unfold BITS_PER_BLOCK in *; lia).
  pose proof (block_pos s _ Hok Hkd) as (C1 & C2 & C3 & _). pose proof (io_bmap _ Hok _ Hkd) as C4.
  assert (bmap_block sb (k * BITS_PER_BLOCK) = sb_bmap_start sb + k) as Ek by (unfold bmap_block; by rewrite Z.div_mul).
  rewrite Ek in C1, C2, C3, C4. rewrite (bind_Ok _ _ _ _ _ (bread_Ok s _ C1 C3 C4)).
  destruct (decide (k = i / BITS_PER_BLOCK)) as [->|Hne].
  - assert (Z.to_nat (i mod BITS_PER_BLOCK) < Z.to_nat bits)%nat as Hb.
    { unfold bits. destruct (Z.ltb_spec (bmap_bits sb - i / BITS_PER_BLOCK * BITS_PER_BLOCK) BITS_PER_BLOCK); lia. }
    rewrite (find_first _ _ (Z.to_nat (i mod BITS_PER_BLOCK)) Hb).
    + destruct (bit_of sb (i / BITS_PER_BLOCK) (i mod BITS_PER_BLOCK) Hm) as [D1 D2].
      replace (i / BITS_PER_BLOCK * BITS_PER_BLOCK + i mod BITS_PER_BLOCK) with i in * by lia.
      rewrite <- D1, <- D2. rewrite (bind_Ok _ _ _ _ _ (bwrite_Ok s _ _ B1 B3)).
      assert (u32 (sb_bdata_start sb + (bmap_block sb i - sb_bmap_start sb) * BITS_PER_BLOCK + Z.of_nat (bmap_bit i)) = data_block sb i) as ->.
      { rewrite D1, D2. unfold data_block in *. rewrite Z2Nat.id by lia. rewrite u32_small; [lia|]. unfold is_u32, SECTOR_SIZE in *. lia. }
      unfold blockzero. rewrite (bind_Ok _ _ _ _ _ (bwrite_Ok _ _ _ (Z.lt_le_incl _ _ B4) B5)). done.
    + rewrite <- Hbit by done. rewrite <- Hu. f_equal. lia.
    + intros j Hj. assert (0 <= Z.of_nat j < i mod BITS_PER_BLOCK) as Hj' by lia.
      rewrite <- (Nat2Z.id j), <- Hbit by lia. apply Hlt. unfold BITS_PER_BLOCK in *. lia.
  - assert (bits = BITS_PER_BLOCK) as Hbits.
    { unfold bits. destruct (Z.ltb_spec (bmap_bits sb - k * BITS_PER_BLOCK) BITS_PER_BLOCK); [|done]. unfold BITS_PER_BLOCK in *. lia. }
    rewrite find_full.
    + rewrite Hbits. rewrite u32_small by (unfold is_u32, SECTOR_SIZE in *; lia).
      replace (bmap_bits sb - k * BITS_PER_BLOCK - BITS_PER_BLOCK) with (bmap_bits sb - (k + 1) * BITS_PER_BLOCK) by lia.
      rewrite <- Z.add_assoc. apply IH; lia.
    + intros j Hj. rewrite Hbits in Hj. rewrite <- (Nat2Z.id j), <- Hbit by lia. apply Hlt. unfold BITS_PER_BLOCK in *. lia.
Qed.
End images.

(** ** The layout of an image *)

(** The blocks before the data: two sectors, 2341 blocks of inodes, the log and the gaps. *)
Definition min_sectors : Z := 2476.

(** Where the parts of an image of [n] sectors are. *)
Record layout_spec (n : Z) (sb : superblock) : Prop := {
  ls_layout : layout sb;
  ls_words : Forall is_u32 (superblock_words sb);
  ls_magic : sb_magic sb = SUPER_BLOCK_MAGIC;
  ls_size : sb_size sb = n;
  ls_ninodes : sb_ninodes sb = NFILES_PER_DISK;
  ls_nblocks : 100 <= sb_nblocks sb;
  (** The bitmap has a bit for each data block but the last seven at most. *)
  ls_bits : bmap_bits sb <= sb_nblocks sb < bmap_bits sb + 8;
  (** No data block is further than the second sector after the end. *)
  ls_end : sb_bdata_start sb + sb_nblocks sb <= n + 2;
}.

Lemma ceil_512 x : 0 <= x < 2 ^ 31 -> ROUND_UP x 512 = (x + 511) / 512.
Proof. intros H. unfold ROUND_UP. rewrite (u32_small (x + 512)), u32_small by (unfold is_u32; lia). f_equal. lia. Qed.

Lemma superblock_init_spec n : 0 <= n < 2 ^ 31 ->
  match superblock_init n with
  | Some sb => min_sectors <= n /\ layout_spec n sb
  | None => n < min_sectors
  end.
Proof.
  intros Hn. unfold superblock_init. cbv zeta. change (Z.of_nat BLOCK_SIZE) with 512.
  change (ROUND_UP NFILES_PER_DISK INODES_PER_BLOCK) with 2341. unfold LBA_TO_BLOCK_NO. rewrite Z.div_1_r.
  rewrite (u32_small n) by (unfold is_u32; lia). unfold Log.LOG_SIZE, Log.MAX_OPEN_BLOCKS, min_sectors.
  replace (n - 2341 - (10 * 3 + 1) - 2 / 1 - 1) with (n - 2375) by (change (2 / 1) with 2; lia).
  destruct (Z.lt_ge_cases n 2375) as [Hlt|Hge].
  { replace (u32 (n - 2375)) with (n - 2375 + 2 ^ 32) by (unfold u32; rewrite <- (Z_mod_plus_full _ 1), Z.mod_small; lia).
    rewrite (proj2 (Z.ltb_lt _ _)) by lia. lia. }
  rewrite (u32_small (n - 2375)) by (unfold is_u32; lia). rewrite (proj2 (Z.ltb_ge n _)) by lia.
  set (d := n - 2375) in *. assert (0 <= d < 2 ^ 31) as Hd by lia.
  assert (0 <= d / 8 < 2 ^ 31) as Hd8 by ulia. rewrite (ceil_512 (d / 8)) by done.
  set (b1 := (d / 8 + 511) / 512). assert (0 <= b1 <= d) as Hb1 by (unfold b1; ulia).
  rewrite (u32_small (d - b1)) by (unfold is_u32; lia). rewrite (proj2 (Z.ltb_ge d _)) by lia.
  rewrite (ceil_512 ((d - b1) / 8)) by ulia.
  set (b2 := ((d - b1) / 8 + 511) / 512). assert (0 <= b2 <= b1) as Hb2 by (unfold b2, b1 in *; ulia).
  assert ((d - b1) / 8 * 8 / 4096 <= b2) as Hb3 by (unfold b2; ulia).
  destruct (Z.leb_spec 100 (d - b1)) as [Hbig|Hsmall]; [|subst d b1; ulia].
  assert (2476 <= n) as Hmin by (subst d b1; ulia). split; [exact Hmin|]. clearbody b2. assert (d = n - 2375) as Ed by done. clearbody d.
  change (u32 (2 / 1 + 2341 + 1)) with 2344. change (u32 (2344 + (10 * 3 + 1) + 1)) with 2376. change (2 / 1) with 2.
  rewrite (u32_small (2376 + b2 + 1)) by (unfold is_u32; lia).
  split; cbn [sb_magic sb_size sb_nblocks sb_ninodes sb_bdata_start]; try done; try lia.
  - split; cbn [sb_ninodes sb_inode_start sb_log_start sb_bmap_start sb_bmap_bytes sb_bdata_start];
      unfold NFILES_PER_DISK, INODES_PER_BLOCK, BITS_PER_BLOCK, Log.start_ok, Log.LOG_SIZE, Log.MAX_OPEN_BLOCKS; ulia.
  - unfold superblock_words. cbn [sb_magic sb_size sb_nblocks sb_ninodes sb_inode_start sb_nlog sb_log_start sb_bmap_start sb_bmap_bytes sb_bdata_start].
    repeat apply Forall_cons_2; [..|apply Forall_nil_2]; unfold is_u32, SUPER_BLOCK_MAGIC, NFILES_PER_DISK; ulia.
  - unfold bmap_bits. cbn [sb_bmap_bytes]. rewrite u32_small by (unfold is_u32; ulia). ulia.
Qed.

(** ** The superblock on the image *)

Lemma put_word sb buf j x : length buf = BLOCK_SIZE -> superblock_words sb !! j = Some x -> is_u32 x ->
  get32 (put_superblock sb buf) j = x.
Proof.
  intros Hl Hj Hx. assert (length (superblock_words sb) = 10%nat) as Hw by done. pose proof (lookup_lt_Some _ _ _ Hj) as Hlt.
  unfold get32, put_superblock. rewrite <- (dec32_enc32 x Hx). f_equal. apply list_eq. intros k.
  rewrite <- (Inode.enc_words_slice _ _ _ Hj). unfold slice.
  destruct (decide (k < 4)%nat); [|by rewrite !lookup_take_ge by lia].
  rewrite !lookup_take_lt, !lookup_drop by lia. unfold BLOCK_SIZE in *.
  rewrite splice_lookup by (rewrite Inode.length_enc_words; lia). rewrite Inode.length_enc_words, decide_True by lia.
  f_equal. lia.
Qed.

Lemma get_put_superblock sb buf : length buf = BLOCK_SIZE -> Forall is_u32 (superblock_words sb) ->
  get_superblock (put_superblock sb buf) = sb.
Proof.
  intros Hl Hw. unfold get_superblock.
  assert (forall j x, superblock_words sb !! j = Some x -> get32 (put_superblock sb buf) j = x) as H.
  { intros j x Hj. apply put_word; [done..|]. by eapply Forall_lookup_1. }
  rewrite (H 0%nat _ eq_refl), (H 1%nat _ eq_refl), (H 2%nat _ eq_refl), (H 3%nat _ eq_refl), (H 4%nat _ eq_refl),
    (H 5%nat _ eq_refl), (H 6%nat _ eq_refl), (H 7%nat _ eq_refl), (H 8%nat _ eq_refl), (H 9%nat _ eq_refl). by destruct sb.
Qed.

Lemma createfs_again s : 1 < sector_cnt s -> get32 (blocks s 1) 0 = SUPER_BLOCK_MAGIC -> createfs s = Ok (None, s).
Proof.
  intros Hn Hm. unfold createfs. rewrite (bind_Ok _ _ _ _ _ (bread_Ok s 1 ltac:(done) ltac:(done) Hn)).
  rewrite Hm, Z.eqb_refl. done.
Qed.

Lemma put_superblock_ok sb buf : block_ok buf -> block_ok (put_superblock sb buf).
Proof.
  intros [Hl Hb]. split.
  - unfold put_superblock. rewrite length_splice; [done|]. rewrite Inode.length_enc_words, Hl. unfold BLOCK_SIZE. simpl. lia.
  - apply bytes_splice; [|done]. unfold superblock_words. cbn [map concat]. repeat apply Forall_app_2; try apply bytes_enc32. constructor.
Qed.

Lemma createfs_run s : 1 < sector_cnt s -> get32 (blocks s 1) 0 <> SUPER_BLOCK_MAGIC ->
  createfs s = match superblock_init (sector_cnt s) with
    | None => Panic
    | Some sb => Ok (Some sb, wr 1 (put_superblock sb (blocks s 1)) s)
    end.
Proof.
  intros Hn Hm. unfold createfs. rewrite (bind_Ok _ _ _ _ _ (bread_Ok s 1 ltac:(done) ltac:(done) Hn)).
  rewrite (proj2 (Z.eqb_neq _ _)) by done. rewrite (bind_Ok _ _ _ s s) by done.
  destruct (superblock_init (sector_cnt s)) as [sb|]; [|done].
  rewrite (bind_Ok _ _ _ _ _ (bwrite_Ok s 1 _ ltac:(done) ltac:(done))). done.
Qed.

(** The image with the superblock on it. *)
Lemma createfs_written s sb : block_ok (blocks s 1) -> 1 < sector_cnt s -> layout_spec (sector_cnt s) sb ->
  let s' := wr 1 (put_superblock sb (blocks s 1)) s in
  sector_cnt s' = sector_cnt s /\ block_ok (blocks s' 1) /\ scan_fs (blocks s') = Some sb /\ get32 (blocks s' 1) 0 = SUPER_BLOCK_MAGIC /\
  (forall x, x <> 1 -> blocks s' x = blocks s x).
Proof.
  intros Hb Hn Hl s'.
  assert (blocks s' 1 = put_superblock sb (blocks s 1)) as E1 by (unfold s'; by rewrite blocks_wr, decide_True).
  assert (get32 (blocks s' 1) 0 = SUPER_BLOCK_MAGIC) as E2.
  { rewrite E1, <- (ls_magic _ _ Hl). apply put_word; [apply Hb|done|]. exact (Forall_inv (ls_words _ _ Hl)). }
  split_and!.
  - unfold s', wr. cbn [sector_cnt]. lia.
  - rewrite E1. by apply put_superblock_ok.
  - unfold scan_fs. rewrite E2, Z.eqb_refl, E1. f_equal. apply get_put_superblock; [apply Hb|apply Hl].
  - exact E2.
  - intros x Hx. unfold s'. by rewrite blocks_wr, decide_False.
Qed.

(** [createfs] on an image without a file system: below 2476 sectors the program ends
    with an error; otherwise the superblock it writes describes parts that follow each other
    without overlap, with at least 100 data blocks, whose end is at most two sectors after
    the end of the image; the kernel's [scan_fs] reads back the same superblock; no other
    sector changes; and a second run changes nothing. *)
Theorem createfs_correct s :
  (forall x, block_ok (blocks s x)) -> 1 < sector_cnt s < 2 ^ 31 -> get32 (blocks s 1) 0 <> SUPER_BLOCK_MAGIC ->
  if min_sectors <=? sector_cnt s then
    exists sb s', createfs s = Ok (Some sb, s') /\ layout_spec (sector_cnt s) sb /\ scan_fs (blocks s') = Some sb /\
      sector_cnt s' = sector_cnt s /\ (forall x, x <> 1 -> blocks s' x = blocks s x) /\ createfs s' = Ok (None, s')
  else createfs s = Panic.
Proof.
  intros Hb Hn Hm. pose proof (superblock_init_spec (sector_cnt s) ltac:(lia)) as Hi. rewrite createfs_run by (done || lia).
  destruct (superblock_init (sector_cnt s)) as [sb|].
  - destruct Hi as [Hmin Hl]. rewrite (proj2 (Z.leb_le _ _)) by done.
    destruct (createfs_written s sb (Hb 1) ltac:(lia) Hl) as (W1 & W2 & W3 & W4 & W5).
    eexists sb, _. split; [done|]. split; [exact Hl|]. split; [exact W3|]. split; [exact W1|]. split; [exact W5|].
    apply createfs_again; [lia|exact W4].
  - rewrite (proj2 (Z.leb_gt _ _)) by done. done.
Qed.

Lemma blocks_empty n x : blocks (Img ∅ n) x = zero_block.
Proof. unfold blocks, dread. cbn [sectors]. by rewrite lookup_empty. Qed.

Lemma createfs_correct_witness :
  exists sb s', createfs (Img ∅ 3000) = Ok (Some sb, s') /\ layout_spec 3000 sb /\ scan_fs (blocks s') = Some sb /\
    sector_cnt s' = 3000 /\ (forall x, x <> 1 -> blocks s' x = blocks (Img ∅ 3000) x) /\ createfs s' = Ok (None, s').
Proof.
  refine (createfs_correct (Img ∅ 3000) _ _ _).
  - intros x. rewrite blocks_empty. split; [done|]. apply Forall_replicate. done.
  - done.
  - by rewrite blocks_empty.
Defined.

(** ** Files of an image *)

Section files.
Context (sb : superblock).
Notation img_ok := (img_ok sb).

(** A write that takes no block keeps the image well formed. *)
Lemma img_ok_wr s b d : img_ok s -> block_ok d ->
  (forall i, is_data sb i -> used sb (blocks (wr b d s)) i = true -> used sb (blocks s) i = true \/ data_block sb i = b) ->
  img_ok (wr b d s).
Proof.
  intros [I1 I2 I3 I4 I5 I6] Hd Hu. split; try done.
  - intros x. rewrite blocks_wr. case_decide; [done|apply I2].
  - intros i Hi. specialize (I4 i Hi). unfold wr. cbn [sector_cnt]. lia.
  - intros i Hi. specialize (I5 i Hi). unfold wr. cbn [sector_cnt]. lia.
  - intros i Hi Hui. unfold wr. cbn [sector_cnt]. destruct (Hu i Hi Hui) as [H|H]; [specialize (I6 i Hi H)|]; lia.
Qed.

Lemma used_taken s i j : img_ok s -> is_data sb i -> is_data sb j ->
  used sb (blocks (taken sb s i)) j = if decide (j = i) then true else used sb (blocks s) j.
Proof.
  intros Hok Hi Hj. rewrite <- (balloc_writes_used sb (blocks s) i j (io_layout _ _ Hok) Hi Hj (io_blocks _ _ Hok _)).
  apply used_ext. unfold taken. rewrite !blocks_wr. unfold balloc_writes. simpl. done.
Qed.

Lemma taken_ok s i : img_ok s -> is_data sb i -> img_ok (taken sb s i).
Proof.
  intros Hok Hi. pose proof (used_taken s i) as U. pose proof Hok as [I1 I2 I3 I4 I5 I6]. split; try done.
  - intros x. unfold taken. rewrite !blocks_wr. repeat case_decide; [apply zero_block_ok|apply mark_bit_ok, I2|apply I2].
  - intros j Hj. specialize (I4 j Hj). unfold taken, wr. cbn [sector_cnt]. lia.
  - intros j Hj. specialize (I5 j Hj). unfold taken, wr. cbn [sector_cnt]. lia.
  - intros j Hj. rewrite U by done. unfold taken, wr. cbn [sector_cnt]. case_decide as D.
    + subst j. lia.
    + intros Hu. specialize (I6 j Hj Hu). lia.
Qed.

(** [balloc] as its callers see it. *)
Lemma balloc_img s : img_ok s -> (1 <= Inode.nfree sb (blocks s))%nat ->
  exists i s', balloc sb s = Ok (data_block sb i, s') /\ img_ok s' /\ is_data sb i /\ used sb (blocks s) i = false /\
    (forall j, is_data sb j -> used sb (blocks s') j = if decide (j = i) then true else used sb (blocks s) j) /\
    blocks s' (data_block sb i) = zero_block /\
    (forall x, Inode.settled sb (blocks s) x -> blocks s' x = blocks s x) /\
    Inode.nfree sb (blocks s) = S (Inode.nfree sb (blocks s')).
Proof.
  intros Hok Hn. destruct (Inode.nfree_first _ _ Hn) as (i & Hi & Hu & Hlt). exists i, (taken sb s i).
  assert (forall j, is_data sb j ->
    used sb (blocks (taken sb s i)) j = if decide (j = i) then true else used sb (blocks s) j) as U by (intros; by apply used_taken).
  pose proof Hi as [Hi0 Hi1]. split_and!; [|by apply taken_ok|exact Hi|exact Hu|exact U| | |by apply (Inode.nfree_mark _ _ _ i)].
  - pose proof (balloc_loop_img sb s i Hok Hi Hu Hlt (bmap_fuel sb) 0) as H.
    rewrite Z.mul_0_l, !Z.sub_0_r, Z.add_0_r in H. apply H.
    + split; [lia|]. apply Z.div_pos; [lia|done].
    + unfold bmap_fuel. assert (i / BITS_PER_BLOCK <= bmap_bits sb / BITS_PER_BLOCK) by (apply Z.div_le_mono; [done|lia]).
      assert (0 <= i / BITS_PER_BLOCK) by (apply Z.div_pos; [lia|done]). lia.
  - unfold taken. by rewrite blocks_wr, decide_True.
  - intros x [X1 X2]. unfold taken. rewrite !blocks_wr. rewrite !decide_False; auto.
Qed.

(** The fields of an inode that [bmap] leaves alone. *)
Definition same_fields (d d' : Inode.dinode) : Prop :=
  Inode.type d' = Inode.type d /\ Inode.nlink d' = Inode.nlink d /\ Inode.dsize d' = Inode.dsize d /\
  Inode.major d' = Inode.major d /\ Inode.minor d' = Inode.minor d.

(** A change of a file: at most [f] new blocks, the blocks of the file have the contents
    [g], and no block outside of the file changes. *)
Record istep (f : nat) (g : Z -> block) (d : Inode.dinode) (s : image) (d' : Inode.dinode) (s' : image) : Prop := {
  is_ok : img_ok s';
  is_wf : Inode.file_wf sb (blocks s') d';
  is_fields : same_fields d d';
  is_fblock : forall bn, 0 <= bn < Inode.MAX_DATA_BLOCKS -> Inode.fblock (blocks s') d' bn = g bn;
  is_frame : forall x, Inode.outside sb (blocks s) d x -> Inode.outside sb (blocks s') d' x /\ blocks s' x = blocks s x;
  is_mono : forall k, (k < Inode.NSLOTS)%nat -> Inode.slot (blocks s) d k <> 0 ->
    Inode.slot (blocks s') d' k = Inode.slot (blocks s) d k;
  is_free : (Inode.nfree sb (blocks s) <= Inode.nfree sb (blocks s') + f)%nat;
}.

Lemma istep_refl d s : img_ok s -> Inode.file_wf sb (blocks s) d -> istep 0 (Inode.fblock (blocks s) d) d s d s.
Proof. intros Hok Hw. split; try done. lia. Qed.

Lemma istep_weaken f g f' g' d s d' s' : istep f g d s d' s' -> (f <= f')%nat ->
  (forall bn, 0 <= bn < Inode.MAX_DATA_BLOCKS -> g bn = g' bn) -> istep f' g' d s d' s'.
Proof. intros [A1 A2 A3 A4 A5 A6 A7] Hf Hg. split; try done; [by intros; rewrite A4, Hg|lia]. Qed.

Lemma istep_trans f1 f2 g1 g2 d1 s1 d2 s2 d3 s3 :
  istep f1 g1 d1 s1 d2 s2 -> istep f2 g2 d2 s2 d3 s3 -> istep (f1 + f2) g2 d1 s1 d3 s3.
Proof.
  intros [A1 A2 (A31 & A32 & A33 & A34 & A35) A4 A5 A6 A7] [B1 B2 (B31 & B32 & B33 & B34 & B35) B4 B5 B6 B7].
  split; [exact B1|exact B2| |exact B4| | |lia].
  - unfold same_fields. split_and!; congruence.
  - intros x Hx. destruct (A5 x Hx) as [C1 C2]. destruct (B5 x C1) as [D1 D2]. split; [done|congruence].
  - intros k Hk Hn. rewrite B6, A6; try done. by rewrite A6.
Qed.

Lemma slot_settled_img d s k : img_ok s -> Inode.file_wf sb (blocks s) d -> (k < Inode.NSLOTS)%nat ->
  Inode.slot (blocks s) d k <> 0 -> Inode.settled sb (blocks s) (Inode.slot (blocks s) d k).
Proof.
  intros Hok Hw Hk Hn. destruct (Inode.fw_data _ _ _ Hw k Hk Hn) as (m & M1 & M2 & ->).
  by apply Inode.settled_used; [apply (io_layout _ _ Hok)|..].
Qed.

(** A fresh block in an empty slot. *)
Lemma extended_img d s j d' s' k0 :
  img_ok s -> img_ok s' -> Inode.file_wf sb (blocks s) d -> (k0 < Inode.NSLOTS)%nat -> Inode.slot (blocks s) d k0 = 0 ->
  is_data sb j -> used sb (blocks s) j = false ->
  (forall k, is_data sb k -> used sb (blocks s') k = if decide (k = j) then true else used sb (blocks s) k) ->
  (k0 <> 11%nat -> blocks s' (data_block sb j) = zero_block) ->
  (forall x, Inode.settled sb (blocks s) x ->
     (Inode.slot (blocks s) d 11 <> 0 -> Inode.slot (blocks s) d 11 <> x) -> blocks s' x = blocks s x) ->
  (forall k, (k < Inode.NSLOTS)%nat -> Inode.slot (blocks s') d' k =
     if decide (k = k0) then data_block sb j else Inode.slot (blocks s) d k) ->
  length (Inode.addrs d') = 12%nat -> same_fields d d' -> istep 1 (Inode.fblock (blocks s) d) d s d' s'.
Proof.
  intros Hok Hok' Hw Hk Hz Hj Hu Hused Hzero Hsame Hslot Hlen Hm. pose proof (io_layout _ _ Hok) as Hla.
  pose proof (Inode.data_block_pos sb j Hla Hj) as Hpos.
  assert (forall k, (k < Inode.NSLOTS)%nat -> Inode.slot (blocks s) d k <> data_block sb j) as Hfresh.
  { intros k Hk' Heq. destruct (Inode.fw_data _ _ _ Hw k Hk' ltac:(congruence)) as (m & M1 & M2 & M3).
    rewrite Heq in M3. unfold data_block in M3. assert (m = j) by lia. congruence. }
  assert (forall x, Inode.settled sb (blocks s) x -> Inode.settled sb (blocks s') x) as Hset.
  { intros x [X1 X2]. split; [done|]. intros m Hm' Hum. apply X2; [done|]. rewrite Hused in Hum by done. by case_decide. }
  split; try done.
  - eapply (Inode.extend_wf sb _ _ _ _ k0 (data_block sb j)); try done.
    + exists j. split_and!; [done| |done]. rewrite Hused by done. by rewrite decide_True.
    + intros k Hk' Huk. rewrite Hused by done. by case_decide.
  - intros bn Hbn. apply (Inode.extend_fblock _ _ _ _ k0 (data_block sb j)); try done.
    intros k Hk' Hk11 Hn. apply Hsame; [by apply slot_settled_img|].
    intros Hn11 Heq. apply (Inode.fw_inj _ _ _ Hw) in Heq; [done|unfold Inode.NSLOTS; lia|done|done].
  - intros x [Hx1 Hx2]. split.
    + split; [by apply Hset|]. intros k Hk'. rewrite Hslot by done. case_decide; [|by apply Hx2].
      intros _ <-. by eapply (proj2 Hx1).
    + apply Hsame; [done|]. intros Hn. apply Hx2; [unfold Inode.NSLOTS; lia|done].
  - intros k Hk' Hn. rewrite Hslot by done. case_decide; [by subst|done].
  - rewrite (Inode.nfree_mark sb (blocks s) (blocks s') j Hj Hu Hused). lia.
Qed.
End files.

(** ** [bmap] of the tool *)

Section appending.
Context (sb : superblock).
Notation img_ok := (img_ok sb).
Notation istep := (istep sb).

(** A block of a file is inside of the image. *)
Lemma slot_pos d s k : img_ok s -> Inode.file_wf sb (blocks s) d -> (k < Inode.NSLOTS)%nat -> Inode.slot (blocks s) d k <> 0 ->
  0 <= Inode.slot (blocks s) d k /\ Inode.slot (blocks s) d k * SECTOR_SIZE < 2 ^ 31 /\ Inode.slot (blocks s) d k < sector_cnt s.
Proof.
  intros Hok Hw Hk Hn. destruct (Inode.fw_data _ _ _ Hw k Hk Hn) as (m & M1 & M2 & ->).
  pose proof (block_pos sb s m Hok M1) as (_ & _ & _ & B4 & B5). pose proof (io_data _ _ Hok m M1 M2). lia.
Qed.

(** [balloc] for a slot of the inode itself. *)
Lemma alloc_addr_img d s k0 : img_ok s -> Inode.file_wf sb (blocks s) d -> 0 <= k0 <= 11 ->
  Inode.addrs d !!! Z.to_nat k0 = 0 -> (1 <= Inode.nfree sb (blocks s))%nat ->
  exists a s', balloc sb s = Ok (a, s') /\ istep 1 (Inode.fblock (blocks s) d) d s (Inode.set_addr k0 a d) s' /\ a <> 0.
Proof.
  intros Hok Hw Hk Hz Hn. pose proof (io_layout _ _ Hok) as Hla. pose proof (Inode.fw_len _ _ _ Hw) as Hlen.
  destruct (balloc_img sb s Hok Hn) as (j & s' & E & Hok' & Hj & Hu & U & Z0 & Hsame & Hf).
  exists (data_block sb j), s'. split; [exact E|]. split; [|by apply Inode.data_block_pos].
  apply (extended_img sb d s j _ s' (Z.to_nat k0)); try done.
  - unfold Inode.NSLOTS. lia.
  - unfold Inode.slot. by rewrite (proj2 (Nat.ltb_lt _ _)) by lia.
  - intros x Hx _. by apply Hsame.
  - intros k Hk'. unfold Inode.slot. cbn [Inode.set_addr Inode.addrs]. destruct (Nat.ltb_spec k 12) as [Hk12|Hk12].
    + case_decide as D; [subst; by rewrite list_lookup_total_insert_eq by (rewrite Hlen; lia)|].
      by rewrite list_lookup_total_insert_ne.
    + rewrite decide_False by lia. cbv zeta. destruct (decide (k0 = 11)) as [->|Hne].
      * change (Z.to_nat 11) with 11%nat in *. rewrite list_lookup_total_insert_eq by (rewrite Hlen; lia).
        rewrite Hz, Z0, Inode.get32_zero. cbn [Z.eqb]. by destruct (data_block sb j =? 0).
      * rewrite list_lookup_total_insert_ne by lia.
        destruct (Z.eqb_spec (Inode.addrs d !!! 11%nat) 0) as [|H11]; [done|].
        rewrite Hsame; [done|]. apply (slot_settled_img sb d s 11 Hok Hw); [unfold Inode.NSLOTS; lia|done].
  - cbn [Inode.set_addr Inode.addrs]. by rewrite length_insert.
Qed.

(** The part of [bmap] after the indirect block is there. *)
Definition bmap_rest (ip : Inode.dinode) (bn : Z) : M image (Z * Inode.dinode) :=
  let ind := Inode.addrs ip !!! Z.to_nat NDIRECT_DATA_BLOCKS in
  buf ← bread ind;
  if 128 <=? bn then panic
  else
    let addr := get32 buf (Z.to_nat bn) in
    if addr =? 0 then
      addr ← balloc sb;
      bwrite ind (splice (4 * Z.to_nat bn) (enc32 addr) buf);;
      mret (addr, ip)
    else mret (addr, ip).

Lemma bmap_rest_img d s bn : img_ok s -> Inode.file_wf sb (blocks s) d -> 0 <= bn < 128 ->
  Inode.addrs d !!! 11%nat <> 0 -> (1 <= Inode.nfree sb (blocks s))%nat ->
  exists a s', bmap_rest d bn s = Ok ((a, d), s') /\ istep 1 (Inode.fblock (blocks s) d) d s d s' /\ a <> 0 /\
    a = Inode.slot (blocks s') d (12 + Z.to_nat bn).
Proof.
  intros Hok Hw Hbn Hi Hn. pose proof (io_layout _ _ Hok) as Hla. set (ind := Inode.addrs d !!! 11%nat) in *.
  assert (11 < Inode.NSLOTS)%nat as H11 by (unfold Inode.NSLOTS; lia).
  pose proof (slot_pos d s 11 Hok Hw H11 Hi) as (Q1 & Q2 & Q3). change (Inode.slot (blocks s) d 11) with ind in Q1, Q2, Q3.
  pose proof (slot_settled_img sb d s 11 Hok Hw H11 Hi) as Hset. change (Inode.slot (blocks s) d 11) with ind in Hset.
  assert (Inode.slot (blocks s) d (12 + Z.to_nat bn) = get32 (blocks s ind) (Z.to_nat bn)) as Hsl.
  { unfold Inode.slot. rewrite (proj2 (Nat.ltb_ge _ _)) by lia. cbv zeta. fold ind. rewrite (proj2 (Z.eqb_neq _ _)) by done.
    f_equal. lia. }
  unfold bmap_rest. change (Z.to_nat NDIRECT_DATA_BLOCKS) with 11%nat. cbv zeta. fold ind.
  rewrite (bind_Ok _ _ _ _ _ (bread_Ok s ind Q1 Q2 Q3)). rewrite (proj2 (Z.leb_gt 128 bn)) by lia.
  destruct (Z.eqb_spec (get32 (blocks s ind) (Z.to_nat bn)) 0) as [Hz|Hz].
  2: { eexists _, s. split; [done|]. split; [|by rewrite Hsl].
       eapply istep_weaken; [by apply istep_refl|lia|done]. }
  destruct (balloc_img sb s Hok Hn) as (j & s1 & E & Hok1 & Hj & Hu & U & Z0 & Hsame & Hf).
  rewrite (bind_Ok _ _ _ _ _ E). set (b' := splice _ _ _). rewrite (bind_Ok _ _ _ _ _ (bwrite_Ok s1 ind b' Q1 Q2)).
  set (s2 := wr ind b' s1). assert (is_u32 (data_block sb j)) as Hu32 by apply (data_block_loggable sb Hla j Hj).
  assert (blocks s2 ind = b') as B2 by (unfold s2; by rewrite blocks_wr, decide_True).
  assert (forall k, Inode.slot (blocks s2) d k = if decide (k = 12 + Z.to_nat bn)%nat then data_block sb j else Inode.slot (blocks s) d k) as Hs2.
  { intros k. apply Inode.slot_indirect; try done. apply Hok. }
  assert (forall x, x <> ind -> blocks s2 x = blocks s1 x) as Bne by (intros x Hx; unfold s2; by rewrite blocks_wr, decide_False).
  assert (forall k, is_data sb k -> used sb (blocks s2) k = used sb (blocks s1) k) as U2.
  { intros k Hk. apply used_ext, Bne. apply not_eq_sym, (proj1 Hset k Hk). }
  exists (data_block sb j), s2. split; [done|]. split_and!; [|by apply Inode.data_block_pos|by rewrite Hs2, decide_True].
  apply (extended_img sb d s j d s2 (12 + Z.to_nat bn)); try done.
  - apply img_ok_wr; [done| |].
    + destruct (io_blocks _ _ Hok ind) as [Bl Bb]. split; [|by apply bytes_splice; [apply bytes_enc32|]].
      unfold b'. rewrite length_splice; [done|]. rewrite Bl, length_enc32. unfold BLOCK_SIZE. lia.
    + intros i Hi'. change (wr ind b' s1) with s2. rewrite U2 by done. by left.
  - unfold Inode.NSLOTS. lia.
  - by rewrite Hsl.
  - intros k Hk. rewrite U2 by done. by apply U.
  - rewrite Bne; [done|]. apply not_eq_sym. by apply (proj2 Hset j Hj Hu).
  - intros x Hx Hne. rewrite Bne; [by apply Hsame|]. intros ->. by apply Hne.
  - apply Hw.
Qed.

Lemma bmap_img d s bn : img_ok s -> Inode.file_wf sb (blocks s) d -> 0 <= bn < Inode.MAX_DATA_BLOCKS ->
  (2 <= Inode.nfree sb (blocks s))%nat ->
  exists a d' s', bmap sb d bn s = Ok ((a, d'), s') /\ istep 2 (Inode.fblock (blocks s) d) d s d' s' /\ a <> 0 /\
    a = Inode.slot (blocks s') d' (Inode.bslot bn).
Proof.
  intros Hok Hw Hbn Hn. unfold Inode.MAX_DATA_BLOCKS, Inode.NDIRECT_DATA_BLOCKS, Inode.NINDIRECT_DATA_BLOCKS in Hbn.
  pose proof (Inode.fw_len _ _ _ Hw) as Hlen.
  unfold bmap, Inode.bslot, Inode.NDIRECT_DATA_BLOCKS, NDIRECT_DATA_BLOCKS. destruct (Z.ltb_spec bn 11) as [Hd|Hd]; cbv zeta.
  - destruct (Z.eqb_spec (Inode.addrs d !!! Z.to_nat bn) 0) as [Hz|Hz].
    + destruct (alloc_addr_img d s bn Hok Hw ltac:(lia) Hz ltac:(lia)) as (a & s' & E & S & Ha).
      exists a, (Inode.set_addr bn a d), s'. rewrite (bind_Ok _ _ _ _ _ E). split; [done|].
      split; [eapply istep_weaken; [exact S|lia|done]|]. split; [done|].
      unfold Inode.slot. rewrite (proj2 (Nat.ltb_lt _ _)) by lia. cbn [Inode.set_addr Inode.addrs].
      by rewrite list_lookup_total_insert_eq by (rewrite Hlen; lia).
    + eexists _, d, s. split; [done|]. split; [eapply istep_weaken; [by apply istep_refl|lia|done]|]. split; [done|].
      unfold Inode.slot. by rewrite (proj2 (Nat.ltb_lt _ _)) by lia.
  - change (Z.to_nat 11) with 11%nat.
    assert (exists d1 s1, (if Inode.addrs d !!! 11%nat =? 0 then a ← balloc sb; mret (Inode.set_addr 11 a d) else mret d) s = Ok (d1, s1) /\
      istep 1 (Inode.fblock (blocks s) d) d s d1 s1 /\ Inode.addrs d1 !!! 11%nat <> 0) as (d1 & s1 & E1 & S1 & H1).
    { destruct (Z.eqb_spec (Inode.addrs d !!! 11%nat) 0) as [Hz|Hz].
      - destruct (alloc_addr_img d s 11 Hok Hw ltac:(lia) Hz ltac:(lia)) as (a & s' & E & S & Ha).
        exists (Inode.set_addr 11 a d), s'. rewrite (bind_Ok _ _ _ _ _ E). split; [done|]. split; [exact S|].
        cbn [Inode.set_addr Inode.addrs]. by rewrite list_lookup_total_insert_eq by (rewrite Hlen; lia).
      - exists d, s. split; [done|]. split; [eapply istep_weaken; [by apply istep_refl|lia|done]|done]. }
    rewrite (bind_Ok _ _ _ _ _ E1). pose proof (is_free _ _ _ _ _ _ _ S1) as Hf.
    destruct (bmap_rest_img d1 s1 (bn - 11) (is_ok _ _ _ _ _ _ _ S1) (is_wf _ _ _ _ _ _ _ S1) ltac:(lia) H1 ltac:(lia))
      as (a & s2 & E2 & S2 & Ha & Ha'). exists a, d1, s2. split; [exact E2|]. split.
    + eapply istep_weaken; [eapply istep_trans; [exact S1|exact S2]|lia|]. intros b Hb. by apply (is_fblock _ _ _ _ _ _ _ S1).
    + split; [done|]. rewrite Ha'. f_equal. lia.
Qed.
End appending.

(** ** [iappend] *)

Section iappending.
Context (sb : superblock).
Notation img_ok := (img_ok sb).
Notation istep := (istep sb).

(** A block of the file is written. *)
Lemma update_block_img d s bn b : img_ok s -> Inode.file_wf sb (blocks s) d -> 0 <= bn < Inode.MAX_DATA_BLOCKS -> block_ok b ->
  let a := Inode.slot (blocks s) d (Inode.bslot bn) in
  a <> 0 -> istep 0 (fun bn' => if decide (bn' = bn) then b else Inode.fblock (blocks s) d bn') d s d (wr a b s).
Proof.
  intros Hok Hw Hbn Hb a Ha. destruct (Inode.bslot_lt bn Hbn) as [Hk Hk11].
  pose proof (slot_settled_img sb d s _ Hok Hw Hk Ha) as Hset. fold a in Hset.
  assert (forall x, blocks (wr a b s) x = if decide (x = a) then b else blocks s x) as Hv by (intros; apply blocks_wr).
  assert (forall k, (k < Inode.NSLOTS)%nat -> Inode.slot (blocks (wr a b s)) d k = Inode.slot (blocks s) d k) as Hsl.
  { intros k Hk'. unfold Inode.slot. destruct (Nat.ltb_spec k 12); [done|]. cbv zeta.
    destruct (Z.eqb_spec (Inode.addrs d !!! 11%nat) 0) as [|Hn]; [done|].
    rewrite Hv, decide_False; [done|]. intros Heq. apply Hk11, (Inode.fw_inj _ _ _ Hw); try done. unfold Inode.NSLOTS; lia. }
  assert (forall j, is_data sb j -> used sb (blocks (wr a b s)) j = used sb (blocks s) j) as Hu.
  { intros j Hj. apply used_ext. rewrite Hv, decide_False; [done|]. apply not_eq_sym, (proj1 Hset j Hj). }
  split.
  - apply img_ok_wr; [done..|]. intros i Hi. rewrite Hu by done. by left.
  - destruct Hw as [W1 W2 W3]. split; [done|..].
    + intros k Hk'. rewrite Hsl by done. intros Hn. destruct (W2 k Hk' Hn) as (j & J1 & J2 & J3). exists j. by rewrite Hu.
    + intros k k' Hk1 Hk2. rewrite !Hsl by done. by apply W3.
  - done.
  - intros x Hx. destruct (Inode.bslot_lt x Hx) as [Hkb _]. unfold Inode.fblock. cbv zeta. rewrite Hsl by done. case_decide as D.
    + subst x. fold a. rewrite (proj2 (Z.eqb_neq _ _)) by done. by rewrite Hv, decide_True.
    + destruct (Z.eqb_spec (Inode.slot (blocks s) d (Inode.bslot x)) 0); [done|]. rewrite Hv, decide_False; [done|].
      intros Heq. apply D, Inode.bslot_inj; [lia|lia|]. by apply (Inode.fw_inj _ _ _ Hw).
  - intros x [[X1 X2] X3]. split.
    + split; [split|]; [done|..].
      * intros j Hj. rewrite Hu by done. by apply X2.
      * intros k Hk'. rewrite Hsl by done. by apply X3.
    + rewrite Hv, decide_False; [done|]. intros ->. by apply (X3 (Inode.bslot bn)).
  - intros k Hk' _. by apply Hsl.
  - rewrite (Inode.nfree_ext sb (blocks s) (blocks (wr a b s)) Hu). lia.
Qed.

(** One turn of the loop: [src] ends in the block of [off]. *)
Lemma append_turn d s off (src : list Z) {A} (r : Inode.dinode -> M image A) :
  img_ok s -> Inode.file_wf sb (blocks s) d -> 0 <= off < Inode.MAX_DATA_BLOCKS * Inode.BSIZE -> bytes src ->
  off mod Inode.BSIZE + Z.of_nat (length src) <= Inode.BSIZE -> (2 <= Inode.nfree sb (blocks s))%nat ->
  exists d' s' g,
    (p ← bmap sb d (off / Inode.BSIZE);
     buf ← bread (fst p);
     bwrite (fst p) (splice (Z.to_nat (off mod Inode.BSIZE)) src buf);;
     r (snd p)) s = r d' s' /\
    istep 2 g d s d' s' /\
    (forall k, 0 <= k < Inode.MAX_DATA_BLOCKS * Inode.BSIZE -> Inode.fbyte (blocks s') d' k =
       if decide (off <= k < off + Z.of_nat (length src)) then src !!! Z.to_nat (k - off) else Inode.fbyte (blocks s) d k) /\
    Inode.slot (blocks s') d' (Inode.bslot (off / Inode.BSIZE)) <> 0.
Proof.
  intros Hok Hw Ho Hb Hle Hn. pose proof (Inode.block_range off Ho) as Hbn. set (bn := off / Inode.BSIZE) in *.
  destruct (bmap_img sb d s bn Hok Hw Hbn Hn) as (a & d1 & s1 & E1 & S1 & Ha & Ha').
  pose proof S1 as [O1 W1 _ F1 _ _ _]. destruct (Inode.bslot_lt bn Hbn) as [Hk _].
  pose proof (slot_pos sb d1 s1 _ O1 W1 Hk ltac:(congruence)) as (Q1 & Q2 & Q3). rewrite <- Ha' in Q1, Q2, Q3.
  set (b := splice (Z.to_nat (off mod Inode.BSIZE)) src (blocks s1 a)). destruct (io_blocks _ _ O1 a) as [Bl Bb].
  pose proof (Z.mod_pos_bound off Inode.BSIZE ltac:(done)) as Hmod.
  assert (block_ok b) as Hbok.
  { split; [|by apply bytes_splice]. unfold b. rewrite length_splice; [done|]. rewrite Bl. unfold BLOCK_SIZE, Inode.BSIZE in *. lia. }
  pose proof (update_block_img d1 s1 bn b O1 W1 Hbn Hbok ltac:(congruence)) as U. cbv zeta in U. rewrite <- Ha' in U.
  eexists d1, (wr a b s1), _. split; [|split; [eapply istep_weaken; [eapply istep_trans; [exact S1|exact U]|lia|done]|split]].
  - rewrite (bind_Ok _ _ _ _ _ E1). cbn [fst snd]. rewrite (bind_Ok _ _ _ _ _ (bread_Ok s1 a Q1 Q2 Q3)).
    rewrite (bind_Ok _ _ _ _ _ (bwrite_Ok s1 a _ Q1 Q2)). done.
  - intros k Hk'. pose proof (Inode.block_range k Hk') as Hkb. unfold Inode.fbyte.
    rewrite (is_fblock _ _ _ _ _ _ _ U (k / Inode.BSIZE) Hkb). specialize (F1 (k / Inode.BSIZE) Hkb). cbn beta. case_decide as D.
    + assert (blocks s1 a = Inode.fblock (blocks s) d (k / Inode.BSIZE)) as Ev.
      { rewrite <- F1. unfold Inode.fblock. cbv zeta. rewrite D, <- Ha'. by rewrite (proj2 (Z.eqb_neq _ _)). }
      unfold b. rewrite Inode.splice_fbyte by (done || lia). rewrite Ev. done.
    + rewrite F1. rewrite decide_False; [done|]. intros [C1 C2]. apply D.
      destruct (Inode.same_block off (k - off)) as [Q _]; [lia|lia|lia|]. unfold bn. rewrite <- Q. f_equal. lia.
  - fold bn. rewrite (is_mono _ _ _ _ _ _ _ U) by (done || congruence). congruence.
Qed.

Lemma chunk_nat off (src : list Z) : 0 <= off -> (0 < length src)%nat ->
  Nat.min (BLOCK_SIZE - Z.to_nat (off mod Inode.BSIZE)) (length src) = Z.to_nat (Inode.chunk off (Z.of_nat (length src))).
Proof.
  intros Ho Hl. pose proof (Z.mod_pos_bound off Inode.BSIZE ltac:(done)). unfold Inode.chunk. cbv zeta.
  unfold BLOCK_SIZE, Inode.BSIZE in *. destruct (Z.ltb_spec (Z.of_nat (length src)) (512 - off mod 512)); lia.
Qed.

Lemma iappend_loop_img : forall fuel d s off (src : list Z),
  img_ok s -> Inode.file_wf sb (blocks s) d -> 0 <= off -> bytes src -> (length src < fuel)%nat ->
  off + Z.of_nat (length src) <= Inode.MAX_DATA_BLOCKS * Inode.BSIZE ->
  let t := Inode.nturns off (Z.of_nat (length src)) in
  2 * t <= Z.of_nat (Inode.nfree sb (blocks s)) ->
  exists d' s' g, iappend_loop sb fuel d off src s = Ok ((d', off + Z.of_nat (length src)), s') /\
    istep (2 * Z.to_nat t) g d s d' s' /\
    (forall k, 0 <= k < Inode.MAX_DATA_BLOCKS * Inode.BSIZE -> Inode.fbyte (blocks s') d' k =
       if decide (off <= k < off + Z.of_nat (length src)) then src !!! Z.to_nat (k - off) else Inode.fbyte (blocks s) d k) /\
    (forall bn, bn * Inode.BSIZE < off + Z.of_nat (length src) -> off < (bn + 1) * Inode.BSIZE -> (0 < length src)%nat ->
       Inode.slot (blocks s') d' (Inode.bslot bn) <> 0).
Proof.
  induction fuel as [|fuel IH]; intros d s off src Hok Hw Ho Hb Hfu Hmax t Hn; [lia|]. unfold t in *. clear t.
  cbn [iappend_loop]. destruct src as [|x l] eqn:Esrc.
  { exists d, s, (Inode.fblock (blocks s) d). rewrite Z.add_0_r. split; [done|].
    split; [eapply istep_weaken; [by apply istep_refl|lia|done]|]. split; [|simpl; lia].
    intros k Hk. rewrite decide_False; [done|simpl; lia]. }
  rewrite <- Esrc in *. assert (0 < length src)%nat as Hpos by (rewrite Esrc; simpl; lia). clear Esrc x l.
  assert (0 < Z.of_nat (length src)) as Hpz by lia. rewrite chunk_nat by done.
  destruct (Inode.chunk_bounds off _ Ho Hpz) as [Hc1 Hc2]. pose proof (Inode.nturns_next off _ Ho Hpz) as Hnext.
  set (m := Inode.chunk off (Z.of_nat (length src))) in *.
  pose proof (Inode.nturns_nonneg (off + m) (Z.of_nat (length src) - m)) as Hnn.
  assert (length (take (Z.to_nat m) src) = Z.to_nat m) as Hlt by (rewrite length_take; lia).
  assert (Z.of_nat (length (drop (Z.to_nat m) src)) = Z.of_nat (length src) - m) as Hld by (rewrite length_drop; lia).
  unfold Inode.MAX_DATA_BLOCKS, Inode.NDIRECT_DATA_BLOCKS, Inode.NINDIRECT_DATA_BLOCKS, Inode.BSIZE in Hmax.
  destruct (append_turn d s off (take (Z.to_nat m) src)
    (fun d1 => iappend_loop sb fuel d1 (u32 (off + Z.of_nat (Z.to_nat m))) (drop (Z.to_nat m) src)) Hok Hw)
    as (d1 & s1 & g1 & E1 & S1 & F1 & T1).
  { unfold Inode.MAX_DATA_BLOCKS, Inode.NDIRECT_DATA_BLOCKS, Inode.NINDIRECT_DATA_BLOCKS, Inode.BSIZE. lia. }
  { by apply Forall_take. }
  { rewrite Hlt. lia. }
  { lia. }
  rewrite E1. rewrite Hlt, Z2Nat.id in F1 by lia. rewrite Z2Nat.id, u32_small by (unfold is_u32; lia).
  pose proof (is_free _ _ _ _ _ _ _ S1) as Hfr.
  destruct (IH d1 s1 (off + m) (drop (Z.to_nat m) src) (is_ok _ _ _ _ _ _ _ S1) (is_wf _ _ _ _ _ _ _ S1))
    as (d2 & s2 & g2 & E2 & S2 & F2 & T2).
  { lia. }
  { by apply Forall_drop. }
  { lia. }
  { rewrite Hld. unfold Inode.MAX_DATA_BLOCKS, Inode.NDIRECT_DATA_BLOCKS, Inode.NINDIRECT_DATA_BLOCKS, Inode.BSIZE. lia. }
  { rewrite Hld. lia. }
  rewrite Hld in *. exists d2, s2, g2. split; [|split; [|split]].
  - rewrite E2. do 3 f_equal. lia.
  - eapply istep_weaken; [eapply istep_trans; [exact S1|exact S2]|lia|done].
  - intros k Hk. rewrite F2 by done. rewrite F1 by done. case_decide as D1; case_decide as D2; try lia.
    + rewrite lookup_total_drop. f_equal. lia.
    + rewrite decide_True by lia. by rewrite lookup_total_take_lt by lia.
    + rewrite decide_False by lia. done.
  - intros bn Hb1 Hb2 _. pose proof (Z.div_mod off Inode.BSIZE ltac:(done)) as Hdm. unfold Inode.BSIZE in *.
    pose proof (Z.mod_pos_bound off 512 ltac:(done)). destruct (decide (bn = off / 512)) as [->|Hne].
    + destruct (Inode.bslot_lt (off / 512)) as [Hk _].
      { apply Inode.block_range. unfold Inode.MAX_DATA_BLOCKS, Inode.NDIRECT_DATA_BLOCKS, Inode.NINDIRECT_DATA_BLOCKS, Inode.BSIZE. lia. }
      by rewrite (is_mono _ _ _ _ _ _ _ S2).
    + apply T2; lia.
Qed.
End iappending.

(** ** Inodes of an image *)

Definition inode_at (sb : superblock) (s : image) (inum : Z) : Inode.dinode :=
  Inode.get_dinode (blocks s (Inode.GET_INODE_BLOCK_NO inum sb)) (Inode.slot_of inum).

(** The bytes of the file of an inode. *)
Definition contents (sb : superblock) (s : image) (inum : Z) : list Z :=
  Inode.frange (blocks s) (inode_at sb s inum) 0 (Inode.dsize (inode_at sb s inum)).

(** Every block of the file below its size is allocated. *)
Definition all_there (v : Z -> block) (d : Inode.dinode) : Prop :=
  forall bn, 0 <= bn -> bn * Inode.BSIZE < Inode.dsize d -> Inode.slot v d (Inode.bslot bn) <> 0.

(** What the image has to be for [inum]: its blocks are its own, all of them are there, and its
    size is that of a file. *)
Record file_at (sb : superblock) (s : image) (inum : Z) : Prop := {
  fa_inum : 0 <= inum < sb_ninodes sb;
  fa_wf : Inode.file_wf sb (blocks s) (inode_at sb s inum);
  fa_ok : Inode.dinode_ok (inode_at sb s inum);
  fa_size : 0 <= Inode.dsize (inode_at sb s inum) <= Inode.MAX_DATA_BLOCKS * Inode.BSIZE;
  fa_there : all_there (blocks s) (inode_at sb s inum);
}.

(** Two files have no block in common. *)
Definition apart (v : Z -> block) (d e : Inode.dinode) : Prop :=
  forall k k', (k < Inode.NSLOTS)%nat -> (k' < Inode.NSLOTS)%nat -> Inode.slot v d k <> 0 -> Inode.slot v d k <> Inode.slot v e k'.

Section inodes.
Context (sb : superblock).
Notation img_ok := (img_ok sb).

Lemma iblock_pos s i : img_ok s -> 0 <= i < sb_ninodes sb ->
  let b := Inode.GET_INODE_BLOCK_NO i sb in
  0 <= b /\ b * SECTOR_SIZE < 2 ^ 31 /\ b < sector_cnt s /\ (forall v, Inode.settled sb v b) /\
  (forall v d, Inode.file_wf sb v d -> forall k, (k < Inode.NSLOTS)%nat -> Inode.slot v d k <> 0 -> Inode.slot v d k <> b).
Proof.
  intros Hok Hi b. pose proof (io_layout _ _ Hok) as Hla. destruct (Inode.inode_block_eq sb i Hla Hi) as (E & _ & Hd). fold b in E, Hd.
  pose proof Hla as [L1 L2 L3 L4 L5 L6 L7]. pose proof (io_pos _ _ Hok) as Hp. unfold INODES_PER_BLOCK, SECTOR_SIZE in *.
  assert (i / 7 <= sb_ninodes sb / 7) by (apply Z.div_le_mono; lia). assert (0 <= i / 7) by (apply Z.div_pos; lia).
  rewrite bmap_bits_eq in Hp by done. unfold Log.LOG_SIZE, Log.MAX_OPEN_BLOCKS, Log.start_ok in *.
  assert (0 <= sb_bmap_bytes sb * 8 / BITS_PER_BLOCK) by (apply Z.div_pos; [lia|done]).
  split; [lia|]. split; [lia|]. split; [by apply (io_inodes _ _ Hok)|]. split.
  - intros v. split; intros k Hk; [by apply (Hd v)|]. intros _. by apply (Hd v).
  - intros v d Hw k Hk Hn Heq. destruct (Inode.fw_data _ _ _ Hw k Hk Hn) as (m & M1 & M2 & M3).
    apply (proj1 (proj2 (Hd v m M1))). congruence.
Qed.

Lemma iread_img s i : img_ok s -> 0 <= i < sb_ninodes sb -> iread sb i s = Ok (inode_at sb s i, s).
Proof.
  intros Hok Hi. pose proof (iblock_pos s i Hok Hi) as (B1 & B2 & B3 & _). unfold iread.
  by rewrite (bind_Ok _ _ _ _ _ (bread_Ok s _ B1 B2 B3)).
Qed.

(** The slots of a file and the bitmap are not in the blocks of inodes. *)
Lemma slot_wr v v' d b k : (forall x, x <> b -> v' x = v x) ->
  (Inode.slot v d 11 <> 0 -> Inode.slot v d 11 <> b) -> Inode.slot v' d k = Inode.slot v d k.
Proof.
  intros Hv Hb. change (Inode.slot v d 11) with (Inode.addrs d !!! 11%nat) in Hb.
  unfold Inode.slot. destruct (k <? 12)%nat; [done|]. cbv zeta.
  destruct (Z.eqb_spec (Inode.addrs d !!! 11%nat) 0); [done|]. rewrite Hv; [done|]. by apply Hb.
Qed.

Lemma fblock_ext v v' d bn : 0 <= bn < Inode.MAX_DATA_BLOCKS ->
  (forall k, Inode.slot v' d k = Inode.slot v d k) ->
  (forall k, (k < Inode.NSLOTS)%nat -> Inode.slot v d k <> 0 -> v' (Inode.slot v d k) = v (Inode.slot v d k)) ->
  Inode.fblock v' d bn = Inode.fblock v d bn.
Proof.
  intros Hbn Hs Hv. destruct (Inode.bslot_lt bn Hbn) as [Hk _]. unfold Inode.fblock. cbv zeta. rewrite Hs.
  destruct (Z.eqb_spec (Inode.slot v d (Inode.bslot bn)) 0); [done|]. by apply Hv.
Qed.

Lemma file_wf_ext v v' d : (forall k, Inode.slot v' d k = Inode.slot v d k) ->
  (forall j, is_data sb j -> used sb v j = true -> used sb v' j = true) -> Inode.file_wf sb v d -> Inode.file_wf sb v' d.
Proof.
  intros Hs Hu [W1 W2 W3]. split; [done|..].
  - intros k Hk. rewrite Hs. intros Hn. destruct (W2 k Hk Hn) as (j & J1 & J2 & J3). exists j. auto.
  - intros k k' Hk Hk'. rewrite !Hs. by apply W3.
Qed.

(** [iwrite]: the inode is stored, the other inodes and every file are as before. *)
Lemma iwrite_img s i d : img_ok s -> 0 <= i < sb_ninodes sb -> Inode.dinode_ok d ->
  exists s', iwrite sb d i s = Ok (tt, s') /\ img_ok s' /\ inode_at sb s' i = d /\
    (forall j, 0 <= j < sb_ninodes sb -> j <> i -> inode_at sb s' j = inode_at sb s j) /\
    (forall x, x <> Inode.GET_INODE_BLOCK_NO i sb -> blocks s' x = blocks s x) /\
    (forall j, is_data sb j -> used sb (blocks s') j = used sb (blocks s) j).
Proof.
  intros Hok Hi Hd. pose proof (iblock_pos s i Hok Hi) as (B1 & B2 & B3 & B4 & B5). set (b := Inode.GET_INODE_BLOCK_NO i sb) in *.
  pose proof (Inode.slot_of_lt i) as Hsl. destruct (io_blocks _ _ Hok b) as [Bl Bb].
  set (b' := Inode.put_dinode (blocks s b) (Inode.slot_of i) d). exists (wr b b' s).
  assert (forall j, is_data sb j -> used sb (blocks (wr b b' s)) j = used sb (blocks s) j) as Hu.
  { intros j Hj. apply used_ext. rewrite blocks_wr, decide_False; [done|]. apply not_eq_sym, (proj1 (B4 (blocks s)) j Hj). }
  split_and!; [| | | | |exact Hu].
  - unfold iwrite. cbv zeta. fold b. rewrite (bind_Ok _ _ _ _ _ (bread_Ok s b B1 B2 B3)). by apply bwrite_Ok.
  - apply img_ok_wr; [done| |].
    + apply Inode.put_dinode_ok; [done|done|apply Hd].
    + intros j Hj. rewrite Hu by done. by left.
  - unfold inode_at. fold b. rewrite blocks_wr, decide_True by done. by apply Inode.get_put_dinode.
  - intros j Hj Hne. unfold inode_at. rewrite blocks_wr. case_decide as D; [|done].
    rewrite D. apply Inode.get_put_dinode_ne; [done|done|apply Inode.slot_of_lt| |apply Hd]. intros Heq. apply Hne.
    destruct (Inode.inode_block_eq sb i (io_layout _ _ Hok) Hi) as (E1 & _). destruct (Inode.inode_block_eq sb j (io_layout _ _ Hok) Hj) as (E2 & _).
    unfold b in D. rewrite E1, E2 in D. unfold Inode.slot_of, INODES_PER_BLOCK in *.
    pose proof (Z.div_mod i 7 ltac:(done)). pose proof (Z.div_mod j 7 ltac:(done)).
    pose proof (Z.mod_pos_bound i 7 ltac:(done)). pose proof (Z.mod_pos_bound j 7 ltac:(done)). lia.
  - intros x Hx. by rewrite blocks_wr, decide_False.
Qed.
End inodes.

(** ** Appending to a file of a whole image *)

(** The file system of an image: every inode describes a file, and no two share a block. *)
Record fs_ok (sb : superblock) (s : image) : Prop := {
  fo_img : img_ok sb s;
  fo_files : forall i, 0 <= i < sb_ninodes sb -> file_at sb s i;
  fo_apart : forall i j, 0 <= i < sb_ninodes sb -> 0 <= j < sb_ninodes sb -> i <> j ->
    apart (blocks s) (inode_at sb s i) (inode_at sb s j);
}.

(** The blocks that the next [n] bytes of the file [inum] may take. *)
Definition room (sb : superblock) (s : image) (inum n : Z) : Prop :=
  Inode.dsize (inode_at sb s inum) + n <= Inode.MAX_DATA_BLOCKS * Inode.BSIZE /\
  2 * Inode.nturns (Inode.dsize (inode_at sb s inum)) n <= Z.of_nat (Inode.nfree sb (blocks s)).

Section fs.
Context (sb : superblock).

(** A file [e] next to the one that changes. *)
Lemma istep_other f g d s d' s' e : istep sb f g d s d' s' -> img_ok sb s -> Inode.file_wf sb (blocks s) e -> apart (blocks s) d e ->
  (forall k, Inode.slot (blocks s') e k = Inode.slot (blocks s) e k) /\
  (forall k, (k < Inode.NSLOTS)%nat -> Inode.slot (blocks s) e k <> 0 ->
     blocks s' (Inode.slot (blocks s) e k) = blocks s (Inode.slot (blocks s) e k)) /\
  Inode.file_wf sb (blocks s') e /\ apart (blocks s') d' e.
Proof.
  intros St Hok Hw Ha.
  assert (forall k, (k < Inode.NSLOTS)%nat -> Inode.slot (blocks s) e k <> 0 -> Inode.outside sb (blocks s) d (Inode.slot (blocks s) e k)) as Ho.
  { intros k Hk Hn. split; [by apply slot_settled_img|]. intros k' Hk' Hn'. by apply Ha. }
  assert (forall k, Inode.slot (blocks s') e k = Inode.slot (blocks s) e k) as Hs.
  { intros k. unfold Inode.slot. destruct (k <? 12)%nat; [done|]. cbv zeta.
    destruct (Z.eqb_spec (Inode.addrs e !!! 11%nat) 0) as [|Hn]; [done|]. f_equal.
    apply (is_frame _ _ _ _ _ _ _ St). apply (Ho 11%nat); [unfold Inode.NSLOTS; lia|exact Hn]. }
  split; [exact Hs|]. split; [intros k Hk Hn; apply (is_frame _ _ _ _ _ _ _ St); by apply Ho|]. split.
  - destruct Hw as [W1 W2 W3]. split; [done|..].
    + intros k Hk. rewrite Hs. intros Hn. destruct (W2 k Hk Hn) as (j & J1 & J2 & J3). exists j. split; [done|]. split; [|done].
      destruct (is_frame _ _ _ _ _ _ _ St _ (Ho k Hk Hn)) as [[[_ X] _] _]. destruct (used sb (blocks s') j) eqn:Eu; [done|].
      exfalso. by apply (X j).
    + intros k k' Hk Hk'. rewrite !Hs. by apply W3.
  - intros k k' Hk Hk' Hn. rewrite Hs. destruct (Z.eq_dec (Inode.slot (blocks s) e k') 0) as [->|Hn']; [done|].
    destruct (is_frame _ _ _ _ _ _ _ St _ (Ho k' Hk' Hn')) as [[_ X] _]. by apply X.
Qed.

(** The sector of the superblock is in no part of the file system. *)
Lemma sector_one v : layout sb -> Inode.settled sb v 1 /\
  (forall i, 0 <= i < sb_ninodes sb -> Inode.GET_INODE_BLOCK_NO i sb <> 1) /\
  (forall d, Inode.file_wf sb v d -> forall k, (k < Inode.NSLOTS)%nat -> Inode.slot v d k <> 0 -> Inode.slot v d k <> 1).
Proof.
  intros Hla. pose proof Hla as [L1 L2 L3 L4 L5 L6 L7].
  assert (0 <= sb_ninodes sb / INODES_PER_BLOCK) by (apply Z.div_pos; [lia|done]).
  assert (0 <= sb_bmap_bytes sb * 8 / BITS_PER_BLOCK) by (apply Z.div_pos; [lia|done]).
  unfold Log.start_ok, Log.LOG_SIZE, Log.MAX_OPEN_BLOCKS in *.
  assert (forall i, is_data sb i -> 1 < data_block sb i /\ 1 < bmap_block sb i) as Hd.
  { intros i [Hi _]. unfold data_block, bmap_block. assert (0 <= i / BITS_PER_BLOCK) by (apply Z.div_pos; [lia|done]). lia. }
  split_and!.
  - split; intros i Hi; [|intros _]; pose proof (Hd i Hi); lia.
  - intros i Hi. destruct (Inode.inode_block_eq sb i Hla Hi) as (-> & _).
    assert (0 <= i / INODES_PER_BLOCK) by (apply Z.div_pos; [lia|done]). lia.
  - intros d Hw k Hk Hn. destruct (Inode.fw_data _ _ _ Hw k Hk Hn) as (m & M1 & M2 & ->). pose proof (Hd m M1). lia.
Qed.

Lemma frange_written v' d' v d off (src : list Z) : 0 <= off ->
  (forall k, 0 <= k < off + Z.of_nat (length src) -> Inode.fbyte v' d' k =
     if decide (off <= k < off + Z.of_nat (length src)) then src !!! Z.to_nat (k - off) else Inode.fbyte v d k) ->
  Inode.frange v' d' 0 (off + Z.of_nat (length src)) = Inode.frange v d 0 off ++ src.
Proof.
  intros Ho H. rewrite Inode.frange_app by lia. f_equal.
  - apply Inode.frange_ext. intros k Hk. rewrite H by lia. by rewrite decide_False by lia.
  - apply list_eq. intros j. destruct (decide (j < length src)%nat) as [Hj|Hj].
    + rewrite Inode.frange_lookup by lia. rewrite H by lia. rewrite decide_True by lia.
      replace (Z.to_nat (0 + off + Z.of_nat j - off)) with j by lia. by rewrite list_lookup_lookup_total_lt.
    + rewrite !lookup_ge_None_2; [done|lia|rewrite Inode.frange_length; lia].
Qed.

Lemma iappend_run s inum src : fs_ok sb s -> 0 <= inum < sb_ninodes sb -> bytes src -> room sb s inum (Z.of_nat (length src)) ->
  let d := inode_at sb s inum in
  let t := Inode.nturns (Inode.dsize d) (Z.of_nat (length src)) in
  exists d1 s1 g s', iappend sb inum src s = Ok (tt, s') /\ istep sb (2 * Z.to_nat t) g d s d1 s1 /\
    (forall k, 0 <= k < Inode.MAX_DATA_BLOCKS * Inode.BSIZE -> Inode.fbyte (blocks s1) d1 k =
       if decide (Inode.dsize d <= k < Inode.dsize d + Z.of_nat (length src)) then src !!! Z.to_nat (k - Inode.dsize d)
       else Inode.fbyte (blocks s) d k) /\
    all_there (blocks s1) (Inode.set_dsize (Inode.dsize d + Z.of_nat (length src)) d1) /\
    img_ok sb s' /\ inode_at sb s' inum = Inode.set_dsize (Inode.dsize d + Z.of_nat (length src)) d1 /\
    (forall j, 0 <= j < sb_ninodes sb -> j <> inum -> inode_at sb s' j = inode_at sb s j) /\
    (forall x, x <> Inode.GET_INODE_BLOCK_NO inum sb -> blocks s' x = blocks s1 x) /\
    (forall j, is_data sb j -> used sb (blocks s') j = used sb (blocks s1) j) /\ Inode.dinode_ok (inode_at sb s' inum).
Proof.
  intros Hfs Hi Hb [R1 R2] d t. pose proof (fo_img _ _ Hfs) as Hok. destruct (fo_files _ _ Hfs inum Hi) as [_ Hw Hdo Hsz Hth]. fold d in Hw, Hdo, Hsz, Hth, R1, R2.
  destruct (iappend_loop_img sb (S (length src)) d s (Inode.dsize d) src Hok Hw ltac:(lia) Hb ltac:(lia) R1 R2) as (d1 & s1 & g & E1 & S1 & F1 & T1).
  pose proof (is_fields _ _ _ _ _ _ _ S1) as (M1 & M2 & M3 & M4 & M5).
  assert (Inode.dinode_ok (Inode.set_dsize (Inode.dsize d + Z.of_nat (length src)) d1)) as Hd1.
  { destruct Hdo as [D1 D2 D3 D4 D5 D6]. split; cbn [Inode.set_dsize Inode.type Inode.nlink Inode.dsize Inode.major Inode.minor Inode.addrs].
    - by rewrite M1. - by rewrite M2.
    - unfold Inode.MAX_DATA_BLOCKS, Inode.NDIRECT_DATA_BLOCKS, Inode.NINDIRECT_DATA_BLOCKS, Inode.BSIZE in *. unfold is_u32. lia.
    - by rewrite M4. - by rewrite M5.
    - apply (Inode.wf_addrs sb (blocks s1)); [apply Hok|apply S1]. }
  destruct (iwrite_img sb s1 inum _ (is_ok _ _ _ _ _ _ _ S1) Hi Hd1) as (s' & E2 & O2 & I2 & J2 & X2 & U2).
  exists d1, s1, g, s'. split; [|split; [exact S1|split; [exact F1|split]]].
  - unfold iappend. rewrite (bind_Ok _ _ _ _ _ (iread_img sb s inum Hok Hi)). fold d.
    rewrite (bind_Ok _ _ _ _ _ E1). exact E2.
  - intros bn Hb0 Hb1. cbn [Inode.set_dsize Inode.dsize] in Hb1. change (Inode.slot (blocks s1) d1 (Inode.bslot bn) <> 0).
    destruct (decide (bn * Inode.BSIZE < Inode.dsize d)) as [Hlt|Hge].
    + destruct (Inode.bslot_lt bn) as [Hk _]; [unfold Inode.BSIZE in *; lia|].
      rewrite (is_mono _ _ _ _ _ _ _ S1) by (done || by apply Hth). by apply Hth.
    + unfold Inode.BSIZE in *. apply T1; lia.
  - split; [exact O2|]. split; [exact I2|]. split; [|split; [exact X2|split; [exact U2|by rewrite I2]]].
    intros j Hj Hne. rewrite J2 by done. unfold inode_at. f_equal.
    destruct (iblock_pos sb s j Hok Hj) as (_ & _ & _ & Y1 & Y2). apply (is_frame _ _ _ _ _ _ _ S1).
    split; [apply Y1|]. intros k Hk Hn. by apply (Y2 (blocks s) d Hw).
Qed.

Lemma iappend_fs s inum src : fs_ok sb s -> 0 <= inum < sb_ninodes sb -> bytes src -> room sb s inum (Z.of_nat (length src)) ->
  exists s', iappend sb inum src s = Ok (tt, s') /\ fs_ok sb s' /\
    contents sb s' inum = contents sb s inum ++ src /\
    Inode.dsize (inode_at sb s' inum) = Inode.dsize (inode_at sb s inum) + Z.of_nat (length src) /\
    Inode.type (inode_at sb s' inum) = Inode.type (inode_at sb s inum) /\
    Inode.nlink (inode_at sb s' inum) = Inode.nlink (inode_at sb s inum) /\
    (forall j, 0 <= j < sb_ninodes sb -> j <> inum -> inode_at sb s' j = inode_at sb s j /\ contents sb s' j = contents sb s j) /\
    Z.of_nat (Inode.nfree sb (blocks s)) <=
      Z.of_nat (Inode.nfree sb (blocks s')) + 2 * Inode.nturns (Inode.dsize (inode_at sb s inum)) (Z.of_nat (length src)) /\
    blocks s' 1 = blocks s 1.
Proof.
  intros Hfs Hi Hb Hr. destruct (iappend_run s inum src Hfs Hi Hb Hr) as (d1 & s1 & g & s' & E & S1 & F1 & Hthere & O2 & I2 & J2 & X2 & U2 & D2).
  pose proof (fo_img _ _ Hfs) as Hok. destruct (fo_files _ _ Hfs inum Hi) as [_ Hw _ Hsz _]. destruct Hr as [R1 _].
  set (d := inode_at sb s inum) in *. pose proof (is_fields _ _ _ _ _ _ _ S1) as (M1 & M2 & _).
  (* from [s1] to [s'] *)
  destruct (iblock_pos sb s inum Hok Hi) as (_ & _ & _ & _ & Y).
  assert (forall e, Inode.file_wf sb (blocks s1) e -> (forall k, Inode.slot (blocks s') e k = Inode.slot (blocks s1) e k) /\
    Inode.file_wf sb (blocks s') e /\ forall bn, 0 <= bn < Inode.MAX_DATA_BLOCKS -> Inode.fblock (blocks s') e bn = Inode.fblock (blocks s1) e bn) as K.
  { intros e He. assert (forall k, Inode.slot (blocks s') e k = Inode.slot (blocks s1) e k) as Hs.
    { intros k. apply (slot_wr _ _ _ _ _ X2). intros Hn. apply (Y _ _ He); [unfold Inode.NSLOTS; lia|done]. }
    split; [exact Hs|]. split.
    - apply (file_wf_ext sb (blocks s1)); [exact Hs| |exact He]. intros j Hj. by rewrite U2.
    - intros bn Hbn. apply fblock_ext; [done|exact Hs|]. intros k Hk Hn. apply X2. by apply (Y _ _ He). }
  assert (forall j, 0 <= j < sb_ninodes sb -> j <> inum -> (forall k, Inode.slot (blocks s') (inode_at sb s j) k = Inode.slot (blocks s) (inode_at sb s j) k) /\
    Inode.file_wf sb (blocks s') (inode_at sb s j) /\ apart (blocks s1) d1 (inode_at sb s j) /\ contents sb s' j = contents sb s j) as O.
  { intros j Hj Hne. pose proof (fa_wf _ _ _ (fo_files _ _ Hfs j Hj)) as Hwj.
    destruct (istep_other _ _ _ _ _ _ _ S1 Hok Hwj (fo_apart _ _ Hfs inum j Hi Hj (not_eq_sym Hne))) as (T1 & T2 & T3 & T4).
    destruct (K _ T3) as (V1 & V2 & V3). split; [intros k; by rewrite V1|]. split; [done|]. split; [done|].
    unfold contents. rewrite J2 by done. apply Inode.frange_ext. intros k Hk. apply Inode.fbyte_ext.
    pose proof (fa_size _ _ _ (fo_files _ _ Hfs j Hj)) as Hszj. pose proof (Inode.block_range k ltac:(lia)) as Hbr.
    rewrite V3 by done. by apply fblock_ext. }
  destruct (K d1 (is_wf _ _ _ _ _ _ _ S1)) as (V1 & V2 & V3).
  assert (forall k, Inode.slot (blocks s') (inode_at sb s' inum) k = Inode.slot (blocks s1) d1 k) as Vs by (intros k; rewrite I2; apply V1).
  exists s'. split; [exact E|]. rewrite I2. cbn [Inode.set_dsize Inode.dsize Inode.type Inode.nlink].
  split_and!; [| |done|exact M1|exact M2| | |].
  - split; [done|..].
    + intros j Hj. destruct (decide (j = inum)) as [->|Hne].
      * split; [done| |exact D2|rewrite I2; cbn [Inode.set_dsize Inode.dsize]; lia|].
        -- rewrite I2. destruct V2 as [W1 W2 W3]. split; [exact W1|exact W2|exact W3].
        -- intros bn Hb0 Hb1. rewrite Vs. rewrite I2 in Hb1. by apply (Hthere bn).
      * destruct (fo_files _ _ Hfs j Hj) as [_ _ Q1 Q2 Q3]. destruct (O j Hj Hne) as (O1 & O2' & _). split; rewrite ?J2 by done; try done.
        intros bn Hb0 Hb1. rewrite O1. by apply Q3.
    + intros i j Hi' Hj Hne k k' Hk Hk'. destruct (decide (i = inum)) as [->|Hni].
      * destruct (O j Hj (not_eq_sym Hne)) as (O1 & _ & O3 & _). rewrite Vs, J2 by done. rewrite O1. intros Hn.
        destruct (istep_other _ _ _ _ _ _ _ S1 Hok (fa_wf _ _ _ (fo_files _ _ Hfs j Hj)) (fo_apart _ _ Hfs inum j Hi Hj Hne)) as (T1 & _).
        rewrite <- T1. by apply O3.
      * destruct (O i Hi' Hni) as (O1 & _ & O3 & _). rewrite (J2 i) by done. rewrite O1. intros Hn. destruct (decide (j = inum)) as [->|Hnj].
        -- rewrite Vs. destruct (Z.eq_dec (Inode.slot (blocks s1) d1 k') 0) as [->|Hn']; [done|]. apply not_eq_sym.
           destruct (istep_other _ _ _ _ _ _ _ S1 Hok (fa_wf _ _ _ (fo_files _ _ Hfs i Hi')) (fo_apart _ _ Hfs inum i Hi Hi' (not_eq_sym Hni))) as (T1 & _).
           rewrite <- T1. by apply O3.
        -- destruct (O j Hj Hnj) as (O1' & _). rewrite (J2 j) by done. rewrite O1'. by apply (fo_apart _ _ Hfs i j).
  - unfold contents. rewrite I2. cbn [Inode.set_dsize Inode.dsize]. fold d. apply frange_written; [lia|]. intros k Hk.
    rewrite <- F1 by lia. apply Inode.fbyte_ext. rewrite <- V3; [done|]. apply Inode.block_range. lia.
  - intros j Hj Hne. split; [by apply J2|by apply O].
  - rewrite (Inode.nfree_ext sb (blocks s1) (blocks s') U2). pose proof (is_free _ _ _ _ _ _ _ S1).
    pose proof (Inode.nturns_nonneg (Inode.dsize d) (Z.of_nat (length src))). lia.
  - destruct (sector_one (blocks s) (io_layout _ _ Hok)) as (G1 & G2 & G3). rewrite X2 by (apply not_eq_sym; by apply G2).
    apply (is_frame _ _ _ _ _ _ _ S1). split; [exact G1|]. by apply G3.
Qed.
End fs.

(** ** Making files *)

Section making.
Context (sb : superblock).

(** Every inode and file but those of [l] is as before, and so is the superblock. *)
Definition kept (l : list Z) (s s' : image) : Prop :=
  (forall j, 0 <= j < sb_ninodes sb -> j ∉ l -> inode_at sb s' j = inode_at sb s j /\ contents sb s' j = contents sb s j) /\
  blocks s' 1 = blocks s 1.

Lemma kept_trans l1 l2 l s1 s2 s3 : kept l1 s1 s2 -> kept l2 s2 s3 -> l1 ⊆ l -> l2 ⊆ l -> kept l s1 s3.
Proof.
  intros [K1 E1] [K2 E2] H1 H2. split; [|congruence]. intros j Hj Hn.
  destruct (K1 j Hj ltac:(set_solver)) as [A1 A2]. destruct (K2 j Hj ltac:(set_solver)) as [B1 B2]. split; congruence.
Qed.

Lemma apart_sym v d e : apart v d e -> apart v e d.
Proof. intros H k k' Hk Hk' Hn Heq. apply (H k' k Hk' Hk); congruence. Qed.

(** [iwrite] of an inode whose blocks no other file has. *)
Lemma iwrite_fs s i d : fs_ok sb s -> 0 <= i < sb_ninodes sb -> Inode.dinode_ok d ->
  0 <= Inode.dsize d <= Inode.MAX_DATA_BLOCKS * Inode.BSIZE -> Inode.file_wf sb (blocks s) d -> all_there (blocks s) d ->
  (forall j, 0 <= j < sb_ninodes sb -> j <> i -> apart (blocks s) d (inode_at sb s j)) ->
  exists s', iwrite sb d i s = Ok (tt, s') /\ fs_ok sb s' /\ inode_at sb s' i = d /\
    contents sb s' i = Inode.frange (blocks s) d 0 (Inode.dsize d) /\ kept [i] s s' /\
    Inode.nfree sb (blocks s') = Inode.nfree sb (blocks s).
Proof.
  intros Hfs Hi Hd Hsz Hw Hth Ha. pose proof (fo_img _ _ Hfs) as Hok.
  destruct (iwrite_img sb s i d Hok Hi Hd) as (s' & E & O & I & J & X & U).
  destruct (iblock_pos sb s i Hok Hi) as (_ & _ & _ & _ & Y).
  assert (forall e, Inode.file_wf sb (blocks s) e -> (forall k, Inode.slot (blocks s') e k = Inode.slot (blocks s) e k) /\
    Inode.file_wf sb (blocks s') e /\ forall n, n <= Inode.MAX_DATA_BLOCKS * Inode.BSIZE ->
      Inode.frange (blocks s') e 0 n = Inode.frange (blocks s) e 0 n) as K.
  { intros e He. assert (forall k, Inode.slot (blocks s') e k = Inode.slot (blocks s) e k) as Hs.
    { intros k. apply (slot_wr _ _ _ _ _ X). intros Hn. apply (Y _ _ He); [unfold Inode.NSLOTS; lia|done]. }
    split; [exact Hs|]. split.
    - apply (file_wf_ext sb (blocks s)); [exact Hs| |exact He]. intros j Hj. by rewrite U.
    - intros n Hn. apply Inode.frange_ext. intros k Hk. apply Inode.fbyte_ext, fblock_ext.
      + apply Inode.block_range. lia.
      + exact Hs.
      + intros q Hq Hnq. apply X. by apply (Y _ _ He). }
  assert (forall j, 0 <= j < sb_ninodes sb -> exists e, inode_at sb s' j = e /\ Inode.file_wf sb (blocks s) e /\
    (j = i -> e = d) /\ (j <> i -> e = inode_at sb s j)) as W.
  { intros j Hj. destruct (decide (j = i)) as [->|Hne]; [exists d; done|].
    exists (inode_at sb s j). split_and!; [by apply J|apply (fo_files _ _ Hfs j Hj)|done|done]. }
  exists s'. split_and!; [exact E| |exact I| | |by apply Inode.nfree_ext].
  - split; [done|..].
    + intros j Hj. destruct (W j Hj) as (e & Ee & We & E1 & E2). split; rewrite ?Ee; [done|by apply K|..].
      * destruct (decide (j = i)) as [Hji|Hne]; [by rewrite E1|rewrite E2 by done; apply (fo_files _ _ Hfs j Hj)].
      * destruct (decide (j = i)) as [Hji|Hne]; [by rewrite E1|rewrite E2 by done; apply (fo_files _ _ Hfs j Hj)].
      * intros bn Hb0 Hb1. rewrite (proj1 (K e We)). revert bn Hb0 Hb1.
        destruct (decide (j = i)) as [Hji|Hne]; [by rewrite E1|rewrite E2 by done; apply (fo_files _ _ Hfs j Hj)].
    + intros a b Hia Hib Hne. destruct (W a Hia) as (e & Ee & We & E1 & E2). destruct (W b Hib) as (e' & Ee' & We' & E1' & E2').
      intros k k' Hk Hk'. rewrite Ee, Ee'. rewrite (proj1 (K e We)), (proj1 (K e' We')). revert k k' Hk Hk'.
      change (apart (blocks s) e e'). destruct (decide (a = i)) as [->|Hna].
      * rewrite E1, E2' by done. apply Ha; done.
      * rewrite E2 by done. destruct (decide (b = i)) as [->|Hnb]; [rewrite E1' by done; apply apart_sym, Ha; done|].
        rewrite E2' by done. by apply (fo_apart _ _ Hfs).
  - unfold contents. rewrite I. apply K; [done|lia].
  - split.
    + intros j Hj Hne. assert (j <> i) as Hji by set_solver. split; [by apply J|]. unfold contents. rewrite J by done.
      apply K; [apply (fo_files _ _ Hfs j Hj)|]. apply (fo_files _ _ Hfs j Hj).
    + apply X, not_eq_sym. by apply (sector_one sb (blocks s) (io_layout _ _ Hok)).
Qed.

(** An inode without blocks. *)
Lemma empty_wf v t n ma mi : Inode.file_wf sb v (Inode.Dinode t n 0 ma mi (replicate 12 0)) /\
  forall e, apart v (Inode.Dinode t n 0 ma mi (replicate 12 0)) e.
Proof.
  assert (forall k, Inode.slot v (Inode.Dinode t n 0 ma mi (replicate 12 0)) k = 0) as H.
  { intros k. unfold Inode.slot. cbn [Inode.addrs]. destruct (Nat.ltb_spec k 12); [|done]. by rewrite lookup_total_replicate_2. }
  split; [split; [done| |]|]; [intros k _ Hn|intros k k' _ _ Hn|intros e k k' _ _ Hn]; by rewrite H in Hn.
Qed.

Lemma empty_there v t n ma mi : all_there v (Inode.Dinode t n 0 ma mi (replicate 12 0)).
Proof. intros bn Hb0 Hb1. unfold Inode.BSIZE in Hb1. cbn [Inode.dsize] in Hb1. lia. Qed.

Lemma empty_ok t n ma mi : is_u32 t -> is_u32 n -> is_i32 ma -> is_i32 mi -> Inode.dinode_ok (Inode.Dinode t n 0 ma mi (replicate 12 0)).
Proof. intros H1 H2 H3 H4. split; try done. split; [|done]. apply Forall_replicate. done. Qed.

Lemma ialloc_loop_fs s t j : fs_ok sb s -> 0 < j < sb_ninodes sb -> is_u32 t ->
  Inode.type (inode_at sb s j) = Inode.INODE_NONE ->
  (forall i, 0 < i < j -> Inode.type (inode_at sb s i) <> Inode.INODE_NONE) ->
  forall n i, 0 < i <= j -> j - i < Z.of_nat n ->
  exists s', ialloc_loop sb n i t s = Ok (j, s') /\ fs_ok sb s' /\ inode_at sb s' j = Inode.Dinode t 0 0 0 0 (replicate 12 0) /\
    kept [j] s s' /\ Inode.nfree sb (blocks s') = Inode.nfree sb (blocks s).
Proof.
  intros Hfs Hj Ht Hfree Hlt. induction n as [|n IH]; intros i Hi Hn; [lia|]. cbn [ialloc_loop].
  rewrite (bind_Ok _ _ _ _ _ (iread_img sb s i (fo_img _ _ Hfs) ltac:(lia))). destruct (decide (i = j)) as [->|Hne].
  - rewrite Hfree, Z.eqb_refl. destruct (empty_wf (blocks s) t 0 0 0) as [Hw Ha].
    destruct (iwrite_fs s j (Inode.Dinode t 0 0 0 0 (replicate 12 0)) Hfs ltac:(lia)) as (s' & E & F & I & C & K & N); [by apply empty_ok|done|done|apply empty_there|done|].
    rewrite (bind_Ok _ _ _ _ _ E). by exists s'.
  - rewrite (proj2 (Z.eqb_neq _ _)) by (apply Hlt; lia). apply IH; lia.
Qed.

(** The contents of the directory entry that [dir_link] appends. *)
Definition entry (junk name : list Z) (inum : Z) : list Z :=
  Dir.enc_dirent (Dir.Dirent inum (splice 0 (name ++ [0]) junk)).

Lemma entry_ok junk name inum : length junk = 60%nat -> bytes junk -> (length name < 60)%nat -> bytes name ->
  length (entry junk name inum) = 64%nat /\ bytes (entry junk name inum).
Proof.
  intros H1 H2 H3 H4. split.
  - apply Dir.length_enc_dirent. cbn [Dir.d_name]. rewrite length_splice; [done|]. rewrite length_app. simpl. lia.
  - unfold entry, Dir.enc_dirent. apply Forall_app. split; [apply bytes_enc32|]. apply bytes_splice; [|done].
    apply Forall_app. split; [done|]. by repeat constructor.
Qed.

End making.

(** ** A fresh image *)

Lemma bit_set_zero b : (b < 4096)%nat -> bit_set zero_block b = false.
Proof.
  intros Hb. rewrite bit_set_testbit. unfold zero_block. rewrite lookup_total_replicate_2; [apply Z.bits_0|].
  unfold BLOCK_SIZE. apply Nat.Div0.div_lt_upper_bound. lia.
Qed.

Lemma get_dinode_zero sl : Inode.get_dinode zero_block sl = Inode.Dinode 0 0 0 0 0 (replicate 12 0).
Proof.
  unfold Inode.get_dinode. rewrite (map_ext _ (fun _ => 0)) by (intros; apply Inode.get32_zero). done.
Qed.

(** An image that is zero from sector 2 on is an empty file system: every inode and every
    data block is free. *)
Lemma fresh_fs_ok n sb s : layout_spec n sb -> sector_cnt s = n -> n + 2 < 2 ^ 22 -> block_ok (blocks s 0) -> block_ok (blocks s 1) ->
  (forall x, x <> 0 -> x <> 1 -> blocks s x = zero_block) ->
  fs_ok sb s /\ (forall i, 0 <= i < sb_ninodes sb -> inode_at sb s i = Inode.Dinode 0 0 0 0 0 (replicate 12 0)) /\
  (forall i, is_data sb i -> used sb (blocks s) i = false).
Proof.
  intros L Hn Hsmall H0 H1 Hz. pose proof L as [Hla _ _ _ _ L1 L2 L3]. pose proof Hla as [A1 A2 A3 A4 A5 A6 A7].
  assert (forall i, is_data sb i -> 1 < bmap_block sb i < sb_bdata_start sb) as Hbm.
  { intros i [Hi1 Hi2]. rewrite bmap_bits_eq in Hi2 by done. unfold bmap_block.
    assert (i / BITS_PER_BLOCK <= sb_bmap_bytes sb * 8 / BITS_PER_BLOCK) by (apply Z.div_le_mono; [done|lia]).
    assert (0 <= i / BITS_PER_BLOCK) by (apply Z.div_pos; [lia|done]).
    unfold Log.start_ok, Log.LOG_SIZE, Log.MAX_OPEN_BLOCKS, INODES_PER_BLOCK in *. assert (0 <= sb_ninodes sb / 7) by (apply Z.div_pos; lia). lia. }
  assert (forall i, is_data sb i -> used sb (blocks s) i = false) as Hu.
  { intros i Hi. unfold used. pose proof (Hbm i Hi). rewrite Hz by lia. apply bit_set_zero.
    unfold bmap_bit, BITS_PER_BLOCK. pose proof (Z.mod_pos_bound i 4096 ltac:(done)). lia. }
  assert (forall i, 0 <= i < sb_ninodes sb -> 1 < Inode.GET_INODE_BLOCK_NO i sb < n) as Hib.
  { intros i Hi. destruct (Inode.inode_block_eq sb i Hla Hi) as (-> & _).
    assert (i / INODES_PER_BLOCK <= sb_ninodes sb / INODES_PER_BLOCK) by (apply Z.div_le_mono; [done|lia]).
    assert (0 <= i / INODES_PER_BLOCK) by (apply Z.div_pos; [lia|done]).
    assert (0 <= sb_bmap_bytes sb * 8 / BITS_PER_BLOCK) by (apply Z.div_pos; [lia|done]).
    unfold Log.LOG_SIZE, Log.MAX_OPEN_BLOCKS in *. lia. }
  assert (forall i, 0 <= i < sb_ninodes sb -> inode_at sb s i = Inode.Dinode 0 0 0 0 0 (replicate 12 0)) as Hin.
  { intros i Hi. unfold inode_at. pose proof (Hib i Hi). rewrite Hz by lia. apply get_dinode_zero. }
  destruct (empty_wf sb (blocks s) 0 0 0 0) as [Hw Ha].
  split; [|done]. split.
  - split; [done|..].
    + intros x. destruct (Z.eq_dec x 0) as [->|]; [done|]. destruct (Z.eq_dec x 1) as [->|]; [done|].
      rewrite Hz by done. apply zero_block_ok.
    + unfold SECTOR_SIZE. lia.
    + intros i Hi. pose proof (Hbm i Hi). lia.
    + intros i Hi. pose proof (Hib i Hi). lia.
    + intros i Hi. by rewrite Hu.
  - intros i Hi. split; rewrite ?Hin by done; [done|done|by apply empty_ok|done|apply empty_there].
  - intros i j Hi Hj _. rewrite !Hin by done. apply Ha.
Qed.

(** ** Building the files *)

Section building.
Context (sb : superblock) (junk : list Z) (Hjl : length junk = 60%nat) (Hjb : bytes junk).
Notation kept := (kept sb).

(** The inodes below [n] are taken, the others are free. *)
Record built (s : image) (n : Z) : Prop := {
  bu_fs : fs_ok sb s;
  bu_n : 0 < n <= sb_ninodes sb;
  bu_used : forall i, 0 < i < n -> Inode.type (inode_at sb s i) <> Inode.INODE_NONE;
  bu_free : forall i, n <= i < sb_ninodes sb -> Inode.type (inode_at sb s i) = Inode.INODE_NONE;
}.

(** [src] was appended to the file [i], which took at most [f] blocks. *)
Record grown (f i : Z) (src : list Z) (s s' : image) : Prop := {
  gr_fs : fs_ok sb s';
  gr_contents : contents sb s' i = contents sb s i ++ src;
  gr_size : Inode.dsize (inode_at sb s' i) = Inode.dsize (inode_at sb s i) + Z.of_nat (length src);
  gr_type : Inode.type (inode_at sb s' i) = Inode.type (inode_at sb s i);
  gr_kept : kept [i] s s';
  gr_free : Z.of_nat (Inode.nfree sb (blocks s)) <= Z.of_nat (Inode.nfree sb (blocks s')) + f;
}.

Lemma not_in_one (i j : Z) : i <> j -> i ∉ [j].
Proof. intros H. apply not_elem_of_cons. split; [done|apply not_elem_of_nil]. Qed.

Lemma grown_other f i src s s' j : grown f i src s s' -> 0 <= j < sb_ninodes sb -> j <> i ->
  inode_at sb s' j = inode_at sb s j /\ contents sb s' j = contents sb s j.
Proof. intros G Hj Hne. apply (gr_kept _ _ _ _ _ G); [done|by apply not_in_one]. Qed.

Lemma built_grown f i src s s' n : built s n -> grown f i src s s' -> built s' n.
Proof.
  intros [B1 B2 B3 B4] G.
  assert (forall j, 0 <= j < sb_ninodes sb -> Inode.type (inode_at sb s' j) = Inode.type (inode_at sb s j)) as Ht.
  { intros j Hj. destruct (decide (j = i)) as [->|Hne]; [apply G|]. by destruct (grown_other _ _ _ _ _ _ G Hj Hne) as [-> _]. }
  split; [apply G|done|..].
  - intros j Hj. rewrite Ht by lia. by apply B3.
  - intros j Hj. rewrite Ht by lia. by apply B4.
Qed.

(** The inodes below [n] have links, at most [m]. *)
Definition linked (n m : Z) (s : image) : Prop := forall i, 0 < i < n -> 0 < Inode.nlink (inode_at sb s i) <= m.

Lemma linked_grown f i src s s' n m : n <= sb_ninodes sb -> grown f i src s s' ->
  Inode.nlink (inode_at sb s' i) = Inode.nlink (inode_at sb s i) -> linked n m s -> linked n m s'.
Proof.
  intros Hn G E L j Hj. destruct (decide (j = i)) as [->|Hne]; [rewrite E; by apply L|].
  destruct (grown_other _ _ _ _ _ j G ltac:(lia) Hne) as [-> _]. by apply L.
Qed.

Lemma linked_more f i src s s' n m : n <= sb_ninodes sb -> m + 1 < 2 ^ 32 -> grown f i src s s' ->
  Inode.nlink (inode_at sb s' i) = u32 (Inode.nlink (inode_at sb s i) + 1) -> linked n m s -> linked n (m + 1) s'.
Proof.
  intros Hn Hm G E L j Hj. pose proof (L j Hj) as Lj. destruct (decide (j = i)) as [->|Hne]; [rewrite E, u32_small by (unfold is_u32; lia); lia|].
  destruct (grown_other _ _ _ _ _ j G ltac:(lia) Hne) as [-> _]. lia.
Qed.

Lemma linked_new s s' j m : j < sb_ninodes sb -> 1 <= m -> kept [j] s s' -> Inode.nlink (inode_at sb s' j) = 1 -> linked j m s -> linked (j + 1) m s'.
Proof.
  intros Hj Hm [K _] E L i Hi. destruct (decide (i = j)) as [->|Hne]; [rewrite E; lia|].
  destruct (K i ltac:(lia) (not_in_one i j Hne)) as [-> _]. apply L. lia.
Qed.

Lemma linked_weaken n m m' s : m <= m' -> linked n m s -> linked n m' s.
Proof. intros Hm L i Hi. specialize (L i Hi). lia. Qed.

Lemma append_grown s i src : fs_ok sb s -> 0 <= i < sb_ninodes sb -> bytes src ->
  Inode.dsize (inode_at sb s i) + Z.of_nat (length src) <= Inode.MAX_DATA_BLOCKS * Inode.BSIZE ->
  2 * Inode.nturns (Inode.dsize (inode_at sb s i)) (Z.of_nat (length src)) <= Z.of_nat (Inode.nfree sb (blocks s)) ->
  exists s', iappend sb i src s = Ok (tt, s') /\
    grown (2 * Inode.nturns (Inode.dsize (inode_at sb s i)) (Z.of_nat (length src))) i src s s' /\
    Inode.nlink (inode_at sb s' i) = Inode.nlink (inode_at sb s i).
Proof.
  intros Hfs Hi Hb R1 R2. destruct (iappend_fs sb s i src Hfs Hi Hb (conj R1 R2)) as (s' & E & F & C & D & Y & L & K & N & W).
  exists s'. split; [exact E|]. split; [|exact L]. split; try done. split; [|exact W].
  intros j Hj Hn. apply K; [done|]. intros ->. apply Hn. apply list_elem_of_here.
Qed.

Lemma nturns_entry d : Inode.nturns d 64 <= 2.
Proof.
  unfold Inode.nturns. simpl. pose proof (Z.mod_pos_bound d Inode.BSIZE ltac:(done)).
  assert ((d mod Inode.BSIZE + 64 - 1) / Inode.BSIZE <= 1); [|lia].
  apply Z.lt_succ_r, Z.div_lt_upper_bound; [done|]. unfold Inode.BSIZE in *. lia.
Qed.

Lemma link_grown s p name c : fs_ok sb s -> 0 <= p < sb_ninodes sb -> bytes name -> (length name < 60)%nat ->
  Inode.dsize (inode_at sb s p) + 64 <= Inode.MAX_DATA_BLOCKS * Inode.BSIZE -> 4 <= Z.of_nat (Inode.nfree sb (blocks s)) ->
  exists s', dir_link sb junk p name c s = Ok (tt, s') /\ grown 4 p (entry junk name c) s s' /\
    Inode.nlink (inode_at sb s' p) = Inode.nlink (inode_at sb s p).
Proof.
  intros Hfs Hp Hb Hl Hsz Hn. destruct (entry_ok junk name c Hjl Hjb Hl Hb) as [El Eb].
  pose proof (nturns_entry (Inode.dsize (inode_at sb s p))) as Ht.
  destruct (append_grown s p (entry junk name c) Hfs Hp Eb) as (s' & E & [G1 G2 G3 G4 G5 G6] & L);
    rewrite ?El; change (Z.of_nat 64) with 64 in *; [lia|lia|].
  exists s'. split; [|split; [|exact L]].
  - unfold dir_link. rewrite (proj2 (Z.leb_gt _ _)) by (unfold Dir.DIRENT_NAME_LENGTH; lia). exact E.
  - rewrite El in G6. change (Z.of_nat 64) with 64 in G6. split; try done. lia.
Qed.

(** The inode of a new file, before it is linked. *)
Lemma create_start s j ma mi t : built s j -> j < sb_ninodes sb -> is_u32 t -> t <> Inode.INODE_NONE -> is_i32 ma -> is_i32 mi ->
  exists s1 s2, ialloc sb t s = Ok (j, s1) /\ iread sb j s1 = Ok (Inode.Dinode t 0 0 0 0 (replicate 12 0), s1) /\
    iwrite sb (Inode.Dinode t 1 0 ma mi (replicate 12 0)) j s1 = Ok (tt, s2) /\ built s2 (j + 1) /\
    inode_at sb s2 j = Inode.Dinode t 1 0 ma mi (replicate 12 0) /\ contents sb s2 j = [] /\ kept [j] s s2 /\
    Inode.nfree sb (blocks s2) = Inode.nfree sb (blocks s).
Proof.
  intros [B1 B2 B3 B4] Hj Ht Htn Hma Hmi.
  destruct (ialloc_loop_fs sb s t j B1 ltac:(lia) Ht (B4 j ltac:(lia)) B3 (Z.to_nat (sb_ninodes sb - 1)) 1 ltac:(lia) ltac:(lia))
    as (s1 & E1 & F1 & I1 & K1 & N1).
  destruct (empty_wf sb (blocks s1) t 1 ma mi) as [Hw Ha].
  destruct (iwrite_fs sb s1 j (Inode.Dinode t 1 0 ma mi (replicate 12 0)) F1 ltac:(lia)) as (s2 & E2 & F2 & I2 & C2 & K2 & N2);
    [by apply empty_ok|done|done|apply empty_there|done|].
  pose proof (kept_trans sb [j] [j] [j] s s1 s2 K1 K2 ltac:(done) ltac:(done)) as K. exists s1, s2.
  split; [exact E1|]. split; [rewrite (iread_img sb s1 j (fo_img _ _ F1) ltac:(lia)), I1; done|]. split; [exact E2|]. split.
  - split; [exact F2|lia|..]; intros i Hi.
    + destruct (decide (i = j)) as [->|Hne]; [by rewrite I2|]. destruct K as [K _].
      destruct (K i ltac:(lia) (not_in_one _ _ Hne)) as [-> _]. apply B3. lia.
    + destruct K as [K _]. destruct (K i ltac:(lia) (not_in_one i j ltac:(lia))) as [-> _]. apply B4. lia.
  - split; [exact I2|]. split; [rewrite C2; done|]. split; [exact K|congruence].
Qed.

(** A regular file or a device in the directory [p]. *)
Lemma create_file_plain s j p ma mi t name : built s j -> j < sb_ninodes sb -> 0 < p < j -> is_u32 t -> t <> Inode.INODE_NONE ->
  t <> Inode.INODE_DIRECTORY -> is_i32 ma -> is_i32 mi -> bytes name -> (length name < 60)%nat ->
  Inode.dsize (inode_at sb s p) + 64 <= Inode.MAX_DATA_BLOCKS * Inode.BSIZE -> 4 <= Z.of_nat (Inode.nfree sb (blocks s)) ->
  exists s2 s', create_file sb junk ma mi t p name s = Ok (j, s') /\ built s' (j + 1) /\ kept [j] s s2 /\
    grown 4 p (entry junk name j) s2 s' /\ Inode.nfree sb (blocks s2) = Inode.nfree sb (blocks s) /\
    inode_at sb s' j = Inode.Dinode t 1 0 ma mi (replicate 12 0) /\ contents sb s' j = [] /\
    (forall m, 1 <= m -> linked j m s -> linked (j + 1) m s').
Proof.
  intros B Hj Hp Ht Htn Htd Hma Hmi Hb Hl Hsz Hn.
  destruct (create_start s j ma mi t B Hj Ht Htn Hma Hmi) as (s1 & s2 & E1 & E2 & E3 & B2 & I2 & C2 & K2 & N2).
  destruct (proj1 K2 p ltac:(lia) (not_in_one p j ltac:(lia))) as [Ip Cp].
  destruct (link_grown s2 p name j (bu_fs _ _ B2) ltac:(lia) Hb Hl ltac:(by rewrite Ip) ltac:(by rewrite N2)) as (s3 & E4 & G & L4).
  destruct (grown_other _ _ _ _ _ j G ltac:(lia) ltac:(lia)) as [Ij Cj].
  exists s2, s3. split; [|split; [by eapply built_grown|split; [done|split; [done|split; [done|split; [congruence|split; [congruence|]]]]]]].
  2: { intros m Hm L. eapply linked_grown; [lia|exact G|exact L4|]. eapply linked_new; [done|done|exact K2|by rewrite I2|done]. }
  unfold create_file. rewrite (bind_Ok _ _ _ _ _ E1), (bind_Ok _ _ _ _ _ E2). cbn [Inode.type Inode.addrs].
  rewrite (bind_Ok _ _ _ _ _ E3). rewrite (proj2 (Z.eqb_neq p 0)) by lia. cbn [negb]. rewrite (bind_Ok _ _ _ _ _ E4).
  rewrite (proj2 (Z.eqb_neq t _)) by done. done.
Qed.

(** [nlink] of a directory goes up. *)
Lemma nlink_grown s p : fs_ok sb s -> 0 <= p < sb_ninodes sb ->
  exists s', iwrite sb (Inode.set_nlink (u32 (Inode.nlink (inode_at sb s p) + 1)) (inode_at sb s p)) p s = Ok (tt, s') /\ grown 0 p [] s s' /\
    Inode.nlink (inode_at sb s' p) = u32 (Inode.nlink (inode_at sb s p) + 1).
Proof.
  intros Hfs Hp. destruct (fo_files _ _ Hfs p Hp) as [_ Hw Hd Hsz Hth]. set (d := inode_at sb s p) in *.
  destruct (iwrite_fs sb s p (Inode.set_nlink (u32 (Inode.nlink d + 1)) d) Hfs Hp) as (s' & E & F & I & C & K & N).
  - destruct Hd as [D1 D2 D3 D4 D5 D6]. split; try done. apply u32_range.
  - exact Hsz.
  - destruct Hw as [W1 W2 W3]. split; [exact W1|exact W2|exact W3].
  - exact Hth.
  - intros j Hj Hne. exact (fo_apart _ _ Hfs p j Hp Hj (not_eq_sym Hne)).
  - exists s'. split; [exact E|]. split; [|by rewrite I]. split; try done.
    + rewrite C, app_nil_r. done.
    + rewrite I. cbn. fold d. lia.
    + rewrite I. done.
    + rewrite N. lia.
Qed.

(** The inode [j] was made in the directory [p], with type [t], contents [c] and the entry [e],
    and took at most [f] blocks. *)
Record made (f p j : Z) (e : list Z) (t : Z) (c : list Z) (s s' : image) : Prop := {
  md_built : built s' (j + 1);
  md_entry : contents sb s' p = contents sb s p ++ e;
  md_psize : Inode.dsize (inode_at sb s' p) = Inode.dsize (inode_at sb s p) + 64;
  md_ptype : Inode.type (inode_at sb s' p) = Inode.type (inode_at sb s p);
  md_type : Inode.type (inode_at sb s' j) = t;
  md_contents : contents sb s' j = c;
  md_size : Inode.dsize (inode_at sb s' j) = Z.of_nat (length c);
  md_other : forall i, 0 <= i < sb_ninodes sb -> i <> j -> i <> p ->
    inode_at sb s' i = inode_at sb s i /\ contents sb s' i = contents sb s i;
  md_super : blocks s' 1 = blocks s 1;
  md_free : Z.of_nat (Inode.nfree sb (blocks s)) <= Z.of_nat (Inode.nfree sb (blocks s')) + f;
  md_links : forall m, 1 <= m -> m + 1 < 2 ^ 32 -> linked j m s -> linked (j + 1) (m + 1) s';
}.

(** The new file grows. *)
Lemma made_grown f g p j e t c src s s1 s2 : 0 <= j < sb_ninodes sb -> 0 <= p < sb_ninodes sb -> p <> j ->
  made f p j e t c s s1 -> grown g j src s1 s2 -> Inode.nlink (inode_at sb s2 j) = Inode.nlink (inode_at sb s1 j) ->
  made (f + g) p j e t (c ++ src) s s2.
Proof.
  intros Hj Hp Hpj [M1 M2 M3 M4 M5 M6 M7 M8 M9 M10 M11] G Lj.
  destruct (grown_other _ _ _ _ _ p G Hp Hpj) as [Ip Cp]. pose proof G as [G1 G2 G3 G4 [_ G5] G6].
  split; [by eapply built_grown| | | | | | | | |lia|]; try congruence.
  - rewrite G3, M7, length_app. lia.
  - intros i Hi Hij Hip. destruct (grown_other _ _ _ _ _ i G Hi Hij) as [-> ->]. by apply M8.
  - intros m Hm1 Hm2 L. eapply linked_grown; [|exact G|exact Lj|by apply M11]. lia.
Qed.

Lemma create_plain_made s j p ma mi t name : built s j -> j < sb_ninodes sb -> 0 < p < j -> is_u32 t -> t <> Inode.INODE_NONE ->
  t <> Inode.INODE_DIRECTORY -> is_i32 ma -> is_i32 mi -> bytes name -> (length name < 60)%nat ->
  Inode.dsize (inode_at sb s p) + 64 <= Inode.MAX_DATA_BLOCKS * Inode.BSIZE -> 4 <= Z.of_nat (Inode.nfree sb (blocks s)) ->
  exists s', create_file sb junk ma mi t p name s = Ok (j, s') /\ made 4 p j (entry junk name j) t [] s s'.
Proof.
  intros B Hj Hp Ht Htn Htd Hma Hmi Hb Hl Hsz Hn.
  destruct (create_file_plain s j p ma mi t name B Hj Hp Ht Htn Htd Hma Hmi Hb Hl Hsz Hn) as (s2 & s' & E & B' & [K2 W2] & G & N & I & C & L).
  destruct (K2 p ltac:(lia) (not_in_one p j ltac:(lia))) as [Ip Cp]. destruct (entry_ok junk name j Hjl Hjb Hl Hb) as [El _].
  pose proof G as [G1 G2 G3 G4 [_ G5] G6]. rewrite El in G3. exists s'. split; [exact E|].
  split; [done| | | | |done| | | | |]; try congruence.
  - rewrite G3, Ip. done.
  - rewrite I. done.
  - rewrite I. done.
  - intros i Hi Hij Hip. destruct (grown_other _ _ _ _ _ i G Hi Hip) as [-> ->]. apply K2; [done|by apply not_in_one].
  - intros m Hm1 _ Lm. eapply linked_weaken; [|by apply L]. lia.
Qed.

(** [write_to_fsfile]. *)
Lemma file_made s j p host path c name : built s j -> j < sb_ninodes sb -> 0 < p < j -> host path = Some c -> c <> [] -> bytes c ->
  bytes name -> (length name < 60)%nat -> Z.of_nat (length c) <= Inode.MAX_DATA_BLOCKS * Inode.BSIZE ->
  Inode.dsize (inode_at sb s p) + 64 <= Inode.MAX_DATA_BLOCKS * Inode.BSIZE ->
  4 + 2 * Inode.nturns 0 (Z.of_nat (length c)) <= Z.of_nat (Inode.nfree sb (blocks s)) ->
  exists s', write_to_fsfile sb host junk p path name s = Ok (tt, s') /\
    made (4 + 2 * Inode.nturns 0 (Z.of_nat (length c))) p j (entry junk name j) Inode.INODE_FILE c s s'.
Proof.
  intros B Hj Hp Hhost Hne Hcb Hb Hl Hlc Hsz Hn. pose proof (Inode.nturns_nonneg 0 (Z.of_nat (length c))).
  destruct (create_plain_made s j p 0 0 Inode.INODE_FILE name B Hj Hp) as (s1 & E1 & M1); try done; [lia|].
  pose proof (md_size _ _ _ _ _ _ _ _ M1) as Hs1. change (Z.of_nat (length [])) with 0 in Hs1. pose proof (md_free _ _ _ _ _ _ _ _ M1) as Hf1.
  destruct (append_grown s1 j c (bu_fs _ _ (md_built _ _ _ _ _ _ _ _ M1)) ltac:(lia) Hcb) as (s2 & E2 & G2 & L2);
    [rewrite Hs1; lia|rewrite Hs1; lia|]. rewrite Hs1 in G2.
  exists s2. split.
  - unfold write_to_fsfile, fs_mkfile. rewrite Hhost. destruct c as [|x c]; [done|]. rewrite (bind_Ok _ _ _ _ _ E1). exact E2.
  - change c with ([] ++ c) at 2. eapply made_grown; [lia|lia|lia|exact M1|exact G2|exact L2].
Qed.

(** [dir_make] on the new directory [j]. *)
Lemma dir_make_grown s j p : fs_ok sb s -> 0 <= j < sb_ninodes sb -> 0 <= p < sb_ninodes sb ->
  Inode.dsize (inode_at sb s j) = 0 -> 8 <= Z.of_nat (Inode.nfree sb (blocks s)) ->
  exists s1 s2, dir_make sb junk p j s = Ok (tt, s2) /\ grown 8 j (entry junk [46] j ++ entry junk [46; 46] p) s s1 /\ grown 0 p [] s1 s2 /\
    Inode.nlink (inode_at sb s1 j) = Inode.nlink (inode_at sb s j) /\ Inode.nlink (inode_at sb s2 p) = u32 (Inode.nlink (inode_at sb s1 p) + 1).
Proof.
  intros Hfs Hj Hp Hz Hn. unfold Inode.MAX_DATA_BLOCKS, Inode.NDIRECT_DATA_BLOCKS, Inode.NINDIRECT_DATA_BLOCKS, Inode.BSIZE in *.
  destruct (link_grown s j [46] j Hfs Hj) as (s1 & E1 & G1 & L1); [by repeat constructor|simpl; lia|rewrite Hz; done|lia|].
  pose proof G1 as [A1 A2 A3 A4 A5 A6]. destruct (entry_ok junk [46] j Hjl Hjb ltac:(simpl; lia) ltac:(by repeat constructor)) as [El1 _].
  rewrite El1, Hz in A3.
  destruct (link_grown s1 j [46; 46] p A1 Hj) as (s2 & E2 & G2 & L2); [by repeat constructor|simpl; lia|rewrite A3; done|lia|].
  pose proof G2 as [B1 B2 B3 B4 B5 B6]. destruct (nlink_grown s2 p B1 Hp) as (s3 & E3 & G3 & L3).
  exists s2, s3. split; [|split; [|split; [exact G3|split; [congruence|exact L3]]]].
  - unfold dir_make. rewrite (bind_Ok _ _ _ _ _ E1), (bind_Ok _ _ _ _ _ E2).
    rewrite (bind_Ok _ _ _ _ _ (iread_img sb s2 p (fo_img _ _ B1) Hp)). exact E3.
  - split; [done| | | | |lia].
    + by rewrite B2, A2, app_assoc.
    + rewrite B3, A3, Hz, length_app, El1. lia.
    + congruence.
    + eapply kept_trans; [exact A5|exact B5|done|done].
Qed.

(** [fs_mkdir] in the directory [p]. *)
Lemma mkdir_made s j p name : built s j -> j < sb_ninodes sb -> 0 < p < j -> bytes name -> (length name < 60)%nat ->
  Inode.dsize (inode_at sb s p) + 64 <= Inode.MAX_DATA_BLOCKS * Inode.BSIZE -> 12 <= Z.of_nat (Inode.nfree sb (blocks s)) ->
  exists s', fs_mkdir sb junk p name s = Ok (j, s') /\
    made 12 p j (entry junk name j) Inode.INODE_DIRECTORY (entry junk [46] j ++ entry junk [46; 46] p) s s'.
Proof.
  intros B Hj Hp Hb Hl Hsz Hn.
  destruct (create_start s j 0 0 Inode.INODE_DIRECTORY B Hj) as (s1 & s2 & E1 & E2 & E3 & B2 & I2 & C2 & K2' & N2); try done.
  pose proof K2' as [K2 W2]. destruct (K2 p ltac:(lia) (not_in_one p j ltac:(lia))) as [Ip Cp].
  destruct (link_grown s2 p name j (bu_fs _ _ B2) ltac:(lia) Hb Hl ltac:(by rewrite Ip) ltac:(rewrite N2; lia)) as (s3 & E4 & G & L4).
  destruct (grown_other _ _ _ _ _ j G ltac:(lia) ltac:(lia)) as [Ij Cj]. pose proof G as [G1 G2 G3 G4 [_ G5] G6].
  destruct (entry_ok junk name j Hjl Hjb Hl Hb) as [El _]. rewrite El in G3.
  assert (forall m, 1 <= m -> linked j m s -> linked (j + 1) m s3) as L3.
  { intros m Hm L. eapply linked_grown; [|exact G|exact L4|]; [lia|]. eapply linked_new; [done|done|exact K2'|by rewrite I2|done]. }
  assert (made 4 p j (entry junk name j) Inode.INODE_DIRECTORY [] s s3) as M.
  { split; [by eapply built_grown| | | | | | | | | |]; try congruence.
    - rewrite G3, Ip. done.
    - rewrite Ij, I2. done.
    - rewrite Ij, I2. done.
    - intros i Hi Hij Hip. destruct (grown_other _ _ _ _ _ i G Hi Hip) as [-> ->]. apply K2; [done|by apply not_in_one].
    - intros m Hm _ L. eapply linked_weaken; [|by apply L3]. lia. }
  rewrite N2 in G6. destruct (dir_make_grown s3 j p G1 ltac:(lia) ltac:(lia)) as (s4 & s5 & E5 & H4 & H5 & Lj & Lp);
    [rewrite Ij, I2; done|lia|].
  exists s5. split.
  - unfold fs_mkdir, create_file. rewrite (bind_Ok _ _ _ _ _ E1), (bind_Ok _ _ _ _ _ E2). cbn [Inode.type Inode.addrs].
    rewrite (bind_Ok _ _ _ _ _ E3). rewrite (proj2 (Z.eqb_neq p 0)) by lia. cbn [negb]. rewrite (bind_Ok _ _ _ _ _ E4).
    rewrite Z.eqb_refl. rewrite (bind_Ok _ _ _ _ _ E5). done.
  - pose proof (made_grown 4 8 p j _ _ _ _ s s3 s4 ltac:(lia) ltac:(lia) ltac:(lia) M H4 Lj) as M4. cbn [app] in M4.
    destruct M4 as [Q1 Q2 Q3 Q4 Q5 Q6 Q7 Q8 Q9 Q10 _]. destruct (grown_other _ _ _ _ _ j H5 ltac:(lia) ltac:(lia)) as [Ij' Cj'].
    pose proof H5 as [R1 R2 R3 R4 [_ R5] R6]. rewrite app_nil_r in R2.
    split; [by eapply built_grown| | | | | | | | |lia|]; try congruence.
    + rewrite R3, Q3. simpl. lia.
    + intros i Hi Hij Hip. destruct (grown_other _ _ _ _ _ i H5 Hi Hip) as [-> ->]. by apply Q8.
    + intros m Hm1 Hm2 L. eapply linked_more; [|done|exact H5|exact Lp|]; [lia|]. eapply linked_grown; [|exact H4|exact Lj|by apply L3]. lia.
Qed.

(** The root directory: its parent is itself. *)
Lemma root_made s : built s 1 -> 1 < sb_ninodes sb -> 8 <= Z.of_nat (Inode.nfree sb (blocks s)) ->
  exists s', create_root_file sb junk s = Ok (1, s') /\ built s' 2 /\ Inode.type (inode_at sb s' 1) = Inode.INODE_DIRECTORY /\
    contents sb s' 1 = entry junk [46] 1 ++ entry junk [46; 46] 1 /\ Inode.dsize (inode_at sb s' 1) = 128 /\
    blocks s' 1 = blocks s 1 /\ Z.of_nat (Inode.nfree sb (blocks s)) <= Z.of_nat (Inode.nfree sb (blocks s')) + 8 /\ linked 2 2 s'.
Proof.
  intros B Hj Hn.
  destruct (create_start s 1 0 0 Inode.INODE_DIRECTORY B Hj) as (s1 & s2 & E1 & E2 & E3 & B2 & I2 & C2 & K2 & N2); try done. pose proof K2 as [_ W2].
  destruct (dir_make_grown s2 1 1 (bu_fs _ _ B2) ltac:(lia) ltac:(lia)) as (s4 & s5 & E5 & H4 & H5 & Lj & Lp);
    [rewrite I2; done|rewrite N2; lia|].
  pose proof H4 as [G1 G2 G3 G4 [_ G5] G6]. pose proof H5 as [R1 R2 R3 R4 [_ R5] R6].
  exists s5. split; [|split_and!].
  - unfold create_root_file, fs_mkdir, create_file.
    assert (forall (x : M image Z) (y : Z -> M image Z), x s = Ok (1, s5) -> (z ← x; y z) s = y 1 s5) as Hx by (intros x y Ex; by rewrite (bind_Ok _ _ _ _ _ Ex)).
    rewrite Hx; [done|]. rewrite (bind_Ok _ _ _ _ _ E1), (bind_Ok _ _ _ _ _ E2). cbn [Inode.type Inode.addrs].
    rewrite (bind_Ok _ _ _ _ _ E3). cbn [negb Z.eqb]. rewrite (bind_Ok _ _ _ tt s2) by done.
    rewrite Z.eqb_refl. rewrite (bind_Ok _ _ _ _ _ E5). done.
  - eapply built_grown; [eapply built_grown; [exact B2|exact H4]|exact H5].
  - rewrite R4, G4, I2. done.
  - rewrite R2, G2, C2, app_nil_r. done.
  - rewrite R3, G3, I2. cbn [Inode.dsize]. rewrite length_app.
    rewrite (proj1 (entry_ok junk [46] 1 Hjl Hjb ltac:(simpl; lia) ltac:(by repeat constructor))).
    rewrite (proj1 (entry_ok junk [46; 46] 1 Hjl Hjb ltac:(simpl; lia) ltac:(by repeat constructor))). done.
  - congruence.
  - rewrite <- N2. lia.
  - change 2 with (1 + 1) at 2. eapply linked_more; [|done|exact H5|exact Lp|]; [lia|]. eapply linked_grown; [|exact H4|exact Lj|]; [lia|].
    change 2 with (1 + 1). eapply linked_new; [done|done|exact K2|by rewrite I2|]. intros i Hi. lia.
Qed.

(** A file of the host that fits, with a name that fits. *)
Definition host_file (host : list Z -> option (list Z)) (path name : list Z) : Prop :=
  exists c, host path = Some c /\ c <> [] /\ bytes c /\ Z.of_nat (length c) <= Inode.MAX_DATA_BLOCKS * Inode.BSIZE /\
    bytes name /\ (length name < 60)%nat.

(** The blocks it may take, with its directory entry. *)
Definition file_blocks (host : list Z -> option (list Z)) (path : list Z) : Z :=
  4 + 2 * Inode.nturns 0 (Z.of_nat (length (default [] (host path)))).

Definition files_blocks (host : list Z -> option (list Z)) (l : list (list Z)) : Z := fold_right (fun p n => file_blocks host p + n) 0 l.

Lemma file_blocks_pos host p : 4 <= file_blocks host p.
Proof. unfold file_blocks. pose proof (Inode.nturns_nonneg 0 (Z.of_nat (length (default [] (host p))))). lia. Qed.

Lemma files_blocks_nonneg host l : 0 <= files_blocks host l.
Proof. induction l as [|p l IH]; [done|]. cbn. pose proof (file_blocks_pos host p). unfold files_blocks in IH. lia. Qed.

(** The loop over the binary files, in the directory [p]. *)
Lemma binfiles_made host p : forall l s j, built s j -> 0 < p < j -> j + Z.of_nat (length l) <= sb_ninodes sb ->
  Inode.dsize (inode_at sb s p) + 64 * Z.of_nat (length l) <= Inode.MAX_DATA_BLOCKS * Inode.BSIZE ->
  Forall (fun path => host_file host path (nameptr path)) l -> files_blocks host l <= Z.of_nat (Inode.nfree sb (blocks s)) ->
  exists s', write_binfiles sb host junk p l s = Ok (tt, s') /\ built s' (j + Z.of_nat (length l)) /\
    contents sb s' p = contents sb s p ++ concat (imap (fun k path => entry junk (nameptr path) (j + Z.of_nat k)) l) /\
    Inode.type (inode_at sb s' p) = Inode.type (inode_at sb s p) /\
    (forall k path, l !! k = Some path -> Inode.type (inode_at sb s' (j + Z.of_nat k)) = Inode.INODE_FILE /\
       host path = Some (contents sb s' (j + Z.of_nat k))) /\
    (forall i, 0 <= i < j -> i <> p -> inode_at sb s' i = inode_at sb s i /\ contents sb s' i = contents sb s i) /\
    blocks s' 1 = blocks s 1 /\
    (forall m, 1 <= m -> m + Z.of_nat (length l) < 2 ^ 32 -> linked j m s -> linked (j + Z.of_nat (length l)) (m + Z.of_nat (length l)) s').
Proof.
  induction l as [|path l IH]; intros s j B Hp Hj Hsz Hg Hn.
  { exists s. rewrite Z.add_0_r. rewrite app_nil_r. split_and!; try done. intros m _ _. by rewrite Z.add_0_r. }
  apply Forall_cons in Hg as [(c & H1 & H2 & H3 & H4 & H5 & H6) Hg]. cbn [length] in Hj, Hsz. rewrite Nat2Z.inj_succ in Hj, Hsz.
  change (files_blocks host (path :: l)) with (file_blocks host path + files_blocks host l) in Hn. pose proof (files_blocks_nonneg host l) as Hnn.
  unfold file_blocks in Hn. rewrite H1 in Hn. cbn [default] in Hn. unfold id in Hn.
  destruct (file_made s j p host path c (nameptr path) B ltac:(lia) Hp H1 H2 H3 H5 H6 H4 ltac:(lia) ltac:(lia)) as (s1 & E1 & M).
  pose proof M as [M1 M2 M3 M4 M5 M6 M7 M8 M9 M10 M11].
  destruct (IH s1 (j + 1) M1 ltac:(lia) ltac:(lia) ltac:(lia) Hg ltac:(lia)) as (s2 & E2 & B2 & C2 & T2 & F2 & K2 & W2 & L2).
  exists s2. split; [|split_and!].
  - cbn [write_binfiles]. rewrite (bind_Ok _ _ _ _ _ E1). exact E2.
  - cbn [length]. rewrite Nat2Z.inj_succ. by replace (j + Z.succ (Z.of_nat (length l))) with (j + 1 + Z.of_nat (length l)) by lia.
  - rewrite C2, M2. cbn [imap concat]. rewrite Z.add_0_r, <- app_assoc. do 3 f_equal. apply imap_ext. intros k x _.
    unfold compose. by replace (j + Z.of_nat (S k)) with (j + 1 + Z.of_nat k) by lia.
  - congruence.
  - intros [|k] x Hx.
    + injection Hx as <-. rewrite Z.add_0_r. destruct (K2 j ltac:(lia) ltac:(lia)) as [-> ->]. rewrite M5, M6. done.
    + replace (j + Z.of_nat (S k)) with (j + 1 + Z.of_nat k) by lia. by apply F2.
  - intros i Hi Hip. destruct (K2 i ltac:(lia) Hip) as [-> ->]. apply M8; lia.
  - congruence.
  - intros m Hm1 Hm2 L. cbn [length] in Hm2 |- *. rewrite Nat2Z.inj_succ in Hm2 |- *.
    replace (j + Z.succ (Z.of_nat (length l))) with (j + 1 + Z.of_nat (length l)) by lia.
    replace (m + Z.succ (Z.of_nat (length l))) with (m + 1 + Z.of_nat (length l)) by lia. apply L2; [lia|lia|]. apply M11; [lia|lia|done].
Qed.

(** ** The whole tree *)

(** The entries of a directory. *)
Definition entries (l : list (list Z * Z)) : list Z := concat (map (fun x => entry junk (fst x) (snd x)) l).

Definition n_dot : list Z := [46].
Definition n_dotdot : list Z := [46; 46].
Definition n_bin : list Z := [98; 105; 110].
Definition n_dev : list Z := [100; 101; 118].
Definition n_etc : list Z := [101; 116; 99].
Definition n_home : list Z := [104; 111; 109; 101].
Definition n_console : list Z := [99; 111; 110; 115; 111; 108; 101].
Definition n_initsh : list Z := [105; 110; 105; 116; 46; 115; 104].

(** A directory with these entries. *)
Definition directory (s : image) (i : Z) (l : list (list Z * Z)) : Prop :=
  Inode.type (inode_at sb s i) = Inode.INODE_DIRECTORY /\ contents sb s i = entries l.

(** The directories and the console, before the files of the host. *)
Record base (s : image) : Prop := {
  ba_built : built s 7;
  ba_root : directory s 1 [(n_dot, 1); (n_dotdot, 1); (n_bin, 2); (n_dev, 3); (n_etc, 4); (n_home, 5)];
  ba_bin : directory s 2 [(n_dot, 2); (n_dotdot, 1)];
  ba_dev : directory s 3 [(n_dot, 3); (n_dotdot, 1); (n_console, 6)];
  ba_etc : directory s 4 [(n_dot, 4); (n_dotdot, 1)];
  ba_home : directory s 5 [(n_dot, 5); (n_dotdot, 1)];
  ba_console : Inode.type (inode_at sb s 6) = Inode.INODE_DEVICE;
  ba_sizes : Inode.dsize (inode_at sb s 2) = 128 /\ Inode.dsize (inode_at sb s 4) = 128;
  ba_links : linked 7 7 s;
}.

Lemma entries_snoc l name i : entries (l ++ [(name, i)]) = entries l ++ entry junk name i.
Proof. unfold entries. rewrite map_app, concat_app. cbn [map concat fst snd]. by rewrite app_nil_r. Qed.

Lemma made_keep f p j e t c s s' i l : made f p j e t c s s' -> 0 <= i < sb_ninodes sb -> i <> j -> i <> p ->
  directory s i l -> directory s' i l.
Proof. intros M Hi Hij Hip [D1 D2]. destruct (md_other _ _ _ _ _ _ _ _ M i Hi Hij Hip) as [E1 E2]. split; congruence. Qed.

Lemma made_add f p j name t c s s' l : made f p j (entry junk name j) t c s s' -> directory s p l -> directory s' p (l ++ [(name, j)]).
Proof.
  intros M [D1 D2]. split; [rewrite (md_ptype _ _ _ _ _ _ _ _ M); exact D1|].
  by rewrite (md_entry _ _ _ _ _ _ _ _ M), D2, entries_snoc.
Qed.

Lemma made_new f p j e s s' : made f p j e Inode.INODE_DIRECTORY (entry junk [46] j ++ entry junk [46; 46] p) s s' ->
  directory s' j [(n_dot, j); (n_dotdot, p)] /\ Inode.dsize (inode_at sb s' j) = 128.
Proof.
  intros M. split; [split|].
  - apply (md_type _ _ _ _ _ _ _ _ M).
  - rewrite (md_contents _ _ _ _ _ _ _ _ M). unfold entries. cbn [map concat fst snd]. by rewrite app_nil_r.
  - rewrite (md_size _ _ _ _ _ _ _ _ M), length_app.
    rewrite (proj1 (entry_ok junk [46] j Hjl Hjb ltac:(simpl; lia) ltac:(by repeat constructor))).
    by rewrite (proj1 (entry_ok junk [46; 46] p Hjl Hjb ltac:(simpl; lia) ltac:(by repeat constructor))).
Qed.

(** The next directory below the root, whose size is [z]. *)
Lemma mkdir_root s j z name : built s j -> 1 < j < sb_ninodes sb -> Inode.dsize (inode_at sb s 1) = z -> z + 64 <= 1024 ->
  bytes name -> (length name < 60)%nat -> 12 <= Z.of_nat (Inode.nfree sb (blocks s)) ->
  exists s', fs_mkdir sb junk 1 name s = Ok (j, s') /\
    made 12 1 j (entry junk name j) Inode.INODE_DIRECTORY (entry junk [46] j ++ entry junk [46; 46] 1) s s' /\
    Inode.dsize (inode_at sb s' 1) = z + 64.
Proof.
  intros B Hj Hz Hle Hb Hl Hn. destruct (mkdir_made s j 1 name B ltac:(lia) ltac:(lia) Hb Hl) as (s' & E & M).
  - rewrite Hz. unfold Inode.MAX_DATA_BLOCKS, Inode.NDIRECT_DATA_BLOCKS, Inode.NINDIRECT_DATA_BLOCKS, Inode.BSIZE. lia.
  - lia.
  - exists s'. split; [exact E|]. split; [exact M|]. rewrite (md_psize _ _ _ _ _ _ _ _ M). lia.
Qed.

Lemma base_made s : built s 1 -> 7 < sb_ninodes sb -> 60 <= Z.of_nat (Inode.nfree sb (blocks s)) ->
  exists s', (forall A (k : Z -> Z -> M image A),
      (root ← create_root_file sb junk;
       bindir ← fs_mkdir sb junk root n_bin;
       devdir ← fs_mkdir sb junk root n_dev;
       etcdir ← fs_mkdir sb junk root n_etc;
       fs_mkdir sb junk root n_home;;
       fs_mkdev sb junk 1 0 devdir n_console;;
       k bindir etcdir) s = k 2 4 s') /\
    base s' /\ blocks s' 1 = blocks s 1 /\ Z.of_nat (Inode.nfree sb (blocks s)) <= Z.of_nat (Inode.nfree sb (blocks s')) + 60.
Proof.
  intros B Hi Hn.
  destruct (root_made s B ltac:(lia) ltac:(lia)) as (s1 & E1 & B1 & T1 & C1 & Z1 & W1 & N1 & L1).
  assert (directory s1 1 [(n_dot, 1); (n_dotdot, 1)]) as R1.
  { split; [exact T1|]. rewrite C1. unfold entries. cbn [map concat fst snd]. by rewrite app_nil_r. }
  destruct (mkdir_root s1 2 128 n_bin B1 ltac:(lia) Z1 ltac:(lia) ltac:(by repeat constructor) ltac:(simpl; lia) ltac:(lia)) as (s2 & E2 & M2 & Z2).
  pose proof (made_add _ _ _ _ _ _ _ _ _ M2 R1) as R2. destruct (made_new _ _ _ _ _ _ M2) as [D2 X2]. pose proof (md_free _ _ _ _ _ _ _ _ M2) as N2.
  destruct (mkdir_root s2 3 192 n_dev (md_built _ _ _ _ _ _ _ _ M2) ltac:(lia) Z2 ltac:(lia) ltac:(by repeat constructor) ltac:(simpl; lia) ltac:(lia))
    as (s3 & E3 & M3 & Z3).
  pose proof (made_add _ _ _ _ _ _ _ _ _ M3 R2) as R3. destruct (made_new _ _ _ _ _ _ M3) as [D3 X3]. pose proof (md_free _ _ _ _ _ _ _ _ M3) as N3.
  destruct (mkdir_root s3 4 256 n_etc (md_built _ _ _ _ _ _ _ _ M3) ltac:(lia) Z3 ltac:(lia) ltac:(by repeat constructor) ltac:(simpl; lia) ltac:(lia))
    as (s4 & E4 & M4 & Z4).
  pose proof (made_add _ _ _ _ _ _ _ _ _ M4 R3) as R4. destruct (made_new _ _ _ _ _ _ M4) as [D4 X4]. pose proof (md_free _ _ _ _ _ _ _ _ M4) as N4.
  destruct (mkdir_root s4 5 320 n_home (md_built _ _ _ _ _ _ _ _ M4) ltac:(lia) Z4 ltac:(lia) ltac:(by repeat constructor) ltac:(simpl; lia) ltac:(lia))
    as (s5 & E5 & M5 & Z5).
  pose proof (made_add _ _ _ _ _ _ _ _ _ M5 R4) as R5. destruct (made_new _ _ _ _ _ _ M5) as [D5 X5]. pose proof (md_free _ _ _ _ _ _ _ _ M5) as N5.
  assert (Inode.dsize (inode_at sb s5 3) = 128) as X3'.
  { destruct (md_other _ _ _ _ _ _ _ _ M5 3 ltac:(lia) ltac:(lia) ltac:(lia)) as [-> _].
    destruct (md_other _ _ _ _ _ _ _ _ M4 3 ltac:(lia) ltac:(lia) ltac:(lia)) as [-> _]. exact X3. }
  destruct (create_plain_made s5 6 3 1 0 Inode.INODE_DEVICE n_console (md_built _ _ _ _ _ _ _ _ M5)) as (s6 & E6 & M6);
    [lia|lia|done|done|done|done|done|by repeat constructor|simpl; lia|by rewrite X3'|lia|].
  pose proof (md_free _ _ _ _ _ _ _ _ M6) as N6. exists s6. split; [|split; [|split]].
  - intros A k. rewrite (bind_Ok _ _ _ _ _ E1), (bind_Ok _ _ _ _ _ E2), (bind_Ok _ _ _ _ _ E3), (bind_Ok _ _ _ _ _ E4), (bind_Ok _ _ _ _ _ E5).
    unfold fs_mkdev. rewrite (bind_Ok _ _ _ _ _ E6). done.
  - split.
    + exact (md_built _ _ _ _ _ _ _ _ M6).
    + eapply made_keep; [exact M6|lia|lia|lia|exact R5].
    + eapply made_keep; [exact M6|lia..|]. eapply made_keep; [exact M5|lia..|]. eapply made_keep; [exact M4|lia..|].
      eapply made_keep; [exact M3|lia..|exact D2].
    + apply (made_add _ _ _ _ _ _ _ _ [(n_dot, 3); (n_dotdot, 1)] M6). eapply made_keep; [exact M5|lia..|]. eapply made_keep; [exact M4|lia..|exact D3].
    + eapply made_keep; [exact M6|lia..|]. eapply made_keep; [exact M5|lia..|exact D4].
    + eapply made_keep; [exact M6|lia..|exact D5].
    + exact (md_type _ _ _ _ _ _ _ _ M6).
    + split.
      * destruct (md_other _ _ _ _ _ _ _ _ M6 2 ltac:(lia) ltac:(lia) ltac:(lia)) as [-> _].
        destruct (md_other _ _ _ _ _ _ _ _ M5 2 ltac:(lia) ltac:(lia) ltac:(lia)) as [-> _].
        destruct (md_other _ _ _ _ _ _ _ _ M4 2 ltac:(lia) ltac:(lia) ltac:(lia)) as [-> _].
        destruct (md_other _ _ _ _ _ _ _ _ M3 2 ltac:(lia) ltac:(lia) ltac:(lia)) as [-> _]. exact X2.
      * destruct (md_other _ _ _ _ _ _ _ _ M6 4 ltac:(lia) ltac:(lia) ltac:(lia)) as [-> _].
        destruct (md_other _ _ _ _ _ _ _ _ M5 4 ltac:(lia) ltac:(lia) ltac:(lia)) as [-> _]. exact X4.
    + apply (md_links _ _ _ _ _ _ _ _ M6 6 ltac:(lia) ltac:(lia)), (md_links _ _ _ _ _ _ _ _ M5 5 ltac:(lia) ltac:(lia)),
        (md_links _ _ _ _ _ _ _ _ M4 4 ltac:(lia) ltac:(lia)), (md_links _ _ _ _ _ _ _ _ M3 3 ltac:(lia) ltac:(lia)),
        (md_links _ _ _ _ _ _ _ _ M2 2 ltac:(lia) ltac:(lia)), L1.
  - rewrite (md_super _ _ _ _ _ _ _ _ M6), (md_super _ _ _ _ _ _ _ _ M5), (md_super _ _ _ _ _ _ _ _ M4), (md_super _ _ _ _ _ _ _ _ M3),
      (md_super _ _ _ _ _ _ _ _ M2). exact W1.
  - lia.
Qed.

(** The number of the first binary file. *)
Definition first (flags : mkfs_flags) : Z := match initsh_file flags with Some _ => 8 | None => 7 end.

Definition initsh_blocks (host : list Z -> option (list Z)) (flags : mkfs_flags) : Z :=
  match initsh_file flags with Some f => file_blocks host f | None => 0 end.

(** The files on an image. *)
Record tree (host : list Z -> option (list Z)) (flags : mkfs_flags) (s : image) : Prop := {
  tr_fs : fs_ok sb s;
  tr_root : directory s 1 [(n_dot, 1); (n_dotdot, 1); (n_bin, 2); (n_dev, 3); (n_etc, 4); (n_home, 5)];
  tr_bin : directory s 2 ([(n_dot, 2); (n_dotdot, 1)] ++ imap (fun k path => (nameptr path, first flags + Z.of_nat k)) (binfiles flags));
  tr_dev : directory s 3 [(n_dot, 3); (n_dotdot, 1); (n_console, 6)];
  tr_etc : directory s 4 ([(n_dot, 4); (n_dotdot, 1)] ++ match initsh_file flags with Some _ => [(n_initsh, 7)] | None => [] end);
  tr_home : directory s 5 [(n_dot, 5); (n_dotdot, 1)];
  tr_console : Inode.type (inode_at sb s 6) = Inode.INODE_DEVICE;
  tr_initsh : forall f, initsh_file flags = Some f -> Inode.type (inode_at sb s 7) = Inode.INODE_FILE /\ host f = Some (contents sb s 7);
  tr_files : forall k path, binfiles flags !! k = Some path ->
    Inode.type (inode_at sb s (first flags + Z.of_nat k)) = Inode.INODE_FILE /\ host path = Some (contents sb s (first flags + Z.of_nat k));
  tr_count : first flags + Z.of_nat (length (binfiles flags)) <= sb_ninodes sb;
  tr_links : linked (first flags + Z.of_nat (length (binfiles flags))) (2 ^ 32 - 1) s;
}.

(** ["/etc/init.sh"] is written, and nothing in [/bin] yet. *)
Lemma initsh_made host flags s : base s -> 8 < sb_ninodes sb ->
  (forall f, initsh_file flags = Some f -> host_file host f n_initsh) ->
  initsh_blocks host flags <= Z.of_nat (Inode.nfree sb (blocks s)) ->
  exists s', (match initsh_file flags with Some f => write_to_fsfile sb host junk 4 f n_initsh | None => mret tt end) s = Ok (tt, s') /\
    tree host (Flags (img_file flags) (initsh_file flags) []) s' /\ built s' (first flags) /\ linked (first flags) 8 s' /\ Inode.dsize (inode_at sb s' 2) = 128 /\
    blocks s' 1 = blocks s 1 /\ Z.of_nat (Inode.nfree sb (blocks s)) <= Z.of_nat (Inode.nfree sb (blocks s')) + initsh_blocks host flags.
Proof.
  intros [A1 A2 A3 A4 A5 A6 A7 [A8 A9] A10] Hi Hf Hn. unfold first, initsh_blocks in *. destruct (initsh_file flags) as [f|].
  - destruct (Hf f eq_refl) as (c & H1 & H2 & H3 & H4 & H5 & H6). unfold file_blocks in *. rewrite H1 in *. cbn [default] in *. unfold id in *.
    destruct (file_made s 7 4 host f c n_initsh A1 ltac:(lia) ltac:(lia) H1 H2 H3 H5 H6 H4) as (s' & E & M); [by rewrite A9|lia|].
    pose proof (md_links _ _ _ _ _ _ _ _ M 7 ltac:(lia) ltac:(lia) A10 : linked 8 8 s') as L8.
    exists s'. split; [exact E|]. split; [|split; [exact (md_built _ _ _ _ _ _ _ _ M)|split; [exact L8|split; [|split; [apply M|apply M]]]]].
    + split; [apply (bu_fs _ _ (md_built _ _ _ _ _ _ _ _ M))| | | | | | | |done|cbn; lia|by apply (linked_weaken _ 8)].
      * by eapply made_keep; [exact M|lia..|].
      * cbn [imap app binfiles]. by eapply made_keep; [exact M|lia..|].
      * by eapply made_keep; [exact M|lia..|].
      * by eapply made_add.
      * by eapply made_keep; [exact M|lia..|].
      * by destruct (md_other _ _ _ _ _ _ _ _ M 6 ltac:(lia) ltac:(lia) ltac:(lia)) as [-> _].
      * intros f' [= <-]. split; [apply M|]. by rewrite (md_contents _ _ _ _ _ _ _ _ M).
    + destruct (md_other _ _ _ _ _ _ _ _ M 2 ltac:(lia) ltac:(lia) ltac:(lia)) as [-> _]. exact A8.
  - exists s. split; [done|]. split; [|split_and!; [exact A1|by apply (linked_weaken _ 7)|exact A8|done|lia]]. split; try done; [apply A1|cbn; lia|by apply (linked_weaken _ 7)].
Qed.

Lemma entries_imap (l : list (list Z)) j l0 :
  entries l0 ++ concat (imap (fun k path => entry junk (nameptr path) (j + Z.of_nat k)) l) =
  entries (l0 ++ imap (fun k path => (nameptr path, j + Z.of_nat k)) l).
Proof.
  unfold entries. rewrite map_app, concat_app. f_equal. f_equal. change (map ?f ?x) with (f <$> x). rewrite fmap_imap. done.
Qed.

Lemma create_initial_files_tree host flags s : built s 1 -> first flags + Z.of_nat (length (binfiles flags)) <= sb_ninodes sb -> 8 < sb_ninodes sb ->
  128 + 64 * Z.of_nat (length (binfiles flags)) <= Inode.MAX_DATA_BLOCKS * Inode.BSIZE ->
  (forall f, initsh_file flags = Some f -> host_file host f n_initsh) -> Forall (fun path => host_file host path (nameptr path)) (binfiles flags) ->
  60 + initsh_blocks host flags + files_blocks host (binfiles flags) <= Z.of_nat (Inode.nfree sb (blocks s)) ->
  exists s', create_initial_files sb host junk flags s = Ok (tt, s') /\ tree host flags s' /\ blocks s' 1 = blocks s 1.
Proof.
  intros B Hi H8 Hd Hf Hl Hn. pose proof (files_blocks_nonneg host (binfiles flags)) as Hnn.
  assert (0 <= initsh_blocks host flags) as Hni by (unfold initsh_blocks; destruct (initsh_file flags) as [f|]; [pose proof (file_blocks_pos host f)|]; lia).
  destruct (base_made s B ltac:(lia) ltac:(lia)) as (s1 & E1 & B1 & W1 & N1).
  destruct (initsh_made host flags s1 B1 H8 Hf ltac:(lia)) as (s2 & E2 & T2 & B2 & L2 & Z2 & W2 & N2).
  assert (7 <= first flags) as Hfi by (unfold first; destruct (initsh_file flags); lia).
  destruct (binfiles_made host 2 (binfiles flags) s2 (first flags) B2 ltac:(lia) Hi ltac:(by rewrite Z2) Hl ltac:(lia))
    as (s3 & E3 & B3 & C3 & T3 & F3 & K3 & W3 & L3).
  unfold Inode.MAX_DATA_BLOCKS, Inode.NDIRECT_DATA_BLOCKS, Inode.NINDIRECT_DATA_BLOCKS, Inode.BSIZE in Hd. exists s3. split; [|split; [|congruence]].
  - unfold create_initial_files. rewrite E1. rewrite (bind_Ok _ _ _ _ _ E2). exact E3.
  - destruct T2 as [Q1 Q2 [Q3 Q3'] Q4 Q5 Q6 Q7 Q8 _ _ _]. cbn [binfiles imap initsh_file] in *. rewrite app_nil_r in Q3'.
    assert (forall i l, 0 <= i < 7 -> i <> 2 -> directory s2 i l -> directory s3 i l) as Kd.
    { intros i l Hi7 Hi2 [D1 D2]. destruct (K3 i ltac:(lia) Hi2) as [I1 I2]. split; congruence. }
    split; [apply B3|by apply Kd; [lia|lia|]| |by apply Kd; [lia|lia|]|by apply Kd; [lia|lia|]|by apply Kd; [lia|lia|]| | |exact F3|done|eapply linked_weaken; [|apply (L3 8); [lia|lia|exact L2]]; lia].
    + split; [congruence|]. by rewrite C3, Q3', entries_imap.
    + destruct (K3 6 ltac:(lia) ltac:(lia)) as [-> _]. done.
    + intros f Ef. assert (first flags = 8) as H88 by (unfold first; by rewrite Ef).
      destruct (K3 7 ltac:(lia) ltac:(lia)) as [-> ->]. by apply Q8.
Qed.
End building.

(** ** The program *)

Lemma fresh_nfree sb s : (forall i, is_data sb i -> used sb (blocks s) i = false) -> 0 <= bmap_bits sb ->
  Z.of_nat (Inode.nfree sb (blocks s)) = bmap_bits sb.
Proof.
  intros H Hn. assert (forall l : list Z, (forall i, i ∈ l -> is_data sb i) -> filter (fun i => used sb (blocks s) i = false) l = l) as Hl.
  { induction l as [|x l IH]; intros Hd; [done|]. rewrite filter_cons_True by (apply H, Hd, list_elem_of_here).
    f_equal. apply IH. intros i Hi. apply Hd. by apply list_elem_of_further. }
  unfold Inode.nfree. rewrite Hl; [rewrite length_seqZ; lia|]. intros i Hi. apply elem_of_seqZ in Hi. unfold is_data. lia.
Qed.

(** mkfs on an image that is zero after the boot sector, with files of the host that fit
    into the file system: the program ends with status 0; the kernel's [scan_fs] finds the
    superblock, whose layout fits the image; the image is a well-formed file system, with the
    root directory, [/bin], [/dev] with the console, [/etc] and [/home], all linked to each other
    by their entries; and each file given on the command line is a regular file in [/bin] under
    the last part of its path, with the bytes it has on the host. *)
Theorem main_correct host junk argv flags s file_size :
  parse_flags argv = inr flags -> length junk = 60%nat -> bytes junk ->
  file_size mod 512 = 0 -> 512 * min_sectors <= file_size -> file_size + 1024 < 2 ^ 31 ->
  block_ok (blocks s 0) -> block_ok (blocks s 1) -> get32 (blocks s 1) 0 <> SUPER_BLOCK_MAGIC ->
  (forall x, x <> 0 -> x <> 1 -> blocks s x = zero_block) ->
  (forall f, initsh_file flags = Some f -> host_file host f n_initsh) ->
  Forall (fun path => host_file host path (nameptr path)) (binfiles flags) -> (length (binfiles flags) <= 1000)%nat ->
  (forall sb, superblock_init (file_size / 512) = Some sb ->
     60 + initsh_blocks host flags + files_blocks host (binfiles flags) <= bmap_bits sb) ->
  exists sb s', main host junk argv file_size s = Ok (0, s') /\ layout_spec (file_size / 512) sb /\
    scan_fs (blocks s') = Some sb /\ tree sb junk host flags s'.
Proof.
  intros Hp Hjl Hjb Hmod Hmin Hmax H0 H1 Hm Hz Hf Hl Hlen Hroom. unfold min_sectors in Hmin.
  assert (file_size / 512 * 512 = file_size) as Hdiv by (pose proof (Z.div_mod file_size 512 ltac:(done)); lia).
  set (n := file_size / 512) in *. set (s0 := Img (sectors s) n).
  pose proof (superblock_init_spec n ltac:(lia)) as Hi. unfold min_sectors in Hi.
  assert (createfs s0 = match superblock_init n with None => Panic | Some sb => Ok (Some sb, wr 1 (put_superblock sb (blocks s 1)) s0) end) as Ec
    by (apply (createfs_run s0); [cbn; lia|exact Hm]).
  destruct (superblock_init n) as [sb|] eqn:Esb; [|lia]. destruct Hi as [_ Hi]. specialize (Hroom sb eq_refl).
  destruct (createfs_written s0 sb H1 ltac:(cbn; lia) Hi) as (W1 & W2 & W3 & W4 & W5). cbv zeta in *.
  change (blocks s0 1) with (blocks s 1) in *. set (s1 := wr 1 (put_superblock sb (blocks s 1)) s0) in *.
  destruct (fresh_fs_ok n sb s1 Hi W1 ltac:(lia)) as (F1 & I1 & U1).
  { rewrite W5 by done. exact H0. }
  { exact W2. }
  { intros x Hx0 Hx1. rewrite W5 by done. by apply Hz. }
  pose proof (ls_ninodes _ _ Hi) as Hni. unfold NFILES_PER_DISK in Hni. pose proof (ls_bits _ _ Hi) as Hbits. pose proof (ls_nblocks _ _ Hi) as Hnb.
  assert (first flags <= 8) as Hfi by (unfold first; destruct (initsh_file flags); lia).
  destruct (create_initial_files_tree sb junk Hjl Hjb host flags s1) as (s2 & E2 & T2 & V2).
  - split; [exact F1|lia|intros; lia|]. intros i Hi'. rewrite I1 by lia. done.
  - lia.
  - lia.
  - unfold Inode.MAX_DATA_BLOCKS, Inode.NDIRECT_DATA_BLOCKS, Inode.NINDIRECT_DATA_BLOCKS, Inode.BSIZE. lia.
  - exact Hf.
  - exact Hl.
  - rewrite (fresh_nfree sb s1 U1) by lia. exact Hroom.
  - exists sb, s2. split; [|split; [exact Hi|split; [|exact T2]]].
    + unfold main. rewrite Hp, Hmod. rewrite (proj2 (Z.ltb_ge _ _)) by lia. cbn [negb orb Z.eqb].
      rewrite (bind_Ok _ _ _ tt s0) by done. rewrite (bind_Ok _ _ _ _ _ Ec). rewrite (bind_Ok _ _ _ _ _ E2). done.
    + unfold scan_fs in *. by rewrite V2.
Qed.

(** A run with one program, ["b/a"]. *)
Definition demo_host (path : list Z) : option (list Z) := if bool_decide (path = [98; 47; 97]) then Some [104; 105] else None.

Definition demo_argv : list (list Z) := [[109]; opt_i; [105]; [98; 47; 97]].

Definition demo_flags : mkfs_flags := Flags (Some [105]) None [[98; 47; 97]].

Lemma main_correct_witness :
  exists sb s', main demo_host (replicate 60 0) demo_argv (512 * 3000) (Img ∅ 3000) = Ok (0, s') /\ layout_spec 3000 sb /\
    scan_fs (blocks s') = Some sb /\ tree sb (replicate 60 0) demo_host demo_flags s'.
Proof.
  change 3000 with (512 * 3000 / 512) at 3.
  apply (main_correct demo_host (replicate 60 0) demo_argv demo_flags (Img ∅ 3000) (512 * 3000)).
  - vm_compute. done.
  - done.
  - by apply Forall_replicate.
  - done.
  - done.
  - done.
  - rewrite blocks_empty. apply zero_block_ok.
  - rewrite blocks_empty. apply zero_block_ok.
  - by rewrite blocks_empty.
  - intros x _ _. apply blocks_empty.
  - done.
  - apply Forall_cons. split; [|apply Forall_nil; done]. exists [104; 105].
    split_and!; [done|done|by repeat constructor|done|by repeat constructor|vm_compute; lia].
  - simpl. lia.
  - intros sb Hs. vm_compute in Hs. injection Hs as <-. vm_compute. done.
Defined.
End Mkfs.
