(* ===== verification/Boot.v ===== *)
(** From the image to the running kernel: the files that src/mkfs puts on an image are the files
    that the kernel finds under their paths and reads.

    The theorem joins Mkfs (what the tool writes), Walk (what the path names of a drive mean and
    that [path_lookup] finds it) and Inode (reading a file). *)

From stdpp Require Import base numbers list gmap gmultiset.
From Stdlib Require Import ZArith Lia.
From S2P Require Import Prelude Semaphore BlockIO Log BAlloc Inode Dir Pathname Walk Mkfs.
#[local] Open Scope Z_scope.

Module Boot.
Import Semaphore BlockIO Log BAlloc Inode Dir Pathname Walk.

Section image.
Context (sb : superblock) (junk : list Z) (Hjl : length junk = 60%nat).

(** ** The directories of an image, as the kernel reads them *)

(** The entry that [dir_link] of the tool writes. *)
Definition image_entry (x : list Z * Z) : dirent := Dirent (snd x) (splice 0 (fst x ++ [0]) junk).

Definition entry_fits (x : list Z * Z) : Prop := (length (fst x) < 60)%nat /\ 0 ∉ fst x /\ 0 < snd x < 2 ^ 32.

Lemma length_image_entry x : entry_fits x -> length (enc_dirent (image_entry x)) = 64%nat.
Proof. intros (H & _). apply length_enc_dirent. simpl. rewrite length_splice; [done|]. rewrite length_app. simpl. lia. Qed.

Lemma decode_entries v d l : Forall entry_fits l -> forall off, 0 <= off ->
  frange v d off (64 * Z.of_nat (length l)) = Mkfs.entries junk l ->
  map (fun k => dec_dirent (frange v d (off + 64 * Z.of_nat k) 64)) (seq 0 (length l)) = map image_entry l.
Proof.
  induction 1 as [|x l Hx Hl IH]; intros off Ho E; [done|]. cbn [length] in E.
  replace (64 * Z.of_nat (S (length l))) with (64 + 64 * Z.of_nat (length l)) in E by lia. rewrite frange_app in E by lia.
  change (Mkfs.entries junk (x :: l)) with (enc_dirent (image_entry x) ++ Mkfs.entries junk l) in E.
  apply app_inj_1 in E as [E1 E2]; [|by rewrite frange_length, length_image_entry].
  cbn [length seq map]. f_equal.
  - rewrite Z.add_0_r, E1. apply dec_enc_dirent. destruct Hx as (_ & _ & ?). simpl. unfold is_u32. lia.
  - rewrite <- seq_shift, map_map. rewrite <- (IH (off + 64) ltac:(lia) E2). apply map_ext. intros k. do 2 f_equal. lia.
Qed.

Lemma length_entries l : Forall entry_fits l -> length (Mkfs.entries junk l) = (64 * length l)%nat.
Proof.
  induction 1 as [|x l Hx _ IH]; [done|]. change (Mkfs.entries junk (x :: l)) with (enc_dirent (image_entry x) ++ Mkfs.entries junk l).
  rewrite length_app, length_image_entry, IH by done. simpl. lia.
Qed.

Context (s : Mkfs.image) (Hfs : Mkfs.fs_ok sb s).
Notation v := (Mkfs.blocks s).
Notation dino := (dino sb v).

Lemma directory_size i l : 0 <= i < sb_ninodes sb -> Mkfs.directory sb junk s i l -> Forall entry_fits l -> dsize (dino i) = 64 * Z.of_nat (length l).
Proof.
  intros Hi [_ D] F. apply (f_equal length) in D. rewrite length_entries in D by done. unfold Mkfs.contents in D. rewrite frange_length in D.
  destruct (Mkfs.fo_files _ _ Hfs i Hi) as [_ _ _ S _]. change (Mkfs.inode_at sb s i) with (dino i) in *. lia.
Qed.

Lemma directory_entries i l : 0 <= i < sb_ninodes sb -> Mkfs.directory sb junk s i l -> Forall entry_fits l ->
  dir_entries v (dino i) = map image_entry l.
Proof.
  intros Hi D F. pose proof (directory_size i l Hi D F) as S. unfold dir_entries, nentries. rewrite S.
  replace (64 * Z.of_nat (length l) / DIRENT_SIZE) with (Z.of_nat (length l)) by (unfold DIRENT_SIZE; rewrite Z.mul_comm, Z.div_mul; lia).
  rewrite Nat2Z.id. rewrite <- (decode_entries v (dino i) l F 0 ltac:(lia)); [done|]. rewrite <- S. apply D.
Qed.

(** A directory whose entries are of inodes below [n] is sound. *)
Lemma directory_good i l n : 0 <= i < sb_ninodes sb -> Mkfs.directory sb junk s i l -> Forall entry_fits l ->
  Forall (fun x => snd x < n) l -> dir_good sb v (fun j => 0 < j < n) i.
Proof.
  intros Hi D F Hn. pose proof (Mkfs.fo_files _ _ Hfs i Hi) as [_ _ _ S T]. split.
  - exact S.
  - rewrite (directory_size i l Hi D F). unfold DIRENT_SIZE. rewrite Z.mul_comm. by apply Z.mod_mul.
  - exact T.
  - rewrite (directory_entries i l Hi D F). apply Forall_fmap, Forall_true. intros [m k] _. simpl. unfold splice. set_solver.
  - rewrite (directory_entries i l Hi D F). intros e (x & -> & Hx)%list_elem_of_fmap _. rewrite Forall_forall in F, Hn. apply list_elem_of_In in Hx.
    destruct (F x Hx) as (_ & _ & ?). specialize (Hn x Hx). simpl. simpl in Hn. lia.
Qed.

Lemma str_of_entry (n rest : list Z) : 0 ∉ n -> str_of (n ++ 0 :: rest) = n.
Proof.
  induction n as [|c n IH]; intros H; [done|]. simpl. apply not_elem_of_cons in H as [Hc H].
  destruct (c =? 0) eqn:E; [lia|]. by rewrite IH.
Qed.

(** The inode of a name in a directory of the image. *)
Lemma directory_find i l n : 0 <= i < sb_ninodes sb -> Mkfs.directory sb junk s i l -> Forall entry_fits l ->
  find_in sb v i n = snd ∘ snd <$> list_find (fun x => fst x = n) l.
Proof.
  intros Hi D F. unfold find_in. rewrite decide_True by apply D. rewrite (directory_entries i l Hi D F). unfold dir_find.
  clear D. induction F as [|[m k] l (H1 & H2 & H3) _ IH]; [done|]. cbn [map list_find].
  assert (named n (image_entry (m, k)) <-> m = n) as Hm.
  { assert (str_of (d_name (image_entry (m, k))) = m) as Hs.
    { unfold image_entry, splice. cbn [d_name fst take app]. rewrite <- app_assoc. by apply str_of_entry. }
    unfold named. rewrite Hs. simpl in *. split; [tauto|]. intros ->. split; [lia|done]. }
  destruct (decide (m = n)) as [E|E].
  - rewrite decide_True by tauto. simpl. by rewrite decide_True.
  - rewrite decide_False by tauto. simpl. rewrite decide_False by done. revert IH.
    destruct (list_find (named n) (map image_entry l)) as [[? ?]|], (list_find (fun x => x.1 = n) l) as [[? [? ?]]|]; simpl; intros IH; by simplify_eq.
Qed.
End image.

(** ** The file system of an image *)

Section tree.
Context (sb : superblock) (junk : list Z) (Hjl : length junk = 60%nat) (host : list Z -> option (list Z)).
Context (flags : Mkfs.mkfs_flags) (s : Mkfs.image) (T : Mkfs.tree sb junk host flags s) (Hni : sb_ninodes sb < 2 ^ 32).
Context (Hnames : Forall (fun path => (length (Mkfs.nameptr path) < 60)%nat /\ 0 ∉ Mkfs.nameptr path) (Mkfs.binfiles flags)).
Notation v := (Mkfs.blocks s).

(** The number of inodes in use, and 1. *)
Definition used_inodes : Z := Mkfs.first flags + Z.of_nat (length (Mkfs.binfiles flags)).

Definition in_use (i : Z) : Prop := 0 < i < used_inodes.

Definition bin_entries : list (list Z * Z) :=
  imap (fun k path => (Mkfs.nameptr path, Mkfs.first flags + Z.of_nat k)) (Mkfs.binfiles flags).

Lemma first_range : 7 <= Mkfs.first flags <= 8 /\ (Mkfs.first flags = 8 <-> Mkfs.initsh_file flags <> None).
Proof using. clear. unfold Mkfs.first. destruct (Mkfs.initsh_file flags); split; split; done || lia. Qed.

Lemma used_range : 7 <= used_inodes <= sb_ninodes sb.
Proof using T. clear Hjl Hni Hnames. pose proof (Mkfs.tr_count _ _ _ _ _ T). pose proof first_range. unfold used_inodes. lia. Qed.

Ltac fits_list :=
  repeat (apply Forall_cons_2; [split; [split_and!; simpl; [lia|set_solver|lia|lia]|simpl; lia]|]); by apply Forall_nil.

Lemma root_fits : Forall (fun x => entry_fits x /\ snd x < used_inodes)
  [(Mkfs.n_dot, 1); (Mkfs.n_dotdot, 1); (Mkfs.n_bin, 2); (Mkfs.n_dev, 3); (Mkfs.n_etc, 4); (Mkfs.n_home, 5)].
Proof. pose proof used_range. fits_list. Qed.

Lemma dev_fits : Forall (fun x => entry_fits x /\ snd x < used_inodes) [(Mkfs.n_dot, 3); (Mkfs.n_dotdot, 1); (Mkfs.n_console, 6)].
Proof. pose proof used_range. fits_list. Qed.

Lemma bin_fits : Forall (fun x => entry_fits x /\ snd x < used_inodes) ([(Mkfs.n_dot, 2); (Mkfs.n_dotdot, 1)] ++ bin_entries).
Proof.
  pose proof used_range. pose proof first_range. apply Forall_app. split.
  { fits_list. }
  apply Forall_lookup. intros k x. unfold bin_entries. rewrite list_lookup_imap. intros (path & E & ->)%fmap_Some.
  rewrite Forall_lookup in Hnames. destruct (Hnames k path E) as [N1 N2]. apply lookup_lt_Some in E.
  unfold used_inodes in *. split; [split_and!; simpl; [done|done|lia|lia]|simpl; lia].
Qed.

Lemma fits_all l : Forall (fun x => entry_fits x /\ snd x < used_inodes) l -> Forall entry_fits l /\ Forall (fun x => snd x < used_inodes) l.
Proof. intros F. split; induction F as [|x l [H1 H2] _ IH]; by constructor. Qed.

(** The directories of the image. *)
Lemma image_dirs i : 0 < i < 6 -> exists l, Mkfs.directory sb junk s i l /\ Forall (fun x => entry_fits x /\ snd x < used_inodes) l.
Proof.
  intros Hi. pose proof used_range. pose proof first_range as [? F8]. pose proof T as [_ T1 T2 T3 T4 T5 _ _ _ _ _].
  assert (i = 1 \/ i = 2 \/ i = 3 \/ i = 4 \/ i = 5) as [-> |[-> |[-> |[-> | ->]]]] by lia; eexists; (split; [eassumption|]).
  - apply root_fits.
  - apply bin_fits.
  - apply dev_fits.
  - destruct (Mkfs.initsh_file flags) eqn:Ei.
    + assert (Mkfs.first flags = 8) as E8 by (apply F8; done). assert (8 <= used_inodes) by (unfold used_inodes; lia).
      fits_list.
    + fits_list.
  - fits_list.
Qed.

Lemma image_types i : in_use i -> 6 <= i -> type (dino sb v i) = INODE_DEVICE \/ type (dino sb v i) = INODE_FILE.
Proof.
  intros Hi H6. pose proof first_range as [Hf F8]. pose proof T as [_ _ _ _ _ _ T6 T7 T8 _ _]. unfold in_use, used_inodes in Hi.
  destruct (decide (i = 6)) as [->|]; [by left|]. right. destruct (decide (i < Mkfs.first flags)) as [Hl|Hl].
  - assert (i = 7) as -> by lia. destruct (Mkfs.initsh_file flags) as [f|] eqn:Ei; [by apply (T7 f)|]. exfalso. by apply F8; [lia|].
  - destruct (lookup_lt_is_Some_2 (Mkfs.binfiles flags) (Z.to_nat (i - Mkfs.first flags)) ltac:(lia)) as [path E].
    destruct (T8 _ _ E) as [T9 _]. by replace (Mkfs.first flags + Z.of_nat (Z.to_nat (i - Mkfs.first flags))) with i in T9 by lia.
Qed.

(** The file system of the image is sound. *)
Lemma image_sound : sound sb v in_use.
Proof.
  intros i Hi. pose proof used_range. pose proof (Mkfs.tr_links _ _ _ _ _ T i Hi) as L. pose proof (Mkfs.tr_fs _ _ _ _ _ T) as F.
  change (Mkfs.inode_at sb s i) with (dino sb v i) in L. unfold in_use in Hi. destruct (decide (i < 6)) as [H6|H6].
  - destruct (image_dirs i ltac:(lia)) as (l & D & [F1 F2]%fits_all). split; [change (type (Mkfs.inode_at sb s i) <> INODE_NONE); by rewrite (proj1 D)|]. split; [lia|].
    intros _. apply (directory_good sb junk Hjl s F i l); [lia|done..].
  - destruct (image_types i Hi ltac:(lia)) as [E|E]; (split; [by rewrite E|]; split; [lia|]); unfold is_dir; rewrite E; done.
Qed.

Lemma find_dir i l n : 0 < i < 6 -> Mkfs.directory sb junk s i l -> Forall (fun x => entry_fits x /\ snd x < used_inodes) l ->
  find_in sb v i n = snd ∘ snd <$> list_find (fun x => fst x = n) l.
Proof.
  intros Hi D [F1 _]%fits_all. pose proof used_range. apply (directory_find sb junk Hjl s (Mkfs.tr_fs _ _ _ _ _ T) i l n); [lia|done|done].
Qed.

(** ** Paths of the image *)

(** The file that a name in [/bin] means: the first of that name on the command line. *)
Lemma find_bin n k path : list_find (fun p => Mkfs.nameptr p = n) (Mkfs.binfiles flags) = Some (k, path) ->
  n <> Mkfs.n_dot -> n <> Mkfs.n_dotdot -> find_in sb v 2 n = Some (Mkfs.first flags + Z.of_nat k).
Proof.
  intros (E & Hn & Hmin)%list_find_Some H1 H2. rewrite (find_dir 2 _ _ ltac:(lia) (Mkfs.tr_bin _ _ _ _ _ T) bin_fits).
  assert (list_find (fun x : list Z * Z => x.1 = n) ([(Mkfs.n_dot, 2); (Mkfs.n_dotdot, 1)] ++ bin_entries) = Some (S (S k), (n, Mkfs.first flags + Z.of_nat k))) as L;
    [|unfold bin_entries in L; by rewrite L].
  apply list_find_Some. split; [|split; [done|]].
  - simpl. unfold bin_entries. rewrite list_lookup_imap, E. simpl. by rewrite Hn.
  - intros [|[|j]] y Hy Hj; [by simplify_eq/=; apply not_eq_sym|by simplify_eq/=; apply not_eq_sym|]. simpl in Hy. unfold bin_entries in Hy.
    rewrite list_lookup_imap in Hy. apply fmap_Some in Hy as (p & Ep & ->). simpl. apply (Hmin j p Ep). lia.
Qed.

Lemma find_root n i : list_find (fun x => fst x = n) [(Mkfs.n_dot, 1); (Mkfs.n_dotdot, 1); (Mkfs.n_bin, 2); (Mkfs.n_dev, 3); (Mkfs.n_etc, 4); (Mkfs.n_home, 5)] = Some i ->
  find_in sb v 1 n = Some (snd (snd i)).
Proof. intros E. by rewrite (find_dir 1 _ _ ltac:(lia) (Mkfs.tr_root _ _ _ _ _ T) root_fits), E. Qed.

Lemma walk_bin n k path : list_find (fun p => Mkfs.nameptr p = n) (Mkfs.binfiles flags) = Some (k, path) ->
  n <> Mkfs.n_dot -> n <> Mkfs.n_dotdot -> walk sb v 1 [Mkfs.n_bin; n] = Some (Mkfs.first flags + Z.of_nat k).
Proof. intros E H1 H2. cbn [walk]. rewrite (find_root Mkfs.n_bin (2%nat, (Mkfs.n_bin, 2))) by done. simpl. by rewrite (find_bin n k path). Qed.

Lemma walk_console : walk sb v 1 [Mkfs.n_dev; Mkfs.n_console] = Some 6.
Proof.
  cbn [walk]. rewrite (find_root Mkfs.n_dev (3%nat, (Mkfs.n_dev, 3))) by done. simpl.
  by rewrite (find_dir 3 _ _ ltac:(lia) (Mkfs.tr_dev _ _ _ _ _ T) dev_fits).
Qed.
End tree.

(** Names have no slash. *)
Lemma nameptr_loop_after path k : (forall j, (k < j)%nat -> path !! j <> Some SLASH) ->
  forall j, (Mkfs.nameptr_loop path k <= j)%nat -> path !! j <> Some SLASH.
Proof.
  induction k as [|k IH]; intros H j; cbn [Mkfs.nameptr_loop]; case_bool_decide as E; intros Hj.
  - apply H. lia.
  - destruct j; [done|]. apply H. lia.
  - apply H. lia.
  - apply IH; [|done]. intros i Hi. destruct (decide (i = S k)) as [->|]; [done|]. apply H. lia.
Qed.

Lemma nameptr_no_slash path : SLASH ∉ Mkfs.nameptr path.
Proof.
  intros [j Hj]%list_elem_of_lookup_1. unfold Mkfs.nameptr in Hj. rewrite lookup_drop in Hj.
  eapply nameptr_loop_after; [|apply Nat.le_add_r|exact Hj]. intros i Hi. by rewrite lookup_ge_None_2 by lia.
Qed.

Lemma elements_name n : SLASH ∉ n -> n <> [] -> elements n = [n].
Proof.
  intros Hs Hn. assert (split_slash n = [n]) as E; [|unfold elements; rewrite E; by rewrite filter_cons_True].
  clear Hn. induction n as [|c n IH]; [done|]. apply not_elem_of_cons in Hs as [Hc Hs]. simpl. rewrite IH by done.
  destruct (c =? SLASH) eqn:E; [lia|done].
Qed.

(** The path of the file [n] in the directory [d] of the root. *)
Definition path2 (d n : list Z) : list Z := SLASH :: d ++ SLASH :: n.

Lemma elements_path2 d n : SLASH ∉ d -> d <> [] -> SLASH ∉ n -> n <> [] -> elements (path2 d n) = [d; n].
Proof. intros. unfold path2. by rewrite elements_slash, elements_app_slash, !elements_name. Qed.

(** ** Reading a file of the image *)

Section reading.
Context `{Devices} (sb : superblock) (v : Z -> block) (good : Z -> Prop) (Hsound : sound sb v good).

(** What opening a file, reading it and closing it do with the inode. *)
Definition read_file (cwd : Z) (path : list Z) (off n : Z) : M ist (option (Z * list Z)) :=
  ip ← path_lookup sb cwd path;
  match ip with
  | None => mret None
  | Some ip =>
      inode_lock sb ip;;
      r ← inode_read sb ip off n;
      inode_unlockput sb ip;;
      mret (Some r)
  end.

Lemma read_file_ok R s path c e j off n : good ROOT_INUM -> ready sb v good R None s -> (size (dom R) + 2 <= Z.to_nat NINODES)%nat ->
  (c < Z.to_nat NINODES)%nat -> icache s !! c = Some e -> 0 < ref e -> names_fit path ->
  walk sb v (start_of e path) (elements path) = Some j ->
  type (dino sb v j) <> INODE_DEVICE -> length (addrs (dino sb v j)) = 12%nat -> Mkfs.all_there v (dino sb v j) ->
  dsize (dino sb v j) <= MAX_DATA_BLOCKS * BSIZE -> 0 <= off <= dsize (dino sb v j) -> 0 <= n -> off + n < 2 ^ 32 ->
  let m := Z.min n (dsize (dino sb v j) - off) in
  exists s', read_file (Z.of_nat c) path off n s = Ok (Some (m, frange v (dino sb v j) off m), s') /\ ready sb v good R None s'.
Proof.
  intros Hroot Rd Hsz Hc E Hr Hn W Ht Hla Hth Hmax Ho Hn0 Hov m.
  destruct (path_lookup0_ok sb v good Hsound false R s path c e Hroot Rd Hsz Hc E Hr Hn) as (r & s1 & L & _ & A & _).
  simpl goal_of in A. rewrite W in A. destruct A as (q & nm & x & -> & Hq & Ex & Hx & Hrx & Rd1).
  destruct (lock_ok sb v good Hsound _ s1 q x Rd1 Hq Ex Hrx) as (s2 & e2 & L2 & _ & Rd2 & E2 & I2 & R2 & D2 & _). rewrite Hx in D2.
  pose proof Rd2 as [V Hh Hrm Hok _].
  assert (forall k, slot (view (bs (fl s2))) (dino sb v j) k = slot v (dino sb v j) k) as Hsl by (intros k; by apply slot_ext).
  assert (read_pre (Z.of_nat q) e2 (dsize (disk_inode e2)) s2) as RP.
  { split; rewrite ?D2; try done; [lia|by rewrite Nat2Z.id|intros y; rewrite V; apply Hok|intros bn; rewrite Hsl; apply Hth|].
    intros k _ _. rewrite Hh. apply not_elem_of_empty. }
  destruct (inode_read_spec sb (Z.of_nat q) e2 s2 off n RP) as (s3 & L3 & Sn); rewrite ?D2; try done.
  rewrite D2 in L3. fold m in L3. pose proof Sn as (_ & _ & Ic & Ct).
  assert (ready sb v good (R ⊎ {[+ inum e2 +]}) (Some q) s3) as Rd3.
  { replace (inum e2) with j by congruence. eapply (ready_same sb v); [exact Rd2|by apply seen_same|]. rewrite Ic, Ct. apply Rd2. }
  destruct (fail_ok sb v good Hsound R s3 q e2 Rd3 Hq ltac:(by rewrite Ic) ltac:(lia)) as (s4 & L4 & _ & Rd4).
  exists s4. split; [|exact Rd4]. unfold read_file, path_lookup. rewrite (bind_Ok _ _ _ (Some (Z.of_nat q)) s1) by (by rewrite (bind_Ok _ _ _ _ _ L)).
  rewrite (bind_Ok _ _ _ _ _ L2), (bind_Ok _ _ _ _ _ L3), (bind_Ok _ _ _ _ _ L4). unfold mret, M_ret. do 4 f_equal.
  apply frange_ext. intros k _. apply fbyte_ext. unfold fblock. rewrite Hsl. by rewrite V.
Qed.
End reading.

(** ** The image in the kernel *)

(** A kernel that has just mounted the image: nothing is cached, and the current directory of the
    task [t] is the root. *)
Definition mounted (img : Mkfs.image) (l : log) (t : Z) : ist := Ist (Fss (mount (Mkfs.sectors img)) l) boot_icache t.

Lemma mounted_ready sb img l t (good : Z -> Prop) : Mkfs.fs_ok sb img -> good ROOT_INUM ->
  ready sb (Mkfs.blocks img) good {[+ ROOT_INUM +]} None (mounted img l t).
Proof.
  intros F Hg. split; [|done|unfold room; vm_compute; lia|apply (Mkfs.fo_img _ _ F)|by apply boot_quiet].
  intros x. unfold mounted, mount, view. cbn [fl bs cache disk]. by rewrite lookup_empty.
Qed.

(** A part of a file. *)
Lemma frange_part v d off n : 0 <= off <= dsize d -> 0 <= n ->
  frange v d off (Z.min n (dsize d - off)) = take (Z.to_nat n) (drop (Z.to_nat off) (frange v d 0 (dsize d))).
Proof.
  intros Ho Hn. replace (dsize d) with (off + (dsize d - off)) at 2 by lia. rewrite frange_app by lia.
  rewrite drop_app_length' by (by rewrite frange_length). rewrite Z.add_0_l. destruct (decide (n <= dsize d - off)) as [Hle|Hgt].
  - rewrite Z.min_l by done. replace (dsize d - off) with (n + (dsize d - off - n)) by lia. rewrite frange_app by lia.
    by rewrite take_app_length' by (by rewrite frange_length).
  - rewrite Z.min_r by lia. rewrite take_ge; [done|]. rewrite frange_length. lia.
Qed.

Lemma fits_path2 d n : (length d < 60)%nat -> (length n < 60)%nat -> 0 ∉ d -> 0 ∉ n -> SLASH ∉ d -> d <> [] -> SLASH ∉ n -> n <> [] ->
  names_fit (path2 d n).
Proof.
  intros H1 H2 H3 H4 H5 H6 H7 H8. split; [unfold path2, SLASH; set_solver by lia|]. rewrite elements_path2 by done.
  unfold fits, DIRENT_NAME_LENGTH. apply Forall_cons_2; [apply Z.ltb_lt; lia|]. apply Forall_singleton, Z.ltb_lt. lia.
Qed.

Section boot.
Context `{Devices} (sb : superblock) (junk : list Z) (Hjl : length junk = 60%nat) (host : list Z -> option (list Z)).
Context (flags : Mkfs.mkfs_flags) (s : Mkfs.image) (T : Mkfs.tree sb junk host flags s) (Hni : sb_ninodes sb < 2 ^ 32).
Context (Hnames : Forall (fun path => (length (Mkfs.nameptr path) < 60)%nat /\ 0 ∉ Mkfs.nameptr path) (Mkfs.binfiles flags)).
Context (R : gmultiset Z) (st : ist) (c : nat) (e : inode) (Rd : ready sb (Mkfs.blocks s) (in_use flags) R None st).
Context (Hsz : (size (dom R) + 2 <= Z.to_nat NINODES)%nat) (Hc : (c < Z.to_nat NINODES)%nat) (Hce : icache st !! c = Some e) (Hr : 0 < ref e).

Lemma root_used : in_use flags ROOT_INUM.
Proof using T. clear -T. pose proof (used_range sb junk host flags s T). unfold in_use, ROOT_INUM. lia. Qed.

(** A file in [/bin]. *)
Lemma bin_read n k path off len : list_find (fun p => Mkfs.nameptr p = n) (Mkfs.binfiles flags) = Some (k, path) ->
  n <> [] -> n <> Mkfs.n_dot -> n <> Mkfs.n_dotdot ->
  exists content, host path = Some content /\
    (0 <= off <= Z.of_nat (length content) -> 0 <= len -> off + len < 2 ^ 32 ->
     exists st', read_file sb (Z.of_nat c) (path2 Mkfs.n_bin n) off len st =
         Ok (Some (Z.min len (Z.of_nat (length content) - off), take (Z.to_nat len) (drop (Z.to_nat off) content)), st') /\
       ready sb (Mkfs.blocks s) (in_use flags) R None st').
Proof.
  intros F Hne H1 H2. pose proof (walk_bin sb junk Hjl host flags s T Hni Hnames n k path F H1 H2) as W.
  apply list_find_Some in F as (E & Hn & _). destruct (Mkfs.tr_files _ _ _ _ _ T k path E) as [Ty Co].
  destruct (proj1 (Forall_lookup _ _) Hnames k path E) as [N1 N2]. rewrite Hn in N1, N2.
  assert (SLASH ∉ n) as Hs by (rewrite <- Hn; apply nameptr_no_slash).
  pose proof (lookup_lt_Some _ _ _ E) as Hk. set (j := Mkfs.first flags + Z.of_nat k) in *.
  assert (0 <= j < sb_ninodes sb) as Hj.
  { pose proof (Mkfs.tr_count _ _ _ _ _ T). pose proof (first_range flags). unfold j. lia. }
  destruct (Mkfs.fo_files _ _ (Mkfs.tr_fs _ _ _ _ _ T) j Hj) as [_ Fw _ Fs Ft]. exists (Mkfs.contents sb s j). split; [done|].
  unfold Mkfs.contents. rewrite frange_length, Z2Nat.id by lia. change (Mkfs.inode_at sb s j) with (dino sb (Mkfs.blocks s) j) in *.
  intros Ho Hl Hov. rewrite <- frange_part by done.
  apply (read_file_ok sb (Mkfs.blocks s) (in_use flags) (image_sound sb junk Hjl host flags s T Hni Hnames) R st (path2 Mkfs.n_bin n) c e j off len root_used); try done.
  - apply fits_path2; try done; simpl; [lia|set_solver|unfold SLASH; set_solver].
  - rewrite elements_path2; [exact W|unfold Mkfs.n_bin, SLASH; set_solver|done|done|done].
  - by rewrite Ty.
  - lia.
Qed.

(** The console. *)
Lemma console_found : exists st' q x, path_lookup sb (Z.of_nat c) (path2 Mkfs.n_dev Mkfs.n_console) st = Ok (Some (Z.of_nat q), st') /\
  icache st' !! q = Some x /\ inum x = 6 /\ type (dino sb (Mkfs.blocks s) 6) = INODE_DEVICE /\
  ready sb (Mkfs.blocks s) (in_use flags) (R ⊎ {[+ 6 +]}) None st'.
Proof.
  destruct (path_lookup0_ok sb (Mkfs.blocks s) (in_use flags) (image_sound sb junk Hjl host flags s T Hni Hnames) false R st
    (path2 Mkfs.n_dev Mkfs.n_console) c e root_used Rd Hsz Hc Hce Hr) as (r & st' & L & _ & A & _).
  { apply fits_path2; simpl; try done; try lia; unfold SLASH; set_solver. }
  unfold goal_of in A. rewrite elements_path2 in A by (done || (unfold Mkfs.n_dev, Mkfs.n_console, SLASH; set_solver)).
  change (start_of e (path2 Mkfs.n_dev Mkfs.n_console)) with 1 in A. rewrite (walk_console sb junk Hjl host flags s T) in A by done.
  destruct A as (q & nm & x & -> & _ & Ex & Hx & _ & Rd'). exists st', q, x. split; [unfold path_lookup; by rewrite (bind_Ok _ _ _ _ _ L)|].
  split; [done|]. split; [done|]. split; [apply (Mkfs.tr_console _ _ _ _ _ T)|done].
Qed.
End boot.

Lemma host_names host l : Forall (fun path => Mkfs.host_file host path (Mkfs.nameptr path) /\ 0 ∉ path) l ->
  Forall (fun path => Mkfs.host_file host path (Mkfs.nameptr path)) l /\
  Forall (fun path => (length (Mkfs.nameptr path) < 60)%nat /\ 0 ∉ Mkfs.nameptr path) l.
Proof.
  intros F. split; induction F as [|path l [Hf Hz] _ IH]; [by apply Forall_nil|by apply Forall_cons_2|by apply Forall_nil|].
  apply Forall_cons_2; [|done]. split; [by destruct Hf as (? & ? & ? & ? & ? & ? & ?)|]. intros [k Hk]%list_elem_of_lookup_1.
  unfold Mkfs.nameptr in Hk. rewrite lookup_drop in Hk. apply Hz. by eapply list_elem_of_lookup_2.
Qed.

(** C25: mkfs on an image that is zero after the boot sector, with files of the host that fit into
    the file system, ends with status 0 and leaves a file system that the kernel can use: [scan_fs]
    finds the superblock, whose layout fits the image; the image has the root directory, [/bin],
    [/dev], [/etc] and [/home] with their entries; a kernel that mounts it is in a sound state;
    and in every sound state, from any directory, opening [/bin/n] for a file of the command line
    named [n] (the first of that name) and reading it gives the bytes that the file has on the
    host, and [/dev/console] is found and is a device.  All references and locks are given back. *)
Theorem image_correct `{Devices} host junk argv flags s file_size :
  Mkfs.parse_flags argv = inr flags -> length junk = 60%nat -> bytes junk ->
  file_size mod 512 = 0 -> 512 * Mkfs.min_sectors <= file_size -> file_size + 1024 < 2 ^ 31 ->
  block_ok (Mkfs.blocks s 0) -> block_ok (Mkfs.blocks s 1) -> get32 (Mkfs.blocks s 1) 0 <> Mkfs.SUPER_BLOCK_MAGIC ->
  (forall x, x <> 0 -> x <> 1 -> Mkfs.blocks s x = zero_block) ->
  (forall f, Mkfs.initsh_file flags = Some f -> Mkfs.host_file host f Mkfs.n_initsh) ->
  Forall (fun path => Mkfs.host_file host path (Mkfs.nameptr path) /\ 0 ∉ path) (Mkfs.binfiles flags) ->
  (length (Mkfs.binfiles flags) <= 1000)%nat ->
  (forall sb, Mkfs.superblock_init (file_size / 512) = Some sb ->
     60 + Mkfs.initsh_blocks host flags + Mkfs.files_blocks host (Mkfs.binfiles flags) <= bmap_bits sb) ->
  exists sb s', Mkfs.main host junk argv file_size s = Ok (0, s') /\ Mkfs.layout_spec (file_size / 512) sb /\
    Mkfs.scan_fs (Mkfs.blocks s') = Some sb /\ Mkfs.tree sb junk host flags s' /\
    let sane := ready sb (Mkfs.blocks s') (in_use flags) in
    (forall l t, sane {[+ ROOT_INUM +]} None (mounted s' l t)) /\
    (forall R st c e, sane R None st -> (size (dom R) + 2 <= Z.to_nat NINODES)%nat ->
       (c < Z.to_nat NINODES)%nat -> icache st !! c = Some e -> 0 < ref e ->
       (forall n k path off len, list_find (fun p => Mkfs.nameptr p = n) (Mkfs.binfiles flags) = Some (k, path) ->
          n <> [] -> n <> Mkfs.n_dot -> n <> Mkfs.n_dotdot ->
          exists content, host path = Some content /\
            (0 <= off <= Z.of_nat (length content) -> 0 <= len -> off + len < 2 ^ 32 ->
             exists st', read_file sb (Z.of_nat c) (path2 Mkfs.n_bin n) off len st =
                 Ok (Some (Z.min len (Z.of_nat (length content) - off), take (Z.to_nat len) (drop (Z.to_nat off) content)), st') /\
               sane R None st')) /\
       (exists st' q x, path_lookup sb (Z.of_nat c) (path2 Mkfs.n_dev Mkfs.n_console) st = Ok (Some (Z.of_nat q), st') /\
          icache st' !! q = Some x /\ inum x = 6 /\ type (dino sb (Mkfs.blocks s') 6) = INODE_DEVICE /\ sane (R ⊎ {[+ 6 +]}) None st')).
Proof.
  intros Hp Hjl Hjb Hmod Hmin Hmax H0 H1 Hm Hz Hf Hl Hlen Hroom.
  destruct (host_names host _ Hl) as [Hl1 Hl2].
  destruct (Mkfs.main_correct host junk argv flags s file_size Hp Hjl Hjb Hmod Hmin Hmax H0 H1 Hm Hz Hf Hl1 Hlen Hroom) as (sb & s' & E & L & Sc & T).
  assert (sb_ninodes sb < 2 ^ 32) as Hni by (rewrite (Mkfs.ls_ninodes _ _ L); done).
  exists sb, s'. split; [done|]. split; [done|]. split; [done|]. split; [done|]. cbv zeta. split.
  - intros l t. apply mounted_ready; [apply (Mkfs.tr_fs _ _ _ _ _ T)|by apply (root_used sb junk host flags s')].
  - intros R st c e Rd Hsz Hc Hce Hr. split.
    + intros n k path off len. by apply (bin_read sb junk Hjl host flags s' T Hni Hl2 R st c e Rd Hsz Hc Hce Hr).
    + by apply (console_found sb junk Hjl host flags s' T Hni Hl2 R st c e Rd Hsz Hc Hce Hr).
Qed.

#[local] Existing Instance no_devices.

(** A run with one program, ["b/a"], and the kernel that reads it as ["/bin/a"]. *)
Lemma image_correct_witness :
  exists sb s' st', Mkfs.main Mkfs.demo_host (replicate 60 0) Mkfs.demo_argv (512 * 3000) (Mkfs.Img ∅ 3000) = Ok (0, s') /\
    read_file sb 0 (path2 Mkfs.n_bin [97]) 0 10 (mounted s' (lg demo_fss) 3) = Ok (Some (2, [104; 105]), st').
Proof.
  destruct (image_correct Mkfs.demo_host (replicate 60 0) Mkfs.demo_argv Mkfs.demo_flags (Mkfs.Img ∅ 3000) (512 * 3000))
    as (sb & s' & E & _ & _ & _ & Rd & K).
  - vm_compute. done.
  - done.
  - by apply Forall_replicate.
  - done.
  - done.
  - done.
  - rewrite Mkfs.blocks_empty. apply zero_block_ok.
  - rewrite Mkfs.blocks_empty. apply zero_block_ok.
  - by rewrite Mkfs.blocks_empty.
  - intros x _ _. apply Mkfs.blocks_empty.
  - done.
  - apply Forall_singleton. split; [|set_solver]. exists [104; 105].
    split_and!; [done|done|by repeat constructor|done|by repeat constructor|vm_compute; lia].
  - simpl. lia.
  - intros sb Hs. vm_compute in Hs. injection Hs as <-. vm_compute. done.
  - destruct (K {[+ ROOT_INUM +]} (mounted s' (lg demo_fss) 3) 0%nat walk_cwd (Rd _ _)) as [K1 _].
    + rewrite (walk_ref_size : size (dom ({[+ ROOT_INUM +]} : gmultiset Z)) = 1%nat). unfold NINODES. lia.
    + unfold NINODES. lia.
    + done.
    + done.
    + destruct (K1 [97] 0%nat [98; 47; 97] 0 10) as (ct & Hct & K2); [by vm_compute|done|done|done|].
      vm_compute in Hct. injection Hct as <-. destruct (K2 ltac:(simpl; lia) ltac:(lia) ltac:(lia)) as (st' & R & _).
      exists sb, s', st'. split; [exact E|]. exact R.
Defined.
End Boot.
