(* ===== verification/Malloc.v ===== *)
(** The user heap: src/lib/src/malloc.c, the allocator of Kernighan and Ritchie.

    The memory of the program is a map of 32-bit words; an access to a page that the program
    does not have is a page fault, for which the kernel ends the program ([Panic]).  [sbrk]
    is seen from the program: the break moves, and the pages that [vm_grow_userheap] maps
    become accessible (see Vm.v).  The machine has enough free pages for them; the contents
    of new pages are not known. *)

From stdpp Require Import base numbers list gmap relations.
From Stdlib Require Import ZArith Lia Sorted.
From S2P Require Import Prelude KMem Vm.
#[local] Open Scope Z_scope.

Module Malloc.
Import KMem Vm.

(** [freep] is 0 for NULL; [pages] are the numbers of the heap's pages. *)
Record mstate := MState { words : gmap Z Z; freep : Z; ubrk : Z; pages : gset Z }.

Definition HDR : Z := 8.

Section allocator.
(** The address of [base], in the data of the program, below the heap. *)
Context (base : Z).

Definition mapped (s : mstate) (a : Z) : bool :=
  (a =? base) || (a =? base + 4) || bool_decide (a / PG_SIZE ∈ pages s).

Definition load (a : Z) : M mstate Z :=
  s ← get; if mapped s a then mret (default 0 (words s !! a)) else panic.

Definition store (a v : Z) : M mstate unit :=
  s ← get;
  if mapped s a then put (MState (<[a := v]> (words s)) (freep s) (ubrk s) (pages s)) else panic.

(** [p->s.ptr] and [p->s.size]. *)
Definition get_ptr (p : Z) : M mstate Z := load p.
Definition get_size (p : Z) : M mstate Z := load (u32 (p + 4)).
Definition set_ptr (p v : Z) : M mstate unit := store p v.
Definition set_size (p v : Z) : M mstate unit := store (u32 (p + 4)) v.

(** [p + n] on pointers to headers. *)
Definition hadd (p n : Z) : Z := u32 (p + HDR * n).

Definition set_freep (p : Z) : M mstate unit :=
  modify (fun s => MState (words s) p (ubrk s) (pages s)).

(** The pages that [vm_grow_userheap] maps: one for each step of the page size. *)
Definition grown (brk ebrk : Z) : list Z :=
  map (fun k => (brk + k * PG_SIZE) / PG_SIZE) (seqZ 0 ((ebrk - brk + PG_SIZE - 1) / PG_SIZE)).

Definition sbrk (bytes_cnt : Z) : M mstate Z :=
  s ← get;
  if i32 bytes_cnt <? 0 then mret 0
  else
    let brk := ubrk s in
    let ebrk := u32 (brk + i32 bytes_cnt) in
    if (ebrk <? brk) || (USER_HEAP_TOP <=? ebrk) then mret 0
    else put (MState (words s) (freep s) ebrk (list_to_set (grown brk ebrk) ∪ pages s));; mret brk.

(** The search of [free]: the node after which the block [bp] belongs. *)
Fixpoint free_loop (fuel : nat) (bp p : Z) : M mstate Z :=
  match fuel with
  | O => hang
  | S fuel =>
      n ← get_ptr p;
      if (p <? bp) && (bp <? n) then mret p
      else if (n <=? p) && ((p <? bp) || (bp <? n)) then mret p
      else free_loop fuel bp n
  end.

(** As many steps as the heap has units, and one for [base]. *)
Definition units (s : mstate) : nat := Z.to_nat ((ubrk s - USER_HEAP_BASE) / HDR).

(** The two conditionals of [free]. *)
Definition join_next (bp p : Z) : M mstate unit :=
  bsize ← get_size bp;
  next ← get_ptr p;
  if hadd bp bsize =? next then
    nsize ← get_size next;
    set_size bp (u32 (bsize + nsize));;
    nnext ← get_ptr next;
    set_ptr bp nnext
  else set_ptr bp next.

Definition join_prev (bp p : Z) : M mstate unit :=
  psize ← get_size p;
  if hadd p psize =? bp then
    bsize ← get_size bp;
    set_size p (u32 (psize + bsize));;
    bnext ← get_ptr bp;
    set_ptr p bnext
  else set_ptr p bp.

Definition free (ap : Z) : M mstate unit :=
  let bp := u32 (ap - HDR) in
  s ← get;
  p ← free_loop (units s + 2) bp (freep s);
  join_next bp p;;
  join_prev bp p;;
  set_freep p.

Definition morecore (nu : Z) : M mstate Z :=
  let nu := if nu <? 4096 then 4096 else nu in
  p ← sbrk (u32 (nu * HDR));
  if p =? 2 ^ 32 - 1 then mret 0
  else
    set_size p nu;;
    free (hadd p 1);;
    s ← get; mret (freep s).

(** The block [p], which is large enough, or its end. *)
Definition take_block (prevp p nunits : Z) : M mstate Z :=
  size ← get_size p;
  r ← (if size =? nunits then
         next ← get_ptr p; set_ptr prevp next;; mret p
       else
         set_size p (u32 (size - nunits));;
         let q := hadd p (u32 (size - nunits)) in
         set_size q nunits;; mret q);
  set_freep prevp;;
  mret (hadd r 1).

Fixpoint malloc_loop (fuel : nat) (nunits prevp p : Z) : M mstate Z :=
  match fuel with
  | O => hang
  | S fuel =>
      size ← get_size p;
      if nunits <=? size then take_block prevp p nunits
      else
        s ← get;
        if p =? freep s then
          p ← morecore nunits;
          if p =? 0 then mret 0
          else next ← get_ptr p; malloc_loop fuel nunits p next
        else next ← get_ptr p; malloc_loop fuel nunits p next
  end.

Definition malloc (nbytes : Z) : M mstate Z :=
  let nunits := u32 (u32 (u32 (nbytes + HDR) - 1) / HDR + 1) in
  s ← get;
  (if freep s =? 0 then set_ptr base base;; set_freep base;; set_size base 0 else mret tt);;
  s ← get;
  let prevp := freep s in
  p ← get_ptr prevp;
  malloc_loop (2 * units s + 10) nunits prevp p.

(** A program before its first allocation. *)
Definition start (m : gmap Z Z) : mstate := MState m 0 USER_HEAP_BASE ∅.

(** ** Invariant *)

(** A block of the heap: its address, its size in units with the header, and whether it is
    free. *)
Record blk := Blk { addr : Z; bsz : Z; isfree : bool }.

#[local] Instance blk_eq_dec : EqDecision blk.
Proof. solve_decision. Defined.

Definition bend (b : blk) : Z := addr b + HDR * bsz b.

(** The blocks [l] lie one after the other from [a] to [e]. *)
Fixpoint tiles (a : Z) (l : list blk) (e : Z) : Prop :=
  match l with
  | [] => a = e
  | b :: l => addr b = a /\ 1 <= bsz b /\ tiles (bend b) l e
  end.

(** No two free blocks touch. *)
Fixpoint apart (l : list blk) : Prop :=
  match l with
  | b :: l => match l with c :: _ => isfree b && isfree c = false | [] => True end /\ apart l
  | [] => True
  end.

Definition frees (l : list blk) : list (Z * Z) :=
  map (fun b => (addr b, bsz b)) (List.filter isfree l).

Definition hd_addr (l : list (Z * Z)) (e : Z) : Z := match l with [] => e | x :: _ => x.1 end.

(** The headers of the nodes [l], each pointing to the next one, the last one to [e]. *)
Fixpoint chain (m : gmap Z Z) (l : list (Z * Z)) (e : Z) : Prop :=
  match l with
  | [] => True
  | x :: l => m !! x.1 = Some (hd_addr l e) /\ m !! (x.1 + 4) = Some x.2 /\ chain m l e
  end.

(** The nodes of the list of free blocks, from [base] on. *)
Definition nodes (l : list blk) : list (Z * Z) := (base, 0) :: frees l.

Record heap_ok (s : mstate) (l : list blk) : Prop := {
  h_tiles : tiles USER_HEAP_BASE l (ubrk s);
  h_apart : apart l;
  h_chain : chain (words s) (nodes l) base;
  h_alloc : forall b, b ∈ l -> isfree b = false -> words s !! (addr b + 4) = Some (bsz b);
  h_freep : freep s ∈ map fst (nodes l);
  h_brk : ubrk s < USER_HEAP_TOP /\ ubrk s mod PG_SIZE = 0;
  h_pages : forall a, USER_HEAP_BASE <= a < ubrk s -> a / PG_SIZE ∈ pages s;
}.

(** *** Tiles *)

Lemma tiles_app l1 : forall a l2 e, tiles a (l1 ++ l2) e <-> exists m, tiles a l1 m /\ tiles m l2 e.
Proof.
  induction l1 as [|b l1 IH]; intros a l2 e; simpl.
  - split; [intros H; by exists a|by intros (m & -> & H)].
  - rewrite IH. split; [intros (? & ? & m & ? & ?); exists m; auto|intros (m & (? & ? & ?) & ?); eauto].
Qed.

Lemma tiles_le l : forall a e, tiles a l e -> a <= e.
Proof.
  induction l as [|b l IH]; intros a e; simpl; [lia|]. intros (<- & H1 & H2).
  apply IH in H2. unfold bend, HDR in H2. lia.
Qed.

Lemma tiles_elem l : forall a e b, tiles a l e -> b ∈ l -> a <= addr b /\ 1 <= bsz b /\ bend b <= e /\ (addr b - a) mod 8 = 0.
Proof.
  induction l as [|c l IH]; intros a e b H Hb; [by apply not_elem_of_nil in Hb|].
  destruct H as (<- & H1 & H2). apply elem_of_cons in Hb as [->|Hb].
  - apply tiles_le in H2. unfold bend, HDR in *. rewrite Z.sub_diag. split_and!; [lia|lia|lia|done].
  - destruct (IH _ _ _ H2 Hb) as (J1 & J2 & J3 & J4). unfold bend, HDR in *.
    split_and!; [lia|lia|lia|]. Z.div_mod_to_equations. lia.
Qed.

Lemma tiles_length l : forall a e, tiles a l e -> Z.of_nat (length l) <= (e - a) / HDR.
Proof.
  induction l as [|b l IH]; intros a e; simpl; [intros ->; by rewrite Z.sub_diag|].
  intros (<- & H1 & H2). apply IH in H2. unfold bend, HDR in *. Z.div_mod_to_equations. lia.
Qed.

(** The blocks before and after a block. *)
Lemma tiles_split a l1 b l2 e : tiles a (l1 ++ b :: l2) e ->
  tiles a l1 (addr b) /\ 1 <= bsz b /\ tiles (bend b) l2 e /\ (addr b - a) mod 8 = 0 /\ a <= addr b /\ bend b <= e.
Proof.
  intros H. destruct (tiles_elem _ _ _ b H) as (J1 & J2 & J3 & J4); [set_solver|].
  apply tiles_app in H as (m & H1 & <- & H2 & H3). done.
Qed.

Lemma tiles_before a l1 e c : tiles a l1 e -> c ∈ l1 -> addr c + 8 <= e.
Proof. intros H Hc. destruct (tiles_elem _ _ _ _ H Hc) as (? & ? & ? & _). unfold bend, HDR in *. lia. Qed.

(** *** The list of free blocks *)

Lemma frees_app l1 l2 : frees (l1 ++ l2) = frees l1 ++ frees l2.
Proof. unfold frees. by rewrite List.filter_app, map_app. Qed.

Lemma frees_elem l x : x ∈ frees l -> exists b, b ∈ l /\ isfree b = true /\ x = (addr b, bsz b).
Proof.
  unfold frees. intros Hx. apply list_elem_of_fmap in Hx as (b & -> & Hb).
  apply list_elem_of_In, filter_In in Hb as [Hb Hf]. exists b. by rewrite list_elem_of_In.
Qed.

Lemma hd_addr_app l1 l2 e : hd_addr (l1 ++ l2) e = hd_addr l1 (hd_addr l2 e).
Proof. by destruct l1. Qed.

Lemma chain_app m l1 : forall l2 e, chain m (l1 ++ l2) e <-> chain m l1 (hd_addr l2 e) /\ chain m l2 e.
Proof.
  induction l1 as [|x l1 IH]; intros l2 e; simpl; [tauto|]. rewrite IH, hd_addr_app. tauto.
Qed.

Lemma chain_elem m l e x : chain m l e -> x ∈ l -> (exists n, m !! x.1 = Some n) /\ m !! (x.1 + 4) = Some x.2.
Proof.
  induction l as [|y l IH]; [intros _ H; by apply not_elem_of_nil in H|].
  intros (H1 & H2 & H3). rewrite elem_of_cons. intros [->|Hx]; eauto.
Qed.

(** A store elsewhere. *)
Lemma chain_insert m l e k v : (forall x, x ∈ l -> k <> x.1 /\ k <> x.1 + 4) -> chain m l e -> chain (<[k := v]> m) l e.
Proof.
  induction l as [|y l IH]; intros H; [done|]. intros (H1 & H2 & H3). simpl.
  destruct (H y) as [E1 E2]; [left|]. rewrite !lookup_insert_ne by done. split_and!; [done..|].
  apply IH; [|done]. intros x Hx. apply H. by right.
Qed.

(** The addresses of the nodes ascend. *)
Definition asc (l : list (Z * Z)) : Prop := StronglySorted Z.lt (map fst l).

Lemma asc_cons x l : asc (x :: l) <-> (forall y, y ∈ l -> x.1 < y.1) /\ asc l.
Proof.
  unfold asc. simpl. split.
  - intros H. apply StronglySorted_inv in H as [H1 H2]. split; [|done]. intros y Hy.
    rewrite List.Forall_forall in H2. apply H2, list_elem_of_In, list_elem_of_fmap_2, Hy.
  - intros [H1 H2]. constructor; [done|]. apply List.Forall_forall. intros z Hz.
    apply list_elem_of_In, list_elem_of_fmap in Hz as (y & -> & Hy). auto.
Qed.

Lemma asc_app l1 l2 : asc (l1 ++ l2) <-> asc l1 /\ asc l2 /\ (forall x y, x ∈ l1 -> y ∈ l2 -> x.1 < y.1).
Proof.
  induction l1 as [|x l1 IH]; simpl.
  - unfold asc at 2. simpl. split; [|tauto]. intros H. split; [constructor|]. split; [done|]. intros x y Hx. by apply not_elem_of_nil in Hx.
  - rewrite !asc_cons, IH. set_solver.
Qed.

Lemma tiles_asc l : forall a e, tiles a l e -> asc (frees l).
Proof.
  induction l as [|b l IH]; intros a e H; [constructor|]. destruct H as (<- & H1 & H2).
  unfold frees. simpl. destruct (isfree b); [|by eapply IH]. apply asc_cons. split; [|by eapply IH].
  intros y Hy. apply frees_elem in Hy as (c & Hc & _ & ->).
  destruct (tiles_elem _ _ _ _ H2 Hc) as (H & _). simpl. unfold bend, HDR in H. lia.
Qed.

(** *** Memory accesses *)

Lemma load_Ok s a v : mapped s a = true -> words s !! a = Some v -> load a s = Ok (v, s).
Proof. intros H1 H2. unfold load. mrun. by rewrite H1, H2. Qed.

Definition with_words (f : gmap Z Z) (s : mstate) : mstate := MState f (freep s) (ubrk s) (pages s).

Lemma store_Ok s a v : mapped s a = true -> store a v s = Ok (tt, with_words (<[a := v]> (words s)) s).
Proof. intros H1. unfold store. mrun. by rewrite H1. Qed.

Lemma mapped_with f s a : mapped (with_words f s) a = mapped s a.
Proof. done. Qed.

Section search.
Context (s : mstate) (bp : Z).

Lemma free_loop_step fuel p n : mapped s p = true -> words s !! p = Some n ->
  free_loop (S fuel) bp p s =
    if (p <? bp) && (bp <? n) then Ok (p, s)
    else if (n <=? p) && ((p <? bp) || (bp <? n)) then Ok (p, s) else free_loop fuel bp n s.
Proof.
  intros Hm Hw. cbn [free_loop]. unfold get_ptr. rewrite (bind_Ok _ _ _ _ _ (load_Ok _ _ _ Hm Hw)).
  by repeat case_if.
Qed.

(** Through the nodes before the block, to the last one of them. *)
Lemma walk_before R : forall q e X p fuel, q :: R = X ++ [p] -> chain (words s) (q :: R) e -> asc (q :: R) ->
  (forall x, x ∈ q :: R -> x.1 < bp /\ mapped s x.1 = true) ->
  (bp < e \/ e <= p.1) -> (length R < fuel)%nat ->
  free_loop fuel bp q.1 s = Ok (p.1, s).
Proof.
  induction R as [|r R IH]; intros q e X p fuel EX Hc Ha Hx He Hf.
  - destruct X as [|? []]; try discriminate. injection EX as ->. destruct fuel as [|fuel]; [simpl in Hf; lia|].
    destruct Hc as (Hc & _). destruct (Hx p) as [Hlt Hm]; [left|].
    rewrite (free_loop_step _ _ _ Hm Hc). simpl hd_addr. rewrite (proj2 (Z.ltb_lt _ _) Hlt).
    destruct He as [He|He].
    + rewrite (proj2 (Z.ltb_lt _ _) He). done.
    + rewrite (proj2 (Z.leb_le _ _) He). simpl. by case_if.
  - destruct fuel as [|fuel]; [simpl in Hf; lia|]. destruct Hc as (Hc & _ & Hc').
    destruct (Hx q) as [Hlt Hm]; [left|]. destruct (Hx r) as [Hltr _]; [right; left|].
    apply asc_cons in Ha as [Ha1 Ha2]. pose proof (Ha1 r (list_elem_of_here r R)) as Hqr.
    rewrite (free_loop_step _ _ _ Hm Hc). simpl hd_addr.
    rewrite (proj2 (Z.ltb_ge bp r.1)), andb_false_r by lia. rewrite (proj2 (Z.leb_gt r.1 q.1)) by lia. simpl.
    destruct X as [|y X]; [discriminate|]. injection EX as _ EX.
    eapply IH; [exact EX|done|done| |done|simpl in Hf; lia]. intros x Hx'. apply Hx. by right.
Qed.

(** Through the nodes after the block, back to [base]. *)
Lemma walk_after R : forall q fuel, chain (words s) (q :: R) base -> asc (q :: R) ->
  (forall x, x ∈ q :: R -> bp < x.1 /\ mapped s x.1 = true) -> base < bp -> (length R < fuel)%nat ->
  free_loop fuel bp q.1 s = free_loop (fuel - S (length R)) bp base s.
Proof.
  induction R as [|r R IH]; intros q fuel Hc Ha Hx Hb Hf.
  - destruct fuel as [|fuel]; [simpl in Hf; lia|]. destruct Hc as (Hc & _). destruct (Hx q) as [Hlt Hm]; [left|].
    rewrite (free_loop_step _ _ _ Hm Hc). simpl hd_addr.
    rewrite (proj2 (Z.ltb_ge q.1 bp)) by lia. rewrite (proj2 (Z.ltb_ge bp base)) by lia. simpl.
    rewrite andb_false_r. f_equal. lia.
  - destruct fuel as [|fuel]; [simpl in Hf; lia|]. destruct Hc as (Hc & _ & Hc').
    destruct (Hx q) as [Hlt Hm]; [left|].
    apply asc_cons in Ha as [Ha1 Ha2]. pose proof (Ha1 r (list_elem_of_here r R)) as Hqr.
    rewrite (free_loop_step _ _ _ Hm Hc). simpl hd_addr.
    rewrite (proj2 (Z.ltb_ge q.1 bp)) by lia. rewrite (proj2 (Z.leb_gt r.1 q.1)) by lia. simpl.
    rewrite IH; [f_equal; simpl; lia|done|done| |done|simpl in Hf; lia]. intros x Hx'. apply Hx. by right.
Qed.
End search.
Definition allocs (l : list blk) : list blk := List.filter (fun b => negb (isfree b)) l.

Lemma allocs_app l1 l2 : allocs (l1 ++ l2) = allocs l1 ++ allocs l2.
Proof. apply List.filter_app. Qed.

Lemma allocs_elem l b : b ∈ allocs l <-> b ∈ l /\ isfree b = false.
Proof.
  unfold allocs. rewrite !list_elem_of_In, filter_In, negb_true_iff. done.
Qed.

(** The first block of [l] is not free. *)
Definition starts_used (l : list blk) : Prop := match l with c :: _ => isfree c = false | [] => True end.

#[local] Instance starts_used_dec l : Decision (starts_used l).
Proof. destruct l; simpl; apply _. Defined.

Lemma apart_app l1 : forall l2, apart (l1 ++ l2) -> apart l1 /\ apart l2.
Proof.
  induction l1 as [|b l1 IH]; intros l2; simpl; [tauto|]. intros [H1 H2]. apply IH in H2 as [H2 H3].
  split; [|done]. split; [|done]. by destruct l1.
Qed.

Lemma apart_used b l : isfree b = false -> apart l -> apart (b :: l).
Proof. intros H1 H2. simpl. split; [|done]. destruct l; [done|]. by rewrite H1. Qed.

Lemma apart_join l1 b l2 : apart l1 -> (forall c l, l1 = l ++ [c] -> isfree c = false) -> apart (b :: l2) -> apart (l1 ++ b :: l2).
Proof.
  induction l1 as [|c l1 IH]; intros H1 Hl H2; [done|]. destruct H1 as [H1 H1']. simpl. split.
  - destruct l1 as [|d l1]; [|done]. simpl. by rewrite (Hl c []).
  - apply IH; [done| |done]. intros d l ->. by apply (Hl d (c :: l)).
Qed.

Lemma apart_free b l : apart (b :: l) -> isfree b = true -> starts_used l.
Proof. destruct l as [|c l]; [done|]. intros [H _] E. rewrite E in H. exact H. Qed.

Section frees.
Context (Hbase : 0 < base /\ base + 8 <= USER_HEAP_BASE).

(** The words of the heap can be accessed, and [u32] does not change their addresses. *)
Record space (s : mstate) : Prop := {
  sp_brk : ubrk s < USER_HEAP_TOP;
  sp_pages : forall a, USER_HEAP_BASE <= a < ubrk s -> a / PG_SIZE ∈ pages s;
}.

Lemma space_ok s l : heap_ok s l -> space s.
Proof. intros H. split; [apply H|apply (h_pages _ _ H)]. Qed.

Lemma heap_mapped s a : space s -> USER_HEAP_BASE <= a < ubrk s -> mapped s a = true.
Proof.
  intros H Ha. unfold mapped. rewrite bool_decide_eq_true_2 by (by apply (sp_pages _ H)). by rewrite orb_true_r.
Qed.

Lemma base_mapped s a : a = base \/ a = base + 4 -> mapped s a = true.
Proof. intros [-> | ->]; unfold mapped; rewrite Z.eqb_refl; [done|]. by rewrite orb_true_r. Qed.

Lemma addr_u32 a : 0 <= a < USER_HEAP_TOP -> u32 a = a.
Proof.
  intros H. apply u32_small. unfold is_u32, USER_HEAP_TOP, BOTTOM_USER_STACK, TOP_USER_STACK, USER_TOP,
    NPAGES_USER_STACK, PG_SIZE, KERNEL_BASE in *. lia.
Qed.

Lemma heap_base : 0 < USER_HEAP_BASE.
Proof. done. Qed.

Lemma get_ptr_Ok s a v : space s -> (a = base \/ USER_HEAP_BASE <= a < ubrk s) -> words s !! a = Some v ->
  get_ptr a s = Ok (v, s).
Proof. intros H [->|Ha] Hw; apply load_Ok; auto using base_mapped, heap_mapped. Qed.

Lemma get_size_Ok s a v : space s -> (a = base \/ USER_HEAP_BASE <= a /\ a + 8 <= ubrk s) -> words s !! (a + 4) = Some v ->
  get_size a s = Ok (v, s).
Proof.
  intros H Ha Hw. pose proof heap_base. pose proof (sp_brk _ H). unfold get_size.
  assert (USER_HEAP_BASE < USER_HEAP_TOP) by done.
  rewrite addr_u32 by (destruct Ha as [->|Ha]; lia).
  apply load_Ok; [|done]. destruct Ha as [->|Ha]; [apply base_mapped; auto|apply heap_mapped; [done|lia]].
Qed.

Lemma set_ptr_Ok s a v : space s -> (a = base \/ USER_HEAP_BASE <= a < ubrk s) ->
  set_ptr a v s = Ok (tt, with_words (<[a := v]> (words s)) s).
Proof. intros H [->|Ha]; apply store_Ok; auto using base_mapped, heap_mapped. Qed.

Lemma set_size_Ok s a v : space s -> (a = base \/ USER_HEAP_BASE <= a /\ a + 8 <= ubrk s) ->
  set_size a v s = Ok (tt, with_words (<[a + 4 := v]> (words s)) s).
Proof.
  intros H Ha. pose proof heap_base. pose proof (sp_brk _ H). unfold set_size.
  assert (USER_HEAP_BASE < USER_HEAP_TOP) by done.
  rewrite addr_u32 by (destruct Ha as [->|Ha]; lia).
  apply store_Ok. destruct Ha as [->|Ha]; [apply base_mapped; auto|apply heap_mapped; [done|lia]].
Qed.

Lemma space_with s f : space s -> space (with_words f s).
Proof. by intros [H1 H2]; split. Qed.

Lemma hadd_in s a n : space s -> 0 <= a -> 0 <= n -> a + HDR * n <= ubrk s -> hadd a n = a + HDR * n.
Proof. intros H Ha Hn Hb. apply addr_u32. pose proof (sp_brk _ H). unfold HDR in *. lia. Qed.

(** The block joins the free block after it, if there is one. *)
Lemma join_next_Ok s bp p sz l2 : space s -> (p = base \/ USER_HEAP_BASE <= p < ubrk s) ->
  USER_HEAP_BASE <= bp -> 1 <= sz -> tiles (bp + HDR * sz) l2 (ubrk s) -> apart l2 ->
  words s !! (bp + 4) = Some sz -> words s !! p = Some (hd_addr (frees l2) base) -> chain (words s) (frees l2) base ->
  exists m sz' l2', join_next bp p s = Ok (tt, with_words m s) /\ sz <= sz' /\
    tiles (bp + HDR * sz') l2' (ubrk s) /\ apart l2' /\ starts_used l2' /\ allocs l2' = allocs l2 /\ (length l2' <= length l2)%nat /\
    chain m ((bp, sz') :: frees l2') base /\ (forall k, k <> bp -> k <> bp + 4 -> m !! k = words s !! k).
Proof.
  intros Hs Hp Hbp Hsz Ht Ha Hw Hwp Hc. pose proof (tiles_le _ _ _ Ht) as Hle. pose proof heap_base as HB.
  assert (bp + HDR * sz <= ubrk s /\ bp + 8 <= ubrk s) as [Hbe Hb8] by (unfold HDR in *; lia).
  unfold join_next. rewrite (bind_Ok _ _ _ _ _ (get_size_Ok s bp sz Hs (or_intror (conj Hbp Hb8)) Hw)).
  rewrite (bind_Ok _ _ _ _ _ (get_ptr_Ok s p _ Hs Hp Hwp)).
  rewrite (hadd_in s) by (done || lia).
  destruct (decide (starts_used l2)) as [Hu|Hu].
  - rewrite (proj2 (Z.eqb_neq _ _)).
    + rewrite (set_ptr_Ok s bp _ Hs) by lia. eexists _, sz, l2. split; [done|]. split_and!; try done.
      * simpl. rewrite lookup_insert_eq, lookup_insert_ne by lia. split_and!; [done..|].
        apply chain_insert; [|done]. intros x Hx. apply frees_elem in Hx as (c & Hx & _ & ->). simpl.
        apply (tiles_elem _ _ _ _ Ht) in Hx. unfold HDR in *. lia.
      * intros k H1 H2. by rewrite lookup_insert_ne.
    + destruct l2 as [|c l2]; simpl in *; [unfold HDR in *; lia|].
      destruct Ht as (Ec & Hc1 & Ht). unfold frees in *. simpl in *. rewrite Hu in *. simpl.
      destruct (map _ _) as [|x r] eqn:E; simpl; [unfold HDR in *; lia|].
      assert (x ∈ frees l2) as Hx by (unfold frees; rewrite E; left).
      apply frees_elem in Hx as (d & Hd & _ & ->). apply (tiles_elem _ _ _ _ Ht) in Hd. simpl. unfold bend, HDR in *. lia.
  - destruct l2 as [|c l2]; [done|]. simpl in Hu. apply not_false_is_true in Hu.
    pose proof (apart_free _ _ Ha Hu) as Hst.
    destruct Ht as (Ec & Hc1 & Ht). pose proof (tiles_le _ _ _ Ht) as Hle'. unfold bend in *. rewrite Ec in *.
    unfold frees in *. simpl in *. rewrite Hu in *. simpl in *. rewrite Ec in *.
    destruct Hc as (Hc2 & Hc3 & Hc4). rewrite Z.eqb_refl.
    assert (USER_HEAP_BASE <= bp + HDR * sz /\ bp + HDR * sz + 8 <= ubrk s) as Hc8 by (unfold HDR in *; lia).
    rewrite (bind_Ok _ _ _ _ _ (get_size_Ok s _ _ Hs (or_intror Hc8) Hc3)).
    rewrite (bind_Ok _ _ _ _ _ (set_size_Ok s bp _ Hs (or_intror (conj Hbp Hb8)))).
    assert (bp + 4 <> bp + HDR * sz) as Hne by (unfold HDR; lia).
    rewrite (bind_Ok _ _ _ (hd_addr (frees l2) base) (with_words (<[bp + 4 := u32 (sz + bsz c)]> (words s)) s)).
    2: { apply get_ptr_Ok; [by apply space_with|simpl; unfold HDR in *; lia|]. simpl. rewrite lookup_insert_ne by done. exact Hc2. }
    rewrite (set_ptr_Ok _ bp _ (space_with _ _ Hs)) by (simpl; lia). unfold with_words. simpl.
    assert (u32 (sz + bsz c) = sz + bsz c) as E32.
    { apply addr_u32. pose proof (sp_brk _ Hs). unfold HDR in *. lia. }
    eexists _, (sz + bsz c), l2. split; [done|]. split; [lia|]. split.
    { replace (bp + HDR * (sz + bsz c)) with (bp + HDR * sz + HDR * bsz c) by lia. done. }
    split; [apply Ha|]. split; [exact Hst|].
    split; [done|]. split; [lia|].
    rewrite E32. split.
    + simpl. rewrite lookup_insert_eq, lookup_insert_ne, lookup_insert_eq by lia. split_and!; [done..|].
      apply chain_insert; [|apply chain_insert; [|done]]; intros x Hx; apply frees_elem in Hx as (d & Hx & _ & ->); simpl;
        apply (tiles_elem _ _ _ _ Ht) in Hx; unfold HDR in *; lia.
    + intros k H1 H2. by rewrite !lookup_insert_ne.
Qed.

(** The block joins the node [p] before it, if they touch. *)
Lemma join_prev_Ok s bp pa ps sz r : space s -> (pa = base /\ ps = 0 \/ USER_HEAP_BASE <= pa /\ 1 <= ps) ->
  pa + HDR * ps <= bp -> base < bp -> 1 <= sz -> bp + HDR * sz <= ubrk s ->
  words s !! (pa + 4) = Some ps -> words s !! bp = Some r -> words s !! (bp + 4) = Some sz ->
  exists m, join_prev bp pa s = Ok (tt, with_words m s) /\
    (forall k, k <> pa -> k <> pa + 4 -> m !! k = words s !! k) /\
    if decide (pa + HDR * ps = bp) then m !! pa = Some r /\ m !! (pa + 4) = Some (ps + sz)
    else m !! pa = Some bp /\ m !! (pa + 4) = Some ps.
Proof.
  intros Hs Hp Hpb Hbb Hsz Hb Hw Hwb Hwb4. pose proof heap_base as HB. pose proof (sp_brk _ Hs) as Hbrk.
  assert (pa = base \/ USER_HEAP_BASE <= pa /\ pa + 8 <= ubrk s) as Hp8 by (unfold HDR in *; lia).
  assert (pa = base \/ USER_HEAP_BASE <= pa < ubrk s) as Hp1 by lia.
  assert (0 <= pa /\ 0 <= ps) as [Hpa Hps] by lia.
  unfold join_prev. rewrite (bind_Ok _ _ _ _ _ (get_size_Ok s pa ps Hs Hp8 Hw)).
  rewrite (hadd_in s) by (done || unfold HDR in *; lia).
  case_decide as D.
  - rewrite (proj2 (Z.eqb_eq _ _) D).
    assert (bp = base \/ USER_HEAP_BASE <= bp /\ bp + 8 <= ubrk s) as Hb8 by (unfold HDR in *; lia).
    rewrite (bind_Ok _ _ _ _ _ (get_size_Ok s bp sz Hs Hb8 Hwb4)).
    rewrite (bind_Ok _ _ _ _ _ (set_size_Ok s pa _ Hs Hp8)).
    rewrite (bind_Ok _ _ _ r (with_words (<[pa + 4 := u32 (ps + sz)]> (words s)) s)).
    2: { apply get_ptr_Ok; [by apply space_with|simpl; lia|]. simpl. rewrite lookup_insert_ne by (unfold HDR in *; lia). done. }
    rewrite (set_ptr_Ok _ pa _ (space_with _ _ Hs)) by (simpl; lia). unfold with_words. simpl.
    eexists. split; [done|]. rewrite lookup_insert_eq, lookup_insert_ne, lookup_insert_eq by lia.
    rewrite addr_u32 by (unfold HDR in *; lia). split; [|done].
    intros k H1 H2. by rewrite !lookup_insert_ne.
  - rewrite (proj2 (Z.eqb_neq _ _) D). rewrite (set_ptr_Ok s pa _ Hs Hp1).
    eexists. split; [done|]. rewrite lookup_insert_eq, lookup_insert_ne by lia. split; [|done].
    intros k H1 H2. by rewrite lookup_insert_ne.
Qed.
(** *** [free] *)

Lemma nodes_used l1 b l2 : isfree b = false -> nodes (l1 ++ b :: l2) = ((base, 0) :: frees l1) ++ frees l2.
Proof. intros H. unfold nodes. rewrite frees_app. unfold frees at 2. simpl. by rewrite H. Qed.

Lemma nodes_asc l e : tiles USER_HEAP_BASE l e -> asc (nodes l).
Proof.
  intros H. unfold nodes. apply asc_cons. split; [|by eapply tiles_asc]. intros y Hy.
  apply frees_elem in Hy as (c & Hc & _ & ->). apply (tiles_elem _ _ _ _ H) in Hc. simpl. lia.
Qed.

Lemma node_mapped s l x : space s -> tiles USER_HEAP_BASE l (ubrk s) -> x ∈ nodes l -> mapped s x.1 = true.
Proof.
  intros Hs Ht Hx. apply elem_of_cons in Hx as [->|Hx]; [apply base_mapped; by left|].
  apply frees_elem in Hx as (c & Hc & _ & ->). apply heap_mapped; [done|]. simpl.
  apply (tiles_elem _ _ _ _ Ht) in Hc. unfold bend, HDR in Hc. lia.
Qed.

Lemma nodes_length s l : tiles USER_HEAP_BASE l (ubrk s) -> (length (nodes l) <= S (units s))%nat.
Proof.
  intros H. unfold nodes, units, frees. simpl. rewrite length_map. apply tiles_length in H.
  pose proof (List.filter_length_le isfree l). lia.
Qed.

(** The search from any node ends at the last node before the block. *)
Lemma free_loop_Ok s l1 b l2 X p : heap_ok s (l1 ++ b :: l2) -> isfree b = false ->
  (base, 0) :: frees l1 = X ++ [p] -> free_loop (units s + 2) (addr b) (freep s) s = Ok (p.1, s).
Proof.
  intros H Hb EX. pose proof (space_ok _ _ H) as Hs. pose proof (h_tiles _ _ H) as Ht.
  pose proof (nodes_asc _ _ Ht) as Hasc. pose proof (h_chain _ _ H) as Hc. pose proof (h_freep _ _ H) as Hf.
  pose proof (nodes_length _ _ Ht) as Hlen. pose proof (fun x => node_mapped _ _ x Hs Ht) as Hm. clear H.
  rewrite (nodes_used _ _ _ Hb) in *.
  destruct (tiles_split _ _ _ _ _ Ht) as (T1 & T2 & T3 & _ & T4 & _).
  assert (forall x, x ∈ (base, 0) :: frees l1 -> x.1 < addr b) as Hbef.
  { intros x. rewrite elem_of_cons. intros [->|Hx]; [simpl; lia|]. apply frees_elem in Hx as (c & Hx & _ & ->).
    apply (tiles_before _ _ _ _ T1) in Hx. simpl. lia. }
  assert (forall x, x ∈ frees l2 -> addr b < x.1) as Haft.
  { intros x Hx. apply frees_elem in Hx as (c & Hx & _ & ->). apply (tiles_elem _ _ _ _ T3) in Hx.
    simpl. unfold bend, HDR in *. lia. }
  apply chain_app in Hc as [Hc1 Hc2]. apply asc_app in Hasc as (Ha1 & Ha2 & _).
  assert (addr b < hd_addr (frees l2) base \/ hd_addr (frees l2) base <= p.1) as He.
  { destruct (frees l2) as [|x r] eqn:E; [right|left; apply (Haft x); left]. simpl.
    assert (p ∈ (base, 0) :: frees l1) as Hp by (rewrite EX; set_solver).
    apply elem_of_cons in Hp as [->|Hp]; [done|]. apply asc_cons in Ha1 as [Ha1 _]. apply Ha1 in Hp. simpl in Hp. lia. }
  rewrite length_app in Hlen. apply list_elem_of_fmap in Hf as (q & -> & Hq).
  apply elem_of_app in Hq as [Hq|Hq].
  - apply list_elem_of_split in Hq as (Y & R & EY). rewrite EY in Hc1, Ha1, EX, Hlen.
    apply chain_app in Hc1 as [_ Hc1]. apply asc_app in Ha1 as (_ & Ha1 & _). rewrite length_app in Hlen.
    assert (exists X', q :: R = X' ++ [p]) as [X' EX'].
    { destruct (exists_last (l := q :: R)) as (X' & p' & E); [done|]. exists X'. rewrite E in EX |- *.
      rewrite app_assoc in EX. apply app_inj_tail in EX as [_ ->]. done. }
    eapply (walk_before s _ R q); [exact EX'|exact Hc1|exact Ha1| |exact He|simpl in Hlen; lia].
    intros x Hx. split; [apply Hbef|apply Hm; apply elem_of_app; left]; rewrite EY; apply elem_of_app; by right.
  - apply list_elem_of_split in Hq as (Y & R & EY). rewrite EY in Hc2, Ha2, Hlen.
    apply chain_app in Hc2 as [_ Hc2]. apply asc_app in Ha2 as (_ & Ha2 & _). rewrite length_app in Hlen.
    rewrite (walk_after s _ R q); [|exact Hc2|exact Ha2| |lia|simpl in Hlen; lia].
    + change base with (base, 0).1. eapply walk_before; [exact EX|exact Hc1|exact Ha1| |exact He|simpl in *; lia].
      intros x Hx. split; [by apply Hbef|apply Hm; apply elem_of_app; by left].
    + intros x Hx. split; [apply Haft|apply Hm; apply elem_of_app; right]; rewrite EY; apply elem_of_app; by right.
Qed.
Lemma tiles_sep l : forall a e c d, tiles a l e -> c ∈ l -> d ∈ l -> c = d \/ bend c <= addr d \/ bend d <= addr c.
Proof.
  induction l as [|b l IH]; intros a e c d H Hc Hd; [by apply not_elem_of_nil in Hc|].
  destruct H as (<- & H1 & H2). apply elem_of_cons in Hc, Hd. destruct Hc as [->|Hc], Hd as [->|Hd].
  - by left.
  - apply (tiles_elem _ _ _ _ H2) in Hd. lia.
  - apply (tiles_elem _ _ _ _ H2) in Hc. lia.
  - by eapply IH.
Qed.

Lemma chain_frame m m' l e : chain m l e ->
  (forall x, x ∈ l -> m' !! x.1 = m !! x.1 /\ m' !! (x.1 + 4) = m !! (x.1 + 4)) -> chain m' l e.
Proof.
  induction l as [|y l IH]; [done|]. intros (H1 & H2 & H3) Hf. destruct (Hf y) as [E1 E2]; [left|].
  simpl. rewrite E1, E2. split_and!; [done..|]. apply IH; [done|]. intros x Hx. apply Hf. by right.
Qed.

(** The words of the nodes [q] alone may differ. *)
Definition only (m m' : gmap Z Z) (q : list Z) : Prop :=
  forall k, (forall a, a ∈ q -> k <> a /\ k <> a + 4) -> m' !! k = m !! k.

(** What the users of the allocator see: their blocks are as before. *)
Definition kept (l : list blk) (s s' : mstate) : Prop :=
  forall c k, c ∈ allocs l -> addr c + 4 <= k < bend c -> words s' !! k = words s !! k.

Definition freed (s : mstate) (l1 : list blk) (b : blk) (l2 : list blk) (s' : mstate) : Prop :=
  exists l', heap_ok s' l' /\ allocs l' = allocs (l1 ++ l2) /\ ubrk s' = ubrk s /\ kept (l1 ++ l2) s s' /\
    (length l' <= length (l1 ++ b :: l2))%nat /\
    exists f, f ∈ l' /\ isfree f = true /\ addr f <= addr b /\ bend b <= bend f.

(** The last node before a block: [base], a block that ends before, or the free block that
    it touches. *)
Lemma last_node l1 bp X p : tiles USER_HEAP_BASE l1 bp -> (base, 0) :: frees l1 = X ++ [p] ->
  (p.1 + HDR * p.2 < bp /\ (forall d l, l1 = l ++ [d] -> isfree d = false) /\
   (p = (base, 0) \/ exists d, d ∈ l1 /\ isfree d = true /\ p = (addr d, bsz d))) \/
  (exists l d, l1 = l ++ [d] /\ isfree d = true /\ p = (addr d, bsz d) /\ bend d = bp /\ X = (base, 0) :: frees l).
Proof.
  intros Ht EX. destruct l1 as [|d l _] using rev_ind.
  - left. simpl in *. subst bp. destruct X as [|? []]; try discriminate. injection EX as <-. simpl. unfold HDR.
    split; [lia|]. split; [|by left]. by intros ? [].
  - apply tiles_app in Ht as (m & Ht & <- & Hd & Hbp). simpl in Hbp.
    rewrite frees_app in EX. unfold frees in EX at 2. simpl in EX. destruct (isfree d) eqn:Ed; simpl in EX.
    + right. exists l, d. rewrite app_comm_cons in EX. apply app_inj_tail in EX as [<- <-]. done.
    + left. rewrite app_nil_r in EX. assert (p ∈ (base, 0) :: frees l) as Hp by (rewrite EX; set_solver).
      split_and!.
      * pose proof (tiles_le _ _ _ Ht). unfold bend, HDR in *. apply elem_of_cons in Hp as [->|Hp]; [simpl; lia|].
        apply frees_elem in Hp as (c & Hc & _ & ->). apply (tiles_elem _ _ _ _ Ht) in Hc. simpl. unfold bend, HDR in *. lia.
      * intros d' l' E. apply app_inj_tail in E as [_ <-]. done.
      * apply elem_of_cons in Hp as [->|Hp]; [by left|]. right. apply frees_elem in Hp as (c & Hc & Hf & ->).
        exists c. set_solver.
Qed.
Lemma nodes_sep l e x y : tiles USER_HEAP_BASE l e -> x ∈ nodes l -> y ∈ nodes l -> x.1 < y.1 -> x.1 + 8 <= y.1.
Proof.
  intros Ht Hx Hy Hlt. unfold nodes in *. apply elem_of_cons in Hx, Hy. destruct Hy as [->|Hy].
  - destruct Hx as [->|Hx]; [lia|]. apply frees_elem in Hx as (c & Hc & _ & ->).
    apply (tiles_elem _ _ _ _ Ht) in Hc. simpl in *. lia.
  - apply frees_elem in Hy as (d & Hd & _ & ->). pose proof (tiles_elem _ _ _ _ Ht Hd) as Hd'. simpl in *.
    destruct Hx as [->|Hx]; [simpl; lia|]. apply frees_elem in Hx as (c & Hc & _ & ->). simpl in *.
    pose proof (tiles_elem _ _ _ _ Ht Hc) as Hc'.
    destruct (tiles_sep _ _ _ _ _ Ht Hc Hd) as [->|[H|H]]; unfold bend, HDR in *; lia.
Qed.

(** The stores of [free] leave the other blocks alone. *)
Lemma kept_only l1 b l2 e m m' pa c k : tiles USER_HEAP_BASE (l1 ++ b :: l2) e ->
  (pa = base \/ exists d, d ∈ l1 /\ isfree d = true /\ pa = addr d) -> only m m' [addr b; pa] ->
  c ∈ allocs (l1 ++ l2) -> addr c <= k < bend c -> m' !! k = m !! k.
Proof.
  intros Ht Hp Ho Hc Hk. apply allocs_elem in Hc as [Hc Hf].
  destruct (tiles_split _ _ _ _ _ Ht) as (T1 & T2 & T3 & _ & T4 & _).
  assert (bend c <= addr b \/ bend b <= addr c) as Hcb.
  { apply elem_of_app in Hc as [Hc|Hc]; [apply (tiles_elem _ _ _ _ T1) in Hc|apply (tiles_elem _ _ _ _ T3) in Hc]; lia. }
  assert (bend c <= pa \/ pa + 8 <= addr c) as Hcp.
  { destruct Hp as [->|(d & Hd & Hdf & ->)].
    - destruct (tiles_elem _ _ _ c Ht) as (? & _); [set_solver|]. lia.
    - pose proof (tiles_elem _ _ _ _ T1 Hd) as Hd'.
      destruct (tiles_sep _ _ _ c d Ht) as [->|[H|H]]; [set_solver..|congruence|by left|unfold bend, HDR in *; lia]. }
  apply Ho. intros a Ha. apply elem_of_cons in Ha as [->|Ha]; [unfold bend, HDR in *; lia|].
  apply list_elem_of_singleton in Ha as ->. lia.
Qed.

(** The heap with the block [f] in place of [b] and the free blocks it touches. *)
Lemma freed_intro s l1 b l2 m pa L f l2' : heap_ok s (l1 ++ b :: l2) ->
  tiles USER_HEAP_BASE (L ++ f :: l2') (ubrk s) -> apart (L ++ f :: l2') -> isfree f = true ->
  allocs L = allocs l1 -> allocs l2' = allocs l2 -> (length (L ++ f :: l2') <= length (l1 ++ b :: l2))%nat ->
  addr f <= addr b -> bend b <= bend f ->
  chain m (nodes (L ++ f :: l2')) base -> pa ∈ map fst (nodes (L ++ f :: l2')) ->
  (forall c k, c ∈ allocs (l1 ++ l2) -> addr c <= k < bend c -> m !! k = words s !! k) ->
  freed s l1 b l2 (MState m pa (ubrk s) (pages s)).
Proof.
  intros H Ht Ha Hf E1 E2 Hl Hfb Hbf Hc Hp Hk.
  assert (allocs (L ++ f :: l2') = allocs (l1 ++ l2)) as E.
  { rewrite !allocs_app, E1. f_equal. rewrite <- E2. unfold allocs. simpl. by rewrite Hf. }
  exists (L ++ f :: l2'). split; [split; simpl; try done|split; [done|split; [done|split; [|split; [done|]]]]].
  - intros c Hc' Hcf. assert (c ∈ allocs (l1 ++ l2)) as Hc'' by (rewrite <- E; by apply allocs_elem).
    destruct (tiles_elem _ _ _ c Ht Hc') as (_ & ? & _).
    rewrite (Hk c (addr c + 4)) by (done || unfold bend, HDR; lia).
    apply (h_alloc _ _ H); [apply allocs_elem in Hc''; set_solver|done].
  - apply (h_brk _ _ H).
  - apply (h_pages _ _ H).
  - intros c k Hc' Hkk. apply (Hk c); [done|lia].
  - exists f. split; [set_solver|done].
Qed.

Lemma free_nodes L f l2' : isfree f = true -> nodes (L ++ f :: l2') = ((base, 0) :: frees L) ++ (addr f, bsz f) :: frees l2'.
Proof. intros H. unfold nodes. rewrite frees_app. unfold frees at 2. simpl. by rewrite H. Qed.

(** What [free] needs of the node [p] before the block. *)
Lemma prev_node l1 bp X p : tiles USER_HEAP_BASE l1 bp -> (base, 0) :: frees l1 = X ++ [p] ->
  (p.1 = base /\ p.2 = 0 \/ USER_HEAP_BASE <= p.1 /\ 1 <= p.2) /\
  (p.1 = base \/ exists d, d ∈ l1 /\ isfree d = true /\ p.1 = addr d) /\
  p.1 + HDR * p.2 <= bp /\ p.1 + 8 <= bp /\ (forall x, x ∈ X -> x.1 + 8 <= p.1).
Proof.
  intros T1 EX. pose proof (last_node _ _ _ _ T1 EX) as Hlast. pose proof (tiles_le _ _ _ T1).
  assert (p ∈ nodes l1) as Hp by (unfold nodes; rewrite EX; set_solver).
  assert (p.1 = base /\ p.2 = 0 \/ USER_HEAP_BASE <= p.1 /\ 1 <= p.2) as Hp1.
  { apply elem_of_cons in Hp as [->|Hp]; [by left|right]. apply frees_elem in Hp as (d & Hd & _ & ->).
    apply (tiles_elem _ _ _ _ T1) in Hd. simpl. lia. }
  assert (p.1 + HDR * p.2 <= bp) by (destruct Hlast as [(? & _)|(l & d & _ & _ & -> & <- & _)]; [lia|done]).
  split_and!; [done| |done|unfold HDR in *; lia|].
  - apply elem_of_cons in Hp as [->|Hp]; [by left|right]. apply frees_elem in Hp as (d & Hd & Hdf & ->). by exists d.
  - intros x Hx. eapply (nodes_sep l1); [exact T1|unfold nodes; rewrite EX; set_solver|done|].
    pose proof (nodes_asc l1 _ T1) as Ha. unfold nodes in Ha. rewrite EX in Ha. apply asc_app in Ha as (_ & _ & Ha).
    apply Ha; [done|set_solver].
Qed.

(** The memory that [free] leaves. *)
Lemma free_run s l1 b l2 X p : heap_ok s (l1 ++ b :: l2) -> isfree b = false -> (base, 0) :: frees l1 = X ++ [p] ->
  exists m sz l2', free (addr b + 8) s = Ok (tt, MState m p.1 (ubrk s) (pages s)) /\
    bsz b <= sz /\ tiles (addr b + HDR * sz) l2' (ubrk s) /\ apart l2' /\ starts_used l2' /\ allocs l2' = allocs l2 /\
    (length l2' <= length l2)%nat /\ only (words s) m [addr b; p.1] /\ chain m X p.1 /\ chain m (frees l2') base /\
    if decide (p.1 + HDR * p.2 = addr b) then m !! p.1 = Some (hd_addr (frees l2') base) /\ m !! (p.1 + 4) = Some (p.2 + sz)
    else m !! p.1 = Some (addr b) /\ m !! (p.1 + 4) = Some p.2 /\
      m !! addr b = Some (hd_addr (frees l2') base) /\ m !! (addr b + 4) = Some sz.
Proof.
  intros H Hb EX. pose proof (space_ok _ _ H) as Hs. pose proof (h_tiles _ _ H) as Ht. pose proof (h_chain _ _ H) as Hc.
  rewrite (nodes_used _ _ _ Hb), EX in Hc.
  destruct (tiles_split _ _ _ _ _ Ht) as (T1 & T2 & T3 & _ & T4 & T5).
  destruct (prev_node _ _ _ _ T1 EX) as (Hp1 & _ & Hpb & Hp8 & HX).
  apply chain_app in Hc as [Hc1 Hc2]. apply chain_app in Hc1 as [Hc1 Hcp]. destruct Hcp as (Hcp & Hcp4 & _).
  pose proof heap_base as HB. pose proof (sp_brk _ Hs) as Hbrk.
  assert (words s !! (addr b + 4) = Some (bsz b)) as Hwb by (apply (h_alloc _ _ H); [set_solver|done]).
  destruct (apart_app _ _ (h_apart _ _ H)) as [_ [_ Ap2]].
  destruct (join_next_Ok s (addr b) p.1 (bsz b) l2) as (m1 & sz & l2' & E1 & Hsz & T3' & Ap3 & Hst & Hal & Hl2 & Hch & Ho1);
    [done|unfold bend, HDR in *; lia|done|done|done|done|done|done|done|].
  destruct Hch as (Hm1 & Hm2 & Hm3). simpl in Hm1, Hm2. pose proof (tiles_le _ _ _ T3') as Hle'.
  destruct (join_prev_Ok (with_words m1 s) (addr b) p.1 p.2 sz (hd_addr (frees l2') base)) as (m2 & E2 & Ho2 & Hend);
    [by apply space_with|done|lia|lia|lia|done|simpl; rewrite Ho1 by lia; done|done|done|].
  simpl in Ho2. exists m2, sz, l2'.
  assert (only (words s) m2 [addr b; p.1]) as Ho.
  { intros k Hk. destruct (Hk (addr b)) as [K1 K2]; [set_solver|]. destruct (Hk p.1) as [K3 K4]; [set_solver|].
    rewrite Ho2 by done. by apply Ho1. }
  split; [|do 6 (split; [done|])].
  - unfold free. replace (addr b + 8 - HDR) with (addr b) by (unfold HDR; lia).
    rewrite addr_u32 by (unfold bend, HDR in *; lia).
    cbv zeta. rewrite (bind_Ok _ _ _ s s) by done. rewrite (bind_Ok _ _ _ _ _ (free_loop_Ok _ _ _ _ _ _ H Hb EX)).
    rewrite (bind_Ok _ _ _ _ _ E1). rewrite (bind_Ok _ _ _ _ _ E2). done.
  - split; [done|]. split; [|split].
    + eapply chain_frame; [exact Hc1|]. intros x Hx. apply HX in Hx.
      split; apply Ho; intros a Ha; apply elem_of_cons in Ha as [->|Ha]; try lia; apply list_elem_of_singleton in Ha as ->; lia.
    + eapply chain_frame; [exact Hm3|]. intros x Hx. apply frees_elem in Hx as (c & Hx & _ & ->).
      apply (tiles_elem _ _ _ _ T3') in Hx. simpl. split; apply Ho2; unfold HDR in *; lia.
    + case_decide; [done|]. rewrite !(Ho2 (addr b)), (Ho2 (addr b + 4)) by lia. tauto.
Qed.

Lemma free_spec s l1 b l2 : heap_ok s (l1 ++ b :: l2) -> isfree b = false ->
  exists s', free (addr b + 8) s = Ok (tt, s') /\ freed s l1 b l2 s'.
Proof.
  intros H Hb. pose proof (h_tiles _ _ H) as Ht. destruct (tiles_split _ _ _ _ _ Ht) as (T1 & T2 & T3 & _ & T4 & T5).
  destruct (exists_last (l := (base, 0) :: frees l1)) as (X & p & EX); [done|].
  destruct (free_run _ _ _ _ _ _ H Hb EX) as (m & sz & l2' & E & Hsz & T3' & Ap3 & Hst & Hal & Hl2 & Ho & HcX & HcY & Hend).
  eexists. split; [exact E|]. destruct (prev_node _ _ _ _ T1 EX) as (_ & Hp & _).
  assert (forall c k, c ∈ allocs (l1 ++ l2) -> addr c <= k < bend c -> m !! k = words s !! k) as Hk.
  { intros c k. by apply (kept_only l1 b l2 (ubrk s) (words s) m p.1 c k). }
  destruct (apart_app _ _ (h_apart _ _ H)) as [Ap1 _].
  destruct (last_node _ _ _ _ T1 EX) as [(L1 & L2 & _)|(l & d & -> & Hdf & -> & Hde & ->)].
  - rewrite decide_False in Hend by lia. destruct Hend as (M1 & M2 & M3 & M4).
    apply (freed_intro s l1 b l2 m p.1 l1 (Blk (addr b) sz true) l2'); try done.
    + apply tiles_app. exists (addr b). split; [done|]. simpl. split_and!; [done|lia|done].
    + apply apart_join; [done|intros c l0 El; by eapply L2|]. simpl. split; [destruct l2'; [done|exact Hst]|done].
    + rewrite !length_app. simpl. lia.
    + unfold bend. simpl. unfold HDR. lia.
    + rewrite free_nodes by done. rewrite EX. apply chain_app. split; [|simpl; done]. apply chain_app. split; [done|]. simpl. done.
    + rewrite free_nodes by done. rewrite EX. apply list_elem_of_fmap_2. set_solver.
  - rewrite decide_True in Hend by exact Hde. destruct Hend as (M1 & M2). simpl in *.
    apply tiles_app in T1 as (m0 & T1 & <- & Td & _). destruct (apart_app _ _ Ap1) as [Ap1' _].
    apply (freed_intro s _ b l2 m _ l (Blk (addr d) (bsz d + sz) true) l2'); try done.
    + apply tiles_app. exists (addr d). split; [done|]. simpl. split; [done|]. split; [lia|].
      unfold bend in *. simpl. replace (addr d + HDR * (bsz d + sz)) with (addr b + HDR * sz) by lia. done.
    + apply apart_join; [done| |simpl; split; [destruct l2'; [done|exact Hst]|done]].
      intros c l0 ->. rewrite <- app_assoc in Ap1. apply apart_app in Ap1 as [_ [Ap1 _]]. simpl in Ap1. rewrite Hdf, andb_true_r in Ap1. done.
    + rewrite allocs_app. unfold allocs at 3. simpl. rewrite Hdf. simpl. by rewrite app_nil_r.
    + rewrite !length_app. simpl. lia.
    + cbn [addr]. unfold bend, HDR in *. lia.
    + unfold bend in *. simpl. unfold HDR in *. lia.
    + rewrite free_nodes by done. apply chain_app. split; [exact HcX|]. simpl. done.
    + rewrite free_nodes by done. apply (list_elem_of_fmap_2 fst _ (addr d, bsz d + sz)). set_solver.
Qed.

(** *** [malloc] *)

(** The block [c] of [n] units has been taken from the heap [l]. *)
Definition taken (s : mstate) (l : list blk) (n r : Z) (s' : mstate) : Prop :=
  exists l' l1 c l2, heap_ok s' l' /\ allocs l = l1 ++ l2 /\ allocs l' = l1 ++ c :: l2 /\ bsz c = n /\ r = addr c + 8 /\
    ubrk s' = ubrk s /\ kept l s s'.

Lemma chain_set_ptr m X p e e' : (forall x, x ∈ X -> x.1 + 8 <= p.1) -> chain m (X ++ [p]) e ->
  chain (<[p.1 := e']> m) (X ++ [p]) e'.
Proof.
  intros HX. rewrite !chain_app. intros [H1 (H2 & H3 & _)]. split.
  - simpl in *. apply chain_insert; [|done]. intros x Hx. apply HX in Hx. lia.
  - simpl. rewrite lookup_insert_eq, lookup_insert_ne by lia. done.
Qed.

Lemma chain_set_size m l x l' e sz : (forall y, y ∈ l -> y.1 + 8 <= x.1) -> (forall y, y ∈ l' -> x.1 + 8 <= y.1) ->
  chain m (l ++ x :: l') e -> chain (<[x.1 + 4 := sz]> m) (l ++ (x.1, sz) :: l') e.
Proof.
  intros H1 H2. rewrite !chain_app. simpl. intros (C1 & C2 & C3 & C4).
  rewrite lookup_insert_eq, lookup_insert_ne by lia. split_and!; [|done|done|].
  - apply chain_insert; [|done]. intros y Hy. apply H1 in Hy. lia.
  - apply chain_insert; [|done]. intros y Hy. apply H2 in Hy. lia.
Qed.

(** The other blocks of a heap are outside of the block [b]. *)
Lemma outside_blk l1 b l2 e c : tiles USER_HEAP_BASE (l1 ++ b :: l2) e -> c ∈ l1 ++ l2 ->
  1 <= bsz c /\ (bend c <= addr b \/ bend b <= addr c).
Proof.
  intros Ht Hc. destruct (tiles_split _ _ _ _ _ Ht) as (T1 & T2 & T3 & _ & T4 & _).
  apply elem_of_app in Hc as [Hc|Hc]; [apply (tiles_elem _ _ _ _ T1) in Hc|apply (tiles_elem _ _ _ _ T3) in Hc]; lia.
Qed.
Lemma apart_flip l1 b c l2 : isfree c = false -> apart (l1 ++ b :: l2) -> apart (l1 ++ c :: l2).
Proof.
  intros Hc. induction l1 as [|d l1 IH]; simpl.
  - intros [_ H]. split; [|done]. destruct l2; [done|]. by rewrite Hc.
  - intros [H1 H2]. split; [|by apply IH]. destruct l1; simpl in *; [|done]. rewrite Hc. by rewrite andb_false_r.
Qed.

Section take.
Context (s : mstate) (l1 : list blk) (b : blk) (l2 : list blk) (X : list (Z * Z)) (p : Z * Z).
Context (H : heap_ok s (l1 ++ b :: l2)) (Hb : isfree b = true) (EX : (base, 0) :: frees l1 = X ++ [p]).

Lemma take_facts : space s /\ words s !! addr b = Some (hd_addr (frees l2) base) /\ words s !! (addr b + 4) = Some (bsz b) /\
  USER_HEAP_BASE <= addr b /\ addr b + 8 <= ubrk s /\ bend b <= ubrk s /\ 1 <= bsz b /\
  chain (words s) (X ++ [p]) (addr b) /\ chain (words s) (frees l2) base.
Proof.
  pose proof (h_chain _ _ H) as Hc. rewrite free_nodes, EX in Hc by done. apply chain_app in Hc as [Hc1 (Hc2 & Hc3 & Hc4)].
  destruct (tiles_split _ _ _ _ _ (h_tiles _ _ H)) as (T1 & T2 & T3 & _ & T4 & T5). simpl in *.
  split_and!; try done; [by eapply space_ok|unfold bend, HDR in *; lia].
Qed.

Lemma take_exact : exists s', take_block p.1 (addr b) (bsz b) s = Ok (addr b + 8, s') /\
  taken s (l1 ++ b :: l2) (bsz b) (addr b + 8) s'.
Proof.
  destruct take_facts as (Hs & W1 & W2 & B1 & B2 & B3 & B4 & C1 & C2). pose proof (h_tiles _ _ H) as Ht.
  destruct (tiles_split _ _ _ _ _ Ht) as (T1 & T2 & T3 & _ & T4 & T5).
  destruct (prev_node _ _ _ _ T1 EX) as (P1 & P2 & P3 & P4 & PX). pose proof heap_base as HB.
  unfold take_block. rewrite (bind_Ok _ _ _ _ _ (get_size_Ok s _ _ Hs (or_intror (conj B1 B2)) W2)), Z.eqb_refl.
  eexists. split.
  { erewrite bind_Ok; [|erewrite bind_Ok by (by apply get_ptr_Ok; [|lia|]); erewrite bind_Ok; [done|apply set_ptr_Ok; [done|lia]]].
    erewrite bind_Ok by done. unfold mret, M_ret. rewrite (hadd_in s) by (done || unfold HDR; lia). done. }
  assert (chain (<[p.1 := hd_addr (frees l2) base]> (words s)) (nodes (l1 ++ Blk (addr b) (bsz b) false :: l2)) base) as Hc.
  { rewrite nodes_used, EX by done. apply chain_app. split; [by eapply chain_set_ptr|].
    apply chain_insert; [|done]. intros x Hx. apply frees_elem in Hx as (c & Hx & _ & ->).
    apply (tiles_elem _ _ _ _ T3) in Hx. simpl. unfold bend, HDR in *. lia. }
  assert (forall c k, c ∈ allocs (l1 ++ l2) -> addr c <= k < bend c -> <[p.1 := hd_addr (frees l2) base]> (words s) !! k = words s !! k) as Hk.
  { intros c k Hc' Hkk. eapply (kept_only l1 b l2 _ _ _ p.1 c k Ht); [done| |done|done].
    intros j Hj. destruct (Hj p.1) as [Hj1 _]; [set_solver|]. by rewrite lookup_insert_ne. }
  exists (l1 ++ Blk (addr b) (bsz b) false :: l2), (allocs l1), (Blk (addr b) (bsz b) false), (allocs l2).
  split; [split; cbn [words freep ubrk pages]; try apply H|].
  - apply tiles_app. exists (addr b). done.
  - eapply apart_flip; [done|apply (h_apart _ _ H)].
  - exact Hc.
  - intros c Hc' Hcf. apply elem_of_app in Hc'. rewrite elem_of_cons in Hc'.
    assert (c ∈ l1 ++ l2 \/ c = Blk (addr b) (bsz b) false) as [Hin | ->] by set_solver.
    + destruct (outside_blk _ _ _ _ _ Ht Hin) as [Hc1 _]. rewrite (Hk c); [apply (h_alloc _ _ H); [set_solver|done]| |unfold bend, HDR; lia].
      by apply allocs_elem.
    + simpl. rewrite lookup_insert_ne by lia. done.
  - rewrite nodes_used, EX by done. apply list_elem_of_fmap_2. set_solver.
  - split_and!; simpl; try done.
    + rewrite allocs_app. unfold allocs at 2. simpl. by rewrite Hb.
    + by rewrite allocs_app.
    + intros c k Hc' Hkk. apply (Hk c); [|lia]. rewrite allocs_app in Hc' |- *. unfold allocs at 2 in Hc'. simpl in Hc'. by rewrite Hb in Hc'.
Qed.

Lemma take_split n : 1 <= n < bsz b -> exists s', take_block p.1 (addr b) n s = Ok (addr b + HDR * (bsz b - n) + 8, s') /\
  taken s (l1 ++ b :: l2) n (addr b + HDR * (bsz b - n) + 8) s'.
Proof.
  intros Hn. destruct take_facts as (Hs & W1 & W2 & B1 & B2 & B3 & B4 & C1 & C2). pose proof (h_tiles _ _ H) as Ht.
  destruct (tiles_split _ _ _ _ _ Ht) as (T1 & T2 & T3 & _ & T4 & T5). pose proof (sp_brk _ Hs) as Hbrk.
  destruct (prev_node _ _ _ _ T1 EX) as (P1 & P2 & P3 & P4 & PX). pose proof heap_base as HB.
  set (q := addr b + HDR * (bsz b - n)).
  assert (addr b + 8 <= q /\ q + HDR * n <= ubrk s /\ q + 8 <= ubrk s /\ q + HDR * n = bend b) as (Q1 & Q2 & Q3 & Q4)
    by (unfold q, bend, HDR in *; lia).
  unfold take_block. rewrite (bind_Ok _ _ _ _ _ (get_size_Ok s _ _ Hs (or_intror (conj B1 B2)) W2)).
  rewrite (proj2 (Z.eqb_neq _ _)) by lia. rewrite (addr_u32 (bsz b - n)) by (unfold bend, HDR in *; lia).
  assert (hadd (addr b) (bsz b - n) = q) as -> by (unfold q; apply (hadd_in s); [done|lia|lia|unfold bend, HDR in *; lia]).
  cbv zeta. eexists. split.
  { erewrite bind_Ok; [|erewrite bind_Ok by (apply set_size_Ok; [done|lia]); erewrite bind_Ok; [done|
      apply set_size_Ok; [by apply space_with|simpl; lia]]].
    erewrite bind_Ok by done. unfold mret, M_ret. rewrite (hadd_in s) by (done || unfold HDR in *; lia). done. }
  unfold with_words. simpl.
  set (m := <[q + 4 := n]> (<[addr b + 4 := bsz b - n]> (words s))).
  assert (forall k, k <> addr b + 4 -> k <> q + 4 -> m !! k = words s !! k) as Hm.
  { intros k K1 K2. unfold m. by rewrite !lookup_insert_ne. }
  exists (l1 ++ Blk (addr b) (bsz b - n) true :: Blk q n false :: l2), (allocs l1), (Blk q n false), (allocs l2).
  assert (forall c k, c ∈ l1 ++ l2 -> addr c <= k < bend c -> m !! k = words s !! k) as Hk.
  { intros c k Hin Hkk. apply Hm; destruct (outside_blk _ _ _ _ _ Ht Hin); unfold bend, HDR in *; lia. }
  assert (nodes (l1 ++ Blk (addr b) (bsz b - n) true :: Blk q n false :: l2) = ((base, 0) :: frees l1) ++ (addr b, bsz b - n) :: frees l2) as En.
  { rewrite free_nodes by done. done. }
  split; [split; cbn [words freep ubrk pages]; try apply H|].
  - apply tiles_app. exists (addr b). split; [done|]. simpl. split_and!; [done|lia|done|lia|].
    change (tiles (q + HDR * n) l2 (ubrk s)). by rewrite Q4.
  - pose proof (h_apart _ _ H) as Ha. apply apart_app in Ha as Ha'. destruct Ha' as [Ha1 Ha2].
    apply apart_join; [done| |].
    + intros c l ->. rewrite <- app_assoc in Ha. apply apart_app in Ha as [_ [Ha _]]. simpl in Ha. rewrite Hb, andb_true_r in Ha. done.
    + simpl. split; [done|]. split; [by destruct l2|apply Ha2].
  - rewrite En. unfold m. apply chain_insert.
    + intros x Hx. apply elem_of_app in Hx as [Hx|Hx].
      * rewrite EX in Hx. assert (x.1 + 8 <= addr b); [|lia]. apply elem_of_app in Hx as [Hx|Hx]; [apply PX in Hx; lia|].
        apply list_elem_of_singleton in Hx as ->. lia.
      * apply elem_of_cons in Hx as [->|Hx]; simpl; [lia|]. apply frees_elem in Hx as (c & Hx & _ & ->).
        apply (tiles_elem _ _ _ _ T3) in Hx. simpl. unfold bend, HDR in *. lia.
    + apply (chain_set_size _ _ (addr b, bsz b)); simpl.
      * rewrite EX. intros y Hy. apply elem_of_app in Hy as [Hy|Hy]; [apply PX in Hy; lia|].
        apply list_elem_of_singleton in Hy as ->. lia.
      * intros y Hy. apply frees_elem in Hy as (c & Hy & _ & ->). apply (tiles_elem _ _ _ _ T3) in Hy. simpl. unfold bend, HDR in *. lia.
      * pose proof (h_chain _ _ H) as Hc. rewrite free_nodes in Hc by done. exact Hc.
  - intros c Hc' Hcf. assert (c ∈ l1 ++ l2 \/ c = Blk q n false) as [Hin | ->].
    { apply elem_of_app in Hc' as [Hc'|Hc']; [left; set_solver|]. rewrite !elem_of_cons in Hc'. destruct Hc' as [->|Hc']; [done|set_solver]. }
    + destruct (outside_blk _ _ _ _ _ Ht Hin) as [Hc1 _]. rewrite (Hk c); [apply (h_alloc _ _ H); [set_solver|done]|done|unfold bend, HDR; lia].
    + simpl. unfold m. by rewrite lookup_insert_eq.
  - rewrite En, EX. apply list_elem_of_fmap_2. set_solver.
  - split_and!; simpl; try done.
    + rewrite allocs_app. unfold allocs at 2. simpl. by rewrite Hb.
    + by rewrite allocs_app.
    + intros c k Hc' Hkk. apply (Hk c); [|lia]. apply allocs_elem in Hc' as [Hc' Hcf].
      apply elem_of_app in Hc' as [Hc'|Hc']; [set_solver|]. apply elem_of_cons in Hc' as [->|Hc']; [congruence|set_solver].
Qed.
End take.
(** A large enough node is taken. *)
Lemma asc_split_inj X Y X' Y' x : asc (X ++ x :: Y) -> X ++ x :: Y = X' ++ x :: Y' -> X = X'.
Proof.
  revert X'. induction X as [|z X IH]; intros [|z' X'] Ha E; simpl in *.
  - done.
  - injection E as -> ->. apply asc_cons in Ha as [Ha _]. specialize (Ha z'). set_solver by lia.
  - injection E as -> <-. apply asc_cons in Ha as [Ha _]. specialize (Ha x). set_solver by lia.
  - injection E as -> E. apply asc_cons in Ha as [_ Ha]. f_equal. by apply IH.
Qed.

Lemma take_spec s l prev x n : heap_ok s l -> prev ∈ nodes l -> x ∈ nodes l -> words s !! prev.1 = Some x.1 ->
  1 <= n <= x.2 -> exists r s', take_block prev.1 x.1 n s = Ok (r, s') /\ taken s l n r s'.
Proof.
  intros H Hp Hx Hw Hn. pose proof (nodes_asc _ _ (h_tiles _ _ H)) as Ha. pose proof (h_chain _ _ H) as Hc.
  assert (Hx' : x ∈ frees l) by (apply elem_of_cons in Hx as [->|Hx]; [simpl in Hn; lia|done]).
  apply frees_elem in Hx' as (b & Hb & Hf & ->). simpl in Hn, Hw |- *. pose proof (tiles_elem _ _ _ _ (h_tiles _ _ H) Hb) as (B1 & _).
  apply list_elem_of_split in Hb as (l1 & l2 & ->).
  apply list_elem_of_split in Hp as (X & Y & EN). rewrite EN in Hc, Ha. apply chain_app in Hc as [_ (Hc & _)].
  rewrite Hw in Hc. injection Hc as Hc. destruct Y as [|y Y]; [simpl in Hc; lia|]. simpl in Hc.
  assert (y = (addr b, bsz b)) as ->.
  { assert (y ∈ nodes (l1 ++ b :: l2)) as Hy by (rewrite EN; set_solver). unfold nodes in Hy.
    apply elem_of_cons in Hy as [->|Hy]; [simpl in Hc; lia|]. apply frees_elem in Hy as (c & Hy & _ & ->). simpl in Hc.
    destruct (tiles_sep _ _ _ b c (h_tiles _ _ H)) as [->|Hs]; [set_solver|done|done|].
    pose proof (tiles_elem _ _ _ b (h_tiles _ _ H) ltac:(set_solver)). pose proof (tiles_elem _ _ _ _ (h_tiles _ _ H) Hy).
    unfold bend, HDR in *. lia. }
  assert ((base, 0) :: frees l1 = X ++ [prev]) as EX.
  { rewrite free_nodes in EN by done. change (X ++ prev :: (addr b, bsz b) :: Y) with (X ++ [prev] ++ (addr b, bsz b) :: Y) in EN, Ha.
    rewrite app_assoc in EN, Ha. rewrite <- EN in Ha. by eapply asc_split_inj. }
  destruct (decide (n = bsz b)) as [->|Hne].
  - destruct (take_exact s l1 b l2 X prev H Hf EX) as (s' & E & T). eauto.
  - destruct (take_split s l1 b l2 X prev H Hf EX n) as (s' & E & T); [lia|]. eauto.
Qed.

(** Through the nodes [R] up to the one at [freep]. *)
Lemma search_loop s l f n R : heap_ok s l -> freep s = f -> forall prev fuel,
  chain (words s) (prev :: R) f -> (forall x, x ∈ prev :: R -> x ∈ nodes l) ->
  (forall x, x ∈ R -> x.1 <> f) -> (length R < fuel)%nat ->
  exists prev' x, prev' ∈ prev :: R /\ words s !! prev'.1 = Some x /\
    ((exists y, y ∈ R /\ y.1 = x /\ n <= y.2 /\ malloc_loop fuel n prev.1 (hd_addr R f) s = take_block prev'.1 x n s) \/
     (x = f /\ (forall y, y ∈ R -> y.2 < n) /\
      malloc_loop fuel n prev.1 (hd_addr R f) s = malloc_loop (fuel - length R) n prev'.1 f s)).
Proof.
  intros H Hf. induction R as [|y R IH]; intros prev fuel Hc HN Hne Hl.
  - exists prev, f. destruct Hc as (Hc & _). split; [left|]. split; [done|]. right.
    split; [done|]. split; [set_solver|]. simpl. by rewrite Nat.sub_0_r.
  - destruct fuel as [|fuel]; [simpl in Hl; lia|]. destruct Hc as (Hc1 & _ & Hc). pose proof (space_ok _ _ H) as Hs.
    assert (y ∈ nodes l) as Hy by (apply HN; set_solver).
    assert (y.1 = base \/ USER_HEAP_BASE <= y.1 /\ y.1 + 8 <= ubrk s) as Hy8.
    { apply elem_of_cons in Hy as [->|Hy]; [by left|right]. apply frees_elem in Hy as (c & Hy & _ & ->).
      apply (tiles_elem _ _ _ _ (h_tiles _ _ H)) in Hy. simpl. unfold bend, HDR in *. lia. }
    pose proof Hc as (Hy1 & Hy2 & _).
    simpl hd_addr. cbn [malloc_loop]. rewrite (bind_Ok _ _ _ _ _ (get_size_Ok s _ _ Hs Hy8 Hy2)).
    destruct (Z.leb_spec n y.2) as [Hn|Hn].
    + exists prev, y.1. split; [left|]. split; [done|]. left. exists y. split; [left|]. done.
    + destruct (IH y fuel Hc) as (prev' & x & P1 & P2 & P3); [set_solver|set_solver|simpl in Hl; lia|].
      exists prev', x. split; [by right|]. split; [done|].
      assert (malloc_loop (S fuel) n prev.1 y.1 s = malloc_loop fuel n y.1 (hd_addr R f) s) as E.
      { cbn [malloc_loop]. rewrite (bind_Ok _ _ _ _ _ (get_size_Ok s _ _ Hs Hy8 Hy2)).
        rewrite (proj2 (Z.leb_gt _ _) Hn). rewrite (bind_Ok _ _ _ s s) by done. rewrite Hf.
        rewrite (proj2 (Z.eqb_neq _ _)) by (apply Hne; left).
        rewrite (bind_Ok _ _ _ _ _ (get_ptr_Ok s y.1 _ Hs ltac:(lia) Hy1)). done. }
      cbn [malloc_loop] in E. rewrite (bind_Ok _ _ _ _ _ (get_size_Ok s _ _ Hs Hy8 Hy2)), (proj2 (Z.leb_gt _ _) Hn) in E.
      destruct P3 as [(z & Z1 & Z2 & Z3 & Z4)|(-> & Z1 & Z2)]; [left|right].
      * exists z. split; [by right|]. split; [done|]. split; [done|]. by rewrite E.
      * split; [done|]. split; [intros z; rewrite elem_of_cons; intros [->|Hz]; auto|]. rewrite E. exact Z2.
Qed.
Lemma chain_rotate m A f B : chain m (A ++ f :: B) (hd_addr (A ++ f :: B) 0) -> chain m (f :: B ++ A) f.1.
Proof.
  intros H. apply chain_app in H as [H1 H2]. change (f :: B ++ A) with ((f :: B) ++ A). apply chain_app.
  split; [|done]. destruct A; done.
Qed.

Lemma malloc_search s l n fuel : heap_ok s l -> 1 <= n -> (length (nodes l) < fuel)%nat ->
  exists p, words s !! freep s = Some p /\
    ((exists r s', malloc_loop fuel n (freep s) p s = Ok (r, s') /\ taken s l n r s') \/
     ((forall y, y ∈ nodes l -> y.2 < n) /\
      malloc_loop fuel n (freep s) p s =
        (p ← morecore n; if p =? 0 then mret 0
         else next ← get_ptr p; malloc_loop (fuel - length (nodes l)) n p next) s)).
Proof.
  intros H Hn Hl. pose proof (h_freep _ _ H) as Hf. apply list_elem_of_fmap in Hf as (f & Ef & Hf).
  pose proof Hf as Hf'. apply list_elem_of_split in Hf' as (A & B & EN).
  pose proof (nodes_asc _ _ (h_tiles _ _ H)) as Ha. rewrite EN in Ha.
  assert (chain (words s) (f :: B ++ A) f.1) as Hc.
  { apply chain_rotate. rewrite <- EN. apply (h_chain _ _ H). }
  assert (forall x, x ∈ f :: B ++ A <-> x ∈ nodes l) as HN by (intros x; rewrite EN; set_solver).
  assert (length (nodes l) = S (length (B ++ A))) as Hlen by (rewrite EN, !length_app; simpl; lia).
  exists (hd_addr (B ++ A) f.1). rewrite Ef. split; [apply Hc|].
  destruct (search_loop s l f.1 n (B ++ A) H Ef f fuel Hc) as (prev & x & P1 & P2 & [(y & Y1 & <- & Y3 & Y4)|(-> & Y1 & Y2)]).
  - intros x. apply HN.
  - intros x Hx. apply asc_app in Ha as (_ & Ha & Hab). apply asc_cons in Ha as [Ha _].
    apply elem_of_app in Hx as [Hx|Hx]; [apply Ha in Hx; lia|]. specialize (Hab x f Hx (list_elem_of_here _ _)). lia.
  - lia.
  - left. rewrite Y4. apply (take_spec s l prev y n H); [by apply HN|apply HN; by right|done|lia].
  - assert (f.1 = base \/ USER_HEAP_BASE <= f.1 /\ f.1 + 8 <= ubrk s) as Hf8.
    { apply elem_of_cons in Hf as [->|Hf]; [by left|right]. apply frees_elem in Hf as (c & Hy & _ & ->).
      apply (tiles_elem _ _ _ _ (h_tiles _ _ H)) in Hy. simpl. unfold bend, HDR in *. lia. }
    pose proof Hc as (_ & Hf2 & _). pose proof (space_ok _ _ H) as Hs.
    rewrite Y2. replace (fuel - length (B ++ A))%nat with (S (fuel - length (nodes l))) by lia.
    cbn [malloc_loop]. rewrite (bind_Ok _ _ _ _ _ (get_size_Ok s _ _ Hs Hf8 Hf2)).
    destruct (Z.leb_spec n f.2) as [Hnf|Hnf].
    + left. apply (take_spec s l prev f n H); [by apply HN|done|done|lia].
    + right. split.
      * intros y Hy. apply HN in Hy. apply elem_of_cons in Hy as [->|Hy]; [done|by apply Y1].
      * rewrite (bind_Ok _ _ _ s s) by done. rewrite Ef, Z.eqb_refl. done.
Qed.

(** *** [morecore] *)

Lemma grown_pages brk ebrk a : brk mod PG_SIZE = 0 -> brk <= a < ebrk -> a / PG_SIZE ∈ grown brk ebrk.
Proof.
  intros Hb Ha. unfold grown. apply list_elem_of_fmap. exists ((a - brk) / PG_SIZE). rewrite elem_of_seqZ.
  unfold PG_SIZE in *. split; Z.div_mod_to_equations; lia.
Qed.

Lemma sbrk_Ok s n : ubrk s mod PG_SIZE = 0 -> USER_HEAP_BASE <= ubrk s -> 0 <= n -> ubrk s + n < USER_HEAP_TOP ->
  sbrk n s = Ok (ubrk s, MState (words s) (freep s) (ubrk s + n) (list_to_set (grown (ubrk s) (ubrk s + n)) ∪ pages s)).
Proof.
  intros Ha Hb Hn Ht. pose proof heap_base. unfold sbrk. rewrite (bind_Ok _ _ _ s s) by done.
  assert (i32 n = n) as ->.
  { apply i32_small. unfold is_i32, USER_HEAP_TOP, BOTTOM_USER_STACK, TOP_USER_STACK, USER_TOP,
      NPAGES_USER_STACK, PG_SIZE, KERNEL_BASE in *. lia. }
  rewrite (proj2 (Z.ltb_ge n 0)) by lia. cbv zeta. rewrite addr_u32 by lia.
  rewrite (proj2 (Z.ltb_ge _ _)) by lia. rewrite (proj2 (Z.leb_gt _ _)) by lia. done.
Qed.

(** The heap with a new block at its end, not yet free. *)
Definition extended (s : mstate) (nu : Z) : mstate :=
  MState (<[ubrk s + 4 := nu]> (words s)) (freep s) (ubrk s + HDR * nu)
    (list_to_set (grown (ubrk s) (ubrk s + HDR * nu)) ∪ pages s).

Lemma extended_ok s l nu : heap_ok s l -> 1 <= nu -> (HDR * nu) mod PG_SIZE = 0 -> ubrk s + HDR * nu < USER_HEAP_TOP ->
  heap_ok (extended s nu) (l ++ [Blk (ubrk s) nu false]) /\ kept l s (extended s nu).
Proof.
  intros H Hnu Hal Htop. pose proof (h_tiles _ _ H) as Ht. pose proof (tiles_le _ _ _ Ht) as Hle.
  assert (forall c, c ∈ l -> bend c <= ubrk s /\ 1 <= bsz c) as Hl by (intros c Hc; apply (tiles_elem _ _ _ _ Ht) in Hc; lia).
  assert (nodes (l ++ [Blk (ubrk s) nu false]) = nodes l) as En.
  { unfold nodes. rewrite frees_app. unfold frees at 2. simpl. by rewrite app_nil_r. }
  split; [split; cbn [extended words freep ubrk pages]|].
  - apply tiles_app. exists (ubrk s). done.
  - destruct l as [|c l _] using rev_ind; [done|]. rewrite <- app_assoc. simpl. pose proof (h_apart _ _ H) as Ha.
    clear -Ha. induction l as [|d l IH]; simpl in *; [by rewrite andb_false_r|]. destruct Ha as [H1 H2]. split; [|by apply IH].
    by destruct l.
  - rewrite En. apply chain_insert; [|apply H]. intros x Hx. apply elem_of_cons in Hx as [->|Hx]; [simpl; lia|].
    apply frees_elem in Hx as (c & Hc & _ & ->). apply Hl in Hc. simpl. unfold bend, HDR in *. lia.
  - intros b Hb Hf. apply elem_of_app in Hb as [Hb|Hb].
    + rewrite lookup_insert_ne by (apply Hl in Hb; unfold bend, HDR in *; lia). by apply (h_alloc _ _ H).
    + apply list_elem_of_singleton in Hb as ->. simpl. by rewrite lookup_insert_eq.
  - rewrite En. apply H.
  - split; [done|]. destruct (h_brk _ _ H) as [_ Hb]. unfold PG_SIZE in *. rewrite Z.add_mod, Hb, Hal by done. done.
  - intros a Ha. apply elem_of_union. destruct (decide (a < ubrk s)); [right; apply (h_pages _ _ H); lia|left].
    apply elem_of_list_to_set, grown_pages; [apply (h_brk _ _ H)|lia].
  - intros c k Hc Hk. simpl. rewrite lookup_insert_ne; [done|]. apply allocs_elem in Hc as [Hc _]. apply Hl in Hc.
    unfold bend, HDR in *. lia.
Qed.
Definition core_units (n : Z) : Z := if n <? 4096 then 4096 else n.

Lemma morecore_spec s l n : heap_ok s l -> 1 <= n -> (HDR * core_units n) mod PG_SIZE = 0 ->
  ubrk s + HDR * core_units n < USER_HEAP_TOP ->
  exists s' l', morecore n s = Ok (freep s', s') /\ freep s' <> 0 /\ heap_ok s' l' /\ allocs l' = allocs l /\ kept l s s' /\
    (length l' <= S (length l))%nat /\ exists f, f ∈ frees l' /\ n <= f.2.
Proof.
  intros H Hn Hal Htop. set (nu := core_units n) in *. assert (1 <= nu /\ n <= nu) as [Hnu Hnn].
  { unfold nu, core_units. destruct (Z.ltb_spec n 4096); lia. }
  destruct (extended_ok s l nu H Hnu Hal Htop) as [Hx Hkx]. pose proof (tiles_le _ _ _ (h_tiles _ _ H)) as Hle.
  pose proof heap_base as HB. destruct (h_brk _ _ H) as [_ Hb].
  assert (USER_HEAP_TOP < 2 ^ 31) as Ht31 by done.
  destruct (free_spec (extended s nu) l (Blk (ubrk s) nu false) [] Hx eq_refl) as (s' & E & l' & H' & Ha & _ & Hk & Hl & f & F1 & F2 & F3 & F4).
  rewrite app_nil_r in Ha, Hk. exists s', l'.
  pose proof (h_freep _ _ H') as Hf. assert (freep s' <> 0) as Hf0.
  { apply list_elem_of_fmap in Hf as (x & -> & Hx'). apply elem_of_cons in Hx' as [->|Hx']; [simpl; lia|].
    apply frees_elem in Hx' as (c & Hc & _ & ->). apply (tiles_elem _ _ _ _ (h_tiles _ _ H')) in Hc. simpl. lia. }
  split; [|split_and!; [done|done|done| | |]].
  - unfold morecore. fold (core_units n). fold nu. cbv zeta.
    assert (u32 (nu * HDR) = HDR * nu) as -> by (rewrite Z.mul_comm; apply addr_u32; unfold HDR in *; lia).
    rewrite (bind_Ok _ _ _ _ _ (sbrk_Ok s (HDR * nu) Hb Hle ltac:(unfold HDR; lia) Htop)).
    rewrite (proj2 (Z.eqb_neq _ _)) by (unfold HDR in *; lia).
    rewrite (bind_Ok _ _ _ tt (extended s nu)).
    2: { pose proof (space_ok _ _ Hx) as Hs. apply (set_size_Ok (MState (words s) (freep s) (ubrk s + HDR * nu) _)); [by destruct Hs|right; simpl; unfold HDR in *; lia]. }
    assert (hadd (ubrk s) 1 = ubrk s + 8) as -> by (apply addr_u32; unfold HDR in *; lia).
    simpl addr in E. rewrite (bind_Ok _ _ _ _ _ E). done.
  - intros c k Hc Hkk. rewrite (Hk c k) by done. by apply (Hkx c k).
  - rewrite length_app in Hl. simpl in Hl. lia.
  - exists (addr f, bsz f). split.
    + unfold frees. apply (list_elem_of_fmap_2 (fun b => (addr b, bsz b))). apply list_elem_of_In, filter_In.
      split; [by apply list_elem_of_In|done].
    + simpl. unfold bend in F4. simpl in *. unfold HDR in *. lia.
Qed.

(** *** The heap as a whole *)

Definition units_of (nbytes : Z) : Z := (nbytes + 7) / 8 + 1.

(** The request can be served: enough room, and [sbrk] is asked for whole pages. *)
Definition servable (s : mstate) (nbytes : Z) : Prop :=
  0 <= nbytes < 2 ^ 31 /\ (HDR * core_units (units_of nbytes)) mod PG_SIZE = 0 /\
  ubrk s + HDR * core_units (units_of nbytes) < USER_HEAP_TOP.

Lemma malloc_loop_spec s l n fuel : heap_ok s l -> 1 <= n -> (HDR * core_units n) mod PG_SIZE = 0 ->
  ubrk s + HDR * core_units n < USER_HEAP_TOP -> (2 * length l + 6 <= fuel)%nat ->
  exists p r s0 l0 s', words s !! freep s = Some p /\ malloc_loop fuel n (freep s) p s = Ok (r, s') /\ heap_ok s0 l0 /\
    allocs l0 = allocs l /\ kept l s s0 /\ taken s0 l0 n r s' /\ (s0 = s \/ forall y, y ∈ nodes l -> y.2 < n).
Proof.
  intros H Hn Hal Htop Hfuel.
  assert (forall l, (length (nodes l) <= S (length l))%nat) as Hnl.
  { intros l0. unfold nodes, frees. simpl. rewrite length_map. pose proof (List.filter_length_le isfree l0). lia. }
  destruct (malloc_search s l n fuel H Hn) as (p & Hp & [(r & s' & E & T)|[Hall E]]); [specialize (Hnl l); lia|..].
  - exists p, r, s, l, s'. split_and!; try done. by left.
  - destruct (morecore_spec s l n H Hn Hal Htop) as (s1 & l1 & E1 & Hf0 & H1 & Ha1 & Hk1 & Hl1 & f & F1 & F2).
    destruct (malloc_search s1 l1 n (fuel - length (nodes l)) H1 Hn) as (p1 & Hp1 & [(r & s' & E' & T)|[Hall' _]]).
    + pose proof (Hnl l). pose proof (Hnl l1). lia.
    + exists p, r, s1, l1, s'. split_and!; try done; [|by right].
      rewrite E, (bind_Ok _ _ _ _ _ E1). rewrite (proj2 (Z.eqb_neq _ _) Hf0).
      pose proof (h_freep _ _ H1) as Hfp. pose proof (space_ok _ _ H1) as Hs1.
      assert (freep s1 = base \/ USER_HEAP_BASE <= freep s1 < ubrk s1) as Hfr.
      { apply list_elem_of_fmap in Hfp as (x & -> & Hx'). apply elem_of_cons in Hx' as [->|Hx']; [by left|right].
        apply frees_elem in Hx' as (c & Hc & _ & ->). apply (tiles_elem _ _ _ _ (h_tiles _ _ H1)) in Hc. simpl. unfold bend, HDR in *. lia. }
      rewrite (bind_Ok _ _ _ _ _ (get_ptr_Ok s1 _ _ Hs1 Hfr Hp1)). done.
    + exfalso. assert (f ∈ nodes l1) as Hin by (by right). specialize (Hall' f Hin). lia.
Qed.
(** Before the first request there is no list, and the heap is empty. *)
Definition ready (s : mstate) (l : list blk) : Prop :=
  heap_ok s l \/ (freep s = 0 /\ l = [] /\ ubrk s = USER_HEAP_BASE).

Lemma start_heap m pg : heap_ok (MState (<[base + 4 := 0]> (<[base := base]> m)) base USER_HEAP_BASE pg) [].
Proof.
  split; cbn [words freep ubrk pages]; try done.
  - simpl. rewrite lookup_insert_ne, lookup_insert_eq, lookup_insert_eq by lia. done.
  - intros b Hb. by apply not_elem_of_nil in Hb.
  - left.
  - intros a Ha. lia.
Qed.

Lemma nunits_eq n : 0 <= n < 2 ^ 31 -> u32 (u32 (u32 (n + HDR) - 1) / HDR + 1) = units_of n /\ 1 <= units_of n.
Proof.
  intros Hn. unfold units_of, HDR. change (2 ^ 31) with 2147483648 in Hn.
  rewrite (u32_small (n + 8)) by (unfold is_u32; lia). rewrite (u32_small (n + 8 - 1)) by (unfold is_u32; lia).
  replace (n + 8 - 1) with (n + 7) by lia. pose proof (Z.div_mod (n + 7) 8). pose proof (Z.mod_pos_bound (n + 7) 8).
  rewrite u32_small by (unfold is_u32; lia). lia.
Qed.

(** The pointer at [freep] can be read. *)
Lemma freep_next s l v : heap_ok s l -> words s !! freep s = Some v -> get_ptr (freep s) s = Ok (v, s).
Proof.
  intros H1 Hv. apply get_ptr_Ok; [by eapply space_ok| |done]. pose proof (h_freep _ _ H1) as Hf.
  apply list_elem_of_fmap in Hf as (x & -> & Hx'). apply elem_of_cons in Hx' as [->|Hx']; [by left|right].
  apply frees_elem in Hx' as (c & Hc & _ & ->). apply (tiles_elem _ _ _ _ (h_tiles _ _ H1)) in Hc. simpl. unfold bend, HDR in *. lia.
Qed.

Lemma freep_not_null s l : heap_ok s l -> freep s <> 0.
Proof.
  intros H. pose proof (h_freep _ _ H) as Hf. apply list_elem_of_fmap in Hf as (x & -> & Hx'). apply elem_of_cons in Hx' as [->|Hx']; [simpl; lia|].
  apply frees_elem in Hx' as (c & Hc & _ & ->). apply (tiles_elem _ _ _ _ (h_tiles _ _ H)) in Hc. simpl. pose proof heap_base. lia.
Qed.

Lemma malloc_spec s l n : ready s l -> servable s n ->
  exists r s0 l0 s', malloc n s = Ok (r, s') /\ heap_ok s0 l0 /\ allocs l0 = allocs l /\ kept l s s0 /\
    taken s0 l0 (units_of n) r s' /\ (ubrk s0 = ubrk s \/ forall y, y ∈ frees l -> y.2 < units_of n).
Proof.
  intros Hr (Hn & Hal & Htop). destruct (nunits_eq n Hn) as [Eu Hu].
  assert (forall s1, heap_ok s1 l -> ubrk s1 = ubrk s -> kept l s s1 -> exists p r s0 l0 s', words s1 !! freep s1 = Some p /\
    malloc_loop (2 * units s1 + 10) (units_of n) (freep s1) p s1 = Ok (r, s') /\ heap_ok s0 l0 /\ allocs l0 = allocs l /\
    kept l s s0 /\ taken s0 l0 (units_of n) r s' /\ (ubrk s0 = ubrk s \/ forall y, y ∈ frees l -> y.2 < units_of n)) as Hrun.
  { intros s1 H1 Eb Hk. destruct (malloc_loop_spec s1 l (units_of n) (2 * units s1 + 10) H1 Hu Hal) as
      (p & r & s0 & l0 & s' & J1 & J2 & J3 & J4 & J5 & J6 & J7).
    - by rewrite Eb.
    - pose proof (tiles_length _ _ _ (h_tiles _ _ H1)). unfold units, HDR in *. lia.
    - exists p, r, s0, l0, s'. split_and!; try done.
      + intros c k Hc Hkk. rewrite (J5 c k) by done. by apply (Hk c k).
      + destruct J7 as [->|J7]; [by left|right]. intros y Hy. apply J7. by right. }
  assert (forall s1, heap_ok s1 l -> forall v, words s1 !! freep s1 = Some v -> get_ptr (freep s1) s1 = Ok (v, s1)) as Hget
    by (intros; by eapply freep_next).
  unfold malloc. rewrite Eu. cbv zeta. rewrite (bind_Ok _ _ _ s s) by done.
  destruct Hr as [H|(Hf & -> & Hb)].
  - rewrite (proj2 (Z.eqb_neq _ _) (freep_not_null _ _ H)). rewrite (bind_Ok _ _ _ tt s) by done. rewrite (bind_Ok _ _ _ s s) by done.
    destruct (Hrun s H) as (p & r & s0 & l0 & s' & J1 & J2 & J3); [done|by intros c k|].
    exists r, s0, l0, s'. rewrite (bind_Ok _ _ _ _ _ (Hget s H p J1)). done.
  - rewrite Hf, Z.eqb_refl. set (s1 := MState (<[base + 4 := 0]> (<[base := base]> (words s))) base (ubrk s) (pages s)).
    assert (heap_ok s1 []) as H1 by (unfold s1; rewrite Hb; apply start_heap).
    rewrite (bind_Ok _ _ _ tt s1).
    2: { unfold set_ptr. erewrite bind_Ok by (apply store_Ok, base_mapped; by left). erewrite bind_Ok by done.
      unfold set_size. rewrite addr_u32 by (pose proof heap_base; assert (USER_HEAP_BASE < USER_HEAP_TOP) by done; lia).
      rewrite store_Ok by (apply base_mapped; by right). done. }
    rewrite (bind_Ok _ _ _ s1 s1) by done.
    destruct (Hrun s1 H1) as (p & r & s0 & l0 & s' & J1 & J2 & J3); [done|by intros c k Hc; apply not_elem_of_nil in Hc|].
    exists r, s0, l0, s'. rewrite (bind_Ok _ _ _ _ _ (Hget s1 H1 p J1)). done.
Qed.


(** ** Programs that use the allocator *)

(** The pointers that a program has been given and has not freed, with the sizes it asked
    for. *)
Record client := Client { cst : mstate; live : list (Z * Z) }.

Inductive mstep : client -> client -> Prop :=
| mstep_malloc y n r s' : servable (cst y) n -> malloc n (cst y) = Ok (r, s') ->
    mstep y (Client s' ((r, n) :: live y))
| mstep_free y p n v1 v2 s' : live y = v1 ++ (p, n) :: v2 -> free p (cst y) = Ok (tt, s') ->
    mstep y (Client s' (v1 ++ v2))
| mstep_write y p n k v : (p, n) ∈ live y -> p <= k -> k + 4 <= p + n ->
    mstep y (Client (with_words (<[k := v]> (words (cst y))) (cst y)) (live y)).

Definition blk_of (x : Z * Z) : blk := Blk (x.1 - 8) (units_of x.2) false.

Definition client_ok (y : client) (l : list blk) : Prop :=
  ready (cst y) l /\ allocs l ≡ₚ map blk_of (live y).

Lemma live_blk y l p n : client_ok y l -> (p, n) ∈ live y -> blk_of (p, n) ∈ allocs l.
Proof. intros [_ ->] H. by apply list_elem_of_fmap_2. Qed.

Lemma live_ready y l p n : client_ok y l -> (p, n) ∈ live y -> heap_ok (cst y) l.
Proof.
  intros H Hp. pose proof (live_blk _ _ _ _ H Hp) as Hb. destruct H as [[H|(_ & -> & _)] _]; [done|].
  by apply not_elem_of_nil in Hb.
Qed.

(** The block that [malloc] takes is one more block of the program. *)
Lemma taken_client s l n r s' v : taken s l (units_of n) r s' -> allocs l ≡ₚ map blk_of v ->
  exists l', heap_ok s' l' /\ client_ok (Client s' ((r, n) :: v)) l'.
Proof.
  intros (l' & l1 & c & l2 & H' & A1 & A2 & Hc & -> & _) Hp. exists l'. split; [done|]. split; [by left|].
  simpl. rewrite A2, <- Permutation_middle, <- A1, Hp.
  assert (c = blk_of (addr c + 8, n)) as <-; [|done]. unfold blk_of. simpl.
  assert (c ∈ allocs l') as Hcf by (rewrite A2; set_solver). apply allocs_elem in Hcf as [_ Hcf].
  destruct c as [a z f]. simpl in *. subst. f_equal. lia.
Qed.

Lemma client_malloc y l n : client_ok y l -> servable (cst y) n ->
  exists r s' l', malloc n (cst y) = Ok (r, s') /\ client_ok (Client s' ((r, n) :: live y)) l' /\ heap_ok s' l' /\
    kept l (cst y) s' /\ (ubrk s' = ubrk (cst y) \/ forall x, x ∈ frees l -> x.2 < units_of n).
Proof.
  intros [Hr Hp] Hs. destruct (malloc_spec _ _ _ Hr Hs) as (r & s0 & l0 & s' & E & H0 & Ha & Hk & T & Hb).
  destruct (taken_client _ _ _ _ _ (live y) T) as (l' & H' & Hy'); [by rewrite Ha|].
  destruct T as (_ & _ & _ & _ & _ & _ & _ & _ & _ & Hub & Hk'). exists r, s', l'. split; [done|]. split_and!.
  - done.
  - done.
  - intros d k Hd Hkk. rewrite (Hk' d k); [by apply (Hk d k)|by rewrite Ha|done].
  - rewrite Hub. done.
Qed.

Lemma client_free y l p n v1 v2 : client_ok y l -> live y = v1 ++ (p, n) :: v2 ->
  exists s' l', free p (cst y) = Ok (tt, s') /\ client_ok (Client s' (v1 ++ v2)) l' /\ ubrk s' = ubrk (cst y) /\
    (forall c k, c ∈ map blk_of (v1 ++ v2) -> addr c + 4 <= k < bend c -> words s' !! k = words (cst y) !! k) /\
    heap_ok s' l' /\ exists f, f ∈ l' /\ isfree f = true /\ units_of n <= bsz f.
Proof.
  intros Hy Ev. assert ((p, n) ∈ live y) as Hin by (rewrite Ev; set_solver).
  pose proof (live_ready _ _ _ _ Hy Hin) as H. pose proof (live_blk _ _ _ _ Hy Hin) as Hb.
  apply allocs_elem in Hb as [Hb _]. apply list_elem_of_split in Hb as (l1 & l2 & ->).
  destruct (free_spec _ _ _ _ H eq_refl) as (s' & E & l' & H' & Ha & Hub & Hk & _ & f & F1 & F2 & F3 & F4).
  assert (allocs (l1 ++ l2) ≡ₚ map blk_of (v1 ++ v2)) as Hp.
  { destruct Hy as [_ Hp]. rewrite Ev in Hp. rewrite allocs_app in Hp |- *. unfold allocs at 2 in Hp. simpl in Hp.
    rewrite map_app in Hp |- *. simpl in Hp. rewrite <- !Permutation_middle in Hp. by apply Permutation_cons_inv in Hp. }
  exists s', l'. split_and!.
  - simpl in E. replace (p - 8 + 8) with p in E by lia. done.
  - split; [by left|]. simpl. by rewrite Ha.
  - done.
  - intros c k Hc Hkk. apply (Hk c k); [|done]. by rewrite Hp.
  - done.
  - exists f. split; [done|]. split; [done|]. unfold bend, HDR in *. simpl in *. lia.
Qed.
Lemma units_bytes n : 0 <= n -> n <= HDR * units_of n - 8.
Proof. intros Hn. unfold units_of, HDR. Z.div_mod_to_equations. lia. Qed.

Lemma client_write y l p n k v : client_ok y l -> (p, n) ∈ live y -> p <= k -> k + 4 <= p + n ->
  client_ok (Client (with_words (<[k := v]> (words (cst y))) (cst y)) (live y)) l.
Proof.
  intros Hy Hin H1 H2. pose proof (live_ready _ _ _ _ Hy Hin) as H. pose proof (live_blk _ _ _ _ Hy Hin) as Hb.
  apply allocs_elem in Hb as [Hb _]. split; [left|apply Hy]. pose proof (h_tiles _ _ H) as Ht.
  pose proof (tiles_elem _ _ _ _ Ht Hb) as (B1 & B2 & B3 & _).
  assert (p + n <= bend (blk_of (p, n))) as Hn.
  { destruct (decide (0 <= n)) as [D|D]; [|lia]. pose proof (units_bytes n D). unfold bend. simpl. lia. }
  assert (forall c, c ∈ l -> c <> blk_of (p, n) -> 1 <= bsz c /\ (bend c <= p - 8 \/ bend (blk_of (p, n)) <= addr c)) as Hsep.
  { intros c Hc Hne. pose proof (tiles_elem _ _ _ _ Ht Hc) as (_ & ? & _).
    destruct (tiles_sep _ _ _ c _ Ht Hc Hb) as [->|Hs]; [done|]. simpl in Hs. tauto. }
  destruct H as [J1 J2 J3 J4 J5 J6 J7]. split; cbn [cst with_words words freep ubrk pages]; try done.
  - apply chain_insert; [|done]. intros x Hx. apply elem_of_cons in Hx as [->|Hx]; [simpl in *; lia|].
    apply frees_elem in Hx as (c & Hc & Hf & ->). destruct (Hsep c Hc) as [? Hs]; [intros ->; done|].
    simpl. unfold bend, HDR in *. simpl in *. lia.
  - intros c Hc Hf. destruct (decide (c = blk_of (p, n))) as [->|Hne].
    + simpl. rewrite lookup_insert_ne by lia. by apply (J4 _ Hb).
    + destruct (Hsep c Hc Hne) as [? Hs]. simpl. rewrite lookup_insert_ne; [by apply J4|].
      unfold bend, HDR in *. simpl in *. lia.
Qed.

Lemma mstep_ok y y' l : client_ok y l -> mstep y y' -> exists l', client_ok y' l'.
Proof.
  intros Hy Hs. destruct Hs as [y n r s' Hn E|y p n v1 v2 s' Ev E|y p n k v Hin H1 H2].
  - destruct (client_malloc _ _ _ Hy Hn) as (r' & s1 & l' & E' & J & _). exists l'. congruence.
  - destruct (client_free _ _ _ _ _ _ Hy Ev) as (s1 & l' & E' & J & _). exists l'. congruence.
  - exists l. by eapply client_write.
Qed.

Lemma mreach_ok m y : rtc mstep (Client (start m) []) y -> exists l, client_ok y l.
Proof.
  assert (forall y0 y, rtc mstep y0 y -> forall l, client_ok y0 l -> exists l, client_ok y l) as H.
  { induction 1 as [|y1 y2 y3 Hs _ IH]; eauto. intros l Hl. destruct (mstep_ok _ _ _ Hl Hs) as (l' & Hl'). eauto. }
  intros Hr. apply (H _ _ Hr []). split; [right|]; done.
Qed.

(** A block of [n] bytes at [r] as a program may use it: aligned, in the heap and apart
    from the memory [v] that the program holds. *)
Definition usable (v : list (Z * Z)) (s : mstate) (r n : Z) : Prop :=
  r mod 8 = 0 /\ USER_HEAP_BASE <= r /\ r + n <= ubrk s /\
  forall p k, (p, k) ∈ v -> 0 <= k -> r + n <= p \/ p + k <= r.

(** Allocated blocks have different addresses. *)
Lemma tiles_NoDup l : forall a e, tiles a l e -> NoDup (map addr (allocs l)).
Proof.
  induction l as [|b l IH]; intros a e Ht; [constructor|].
  destruct Ht as (<- & H1 & H2). unfold allocs. simpl. destruct (isfree b); simpl; [by eapply IH|].
  apply NoDup_cons. split; [|by eapply IH]. intros Hin. apply list_elem_of_fmap in Hin as (c & Ec & Hc).
  apply allocs_elem in Hc as [Hc _]. apply (tiles_elem _ _ _ _ H2) in Hc. unfold bend, HDR in *. lia.
Qed.

Lemma client_usable s l r n v : heap_ok s l -> client_ok (Client s ((r, n) :: v)) l -> 0 <= n -> usable v s r n.
Proof.
  intros H Hy Hn. pose proof (h_tiles _ _ H) as Ht. pose proof (units_bytes n Hn) as Hu.
  assert (forall p k, (p, k) ∈ (r, n) :: v -> blk_of (p, k) ∈ l) as Hin.
  { intros p k Hp. apply (live_blk _ _ _ _ Hy) in Hp. by apply allocs_elem in Hp as [Hp _]. }
  pose proof (tiles_elem _ _ _ _ Ht (Hin r n ltac:(left))) as (B1 & B2 & B3 & B4). unfold bend, HDR in *. simpl in *.
  split_and!; [|lia|lia|].
  - assert (USER_HEAP_BASE mod 8 = 0) as H8 by done. Z.div_mod_to_equations. lia.
  - intros p k Hp Hk0. pose proof (units_bytes k Hk0) as Huk. destruct Hy as [_ Hperm]. simpl in Hperm.
    pose proof (tiles_NoDup _ _ _ Ht) as Hnd. rewrite Hperm in Hnd. simpl in Hnd. apply NoDup_cons in Hnd as [Hnd _].
    pose proof (tiles_elem _ _ _ _ Ht (Hin p k ltac:(by right))) as (_ & C2 & _).
    destruct (tiles_sep _ _ _ (blk_of (p, k)) (blk_of (r, n)) Ht) as [Eb|Hs]; [apply Hin; by right|apply Hin; left| |].
    + exfalso. apply Hnd. apply list_elem_of_fmap. exists (blk_of (p, k)). rewrite Eb. split; [done|].
      rewrite <- Eb. by apply list_elem_of_fmap_2.
    + unfold bend, HDR in *. simpl in *. lia.
Qed.

(** The words of the blocks [v] of a program. *)
Definition same_contents (v : list (Z * Z)) (s s' : mstate) : Prop :=
  forall p n k, (p, n) ∈ v -> p <= k < p + n -> words s' !! k = words s !! k.

(** ** Theorems *)

(** C19: a program that only stores into memory it was given can allocate at any time: as
    long as the heap has room and [sbrk] is asked for whole pages, [malloc] returns, and the
    memory it returns is aligned, lies in the heap, is apart from all the memory that the
    program holds, and no word of that memory changes. *)
Theorem malloc_correct m y n : rtc mstep (Client (start m) []) y -> servable (cst y) n ->
  exists r s', malloc n (cst y) = Ok (r, s') /\ r mod 8 = 0 /\ USER_HEAP_BASE <= r /\ r + n <= ubrk s' /\
    (forall p k, (p, k) ∈ live y -> 0 <= k -> r + n <= p \/ p + k <= r) /\ same_contents (live y) (cst y) s'.
Proof.
  intros Hr Hn. destruct (mreach_ok _ _ Hr) as (l & Hy).
  destruct (client_malloc _ _ _ Hy Hn) as (r & s' & l' & E & Hy' & H' & Hk & _). exists r, s'. split; [done|].
  destruct (client_usable _ _ _ _ _ H' Hy' (proj1 (proj1 Hn))) as (U1 & U2 & U3 & U4). split_and!; [done..|].
  - intros p k w Hp Hw. apply (Hk (blk_of (p, k))); [by eapply live_blk|].
    unfold bend, HDR in *. simpl. destruct (decide (0 <= k)); [|lia]. pose proof (units_bytes k). unfold HDR in *. lia.
Qed.


End frees.

(** When the heap cannot grow, [sbrk] returns NULL, but [morecore] expects -1: the program
    is stopped at its access to address 4, where [malloc] should return NULL. *)
Theorem morecore_exhausted s n : 0 < n < 2 ^ 28 -> USER_HEAP_BASE <= ubrk s < USER_HEAP_TOP ->
  USER_HEAP_TOP <= ubrk s + HDR * core_units n -> 0 ∉ pages s -> 4 < base -> morecore n s = Panic.
Proof.
  intros Hn Hb Ht Hp Hb4. unfold morecore. fold (core_units n). cbv zeta.
  assert (0 < core_units n < 2 ^ 28) as Hc by (unfold core_units; destruct (n <? 4096); lia).
  assert (USER_HEAP_TOP < 2 ^ 31) as Ht31 by done. change (2 ^ 28) with 268435456 in Hc. change (2 ^ 31) with 2147483648 in Ht31.
  assert (0 < USER_HEAP_BASE) as HB by done. unfold HDR in *.
  rewrite (u32_small (core_units n * 8)) by (unfold is_u32; lia).
  assert (sbrk (core_units n * 8) s = Ok (0, s)) as Es.
  { unfold sbrk. rewrite (bind_Ok _ _ _ s s) by done. case_if; [done|]. cbv zeta.
    rewrite i32_small by (unfold is_i32 in *; change (2 ^ 31) with 2147483648; revert E; unfold i32; change (2 ^ 31) with 2147483648;
      change (2 ^ 32) with 4294967296; Z.div_mod_to_equations; lia).
    rewrite u32_small by (unfold is_u32; change (2 ^ 32) with 4294967296; lia).
    rewrite (proj2 (Z.leb_le USER_HEAP_TOP _)) by lia. by rewrite orb_true_r. }
  rewrite (bind_Ok _ _ _ _ _ Es). rewrite (proj2 (Z.eqb_neq 0 _)) by done. apply bind_Panic. unfold set_size, store. unfold mbind, M_bind, get.
  unfold mapped. change (u32 (0 + 4)) with 4.
  rewrite (proj2 (Z.eqb_neq 4 base)), (proj2 (Z.eqb_neq 4 (base + 4))) by lia. by rewrite bool_decide_eq_false_2.
Qed.

(** the rounding of [malloc] overflows: a request for almost the whole address space is
    served like a request for nothing. *)
Theorem malloc_wraps n s : 2 ^ 32 - 7 <= n < 2 ^ 32 -> malloc n s = malloc 0 s.
Proof.
  intros Hn. unfold malloc. change (2 ^ 32) with 4294967296 in Hn. unfold HDR.
  assert (u32 (n + 8) = n + 8 - 4294967296) as ->.
  { unfold u32. change (2 ^ 32) with 4294967296. Z.div_mod_to_equations. lia. }
  rewrite (u32_small (n + 8 - 4294967296 - 1)) by (unfold is_u32; lia).
  replace ((n + 8 - 4294967296 - 1) / 8) with 0 by (Z.div_mod_to_equations; lia). done.
Qed.
End allocator.

(** [malloc] and [sbrk] do not fit together.  A program that allocates 40000 bytes and
    then 3000 bytes is stopped by a page fault: the first request leaves the break inside of
    a page, so that the next [sbrk] does not map the page at the end of the new memory (see
    [Vm.vm_grow_userheap_hole]), which is where [malloc] puts the header of the block. *)
Theorem malloc_page_hole : exists r s, malloc 0x4050000 40000 (start ∅) = Ok (r, s) /\ malloc 0x4050000 3000 s = Panic.
Proof.
  destruct (malloc 0x4050000 40000 (start ∅)) as [[r s]| |] eqn:E; vm_compute in E; try discriminate.
  exists r, s. split; [done|]. injection E as <- <-. by vm_compute.
Qed.

(** ** Witnesses *)

Definition demo_base : Z := 0x4050000.

(** A program that holds 100 and 50 bytes. *)
Definition demo_client : client :=
  match malloc demo_base 100 (start ∅) with
  | Ok (r, s) => match malloc demo_base 50 s with Ok (r', s') => Client s' [(r', 50); (r, 100)] | _ => Client s [] end
  | _ => Client (start ∅) []
  end.

Lemma heap_demo_reach : rtc (mstep demo_base) (Client (start ∅) []) demo_client.
Proof.
  eapply rtc_l; [eapply (mstep_malloc _ _ 100); [split_and!; [lia..|done|done]|vm_compute; reflexivity]|].
  eapply rtc_l; [eapply (mstep_malloc _ _ 50); [split_and!; [lia..|done|done]|vm_compute; reflexivity]|].
  match goal with |- rtc _ ?x _ => assert (demo_client = x) as -> by (by vm_compute) end. apply rtc_refl.
Qed.

Lemma malloc_correct_witness :
  exists r s', malloc demo_base 1000 (cst demo_client) = Ok (r, s') /\ r mod 8 = 0 /\ USER_HEAP_BASE <= r.
Proof.
  destruct (malloc_correct demo_base ltac:(done) ∅ demo_client 1000 heap_demo_reach) as (r & s' & E & H1 & H2 & _).
  - split_and!; [lia..|by vm_compute|by vm_compute].
  - exists r, s'. split; [exact E|]. split; [exact H1|exact H2].
Defined.



Lemma malloc_wraps_witness : malloc demo_base (2 ^ 32 - 1) (cst demo_client) = malloc demo_base 0 (cst demo_client).
Proof. apply (malloc_wraps demo_base (2 ^ 32 - 1)). lia. Defined.

Lemma morecore_exhausted_witness : morecore demo_base 260000000 (start ∅) = Panic.
Proof. apply (morecore_exhausted demo_base (start ∅) 260000000); [lia|by vm_compute|by vm_compute|set_solver|by vm_compute]. Defined.
End Malloc.
