(* ===== verification/Shell.v ===== *)
(** The command line of the shell: src/shell/sh/sh_scanner.c, which reads a line, and
    src/shell/sh/sh_parser.c, which turns it into a command.

    A [char *] into the line is the list of the bytes from there to the NUL.  Commands
    are trees of the structures of src/shell/sh/include/cmds.h. *)

From stdpp Require Import base numbers list gmap.
From Stdlib Require Import ZArith Lia.
From S2P Require Import Prelude.
#[local] Open Scope Z_scope.

Module Shell.

(** *** Tokens and commands *)

(** [enum token_type]. *)
Inductive token_type :=
| TOKEN_EOF | TOKEN_GT | TOKEN_GTGT | TOKEN_LT | TOKEN_LPAREN | TOKEN_RPAREN | TOKEN_SEMI | TOKEN_BACK
| TOKEN_AND | TOKEN_PIPE | TOKEN_OR | TOKEN_STRING.

#[global] Instance token_type_eq_dec : EqDecision token_type.
Proof. solve_decision. Defined.

(** [struct token]. *)
Record token := Token { ttype : token_type; tp : list Z; tlen : Z }.

(** [struct cmd] and the structures it heads. *)
Inductive cmd :=
| CMD_EXEC (argv : list (list Z))
| CMD_REDIR (c : cmd) (fd mode : Z) (file : list Z)
| CMD_LIST (left right : cmd)
| CMD_BACK (c : cmd)
| CMD_PIPE (left right : cmd)
| CMD_BINARY (left right : cmd) (operator : token_type).

Definition MAX_ARGV : Z := 20.

Definition LINE_BUF_SIZE : Z := 2048.

(** What [report_error] is called with. *)
Inductive sh_error :=
| ErrUnexpected (c : Z) | ErrPath | ErrParen | ErrTooMany | ErrMemory | ErrQuote (lineno : Z).

(** The part of [struct shell_ex] the parser uses. *)
Record shell := MkShell { p : list Z; peek : token; errors : list sh_error }.

Definition O_WRONLY : Z := 1.

Definition O_CREAT : Z := 64.

Definition O_APPEND : Z := 1024.

Definition stdin : Z := 0.

Definition stdout : Z := 1.

(** *** The lexer *)

Definition BACKSLASH : Z := 92.

Definition DQUOTE : Z := 34.

Definition is_symbol (c : Z) : bool := bool_decide (c ∈ [60; 62; 38; 124; 59; 40; 41]).

Definition is_space (c : Z) : bool := bool_decide (c ∈ [32; 10; 13; 9; 12]).

Fixpoint skip_whitespace (p : list Z) : list Z :=
  match p with
  | c :: q => if is_space c then skip_whitespace q else p
  | [] => []
  end.

(** The pointer after the string. *)
Fixpoint read_string (p : list Z) : list Z :=
  match p with
  | [] => []
  | ch :: q =>
      if is_symbol ch || is_space ch then p
      else if ch =? BACKSLASH then
        match q with
        | [] => []
        | _ :: r => read_string r
        end
      else read_string q
  end.

Fixpoint read_string_with_quotes (p : list Z) (close_quote : Z) : list Z :=
  match p with
  | [] => []
  | ch :: q =>
      if ch =? close_quote then q
      else if (ch =? BACKSLASH) && (close_quote =? DQUOTE) then
        match q with
        | [] => []
        | _ :: r => read_string_with_quotes r close_quote
        end
      else read_string_with_quotes q close_quote
  end.

Fixpoint skip_comment (p : list Z) : list Z :=
  match p with
  | c :: q => if (c =? 10) || (c =? 13) then p else skip_comment q
  | [] => []
  end.

(** The [exit] label of [scan_tok]: the token from [p0] to [p]. *)
Definition tok_exit (typ : token_type) (p0 p : list Z) : token * list Z :=
  (Token typ p0 (Z.of_nat (length p0) - Z.of_nat (length p)), p).

(** An operator of one character, or of two when [second] follows. *)
Definition tok_double (p0 q : list Z) (second : Z) (one two : token_type) : token * list Z :=
  match q with
  | c :: r => if c =? second then tok_exit two p0 r else tok_exit one p0 q
  | [] => tok_exit one p0 q
  end.

(** [scan_tok]: the token for [sh->peek] and the new [sh->p]. *)
Fixpoint scan (fuel : nat) (p : list Z) : outcome (token * list Z) :=
  match fuel with
  | O => Hang
  | S fuel =>
      let p0 := skip_whitespace p in
      match p0 with
      | [] => Ok (tok_exit TOKEN_EOF p0 p0)
      | ch :: q =>
          if ch =? 62 then Ok (tok_double p0 q 62 TOKEN_GT TOKEN_GTGT)
          else if ch =? 60 then Ok (tok_exit TOKEN_LT p0 q)
          else if ch =? 40 then Ok (tok_exit TOKEN_LPAREN p0 q)
          else if ch =? 41 then Ok (tok_exit TOKEN_RPAREN p0 q)
          else if ch =? 38 then Ok (tok_double p0 q 38 TOKEN_BACK TOKEN_AND)
          else if ch =? 124 then Ok (tok_double p0 q 124 TOKEN_PIPE TOKEN_OR)
          else if ch =? 59 then Ok (tok_exit TOKEN_SEMI p0 q)
          else if ch =? 35 then scan fuel (skip_comment q)
          else if (ch =? DQUOTE) || (ch =? 39) then
            let r := read_string_with_quotes q ch in
            Ok (Token TOKEN_STRING q (Z.of_nat (length p0) - Z.of_nat (length r) - 2), r)
          else Ok (tok_exit TOKEN_STRING p0 (read_string p0))
      end
  end.

Definition scan_tok : M shell token_type := fun sh =>
  match scan (S (length (p sh))) (p sh) with
  | Ok (t, q) => Ok (ttype t, MkShell q t (errors sh))
  | Panic => Panic
  | Hang => Hang
  end.

Definition advance : M shell unit := _ ← scan_tok; mret tt.

Definition peek_type : M shell token_type := sh ← get; mret (ttype (peek sh)).

Definition report_error (e : sh_error) : M shell unit :=
  modify (fun sh => MkShell (p sh) (peek sh) (errors sh ++ [e])).

(** [*sh->peek.p]. *)
Definition unexpected : M shell unit :=
  sh ← get; report_error (ErrUnexpected (match tp (peek sh) with c :: _ => c | [] => 0 end)).

Definition match_tok (typ : token_type) : M shell bool :=
  t ← peek_type;
  if decide (t = typ) then advance;; mret true else mret false.

Fixpoint unescape (s : list Z) : list Z :=
  match s with
  | [] => []
  | c :: r =>
      if c =? BACKSLASH then
        match r with
        | [] => [c]
        | d :: r => d :: unescape r
        end
      else c :: unescape r
  end.

(** *** The parser

    [malloc n] says whether [n] bytes can be allocated; without memory for a node
    [CMD_NEW] ends the program. *)
Section parser.
Context (malloc : Z -> bool).

Definition new_cmd {A} (size : Z) (c : A) : M shell A := if malloc size then mret c else hang.

(** The loop runs from [peek.p] to [peek.p + peek.len]; with a negative length it does
    not stop at the end of the line. *)
Definition copy_peek_string : M shell (option (list Z)) :=
  sh ← get;
  if malloc (tlen (peek sh) + 1) then
    if tlen (peek sh) <? 0 then panic
    else mret (Some (unescape (take (Z.to_nat (tlen (peek sh))) (tp (peek sh)))))
  else report_error ErrMemory;; mret None.

(** The [do ... while] of [parse_execcmd]; [room] more arguments fit. *)
Fixpoint exec_loop (room : nat) (argv : list (list Z)) : M shell (option cmd) :=
  match room with
  | O => report_error ErrTooMany;; mret None
  | S room =>
      s ← copy_peek_string;
      match s with
      | None => mret None
      | Some w =>
          advance;;
          t ← peek_type;
          if decide (t = TOKEN_STRING) then exec_loop room (argv ++ [w])
          else mret (Some (CMD_EXEC (argv ++ [w])))
      end
  end.

Definition parse_execcmd : M shell (option cmd) :=
  new_cmd 88 tt;;
  exec_loop (Z.to_nat (MAX_ARGV - 1)) [].

Definition redir_target (optok : token_type) : option (Z * Z) :=
  match optok with
  | TOKEN_GTGT => Some (stdout, Z.lor O_APPEND (Z.lor O_WRONLY O_CREAT))
  | TOKEN_GT => Some (stdout, Z.lor O_WRONLY O_CREAT)
  | TOKEN_LT => Some (stdin, 0)
  | _ => None
  end.

(** [strlen(redir_to_f)] when there was no memory for [redir_to_f] reads through NULL. *)
Definition parse_redircmd (lc : cmd) (optok : token_type) : M shell (option cmd) :=
  t ← peek_type;
  if decide (t = TOKEN_STRING) then
    match redir_target optok with
    | None => hang
    | Some (fd, mode) =>
        f ← copy_peek_string;
        match f with
        | None => panic
        | Some f =>
            c ← new_cmd (16 + Z.of_nat (length f) + 1) (CMD_REDIR lc fd mode f);
            advance;;
            mret (Some c)
        end
    end
  else report_error ErrPath;; mret None.

(** The [for (;;)] of [parse_redir]. *)
Fixpoint redir_loop (fuel : nat) (c : cmd) : M shell (option cmd) :=
  match fuel with
  | O => hang
  | S fuel =>
      t ← peek_type;
      match t with
      | TOKEN_GT | TOKEN_GTGT | TOKEN_LT =>
          advance;;
          r ← parse_redircmd c t;
          match r with
          | None => mret None
          | Some c => redir_loop fuel c
          end
      | _ => mret (Some c)
      end
  end.

Fixpoint parse_cmd (fuel : nat) : M shell (option cmd) :=
  match fuel with
  | O => hang
  | S fuel =>
      t ← peek_type;
      if decide (t = TOKEN_LPAREN \/ t = TOKEN_STRING) then parse_list fuel else mret None
  end
with parse_list (fuel : nat) : M shell (option cmd) :=
  match fuel with
  | O => hang
  | S fuel =>
      l ← parse_binary fuel;
      match l with
      | None => mret None
      | Some lc =>
          t ← peek_type;
          if decide (t <> TOKEN_SEMI /\ t <> TOKEN_BACK) then mret (Some lc)
          else
            lc ← (if decide (t = TOKEN_BACK) then new_cmd 8 (CMD_BACK lc) else mret lc);
            advance;;
            r ← parse_cmd fuel;
            match r with
            | Some rc => c ← new_cmd 12 (CMD_LIST lc rc); mret (Some c)
            | None => mret (Some lc)
            end
      end
  end
with parse_binary (fuel : nat) : M shell (option cmd) :=
  match fuel with
  | O => hang
  | S fuel =>
      l ← parse_redir fuel;
      match l with
      | None => mret None
      | Some lc =>
          operator ← peek_type;
          if decide (operator = TOKEN_PIPE \/ operator = TOKEN_AND \/ operator = TOKEN_OR) then
            advance;;
            r ← parse_binary fuel;
            match r with
            | None => mret None
            | Some rc =>
                c ← (if decide (operator = TOKEN_PIPE) then new_cmd 12 (CMD_PIPE lc rc)
                     else new_cmd 16 (CMD_BINARY lc rc operator));
                mret (Some c)
            end
          else mret (Some lc)
      end
  end
with parse_redir (fuel : nat) : M shell (option cmd) :=
  match fuel with
  | O => hang
  | S fuel =>
      c ← parse_primary fuel;
      match c with
      | None => mret None
      | Some c => sh ← get; redir_loop (S (S (length (p sh)))) c
      end
  end
with parse_primary (fuel : nat) : M shell (option cmd) :=
  match fuel with
  | O => hang
  | S fuel =>
      t ← peek_type;
      match t with
      | TOKEN_LPAREN =>
          advance;;
          c ← parse_cmd fuel;
          ok ← match_tok TOKEN_RPAREN;
          if ok : bool then mret c
          else report_error ErrParen;; mret None
      | TOKEN_STRING => parse_execcmd
      | _ => unexpected;; mret None
      end
  end.

(** Calls nest at most five deep for each token (see [sh_parse_returns]). *)
Definition parse_fuel (line : list Z) : nat := 5 * length line + 10.

(** [sh_parse] of the line in [sh->buf]. *)
Definition sh_parse (buf : list Z) : M shell (option cmd) :=
  modify (fun sh => MkShell buf (peek sh) (errors sh));;
  advance;;
  c ← parse_cmd (parse_fuel buf);
  match c with
  | None => mret None
  | Some c =>
      t ← peek_type;
      if decide (t = TOKEN_EOF) then mret (Some c)
      else unexpected;; mret None
  end.
End parser.

(** *** The scanner *)

(** [struct sh_scanner], what it uses of [struct shell_ex], and the bytes that [getc] has
    still to read from the input. *)
Record scanner := MkScanner {
  input : list Z;
  line : list Z;       (* what was stored at sh->buf up to scanner->p *)
  adv : Z;             (* scanner->advance *)
  lineno : Z;
  eof : bool;
}.

(** [getc] returns the byte as a signed [char], -1 at the end. *)
Definition getc : M scanner Z :=
  s ← get;
  match input s with
  | c :: r => put (MkScanner r (line s) (adv s) (lineno s) (eof s));; mret (i8 c)
  | [] => mret (-1)
  end.

Definition get_char : M scanner Z :=
  ch ← getc;
  modify (fun s =>
    if ch =? 10 then MkScanner (input s) (line s) (adv s) (lineno s + 1) (eof s)
    else if ch <=? 0 then MkScanner (input s) (line s) (adv s) (lineno s) true
    else s);;
  mret ch.

(** [*scanner->p++ = ch]: the buffer holds 2048 bytes, which nothing checks. *)
Definition store_char (ch : Z) : M scanner unit :=
  s ← get;
  if Z.of_nat (length (line s)) <? LINE_BUF_SIZE then
    put (MkScanner (input s) (line s ++ [ch]) (adv s) (lineno s) (eof s))
  else panic.

Fixpoint read_char (fuel : nat) : M scanner Z :=
  match fuel with
  | O => hang
  | S fuel =>
      s ← get;
      if eof s then mret 0
      else if 0 <=? adv s then
        store_char (adv s);;
        modify (fun s => MkScanner (input s) (line s) (-1) (lineno s) (eof s));;
        mret (adv s)
      else
        ch ← get_char;
        if ch =? BACKSLASH then
          ch ← get_char;
          if ch =? 10 then read_char fuel
          else
            modify (fun s => MkScanner (input s) (line s) ch (lineno s) (eof s));;
            store_char BACKSLASH;;
            mret BACKSLASH
        else if ch <=? 0 then mret ch
        else store_char ch;; mret ch
  end.

(** Each call reads at least a byte of the input, or the one read ahead, or sees the
    end. *)
Definition next_char : M scanner Z := s ← get; read_char (S (length (input s))).

Fixpoint read_quoted (fuel : nat) (quote : Z) : M scanner bool :=
  match fuel with
  | O => hang
  | S fuel =>
      ch ← next_char;
      s ← get;
      if eof s then mret false
      else if ch =? quote then mret true
      else if (quote =? DQUOTE) && (ch =? BACKSLASH) then next_char;; read_quoted fuel quote
      else read_quoted fuel quote
  end.

(** The loop of [sh_read_to_buf]: [false] is the syntax error. *)
Fixpoint read_loop (fuel : nat) : M scanner bool :=
  match fuel with
  | O => hang
  | S fuel =>
      ch ← next_char;
      s ← get;
      if eof s || (ch =? 10) then mret true
      else if (ch =? 39) || (ch =? DQUOTE) then
        s ← get;
        ok ← read_quoted (S (S (length (input s)))) ch;
        if ok : bool then read_loop fuel else mret false
      else read_loop fuel
  end.

(** The exit code; the line is in [line]. *)
Definition sh_read_to_buf : M scanner Z :=
  modify (fun s => MkScanner (input s) [] (-1) (lineno s) (eof s));;
  s ← get;
  ok ← read_loop (S (S (length (input s))));
  if ok : bool then
    s ← get;
    if Z.of_nat (length (line s)) <? LINE_BUF_SIZE then
      mret (if bool_decide (line s = []) && eof s then 0 else -1)
    else panic
  else mret 1.
(** ** Printing commands

    A printer for commands, to state what the parser does: words are quoted and
    escaped, and every operand that is not a simple command is in parentheses. *)

Inductive ptok := POp (t : token_type) | PWord (w : list Z).

Definition escape (w : list Z) : list Z := flat_map (fun c => [BACKSLASH; c]) w.

Definition spell_op (t : token_type) : list Z :=
  match t with
  | TOKEN_GT => [62]
  | TOKEN_GTGT => [62; 62]
  | TOKEN_LT => [60]
  | TOKEN_LPAREN => [40]
  | TOKEN_RPAREN => [41]
  | TOKEN_SEMI => [59]
  | TOKEN_BACK => [38]
  | TOKEN_AND => [38; 38]
  | TOKEN_PIPE => [124]
  | TOKEN_OR => [124; 124]
  | TOKEN_EOF | TOKEN_STRING => []
  end.

Definition spell (t : ptok) : list Z :=
  match t with
  | POp o => spell_op o ++ [32]
  | PWord w => DQUOTE :: escape w ++ [DQUOTE; 32]
  end.

Definition spells (ts : list ptok) : list Z := flat_map spell ts.

Definition redir_op (fd mode : Z) : token_type :=
  if fd =? stdin then TOKEN_LT else if mode =? 65 then TOKEN_GT else TOKEN_GTGT.

Definition prim_of (c : cmd) (ts : list ptok) : list ptok :=
  match c with
  | CMD_EXEC _ => ts
  | _ => POp TOKEN_LPAREN :: ts ++ [POp TOKEN_RPAREN]
  end.

Fixpoint toks (c : cmd) : list ptok :=
  match c with
  | CMD_EXEC argv => map PWord argv
  | CMD_REDIR c fd mode f => prim_of c (toks c) ++ [POp (redir_op fd mode); PWord f]
  | CMD_LIST l r => prim_of l (toks l) ++ POp TOKEN_SEMI :: prim_of r (toks r)
  | CMD_BACK c => prim_of c (toks c) ++ [POp TOKEN_BACK]
  | CMD_PIPE l r => prim_of l (toks l) ++ POp TOKEN_PIPE :: prim_of r (toks r)
  | CMD_BINARY l r o => prim_of l (toks l) ++ POp o :: prim_of r (toks r)
  end.

Definition print_cmd (c : cmd) : list Z := spells (toks c).

(** The commands the parser can build. *)
Fixpoint cmd_wf (c : cmd) : Prop :=
  match c with
  | CMD_EXEC argv => argv <> [] /\ Z.of_nat (length argv) < MAX_ARGV
  | CMD_REDIR c fd mode f => cmd_wf c /\ redir_target (redir_op fd mode) = Some (fd, mode)
  | CMD_LIST l r | CMD_PIPE l r => cmd_wf l /\ cmd_wf r
  | CMD_BACK c => cmd_wf c
  | CMD_BINARY l r o => cmd_wf l /\ cmd_wf r /\ (o = TOKEN_AND \/ o = TOKEN_OR)
  end.

Fixpoint cmd_size (c : cmd) : nat :=
  match c with
  | CMD_EXEC _ => 1
  | CMD_REDIR c _ _ _ | CMD_BACK c => S (cmd_size c)
  | CMD_LIST l r | CMD_PIPE l r | CMD_BINARY l r _ => S (cmd_size l + cmd_size r)
  end.

(** *** The lexer reads back what was spelled *)

Definition tok_is (t : ptok) (k : token) : Prop :=
  match t with
  | POp o => ttype k = o
  | PWord w => ttype k = TOKEN_STRING /\ 0 <= tlen k /\ unescape (take (Z.to_nat (tlen k)) (tp k)) = w
  end.

Definition is_op (o : token_type) : Prop := o <> TOKEN_EOF /\ o <> TOKEN_STRING.

Definition ptok_ok (t : ptok) : Prop := match t with POp o => is_op o | PWord _ => True end.

(** [sh->peek] is the first of the tokens [ts] and the others are ahead. *)
Definition stream (ts : list ptok) (s : shell) : Prop :=
  Forall ptok_ok ts /\
  match ts with
  | [] => ttype (peek s) = TOKEN_EOF
  | t :: ts => tok_is t (peek s) /\ (p s = spells ts \/ p s = 32 :: spells ts)
  end.

Lemma quoted_escape w r : read_string_with_quotes (escape w ++ DQUOTE :: r) DQUOTE = r.
Proof. induction w as [|c w IH]; [done|]. exact IH. Qed.

Lemma unescape_escape w : unescape (escape w) = w.
Proof. induction w as [|c w IH]; [done|]. simpl. by rewrite IH. Qed.

Lemma length_escape w : length (escape w) = (2 * length w)%nat.
Proof. induction w as [|c w IH]; [done|]. simpl. rewrite IH. lia. Qed.

Lemma scan_space n x : scan n (32 :: x) = scan n x.
Proof. by destruct n. Qed.

Lemma scan_op n o rest : is_op o -> exists k, scan (S n) (spell_op o ++ 32 :: rest) = Ok (k, 32 :: rest) /\ ttype k = o.
Proof. intros [H1 H2]. destruct o; try done; eexists; split; reflexivity. Qed.

Lemma scan_word n w rest : exists k,
  scan (S n) (DQUOTE :: escape w ++ DQUOTE :: 32 :: rest) = Ok (k, 32 :: rest) /\ tok_is (PWord w) k.
Proof.
  eexists. split.
  - cbn [scan skip_whitespace]. change (is_space DQUOTE) with false. cbv iota zeta. simpl (DQUOTE =? _).
    change (DQUOTE =? DQUOTE) with true. cbv beta iota. rewrite quoted_escape. reflexivity.
  - simpl. rewrite !length_app. simpl. rewrite length_escape. split; [done|]. split; [lia|].
    replace (Z.to_nat _) with (length (escape w)) by (rewrite length_escape; lia).
    rewrite take_app_length. apply unescape_escape.
Qed.

Lemma advance_lex ts s : Forall ptok_ok ts -> p s = spells ts \/ p s = 32 :: spells ts ->
  exists s', advance s = Ok (tt, s') /\ stream ts s' /\ errors s' = errors s.
Proof.
  intros Hok Hp.
  assert (forall n k q, scan (S n) (spells ts) = Ok (k, q) ->
    match ts with [] => ttype k = TOKEN_EOF | t :: ts => tok_is t k /\ (q = spells ts \/ q = 32 :: spells ts) end ->
    scan (S (length (p s))) (p s) = scan (S n) (spells ts) ->
    exists s', advance s = Ok (tt, s') /\ stream ts s' /\ errors s' = errors s) as Hmain.
  { intros n k q E Hk Ep. exists (MkShell q k (errors s)). split; [|done].
    unfold advance, scan_tok, mbind, M_bind. rewrite Ep, E. done. }
  assert (exists n, scan (S (length (p s))) (p s) = scan (S n) (spells ts)) as [n Hn].
  { exists (length (p s)). destruct Hp as [->| ->]; [done|]. by rewrite scan_space. }
  destruct ts as [|t ts].
  - by eapply (Hmain n).
  - apply Forall_cons in Hok as [Ht Hok]. destruct t as [o|w].
    + destruct (scan_op n o (spells ts) Ht) as (k & Ek & Hk). apply (Hmain n k (32 :: spells ts)); [|by split; [|right]|done].
      rewrite <- Ek. f_equal. simpl. by rewrite <- app_assoc.
    + destruct (scan_word n w (spells ts)) as (k & Ek & Hk). apply (Hmain n k (32 :: spells ts)); [|by split; [|right]|done].
      rewrite <- Ek. f_equal. simpl. by rewrite <- app_assoc.
Qed.

Lemma advance_stream t ts s : stream (t :: ts) s ->
  exists s', advance s = Ok (tt, s') /\ stream ts s' /\ errors s' = errors s.
Proof. intros [Hok [_ Hp]]. apply Forall_cons in Hok as [_ Hok]. by apply advance_lex. Qed.

Lemma peek_Ok s : peek_type s = Ok (ttype (peek s), s).
Proof. done. Qed.

Definition first (ts : list ptok) : token_type :=
  match ts with [] => TOKEN_EOF | POp o :: _ => o | PWord _ :: _ => TOKEN_STRING end.

Lemma stream_peek ts s : stream ts s -> ttype (peek s) = first ts.
Proof. intros [_ H]. destruct ts as [|[o|w] ts]; [done|by destruct H|by destruct H as [[? _] _]]. Qed.
(** *** The parser reads back what was printed *)

Section roundtrip.
Context (malloc : Z -> bool) (Hmalloc : forall n, malloc n = true).

(** [m], run where the tokens [ts] are ahead, gives [r] and leaves the tokens [ts']. *)
Definition gives {A} (m : M shell A) (ts : list ptok) (r : A) (ts' : list ptok) : Prop :=
  forall s, stream ts s -> exists s', m s = Ok (r, s') /\ stream ts' s' /\ errors s' = errors s.

Lemma gives_ret {A} (a : A) ts : gives (mret a) ts a ts.
Proof. intros s Hs. by exists s. Qed.

Lemma gives_bind {A B} (m : M shell A) (k : A -> M shell B) ts1 a ts2 b ts3 :
  gives m ts1 a ts2 -> gives (k a) ts2 b ts3 -> gives (m ≫= k) ts1 b ts3.
Proof.
  intros Hm Hk s Hs. destruct (Hm s Hs) as (s1 & E1 & S1 & R1). destruct (Hk s1 S1) as (s2 & E2 & S2 & R2).
  exists s2. rewrite (bind_Ok _ _ _ _ _ E1). split_and!; [done|done|congruence].
Qed.

Lemma gives_peek ts : gives peek_type ts (first ts) ts.
Proof. intros s Hs. exists s. rewrite peek_Ok, (stream_peek ts s Hs). done. Qed.

Lemma gives_advance t ts : gives advance (t :: ts) tt ts.
Proof. intros s Hs. by apply (advance_stream t). Qed.

Lemma gives_new {A} n (c : A) ts : gives (new_cmd malloc n c) ts c ts.
Proof. unfold new_cmd. rewrite Hmalloc. apply gives_ret. Qed.

Lemma gives_copy w ts : gives (copy_peek_string malloc) (PWord w :: ts) (Some w) (PWord w :: ts).
Proof.
  intros s Hs. exists s. split; [|done]. unfold copy_peek_string. rewrite (bind_Ok _ _ _ s s) by done.
  rewrite Hmalloc. destruct Hs as [_ [(_ & H0 & Hw) _]]. rewrite (proj2 (Z.ltb_ge _ _)) by done. by rewrite Hw.
Qed.

(** Words up to something else. *)
Lemma gives_exec ws : forall room argv w ts, (length ws < room)%nat -> first ts <> TOKEN_STRING ->
  gives (exec_loop malloc room argv) (PWord w :: map PWord ws ++ ts) (Some (CMD_EXEC (argv ++ w :: ws))) ts.
Proof.
  induction ws as [|w' ws IH]; intros [|room] argv w ts Hroom Hts; simpl in Hroom; try lia; cbn [exec_loop].
  - eapply gives_bind; [apply gives_copy|]. cbv beta iota. eapply gives_bind; [apply gives_advance|].
    eapply gives_bind; [apply gives_peek|]. rewrite decide_False by done. apply gives_ret.
  - eapply gives_bind; [apply gives_copy|]. cbv beta iota. eapply gives_bind; [apply gives_advance|].
    eapply gives_bind; [apply gives_peek|]. rewrite decide_True by done.
    change (w :: w' :: ws) with ([w] ++ (w' :: ws)). rewrite app_assoc. apply IH; [lia|done].
Qed.

Definition not_redir (ts : list ptok) : Prop :=
  first ts <> TOKEN_GT /\ first ts <> TOKEN_GTGT /\ first ts <> TOKEN_LT.

Lemma gives_no_redir fuel c ts : not_redir ts -> gives (redir_loop malloc (S fuel) c) ts (Some c) ts.
Proof.
  intros (H1 & H2 & H3). cbn [redir_loop]. eapply gives_bind; [apply gives_peek|].
  destruct (first ts); try done; apply gives_ret.
Qed.

Lemma gives_redir fuel c fd mode f ts :
  redir_target (redir_op fd mode) = Some (fd, mode) -> not_redir ts ->
  gives (redir_loop malloc (S (S fuel)) c) (POp (redir_op fd mode) :: PWord f :: ts) (Some (CMD_REDIR c fd mode f)) ts.
Proof.
  intros Ht Hn. cbn [redir_loop]. eapply gives_bind; [apply gives_peek|]. cbn [first].
  assert (forall B (x y : B), match redir_op fd mode with TOKEN_GT | TOKEN_GTGT | TOKEN_LT => x | _ => y end = x) as Hm
    by (intros; unfold redir_op; repeat case_if; done).
  rewrite Hm. eapply gives_bind; [apply gives_advance|].
  eapply (gives_bind _ _ _ (Some (CMD_REDIR c fd mode f)) ts); [|by apply gives_no_redir].
  unfold parse_redircmd. eapply gives_bind; [apply gives_peek|]. rewrite decide_True by done. rewrite Ht.
  eapply gives_bind; [apply gives_copy|]. cbv beta iota. eapply gives_bind; [apply gives_new|].
  eapply gives_bind; [apply gives_advance|]. apply gives_ret.
Qed.

(** From a primary to a redirection, a pipeline, a list, when nothing else follows. *)
Lemma gives_parse_redir fuel c c' ts1 ts ts' :
  gives (parse_primary malloc fuel) ts1 (Some c) ts ->
  (forall n, gives (redir_loop malloc (S (S n)) c) ts (Some c') ts') ->
  gives (parse_redir malloc (S fuel)) ts1 (Some c') ts'.
Proof.
  intros Hp Hr. cbn [parse_redir]. eapply gives_bind; [exact Hp|]. cbv beta iota.
  intros s Hs. rewrite (bind_Ok _ _ _ s s) by done. by apply Hr.
Qed.

Definition not_binary (ts : list ptok) : Prop :=
  ~ (first ts = TOKEN_PIPE \/ first ts = TOKEN_AND \/ first ts = TOKEN_OR).

Lemma gives_parse_binary fuel c ts1 ts :
  gives (parse_redir malloc fuel) ts1 (Some c) ts -> not_binary ts ->
  gives (parse_binary malloc (S fuel)) ts1 (Some c) ts.
Proof.
  intros Hp Hn. cbn [parse_binary]. eapply gives_bind; [exact Hp|]. cbv beta iota.
  eapply gives_bind; [apply gives_peek|]. rewrite decide_False by done. apply gives_ret.
Qed.

Definition ends (ts : list ptok) : Prop := first ts = TOKEN_EOF \/ first ts = TOKEN_RPAREN.

Lemma gives_parse_cmd fuel c ts1 ts :
  gives (parse_binary malloc fuel) ts1 (Some c) ts -> ends ts -> first ts1 = TOKEN_LPAREN \/ first ts1 = TOKEN_STRING ->
  gives (parse_cmd malloc (S (S fuel))) ts1 (Some c) ts.
Proof.
  intros Hp He H1. cbn [parse_cmd]. eapply gives_bind; [apply gives_peek|]. rewrite decide_True by done.
  cbn [parse_list]. eapply gives_bind; [exact Hp|]. cbv beta iota.
  eapply gives_bind; [apply gives_peek|]. rewrite decide_True by (destruct He as [->| ->]; done). apply gives_ret.
Qed.

Lemma gives_no_cmd fuel ts : ends ts -> gives (parse_cmd malloc (S fuel)) ts None ts.
Proof.
  intros He. cbn [parse_cmd]. eapply gives_bind; [apply gives_peek|].
  rewrite decide_False by (destruct He as [->| ->]; naive_solver). apply gives_ret.
Qed.

Lemma ends_other ts : ends ts -> not_redir ts /\ not_binary ts /\ first ts <> TOKEN_STRING.
Proof. unfold not_redir, not_binary. intros [->| ->]; naive_solver. Qed.

Definition list_ok (c : cmd) : Prop := forall fuel ts, (6 * cmd_size c <= fuel)%nat -> ends ts ->
  gives (parse_cmd malloc fuel) (toks c ++ ts) (Some c) ts.

Lemma gives_primary c : cmd_wf c -> list_ok c -> forall fuel ts, (6 * cmd_size c + 1 <= fuel)%nat ->
  first ts <> TOKEN_STRING -> gives (parse_primary malloc fuel) (prim_of c (toks c) ++ ts) (Some c) ts.
Proof.
  intros Hwf Hl [|fuel] ts Hf Hts; [lia|]. assert ((exists argv, c = CMD_EXEC argv) \/ ~ (exists argv, c = CMD_EXEC argv)) as [[argv ->]|Hc]
    by (destruct c; [by left; eexists|right; by intros [? ?]..]).
  - destruct Hwf as [Hne Hlen]. destruct argv as [|w ws]; [done|]. cbn [parse_primary prim_of toks map app].
    eapply gives_bind; [apply gives_peek|]. cbn [first]. unfold parse_execcmd.
    eapply gives_bind; [apply gives_new|]. apply (gives_exec ws _ []); [|done]. unfold MAX_ARGV in *. simpl in Hlen. lia.
  - assert (prim_of c (toks c) ++ ts = POp TOKEN_LPAREN :: toks c ++ POp TOKEN_RPAREN :: ts) as ->.
    { destruct c; try (by destruct Hc; eexists); simpl; by rewrite <- app_assoc. }
    cbn [parse_primary]. eapply gives_bind; [apply gives_peek|]. cbn [first].
    eapply gives_bind; [apply gives_advance|]. eapply gives_bind; [apply Hl; [lia|by right]|].
    eapply (gives_bind _ _ _ true ts); [|apply gives_ret]. unfold match_tok. eapply gives_bind; [apply gives_peek|].
    rewrite decide_True by done. eapply gives_bind; [apply gives_advance|]. apply gives_ret.
Qed.

Lemma prim_first c ts : cmd_wf c -> first (prim_of c (toks c) ++ ts) = TOKEN_LPAREN \/ first (prim_of c (toks c) ++ ts) = TOKEN_STRING.
Proof. destruct c as [argv| | | | |]; simpl; try by left. intros [Hne _]. destruct argv; [done|by right]. Qed.

(** A primary as an operand of a binary operator, and as a whole command. *)
Lemma gives_operand c : cmd_wf c -> list_ok c -> forall fuel ts, (6 * cmd_size c + 3 <= fuel)%nat ->
  first ts <> TOKEN_STRING -> not_redir ts -> not_binary ts ->
  gives (parse_binary malloc fuel) (prim_of c (toks c) ++ ts) (Some c) ts.
Proof.
  intros Hwf Hl [|[|fuel]] ts Hf H1 H2 H3; try lia. apply gives_parse_binary; [|done].
  eapply gives_parse_redir; [apply gives_primary; [done|done|lia|done]|]. intros n. by apply gives_no_redir.
Qed.

Lemma gives_whole c : cmd_wf c -> list_ok c -> forall fuel ts, (6 * cmd_size c + 5 <= fuel)%nat -> ends ts ->
  gives (parse_cmd malloc fuel) (prim_of c (toks c) ++ ts) (Some c) ts.
Proof.
  intros Hwf Hl [|[|fuel]] ts Hf He; try lia. destruct (ends_other _ He) as (H1 & H2 & H3).
  apply gives_parse_cmd; [|done|by apply prim_first]. apply gives_operand; try done. lia.
Qed.

(** An operand, an operator and another operand. *)
Lemma gives_op l r o c ts fuel : cmd_wf l -> cmd_wf r -> list_ok l -> list_ok r ->
  (o = TOKEN_PIPE /\ c = CMD_PIPE l r \/ (o = TOKEN_AND \/ o = TOKEN_OR) /\ c = CMD_BINARY l r o) ->
  (6 * (1 + cmd_size l + cmd_size r) <= fuel)%nat -> ends ts ->
  gives (parse_cmd malloc fuel) (prim_of l (toks l) ++ POp o :: prim_of r (toks r) ++ ts) (Some c) ts.
Proof.
  intros Wl Wr Hl Hr Ho Hf He. destruct fuel as [|[|[|fuel]]]; try lia. destruct (ends_other _ He) as (H1 & H2 & H3).
  apply gives_parse_cmd; [|done|by apply prim_first]. cbn [parse_binary].
  assert (o = TOKEN_PIPE \/ o = TOKEN_AND \/ o = TOKEN_OR) as Ho' by naive_solver.
  eapply gives_bind.
  { destruct fuel as [|fuel]; [lia|]. eapply gives_parse_redir; [apply gives_primary; [done|done|lia|]|].
    - cbn [first]. naive_solver.
    - intros n. apply gives_no_redir. unfold not_redir. cbn [first]. naive_solver. }
  cbv beta iota. eapply gives_bind; [apply gives_peek|]. cbn [first]. rewrite decide_True by done.
  eapply gives_bind; [apply gives_advance|]. eapply gives_bind; [apply gives_operand; try done; lia|]. cbv beta iota.
  eapply (gives_bind _ _ _ c ts); [|apply gives_ret]. destruct Ho as [[-> ->]|[Ho ->]].
  - rewrite decide_True by done. apply gives_new.
  - rewrite decide_False by naive_solver. apply gives_new.
Qed.

Lemma parse_printed c : cmd_wf c -> list_ok c.
Proof.
  induction c as [argv|c IH fd mode f|l IHl r IHr|c IH|l IHl r IHr|l IHl r IHr o]; intros Hwf fuel ts Hf He;
    pose proof (ends_other _ He) as (H1 & H2 & H3); cbn [toks cmd_size] in *.
  - change (map PWord argv ++ ts) with (prim_of (CMD_EXEC argv) (toks (CMD_EXEC argv)) ++ ts).
    destruct fuel as [|[|[|[|[|fuel]]]]]; try lia.
    apply gives_parse_cmd; [|done|by apply prim_first]. apply gives_parse_binary; [|done].
    eapply gives_parse_redir; [|intros n; by apply gives_no_redir].
    destruct Hwf as [Hne Hlen]. destruct argv as [|w ws]; [done|]. cbn [parse_primary prim_of toks map app].
    eapply gives_bind; [apply gives_peek|]. cbn [first]. unfold parse_execcmd.
    eapply gives_bind; [apply gives_new|]. apply (gives_exec ws _ []); [|done]. unfold MAX_ARGV in *. simpl in Hlen. lia.
  - destruct Hwf as [Hwf Ht]. rewrite <- app_assoc. simpl. destruct fuel as [|[|[|[|fuel]]]]; try lia.
    apply gives_parse_cmd; [|done|by apply prim_first]. apply gives_parse_binary; [|done].
    eapply gives_parse_redir; [apply gives_primary; [done|by apply IH|lia|]|intros n; by apply gives_redir].
    cbn [first]. unfold redir_op. by repeat case_if.
  - destruct Hwf as [Wl Wr]. rewrite <- app_assoc. simpl. destruct fuel as [|[|fuel]]; try lia.
    cbn [parse_cmd]. eapply gives_bind; [apply gives_peek|]. rewrite decide_True by (by apply prim_first).
    cbn [parse_list]. eapply gives_bind; [apply gives_operand; [done|by apply IHl|lia|done|done|]|].
    { unfold not_binary. cbn [first]. naive_solver. }
    cbv beta iota. eapply gives_bind; [apply gives_peek|]. cbn [first]. rewrite decide_False by naive_solver.
    eapply gives_bind; [rewrite decide_False by done; apply gives_ret|]. cbv beta.
    eapply gives_bind; [apply gives_advance|].
    eapply gives_bind; [apply gives_whole; [done|by apply IHr| |done]|].
    { assert (1 <= cmd_size l)%nat by (destruct l; simpl; lia). lia. }
    cbv beta iota. eapply gives_bind; [apply gives_new|]. apply gives_ret.
  - rewrite <- app_assoc. simpl. destruct fuel as [|[|fuel]]; try lia.
    cbn [parse_cmd]. eapply gives_bind; [apply gives_peek|]. rewrite decide_True by (by apply prim_first).
    cbn [parse_list]. eapply gives_bind; [apply gives_operand; [done|by apply IH|lia|done|done|]|].
    { unfold not_binary. cbn [first]. naive_solver. }
    cbv beta iota. eapply gives_bind; [apply gives_peek|]. cbn [first]. rewrite decide_False by naive_solver.
    eapply gives_bind; [rewrite decide_True by done; apply gives_new|]. cbv beta.
    eapply gives_bind; [apply gives_advance|]. destruct fuel as [|fuel]; [lia|].
    eapply gives_bind; [by apply gives_no_cmd|]. apply gives_ret.
  - destruct Hwf as [Wl Wr]. rewrite <- app_assoc. simpl. apply gives_op; auto; try lia.
  - destruct Hwf as (Wl & Wr & Ho). rewrite <- app_assoc. simpl. apply gives_op; auto; try lia.
Qed.

Lemma length_spells_app a b : length (spells (a ++ b)) = (length (spells a) + length (spells b))%nat.
Proof. unfold spells. rewrite flat_map_app. apply length_app. Qed.

Lemma print_size c : cmd_wf c -> (2 * cmd_size c <= length (print_cmd c))%nat.
Proof.
  unfold print_cmd.
  assert (forall c, (length (spells (toks c)) <= length (spells (prim_of c (toks c))))%nat) as Hp.
  { intros []; cbn [prim_of]; try done; change (POp TOKEN_LPAREN :: ?x) with ([POp TOKEN_LPAREN] ++ x);
      rewrite !length_spells_app; lia. }
  induction c as [argv|c IH fd mode f|l IHl r IHr|c IH|l IHl r IHr|l IHl r IHr o]; intros Hwf; cbn [toks cmd_size].
  - destruct Hwf as [Hne _]. destruct argv as [|w ws]; [done|]. simpl. rewrite !length_app. simpl. lia.
  - destruct Hwf as [Hwf _]. specialize (IH Hwf). pose proof (Hp c). rewrite length_spells_app. simpl.
    rewrite !length_app. simpl. lia.
  - destruct Hwf as [Wl Wr]. specialize (IHl Wl). specialize (IHr Wr). pose proof (Hp l). pose proof (Hp r).
    rewrite length_spells_app. simpl. change (flat_map spell ?x) with (spells x). lia.
  - specialize (IH Hwf). pose proof (Hp c). rewrite length_spells_app. simpl. lia.
  - destruct Hwf as [Wl Wr]. specialize (IHl Wl). specialize (IHr Wr). pose proof (Hp l). pose proof (Hp r).
    rewrite length_spells_app. simpl. change (flat_map spell ?x) with (spells x). lia.
  - destruct Hwf as (Wl & Wr & Ho). specialize (IHl Wl). specialize (IHr Wr). pose proof (Hp l). pose proof (Hp r).
    rewrite length_spells_app. destruct Ho as [->| ->]; simpl; change (flat_map spell ?x) with (spells x); lia.
Qed.

Lemma toks_ok c : cmd_wf c -> Forall ptok_ok (toks c).
Proof.
  assert (forall c, Forall ptok_ok (toks c) -> Forall ptok_ok (prim_of c (toks c))) as Hp.
  { intros c' Hc. destruct c'; cbn [prim_of]; try done; (apply Forall_cons; split; [done|]);
      apply Forall_app; (split; [done|]); by apply Forall_singleton. }
  induction c as [argv|c IH fd mode f|l IHl r IHr|c IH|l IHl r IHr|l IHl r IHr o]; intros Hwf; cbn [toks].
  - apply Forall_fmap, Forall_true. done.
  - destruct Hwf as [Hwf _]. apply Forall_app. split; [auto|]. repeat (apply Forall_cons; split); try done.
    unfold redir_op. simpl. by repeat case_if.
  - destruct Hwf. apply Forall_app. split; [auto|]. apply Forall_cons. split; [done|auto].
  - apply Forall_app. split; [auto|]. by apply Forall_singleton.
  - destruct Hwf. apply Forall_app. split; [auto|]. apply Forall_cons. split; [done|auto].
  - destruct Hwf as (? & ? & Ho). apply Forall_app. split; [auto|]. apply Forall_cons. split; [|auto].
    by destruct Ho as [->| ->].
Qed.

(** C31: the parser reads every command back.  Whatever command is printed, with its words
    quoted and its operands in parentheses, [sh_parse] of the text gives that command
    again and reports no error. *)
Theorem sh_parse_roundtrip c s : cmd_wf c ->
  exists s', sh_parse malloc (print_cmd c) s = Ok (Some c, s') /\ errors s' = errors s.
Proof.
  intros Hwf. unfold sh_parse. set (s0 := MkShell (print_cmd c) (peek s) (errors s)).
  rewrite (bind_Ok _ _ _ tt s0) by done.
  destruct (advance_lex (toks c) s0) as (s1 & E1 & S1 & R1); [by apply toks_ok|by left|].
  rewrite (bind_Ok _ _ _ _ _ E1).
  destruct (parse_printed c Hwf (parse_fuel (print_cmd c)) []) with (s := s1) as (s2 & E2 & S2 & R2).
  { unfold parse_fuel. pose proof (print_size c Hwf). lia. }
  { by left. }
  { by rewrite app_nil_r. }
  exists s2. rewrite (bind_Ok _ _ _ _ _ E2). rewrite (bind_Ok _ _ _ _ _ (peek_Ok s2)).
  rewrite (stream_peek _ _ S2). rewrite decide_True by done. split; [done|]. by rewrite R2, R1.
Qed.
End roundtrip.
(** ** The parser returns *)

(** An upper bound of the tokens ahead. *)
Definition ahead (s : shell) : nat :=
  length (p s) + if decide (ttype (peek s) = TOKEN_EOF) then 0 else 1.

(** [m] returns from [s], or reaches an access outside of the line, and in the first case
    [Q] holds. *)
Definition post {A} (m : M shell A) (s : shell) (Q : A -> shell -> Prop) : Prop :=
  match m s with Ok (a, s') => Q a s' | Panic => True | Hang => False end.

Lemma post_bind {A B} (m : M shell A) (k : A -> M shell B) s (Q : A -> shell -> Prop) (R : B -> shell -> Prop) :
  post m s Q -> (forall a s', Q a s' -> post (k a) s' R) -> post (m ≫= k) s R.
Proof. unfold post, mbind, M_bind. intros Hm Hk. destruct (m s) as [[a s']| |]; [by apply Hk|done|done]. Qed.

Lemma post_ret {A} (a : A) s (Q : A -> shell -> Prop) : Q a s -> post (mret a) s Q.
Proof. done. Qed.

Lemma post_peek {B} (k : token_type -> M shell B) s R : post (k (ttype (peek s))) s R -> post (peek_type ≫= k) s R.
Proof. done. Qed.

Lemma post_weaken {A} (m : M shell A) s (Q R : A -> shell -> Prop) :
  post m s Q -> (forall a s', Q a s' -> R a s') -> post m s R.
Proof. unfold post. destruct (m s) as [[a s']| |]; auto. Qed.

Lemma skip_whitespace_length q : (length (skip_whitespace q) <= length q)%nat.
Proof. induction q as [|c q IH]; [done|]. simpl. destruct (is_space c); simpl; lia. Qed.

Lemma skip_comment_length q : (length (skip_comment q) <= length q)%nat.
Proof. induction q as [|c q IH]; [done|]. simpl. destruct (_ || _); simpl; lia. Qed.

Lemma quotes_length n : forall q c, (length q <= n)%nat -> (length (read_string_with_quotes q c) <= length q)%nat.
Proof.
  induction n as [|n IH]; intros [|ch q] c Hn; simpl in *; try lia. destruct (ch =? c); [lia|].
  destruct (_ && _).
  - destruct q as [|d q]; simpl in *; [lia|]. specialize (IH q c). lia.
  - specialize (IH q c). lia.
Qed.

Lemma read_string_length n : forall q, (length q <= n)%nat -> (length (read_string q) <= length q)%nat.
Proof.
  induction n as [|n IH]; intros [|ch q] Hn; simpl in *; try lia. destruct (_ || _); [simpl; lia|].
  destruct (_ =? _).
  - destruct q as [|d q]; simpl in *; [lia|]. specialize (IH q). lia.
  - specialize (IH q). lia.
Qed.

(** A word has at least a character. *)
Lemma read_string_word c q : is_symbol c = false -> is_space c = false ->
  (length (read_string (c :: q)) < length (c :: q))%nat.
Proof.
  intros H1 H2. cbn [read_string]. rewrite H1, H2. simpl. destruct (_ =? _).
  - destruct q as [|d q]; simpl; [lia|]. pose proof (read_string_length (length q) q). lia.
  - pose proof (read_string_length (length q) q). lia.
Qed.

Lemma skip_whitespace_head q : match skip_whitespace q with c :: _ => is_space c = false | [] => True end.
Proof. induction q as [|c q IH]; [done|]. simpl. by destruct (is_space c) eqn:E. Qed.

Lemma tok_double_spec p0 q c2 t1 t2 : p0 <> [] -> t1 <> TOKEN_EOF -> t2 <> TOKEN_EOF -> (length q < length p0)%nat ->
  ttype (fst (tok_double p0 q c2 t1 t2)) <> TOKEN_EOF /\ (length (snd (tok_double p0 q c2 t1 t2)) < length p0)%nat.
Proof. intros H0 H1 H2 H3. unfold tok_double. destruct q as [|c q]; [done|]. simpl in *. destruct (_ =? _); simpl; split; auto; lia. Qed.

(** [scan_tok] always comes back, and with progress until the end of the line. *)
Lemma scan_progress n : forall q, (length q < n)%nat -> exists k r, scan n q = Ok (k, r) /\
  (if decide (ttype k = TOKEN_EOF) then r = [] else (length r < length q)%nat).
Proof.
  induction n as [|n IH]; intros q Hn; [lia|]. cbn [scan].
  pose proof (skip_whitespace_length q) as Hw. pose proof (skip_whitespace_head q) as Hh.
  destruct (skip_whitespace q) as [|c q'] eqn:Eq; [by eexists _, _|]. simpl in Hw.
  assert (forall t r, t <> TOKEN_EOF -> (length r <= length q')%nat ->
    exists k r', Ok (tok_exit t (c :: q') r) = Ok (k, r') /\
      (if decide (ttype k = TOKEN_EOF) then r' = [] else (length r' < length q)%nat)) as Hexit.
  { intros t r Ht Hr. eexists _, _. split; [done|]. rewrite decide_False by done. lia. }
  assert (forall c2 t1 t2, t1 <> TOKEN_EOF -> t2 <> TOKEN_EOF ->
    exists k r', Ok (tok_double (c :: q') q' c2 t1 t2) = Ok (k, r') /\
      (if decide (ttype k = TOKEN_EOF) then r' = [] else (length r' < length q)%nat)) as Hdouble.
  { intros c2 t1 t2 H1 H2. unfold tok_double. destruct q' as [|d q']; [by apply Hexit|].
    destruct (d =? c2); apply Hexit; try done; simpl; lia. }
  repeat (match goal with |- context [if ?b then _ else _] =>
    lazymatch b with
    | c =? 35 => fail
    | (c =? DQUOTE) || (c =? 39) => fail
    | _ => destruct b eqn:?; [first [by apply Hdouble|by apply Hexit]|]
    end end).
  destruct (Z.eqb_spec c 35) as [H35|H35].
  - pose proof (skip_comment_length q') as Hc. destruct (IH (skip_comment q')) as (k & r & E & Hk); [lia|].
    exists k, r. split; [done|]. case_decide; [done|lia].
  - destruct (_ || _).
    + eexists _, _. split; [done|]. rewrite decide_False by done. pose proof (quotes_length (length q') q' c). lia.
    + apply Hexit; [done|]. bprop. assert (is_symbol c = false) as Hs.
      { unfold is_symbol. apply bool_decide_eq_false. set_solver. }
      pose proof (read_string_word c q' Hs Hh) as Hr. simpl length in Hr at 2. lia.
Qed.

Lemma post_advance s : post advance s (fun _ s' => (ahead s' <= length (p s))%nat).
Proof.
  unfold post, advance, mbind, M_bind, scan_tok.
  destruct (scan_progress (S (length (p s))) (p s)) as (k & r & -> & Hk); [lia|].
  unfold mret, M_ret, ahead. simpl. case_decide; [subst; simpl; lia|lia].
Qed.

(** With a token in [sh->peek] it gets consumed. *)
Lemma post_consume s : ttype (peek s) <> TOKEN_EOF -> post advance s (fun _ s' => (ahead s' < ahead s)%nat).
Proof.
  intros Ht. eapply post_weaken; [apply post_advance|]. simpl. intros _ s' Hs. unfold ahead at 2.
  rewrite decide_False by done. lia.
Qed.

Section returns.
Context (malloc : Z -> bool) (Hmalloc : forall n, malloc n = true).

Lemma post_new {A} n (c : A) s Q : Q c s -> post (new_cmd malloc n c) s Q.
Proof. unfold new_cmd. by rewrite Hmalloc. Qed.

Lemma post_copy s : post (copy_peek_string malloc) s (fun _ s' => s' = s).
Proof.
  unfold post, copy_peek_string, get, mbind, M_bind. rewrite Hmalloc.
  by destruct (tlen (peek s) <? 0).
Qed.

(** [r] was parsed from [s]: some token was consumed if it is a command. *)
Definition parsed (s : shell) (r : option cmd) (s' : shell) : Prop :=
  match r with Some _ => (ahead s' < ahead s)%nat | None => (ahead s' <= ahead s)%nat end.

Lemma post_error {A} e (a : A) s Q : Q a (MkShell (p s) (peek s) (errors s ++ [e])) -> post (report_error e;; mret a) s Q.
Proof. done. Qed.

Lemma post_exec room : forall argv s, ttype (peek s) = TOKEN_STRING -> post (exec_loop malloc room argv) s (parsed s).
Proof.
  induction room as [|room IH]; intros argv s Ht; cbn [exec_loop].
  { apply post_error. unfold parsed, ahead. simpl. lia. }
  eapply post_bind; [apply post_copy|]. intros [w|] ? ->; [|apply post_ret; unfold parsed; lia].
  eapply post_bind; [apply post_consume; congruence|]. intros [] s1 H1. apply post_peek. case_decide as D.
  - eapply post_weaken; [by apply IH|]. intros r s2. unfold parsed. destruct r; lia.
  - by apply post_ret.
Qed.

Lemma post_redircmd c t s : redir_target t <> None -> post (parse_redircmd malloc c t) s (parsed s).
Proof.
  intros Ht. unfold parse_redircmd. apply post_peek. case_decide as D; [|apply post_error; unfold parsed, ahead; simpl; lia].
  destruct (redir_target t) as [[fd mode]|]; [|done].
  eapply post_bind; [apply post_copy|]. intros [f|] ? ->; [|done].
  eapply (post_bind _ _ _ (fun _ s' => s' = s)); [by apply post_new|]. intros c' ? ->.
  eapply post_bind; [apply post_consume; congruence|]. intros [] s1 H1. by apply post_ret.
Qed.

Lemma post_redir_loop fuel : forall c s, (ahead s < fuel)%nat ->
  post (redir_loop malloc fuel c) s (fun _ s' => (ahead s' <= ahead s)%nat).
Proof.
  induction fuel as [|fuel IH]; intros c s Hf; [lia|]. cbn [redir_loop]. apply post_peek.
  assert (forall t, redir_target t <> None -> ttype (peek s) <> TOKEN_EOF ->
    post (advance;; r ← parse_redircmd malloc c t; match r with None => mret None | Some c => redir_loop malloc fuel c end) s
      (fun _ s' => (ahead s' <= ahead s)%nat)) as Hturn.
  { intros t Ht He. eapply post_bind; [by apply post_consume|]. intros [] s1 H1.
    eapply post_bind; [by apply post_redircmd|]. intros [c'|] s2 H2; unfold parsed in H2.
    - eapply post_weaken; [apply IH; lia|]. simpl. intros _ s3. lia.
    - apply post_ret. lia. }
  destruct (ttype (peek s)); try (apply post_ret; lia); by apply Hturn.
Qed.

(** Five calls for each token ahead. *)
Lemma post_parse fuel : forall s,
  ((5 * ahead s + 5 <= fuel)%nat -> post (parse_cmd malloc fuel) s (parsed s)) /\
  ((5 * ahead s + 4 <= fuel)%nat -> post (parse_list malloc fuel) s (parsed s)) /\
  ((5 * ahead s + 3 <= fuel)%nat -> post (parse_binary malloc fuel) s (parsed s)) /\
  ((5 * ahead s + 2 <= fuel)%nat -> post (parse_redir malloc fuel) s (parsed s)) /\
  ((5 * ahead s + 1 <= fuel)%nat -> post (parse_primary malloc fuel) s (parsed s)).
Proof.
  induction fuel as [|fuel IH]; intros s; [split_and!; lia|].
  split_and!; intros Hf.
  - cbn [parse_cmd]. apply post_peek. case_decide; [|apply post_ret; unfold parsed; lia].
    eapply post_weaken; [apply IH; lia|]. done.
  - cbn [parse_list]. eapply post_bind; [apply IH; lia|]. intros [l|] s1 H1; unfold parsed in H1; [|by apply post_ret].
    apply post_peek. case_decide as D; [by apply post_ret|].
    eapply (post_bind _ _ _ (fun _ s' => s' = s1)).
    { case_decide; [by apply post_new|by apply post_ret]. }
    intros lc ? ->. eapply post_bind; [apply post_consume; naive_solver congruence|]. intros [] s2 H2.
    eapply post_bind; [apply IH; lia|]. intros [r|] s3 H3; unfold parsed in H3.
    + eapply (post_bind _ _ _ (fun _ s' => s' = s3)); [by apply post_new|]. intros c ? ->. apply post_ret. unfold parsed. lia.
    + apply post_ret. unfold parsed. lia.
  - cbn [parse_binary]. eapply post_bind; [apply IH; lia|]. intros [l|] s1 H1; unfold parsed in H1; [|by apply post_ret].
    apply post_peek. case_decide as D; [|by apply post_ret].
    eapply post_bind; [apply post_consume; naive_solver congruence|]. intros [] s2 H2.
    eapply post_bind; [apply IH; lia|]. intros [r|] s3 H3; unfold parsed in H3; [|apply post_ret; unfold parsed; lia].
    eapply (post_bind _ _ _ (fun _ s' => s' = s3)).
    { case_decide; by apply post_new. }
    intros c ? ->. apply post_ret. unfold parsed. lia.
  - cbn [parse_redir]. eapply post_bind; [apply IH; lia|]. intros [c|] s1 H1; unfold parsed in H1; [|by apply post_ret].
    change (post (redir_loop malloc (S (S (length (p s1)))) c) s1 (parsed s)).
    eapply post_weaken; [apply post_redir_loop|].
    + unfold ahead. case_decide; lia.
    + simpl. intros [c'|] s2 H2; unfold parsed; lia.
  - cbn [parse_primary]. apply post_peek. destruct (ttype (peek s)) eqn:Et;
      try (apply post_error; unfold parsed, ahead; simpl; lia).
    + eapply post_bind; [apply post_consume; congruence|]. intros [] s1 H1.
      eapply post_bind; [apply IH; lia|]. intros c s2 H2.
      assert (ahead s2 <= ahead s1)%nat as H2' by (unfold parsed in H2; destruct c; lia).
      eapply (post_bind _ _ _ (fun _ s' => (ahead s' <= ahead s2)%nat)).
      { unfold match_tok. apply post_peek. case_decide as D; [|by apply post_ret].
        eapply post_bind; [apply post_consume; congruence|]. intros [] s3 H3. apply post_ret. lia. }
      intros [] s3 H3; [apply post_ret|apply post_error]; unfold parsed.
      * destruct c; lia.
      * unfold ahead in *. simpl. lia.
    + unfold parse_execcmd. eapply (post_bind _ _ _ (fun _ s' => s' = s)); [by apply post_new|]. intros [] ? ->.
      by apply post_exec.
Qed.

(** C32: the parser always comes back: for no line does [sh_parse] run on for ever, when
    there is memory for the command.  (A line that ends right after an opening quote
    makes [copy_peek_string] read beyond the line, which is not a run without end.) *)
Theorem sh_parse_returns line s : sh_parse malloc line s <> Hang.
Proof.
  enough (post (sh_parse malloc line) s (fun _ _ => True)) as Hp.
  { unfold post in Hp. intros E. by rewrite E in Hp. }
  unfold sh_parse. eapply (post_bind _ _ _ (fun _ s' => p s' = line)); [done|]. intros [] s0 H0.
  eapply post_bind; [apply post_advance|]. intros [] s1 H1. rewrite H0 in H1.
  eapply post_bind; [apply post_parse; unfold parse_fuel; lia|]. intros [c|] s2 _; [|by apply post_ret].
  apply post_peek. case_decide; [by apply post_ret|by apply post_error].
Qed.
End returns.

(** a line with a syntax error can be run in part.  In "a ; b |" the parser reports
    that something is missing after the pipe, and still returns the command "a", which
    the shell then runs: [parse_list] takes a right side that failed to parse for an
    empty one. *)
Theorem sh_parse_runs_after_error :
  exists s', sh_parse (fun _ => true) [97; 32; 59; 32; 98; 32; 124] (MkShell [] (Token TOKEN_EOF [] 0) [])
    = Ok (Some (CMD_EXEC [[97]]), s') /\ errors s' = [ErrUnexpected 0].
Proof. eexists. split; vm_compute; reflexivity. Qed.

(** a backslash between single quotes is removed, although only double quotes are
    meant to have escapes: the lexer keeps it, and [copy_peek_string], which does not know
    how a string was quoted, drops it. *)
Theorem single_quote_backslash :
  exists s', sh_parse (fun _ => true) [39; 97; 92; 98; 39] (MkShell [] (Token TOKEN_EOF [] 0) [])
    = Ok (Some (CMD_EXEC [[97; 98]]), s') /\ errors s' = [].
Proof. eexists. split; vm_compute; reflexivity. Qed.

Lemma sh_parse_roundtrip_witness :
  let c := CMD_PIPE (CMD_EXEC [[97]; []]) (CMD_REDIR (CMD_LIST (CMD_EXEC [[34; 92]]) (CMD_BACK (CMD_EXEC [[99]]))) 1 65 [102]) in
  exists s', sh_parse (fun _ => true) (print_cmd c) (MkShell [] (Token TOKEN_EOF [] 0) []) = Ok (Some c, s').
Proof.
  intros c. destruct (sh_parse_roundtrip (fun _ => true) (fun _ => eq_refl) c (MkShell [] (Token TOKEN_EOF [] 0) []))
    as (s' & E & _).
  - split_and!; try done.
  - exists s'. exact E.
Defined.

Lemma sh_parse_returns_witness :
  sh_parse (fun _ => true) [40; 40; 40] (MkShell [] (Token TOKEN_EOF [] 0) []) <> Hang.
Proof. apply (sh_parse_returns (fun _ => true) (fun _ => eq_refl)). Defined.
End Shell.
