(* ===== verification/ShExec.v ===== *)
(** Running commands: src/shell/sh/sh_exec.c, builtin_cmds.c, sh.c and main.c.

    A program is the tree of its system calls ([prog]): what it does next depends on what
    the calls return.  [exec] runs such a program as a process: a fork runs the program twice,
    and the parent can wait for the exit status of the child.  The programs that the shell
    starts, and what [open] and [fork] say, are parameters; file descriptors are given out as
    the kernel does it ([SysFs.fd_scan]).  A run records which programs were started, with their
    files and current directory, and which files a process had open while it waited. *)

From stdpp Require Import base numbers list strings.
From Stdlib Require Import ZArith Lia.
From S2P Require Import Prelude SysFs Shell.
#[local] Open Scope Z_scope.

Module ShExec.
Import Shell.

(** ** Programs *)

Inductive prog (A : Type) : Type :=
| Ret (a : A)
| Exit (status : Z)
| Stuck                                   (* [while (1)], or an access outside of an object *)
| Fork (k : Z -> prog A)
| Wait (k : option (Z * Z) -> prog A)     (* the number and the status of a child *)
| Execv (path : list Z) (argv : list (list Z)) (k : prog A)   (* [k]: there is no such program *)
| Open (path : list Z) (mode : Z) (k : Z -> prog A)
| Close (fd : Z) (k : prog A)
| Dup (fd : Z) (k : prog A)
| Pipe (k : option (Z * Z) -> prog A)
| Stat (path : list Z) (k : option Z -> prog A)   (* the type of the file *)
| Chdir (path : list Z) (k : bool -> prog A)
| Printf (s : list Z) (k : prog A).
Arguments Ret {A} a.
Arguments Exit {A} status.
Arguments Stuck {A}.
Arguments Fork {A} k.
Arguments Wait {A} k.
Arguments Execv {A} path argv k.
Arguments Open {A} path mode k.
Arguments Close {A} fd k.
Arguments Dup {A} fd k.
Arguments Pipe {A} k.
Arguments Stat {A} path k.
Arguments Chdir {A} path k.
Arguments Printf {A} s k.

#[global] Instance prog_ret : MRet prog := @Ret.

#[global] Instance prog_bind : MBind prog := fun A B f =>
  fix go (p : prog A) : prog B :=
  match p with
  | Ret a => f a
  | Exit st => Exit st
  | Stuck => Stuck
  | Fork k => Fork (fun x => go (k x))
  | Wait k => Wait (fun x => go (k x))
  | Execv path argv k => Execv path argv (go k)
  | Open path mode k => Open path mode (fun x => go (k x))
  | Close fd k => Close fd (go k)
  | Dup fd k => Dup fd (go k)
  | Pipe k => Pipe (fun x => go (k x))
  | Stat path k => Stat path (fun x => go (k x))
  | Chdir path k => Chdir path (fun x => go (k x))
  | Printf s k => Printf s (go k)
  end.

Definition fork : prog Z := Fork Ret.
Definition wait : prog (option (Z * Z)) := Wait Ret.
Definition execv (path : list Z) (argv : list (list Z)) : prog unit := Execv path argv (Ret tt).
Definition open (path : list Z) (mode : Z) : prog Z := Open path mode Ret.
Definition close (fd : Z) : prog unit := Close fd (Ret tt).
Definition dup (fd : Z) : prog unit := Dup fd (Ret tt).
Definition pipe : prog (option (Z * Z)) := Pipe Ret.
Definition stat (path : list Z) : prog (option Z) := Stat path Ret.
Definition chdir (path : list Z) : prog bool := Chdir path Ret.
Definition printf (s : list Z) : prog unit := Printf s (Ret tt).

(** Text for messages. *)
Fixpoint str (s : string) : list Z :=
  match s with
  | EmptyString => []
  | String c s => Z.of_N (Ascii.N_of_ascii c) :: str s
  end.

(** ** The shell *)

Definition T_DIR : Z := 2.

Section shell.

(** [forkexec], with [body] for the command that the child executes.  The result says
    whether there was a child, and the status if the parent waited for it; [old] is what
    [*status] held before. *)
Definition forkexec (body : prog unit) (old : Z) (inback : bool) : prog (bool * Z) :=
  pid ← fork;
  if pid =? 0 then body;; mret (false, old)
  else if 0 <? pid then
    if inback then mret (true, old)
    else
      r ← wait;
      mret (true, match r with Some (_, st) => st | None => old end)
  else
    printf (str "sh: cannot fork a new child process." ++ [10]);; mret (false, old).

(** [pathbuf] has 128 bytes, and "/bin/" takes five of them. *)
Definition bin_dir : list Z := str "/bin/".

(** [sh_execcmd] of a command that is not [NULL].  [undef] is what the variable [status] of the
    last case holds before it is set. *)
Fixpoint execcmd (undef : Z) (c : cmd) : prog unit :=
  match c with
  | CMD_EXEC argv =>
      match argv with
      | [] => Exit 1
      | a0 :: _ =>
          if 128 - 5 <=? Z.of_nat (length a0) then
            printf (str "sh: the command " ++ [34] ++ a0 ++ [34] ++ str " too long");; Exit 1
          else
            execv a0 argv;;
            execv (bin_dir ++ a0) argv;;
            printf (str "sh: cmd " ++ a0 ++ str " not found!" ++ [10]);;
            Exit 1
      end
  | CMD_REDIR c fd mode file =>
      close fd;;
      r ← open file mode;
      if r <? 0 then
        open (str "/dev/console") O_WRONLY;;
        printf (str "sh: cannot access the file: " ++ file);;
        Exit 1
      else
        execcmd undef c;; Exit 1
  | CMD_LIST l r =>
      forkexec (execcmd undef l) 0 false;;
      execcmd undef r;; Exit 1
  | CMD_BACK c =>
      forkexec (execcmd undef c) 0 true;;
      Exit 1
  | CMD_PIPE l r =>
      p ← pipe;
      match p with
      | None => printf (str "sh: cannot create a pipe." ++ [10]);; Exit 1
      | Some (rd, wr) =>
          pid ← fork;
          (if pid =? 0 then
             close 1;; dup wr;; close rd;; close wr;; execcmd undef l
           else mret tt);;
          pid ← fork;
          (if pid =? 0 then
             close 0;; dup rd;; close rd;; close wr;; execcmd undef r
           else mret tt);;
          close rd;;
          close wr;;
          wait;;
          wait;;
          Exit 0
      end
  | CMD_BINARY l r op =>
      f ← forkexec (execcmd undef l) undef false;
      let status := if fst f : bool then snd f else 1 in
      match op with
      | TOKEN_AND =>
          if negb (status =? 0) then Exit status
          else f ← forkexec (execcmd undef r) status false; Exit (snd f)
      | TOKEN_OR =>
          if status =? 0 then Exit 0
          else f ← forkexec (execcmd undef r) status false; Exit (snd f)
      | _ => Stuck
      end
  end.

Definition sh_execcmd (undef : Z) (c : option cmd) : prog unit :=
  match c with None => Exit 0 | Some c => execcmd undef c end.

(** *** Commands of the shell itself *)

(** [strcmp("cd", argv[0])] of a command without words reads at [NULL]. *)
Definition is_builtin_cmd (c : cmd) : prog bool :=
  match c with
  | CMD_EXEC [] => Stuck
  | CMD_EXEC (a0 :: _) => mret (bool_decide (a0 = str "cd"))
  | _ => mret false
  end.

Definition sh_cd (argv : list (list Z)) : prog unit :=
  let path := match argv with _ :: a1 :: _ => a1 | _ => str "/" end in
  ok ← chdir path;
  if ok : bool then mret tt else printf (str "cd: no such directory: " ++ path ++ [10]).

Definition exec_builtin_cmd (c : cmd) : prog Z :=
  match c with
  | CMD_EXEC [] => Stuck
  | CMD_EXEC (a0 :: argv) => if bool_decide (a0 = str "cd") then sh_cd (a0 :: argv);; mret 0 else mret (-1)
  | _ => mret (-1)
  end.

(** *** The loop *)

(** [shloop] after a line was parsed into [c]. *)
Definition shloop_cmd (undef : Z) (c : cmd) : prog unit :=
  b ← is_builtin_cmd c;
  if b : bool then exec_builtin_cmd c;; mret tt
  else
    pid ← fork;
    if pid =? 0 then execcmd undef c
    else if 0 <? pid then wait;; mret tt
    else printf (str "sh: cannot fork a new child process." ++ [10]).

(** [for (;;)], with fuel for the lines; the input is what the scanner has still to read, and
    the outcome of [malloc] is given to the parser. *)
Fixpoint shloop (undef : Z) (malloc : Z -> bool) (fuel : nat) (is_interactive : bool) (sc : scanner) (sh : shell) : prog unit :=
  match fuel with
  | O => mret tt
  | S fuel =>
      (if is_interactive then printf ([10] ++ str "$ ") else mret tt);;
      let sc := if is_interactive then MkScanner (input sc) (line sc) (adv sc) 1 (eof sc) else sc in
      match sh_read_to_buf sc with
      | Ok (code, sc) =>
          if 0 <=? code then Exit code
          else
            match sh_parse malloc (line sc) sh with
            | Ok (None, sh) => shloop undef malloc fuel is_interactive sc sh
            | Ok (Some c, sh) => shloop_cmd undef c;; shloop undef malloc fuel is_interactive sc sh
            | Panic | Hang => Stuck
            end
      | Panic | Hang => Stuck
      end
  end.

Definition open_scriptfile (filename : list Z) : prog Z :=
  fd ← open filename SysFs.O_RDONLY;
  if fd <? 0 then printf (str "sh: cannot access the file: " ++ filename ++ [10]);; Exit 1
  else
    st ← stat filename;
    match st with
    | None => printf (str "sh: stat: " ++ filename ++ [10]);; Exit 1
    | Some t => if t =? T_DIR then printf (filename ++ str ": is a directory." ++ [10]);; Exit 1 else mret fd
    end.

(** [sh_init]: the scanner and the parser at the start; [text] is what the stream holds. *)
Definition sh_init (text : list Z) : scanner * shell :=
  (MkScanner text [] (-1) 1 false, MkShell [] (Token TOKEN_EOF [] 0) []).

(** [text] gives what can be read from a descriptor. *)
Definition main (undef : Z) (malloc : Z -> bool) (fuel : nat) (text : Z -> list Z) (argv : list (list Z)) : prog unit :=
  match argv with
  | [_] => let (sc, sh) := sh_init (text stdin) in shloop undef malloc fuel true sc sh
  | _ :: file :: _ =>
      fd ← open_scriptfile file;
      let (sc, sh) := sh_init (text fd) in shloop undef malloc fuel false sc sh
  | [] => Stuck
  end.
End shell.

(** ** Processes *)

(** A program that was started: its path, its arguments, its open files and its current directory. *)
Record run := Run { r_path : list Z; r_argv : list (list Z); r_fds : list (option Z); r_cwd : Z }.

(** A process: its descriptors, the children it has not waited for, with their exit status, the
    numbers of its ancestors' forks, its current directory, and whether it is [init_proc]. *)
Record proc := Proc {
  fds : list (option Z);
  kids : list (Z * Z);
  addr : list nat;
  forks : nat;
  npipes : nat;
  cwd : Z;
  is_init : bool;
}.

(** [Panicked]: the kernel stopped. *)
Inductive ending := Exited (status : Z) | Returned | Crashed | Panicked.

(** What a process and its descendants did: the programs they started, in the order of the
    forks; what they printed; the descriptors that a process had open at a [wait], for each one;
    how many children nobody waited for, and the end of the process. *)
Record result := Result {
  runs : list run;
  out : list (list Z);
  waits : list (list (option Z));
  lost : nat;
  fin : ending;
}.

(** [task_exit]: [ASSERT(task != init_proc)]. *)
Definition exits (s : proc) (status : Z) : ending := if is_init s then Panicked else Exited status.

(** The environment of the shell. *)
Class World := {
  programs : run -> option Z;                                           (* the exit status of a program, if there is one *)
  opened : Z -> list Z -> Z -> option Z;                                (* the open file that [open] gives, from a directory *)
  pipe_end : list nat -> nat -> bool -> Z;                              (* the open files of a pipe; [true] is the end for writing *)
  can_fork : list nat -> nat -> bool;
  child_pid : list nat -> nat -> Z;
  next_child : list nat -> nat -> nat;                                  (* which child ends first, of so many *)
  file_type : Z -> list Z -> option Z;
  dir_at : Z -> list Z -> option Z;                                     (* the directory that a path means, from a directory *)
}.

(** [fd_alloc] of sysfs.c on the descriptors of a process. *)
Definition alloc_fd (f : Z) (l : list (option Z)) : option (Z * list (option Z)) :=
  match SysFs.fd_scan (Z.to_nat SysFs.NOFILE) 0 l with
  | Some fd => Some (fd, <[Z.to_nat fd := Some f]> l)
  | None => None
  end.

Definition close_fd (fd : Z) (l : list (option Z)) : list (option Z) := if 0 <=? fd then <[Z.to_nat fd := None]> l else l.

Definition file_of (fd : Z) (l : list (option Z)) : option Z := if 0 <=? fd then mjoin (l !! Z.to_nat fd) else None.

Definition set_fds (l : list (option Z)) (s : proc) : proc := Proc l (kids s) (addr s) (forks s) (npipes s) (cwd s) (is_init s).

Definition set_cwd (d : Z) (s : proc) : proc := Proc (fds s) (kids s) (addr s) (forks s) (npipes s) d (is_init s).

(** The results of a part of the run come before those of the rest. *)
Definition after (r1 r2 : result) : result :=
  Result (runs r1 ++ runs r2) (out r1 ++ out r2) (waits r1 ++ waits r2) (lost r1 + lost r2) (fin r2).

(** The rest of a run of a process with the files [l] that waits first. *)
Definition waited (l : list (option Z)) (r : result) : result :=
  Result (runs r) (out r) (l :: waits r) (lost r) (fin r).

Definition status_of (r : result) : Z := match fin r with Exited st => st | _ => 0 end.

Section exec.
Context `{World}.

Fixpoint exec {A} (p : prog A) (s : proc) : result :=
  match p with
  | Ret _ => Result [] [] [] (length (kids s)) Returned
  | Exit st => Result [] [] [] (length (kids s)) (exits s st)
  | Stuck => Result [] [] [] (length (kids s)) Crashed
  | Fork k =>
      if can_fork (addr s) (forks s) then
        let c := exec (k 0) (Proc (fds s) [] (addr s ++ [forks s]) 0 0 (cwd s) false) in
        let pid := child_pid (addr s) (forks s) in
        after c (exec (k pid)
          (Proc (fds s) (kids s ++ [(pid, status_of c)]) (addr s) (S (forks s)) (npipes s) (cwd s) (is_init s)))
      else exec (k (-1)) (Proc (fds s) (kids s) (addr s) (S (forks s)) (npipes s) (cwd s) (is_init s))
  | Wait k =>
      let i := (next_child (addr s) (length (kids s)) mod length (kids s))%nat in
      waited (fds s) match kids s !! i with
      | None => exec (k None) s
      | Some c => exec (k (Some c))
          (Proc (fds s) (take i (kids s) ++ drop (S i) (kids s)) (addr s) (forks s) (npipes s) (cwd s) (is_init s))
      end
  | Execv path argv k =>
      match programs (Run path argv (fds s) (cwd s)) with
      | Some st => Result [Run path argv (fds s) (cwd s)] [] [] (length (kids s)) (exits s st)
      | None => exec k s
      end
  | Open path mode k =>
      match opened (cwd s) path mode with
      | None => exec (k (-1)) s
      | Some f => match alloc_fd f (fds s) with Some (fd, l) => exec (k fd) (set_fds l s) | None => exec (k (-1)) s end
      end
  | Close fd k => exec k (set_fds (close_fd fd (fds s)) s)
  | Dup fd k =>
      match file_of fd (fds s) with
      | None => exec k s
      | Some f => match alloc_fd f (fds s) with Some (_, l) => exec k (set_fds l s) | None => exec k s end
      end
  | Pipe k =>
      let s' := Proc (fds s) (kids s) (addr s) (forks s) (S (npipes s)) (cwd s) (is_init s) in
      match alloc_fd (pipe_end (addr s) (npipes s) false) (fds s) with
      | Some (rd, l) =>
          match alloc_fd (pipe_end (addr s) (npipes s) true) l with
          | Some (wr, l) => exec (k (Some (rd, wr))) (set_fds l s')
          | None => exec (k None) s'
          end
      | None => exec (k None) s'
      end
  | Stat path k => exec (k (file_type (cwd s) path)) s
  | Chdir path k =>
      match dir_at (cwd s) path with
      | Some d => exec (k true) (set_cwd d s)
      | None => exec (k false) s
      end
  | Printf x k => let r := exec k s in Result (runs r) (x :: out r) (waits r) (lost r) (fin r)
  end.
End exec.
(** ** What commands mean *)

Section meaning.
Context `{World}.

Definition free_fds (l : list (option Z)) : nat := length (filter (fun o => o = None) l).

(** What a command means, without processes: the programs that run, with their files and
    directory; the files that a process keeps open while it waits for another one; how many
    background commands were started; the exit status.  [d] is the current directory; [a] and
    [n] are the number of the process, which names its pipes, and of its next child. *)
Record meaning := Meaning { m_runs : list run; m_waits : list (list (option Z)); m_back : nat; m_status : Z }.

Definition run_first (argv : list (list Z)) (l : list (option Z)) (d : Z) (paths : list (list Z)) : meaning :=
  fold_right (fun path m => match programs (Run path argv l d) with Some st => Meaning [Run path argv l d] [] 0 st | None => m end)
    (Meaning [] [] 0 1) paths.

(** [m2] after [m1]. *)
Definition then_ (m1 m2 : meaning) : meaning :=
  Meaning (m_runs m1 ++ m_runs m2) (m_waits m1 ++ m_waits m2) (m_back m1 + m_back m2) (m_status m2).

(** A process with the files [l] that waits, and then does [m]. *)
Definition wait_then (l : list (option Z)) (m : meaning) : meaning :=
  Meaning (m_runs m) (l :: m_waits m) (m_back m) (m_status m).

Fixpoint sem (c : cmd) (l : list (option Z)) (d : Z) (a : list nat) (n : nat) : meaning :=
  match c with
  | CMD_EXEC [] => Meaning [] [] 0 1
  | CMD_EXEC (a0 :: argv) =>
      if 123 <=? Z.of_nat (length a0) then Meaning [] [] 0 1
      else run_first (a0 :: argv) l d [a0; bin_dir ++ a0]
  | CMD_REDIR c fd mode file =>
      match opened d file mode with
      | None => Meaning [] [] 0 1
      | Some f => sem c (<[Z.to_nat fd := Some f]> l) d a n
      end
  | CMD_LIST c1 c2 => then_ (sem c1 l d (a ++ [n]) 0) (wait_then l (sem c2 l d a (S n)))
  | CMD_BACK c => then_ (sem c l d (a ++ [n]) 0) (Meaning [] [] 1 1)
  | CMD_PIPE c1 c2 =>
      if (2 <=? free_fds l)%nat then
        then_ (sem c1 (<[1%nat := Some (pipe_end a 0 true)]> l) d (a ++ [n]) 0)
          (then_ (sem c2 (<[0%nat := Some (pipe_end a 0 false)]> l) d (a ++ [S n]) 0)
             (wait_then l (wait_then l (Meaning [] [] 0 0))))
      else Meaning [] [] 0 1
  | CMD_BINARY c1 c2 op =>
      let m := sem c1 l d (a ++ [n]) 0 in
      if (if decide (op = TOKEN_AND) then m_status m =? 0 else negb (m_status m =? 0)) then
        let m2 := sem c2 l d (a ++ [S n]) 0 in
        then_ m (wait_then l (then_ m2 (wait_then l (Meaning [] [] 0 (m_status m2)))))
      else then_ m (wait_then l (Meaning [] [] 0 (m_status m)))
  end.

(** Commands as the parser makes them: redirections of the input and the output, and the two
    operators. *)
Fixpoint cmd_ok (c : cmd) : Prop :=
  match c with
  | CMD_EXEC _ => True
  | CMD_REDIR c fd _ _ => (fd = stdin \/ fd = stdout) /\ cmd_ok c
  | CMD_LIST c1 c2 | CMD_PIPE c1 c2 => cmd_ok c1 /\ cmd_ok c2
  | CMD_BACK c => cmd_ok c
  | CMD_BINARY c1 c2 op => (op = TOKEN_AND \/ op = TOKEN_OR) /\ cmd_ok c1 /\ cmd_ok c2
  end.
End meaning.

(** ** Descriptors *)

(** The input and the output are open. *)
Record fds_ok (l : list (option Z)) : Prop := {
  fk_len : length l = Z.to_nat SysFs.NOFILE;
  fk_in : exists f, l !! 0%nat = Some (Some f);
  fk_out : exists f, l !! 1%nat = Some (Some f);
}.

Lemma fds_ok_insert l k f : fds_ok l -> (k < 2)%nat -> fds_ok (<[k := Some f]> l).
Proof.
  intros [L1 [f0 L2] [f1 L3]] Hk. assert (k < length l)%nat by (rewrite L1; change (Z.to_nat SysFs.NOFILE) with 16%nat; lia). split.
  - by rewrite length_insert.
  - destruct (decide (k = 0%nat)) as [->|]; [rewrite list_lookup_insert_eq by done|rewrite list_lookup_insert_ne by done]; eauto.
  - destruct (decide (k = 1%nat)) as [->|]; [rewrite list_lookup_insert_eq by done|rewrite list_lookup_insert_ne by done]; eauto.
Qed.

Lemma alloc_fd_at f l k : length l = Z.to_nat SysFs.NOFILE -> l !! k = Some None -> (forall j, (j < k)%nat -> l !! j <> Some None) ->
  alloc_fd f l = Some (Z.of_nat k, <[k := Some f]> l).
Proof.
  intros Hl Hk Hlt. unfold alloc_fd. pose proof (SysFs.fd_scan_spec (Z.to_nat SysFs.NOFILE) l 0) as Hs.
  pose proof (lookup_lt_Some _ _ _ Hk) as Hkl. rewrite Hl in Hkl. destruct (SysFs.fd_scan (Z.to_nat SysFs.NOFILE) 0 l) as [x|].
  - destruct Hs as (i & -> & H0 & H1 & H2). assert (i = k) as ->.
    { destruct (Nat.lt_trichotomy i k) as [Hi|[->|Hi]]; [by destruct (Hlt i Hi)|done|by destruct (H2 k Hi)]. }
    rewrite Z.add_0_l, Nat2Z.id. done.
  - by destruct (Hs k Hkl).
Qed.

(** Closing and opening gives the same descriptor. *)
Lemma reopen f l k : fds_ok l -> (k < 2)%nat -> alloc_fd f (close_fd (Z.of_nat k) l) = Some (Z.of_nat k, <[k := Some f]> l).
Proof.
  intros [L1 [f0 L2] [f1 L3]] Hk. unfold close_fd. rewrite (proj2 (Z.leb_le _ _)) by lia. rewrite Nat2Z.id.
  rewrite (alloc_fd_at f (<[k := None]> l) k).
  - by rewrite list_insert_insert_eq.
  - by rewrite length_insert.
  - apply list_lookup_insert_eq. rewrite L1. change (Z.to_nat SysFs.NOFILE) with 16%nat. lia.
  - intros j Hj. rewrite list_lookup_insert_ne by lia. assert (j = 0%nat) as -> by lia. congruence.
Qed.
(** *** Pipes *)

Lemma free_first l : (1 <= free_fds l)%nat -> exists k, l !! k = Some None /\ forall j, (j < k)%nat -> l !! j <> Some None.
Proof.
  unfold free_fds. induction l as [|[f|] l IH]; intros Hn; [cbn in Hn; lia|..].
  - rewrite filter_cons_False in Hn by done. destruct (IH Hn) as (k & H1 & H2). exists (S k). split; [done|].
    intros [|j] Hj; [done|]. apply H2. lia.
  - exists 0%nat. split; [done|]. intros j Hj. lia.
Qed.

Lemma free_insert l k f : l !! k = Some None -> free_fds l = S (free_fds (<[k := Some f]> l)).
Proof.
  unfold free_fds. revert k. induction l as [|o l IH]; intros [|k] Hk; try done.
  - injection Hk as ->. cbn [insert list_insert]. rewrite filter_cons_True, filter_cons_False by done. done.
  - cbn [insert list_insert]. change (list_insert k (Some f) l) with (<[k := Some f]> l). rewrite !filter_cons. destruct (decide (o = None)).
    + cbn [length]. f_equal. by apply IH.
    + by apply IH.
Qed.

Lemma alloc_none f l : free_fds l = 0%nat -> alloc_fd f l = None.
Proof.
  intros Hz. unfold alloc_fd. pose proof (SysFs.fd_scan_spec (Z.to_nat SysFs.NOFILE) l 0) as Hs.
  destruct (SysFs.fd_scan (Z.to_nat SysFs.NOFILE) 0 l) as [x|]; [|done]. destruct Hs as (i & _ & _ & H1 & _).
  rewrite (free_insert l i 0 H1) in Hz. done.
Qed.

(** The descriptors of a pipe, [r] and [w]. *)
Record piped (l : list (option Z)) (R W : Z) (r w : nat) (l2 : list (option Z)) : Prop := {
  pi_r : l !! r = Some None /\ (2 <= r)%nat;
  pi_w : l !! w = Some None /\ (2 <= w)%nat;
  pi_rw : r <> w;
  pi_l : l2 = <[w := Some W]> (<[r := Some R]> l);
}.

Lemma alloc_pipe l R W : fds_ok l ->
  if (2 <=? free_fds l)%nat then
    exists r w l1 l2, alloc_fd R l = Some (Z.of_nat r, l1) /\ alloc_fd W l1 = Some (Z.of_nat w, l2) /\ piped l R W r w l2
  else match alloc_fd R l with None => True | Some (_, l1) => alloc_fd W l1 = None end.
Proof.
  intros [L1 [f0 L2] [f1 L3]]. destruct (Nat.leb_spec 2 (free_fds l)) as [Hn|Hn].
  - destruct (free_first l ltac:(lia)) as (r & R1 & R2). pose proof (free_insert l r R R1) as Hf.
    destruct (free_first (<[r := Some R]> l) ltac:(lia)) as (w & W1 & W2).
    assert (r <> w) as Hrw by (intros <-; rewrite list_lookup_insert_eq in W1 by (by eapply lookup_lt_Some); done).
    rewrite list_lookup_insert_ne in W1 by done.
    exists r, w, (<[r := Some R]> l), (<[w := Some W]> (<[r := Some R]> l)). split; [by apply alloc_fd_at|]. split.
    + apply alloc_fd_at; [by rewrite length_insert|by rewrite list_lookup_insert_ne|done].
    + split; [split; [done|]|split; [done|]|done|done].
      * destruct r as [|[|r]]; [congruence|congruence|lia].
      * destruct w as [|[|w]]; [congruence|congruence|lia].
  - destruct (decide (free_fds l = 0%nat)) as [Hz|Hz]; [by rewrite alloc_none|].
    destruct (free_first l ltac:(lia)) as (r & R1 & R2). rewrite (alloc_fd_at R l r L1 R1 R2).
    apply alloc_none. pose proof (free_insert l r R R1). lia.
Qed.

Lemma piped_ok l R W r w l2 : fds_ok l -> piped l R W r w l2 -> fds_ok l2.
Proof.
  intros [L1 [f0 L2] [f1 L3]] [[P1 P1'] [P2 P2'] P3 ->]. split.
  - by rewrite !length_insert.
  - exists f0. by rewrite !list_lookup_insert_ne by lia.
  - exists f1. by rewrite !list_lookup_insert_ne by lia.
Qed.

(** Closing both ends leaves the descriptors as they were, but for the one that was replaced. *)
Lemma piped_close l R W r w l2 k o : piped l R W r w l2 -> (k < 2)%nat -> (k < length l)%nat ->
  close_fd (Z.of_nat w) (close_fd (Z.of_nat r) (<[k := o]> l2)) = <[k := o]> l /\
  close_fd (Z.of_nat w) (close_fd (Z.of_nat r) l2) = l.
Proof.
  intros [[P1 P1'] [P2 P2'] P3 ->] Hk Hl. unfold close_fd. rewrite !(proj2 (Z.leb_le _ _)) by lia. rewrite !Nat2Z.id.
  pose proof (lookup_lt_Some _ _ _ P1) as Hr. pose proof (lookup_lt_Some _ _ _ P2) as Hw.
  assert (<[w := None]> (<[r := None]> (<[w := Some W]> (<[r := Some R]> l))) = l) as E.
  { apply list_eq. intros i. destruct (decide (i = w)) as [->|].
    { rewrite list_lookup_insert_eq by (rewrite !length_insert; done). done. }
    rewrite list_lookup_insert_ne by done. destruct (decide (i = r)) as [->|].
    { rewrite list_lookup_insert_eq by (rewrite !length_insert; done). done. }
    by rewrite !list_lookup_insert_ne. }
  split; [|exact E]. rewrite <- E at 2.
  rewrite (list_insert_insert_ne _ r k) by lia. rewrite (list_insert_insert_ne _ w k) by lia. done.
Qed.

Lemma piped_file l R W r w l2 : piped l R W r w l2 -> forall k, (k < 2)%nat ->
  file_of (Z.of_nat w) (close_fd (Z.of_nat k) l2) = Some W /\ file_of (Z.of_nat r) (close_fd (Z.of_nat k) l2) = Some R.
Proof.
  intros [[P1 P1'] [P2 P2'] P3 ->] k Hk. unfold file_of, close_fd. rewrite !(proj2 (Z.leb_le _ _)) by lia. rewrite !Nat2Z.id.
  pose proof (lookup_lt_Some _ _ _ P1) as Hr. pose proof (lookup_lt_Some _ _ _ P2) as Hw.
  rewrite !(list_lookup_insert_ne _ k) by lia. rewrite list_lookup_insert_eq by (by rewrite length_insert).
  rewrite list_lookup_insert_ne by done. rewrite list_lookup_insert_eq by done. done.
Qed.

(** ** Programs that do not return *)

Fixpoint halting {A} (p : prog A) : Prop :=
  match p with
  | Ret _ => False
  | Exit _ | Stuck => True
  | Fork k => forall x, halting (k x)
  | Wait k | Pipe k => forall x, halting (k x)
  | Execv _ _ k | Close _ k | Dup _ k | Printf _ k => halting k
  | Open _ _ k => forall x, halting (k x)
  | Stat _ k => forall x, halting (k x)
  | Chdir _ k => forall x, halting (k x)
  end.

Lemma halting_then {A B} (p : prog A) (f : A -> prog B) : (forall a, halting (f a)) -> halting (p ≫= f).
Proof. intros Hf. induction p; cbn; auto. Qed.

Lemma halting_left {A B} (p : prog A) (f : A -> prog B) : halting p -> halting (p ≫= f).
Proof. induction p; cbn; intros; auto; done. Qed.

Lemma execcmd_halting undef c : halting (execcmd undef c).
Proof.
  destruct c as [[|a0 argv]|c fd mode file|l r|c|l r|l r op]; cbn [execcmd]; try done.
  - destruct (128 - 5 <=? Z.of_nat (length a0)); repeat (apply halting_then; intros); done.
  - apply halting_then. intros _. apply halting_then. intros x. destruct (x <? 0); repeat (apply halting_then; intros); done.
  - apply halting_then. intros _. by apply halting_then.
  - by apply halting_then.
  - apply halting_then. intros [[rd wr]|]; [|by apply halting_then]. do 8 (apply halting_then; intros ?). done.
  - apply halting_then. intros [f st]. cbv zeta. destruct op; try done; destruct (_ =? 0); try done; by apply halting_then.
Qed.
(** ** The processes implement the meaning *)

Section correct.
Context `{World} (undef : Z).
Hypothesis Hfork : forall a n, can_fork a n = true.
Hypothesis Hpid : forall a n, 0 < child_pid a n.

Definition shows (r : result) (m : meaning) : Prop :=
  runs r = m_runs m /\ waits r = m_waits m /\ lost r = m_back m /\ fin r = Exited (m_status m).

Lemma shows_after r1 m1 r2 m2 : shows r1 m1 -> shows r2 m2 -> shows (after r1 r2) (then_ m1 m2).
Proof. intros (A1 & A2 & A3 & A4) (B1 & B2 & B3 & B4). unfold shows, after, then_. cbn. split_and!; congruence. Qed.

Lemma shows_waited l r m : shows r m -> shows (waited l r) (wait_then l m).
Proof. intros (A1 & A2 & A3 & A4). unfold shows, waited, wait_then. cbn. split_and!; congruence. Qed.

Lemma shows_exit st (s : proc) : kids s = [] -> is_init s = false -> shows (exec (Exit st : prog unit) s) (Meaning [] [] 0 st).
Proof. intros Hk Hi. unfold shows. cbn. unfold exits. by rewrite Hk, Hi. Qed.

Lemma exec_halting {A B} (p : prog A) (f : A -> prog B) : forall s, halting p -> exec (p ≫= f) s = exec p s.
Proof.
  induction p as [a|st| |k IH|k IH|path argv k IH|path mode k IH|fd k IH|fd k IH|k IH|path k IH|path k IH|x k IH]; intros s Hh; cbn in Hh |- *; try done.
  - destruct (can_fork (addr s) (forks s)); [|by apply IH]. rewrite (IH 0) by done. f_equal. by apply IH.
  - f_equal. destruct (kids s !! _); by apply IH.
  - destruct (programs _); [done|]. by apply IH.
  - destruct (opened (cwd s) path mode) as [x|]; [|by apply IH]. destruct (alloc_fd x (fds s)) as [[fd l]|]; by apply IH.
  - by apply IH.
  - destruct (file_of fd (fds s)) as [x|]; [|by apply IH]. destruct (alloc_fd x (fds s)) as [[fd' l]|]; by apply IH.
  - destruct (alloc_fd _ (fds s)) as [[rd l]|]; [|by apply IH]. destruct (alloc_fd _ l) as [[wr l']|]; by apply IH.
  - by apply IH.
  - destruct (dir_at (cwd s) path); by apply IH.
  - by rewrite (IH s Hh).
Qed.

Lemma exec_execcmd {B} c (f : unit -> prog B) s : exec (execcmd undef c ≫= f) s = exec (execcmd undef c) s.
Proof. apply exec_halting, execcmd_halting. Qed.

Definition child (s : proc) : proc := Proc (fds s) [] (addr s ++ [forks s]) 0 0 (cwd s) false.

(** A process that has made one more child, with the children [k] to wait for. *)
Definition forked (k : list (Z * Z)) (s : proc) : proc :=
  Proc (fds s) k (addr s) (S (forks s)) (npipes s) (cwd s) (is_init s).

(** [forkexec] of a process without children. *)
Lemma forkexec_exec {B} c old inback (f : bool * Z -> prog B) s : kids s = [] ->
  let r := exec (execcmd undef c) (child s) in
  exec (forkexec (execcmd undef c) old inback ≫= f) s =
  after r (if inback then exec (f (true, old)) (forked [(child_pid (addr s) (forks s), status_of r)] s)
           else waited (fds s) (exec (f (true, status_of r)) (forked [] s))).
Proof.
  intros Hk r. unfold forkexec, fork. cbn [mbind prog_bind exec]. rewrite Hfork. cbn [Z.eqb].
  pose proof (Hpid (addr s) (forks s)) as Hp. set (pid := child_pid (addr s) (forks s)) in *.
  rewrite (proj2 (Z.eqb_neq pid 0)), (proj2 (Z.ltb_lt 0 pid)) by lia.
  rewrite !(exec_halting (execcmd undef c ≫= _) f) by (apply halting_left, execcmd_halting). rewrite !exec_execcmd.
  fold (child s). fold r. rewrite Hk. cbn [app]. f_equal.
  destruct inback; [done|]. unfold wait, forked. cbn [mbind prog_bind exec kids length]. rewrite Nat.mod_1_r. done.
Qed.

(** The process that executes a command. *)
Definition proc0 (l : list (option Z)) (d : Z) (a : list nat) (n : nat) : proc := Proc l [] a n 0 d false.

Lemma shows_status r m : shows r m -> status_of r = m_status m.
Proof. intros (_ & _ & _ & E). unfold status_of. by rewrite E. Qed.

Lemma exec_run argv l d a n (k : prog unit) path m : shows (exec k (proc0 l d a n)) m ->
  shows (exec (Execv path argv k) (proc0 l d a n))
    (match programs (Run path argv l d) with Some st => Meaning [Run path argv l d] [] 0 st | None => m end).
Proof. intros Hk. cbn [exec proc0 fds cwd]. destruct (programs (Run path argv l d)) as [st|]; [|exact Hk]. done. Qed.

(** The side [k] of a pipe. *)
Lemma exec_side c l R W r w l2 k d (a : list nat) : fds_ok l -> piped l R W r w l2 -> (k < 2)%nat ->
  let from := if decide (k = 1)%nat then w else r in
  exec (Close (Z.of_nat k) (Dup (Z.of_nat from) (Close (Z.of_nat r) (Close (Z.of_nat w) (execcmd undef c))))) (proc0 l2 d a 0) =
  exec (execcmd undef c) (proc0 (<[k := Some (if decide (k = 1)%nat then W else R)]> l) d a 0).
Proof.
  intros Hl Hp Hk from. pose proof (piped_ok _ _ _ _ _ _ Hl Hp) as Hl2. destruct (piped_file _ _ _ _ _ _ Hp k Hk) as [Fw Fr].
  assert (k < length l)%nat as Hkl by (rewrite (fk_len _ Hl); change (Z.to_nat SysFs.NOFILE) with 16%nat; lia).
  set (X := if decide (k = 1)%nat then W else R).
  assert (file_of (Z.of_nat from) (close_fd (Z.of_nat k) l2) = Some X) as Ff by (unfold from, X; by destruct (decide (k = 1)%nat)).
  cbn [exec proc0 fds set_fds]. rewrite Ff. rewrite (reopen X l2 k Hl2 Hk). cbn [fds set_fds].
  unfold set_fds, proc0. cbn [fds kids addr forks npipes cwd is_init]. rewrite (proj1 (piped_close _ _ _ _ _ _ k (Some X) Hp Hk Hkl)). done.
Qed.

(** A child with a program that does not return. *)
Lemma fork_side {B} (body : prog unit) (k : prog B) s : halting body ->
  let r := exec body (child s) in
  exec (Fork (fun pid => (if pid =? 0 then body else mret tt) ≫= fun _ => k)) s =
  after r (exec k (forked (kids s ++ [(child_pid (addr s) (forks s), status_of r)]) s)).
Proof.
  intros Hb r. cbn [exec]. rewrite Hfork. cbn [Z.eqb]. rewrite exec_halting by done. fold (child s). fold r.
  pose proof (Hpid (addr s) (forks s)). rewrite (proj2 (Z.eqb_neq (child_pid _ _) 0)) by lia. done.
Qed.

Lemma exec_pipe {B} (k : option (Z * Z) -> prog B) l d a n : fds_ok l ->
  if (2 <=? free_fds l)%nat then
    exists r w l2, exec (Pipe k) (proc0 l d a n) = exec (k (Some (Z.of_nat r, Z.of_nat w))) (Proc l2 [] a n 1 d false) /\
      piped l (pipe_end a 0 false) (pipe_end a 0 true) r w l2
  else exec (Pipe k) (proc0 l d a n) = exec (k None) (Proc l [] a n 1 d false).
Proof.
  intros Hl. pose proof (alloc_pipe l (pipe_end a 0 false) (pipe_end a 0 true) Hl) as Ha. cbn [exec proc0 fds npipes addr kids forks cwd is_init].
  destruct (2 <=? free_fds l)%nat.
  - destruct Ha as (r & w & l1 & l2 & E1 & E2 & P). rewrite E1, E2. by exists r, w, l2.
  - destruct (alloc_fd _ l) as [[rd l1]|]; [by rewrite Ha|done].
Qed.

(** [sh_execcmd] of a pipe, as a tree. *)
Lemma execcmd_pipe c1 c2 : execcmd undef (CMD_PIPE c1 c2) =
  Pipe (fun p => match p with
    | None => Printf (str "sh: cannot create a pipe." ++ [10]) (Exit 1)
    | Some (rd, wr) =>
        Fork (fun pid => (if pid =? 0 then Close 1 (Dup wr (Close rd (Close wr (execcmd undef c1)))) else mret tt) ≫= fun _ =>
        Fork (fun pid => (if pid =? 0 then Close 0 (Dup rd (Close rd (Close wr (execcmd undef c2)))) else mret tt) ≫= fun _ =>
        Close rd (Close wr (Wait (fun _ => Wait (fun _ => Exit 0))))))
    end).
Proof. reflexivity. Qed.

(** Both sides are waited for, whichever ends first. *)
Lemma wait_both l a n m d x y : exec (Wait (fun _ => Wait (fun _ => Exit 0)) : prog unit) (Proc l [x; y] a n m d false) =
  Result [] [] [l; l] 0 (Exited 0).
Proof.
  cbn [exec kids length]. assert (next_child (addr (Proc l [x; y] a n m d false)) 2 mod 2 < 2)%nat as Hi by (apply Nat.mod_upper_bound; lia).
  destruct (next_child _ 2 mod 2)%nat as [|[|i]]; [..|lia]; cbn [lookup list_lookup take drop app kids length]; rewrite Nat.mod_1_r; done.
Qed.

Lemma execcmd_shows : forall c l d a n, cmd_ok c -> fds_ok l -> shows (exec (execcmd undef c) (proc0 l d a n)) (sem c l d a n).
Proof.
  induction c as [argv|c IH fd mode file|c1 IH1 c2 IH2|c IH|c1 IH1 c2 IH2|c1 IH1 c2 IH2 op]; intros l d a n Hc Hl.
  - destruct argv as [|a0 argv]; [done|]. cbn [execcmd sem]. change (128 - 5) with 123. destruct (123 <=? Z.of_nat (length a0)); [done|].
    cbn [run_first fold_right]. unfold execv. cbn [mbind prog_bind]. apply exec_run, exec_run. done.
  - destruct Hc as [Hfd Hc]. cbn [execcmd sem]. unfold close, open. cbn [mbind prog_bind exec proc0 fds set_fds cwd].
    assert (exists k, fd = Z.of_nat k /\ (k < 2)%nat) as (k & -> & Hk) by (destruct Hfd as [-> | ->]; [exists 0%nat|exists 1%nat]; split; (reflexivity || lia)).
    destruct (opened d file mode) as [f|]; cbn [fds set_fds].
    + rewrite (reopen f l k Hl Hk). cbn [prog_bind]. rewrite (proj2 (Z.ltb_ge _ _)) by lia. rewrite exec_execcmd, Nat2Z.id.
      apply IH; [done|]. by apply fds_ok_insert.
    + cbn [Z.ltb Z.compare mbind prog_bind exec].
      destruct (opened _ (str "/dev/console") O_WRONLY) as [f|]; [|done]. cbn [fds set_fds]. by destruct (alloc_fd f _) as [[fd' l']|].
  - destruct Hc as [H1 H2]. cbn [execcmd sem]. rewrite (forkexec_exec c1 0 false _ (proc0 l d a n) eq_refl). apply shows_after; [by apply IH1|].
    apply shows_waited. rewrite exec_execcmd. by apply IH2.
  - cbn [execcmd sem]. rewrite (forkexec_exec c 0 true _ (proc0 l d a n) eq_refl). apply shows_after; [by apply IH|done].
  - destruct Hc as [H1 H2]. rewrite execcmd_pipe. cbn [sem].
    match goal with |- shows (exec (Pipe ?k) _) _ => pose proof (exec_pipe k l d a n Hl) as Ha end. destruct (2 <=? free_fds l)%nat.
    + destruct Ha as (r & w & l2 & -> & P).
      assert (1 < length l)%nat as Hl1 by (rewrite (fk_len _ Hl); change (Z.to_nat SysFs.NOFILE) with 16%nat; lia).
      pose proof (exec_side c1 l _ _ r w l2 1 d (a ++ [n]) Hl P ltac:(lia)) as S1.
      pose proof (exec_side c2 l _ _ r w l2 0 d (a ++ [S n]) Hl P ltac:(lia)) as S2.
      rewrite fork_side by apply execcmd_halting. rewrite fork_side by apply execcmd_halting.
      unfold child. cbn [fds kids addr forks npipes app cwd forked]. change (Proc l2 [] (a ++ [n]) 0 0 d false) with (proc0 l2 d (a ++ [n]) 0).
      change (Proc l2 [] (a ++ [S n]) 0 0 d false) with (proc0 l2 d (a ++ [S n]) 0).
      cbv zeta in S1, S2. rewrite decide_True in S1 by done. rewrite decide_True in S1 by done.
      rewrite decide_False in S2 by done. rewrite decide_False in S2 by done. change (Z.of_nat 1) with 1 in S1. change (Z.of_nat 0) with 0 in S2.
      rewrite S1, S2. apply shows_after; [apply IH1; [done|by apply fds_ok_insert; [|lia]]|].
      apply shows_after; [apply IH2; [done|by apply fds_ok_insert; [|lia]]|].
      match goal with |- shows (exec (Close ?x (Close ?y ?k)) ?s) _ => change (exec (Close x (Close y k)) s) with (exec k (set_fds (close_fd y (close_fd x (fds s))) s)) end.
      unfold set_fds, forked. cbn [fds kids addr forks npipes cwd is_init].
      rewrite (proj2 (piped_close _ _ _ _ _ _ 1 None P ltac:(lia) Hl1)). rewrite wait_both. done.
    + rewrite Ha. done.
  - destruct Hc as [Hop [H1 H2]]. cbn [execcmd sem]. rewrite (forkexec_exec c1 undef false _ (proc0 l d a n) eq_refl). cbn [fst snd].
    pose proof (IH1 l d (a ++ [n]) 0%nat H1 Hl) as S1. change (child (proc0 l d a n)) with (proc0 l d (a ++ [n]) 0).
    rewrite (shows_status _ _ S1). set (m := sem c1 l d (a ++ [n]) 0) in *.
    pose proof (IH2 l d (a ++ [S n]) 0%nat H2 Hl) as S2. set (m2 := sem c2 l d (a ++ [S n]) 0) in *.
    assert (forall st, shows (exec (f ← forkexec (execcmd undef c2) st false; Exit (snd f) : prog unit) (forked [] (proc0 l d a n)))
              (then_ m2 (wait_then l (Meaning [] [] 0 (m_status m2))))) as S3.
    { intros st. rewrite (forkexec_exec c2 st false _ (forked [] (proc0 l d a n)) eq_refl). cbn [snd].
      change (child (forked [] (proc0 l d a n))) with (proc0 l d (a ++ [S n]) 0). rewrite (shows_status _ _ S2).
      apply shows_after; [exact S2|]. by apply shows_waited, shows_exit. }
    assert (forall st, shows (exec (Exit st : prog unit) (forked [] (proc0 l d a n))) (Meaning [] [] 0 st)) as S4 by (intros; by apply shows_exit).
    destruct Hop as [-> | ->].
    + rewrite decide_True by done. destruct (m_status m =? 0) eqn:E; cbn [negb];
        (apply shows_after; [exact S1|]; apply shows_waited; (apply S3 || apply S4)).
    + rewrite decide_False by done. destruct (Z.eqb_spec (m_status m) 0) as [E|E]; cbn [negb];
        (apply shows_after; [exact S1|]; apply shows_waited; (apply S3 || (rewrite E; apply S4))).
Qed.
End correct.
(** ** The loop *)

Section loop.
Context `{World} (undef : Z) (malloc : Z -> bool).
Hypothesis Hfork : forall a n, can_fork a n = true.
Hypothesis Hpid : forall a n, 0 < child_pid a n.

(** The commands in the input of the shell, as the scanner and the parser give them, and the
    exit code at its end. *)
Fixpoint commands (fuel : nat) (is_interactive : bool) (sc : scanner) (sh : shell) : option (list cmd * Z) :=
  match fuel with
  | O => None
  | S fuel =>
      match sh_read_to_buf (if is_interactive then MkScanner (input sc) (line sc) (adv sc) 1 (eof sc) else sc) with
      | Ok (code, sc) =>
          if 0 <=? code then Some ([], code)
          else
            match sh_parse malloc (line sc) sh with
            | Ok (None, sh) => commands fuel is_interactive sc sh
            | Ok (Some c, sh) => '(cs, code) ← commands fuel is_interactive sc sh; Some (c :: cs, code)
            | Panic | Hang => None
            end
      | Panic | Hang => None
      end
  end.

(** The directory of the shell after [cd]. *)
Definition cd_to (d : Z) (c : cmd) : Z :=
  match c with
  | CMD_EXEC (_ :: a1 :: _) => default d (dir_at d a1)
  | _ => default d (dir_at d (str "/"))
  end.

Definition is_cd (c : cmd) : bool := match c with CMD_EXEC (a0 :: _) => bool_decide (a0 = str "cd") | _ => false end.

(** The meaning of the commands one after the other. *)
Fixpoint sem_script (cs : list cmd) (l : list (option Z)) (d : Z) (a : list nat) (n : nat) (code : Z) : meaning :=
  match cs with
  | [] => Meaning [] [] 0 code
  | c :: cs =>
      if is_cd c then sem_script cs l (cd_to d c) a n code
      else then_ (sem c l d (a ++ [n]) 0) (wait_then l (sem_script cs l d a (S n) code))
  end.

Lemma shloop_cmd_exec {B} c (f : unit -> prog B) l d a n m : cmd_ok c -> fds_ok l -> c <> CMD_EXEC [] ->
  shows (exec (f tt) (if is_cd c then proc0 l (cd_to d c) a n else proc0 l d a (S n))) m ->
  shows (exec (shloop_cmd undef c ≫= f) (proc0 l d a n))
    (if is_cd c then m else then_ (sem c l d (a ++ [n]) 0) (wait_then l m)).
Proof.
  intros Hc Hl Hne Hm. unfold shloop_cmd.
  assert (is_cd c = false -> is_builtin_cmd c = mret false) as Hb.
  { destruct c as [[|a0 argv]| | | | |]; cbn; try done. intros E. by rewrite E. }
  destruct (is_cd c) eqn:Ecd.
  - destruct c as [[|a0 argv]| | | | |]; try done. cbn [is_builtin_cmd mbind prog_bind mret prog_ret exec_builtin_cmd]. cbn [is_cd] in Ecd.
    rewrite Ecd. unfold sh_cd, chdir. destruct argv as [|a1 argv]; cbn [mbind prog_bind mret prog_ret exec cwd proc0];
      cbn [cd_to] in Hm; (destruct (dir_at d _); exact Hm).
  - rewrite (Hb eq_refl). unfold fork. cbn [mbind prog_bind mret prog_ret exec]. rewrite Hfork. cbn [Z.eqb].
    rewrite (exec_execcmd undef c f). pose proof (Hpid a n) as Hp. cbn [proc0 addr forks fds kids npipes app cwd is_init].
    rewrite (proj2 (Z.eqb_neq (child_pid a n) 0)), (proj2 (Z.ltb_lt 0 (child_pid a n))) by lia.
    apply shows_after; [by apply execcmd_shows|]. unfold wait. cbn [mbind prog_bind mret prog_ret exec kids length]. rewrite Nat.mod_1_r.
    by apply shows_waited.
Qed.

Lemma shloop_shows : forall fuel inter sc sh cs code l d a n, commands fuel inter sc sh = Some (cs, code) -> fds_ok l ->
  Forall (fun c => cmd_ok c /\ c <> CMD_EXEC []) cs ->
  shows (exec (shloop undef malloc fuel inter sc sh) (proc0 l d a n)) (sem_script cs l d a n code).
Proof.
  induction fuel as [|fuel IH]; intros inter sc sh cs code l d a n Hcs Hl Hok; [done|]. cbn [commands] in Hcs. cbn [shloop].
  set (sc1 := if inter then _ else _) in *. assert (forall p : prog unit, shows (exec p (proc0 l d a n)) (sem_script cs l d a n code) ->
    shows (exec ((if inter then printf ([10] ++ str "$ ") else mret tt);; p) (proc0 l d a n)) (sem_script cs l d a n code)) as Hpr by (by destruct inter).
  apply Hpr. destruct (sh_read_to_buf sc1) as [[c sc2]| |]; try done. destruct (0 <=? c).
  { injection Hcs as <- <-. done. }
  destruct (sh_parse malloc (line sc2) sh) as [[[c'|] sh2]| |]; try done.
  - destruct (commands fuel inter sc2 sh2) as [[cs' code']|] eqn:E; [|done]. injection Hcs as <- <-.
    apply Forall_cons in Hok as [[H1 H2] Hok]. cbn [sem_script].
    pose proof (shloop_cmd_exec c' (fun _ => shloop undef malloc fuel inter sc2 sh2) l d a n (if is_cd c' then sem_script cs' l (cd_to d c') a n code' else sem_script cs' l d a (S n) code') H1 Hl H2) as S1.
    destruct (is_cd c'); apply S1; by apply IH.
  - by apply IH.
Qed.
End loop.

(** ** Theorems *)

(** C33: the processes of the shell implement the meaning of commands.  In a process whose
    input and output are open, with any programs, files and order in which children end, and as
    long as processes can be made: [sh_execcmd] starts exactly the programs that the meaning of
    the command says, with its files and in its directory (a redirection replaces one descriptor;
    the two sides of a pipe have one end of it each, at descriptor 1 and 0); a process that waits
    has the files of the command open and nothing else, so that while the sides of a pipe run
    nobody but them has an end of it and the reader sees the end of the data; it ends with the exit
    status of the meaning ([&&] and [||] depend on the status of the left side, and so on); it
    returns in no process; and it waits for every child but the background commands. *)
Theorem sh_execcmd_correct `{World} undef c l d a :
  (forall a n, can_fork a n = true) -> (forall a n, 0 < child_pid a n) -> cmd_ok c -> fds_ok l ->
  let r := exec (sh_execcmd undef (Some c)) (Proc l [] a 0 0 d false) in
  let m := sem c l d a 0 in
  runs r = m_runs m /\ waits r = m_waits m /\ lost r = m_back m /\ fin r = Exited (m_status m).
Proof. intros Hf Hp Hc Hl r m. exact (execcmd_shows undef Hf Hp c l d a 0 Hc Hl). Qed.

(** C34: the loop of the shell.  As long as processes can be made, it runs the commands of its
    input one after the other, each in a process of its own that it waits for, with only its own
    files open; [cd] changes the directory of the shell itself, so that the commands after it,
    and a later [cd], start from there, to the root without an argument, and leaves it as it is
    when there is no such directory.  It ends with the code that the scanner gives at the end of
    the input. *)
Theorem shloop_correct `{World} undef malloc fuel inter sc sh cs code l d a n :
  (forall a n, can_fork a n = true) -> (forall a n, 0 < child_pid a n) ->
  commands malloc fuel inter sc sh = Some (cs, code) -> fds_ok l -> Forall (fun c => cmd_ok c /\ c <> CMD_EXEC []) cs ->
  let r := exec (shloop undef malloc fuel inter sc sh) (Proc l [] a n 0 d false) in
  let m := sem_script cs l d a n code in
  runs r = m_runs m /\ waits r = m_waits m /\ lost r = m_back m /\ fin r = Exited (m_status m).
Proof. intros Hf Hp Hcs Hl Hok r m. exact (shloop_shows undef malloc Hf Hp fuel inter sc sh cs code l d a n Hcs Hl Hok). Qed.

(** A world with the programs [ls] and [cat]. *)
#[local] Instance demo_world : World := {|
  programs := fun r => if bool_decide (r_path r = str "/bin/ls" \/ r_path r = str "/bin/cat") then Some 0 else None;
  opened := fun _ _ _ => Some 7; pipe_end := fun _ _ w => if w then 9 else 8; can_fork := fun _ _ => true;
  child_pid := fun _ n => Z.of_nat n + 1; next_child := fun _ _ => 1%nat; file_type := fun _ _ => Some 1;
  dir_at := fun d path => if bool_decide (path = str "/bin") then Some 4 else None |}.

Definition demo_fds : list (option Z) := [Some 0; Some 1] ++ replicate 14 None.

Lemma demo_fds_ok : fds_ok demo_fds.
Proof. split; [done|by exists 0|by exists 1]. Qed.

(** [ls | cat && nothing]. *)
Definition demo_cmd : cmd := CMD_BINARY (CMD_PIPE (CMD_EXEC [str "ls"]) (CMD_EXEC [str "cat"])) (CMD_EXEC [str "nothing"]) TOKEN_AND.

Lemma sh_execcmd_correct_witness :
  let r := exec (sh_execcmd 5 (Some demo_cmd)) (Proc demo_fds [] [] 0 0 1 false) in
  runs r = [Run (str "/bin/ls") [str "ls"] ([Some 0; Some 9] ++ replicate 14 None) 1;
            Run (str "/bin/cat") [str "cat"] ([Some 8; Some 1] ++ replicate 14 None) 1] /\
  waits r = [demo_fds; demo_fds; demo_fds; demo_fds] /\ fin r = Exited 1 /\ lost r = 0%nat.
Proof.
  cbv zeta. destruct (@sh_execcmd_correct demo_world 5 demo_cmd demo_fds 1 [] (fun _ _ => eq_refl)) as (R1 & R2 & R3 & R4);
    [intros; cbn; lia|cbn; tauto|exact demo_fds_ok|]. rewrite R1, R2, R3, R4. vm_compute. split_and!; reflexivity.
Defined.

Definition demo_text : list Z := str "ls" ++ [10] ++ str "cd /bin" ++ [10] ++ str "cat > f &" ++ [10].

Lemma shloop_correct_witness :
  let r := exec (shloop 5 (fun _ => true) 9 true (fst (sh_init demo_text)) (snd (sh_init demo_text))) (Proc demo_fds [] [] 0 0 1 false) in
  map (fun x => (r_path x, r_cwd x)) (runs r) = [(str "/bin/ls", 1); (str "/bin/cat", 4)] /\ lost r = 1%nat /\ fin r = Exited 0.
Proof.
  cbv zeta.
  destruct (@shloop_correct demo_world 5 (fun _ => true) 9 true (fst (sh_init demo_text)) (snd (sh_init demo_text))
    [CMD_EXEC [str "ls"]; CMD_EXEC [str "cd"; str "/bin"]; CMD_BACK (CMD_REDIR (CMD_EXEC [str "cat"]) 1 65 (str "f"))] 0 demo_fds 1 [] 0
    (fun _ _ => eq_refl)) as (R1 & R2 & R3 & R4).
  - intros. cbn. lia.
  - vm_compute. reflexivity.
  - exact demo_fds_ok.
  - repeat apply Forall_cons_2; [..|apply Forall_nil_2]; (split; [cbn; tauto|discriminate]).
  - rewrite R1, R3, R4. vm_compute. split_and!; reflexivity.
Defined.
End ShExec.
