(* ===== verification/Stdio.v ===== *)
(** User programs and their input and output: src/lib/src/stdio.c above [vsprintf].

    A user program calls the kernel and the allocator through the class [Kernel]; what these
    promise is stated with the abstract machine of UserFs.  A program returns, or leaves with
    [exit] from wherever it is, so its results are [inl] of a value or [inr] of a status.  A
    write behind the end of an array is a [Panic]. *)

From stdpp Require Import base numbers list strings.
From Stdlib Require Import ZArith Lia.
From S2P Require Import Prelude CString.
#[local] Open Scope Z_scope.

Module Stdio.
Import CString.

(** Text for messages. *)
Fixpoint txt (s : string) : list Z :=
  match s with
  | EmptyString => []
  | String c s => Z.of_N (Ascii.N_of_ascii c) :: txt s
  end.

(** [struct stat] of src/include/sys/stat.h. *)
Record stat := Stat { st_type : Z; st_ino : Z; st_size : Z; st_nlink : Z }.

Definition T_FILE : Z := 1.
Definition T_DIR : Z := 2.
Definition T_DEVICE : Z := 3.

(** What a program calls.  [read] gives its result and the bytes that it stored; a pointer of
    the allocator is an address, 0 for [NULL]. *)
Class Kernel := {
  sys : Type;
  sys_open : list Z -> Z -> sys -> Z * sys;
  sys_close : Z -> sys -> Z * sys;
  sys_read : Z -> Z -> sys -> Z * list Z * sys;
  sys_write : Z -> list Z -> sys -> Z * sys;
  sys_stat : list Z -> sys -> option stat * sys;
  sys_mkdir : list Z -> sys -> Z * sys;
  sys_unlink : list Z -> sys -> Z * sys;
  sys_malloc : Z -> sys -> Z * sys;
  sys_free : Z -> sys -> sys;
}.

Section programs.
Context `{Kernel}.

Definition U (A : Type) : Type := sys -> outcome ((A + Z) * sys).

#[global] Instance U_ret : MRet U := fun A a s => Ok (inl a, s).

#[global] Instance U_bind : MBind U := fun A B k m s =>
  match m s with
  | Ok (inl a, s') => k a s'
  | Ok (inr status, s') => Ok (inr status, s')
  | Panic => Panic
  | Hang => Hang
  end.

Definition call {A} (f : sys -> A * sys) : U A := fun s => let (a, s') := f s in Ok (inl a, s').

(** A write behind the end of an array, or a read that meets no NUL in it. *)
Definition fault {A} : U A := fun _ => Panic.

Definition diverge {A} : U A := fun _ => Hang.

Definition exit {A} (status : Z) : U A := fun s => Ok (inr status, s).

Definition open (path : list Z) (mode : Z) : U Z := call (sys_open path mode).
Definition close (fd : Z) : U Z := call (sys_close fd).
Definition read (fd n : Z) : U (Z * list Z) := call (sys_read fd n).
Definition write (fd : Z) (src : list Z) : U Z := call (sys_write fd src).
Definition sysstat (path : list Z) : U (option stat) := call (sys_stat path).
Definition mkdir (path : list Z) : U Z := call (sys_mkdir path).
Definition unlink (path : list Z) : U Z := call (sys_unlink path).
Definition umalloc (n : Z) : U Z := call (sys_malloc n).
Definition ufree (p : Z) : U unit := call (fun s => (tt, sys_free p s)).

(** [_start]: the result of [main] is the exit status. *)
Definition start (main : U Z) : sys -> outcome (Z * sys) := fun s =>
  match main s with
  | Ok (inl status, s') | Ok (inr status, s') => Ok (status, s')
  | Panic => Panic
  | Hang => Hang
  end.

(** ** stdio.c *)

Definition stdin : Z := 0.
Definition stdout : Z := 1.
Definition INT_MAX : Z := 2147483647.

(** [sprintf] into an array of [size] bytes: the bytes and the NUL have to fit. *)
Definition sprintf (size : Z) (format : list Z) (args : list arg) : U (Z * list Z) :=
  let s := vsprintf format args in
  if size <=? Z.of_nat (length s) then fault else mret (Z.of_nat (length s), s).

Definition vfprintf (fd : Z) (format : list Z) (args : list arg) : U Z :=
  r ← sprintf 1024 format args;
  write fd (snd r).

Definition fprintf (fd : Z) (format : list Z) (args : list arg) : U Z := vfprintf fd format args.

Definition printf (format : list Z) (args : list arg) : U Z := vfprintf stdout format args.

Definition fputs (str : list Z) (fd : Z) : U Z := fprintf fd (txt "%s") [AStr str].

Definition puts (str : list Z) : U Z := fputs str stdout.

(** [buf[i] = ch]. *)
Definition poke (buf : list Z) (i : nat) (ch : Z) : U (list Z) :=
  if (i <? length buf)%nat then mret (<[i := u8 ch]> buf) else fault.

(** The loop of [fgets] from [i] on, with [n] more bytes to read; the result is the pointer
    ([None] for [NULL]) and the array. *)
Fixpoint fgets_loop (n : nat) (i : nat) (buf : list Z) (fd : Z) : U (option (list Z)) :=
  match n with
  | O => buf ← poke buf i 0; mret (Some buf)
  | S n =>
      r ← read fd 1;
      let ch := hd 0 (snd r) in
      if fst r <=? 0 then buf ← poke buf i 0; mret (Some buf)
      else if ch =? 10 then
        buf ← poke buf i ch;
        buf ← poke buf (S i) 0;
        mret (Some buf)
      else if ch =? 0 then
        if (i =? 0)%nat then mret None else buf ← poke buf i ch; mret (Some buf)
      else
        buf ← poke buf i ch;
        fgets_loop n (S i) buf fd
  end.

Definition fgets (buf : list Z) (size fd : Z) : U (option (list Z)) :=
  if size <=? 1 then mret (Some buf)
  else fgets_loop (Z.to_nat (size - 1)) 0 buf fd.

Definition gets (buf : list Z) : U (option (list Z)) := fgets buf INT_MAX stdin.

Definition putc (ch fd : Z) : U Z := write fd [u8 ch].

Definition putchar (ch : Z) : U Z := putc ch stdout.

(** [char] is signed: a byte from 128 on is negative, as the end of the input is. *)
Definition getc (fd : Z) : U Z :=
  r ← read fd 1;
  mret (if 0 <? fst r then i8 (hd 0 (snd r)) else -1).

Definition getchar : U Z := getc stdin.

(** ** Lemmas *)

Lemma ubind_Ok {A B} (m : U A) (k : A -> U B) s a s' : m s = Ok (inl a, s') -> (m ≫= k) s = k a s'.
Proof. intros E. unfold mbind, U_bind. by rewrite E. Qed.

Lemma ubind_exit {A B} (m : U A) (k : A -> U B) s st s' : m s = Ok (inr st, s') -> (m ≫= k) s = Ok (inr st, s').
Proof. intros E. unfold mbind, U_bind. by rewrite E. Qed.

Lemma ubind_Panic {A B} (m : U A) (k : A -> U B) s : m s = Panic -> (m ≫= k) s = Panic.
Proof. intros E. unfold mbind, U_bind. by rewrite E. Qed.

Lemma ubind_assoc {A B C} (m : U A) (k : A -> U B) (h : B -> U C) s : ((m ≫= k) ≫= h) s = (m ≫= fun a => k a ≫= h) s.
Proof. unfold mbind, U_bind. by destruct (m s) as [[[?|?] ?]| |]. Qed.

Lemma call_Ok {A} (f : sys -> A * sys) s a s' : f s = (a, s') -> call f s = Ok (inl a, s').
Proof. intros E. unfold call. by rewrite E. Qed.

Lemma printf_fits format args s n s' :
  Z.of_nat (length (vsprintf format args)) < 1024 -> sys_write stdout (vsprintf format args) s = (n, s') ->
  printf format args s = Ok (inl n, s').
Proof.
  intros Hlen E. unfold printf, vfprintf, sprintf. destruct (1024 <=? _) eqn:El; [lia|].
  rewrite (ubind_Ok _ _ s _ s eq_refl). unfold write. simpl snd. by apply call_Ok.
Qed.

Lemma printf_overflows format args s : 1024 <= Z.of_nat (length (vsprintf format args)) -> printf format args s = Panic.
Proof. intros Hlen. unfold printf, vfprintf, sprintf. destruct (1024 <=? _) eqn:El; [done|lia]. Qed.

End programs.

Arguments U {_} A.

End Stdio.
