(* ===== verification/Cmds.v ===== *)
(** The commands of src/shell/cmds: cat, echo, grep, ls, mkdir and rm.

    Each [main] takes its arguments as a list, with the name of the program first.  A [char *]
    is the list of the bytes before its NUL; the arrays of the programs have their sizes, and
    storing behind their ends is a [Panic].  Loops that end with the input have fuel. *)

From stdpp Require Import base numbers list strings.
From Stdlib Require Import ZArith Lia.
From S2P Require Import Prelude CString SysFs Dir Stdio.
#[local] Open Scope Z_scope.

Module Cmds.
Import CString Dir Stdio.

(** [struct filelist]: the address and the path of each node. *)
Abbreviation filelist := (list (Z * list Z)).

Section cmds.
Context `{Kernel}.

(** [for (int i = ...; i < argc; i++) body(argv[i])]. *)
Definition for_args {A} (body : A -> U unit) : list A -> U unit :=
  fix go args := match args with [] => mret tt | a :: args => body a;; go args end.

(** ** cat.c *)

(** [cat]; [buf] is the global array, which keeps its bytes from one file to the next. *)
Fixpoint cat (fuel : nat) (fd : Z) (buf : list Z) : U (list Z) :=
  match fuel with
  | O => diverge
  | S fuel =>
      r ← read fd 512;
      let n := fst r in
      let buf := splice 0 (snd r) buf in
      if n <=? 0 then mret buf
      else if hd 0 buf =? 0 then mret buf
      else
        w ← write 1 (take (Z.to_nat n) buf);
        if w <? 0 then mret buf else cat fuel fd buf
  end.

Fixpoint cat_args (fuel : nat) (args : list (list Z)) (buf : list Z) : U unit :=
  match args with
  | [] => mret tt
  | a :: args =>
      fd ← open a SysFs.O_RDONLY;
      if fd <? 0 then printf (txt "cat: no such file: %s" ++ [10]) [AStr a];; exit 1
      else
        buf ← cat fuel fd buf;
        close fd;;
        cat_args fuel args buf
  end.

Definition cat_main (fuel : nat) (argv : list (list Z)) : U Z :=
  let buf := replicate 512 0 in
  match argv with
  | [] | [_] => cat fuel stdin buf;; mret 0
  | _ :: args => cat_args fuel args buf;; mret 0
  end.

(** ** echo.c *)

Fixpoint echo_args (args : list (list Z)) : U unit :=
  match args with
  | [] => mret tt
  | a :: args =>
      printf (txt "%s") [AStr a];;
      match args with
      | [] => mret tt
      | _ => printf (txt " ") [];; echo_args args
      end
  end.

Definition echo_main (argv : list (list Z)) : U Z :=
  echo_args (tail argv);;
  printf [10] [];;
  mret 0.

(** ** grep.c *)

(** The [while] of [readline]: the last character and the bytes stored.  The test of the
    length ends it after [buflen + 1] characters. *)
Fixpoint readline_loop (fuel : nat) (fd : Z) (p : list Z) (buflen : Z) : U (Z * list Z) :=
  match fuel with
  | O => diverge
  | S fuel =>
      ch ← getc fd;
      if ch <? 0 then mret (ch, p)
      else if buflen <=? Z.of_nat (length p) then
        printf (txt "grep: fail to read a line: the line bigger than the buffer length %d." ++ [10]) [AInt buflen];;
        exit 1
      else if (ch =? 0) || (ch =? 10) || (ch =? 13) then mret (ch, p)
      else readline_loop fuel fd (p ++ [ch]) buflen
  end.

(** The result and the line. *)
Definition readline (fd buflen : Z) : U (Z * list Z) :=
  r ← readline_loop (Z.to_nat (buflen + 1)) fd [] buflen;
  let '(ch, p) := r in
  if buflen <=? Z.of_nat (length p) then fault   (* [ *p = 0 ] *)
  else mret (if ch <=? 0 then -1 else Z.of_nat (length p), p).

(** Where the line and the pattern are in the memory of the program. *)
Definition line_at : Z := 4096.
Definition pattern_at : Z := 8192.

Definition grep_mem (line pattern : list Z) : mem :=
  store (store ∅ line_at (line ++ [0])) pattern_at (pattern ++ [0]).

(** The result of [strstr] as a [bool]. *)
Definition matches (line pattern : list Z) : bool :=
  match strstr (length line + length pattern + 2) (grep_mem line pattern) line_at pattern_at with
  | Some r => negb (r =? 0)
  | None => false
  end.

Fixpoint grep (fuel : nat) (fd : Z) (patterns : list (list Z)) (found : bool) : U Z :=
  match fuel with
  | O => diverge
  | S fuel =>
      r ← readline fd 1024;
      let '(r, buf) := r in
      let matched := existsb (matches buf) patterns in
      (if matched then printf (txt "%s" ++ [10]) [AStr buf];; mret tt else mret tt);;
      let found := found || matched in
      if r <? 0 then mret (if found then 0 else 1) else grep fuel fd patterns found
  end.

Definition grep_main (fuel : nat) (argv : list (list Z)) : U Z :=
  match argv with
  | [] | [_] => printf (txt "grep: PATTERNS..." ++ [10]) [];; mret 2
  | _ :: patterns => grep fuel stdin patterns false
  end.

(** ** Directory entries, as ls and rm read them *)

(** [strcmp(s, dirent.name) == 0]. *)
Definition name_is (e : dirent) (s : list Z) : U bool := fun st =>
  match name_eq (d_name e) s with Ok b => Ok (inl b, st) | Panic => Panic | Hang => Hang end.

(** [dirent.name] as a string: reading it goes on behind the array when it has no NUL. *)
Definition name_of (e : dirent) : U (list Z) :=
  if bool_decide (0 ∈ d_name e) then mret (str_of (d_name e)) else fault.

(** ** ls.c *)

(** The path from its last slash on. *)
Fixpoint from_slash (path : list Z) : option (list Z) :=
  match path with
  | [] => None
  | c :: p =>
      match from_slash p with
      | Some q => Some q
      | None => if c =? 47 then Some path else None
      end
  end.

(** In a path without a slash [p] stops at the byte before it, [before]. *)
Definition fmt_name (before : Z) (path : list Z) : U (list Z) :=
  let '(p, len) :=
    match from_slash path with
    | Some p => (p, length p)
    | None => (before :: path, if before =? 0 then 0%nat else S (length path))
    end in
  if 32 <? Z.of_nat len then mret p
  else
    let p := tail p in
    if 32 <=? Z.of_nat (length p) then fault   (* [strcpy(buf, p)] *)
    else mret (take 31 (p ++ replicate (32 - length p) 32)).

Definition fmt_type (type : Z) : list Z :=
  if type =? T_FILE then txt "f"
  else if type =? T_DIR then txt "d"
  else if type =? T_DEVICE then txt "D"
  else txt "U".

(** [strcat(buf, s)] into [char buf[256]]. *)
Definition cat256 (buf s : list Z) : U (list Z) :=
  if 256 <=? Z.of_nat (length buf + length s) then fault else mret (buf ++ s).

Definition ls_line (before : Z) (name : list Z) (st : stat) : U unit :=
  name ← fmt_name before name;
  printf (txt "%s %s %d" ++ [10]) [AStr name; AStr (fmt_type (st_type st)); AInt (i32 (st_size st))];;
  mret tt.

(** The [while] of [ls]: [dirent] holds 64 bytes, [buf] the path. *)
Fixpoint ls_dir (fuel : nat) (fd : Z) (pathlen : nat) (dirent buf : list Z) : U unit :=
  match fuel with
  | O => diverge
  | S fuel =>
      r ← read fd DIRENT_SIZE;
      let dirent := splice 0 (snd r) dirent in
      if fst r <=? 0 then mret tt
      else
        let e := dec_dirent dirent in
        if d_inum e =? 0 then ls_dir fuel fd pathlen dirent buf
        else
          buf ← cat256 buf (txt "/");
          name ← name_of e;
          buf ← cat256 buf name;
          st ← sysstat buf;
          match st with
          | None => ls_dir fuel fd pathlen dirent buf
          | Some st =>
              ls_line (nth 3 dirent 0) name st;;
              ls_dir fuel fd pathlen dirent (take pathlen buf)
          end
  end.

(** [junk] is what the array [dirent] holds at the start. *)
Definition ls (fuel : nat) (junk : list Z) (before : Z) (path : list Z) : U unit :=
  fd ← open path SysFs.O_RDONLY;
  if fd <? 0 then printf (txt "ls: cannot access the file: %s" ++ [10]) [AStr path];; exit 1
  else
    st ← sysstat path;
    match st with
    | None => printf (txt "ls: stat %s" ++ [10]) [AStr path];; exit 1
    | Some st =>
        if 256 <=? Z.of_nat (length path) then printf (txt "ls: path is too long." ++ [10]) [];; exit 1
        else
          (if (st_type st =? T_FILE) || (st_type st =? T_DEVICE) then ls_line before path st
           else if st_type st =? T_DIR then ls_dir fuel fd (length path) junk path
           else printf (txt "Unknown Type" ++ [10]) [];; exit 1);;
          close fd;;
          mret tt
    end.

(** The arguments come with the bytes before them in memory, and so does the literal ["."]. *)
Definition ls_main (fuel : nat) (junk : list Z) (before : Z) (argv : list (Z * list Z)) : U Z :=
  (match argv with
   | [] | [_] => ls fuel junk before (txt ".")
   | _ :: args => for_args (fun a => ls fuel junk (fst a) (snd a)) args
   end);;
  mret 0.

(** ** mkdir.c *)

Definition _mkdir (dirname : list Z) : U unit :=
  r ← mkdir dirname;
  if r <? 0 then
    printf (txt "mkdir: cannot create directory " ++ [34] ++ txt "%s" ++ [34] ++ txt "." ++ [10]) [AStr dirname];; mret tt
  else mret tt.

Definition mkdir_main (argv : list (list Z)) : U Z :=
  match argv with
  | [] | [_] => printf (txt "mkdir: no input files." ++ [10]) [];; mret 0
  | _ :: args => for_args _mkdir args;; mret 0
  end.

(** ** rm.c *)

(** The [while] of [list]. *)
Fixpoint list_loop (fuel : nat) (fd : Z) (path dirent : list Z) (next : filelist) : U filelist :=
  match fuel with
  | O => diverge
  | S fuel =>
      r ← read fd DIRENT_SIZE;
      let dirent := splice 0 (snd r) dirent in
      if fst r <=? 0 then mret next
      else
        let e := dec_dirent dirent in
        if d_inum e =? 0 then list_loop fuel fd path dirent next
        else
          dot ← name_is e (txt ".");
          dotdot ← (if dot : bool then mret true else name_is e (txt ".."));
          if dotdot : bool then list_loop fuel fd path dirent next
          else
            name ← name_of e;
            f ← umalloc (4 + Z.of_nat (length path) + Z.of_nat (length name) + 2);
            if f =? 0 then printf (txt "rm: out of memory." ++ [10]) [];; exit 1
            else list_loop fuel fd path dirent ((f, path ++ txt "/" ++ name) :: next)
  end.

Definition list_files (fuel : nat) (junk path : list Z) : U filelist :=
  fd ← open path SysFs.O_RDONLY;
  if fd <? 0 then printf (txt "rm: cannot access the file: %s." ++ [10]) [AStr path];; exit 1
  else
    next ← list_loop fuel fd path junk [];
    close fd;;
    mret next.

(** [while (flist != NULL)], with [rec] for the recursive call. *)
Definition rm_files (rec : list Z -> U unit) : filelist -> U unit :=
  fix go flist :=
    match flist with
    | [] => mret tt
    | (f, p) :: next => rec p;; ufree f;; go next
    end.

(** [fuel] bounds the depth of the tree and the entries of a directory. *)
Fixpoint rm (fuel : nat) (junk path : list Z) (recurse : bool) : U unit :=
  match fuel with
  | O => diverge
  | S fuel' =>
      (if recurse then
         st ← sysstat path;
         match st with
         | None => printf (txt "rm: %s stat." ++ [10]) [AStr path];; exit 1
         | Some st =>
             if st_type st =? T_DIR then
               flist ← list_files fuel junk path;
               rm_files (fun p => rm fuel' junk p recurse) flist
             else mret tt
         end
       else mret tt);;
      r ← unlink path;
      if r <? 0 then printf (txt "rm: %s failed to delete." ++ [10]) [AStr path];; exit 1
      else mret tt
  end.

(** [strcmp("-r", argv[1])]. *)
Definition rm_main (fuel : nat) (junk : list Z) (argv : list (list Z)) : U Z :=
  let recurse := match argv with _ :: a1 :: _ => bool_decide (a1 = txt "-r") | _ => false end in
  if (Z.of_nat (length argv) <=? 1) || (recurse && (Z.of_nat (length argv) <=? 2)) then
    printf (txt "Usage: rm [-r] files..." ++ [10]) [];; mret 0
  else
    for_args (fun a => rm fuel junk a recurse) (drop (if recurse then 2 else 1) argv);;
    mret 0.

End cmds.

End Cmds.
