(* ===== verification/UserFs.v ===== *)
(** What the kernel promises to user programs: an abstract machine.

    A process sees a tree of files, its current directory, its descriptors, what was written to
    its output, the blocks it has from the allocator and the memory it can still get ([view]).
    [KernelLaws] says what each call does to the view; the programs of Cmds are proved against
    these laws.  They say no more than the kernel does: a path is looked up only when its elements fit
    into the kernel's arrays ([short]), a file is opened only when there is room for one, a [write] says
    only that it has not failed (src/fs/file.c returns 0 for the console and for files, the length for a
    pipe) and copies only what fits into one transaction, and a [malloc] beyond the memory that is
    left may fail or fault.  The second part of the file is a kernel that keeps the laws, in memory. *)

From stdpp Require Import base numbers list gmap strings.
From Stdlib Require Import ZArith Lia.
From S2P Require Import Prelude CString Dir Pathname SysFs Stdio.
#[local] Open Scope Z_scope.

Module UserFs.
Import Dir Pathname Stdio.

(** ** Trees of files *)

(** A directory is its entries in order; an entry of a file below the directory has the tree of
    that file, free entries and the entries [.] and [..] have none. *)
Inductive tree :=
| TFile (data : list Z)
| TDev
| TDir (l : list (dirent * option tree)).

Abbreviation entries := (list (dirent * option tree)).

Definition name (e : dirent) : list Z := str_of (d_name e).

Fixpoint child (n : list Z) (l : entries) : option tree :=
  match l with
  | [] => None
  | (e, Some t) :: l => if bool_decide (name e = n) then Some t else child n l
  | (_, None) :: l => child n l
  end.

Fixpoint lookup_tree (ns : list (list Z)) (t : tree) : option tree :=
  match ns with
  | [] => Some t
  | n :: ns => match t with TDir l => child n l ≫= lookup_tree ns | _ => None end
  end.

(** Change the entry of the file [n]. *)
Definition update (n : list Z) (f : dirent -> tree -> dirent * option tree) (l : entries) : entries :=
  map (fun x => match x with (e, Some t) => if bool_decide (name e = n) then f e t else x | _ => x end) l.

Definition free_entry : dirent * option tree := (Dirent 0 (replicate 60 0), None).

Definition zap (n : list Z) (l : entries) : entries := update n (fun _ _ => free_entry) l.

Fixpoint remove (ns : list (list Z)) (t : tree) : tree :=
  match ns, t with
  | [n], TDir l => TDir (zap n l)
  | n :: ns, TDir l => TDir (update n (fun e t => (e, Some (remove ns t))) l)
  | _, _ => t
  end.

(** The names of the files in a directory. *)
Definition child_names (l : entries) : list (list Z) := omap (fun x => match snd x with Some _ => Some (name (fst x)) | None => None end) l.

Fixpoint size (t : tree) : nat :=
  match t with
  | TDir l => S (fold_right (fun x n => S (match snd x with Some t => size t | None => 0%nat end + n)) 0%nat l)
  | _ => 1
  end.

Definition dot_names : list (list Z) := [txt "."; txt ".."].

Definition entry_ok (x : dirent * option tree) : Prop :=
  let e := fst x in
  length (d_name e) = 60%nat /\ is_u32 (d_inum e) /\
  match snd x with
  | None => d_inum e = 0 \/ (0 ∈ d_name e /\ name e ∈ dot_names)
  | Some _ => d_inum e <> 0 /\ 0 ∈ d_name e /\ name e <> [] /\ SLASH ∉ name e /\ name e ∉ dot_names
  end.

Fixpoint wf (t : tree) : Prop :=
  match t with
  | TDir l =>
      Forall entry_ok l /\ NoDup (child_names l) /\
      fold_right (fun x P => match snd x with Some t => wf t /\ P | None => P end) True l
  | _ => True
  end.

(** ** Paths *)

Definition step_name (root : tree) (n : list Z) (ns : list (list Z)) : option (list (list Z)) :=
  match lookup_tree ns root with
  | Some (TDir l) =>
      if bool_decide (n = txt ".") then Some ns
      else if bool_decide (n = txt "..") then Some (removelast ns)
      else match child n l with Some _ => Some (ns ++ [n]) | None => None end
  | _ => None
  end.

Definition start_dir (cwd : list (list Z)) (p : list Z) : list (list Z) :=
  match p with c :: _ => if c =? SLASH then [] else cwd | [] => cwd end.

(** The place in the tree that a path means. *)
Definition resolve (root : tree) (cwd : list (list Z)) (p : list Z) : option (list (list Z)) :=
  fold_left (fun o n => o ≫= step_name root n) (elements p) (Some (start_dir cwd p)).

(** ** The view of a process *)

Inductive stream :=
| In (regular : bool) (rest : list Z)   (* a file or directory that is read; a pipe or device otherwise *)
| Out.                                  (* the console, or a pipe that is read *)

Record view := View {
  v_root : tree;
  v_cwd : list (list Z);
  v_fds : gmap Z stream;
  v_room : nat;                 (* so many files can still be opened *)
  v_out : list Z;
  v_heap : gset Z;
  v_mem : Z;                    (* requests for so many bytes in all can still be served *)
}.

Definition with_root (t : tree) (v : view) : view := View t (v_cwd v) (v_fds v) (v_room v) (v_out v) (v_heap v) (v_mem v).
Definition with_fds (f : gmap Z stream) (k : nat) (v : view) : view := View (v_root v) (v_cwd v) f k (v_out v) (v_heap v) (v_mem v).
Definition with_out (o : list Z) (v : view) : view := View (v_root v) (v_cwd v) (v_fds v) (v_room v) o (v_heap v) (v_mem v).
Definition with_heap (h : gset Z) (v : view) : view := View (v_root v) (v_cwd v) (v_fds v) (v_room v) (v_out v) h (v_mem v).
Definition with_mem (k : Z) (v : view) : view := View (v_root v) (v_cwd v) (v_fds v) (v_room v) (v_out v) (v_heap v) k.

Definition resolves (v : view) (p : list Z) : option (list (list Z)) := resolve (v_root v) (v_cwd v) p.

Definition content (t : tree) : list Z :=
  match t with
  | TFile data => data
  | TDev => []
  | TDir l => concat (map (fun x => enc_dirent (fst x)) l)
  end.

Definition type_of (t : tree) : Z :=
  match t with TFile _ => T_FILE | TDev => T_DEVICE | TDir _ => T_DIR end.

(** What [unlink] takes away: no directory with files in it. *)
Definition removable (t : tree) : bool :=
  match t with TDir l => bool_decide (child_names l = []) | _ => true end.

(** The names in a path fit into the arrays of the kernel. *)
Definition short (p : list Z) : Prop := Forall (fun e => Pathname.fits e = true) (elements p).

(** The largest write that [file_write] makes in one transaction. *)
Definition max_write : nat := 1536.

Section laws.
Context `{Kernel}.

Class KernelLaws := {
  obs : sys -> view;
  open_ok s p ns t : short p -> resolves (obs s) p = Some ns -> lookup_tree ns (v_root (obs s)) = Some t ->
    t <> TDev -> (0 < v_room (obs s))%nat ->
    exists fd s', sys_open p SysFs.O_RDONLY s = (fd, s') /\ 0 <= fd /\ v_fds (obs s) !! fd = None /\
      obs s' = with_fds (<[fd := In true (content t)]> (v_fds (obs s))) (pred (v_room (obs s))) (obs s);
  open_none s p : short p -> resolves (obs s) p = None -> exists r s', sys_open p SysFs.O_RDONLY s = (r, s') /\ r < 0 /\ obs s' = obs s;
  close_ok s fd f : v_fds (obs s) !! fd = Some f ->
    exists r s', sys_close fd s = (r, s') /\ obs s' = with_fds (delete fd (v_fds (obs s))) (S (v_room (obs s))) (obs s);
  read_end s fd n b : 0 < n -> v_fds (obs s) !! fd = Some (In b []) ->
    exists r s', sys_read fd n s = (r, [], s') /\ r <= 0 /\ obs s' = obs s;
  read_some s fd n b l : 0 < n -> l <> [] -> v_fds (obs s) !! fd = Some (In b l) ->
    exists k s', sys_read fd n s = (Z.of_nat k, take k l, s') /\ (0 < k <= Z.to_nat n)%nat /\ (k <= length l)%nat /\
      (b = true -> k = Z.to_nat n `min` length l)%nat /\
      obs s' = with_fds (<[fd := In b (drop k l)]> (v_fds (obs s))) (v_room (obs s)) (obs s);
  write_ok s fd src : v_fds (obs s) !! fd = Some Out -> (length src <= max_write)%nat ->
    exists r s', sys_write fd src s = (r, s') /\ 0 <= r /\ obs s' = with_out (v_out (obs s) ++ src) (obs s);
  stat_ok s p ns t : short p -> resolves (obs s) p = Some ns -> lookup_tree ns (v_root (obs s)) = Some t ->
    exists st s', sys_stat p s = (Some st, s') /\ st_type st = type_of t /\
      st_size st = u32 (Z.of_nat (length (content t))) /\ obs s' = obs s;
  stat_none s p : short p -> resolves (obs s) p = None -> exists s', sys_stat p s = (None, s') /\ obs s' = obs s;
  unlink_ok s p ns n t : short p -> resolves (obs s) p = Some (ns ++ [n]) -> last (elements p) = Some n -> n ∉ dot_names ->
    lookup_tree (ns ++ [n]) (v_root (obs s)) = Some t -> removable t = true ->
    exists s', sys_unlink p s = (0, s') /\ obs s' = with_root (remove (ns ++ [n]) (v_root (obs s))) (obs s);
  unlink_none s p : short p -> resolves (obs s) p = None -> exists r s', sys_unlink p s = (r, s') /\ r < 0 /\ obs s' = obs s;
  malloc_fresh s n : 0 <= n <= v_mem (obs s) -> exists a s' k, sys_malloc n s = (a, s') /\ a <> 0 /\ a ∉ v_heap (obs s) /\
    v_mem (obs s) - n <= k /\ obs s' = with_mem k (with_heap ({[a]} ∪ v_heap (obs s)) (obs s));
  free_ok s a : a ∈ v_heap (obs s) -> exists k, v_mem (obs s) <= k /\
    obs (sys_free a s) = with_mem k (with_heap (v_heap (obs s) ∖ {[a]}) (obs s));
}.
End laws.

(** ** A kernel in memory *)

Definition next_fd (f : gmap Z stream) : Z := 1 + fold_right Z.max 0 (map fst (map_to_list f)).

Definition next_addr (h : gset Z) : Z := 1 + fold_right Z.max 0 (base.elements h).

Definition ref_open (p : list Z) (mode : Z) (v : view) : Z * view :=
  match resolves v p ≫= fun ns => lookup_tree ns (v_root v) with
  | None | Some TDev => (-1, v)
  | Some t =>
      let fd := next_fd (v_fds v) in
      if (0 <? v_room v)%nat then (fd, with_fds (<[fd := In true (content t)]> (v_fds v)) (pred (v_room v)) v) else (-1, v)
  end.

Definition ref_read (fd n : Z) (v : view) : Z * list Z * view :=
  match v_fds v !! fd with
  | Some (In b l) =>
      let k := (Z.to_nat n `min` length l)%nat in
      (Z.of_nat k, take k l, with_fds (<[fd := In b (drop k l)]> (v_fds v)) (v_room v) v)
  | _ => (-1, [], v)
  end.

(** What [file_write] sends to the console: each transaction starts at [src] again. *)
Fixpoint console_bytes (fuel n : nat) (src : list Z) : list Z :=
  match fuel with
  | O => []
  | S fuel => if (n <=? max_write)%nat then take n src else take max_write src ++ console_bytes fuel (n - max_write) src
  end.

Definition ref_write (fd : Z) (src : list Z) (v : view) : Z * view :=
  match v_fds v !! fd with
  | Some Out => (0, with_out (v_out v ++ console_bytes (S (length src)) (length src) src) v)
  | _ => (-1, v)
  end.

Definition ref_stat (p : list Z) (v : view) : option stat * view :=
  match resolves v p ≫= fun ns => lookup_tree ns (v_root v) with
  | Some t => (Some (Stat (type_of t) 0 (u32 (Z.of_nat (length (content t)))) 1), v)
  | None => (None, v)
  end.

Definition ref_unlink (p : list Z) (v : view) : Z * view :=
  match resolves v p with
  | None => (-1, v)
  | Some ns =>
      if bool_decide (removable <$> lookup_tree ns (v_root v) = Some true) then (0, with_root (remove ns (v_root v)) v)
      else (-1, v)
  end.

#[local] Instance ref_kernel : Kernel := {|
  sys := view;
  sys_open := ref_open;
  sys_close := fun fd v => (0, with_fds (delete fd (v_fds v)) (S (v_room v)) v);
  sys_read := ref_read;
  sys_write := ref_write;
  sys_stat := ref_stat;
  sys_mkdir := fun _ v => (-1, v);
  sys_unlink := ref_unlink;
  sys_malloc := fun n v =>
    if n <=? v_mem v then let a := next_addr (v_heap v) in (a, with_mem (v_mem v - n) (with_heap ({[a]} ∪ v_heap v) v))
    else (0, v);
  sys_free := fun a v => with_heap (v_heap v ∖ {[a]}) v;
|}.

Lemma max_bound l x : x ∈ l -> x <= fold_right Z.max 0 l.
Proof. induction 1; simpl; lia. Qed.

Lemma max_nonneg l : 0 <= fold_right Z.max 0 l.
Proof. induction l; simpl; lia. Qed.

Lemma next_fd_fresh f : 0 <= next_fd f /\ f !! next_fd f = None.
Proof.
  split; [pose proof (max_nonneg (map fst (map_to_list f))); unfold next_fd; lia|].
  destruct (f !! next_fd f) as [x|] eqn:E; [|done]. exfalso.
  apply elem_of_map_to_list in E. pose proof (max_bound (map fst (map_to_list f)) (next_fd f)) as B.
  unfold next_fd in *. assert (1 + foldr Z.max 0 (map fst (map_to_list f)) ∈ map fst (map_to_list f)) as Hin; [|apply B in Hin; lia].
  apply list_elem_of_In, in_map_iff. eexists (_, _). split; [|by apply list_elem_of_In]. done.
Qed.

Lemma next_addr_fresh h : next_addr h <> 0 /\ next_addr h ∉ h.
Proof.
  split; [pose proof (max_nonneg (base.elements h)); unfold next_addr; lia|].
  intros E. apply elem_of_elements in E. apply max_bound in E. unfold next_addr in E. lia.
Qed.

Lemma with_fds_same v fd b : v_fds v !! fd = Some (In b []) -> with_fds (<[fd := In b []]> (v_fds v)) (v_room v) v = v.
Proof. intros E. unfold with_fds. rewrite insert_id by done. by destruct v. Qed.

#[local] Instance ref_laws : KernelLaws.
Proof.
  unshelve refine {| obs := fun s : @sys ref_kernel => (s : view) |}; simpl.
  - intros s p ns t _ R L Hd Hr. exists (next_fd (v_fds s)). unfold ref_open. rewrite R. simpl. rewrite L.
    destruct (next_fd_fresh (v_fds s)). destruct (Nat.ltb_spec 0 (v_room s)); [|lia].
    destruct t; [|done|]; eauto.
  - intros s p _ R. unfold ref_open. rewrite R. simpl. exists (-1), s. split; [done|]. split; [lia|done].
  - intros s fd f E. eauto.
  - intros s fd n b Hn E. unfold ref_read. rewrite E. rewrite Nat.min_0_r. simpl. eexists _, _. split; [done|]. split; [lia|].
    by apply with_fds_same.
  - intros s fd n b l Hn Hl E. unfold ref_read. rewrite E. eexists _, _. split; [done|].
    assert (length l <> 0%nat) by (by destruct l). split; [lia|]. split; [lia|]. done.
  - intros s fd src E Hl. unfold ref_write. rewrite E. cbn [console_bytes]. rewrite (proj2 (Nat.leb_le _ _) Hl).
    rewrite take_ge by done. eexists _, _. split; [done|]. split; [lia|done].
  - intros s p ns t _ R L. unfold ref_stat. rewrite R. simpl. rewrite L. eexists _, _. split; [done|]. done.
  - intros s p _ R. unfold ref_stat. rewrite R. simpl. eauto.
  - intros s p ns n t _ R _ _ L Hr. unfold ref_unlink. rewrite R, L. simpl. rewrite Hr. eauto.
  - intros s p _ R. unfold ref_unlink. rewrite R. exists (-1), s. split; [done|]. split; [lia|done].
  - intros s n [_ Hn]. rewrite (proj2 (Z.leb_le _ _) Hn). destruct (next_addr_fresh (v_heap s)).
    eexists _, _, _. split; [done|]. split; [done|]. split; [done|]. split; [reflexivity|done].
  - intros s a _. exists (v_mem s). split; [lia|]. by destruct s.
Defined.

(** ** Lemmas on trees *)

(** A change of a file below [n] that keeps its name. *)
Lemma child_update n m f g l : (forall e t, f e t = (e, Some (g t))) ->
  child m (update n f l) = if bool_decide (m = n) then g <$> child m l else child m l.
Proof.
  intros Hf. induction l as [|[e [t|]] l IH]; simpl; [by case_bool_decide| |done].
  destruct (bool_decide (name e = n)) eqn:E; [rewrite Hf|]; simpl; rewrite IH; bprop; subst.
  - destruct (bool_decide (name e = m)) eqn:E'; bprop; subst.
    + by rewrite bool_decide_true.
    + by rewrite bool_decide_false.
  - destruct (bool_decide (name e = m)) eqn:E'; bprop; subst; [|done]. by rewrite bool_decide_false.
Qed.

Lemma child_zap n m l : child m (zap n l) = if bool_decide (m = n) then None else child m l.
Proof.
  induction l as [|[e [t|]] l IH]; simpl; [by case_bool_decide| |done].
  destruct (bool_decide (name e = n)) eqn:E; simpl; fold (zap n l); rewrite IH; bprop; subst.
  - destruct (bool_decide (name e = m)) eqn:E'; bprop; subst; [by rewrite bool_decide_true|done].
  - destruct (bool_decide (name e = m)) eqn:E'; bprop; subst; [by rewrite bool_decide_false|done].
Qed.

Lemma update_update n f g h l : (forall e t, exists t', f e t = (e, Some t') /\ g e t' = h e t) ->
  update n g (update n f l) = update n h l.
Proof.
  intros Hf. unfold update. rewrite map_map. apply map_ext. intros [e [t|]]; [|done].
  destruct (bool_decide (name e = n)) eqn:E; [|by rewrite E].
  destruct (Hf e t) as (t' & -> & Hg). by rewrite E.
Qed.

Lemma lookup_app ns ns' t : lookup_tree (ns ++ ns') t = lookup_tree ns t ≫= lookup_tree ns'.
Proof.
  revert t. induction ns as [|n ns IH]; intros t; [done|]. simpl. destruct t; [done..|].
  destruct (child n l) as [t|]; [|done]. simpl. apply IH.
Qed.

Lemma lookup_snoc ns n t l : lookup_tree ns t = Some (TDir l) -> lookup_tree (ns ++ [n]) t = child n l.
Proof. intros E. rewrite lookup_app, E. simpl. by destruct (child n l). Qed.

Lemma remove_cons n m ns l : remove (n :: m :: ns) (TDir l) = TDir (update n (fun e t => (e, Some (remove (m :: ns) t))) l).
Proof. done. Qed.

(** Removing a directory after a file in it is removing the directory. *)
Lemma remove_remove ns n t : ns <> [] -> remove ns (remove (ns ++ [n]) t) = remove ns t.
Proof.
  revert t. induction ns as [|a [|b ns] IH]; intros t Hn; [done| |].
  - destruct t as [| |l]; [done..|]. simpl. f_equal. unfold zap. apply update_update. eauto.
  - destruct t as [| |l]; [done..|]. change ((a :: b :: ns) ++ [n]) with (a :: b :: (ns ++ [n])).
    rewrite !remove_cons. f_equal. apply update_update. intros e t. eexists. split; [done|].
    f_equal. f_equal. by apply (IH t).
Qed.

Lemma lookup_remove ns n t l : lookup_tree ns t = Some (TDir l) -> lookup_tree ns (remove (ns ++ [n]) t) = Some (TDir (zap n l)).
Proof.
  revert t. induction ns as [|a ns IH]; intros t E; [by simplify_eq/=|].
  destruct t as [| |l0]; [done..|]. simpl in E.
  destruct (child a l0) as [t|] eqn:Ec; [|done]. simpl in E.
  assert (remove ((a :: ns) ++ [n]) (TDir l0) = TDir (update a (fun e t => (e, Some (remove (ns ++ [n]) t))) l0)) as ->
    by (by destruct ns).
  simpl. rewrite (child_update _ _ _ (remove (ns ++ [n]))) by done. rewrite bool_decide_true by done. rewrite Ec. simpl. by apply IH.
Qed.

Lemma child_names_elem l n : n ∈ child_names l <-> is_Some (child n l).
Proof.
  induction l as [|[e [t|]] l IH]; simpl; [split; [by intros ?%not_elem_of_nil|by intros [? ?]]| |done].
  change (child_names ((e, Some t) :: l)) with (name e :: child_names l). rewrite elem_of_cons, IH.
  destruct (bool_decide (name e = n)) eqn:E; bprop; subst; [naive_solver|].
  split; [intros [->|?]; [done|done]|auto].
Qed.

Lemma child_names_empty l : (forall n, child n l = None) -> child_names l = [].
Proof.
  intros E. apply elem_of_nil_inv. intros n [t Ht]%child_names_elem. by rewrite E in Ht.
Qed.

Lemma child_size n l t : child n l = Some t -> (size t < size (TDir l))%nat.
Proof.
  simpl. induction l as [|[e [t'|]] l IH]; simpl; [done| |intros E%IH; lia].
  case_bool_decide; [intros [= ->]; lia|intros E%IH; lia].
Qed.

Lemma entries_size l : (length l < size (TDir l))%nat.
Proof. simpl. induction l as [|x l IH]; simpl; lia. Qed.

Lemma child_wf n l t : wf (TDir l) -> child n l = Some t -> wf t.
Proof.
  simpl. intros (_ & _ & W). induction l as [|[e [t'|]] l IH]; simpl in *; [done| |auto].
  case_bool_decide; [by intros [= ->]; apply W|]. apply IH, W.
Qed.

Lemma lookup_wf ns t t' : wf t -> lookup_tree ns t = Some t' -> wf t'.
Proof.
  revert t. induction ns as [|n ns IH]; intros t W E; [by simplify_eq/=|].
  simpl in E. destruct t as [| |l]; [done..|]. destruct (child n l) as [t|] eqn:Ec; [|done].
  eauto using child_wf.
Qed.

(** ** Lemmas on paths *)

(** A path without [.] and [..]. *)
Definition plain (p : list Z) : Prop := p <> [] /\ Forall (fun n => n ∉ dot_names) (elements p).

Definition place (v : view) (p : list Z) : list (list Z) := start_dir (v_cwd v) p ++ elements p.

Lemma resolve_steps root es : forall ns t, Forall (fun n => n ∉ dot_names) es -> lookup_tree (ns ++ es) root = Some t ->
  fold_left (fun o n => o ≫= step_name root n) es (Some ns) = Some (ns ++ es).
Proof.
  induction es as [|n es IH]; intros ns t F L; [by rewrite app_nil_r|].
  apply Forall_cons in F as [Hn F]. simpl. unfold step_name at 2.
  rewrite lookup_app in L. destruct (lookup_tree ns root) as [t0|] eqn:E0; [|done]. simpl in L.
  destruct t0 as [| |l]; [done..|]. destruct (child n l) as [t1|] eqn:Ec; [|done].
  unfold dot_names in Hn. rewrite !elem_of_cons in Hn. rewrite !bool_decide_false by tauto.
  rewrite (IH (ns ++ [n]) t); [by rewrite <- app_assoc|done|].
  rewrite <- app_assoc, lookup_app, E0. simpl. by rewrite Ec.
Qed.

Lemma resolves_plain v p t : plain p -> lookup_tree (place v p) (v_root v) = Some t -> resolves v p = Some (place v p).
Proof. intros [_ F] L. unfold resolves, resolve, place in *. eauto using resolve_steps. Qed.

Lemma split_slash_plain n : SLASH ∉ n -> split_slash n = [n].
Proof.
  induction n as [|c n IH]; intros Hn; [done|]. rewrite not_elem_of_cons in Hn. destruct Hn as [Hc Hn].
  simpl. rewrite IH by done. destruct (c =? SLASH) eqn:E; [bprop; congruence|done].
Qed.

Lemma elements_below p n : n <> [] -> SLASH ∉ n -> elements (p ++ txt "/" ++ n) = elements p ++ [n].
Proof.
  intros H1 H2. change (txt "/" ++ n) with (SLASH :: n). rewrite elements_app_slash. f_equal.
  unfold elements. rewrite split_slash_plain by done. by rewrite filter_cons_True.
Qed.

Lemma place_below v p n : p <> [] -> n <> [] -> SLASH ∉ n -> place v (p ++ txt "/" ++ n) = place v p ++ [n].
Proof.
  intros Hp H1 H2. unfold place. rewrite elements_below by done. rewrite app_assoc. f_equal. f_equal. by destruct p.
Qed.

Lemma plain_below p n : plain p -> n <> [] -> SLASH ∉ n -> n ∉ dot_names -> plain (p ++ txt "/" ++ n).
Proof.
  intros [Hp F] H1 H2 H3. split; [by destruct p|]. rewrite elements_below by done. by apply Forall_app; split; [|apply Forall_singleton].
Qed.
Lemma short_below p n : short p -> n <> [] -> SLASH ∉ n -> Pathname.fits n = true -> short (p ++ txt "/" ++ n).
Proof. intros Hp H1 H2 Hf. unfold short. rewrite elements_below by done. apply Forall_app. split; [done|by apply Forall_singleton]. Qed.

(** Removing takes away what is at or below the place, and nothing beside it. *)
Lemma remove_gone ns q t : ns <> [] -> lookup_tree (ns ++ q) (remove ns t) = None.
Proof.
  revert t. induction ns as [|a [|b ns] IH]; intros t Hn; [done| |].
  - destruct t as [| |l]; [done..|]. simpl. by rewrite child_zap, bool_decide_true.
  - destruct t as [| |l]; [done..|]. rewrite remove_cons. cbn [app lookup_tree].
    rewrite (child_update _ _ _ (remove (b :: ns))) by done. rewrite bool_decide_true by done.
    destruct (child a l) as [t|]; [|done]. by apply (IH t).
Qed.

Lemma remove_beside ns q t : ~ ns `prefix_of` q -> ~ q `prefix_of` ns -> lookup_tree q (remove ns t) = lookup_tree q t.
Proof.
  revert q t. induction ns as [|a ns IH]; intros [|c q] t H1 H2; [by destruct H1; apply prefix_nil..|by destruct H2; apply prefix_nil|].
  destruct t as [| |l]; [by destruct ns..|]. destruct (decide (c = a)) as [->|Hc].
  - assert (~ ns `prefix_of` q) as H1' by (intros [k ->]; destruct H1; by exists k).
    assert (~ q `prefix_of` ns) as H2' by (intros [k ->]; destruct H2; by exists k).
    destruct ns as [|b ns]; [by destruct H1'; exists q|]. rewrite remove_cons. cbn [lookup_tree].
    rewrite (child_update _ _ _ (remove (b :: ns))) by done. rewrite bool_decide_true by done.
    destruct (child a l) as [t|]; [|done]. by apply (IH q t).
  - destruct ns as [|b ns].
    + simpl. by rewrite child_zap, bool_decide_false.
    + rewrite remove_cons. cbn [lookup_tree]. rewrite (child_update _ _ _ (remove (b :: ns))) by done. by rewrite bool_decide_false.
Qed.

End UserFs.
