(* ===== verification/CmdsSpec.v ===== *)
(** The commands of Cmds do what their users expect, on every kernel that keeps the laws of
    UserFs: grep prints the lines with a match, cat and echo copy, ls lists a directory, rm
    removes a tree of files; and what happens outside of their bounds. *)

From stdpp Require Import base numbers list gmap strings.
From Stdlib Require Import ZArith Lia.
From S2P Require Import Prelude CString Dir Pathname SysFs Stdio UserFs Cmds.
#[local] Open Scope Z_scope.

Module CmdsSpec.
Import CString Dir Pathname Stdio UserFs Cmds.

(** ** What grep selects *)

(** A NUL or a byte that is negative as a [char] ends the text. *)
Definition stops (c : Z) : bool := (c =? 0) || (128 <=? c).

Definition eol (c : Z) : bool := (c =? 10) || (c =? 13).

(** The lines of the text at the start of the input: those before its end, and the one there. *)
Fixpoint lines (l : list Z) : list (list Z) :=
  match l with
  | [] => [[]]
  | c :: l =>
      if stops c then [[]]
      else if eol c then [] :: lines l
      else match lines l with a :: ls => (c :: a) :: ls | [] => [[c]] end
  end.

(** What is left of the input behind the text. *)
Fixpoint behind (l : list Z) : list Z :=
  match l with
  | [] => []
  | c :: l => if stops c then l else behind l
  end.

Definition occurs (p l : list Z) : Prop := exists pre post, l = pre ++ p ++ post.

Lemma occurs_slice p l : occurs p l <-> exists i, slice i (length p) l = p.
Proof.
  unfold occurs, slice. split.
  - intros (pre & post & ->). exists (length pre). by rewrite drop_app_length, take_app_length.
  - intros [i E]. exists (take i l), (drop (length p) (drop i l)).
    transitivity (take i l ++ take (length p) (drop i l) ++ drop (length p) (drop i l)); [by rewrite !take_drop|by rewrite E].
Qed.

Lemma occurs_seq p l : Exists (fun i => slice i (length p) l = p) (seq 0 (S (length l))) <-> occurs p l.
Proof.
  rewrite occurs_slice, Exists_exists. split; [intros (i & _ & E); eauto|]. intros [i E].
  destruct (decide (i <= length l)%nat); [exists i; split; [apply elem_of_seq; lia|done]|].
  exists 0%nat. split; [apply elem_of_seq; lia|]. unfold slice in *.
  rewrite (drop_ge l) in E by lia. rewrite take_nil in E. by rewrite <- E.
Qed.

#[global] Instance occurs_dec p l : Decision (occurs p l) :=
  match decide (Exists (fun i => slice i (length p) l = p) (seq 0 (S (length l)))) with
  | left E => left (proj1 (occurs_seq p l) E)
  | right N => right (fun E => N (proj2 (occurs_seq p l) E))
  end.

Definition selected (patterns : list (list Z)) (line : list Z) : Prop := Exists (fun p => occurs p line) patterns.

#[global] Instance selected_dec patterns line : Decision (selected patterns line).
Proof. unfold selected. apply _. Defined.

(** ** Memory for [strstr] *)

Lemma store_other l : forall m a b, (b < a \/ a + Z.of_nat (length l) <= b) -> ld (store m a l) b = ld m b.
Proof.
  induction l as [|c l IH]; intros m a b Hb; [done|]. simpl in *. rewrite IH by lia. apply ld_st_ne. lia.
Qed.

Lemma at_mem_store l : forall m a, Forall (fun c => 0 <= c < 256) l -> at_mem (store m a l) a l.
Proof.
  induction l as [|c l IH]; intros m a F; [done|]. apply Forall_cons in F as [Hc F]. simpl. split; [|by apply IH].
  rewrite store_other by lia. rewrite ld_st_eq. apply u8_small. ulia.
Qed.

Definition chars (l : list Z) : Prop := Forall (fun c => 0 < c < 256) l.

Lemma cstr_store m a l : chars l -> cstr (store m a (l ++ [0])) a l.
Proof.
  intros F. split; [done|]. apply at_mem_store. apply Forall_app. split; [|apply Forall_singleton; lia].
  eapply Forall_impl; [exact F|]. simpl. lia.
Qed.

Lemma matches_occurs line pattern : chars line -> chars pattern -> Z.of_nat (length line) < 4096 ->
  Z.of_nat (length pattern) < 2 ^ 32 -> matches line pattern = bool_decide (occurs pattern line).
Proof.
  intros Hl Hp Bl Bp. unfold matches.
  assert (cstr (grep_mem line pattern) line_at line) as Cl.
  { apply (cstr_ext (store ∅ line_at (line ++ [0]))); [|by apply cstr_store].
    intros i Hi. apply store_other. unfold line_at, pattern_at. rewrite ?length_app in *. simpl in *. lia. }
  destruct (strstr_correct (grep_mem line pattern) line_at pattern_at line pattern (length line + length pattern + 2) Cl)
    as [(i & E & _ & ->)|[E ->]]; try lia.
  - by apply cstr_store.
  - rewrite bool_decide_true by (apply occurs_slice; eauto). unfold line_at. apply negb_true_iff, Z.eqb_neq. lia.
  - rewrite bool_decide_false; [done|]. rewrite occurs_slice. by intros [i Ei%E].
Qed.

Lemma existsb_selected line patterns : chars line -> Z.of_nat (length line) < 4096 ->
  Forall (fun p => chars p /\ Z.of_nat (length p) < 2 ^ 32) patterns ->
  existsb (matches line) patterns = bool_decide (selected patterns line).
Proof.
  intros Hl Bl F. induction patterns as [|p ps IH]; cbn [existsb]; [rewrite bool_decide_false; [done|by inversion 1]|].
  apply Forall_cons in F as [[F1 F2] F]. rewrite matches_occurs, IH by done. unfold selected.
  apply eq_true_iff_eq. rewrite orb_true_iff, !bool_decide_eq_true, Exists_cons. done.
Qed.

(** ** Calls on the view *)

Section proofs.
Context `{Kernel, !KernelLaws}.

Lemma with_fds_fds f g k k' v : with_fds f k (with_fds g k' v) = with_fds f k v.
Proof. done. Qed.

(** The calls of a program leave a view [v'] and a result. *)
Definition leaves {A} (m : U A) (s : sys) (a : A) (v' : view) : Prop :=
  exists s', m s = Ok (inl a, s') /\ obs s' = v'.

Definition quits {A} (m : U A) (s : sys) (status : Z) (v' : view) : Prop :=
  exists s', m s = Ok (inr status, s') /\ obs s' = v'.

Lemma leaves_ret {A} (a : A) s : leaves (mret a) s a (obs s).
Proof. by exists s. Qed.

(** A call, then the rest from a state with the view that the call leaves. *)
Lemma leaves_bind {A B} (m : U A) (k : A -> U B) s a b v1 v2 :
  leaves m s a v1 -> (forall s1, obs s1 = v1 -> leaves (k a) s1 b v2) -> leaves (m ≫= k) s b v2.
Proof. intros (s1 & E1 & O1) Hk. unfold leaves. rewrite (ubind_Ok _ _ _ _ _ E1). by apply Hk. Qed.

Lemma quits_bind {A B} (m : U A) (k : A -> U B) s a st v1 v2 :
  leaves m s a v1 -> (forall s1, obs s1 = v1 -> quits (k a) s1 st v2) -> quits (m ≫= k) s st v2.
Proof. intros (s1 & E1 & O1) Hk. unfold quits. rewrite (ubind_Ok _ _ _ _ _ E1). by apply Hk. Qed.

Lemma quits_first {A B} (m : U A) (k : A -> U B) s st v : quits m s st v -> quits (m ≫= k) s st v.
Proof. intros (s1 & E1 & O1). unfold quits. rewrite (ubind_exit _ _ _ _ _ E1). eauto. Qed.

Lemma quits_exit {A} st s : quits (exit st : U A) s st (obs s).
Proof. by exists s. Qed.

Definition out_add (x : list Z) (v : view) : view := with_out (v_out v ++ x) v.

Lemma printf_plain format args x s : vsprintf format args = x -> v_fds (obs s) !! stdout = Some Out -> Z.of_nat (length x) < 1024 ->
  exists r, leaves (printf format args) s r (out_add x (obs s)).
Proof.
  intros <- Ho Hl. destruct (write_ok s stdout (vsprintf format args) Ho) as (r & s' & E & _ & O); [unfold max_write; lia|].
  exists r, s'. split; [by apply printf_fits|done].
Qed.

(** A [printf] whose result nobody looks at. *)
Lemma printf_then {B} format args x (k : U B) s b v : vsprintf format args = x -> v_fds (obs s) !! stdout = Some Out ->
  Z.of_nat (length x) < 1024 -> (forall s1, obs s1 = out_add x (obs s) -> leaves k s1 b v) -> leaves (printf format args;; k) s b v.
Proof. intros E Ho Hl Hk. destruct (printf_plain format args x s E Ho Hl) as [r P]. by eapply leaves_bind. Qed.

Lemma printf_quits {B} format args x s st : vsprintf format args = x -> v_fds (obs s) !! stdout = Some Out ->
  Z.of_nat (length x) < 1024 -> quits (printf format args;; exit st : U B) s st (out_add x (obs s)).
Proof.
  intros E Ho Hl. destruct (printf_plain format args x s E Ho Hl) as [r P]. eapply quits_bind; [exact P|].
  intros s1 <-. apply quits_exit.
Qed.

Lemma getc_end s fd b : v_fds (obs s) !! fd = Some (In b []) -> leaves (getc fd) s (-1) (obs s).
Proof.
  intros E. destruct (read_end s fd 1 b ltac:(lia) E) as (r & s' & R & Hr & O). exists s'. split; [|done].
  unfold getc, read. rewrite (ubind_Ok _ _ _ _ _ (call_Ok _ _ _ _ R)). simpl. destruct (0 <? r) eqn:Er; [lia|done].
Qed.

Definition fd_rest (fd : Z) (f : stream) (v : view) : view := with_fds (<[fd := f]> (v_fds v)) (v_room v) v.

Lemma getc_some s fd b c l : v_fds (obs s) !! fd = Some (In b (c :: l)) -> leaves (getc fd) s (i8 c) (fd_rest fd (In b l) (obs s)).
Proof.
  intros E. destruct (read_some s fd 1 b (c :: l) ltac:(lia) ltac:(done) E) as (k & s' & R & H1 & _ & _ & O).
  assert (k = 1%nat) as -> by lia. exists s'. split; [|done].
  unfold getc, read. by rewrite (ubind_Ok _ _ _ _ _ (call_Ok _ _ _ _ R)).
Qed.

Lemma fd_rest_lookup fd f v : v_fds (fd_rest fd f v) !! fd = Some f.
Proof. simpl. by rewrite lookup_insert_eq. Qed.

Lemma fd_rest_rest fd f g v : fd_rest fd f (fd_rest fd g v) = fd_rest fd f v.
Proof. unfold fd_rest, with_fds. simpl. by rewrite insert_insert_eq. Qed.

Lemma fd_rest_same fd f v : v_fds v !! fd = Some f -> fd_rest fd f v = v.
Proof. intros E. unfold fd_rest, with_fds. rewrite insert_id by done. by destruct v. Qed.

Lemma fd_rest_other fd f v fd' : fd <> fd' -> v_fds (fd_rest fd f v) !! fd' = v_fds v !! fd'.
Proof. intros E. simpl. by rewrite lookup_insert_ne. Qed.

(** ** grep *)

(** The first line, the character that ended it, and the input behind. *)
Fixpoint cut (l : list Z) : list Z * Z * list Z :=
  match l with
  | [] => ([], -1, [])
  | c :: l =>
      if stops c || eol c then ([], i8 c, l) else let '(a, ch, r) := cut l in (c :: a, ch, r)
  end.

Lemma i8_char c : 0 <= c < 128 -> i8 c = c.
Proof. ulia. Qed.

Lemma i8_high c : 128 <= c < 256 -> i8 c < 0.
Proof. ulia. Qed.

Lemma cut_lines l : bytes l ->
  let '(a, ch, r) := cut l in
  bytes r /\ chars a /\
  (if ch <=? 0 then lines l = [a] /\ behind l = r else lines l = a :: lines r /\ behind l = behind r /\ (length r < length l)%nat).
Proof.
  induction l as [|c l IH]; intros B; simpl; [repeat split; constructor|].
  apply Forall_cons in B as [Bc B]. specialize (IH B). unfold is_u8 in Bc. change (2 ^ 8) with 256 in Bc.
  destruct (stops c) eqn:Es; [|destruct (eol c) eqn:Ee]; simpl.
  - split; [done|]. split; [constructor|]. unfold stops in Es.
    destruct (c =? 0) eqn:E0; bprop; [subst; done|]. simpl in Es. bprop. destruct (i8 c <=? 0) eqn:Ei; [done|].
    bprop. pose proof (i8_high c ltac:(lia)). lia.
  - split; [done|]. split; [constructor|]. unfold eol in Ee. rewrite i8_char by lia.
    destruct (c <=? 0) eqn:E0; bprop; [lia|]. repeat split; lia.
  - destruct (cut l) as [[a ch] r]. destruct IH as (IH1 & IH2 & IH3). split; [done|]. unfold stops in Es. bprop.
    split; [constructor; [lia|done]|]. destruct (ch <=? 0); [|destruct IH3 as (E1 & E2 & E3); rewrite E1, E2; repeat split; lia].
    destruct IH3 as [-> ->]. done.
Qed.

Lemma readline_loop_ok buflen fd b l : forall fuel p s,
  bytes l -> v_fds (obs s) !! fd = Some (In b l) ->
  let '(a, ch, r) := cut l in
  Z.of_nat (length p + length a) < buflen + (if ch <? 0 then 1 else 0) -> (length a < fuel)%nat ->
  leaves (readline_loop fuel fd p buflen) s (ch, p ++ a) (fd_rest fd (In b r) (obs s)).
Proof.
  induction l as [|c l IH]; intros fuel p s B E; simpl.
  - intros Hp Hf. destruct fuel as [|fuel]; [lia|]. simpl. eapply leaves_bind; [by eapply getc_end|].
    intros s1 O1. simpl. rewrite app_nil_r, fd_rest_same by done. rewrite <- O1. apply leaves_ret.
  - apply Forall_cons in B as [Bc B]. unfold is_u8 in Bc. change (2 ^ 8) with 256 in Bc.
    destruct (stops c || eol c) eqn:Es.
    + intros Hp Hf. destruct fuel as [|fuel]; [lia|]. simpl. eapply leaves_bind; [by eapply getc_some|].
      intros s1 O1. rewrite app_nil_r, <- O1. simpl in Hp. unfold stops, eol in Es.
      destruct (Z_lt_dec c 128).
      * rewrite i8_char in * by lia. destruct (c <? 0) eqn:E0; [lia|]. destruct (buflen <=? _) eqn:El; [lia|].
        destruct ((c =? 0) || (c =? 10) || (c =? 13)) eqn:E1; [apply leaves_ret|]. exfalso.
        destruct (c =? 0); [done|]. destruct (c =? 10); [done|]. destruct (c =? 13); [done|]. simpl in Es. bprop.
        destruct (128 <=? c) eqn:?; [lia|done].
      * pose proof (i8_high c ltac:(lia)). destruct (i8 c <? 0) eqn:E0; [apply leaves_ret|lia].
    + specialize (IH (pred fuel) (p ++ [c])). destruct (cut l) as [[a ch] r]. intros Hp Hf.
      destruct fuel as [|fuel]; [simpl in Hf; lia|]. simpl in *. eapply leaves_bind; [by eapply getc_some|].
      intros s1 O1. unfold stops, eol in Es. bprop. rewrite i8_char by lia.
      destruct (c <? 0) eqn:E0; [lia|]. destruct (buflen <=? _) eqn:El; [destruct (ch <? 0); lia|].
      destruct (c =? 0) eqn:?; [lia|]. destruct (c =? 10) eqn:?; [lia|]. destruct (c =? 13) eqn:?; [lia|]. simpl.
      change (p ++ c :: a) with (p ++ [c] ++ a). rewrite app_assoc, <- (fd_rest_rest fd _ (In b l)), <- O1.
      apply IH; [done|by rewrite O1, fd_rest_lookup|rewrite length_app; simpl; lia|lia].
Qed.
Lemma readline_ok s fd b l : bytes l -> v_fds (obs s) !! fd = Some (In b l) ->
  let '(a, ch, r) := cut l in
  Z.of_nat (length a) < 1024 ->
  leaves (readline fd 1024) s (if ch <=? 0 then -1 else Z.of_nat (length a), a) (fd_rest fd (In b r) (obs s)).
Proof.
  intros B E. pose proof (readline_loop_ok 1024 fd b l (Z.to_nat (1024 + 1)) [] s B E) as R.
  destruct (cut l) as [[a ch] r]. intros Ha. unfold readline.
  eapply leaves_bind; [apply R; destruct (ch <? 0); simpl; lia|]. intros s1 O1. simpl app. cbv beta iota.
  destruct (1024 <=? Z.of_nat (length a)) eqn:El; [lia|]. rewrite <- O1. apply leaves_ret.
Qed.

(** The line fits into the array it is read to and, if it is printed, into that of [printf]. *)
Definition line_ok (patterns : list (list Z)) (l : list Z) : Prop :=
  Z.of_nat (length l) < if bool_decide (selected patterns l) then 1023 else 1024.

Definition pattern_ok (p : list Z) : Prop := chars p /\ Z.of_nat (length p) < 2 ^ 32.

Definition grep_output (patterns ls : list (list Z)) : list Z := concat (map (fun l => l ++ [10]) (filter (selected patterns) ls)).

Lemma grep_output_cons patterns a ls :
  grep_output patterns (a :: ls) = (if bool_decide (selected patterns a) then a ++ [10] else []) ++ grep_output patterns ls.
Proof.
  unfold grep_output. case_bool_decide as E; [rewrite filter_cons_True by done|rewrite filter_cons_False by done]; done.
Qed.

Lemma out_add_nil v : out_add [] v = v.
Proof. unfold out_add, with_out. rewrite app_nil_r. by destruct v. Qed.

Lemma out_add_add x y v : out_add y (out_add x v) = out_add (x ++ y) v.
Proof. unfold out_add, with_out. simpl. by rewrite app_assoc. Qed.

Lemma out_add_rest fd f x v : out_add x (fd_rest fd f v) = fd_rest fd f (out_add x v).
Proof. done. Qed.

Lemma grep_print s (m : bool) line : v_fds (obs s) !! stdout = Some Out -> Z.of_nat (length line) < 1023 \/ m = false ->
  leaves (if m then printf (txt "%s" ++ [10]) [AStr line];; mret tt else mret tt) s tt
    (out_add (if m then line ++ [10] else []) (obs s)).
Proof.
  intros Ho Hl. destruct m; [|rewrite out_add_nil; apply leaves_ret].
  assert (vsprintf (txt "%s" ++ [10]) [AStr line] = line ++ [10]) as E by done.
  eapply printf_then; [exact E|done|rewrite length_app; simpl; lia|].
  intros s1 O1. rewrite <- O1. apply leaves_ret.
Qed.

Lemma grep_ok patterns fd b : Forall pattern_ok patterns -> fd <> stdout -> forall fuel l found s,
  bytes l -> v_fds (obs s) !! fd = Some (In b l) -> v_fds (obs s) !! stdout = Some Out ->
  Forall (line_ok patterns) (lines l) -> (length l < fuel)%nat ->
  leaves (grep fuel fd patterns found) s
    (if found || bool_decide (Exists (selected patterns) (lines l)) then 0 else 1)
    (fd_rest fd (In b (behind l)) (out_add (grep_output patterns (lines l)) (obs s))).
Proof.
  intros Hp Hfd fuel. induction fuel as [|fuel IH]; intros l found s B E Ho F Hf; [lia|].
  pose proof (readline_ok s fd b l B E) as R. pose proof (cut_lines l B) as C.
  destruct (cut l) as [[a ch] r]. destruct C as (Br & Ca & C).
  assert (exists ls, lines l = a :: ls) as [ls El] by (destruct (ch <=? 0); destruct C as [-> _]; eauto).
  rewrite El in F. apply Forall_cons in F as [Fa F]. unfold line_ok in Fa.
  assert (Z.of_nat (length a) < 1024) as La by (destruct (bool_decide _); lia).
  assert (existsb (matches a) patterns = bool_decide (selected patterns a)) as Em.
  { apply existsb_selected; [done|lia|done]. }
  cbn [grep]. eapply leaves_bind; [by apply R|]. intros s1 O1. cbv beta iota. rewrite Em.
  eapply leaves_bind; [apply grep_print|].
  { by rewrite O1, fd_rest_other. }
  { revert Fa. destruct (bool_decide _); [by left|by right]. }
  intros s2 O2. rewrite O1, out_add_rest in O2.
  rewrite El, grep_output_cons.
  assert (forall x : bool, x || bool_decide (Exists (selected patterns) (a :: ls)) =
    (x || bool_decide (selected patterns a)) || bool_decide (Exists (selected patterns) ls)) as Ex.
  { intros x. rewrite <- orb_assoc. f_equal. apply eq_true_iff_eq. rewrite orb_true_iff, !bool_decide_eq_true, Exists_cons. done. }
  rewrite Ex. destruct (ch <=? 0) eqn:Ech.
  - destruct C as [C1 C2]. assert (ls = []) as -> by congruence. cbn [Z.ltb Z.compare].
    rewrite (bool_decide_false (Exists _ [])) by inversion 1. rewrite orb_false_r, C2.
    change (grep_output patterns []) with (@nil Z). rewrite app_nil_r, <- O2. apply leaves_ret.
  - destruct C as (C1 & C2 & C3). assert (ls = lines r) as -> by congruence.
    destruct (Z.of_nat (length a) <? 0) eqn:E0; [lia|].
    rewrite C2, <- out_add_add, <- (fd_rest_rest _ _ (In b r)), <- out_add_rest, <- O2.
    apply IH; [done|by rewrite O2, fd_rest_lookup|by rewrite O2, fd_rest_other|done|lia].
Qed.

(** C36: [grep] with patterns prints exactly the lines of its input in which one of the patterns
    occurs, in order, and ends with status 0 if there is one and 1 if not, whatever the chunks
    its input comes in; the text is read up to its end, a NUL or a byte that is not ASCII, and the input
    behind that is left.  The output is the console or a pipe that is read.  Lines must fit into the 1024 bytes of the buffer, and printed ones into those of
    [printf]. *)
Theorem grep_correct prog patterns b l fuel s :
  patterns <> [] -> Forall pattern_ok patterns -> bytes l ->
  v_fds (obs s) !! stdin = Some (In b l) -> v_fds (obs s) !! stdout = Some Out ->
  Forall (line_ok patterns) (lines l) -> (length l < fuel)%nat ->
  exists s', start (grep_main fuel (prog :: patterns)) s =
      Ok (if decide (Exists (selected patterns) (lines l)) then 0 else 1, s') /\
    obs s' = fd_rest stdin (In b (behind l)) (out_add (grep_output patterns (lines l)) (obs s)).
Proof.
  intros Hne Hp B E Ho F Hf. destruct (grep_ok patterns stdin b Hp ltac:(done) fuel l false s B E Ho F Hf) as (s' & R & O).
  exists s'. split; [|done]. unfold start, grep_main. destruct patterns as [|p ps]; [done|]. rewrite R. simpl orb.
  destruct (decide (Exists (selected (p :: ps)) (lines l))) as [D|D]; [by rewrite bool_decide_true|by rewrite bool_decide_false].
Qed.

(** A line that is longer than the array. *)
Definition grep_too_long : list Z := txt "grep: fail to read a line: the line bigger than the buffer length 1024." ++ [10].

Lemma readline_loop_long fd b l : fd <> stdout -> forall fuel p s,
  bytes l -> v_fds (obs s) !! fd = Some (In b l) -> v_fds (obs s) !! stdout = Some Out ->
  let '(a, ch, r) := cut l in
  1024 + (if ch <? 0 then 1 else 0) <= Z.of_nat (length p + length a) -> Z.of_nat (length p) <= 1024 ->
  1024 < Z.of_nat (fuel + length p) ->
  exists rest, quits (readline_loop fuel fd p 1024) s 1 (out_add grep_too_long (fd_rest fd (In b rest) (obs s))).
Proof.
  intros Hfd. induction l as [|c l IH]; intros fuel p s B E Ho; simpl; [lia|].
  apply Forall_cons in B as [Bc B]. unfold is_u8 in Bc. change (2 ^ 8) with 256 in Bc.
  assert (forall s1, obs s1 = fd_rest fd (In b l) (obs s) ->
    quits (printf (txt "grep: fail to read a line: the line bigger than the buffer length %d." ++ [10]) [AInt 1024];; exit 1 : U (Z * list Z)) s1 1
      (out_add grep_too_long (fd_rest fd (In b l) (obs s)))) as Q.
  { intros s1 O1. rewrite <- O1. apply printf_quits; [done|by rewrite O1, fd_rest_other|vm_compute; done]. }
  destruct (stops c || eol c) eqn:Es.
  - intros Hp Hl Hf. simpl in Hp. destruct (i8 c <? 0) eqn:E0; [lia|]. exists l. destruct fuel as [|fuel]; [lia|]. simpl.
    eapply quits_bind; [by eapply getc_some|]. intros s1 O1. rewrite E0. destruct (1024 <=? _) eqn:El; [|lia]. by apply Q.
  - specialize (IH (pred fuel) (p ++ [c])). destruct (cut l) as [[a ch] r]. intros Hp Hl Hf. destruct fuel as [|fuel]; [lia|].
    unfold stops, eol in Es. bprop. destruct (1024 <=? Z.of_nat (length p)) eqn:El.
    + exists l. simpl. eapply quits_bind; [by eapply getc_some|]. intros s1 O1. rewrite i8_char by lia.
      destruct (c <? 0) eqn:E0; [lia|]. rewrite El. by apply Q.
    + destruct (getc_some s fd b c l E) as (s1 & G1 & O1). simpl in *.
      destruct (IH s1 B) as [rest Hq]; [by rewrite O1, fd_rest_lookup|by rewrite O1, fd_rest_other|rewrite length_app; simpl; lia..|].
      exists rest. unfold quits. rewrite (ubind_Ok _ _ _ _ _ G1). rewrite i8_char by lia.
      destruct (c <? 0) eqn:E0; [lia|]. rewrite El.
      destruct (c =? 0) eqn:?; [lia|]. destruct (c =? 10) eqn:?; [lia|]. destruct (c =? 13) eqn:?; [lia|]. simpl.
      rewrite O1, fd_rest_rest in Hq. apply Hq.
Qed.

(** The limits of [grep] at the first line of its input.  A line of more than 1024 bytes, or of
    1024 bytes and an end of line, is refused with a message and status 1; a last line of exactly 1024 bytes is
    accepted, and its NUL is stored behind the array; a line of 1023 bytes with a match does not
    fit into the array of [printf]. *)
Theorem grep_limits prog patterns b l fuel s :
  patterns <> [] -> Forall pattern_ok patterns -> bytes l ->
  v_fds (obs s) !! stdin = Some (In b l) -> v_fds (obs s) !! stdout = Some Out -> (0 < fuel)%nat ->
  let '(a, ch, _) := cut l in
  (1024 + (if ch <? 0 then 1 else 0) <= Z.of_nat (length a) ->
    exists s' rest, start (grep_main fuel (prog :: patterns)) s = Ok (1, s') /\
      obs s' = out_add grep_too_long (fd_rest stdin (In b rest) (obs s))) /\
  (Z.of_nat (length a) = 1024 /\ ch < 0 \/ Z.of_nat (length a) = 1023 /\ selected patterns a ->
    start (grep_main fuel (prog :: patterns)) s = Panic).
Proof.
  intros Hne Hp B E Ho Hf. pose proof (cut_lines l B) as C. pose proof (readline_ok s stdin b l B E) as R.
  pose proof (readline_loop_long stdin b l ltac:(done) (Z.to_nat (1024 + 1)) [] s B E Ho) as RL.
  pose proof (readline_loop_ok 1024 stdin b l (Z.to_nat (1024 + 1)) [] s B E) as RO.
  destruct (cut l) as [[a ch] r]. destruct C as (_ & Ca & _).
  assert (forall o, (grep fuel stdin patterns false s) = o -> start (grep_main fuel (prog :: patterns)) s = start (fun _ => o) s) as St.
  { intros o <-. by destruct patterns. }
  destruct fuel as [|fuel]; [lia|]. split.
  - intros Hlong. destruct RL as [rest (s' & Q & O)]; [simpl; lia..|]. exists s', rest. split; [|done].
    rewrite (St (Ok (inr 1, s'))); [reflexivity|]. cbn [grep]. apply ubind_exit. unfold readline. by apply ubind_exit.
  - intros [[Hl Hc]|[Hl Hs]]; (rewrite (St Panic); [reflexivity|]); cbn [grep].
    + destruct RO as (s1 & Q & O); [destruct (ch <? 0) eqn:?; simpl; lia|lia|].
      apply ubind_Panic. unfold readline. rewrite (ubind_Ok _ _ _ _ _ Q). simpl app. cbv beta iota.
      change ([] ++ a) with a. destruct (1024 <=? Z.of_nat (length a)) eqn:El; [done|lia].
    + destruct R as (s1 & Q & O); [lia|]. rewrite (ubind_Ok _ _ _ _ _ Q). cbv beta iota.
      rewrite existsb_selected by (done || lia). rewrite bool_decide_true by done.
      assert (vsprintf (txt "%s" ++ [10]) [AStr a] = a ++ [10]) as Ev by done.
      do 2 apply ubind_Panic. apply printf_overflows. rewrite Ev, length_app. simpl. lia.
Qed.

(** ** echo and cat *)

Fixpoint join (l : list (list Z)) : list Z :=
  match l with
  | [] => []
  | [a] => a
  | a :: l => a ++ [32] ++ join l
  end.

Lemma echo_args_ok args : forall s, v_fds (obs s) !! stdout = Some Out -> Forall (fun a => Z.of_nat (length a) < 1024) args ->
  leaves (echo_args args) s tt (out_add (join args) (obs s)).
Proof.
  induction args as [|a args IH]; intros s Ho F; [rewrite out_add_nil; apply leaves_ret|].
  apply Forall_cons in F as [Fa F]. cbn [echo_args]. eapply (printf_then _ _ a); [apply app_nil_r|done|done|].
  intros s1 O1. destruct args as [|a' args]; [change (join [a]) with a; rewrite <- O1; apply leaves_ret|].
  eapply (printf_then _ _ [32]); [done|by rewrite O1|done|]. intros s2 O2. rewrite O1, out_add_add in O2.
  change (join (a :: a' :: args)) with (a ++ [32] ++ join (a' :: args)). rewrite app_assoc, <- out_add_add, <- O2.
  apply IH; [by rewrite O2|done].
Qed.

(** [echo] prints its arguments with a space between them and a newline behind, and ends with
    status 0. *)
Theorem echo_correct prog args s :
  v_fds (obs s) !! stdout = Some Out -> Forall (fun a => Z.of_nat (length a) < 1024) args ->
  exists s', start (echo_main (prog :: args)) s = Ok (0, s') /\ obs s' = out_add (join args ++ [10]) (obs s).
Proof.
  intros Ho F. destruct (echo_args_ok args s Ho F) as (s1 & E1 & O1).
  destruct (printf_plain [10] [] [10] s1) as (r & s2 & E2 & O2); [done|by rewrite O1|done|].
  exists s2. split; [|by rewrite O2, O1, out_add_add]. unfold start, echo_main. simpl tail.
  rewrite (ubind_Ok _ _ _ _ _ E1). by rewrite (ubind_Ok _ _ _ _ _ E2).
Qed.

(** What [cat] copies of a stream: all of it, or what comes before a chunk that starts with a NUL. *)
Definition copied (a l : list Z) : Prop := exists r, l = a ++ r /\ (r = [] \/ hd 0 r = 0).

Lemma copied_all a l : 0 ∉ l -> copied a l -> a = l.
Proof.
  intros Hz (r & -> & Hr). destruct r as [|c r]; [by rewrite app_nil_r|]. destruct Hr as [|Hc]; [done|]. simpl in Hc. subst.
  exfalso. apply Hz. apply elem_of_app. right. apply elem_of_cons. by left.
Qed.

Lemma cat_ok fd b : fd <> stdout -> forall fuel l buf s,
  v_fds (obs s) !! fd = Some (In b l) -> v_fds (obs s) !! stdout = Some Out -> length buf = 512%nat -> (length l < fuel)%nat ->
  exists a rest buf', copied a l /\ length buf' = 512%nat /\
    leaves (cat fuel fd buf) s buf' (fd_rest fd (In b rest) (out_add a (obs s))).
Proof.
  intros Hfd fuel. induction fuel as [|fuel IH]; intros l buf s E Ho Hb Hf; [lia|]. cbn [cat].
  destruct (decide (l = [])) as [->|Hl].
  - destruct (read_end s fd 512 b ltac:(lia) E) as (r & s' & R & Hr & O). exists [], [], buf.
    split; [exists []; split; [done|by left]|]. split; [done|]. exists s'. rewrite out_add_nil, fd_rest_same by done. split; [|done].
    unfold read. rewrite (ubind_Ok _ _ _ _ _ (call_Ok _ _ _ _ R)). cbn [fst snd]. destruct (r <=? 0) eqn:Er; [|lia].
    done.
  - destruct (read_some s fd 512 b l ltac:(lia) Hl E) as (k & s1 & R & Hk & Hkl & _ & O).
    set (buf1 := splice 0 (take k l) buf).
    assert (length (take k l) = k) as Lk by (rewrite length_take; lia).
    assert (length buf1 = 512%nat) as Lb by (unfold buf1; rewrite length_splice by (rewrite Lk; lia); done).
    assert (take (Z.to_nat (Z.of_nat k)) buf1 = take k l) as Tb.
    { rewrite Nat2Z.id. unfold buf1, splice. rewrite take_0, app_nil_l. rewrite <- Lk at 1. by rewrite take_app_length. }
    assert (hd 0 buf1 = hd 0 l) as Hh.
    { unfold buf1, splice. rewrite take_0, app_nil_l. destruct l; [done|]. destruct k; [lia|done]. }
    assert ((Z.of_nat k <=? 0) = false) as Ek by lia.
    destruct (hd 0 l =? 0) eqn:E0.
    + exists [], (drop k l), buf1. pose proof (proj1 (Z.eqb_eq _ _) E0). split; [exists l; split; [done|by right]|]. split; [done|]. exists s1. rewrite out_add_nil. split; [|done].
      unfold read. rewrite (ubind_Ok _ _ _ _ _ (call_Ok _ _ _ _ R)). cbn [fst snd]. rewrite Ek. fold buf1.
      rewrite Hh, E0. done.
    + change (obs s1 = fd_rest fd (In b (drop k l)) (obs s)) in O.
      destruct (write_ok s1 1 (take k l)) as (w & s2 & W & Hw & O2); [by rewrite O, fd_rest_other|unfold max_write; lia|].
      change (obs s2 = out_add (take k l) (obs s1)) in O2. rewrite O, out_add_rest in O2.
      destruct (IH (drop k l) buf1 s2) as (a & rest & buf' & (r & Ea & Hr) & Lb' & C).
      { by rewrite O2, fd_rest_lookup. } { by rewrite O2, fd_rest_other. } { done. } { rewrite length_drop. lia. }
      exists (take k l ++ a), rest, buf'. split; [exists r; split; [by rewrite <- app_assoc, <- Ea, take_drop|done]|].
      split; [done|]. destruct C as (s3 & C & O3). exists s3. split; [|by rewrite O3, O2, out_add_rest, fd_rest_rest, out_add_add].
      unfold read. rewrite (ubind_Ok _ _ _ _ _ (call_Ok _ _ _ _ R)). cbn [fst snd]. rewrite Ek. fold buf1. rewrite Hh, E0, Tb.
      unfold write. rewrite (ubind_Ok _ _ _ _ _ (call_Ok _ _ _ _ W)). destruct (w <? 0) eqn:Ew; [lia|done].
Qed.

(** The path [p] names a file with the bytes [d]. *)
Definition is_file (v : view) (p d : list Z) : Prop :=
  short p /\ exists ns, resolves v p = Some ns /\ lookup_tree ns (v_root v) = Some (TFile d).

Lemma close_leaves s fd f : v_fds (obs s) !! fd = Some f ->
  exists r, leaves (close fd) s r (with_fds (delete fd (v_fds (obs s))) (S (v_room (obs s))) (obs s)).
Proof. intros E. destruct (close_ok s fd f E) as (r & s' & C & O). exists r, s'. split; [by apply call_Ok|done]. Qed.

(** A file that was opened, written to nowhere and closed leaves only its output. *)
Lemma opened_closed v fd f f0 x : v_fds v !! fd = None -> (0 < v_room v)%nat ->
  let v1 := fd_rest fd f (out_add x (with_fds (<[fd := f0]> (v_fds v)) (pred (v_room v)) v)) in
  with_fds (delete fd (v_fds v1)) (S (v_room v1)) v1 = out_add x v.
Proof.
  intros E Hr. unfold fd_rest, out_add, with_out, with_fds. simpl. f_equal; [|lia].
  rewrite insert_insert_eq, delete_insert_eq. by apply delete_id.
Qed.
Lemma cat_file_ok s p d buf fuel : is_file (obs s) p d -> v_fds (obs s) !! stdout = Some Out -> (0 < v_room (obs s))%nat ->
  length buf = 512%nat -> (length d < fuel)%nat ->
  exists fd s1 a buf', open p SysFs.O_RDONLY s = Ok (inl fd, s1) /\ 0 <= fd /\ copied a d /\ length buf' = 512%nat /\
    leaves (buf ← cat fuel fd buf; close fd;; mret buf) s1 buf' (out_add a (obs s)).
Proof.
  intros (Hsh & ns & R & L) Ho Hr Hb Hf. destruct (open_ok s p ns _ Hsh R L ltac:(done) Hr) as (fd & s1 & Op & H1 & H2 & O1).
  assert (fd <> stdout) as Hfd by (intros ->; congruence).
  destruct (cat_ok fd true Hfd fuel d buf s1) as (a & rest & buf' & Hc & Lb & C); [by rewrite O1; simpl; rewrite lookup_insert_eq| |done|done|].
  { rewrite O1. simpl. by rewrite lookup_insert_ne. }
  exists fd, s1, a, buf'. split; [by apply call_Ok|]. do 3 (split; [done|]).
  eapply leaves_bind; [exact C|]. intros s2 O2. destruct (close_leaves s2 fd (In true rest)) as [r Cl]; [by rewrite O2, fd_rest_lookup|].
  eapply leaves_bind; [exact Cl|]. intros s3 O3. cbv beta.
  rewrite O2, O1, opened_closed in O3 by done. rewrite <- O3. apply leaves_ret.
Qed.

(** [cat] goes on behind files that it could read. *)
Lemma cat_args_ok fuel v more : v_fds v !! stdout = Some Out -> (0 < v_room v)%nat -> forall paths datas buf x s,
  Forall2 (is_file v) paths datas -> Forall (fun d => 0 ∉ d /\ (length d < fuel)%nat) datas -> length buf = 512%nat -> obs s = out_add x v ->
  exists s' buf', cat_args fuel (paths ++ more) buf s = cat_args fuel more buf' s' /\ obs s' = out_add (x ++ concat datas) v.
Proof.
  intros Ho Hr paths datas buf x s F. revert buf x s. induction F as [|p d paths datas Hp F IH]; intros buf x s Hz Hb O.
  - exists s, buf. by rewrite app_nil_r.
  - apply Forall_cons in Hz as [[Hz0 Hl0] Hz].
    destruct (cat_file_ok s p d buf fuel) as (fd & s1 & a & buf1 & Op & Hfd & Hc & Lb & (s2 & C & O2)); [by rewrite O..|done|done|].
    apply copied_all in Hc as ->; [|done]. rewrite O, out_add_add in O2.
    destruct (IH buf1 (x ++ d) s2 Hz Lb O2) as (s' & buf' & E & O'). exists s', buf'. split; [|by rewrite O'; simpl; rewrite app_assoc].
    rewrite <- E. simpl app. cbn [cat_args]. rewrite (ubind_Ok _ _ _ _ _ Op). destruct (fd <? 0) eqn:E0; [lia|].
    revert C. unfold mbind, U_bind. destruct (cat fuel fd buf s1) as [[[b1|?] s3]| |]; [|done..].
    destruct (close fd s3) as [[[?|?] s4]| |]; [|done..]. unfold mret, U_ret. by intros [= -> ->].
Qed.

Definition cat_missing (p : list Z) : list Z := txt "cat: no such file: " ++ p ++ [10].

(** [cat] with the names of files copies them to its output, one after the other, and leaves no
    file open; a name that does not exist ends it with a message and status 1, after the files
    before it.  The files have no NUL. *)
Theorem cat_correct prog paths datas more fuel s :
  Forall2 (is_file (obs s)) paths datas -> Forall (fun d => 0 ∉ d /\ (length d < fuel)%nat) datas ->
  v_fds (obs s) !! stdout = Some Out -> (0 < v_room (obs s))%nat -> paths <> [] ->
  match more with
  | [] => True
  | p :: _ => resolves (obs s) p = None /\ short p /\ Z.of_nat (length p) < 1000
  end ->
  exists s', start (cat_main fuel (prog :: paths ++ more)) s = Ok (match more with [] => 0 | _ => 1 end, s') /\
    obs s' = out_add (concat datas ++ match more with [] => [] | p :: _ => cat_missing p end) (obs s).
Proof.
  intros F Hz Ho Hr Hne Hm.
  destruct (cat_args_ok fuel (obs s) more Ho Hr paths datas (replicate 512 0) [] s F Hz (length_replicate _ _)) as (s' & buf' & E & O); [by rewrite out_add_nil|].
  assert (start (cat_main fuel (prog :: paths ++ more)) s = start (cat_args fuel more buf';; mret 0) s') as ->.
  { unfold start, cat_main. destruct (paths ++ more) eqn:Ep; [by destruct paths|]. unfold mbind, U_bind. by rewrite E. }
  simpl in O. destruct more as [|p more].
  - exists s'. by rewrite app_nil_r.
  - destruct Hm as (Hm & Hs & Hl). destruct (open_none s' p Hs) as (r & s1 & Op & Hr0 & O1); [by rewrite O|].
    destruct (printf_plain (txt "cat: no such file: %s" ++ [10]) [AStr p] (cat_missing p) s1) as (r' & s2 & P & O2);
      [done|by rewrite O1, O|unfold cat_missing; rewrite !length_app; simpl; lia|].
    exists s2. split; [|by rewrite O2, O1, O, out_add_add]. unfold start.
    erewrite (ubind_exit _ _ _ 1 s2); [done|]. cbn [cat_args]. unfold open. rewrite (ubind_Ok _ _ _ _ _ (call_Ok _ _ _ _ Op)).
    destruct (r <? 0) eqn:E0; [|lia]. by rewrite (ubind_Ok _ _ _ _ _ P).
Qed.

(** ** Reading directories *)

Lemma read_dirent s fd e rest : v_fds (obs s) !! fd = Some (In true (enc_dirent e ++ rest)) -> length (d_name e) = 60%nat ->
  leaves (read fd DIRENT_SIZE) s (64, enc_dirent e) (fd_rest fd (In true rest) (obs s)).
Proof.
  intros E L. pose proof (length_enc_dirent e L) as Le.
  destruct (read_some s fd DIRENT_SIZE true (enc_dirent e ++ rest)) as (k & s' & R & _ & _ & Hk & O); [done| |done|].
  { intros [En _]%app_nil. by rewrite En in Le. }
  rewrite length_app, Le, Nat.min_l in Hk by (change (Z.to_nat DIRENT_SIZE) with 64%nat; lia).
  rewrite (Hk eq_refl) in R, O. change (Z.to_nat DIRENT_SIZE) with (64%nat) in *.
  rewrite <- Le, take_app_length, drop_app_length in *. exists s'. split; [|done]. apply call_Ok. by rewrite R, Le.
Qed.

Lemma splice_whole (x y : list Z) : length x = length y -> splice 0 x y = x.
Proof. intros E. unfold splice. simpl. by rewrite drop_ge, app_nil_r by lia. Qed.

Lemma read_over s fd : v_fds (obs s) !! fd = Some (In true []) ->
  exists r, r <= 0 /\ leaves (read fd DIRENT_SIZE) s (r, []) (obs s).
Proof.
  intros E. destruct (read_end s fd DIRENT_SIZE true ltac:(done) E) as (r & s' & R & Hr & O).
  exists r. split; [done|]. exists s'. split; [by apply call_Ok|done].
Qed.


Lemma name_of_ok s e : 0 ∈ d_name e -> leaves (name_of e) s (name e) (obs s).
Proof. intros E. exists s. unfold name_of. by rewrite bool_decide_true. Qed.

(** ** rm *)

Section rm.

Definition below (path n : list Z) : list Z := path ++ txt "/" ++ n.


















Lemma leaves_then {A B} (m : U A) (k : A -> U B) s a s1 b v :
  m s = Ok (inl a, s1) -> leaves (k a) s1 b v -> leaves (m ≫= k) s b v.
Proof. intros E. unfold leaves. by rewrite (ubind_Ok _ _ _ _ _ E). Qed.













Lemma name_fits e : length (d_name e) = 60%nat -> 0 ∈ d_name e -> Pathname.fits (name e) = true.
Proof.
  intros L Hz. unfold Pathname.fits, name, DIRENT_NAME_LENGTH. apply Z.ltb_lt.
  assert (forall l : list Z, 0 ∈ l -> (length (str_of l) < length l)%nat) as Hs.
  { induction l as [|c l IH]; [by intros ?%not_elem_of_nil|]. intros Hc. simpl. destruct (Z.eqb_spec c 0); [simpl; lia|].
    apply elem_of_cons in Hc as [?|Hc]; [congruence|]. specialize (IH Hc). simpl. lia. }
  specialize (Hs _ Hz). lia.
Qed.




Lemma place_last v p : elements p <> [] -> exists ns n, place v p = ns ++ [n] /\ last (elements p) = Some n.
Proof.
  intros E. destruct (exists_last E) as (es & n & En). exists (start_dir (v_cwd v) p ++ es), n.
  unfold place. rewrite En. split; [by rewrite app_assoc|by rewrite last_snoc].
Qed.

Lemma unlink_place s p t : plain p -> short p -> elements p <> [] -> lookup_tree (place (obs s) p) (v_root (obs s)) = Some t -> removable t = true ->
  leaves (unlink p) s 0 (with_root (remove (place (obs s) p) (v_root (obs s))) (obs s)).
Proof.
  intros Hp Hsh He L Hr. destruct (place_last (obs s) p He) as (ns & n & Ep & El).
  pose proof (resolves_plain _ _ _ Hp L) as R. rewrite Ep in *. destruct (unlink_ok s p ns n t Hsh R El) as (s' & U & O); [|done|done|].
  - destruct Hp as [_ F]. rewrite Forall_forall in F. apply F. apply last_Some_elem_of in El. done.
  - exists s'. split; [by apply call_Ok|done].
Qed.





(** without [-r], [rm] removes a file, and refuses a path that does not exist with a message
    and status 1. *)
Theorem rm_file_correct prog junk p fuel s : p <> txt "-r" -> (0 < fuel)%nat ->
  (forall t, plain p -> short p -> elements p <> [] -> lookup_tree (place (obs s) p) (v_root (obs s)) = Some t -> removable t = true ->
    exists s', start (rm_main fuel junk [prog; p]) s = Ok (0, s') /\ obs s' = with_root (remove (place (obs s) p) (v_root (obs s))) (obs s)) /\
  (resolves (obs s) p = None -> short p -> v_fds (obs s) !! stdout = Some Out -> Z.of_nat (length p) < 1000 ->
    exists s', start (rm_main fuel junk [prog; p]) s = Ok (1, s') /\
      obs s' = out_add (txt "rm: " ++ p ++ txt " failed to delete." ++ [10]) (obs s)).
Proof.
  intros Hn Hf. destruct fuel as [|fuel]; [lia|].
  assert (forall o, rm (S fuel) junk p false s = o -> start (rm_main (S fuel) junk [prog; p]) s = start (x ← (fun _ => o); mret 0) s) as St.
  { intros o <-. assert (rm_main (S fuel) junk [prog; p] = ((rm (S fuel) junk p false;; mret tt);; mret 0)) as ->.
    { unfold rm_main. by rewrite (bool_decide_false (p = txt "-r")). }
    unfold start, mbind, U_bind, mret, U_ret. destruct (rm (S fuel) junk p false s) as [[[[]|] ?]| |]; done. }
  split.
  - intros t Hp Hsh He L Hr. destruct (unlink_place s p t Hp Hsh He L Hr) as (s' & E & O). exists s'. split; [|done].
    rewrite (St (Ok (inl tt, s'))); [done|]. cbn [rm]. rewrite (ubind_Ok _ _ _ tt s) by done. by rewrite (ubind_Ok _ _ _ _ _ E).
  - intros R Hsh Ho Hl. destruct (unlink_none s p Hsh R) as (r & s1 & E & Hr & O1).
    destruct (printf_plain (txt "rm: %s failed to delete." ++ [10]) [AStr p] (txt "rm: " ++ p ++ txt " failed to delete." ++ [10]) s1) as (r' & s2 & P & O2);
      [done|by rewrite O1|rewrite !length_app; simpl; lia|].
    exists s2. split; [|by rewrite O2, O1]. rewrite (St (Ok (inr 1, s2))); [done|]. cbn [rm].
    rewrite (ubind_Ok _ _ _ tt s) by done. unfold unlink. rewrite (ubind_Ok _ _ _ _ _ (call_Ok _ _ _ _ E)).
    destruct (r <? 0) eqn:E0; [|lia]. by rewrite (ubind_Ok _ _ _ _ _ P).
Qed.

End rm.
(** ** ls *)

(** The line for a file: the name in 31 columns, its type and its size. *)
Definition listing (n : list Z) (t : tree) : list Z :=
  take 31 (n ++ replicate (32 - length n) 32) ++ [32] ++ fmt_type (type_of t) ++ [32] ++
  itoa (i32 (u32 (Z.of_nat (length (content t))))) 10 ++ [10].

(** The file that an entry of the directory at [ns] means. *)
Definition target (root : tree) (ns : list (list Z)) (n : list Z) : option tree :=
  step_name root n ns ≫= fun ns' => lookup_tree ns' root.

Definition list_line (root : tree) (ns : list (list Z)) (x : Dir.dirent * option tree) : list Z :=
  if d_inum (fst x) =? 0 then []
  else match target root ns (name (fst x)) with Some t => listing (name (fst x)) t | None => [] end.

Lemma from_slash_none n : SLASH ∉ n -> from_slash n = None.
Proof.
  induction n as [|c n IH]; intros Hn; [done|]. apply not_elem_of_cons in Hn as [Hc Hn]. simpl. rewrite IH by done.
  unfold SLASH in Hc. destruct (c =? 47) eqn:E; [lia|done].
Qed.

Lemma ls_line_ok s n t st : SLASH ∉ n -> (length n < 32)%nat -> v_fds (obs s) !! stdout = Some Out ->
  st_type st = type_of t -> st_size st = u32 (Z.of_nat (length (content t))) ->
  leaves (ls_line 0 n st) s tt (out_add (listing n t) (obs s)).
Proof.
  intros Hs Hl Ho Ht Hz. unfold ls_line. eapply leaves_bind; [|intros s1 O1; eapply (printf_then _ _ (listing n t))].
  - exists s. split; [|done]. unfold fmt_name. rewrite from_slash_none by done. cbv iota beta zeta. simpl.
    destruct (32 <=? Z.of_nat (length n)) eqn:E; [lia|done].
  - unfold listing. by rewrite <- Ht, <- Hz.
  - by rewrite O1.
  - unfold listing. rewrite !length_app, length_take. pose proof (itoa_length (i32 (u32 (Z.of_nat (length (content t))))) 10).
    assert (length (fmt_type (type_of t)) = 1%nat) as -> by (by destruct t). simpl length. lia.
  - intros s2 O2. rewrite <- O1, <- O2. apply leaves_ret.
Qed.

Lemma resolves_below v p n ns : p <> [] -> n <> [] -> SLASH ∉ n -> resolves v p = Some ns ->
  resolves v (below p n) = step_name (v_root v) n ns.
Proof.
  intros H1 H2 H3 R. unfold resolves, resolve, below in *. rewrite elements_below by done. rewrite fold_left_app.
  assert (start_dir (v_cwd v) (p ++ txt "/" ++ n) = start_dir (v_cwd v) p) as -> by (by destruct p). by rewrite R.
Qed.

(** An entry that [ls] can show: it fits into the arrays, and the file it means exists. *)
Definition shown (v : view) (p : list Z) (ns : list (list Z)) (x : Dir.dirent * option tree) : Prop :=
  let e := fst x in
  length (d_name e) = 60%nat /\ 0 <= d_inum e < 2 ^ 24 /\
  (d_inum e <> 0 -> 0 ∈ d_name e /\ name e <> [] /\ SLASH ∉ name e /\ (length (name e) < 32)%nat /\
    Z.of_nat (length p + length (name e)) < 255 /\ is_Some (target (v_root v) ns (name e))).

Lemma nth3_enc e : 0 <= d_inum e < 2 ^ 24 -> nth 3 (enc_dirent e) 0 = 0.
Proof. intros E. unfold enc_dirent, enc32. simpl. change (2 ^ 24) with 16777216 in *. ulia. Qed.

Lemma cat256_ok buf x s : Z.of_nat (length buf + length x) < 256 -> cat256 buf x s = Ok (inl (buf ++ x), s).
Proof. intros E. unfold cat256. destruct (256 <=? _) eqn:E0; [exfalso; bprop; lia|done]. Qed.

Lemma ls_dir_ok p ns fd v : p <> [] -> short p -> resolves v p = Some ns -> fd <> stdout -> v_fds v !! stdout = Some Out ->
  forall l fuel dirent s x, Forall (shown v p ns) l -> obs s = fd_rest fd (In true (content (TDir l))) (out_add x v) ->
  length dirent = 64%nat -> (length l < fuel)%nat ->
  leaves (ls_dir fuel fd (length p) dirent p) s tt
    (fd_rest fd (In true []) (out_add (x ++ concat (map (list_line (v_root v) ns) l)) v)).
Proof.
  intros Hp Hsh R Hfd Ho l. induction l as [|[e o] l IH]; intros fuel dirent s x F O Ld Hf; (destruct fuel as [|fuel]; [simpl in Hf; lia|]).
  - destruct (read_over s fd) as (r & Hr & Rd); [by rewrite O, fd_rest_lookup|]. cbn [ls_dir]. eapply leaves_bind; [exact Rd|].
    intros s1 O1. cbn [fst snd]. destruct (r <=? 0) eqn:E0; [|lia]. change (content (TDir [])) with (@nil Z) in O. cbn [map concat]. rewrite app_nil_r, <- O, <- O1. apply leaves_ret.
  - apply Forall_cons in F as [(L60 & Hi & Hn) F]. simpl in L60, Hi, Hn, Hf.
    change (content (TDir ((e, o) :: l))) with (enc_dirent e ++ content (TDir l)) in O.
    destruct (read_dirent s fd e (content (TDir l))) as (s1 & R1 & O1); [by rewrite O, fd_rest_lookup|done|].
    rewrite O, fd_rest_rest in O1. pose proof (length_enc_dirent e L60) as Le.
    cbn [ls_dir]. eapply leaves_then; [exact R1|]. cbn [fst snd]. change (64 <=? 0) with false. cbv iota.
    rewrite splice_whole by lia. rewrite dec_enc_dirent by ulia. cbn [map concat]. unfold list_line at 1. cbn [fst].
    destruct (d_inum e =? 0) eqn:E0; [apply (IH fuel (enc_dirent e) s1 x F O1 Le); lia|].
    destruct (Hn ltac:(lia)) as (Hz & H1 & H2 & H3 & H4 & [t Ht]).
    eapply leaves_then; [apply cat256_ok; simpl; lia|].
    destruct (name_of_ok s1 e Hz) as (s2 & E2 & O2). eapply leaves_then; [exact E2|].
    eapply leaves_then; [apply cat256_ok; rewrite length_app; simpl; lia|]. rewrite <- app_assoc. fold (below p (name e)).
    unfold target in Ht. destruct (step_name (v_root v) (name e) ns) as [ns'|] eqn:Es; [|done]. simpl in Ht.
    destruct (stat_ok s2 (below p (name e)) ns' t) as (st & s3 & S3 & T1 & T2 & O3); [by apply short_below, name_fits| |by rewrite O2, O1|].
    { rewrite O2, O1. rewrite (resolves_below _ p (name e) ns) by done. exact Es. }
    eapply leaves_then; [apply call_Ok; exact S3|]. rewrite nth3_enc by done.
    destruct (ls_line_ok s3 (name e) t st H2 H3) as (s4 & E4 & O4); [by rewrite O3, O2, O1, fd_rest_other|done|done|].
    eapply leaves_then; [exact E4|]. unfold target. rewrite Es. simpl mbind. rewrite Ht. rewrite app_assoc.
    unfold below. rewrite take_app_length. apply IH; [done| |done|lia].
    by rewrite O4, O3, O2, O1, out_add_rest, out_add_add.
Qed.
(** [ls] once the path is open and known to be a directory. *)
Lemma ls_open_dir fuel junk b p ns l s : short p -> resolves (obs s) p = Some ns -> lookup_tree ns (v_root (obs s)) = Some (TDir l) ->
  Z.of_nat (length p) < 256 -> (0 < v_room (obs s))%nat ->
  exists fd s', 0 <= fd /\ v_fds (obs s) !! fd = None /\
    obs s' = with_fds (<[fd := In true (content (TDir l))]> (v_fds (obs s))) (pred (v_room (obs s))) (obs s) /\
    ls fuel junk b p s = (ls_dir fuel fd (length p) junk p;; close fd;; mret tt) s'.
Proof.
  intros Hsh R L Hp Hr. destruct (open_ok s p ns _ Hsh R L ltac:(done) Hr) as (fd & s1 & Op & H1 & H2 & O1).
  destruct (stat_ok s1 p ns (TDir l)) as (st & s2 & S & T & _ & O2); [done|by rewrite O1|by rewrite O1|].
  exists fd, s2. split; [done|]. split; [done|]. split; [by rewrite O2|].
  unfold ls, open, sysstat. rewrite (ubind_Ok _ _ _ _ _ (call_Ok _ _ _ _ Op)). destruct (fd <? 0) eqn:E0; [lia|].
  rewrite (ubind_Ok _ _ _ _ _ (call_Ok _ _ _ _ S)). destruct (256 <=? _) eqn:E1; [exfalso; bprop; lia|]. by rewrite T.
Qed.

(** C38: [ls] of a directory, when its output takes text and one more file can be opened, prints
    a line for every entry in use, in the order of the directory, with the name, the type and the size of the
    file that the entry means ([.] and [..] too), and closes the directory.  The names have less than
    32 bytes, the paths less than 256 with elements of less than 60, and the inode numbers are below
    2^24 (the byte before a name is then 0, which [fmt_name] reads). *)
Theorem ls_correct prog junk b0 b p ns l fuel s :
  p <> [] -> short p -> Z.of_nat (length p) < 256 -> resolves (obs s) p = Some ns -> lookup_tree ns (v_root (obs s)) = Some (TDir l) ->
  Forall (shown (obs s) p ns) l -> v_fds (obs s) !! stdout = Some Out -> (0 < v_room (obs s))%nat ->
  length junk = 64%nat -> (length l < fuel)%nat ->
  exists s', start (ls_main fuel junk b0 [prog; (b, p)]) s = Ok (0, s') /\
    obs s' = out_add (concat (map (list_line (v_root (obs s)) ns) l)) (obs s).
Proof.
  intros Hp Hsh Hl R L F Ho Hr Hj Hf. destruct (ls_open_dir fuel junk b p ns l s Hsh R L Hl Hr) as (fd & s1 & H1 & H2 & O1 & E).
  assert (fd <> stdout) as Hfd by (intros ->; congruence).
  destruct (ls_dir_ok p ns fd (obs s1) Hp Hsh) with (l := l) (fuel := fuel) (dirent := junk) (s := s1) (x := @nil Z) as (s2 & E2 & O2);
    [by rewrite O1|done|by rewrite O1; simpl; rewrite lookup_insert_ne|by rewrite O1| |done|done|].
  { rewrite out_add_nil. by rewrite fd_rest_same by (rewrite O1; simpl; by rewrite lookup_insert_eq). }
  destruct (close_leaves s2 fd (In true [])) as (r & s3 & E3 & O3); [by rewrite O2, fd_rest_lookup|].
  exists s3. split.
  - unfold start, ls_main, for_args. cbn [fst snd]. rewrite (ubind_Ok _ _ _ tt s3); [done|]. rewrite (ubind_Ok _ _ _ tt s3); [done|].
    rewrite E, (ubind_Ok _ _ _ _ _ E2). by rewrite (ubind_Ok _ _ _ _ _ E3).
  - rewrite O3, O2, O1. by rewrite <- (opened_closed (obs s) fd (In true []) (In true (content (TDir l))) _ H2 Hr).
Qed.

(** A file name of 32 to 59 bytes makes [ls] store behind the 32 bytes of the array of
    [fmt_name]: the test of the length looks at the byte before the name, which is 0. *)
Theorem ls_long_name prog junk b0 b p ns e o l fuel s :
  p <> [] -> short p -> Z.of_nat (length p) < 190 -> resolves (obs s) p = Some ns -> lookup_tree ns (v_root (obs s)) = Some (TDir ((e, o) :: l)) ->
  length (d_name e) = 60%nat -> 0 < d_inum e < 2 ^ 24 -> 0 ∈ d_name e -> SLASH ∉ name e -> (32 <= length (name e))%nat ->
  is_Some (target (v_root (obs s)) ns (name e)) -> (0 < v_room (obs s))%nat -> length junk = 64%nat -> (0 < fuel)%nat ->
  start (ls_main fuel junk b0 [prog; (b, p)]) s = Panic.
Proof.
  intros Hp Hsh Hl R L L60 Hi Hz Hs Hn [t Ht] Hr Hj Hf. destruct fuel as [|fuel]; [lia|].
  destruct (ls_open_dir (S fuel) junk b p ns _ s Hsh R L ltac:(lia) Hr) as (fd & s1 & H1 & H2 & O1 & E).
  destruct (read_dirent s1 fd e (content (TDir l))) as (s2 & R2 & O2); [by rewrite O1; simpl; rewrite lookup_insert_eq|done|].
  pose proof (length_enc_dirent e L60) as Le. pose proof (str_of_length (d_name e)) as Ls. rewrite L60 in Ls. fold (name e) in Ls.
  destruct (name_of_ok s2 e Hz) as (s3 & E3 & O3).
  unfold target in Ht. destruct (step_name (v_root (obs s)) (name e) ns) as [ns'|] eqn:Es; [|done]. simpl in Ht.
  assert (name e <> []) as Hne by (intros En; rewrite En in Hn; simpl in Hn; lia).
  destruct (stat_ok s3 (below p (name e)) ns' t) as (st & s4 & S4 & _ & _ & O4); [by apply short_below, name_fits| |by rewrite O3, O2, O1|].
  { rewrite O3, O2, O1. rewrite (resolves_below _ p (name e) ns); [exact Es|done|done|done|exact R]. }
  assert (ls_dir (S fuel) fd (length p) junk p s1 = Panic) as Pn.
  { cbn [ls_dir]. rewrite (ubind_Ok _ _ _ _ _ R2). cbn [fst snd]. change (64 <=? 0) with false. cbv iota.
    rewrite splice_whole by lia. rewrite dec_enc_dirent by ulia. rewrite (proj2 (Z.eqb_neq _ _)) by lia.
    rewrite (ubind_Ok _ _ _ _ _ (cat256_ok p (txt "/") s2 ltac:(simpl; lia))), (ubind_Ok _ _ _ _ _ E3).
    rewrite (ubind_Ok _ _ _ _ _ (cat256_ok (p ++ txt "/") (name e) s3 ltac:(rewrite length_app; simpl; lia))).
    rewrite <- app_assoc. fold (below p (name e)). unfold sysstat. rewrite (ubind_Ok _ _ _ _ _ (call_Ok _ _ _ _ S4)).
    apply ubind_Panic. unfold ls_line. apply ubind_Panic. rewrite nth3_enc by lia. unfold fmt_name. rewrite from_slash_none by done.
    cbv iota beta zeta. simpl. destruct (32 <=? Z.of_nat (length (name e))) eqn:E0; [done|lia]. }
  unfold start, ls_main, for_args. cbn [fst snd]. rewrite ubind_Panic; [done|]. apply ubind_Panic. rewrite E. by apply ubind_Panic.
Qed.
End proofs.

(** ** Runs on the kernel in memory *)

Definition entry (inum : Z) (n : list Z) : Dir.dirent := Dirent inum (n ++ replicate (60 - length n) 0).

Definition demo_dots : entries := [(entry 1 (txt "."), None); (entry 1 (txt ".."), None)].

(** [/a/b], an empty directory [/a/c], and the file [/f]. *)
Definition demo_dir : tree := TDir (demo_dots ++
  [(entry 3 (txt "b"), Some (TFile (txt "x"))); (Dirent 0 (replicate 60 0), None); (entry 4 (txt "c"), Some (TDir demo_dots))]).

Definition demo_text : list Z := txt "one" ++ [10] ++ txt "two" ++ [10].

Definition demo_root : tree := TDir (demo_dots ++ [(entry 2 (txt "a"), Some demo_dir); (entry 5 (txt "f"), Some (TFile demo_text))]).

Definition demo_view : view := View demo_root [] (<[0 := In false demo_text]> (<[1 := Out]> ∅)) 5 [] ∅ 100.

Definition demo_junk : list Z := replicate 64 7.

(** Evaluate a decidable proposition. *)
Ltac by_eval := apply (bool_decide_eq_true_1 _); vm_compute; reflexivity.

Lemma grep_correct_witness : exists s',
  @start ref_kernel (@grep_main ref_kernel 100 [txt "grep"; txt "tw"; txt "z"]) demo_view = Ok (0, s') /\
  @obs ref_kernel ref_laws s' = fd_rest stdin (In false []) (out_add (txt "two" ++ [10]) demo_view).
Proof.
  apply (@grep_correct ref_kernel ref_laws (txt "grep") [txt "tw"; txt "z"] false demo_text 100 demo_view); [done| | |reflexivity|reflexivity| |vm_compute; lia].
  - unfold pattern_ok, chars. by_eval.
  - unfold bytes, is_u8. by_eval.
  - unfold line_ok. by_eval.
Defined.

Lemma echo_correct_witness : exists s',
  @start ref_kernel (@echo_main ref_kernel [txt "echo"; txt "a"; txt "b"]) demo_view = Ok (0, s') /\
  @obs ref_kernel ref_laws s' = out_add (txt "a b" ++ [10]) demo_view.
Proof. apply (@echo_correct ref_kernel ref_laws (txt "echo") [txt "a"; txt "b"] demo_view); [reflexivity|by_eval]. Defined.

Lemma cat_correct_witness : exists s',
  @start ref_kernel (@cat_main ref_kernel 100 [txt "cat"; txt "/a/b"; txt "f"; txt "g"]) demo_view = Ok (1, s') /\
  @obs ref_kernel ref_laws s' = out_add ((txt "x" ++ demo_text) ++ cat_missing (txt "g")) demo_view.
Proof.
  apply (@cat_correct ref_kernel ref_laws (txt "cat") [txt "/a/b"; txt "f"] [txt "x"; demo_text] [txt "g"] 100 demo_view).
  - constructor; [|constructor; [|constructor]]; unfold is_file; (split; [unfold short; by_eval|]);
      [exists [txt "a"; txt "b"]|exists [txt "f"]]; split; reflexivity.
  - by_eval.
  - reflexivity.
  - vm_compute; lia.
  - done.
  - split; [reflexivity|]. split; [unfold short; by_eval|vm_compute; reflexivity].
Defined.

#[local] Instance entry_ok_dec x : Decision (entry_ok x).
Proof. destruct x as [e [t|]]; unfold entry_ok, is_u32; simpl; apply _. Defined.

#[local] Instance shown_dec v p ns x : Decision (shown v p ns x).
Proof. unfold shown. apply _. Defined.



Lemma rm_file_correct_witness : exists s',
  @start ref_kernel (@rm_main ref_kernel 1 demo_junk [txt "rm"; txt "/a/b"]) demo_view = Ok (0, s') /\
  @obs ref_kernel ref_laws s' = with_root (remove [txt "a"; txt "b"] demo_root) demo_view.
Proof.
  apply (proj1 (@rm_file_correct ref_kernel ref_laws (txt "rm") demo_junk (txt "/a/b") 1 demo_view ltac:(done) ltac:(lia)) (TFile (txt "x"))).
  - split; [done|by_eval].
  - unfold short. by_eval.
  - done.
  - reflexivity.
  - reflexivity.
Defined.

Lemma ls_correct_witness : exists s',
  @start ref_kernel (@ls_main ref_kernel 20 demo_junk 0 [(0, txt "ls"); (0, txt "/a")]) demo_view = Ok (0, s') /\
  @obs ref_kernel ref_laws s' = out_add (listing (txt ".") demo_dir ++ listing (txt "..") demo_root ++
    listing (txt "b") (TFile (txt "x")) ++ listing (txt "c") (TDir demo_dots)) demo_view.
Proof.
  apply (@ls_correct ref_kernel ref_laws (0, txt "ls") demo_junk 0 0 (txt "/a") [txt "a"]
    (demo_dots ++ [(entry 3 (txt "b"), Some (TFile (txt "x"))); (Dirent 0 (replicate 60 0), None); (entry 4 (txt "c"), Some (TDir demo_dots))]) 20 demo_view).
  - done.
  - unfold short. by_eval.
  - done.
  - reflexivity.
  - reflexivity.
  - by_eval.
  - reflexivity.
  - vm_compute. lia.
  - reflexivity.
  - vm_compute. lia.
Defined.

(** A directory with a file whose name has 32 bytes. *)
Definition long_name : list Z := replicate 32 97.

Definition long_view : view :=
  View (TDir (demo_dots ++ [(entry 2 (txt "a"), Some (TDir [(entry 3 long_name, Some (TFile []))]))])) [] (<[1 := Out]> ∅) 5 [] ∅ 100.

Lemma ls_long_name_witness : @start ref_kernel (@ls_main ref_kernel 20 demo_junk 0 [(0, txt "ls"); (0, txt "/a")]) long_view = Panic.
Proof.
  apply (@ls_long_name ref_kernel ref_laws (0, txt "ls") demo_junk 0 0 (txt "/a") [txt "a"] (entry 3 long_name) (Some (TFile [])) [] 20 long_view);
    [done|unfold short; by_eval|done|reflexivity|reflexivity|reflexivity|by_eval|by_eval|by_eval|vm_compute; lia|by eexists|vm_compute; lia|reflexivity|lia].
Defined.

(** A last line of 1024 bytes. *)
Definition wide_view : view := View demo_root [] (<[0 := In false (replicate 1024 97)]> (<[1 := Out]> ∅)) 5 [] ∅ 100.

Lemma grep_limits_witness : @start ref_kernel (@grep_main ref_kernel 1 [txt "grep"; txt "z"]) wide_view = Panic.
Proof.
  apply (proj2 (@grep_limits ref_kernel ref_laws (txt "grep") [txt "z"] false (replicate 1024 97) 1 wide_view ltac:(done)
    ltac:(unfold pattern_ok, chars; by_eval) ltac:(unfold bytes, is_u8; by_eval) ltac:(reflexivity) ltac:(reflexivity) ltac:(lia))).
  left. split; [reflexivity|]. vm_compute. reflexivity.
Defined.
End CmdsSpec.
