(* ===== verification/Init.v ===== *)
(** The first user program: src/init/main.c, as a tree of system calls (see ShExec).  It runs
    in [init_proc], whose exit the kernel does not survive: [task_exit] asserts that it is not
    called there ([ShExec.exits]). *)

From stdpp Require Import base numbers list strings.
From Stdlib Require Import ZArith Lia.
From S2P Require Import Prelude CString SysFs Shell ShExec.
#[local] Open Scope Z_scope.

Module Init.
Import Shell ShExec.

Definition sh_args : list (list Z) := [str "sh"].

Definition console_path : list Z := str "/dev/console".

Definition sh_path : list Z := str "/bin/sh".

Definition done_message (pid status : Z) : list Z :=
  CString.vsprintf (str "[1] + %d exit %d     done." ++ [10]) [CString.AInt pid; CString.AInt status].

(** [for (;;) wait]; fuel for the children that end. *)
Fixpoint wait_loop (fuel : nat) (shpid : Z) : prog unit :=
  match fuel with
  | O => Stuck
  | S fuel =>
      r ← wait;
      match r with
      | None => if -1 =? shpid then Exit 1 else wait_loop fuel shpid
      | Some (pid, status) =>
          if pid =? shpid then Exit 1
          else if 0 <=? pid then printf (done_message pid status);; wait_loop fuel shpid
          else wait_loop fuel shpid
      end
  end.

(** The [1] that [main] returns is the exit status. *)
Definition init_main (fuel : nat) : prog unit :=
  fd ← open console_path SysFs.O_RDONLY;
  if negb (fd =? 0) then Exit 1
  else
    fd ← open console_path O_WRONLY;
    if negb (fd =? 1) then Exit 1
    else
      shpid ← fork;
      if negb (shpid =? 0) then wait_loop fuel shpid
      else
        execv sh_path sh_args;;
        printf (str "init: cannot start the shell: /bin/sh." ++ [10]);;
        Exit 1.

Section proofs.
Context `{World}.
#[local] Opaque done_message str.

(** Nothing was started, and every [wait] was with the files [l] open. *)
Definition only_waits (l : list (option Z)) (r : result) (e : ending) : Prop :=
  runs r = [] /\ Forall (fun x => x = l) (waits r) /\ fin r = e.

Definition messages (ks : list (Z * Z)) : list (list Z) :=
  map (fun c => done_message (fst c) (snd c)) (filter (fun c => 0 <= fst c) ks).

(** Of the children [kids], the run [r] waits for some others, in an order, printing a message
    for each one, then for [shpid], and for no more. *)
Definition waits_until (shpid : Z) (kids : list (Z * Z)) (r : result) : Prop :=
  exists ks st rest, kids ≡ₚ ks ++ (shpid, st) :: rest /\ Forall (fun c => fst c <> shpid) ks /\
    out r = messages ks /\ length (waits r) = S (length ks) /\ lost r = length rest.

Lemma wait_loop_until shpid fuel : forall s,
  Exists (fun c => fst c = shpid) (kids s) -> (length (kids s) < fuel)%nat ->
  waits_until shpid (kids s) (exec (wait_loop fuel shpid) s).
Proof.
  induction fuel as [|fuel IH]; intros s Hs Hl; [lia|].
  cbn. set (i := (next_child (addr s) (length (kids s)) mod length (kids s))%nat).
  destruct (kids s !! i) as [[pid st]|] eqn:Hc.
  - set (s' := Proc (fds s) (take i (kids s) ++ drop (S i) (kids s)) (addr s) (forks s) (npipes s) (cwd s) (is_init s)).
    assert (kids s ≡ₚ (pid, st) :: kids s') as Hperm.
    { cbn [kids s']. rewrite <- (take_drop_middle _ _ _ Hc) at 1. by rewrite Permutation_middle. }
    destruct (Z.eqb_spec pid shpid) as [->|E].
    { exists [], st, (kids s'). split_and!; [done|by constructor|done|done|done]. }
    destruct (IH s') as (ks & st' & rest & P1 & P2 & P3 & P4 & P5).
    { rewrite Hperm in Hs. by apply Exists_cons in Hs as [?|?]. }
    { pose proof (Permutation_length Hperm). simpl in *. lia. }
    exists ((pid, st) :: ks), st', rest. split_and!.
    + by rewrite Hperm, P1.
    + by constructor.
    + unfold messages. rewrite filter_cons. cbn [fst]. destruct (Z.leb_spec 0 pid); [rewrite decide_True by done|rewrite decide_False by lia];
        cbn [waited out exec mbind prog_bind printf map fst snd]; unfold printf; cbn; by rewrite P3.
    + destruct (0 <=? pid); cbn; by rewrite P4.
    + by destruct (0 <=? pid).
  - exfalso. destruct (decide (length (kids s) = 0%nat)) as [E|E].
    + destruct (kids s); [by inversion Hs|done].
    + apply lookup_ge_None in Hc. pose proof (Nat.mod_upper_bound (next_child (addr s) (length (kids s))) (length (kids s)) E). lia.
Qed.

(** Whichever children end first, [init] ends with the shell, or without children if it has none. *)
Lemma wait_loop_ok shpid fuel : forall s,
  Exists (fun c => fst c = shpid) (kids s) \/ shpid = -1 -> (length (kids s) < fuel)%nat ->
  only_waits (fds s) (exec (wait_loop fuel shpid) s) (exits s 1).
Proof.
  induction fuel as [|fuel IH]; intros s Hs Hl; [lia|].
  cbn. set (i := (next_child (addr s) (length (kids s)) mod length (kids s))%nat).
  destruct (kids s !! i) as [[pid st]|] eqn:Hc.
  - set (s' := Proc (fds s) (take i (kids s) ++ drop (S i) (kids s)) (addr s) (forks s) (npipes s) (cwd s) (is_init s)).
    destruct (pid =? shpid) eqn:E; [split_and!; [done|by constructor|done]|]. bprop.
    assert (only_waits (fds s) (exec (wait_loop fuel shpid) s') (exits s 1)) as (R1 & R2 & R3).
    { apply (IH s').
      - destruct Hs as [Hs|Hs]; [left|by right]. rewrite <- (take_drop_middle _ _ _ Hc) in Hs.
        apply Exists_app in Hs as [Hs|[Hs|Hs]%Exists_cons]; [apply Exists_app; by left|done|apply Exists_app; by right].
      - pose proof (f_equal length (take_drop_middle _ _ _ Hc)) as L. rewrite length_app in L. simpl in L |- *. rewrite length_app. lia. }
    destruct (0 <=? pid); (split_and!; [done|by constructor|done]).
  - destruct Hs as [Hs| ->]; [|split_and!; [done|by constructor|done]]. exfalso. destruct (decide (length (kids s) = 0%nat)) as [E|E].
    + destruct (kids s); [by inversion Hs|done].
    + apply lookup_ge_None in Hc. pose proof (Nat.mod_upper_bound (next_child (addr s) (length (kids s))) (length (kids s)) E). lia.
Qed.

Lemma exec_open path mode (k : Z -> prog unit) s : exec (open path mode ≫= k) s =
  match opened (cwd s) path mode with
  | None => exec (k (-1)) s
  | Some f => match alloc_fd f (fds s) with Some (fd, l) => exec (k fd) (set_fds l s) | None => exec (k (-1)) s end
  end.
Proof. done. Qed.

Lemma exec_fork (k : Z -> prog unit) s : exec (fork ≫= k) s =
  if can_fork (addr s) (forks s) then
    let c := exec (k 0) (Proc (fds s) [] (addr s ++ [forks s]) 0 0 (cwd s) false) in
    let pid := child_pid (addr s) (forks s) in
    after c (exec (k pid) (Proc (fds s) (kids s ++ [(pid, status_of c)]) (addr s) (S (forks s)) (npipes s) (cwd s) (is_init s)))
  else exec (k (-1)) (Proc (fds s) (kids s) (addr s) (S (forks s)) (npipes s) (cwd s) (is_init s)).
Proof. done. Qed.

Lemma exec_execv path argv (k : prog unit) s : exec (execv path argv;; k) s =
  match programs (Run path argv (fds s) (cwd s)) with
  | Some st => Result [Run path argv (fds s) (cwd s)] [] [] (length (kids s)) (exits s st)
  | None => exec k s
  end.
Proof. done. Qed.

(** The descriptors of the shell: the console for reading and for writing. *)
Definition console_fds (f0 f1 : Z) : list (option Z) := Some f0 :: Some f1 :: replicate 14 None.

(** The shell as [init] starts it. *)
Definition the_shell (f0 f1 d : Z) : run := Run sh_path sh_args (console_fds f0 f1) d.

(** The programs that [init] starts. *)
Definition init_runs (s : proc) : list run :=
  match opened (cwd s) console_path SysFs.O_RDONLY, opened (cwd s) console_path O_WRONLY with
  | Some f0, Some f1 =>
      match programs (the_shell f0 f1 (cwd s)) with
      | Some _ => if can_fork (addr s) (forks s) then [the_shell f0 f1 (cwd s)] else []
      | None => []
      end
  | _, _ => []
  end.

(** C39: [init], the program of [init_proc].  It opens the console as descriptors 0 and 1 and
    starts [/bin/sh], with these descriptors and nothing else open, once; it waits for its
    children until it has waited for the shell, in whatever order they end, and prints a message
    for every other one.  When the shell has ended, and also when the console
    cannot be opened, when it cannot fork or when there is no shell, it calls [exit], and then
    the assertion [task != init_proc] of [task_exit] stops the kernel. *)
Theorem init_correct fuel s :
  is_init s = true -> fds s = replicate 16 None -> (S (length (kids s)) < fuel)%nat -> child_pid (addr s) (forks s) <> 0 ->
  let r := exec (init_main fuel) s in
  runs r = init_runs s /\ fin r = Panicked /\
  (forall l, l ∈ waits r -> exists f0 f1, l = console_fds f0 f1) /\
  (forall x, init_runs s = [x] -> exists st, waits_until (child_pid (addr s) (forks s)) (kids s ++ [(child_pid (addr s) (forks s), st)]) r).
Proof.
  intros Hin Hfd Hl Hp. assert (exits s 1 = Panicked) as Hx by (unfold exits; by rewrite Hin).
  assert (forall f0 f1 r e, only_waits (console_fds f0 f1) r e -> forall l, l ∈ waits r -> exists f0 f1, l = console_fds f0 f1) as Hw.
  { intros f0 f1 r e (_ & W & _) l Hlw. rewrite Forall_forall in W. exists f0, f1. by apply W. }
  assert (forall l : list (option Z), l ∈ [] -> exists f0 f1, l = console_fds f0 f1) as Hnil by (intros l Hl0; by apply elem_of_nil in Hl0).
  cbv zeta. unfold init_main, init_runs. rewrite exec_open.
  destruct (opened _ console_path SysFs.O_RDONLY) as [f0|]; [|by split_and!]. rewrite Hfd.
  rewrite (alloc_fd_at f0 (replicate 16 None) 0) by (done || lia). change (negb (Z.of_nat 0 =? 0)) with false. cbv iota.
  rewrite exec_open. cbn [cwd set_fds]. destruct (opened _ console_path O_WRONLY) as [f1|]; [|by split_and!]. cbn [set_fds fds].
  rewrite (alloc_fd_at f1 _ 1); [|done|done|intros [|j] Hj; [simpl; congruence|lia]]. change (negb (Z.of_nat 1 =? 1)) with false. cbv iota.
  change (<[1%nat := Some f1]> (<[0%nat := Some f0]> (replicate 16 None))) with (console_fds f0 f1).
  rewrite exec_fork. cbn [addr forks fds kids npipes set_fds cwd is_init]. destruct (can_fork (addr s) (forks s)).
  - rewrite (proj2 (Z.eqb_neq _ _) Hp). cbn [negb Z.eqb]. cbv zeta. rewrite exec_execv. cbn [fds cwd].
    match goal with |- context [wait_loop fuel ?p] => match goal with |- context [exec (wait_loop fuel p) ?x] =>
      pose proof (wait_loop_ok p fuel x) as Hloop; pose proof (wait_loop_until p fuel x) as Hun; set (y := exec (wait_loop fuel p) x) in * end end.
    destruct Hloop as (R1 & R2 & R3).
    { left. cbn [kids]. apply Exists_app. right. by apply Exists_cons_hd. }
    { cbn [kids]. rewrite length_app. simpl. lia. }
    specialize (Hun ltac:(cbn [kids]; apply Exists_app; right; by apply Exists_cons_hd) ltac:(cbn [kids]; rewrite length_app; simpl; lia)).
    specialize (Hw f0 f1 y Panicked). unfold after. cbn [runs fin waits]. rewrite R1, R3, app_nil_r.
    unfold exits. cbn [is_init]. rewrite Hin. unfold the_shell.
    assert (only_waits (console_fds f0 f1) y Panicked) as Hy
      by (unfold only_waits; rewrite R1, R3; split_and!; [done|exact R2|unfold exits; cbn [is_init]; by rewrite Hin]).
    unfold the_shell in *. destruct (programs _); (split_and!; [done|done|cbn [waits app]; by apply Hw|intros x [=]]).
    eexists. exact Hun.
  - change (negb (-1 =? 0)) with true. cbv iota.
    destruct (wait_loop_ok (-1) fuel (Proc (console_fds f0 f1) (kids s) (addr s) (S (forks s)) (npipes s) (cwd s) (is_init s))) as (R1 & R2 & R3);
      [by right|cbn [kids]; lia|]. split_and!; [|rewrite R3; unfold exits; cbn [is_init]; by rewrite Hin| |].
    + rewrite R1. by destruct (programs _).
    + by eapply (Hw f0 f1).
    + by destruct (programs _).
Qed.
End proofs.

#[local] Transparent done_message str.

(** A world with a shell, where the console is the open file 7 or 8. *)
#[local] Instance init_world : World := {|
  programs := fun r => if bool_decide (r_path r = sh_path) then Some 0 else None;
  opened := fun _ _ mode => Some (7 + mode); pipe_end := fun _ _ w => if w then 9 else 8; can_fork := fun _ _ => true;
  child_pid := fun _ n => Z.of_nat n + 2; next_child := fun _ _ => 0%nat; file_type := fun _ _ => Some 1; dir_at := fun _ _ => Some 1 |}.

(** [init] with another child, 9, that ends before the shell. *)
Lemma init_correct_witness :
  let r := @exec init_world unit (init_main 5) (Proc (replicate 16 None) [(9, 3)] [] 0 0 1 true) in
  runs r = [the_shell 7 8 1] /\ fin r = Panicked /\ out r = [str "[1] + 9 exit 3     done." ++ [10]].
Proof.
  destruct (@init_correct init_world 5 (Proc (replicate 16 None) [(9, 3)] [] 0 0 1 true)) as (R & F & _ & _); [done|reflexivity|simpl; lia|done|].
  split; [exact R|]. split; [exact F|]. vm_compute. reflexivity.
Defined.

End Init.
