(* ===== verification/ShHeap.v ===== *)
(** The memory of commands: src/shell/sh/cmds.c, and the parser of src/shell/sh/sh_parser.c as it
    builds commands from nodes of the heap.

    The heap holds the blocks that the program has from [malloc]: the nodes of commands and the
    strings of their arguments.  Freeing what is not allocated is a [Panic].  The parser of Shell
    builds values; the one here does the same with pointers, and frees what it built when it
    finds an error. *)

From stdpp Require Import base numbers list gmap fin_maps.
From Stdlib Require Import ZArith Lia.
From S2P Require Import Prelude Shell.
#[local] Open Scope Z_scope.

Module ShHeap.
Import Shell.

(** The structures of cmds.h, and the strings of [copy_peek_string]. *)
Inductive node :=
| NExec (argc : Z) (argv : list Z)
| NRedir (cmd fd mode : Z) (file : list Z)
| NList (left right : Z)
| NBack (cmd : Z)
| NPipe (left right : Z)
| NBinary (left right : Z) (operator : token_type)
| NStr (s : list Z).

Abbreviation heap := (gmap Z node).

(** ** cmds.c *)

Section alloc.

(** Where [malloc] puts a block of so many bytes; 0 is [NULL]. *)
Context (alloc : Z -> heap -> Z).

(** [CMD_NEW] and the stores behind it; without memory the program ends. *)
Definition new_node (size : Z) (n : node) : M heap Z := fun h =>
  let p := alloc size h in if p =? 0 then Hang else Ok (p, <[p := n]> h).

Definition cmd_newexec : M heap Z := new_node 88 (NExec 0 (replicate (Z.to_nat MAX_ARGV) 0)).

Definition cmd_newredir (child fd mode : Z) (file : list Z) : M heap Z :=
  new_node (16 + Z.of_nat (length file) + 1) (NRedir child fd mode file).

Definition cmd_newlist (left right : Z) : M heap Z := new_node 12 (NList left right).

Definition cmd_newback (backcmd : Z) : M heap Z := new_node 8 (NBack backcmd).

Definition cmd_newpipe (left right : Z) : M heap Z := new_node 12 (NPipe left right).

Definition cmd_newbinary (left right : Z) (operator : token_type) : M heap Z := new_node 16 (NBinary left right operator).

Definition hfree (p : Z) : M heap unit := fun h => if bool_decide (is_Some (h !! p)) then Ok (tt, delete p h) else Panic.

(** [for (int i = 0; i < MAX_ARGV; i++) if (c->argv[i] != NULL) free(c->argv[i])]. *)
Fixpoint free_argv (argv : list Z) : M heap unit :=
  match argv with
  | [] => mret tt
  | a :: argv => (if a =? 0 then mret tt else hfree a);; free_argv argv
  end.

Fixpoint cmd_free_rec (fuel : nat) (cmd : Z) : M heap unit :=
  match fuel with
  | O => hang
  | S fuel =>
      if cmd =? 0 then mret tt
      else
        h ← get;
        match h !! cmd with
        | Some (NExec _ argv) => free_argv argv;; hfree cmd
        | Some (NRedir c _ _ _) | Some (NBack c) => cmd_free_rec fuel c;; hfree cmd
        | Some (NList l r) | Some (NPipe l r) | Some (NBinary l r _) => cmd_free_rec fuel l;; cmd_free_rec fuel r;; hfree cmd
        | Some (NStr _) | None => panic
        end
  end.

(** A command is not deeper than the heap has blocks. *)
Definition cmd_free (cmd : Z) : M heap unit := fun h => cmd_free_rec (S (size h)) cmd h.

(** ** Commands in the heap *)

Fixpoint strs (argv : list (list Z)) (ptrs : list Z) (h : heap) : Prop :=
  match argv, ptrs with
  | [], [] => h = ∅
  | w :: argv, a :: ptrs => a <> 0 /\ exists h', h = <[a := NStr w]> h' /\ h' !! a = None /\ strs argv ptrs h'
  | _, _ => False
  end.

(** [h] holds the command [c] at [p], and nothing else. *)
Fixpoint rep (c : cmd) (p : Z) (h : heap) : Prop :=
  p <> 0 /\
  let two n l r := exists pl pr hl hr, h = <[p := n pl pr]> (hl ∪ hr) /\ hl ##ₘ hr /\ (hl ∪ hr) !! p = None /\ rep l pl hl /\ rep r pr hr in
  let one n c := exists pc hc, h = <[p := n pc]> hc /\ hc !! p = None /\ rep c pc hc in
  match c with
  | CMD_EXEC argv => exists ptrs hs, h = <[p := NExec (Z.of_nat (length argv)) (ptrs ++ replicate (20 - length ptrs) 0)]> hs /\
      hs !! p = None /\ (length ptrs <= 20)%nat /\ strs argv ptrs hs
  | CMD_REDIR c fd mode file => one (fun pc => NRedir pc fd mode file) c
  | CMD_LIST l r => two NList l r
  | CMD_BACK c => one NBack c
  | CMD_PIPE l r => two NPipe l r
  | CMD_BINARY l r op => two (fun pl pr => NBinary pl pr op) l r
  end.

(** ** Freeing *)

Fixpoint depth (c : cmd) : nat :=
  match c with
  | CMD_EXEC _ => 0
  | CMD_REDIR c _ _ _ | CMD_BACK c => S (depth c)
  | CMD_LIST l r | CMD_PIPE l r | CMD_BINARY l r _ => S (depth l `max` depth r)
  end.

Lemma hfree_top p n (h : heap) : h !! p = None -> hfree p (<[p := n]> h) = Ok (tt, h).
Proof.
  intros E. unfold hfree. rewrite bool_decide_true by (rewrite lookup_insert_eq; eauto).
  by rewrite delete_insert_id.
Qed.

Lemma free_argv_zeros n (h : heap) : free_argv (replicate n 0) h = Ok (tt, h).
Proof. induction n as [|n IH]; [done|]. simpl. by rewrite (bind_Ok _ _ _ tt h). Qed.

Lemma free_argv_ok zeros argv : forall ptrs (hs h : heap), strs argv ptrs hs -> hs ##ₘ h ->
  free_argv (ptrs ++ replicate zeros 0) (hs ∪ h) = Ok (tt, h).
Proof.
  induction argv as [|w argv IH]; intros [|a ptrs] hs h S D; try done; simpl in S.
  - subst. rewrite map_empty_union. apply free_argv_zeros.
  - destruct S as (Ha & h' & -> & Hn & S). apply map_disjoint_insert_l in D as [D1 D2].
    simpl. rewrite (proj2 (Z.eqb_neq _ _)) by done. rewrite <- insert_union_l.
    rewrite (bind_Ok _ _ _ tt (h' ∪ h)) by (apply hfree_top; by apply lookup_union_None). by apply IH.
Qed.

(** The block at [p] moves to the rest of the heap. *)
Lemma insert_shift p (n : node) (h1 h2 : heap) : h1 !! p = None -> <[p := n]> h1 ∪ h2 = h1 ∪ <[p := n]> h2.
Proof. intros E. rewrite <- insert_union_l. by rewrite insert_union_r. Qed.

Lemma cmd_free_step fuel p n (h : heap) : p <> 0 -> h !! p = Some n ->
  cmd_free_rec (S fuel) p h =
    (match n with
     | NExec _ argv => free_argv argv;; hfree p
     | NRedir c _ _ _ | NBack c => cmd_free_rec fuel c;; hfree p
     | NList l r | NPipe l r | NBinary l r _ => cmd_free_rec fuel l;; cmd_free_rec fuel r;; hfree p
     | NStr _ => panic
     end) h.
Proof.
  intros Hp E. cbn [cmd_free_rec]. rewrite (proj2 (Z.eqb_neq _ _)) by done. rewrite (bind_Ok _ _ _ h h) by done. by rewrite E; destruct n.
Qed.

(** The freeing of [c] leaves the rest of the heap. *)
Definition frees (c : cmd) : Prop := forall p h1 h2 fuel, rep c p h1 -> h1 ##ₘ h2 -> (depth c < fuel)%nat ->
  cmd_free_rec fuel p (h1 ∪ h2) = Ok (tt, h2).

Lemma free_one c p pc n (hc h2 : heap) fuel : frees c -> rep c pc hc -> hc !! p = None -> <[p := n]> hc ##ₘ h2 -> (depth c < fuel)%nat ->
  (cmd_free_rec fuel pc;; hfree p) (<[p := n]> hc ∪ h2) = Ok (tt, h2).
Proof.
  intros F R E D Hf. apply map_disjoint_insert_l in D as [D1 D2]. rewrite insert_shift by done.
  rewrite (bind_Ok _ _ _ tt (<[p := n]> h2)); [by apply hfree_top|]. apply F; [done| |done]. by apply map_disjoint_insert_r.
Qed.

Lemma free_two l r p pl pr n (hl hr h2 : heap) fuel : frees l -> frees r -> rep l pl hl -> rep r pr hr -> hl ##ₘ hr ->
  (hl ∪ hr) !! p = None -> <[p := n]> (hl ∪ hr) ##ₘ h2 -> (depth l `max` depth r < fuel)%nat ->
  (cmd_free_rec fuel pl;; cmd_free_rec fuel pr;; hfree p) (<[p := n]> (hl ∪ hr) ∪ h2) = Ok (tt, h2).
Proof.
  intros F1 F2 R1 R2 D12 E D Hf. apply map_disjoint_insert_l in D as [D1 D2]. apply map_disjoint_union_l in D2 as [D2 D3].
  apply lookup_union_None in E as [E1 E2]. rewrite insert_shift by (by apply lookup_union_None). rewrite <- map_union_assoc.
  rewrite (bind_Ok _ _ _ tt (hr ∪ <[p := n]> h2)).
  - rewrite (bind_Ok _ _ _ tt (<[p := n]> h2)); [by apply hfree_top|]. apply F2; [done| |lia]. by apply map_disjoint_insert_r.
  - apply F1; [done| |lia]. apply map_disjoint_union_r. split; [done|by apply map_disjoint_insert_r].
Qed.

Lemma cmd_free_rec_ok c : frees c.
Proof.
  induction c; intros p h1 h2 [|fuel] R D Hf; try lia; destruct R as [Hp R]; cbn [depth] in Hf.
  1: destruct R as (ptrs & hs & -> & E & _ & S).
  2,4: destruct R as (pc & hc & -> & E & R).
  4,5,6: destruct R as (pl & pr & hl & hr & -> & D12 & E & R1 & R2).
  all: erewrite cmd_free_step; [|done|by apply lookup_union_Some_l; rewrite lookup_insert_eq].
  1: { pose proof D as [D1 D2]%map_disjoint_insert_l. rewrite insert_shift by done. erewrite bind_Ok; [by apply hfree_top|].
       apply (free_argv_ok _ argv); [done|]. by apply map_disjoint_insert_r. }
  1,2: by eapply free_one; eauto; lia.
  all: by apply (free_two c1 c2); auto; lia.
Qed.

Lemma rep_depth c : forall p h, rep c p h -> (depth c < size h)%nat.
Proof.
  induction c; intros p h [Hp R].
  1: destruct R as (ptrs & hs & -> & E & _ & S).
  2,4: destruct R as (pc & hc & -> & E & R).
  4,5,6: destruct R as (pl & pr & hl & hr & -> & D12 & E & R1 & R2).
  all: rewrite map_size_insert_None by done; cbn [depth]; try lia.
  1,2: apply IHc in R; lia.
  all: apply IHc1 in R1; apply IHc2 in R2; rewrite map_size_disj_union by done; lia.
Qed.

Lemma cmd_free_owned c p h1 h2 : rep c p h1 -> h1 ##ₘ h2 -> cmd_free p (h1 ∪ h2) = Ok (tt, h2).
Proof.
  intros R D. unfold cmd_free. apply (cmd_free_rec_ok c); [done|done|]. rewrite map_size_disj_union by done.
  pose proof (rep_depth _ _ _ R). lia.
Qed.
(** ** The parser on the heap *)

Abbreviation pst := (shell * heap)%type.

#[local] Instance part_shell : Part pst shell := {| part := fst; set_part := fun sh s => (sh, snd s) |}.

#[local] Instance part_heap : Part pst heap := {| part := snd; set_part := fun h s => (fst s, h) |}.

Definition inS {A} (m : M shell A) : M pst A := lift m.

Definition inH {A} (m : M heap A) : M pst A := lift m.

Definition h_copy_peek_string : M pst Z :=
  sh ← inS get;
  h ← inH get;
  let dst := alloc (tlen (peek sh) + 1) h in
  if dst =? 0 then inS (report_error ErrMemory);; mret 0
  else if tlen (peek sh) <? 0 then panic
  else inH (put (<[dst := NStr (unescape (take (Z.to_nat (tlen (peek sh))) (tp (peek sh))))]> h));; mret dst.

(** [cmd->argv[argc] = s]. *)
Definition set_argv (cmd : Z) (argc : nat) (s : Z) : M heap unit := fun h =>
  match h !! cmd with
  | Some (NExec n argv) => if (argc <? length argv)%nat then Ok (tt, <[cmd := NExec n (<[argc := s]> argv)]> h) else Panic
  | _ => Panic
  end.

(** [cmd->argc = argc]. *)
Definition set_argc (cmd argc : Z) : M heap unit := fun h =>
  match h !! cmd with
  | Some (NExec _ argv) => Ok (tt, <[cmd := NExec argc argv]> h)
  | _ => Panic
  end.

Fixpoint h_exec_loop (room : nat) (cmd : Z) (argc : nat) : M pst Z :=
  match room with
  | O => inS (report_error ErrTooMany);; inH (cmd_free cmd);; mret 0
  | S room =>
      s ← h_copy_peek_string;
      inH (set_argv cmd argc s);;
      if s =? 0 then inH (cmd_free cmd);; mret 0
      else
        inS advance;;
        t ← inS peek_type;
        if decide (t = TOKEN_STRING) then h_exec_loop room cmd (S argc)
        else inH (set_argc cmd (Z.of_nat (S argc)));; mret cmd
  end.

Definition h_parse_execcmd : M pst Z :=
  cmd ← inH cmd_newexec;
  h_exec_loop (Z.to_nat (MAX_ARGV - 1)) cmd 0.

(** The string at [f]. *)
Definition string_of (f : Z) : M heap (list Z) := fun h =>
  match h !! f with Some (NStr s) => Ok (s, h) | _ => Panic end.

Definition h_parse_redircmd (left : Z) (optok : token_type) : M pst Z :=
  t ← inS peek_type;
  if decide (t = TOKEN_STRING) then
    match redir_target optok with
    | None => hang
    | Some (fd, mode) =>
        f ← h_copy_peek_string;
        s ← inH (string_of f);
        cmd ← inH (cmd_newredir left fd mode s);
        inH (hfree f);;
        inS advance;;
        mret cmd
    end
  else inS (report_error ErrPath);; inH (cmd_free left);; mret 0.

Fixpoint h_redir_loop (fuel : nat) (cmd : Z) : M pst Z :=
  match fuel with
  | O => hang
  | S fuel =>
      t ← inS peek_type;
      match t with
      | TOKEN_GT | TOKEN_GTGT | TOKEN_LT =>
          inS advance;;
          cmd ← h_parse_redircmd cmd t;
          if cmd =? 0 then mret 0 else h_redir_loop fuel cmd
      | _ => mret cmd
      end
  end.

Fixpoint h_parse_cmd (fuel : nat) : M pst Z :=
  match fuel with
  | O => hang
  | S fuel =>
      t ← inS peek_type;
      if decide (t = TOKEN_LPAREN \/ t = TOKEN_STRING) then h_parse_list fuel else mret 0
  end
with h_parse_list (fuel : nat) : M pst Z :=
  match fuel with
  | O => hang
  | S fuel =>
      left ← h_parse_binary fuel;
      if left =? 0 then mret 0
      else
        t ← inS peek_type;
        if decide (t <> TOKEN_SEMI /\ t <> TOKEN_BACK) then mret left
        else
          left ← (if decide (t = TOKEN_BACK) then inH (cmd_newback left) else mret left);
          inS advance;;
          right ← h_parse_cmd fuel;
          if right =? 0 then mret left else inH (cmd_newlist left right)
  end
with h_parse_binary (fuel : nat) : M pst Z :=
  match fuel with
  | O => hang
  | S fuel =>
      left ← h_parse_redir fuel;
      if left =? 0 then mret 0
      else
        operator ← inS peek_type;
        if decide (operator = TOKEN_PIPE \/ operator = TOKEN_AND \/ operator = TOKEN_OR) then
          inS advance;;
          right ← h_parse_binary fuel;
          if right =? 0 then inH (cmd_free left);; mret 0
          else if decide (operator = TOKEN_PIPE) then inH (cmd_newpipe left right)
          else inH (cmd_newbinary left right operator)
        else mret left
  end
with h_parse_redir (fuel : nat) : M pst Z :=
  match fuel with
  | O => hang
  | S fuel =>
      cmd ← h_parse_primary fuel;
      if cmd =? 0 then mret 0
      else sh ← inS get; h_redir_loop (S (S (length (p sh)))) cmd
  end
with h_parse_primary (fuel : nat) : M pst Z :=
  match fuel with
  | O => hang
  | S fuel =>
      t ← inS peek_type;
      match t with
      | TOKEN_LPAREN =>
          inS advance;;
          cmd ← h_parse_cmd fuel;
          ok ← inS (match_tok TOKEN_RPAREN);
          if ok : bool then mret cmd
          else inH (cmd_free cmd);; inS (report_error ErrParen);; mret 0
      | TOKEN_STRING => h_parse_execcmd
      | _ => inS unexpected;; mret 0
      end
  end.

Definition h_sh_parse (buf : list Z) : M pst Z :=
  inS (modify (fun sh => MkShell buf (peek sh) (errors sh)));;
  inS advance;;
  cmd ← h_parse_cmd (parse_fuel buf);
  if cmd =? 0 then mret 0
  else
    t ← inS peek_type;
    if decide (t = TOKEN_EOF) then mret cmd
    else inS unexpected;; inH (cmd_free cmd);; mret 0.

(** ** The two parsers agree *)

(** The heap parser [F], from the heap [h], does what [f] does: the results are related by [Q]. *)
Definition sim {A B} (f : M shell A) (F : M pst B) (h : heap) (Q : A -> B -> heap -> Prop) : Prop := forall s,
  match f s with
  | Ok (a, s') => exists b h', F (s, h) = Ok (b, (s', h')) /\ Q a b h'
  | Panic => F (s, h) = Panic
  | Hang => F (s, h) = Hang
  end.

Lemma sim_bind {A B A' B'} (f : M shell A) (F : M pst B) (k : A -> M shell A') (K : B -> M pst B') h Q Q' :
  sim f F h Q -> (forall a b h', Q a b h' -> sim (k a) (K b) h' Q') -> sim (f ≫= k) (F ≫= K) h Q'.
Proof.
  intros Hf Hk s. specialize (Hf s). unfold mbind, M_bind. destruct (f s) as [[a s']| |]; [|by rewrite Hf..].
  destruct Hf as (b & h' & -> & Hq). by apply Hk.
Qed.

Lemma sim_ret {A B} (a : A) (b : B) h (Q : A -> B -> heap -> Prop) : Q a b h -> sim (mret a) (mret b) h Q.
Proof. intros E s. by exists b, h. Qed.

(** A step of the scanner, the same in both. *)
Lemma sim_inS {A A' B'} (m : M shell A) (k : A -> M shell A') (K : A -> M pst B') h Q :
  (forall a, sim (k a) (K a) h Q) -> sim (m ≫= k) (inS m ≫= K) h Q.
Proof.
  intros Hk. apply (sim_bind _ _ _ _ h (fun a b h' => a = b /\ h' = h)); [|by intros a b h' [-> ->]].
  intros s. unfold inS, lift. simpl. destruct (m s) as [[a s']| |]; [|done..]. by exists a, h.
Qed.

(** A step on the heap alone. *)
Lemma sim_inH {A B B'} (m : M heap B) (f : M shell A) (K : B -> M pst B') h b h' Q :
  m h = Ok (b, h') -> sim f (K b) h' Q -> sim f (inH m ≫= K) h Q.
Proof.
  intros E Hk s. specialize (Hk s). assert ((inH m ≫= K) (s, h) = K b (s, h')) as ->; [|done].
  unfold inH, lift, mbind, M_bind. simpl. by rewrite E.
Qed.

(** What the parsers return: nothing, and the heap as before, or a command and its blocks. *)
Definition gives_cmd (h : heap) (c : option cmd) (p : Z) (h' : heap) : Prop :=
  match c with
  | None => p = 0 /\ h' = h
  | Some c => exists hc, h' = hc ∪ h /\ hc ##ₘ h /\ rep c p hc
  end.
Context (alloc_fresh : forall n h, alloc n h <> 0 /\ h !! alloc n h = None).

#[local] Abbreviation all := (fun _ : Z => true).

Lemma new_node_ok n nd h : new_node n nd h = Ok (alloc n h, <[alloc n h := nd]> h).
Proof. unfold new_node. cbv zeta. destruct (alloc_fresh n h) as [H _]. by rewrite (proj2 (Z.eqb_neq _ _)). Qed.

Lemma strs_snoc w a argv : forall ptrs hs, strs argv ptrs hs -> a <> 0 -> hs !! a = None ->
  strs (argv ++ [w]) (ptrs ++ [a]) (<[a := NStr w]> hs).
Proof.
  induction argv as [|x argv IH]; intros [|b ptrs] hs S Ha E; try done; simpl in *.
  - subst. split; [done|]. by exists ∅.
  - destruct S as (Hb & h' & -> & Hn & S). split; [done|]. apply lookup_insert_None in E as [E1 E2].
    exists (<[a := NStr w]> h'). split; [by rewrite insert_insert_ne|]. split; [by rewrite lookup_insert_ne|]. by apply IH.
Qed.

Lemma strs_length argv : forall ptrs hs, strs argv ptrs hs -> length ptrs = length argv.
Proof. induction argv as [|w argv IH]; intros [|a ptrs] hs S; try done. destruct S as (_ & h' & _ & _ & S). simpl. f_equal. eauto. Qed.

(** A string is copied to a fresh block. *)
Lemma sim_copy h : sim (copy_peek_string all) h_copy_peek_string h
  (fun o a h' => exists w, o = Some w /\ a <> 0 /\ h !! a = None /\ h' = <[a := NStr w]> h).
Proof.
  intros s. unfold copy_peek_string, h_copy_peek_string. unfold get at 1. unfold mbind at 1, M_bind at 1. cbn [fst snd].
  destruct (alloc_fresh (tlen (peek s) + 1) h) as [H1 H2].
  assert (forall (K : shell -> M pst Z), (inS get ≫= K) (s, h) = K s (s, h)) as -> by done.
  assert (forall (K : heap -> M pst Z), (inH get ≫= K) (s, h) = K h (s, h)) as -> by done.
  cbv zeta. rewrite (proj2 (Z.eqb_neq _ _)) by done. destruct (tlen (peek s) <? 0); [done|].
  eexists _, _. split; [done|]. eexists. done.
Qed.

(** The command that [parse_execcmd] fills. *)
Definition filling (argv : list (list Z)) (p : Z) (hc : heap) : Prop := p <> 0 /\
  exists ptrs hs, hc = <[p := NExec 0 (ptrs ++ replicate (20 - length ptrs) 0)]> hs /\ hs !! p = None /\ (length ptrs < 20)%nat /\ strs argv ptrs hs.

Lemma free_filling argv p hc h : filling argv p hc -> hc ##ₘ h -> cmd_free p (hc ∪ h) = Ok (tt, h).
Proof.
  intros (Hp & ptrs & hs & -> & E & _ & S) D. pose proof D as [D1 D2]%map_disjoint_insert_l. unfold cmd_free.
  erewrite cmd_free_step; [|done|by apply lookup_union_Some_l; rewrite lookup_insert_eq].
  rewrite insert_shift by done. erewrite bind_Ok; [by apply hfree_top|].
  apply (free_argv_ok _ argv); [done|]. by apply map_disjoint_insert_r.
Qed.

Lemma insert_next ptrs (a : Z) : (length ptrs < 20)%nat ->
  <[length ptrs := a]> (ptrs ++ replicate (20 - length ptrs) 0) = (ptrs ++ [a]) ++ replicate (20 - length (ptrs ++ [a])) 0.
Proof.
  intros E. replace (20 - length ptrs)%nat with (S (19 - length ptrs)) by lia. simpl replicate.
  rewrite insert_app_r_alt, Nat.sub_diag by lia. simpl. rewrite <- app_assoc. simpl. do 3 f_equal. rewrite length_app. simpl. lia.
Qed.

(** [cmd->argv[argc++] = copy]: one more argument. *)
Lemma set_argv_ok argv p hc h w a : filling argv p hc -> hc ##ₘ h -> a <> 0 -> (hc ∪ h) !! a = None ->
  exists hc', set_argv p (length argv) a (<[a := NStr w]> (hc ∪ h)) = Ok (tt, hc' ∪ h) /\ hc' ##ₘ h /\
    p <> 0 /\ exists ptrs hs, hc' = <[p := NExec 0 (ptrs ++ replicate (20 - length ptrs) 0)]> hs /\ hs !! p = None /\
      (length ptrs <= 20)%nat /\ length ptrs = S (length argv) /\ strs (argv ++ [w]) ptrs hs.
Proof.
  intros (Hp & ptrs & hs & -> & E & L & S) D Ha Hn. pose proof D as [D1 D2]%map_disjoint_insert_l.
  apply lookup_union_None in Hn as [N1 N2]. apply lookup_insert_None in N1 as [N1 Npa].
  pose proof (strs_length _ _ _ S) as Ls.
  exists (<[p := NExec 0 ((ptrs ++ [a]) ++ replicate (20 - length (ptrs ++ [a])) 0)]> (<[a := NStr w]> hs)). split; [|split].
  - unfold set_argv. rewrite lookup_insert_ne by done. rewrite (lookup_union_Some_l _ _ p (NExec 0 (ptrs ++ replicate (20 - length ptrs) 0))) by (by rewrite lookup_insert_eq).
    rewrite length_app, length_replicate. destruct (Nat.ltb_spec (length argv) (length ptrs + (20 - length ptrs))); [|lia].
    rewrite <- Ls, insert_next by done. do 2 f_equal. rewrite <- !insert_union_l. rewrite insert_insert_ne by done. by rewrite insert_insert_eq, insert_insert_ne.
  - apply map_disjoint_insert_l. split; [done|]. by apply map_disjoint_insert_l.
  - split; [done|]. eexists _, _. split; [done|]. split; [by rewrite lookup_insert_ne|]. rewrite length_app. simpl. split; [lia|]. split; [lia|]. by apply strs_snoc.
Qed.

Lemma sim_exec_loop h room : forall argv p hc, filling argv p hc -> hc ##ₘ h -> (length argv + room = 19)%nat ->
  sim (exec_loop all room argv) (h_exec_loop room p (length argv)) (hc ∪ h) (gives_cmd h).
Proof.
  induction room as [|room IH]; intros argv p hc F D Hl; cbn [exec_loop h_exec_loop].
  - apply sim_inS. intros []. eapply sim_inH; [by eapply free_filling|]. by apply sim_ret.
  - eapply sim_bind; [apply sim_copy|]. intros o a h' (w & -> & Ha & Hn & ->). cbv beta iota.
    destruct (set_argv_ok argv p hc h w a F D Ha Hn) as (hc' & Es & D' & Hp & ptrs & hs & -> & E & L & Ls & S).
    eapply sim_inH; [exact Es|]. rewrite (proj2 (Z.eqb_neq _ _)) by done. apply sim_inS. intros []. apply sim_inS. intros t.
    destruct (decide (t = TOKEN_STRING)).
    + replace (Datatypes.S (length argv)) with (length (argv ++ [w])) by (rewrite length_app; simpl; lia).
      apply IH; [|done|rewrite length_app; simpl; lia]. split; [done|]. exists ptrs, hs. repeat split; try done. lia.
    + eapply sim_inH.
      { unfold set_argc. erewrite lookup_union_Some_l by (by rewrite lookup_insert_eq). rewrite <- insert_union_l, insert_insert_eq, insert_union_l. done. }
      apply sim_ret. eexists. split; [done|]. split; [apply map_disjoint_insert_l in D'; by apply map_disjoint_insert_l|].
      split; [done|]. exists ptrs, hs. split; [do 3 f_equal; rewrite length_app; simpl; lia|]. done.
Qed.

Lemma sim_parse_execcmd h : sim (parse_execcmd all) h_parse_execcmd h (gives_cmd h).
Proof.
  unfold parse_execcmd, h_parse_execcmd. intros s. change ((new_cmd all 88 tt;; exec_loop all (Z.to_nat (MAX_ARGV - 1)) []) s) with (exec_loop all (Z.to_nat (MAX_ARGV - 1)) [] s).
  revert s. destruct (alloc_fresh 88 h) as [H1 H2]. eapply sim_inH; [apply new_node_ok|].
  assert (forall p (n : node), <[p := n]> h = <[p := n]> ∅ ∪ h) as -> by (intros p n; by rewrite <- insert_union_l, map_empty_union).
  apply (sim_exec_loop h 19 [] (alloc 88 h)); [|apply map_disjoint_insert_l; split; [done|apply map_disjoint_empty_l]|done].
  split; [done|]. exists [], ∅. repeat split; try done. simpl. lia.
Qed.
Lemma gives_insert c p n hc h : hc ##ₘ h -> (hc ∪ h) !! p = None -> rep c p (<[p := n]> hc) ->
  gives_cmd h (Some c) p (<[p := n]> (hc ∪ h)).
Proof.
  intros D [E1 E2]%lookup_union_None R. exists (<[p := n]> hc). split; [apply insert_union_l|]. split; [by apply map_disjoint_insert_l|done].
Qed.

(** A node over one command. *)
Lemma sim_new_one size c' c pc n hc h : rep c pc hc -> hc ##ₘ h ->
  (forall p hc, p <> 0 -> hc !! p = None -> rep c pc hc -> rep c' p (<[p := n]> hc)) ->
  exists p, new_node size n (hc ∪ h) = Ok (p, <[p := n]> (hc ∪ h)) /\ gives_cmd h (Some c') p (<[p := n]> (hc ∪ h)).
Proof.
  intros R D Hr. destruct (alloc_fresh size (hc ∪ h)) as [H1 H2]. eexists. split; [apply new_node_ok|].
  apply gives_insert; [done|done|]. apply Hr; [done| |done]. by apply lookup_union_None in H2 as [? ?].
Qed.

(** A node over two commands, the second of which was parsed behind the first. *)
Lemma sim_new_two size c' l r pl pr n hl hr h : rep l pl hl -> hl ##ₘ h -> rep r pr hr -> hr ##ₘ (hl ∪ h) ->
  (forall p, p <> 0 -> hl ##ₘ hr -> (hl ∪ hr) !! p = None -> rep c' p (<[p := n]> (hl ∪ hr))) ->
  exists p, new_node size n (hr ∪ (hl ∪ h)) = Ok (p, <[p := n]> (hr ∪ (hl ∪ h))) /\ gives_cmd h (Some c') p (<[p := n]> (hr ∪ (hl ∪ h))).
Proof.
  intros R1 D1 R2 [D2 D3]%map_disjoint_union_r Hr. destruct (alloc_fresh size (hr ∪ (hl ∪ h))) as [H1 H2].
  eexists. split; [apply new_node_ok|]. revert H1 H2. rewrite map_union_assoc, (map_union_comm hr hl) by done. intros H1 H2.
  apply gives_insert; [by apply map_disjoint_union_l|done|]. apply Hr; [done|by symmetry|]. by apply lookup_union_None in H2 as [? ?].
Qed.

Lemma sim_inH_last {A B} (m : M heap B) (a : A) h b h' (Q : A -> B -> heap -> Prop) : m h = Ok (b, h') -> Q a b h' -> sim (mret a) (inH m) h Q.
Proof. intros E HQ s. exists b, h'. split; [|done]. unfold inH, lift. simpl. by rewrite E. Qed.

Lemma sim_redircmd c pc hc h t : rep c pc hc -> hc ##ₘ h ->
  sim (parse_redircmd all c t) (h_parse_redircmd pc t) (hc ∪ h) (gives_cmd h).
Proof.
  intros R D. unfold parse_redircmd, h_parse_redircmd. apply sim_inS. intros t'. destruct (decide (t' = TOKEN_STRING)).
  - destruct (redir_target t) as [[fd mode]|]; [|done]. eapply sim_bind; [apply sim_copy|].
    intros o a h' (w & -> & Ha & Hn & ->). cbv beta iota.
    eapply sim_inH; [unfold string_of; by rewrite lookup_insert_eq|].
    destruct (alloc_fresh (16 + Z.of_nat (length w) + 1) (<[a := NStr w]> (hc ∪ h))) as [H1 H2].
    eapply sim_inH; [apply new_node_ok|]. set (p := alloc _ _) in *. apply lookup_insert_None in H2 as [H2 Hap].
    eapply sim_inH; [rewrite insert_insert_ne by done; apply hfree_top; by rewrite lookup_insert_ne|].
    intros s. change ((new_cmd all (16 + Z.of_nat (length w) + 1) (CMD_REDIR c fd mode w) ≫= fun c => advance;; mret (Some c)) s)
      with ((advance;; mret (Some (CMD_REDIR c fd mode w))) s). revert s.
    apply sim_inS. intros []. apply sim_ret. apply gives_insert; [done|done|]. split; [done|]. exists pc, hc.
    apply lookup_union_None in H2 as [? ?]. done.
  - apply sim_inS. intros []. eapply sim_inH; [by eapply cmd_free_owned|]. by apply sim_ret.
Qed.

Lemma gives_zero h o p h' : gives_cmd h o p h' -> (p =? 0) = match o with None => true | Some _ => false end.
Proof.
  destruct o as [c|]; [|by intros [-> _]]. intros (hc & _ & _ & R). apply Z.eqb_neq. destruct c; by destruct R.
Qed.

Lemma sim_redir_loop fuel h : forall c pc hc, rep c pc hc -> hc ##ₘ h ->
  sim (redir_loop all fuel c) (h_redir_loop fuel pc) (hc ∪ h) (gives_cmd h).
Proof.
  induction fuel as [|fuel IH]; intros c pc hc R D; [done|]. cbn [redir_loop h_redir_loop]. apply sim_inS. intros t.
  assert (sim (advance;; r ← parse_redircmd all c t; match r with None => mret None | Some c => redir_loop all fuel c end)
    (inS advance;; cmd ← h_parse_redircmd pc t; if cmd =? 0 then mret 0 else h_redir_loop fuel cmd) (hc ∪ h) (gives_cmd h)) as Hr.
  { apply sim_inS. intros []. eapply sim_bind; [by apply sim_redircmd|]. intros o p h' G. rewrite (gives_zero _ _ _ _ G).
    destruct o as [c'|]; [|destruct G as [_ ->]; by apply sim_ret]. destruct G as (hc' & -> & D' & R'). by apply IH. }
  destruct t; try exact Hr; apply sim_ret; by exists hc.
Qed.

(** The parsers with so much fuel. *)
Definition parsers_agree (fuel : nat) : Prop := forall h,
  sim (parse_cmd all fuel) (h_parse_cmd fuel) h (gives_cmd h) /\
  sim (parse_list all fuel) (h_parse_list fuel) h (gives_cmd h) /\
  sim (parse_binary all fuel) (h_parse_binary fuel) h (gives_cmd h) /\
  sim (parse_redir all fuel) (h_parse_redir fuel) h (gives_cmd h) /\
  sim (parse_primary all fuel) (h_parse_primary fuel) h (gives_cmd h).

Lemma sim_list fuel h : parsers_agree fuel -> sim (parse_list all (S fuel)) (h_parse_list (S fuel)) h (gives_cmd h).
Proof.
  intros IH. cbn [parse_list h_parse_list]. eapply sim_bind; [apply IH|]. intros o p h' G. rewrite (gives_zero _ _ _ _ G).
  destruct o as [lc|]; [|destruct G as [_ ->]; by apply sim_ret]. destruct G as (hl & -> & D & R). apply sim_inS. intros t.
  destruct (decide (t <> TOKEN_SEMI /\ t <> TOKEN_BACK)); [by apply sim_ret; exists hl|].
  eapply (sim_bind _ _ _ _ _ (fun c => gives_cmd h (Some c))).
  { destruct (decide (t = TOKEN_BACK)); [|by apply sim_ret; exists hl].
    destruct (sim_new_one 8 (CMD_BACK lc) lc p (NBack p) hl h R D) as (q & E & G); [|by eapply (sim_inH_last _ (CMD_BACK lc))].
    intros q hc Hq Hn Rc. split; [done|]. by exists p, hc. }
  clear hl D R. intros lc' pl h' (hl & -> & D & R). apply sim_inS. intros []. eapply sim_bind; [apply IH|].
  intros o2 pr h' G. rewrite (gives_zero _ _ _ _ G). destruct o2 as [rc|]; [|destruct G as [_ ->]; apply sim_ret; by exists hl].
  destruct G as (hr & -> & D2 & R2).
  destruct (sim_new_two 12 (CMD_LIST lc' rc) lc' rc pl pr (NList pl pr) hl hr h R D R2 D2) as (q & E & G).
  { intros q Hq Hd Hn. split; [done|]. by exists pl, pr, hl, hr. }
  by eapply (sim_inH_last _ (Some (CMD_LIST lc' rc))).
Qed.

Lemma sim_binary fuel h : parsers_agree fuel -> sim (parse_binary all (S fuel)) (h_parse_binary (S fuel)) h (gives_cmd h).
Proof.
  intros IH. cbn [parse_binary h_parse_binary]. eapply sim_bind; [apply IH|]. intros o pl h' G. rewrite (gives_zero _ _ _ _ G).
  destruct o as [lc|]; [|destruct G as [_ ->]; by apply sim_ret]. destruct G as (hl & -> & D & R). apply sim_inS. intros t.
  destruct (decide (t = TOKEN_PIPE \/ t = TOKEN_AND \/ t = TOKEN_OR)); [|by apply sim_ret; exists hl].
  apply sim_inS. intros []. eapply sim_bind; [apply IH|]. intros o2 pr h' G. rewrite (gives_zero _ _ _ _ G). destruct o2 as [rc|].
  - destruct G as (hr & -> & D2 & R2). destruct (decide (t = TOKEN_PIPE)).
    + destruct (sim_new_two 12 (CMD_PIPE lc rc) lc rc pl pr (NPipe pl pr) hl hr h R D R2 D2) as (q & E & G);
        [|by eapply (sim_inH_last _ (Some (CMD_PIPE lc rc)))]. intros q Hq Hd Hn. split; [done|]. by exists pl, pr, hl, hr.
    + destruct (sim_new_two 16 (CMD_BINARY lc rc t) lc rc pl pr (NBinary pl pr t) hl hr h R D R2 D2) as (q & E & G);
        [|by eapply (sim_inH_last _ (Some (CMD_BINARY lc rc t)))]. intros q Hq Hd Hn. split; [done|]. by exists pl, pr, hl, hr.
  - destruct G as [_ ->]. eapply sim_inH; [by eapply cmd_free_owned|]. by apply sim_ret.
Qed.

Lemma sim_primary fuel h : parsers_agree fuel -> sim (parse_primary all (S fuel)) (h_parse_primary (S fuel)) h (gives_cmd h).
Proof.
  intros IH. cbn [parse_primary h_parse_primary]. apply sim_inS. intros t.
  destruct t; try (apply sim_inS; intros []; by apply sim_ret); [|apply sim_parse_execcmd].
  apply sim_inS. intros []. eapply sim_bind; [apply IH|]. intros o p h' G. apply sim_inS. intros [|]; [by apply sim_ret|].
  destruct o as [c|].
  - destruct G as (hc & -> & D & R). eapply sim_inH; [by eapply cmd_free_owned|]. apply sim_inS. intros []. by apply sim_ret.
  - destruct G as [-> ->]. eapply sim_inH; [done|]. apply sim_inS. intros []. by apply sim_ret.
Qed.

Lemma sim_parsers fuel : parsers_agree fuel.
Proof.
  induction fuel as [|fuel IH]; intros h; [done|]. split; [|split; [by apply sim_list|split; [by apply sim_binary|split; [|by apply sim_primary]]]].
  - cbn [parse_cmd h_parse_cmd]. apply sim_inS. intros t. destruct (decide _); [apply IH|by apply sim_ret].
  - cbn [parse_redir h_parse_redir]. eapply sim_bind; [apply IH|]. intros o p h' G. rewrite (gives_zero _ _ _ _ G).
    destruct o as [c|]; [|destruct G as [_ ->]; by apply sim_ret]. destruct G as (hc & -> & D & R). apply sim_inS. intros sh. by apply sim_redir_loop.
Qed.
Lemma sim_sh_parse buf h : sim (sh_parse all buf) (h_sh_parse buf) h (gives_cmd h).
Proof.
  unfold sh_parse, h_sh_parse. apply sim_inS. intros []. apply sim_inS. intros []. eapply sim_bind; [apply sim_parsers|].
  intros o p h' G. rewrite (gives_zero _ _ _ _ G). destruct o as [c|]; [|destruct G as [_ ->]; by apply sim_ret].
  destruct G as (hc & -> & D & R). apply sim_inS. intros t. destruct (decide (t = TOKEN_EOF)); [by apply sim_ret; exists hc|].
  apply sim_inS. intros []. eapply sim_inH; [by eapply cmd_free_owned|]. by apply sim_ret.
Qed.

(** C35: The parser and its memory.  With an allocator that finds room, the parser that builds commands
    from blocks of the heap returns what the parser on values returns, and with the same errors.  On an
    error every block it allocated is free again, the copied strings too; a command that it
    returns is in blocks of its own, and [cmd_free] frees exactly these, each once: the heap
    is the one from before the call. *)
Theorem sh_parse_memory buf s h :
  match sh_parse all buf s with
  | Ok (None, s') => h_sh_parse buf (s, h) = Ok (0, (s', h))
  | Ok (Some c, s') => exists p hc, h_sh_parse buf (s, h) = Ok (p, (s', hc ∪ h)) /\ hc ##ₘ h /\ rep c p hc /\
      cmd_free p (hc ∪ h) = Ok (tt, h)
  | Panic => h_sh_parse buf (s, h) = Panic
  | Hang => h_sh_parse buf (s, h) = Hang
  end.
Proof.
  pose proof (sim_sh_parse buf h s) as S. destruct (sh_parse all buf s) as [[[c|] s']| |]; [| |done..].
  - destruct S as (p & h' & E & hc & -> & D & R). exists p, hc. split; [done|]. split; [done|]. split; [done|]. by eapply cmd_free_owned.
  - destruct S as (p & h' & E & -> & ->). done.
Qed.
End alloc.

(** An allocator that always finds room. *)
Definition next_block (size : Z) (h : heap) : Z := 1 + fold_right Z.max 0 (map fst (map_to_list h)).

Lemma next_block_fresh n h : next_block n h <> 0 /\ h !! next_block n h = None.
Proof.
  unfold next_block. set (l := map fst (map_to_list h)).
  assert (forall l, 0 <= fold_right Z.max 0 l) as H0 by (clear l; intros l; induction l; simpl; lia).
  assert (forall x, x ∈ l -> x <= fold_right Z.max 0 l) as Hm by (clearbody l; induction 1; simpl; lia).
  split; [specialize (H0 l); lia|]. destruct (h !! (1 + foldr Z.max 0 l)) as [n'|] eqn:E; [|done].
  assert (1 + foldr Z.max 0 l ∈ l) as Hin; [|apply Hm in Hin; lia].
  apply list_elem_of_In. unfold l at 2. apply in_map_iff. eexists (_, _). split; [|by apply list_elem_of_In, elem_of_map_to_list]. done.
Qed.

(** [a b > f &]: four strings are copied, one of them is free again. *)
Definition demo_line : list Z := [97; 32; 98; 62; 102; 38].

Definition demo_shell : shell := MkShell [] (Token TOKEN_EOF [] 0) [].

Lemma sh_parse_memory_witness : exists p hc s',
  h_sh_parse next_block demo_line (demo_shell, ∅) = Ok (p, (s', hc ∪ ∅)) /\ hc ##ₘ ∅ /\
  rep (CMD_BACK (CMD_REDIR (CMD_EXEC [[97]; [98]]) 1 65 [102])) p hc /\ cmd_free p (hc ∪ ∅) = Ok (tt, ∅).
Proof.
  pose proof (sh_parse_memory next_block next_block_fresh demo_line demo_shell ∅) as H.
  destruct (sh_parse (fun _ : Z => true) demo_line demo_shell) as [[[c|] s']| |] eqn:E; try (exfalso; revert E; vm_compute; discriminate).
  destruct H as (p & hc & H). exists p, hc, s'.
  assert (c = CMD_BACK (CMD_REDIR (CMD_EXEC [[97]; [98]]) 1 65 [102])) as ->; [|exact H].
  revert E. vm_compute. congruence.
Defined.
End ShHeap.
