(* ===== verification/Debug.v ===== *)
(** The debug output of the kernel: src/kernel/debug.c, and the printer of a superblock in
    src/fs/superblock.c on top of the buffer cache.

    [screen] is what was given to [put_char].  The array of [printk] has 256 bytes; a longer
    text is stored behind its end, which is a [Panic] of the model. *)

From stdpp Require Import base numbers list gmap strings.
From Stdlib Require Import ZArith Lia.
From S2P Require Import Prelude CString Semaphore BlockIO Log BAlloc Inode Stdio.
#[local] Open Scope Z_scope.

Module Debug.
Import CString BlockIO Log BAlloc Inode.

Abbreviation txt := Stdio.txt.

Record dst := Dst { dev : bstore; screen : list Z }.

#[global] Instance Part_dev : Part dst bstore := {| part := dev; set_part := fun b s => Dst b (screen s) |}.

(** [put_str]: up to the NUL. *)
Fixpoint put_str (str : list Z) : M dst unit :=
  match str with
  | [] => mret tt
  | c :: str => if c =? 0 then mret tt else modify (fun s => Dst (dev s) (screen s ++ [c]));; put_str str
  end.

Definition printk (format : list Z) (args : list arg) : M dst unit :=
  let s := vsprintf format args in
  if 256 <=? Z.of_nat (length s) then Prelude.panic else put_str s.

(** [panic]: the message is formatted into an array of 1024 bytes, then printed with [printk];
    the machine stops in [while (1)]. *)
Definition panic (filename : list Z) (line : Z) (func msg : list Z) (args : list arg) : M dst unit :=
  let buf := vsprintf msg args in
  if 1024 <=? Z.of_nat (length buf) then Prelude.panic
  else
    printk (txt "%s" ++ [10]) [AStr (txt "An Error Occurred: ")];;
    printk (txt "    Filename: %s" ++ [10]) [AStr filename];;
    printk (txt "    Line:     %d" ++ [10]) [AInt line];;
    printk (txt "    Func:     %s" ++ [10]) [AStr func];;
    printk (txt "    Message:  %s" ++ [10]) [AStr buf];;
    hang.

(** ** superblock.c *)

Section printer.
Context (sb : superblock).

Definition inode_line (inum : Z) (dip : dinode) : M dst unit :=
  printk (txt "(inum: %d, type: %d, size: %d, major: %d), ")
    [AInt (i32 inum); AInt (i32 (type dip)); AInt (i32 (dsize dip)); AInt (major dip)].

(** [for (inum = 1; inum < sb->ninodes; inum++)], with [n] more to look at. *)
Fixpoint inode_usage_loop (n : nat) (inum : Z) : M dst unit :=
  match n with
  | O => mret tt
  | S n =>
      data ← lift (buf_read (GET_INODE_BLOCK_NO inum sb));
      let dip := get_dinode data (slot_of inum) in
      (if negb (type dip =? INODE_NONE) then inode_line inum dip else mret tt);;
      lift (buf_release (GET_INODE_BLOCK_NO inum sb));;
      inode_usage_loop n (inum + 1)
  end.

Definition print_inode_usage : M dst unit :=
  printk ([10] ++ txt "Inodes in use: " ++ [10]) [];;
  inode_usage_loop (Z.to_nat (sb_ninodes sb - 1)) 1;;
  printk [10; 10] [].

(** [for (uint bit = 0; bit < bits; bit++, bit_nt++)]. *)
Fixpoint print_bits (n bit : nat) (bit_nt : Z) (data : block) : M dst unit :=
  match n with
  | O => mret tt
  | S n =>
      (if bit_set data bit then printk (txt "%d, ") [AInt (i32 bit_nt)] else mret tt);;
      print_bits n (S bit) (u32 (bit_nt + 1)) data
  end.

(** [while (bmap_bits > 0)]. *)
Fixpoint print_bitmap_loop (fuel : nat) (bmap_bits bmap_block_no bit_nt : Z) : M dst unit :=
  match fuel with
  | O => hang
  | S fuel =>
      if 0 <? bmap_bits then
        let bits := if bmap_bits <? BITS_PER_BLOCK then bmap_bits else BITS_PER_BLOCK in
        data ← lift (buf_read bmap_block_no);
        print_bits (Z.to_nat bits) 0 bit_nt data;;
        lift (buf_release bmap_block_no);;
        print_bitmap_loop fuel (bmap_bits - bits) (u32 (bmap_block_no + 1)) (u32 (bit_nt + bits))
      else mret tt
  end.

Definition print_data_bitmap : M dst unit :=
  printk ([10] ++ txt "Data blocks in use: " ++ [10]) [];;
  print_bitmap_loop (bmap_fuel sb) (bmap_bits sb) (sb_bmap_start sb) 0;;
  printk [10; 10] [].

Definition ROUND_UP (x step : Z) : Z := u32 (u32 (x + step) - 1) / step.

(** The numbers are printed as [int]. *)
Definition num (x : Z) : arg := AInt (i32 (u32 x)).

Definition print_superblock (name : list Z) (details : bool) : M dst unit :=
  printk (txt "Superblock in the disk %s:" ++ [10]) [AStr name];;
  printk (txt "    Inodes:                %d" ++ [10]) [num (sb_ninodes sb)];;
  printk (txt "    Inode Block Range:     [%d, %d]" ++ [10])
    [num (sb_inode_start sb); num (sb_inode_start sb + ROUND_UP (sb_ninodes sb) INODES_PER_BLOCK)];;
  printk (txt "    Log Blocks:            %d" ++ [10]) [num (sb_nlog sb)];;
  printk (txt "    Log Block Range:       [%d, %d]" ++ [10]) [num (sb_log_start sb); num (sb_log_start sb + sb_nlog sb)];;
  printk (txt "    Data BMap Bytes:       %d (Bytes)" ++ [10]) [num (sb_bmap_bytes sb)];;
  printk (txt "    Data BMap Range:       [%d, %d]" ++ [10])
    [num (sb_bmap_start sb); num (sb_bmap_start sb + ROUND_UP (sb_bmap_bytes sb) 512)];;
  printk (txt "    Data Blocks:           %d" ++ [10]) [num (sb_nblocks sb)];;
  printk (txt "    Data Block Start:      %d (Block Number)" ++ [10]) [num (sb_bdata_start sb)];;
  if details then print_inode_usage;; print_data_bitmap else mret tt.

(** ** What is printed *)

(** Text is put on the screen, and the blocks read the same and are held as before. *)
Definition prints (m : M dst unit) (s : dst) (x : list Z) : Prop :=
  exists d', m s = Ok (tt, Dst d' (screen s ++ x)) /\ held d' = held (dev s) /\ dirty d' = dirty (dev s) /\
    (forall b, view d' b = view (dev s) b) /\ disk d' = disk (dev s) /\ writes d' = writes (dev s).

Lemma put_str_ok x : forall s, 0 ∉ x -> put_str x s = Ok (tt, Dst (dev s) (screen s ++ x)).
Proof.
  induction x as [|c x IH]; intros s Hx; [by destruct s; unfold put_str, mret, M_ret; simpl; rewrite app_nil_r|].
  apply not_elem_of_cons in Hx as [Hc Hx]. cbn [put_str]. rewrite (proj2 (Z.eqb_neq _ _)) by done.
  erewrite bind_Ok by done. rewrite IH by done. simpl. by rewrite <- app_assoc.
Qed.

Lemma prints_ret s : prints (mret tt) s [].
Proof. exists (dev s). rewrite app_nil_r. by destruct s. Qed.

Lemma prints_bind m (k : unit -> M dst unit) s x y :
  prints m s x -> (forall d', held d' = held (dev s) -> dirty d' = dirty (dev s) -> (forall b, view d' b = view (dev s) b) ->
    prints (k tt) (Dst d' (screen s ++ x)) y) -> prints (m ≫= k) s (x ++ y).
Proof.
  intros (d1 & E1 & H1 & Y1 & V1 & D1 & W1) Hk. destruct (Hk d1 H1 Y1 V1) as (d2 & E2 & H2 & Y2 & V2 & D2 & W2). simpl in *.
  exists d2. rewrite (bind_Ok _ _ _ _ _ E1), E2, app_assoc. split; [done|].
  split; [congruence|]. split; [congruence|]. split; [intros b; by rewrite V2|]. split; congruence.
Qed.

Lemma printk_prints s format args x : vsprintf format args = x -> 0 ∉ x -> Z.of_nat (length x) < 256 -> prints (printk format args) s x.
Proof.
  intros <- H1 H2. exists (dev s). split; [|done]. unfold printk. rewrite (proj2 (Z.leb_gt _ _)) by done. by apply put_str_ok.
Qed.

(** [buf_read] and what is printed before [buf_release]. *)
Lemma prints_read b (f : block -> M dst unit) s x : held (dev s) = ∅ -> room (dev s) 1 ->
  (forall d', (forall c, view d' c = view (dev s) c) -> held d' = {[b]} -> dirty d' = dirty (dev s) ->
    prints (f (view (dev s) b)) (Dst d' (screen s)) x) ->
  prints (data ← lift (buf_read b); f data;; lift (buf_release b)) s x.
Proof.
  intros Hh Hr Hf. destruct (buf_read_Ok (dev s) b) as (d1 & E1 & V1 & D1 & Y1 & H1 & W1); [rewrite Hh; apply not_elem_of_empty|done|].
  rewrite Hh, union_empty_r_L in H1. destruct (Hf d1 V1 H1 Y1) as (d2 & E2 & H2 & Y2 & V2 & D2 & W2). simpl in *.
  eexists (BStore (disk d2) (cache d2) (dirty d2) (held d2 ∖ {[b]}) (writes d2)). split.
  - rewrite (bind_Ok _ _ _ (view (dev s) b) (Dst d1 (screen s))) by (unfold lift; simpl; by rewrite E1).
    rewrite (bind_Ok _ _ _ _ _ E2). done.
  - simpl. rewrite H2, H1, Hh. split; [set_solver|]. split; [congruence|]. split; [intros c; rewrite <- V1; apply V2|]. split; congruence.
Qed.

(** A turn of a loop over blocks, and the rest of the loop. *)
Lemma prints_turn b (f : block -> M dst unit) (k : M dst unit) s x y : held (dev s) = ∅ -> room (dev s) 1 ->
  (forall d', (forall c, view d' c = view (dev s) c) -> prints (f (view (dev s) b)) (Dst d' (screen s)) x) ->
  (forall d', held d' = ∅ -> room d' 1 -> (forall c, view d' c = view (dev s) c) -> prints k (Dst d' (screen s ++ x)) y) ->
  prints (data ← lift (buf_read b); f data;; lift (buf_release b);; k) s (x ++ y).
Proof.
  intros Hh Hr Hf Hk. pose proof (prints_read b f s x Hh Hr ltac:(auto)) as P.
  assert (prints ((data ← lift (buf_read b); f data;; lift (buf_release b));; k) s (x ++ y)) as Q.
  { apply prints_bind; [done|]. intros d' H1 Y1 V1. apply Hk; [congruence| |done]. unfold room, pinned. by rewrite H1, Y1. }
  destruct Q as (d & E & Q). exists d. split; [|done]. rewrite <- E. unfold mbind, M_bind.
  destruct (lift (buf_read b) s) as [[data s1]| |]; [|done..]. destruct (f data s1) as [[[] s2]| |]; [|done..].
  by destruct (lift (buf_release b) s2) as [[[] s3]| |].
Qed.

(** The line of an inode that is in use. *)
Definition inode_text (v : Z -> block) (inum : Z) : list Z :=
  let dip := get_dinode (v (GET_INODE_BLOCK_NO inum sb)) (slot_of inum) in
  if type dip =? INODE_NONE then []
  else txt "(inum: " ++ itoa (i32 inum) 10 ++ txt ", type: " ++ itoa (i32 (type dip)) 10 ++ txt ", size: " ++
       itoa (i32 (dsize dip)) 10 ++ txt ", major: " ++ itoa (major dip) 10 ++ txt "), ".

Ltac no_nul := rewrite ?not_elem_of_app; repeat split;
  lazymatch goal with |- _ ∉ itoa _ _ => apply itoa_no_nul; lia | _ => by apply (bool_decide_eq_true_1 _) end.

Lemma inode_line_prints s v inum : let dip := get_dinode (v (GET_INODE_BLOCK_NO inum sb)) (slot_of inum) in
  type dip <> INODE_NONE -> prints (inode_line inum dip) s (inode_text v inum).
Proof.
  intros dip Ht. unfold inode_text. fold dip. rewrite (proj2 (Z.eqb_neq _ _)) by done. apply printk_prints; [done|no_nul|].
  pose proof (itoa_length (i32 inum) 10). pose proof (itoa_length (i32 (type dip)) 10).
  pose proof (itoa_length (i32 (dsize dip)) 10). pose proof (itoa_length (major dip) 10).
  generalize dependent (itoa (i32 inum) 10). generalize dependent (itoa (i32 (type dip)) 10).
  generalize dependent (itoa (i32 (dsize dip)) 10). generalize dependent (itoa (major dip) 10).
  intros l1 H1 l2 H2 l3 H3 l4 H4. rewrite !length_app. simpl. lia.
Qed.

Lemma inode_usage_prints v n : forall inum s, held (dev s) = ∅ -> room (dev s) 1 -> (forall b, view (dev s) b = v b) ->
  prints (inode_usage_loop n inum) s (concat (map (inode_text v) (seqZ inum (Z.of_nat n)))).
Proof.
  induction n as [|n IH]; intros inum s Hh Hr Hv; [apply prints_ret|].
  rewrite seqZ_cons by lia. replace (Z.pred (Z.of_nat (S n))) with (Z.of_nat n) by lia.
  replace (Z.succ inum) with (inum + 1) by lia. cbn [map concat inode_usage_loop].
  apply (prints_turn (GET_INODE_BLOCK_NO inum sb) (fun data =>
    if negb (type (get_dinode data (slot_of inum)) =? INODE_NONE) then inode_line inum (get_dinode data (slot_of inum)) else mret tt)); [done|done| |].
  - intros d' V. rewrite Hv. destruct (type _ =? INODE_NONE) eqn:E; bprop; simpl negb; cbv iota.
    + unfold inode_text. rewrite (proj2 (Z.eqb_eq _ _) E). apply prints_ret.
    + by apply (inode_line_prints _ v).
  - intros d' H1 R1 V1. apply IH; [done|done|]. intros c. simpl. by rewrite V1.
Qed.

(** The number of a data block that is in use. *)
Definition block_text (v : Z -> block) (i : Z) : list Z := if used sb v i then itoa (i32 i) 10 ++ txt ", " else [].

Lemma print_bits_prints data v lo n : forall bit s,
  (forall j, (bit <= j < bit + n)%nat -> bit_set data j = used sb v (lo + Z.of_nat j)) -> 0 <= lo -> lo + Z.of_nat (bit + n) < 2 ^ 32 ->
  prints (print_bits n bit (lo + Z.of_nat bit) data) s (concat (map (block_text v) (seqZ (lo + Z.of_nat bit) (Z.of_nat n)))).
Proof.
  induction n as [|n IH]; intros bit s Hd Hlo Hb; [apply prints_ret|].
  rewrite seqZ_cons by lia. replace (Z.pred (Z.of_nat (S n))) with (Z.of_nat n) by lia.
  cbn [map concat print_bits]. apply prints_bind.
  - unfold block_text. rewrite <- Hd by lia. destruct (bit_set data bit); [|apply prints_ret].
    apply printk_prints; [done|no_nul|]. pose proof (itoa_length (i32 (lo + Z.of_nat bit)) 10). rewrite length_app. simpl length. lia.
  - intros d' _ _ _. rewrite u32_small by ulia. replace (Z.succ (lo + Z.of_nat bit)) with (lo + Z.of_nat (S bit)) by lia.
    replace (lo + Z.of_nat bit + 1) with (lo + Z.of_nat (S bit)) by lia. apply IH; [intros j Hj; apply Hd; lia|done|lia].
Qed.

Context (Hla : layout sb).

Lemma print_bitmap_prints v fuel : forall k s, held (dev s) = ∅ -> room (dev s) 1 -> (forall b, view (dev s) b = v b) -> 0 <= k ->
  let r := bmap_bits sb - k * BITS_PER_BLOCK in
  0 < r <= Z.of_nat fuel * BITS_PER_BLOCK ->
  prints (print_bitmap_loop (S fuel) r (sb_bmap_start sb + k) (k * BITS_PER_BLOCK)) s
    (concat (map (block_text v) (seqZ (k * BITS_PER_BLOCK) r))).
Proof.
  induction fuel as [|fuel IH]; intros k s Hh Hr Hv Hk r Hf; [lia|]. remember (S fuel) as f. cbn [print_bitmap_loop]. subst f.
  rewrite (proj2 (Z.ltb_lt _ _)) by lia.
  assert (0 <= bmap_bits sb < 2 ^ 32) as Hbb by (unfold bmap_bits; ulia).
  set (bits := if r <? BITS_PER_BLOCK then r else BITS_PER_BLOCK).
  assert (0 < bits <= BITS_PER_BLOCK /\ bits <= r /\ (bits = r \/ bits = BITS_PER_BLOCK /\ BITS_PER_BLOCK < r)) as (Hb1 & Hb2 & Hb3).
  { unfold bits, BITS_PER_BLOCK. destruct (r <? 4096) eqn:E; bprop; [lia|]. unfold BITS_PER_BLOCK in *. lia. }
  replace (seqZ (k * BITS_PER_BLOCK) r) with (seqZ (k * BITS_PER_BLOCK) bits ++ seqZ (k * BITS_PER_BLOCK + bits) (r - bits)).
  2: { rewrite <- seqZ_app by lia. f_equal. lia. }
  rewrite map_app, concat_app. apply (prints_turn (sb_bmap_start sb + k) (fun data => print_bits (Z.to_nat bits) 0 (k * BITS_PER_BLOCK) data)); [done|done| |].
  - intros d' V. pose proof (print_bits_prints (view (dev s) (sb_bmap_start sb + k)) v (k * BITS_PER_BLOCK) (Z.to_nat bits) 0 (Dst d' (screen s))) as P.
    rewrite Z.add_0_r, Z2Nat.id in P by lia. apply P; [|unfold BITS_PER_BLOCK; lia|].
    + intros j Hj. destruct (bit_of sb k (Z.of_nat j)) as [E1 E2]; [lia|]. unfold used. rewrite E1, E2, Hv, Nat2Z.id. done.
    + simpl. rewrite Z2Nat.id by lia. lia.
  - intros d' H1 R1 V1. rewrite (next_block sb Hla) by lia. destruct Hb3 as [->|[-> Hlt]].
    + rewrite Z.sub_diag. cbn [print_bitmap_loop]. simpl. apply prints_ret.
    + rewrite u32_small by (unfold is_u32, BITS_PER_BLOCK in *; lia).
      replace (r - BITS_PER_BLOCK) with (bmap_bits sb - (k + 1) * BITS_PER_BLOCK) by (unfold r; lia).
      replace (k * BITS_PER_BLOCK + BITS_PER_BLOCK) with ((k + 1) * BITS_PER_BLOCK) by lia.
      apply IH; [done|done|intros b; simpl; by rewrite V1|lia|unfold r in *; lia].
Qed.

(** The printer of the superblock shows what is on the drive: [print_inode_usage] a line for every
    inode in use, from 1 on, with its type, size and major number, and [print_data_bitmap] the
    numbers of the data blocks in use, in order.  Both return, release the buffers they lock,
    and change no block. *)
Theorem print_usage_correct s : held (dev s) = ∅ -> room (dev s) 1 ->
  prints print_inode_usage s (([10] ++ txt "Inodes in use: " ++ [10]) ++
    concat (map (inode_text (view (dev s))) (seqZ 1 (sb_ninodes sb - 1))) ++ [10; 10]) /\
  prints print_data_bitmap s (([10] ++ txt "Data blocks in use: " ++ [10]) ++
    concat (map (block_text (view (dev s))) (seqZ 0 (bmap_bits sb))) ++ [10; 10]).
Proof.
  intros Hh Hr. split.
  - unfold print_inode_usage. apply prints_bind; [apply printk_prints; [done|by apply (bool_decide_eq_true_1 _)|done]|].
    intros d1 H1 Y1 V1. apply prints_bind; [|intros; apply printk_prints; [done|by apply (bool_decide_eq_true_1 _)|done]].
    destruct Hla as [[_ L1] _ _ _ _ _ _]. replace (seqZ 1 (sb_ninodes sb - 1)) with (seqZ 1 (Z.of_nat (Z.to_nat (sb_ninodes sb - 1)))) by (f_equal; lia).
    apply inode_usage_prints; [simpl; congruence|unfold room, pinned; simpl; by rewrite H1, Y1|done].
  - unfold print_data_bitmap. apply prints_bind; [apply printk_prints; [done|by apply (bool_decide_eq_true_1 _)|done]|].
    intros d1 H1 Y1 V1. apply prints_bind; [|intros; apply printk_prints; [done|by apply (bool_decide_eq_true_1 _)|done]].
    assert (0 <= bmap_bits sb < 2 ^ 32) as Hbb by (unfold bmap_bits; ulia).
    destruct (Z.eq_dec (bmap_bits sb) 0) as [E0|E0].
    + unfold bmap_fuel. rewrite E0. cbn [print_bitmap_loop]. apply prints_ret.
    + pose proof (print_bitmap_prints (view (dev s)) (S (Z.to_nat (bmap_bits sb / BITS_PER_BLOCK))) 0 (Dst d1 (screen s ++ vsprintf ([10] ++ txt "Data blocks in use: " ++ [10]) []))) as P.
      cbv zeta in P. rewrite Z.mul_0_l, Z.sub_0_r, Z.add_0_r in P. apply P; [simpl; congruence|unfold room, pinned; simpl; by rewrite H1, Y1|done|done|].
      unfold BITS_PER_BLOCK. split; [lia|]. ulia.
Qed.
End printer.

Lemma print_usage_correct_witness :
  let s := Dst (mount (<[37 := 5 :: replicate 511 0]> (<[2 := put_dinode zero_block 1 (Dinode INODE_FILE 1 7 0 0 (replicate 12 0))]> ∅))) [] in
  exists d1 d2,
    print_inode_usage demo_sb s = Ok (tt, Dst d1 (([10] ++ txt "Inodes in use: " ++ [10]) ++ inode_text demo_sb (view (dev s)) 1 ++ [10; 10])) /\
    print_data_bitmap demo_sb s = Ok (tt, Dst d2 (([10] ++ txt "Data blocks in use: " ++ [10]) ++ txt "0, 2, " ++ [10; 10])).
Proof.
  intros s. destruct (print_usage_correct demo_sb demo_layout s) as [(d1 & E1 & _) (d2 & E2 & _)]; [reflexivity|vm_compute; lia|].
  exists d1, d2. split; [rewrite E1|rewrite E2]; do 3 f_equal; vm_compute; reflexivity.
Defined.
End Debug.
